(* ===== verification/_CoqProject ===== *)
-Q . S2P
Prelude.v
Memory.v
Task.v
Sched.v
Timer.v
Kernel.v
Fork.v
Files.v
Exit.v
Signal.v
Sys.v
Mktime.v
Vsprintf.v
Ports.v
Ctype.v
Console.v
Tty.v
CharDev.v
LineDisc.v
TtyRead.v
FsData.v
Block.v
Buffer.v
Cache.v
Getblk.v
Ramdisk.v
Store.v
Elevator.v
Inode.v
InodeOps.v
Namei.v
Names.v
Super.v
Open.v
FileIO.v
Pipe.v
PipeQueue.v
ReadWrite.v
Bits.v
StoreOps.v
Alloc.v
FileRead.v
CloseOk.v
Lookup.v
Iget.v
Resolve.v
Malloc.v
MallocOk.v
FreeOk.v
Demand.v
Exec.v
Args.v
Tables.v
RdLoad.v
Hd.v
HdRead.v
Floppy.v
Str.v
Traps.v
Boot.v
BootOk.v
Lib.v
Build.v
BuildOk.v
