(* ===== verification/Prelude.v ===== *)
(** * A verification library for the Linux 0.11 kernel sources

    ** What is modelled

    The library models the kernel of this repository (src/) file by file.
    The listed files check in this order:

    - Prelude: machine integers, words and bits, the monad of kernel
      computations with its loops and its weakest preconditions, record
      update, C arrays.
    - Memory (mm/memory.c): physical memory as words, the page map, page
      tables, copy on write, sharing.
    - Task (include/linux/sched.h, signal.h, asm/system.h): the task
      structure and the descriptor macros.  Sched (kernel/sched.c):
      schedule, the wait queues, the coprocessor switch, and the transition
      system of interleaved sleepers.  Timer (kernel/sched.c): add_timer and
      do_timer.
    - Kernel: the combined state [kernel I] of process management, over an
      inode layer [I] that is an interface (the class [Inodes]); user
      memory.  Fork, Exit, Signal, Sys, Mktime (kernel/fork.c, exit.c,
      signal.c, sys.c, mktime.c), Files (fs/fcntl.c, sys_close, sys_lseek),
      Vsprintf (kernel/vsprintf.c).
    - Ports (asm/io.h), Ctype (ctype.h, lib/ctype.c), Console
      (chr_drv/console.c), Tty (chr_drv/tty_io.c, serial.c, tty.h,
      termios.h), CharDev (chr_drv/tty_ioctl.c, fs/char_dev.c).  LineDisc
      and TtyRead hold the specification of the line discipline and the
      theorems on it.
    - Block (blk_drv/ll_rw_blk.c, blk.h, ramdisk.c), Buffer (fs/buffer.c);
      Cache, Getblk, Ramdisk, Store and Elevator hold the invariants of the
      buffer cache and of the request queue and the theorems on them.
    - FsData (linux/fs.h, sys/stat.h, fcntl.h, const.h, the bit macros of
      fs/bitmap.c): the tables of inodes and superblocks and the layouts of
      structures in blocks.  Inode (fs/inode.c, bitmap.c, super.c): what works
      on the block layer alone.  InodeOps (inode.c, truncate.c, bitmap.c):
      what also needs the clock, the task or pages; it is an instance of
      [Inodes].  Namei and Names (namei.c), Super (super.c), Open (open.c),
      FileIO (file_dev.c, block_dev.c), Pipe (pipe.c), ReadWrite (stat.c,
      ioctl.c, read_write.c).  PipeQueue, Bits, StoreOps, Alloc and FileRead hold
      theorems; CloseOk that on sys_close with iput.
      Lookup holds the theorem on find_entry, Iget that on iget, and Resolve
      the walk along a path as a specification, and namei as its refinement.
    - Malloc (lib/malloc.c): the kernel heap; MallocOk and FreeOk hold its
      invariant and the theorems.  Demand (mm/memory.c): share_page and
      do_no_page.  Exec (fs/exec.c): execve; Args and Tables hold the
      theorems on the arguments of a new program.
    - RdLoad (blk_drv/ramdisk.c: rd_load), Hd (blk_drv/hd.c, linux/hdreg.h),
      Floppy (blk_drv/floppy.c, linux/fdreg.h): the disk drivers; HdRead
      holds a drive as the driver sees it and the theorem.  Str (string.h):
      the string functions.
    - Traps (kernel/traps.c, math/math_emulate.c, the gates of asm/system.h):
      the interrupt descriptor table and the handlers.  Boot (init/main.c):
      main, which calls the initialisation of every part in order; BootOk
      holds a clock as the CMOS shows it and the theorems.
    - Lib (unistd.h, lib/, linux/sys.h, init of init/main.c): the user's side
      of the system calls, over the parameter [Lib.int80].  Build
      (tools/build.c): the builder of the image; BuildOk holds the image as a
      function of the files and the theorem.

    Definitions keep the names of the C functions.  The manifest's map gives
    the lines of each.

    ** How the parts interact

    A C routine is a value of [KM S A], a state transformer over the state
    [S] of its component that completes, panics, ends the task, faults on a
    wild pointer, or runs out of fuel.  [zoom] lifts the routines of a part
    to the state it is part of: memory management, the scheduler and the
    inode layer are fields of [kernel I].  Pointers are indices of the array
    the object lives in.  Devices are a function of the port accesses made
    so far ([Ports.Device]; HdRead has one for each number of interrupts); what other tasks and interrupts do while a task
    sleeps is a parameter where the code reads its state again afterwards
    ([Block.Sleeps], [Tty.Others]), and the interleaving itself is modelled
    for the wait queues of the scheduler ([Sched.config]).

    ** What the theorems show

    - Memory: get_free_page on the page map (C1), copy
      on write (C3), put_page against the translation the processor computes
      (C4).
    - The heap: malloc gives out an object that overlaps no other and free_s
      takes it back, both keeping the heap's invariant (C9, C24).
    - Tasks: descriptors round trip, schedule picks the best task and
      ends (C8), sleep_on loses no wake-up (C10), the lazy coprocessor switch
      is transparent (C12), add_timer sets a timer for its tick and puts the
      later ones off (C13), fork makes one child in a fresh slot (C15, C16).
    - New programs: copy_strings keeps the arguments (C11), and create_tables
      builds the stack that points to them (C6).
    - Files, signals, identity: reference counts, for close down to iput
      (C18, C19), kill for every process number and signal (C20), waitpid
      up to where it returns or gives the processor away (C22), what a signal
      does and the frame of its handler (C23).
    - Initialisation: main leaves memory divided, the buffer cache and the
      requests ready, the time set and every vector with its handler (C5);
      the time is one that the clock showed, by the calendar (C25).  The
      image builder makes the image described or fails (C21).
    - Formatted output and strings: number is read back by skip_atoi (C26),
      vsprintf ends (C27); memmove moves a block however it overlaps (C28).
    - Terminals: the console writes only video memory (C29), copy_to_cooked
      implements line editing on lists for every device that echoes (C30),
      tty_read takes what it returns (C31) and spins on an unfinished line
      (C32).
    - Block devices: getblk finds or reuses a buffer and keeps the cache's
      invariant (C33), which buffer_init establishes (C34); the cache over
      the ramdisk is a store of blocks (C35), which sync makes the device
      agree with (C36); add_request keeps the elevator order (C37); the hard
      disk driver reads a block, against a drive given by the history of its
      ports and the number of its interrupts (C17).
    - File system: iget is a cache of the inodes on the disk (C2); find_entry
      finds the first entry with a name (C14), and namei resolves a path by a
      walk over its components, giving back every other reference (C7); a pipe
      is a queue of bytes (C38); new_block allocates the first free block and
      clears it (C39); file_read copies the contents of the file, through
      indirect blocks and holes (C40).
    - Further lemmas prove some of the manifest's findings on the code:
      [try_to_share_shares_the_page_table], [interruptible_wakeup_lost],
      [add_timer_postpones_later_timers], [fork_resets_parent_coprocessor],
      [vsprintf_star_is_literal].

    ** Bounds and fuel

    A loop of the code is a recursion on its data where there is one, and
    otherwise [kloop] or a Fixpoint with fuel.  Fuel inside a definition is a
    bound the data gives: the number of tasks, of buffers, of requests (33
    turns for a queue of at most 32), of characters of a terminal queue
    (1024).  Where the number of turns depends on other tasks the fuel is an
    argument; the theorems then hold for every positive fuel, so that enough
    fuel exists, and they are statements of total correctness ([wp]): running
    out of fuel, a fault or a panic falsify them.

    ** Not modelled, and why

    Assembly (boot/, head.s, system_call.s, asm.s, page.s, keyboard.S,
    rs_io.s) has no semantics here beyond what C sees of it: the handlers of
    traps.c are given the registers that asm.s pushes, and int 0x80 is a
    parameter of Lib.  panic.c and printk.c stop the machine and print: a
    panic is an outcome of a computation, and a message is a value in the
    state.  file_table.c declares an array, a part of [kernel I].  After
    main's switch to user mode task 0 only pauses.
    User memory is always present to get_fs_byte and put_fs_byte: their page
    faults are not modelled.  do_no_page and execve show the pages that they
    map in user memory ([Demand.expose]).  sys_setup leaves its last call,
    of mount_root, to the caller, since the drivers and the terminals have
    different states; requests reach the disk drivers through the parameter
    [Block.Drivers].
    The processor's TLB, caches and interrupts inside a non-sleeping routine
    are not modelled: such a routine is one step. *)

From Stdlib Require Export ZArith Lia Zbitwise.
From stdpp Require Export base gmap list strings sorting numbers.
#[global] Set Default Goal Selector "!".
Open Scope Z_scope.

(** ** Machine integers

    C's integer types on the i386 target: [unsigned char], [unsigned
    short], [unsigned long]/[unsigned int] and (two's complement)
    [int]/[long].  Values are [Z]; every store to a variable of the type
    goes through the wrap function of the type. *)

Definition u8 (x : Z) : Z := x `mod` 256.
Definition u16 (x : Z) : Z := x `mod` 65536.
Definition u32 (x : Z) : Z := x `mod` 4294967296.
Definition s8 (x : Z) : Z := (x + 128) `mod` 256 - 128.
Definition s32 (x : Z) : Z := (x + 2147483648) `mod` 4294967296 - 2147483648.

(** C's truth value of an integer, and the integer of a truth value. *)
Definition truth (x : Z) : bool := negb (x =? 0).
Definition cbool (b : bool) : Z := if b then 1 else 0.

Create HintDb kernel discriminated.

Section machine_integers.
Implicit Types x y : Z.

Lemma u8_bound x : 0 <= u8 x < 256.
Proof. unfold u8. apply Z.mod_pos_bound. lia. Qed.
Lemma u16_bound x : 0 <= u16 x < 65536.
Proof. unfold u16. apply Z.mod_pos_bound. lia. Qed.
Lemma u32_bound x : 0 <= u32 x < 4294967296.
Proof. unfold u32. apply Z.mod_pos_bound. lia. Qed.
Lemma s32_bound x : -2147483648 <= s32 x < 2147483648.
Proof.
  unfold s32.
  pose proof (Z.mod_pos_bound (x + 2147483648) 4294967296). lia.
Qed.
Lemma u8_small x : 0 <= x < 256 -> u8 x = x.
Proof. intros. unfold u8. by apply Z.mod_small. Qed.
Lemma u16_small x : 0 <= x < 65536 -> u16 x = x.
Proof. intros. unfold u16. by apply Z.mod_small. Qed.
Lemma u32_small x : 0 <= x < 4294967296 -> u32 x = x.
Proof. intros. unfold u32. by apply Z.mod_small. Qed.
Lemma s32_small x : -2147483648 <= x < 2147483648 -> s32 x = x.
Proof. intros. unfold s32. rewrite Z.mod_small; lia. Qed.
Lemma truth_true x : truth x = true <-> x <> 0.
Proof. unfold truth. destruct (Z.eqb_spec x 0); simpl; naive_solver. Qed.
Lemma truth_false x : truth x = false <-> x = 0.
Proof. unfold truth. destruct (Z.eqb_spec x 0); simpl; naive_solver. Qed.
End machine_integers.

#[export] Hint Resolve u8_bound u16_bound u32_bound s32_bound : kernel.

(** Masks and flags: the low [k] bits of a word against a multiple of [2^k]. *)

Section bits.
Implicit Types x p f k : Z.

Lemma land_multiple p f k :
  0 <= k -> (2 ^ k | p) -> 0 <= f < 2 ^ k -> Z.land p f = 0.
Proof.
  intros Hk [q ->] Hf. apply Z.bits_inj'. intros n Hn.
  rewrite Z.land_spec, Z.bits_0.
  destruct (Z.ltb_spec n k).
  - by rewrite Z.mul_pow2_bits_low by lia.
  - replace f with (f mod 2 ^ k) by (apply Z.mod_small; lia).
    rewrite (Z.mod_pow2_bits_high f) by lia. apply andb_false_r.
Qed.
Lemma lor_multiple p f k :
  0 <= k -> (2 ^ k | p) -> 0 <= f < 2 ^ k -> Z.lor p f = p + f.
Proof. intros. symmetry. by apply Z.add_nocarry_lor, land_multiple with k. Qed.
Lemma land_ones_mod x k : 0 <= k -> Z.land x (Z.ones k) = x mod 2 ^ k.
Proof. apply Z.land_ones. Qed.
Lemma land_mask_low x p f k :
  0 <= k -> 0 <= x < 2 ^ k -> (2 ^ k | p) -> 0 <= f ->
  Z.land x (p + f) = Z.land x (f mod 2 ^ k).
Proof.
  intros Hk Hx [q ->] Hf.
  apply Z.bits_inj'. intros n Hn. rewrite !Z.land_spec.
  destruct (Z.ltb_spec n k).
  - f_equal. rewrite <- (Z.mod_pow2_bits_low (q * 2 ^ k + f) k n) by lia.
    by rewrite Z.add_comm, Z.mod_add by lia.
  - replace x with (x mod 2 ^ k) by (apply Z.mod_small; lia).
    by rewrite (Z.mod_pow2_bits_high x) by lia.
Qed.
(** A mask of [n] bits starting at bit [k] selects a field of the word. *)
Lemma land_field x n k :
  0 <= n -> 0 <= k ->
  Z.land x (Z.shiftl (Z.ones n) k) = 2 ^ k * ((x / 2 ^ k) mod 2 ^ n).
Proof.
  intros Hn Hk. rewrite <- Z.land_ones, <- Z.shiftr_div_pow2 by lia.
  rewrite Z.mul_comm, <- Z.shiftl_mul_pow2 by lia.
  apply Z.bits_inj'. intros i Hi.
  rewrite Z.land_spec, !Z.shiftl_spec, Z.land_spec by lia.
  destruct (Z.ltb_spec i k).
  - rewrite !(Z.testbit_neg_r _ (i - k)) by lia. apply andb_false_r.
  - rewrite Z.shiftr_spec, Z.sub_add by lia. done.
Qed.
Lemma land_bound x m : 0 <= m -> 0 <= Z.land x m <= m.
Proof.
  intros Hm. split; [apply Z.land_nonneg; by right|].
  apply Z.ldiff_le; [done|]. apply Z.bits_inj'. intros n Hn.
  rewrite Z.ldiff_spec, Z.land_spec, Z.bits_0.
  by destruct (Z.testbit x n), (Z.testbit m n).
Qed.
Lemma lor_bound x y k :
  0 <= k -> 0 <= x < 2 ^ k -> 0 <= y < 2 ^ k -> 0 <= Z.lor x y < 2 ^ k.
Proof.
  intros Hk Hx Hy. split; [apply Z.lor_nonneg; lia|].
  destruct (decide (Z.lor x y = 0)) as [->|Hne]; [lia|].
  assert (0 <= Z.lor x y) by (apply Z.lor_nonneg; lia).
  apply Z.log2_lt_pow2; [lia|]. rewrite Z.log2_lor by lia.
  apply Z.max_lub_lt.
  - destruct (decide (x = 0)) as [->|]; [|apply Z.log2_lt_pow2; lia].
    destruct (decide (k = 0)) as [->|]; [|simpl; lia].
    assert (y = 0) as -> by lia. by rewrite Z.lor_0_r in Hne.
  - destruct (decide (y = 0)) as [->|]; [|apply Z.log2_lt_pow2; lia].
    destruct (decide (k = 0)) as [->|]; [|simpl; lia].
    assert (x = 0) as -> by lia. by rewrite Z.lor_0_l in Hne.
Qed.
(** Words are equal when their 32 bits are. *)
Lemma bits32_eq x y :
  0 <= x < 2 ^ 32 -> 0 <= y < 2 ^ 32 ->
  (forall n, 0 <= n < 32 -> Z.testbit x n = Z.testbit y n) -> x = y.
Proof.
  intros Hx Hy H. apply Z.bits_inj'. intros n Hn.
  destruct (Z.ltb_spec n 32); [by apply H|].
  assert (Hhigh : forall z, 0 <= z < 2 ^ 32 -> Z.testbit z n = false); [|by rewrite !Hhigh].
  intros z Hz. rewrite <- (Z.mod_small z (2 ^ 32)) by lia.
  apply Z.mod_pow2_bits_high. lia.
Qed.
Lemma testbit_mask w k n :
  0 <= w -> 0 <= k -> 0 <= n ->
  Z.testbit (Z.shiftl (Z.ones w) k) n = (k <=? n) && (n <? k + w).
Proof.
  intros. rewrite Z.shiftl_spec by lia.
  destruct (Z.leb_spec k n); [|by rewrite Z.testbit_neg_r by lia].
  destruct (Z.ltb_spec n (k + w)); [apply Z.ones_spec_low|apply Z.ones_spec_high]; lia.
Qed.
End bits.

(** [bit_cases]: the bits of words built with [lor], [land] and shifts, when
    the masks are written [Z.shiftl (Z.ones w) k] and the position is
    known to be in one field. *)
Ltac bit_cases :=
  repeat (rewrite ?Z.lor_spec, ?Z.land_spec;
    match goal with
    | |- context [Z.testbit ?a ?k] => rewrite (Z.testbit_neg_r a k) by lia
    | |- context [Z.testbit (Z.shiftl (Z.ones ?w) ?k) ?n] =>
        rewrite (testbit_mask w k n) by lia
    | |- context [Z.testbit (Z.shiftl ?a ?k) ?n] => rewrite (Z.shiftl_spec a k n) by lia
    | |- context [Z.testbit (Z.shiftr ?a ?k) ?n] => rewrite (Z.shiftr_spec a k n) by lia
    end);
  repeat match goal with
  | |- context [?a <=? ?b] => destruct (Z.leb_spec a b); [|try lia]
  | |- context [?a <? ?b] => destruct (Z.ltb_spec a b); [|try lia]
  | |- context [?a <=? ?b] => destruct (Z.leb_spec a b); [try lia|]
  | |- context [?a <? ?b] => destruct (Z.ltb_spec a b); [try lia|]
  end;
  rewrite ?andb_false_r, ?andb_true_r, ?andb_false_l, ?andb_true_l,
    ?orb_false_r, ?orb_false_l; try (f_equal; lia); try lia; try done.

(** ** Kernel computations

    A C routine is a state transformer that either completes, stops the
    machine in [panic], ends the current task in [do_exit] (which never
    returns to its caller), or goes wrong by dereferencing a pointer that
    designates no object.  [NoFuel] is only reported by a loop that was
    given too little fuel; every theorem that speaks of a result excludes
    it. *)

Inductive outcome (S A : Type) : Type :=
| Done (a : A) (s : S)
| Panic (msg : string) (s : S)
| Exited (code : Z) (s : S)
| Fault (s : S)
| NoFuel.
Arguments Done {S A} a s.
Arguments Panic {S A} msg s.
Arguments Exited {S A} code s.
Arguments Fault {S A} s.
Arguments NoFuel {S A}.

Definition KM (S A : Type) : Type := S -> outcome S A.

Section operations.
Context {S : Type}.

#[global] Instance kret : MRet (KM S) := fun A a s => Done a s.
#[global] Instance kbind : MBind (KM S) := fun A B f m s =>
  match m s with
  | Done a s' => f a s'
  | Panic msg s' => Panic msg s'
  | Exited c s' => Exited c s'
  | Fault s' => Fault s'
  | NoFuel => NoFuel
  end.

Definition gets {A} (f : S -> A) : KM S A := fun s => Done (f s) s.
Definition modify (f : S -> S) : KM S unit := fun s => Done tt (f s).
Definition panic {A} (msg : string) : KM S A := fun s => Panic msg s.
Definition exit_task {A} (code : Z) : KM S A := fun s => Exited code s.
Definition fault {A} : KM S A := fun s => Fault s.
Definition nofuel {A} : KM S A := fun _ => NoFuel.

(** The object a pointer designates, or a fault. *)
Definition deref {A} (o : option A) : KM S A :=
  match o with Some a => mret a | None => fault end.

Definition kwhen (b : bool) (m : KM S unit) : KM S unit :=
  if b then m else mret tt.

(** [for (x in l) f(x);] *)
Fixpoint kfor {A} (l : list A) (f : A -> KM S unit) : KM S unit :=
  match l with
  | [] => mret tt
  | x :: l => f x ;; kfor l f
  end.

(** A loop whose body either goes round again with new values of its
    variables ([inl]) or leaves with a result ([inr]). *)
Fixpoint kloop {A B} (fuel : nat) (body : A -> KM S (A + B)) (a : A) : KM S B :=
  match fuel with
  | O => nofuel
  | Datatypes.S fuel =>
      r ← body a;
      match r with
      | inl a' => kloop fuel body a'
      | inr b => mret b
      end
  end.

(** [wp m Q s]: started in [s], [m] completes, and its result and final
    state satisfy [Q] (total correctness). *)
Definition wp {A} (m : KM S A) (Q : A -> S -> Prop) (s : S) : Prop :=
  match m s with Done a s' => Q a s' | _ => False end.

Lemma wp_ret {A} (a : A) Q s : Q a s -> wp (mret a) Q s.
Proof. done. Qed.
Lemma wp_bind {A B} (m : KM S A) (f : A -> KM S B) Q s :
  wp m (fun a s' => wp (f a) Q s') s -> wp (m ≫= f) Q s.
Proof. unfold wp, mbind, kbind. destruct (m s); naive_solver. Qed.
Lemma wp_gets {A} (f : S -> A) (Q : A -> S -> Prop) s :
  Q (f s) s -> wp (gets f) Q s.
Proof. done. Qed.
Lemma wp_modify (f : S -> S) (Q : unit -> S -> Prop) s :
  Q tt (f s) -> wp (modify f) Q s.
Proof. done. Qed.
Lemma wp_deref {A} (o : option A) (a : A) Q s :
  o = Some a -> Q a s -> wp (deref o) Q s.
Proof. by intros ->. Qed.
Lemma wp_when b (m : KM S unit) (Q : unit -> S -> Prop) s :
  (b = true -> wp m Q s) -> (b = false -> Q tt s) -> wp (kwhen b m) Q s.
Proof. destruct b; naive_solver. Qed.
Lemma wp_mono {A} (m : KM S A) (Q Q' : A -> S -> Prop) s :
  wp m Q s -> (forall a s', Q a s' -> Q' a s') -> wp m Q' s.
Proof. unfold wp. destruct (m s); naive_solver. Qed.
Lemma wp_run {A} (m : KM S A) (Q : A -> S -> Prop) s :
  wp m Q s <-> exists a s', m s = Done a s' /\ Q a s'.
Proof.
  unfold wp. split; [|by intros (?&?&->&?)].
  destruct (m s) as [a s'| | | |]; intros HQ; [by exists a, s' | done..].
Qed.

(** A loop over a list keeps an invariant indexed by what is done and
    what is left. *)
Lemma wp_for {A} (I : list A -> list A -> S -> Prop) (l : list A) f
    (Q : unit -> S -> Prop) s :
  I [] l s ->
  (forall done x rest s, I done (x :: rest) s ->
    wp (f x) (fun _ s' => I (done ++ [x]) rest s') s) ->
  (forall s, I l [] s -> Q tt s) ->
  wp (kfor l f) Q s.
Proof.
  intros H0 Hstep HQ.
  assert (forall rest done s, done ++ rest = l -> I done rest s ->
    wp (kfor rest f) Q s) as Hgen; [|exact (Hgen l [] s eq_refl H0)].
  clear s H0. induction rest as [|x rest IH]; intros done s Heq HI; simpl.
  - apply wp_ret, HQ. rewrite app_nil_r in Heq. by subst.
  - apply wp_bind. eapply wp_mono; [by apply Hstep|].
    intros [] s' HI'. eapply IH; [|done]. by rewrite <- app_assoc.
Qed.

(** A loop with a measure that every turn decreases ends within that
    many turns. *)
Lemma wp_loop {A B} (I : A -> S -> Prop) (measure : A -> S -> nat)
    (body : A -> KM S (A + B)) (Q : B -> S -> Prop) fuel a s :
  I a s -> (measure a s < fuel)%nat ->
  (forall a s, I a s ->
    wp (body a) (fun r s' =>
      match r with
      | inl a' => I a' s' /\ (measure a' s' < measure a s)%nat
      | inr b => Q b s'
      end) s) ->
  wp (kloop fuel body a) Q s.
Proof.
  intros HI Hm Hbody. revert a s HI Hm.
  induction fuel as [|fuel IH]; intros a s HI Hm; [lia|].
  simpl. apply wp_bind. eapply wp_mono; [by apply Hbody|].
  intros [a'|b] s'; simpl; [|by intros; apply wp_ret].
  intros [??]. apply IH; [done|lia].
Qed.
End operations.

(** [zoom get put m]: run [m] on a part of the state. *)
Definition zoom {S T A} (get : S -> T) (put : T -> S -> S) (m : KM T A) : KM S A := fun s =>
  match m (get s) with
  | Done a t => Done a (put t s)
  | Panic msg t => Panic msg (put t s)
  | Exited c t => Exited c (put t s)
  | Fault t => Fault (put t s)
  | NoFuel => NoFuel
  end.

Lemma wp_zoom {S T A} (get : S -> T) (put : T -> S -> S) (m : KM T A) Q s :
  wp m (fun a t => Q a (put t s)) (get s) -> wp (zoom get put m) Q s.
Proof. unfold wp, zoom. by destruct (m (get s)). Qed.
Lemma zoom_inv {S T A} (get : S -> T) (put : T -> S -> S) (m : KM T A) s a s' :
  zoom get put m s = Done a s' -> exists t, m (get s) = Done a t /\ s' = put t s.
Proof.
  unfold zoom. destruct (m (get s)) as [a' t| | | |]; try done.
  intros [= <- <-]. by exists t.
Qed.
Lemma zoom_Done {S T A} (get : S -> T) (put : T -> S -> S) (m : KM T A) s a t :
  m (get s) = Done a t -> zoom get put m s = Done a (put t s).
Proof. unfold zoom. by intros ->. Qed.

Lemma kloop_S {S A B} fuel (body : A -> KM S (A + B)) a s :
  kloop (Datatypes.S fuel) body a s =
    match body a s with
    | Done (inl a') s' => kloop fuel body a' s'
    | Done (inr b) s' => Done b s'
    | Panic msg s' => Panic msg s'
    | Exited c s' => Exited c s'
    | Fault s' => Fault s'
    | NoFuel => NoFuel
    end.
Proof. cbn. unfold mbind, kbind. by destruct (body a s) as [[]| | | |]. Qed.

(** ** Record update

    [r ⟪ f := v ⟫] is the record [r] with the field [f] replaced.  A record
    type registers how it is rebuilt from its projections ([Rebuild]); the
    setter of a projection is then found by instance search. *)

Class Rebuild (R : Type) := rebuild : R -> R.
Class FieldSetter {R T : Type} (p : R -> T) := set_field : (T -> T) -> R -> R.
Arguments set_field {R T} p {_} f r /.

Ltac make_setter :=
  lazymatch goal with
  | |- @FieldSetter ?R ?T ?p =>
      let whole := lazymatch constr:(@rebuild R _) with
                   | @rebuild _ ?i => eval red in i end in
      let f := fresh "f" in
      let r := fresh "r" in
      unfold FieldSetter; intros f r;
      let e := eval cbv beta in (whole r) in
      let h := eval pattern (p r) in e in
      lazymatch h with
      | ?g _ => let b := eval cbv beta in (g (f (p r))) in exact b
      end
  end.
#[export] Hint Extern 0 (FieldSetter _) => make_setter : typeclass_instances.

Declare Scope kernel_scope.
Delimit Scope kernel_scope with kernel.
Notation "r ⟪ p := v ⟫" := (set_field p (fun _ => v) r)
  (at level 1, p at level 99, v at level 200, left associativity,
   format "r ⟪  p  :=  v  ⟫") : kernel_scope.
Open Scope kernel_scope.

(** ** C arrays

    An array is a list indexed by [Z].  [array_get] is [None] out of
    bounds, where C's behaviour is undefined; [read_at] turns that into a
    fault.  [array_set] changes nothing out of bounds and is only used
    after a check or a successful read of the same index. *)

Definition array_get {A} (l : list A) (i : Z) : option A :=
  if 0 <=? i then l !! Z.to_nat i else None.
Definition array_set {A} (l : list A) (i : Z) (v : A) : list A :=
  if 0 <=? i then <[Z.to_nat i := v]> l else l.
Definition read_at {S A} (l : list A) (i : Z) : KM S A := deref (array_get l i).

Section arrays.
Context {A : Type}.
Implicit Types (l : list A) (i j : Z).

Lemma length_array_set l i v : length (array_set l i v) = length l.
Proof. unfold array_set. destruct (0 <=? i); [apply length_insert|done]. Qed.
Lemma array_get_Some_bound l i v :
  array_get l i = Some v -> 0 <= i < Z.of_nat (length l).
Proof.
  unfold array_get. destruct (Z.leb_spec 0 i); [|done].
  intros ?%lookup_lt_Some. lia.
Qed.
Lemma array_get_in_bounds l i :
  0 <= i < Z.of_nat (length l) -> exists v, array_get l i = Some v.
Proof.
  intros. unfold array_get. destruct (Z.leb_spec 0 i); [|lia].
  apply lookup_lt_is_Some. lia.
Qed.
Lemma array_get_set_eq l i v :
  0 <= i < Z.of_nat (length l) -> array_get (array_set l i v) i = Some v.
Proof.
  intros. unfold array_get, array_set. destruct (Z.leb_spec 0 i); [|lia].
  apply list_lookup_insert_eq. lia.
Qed.
Lemma array_get_set_ne l i j v :
  i <> j -> array_get (array_set l i v) j = array_get l j.
Proof.
  intros. unfold array_get, array_set.
  destruct (Z.leb_spec 0 i), (Z.leb_spec 0 j); try done.
  apply list_lookup_insert_ne. lia.
Qed.
Lemma array_get_nat l (n : nat) : array_get l (Z.of_nat n) = l !! n.
Proof. unfold array_get. destruct (Z.leb_spec 0 (Z.of_nat n)); [by rewrite Nat2Z.id|lia]. Qed.
Lemma array_set_set l i v w : array_set (array_set l i v) i w = array_set l i w.
Proof.
  unfold array_set. destruct (0 <=? i); [|done]. apply list_insert_insert_eq.
Qed.
Lemma array_set_get l i v : array_get l i = Some v -> array_set l i v = l.
Proof.
  unfold array_get, array_set. destruct (0 <=? i); [|done]. apply list_insert_id.
Qed.
End arrays.
Lemma length_omap_le {A B} (f : A -> option B) (l : list A) :
  (length (omap f l) <= length l)%nat.
Proof. induction l as [|x l IH]; cbn; [lia|]. destruct (f x); cbn; lia. Qed.

Create Rewrite HintDb kernel_len.
#[export] Hint Rewrite @length_array_set @length_insert : kernel_len.

(** The result and the final state of a concrete run. *)
Definition final {S A} (m : KM S A) (s : S) : S := match m s with Done _ s' => s' | _ => s end.
Definition result {S A} (m : KM S A) (s : S) : option A :=
  match m s with Done a _ => Some a | _ => None end.
Lemma final_run {S A} (m : KM S A) s a : result m s = Some a -> m s = Done a (final m s).
Proof. unfold result, final. by destruct (m s); intros [= ->]. Qed.
(** Only the result is computed: the final state stays as it is written. *)
Ltac concrete_run :=
  lazymatch goal with |- ?m ?s = Done ?a _ => refine (final_run m s a _) end;
  vm_compute; reflexivity.

(** Reading a completed run backwards. *)
Lemma bind_Done {S A B} (m : KM S A) (f : A -> KM S B) s b s'' :
  (m ≫= f) s = Done b s'' -> exists a s', m s = Done a s' /\ f a s' = Done b s''.
Proof. unfold mbind, kbind. destruct (m s) as [a s'| | | |]; try done. by exists a, s'. Qed.
Lemma gets_Done {S A} (f : S -> A) s a s' : gets f s = Done a s' -> a = f s /\ s' = s.
Proof. by intros [= <- <-]. Qed.
Lemma modify_Done {S} (f : S -> S) s a s' : modify f s = Done a s' -> s' = f s.
Proof. by intros [= <- <-]. Qed.
Lemma ret_Done {S A} (x : A) (s : S) a s' : (mret x : KM S A) s = Done a s' -> a = x /\ s' = s.
Proof. by intros [= <- <-]. Qed.
Lemma deref_Done {S A} (o : option A) (s : S) a s' : deref o s = Done a s' -> o = Some a /\ s' = s.
Proof. destruct o; [by intros [= <- <-]|done]. Qed.

Lemma wp_Done {S A} (m : KM S A) Q s a s' : wp m Q s -> m s = Done a s' -> Q a s'.
Proof. unfold wp. intros HQ Hm. by rewrite Hm in HQ. Qed.

(** One step back through a bind whose first part is elementary. *)
Ltac done_step H :=
  apply bind_Done in H;
  let a := fresh "a" in let st := fresh "st" in let H1 := fresh "Hrun" in
  destruct H as (a & st & H1 & H);
  lazymatch type of H1 with
  | gets _ _ = _ => apply gets_Done in H1 as [-> ->]
  | modify _ _ = _ => apply modify_Done in H1 as ->; destruct a
  | @mret _ _ _ _ _ = _ => apply ret_Done in H1 as [-> ->]
  | deref _ _ = _ => apply deref_Done in H1 as [? ->]
  | read_at _ _ _ = _ => apply deref_Done in H1 as [? ->]
  | _ => idtac
  end.

(** The integers [0 .. n-1], the range of most of the kernel's [for] loops. *)
Abbreviation upto n := (seqZ 0 n) (only parsing).

Lemma elem_of_upto n i : i ∈ upto n <-> 0 <= i < n.
Proof. rewrite elem_of_seqZ. lia. Qed.
#[global] Arguments seqZ : simpl never.
