(* ===== verification/Memory.v ===== *)
(** * Physical pages and page tables ([mm/memory.c])

    The state is the page usage map [mem_map], [HIGH_MEMORY], and the
    physical memory as 32-bit words at their byte addresses.  The page
    directory sits at physical address 0 ([_pg_dir]), and the kernel
    addresses physical memory directly, so a pointer dereference is a load
    or store of [phys].  The processor's TLB is not modelled:
    [invalidate()] has no effect on this state. *)

From S2P Require Import Prelude.

(** [LOW_MEM], [PAGING_PAGES], [USED], [MAP_NR] of [mm/memory.c]. *)
Definition LOW_MEM : Z := 0x100000.
Definition PAGING_PAGES : Z := Z.shiftr (15 * 1024 * 1024) 12.
Definition USED : Z := 100.
Definition MAP_NR (addr : Z) : Z := Z.shiftr (addr - LOW_MEM) 12.

Record mm : Type := MM {
  mem_map : list Z;             (* unsigned char mem_map[PAGING_PAGES] *)
  HIGH_MEMORY : Z;
  phys : gmap Z Z               (* longwords, by byte address *)
}.
#[export] Instance mm_rebuild : Rebuild mm :=
  fun s => MM (mem_map s) (HIGH_MEMORY s) (phys s).

(** [0xfffff000 & e], and the entry's present bit [1 & e]. *)
Definition frame (e : Z) : Z := Z.land 0xfffff000 e.
Definition present (e : Z) : bool := truth (Z.land 1 e).

Definition word_at (m : gmap Z Z) (a : Z) : Z := default 0 (m !! a).
Definition load (a : Z) : KM mm Z := gets (fun s => word_at (phys s) a).
Definition store (a v : Z) : KM mm unit :=
  modify (fun s => s ⟪ phys := <[a := u32 v]> (phys s) ⟫).

(** [mem_map[i]] as an lvalue. *)
Definition map_get (i : Z) : KM mm Z := s ← gets mem_map; read_at s i.
Definition map_put (i v : Z) : KM mm unit :=
  modify (fun s => s ⟪ mem_map := array_set (mem_map s) i (u8 v) ⟫).

(** [rep ; stosl] of a page of zeroes, and [copy_page]. *)
Definition clear_words (page : Z) (m : gmap Z Z) : gmap Z Z :=
  foldr (fun i m => <[page + 4 * i := 0]> m) m (upto 1024).
Definition copy_words (from to : Z) (m : gmap Z Z) : gmap Z Z :=
  foldr (fun i acc => <[to + 4 * i := word_at m (from + 4 * i)]> acc) m (upto 1024).
#[global] Arguments clear_words : simpl never.
#[global] Arguments copy_words : simpl never.
#[global] Arguments word_at : simpl never.
Definition copy_page (from to : Z) : KM mm unit :=
  modify (fun s => s ⟪ phys := copy_words from to (phys s) ⟫).

(** [std ; repne ; scasb] from the end of [mem_map]: the index of the last
    zero byte among the first [ecx] ones. *)
Fixpoint scasb_down (m : list Z) (ecx : nat) : option Z :=
  match ecx with
  | O => None
  | S n => if decide (m !! n = Some 0) then Some (Z.of_nat n) else scasb_down m n
  end.

Definition get_free_page : KM mm Z :=
  m ← gets mem_map;
  match scasb_down m (Z.to_nat PAGING_PAGES) with
  | None => mret 0
  | Some i =>
      map_put i 1 ;;
      let page := Z.shiftl i 12 + LOW_MEM in
      modify (fun s => s ⟪ phys := clear_words page (phys s) ⟫) ;;
      mret page
  end.

Definition free_page (addr : Z) : KM mm unit :=
  high ← gets HIGH_MEMORY;
  if addr <? LOW_MEM then mret tt
  else if high <=? addr then panic "trying to free nonexistent page"
  else
    let i := Z.shiftr (addr - LOW_MEM) 12 in
    c ← map_get i;
    map_put i (c - 1) ;;
    if truth c then mret tt
    else map_put i 0 ;; panic "trying to free free page".

(** [printk("out of memory\n\r"); do_exit(SIGSEGV);] *)
Definition SIGSEGV : Z := 11.
Definition oom {A} : KM mm A := exit_task SIGSEGV.

(** One entry of the inner loop of [free_page_tables]. *)
Definition free_pte (pte : Z) : KM mm unit :=
  e ← load pte;
  kwhen (present e) (free_page (frame e)) ;;
  store pte 0.

(** One turn of its outer loop. *)
Definition free_pde (dir : Z) : KM mm unit :=
  d ← load dir;
  if negb (present d) then mret tt
  else
    kfor (upto 1024) (fun nr => free_pte (frame d + 4 * nr)) ;;
    d ← load dir;
    free_page (frame d) ;;
    store dir 0.

Definition free_page_tables (from size : Z) : KM mm Z :=
  if truth (Z.land from 0x3fffff) then
    panic "free_page_tables called with wrong alignment"
  else if negb (truth from) then
    panic "Trying to free up swapper memory space"
  else
    let size := Z.shiftr (u32 (size + 0x3fffff)) 22 in
    let dir := Z.land (Z.shiftr from 20) 0xffc in
    kfor (upto size) (fun k => free_pde (dir + 4 * k)) ;;
    mret 0.

(** One entry of the inner loop of [copy_page_tables]. *)
Definition copy_pte (from_page_table to_page_table : Z) : KM mm unit :=
  this_page ← load from_page_table;
  if negb (present this_page) then mret tt
  else
    let this_page := Z.land this_page (Z.lnot 2) in
    store to_page_table this_page ;;
    kwhen (LOW_MEM <? this_page)
      (store from_page_table this_page ;;
       let nr := Z.shiftr (this_page - LOW_MEM) 12 in
       c ← map_get nr;
       map_put nr (c + 1)).

(** The outer loop of [copy_page_tables]: [size] directory entries are
    left, and the result is the function's return value. *)
Fixpoint copy_pdes (size : nat) (from from_dir to_dir : Z) : KM mm Z :=
  match size with
  | O => mret 0
  | S size =>
      t ← load to_dir;
      if present t then panic "copy_page_tables: already exist"
      else
        f ← load from_dir;
        if negb (present f) then copy_pdes size from (from_dir + 4) (to_dir + 4)
        else
          let from_page_table := frame f in
          to_page_table ← get_free_page;
          if negb (truth to_page_table) then mret (-1)
          else
            store to_dir (Z.lor to_page_table 7) ;;
            let nr := if from =? 0 then 0xA0 else 1024 in
            kfor (upto nr) (fun i =>
              copy_pte (from_page_table + 4 * i) (to_page_table + 4 * i)) ;;
            copy_pdes size from (from_dir + 4) (to_dir + 4)
  end.

Definition copy_page_tables (from to size : Z) : KM mm Z :=
  if truth (Z.land from 0x3fffff) || truth (Z.land to 0x3fffff) then
    panic "copy_page_tables called with wrong alignment"
  else
    let from_dir := Z.land (Z.shiftr from 20) 0xffc in
    let to_dir := Z.land (Z.shiftr to 20) 0xffc in
    let size := Z.shiftr (u32 (size + 0x3fffff)) 22 in
    copy_pdes (Z.to_nat size) from from_dir to_dir.

(** [put_page] reads [mem_map] for the page (to print a warning when the
    count is not 1) before it looks at the page directory. *)
Definition put_page (page address : Z) : KM mm Z :=
  _ ← map_get (Z.shiftr (u32 (page - LOW_MEM)) 12);
  let dir := Z.land (Z.shiftr address 20) 0xffc in
  d ← load dir;
  let finish page_table :=
    store (page_table + 4 * Z.land (Z.shiftr address 12) 0x3ff) (Z.lor page 7) ;;
    mret page in
  if truth (Z.land d 1) then finish (frame d)
  else
    tmp ← get_free_page;
    if negb (truth tmp) then mret 0
    else store dir (Z.lor tmp 7) ;; finish tmp.

Definition un_wp_page (table_entry : Z) : KM mm unit :=
  e ← load table_entry;
  let old_page := frame e in
  exclusive ←
    (if LOW_MEM <=? old_page
     then c ← map_get (MAP_NR old_page); mret (c =? 1) else mret false);
  if exclusive : bool then
    e ← load table_entry;
    store table_entry (Z.lor e 2)
  else
    new_page ← get_free_page;
    (if negb (truth new_page) then oom else mret tt) ;;
    kwhen (LOW_MEM <=? old_page)
      (c ← map_get (MAP_NR old_page); map_put (MAP_NR old_page) (c - 1)) ;;
    store table_entry (Z.lor new_page 7) ;;
    copy_page old_page new_page.

(** The address of the page-table entry of a linear address, given the
    directory entry. *)
Definition pte_addr (pde address : Z) : Z :=
  Z.land (Z.shiftr address 10) 0xffc + frame pde.

Definition do_wp_page (error_code address : Z) : KM mm unit :=
  d ← load (Z.land (Z.shiftr address 20) 0xffc);
  un_wp_page (pte_addr d address).

Definition write_verify (address : Z) : KM mm unit :=
  page ← load (Z.land (Z.shiftr address 20) 0xffc);
  if negb (truth (Z.land page 1)) then mret tt
  else
    let page := frame page + Z.land (Z.shiftr address 10) 0xffc in
    e ← load page;
    kwhen (Z.land 3 e =? 1) (un_wp_page page).

Definition get_empty_page (address : Z) : KM mm unit :=
  tmp ← get_free_page;
  ok ← (if negb (truth tmp) then mret false
        else r ← put_page tmp address; mret (truth r));
  if ok : bool then mret tt else free_page tmp ;; oom.

(** [try_to_share], given the two tasks' [start_code].  After the directory
    entry of [p] is found present, the source reads [phys_addr] through
    [from_page] again, which still points at the directory entry. *)
Definition try_to_share (address p_start_code current_start_code : Z) : KM mm Z :=
  let from_page := Z.land (Z.shiftr address 20) 0xffc
                   + Z.land (Z.shiftr p_start_code 20) 0xffc in
  let to_page := Z.land (Z.shiftr address 20) 0xffc
                 + Z.land (Z.shiftr current_start_code 20) 0xffc in
  from ← load from_page;
  if negb (truth (Z.land from 1)) then mret 0
  else
    phys_addr ← load from_page;
    if negb (Z.land phys_addr 0x41 =? 1) then mret 0
    else
      let phys_addr := frame phys_addr in
      high ← gets HIGH_MEMORY;
      if (high <=? phys_addr) || (phys_addr <? LOW_MEM) then mret 0
      else
        to ← load to_page;
        to ← (if negb (truth (Z.land to 1)) then
                t ← get_free_page;
                if truth t then store to_page (Z.lor t 7) ;; mret t else oom
              else mret to);
        let to_page := frame to + Z.land (Z.shiftr address 10) 0xffc in
        e ← load to_page;
        if truth (Z.land 1 e) then panic "try_to_share: to_page already exists"
        else
          f ← load from_page;
          store from_page (Z.land f (Z.lnot 2)) ;;
          f ← load from_page;
          store to_page f ;;
          let nr := Z.shiftr (phys_addr - LOW_MEM) 12 in
          c ← map_get nr;
          map_put nr (c + 1) ;;
          mret 1.

(** [while (end_mem-- > 0) mem_map[i++] = 0;] *)
Definition mem_init (start_mem end_mem : Z) : KM mm unit :=
  modify (fun s => s ⟪ HIGH_MEMORY := end_mem ⟫
                     ⟪ mem_map := replicate (Z.to_nat PAGING_PAGES) USED ⟫) ;;
  let i := MAP_NR start_mem in
  kfor (upto (Z.shiftr (end_mem - start_mem) 12)) (fun k =>
    _ ← map_get (i + k); map_put (i + k) 0).

(** What [calc_mem] prints: the number of free pages, and for every present
    directory entry from 2 on its number of present pages. *)
Definition count_free (m : list Z) : Z :=
  Z.of_nat (length (filter (fun c => c = 0) m)).
Definition count_ptes (s : mm) (pg_tbl : Z) : Z :=
  Z.of_nat (length (filter (fun j => present (word_at (phys s) (pg_tbl + 4 * j)) = true)
                           (upto 1024))).
Definition calc_mem : KM mm (Z * list (Z * Z)) :=
  s ← gets (fun s => s);
  mret (count_free (mem_map s),
        omap (fun i =>
          let d := word_at (phys s) (4 * i) in
          if present d then Some (i, count_ptes s (frame d)) else None)
        (seqZ 2 1022)).

(** ** Frames, entries and page-sized writes *)

Section frames.
Implicit Types (e a p q : Z).

Lemma frame_eq e : frame e = 4096 * ((e / 4096) mod 1048576).
Proof.
  unfold frame. rewrite Z.land_comm. apply (land_field e 20 12); lia.
Qed.

Lemma frame_bounds e : 0 <= frame e <= 4096 * 1048575.
Proof.
  rewrite frame_eq.
  pose proof (Z.mod_pos_bound (e / 4096) 1048576). lia.
Qed.
Lemma frame_divide e : (4096 | frame e).
Proof. rewrite frame_eq. apply Z.divide_factor_l. Qed.
Lemma frame_of_page p f :
  (4096 | p) -> 0 <= p < 4294967296 -> 0 <= f < 4096 -> frame (p + f) = p.
Proof.
  intros [q ->] Hp Hf. rewrite frame_eq.
  rewrite Z.div_add_l, (Z.div_small f) by lia.
  rewrite Z.mod_small; lia.
Qed.
Lemma page_flags p f :
  (4096 | p) -> 0 <= f < 4096 -> Z.lor p f = p + f.
Proof. intros. by apply (lor_multiple p f 12). Qed.
Lemma frame_lor p f :
  (4096 | p) -> 0 <= p < 4294967296 -> 0 <= f < 4096 -> frame (Z.lor p f) = p.
Proof. intros. rewrite page_flags by done. by apply frame_of_page. Qed.
Lemma page_index a b p q :
  (4096 | p) -> (4096 | q) -> 0 <= a < 4096 -> 0 <= b < 4096 ->
  p + a = q + b -> p = q /\ a = b.
Proof. intros [x ->] [y ->]. lia. Qed.
End frames.

Section page_writes.
Implicit Types (m acc : gmap Z Z) (l : list Z) (i a base : Z).

(** Writing [f i] at word [i] of a page, for [i] in a list. *)
Lemma write_words_in base (f : Z -> Z) l i acc :
  i ∈ l ->
  foldr (fun i acc => <[base + 4 * i := f i]> acc) acc l !! (base + 4 * i) = Some (f i).
Proof.
  induction l as [|j l IH]; intros Hi; [by destruct (not_elem_of_nil i)|].
  simpl. destruct (decide (j = i)) as [->|Hne].
  - apply lookup_insert_eq.
  - rewrite lookup_insert_ne by lia. apply IH.
    by apply elem_of_cons in Hi as [|].
Qed.
Lemma write_words_out base (f : Z -> Z) l a acc :
  (forall i, i ∈ l -> a <> base + 4 * i) ->
  foldr (fun i acc => <[base + 4 * i := f i]> acc) acc l !! a = acc !! a.
Proof.
  induction l as [|j l IH]; intros Hout; simpl; [done|].
  rewrite lookup_insert_ne by (intros Heq; apply (Hout j); set_solver).
  apply IH. set_solver.
Qed.

Lemma clear_words_in page m i :
  0 <= i < 1024 -> word_at (clear_words page m) (page + 4 * i) = 0.
Proof.
  intros. unfold word_at, clear_words.
  rewrite (write_words_in page (fun _ => 0)) by (rewrite elem_of_upto; lia). done.
Qed.
Lemma clear_words_out page m a :
  ~ page <= a < page + 4096 -> word_at (clear_words page m) a = word_at m a.
Proof.
  intros. unfold word_at, clear_words.
  rewrite (write_words_out page (fun _ => 0)); [done|].
  intros i ?%elem_of_upto. lia.
Qed.
Lemma copy_words_in from to m i :
  0 <= i < 1024 -> word_at (copy_words from to m) (to + 4 * i) = word_at m (from + 4 * i).
Proof.
  intros. unfold word_at, copy_words.
  rewrite (write_words_in to (fun i => word_at m (from + 4 * i)));
    [done | rewrite elem_of_upto; lia].
Qed.
Lemma copy_words_out from to m a :
  ~ to <= a < to + 4096 -> word_at (copy_words from to m) a = word_at m a.
Proof.
  intros. unfold word_at, copy_words.
  rewrite (write_words_out to (fun i => word_at m (from + 4 * i))); [done|].
  intros i ?%elem_of_upto. lia.
Qed.
Lemma word_at_insert_eq m a v : word_at (<[a := v]> m) a = v.
Proof. unfold word_at. by rewrite lookup_insert_eq. Qed.
Lemma word_at_insert_ne m a b v : a <> b -> word_at (<[a := v]> m) b = word_at m b.
Proof. intros. unfold word_at. by rewrite lookup_insert_ne. Qed.
End page_writes.
#[export] Hint Rewrite word_at_insert_eq : kernel_len.

Lemma scasb_down_Some m n i :
  scasb_down m n = Some i <->
  0 <= i < Z.of_nat n /\ array_get m i = Some 0 /\
  forall j, i < j < Z.of_nat n -> array_get m j <> Some 0.
Proof.
  induction n as [|n IH]; [simpl; split; [done|lia]|].
  cbn [scasb_down]. rewrite <- array_get_nat. case_decide as Hd.
  - split.
    + intros [= <-]. split_and!; [lia|lia|done|lia].
    + intros (Hi & H0 & Hj). f_equal.
      destruct (decide (i = Z.of_nat n)) as [|Hne]; [done|].
      destruct (Hj (Z.of_nat n)); [lia|done].
  - rewrite IH. split.
    + intros (Hi & H0 & Hj). split_and!; [lia|lia|done|]. intros j Hjn.
      destruct (decide (j = Z.of_nat n)) as [->|]; [done|apply Hj; lia].
    + intros (Hi & H0 & Hj). assert (i <> Z.of_nat n) by congruence.
      split_and!; [lia|lia|done|]. intros. apply Hj. lia.
Qed.

Lemma scasb_down_None m n :
  scasb_down m n = None <->
  forall j, 0 <= j < Z.of_nat n -> array_get m j <> Some 0.
Proof.
  induction n as [|n IH]; [simpl; split; [lia|done]|].
  cbn [scasb_down]. rewrite <- array_get_nat. case_decide as Hd.
  - split; [done|]. intros Hj. destruct (Hj (Z.of_nat n)); [lia|done].
  - rewrite IH. split.
    + intros Hj j ?. destruct (decide (j = Z.of_nat n)) as [->|]; [done|apply Hj; lia].
    + intros Hj j ?. apply Hj. lia.
Qed.

(** A well-formed page map: one byte for each page of the 15 MB above
    [LOW_MEM], and no memory above 16 MB. *)
Record mm_wf (s : mm) : Prop := {
  wf_length : length (mem_map s) = Z.to_nat PAGING_PAGES;
  wf_bytes : forall i c, array_get (mem_map s) i = Some c -> 0 <= c < 256;
  wf_high : LOW_MEM <= HIGH_MEMORY s <= 0x1000000
}.

(** The page numbered [i] of main memory, and the pages in use. *)
Definition page_of (i : Z) : Z := LOW_MEM + 4096 * i.
Definition page_count (s : mm) (page : Z) : option Z :=
  array_get (mem_map s) (MAP_NR page).

Lemma MAP_NR_page_of i : MAP_NR (page_of i) = i.
Proof.
  unfold MAP_NR, page_of. rewrite Z.shiftr_div_pow2 by lia.
  replace (LOW_MEM + 4096 * i - LOW_MEM) with (i * 2 ^ 12) by lia.
  by rewrite Z.div_mul by lia.
Qed.
Lemma page_of_divide i : (4096 | page_of i).
Proof. exists (256 + i). unfold page_of, LOW_MEM. lia. Qed.
Lemma page_of_MAP_NR page : (4096 | page) -> page_of (MAP_NR page) = page.
Proof.
  intros [q ->]. unfold page_of, MAP_NR. rewrite Z.shiftr_div_pow2 by lia.
  replace (q * 4096 - LOW_MEM) with ((q - 256) * 2 ^ 12) by (unfold LOW_MEM; lia).
  rewrite Z.div_mul by lia. unfold LOW_MEM. lia.
Qed.
Lemma shiftl_page_of i : Z.shiftl i 12 + LOW_MEM = page_of i.
Proof. rewrite Z.shiftl_mul_pow2 by lia. unfold page_of. lia. Qed.
Lemma wf_index s i c :
  mm_wf s -> array_get (mem_map s) i = Some c -> 0 <= i < 3840.
Proof.
  intros Hwf Hi%array_get_Some_bound. rewrite (wf_length _ Hwf) in Hi.
  change (Z.of_nat (Z.to_nat PAGING_PAGES)) with 3840 in Hi. lia.
Qed.

(** What the allocation of the page numbered [i] leaves behind. *)
Definition allocated (i : Z) (s : mm) : mm :=
  MM (array_set (mem_map s) i 1) (HIGH_MEMORY s) (clear_words (page_of i) (phys s)).

Lemma get_free_page_run s :
  mm_wf s ->
  (get_free_page s = Done 0 s /\ forall j, array_get (mem_map s) j <> Some 0) \/
  (exists i, get_free_page s = Done (page_of i) (allocated i s) /\
     0 <= i < 3840 /\ array_get (mem_map s) i = Some 0 /\
     forall j, i < j -> array_get (mem_map s) j <> Some 0).
Proof.
  intros Hwf. unfold get_free_page, mbind, kbind, gets.
  destruct (scasb_down (mem_map s) (Z.to_nat PAGING_PAGES)) as [i|] eqn:Hs.
  - right. exists i. apply scasb_down_Some in Hs as (Hi & H0 & Hj).
    change (Z.of_nat (Z.to_nat PAGING_PAGES)) with 3840 in *.
    split_and!; [|lia|lia|done|].
    + by rewrite shiftl_page_of.
    + intros j Hij Hc. apply (Hj j); [|done].
      pose proof (wf_index _ _ _ Hwf Hc). lia.
  - left. split; [done|]. intros j Hj. pose proof (wf_index _ _ _ Hwf Hj).
    by eapply scasb_down_None in Hs.
Qed.

Lemma wf_set s i c phys' :
  mm_wf s -> 0 <= c < 256 ->
  mm_wf (MM (array_set (mem_map s) i c) (HIGH_MEMORY s) phys').
Proof.
  intros [Hl Hb Hh] Hc. split; simpl; [by rewrite length_array_set| |done].
  intros j d. destruct (decide (i = j)) as [<-|Hne].
  - intros Hd. pose proof (array_get_Some_bound _ _ _ Hd) as Hr.
    rewrite length_array_set in Hr.
    rewrite array_get_set_eq in Hd by done. by simplify_eq.
  - rewrite array_get_set_ne by done. apply Hb.
Qed.
Lemma wf_phys s phys' : mm_wf s -> mm_wf (MM (mem_map s) (HIGH_MEMORY s) phys').
Proof. by intros [???]. Qed.
Lemma allocated_wf i s : mm_wf s -> mm_wf (allocated i s).
Proof. intros. apply wf_set; [done|lia]. Qed.
#[export] Hint Resolve wf_set wf_phys allocated_wf : kernel.

(** ** Allocation and freeing of physical pages *)

(** A concrete machine of 2 MB whose main memory starts at 1 MB, for the
    witnesses: 256 free pages, the highest being number 255. *)
Definition demo_mm : mm :=
  MM (replicate 256 0 ++ replicate 3584 USED) 0x200000 ∅.

Definition mm_wf_check (s : mm) : bool :=
  Nat.eqb (length (mem_map s)) (Z.to_nat PAGING_PAGES)
  && forallb (fun c => (0 <=? c) && (c <? 256)) (mem_map s)
  && (LOW_MEM <=? HIGH_MEMORY s) && (HIGH_MEMORY s <=? 0x1000000).

Lemma mm_wf_checked s : mm_wf_check s = true -> mm_wf s.
Proof.
  unfold mm_wf_check. rewrite !andb_true_iff, Nat.eqb_eq, forallb_forall, !Z.leb_le.
  intros [[[Hl Hb] H1] H2]. split; [done| |done].
  intros i c Hc. unfold array_get in Hc. destruct (0 <=? i); [|done].
  apply list_elem_of_lookup_2, list_elem_of_In, Hb in Hc.
  rewrite andb_true_iff, Z.leb_le, Z.ltb_lt in Hc. done.
Qed.

Lemma demo_mm_wf : mm_wf demo_mm.
Proof. by apply mm_wf_checked. Qed.

(** What [get_free_page] promises of its result [page] and final state: 0
    and an unchanged state, exactly when no page is free; or the highest
    free page, whose map entry becomes 1, whose 1024 words become zero,
    while no other memory or map entry changes. *)
Definition get_free_page_post (s : mm) (page : Z) (s' : mm) : Prop :=
  (page = 0 /\ s' = s /\ forall j, array_get (mem_map s) j <> Some 0) \/
  (exists i, page = page_of i /\
     array_get (mem_map s) i = Some 0 /\
     (forall j, i < j -> array_get (mem_map s) j <> Some 0) /\
     mem_map s' = array_set (mem_map s) i 1 /\
     HIGH_MEMORY s' = HIGH_MEMORY s /\
     (forall k, 0 <= k < 1024 -> word_at (phys s') (page + 4 * k) = 0) /\
     (forall a, ~ page <= a < page + 4096 ->
        word_at (phys s') a = word_at (phys s) a)).

(** C1: on a well-formed page map [get_free_page] always completes: it
    returns the highest free page, now counted once and filled with zeroes,
    with all other pages and counts unchanged; or 0, with nothing changed,
    when no page is free. *)
Theorem get_free_page_correct (s : mm) :
  mm_wf s -> wp get_free_page (get_free_page_post s) s.
Proof.
  intros Hwf. unfold wp.
  destruct (get_free_page_run s Hwf) as [[-> Hno]|(i & -> & Hi & H0 & Hmax)].
  - by left.
  - right. exists i. simpl. split_and!; auto using clear_words_in, clear_words_out.
Qed.

Lemma get_free_page_correct_witness :
  mm_wf demo_mm /\ wp get_free_page (get_free_page_post demo_mm) demo_mm /\
  match get_free_page demo_mm with Done page _ => page | _ => 0 end = page_of 255.
Proof.
  split; [exact demo_mm_wf|]. split; [|vm_compute; reflexivity].
  apply (get_free_page_correct demo_mm). exact demo_mm_wf.
Defined.

(** The result of releasing one reference to the page numbered [i], whose
    map entry is [c]. *)
Definition released (i c : Z) (s : mm) : mm := s ⟪ mem_map := array_set (mem_map s) i (c - 1) ⟫.

Lemma free_page_low addr s : addr < LOW_MEM -> free_page addr s = Done tt s.
Proof.
  intros. unfold free_page, mbind, kbind, gets.
  by rewrite (proj2 (Z.ltb_lt _ _)) by done.
Qed.
Lemma free_page_high addr s :
  LOW_MEM <= addr -> HIGH_MEMORY s <= addr ->
  free_page addr s = Panic "trying to free nonexistent page" s.
Proof.
  intros. unfold free_page, mbind, kbind, gets.
  by rewrite (proj2 (Z.ltb_ge _ _)), (proj2 (Z.leb_le _ _)) by done.
Qed.
Lemma free_page_in_range addr s c :
  mm_wf s -> LOW_MEM <= addr < HIGH_MEMORY s -> page_count s addr = Some c ->
  free_page addr s =
    if truth c then Done tt (released (MAP_NR addr) c s)
    else Panic "trying to free free page" s.
Proof.
  intros Hwf Haddr Hc. unfold free_page, mbind, kbind, gets.
  rewrite (proj2 (Z.ltb_ge _ _)), (proj2 (Z.leb_gt _ _)) by lia.
  unfold page_count, MAP_NR in Hc.
  unfold map_get, map_put, read_at, modify, mbind, kbind, gets. simpl.
  rewrite Hc. simpl. pose proof (wf_bytes _ Hwf _ _ Hc) as Hb.
  destruct (truth c) eqn:Ht.
  - apply truth_true in Ht. rewrite u8_small by lia. done.
  - apply truth_false in Ht. subst. unfold kbind, panic. simpl.
    change (u8 0) with 0. rewrite array_set_set, (array_set_get _ _ _ Hc). by destruct s.
Qed.

(** [free_page] undoes [get_free_page]: a page just allocated can be
    freed, which leaves the page map as it was before the allocation. *)
Theorem alloc_free_roundtrip (s s' : mm) (page : Z) :
  mm_wf s -> get_free_page s = Done page s' -> page <> 0 ->
  page < HIGH_MEMORY s ->
  exists s'', free_page page s' = Done tt s'' /\
    mem_map s'' = mem_map s /\ HIGH_MEMORY s'' = HIGH_MEMORY s /\
    free_page page s'' = Panic "trying to free free page" s''.
Proof.
  intros Hwf Hget Hne Hhigh.
  destruct (get_free_page_run s Hwf) as [[Hrun _]|(i & Hrun & Hi & H0 & _)];
    rewrite Hrun in Hget; [by simplify_eq|].
  injection Hget as <- <-.
  assert (Hin : 0 <= i < Z.of_nat (length (mem_map s)))
    by (by apply array_get_Some_bound in H0).
  assert (Hlow : LOW_MEM <= page_of i) by (unfold page_of; lia).
  exists ((allocated i s) ⟪ mem_map := mem_map s ⟫). split_and!; [|done|done|].
  - rewrite (free_page_in_range _ _ 1); [|by apply allocated_wf|simpl; lia|].
    + unfold released. rewrite MAP_NR_page_of. simpl. unfold allocated; simpl.
      change (1 - 1) with 0. by rewrite array_set_set, (array_set_get _ _ _ H0).
    + unfold page_count. rewrite MAP_NR_page_of. by apply array_get_set_eq.
  - rewrite (free_page_in_range _ _ 0); [done| |simpl; lia|].
    + by apply (wf_phys s).
    + unfold page_count. by rewrite MAP_NR_page_of.
Qed.


(** ** Copy on write *)

Section entries.
Implicit Types e f : Z.

Lemma frame_lor_flags e f : 0 <= f < 4096 -> frame (Z.lor e f) = frame e.
Proof.
  intros Hf. unfold frame. rewrite Z.land_lor_distr_r.
  fold (frame f). rewrite (frame_eq f), Z.div_small by lia. apply Z.lor_0_r.
Qed.
Lemma frame_u32 e : frame (u32 e) = frame e.
Proof.
  rewrite !frame_eq. unfold u32. f_equal.
  change 4294967296 with (4096 * 1048576).
  rewrite Z.rem_mul_r by lia.
  rewrite (Z.mul_comm 4096 (_ mod _)), Z.div_add, (Z.div_small (e mod 4096)), Z.add_0_l
    by (pose proof (Z.mod_pos_bound e 4096); lia).
  by rewrite Z.mod_mod by lia.
Qed.
Lemma testbit_u32 e n : 0 <= n < 32 -> Z.testbit (u32 e) n = Z.testbit e n.
Proof.
  intros. unfold u32. change 4294967296 with (2 ^ 32).
  apply Z.mod_pow2_bits_low. lia.
Qed.
Lemma frame_page_of i f : 0 <= i < 3840 -> 0 <= f < 4096 -> frame (Z.lor (page_of i) f) = page_of i.
Proof.
  intros. apply frame_lor; [apply page_of_divide|unfold page_of, LOW_MEM; lia|done].
Qed.
End entries.

(** The word at [a] is not inside a page that is free for allocation. *)
Definition in_use (s : mm) (a : Z) : Prop := a < LOW_MEM \/ page_count s a <> Some 0.

Lemma MAP_NR_inside i a : page_of i <= a < page_of i + 4096 -> MAP_NR a = i.
Proof.
  intros Ha. unfold MAP_NR. rewrite Z.shiftr_div_pow2 by lia.
  unfold page_of in Ha. change (2 ^ 12) with 4096.
  symmetry. apply (Z.div_unique _ _ _ (a - LOW_MEM - 4096 * i)); lia.
Qed.
Lemma in_use_outside s a i :
  in_use s a -> 0 <= i -> array_get (mem_map s) i = Some 0 ->
  ~ page_of i <= a < page_of i + 4096.
Proof.
  intros [Hlow|Hcnt] Hi H0 Ha; [unfold page_of in Ha; lia|].
  apply Hcnt. unfold page_count. by rewrite (MAP_NR_inside i).
Qed.

(** The state after [un_wp_page] has moved a shared entry to the new page
    numbered [i]. *)
Definition unshared (te old i c : Z) (s : mm) : mm :=
  let s1 := allocated i s in
  MM (array_set (mem_map s1) (MAP_NR old) (c - 1)) (HIGH_MEMORY s)
     (copy_words old (page_of i) (<[te := u32 (Z.lor (page_of i) 7)]> (phys s1))).

Lemma un_wp_page_run s te c :
  mm_wf s ->
  let e := word_at (phys s) te in
  LOW_MEM <= frame e -> page_count s (frame e) = Some c -> 1 <= c ->
  un_wp_page te s =
    if c =? 1 then Done tt (s ⟪ phys := <[te := u32 (Z.lor e 2)]> (phys s) ⟫)
    else match scasb_down (mem_map s) (Z.to_nat PAGING_PAGES) with
         | None => Exited SIGSEGV s
         | Some i => Done tt (unshared te (frame e) i c s)
         end.
Proof.
  intros Hwf e Hlow Hc H1. unfold page_count in Hc.
  pose proof (wf_bytes _ Hwf _ _ Hc) as Hbyte.
  unfold un_wp_page, load, gets, map_get, read_at, mbind, kbind. fold e.
  rewrite (proj2 (Z.leb_le _ _)) by done. cbn -[frame word_at].
  rewrite Hc. cbn -[frame word_at].
  destruct (Z.eqb_spec c 1) as [->|Hne]; [done|].
  unfold get_free_page, mbind, kbind, gets.
  destruct (scasb_down _ _) as [i|] eqn:Hs; [|done].
  apply scasb_down_Some in Hs as (Hi & H0 & _).
  cbn -[frame word_at page_of]. rewrite shiftl_page_of.
  assert (truth (page_of i) = true) as ->
    by (apply truth_true; unfold page_of, LOW_MEM; lia).
  cbn -[frame word_at page_of clear_words copy_words].
  rewrite array_get_set_ne
    by (intros ->; rewrite H0 in Hc; injection Hc; lia).
  rewrite Hc.
  cbn -[frame word_at page_of clear_words copy_words].
  rewrite !u8_small by lia. done.
Qed.

(** What copy-on-write promises for a page-table entry [te] that maps the
    page [old] with reference count [c]. *)
Definition cow_post (s : mm) (te c : Z) (s' : mm) : Prop :=
  let e := word_at (phys s) te in
  let old := frame e in
  let e' := word_at (phys s') te in
  let new := frame e' in
  (* the entry is writable, still present, and maps a page nobody else maps *)
  Z.testbit e' 1 = true /\ (Z.testbit e 0 = true -> Z.testbit e' 0 = true) /\
  page_count s' new = Some 1 /\
  (* the page reads as the old one did *)
  (forall k, 0 <= k < 1024 ->
     word_at (phys s') (new + 4 * k) = word_at (phys s) (old + 4 * k)) /\
  (* a page that was not shared stays in place; a shared one loses one
     reference and is left untouched *)
  (c = 1 -> new = old /\ mem_map s' = mem_map s) /\
  (1 < c -> new <> old /\ page_count s' old = Some (c - 1) /\
     forall a, a <> te -> ~ new <= a < new + 4096 ->
       word_at (phys s') a = word_at (phys s) a).

Lemma unshared_cow s te c i :
  mm_wf s -> let e := word_at (phys s) te in
  LOW_MEM <= frame e -> page_count s (frame e) = Some c -> 1 < c ->
  in_use s te -> ~ frame e <= te < frame e + 4096 ->
  0 <= i < 3840 -> array_get (mem_map s) i = Some 0 ->
  cow_post s te c (unshared te (frame e) i c s).
Proof.
  intros Hwf e Hlow Hc H1 Hte Hout Hi H0.
  assert (Hnew : ~ page_of i <= te < page_of i + 4096) by (apply (in_use_outside s); auto with lia).
  assert (Hidx : i <> MAP_NR (frame e))
    by (intros ->; unfold page_count in Hc; rewrite H0 in Hc; injection Hc; lia).
  assert (Hpages : page_of i <> frame e)
    by (intros Heq; apply Hidx; by rewrite <- Heq, MAP_NR_page_of).
  assert (Hframe : frame (word_at (phys (unshared te (frame e) i c s)) te) = page_of i).
  { simpl. rewrite copy_words_out, word_at_insert_eq, frame_u32 by done.
    apply frame_page_of; lia. }
  assert (Hbits : forall n, 0 <= n < 3 ->
    Z.testbit (word_at (phys (unshared te (frame e) i c s)) te) n = true).
  { intros n Hn. simpl. rewrite copy_words_out, word_at_insert_eq, testbit_u32 by (done || lia).
    rewrite Z.lor_spec. apply orb_true_iff; right.
    assert (n = 0 \/ n = 1 \/ n = 2) as [->|[->| ->]] by lia; done. }
  pose proof (array_get_Some_bound _ _ _ H0) as Hib.
  pose proof (array_get_Some_bound _ _ _ Hc) as Hcb.
  unfold cow_post. cbv zeta. fold e. rewrite Hframe.
  split_and!; [apply Hbits; lia|intros _; apply Hbits; lia| | |lia|].
  - unfold page_count. rewrite MAP_NR_page_of. simpl.
    rewrite array_get_set_ne by done. by apply array_get_set_eq.
  - intros k Hk. simpl. rewrite copy_words_in by done.
    rewrite word_at_insert_ne by lia. apply clear_words_out.
    pose proof (page_of_divide i). pose proof (frame_divide e).
    intros Hin. destruct H as [q Hq], H2 as [r Hr]. lia.
  - intros _. split_and!; [done| |].
    + unfold page_count. simpl. apply array_get_set_eq. by rewrite length_array_set.
    + intros a Ha Hna. simpl. rewrite copy_words_out, word_at_insert_ne by congruence.
      by apply clear_words_out.
Qed.

(** C3: [un_wp_page] implements copy on write: an entry whose page has no
    other user becomes writable in place; otherwise the entry gets a fresh
    writable page with the same contents, the old page loses one user and
    keeps its contents; when memory is exhausted the task ends with
    [SIGSEGV] and nothing has changed. *)
Theorem un_wp_page_copies_on_write (s : mm) (te c : Z) :
  mm_wf s -> let e := word_at (phys s) te in
  LOW_MEM <= frame e -> page_count s (frame e) = Some c -> 1 <= c ->
  in_use s te -> ~ frame e <= te < frame e + 4096 ->
  match un_wp_page te s with
  | Done _ s' => cow_post s te c s'
  | Exited code s' => code = SIGSEGV /\ 1 < c /\ s' = s /\
      forall j, array_get (mem_map s) j <> Some 0
  | _ => False
  end.
Proof.
  intros Hwf e Hlow Hc H1 Hte Hout. rewrite (un_wp_page_run _ _ c) by done. fold e.
  destruct (Z.eqb_spec c 1) as [->|Hne].
  - unfold cow_post. cbn -[frame page_count u32 Z.testbit word_at Z.lor]. fold e.
    rewrite word_at_insert_eq, frame_u32, frame_lor_flags, !testbit_u32 by lia.
    rewrite !Z.lor_spec.
    split_and!; [apply orb_true_r|by intros ->|done| |done|lia].
    intros k Hk. apply word_at_insert_ne. lia.
  - destruct (scasb_down _ _) as [i|] eqn:Hs.
    + apply scasb_down_Some in Hs as (Hi & H0 & _).
      apply unshared_cow; [done..|lia|done|done| |done].
      change (Z.of_nat (Z.to_nat PAGING_PAGES)) with 3840 in Hi. lia.
    + split_and!; [done|lia|done|]. intros j Hj.
      pose proof (wf_index _ _ _ Hwf Hj). by eapply scasb_down_None in Hs.
Qed.

(** A page shared by two tasks: page 0 of main memory, mapped by the entry at
    0x5000, holding the word 42. *)
Definition demo_shared : mm :=
  MM (2 :: replicate 255 0 ++ replicate 3584 USED) 0x200000
     {[ 0x5000 := 0x100005; 0x100000 := 42 ]}.

Lemma un_wp_page_copies_on_write_witness :
  match un_wp_page 0x5000 demo_shared with
  | Done _ s' => cow_post demo_shared 0x5000 2 s'
  | Exited code s' => code = SIGSEGV /\ 1 < 2 /\ s' = demo_shared /\
      forall j, array_get (mem_map demo_shared) j <> Some 0
  | _ => False
  end.
Proof.
  apply (un_wp_page_copies_on_write demo_shared 0x5000 2);
    [by apply mm_wf_checked|vm_compute; discriminate|reflexivity|lia|left; done|].
  change (frame (word_at (phys demo_shared) 0x5000)) with 0x100000. lia.
Defined.

(** ** Address translation

    What the processor's page walk reads: the specification that the
    page-table routines implement. *)

Definition pde_addr (a : Z) : Z := Z.land (Z.shiftr a 20) 0xffc.
Definition pt_index (a : Z) : Z := Z.land (Z.shiftr a 12) 0x3ff.
Definition translate (m : gmap Z Z) (a : Z) : option Z :=
  let d := word_at m (pde_addr a) in
  if present d then
    let e := word_at m (frame d + 4 * pt_index a) in
    if present e then Some (frame e + a mod 4096) else None
  else None.

Lemma pde_addr_eq a : pde_addr a = 4 * ((a / 4194304) mod 1024).
Proof.
  unfold pde_addr. change 0xffc with (Z.shiftl (Z.ones 10) 2).
  rewrite land_field, Z.shiftr_div_pow2, Z.div_div by lia. done.
Qed.
Lemma pt_index_eq a : pt_index a = (a / 4096) mod 1024.
Proof.
  unfold pt_index. change 0x3ff with (Z.ones 10).
  by rewrite Z.land_ones, Z.shiftr_div_pow2 by lia.
Qed.
Lemma pte_addr_eq d a : pte_addr d a = frame d + 4 * pt_index a.
Proof.
  unfold pte_addr. rewrite pt_index_eq.
  change 0xffc with (Z.shiftl (Z.ones 10) 2).
  rewrite land_field, Z.shiftr_div_pow2, Z.div_div by lia.
  change (2 ^ 10 * 2 ^ 2) with 4096. change (2 ^ 10) with 1024. lia.
Qed.
(** A linear page is determined by its two indices. *)
Lemma same_page a b :
  0 <= a < 4294967296 -> 0 <= b < 4294967296 ->
  pde_addr a = pde_addr b -> pt_index a = pt_index b -> a / 4096 = b / 4096.
Proof.
  intros Ha Hb. rewrite !pde_addr_eq, !pt_index_eq.
  replace 4194304 with (4096 * 1024) by lia. rewrite <- !Z.div_div by lia.
  assert (0 <= a / 4096 < 1048576) by (split; [apply Z.div_pos|apply Z.div_lt_upper_bound]; lia).
  assert (0 <= b / 4096 < 1048576) by (split; [apply Z.div_pos|apply Z.div_lt_upper_bound]; lia).
  generalize dependent (a / 4096). generalize dependent (b / 4096).
  intros y Hy x Hx.
  assert (0 <= x / 1024 < 1024) by (split; [apply Z.div_pos|apply Z.div_lt_upper_bound]; lia).
  assert (0 <= y / 1024 < 1024) by (split; [apply Z.div_pos|apply Z.div_lt_upper_bound]; lia).
  rewrite !(Z.mod_small (_ / _)) by lia. intros.
  rewrite (Z.div_mod x 1024), (Z.div_mod y 1024) by lia. lia.
Qed.
Lemma pde_addr_bound a : 0 <= pde_addr a < 4096.
Proof.
  rewrite pde_addr_eq. pose proof (Z.mod_pos_bound (a / 4194304) 1024). lia.
Qed.
Lemma pt_index_bound a : 0 <= pt_index a < 1024.
Proof. rewrite pt_index_eq. apply Z.mod_pos_bound. lia. Qed.
Lemma present_lor_7 p : present (Z.lor p 7) = true.
Proof.
  unfold present. rewrite Z.land_lor_distr_r. apply truth_true.
  intros [_ [=]]%Z.lor_eq_0_iff.
Qed.
Lemma present_u32 e : present (u32 e) = present e.
Proof.
  unfold present, u32. f_equal. rewrite !(Z.land_comm 1).
  change 1 with (Z.ones 1). rewrite !Z.land_ones by lia.
  change 4294967296 with (2 * 2147483648). rewrite Z.rem_mul_r by lia.
  change (2 ^ 1) with 2. rewrite (Z.mul_comm 2), Z.mod_add, Z.mod_mod; lia.
Qed.

(** Well-formed page tables: a present directory entry maps a page table
    outside the directory and outside the free pages, and no two entries
    share one. *)
Record pt_wf (s : mm) : Prop := {
  pt_outside : forall a, present (word_at (phys s) (pde_addr a)) = true ->
    4096 <= frame (word_at (phys s) (pde_addr a)) /\
    in_use s (frame (word_at (phys s) (pde_addr a)));
  pt_distinct : forall a b,
    present (word_at (phys s) (pde_addr a)) = true ->
    present (word_at (phys s) (pde_addr b)) = true ->
    frame (word_at (phys s) (pde_addr a)) = frame (word_at (phys s) (pde_addr b)) ->
    pde_addr a = pde_addr b
}.

Lemma in_use_page s p i k :
  (4096 | p) -> in_use s p -> 0 <= i -> array_get (mem_map s) i = Some 0 ->
  0 <= k < 4096 -> ~ page_of i <= p + k < page_of i + 4096.
Proof.
  intros [q ->] Huse Hi H0 Hk Hin.
  apply (in_use_outside s (q * 4096) i); [done..|].
  destruct (page_of_divide i) as [r Hr]. rewrite Hr in *. lia.
Qed.

(** Installing an entry in the page table of [address] changes the
    translation of the addresses of its page, and of no other one. *)
Lemma translate_insert s m address e :
  pt_wf s -> m = phys s ->
  present (word_at m (pde_addr address)) = true -> present e = true ->
  0 <= address < 4294967296 ->
  let m' := <[frame (word_at m (pde_addr address)) + 4 * pt_index address := e]> m in
  forall a, 0 <= a < 4294967296 ->
  translate m' a = if a / 4096 =? address / 4096
                   then Some (frame e + a mod 4096) else translate m a.
Proof.
  intros Hpt -> Hd He Hadd m' a Ha.
  assert (Hdir : forall b, word_at m' (pde_addr b) = word_at (phys s) (pde_addr b)).
  { intros b. apply word_at_insert_ne.
    pose proof (pde_addr_bound b). pose proof (pt_index_bound address).
    pose proof (proj1 (pt_outside _ Hpt _ Hd)). lia. }
  unfold translate. rewrite Hdir.
  pose proof (pt_index_bound a). pose proof (pt_index_bound address).
  destruct (Z.eqb_spec (a / 4096) (address / 4096)) as [Heq|Hne].
  - assert (pde_addr a = pde_addr address) as ->.
    { rewrite !pde_addr_eq. replace 4194304 with (4096 * 1024) by lia.
      by rewrite <- !Z.div_div, Heq by lia. }
    assert (pt_index a = pt_index address) as -> by (by rewrite !pt_index_eq, Heq).
    unfold m'. rewrite word_at_insert_eq. by rewrite Hd, He.
  - destruct (present (word_at (phys s) (pde_addr a))) eqn:Hp; [|done].
    unfold m'. rewrite word_at_insert_ne; [done|]. intros Hw. apply Hne, same_page; [done..| |].
    + apply (pt_distinct _ Hpt); [done..|].
      destruct (frame_divide (word_at (phys s) (pde_addr a))) as [q Hq].
      destruct (frame_divide (word_at (phys s) (pde_addr address))) as [r Hr]. lia.
    + destruct (frame_divide (word_at (phys s) (pde_addr a))) as [q Hq].
      destruct (frame_divide (word_at (phys s) (pde_addr address))) as [r Hr]. lia.
Qed.

(** The state once a fresh page has been installed as the page table of
    [address]. *)
Definition linked (i address : Z) (s : mm) : mm :=
  MM (array_set (mem_map s) i 1) (HIGH_MEMORY s)
     (<[pde_addr address := u32 (Z.lor (page_of i) 7)]> (clear_words (page_of i) (phys s))).

Section linking.
Variables (s : mm) (i address : Z).
Hypothesis Hpt : pt_wf s.
Hypothesis Hi : 0 <= i < 3840.
Hypothesis Hfree : array_get (mem_map s) i = Some 0.
Hypothesis Habsent : present (word_at (phys s) (pde_addr address)) = false.

Ltac field_simpl := cbn [phys mem_map HIGH_MEMORY linked].

Lemma linked_dir b :
  word_at (phys (linked i address s)) (pde_addr b) =
  if decide (pde_addr b = pde_addr address)
  then u32 (Z.lor (page_of i) 7) else word_at (phys s) (pde_addr b).
Proof.
  field_simpl. case_decide as Hb.
  - rewrite Hb. apply word_at_insert_eq.
  - rewrite word_at_insert_ne by congruence. apply clear_words_out.
    pose proof (pde_addr_bound b). unfold page_of, LOW_MEM. lia.
Qed.

Lemma linked_in_use a : in_use s a -> in_use (linked i address s) a.
Proof.
  intros [?|Hc]; [by left|right]. unfold page_count in *. field_simpl.
  destruct (decide (i = MAP_NR a)) as [<-|].
  { rewrite array_get_set_eq; [done|]. by apply array_get_Some_bound in Hfree. }
  by rewrite array_get_set_ne.
Qed.

Lemma linked_frame_in_use : in_use (linked i address s) (page_of i).
Proof.
  right. unfold page_count. rewrite MAP_NR_page_of. field_simpl.
  rewrite array_get_set_eq; [done|]. by apply array_get_Some_bound in Hfree.
Qed.

(** No existing page table sits in the fresh page. *)
Lemma linked_fresh b :
  present (word_at (phys s) (pde_addr b)) = true ->
  frame (word_at (phys s) (pde_addr b)) <> page_of i.
Proof.
  intros Hb Heq. destruct (pt_outside _ Hpt _ Hb) as [_ Huse]. rewrite Heq in Huse.
  apply (in_use_outside s (page_of i) i); [done|lia|done|lia].
Qed.

Lemma linked_pt_wf : pt_wf (linked i address s).
Proof.
  split.
  - intros b. rewrite linked_dir. case_decide as Hb.
    + intros _. rewrite frame_u32, frame_page_of by lia.
      split; [unfold page_of, LOW_MEM; lia|apply linked_frame_in_use].
    + intros Hp. destruct (pt_outside _ Hpt _ Hp). eauto using linked_in_use.
  - intros a b. rewrite !linked_dir.
    case_decide as Ha; case_decide as Hb; [congruence|..|apply (pt_distinct _ Hpt)];
      rewrite frame_u32, frame_page_of by lia; intros ?? Heq.
    + exfalso. by apply (linked_fresh b).
    + exfalso. by apply (linked_fresh a).
Qed.

Lemma linked_translate a : translate (phys (linked i address s)) a = translate (phys s) a.
Proof.
  unfold translate. rewrite linked_dir.
  pose proof (pt_index_bound a) as Hk. pose proof (pde_addr_bound address) as Hpde.
  case_decide as Ha.
  - rewrite Ha, Habsent, present_u32, present_lor_7, frame_u32, frame_page_of by lia.
    field_simpl. rewrite word_at_insert_ne by (unfold page_of, LOW_MEM; lia).
    by rewrite clear_words_in.
  - destruct (present (word_at (phys s) (pde_addr a))) eqn:Hp; [|done].
    destruct (pt_outside _ Hpt _ Hp) as [Hlow Huse].
    field_simpl. rewrite word_at_insert_ne by lia. rewrite clear_words_out; [done|].
    apply in_use_page with s; [apply frame_divide|done|lia|done|lia].
Qed.
End linking.

Lemma present_land d : truth (Z.land d 1) = present d.
Proof. unfold present. by rewrite Z.land_comm. Qed.

(** What [put_page] promises: either the page is mapped at [address] and the
    translation of no other linear page changes, or a page table was needed,
    memory is exhausted and nothing happened. *)
Definition put_page_post (s : mm) (page address r : Z) (s' : mm) : Prop :=
  (r = page /\ forall a, 0 <= a < 4294967296 ->
     translate (phys s') a =
       if a / 4096 =? address / 4096 then Some (page + a mod 4096)
       else translate (phys s) a) \/
  (r = 0 /\ s' = s /\ (forall j, array_get (mem_map s) j <> Some 0) /\
   translate (phys s) address = None).

(** C4: [put_page] implements a single-page update of the address
    translation, allocating a cleared page table when the directory has none,
    and does nothing when that allocation fails. *)
Theorem put_page_maps (s : mm) (page address : Z) :
  mm_wf s -> pt_wf s -> (4096 | page) -> LOW_MEM <= page < 0x1000000 ->
  0 <= address < 4294967296 ->
  wp (put_page page address) (put_page_post s page address) s.
Proof.
  intros Hwf Hpt Hdiv Hpage Haddr.
  assert (Hframe : frame (u32 (Z.lor page 7)) = page)
    by (rewrite frame_u32, frame_lor; [done|done|unfold LOW_MEM in *; lia..]).
  assert (Hpres : present (u32 (Z.lor page 7)) = true)
    by (rewrite present_u32; apply present_lor_7).
  unfold wp, put_page_post, put_page. fold (pde_addr address) (pt_index address).
  rewrite u32_small by (unfold LOW_MEM in *; lia). fold (MAP_NR page).
  unfold map_get, load, gets, read_at. unfold mbind at 1, kbind at 1. simpl.
  destruct (array_get_in_bounds (mem_map s) (MAP_NR page)) as [c Hc].
  { rewrite (wf_length _ Hwf). unfold MAP_NR. rewrite Z.shiftr_div_pow2 by lia.
    change (Z.of_nat (Z.to_nat PAGING_PAGES)) with 3840.
    split; [apply Z.div_pos|apply Z.div_lt_upper_bound]; unfold LOW_MEM in *; lia. }
  unfold mbind, kbind. simpl. rewrite Hc. simpl. rewrite present_land.
  destruct (present (word_at (phys s) (pde_addr address))) eqn:Hd.
  - left. split; [done|]. intros a Ha. simpl.
    rewrite (translate_insert s) by done. by rewrite Hframe.
  - destruct (get_free_page_run s Hwf) as [[-> Hno]|(i & -> & Hi & H0 & _)]; simpl.
    + right. split_and!; [done..|]. unfold translate. by rewrite Hd.
    + assert (truth (page_of i) = true) as ->
        by (apply truth_true; unfold page_of, LOW_MEM; lia).
      left. split; [done|]. intros a Ha.
      pose proof (linked_dir s i address Hi address) as Hnew. rewrite decide_True in Hnew by done.
      pose proof (translate_insert (linked i address s) _ address (u32 (Z.lor page 7))
        (linked_pt_wf s i address Hpt Hi H0) eq_refl) as Htr.
      rewrite Hnew, present_u32, present_lor_7, frame_u32, frame_page_of in Htr by lia.
      rewrite <- (linked_translate s i address) by done. rewrite Hframe in Htr.
      apply Htr; done.
Qed.

(** One page table, at the first page of main memory, for the first 4 MB. *)
Definition demo_mapped : mm :=
  MM (1 :: 1 :: replicate 254 0 ++ replicate 3584 USED) 0x200000 {[ 0 := 0x100007 ]}.

Lemma demo_mapped_pt_wf : pt_wf demo_mapped.
Proof.
  assert (Hdir : forall b, present (word_at (phys demo_mapped) b) = true -> b = 0).
  { intros b. destruct (decide (b = 0)) as [|Hb]; [done|].
    unfold word_at, demo_mapped. cbn [phys]. by rewrite lookup_singleton_ne. }
  split.
  - intros a Ha. rewrite (Hdir _ Ha). split; [vm_compute; discriminate|].
    right. by vm_compute.
  - intros a b Ha Hb _. by rewrite (Hdir _ Ha), (Hdir _ Hb).
Qed.

Lemma put_page_maps_witness :
  wp (put_page 0x101000 0x12345) (put_page_post demo_mapped 0x101000 0x12345) demo_mapped.
Proof.
  apply (put_page_maps demo_mapped 0x101000 0x12345);
    [by apply mm_wf_checked|exact demo_mapped_pt_wf|by exists 257|done|done].
Defined.

(** ** Initialisation *)

(** After [mem_init] the free pages are exactly the whole pages of
    [start_mem .. end_mem), all others are marked [USED], and the page map is
    well formed. *)
Theorem mem_init_frees (s : mm) (start_mem end_mem : Z) :
  (4096 | start_mem) -> LOW_MEM <= start_mem <= end_mem -> end_mem <= 0x1000000 ->
  wp (mem_init start_mem end_mem) (fun _ s' =>
    mm_wf s' /\ HIGH_MEMORY s' = end_mem /\ phys s' = phys s /\
    forall i, 0 <= i < PAGING_PAGES ->
      array_get (mem_map s') i =
      Some (if decide (start_mem <= page_of i /\ page_of i + 4096 <= end_mem)
            then 0 else USED)) s.
Proof.
  intros [q ->] Hstart Hend. unfold mem_init.
  assert (HM : MAP_NR (q * 4096) = q - 256).
  { unfold MAP_NR. rewrite Z.shiftr_div_pow2 by lia. unfold LOW_MEM.
    replace (q * 4096 - 0x100000) with ((q - 256) * 2 ^ 12) by lia. by apply Z.div_mul. }
  assert (HD : Z.shiftr (end_mem - q * 4096) 12 = end_mem / 4096 - q).
  { rewrite Z.shiftr_div_pow2 by lia. change (2 ^ 12) with 4096.
    rewrite <- Z.add_opp_r, <- Z.mul_opp_l. by rewrite Z.div_add by lia. }
  rewrite HM, HD.
  pose proof (Z.div_mod end_mem 4096 ltac:(lia)) as Hdm.
  pose proof (Z.mod_pos_bound end_mem 4096 ltac:(lia)) as Hmod.
  set (E := end_mem / 4096) in *. unfold LOW_MEM in Hstart.
  change PAGING_PAGES with 3840.
  apply wp_bind, wp_modify. cbn [set_field HIGH_MEMORY phys mem_map].
  apply wp_for with (I := fun d r s' =>
    phys s' = phys s /\ HIGH_MEMORY s' = end_mem /\ length (mem_map s') = 3840%nat /\
    upto (E - q) = d ++ r /\
    forall i, 0 <= i < 3840 -> array_get (mem_map s') i =
      Some (if decide (q - 256 <= i < q - 256 + Z.of_nat (length d)) then 0 else USED)).
  - split_and!; [done|done|apply length_replicate|done|]. intros i Hi.
    rewrite decide_False by (simpl; lia). unfold array_get.
    destruct (Z.leb_spec 0 i); [|lia]. apply lookup_replicate_2.
    change (Z.to_nat PAGING_PAGES) with 3840%nat. lia.
  - intros d x r s' (Hp & Hh & Hl & Hseq & Hi).
    assert (Hx : x = Z.of_nat (length d) /\ Z.of_nat (length d) < E - q).
    { assert (upto (E - q) !! length d = Some x) as Hlk
        by (rewrite Hseq; by apply list_lookup_middle).
      apply lookup_seqZ in Hlk. lia. }
    destruct Hx as [-> Hx].
    apply wp_bind. unfold map_get. apply wp_bind, wp_gets.
    eapply wp_deref; [apply Hi; lia|]. apply wp_modify. cbn [set_field phys HIGH_MEMORY mem_map].
    split_and!; [done|done|by rewrite length_array_set|by rewrite <- app_assoc|].
    intros i Hi'. rewrite length_app. simpl.
    destruct (decide (q - 256 + Z.of_nat (length d) = i)) as [<-|Hne].
    + rewrite array_get_set_eq by lia. by rewrite decide_True by lia.
    + rewrite array_get_set_ne, Hi by done. repeat case_decide; try done; lia.
  - intros s' (Hp & Hh & Hl & _ & Hi). rewrite length_seqZ in Hi.
    assert (forall i, 0 <= i < 3840 -> array_get (mem_map s') i =
      Some (if decide (q * 4096 <= page_of i /\ page_of i + 4096 <= end_mem) then 0 else USED)) as Hmap.
    { intros i Hi'. rewrite Hi by done. unfold page_of, LOW_MEM.
      repeat case_decide; try done; lia. }
    split_and!; [|done..].
    split; [done| |unfold LOW_MEM; lia].
    intros i c Hc. pose proof (array_get_Some_bound _ _ _ Hc).
    rewrite Hmap in Hc by lia. case_decide; injection Hc as <-; unfold USED; lia.
Qed.



(** ** Sharing pages *)

(** What [try_to_share] shares is the page {e holding the other task's
    page table}: when the directory entry [d] of [p] is clean and maps a page
    of main memory and the current task's entry for the address is free, that
    entry is set to map the frame of [d], [d] itself loses its write bit, and
    the count that grows is that of the page table.  The page-table entry of
    the address in [p] is never read. *)
Theorem try_to_share_shares_the_page_table (s : mm) (address ps cs c : Z) :
  let dir := Z.land (Z.shiftr address 20) 0xffc + Z.land (Z.shiftr ps 20) 0xffc in
  let to_dir := Z.land (Z.shiftr address 20) 0xffc + Z.land (Z.shiftr cs 20) 0xffc in
  let d := word_at (phys s) dir in
  let t := word_at (phys s) to_dir in
  let entry := frame t + Z.land (Z.shiftr address 10) 0xffc in
  Z.land d 0x41 = 1 -> LOW_MEM <= frame d < HIGH_MEMORY s ->
  page_count s (frame d) = Some c ->
  present t = true -> present (word_at (phys s) entry) = false -> entry <> dir ->
  let d' := u32 (Z.land d (Z.lnot 2)) in
  try_to_share address ps cs s =
    Done 1 (MM (array_set (mem_map s) (MAP_NR (frame d)) (u8 (c + 1))) (HIGH_MEMORY s)
               (<[entry := u32 d']> (<[dir := d']> (phys s)))).
Proof.
  intros dir to_dir d t entry Hd Hfr Hc Ht He Hne d'.
  assert (Hdp : truth (Z.land d 1) = true).
  { apply truth_true. intros H0. assert (Z.land (Z.land d 0x41) 1 = Z.land 1 1) as H1 by (by rewrite Hd).
    rewrite <- Z.land_assoc in H1. change (Z.land 0x41 1) with 1 in H1. rewrite H0 in H1. done. }
  unfold try_to_share. fold dir to_dir.
  unfold load, gets, store, modify, map_get, map_put, read_at, gets.
  unfold mbind, kbind, mret, kret. cbn [phys mem_map HIGH_MEMORY set_field].
  fold d. rewrite Hdp. cbn [negb]. fold d. rewrite Hd. cbn [Z.eqb Pos.eqb negb]. fold d.
  rewrite (proj2 (Z.leb_gt (HIGH_MEMORY s) (frame d))), (proj2 (Z.ltb_ge (frame d) LOW_MEM)) by lia.
  cbn [orb]. fold t. rewrite present_land, Ht. cbn [negb]. fold t entry.
  fold (present (word_at (phys s) entry)). rewrite He. fold d (MAP_NR (frame d)).
  unfold page_count in Hc. cbn [mem_map phys HIGH_MEMORY]. rewrite Hc.
  cbn [deref mret kret mem_map phys HIGH_MEMORY].
  rewrite !word_at_insert_eq. by fold d.
Qed.

(** Two tasks, at 64 MB and 128 MB, whose page tables are the pages 0 and 1
    of main memory; the other task has page 2 of main memory at 0x1000. *)
Definition demo_tasks : mm :=
  MM (1 :: 1 :: 1 :: replicate 253 0 ++ replicate 3584 USED) 0x200000
     {[ 0x40 := 0x100007; 0x80 := 0x101007; 0x100004 := 0x102005 ]}.

Lemma try_to_share_shares_the_page_table_witness :
  try_to_share 0x1000 0x4000000 0x8000000 demo_tasks =
    Done 1 (MM (array_set (mem_map demo_tasks) 0 2) 0x200000
               (<[0x101004 := 0x100005]> (<[0x40 := 0x100005]> (phys demo_tasks)))).
Proof.
  exact (try_to_share_shares_the_page_table demo_tasks 0x1000 0x4000000 0x8000000 1
    ltac:(done) ltac:(done) ltac:(done) ltac:(done) ltac:(done) ltac:(done)).
Defined.
