(* ===== verification/Task.v ===== *)
(** * Tasks and descriptors ([include/linux/sched.h], [include/signal.h],
      [include/asm/system.h])

    [task_struct] with all its fields, the initial task, and the macros that
    read and write segment descriptors, on the two longwords of a
    descriptor.  A [struct task_struct *] is modelled by the index of the
    slot of [task[]] that owns the object (see [Sched]); an inode or file
    pointer is the index of the inode or file-table entry. *)

From S2P Require Import Prelude.

Definition NR_TASKS : Z := 64.
Definition NR_OPEN : Z := 20.
Definition HZ : Z := 100.
Definition TASK_RUNNING : Z := 0.
Definition TASK_INTERRUPTIBLE : Z := 1.
Definition TASK_UNINTERRUPTIBLE : Z := 2.
Definition TASK_ZOMBIE : Z := 3.
Definition TASK_STOPPED : Z := 4.

(** ** Descriptors *)

Record desc_struct : Type := Desc { desc_a : Z; desc_b : Z }.
#[export] Instance desc_rebuild : Rebuild desc_struct := fun d => Desc (desc_a d) (desc_b d).

(** [_set_base]: the low word goes to bytes 2-3, the next byte to byte 4 and
    the high byte to byte 7. *)
Definition set_base (d : desc_struct) (base : Z) : desc_struct :=
  Desc (Z.lor (Z.land (desc_a d) 0xffff) (Z.shiftl (Z.land base 0xffff) 16))
       (Z.lor (Z.lor (Z.land (desc_b d) 0x00ffff00) (Z.land (Z.shiftr base 16) 0xff))
              (Z.land base 0xff000000)).

(** [_set_limit] on [(limit-1)>>12]: the low word goes to bytes 0-1, the next
    four bits to the low half of byte 6. *)
Definition set_limit (d : desc_struct) (limit : Z) : desc_struct :=
  let l := Z.shiftr (u32 (limit - 1)) 12 in
  Desc (Z.lor (Z.land (desc_a d) 0xffff0000) (Z.land l 0xffff))
       (Z.lor (Z.land (desc_b d) 0xfff0ffff) (Z.land l 0x000f0000)).

Definition get_base (d : desc_struct) : Z :=
  Z.lor (Z.lor (Z.land (desc_b d) 0xff000000)
               (Z.shiftl (Z.land (desc_b d) 0xff) 16))
        (Z.shiftr (Z.land (desc_a d) 0xffff0000) 16).

(** [lsl] reads the 20-bit limit, scaled to bytes when the granularity bit
    is set; [get_limit] adds one. *)
Definition lsl (d : desc_struct) : Z :=
  let l := Z.lor (Z.land (desc_a d) 0xffff) (Z.land (desc_b d) 0xf0000) in
  if Z.testbit (desc_b d) 23 then Z.lor (Z.shiftl l 12) 0xfff else l.
Definition get_limit (d : desc_struct) : Z := u32 (lsl d + 1).

(** [_set_tssldt_desc(n,addr,type)]: limit 104, no flags in byte 6. *)
Definition set_tssldt_desc (addr type : Z) : desc_struct :=
  Desc (Z.lor 104 (Z.shiftl (Z.land addr 0xffff) 16))
       (Z.lor (Z.lor (Z.land (Z.shiftr addr 16) 0xff) (Z.shiftl type 8))
              (Z.land addr 0xff000000)).
Definition set_tss_desc (addr : Z) : desc_struct := set_tssldt_desc addr 0x89.
Definition set_ldt_desc (addr : Z) : desc_struct := set_tssldt_desc addr 0x82.

(** Task register and LDT selectors of task [n]. *)
Definition FIRST_TSS_ENTRY : Z := 4.
Definition FIRST_LDT_ENTRY : Z := FIRST_TSS_ENTRY + 1.
Definition TSS (n : Z) : Z := Z.shiftl n 4 + Z.shiftl FIRST_TSS_ENTRY 3.
Definition LDT (n : Z) : Z := Z.shiftl n 4 + Z.shiftl FIRST_LDT_ENTRY 3.
(** [str(n)] *)
Definition str_task (tr : Z) : Z := Z.shiftr (tr - Z.shiftl FIRST_TSS_ENTRY 3) 4.

(** ** Signals *)

Definition SIGKILL : Z := 9.
Definition SIGALRM : Z := 14.
Definition SIGCHLD : Z := 17.
Definition SIGSTOP : Z := 19.
Definition S_ (nr : Z) : Z := Z.shiftl 1 (nr - 1).
Definition BLOCKABLE : Z := Z.lnot (Z.lor (S_ SIGKILL) (S_ SIGSTOP)).

Record sigaction : Type := Sigaction {
  sa_handler : Z; sa_mask : Z; sa_flags : Z; sa_restorer : Z
}.
#[export] Instance sigaction_rebuild : Rebuild sigaction :=
  fun s => Sigaction (sa_handler s) (sa_mask s) (sa_flags s) (sa_restorer s).

(** ** Task state segment and task structure *)

Record tss_struct : Type := Tss {
  back_link : Z; esp0 : Z; ss0 : Z; esp1 : Z; ss1 : Z; esp2 : Z; ss2 : Z; cr3 : Z;
  eip : Z; eflags : Z; eax : Z; ecx : Z; edx : Z; ebx : Z; esp : Z; ebp : Z;
  esi : Z; edi : Z; es : Z; cs : Z; ss : Z; ds : Z; fs : Z; gs : Z;
  tss_ldt : Z; trace_bitmap : Z; i387 : list Z
}.
#[export] Instance tss_rebuild : Rebuild tss_struct := fun t =>
  Tss (back_link t) (esp0 t) (ss0 t) (esp1 t) (ss1 t) (esp2 t) (ss2 t) (cr3 t)
    (eip t) (eflags t) (eax t) (ecx t) (edx t) (ebx t) (esp t) (ebp t)
    (esi t) (edi t) (es t) (cs t) (ss t) (ds t) (fs t) (gs t)
    (tss_ldt t) (trace_bitmap t) (i387 t).

Record task_struct : Type := Task {
  state : Z; counter : Z; priority : Z; signal : Z;
  sigactions : list sigaction; blocked : Z;
  exit_code : Z;
  start_code : Z; end_code : Z; end_data : Z; brk : Z; start_stack : Z;
  pid : Z; father : Z; pgrp : Z; session : Z; leader : Z;
  uid : Z; euid : Z; suid : Z; gid : Z; egid : Z; sgid : Z;
  alarm : Z; utime : Z; stime : Z; cutime : Z; cstime : Z; start_time : Z;
  used_math : Z;
  tty : Z; umask : Z;
  pwd : option Z; root : option Z; executable : option Z;
  close_on_exec : Z; filp : list (option Z);
  ldt : list desc_struct; tss : tss_struct
}.
#[export] Instance task_rebuild : Rebuild task_struct := fun t =>
  Task (state t) (counter t) (priority t) (signal t) (sigactions t) (blocked t)
    (exit_code t) (start_code t) (end_code t) (end_data t) (brk t) (start_stack t)
    (pid t) (father t) (pgrp t) (session t) (leader t)
    (uid t) (euid t) (suid t) (gid t) (egid t) (sgid t)
    (alarm t) (utime t) (stime t) (cutime t) (cstime t) (start_time t)
    (used_math t) (tty t) (umask t) (pwd t) (root t) (executable t)
    (close_on_exec t) (filp t) (ldt t) (tss t).

(** [INIT_TASK], with the addresses of [init_task] and [pg_dir]. *)
Definition INIT_TASK (init_task pg_dir : Z) : task_struct :=
  Task 0 15 15 0 (replicate 32 (Sigaction 0 0 0 0)) 0
    0 0 0 0 0 0  0 (-1) 0 0 0  0 0 0 0 0 0
    0 0 0 0 0 0  0
    (-1) 18 None None None 0 (replicate (Z.to_nat NR_OPEN) None)
    [Desc 0 0; Desc 0x9f 0xc0fa00; Desc 0x9f 0xc0f200]
    (Tss 0 (4096 + init_task) 0x10 0 0 0 0 pg_dir
       0 0 0 0 0 0 0 0 0 0 0x17 0x17 0x17 0x17 0x17 0x17
       (LDT 0) 0x80000000 []).

(** ** Descriptor round trips *)

(** The masks of the macros as fields of bits. *)
Ltac masks :=
  change 0xff000000 with (Z.shiftl (Z.ones 8) 24);
  change 0x00ffff00 with (Z.shiftl (Z.ones 16) 8);
  change 0xffff0000 with (Z.shiftl (Z.ones 16) 16);
  change 0xfff0ffff with (Z.lor (Z.shiftl (Z.ones 12) 20) (Z.shiftl (Z.ones 16) 0));
  change 0xf0000 with (Z.shiftl (Z.ones 4) 16);
  change 0xffff with (Z.shiftl (Z.ones 16) 0);
  change 0xff with (Z.shiftl (Z.ones 8) 0).

Section descriptors.
Implicit Types (d : desc_struct) (base limit : Z).

Lemma get_base_bound d : 0 <= get_base d < 2 ^ 32.
Proof.
  unfold get_base.
  pose proof (land_bound (desc_b d) 0xff000000 ltac:(lia)).
  pose proof (land_bound (desc_b d) 0xff ltac:(lia)).
  pose proof (land_bound (desc_a d) 0xffff0000 ltac:(lia)).
  rewrite Z.shiftl_mul_pow2, Z.shiftr_div_pow2 by lia.
  repeat apply lor_bound; try lia.
  split; [apply Z.div_pos|apply Z.div_lt_upper_bound]; lia.
Qed.
Lemma get_base_set_base d base : 0 <= base < 2 ^ 32 -> get_base (set_base d base) = base.
Proof.
  intros Hb. apply bits32_eq; [apply get_base_bound|done|].
  intros n Hn. unfold get_base, set_base. cbn [desc_a desc_b].
  masks.
  assert (n < 16 \/ 16 <= n < 24 \/ 24 <= n) as [?|[?|?]] by lia; bit_cases.
Qed.

(** The 20 bits of the limit field. *)
Definition raw_limit d : Z := Z.lor (Z.land (desc_a d) 0xffff) (Z.land (desc_b d) 0xf0000).
Lemma raw_limit_bound d : 0 <= raw_limit d < 2 ^ 20.
Proof.
  unfold raw_limit.
  pose proof (land_bound (desc_a d) 0xffff ltac:(lia)).
  pose proof (land_bound (desc_b d) 0xf0000 ltac:(lia)).
  apply lor_bound; lia.
Qed.
Lemma lsl_raw d :
  lsl d = if Z.testbit (desc_b d) 23 then 4096 * raw_limit d + 4095 else raw_limit d.
Proof.
  unfold lsl. fold (raw_limit d). destruct (Z.testbit (desc_b d) 23); [|done].
  rewrite Z.shiftl_mul_pow2, (lor_multiple _ 0xfff 12) by (try apply Z.divide_factor_r; lia).
  lia.
Qed.
Lemma raw_limit_set_base d base : raw_limit (set_base d base) = raw_limit d.
Proof.
  apply bits32_eq; [pose proof (raw_limit_bound (set_base d base)); lia|
                    pose proof (raw_limit_bound d); lia|].
  intros n Hn. unfold raw_limit, set_base. cbn [desc_a desc_b]. masks.
  assert (n < 16 \/ 16 <= n < 20 \/ 20 <= n < 24 \/ 24 <= n) as [?|[?|[?|?]]] by lia; bit_cases.
Qed.
Lemma raw_limit_set_limit d limit :
  0 < limit <= 2 ^ 32 -> raw_limit (set_limit d limit) = (limit - 1) / 4096.
Proof.
  intros Hl.
  assert (H20 : 0 <= (limit - 1) / 4096 < 2 ^ 20)
    by (split; [apply Z.div_pos|apply Z.div_lt_upper_bound]; lia).
  apply bits32_eq; [pose proof (raw_limit_bound (set_limit d limit)); lia|lia|].
  intros n Hn. unfold raw_limit, set_limit. cbn [desc_a desc_b].
  rewrite u32_small, (Z.shiftr_div_pow2 _ 12) by lia. change (2 ^ 12) with 4096.
  rewrite <- (Z.mod_small ((limit - 1) / 4096) (2 ^ 20)) at 3 by lia.
  rewrite <- Z.land_ones by lia. change (Z.ones 20) with (Z.shiftl (Z.ones 20) 0). masks.
  assert (n < 16 \/ 16 <= n < 20 \/ 20 <= n) as [?|[?|?]] by lia; bit_cases.
Qed.
Lemma granular_set_limit d limit :
  Z.testbit (desc_b (set_limit d limit)) 23 = Z.testbit (desc_b d) 23.
Proof. unfold set_limit. cbn [desc_b]. masks. bit_cases. Qed.
Lemma granular_set_base d base :
  Z.testbit (desc_b (set_base d base)) 23 = Z.testbit (desc_b d) 23.
Proof. unfold set_base. cbn [desc_b]. masks. bit_cases. Qed.
End descriptors.

(** The macros on a segment descriptor are inverse to each other:
    [get_base] reads back what [set_base] wrote, with the limit kept; and in a
    descriptor with page granularity [get_limit] reads back what [set_limit]
    wrote, rounded up to a whole number of pages (a 4 GB limit reads as 0). *)
Theorem descriptor_roundtrip (d : desc_struct) (base limit : Z) :
  0 <= base < 2 ^ 32 -> 0 < limit <= 2 ^ 32 ->
  get_base (set_base d base) = base /\
  get_limit (set_base d base) = get_limit d /\
  (Z.testbit (desc_b d) 23 = true ->
   get_limit (set_limit d limit) = u32 (4096 * ((limit + 4095) / 4096))).
Proof.
  intros Hb Hl. split_and!.
  - by apply get_base_set_base.
  - unfold get_limit. by rewrite !lsl_raw, raw_limit_set_base, granular_set_base.
  - intros Hg. unfold get_limit. rewrite lsl_raw, granular_set_limit, Hg.
    rewrite raw_limit_set_limit by done. f_equal.
    replace (limit + 4095) with (limit - 1 + 1 * 4096) by lia.
    rewrite Z.div_add by lia. lia.
Qed.
