(* ===== verification/Sched.v ===== *)
(** * The scheduler and wait queues ([kernel/sched.c])

    The state is the task array, the current task, the clock, the owner of
    the coprocessor, the descriptor table and the kernel's wait-queue
    variables: [wait !! p] is the task a [struct task_struct **p] points to,
    and no entry stands for [NULL].

    A call of [schedule] suspends the caller, so a routine that sleeps is
    modelled by its segments between calls of [schedule]; the second half of
    the file is the transition system in which the segments of different
    tasks interleave. *)

From S2P Require Import Prelude Task.

Record sched : Type := Sched {
  task : list (option task_struct);      (* task[NR_TASKS] *)
  current : Z;
  jiffies : Z;
  startup_time : Z;
  last_task_used_math : option Z;
  ts_flag : bool;                        (* CR0.TS *)
  fpu : list Z;                          (* the coprocessor's registers *)
  gdt : list desc_struct;
  wait : gmap Z Z
}.
#[export] Instance sched_rebuild : Rebuild sched := fun s =>
  Sched (task s) (current s) (jiffies s) (startup_time s) (last_task_used_math s)
    (ts_flag s) (fpu s) (gdt s) (wait s).

(** The task in slot [i]: a fault when the slot is empty. *)
Definition slot (s : sched) (i : Z) : option task_struct := mjoin (array_get (task s) i).
Definition get_task (i : Z) : KM sched task_struct :=
  s ← gets (fun s => slot s i); deref s.
Definition put_task (i : Z) (t : task_struct) : KM sched unit :=
  modify (fun s => s ⟪ task := array_set (task s) i (Some t) ⟫).
Definition update_task (i : Z) (f : task_struct -> task_struct) : KM sched unit :=
  t ← get_task i; put_task i (f t).
Definition get_current : KM sched task_struct := i ← gets current; get_task i.
Definition update_current (f : task_struct -> task_struct) : KM sched unit :=
  i ← gets current; update_task i f.
Definition CURRENT_TIME (s : sched) : Z := s32 (startup_time s + Z.quot (jiffies s) HZ).

(** ** [schedule] *)

(** The body of the first loop, for one task. *)
Definition check_alarm (jiffies : Z) (t : task_struct) : task_struct :=
  if truth (alarm t) && (alarm t <? jiffies)
  then t ⟪ signal := s32 (Z.lor (signal t) (S_ SIGALRM)) ⟫ ⟪ alarm := 0 ⟫
  else t.
Definition pending (t : task_struct) : Z :=
  Z.land (signal t) (Z.lnot (Z.land BLOCKABLE (blocked t))).
Definition check_signal (t : task_struct) : task_struct :=
  if truth (pending t) && (state t =? TASK_INTERRUPTIBLE)
  then t ⟪ state := TASK_RUNNING ⟫ else t.

(** Both [for] loops visit [LAST_TASK] down to, but without, [FIRST_TASK],
    and treat each task on its own. *)
Definition but_first (f : task_struct -> task_struct) (ts : list (option task_struct))
    : list (option task_struct) :=
  match ts with
  | [] => []
  | first :: rest => first :: map (option_map f) rest
  end.
Definition wake_signalled (jiffies : Z) : list (option task_struct) -> list (option task_struct) :=
  but_first (fun t => check_signal (check_alarm jiffies t)).
Definition recharge : list (option task_struct) -> list (option task_struct) :=
  but_first (fun t => t ⟪ counter := s32 (Z.shiftr (counter t) 1 + priority t) ⟫).

(** [while (--i)]: slots [i] down to 1, from the values [c] and [next]. *)
Fixpoint pick (ts : list (option task_struct)) (i : nat) (c next : Z) : Z * Z :=
  match i with
  | O => (c, next)
  | S i' =>
      match mjoin (ts !! i) with
      | Some t =>
          if (state t =? TASK_RUNNING) && (c <? counter t)
          then pick ts i' (counter t) (Z.of_nat i)
          else pick ts i' c next
      | None => pick ts i' c next
      end
  end.

(** The loop of "the scheduler proper"; two rounds are enough
    ([schedule_picks_best]). *)
Fixpoint choose (fuel : nat) (ts : list (option task_struct)) : option (Z * list (option task_struct)) :=
  match fuel with
  | O => None
  | S fuel =>
      let '(c, next) := pick ts 63 (-1) 0 in
      if truth c then Some (next, ts) else choose fuel (recharge ts)
  end.

#[global] Strategy 1000 [choose pick].

(** The hardware task switch sets CR0.TS; [clts] clears it when the task that
    now runs owns the coprocessor. *)
Definition switch_to (n : Z) : KM sched unit :=
  modify (fun s =>
    if current s =? n then s
    else s ⟪ current := n ⟫
           ⟪ ts_flag := negb (bool_decide (last_task_used_math s = Some n)) ⟫).

Definition schedule : KM sched unit := fun s =>
  let ts := wake_signalled (jiffies s) (task s) in
  match choose 3 ts with
  | None => NoFuel
  | Some (next, ts) => switch_to next (s ⟪ task := ts ⟫)
  end.

Section coprocessor.
(** What [fninit] leaves in the coprocessor. *)
Variable fninit : list Z -> list Z.

(** [fnsave] stores the registers and then initialises the coprocessor. *)
Definition math_state_restore : KM sched unit :=
  s ← gets (fun s => s);
  if bool_decide (last_task_used_math s = Some (current s)) then mret tt
  else
    match last_task_used_math s with
    | None => mret tt
    | Some l =>
        update_task l (fun t => t ⟪ tss := (tss t) ⟪ i387 := fpu s ⟫ ⟫) ;;
        modify (fun s => s ⟪ fpu := fninit (fpu s) ⟫)
    end ;;
    modify (fun s => s ⟪ last_task_used_math := Some (current s) ⟫) ;;
    t ← get_current;
    if truth (used_math t) then modify (fun s => s ⟪ fpu := i387 (tss t) ⟫)
    else
      modify (fun s => s ⟪ fpu := fninit (fpu s) ⟫) ;;
      update_current (fun t => t ⟪ used_math := 1 ⟫).
End coprocessor.

(** ** System calls on the current task *)

Definition sys_pause : KM sched unit :=
  update_current (fun t => t ⟪ state := TASK_INTERRUPTIBLE ⟫) ;; schedule.

Definition sys_alarm (seconds : Z) : KM sched Z :=
  t ← get_current;
  j ← gets jiffies;
  let old := alarm t in
  let old := if truth old then Z.quot (s32 (old - j)) HZ else old in
  update_current (fun t =>
    t ⟪ alarm := if 0 <? seconds then s32 (j + HZ * seconds) else 0 ⟫) ;;
  mret old.

Definition sys_getpid : KM sched Z := t ← get_current; mret (pid t).
Definition sys_getppid : KM sched Z := t ← get_current; mret (father t).
Definition sys_getuid : KM sched Z := t ← get_current; mret (uid t).
Definition sys_geteuid : KM sched Z := t ← get_current; mret (euid t).
Definition sys_getgid : KM sched Z := t ← get_current; mret (gid t).
Definition sys_getegid : KM sched Z := t ← get_current; mret (egid t).

Definition sys_nice (increment : Z) : KM sched Z :=
  t ← get_current;
  kwhen (0 <? s32 (priority t - increment))
    (update_current (fun t => t ⟪ priority := s32 (priority t - increment) ⟫)) ;;
  mret 0.

(** The part of [sched_init] that sets up the descriptor table and the task
    array; [init_tss] and [init_ldt] are the addresses of the initial task's
    TSS and LDT. *)
Definition sched_init (init_tss init_ldt : Z) : KM sched unit :=
  modify (fun s => s ⟪ gdt := array_set (gdt s) FIRST_TSS_ENTRY (set_tss_desc init_tss) ⟫) ;;
  modify (fun s => s ⟪ gdt := array_set (gdt s) FIRST_LDT_ENTRY (set_ldt_desc init_ldt) ⟫) ;;
  kfor (seqZ 1 63) (fun i =>
    modify (fun s => s ⟪ task := array_set (task s) i None ⟫
                       ⟪ gdt := array_set (array_set (gdt s) (4 + 2 * i) (Desc 0 0))
                                          (5 + 2 * i) (Desc 0 0) ⟫)).

(** ** Sleeping and waking, as the segments between calls of [schedule] *)

(** The task that [p] points to becomes runnable. *)
Definition make_runnable (i : Z) : KM sched unit :=
  update_task i (fun t => t ⟪ state := 0 ⟫).

(** [sleep_on] and [interruptible_sleep_on] up to the call of [schedule]; the
    result is the local variable [tmp]. *)
Definition sleep_begin (new_state p : Z) : KM sched (option Z) :=
  cur ← gets current;
  if cur =? 0 then panic "task[0] trying to sleep"
  else
    tmp ← gets (fun s => wait s !! p);
    modify (fun s => s ⟪ wait := <[p := cur]> (wait s) ⟫) ;;
    update_current (fun t => t ⟪ state := new_state ⟫) ;;
    schedule ;;
    mret tmp.
Definition sleep_on_begin : Z -> KM sched (option Z) := sleep_begin TASK_UNINTERRUPTIBLE.
Definition interruptible_sleep_on_begin : Z -> KM sched (option Z) :=
  sleep_begin TASK_INTERRUPTIBLE.

Definition wake_tmp (tmp : option Z) : KM sched unit :=
  match tmp with Some i => make_runnable i | None => mret tt end.

(** The rest of [sleep_on]. *)
Definition sleep_on_end (tmp : option Z) : KM sched unit := wake_tmp tmp.

(** [interruptible_sleep_on] after [schedule]: it goes back to sleep
    ([false]) or returns ([true]). *)
Definition interruptible_sleep_on_resume (p : Z) (tmp : option Z) : KM sched bool :=
  head ← gets (fun s => wait s !! p);
  cur ← gets current;
  match head with
  | Some h =>
      if h =? cur then
        modify (fun s => s ⟪ wait := delete p (wait s) ⟫) ;; wake_tmp tmp ;; mret true
      else
        make_runnable h ;;
        update_current (fun t => t ⟪ state := TASK_INTERRUPTIBLE ⟫) ;;
        schedule ;;
        mret false
  | None => wake_tmp tmp ;; mret true
  end.

Definition wake_up (p : Z) : KM sched unit :=
  head ← gets (fun s => wait s !! p);
  match head with
  | Some h => make_runnable h ;; modify (fun s => s ⟪ wait := delete p (wait s) ⟫)
  | None => mret tt
  end.

(** ** The choice of the scheduler *)

Definition runnable (ts : list (option task_struct)) (i : nat) (t : task_struct) : Prop :=
  mjoin (ts !! i) = Some t /\ state t = TASK_RUNNING.

Lemma pick_spec ts i c next :
  let '(c', n') := pick ts i c next in
  c <= c' /\
  (forall m t, (1 <= m <= i)%nat -> runnable ts m t -> counter t <= c') /\
  ((c' = c /\ n' = next) \/
   c < c' /\ exists n t, n' = Z.of_nat n /\ (1 <= n <= i)%nat /\ runnable ts n t /\
     counter t = c' /\
     forall m t', (n < m <= i)%nat -> runnable ts m t' -> counter t' < c').
Proof.
  revert c next. induction i as [|i IH]; intros c next.
  { simpl. split_and!; [lia|intros; lia|by left]. }
  cbn [pick]. destruct (mjoin (ts !! S i)) as [t|] eqn:Ht.
  2:{ specialize (IH c next). destruct (pick ts i c next) as [c' n'].
      destruct IH as (Hc & Hall & Hres). split_and!; [done| |].
      - intros m t Hm Hr. destruct (decide (m = S i)) as [->|].
        + destruct Hr. congruence.
        + apply (Hall m); [lia|done].
      - destruct Hres as [|(Hlt & n & t & -> & Hn & Hr & Hct & Hmax)]; [by left|right].
        split; [done|]. exists n, t. split_and!; try done; try lia.
        intros m t' Hm Hr'. destruct (decide (m = S i)) as [->|]; [destruct Hr'; congruence|].
        apply (Hmax m); [lia|done]. }
  destruct ((state t =? TASK_RUNNING) && (c <? counter t)) eqn:Hgt.
  - apply andb_true_iff in Hgt as [Hst%Z.eqb_eq Hlt%Z.ltb_lt].
    specialize (IH (counter t) (Z.of_nat (S i))).
    destruct (pick ts i _ _) as [c' n']. destruct IH as (Hc & Hall & Hres).
    split_and!; [lia| |].
    + intros m t' Hm Hr. destruct (decide (m = S i)) as [->|]; [|apply (Hall m); [lia|done]].
      destruct Hr as [Hr _]. assert (t' = t) by congruence. by subst.
    + right. split; [lia|].
      destruct Hres as [[-> ->]|(Hlt' & n & t' & -> & Hn & Hr & Hct & Hmax)].
      * exists (S i), t. split_and!; try done; try lia.
      * exists n, t'. split_and!; try done; try lia.
        intros m u Hm Hru. destruct (decide (m = S i)) as [->|]; [|apply (Hmax m); [lia|done]].
        destruct Hru as [Hru _]. assert (u = t) by congruence. subst. lia.
  - specialize (IH c next). destruct (pick ts i c next) as [c' n'].
    destruct IH as (Hc & Hall & Hres).
    assert (Hle : state t = TASK_RUNNING -> counter t <= c).
    { intros Hst. apply andb_false_iff in Hgt as [?%Z.eqb_neq|?%Z.ltb_ge]; done. }
    split_and!; [done| |].
    + intros m t' Hm Hr. destruct (decide (m = S i)) as [->|]; [|apply (Hall m); [lia|done]].
      destruct Hr as [Hr Hst]. assert (t' = t) by congruence. subst. specialize (Hle Hst). lia.
    + destruct Hres as [|(Hlt & n & t' & -> & Hn & Hr & Hct & Hmax)]; [by left|right].
      split; [done|]. exists n, t'. split_and!; try done; try lia.
      intros m u Hm Hru. destruct (decide (m = S i)) as [->|]; [|apply (Hmax m); [lia|done]].
      destruct Hru as [Hru Hst]. assert (u = t) by congruence. subst. specialize (Hle Hst). lia.
Qed.

(** What the scheduler should choose: the runnable task with the largest
    time slice, the highest slot among equals, and the idle task when none
    (with a slice of 0 or more) is runnable. *)
Definition best_task (ts : list (option task_struct)) (n : Z) : Prop :=
  (n = 0 /\ forall m t, (1 <= m <= 63)%nat -> runnable ts m t -> counter t < 0) \/
  exists i t, n = Z.of_nat i /\ (1 <= i <= 63)%nat /\ runnable ts i t /\ 0 < counter t /\
    (forall m t', (1 <= m <= 63)%nat -> runnable ts m t' -> counter t' <= counter t) /\
    (forall m t', (i < m <= 63)%nat -> runnable ts m t' -> counter t' < counter t).

(** A task whose slice is used up gets a new one from its priority. *)
Definition priorities_positive (ts : list (option task_struct)) : Prop :=
  forall m t, (1 <= m <= 63)%nat -> runnable ts m t -> counter t = 0 ->
    0 < priority t < 2147483648.

Lemma pick_best ts c n :
  pick ts 63 (-1) 0 = (c, n) -> c <> 0 -> best_task ts n.
Proof.
  intros Hp Hc. pose proof (pick_spec ts 63 (-1) 0) as H. rewrite Hp in H.
  destruct H as (Hle & Hall & [[-> ->]|(Hlt & i & t & -> & Hi & Hr & Hct & Hmax)]).
  - left. split; [done|]. intros m t Hm Hr. specialize (Hall m t Hm Hr). lia.
  - right. exists i, t. subst c. split_and!; try done; lia.
Qed.

Lemma lookup_but_first f ts i :
  (1 <= i)%nat -> mjoin (but_first f ts !! i) = f <$> mjoin (ts !! i).
Proof.
  intros Hi. destruct ts as [|o ts]; [by rewrite !lookup_nil|].
  destruct i as [|i]; [lia|]. simpl. rewrite list_lookup_fmap.
  by destruct (ts !! i) as [[]|].
Qed.
Lemma runnable_recharge ts i t :
  (1 <= i)%nat -> runnable ts i t ->
  runnable (recharge ts) i (t ⟪ counter := s32 (Z.shiftr (counter t) 1 + priority t) ⟫).
Proof.
  intros Hi [Ht Hst]. split; [|done]. unfold recharge. by rewrite lookup_but_first, Ht.
Qed.

Lemma choose_best ts :
  priorities_positive ts ->
  exists n ts', choose 3 ts = Some (n, ts') /\ best_task ts' n /\
    (ts' = ts \/ ts' = recharge ts).
Proof.
  intros Hprio. cbn [choose]. destruct (pick ts 63 (-1) 0) as [c n] eqn:Hp.
  destruct (truth c) eqn:Hc.
  { exists n, ts. split_and!; [done| |by left].
    apply (pick_best ts c n Hp). by apply truth_true. }
  apply truth_false in Hc as ->.
  pose proof (pick_spec ts 63 (-1) 0) as H. rewrite Hp in H.
  destruct H as (_ & Hall & [[? _]|(_ & i & t & -> & Hi & Hr & Hct & _)]); [lia|].
  pose proof (Hprio i t Hi Hr Hct) as Hpos.
  destruct (pick (recharge ts) 63 (-1) 0) as [c' n'] eqn:Hp'.
  assert (Hc' : c' <> 0).
  { pose proof (pick_spec (recharge ts) 63 (-1) 0) as H. rewrite Hp' in H.
    destruct H as (_ & Hall' & _).
    pose proof (Hall' i _ Hi (runnable_recharge ts i t ltac:(lia) Hr)) as Hge.
    cbn in Hge. rewrite Hct in Hge. change (Z.shiftr 0 1) with 0 in Hge.
    rewrite s32_small in Hge; lia. }
  rewrite (proj2 (truth_true c') Hc'). exists n', (recharge ts).
  split_and!; [done| |by right]. by apply (pick_best _ c').
Qed.

(** C8: [schedule] always completes, after at most one recharge of the time
    slices, and switches to the best task of the resulting task array; apart
    from that it only wakes tasks that an alarm or another signal reaches. *)
Theorem schedule_picks_best (s : sched) :
  priorities_positive (wake_signalled (jiffies s) (task s)) ->
  exists n ts s', schedule s = Done tt s' /\ task s' = ts /\ current s' = n /\
    best_task ts n /\
    (ts = wake_signalled (jiffies s) (task s) \/
     ts = recharge (wake_signalled (jiffies s) (task s))) /\
    wait s' = wait s /\ jiffies s' = jiffies s.
Proof.
  intros Hprio. destruct (choose_best _ Hprio) as (n & ts & Hch & Hbest & Hts).
  unfold schedule. rewrite Hch. unfold switch_to, modify.
  exists n, ts. eexists. split; [done|].
  destruct (Z.eqb_spec (current (s ⟪ task := ts ⟫)) n); by split_and!.
Qed.

(** Three tasks beside the idle task: the second and third are runnable with
    used-up slices and the fourth sleeps with an alarm that has expired. *)
Definition demo_task (st cnt prio alrm : Z) : task_struct :=
  (INIT_TASK 0 0) ⟪ state := st ⟫ ⟪ counter := cnt ⟫ ⟪ priority := prio ⟫ ⟪ alarm := alrm ⟫.
Definition demo_tasks_of (l : list task_struct) : list (option task_struct) :=
  map Some l ++ replicate (64 - length l) None.
Definition demo_sched : sched :=
  Sched (demo_tasks_of [INIT_TASK 0 0; demo_task 0 0 15 0; demo_task 0 0 20 0; demo_task 1 3 15 90])
    1 100 0 None false [] (replicate 256 (Desc 0 0)) ∅.

(** [priorities_positive] is decidable. *)
Definition priorities_check (ts : list (option task_struct)) : bool :=
  forallb (fun o => match o with
    | Some t => (negb (counter t =? 0)) || ((0 <? priority t) && (priority t <? 2147483648))
    | None => true end) ts.
Lemma priorities_checked ts : priorities_check ts = true -> priorities_positive ts.
Proof.
  unfold priorities_check. rewrite forallb_forall. intros Hall m t Hm [Ht Hst] Hc.
  assert (Hin : In (Some t) ts).
  { apply list_elem_of_In, list_elem_of_lookup. exists m.
    by destruct (ts !! m) as [[]|]; simplify_eq/=. }
  specialize (Hall _ Hin). simpl in Hall. rewrite Hc in Hall. simpl in Hall. lia.
Qed.

Lemma schedule_picks_best_witness :
  exists n ts s', schedule demo_sched = Done tt s' /\ task s' = ts /\ current s' = n /\
    best_task ts n /\
    (ts = wake_signalled 100 (task demo_sched) \/
     ts = recharge (wake_signalled 100 (task demo_sched))) /\
    wait s' = ∅ /\ jiffies s' = 100.
Proof.
  apply (schedule_picks_best demo_sched). apply priorities_checked. vm_compute. reflexivity.
Defined.

(** [recharge] keeps every time slice between 0 and twice the priority, so a
    sleeping task cannot hoard processor time. *)
Lemma recharge_bound t :
  0 < priority t < 1073741824 -> 0 <= counter t <= 2 * priority t ->
  0 < s32 (Z.shiftr (counter t) 1 + priority t) <= 2 * priority t.
Proof.
  intros Hp Hc. rewrite Z.shiftr_div_pow2 by lia. change (2 ^ 1) with 2.
  pose proof (Z.div_mod (counter t) 2 ltac:(lia)).
  pose proof (Z.mod_pos_bound (counter t) 2 ltac:(lia)).
  rewrite s32_small; lia.
Qed.

Lemma slot_update s i t u :
  slot s i = Some t -> slot (s ⟪ task := array_set (task s) i (Some u) ⟫) i = Some u.
Proof.
  unfold slot. cbn [set_field task]. intros Ht. rewrite array_get_set_eq; [done|].
  destruct (array_get (task s) i) as [o|] eqn:Hg; [|done].
  by apply array_get_Some_bound in Hg.
Qed.
Lemma slot_update_ne s i j u :
  i <> j -> slot (s ⟪ task := array_set (task s) i u ⟫) j = slot s j.
Proof. unfold slot. cbn [set_field task]. intros. by rewrite array_get_set_ne. Qed.

Lemma update_task_run s i t f :
  slot s i = Some t ->
  update_task i f s = Done tt (s ⟪ task := array_set (task s) i (Some (f t)) ⟫).
Proof.
  intros Ht. unfold update_task, get_task, gets, mbind, kbind. by rewrite Ht.
Qed.
Lemma update_task_inv s i f s' :
  update_task i f s = Done tt s' ->
  exists t, slot s i = Some t /\ s' = s ⟪ task := array_set (task s) i (Some (f t)) ⟫.
Proof.
  unfold update_task, get_task, gets, mbind, kbind. intros H.
  destruct (slot s i) as [t|]; [|done]. exists t. by injection H as <-.
Qed.

Lemma get_current_inv (k k' : sched) t :
  get_current k = Done t k' -> slot k (current k) = Some t /\ k' = k.
Proof. intros H. do 2 done_step H. by apply deref_Done in H. Qed.
Lemma get_task_inv i (k k' : sched) t : get_task i k = Done t k' -> slot k i = Some t /\ k' = k.
Proof. intros H. done_step H. by apply deref_Done in H. Qed.


(** Whatever increment is asked for, [sys_nice] returns 0 and leaves the
    current task's priority positive, which is what [schedule] needs to
    terminate; no other task changes. *)
Theorem sys_nice_positive (s : sched) (t : task_struct) (increment : Z) :
  slot s (current s) = Some t -> 0 < priority t < 2147483648 ->
  wp (sys_nice increment) (fun r s' => r = 0 /\
    (exists t', slot s' (current s) = Some t' /\ 0 < priority t' < 2147483648 /\
       t' = t ⟪ priority := priority t' ⟫) /\
    forall j, j <> current s -> slot s' j = slot s j) s.
Proof.
  intros Ht Hp. unfold sys_nice, get_current, get_task.
  apply wp_bind, wp_bind, wp_gets. apply wp_bind, wp_gets.
  eapply wp_deref; [exact Ht|]. apply wp_bind, wp_when.
  - intros Hpos%Z.ltb_lt. unfold update_current. apply wp_bind, wp_gets.
    unfold wp. rewrite (update_task_run s (current s) t) by done.
    split; [done|]. split.
    + eexists. split; [by eapply slot_update|]. cbn. split; [|done].
      pose proof (s32_bound (priority t - increment)). lia.
    + intros j Hj. by apply slot_update_ne.
  - intros _. split; [done|]. split; [|done]. exists t. split_and!; [done|lia|lia|].
    by destruct t.
Qed.

Lemma sys_nice_positive_witness :
  wp (sys_nice (-5)) (fun r s' => r = 0 /\
    (exists t', slot s' 1 = Some t' /\ 0 < priority t' < 2147483648 /\
       t' = (demo_task 0 0 15 0) ⟪ priority := priority t' ⟫) /\
    forall j, j <> 1 -> slot s' j = slot demo_sched j) demo_sched.
Proof.
  apply (sys_nice_positive demo_sched (demo_task 0 0 15 0) (-5)); [reflexivity|].
  vm_compute. split; reflexivity.
Defined.

(** ** Wait queues as a transition system *)

(** Where a task that called [schedule] from one of the sleep routines will
    go on. *)
Inductive continuation : Type :=
| InSleepOn (tmp : option Z)
| InInterruptible (p : Z) (tmp : option Z).
Definition cont_tmp (k : continuation) : option Z :=
  match k with InSleepOn tmp => tmp | InInterruptible _ tmp => tmp end.

Record config : Type := Config { kernel_of : sched; conts : gmap Z continuation }.

(** The steps of the kernel that concern wait queues.  The current task runs
    a segment; [step_wake] is also taken by interrupt handlers, and
    [step_schedule] by the timer and by routines that give up the processor. *)
Inductive step : config -> config -> Prop :=
| step_sleep_on s s' K p tmp :
    K !! current s = None ->
    sleep_on_begin p s = Done tmp s' ->
    step (Config s K) (Config s' (<[current s := InSleepOn tmp]> K))
| step_sleep_on_end s s' K tmp :
    K !! current s = Some (InSleepOn tmp) ->
    sleep_on_end tmp s = Done tt s' ->
    step (Config s K) (Config s' (delete (current s) K))
| step_interruptible s s' K p tmp :
    K !! current s = None ->
    interruptible_sleep_on_begin p s = Done tmp s' ->
    step (Config s K) (Config s' (<[current s := InInterruptible p tmp]> K))
| step_interruptible_again s s' K p tmp :
    K !! current s = Some (InInterruptible p tmp) ->
    interruptible_sleep_on_resume p tmp s = Done false s' ->
    step (Config s K) (Config s' K)
| step_interruptible_end s s' K p tmp :
    K !! current s = Some (InInterruptible p tmp) ->
    interruptible_sleep_on_resume p tmp s = Done true s' ->
    step (Config s K) (Config s' (delete (current s) K))
| step_wake s s' K p :
    wake_up p s = Done tt s' ->
    step (Config s K) (Config s' K)
| step_schedule s s' K :
    K !! current s = None ->
    schedule s = Done tt s' ->
    step (Config s K) (Config s' K).

Definition is_sleeping (s : sched) (i : Z) : Prop :=
  exists t, slot s i = Some t /\ state t = TASK_UNINTERRUPTIBLE.

(** Who will be woken: the task at the head of a queue, by [wake_up]; and the
    task that another one remembers in its [tmp], provided that other one is
    not asleep itself or will be woken in turn. *)
Inductive will_wake (s : sched) (K : gmap Z continuation) : Z -> Prop :=
| ww_head p i : wait s !! p = Some i -> will_wake s K i
| ww_awake j k i :
    K !! j = Some k -> cont_tmp k = Some i -> ~ is_sleeping s j -> will_wake s K i
| ww_chain j k i :
    K !! j = Some k -> cont_tmp k = Some i -> will_wake s K j -> will_wake s K i.

(** The fragment of the transition system without
    [interruptible_sleep_on]. *)
Definition uninterruptible (K : gmap Z continuation) : Prop :=
  forall i k, K !! i = Some k -> exists tmp, k = InSleepOn tmp.
Definition ustep (c c' : config) : Prop := step c c' /\ uninterruptible (conts c').

Record queues_wf (c : config) : Prop := {
  qw_wake : forall i, is_sleeping (kernel_of c) i -> will_wake (kernel_of c) (conts c) i;
  qw_cont : forall i, is_sleeping (kernel_of c) i -> is_Some (conts c !! i);
  qw_current : ~ is_sleeping (kernel_of c) (current (kernel_of c));
  qw_idle : ~ is_sleeping (kernel_of c) 0
}.

(** [schedule] puts nobody into an uninterruptible sleep and takes nobody
    out of it. *)
Lemma state_wake_signalled j ts i t :
  mjoin (wake_signalled j ts !! i) = Some t -> state t = TASK_UNINTERRUPTIBLE ->
  exists t', mjoin (ts !! i) = Some t' /\ state t' = TASK_UNINTERRUPTIBLE.
Proof.
  unfold wake_signalled. intros Ht Hst.
  destruct i as [|i]; [destruct ts; [done|by exists t]|].
  rewrite lookup_but_first in Ht by lia.
  destruct (mjoin (ts !! S i)) as [u|]; [|done]. exists u. split; [done|].
  simpl in Ht. injection Ht as <-. revert Hst. unfold check_signal, check_alarm.
  repeat case_match; cbn; done.
Qed.
Lemma state_recharge ts i t :
  mjoin (recharge ts !! i) = Some t -> exists t', mjoin (ts !! i) = Some t' /\ state t' = state t.
Proof.
  destruct i as [|i]; [destruct ts; [done|by exists t]|].
  unfold recharge. rewrite lookup_but_first by lia.
  destruct (mjoin (ts !! S i)) as [u|]; [|done]. simpl. intros [= <-]. by exists u.
Qed.
Lemma choose_S fuel ts :
  choose (S fuel) ts =
    (let '(c, next) := pick ts 63 (-1) 0 in
     if truth c then Some (next, ts) else choose fuel (recharge ts)).
Proof. reflexivity. Qed.
Lemma choose_states fuel ts n ts' :
  choose fuel ts = Some (n, ts') ->
  forall i t, mjoin (ts' !! i) = Some t ->
  exists t', mjoin (ts !! i) = Some t' /\ state t' = state t.
Proof.
  revert ts. induction fuel as [|fuel IH]; intros ts Hch i t Ht; [done|].
  rewrite choose_S in Hch. destruct (pick ts 63 (-1) 0) as [c m].
  destruct (truth c); [injection Hch as -> ->; by exists t|].
  destruct (IH _ Hch i t Ht) as (u & Hu & <-). by apply state_recharge.
Qed.

Lemma slot_lookup s i : 0 <= i -> slot s i = mjoin (task s !! Z.to_nat i).
Proof. intros. unfold slot, array_get. by destruct (Z.leb_spec 0 i); [|lia]. Qed.
Lemma slot_bound s i t : slot s i = Some t -> 0 <= i.
Proof. unfold slot, array_get. by destruct (Z.leb_spec 0 i). Qed.

Lemma schedule_sleeping s s' i :
  schedule s = Done tt s' -> is_sleeping s' i -> is_sleeping s i.
Proof.
  unfold schedule. intros H (t & Ht & Hst).
  destruct (choose 3 _) as [[n ts]|] eqn:Hch; [|done].
  pose proof (slot_bound _ _ _ Ht) as Hi.
  assert (Hts : task s' = ts).
  { revert H. unfold switch_to, modify. intros [= <-]. by destruct (_ =? _). }
  rewrite slot_lookup, Hts in Ht by done.
  destruct (choose_states _ _ _ _ Hch _ _ Ht) as (u & Hu & Hust).
  destruct (state_wake_signalled _ _ _ u Hu) as (v & Hv & Hvst); [congruence|].
  exists v. by rewrite slot_lookup.
Qed.
Lemma schedule_wait s s' : schedule s = Done tt s' -> wait s' = wait s.
Proof.
  unfold schedule. destruct (choose 3 _) as [[n ts]|]; [|done].
  unfold switch_to, modify. intros [= <-]. by destruct (_ =? _).
Qed.

Lemma make_runnable_sleeping s s' i j :
  make_runnable i s = Done tt s' -> is_sleeping s' j -> is_sleeping s j /\ j <> i.
Proof.
  intros (t & Ht & ->)%update_task_inv (u & Hu & Hst).
  destruct (decide (i = j)) as [<-|Hne].
  - erewrite slot_update in Hu by done. injection Hu as <-. done.
  - rewrite slot_update_ne in Hu by done. split; [by exists u|done].
Qed.
Lemma make_runnable_wait s s' i : make_runnable i s = Done tt s' -> wait s' = wait s.
Proof. by intros (t & Ht & ->)%update_task_inv. Qed.
Lemma make_runnable_current s s' i : make_runnable i s = Done tt s' -> current s' = current s.
Proof. by intros (t & Ht & ->)%update_task_inv. Qed.

#[export] Instance is_sleeping_dec s i : Decision (is_sleeping s i).
Proof.
  destruct (slot s i) as [t|] eqn:Ht.
  - destruct (decide (state t = TASK_UNINTERRUPTIBLE)) as [|Hne]; [left; by exists t|].
    right. intros (u & Hu & ?). congruence.
  - right. intros (u & Hu & ?). congruence.
Defined.

(** The task that [schedule] switches to is not asleep. *)
Lemma choose_runnable fuel ts n ts' :
  choose fuel ts = Some (n, ts') ->
  n = 0 \/ exists i t, n = Z.of_nat i /\ runnable ts' i t.
Proof.
  revert ts. induction fuel as [|fuel IH]; intros ts Hch; [done|].
  rewrite choose_S in Hch. pose proof (pick_spec ts 63 (-1) 0) as Hp.
  destruct (pick ts 63 (-1) 0) as [c m].
  destruct (truth c); [injection Hch as -> ->|by apply (IH (recharge ts))].
  destruct Hp as (_ & _ & [[_ ->]|(_ & i & t & -> & _ & Hr & _)]); [by left|right; eauto].
Qed.
Lemma schedule_current s s' :
  schedule s = Done tt s' -> ~ is_sleeping s 0 -> ~ is_sleeping s' (current s').
Proof.
  intros Hs H0. pose proof (schedule_sleeping s s' 0 Hs) as H0'.
  unfold schedule in Hs. destruct (choose 3 _) as [[n ts]|] eqn:Hch; [|done].
  assert (Hcur : task s' = ts /\ current s' = n).
  { revert Hs. unfold switch_to, modify. intros [= <-].
    split; by destruct (Z.eqb_spec (current s) n). }
  destruct Hcur as [Hts ->].
  destruct (choose_runnable _ _ _ _ Hch) as [->|(i & t & -> & Ht & Hst)]; [by auto|].
  intros (u & Hu & Hust). rewrite slot_lookup, Hts, Nat2Z.id in Hu by lia.
  rewrite Ht in Hu. injection Hu as <-. by rewrite Hst in Hust.
Qed.

(** Steps that only wake tasks: the sleepers that remain keep their wakers. *)
Lemma will_wake_mono s s' K K' :
  (forall i, is_sleeping s' i -> is_sleeping s i) ->
  (forall p i, wait s !! p = Some i -> is_sleeping s' i -> will_wake s' K' i) ->
  (forall j k i, K !! j = Some k -> cont_tmp k = Some i -> is_sleeping s' i -> K' !! j = Some k) ->
  forall i, will_wake s K i -> is_sleeping s' i -> will_wake s' K' i.
Proof.
  intros Hsl Hhead Hk i Hw. induction Hw as [p i Hp|j k i Hj Ht Hns|j k i Hj Ht Hw IH];
    intros Hi.
  - by apply (Hhead p).
  - eapply ww_awake; [by eapply Hk|done|]. by intros ?%Hsl.
  - destruct (decide (is_sleeping s' j)) as [Hs|Hns].
    + eapply ww_chain; [by eapply Hk|done|by apply IH].
    + eapply ww_awake; [by eapply Hk|done|done].
Qed.
Lemma will_wake_same s s' K :
  (forall i, is_sleeping s' i -> is_sleeping s i) -> wait s' = wait s ->
  forall i, will_wake s K i -> is_sleeping s' i -> will_wake s' K i.
Proof.
  intros Hsl Hw. apply will_wake_mono; [done| |done].
  intros p i Hp _. apply (ww_head _ _ p). by rewrite Hw.
Qed.

Lemma sleep_on_begin_inv p s tmp s' :
  sleep_on_begin p s = Done tmp s' ->
  current s <> 0 /\ tmp = wait s !! p /\ wait s' = <[p := current s]> (wait s) /\
  (forall i, is_sleeping s' i -> i = current s \/ is_sleeping s i) /\
  (~ is_sleeping s 0 -> ~ is_sleeping s' (current s') /\ ~ is_sleeping s' 0).
Proof.
  unfold sleep_on_begin, sleep_begin, update_current, gets, modify, mbind, kbind.
  cbn [current set_field].
  destruct (Z.eqb_spec (current s) 0) as [|Hne]; [done|].
  cbn [current set_field].
  destruct (update_task _ _ _) as [[] s1| | | |] eqn:Hu; try done.
  destruct (schedule s1) as [[] s2| | | |] eqn:Hs; try done. intros [= <- <-].
  apply update_task_inv in Hu as (t & Ht & ->).
  assert (Hsl : forall i, is_sleeping s2 i -> i = current s \/ is_sleeping s i).
  { intros i (u & Hu & Hst)%(schedule_sleeping _ _ _ Hs).
    destruct (decide (current s = i)) as [|Hi]; [by left|right].
    rewrite slot_update_ne in Hu by done. by exists u. }
  split_and!; [done|done| |done|].
  - by apply schedule_wait in Hs.
  - intros H0. split.
    + apply (schedule_current _ _ Hs). intros (u & Hu & Hst).
      rewrite slot_update_ne in Hu by done. apply H0. by exists u.
    + intros H0'. destruct (Hsl 0 H0') as [Heq|]; [by destruct Hne|done].
Qed.

Lemma wake_tmp_inv tmp s s' :
  wake_tmp tmp s = Done tt s' ->
  wait s' = wait s /\ current s' = current s /\
  forall i, is_sleeping s' i -> is_sleeping s i /\ tmp <> Some i.
Proof.
  destruct tmp as [h|]; simpl; [|by intros [= <-]]. intros H.
  split_and!; [by eapply make_runnable_wait|by eapply make_runnable_current|].
  intros i Hi. destruct (make_runnable_sleeping _ _ _ _ H Hi). split; congruence.
Qed.

Lemma wake_up_inv p s s' :
  wake_up p s = Done tt s' ->
  current s' = current s /\
  (forall i, is_sleeping s' i -> is_sleeping s i /\ wait s !! p <> Some i) /\
  (forall q, q <> p -> wait s' !! q = wait s !! q).
Proof.
  unfold wake_up, gets, modify, mbind, kbind.
  destruct (wait s !! p) as [h|] eqn:Hp; [|intros [= <-]; by split_and!].
  destruct (make_runnable h s) as [[] s1| | | |] eqn:Hm; try done. intros [= <-].
  split_and!.
  - by apply make_runnable_current in Hm.
  - intros i Hi. destruct (make_runnable_sleeping _ _ _ i Hm Hi). split; congruence.
  - intros q Hq. cbn [wait set_field]. rewrite lookup_delete_ne by done.
    by rewrite (make_runnable_wait _ _ _ Hm).
Qed.

(** Each step of the uninterruptible fragment keeps the queues well formed. *)
Lemma sleep_on_keeps s s' K p tmp :
  queues_wf (Config s K) -> K !! current s = None -> sleep_on_begin p s = Done tmp s' ->
  queues_wf (Config s' (<[current s := InSleepOn tmp]> K)).
Proof.
  intros [Hw Hc Hcur H0] HK (Hne & -> & Hwait & Hsl & Hidle)%sleep_on_begin_inv.
  cbn in *. destruct (Hidle H0) as [Hcur' H0'].
  assert (Hhead : forall K', will_wake s' K' (current s)).
  { intros K'. apply (ww_head _ _ p). rewrite Hwait. apply lookup_insert_eq. }
  split; cbn; try done.
  - intros i Hi. destruct (decide (i = current s)) as [->|Hic]; [done|].
    destruct (Hsl i Hi) as [|Hi0]; [done|].
    clear Hic. specialize (Hw i Hi0). clear Hi0.
    induction Hw as [q i Hq|j k i Hj Ht Hns|j k i Hj Ht Hw IH].
    + destruct (decide (q = p)) as [->|Hqp].
      * eapply (ww_chain _ _ (current s)); [apply lookup_insert_eq| |done]. done.
      * apply (ww_head _ _ q). by rewrite Hwait, lookup_insert_ne.
    + destruct (decide (j = current s)) as [->|Hj']; [congruence|].
      apply (ww_awake _ _ j k); [by rewrite lookup_insert_ne|done|].
      intros Hs%Hsl. by destruct Hs.
    + destruct (decide (j = current s)) as [->|Hj']; [congruence|].
      destruct (decide (is_sleeping s' j)) as [Hs|Hs].
      * apply (ww_chain _ _ j k); [by rewrite lookup_insert_ne|done|by apply IH].
      * apply (ww_awake _ _ j k); [by rewrite lookup_insert_ne|done|done].
  - intros i Hi. destruct (decide (current s = i)) as [->|Hic].
    + by rewrite lookup_insert_eq.
    + rewrite lookup_insert_ne by done. apply Hc. by destruct (Hsl i Hi).
Qed.

Lemma sleep_on_end_keeps s s' K tmp :
  queues_wf (Config s K) -> K !! current s = Some (InSleepOn tmp) ->
  sleep_on_end tmp s = Done tt s' -> queues_wf (Config s' (delete (current s) K)).
Proof.
  intros [Hw Hc Hcur H0] HK (Hwait & Hcs & Hsl)%wake_tmp_inv. cbn in *.
  split; cbn.
  - intros i Hi. destruct (Hsl i Hi) as [Hi0 _]. specialize (Hw i Hi0). clear Hi0.
    revert Hw Hi. apply will_wake_mono.
    + intros j Hj. by apply Hsl.
    + intros q j Hq _. apply (ww_head _ _ q). by rewrite Hwait.
    + intros j k l Hj Ht Hl. destruct (decide (current s = j)) as [<-|].
      * rewrite HK in Hj. injection Hj as <-. by destruct (Hsl l Hl).
      * by rewrite lookup_delete_ne.
  - intros i Hi. destruct (Hsl i Hi) as [Hi0 _].
    rewrite lookup_delete_ne; [by apply Hc|]. congruence.
  - rewrite Hcs. by intros [? _]%Hsl.
  - by intros [? _]%Hsl.
Qed.

Lemma wake_up_keeps s s' K p :
  queues_wf (Config s K) -> wake_up p s = Done tt s' -> queues_wf (Config s' K).
Proof.
  intros [Hw Hc Hcur H0] (Hcs & Hsl & Hwait)%wake_up_inv. cbn in *.
  split; cbn.
  - intros i Hi. destruct (Hsl i Hi) as [Hi0 _]. specialize (Hw i Hi0). clear Hi0.
    revert Hw Hi. apply will_wake_mono; [intros j Hj; by apply Hsl| |done].
    intros q j Hq Hj. destruct (decide (q = p)) as [->|Hqp]; [by destruct (Hsl j Hj)|].
    apply (ww_head _ _ q). by rewrite Hwait.
  - intros i Hi. apply Hc. by apply Hsl.
  - rewrite Hcs. by intros [? _]%Hsl.
  - by intros [? _]%Hsl.
Qed.

Lemma schedule_keeps s s' K :
  queues_wf (Config s K) -> schedule s = Done tt s' -> queues_wf (Config s' K).
Proof.
  intros [Hw Hc Hcur H0] Hs. cbn in *.
  assert (Hsl : forall i, is_sleeping s' i -> is_sleeping s i)
    by (intros i; by apply schedule_sleeping).
  split; cbn; [|by auto..|by eapply schedule_current|by intros ?%Hsl].
  intros i Hi. specialize (Hw i (Hsl i Hi)). revert Hw Hi.
  apply will_wake_same; [done|by apply schedule_wait].
Qed.

Lemma ustep_keeps c c' : ustep c c' -> uninterruptible (conts c) ->
  queues_wf c -> queues_wf c'.
Proof.
  intros [Hstep Hu'] Hu Hwf. destruct Hstep; cbn in *.
  - by eapply sleep_on_keeps.
  - by eapply sleep_on_end_keeps.
  - destruct (Hu' (current s) (InInterruptible p tmp)) as [? [=]]. apply lookup_insert_eq.
  - by destruct (Hu _ _ H) as [? [=]].
  - by destruct (Hu _ _ H) as [? [=]].
  - by eapply wake_up_keeps.
  - by eapply schedule_keeps.
Qed.

(** C10: no wake-up is lost among tasks that use [sleep_on]: in every state
    that the kernel reaches from one in which nobody sleeps, every task in an
    uninterruptible sleep hangs on a finite chain of [tmp] variables that
    starts at the head of a wait queue or at a task that is not asleep and
    will wake the next one.  The current task and the idle task are never
    asleep. *)
Theorem no_lost_wakeup (s : sched) (c : config) :
  (forall i, ~ is_sleeping s i) ->
  rtc ustep (Config s ∅) c ->
  (forall i, is_sleeping (kernel_of c) i -> will_wake (kernel_of c) (conts c) i) /\
  ~ is_sleeping (kernel_of c) (current (kernel_of c)) /\ ~ is_sleeping (kernel_of c) 0.
Proof.
  intros Hs Hreach.
  assert (H : uninterruptible (conts c) /\ queues_wf c).
  { remember (Config s ∅) as c0 eqn:Hc0.
    assert (Hinit : uninterruptible (conts c0) /\ queues_wf c0).
    { subst c0. split; [intros i k Hk; cbn in Hk; by rewrite lookup_empty in Hk|].
      split; cbn; try done; intros i Hi; by destruct (Hs i). }
    clear Hc0 Hs. induction Hreach as [|c0 c1 c2 Hstep _ IH]; [done|].
    apply IH. destruct Hinit as [Hu Hwf]. split; [apply Hstep|by eapply ustep_keeps]. }
  destruct H as [_ [Hw _ Hcur H0]]. by split_and!.
Qed.

(** Four tasks beside the idle task, all runnable. *)
Definition demo_waiters : sched :=
  Sched (demo_tasks_of [INIT_TASK 0 0; demo_task 0 9 15 0; demo_task 0 8 15 0;
                        demo_task 0 7 15 0; demo_task 0 6 15 0])
    1 100 0 None false [] [] ∅.
Lemma demo_awake : forall i, ~ is_sleeping demo_waiters i.
Proof.
  intros i (t & Ht & Hst). unfold slot, array_get in Ht.
  destruct (0 <=? i); [|done].
  assert (Hall : Forall (fun o : option task_struct =>
    match o with Some t => state t = TASK_RUNNING | None => True end) (task demo_waiters))
    by (repeat constructor).
  destruct (task demo_waiters !! Z.to_nat i) as [[u|]|] eqn:Hlk; try done.
  pose proof (proj1 (Forall_lookup _ _) Hall _ _ Hlk) as Hu. cbn in Ht, Hu.
  injection Ht as <-. rewrite Hu in Hst. done.
Qed.

Lemma no_lost_wakeup_witness :
  let s1 := final (sleep_on_begin 7) demo_waiters in
  let c := Config s1 {[ 1 := InSleepOn None ]} in
  rtc ustep (Config demo_waiters ∅) c /\
  (forall i, is_sleeping s1 i -> will_wake s1 {[ 1 := InSleepOn None ]} i) /\
  ~ is_sleeping s1 (current s1) /\ ~ is_sleeping s1 0.
Proof.
  intros s1 c.
  assert (Hr : rtc ustep (Config demo_waiters ∅) c).
  { apply rtc_once. split.
    - apply (step_sleep_on demo_waiters s1 ∅ 7 None); [done|].
      concrete_run.
    - intros i k Hk. cbn in Hk. apply lookup_singleton_Some in Hk as [_ <-]. by eexists. }
  split; [exact Hr|]. exact (no_lost_wakeup demo_waiters c demo_awake Hr).
Defined.

(** A task inside [interruptible_sleep_on], asleep, that no queue and no other
    task remembers: only a signal can wake it. *)
Definition stranded (c : config) (i p : Z) : Prop :=
  (exists tmp, conts c !! i = Some (InInterruptible p tmp)) /\
  (exists t, slot (kernel_of c) i = Some t /\ state t = TASK_INTERRUPTIBLE) /\
  (forall q, wait (kernel_of c) !! q = None) /\
  map_Forall (fun _ k => cont_tmp k <> Some i) (conts c).

Definition trace_1 := final (interruptible_sleep_on_begin 7) demo_waiters.
Definition trace_2 := final (interruptible_sleep_on_begin 7) trace_1.
Definition trace_3 := final (wake_up 7) trace_2.
Definition trace_4 := final (interruptible_sleep_on_begin 7) trace_3.
Definition trace_5 := final (interruptible_sleep_on_resume 7 (Some 1)) trace_4.
Definition trace_6 := final (interruptible_sleep_on_resume 7 None) trace_5.

#[local] Strategy expand [trace_1 trace_2 trace_3 trace_4 trace_5 trace_6].

(** With [interruptible_sleep_on] wake-ups do get lost.  Tasks 1 and 2
    sleep on a queue, [wake_up] makes task 2 runnable, and before it runs task
    3 goes to sleep on the same queue: task 2 then wakes task 3 and sleeps
    again, and task 3 returns and clears the queue ([*p=NULL]) although
    tasks 1 and 2 still sleep in it; task 2 is stranded. *)
Theorem interruptible_wakeup_lost :
  exists c, rtc step (Config demo_waiters ∅) c /\ stranded c 2 7.
Proof.
  set (K1 := <[1 := InInterruptible 7 None]> (∅ : gmap Z continuation)).
  set (K2 := <[2 := InInterruptible 7 (Some 1)]> K1).
  set (K3 := <[3 := InInterruptible 7 None]> K2).
  exists (Config trace_6 (delete 3 K3)). split.
  - eapply rtc_l; [apply (step_interruptible demo_waiters trace_1 ∅ 7 None)|].
    1: done. 1: concrete_run.
    eapply rtc_l; [apply (step_interruptible trace_1 trace_2 K1 7 (Some 1))|].
    1: by vm_compute. 1: concrete_run.
    eapply rtc_l; [apply (step_wake trace_2 trace_3 K2 7); concrete_run|].
    eapply rtc_l; [apply (step_interruptible trace_3 trace_4 K2 7 None)|].
    1: by vm_compute. 1: concrete_run.
    eapply rtc_l; [apply (step_interruptible_again trace_4 trace_5 K3 7 (Some 1))|].
    1: by vm_compute. 1: concrete_run.
    apply rtc_once. apply (step_interruptible_end trace_5 trace_6 K3 7 None).
    1: by vm_compute. concrete_run.
  - split_and!.
    + by exists (Some 1).
    + eexists. split; by vm_compute.
    + intros q. assert (wait (kernel_of (Config trace_6 (delete 3 K3))) = ∅) as -> by (by vm_compute).
      apply lookup_empty.
    + cbn [conts]. apply map_Forall_to_list. vm_compute. repeat constructor; by intros [=].
Qed.

(** ** The coprocessor *)

(** C12: the lazy switch of the coprocessor is transparent: when task [a],
    which has used it, owns it and task [b] takes it over (for the first time
    or not), [a] finds the registers as they were when it gets it back, and
    whatever [b] had computed is kept in [b]'s task structure. *)
Theorem math_state_roundtrip (fninit : list Z -> list Z) (s : sched) (a b : Z)
    (ta tb : task_struct) (regs : list Z) :
  a <> b -> slot s a = Some ta -> slot s b = Some tb ->
  last_task_used_math s = Some a -> current s = b -> truth (used_math ta) = true ->
  wp (math_state_restore fninit ;;
      modify (fun s => s ⟪ fpu := regs ⟫ ⟪ current := a ⟫) ;;
      math_state_restore fninit)
    (fun _ s' => fpu s' = fpu s /\ last_task_used_math s' = Some a /\
       exists tb', slot s' b = Some tb' /\ i387 (tss tb') = regs /\ truth (used_math tb') = true) s.
Proof.
  intros Hab Ha Hb Hl Hc Hused.
  set (ta' := ta ⟪ tss := (tss ta) ⟪ i387 := fpu s ⟫ ⟫).
  set (s1 := s ⟪ task := array_set (task s) a (Some ta') ⟫).
  assert (Hs1 : update_task a (fun t => t ⟪ tss := (tss t) ⟪ i387 := fpu s ⟫ ⟫) s = Done tt s1)
    by (exact (update_task_run s a ta _ Ha)).
  assert (Ha1 : slot s1 a = Some ta') by (by eapply slot_update).
  assert (Hb1 : slot s1 b = Some tb) by (unfold s1; by rewrite slot_update_ne).
  assert (Hfirst : wp (math_state_restore fninit) (fun _ s' =>
    slot s' a = Some ta' /\ last_task_used_math s' = Some b /\
    exists tb', slot s' b = Some tb' /\ truth (used_math tb') = true) s).
  { unfold math_state_restore. apply wp_bind, wp_gets.
    rewrite bool_decide_eq_false_2 by congruence. rewrite Hl.
    apply wp_bind, wp_bind. unfold wp at 1. rewrite Hs1. apply wp_modify.
    apply wp_bind, wp_modify. apply wp_bind. unfold get_current. apply wp_bind, wp_gets.
    cbn [set_field current task]. unfold get_task at 1.
    apply wp_bind, wp_gets. eapply wp_deref; [cbn; rewrite Hc; exact Hb1|].
    destruct (truth (used_math tb)) eqn:Htb.
    - apply wp_modify. split_and!; [done|cbn; congruence|]. by exists tb.
    - apply wp_bind, wp_modify. unfold update_current. apply wp_bind, wp_gets.
      cbn [set_field current]. change (current s1) with (current s). rewrite Hc.
      unfold wp. erewrite update_task_run by exact Hb1. split_and!.
      + rewrite slot_update_ne by done. exact Ha1.
      + cbn. congruence.
      + eexists. split; [eapply slot_update; exact Hb1|done]. }
  apply wp_bind. eapply wp_mono; [exact Hfirst|]. clear Hfirst Hs1 Ha1 Hb1.
  intros [] s2 (Ha2 & Hl2 & tb' & Hb2 & Hub).
  apply wp_bind, wp_modify. unfold math_state_restore.
  apply wp_bind, wp_gets. cbn [set_field last_task_used_math current fpu].
  rewrite Hl2, bool_decide_eq_false_2 by congruence.
  apply wp_bind, wp_bind. unfold wp at 1.
  erewrite update_task_run by exact Hb2. apply wp_modify. apply wp_bind, wp_modify.
  apply wp_bind. unfold get_current. apply wp_bind, wp_gets.
  cbn [set_field current task]. unfold get_task. apply wp_bind, wp_gets.
  eapply wp_deref.
  { rewrite <- Ha2. exact (slot_update_ne _ b a _ (not_eq_sym Hab)). }
  unfold ta' at 1. cbn [set_field used_math]. rewrite Hused. apply wp_modify.
  split_and!; [done|done|]. eexists. split; [eapply slot_update; exact Hb2|]. done.
Qed.

Lemma math_state_roundtrip_witness :
  exists s, wp (math_state_restore (fun _ => [0]) ;;
      modify (fun s => s ⟪ fpu := [7] ⟫ ⟪ current := 1 ⟫) ;;
      math_state_restore (fun _ => [0]))
    (fun _ s' => fpu s' = fpu s /\ last_task_used_math s' = Some 1 /\
       exists tb', slot s' 2 = Some tb' /\ i387 (tss tb') = [7] /\ truth (used_math tb') = true) s.
Proof.
  exists (Sched (demo_tasks_of [INIT_TASK 0 0; (demo_task 0 9 15 0) ⟪ used_math := 1 ⟫;
            demo_task 0 8 15 0]) 2 0 0 (Some 1) true [3; 4] [] ∅).
  eapply (math_state_roundtrip (fun _ => [0]) _ 1 2);
    [discriminate|reflexivity|reflexivity|reflexivity|reflexivity|reflexivity].
Defined.
