(* ===== verification/Timer.v ===== *)
(** * Timers and the clock interrupt ([kernel/sched.c], second half)

    The floppy motor timers, the list of pending timers behind [add_timer],
    and [do_timer].  The timer list is the array [timer_list] with [next]
    pointers as indices; a function pointer is a number, and calling it is a
    parameter of the model.  Port output is recorded in [outputs]. *)

From S2P Require Import Prelude Task Sched.

Definition TIME_REQUESTS : Z := 64.
Definition FD_DOR : Z := 0x3f2.

Record timer : Type := Timer {
  t_jiffies : Z; t_fn : option Z; t_next : option Z
}.
#[export] Instance timer_rebuild : Rebuild timer :=
  fun t => Timer (t_jiffies t) (t_fn t) (t_next t).

Inductive output : Type :=
| Outb (v port : Z)
| Sysbeepstop.

Record clock : Type := Clock {
  sch : sched;
  wait_motor : list Z;            (* the addresses of wait_motor[0..3] *)
  mon_timer : list Z;
  moff_timer : list Z;
  current_DOR : Z;
  selected : Z;                   (* of floppy.c *)
  timer_list : list timer;
  next_timer : option Z;
  beepcount : Z;                  (* of console.c *)
  outputs : list output
}.
#[export] Instance clock_rebuild : Rebuild clock := fun s =>
  Clock (sch s) (wait_motor s) (mon_timer s) (moff_timer s) (current_DOR s) (selected s)
    (timer_list s) (next_timer s) (beepcount s) (outputs s).

(** A routine of the scheduler, run on the scheduler's part of the state. *)
Definition on_sched {A} (m : KM sched A) : KM clock A :=
  zoom sch (fun k s => s ⟪ sch := k ⟫) m.

Definition emit (o : output) : KM clock unit :=
  modify (fun s => s ⟪ outputs := outputs s ++ [o] ⟫).

(** ** Floppy motors *)

Definition ticks_to_floppy_on (nr : Z) : KM clock Z :=
  let mask := u8 (Z.shiftl 0x10 nr) in
  (if 3 <? nr then panic "floppy_on: nr>3" else mret tt) ;;
  modify (fun s => s ⟪ moff_timer := array_set (moff_timer s) nr 10000 ⟫) ;;
  s ← gets (fun s => s);
  let mask := Z.lor mask (current_DOR s) in
  let mask := if truth (selected s) then mask else Z.lor (Z.land mask 0xFC) nr in
  kwhen (negb (mask =? current_DOR s))
    (emit (Outb mask FD_DOR) ;;
     m ← read_at (mon_timer s) nr;
     (if truth (Z.land (Z.lxor mask (current_DOR s)) 0xf0)
      then modify (fun s => s ⟪ mon_timer := array_set (mon_timer s) nr (Z.quot HZ 2) ⟫)
      else kwhen (m <? 2)
             (modify (fun s => s ⟪ mon_timer := array_set (mon_timer s) nr 2 ⟫))) ;;
     modify (fun s => s ⟪ current_DOR := mask ⟫)) ;;
  s ← gets (fun s => s);
  read_at (mon_timer s) nr.

Definition floppy_off (nr : Z) : KM clock unit :=
  modify (fun s => s ⟪ moff_timer := array_set (moff_timer s) nr (3 * HZ) ⟫).

(** One turn of the loop of [do_floppy_timer]. *)
Definition floppy_timer_one (i : Z) : KM clock unit :=
  let mask := u8 (Z.shiftl 0x10 i) in
  s ← gets (fun s => s);
  if negb (truth (Z.land mask (current_DOR s))) then mret tt
  else
    on ← read_at (mon_timer s) i;
    off ← read_at (moff_timer s) i;
    if truth on then
      modify (fun s => s ⟪ mon_timer := array_set (mon_timer s) i (on - 1) ⟫) ;;
      kwhen (on - 1 =? 0) (w ← read_at (wait_motor s) i; on_sched (wake_up w))
    else if negb (truth off) then
      modify (fun s => s ⟪ current_DOR := Z.land (current_DOR s) (Z.land (Z.lnot mask) 0xff) ⟫) ;;
      s ← gets (fun s => s);
      emit (Outb (current_DOR s) FD_DOR)
    else modify (fun s => s ⟪ moff_timer := array_set (moff_timer s) i (off - 1) ⟫).
Definition do_floppy_timer : KM clock unit := kfor (upto 4) floppy_timer_one.

(** ** The timer list *)

Definition get_timer (i : Z) : KM clock timer := l ← gets timer_list; read_at l i.
Definition put_timer (i : Z) (t : timer) : KM clock unit :=
  modify (fun s => s ⟪ timer_list := array_set (timer_list s) i t ⟫).

(** The index of the first free entry. *)
Fixpoint free_timer (l : list timer) (i : Z) : option Z :=
  match l with
  | [] => None
  | t :: l => match t_fn t with None => Some i | Some _ => free_timer l (i + 1) end
  end.

(** [while (p->next && p->next->jiffies < p->jiffies)]: the new entry [p]
    and its successor exchange their contents.  The list has at most
    [TIME_REQUESTS] entries. *)
Definition sift_step (p : Z) : KM clock (Z + unit) :=
  t ← get_timer p;
  match t_next t with
  | None => mret (inr tt)
  | Some n =>
      u ← get_timer n;
      if t_jiffies u <? t_jiffies t then
        let j := s32 (t_jiffies t - t_jiffies u) in
        put_timer p (t ⟪ t_fn := t_fn u ⟫ ⟪ t_jiffies := t_jiffies u ⟫) ;;
        put_timer n (u ⟪ t_fn := t_fn t ⟫ ⟪ t_jiffies := j ⟫) ;;
        mret (inl n)
      else mret (inr tt)
  end.

Section calls.
(** What a timer function does when it is called. *)
Variable call : Z -> KM clock unit.

Definition add_timer (jiffies : Z) (fn : option Z) : KM clock unit :=
  match fn with
  | None => mret tt
  | Some f =>
      if jiffies <=? 0 then call f
      else
        l ← gets timer_list;
        match free_timer l 0 with
        | None => panic "No more time requests free"
        | Some p =>
            next ← gets next_timer;
            put_timer p (Timer jiffies fn next) ;;
            modify (fun s => s ⟪ next_timer := Some p ⟫) ;;
            kloop 65 sift_step p
        end
  end.

(** [while (next_timer && next_timer->jiffies <= 0)] *)
Definition expire_step (_ : unit) : KM clock (unit + unit) :=
  n ← gets next_timer;
  match n with
  | None => mret (inr tt)
  | Some i =>
      t ← get_timer i;
      if t_jiffies t <=? 0 then
        put_timer i (t ⟪ t_fn := None ⟫) ;;
        modify (fun s => s ⟪ next_timer := t_next t ⟫) ;;
        f ← deref (t_fn t);
        call f ;;
        mret (inl tt)
      else mret (inr tt)
  end.

(** The clock interrupt; [fuel] bounds the number of timers that expire in
    one tick. *)
Definition do_timer (fuel : nat) (cpl : Z) : KM clock unit :=
  b ← gets beepcount;
  kwhen (truth b)
    (modify (fun s => s ⟪ beepcount := b - 1 ⟫) ;;
     kwhen (b - 1 =? 0) (emit Sysbeepstop)) ;;
  on_sched (update_current (fun t =>
    if truth cpl then t ⟪ utime := s32 (utime t + 1) ⟫
    else t ⟪ stime := s32 (stime t + 1) ⟫)) ;;
  n ← gets next_timer;
  match n with
  | None => mret tt
  | Some i =>
      t ← get_timer i;
      put_timer i (t ⟪ t_jiffies := s32 (t_jiffies t - 1) ⟫) ;;
      kloop fuel expire_step tt
  end ;;
  dor ← gets current_DOR;
  kwhen (truth (Z.land dor 0xf0)) do_floppy_timer ;;
  on_sched (update_current (fun t => t ⟪ counter := s32 (counter t - 1) ⟫)) ;;
  t ← on_sched get_current;
  if 0 <? counter t then mret tt
  else
    on_sched (update_current (fun t => t ⟪ counter := 0 ⟫)) ;;
    if negb (truth cpl) then mret tt else on_sched schedule.
End calls.

(** ** The timer list as a list of delays *)

(** [chain l n view]: from entry [n] on, the linked list holds [view], the
    pairs of delay and function in order, each delay counted from the expiry
    of the previous entry. *)
Inductive chain (l : list timer) : option Z -> list Z -> list (Z * Z) -> Prop :=
| chain_nil : chain l None [] []
| chain_cons i t f ix view :
    array_get l i = Some t -> t_fn t = Some f -> i ∉ ix ->
    chain l (t_next t) ix view ->
    chain l (Some i) (i :: ix) ((t_jiffies t, f) :: view).

(** The delays that the sifting loop leaves behind; [sifted_split] says what
    they are. *)
Fixpoint sifted (j f : Z) (view : list (Z * Z)) : list (Z * Z) :=
  match view with
  | [] => [(j, f)]
  | (j1, f1) :: rest =>
      if j1 <? j then (j1, f1) :: sifted (j - j1) f rest else (j, f) :: view
  end.

(** The ticks from now at which the entries expire. *)
Fixpoint deadlines (from : Z) (view : list (Z * Z)) : list (Z * Z) :=
  match view with
  | [] => []
  | (j, f) :: rest => (from + j, f) :: deadlines (from + j) rest
  end.

Lemma chain_frame l n ix view i t :
  chain l n ix view -> i ∉ ix -> chain (array_set l i t) n ix view.
Proof.
  induction 1 as [|k u f ix view Hg Hf Hk Hc IH]; intros Hi; [constructor|].
  apply not_elem_of_cons in Hi as [Hne Hi].
  econstructor; [by rewrite array_get_set_ne|done|done|by apply IH].
Qed.

Lemma free_timer_Some l k i :
  0 <= k -> free_timer l k = Some i ->
  k <= i /\ exists t, array_get l (i - k) = Some t /\ t_fn t = None.
Proof.
  revert k. induction l as [|t l IH]; intros k Hk; [done|]. cbn.
  destruct (t_fn t) eqn:Ht.
  - intros H. destruct (IH (k + 1) ltac:(lia) H) as (Hle & u & Hu & Hn).
    split; [lia|]. exists u. split; [|done].
    unfold array_get in *. destruct (Z.leb_spec 0 (i - (k + 1))); [|done].
    destruct (Z.leb_spec 0 (i - k)); [|lia].
    by replace (Z.to_nat (i - k)) with (S (Z.to_nat (i - (k + 1)))) by lia.
  - intros [= <-]. split; [lia|]. exists t. split; [|done].
    by replace (k - k) with 0 by lia.
Qed.
Lemma chain_used l n ix view i t :
  chain l n ix view -> i ∈ ix -> array_get l i = Some t -> t_fn t <> None.
Proof.
  induction 1 as [|k u f ix view Hg Hf Hk Hc IH]; [by intros ?%not_elem_of_nil|].
  intros [->|Hi]%elem_of_cons Ht; [congruence|by apply IH].
Qed.

Lemma chain_length l n ix view : chain l n ix view -> length ix = length view.
Proof. induction 1; simpl; congruence. Qed.

Lemma chain_NoDup l n ix view : chain l n ix view -> NoDup ix.
Proof. induction 1; constructor; done. Qed.
Lemma chain_indices l n ix view :
  chain l n ix view -> forall i, i ∈ ix -> 0 <= i < Z.of_nat (length l).
Proof.
  induction 1 as [|k u f ix view Hg Hf Hk Hc IH]; intros i; [by intros ?%not_elem_of_nil|].
  intros [->|Hi]%elem_of_cons; [by eapply array_get_Some_bound|by apply IH].
Qed.
(** There are never more pending timers than entries. *)
Lemma chain_short l n ix view : chain l n ix view -> (length ix <= length l)%nat.
Proof.
  intros Hc.
  assert (Hsub : ix ⊆+ seqZ 0 (Z.of_nat (length l))).
  { apply NoDup_submseteq; [by eapply chain_NoDup|]. intros i Hi.
    apply elem_of_seqZ. pose proof (chain_indices _ _ _ _ Hc i Hi). lia. }
  apply submseteq_length in Hsub. rewrite length_seqZ in Hsub. lia.
Qed.

Definition delay_ok (e : Z * Z) : Prop := 0 <= e.1 < 2147483648.

(** The values that [sift_step] exchanges. *)
Lemma sift_step_run s p t :
  array_get (timer_list s) p = Some t ->
  sift_step p s =
    match t_next t with
    | None => Done (inr tt) s
    | Some n =>
        match array_get (timer_list s) n with
        | None => Fault s
        | Some u =>
            if t_jiffies u <? t_jiffies t then
              Done (inl n) (s ⟪ timer_list :=
                array_set (array_set (timer_list s) p (Timer (t_jiffies u) (t_fn u) (t_next t)))
                  n (Timer (s32 (t_jiffies t - t_jiffies u)) (t_fn t) (t_next u)) ⟫)
            else Done (inr tt) s
        end
    end.
Proof.
  intros Ht. unfold sift_step, get_timer, put_timer, read_at, gets, modify, mbind, kbind.
  rewrite Ht. cbn [deref mret kret]. destruct (t_next t) as [n|] eqn:Hn; [|done].
  destruct (array_get (timer_list s) n) as [u|]; [|done]. cbn [deref mret kret].
  destruct (t_jiffies u <? t_jiffies t); [|done]. cbn [set_field].
  by rewrite <- Hn.
Qed.

Lemma chain_inv l n ix j f view :
  chain l n ix ((j, f) :: view) ->
  exists p ix' t, n = Some p /\ ix = p :: ix' /\ array_get l p = Some t /\
    t = Timer j (Some f) (t_next t) /\ (p ∉ ix') /\ chain l (t_next t) ix' view.
Proof.
  inversion 1 as [|p t ? ix' ? Hg Hf Hp Hr]; subst.
  exists p, ix', t. split_and!; try done. destruct t; cbn in *; congruence.
Qed.
Lemma set_timer_list_same s : s ⟪ timer_list := timer_list s ⟫ = s.
Proof. by destruct s. Qed.

Lemma sift_correct view : forall ix j f p s fuel,
  chain (timer_list s) (Some p) (p :: ix) ((j, f) :: view) ->
  (length ix < fuel)%nat -> 0 < j < 2147483648 -> Forall delay_ok view ->
  exists l', kloop fuel sift_step p s = Done tt (s ⟪ timer_list := l' ⟫) /\
    chain l' (Some p) (p :: ix) (sifted j f view) /\
    forall k, k ∉ p :: ix -> array_get l' k = array_get (timer_list s) k.
Proof.
  induction view as [|[j1 f1] view IH]; intros ix j f p s fuel Hc Hfuel Hj Hv;
    pose proof Hc as (? & ? & t & [= <-] & [= <-] & Hg & Ht & Hp & Hr)%chain_inv;
    (destruct fuel as [|fuel]; [lia|]);
    rewrite kloop_S, (sift_step_run _ _ t Hg).
  - assert (t_next t = None) as -> by (by inversion Hr).
    exists (timer_list s). rewrite set_timer_list_same. by split_and!.
  - pose proof Hr as (n & ix' & u & Hn & -> & Hgu & Hu & Hnix & Hr')%chain_inv.
    apply Forall_cons_iff in Hv as [Hj1 Hv]. unfold delay_ok in Hj1. cbn in Hj1.
    rewrite Hn, Hgu, Hu, Ht. cbn [t_jiffies t_fn t_next].
    cbn [sifted]. destruct (Z.ltb_spec j1 j) as [Hlt|Hge].
    2:{ exists (timer_list s). rewrite set_timer_list_same. by split_and!. }
    rewrite s32_small by lia. apply not_elem_of_cons in Hp as [Hpn Hpix].
    set (l2 := array_set _ n _).
    pose proof (array_get_Some_bound _ _ _ Hg). pose proof (array_get_Some_bound _ _ _ Hgu).
    assert (Hc2 : chain l2 (Some n) (n :: ix') ((j - j1, f) :: view)).
    { apply (chain_cons l2 n (Timer (j - j1) (Some f) (t_next u))); [|done|done|].
      - unfold l2. rewrite array_get_set_eq; [done|]. by rewrite length_array_set.
      - cbn [t_next]. unfold l2. apply chain_frame; [by apply chain_frame|done]. }
    pose (s2 := s ⟪ timer_list := l2 ⟫).
    destruct (IH ix' (j - j1) f n s2 fuel Hc2) as (l' & Hrun & Hc' & Hfr);
      [simpl in Hfuel; lia|lia|done|].
    exists l'. split_and!; [exact Hrun| |].
    + apply (chain_cons l' p (Timer j1 (Some f1) (Some n))); [|done|by apply not_elem_of_cons|done].
      rewrite Hfr by (by apply not_elem_of_cons). change (timer_list s2) with l2. unfold l2.
      rewrite array_get_set_ne by done. by rewrite array_get_set_eq.
    + intros k [Hkp Hk]%not_elem_of_cons. rewrite Hfr by done.
      apply not_elem_of_cons in Hk as [Hkn Hk]. change (timer_list s2) with l2. unfold l2.
      by rewrite !array_get_set_ne.
Qed.

Lemma free_timer_None l k t : free_timer l k = None -> t ∈ l -> t_fn t <> None.
Proof.
  revert k. induction l as [|u l IH]; intros k; [by intros _ ?%not_elem_of_nil|]. cbn.
  destruct (t_fn u) eqn:Hu; [|done]. intros Hk [->|Hin]%elem_of_cons; [congruence|by eapply IH].
Qed.

(** Where the loop puts the new entry. *)
Definition total (view : list (Z * Z)) : Z := foldr (fun e n => e.1 + n) 0 view.
Definition place (j : Z) (view pre post : list (Z * Z)) : Prop :=
  view = pre ++ post /\ total pre < j /\ (forall e, head post = Some e -> j <= total pre + e.1).
Lemma sifted_split view : forall j f, 0 < j ->
  exists pre post, place j view pre post /\ sifted j f view = pre ++ (j - total pre, f) :: post.
Proof.
  induction view as [|[j1 f1] view IH]; intros j f Hj; cbn.
  { exists [], []. unfold place. cbn. by rewrite Z.sub_0_r. }
  destruct (Z.ltb_spec j1 j) as [Hlt|Hge].
  - destruct (IH (j - j1) f ltac:(lia)) as (pre & post & (-> & Hpre & Hpost) & ->).
    exists ((j1, f1) :: pre), post. unfold place. cbn [total foldr fst app]. fold (total pre).
    split; [split_and!; [done|lia|]|by rewrite Z.sub_add_distr].
    intros e He. specialize (Hpost e He). lia.
  - exists [], ((j1, f1) :: view). unfold place. cbn. rewrite Z.sub_0_r.
    split; [|done]. split_and!; [done|done|]. intros e [= <-]. cbn. lia.
Qed.

Lemma deadlines_app view rest from :
  deadlines from (view ++ rest) = deadlines from view ++ deadlines (from + total view) rest.
Proof.
  revert from. induction view as [|[j f] view IH]; intros from; cbn; [by rewrite Z.add_0_r|].
  by rewrite IH, Z.add_assoc.
Qed.
Definition later (d : Z) (e : Z * Z) : Z * Z := (e.1 + d, e.2).
Lemma deadlines_later view d from : deadlines (from + d) view = map (later d) (deadlines from view).
Proof.
  revert from. induction view as [|[j f] view IH]; intros from; cbn; [done|].
  rewrite <- IH. unfold later. cbn. by replace (from + d + j) with (from + j + d) by lia.
Qed.

Lemma add_timer_run (call : Z -> KM clock unit) (s : clock) (j f p : Z)
    (ix : list Z) (view : list (Z * Z)) :
  chain (timer_list s) (next_timer s) ix view -> length (timer_list s) = 64%nat ->
  Forall delay_ok view -> 0 < j < 2147483648 -> free_timer (timer_list s) 0 = Some p ->
  (p ∉ ix) /\ exists l',
    add_timer call j (Some f) s = Done tt (s ⟪ timer_list := l' ⟫ ⟪ next_timer := Some p ⟫) /\
    chain l' (Some p) (p :: ix) (sifted j f view) /\
    forall k, k ∉ p :: ix -> array_get l' k = array_get (timer_list s) k.
Proof.
  intros Hc Hlen Hv Hj Hfree. unfold add_timer.
  rewrite (proj2 (Z.leb_gt j 0)) by lia. unfold gets, put_timer, modify, mbind, kbind. rewrite Hfree.
  apply free_timer_Some in Hfree as (_ & t0 & Hg0 & Hn0); [|done]. rewrite Z.sub_0_r in Hg0.
  assert (Hp : p ∉ ix) by (intros Hin; by destruct (chain_used _ _ _ _ _ _ Hc Hin Hg0)).
  split; [done|]. cbn [set_field timer_list].
  set (l1 := array_set (timer_list s) p _).
  pose proof (array_get_Some_bound _ _ _ Hg0).
  assert (Hc1 : chain l1 (Some p) (p :: ix) ((j, f) :: view)).
  { apply (chain_cons l1 p (Timer j (Some f) (next_timer s))); [|done|done|].
    - by apply array_get_set_eq.
    - by apply chain_frame. }
  pose (s1 := s ⟪ timer_list := l1 ⟫ ⟪ next_timer := Some p ⟫).
  destruct (sift_correct view ix j f p s1 65 Hc1) as (l' & Hrun & Hc' & Hframe); [|done|done|].
  { pose proof (chain_short _ _ _ _ Hc). lia. }
  exists l'. split_and!; [exact Hrun|exact Hc'|]. intros k Hk. rewrite Hframe by done.
  change (timer_list s1) with l1. unfold l1. apply array_get_set_ne.
  apply not_elem_of_cons in Hk as [? _]. congruence.
Qed.

(** C13: [add_timer], for any delay and function.  No function: nothing
    happens; no delay: it is called at once; no free entry among the 64: the
    kernel panics.  Otherwise it completes, and has linked a free entry
    behind exactly the pending timers [pre] that expire before [j], in front
    of the others, [post], with the delay that makes it expire [j] ticks from
    now; entries that are not pending stay as they are.  The earlier timers
    keep their deadlines.  The delay of the one behind is not reduced
    ([sched.c:370]), so that each timer of [post] now expires [j - total pre]
    ticks later than it was set to. *)
Theorem add_timer_inserts (call : Z -> KM clock unit) (s : clock) (j : Z) (fn : option Z)
    (ix : list Z) (view : list (Z * Z)) :
  chain (timer_list s) (next_timer s) ix view -> length (timer_list s) = 64%nat ->
  Forall delay_ok view -> j < 2147483648 ->
  (fn = None -> add_timer call j fn s = Done tt s) /\
  (forall f, fn = Some f -> j <= 0 -> add_timer call j fn s = call f s) /\
  (forall f, fn = Some f -> 0 < j -> (forall t, t ∈ timer_list s -> t_fn t <> None) ->
     add_timer call j fn s = Panic "No more time requests free" s) /\
  (forall f t, fn = Some f -> 0 < j -> t ∈ timer_list s -> t_fn t = None ->
     exists p l' pre post,
       add_timer call j fn s = Done tt (s ⟪ timer_list := l' ⟫ ⟪ next_timer := Some p ⟫) /\
       (p ∉ ix) /\ (forall k, k ∉ p :: ix -> array_get l' k = array_get (timer_list s) k) /\
       view = pre ++ post /\ total pre < j /\ (forall e, head post = Some e -> j <= total pre + e.1) /\
       chain l' (Some p) (p :: ix) (pre ++ (j - total pre, f) :: post) /\
       deadlines 0 view = deadlines 0 pre ++ deadlines (total pre) post /\
       deadlines 0 (pre ++ (j - total pre, f) :: post) =
         deadlines 0 pre ++ (j, f) :: map (later (j - total pre)) (deadlines (total pre) post)).
Proof.
  intros Hc Hlen Hv Hj. split_and!.
  - by intros ->.
  - intros f -> Hj0. cbn. by rewrite (proj2 (Z.leb_le j 0)).
  - intros f -> Hj0 Hfull. unfold add_timer. rewrite (proj2 (Z.leb_gt j 0)) by lia.
    unfold mbind, kbind, gets. destruct (free_timer _ 0) as [p|] eqn:Hfree; [|done].
    apply free_timer_Some in Hfree as (_ & t & Ht & Hn); [|done]. rewrite Z.sub_0_r in Ht.
    exfalso. apply (Hfull t); [|done]. unfold array_get in Ht. destruct (0 <=? p); [|done].
    by eapply list_elem_of_lookup_2.
  - intros f t -> Hj0 Hin Ht. destruct (free_timer (timer_list s) 0) as [p|] eqn:Hfree.
    2:{ by destruct (free_timer_None _ _ _ Hfree Hin). }
    destruct (add_timer_run call s j f p ix view Hc Hlen Hv ltac:(lia) Hfree) as (Hp & l' & Hrun & Hl' & Hframe).
    destruct (sifted_split view j f Hj0) as (pre & post & (-> & Hpre & Hpost) & Hsift). rewrite Hsift in Hl'.
    exists p, l', pre, post. split_and!; try done; rewrite deadlines_app; [done|]. cbn [deadlines].
    rewrite Z.add_0_l, Zplus_minus, <- deadlines_later, Zplus_minus. done.
Qed.

(** Two pending timers, in 10 and 25 ticks, in a table of 64 entries. *)
Definition demo_clock : clock :=
  Clock demo_sched [] [0; 0; 0; 0] [0; 0; 0; 0] 0x0C 0
    (Timer 10 (Some 100) (Some 1) :: Timer 15 (Some 101) None
     :: replicate 62 (Timer 0 None None)) (Some 0) 0 [].
Lemma demo_clock_chain :
  chain (timer_list demo_clock) (next_timer demo_clock) [0; 1] [(10, 100); (15, 101)].
Proof.
  apply (chain_cons _ 0 (Timer 10 (Some 100) (Some 1))); [done|done|by intros ?%list_elem_of_singleton|].
  apply (chain_cons _ 1 (Timer 15 (Some 101) None)); [done|done|by intros ?%not_elem_of_nil|].
  constructor.
Qed.

(** With timers due in 10 and 25 ticks, one for 12 goes between them, and the
    second is now due in 27. *)
Lemma add_timer_inserts_witness :
  exists p l', add_timer (fun _ => mret tt) 12 (Some 102) demo_clock =
      Done tt (demo_clock ⟪ timer_list := l' ⟫ ⟪ next_timer := Some p ⟫) /\
    chain l' (Some p) (p :: [0; 1]) [(10, 100); (2, 102); (15, 101)] /\
    deadlines 0 [(10, 100); (15, 101)] = [(10, 100); (25, 101)] /\
    deadlines 0 [(10, 100); (2, 102); (15, 101)] = [(10, 100); (12, 102); (27, 101)].
Proof.
  destruct (add_timer_inserts (fun _ => mret tt) demo_clock 12 (Some 102) [0; 1] [(10, 100); (15, 101)])
    as (_ & _ & _ & H); [exact demo_clock_chain|reflexivity|repeat constructor; discriminate|done|].
  destruct (H 102 (Timer 0 None None)) as (p & l' & pre & post & Hrun & _ & _ & Hview & Hpre & Hpost & Hl' & _);
    [reflexivity|lia|by do 2 right; left|reflexivity|].
  exists p, l'. split; [exact Hrun|]. split; [|done].
  assert (pre = [(10, 100)] /\ post = [(15, 101)]) as [-> ->].
  { destruct pre as [|e pre]; cbn in Hview; [subst post; by specialize (Hpost _ eq_refl)|].
    injection Hview as <- Hview. destruct pre as [|e pre]; cbn in Hview; [done|].
    injection Hview as <- Hview. cbn in Hpre. destruct pre, post; done. }
  exact Hl'.
Defined.

(** A timer that is pending does not expire when it was set to: of
    [demo_clock]'s, the one due in 25 ticks is put off to tick 27. *)
Theorem add_timer_postpones_later_timers :
  exists s' ix', add_timer (fun _ => mret tt) 12 (Some 102) demo_clock = Done tt s' /\
    chain (timer_list s') (next_timer s') ix' [(10, 100); (2, 102); (15, 101)] /\
    deadlines 0 [(10, 100); (15, 101)] = [(10, 100); (25, 101)] /\
    deadlines 0 [(10, 100); (2, 102); (15, 101)] = [(10, 100); (12, 102); (27, 101)].
Proof.
  destruct (add_timer_run (fun _ => mret tt) demo_clock 12 102 2 [0; 1] [(10, 100); (15, 101)]) as (_ & l' & Hrun & Hl' & _);
    [exact demo_clock_chain|reflexivity|repeat constructor; discriminate|done|reflexivity|].
  eexists _, _. split_and!; [exact Hrun|exact Hl'|done|done].
Qed.
