(* ===== verification/Kernel.v ===== *)
(** * The kernel state that process management works on

    [exit.c], [fork.c], [signal.c] and [sys.c] work on the scheduler's state,
    on memory management, on the file table and the inodes, on the terminals'
    process groups and on user memory.  The inode layer is an interface
    ([Inodes]): a type of states with the two operations process management
    uses. *)

From S2P Require Import Prelude Memory Task Sched.

(** Error numbers ([include/errno.h]). *)
Definition EPERM : Z := 1.
Definition ENOENT : Z := 2.
Definition ESRCH : Z := 3.
Definition EINTR : Z := 4.
Definition EBADF : Z := 9.
Definition ECHILD : Z := 10.
Definition EAGAIN : Z := 11.
Definition ENOMEM : Z := 12.
Definition EACCES : Z := 13.
Definition EINVAL : Z := 22.
Definition ENFILE : Z := 23.
Definition EMFILE : Z := 24.
Definition ESPIPE : Z := 29.
Definition ENOSYS : Z := 38.
Definition ERROR : Z := 99.

(** [struct file] ([include/linux/fs.h]). *)
Record file : Type := File {
  f_mode : Z; f_flags : Z; f_count : Z; f_inode : option Z; f_pos : Z
}.
#[export] Instance file_rebuild : Rebuild file :=
  fun f => File (f_mode f) (f_flags f) (f_count f) (f_inode f) (f_pos f).
Definition NR_FILE : Z := 64.

(** User memory: bytes at 32-bit linear addresses; a longword is stored with
    its low byte first. *)
Definition byte_at (m : gmap Z Z) (a : Z) : Z := default 0 (m !! u32 a).
Definition set_byte (a v : Z) (m : gmap Z Z) : gmap Z Z := <[u32 a := u8 v]> m.
Definition long_at (m : gmap Z Z) (a : Z) : Z :=
  byte_at m a + 256 * byte_at m (a + 1) + 65536 * byte_at m (a + 2) + 16777216 * byte_at m (a + 3).
Definition set_long (a v : Z) (m : gmap Z Z) : gmap Z Z :=
  set_byte (a + 3) (v / 16777216) (set_byte (a + 2) (v / 65536)
    (set_byte (a + 1) (v / 256) (set_byte a v m))).

Lemma byte_at_set_eq m a v : byte_at (set_byte a v m) a = u8 v.
Proof. unfold byte_at, set_byte. by rewrite lookup_insert_eq. Qed.
Lemma byte_at_set_ne m a b v : u32 a <> u32 b -> byte_at (set_byte a v m) b = byte_at m b.
Proof. intros. unfold byte_at, set_byte. by rewrite lookup_insert_ne. Qed.
Lemma u32_distinct a b : a <> b -> - 4294967296 < a - b < 4294967296 -> u32 a <> u32 b.
Proof.
  unfold u32. intros Hne Hd Heq.
  pose proof (Z.div_mod a 4294967296 ltac:(lia)). pose proof (Z.div_mod b 4294967296 ltac:(lia)).
  rewrite Heq in *. lia.
Qed.
Lemma long_at_set_eq m a v : long_at (set_long a v m) a = u32 v.
Proof.
  unfold long_at, set_long.
  repeat (rewrite ?byte_at_set_eq, ?byte_at_set_ne by (apply u32_distinct; lia)).
  unfold u8, u32.
  pose proof (Z.div_mod v 256 ltac:(lia)). pose proof (Z.mod_pos_bound v 256 ltac:(lia)).
  replace 65536 with (256 * 256) by lia. replace 16777216 with (256 * 256 * 256) by lia.
  rewrite <- !Z.div_div by lia.
  pose proof (Z.div_mod (v / 256) 256 ltac:(lia)). pose proof (Z.mod_pos_bound (v / 256) 256 ltac:(lia)).
  pose proof (Z.div_mod (v / 256 / 256) 256 ltac:(lia)).
  pose proof (Z.mod_pos_bound (v / 256 / 256) 256 ltac:(lia)).
  pose proof (Z.div_mod (v / 256 / 256 / 256) 256 ltac:(lia)).
  pose proof (Z.mod_pos_bound (v / 256 / 256 / 256) 256 ltac:(lia)).
  apply (Z.mod_unique _ _ (v / 256 / 256 / 256 / 256)); lia.
Qed.
(** Longwords that do not overlap are independent. *)
Lemma long_at_set_ne m a b v :
  4 <= Z.abs (a - b) < 4294967290 -> long_at (set_long a v m) b = long_at m b.
Proof.
  intros Hd. unfold long_at, set_long.
  by repeat (rewrite byte_at_set_ne by (apply u32_distinct; lia)).
Qed.
#[global] Arguments set_long : simpl never.
#[global] Arguments long_at : simpl never.

Record kernel (I : Type) : Type := Kernel {
  ks : sched;
  km : mm;
  last_pid : Z;
  task_page : list Z;          (* the page each task structure lives in *)
  file_table : list file;
  inodes : I;
  tty_pgrp : list Z;           (* tty_table[i].pgrp *)
  user : gmap Z Z              (* bytes of user memory, by linear address *)
}.
Arguments Kernel {I}.
Arguments ks {I}. Arguments km {I}. Arguments last_pid {I}. Arguments task_page {I}.
Arguments file_table {I}. Arguments inodes {I}. Arguments tty_pgrp {I}. Arguments user {I}.
#[export] Instance kernel_rebuild {I} : Rebuild (kernel I) := fun s =>
  Kernel (ks s) (km s) (last_pid s) (task_page s) (file_table s) (inodes s) (tty_pgrp s) (user s).

(** The inode layer, as process and file management see it: [iput] gives a
    reference up (and does nothing for [NULL]); for a pipe it may free the
    pipe's page.  [igrab] is [i_count++]. *)
Class Inodes (I : Type) := {
  iput : option Z -> KM (kernel I) unit;
  igrab : Z -> KM I unit;
  i_dev : I -> Z -> Z;
  i_pipe : I -> Z -> bool;
  i_size : I -> Z -> Z
}.

Section parts.
Context {I : Type}.
Definition on_ks {A} (m : KM sched A) : KM (kernel I) A :=
  zoom ks (fun k s => s ⟪ ks := k ⟫) m.
Definition on_km {A} (m : KM mm A) : KM (kernel I) A :=
  zoom km (fun k s => s ⟪ km := k ⟫) m.
Definition on_inodes {A} (m : KM I A) : KM (kernel I) A :=
  zoom inodes (fun k s => s ⟪ inodes := k ⟫) m.

(** The data segment's base of the current task, which [fs] selects. *)
Definition user_base : KM (kernel I) Z :=
  t ← on_ks get_current; d ← read_at (ldt t) 2; mret (get_base d).

(** [put_fs_byte], [put_fs_long], [get_fs_byte], [get_fs_long]
    ([include/asm/segment.h]). *)
Definition put_fs_byte (v addr : Z) : KM (kernel I) unit :=
  b ← user_base;
  modify (fun s => s ⟪ user := set_byte (b + addr) v (user s) ⟫).
Definition put_fs_long (v addr : Z) : KM (kernel I) unit :=
  b ← user_base;
  modify (fun s => s ⟪ user := set_long (b + addr) v (user s) ⟫).
Definition get_fs_byte (addr : Z) : KM (kernel I) Z :=
  b ← user_base;
  gets (fun s => byte_at (user s) (b + addr)).
Definition get_fs_long (addr : Z) : KM (kernel I) Z :=
  b ← user_base;
  gets (fun s => long_at (user s) (b + addr)).

(** [verify_area] of [kernel/fork.c]: the loop runs once for each page that
    the area touches. *)
Definition verify_area (addr size : Z) : KM (kernel I) unit :=
  let size := s32 (size + Z.land addr 0xfff) in
  b ← user_base;
  let start := Z.land addr 0xfffff000 + b in
  kfor (upto (Z.max 0 ((size + 4095) / 4096))) (fun k =>
    on_km (write_verify (u32 (start + 4096 * k)))).
End parts.

Section reading.
Context {I : Type}.
Implicit Types s : kernel I.

(** Reading the scheduler's state changes nothing. *)
Lemma on_ks_get {A} (m : KM sched A) s a s' :
  (forall k', m (ks s) = Done a k' -> k' = ks s) ->
  on_ks m s = Done a s' -> m (ks s) = Done a (ks s) /\ s' = s.
Proof.
  intros Hm (k & Hk & ->)%zoom_inv. pose proof (Hm _ Hk) as ->. split; [done|by destruct s].
Qed.
Lemma on_ks_get_current s t s' :
  on_ks get_current s = Done t s' -> slot (ks s) (current (ks s)) = Some t /\ s' = s.
Proof.
  intros H. apply on_ks_get in H as [H ->]; [by apply get_current_inv in H as [? _]|].
  by intros k' [_ ?]%get_current_inv.
Qed.
Lemma on_ks_get_task i s t s' :
  on_ks (get_task i) s = Done t s' -> slot (ks s) i = Some t /\ s' = s.
Proof.
  intros H. apply on_ks_get in H as [H ->]; [by apply get_task_inv in H as [? _]|].
  by intros k' [_ ?]%get_task_inv.
Qed.

(** The base of the current task's data segment. *)
Definition user_base_is s (b : Z) : Prop :=
  exists t d, slot (ks s) (current (ks s)) = Some t /\ array_get (ldt t) 2 = Some d /\ get_base d = b.
Lemma user_base_inv s b s' : user_base s = Done b s' -> user_base_is s b /\ s' = s.
Proof.
  intros H. unfold user_base in H. done_step H. apply on_ks_get_current in Hrun as [Ht ->].
  done_step H. apply ret_Done in H as [-> ->]. split; [|done]. by exists a, a0.
Qed.
(** [verify_area] works on page tables only. *)
Lemma verify_area_inv a n s u s' :
  verify_area a n s = Done u s' -> exists m, s' = s ⟪ km := m ⟫.
Proof.
  unfold verify_area. intros H. done_step H. apply user_base_inv in Hrun as [_ ->].
  revert s u s' H. generalize (upto (Z.max 0 ((s32 (n + Z.land a 4095) + 4095) / 4096))).
  induction l as [|k l IH]; intros s u s' H; cbn [kfor] in H.
  - apply ret_Done in H as [_ ->]. exists (km s). by destruct s.
  - done_step H. apply zoom_inv in Hrun as (m & _ & ->).
    destruct (IH _ _ _ H) as [m' ->]. by exists m'.
Qed.

Lemma user_base_run s b : user_base_is s b -> user_base s = Done b s.
Proof.
  intros (t & d & Ht & Hd & <-). unfold user_base, on_ks.
  assert (Hg : get_current (ks s) = Done t (ks s)).
  { unfold get_current, get_task, gets, mbind, kbind. by rewrite Ht. }
  unfold mbind at 1, kbind at 1. rewrite (zoom_Done _ _ _ _ _ _ Hg). unfold read_at. rewrite Hd. by destruct s.
Qed.
Lemma kfor_on_km {A} (f : A -> KM mm unit) (l : list A) s :
  kfor l (fun x => on_km (f x)) s = on_km (kfor l f) s.
Proof.
  revert s. induction l as [|x l IH]; intros s; cbn [kfor]; [by destruct s|].
  unfold on_km, zoom, mbind, kbind in *. destruct (f x (km s)); [|done..].
  rewrite IH. cbn. by destruct (kfor l f _).
Qed.
(** What it does depends on the segment and the page tables only. *)
Lemma verify_area_same s s' b a n m :
  user_base_is s b -> user_base_is s' b -> km s' = km s ->
  verify_area a n s = Done tt (s ⟪ km := m ⟫) -> verify_area a n s' = Done tt (s' ⟪ km := m ⟫).
Proof.
  intros Hb Hb' Hkm. unfold verify_area, mbind, kbind. rewrite (user_base_run _ _ Hb), (user_base_run _ _ Hb').
  rewrite !(kfor_on_km (fun k => write_verify (u32 (Z.land a 0xfffff000 + b + 4096 * k)))).
  intros (k & Hk & Heq)%zoom_inv. assert (k = m) as -> by (by injection Heq). rewrite <- Hkm in Hk.
  unfold on_km. by rewrite (zoom_Done _ _ _ _ _ _ Hk).
Qed.
End reading.

(** [suser()] *)
Definition suser : KM sched bool := t ← get_current; mret (euid t =? 0).

(** A trivial inode layer, for closed examples: the list of reference
    counts. *)
Definition count_inodes : Type := list Z.
#[export] Instance count_inodes_ops : Inodes count_inodes := {
  iput o := match o with
            | None => mret tt
            | Some i => on_inodes (c ← gets (fun l => l); n ← read_at c i; modify (fun l => array_set l i (n - 1)))
            end;
  igrab i := c ← gets (fun l => l); n ← read_at c i; modify (fun l => array_set l i (n + 1));
  i_dev _ _ := 0x301;
  i_pipe _ _ := false;
  i_size _ _ := 100
}.
