(* ===== verification/Fork.v ===== *)
(** * Creating processes ([kernel/fork.c])

    [find_empty_process], [copy_mem] and [copy_process].  The registers that
    the system-call entry code leaves on the kernel stack, the arguments of
    [copy_process], are the record [regs]. *)

From S2P Require Import Prelude Memory Task Sched Kernel.

Record regs : Type := Regs {
  r_ebp : Z; r_edi : Z; r_esi : Z; r_gs : Z; r_ebx : Z; r_ecx : Z; r_edx : Z;
  r_fs : Z; r_es : Z; r_ds : Z; r_eip : Z; r_cs : Z; r_eflags : Z; r_esp : Z; r_ss : Z
}.

(** The offsets of [ldt] and [tss] in [struct task_struct]. *)
Definition ldt_offset : Z := 720.
Definition tss_offset : Z := 744.

(** Slot [nr] of the task array is taken by a task with this [pid]. *)
Definition pid_taken (s : sched) (p : Z) : bool :=
  existsb (fun o => match o with Some t => pid t =? p | None => false end) (task s).
Fixpoint first_empty (ts : list (option task_struct)) (i : Z) : option Z :=
  match ts with
  | [] => None
  | None :: _ => Some i
  | Some _ :: ts => first_empty ts (i + 1)
  end.

Section fork.
Context {I : Type} `{!Inodes I}.
(** What [fninit] leaves in the coprocessor: [fnsave] ends with it. *)
Variable fninit : list Z -> list Z.

(** [repeat: if ((++last_pid)<0) last_pid=1; ... goto repeat;]  There are at
    most [NR_TASKS] process numbers in use, so 65 turns are enough
    ([find_empty_process_fresh]). *)
Definition next_pid (p : Z) : Z := let p := s32 (p + 1) in if p <? 0 then 1 else p.
Definition pid_step (_ : unit) : KM (kernel I) (unit + unit) :=
  modify (fun s => s ⟪ last_pid := next_pid (last_pid s) ⟫) ;;
  s ← gets (fun s => s);
  mret (if pid_taken (ks s) (last_pid s) then inl tt else inr tt).
Definition find_empty_process : KM (kernel I) Z :=
  kloop 65 pid_step tt ;;
  s ← gets (fun s => s);
  mret (match first_empty (drop 1 (task (ks s))) 1 with
        | Some i => i
        | None => - EAGAIN
        end).

Definition update_slot (nr : Z) (f : task_struct -> task_struct) : KM (kernel I) unit :=
  on_ks (update_task nr f).

(** [copy_mem(nr,p)], with [p] the task in slot [nr]. *)
Definition copy_mem (nr : Z) : KM (kernel I) Z :=
  cur ← on_ks get_current;
  code ← read_at (ldt cur) 1;
  data ← read_at (ldt cur) 2;
  let code_limit := get_limit code in
  let data_limit := get_limit data in
  let old_code_base := get_base code in
  let old_data_base := get_base data in
  if negb (old_data_base =? old_code_base) then panic "We don't support separate I&D"
  else if data_limit <? code_limit then panic "Bad data_limit"
  else
    let new_base := u32 (nr * 0x4000000) in
    update_slot nr (fun p => p ⟪ start_code := new_base ⟫) ;;
    p ← on_ks (get_task nr);
    p_code ← read_at (ldt p) 1;
    p_data ← read_at (ldt p) 2;
    update_slot nr (fun p => p ⟪ ldt :=
      array_set (array_set (ldt p) 1 (set_base p_code new_base)) 2 (set_base p_data new_base) ⟫) ;;
    r ← on_km (copy_page_tables old_data_base new_base data_limit);
    if truth r then
      _ ← on_km (free_page_tables new_base data_limit);
      mret (- ENOMEM)
    else mret 0.

(** The child's task structure, as [copy_process] first fills it in: [page]
    is its address. *)
Definition child_of (cur : task_struct) (nr page new_pid now : Z) (r : regs) : task_struct :=
  cur ⟪ state := TASK_UNINTERRUPTIBLE ⟫ ⟪ pid := new_pid ⟫ ⟪ father := pid cur ⟫
      ⟪ counter := priority cur ⟫ ⟪ signal := 0 ⟫ ⟪ alarm := 0 ⟫ ⟪ leader := 0 ⟫
      ⟪ utime := 0 ⟫ ⟪ stime := 0 ⟫ ⟪ cutime := 0 ⟫ ⟪ cstime := 0 ⟫ ⟪ start_time := now ⟫
      ⟪ tss := (tss cur)
          ⟪ back_link := 0 ⟫ ⟪ esp0 := 4096 + page ⟫ ⟪ ss0 := 0x10 ⟫
          ⟪ eip := r_eip r ⟫ ⟪ eflags := r_eflags r ⟫ ⟪ eax := 0 ⟫ ⟪ ecx := r_ecx r ⟫
          ⟪ edx := r_edx r ⟫ ⟪ ebx := r_ebx r ⟫ ⟪ esp := r_esp r ⟫ ⟪ ebp := r_ebp r ⟫
          ⟪ esi := r_esi r ⟫ ⟪ edi := r_edi r ⟫
          ⟪ es := Z.land (r_es r) 0xffff ⟫ ⟪ cs := Z.land (r_cs r) 0xffff ⟫
          ⟪ ss := Z.land (r_ss r) 0xffff ⟫ ⟪ ds := Z.land (r_ds r) 0xffff ⟫
          ⟪ fs := Z.land (r_fs r) 0xffff ⟫ ⟪ gs := Z.land (r_gs r) 0xffff ⟫
          ⟪ tss_ldt := LDT nr ⟫ ⟪ trace_bitmap := 0x80000000 ⟫ ⟫.

(** [if (last_task_used_math == current) fnsave p->tss.i387] *)
Definition save_math (nr : Z) : KM (kernel I) unit :=
  s ← gets ks;
  kwhen (bool_decide (last_task_used_math s = Some (current s)))
    (update_slot nr (fun p => p ⟪ tss := (tss p) ⟪ i387 := fpu s ⟫ ⟫) ;;
     modify (fun s => s ⟪ ks := (ks s) ⟪ ts_flag := false ⟫ ⟪ fpu := fninit (fpu (ks s)) ⟫ ⟫)).

(** The child shares the parent's open files and inodes. *)
Definition share_file (o : option Z) : KM (kernel I) unit :=
  match o with
  | None => mret tt
  | Some f =>
      ft ← gets file_table;
      x ← read_at ft f;
      modify (fun s => s ⟪ file_table := array_set (file_table s) f (x ⟪ f_count := u16 (f_count x + 1) ⟫) ⟫)
  end.
Definition share_inode (o : option Z) : KM (kernel I) unit :=
  match o with None => mret tt | Some i => on_inodes (igrab i) end.

(** [copy_process] up to the copy of the task structure, and after
    [copy_mem] has succeeded. *)
Definition begin_process (nr page : Z) (r : regs) : KM (kernel I) unit :=
  cur ← on_ks get_current;
  s ← gets (fun s => s);
  on_ks (put_task nr (child_of cur nr page (last_pid s) (jiffies (ks s)) r)) ;;
  modify (fun s => s ⟪ task_page := array_set (task_page s) nr page ⟫).

Definition finish_process (nr page : Z) : KM (kernel I) Z :=
  p ← on_ks (get_task nr);
  kfor (filp p) share_file ;;
  cur ← on_ks get_current;
  share_inode (pwd cur) ;;
  share_inode (root cur) ;;
  share_inode (executable cur) ;;
  modify (fun s => s ⟪ ks := (ks s) ⟪ gdt :=
    array_set (array_set (gdt (ks s)) (2 * nr + FIRST_TSS_ENTRY) (set_tss_desc (page + tss_offset)))
      (2 * nr + FIRST_LDT_ENTRY) (set_ldt_desc (page + ldt_offset)) ⟫ ⟫) ;;
  update_slot nr (fun p => p ⟪ state := TASK_RUNNING ⟫) ;;
  gets last_pid.

Definition copy_process (nr : Z) (r : regs) : KM (kernel I) Z :=
  page ← on_km get_free_page;
  if negb (truth page) then mret (- EAGAIN)
  else
    begin_process nr page r ;;
    save_math nr ;;
    err ← copy_mem nr;
    if truth err then
      modify (fun s => s ⟪ ks := (ks s) ⟪ task := array_set (task (ks s)) nr None ⟫ ⟫) ;;
      on_km (free_page page) ;;
      mret (- EAGAIN)
    else finish_process nr page.
End fork.

(** ** Process numbers *)

Definition max_pid : Z := 2147483647.

(** The [k]-th number that [find_empty_process] tries. *)
Definition nth_pid (p k : Z) : Z := (p + k - 1) mod max_pid + 1.

Lemma next_pid_eq p : 0 <= p <= max_pid -> next_pid p = nth_pid p 1.
Proof.
  intros Hp. unfold next_pid, nth_pid, max_pid in *.
  replace (p + 1 - 1) with p by lia.
  destruct (decide (p = 2147483647)) as [->|]; [reflexivity|].
  rewrite s32_small, Z.mod_small by lia. destruct (Z.ltb_spec (p + 1) 0); lia.
Qed.
Lemma nth_pid_bound p k : 1 <= nth_pid p k <= max_pid.
Proof.
  unfold nth_pid. pose proof (Z.mod_pos_bound (p + k - 1) max_pid). unfold max_pid in *. lia.
Qed.
Lemma nth_pid_next p k : nth_pid (nth_pid p 1) k = nth_pid p (1 + k).
Proof.
  unfold nth_pid. f_equal. replace (p + 1 - 1) with p by lia.
  replace (p mod max_pid + 1 + k - 1) with (p mod max_pid + k) by lia.
  rewrite Z.add_mod_idemp_l by done. f_equal. lia.
Qed.
Lemma nth_pid_inj p k k' :
  0 <= k < 100 -> 0 <= k' < 100 -> nth_pid p k = nth_pid p k' -> k = k'.
Proof.
  unfold nth_pid. intros Hk Hk' H.
  assert ((p + k - 1) mod max_pid = (p + k' - 1) mod max_pid) as He by lia.
  pose proof (Z.div_mod (p + k - 1) max_pid ltac:(done)).
  pose proof (Z.div_mod (p + k' - 1) max_pid ltac:(done)).
  rewrite He in *. unfold max_pid in *. nia.
Qed.

Lemma pid_taken_true s p :
  pid_taken s p = true <-> exists t, Some t ∈ task s /\ pid t = p.
Proof.
  unfold pid_taken. rewrite existsb_exists. split.
  - intros ([t|] & Hin & Hp); [|done]. exists t. split; [by apply list_elem_of_In|lia].
  - intros (t & Hin & <-). exists (Some t). split; [by apply list_elem_of_In|lia].
Qed.

(** 65 different process numbers cannot all be in use. *)
Lemma pids_not_exhausted s p :
  length (task s) = 64%nat -> ~ forall k, 1 <= k <= 65 -> pid_taken s (nth_pid p k) = true.
Proof.
  intros Hlen Hall.
  set (used := omap (fun o : option task_struct => pid <$> o) (task s)).
  assert (Hsub : (nth_pid p <$> seqZ 1 65) ⊆+ used).
  { apply NoDup_submseteq.
    - apply NoDup_fmap_2_strong; [|apply NoDup_seqZ].
      intros x y Hx Hy. apply elem_of_seqZ in Hx, Hy. apply nth_pid_inj; lia.
    - intros x (k & -> & Hk%elem_of_seqZ)%list_elem_of_fmap.
      destruct (proj1 (pid_taken_true _ _) (Hall k ltac:(lia))) as (t & Hin & <-).
      apply list_elem_of_omap. by exists (Some t). }
  apply submseteq_length in Hsub. rewrite length_fmap, length_seqZ in Hsub.
  assert (length used <= length (task s))%nat by apply length_omap_le. lia.
Qed.

Section find_empty_process.
Context {I : Type}.
Implicit Types s : kernel I.

Definition with_pid (p : Z) (s : kernel I) : kernel I := s ⟪ last_pid := p ⟫.

Lemma pid_step_run s :
  pid_step tt s =
    Done (if pid_taken (ks s) (next_pid (last_pid s)) then inl tt else inr tt)
         (with_pid (next_pid (last_pid s)) s).
Proof. reflexivity. Qed.

Lemma pid_loop fuel s :
  0 <= last_pid s <= max_pid ->
  (exists k, 1 <= k <= Z.of_nat fuel /\ pid_taken (ks s) (nth_pid (last_pid s) k) = false /\
     (forall j, 1 <= j < k -> pid_taken (ks s) (nth_pid (last_pid s) j) = true) /\
     kloop fuel pid_step tt s = Done tt (with_pid (nth_pid (last_pid s) k) s)) \/
  forall k, 1 <= k <= Z.of_nat fuel -> pid_taken (ks s) (nth_pid (last_pid s) k) = true.
Proof.
  revert s. induction fuel as [|fuel IH]; intros s Hp; [right; lia|].
  rewrite kloop_S, pid_step_run, next_pid_eq by done.
  destruct (pid_taken (ks s) (nth_pid (last_pid s) 1)) eqn:Ht.
  - destruct (IH (with_pid (nth_pid (last_pid s) 1) s)) as [(k & Hk & Hfree & Htaken & Hrun)|Hall].
    + pose proof (nth_pid_bound (last_pid s) 1). cbn. lia.
    + left. cbn [with_pid set_field last_pid ks] in *. rewrite nth_pid_next in *.
      exists (1 + k). split_and!; [lia|lia|done| |exact Hrun].
      intros j Hj. destruct (decide (j = 1)) as [->|]; [done|].
      specialize (Htaken (j - 1) ltac:(lia)). rewrite nth_pid_next in Htaken.
      by replace (1 + (j - 1)) with j in Htaken by lia.
    + right. intros k Hk. destruct (decide (k = 1)) as [->|]; [done|].
      specialize (Hall (k - 1) ltac:(lia)). cbn [with_pid set_field last_pid ks] in Hall.
      rewrite nth_pid_next in Hall. by replace (1 + (k - 1)) with k in Hall by lia.
  - left. exists 1. split_and!; [lia|lia|done|lia|done].
Qed.

Lemma first_empty_spec ts i :
  match first_empty ts i with
  | Some n => i <= n < i + Z.of_nat (length ts) /\ ts !! Z.to_nat (n - i) = Some None /\
      forall j, i <= j < n -> exists t, ts !! Z.to_nat (j - i) = Some (Some t)
  | None => forall j, i <= j < i + Z.of_nat (length ts) -> exists t, ts !! Z.to_nat (j - i) = Some (Some t)
  end.
Proof.
  revert i. induction ts as [|[t|] ts IH]; intros i; cbn [first_empty length].
  - lia.
  - assert (Hshift : forall j, i < j -> Z.to_nat (j - i) = S (Z.to_nat (j - (i + 1)))) by lia.
    specialize (IH (i + 1)). destruct (first_empty ts (i + 1)) as [n|].
    + destruct IH as (Hn & Hfree & Hbefore). split_and!; [lia|lia|by rewrite Hshift by lia|].
      intros j Hj. destruct (decide (j = i)) as [->|]; [rewrite Z.sub_diag; by exists t|].
      rewrite Hshift by lia. apply Hbefore. lia.
    + intros j Hj. destruct (decide (j = i)) as [->|]; [rewrite Z.sub_diag; by exists t|].
      rewrite Hshift by lia. apply IH. lia.
  - split_and!; [lia|lia|by rewrite Z.sub_diag|lia].
Qed.
End find_empty_process.

(** What [find_empty_process] promises: a process number in the positive
    range of a [long] that no task has, and the lowest empty slot (never the
    idle task's), or [-EAGAIN] when every slot is taken; only [last_pid]
    changes. *)
Definition find_empty_post {I} (s : kernel I) (r : Z) (s' : kernel I) : Prop :=
  s' = with_pid (last_pid s') s /\ 1 <= last_pid s' <= max_pid /\
  (forall t, Some t ∈ task (ks s) -> pid t <> last_pid s') /\
  ((1 <= r < 64 /\ array_get (task (ks s)) r = Some None /\
    forall j, 1 <= j < r -> exists t, slot (ks s) j = Some t) \/
   (r = - EAGAIN /\ forall j, 1 <= j < 64 -> exists t, slot (ks s) j = Some t)).

(** C15: [find_empty_process] always terminates, with a fresh process number
    and the lowest free slot. *)
Theorem find_empty_process_fresh {I} (s : kernel I) :
  length (task (ks s)) = 64%nat -> 0 <= last_pid s <= max_pid ->
  wp find_empty_process (find_empty_post s) s.
Proof.
  intros Hlen Hp. destruct (pid_loop 65 s Hp) as [(k & _ & Hfree & _ & Hrun)|Hall].
  2:{ destruct (pids_not_exhausted (ks s) (last_pid s) Hlen). exact Hall. }
  unfold find_empty_process, wp, mbind, kbind, gets. rewrite Hrun.
  cbn [mret kret with_pid set_field ks last_pid]. split; [done|]. cbn [last_pid ks].
  split; [apply nth_pid_bound|]. split.
  { intros t Hin Heq. assert (pid_taken (ks s) (nth_pid (last_pid s) k) = true); [|congruence].
    apply pid_taken_true. by exists t. }
  assert (Hdrop : forall j, 1 <= j -> drop 1 (task (ks s)) !! Z.to_nat (j - 1) = array_get (task (ks s)) j).
  { intros j Hj. rewrite lookup_drop. unfold array_get. destruct (Z.leb_spec 0 j); [|lia].
    f_equal. lia. }
  assert (Hslot : forall j t, 1 <= j -> drop 1 (task (ks s)) !! Z.to_nat (j - 1) = Some (Some t) ->
    slot (ks s) j = Some t) by (intros j t Hj; rewrite Hdrop by done; unfold slot; by intros ->).
  pose proof (first_empty_spec (drop 1 (task (ks s))) 1) as H. rewrite length_drop, Hlen in H.
  destruct (first_empty _ 1) as [n|].
  - left. destruct H as (Hn & Hf & Hb). rewrite Hdrop in Hf by lia. split_and!; [lia|lia|done|].
    intros j Hj. destruct (Hb j ltac:(lia)) as [t Ht]. exists t. by apply Hslot; [lia|].
  - right. split; [done|]. intros j Hj. destruct (H j ltac:(lia)) as [t Ht].
    exists t. by apply Hslot; [lia|].
Qed.

(** ** The child *)

Section copy_process.
Context {I : Type} `{!Inodes I}.
Variable fninit : list Z -> list Z.
Implicit Types s : kernel I.

(** The task array with another task in slot [nr]. *)
Definition with_slot (nr : Z) (p : task_struct) (k : sched) : sched :=
  k ⟪ task := array_set (task k) nr (Some p) ⟫.
Lemma with_slot_twice nr p q k : with_slot nr q (with_slot nr p k) = with_slot nr q k.
Proof. unfold with_slot. cbn. by rewrite array_set_set. Qed.
Lemma slot_with_slot nr p q k : slot k nr = Some q -> slot (with_slot nr p k) nr = Some p.
Proof. apply slot_update. Qed.
Lemma slot_with_slot_ne nr p k i : nr <> i -> slot (with_slot nr p k) i = slot k i.
Proof. apply slot_update_ne. Qed.

Lemma update_slot_inv nr f s a s' :
  update_slot nr f s = Done a s' ->
  exists t, slot (ks s) nr = Some t /\
    s' = s ⟪ ks := with_slot nr (f t) (ks s) ⟫.
Proof.
  intros (k & Hk & ->)%zoom_inv. destruct a.
  apply update_task_inv in Hk as (t & Ht & ->). by exists t.
Qed.

(** Sharing files and inodes leaves the tasks alone. *)
Definition same_tasks s s' : Prop := ks s' = ks s /\ last_pid s' = last_pid s.
Lemma share_file_same o s a s' : share_file o s = Done a s' -> same_tasks s s'.
Proof.
  destruct o as [f|]; cbn; [|by intros [_ ->]%ret_Done]. intros H. do 2 done_step H.
  by apply modify_Done in H as ->.
Qed.
Lemma share_files_same l s a s' : kfor l share_file s = Done a s' -> same_tasks s s'.
Proof.
  revert s. induction l as [|o l IH]; intros s; cbn; [by intros [_ ->]%ret_Done|].
  intros H. done_step H. destruct (IH _ H), (share_file_same _ _ _ _ Hrun).
  split; congruence.
Qed.
Lemma share_inode_same o s a s' : share_inode o s = Done a s' -> same_tasks s s'.
Proof.
  destruct o as [i|]; cbn; [|by intros [_ ->]%ret_Done]. by intros (k & _ & ->)%zoom_inv.
Qed.
(** The segments of task [nr]: 64 MB of the linear address space each. *)
Definition segments_at (nr : Z) (p : task_struct) : Prop :=
  exists code data, array_get (ldt p) 1 = Some code /\ array_get (ldt p) 2 = Some data /\
    get_base code = nr * 0x4000000 /\ get_base data = nr * 0x4000000 /\
    start_code p = nr * 0x4000000.

Lemma copy_mem_inv nr s s' p :
  0 <= nr < 64 -> slot (ks s) nr = Some p -> copy_mem nr s = Done 0 s' ->
  exists l, ks s' = with_slot nr (p ⟪ start_code := nr * 0x4000000 ⟫ ⟪ ldt := l ⟫) (ks s) /\
    segments_at nr (p ⟪ start_code := nr * 0x4000000 ⟫ ⟪ ldt := l ⟫) /\
    last_pid s' = last_pid s.
Proof.
  intros Hnr Hp H. unfold copy_mem in H.
  done_step H. apply on_ks_get_current in Hrun as [Hcur ->]. do 2 done_step H.
  destruct (negb _); [done|]. destruct (_ <? _); [done|].
  rewrite u32_small in H by lia.
  done_step H. apply update_slot_inv in Hrun as (q & Hq & ->).
  cbn [set_field ks] in Hq. rewrite Hp in Hq. injection Hq as <-.
  done_step H. apply on_ks_get_task in Hrun as [Hq ->].
  cbn [set_field ks] in Hq. rewrite (slot_with_slot _ _ _ _ Hp) in Hq. injection Hq as <-.
  do 2 done_step H. done_step H.
  apply update_slot_inv in Hrun as (q & Hq & ->).
  cbn [set_field ks] in Hq. rewrite (slot_with_slot _ _ _ _ Hp) in Hq. injection Hq as <-.
  done_step H. apply zoom_inv in Hrun as (m & _ & ->).
  destruct (truth _).
  { done_step H. by apply ret_Done in H as [? _]. }
  apply ret_Done in H as [_ ->].
  eexists. split.
  { cbn [set_field ks]. by rewrite with_slot_twice. }
  split; [|done]. cbn [ldt] in *. set (base := nr * 0x4000000) in *.
  assert (Hbase : 0 <= base < 2 ^ 32) by (unfold base; lia).
  pose proof (array_get_Some_bound _ _ _ H2). pose proof (array_get_Some_bound _ _ _ H3).
  exists (set_base a3 base), (set_base a4 base). cbn [set_field ldt start_code]. split_and!.
  - rewrite array_get_set_ne by done. by apply array_get_set_eq.
  - apply array_get_set_eq. by rewrite length_array_set.
  - by apply get_base_set_base.
  - by apply get_base_set_base.
  - done.
Qed.

Lemma save_math_inv nr s s' p :
  slot (ks s) nr = Some p -> save_math fninit nr s = Done tt s' ->
  exists p' f b, ks s' = (with_slot nr p' (ks s)) ⟪ fpu := f ⟫ ⟪ ts_flag := b ⟫ /\
    p' = p ⟪ tss := (tss p) ⟪ i387 := i387 (tss p') ⟫ ⟫ /\ last_pid s' = last_pid s.
Proof.
  intros Hp H. unfold save_math in H. done_step H. unfold kwhen in H.
  destruct (bool_decide _).
  - done_step H. apply update_slot_inv in Hrun as (q & Hq & ->).
    rewrite Hp in Hq. injection Hq as <-. apply modify_Done in H as ->.
    eexists _, (fninit (fpu (ks s))), false. split_and!; [reflexivity|reflexivity|done].
  - apply ret_Done in H as [_ ->]. exists p, (fpu (ks s)), (ts_flag (ks s)).
    split_and!; [|by destruct p as [? ? ? ? ? ? ? ? ? ? ? ? ? ? ? ? ? ? ? ? ? ? ? ? ? ? ? ? ? ? ? ? ? ? ? ? ? ? [] ]|done].
    unfold with_slot. cbn. rewrite array_set_get; [by destruct (ks s)|].
    unfold slot in Hp. destruct (array_get (task (ks s)) nr) as [[]|]; cbn in *; congruence.
Qed.

Lemma begin_process_inv nr page r s s' cur :
  slot (ks s) (current (ks s)) = Some cur -> begin_process nr page r s = Done tt s' ->
  ks s' = with_slot nr (child_of cur nr page (last_pid s) (jiffies (ks s)) r) (ks s) /\
  last_pid s' = last_pid s.
Proof.
  intros Hcur H. unfold begin_process in H.
  done_step H. apply on_ks_get_current in Hrun as [Hc ->].
  rewrite Hcur in Hc. injection Hc as <-.
  done_step H. done_step H. apply zoom_inv in Hrun as (k & Hput & ->).
  apply modify_Done in Hput as ->. by apply modify_Done in H as ->.
Qed.

Lemma finish_process_inv nr page s s' p ret :
  slot (ks s) nr = Some p -> finish_process nr page s = Done ret s' ->
  exists g, ks s' = (with_slot nr (p ⟪ state := TASK_RUNNING ⟫) (ks s)) ⟪ gdt := g ⟫ /\
    ret = last_pid s.
Proof.
  intros Hp H. unfold finish_process in H.
  done_step H. apply on_ks_get_task in Hrun as [_ ->].
  done_step H. apply share_files_same in Hrun as [Hk1 Hl1].
  done_step H. apply on_ks_get_current in Hrun as [_ ->].
  done_step H. apply share_inode_same in Hrun as [Hk2 Hl2].
  done_step H. apply share_inode_same in Hrun as [Hk3 Hl3].
  done_step H. apply share_inode_same in Hrun as [Hk4 Hl4].
  done_step H. done_step H. apply update_slot_inv in Hrun as (q & Hq & ->).
  apply gets_Done in H as [-> ->]. cbn [set_field ks last_pid] in *.
  assert (Hks : ks st2 = ks s) by congruence. rewrite Hks in *.
  assert (q = p) as -> by (unfold slot in *; cbn [task] in Hq; congruence).
  eexists. split; [reflexivity|congruence].
Qed.
End copy_process.

(** What a child inherits and what it does not. *)
Record forked (nr new_pid now : Z) (r : regs) (cur child : task_struct) : Prop := {
  fk_state : state child = TASK_RUNNING;
  fk_identity : pid child = new_pid /\ father child = pid cur /\
    pgrp child = pgrp cur /\ session child = session cur /\ leader child = 0;
  fk_owner : (uid child, euid child, suid child) = (uid cur, euid cur, suid cur) /\
    (gid child, egid child, sgid child) = (gid cur, egid cur, sgid cur);
  fk_slice : counter child = priority cur /\ priority child = priority cur;
  fk_signals : signal child = 0 /\ alarm child = 0 /\
    sigactions child = sigactions cur /\ blocked child = blocked cur;
  fk_times : (utime child, stime child, cutime child, cstime child) = (0, 0, 0, 0) /\
    start_time child = now;
  fk_files : filp child = filp cur /\ close_on_exec child = close_on_exec cur /\
    pwd child = pwd cur /\ root child = root cur /\ executable child = executable cur;
  fk_segments : segments_at nr child;
  (** it returns 0 from the same place in user space *)
  fk_registers : eax (tss child) = 0 /\ eip (tss child) = r_eip r /\ esp (tss child) = r_esp r /\
    eflags (tss child) = r_eflags r /\ ebp (tss child) = r_ebp r /\
    cs (tss child) = Z.land (r_cs r) 0xffff /\ tss_ldt (tss child) = LDT nr
}.

(** C16: when [copy_process] succeeds it returns the new process number, slot
    [nr] holds a runnable task that inherits from the parent exactly what
    [forked] says, with its own 64 MB segment and its registers set to return
    0 from the system call, and no other slot has changed. *)
Theorem copy_process_child {I} `{!Inodes I} (fninit : list Z -> list Z) (s s' : kernel I)
    (nr ret : Z) (r : regs) (cur : task_struct) :
  0 <= nr < 64 -> array_get (task (ks s)) nr = Some None ->
  slot (ks s) (current (ks s)) = Some cur ->
  copy_process fninit nr r s = Done ret s' -> 0 <= ret ->
  ret = last_pid s /\
  exists child, slot (ks s') nr = Some child /\
    forked nr (last_pid s) (jiffies (ks s)) r cur child /\
    current (ks s') = current (ks s) /\
    forall i, i <> nr -> slot (ks s') i = slot (ks s) i.
Proof.
  intros Hnr Hempty Hcur H Hret. unfold copy_process in H.
  done_step H. apply zoom_inv in Hrun as (m & _ & ->).
  destruct (negb (truth a)); [apply ret_Done in H as [-> _]; by unfold EAGAIN in Hret|].
  done_step H. destruct a0. eapply begin_process_inv in Hrun as [Hk1 Hl1]; [|exact Hcur].
  cbn [set_field ks last_pid] in Hk1, Hl1. set (p1 := child_of _ _ _ _ _ _) in Hk1.
  assert (Hlen : 0 <= nr < Z.of_nat (length (task (ks s)))) by (by eapply array_get_Some_bound).
  assert (Hslot : forall p, slot (with_slot nr p (ks s)) nr = Some p).
  { intros p. unfold slot, with_slot. cbn [set_field task]. by rewrite array_get_set_eq. }
  assert (Hp1 : slot (ks st) nr = Some p1) by (rewrite Hk1; apply Hslot).
  done_step H. destruct a0. eapply save_math_inv in Hrun as (p2 & f & b & Hk2 & Hp2 & Hl2); [|exact Hp1].
  rewrite Hk1, with_slot_twice in Hk2.
  assert (Hs2 : slot (ks st0) nr = Some p2) by (rewrite Hk2; apply Hslot).
  done_step H. destruct (truth a0) eqn:Herr.
  { do 2 done_step H. by apply ret_Done in H as [-> _]. }
  apply truth_false in Herr as ->.
  apply (copy_mem_inv nr _ _ p2 Hnr Hs2) in Hrun as (l & Hk3 & Hseg & Hl3).
  set (p3 := p2 ⟪ start_code := _ ⟫ ⟪ ldt := l ⟫) in *.
  assert (Hs3 : slot (ks st1) nr = Some p3) by (rewrite Hk3; by eapply slot_with_slot).
  apply (finish_process_inv nr _ _ _ p3 _ Hs3) in H as (g & Hk4 & ->).
  split; [congruence|]. exists (p3 ⟪ state := TASK_RUNNING ⟫).
  assert (Hks : task (ks s') = array_set (task (ks s)) nr (Some (p3 ⟪ state := TASK_RUNNING ⟫)) /\
    current (ks s') = current (ks s)).
  { rewrite Hk4, Hk3, Hk2. unfold with_slot. cbn [set_field task current].
    by rewrite !array_set_set. }
  destruct Hks as [Hts Hcs]. split_and!; [| |exact Hcs|].
  - unfold slot. by rewrite Hts, array_get_set_eq.
  - split; [..|exact Hseg|]; unfold p3; rewrite Hp2; by cbn.
  - intros i Hi. unfold slot. by rewrite Hts, array_get_set_ne.
Qed.

(** The task that forks has its segments at 64 MB and an open file. *)
Definition demo_parent : task_struct :=
  (demo_task 0 9 15 0) ⟪ pid := 7 ⟫ ⟪ filp := Some 0 :: replicate 19 None ⟫
    ⟪ ldt := [Desc 0 0; set_base (Desc 0x9f 0xc0fa00) 0x4000000;
              set_base (Desc 0x9f 0xc0f200) 0x4000000] ⟫.
Definition demo_forker : kernel count_inodes :=
  Kernel (demo_sched ⟪ task := demo_tasks_of [INIT_TASK 0 0; demo_parent] ⟫)
    demo_mm 8 (replicate 64 0) (File 0 0 1 None 0 :: replicate 63 (File 0 0 0 None 0)) [] [] ∅.
Definition demo_regs : regs := Regs 1 2 3 4 5 6 7 8 9 10 11 12 13 14 15.

Lemma copy_process_child_witness :
  let s' := final (copy_process (fun _ => []) 2 demo_regs) demo_forker in
  copy_process (fun _ => []) 2 demo_regs demo_forker = Done 8 s' /\
  8 = last_pid demo_forker /\
  exists child, slot (ks s') 2 = Some child /\
    forked 2 8 100 demo_regs demo_parent child /\
    current (ks s') = 1 /\
    forall i, i <> 2 -> slot (ks s') i = slot (ks demo_forker) i.
Proof.
  intros s'.
  assert (Hrun : copy_process (fun _ => []) 2 demo_regs demo_forker = Done 8 s')
    by concrete_run.
  split; [exact Hrun|]. clearbody s'.
  apply (copy_process_child (fun _ => []) demo_forker s' 2 8 demo_regs demo_parent).
  - lia.
  - vm_compute. reflexivity.
  - vm_compute. reflexivity.
  - exact Hrun.
  - lia.
Defined.

(** Forking loses the parent's coprocessor state: [fnsave] leaves the
    coprocessor initialised, the registers go to the child only, and the
    parent still counts as the owner, so that nothing reloads them. *)
Theorem fork_resets_parent_coprocessor {I} (fninit : list Z -> list Z) (s : kernel I)
    (nr : Z) (p : task_struct) :
  slot (ks s) nr = Some p -> nr <> current (ks s) ->
  last_task_used_math (ks s) = Some (current (ks s)) ->
  wp (save_math fninit nr) (fun _ s' =>
    fpu (ks s') = fninit (fpu (ks s)) /\ ts_flag (ks s') = false /\
    last_task_used_math (ks s') = Some (current (ks s')) /\
    (exists child, slot (ks s') nr = Some child /\ i387 (tss child) = fpu (ks s)) /\
    slot (ks s') (current (ks s')) = slot (ks s) (current (ks s))) s.
Proof.
  intros Hp Hne Hl. unfold save_math. apply wp_bind, wp_gets.
  rewrite Hl, bool_decide_eq_true_2 by done. cbn [kwhen].
  apply wp_bind, wp_zoom. unfold wp at 1.
  rewrite (update_task_run _ nr p _ Hp). apply wp_modify. cbn [set_field ks].
  split_and!; [done|done|exact Hl| |].
  - eexists. split; [by eapply slot_update|done].
  - cbn [current]. exact (slot_update_ne _ _ _ _ Hne).
Qed.

Lemma fork_resets_parent_coprocessor_witness :
  let s := demo_forker ⟪ ks := (ks demo_forker) ⟪ fpu := [5] ⟫ ⟪ last_task_used_math := Some 1 ⟫
             ⟪ task := demo_tasks_of [INIT_TASK 0 0; demo_parent; demo_parent] ⟫ ⟫ in
  wp (save_math (fun _ => [0]) 2) (fun _ s' =>
    fpu (ks s') = [0] /\ ts_flag (ks s') = false /\
    last_task_used_math (ks s') = Some (current (ks s')) /\
    (exists child, slot (ks s') 2 = Some child /\ i387 (tss child) = [5]) /\
    slot (ks s') (current (ks s')) = slot (ks s) 1) s.
Proof.
  intros s. exact (fork_resets_parent_coprocessor (fun _ => [0]) s 2 demo_parent
    eq_refl ltac:(done) eq_refl).
Defined.

(** A kernel with four tasks in an empty file system, the last process number
    just below the largest one. *)
Definition demo_kernel : kernel count_inodes :=
  Kernel demo_sched demo_mm 2147483647 (replicate 64 0) (replicate 64 (File 0 0 0 None 0))
    [] [] ∅.

Lemma find_empty_process_fresh_witness :
  wp find_empty_process (find_empty_post demo_kernel) demo_kernel /\
  match find_empty_process demo_kernel with Done r s' => (r, last_pid s') | _ => (0, 0) end = (4, 1).
Proof.
  split; [|vm_compute; reflexivity].
  apply (find_empty_process_fresh demo_kernel); [reflexivity|]. cbn. unfold max_pid. lia.
Defined.
