(* ===== verification/Files.v ===== *)
(** * File descriptors and the file table ([fs/fcntl.c], [sys_close] of
      [fs/open.c], [sys_lseek] of [fs/read_write.c])

    A descriptor of a task is an index into the file table; entries are
    shared by [dup] and [fork] and counted in [f_count]. *)

From S2P Require Import Prelude Memory Task Sched Kernel.

Definition F_DUPFD : Z := 0.
Definition F_GETFD : Z := 1.
Definition F_SETFD : Z := 2.
Definition F_GETFL : Z := 3.
Definition F_SETFL : Z := 4.
Definition O_APPEND : Z := 0x400.
Definition O_NONBLOCK : Z := 0x800.

Section files.
Context {I : Type} `{!Inodes I}.

Definition current_task : KM (kernel I) task_struct := on_ks get_current.
Definition set_current (f : task_struct -> task_struct) : KM (kernel I) unit :=
  on_ks (update_current f).
Definition get_file (f : Z) : KM (kernel I) file := ft ← gets file_table; read_at ft f.
Definition put_file (f : Z) (x : file) : KM (kernel I) unit :=
  modify (fun s => s ⟪ file_table := array_set (file_table s) f x ⟫).

(** [filp = current->filp[fd]] for a descriptor already known to be in
    range: [None] stands for [NULL]. *)
Definition open_file (fd : Z) : KM (kernel I) (option Z) :=
  t ← current_task; read_at (filp t) fd.
(** [fd >= NR_OPEN || !(filp = current->filp[fd])] for an unsigned [fd]. *)
Definition lookup_fd (fd : Z) : KM (kernel I) (option Z) :=
  if NR_OPEN <=? fd then mret None else open_file fd.

Definition clear_cloexec (fd : Z) : task_struct -> task_struct := fun t =>
  t ⟪ close_on_exec := Z.land (close_on_exec t) (u32 (Z.lnot (Z.shiftl 1 fd))) ⟫.

Definition sys_close (fd : Z) : KM (kernel I) Z :=
  if NR_OPEN <=? fd then mret (- EINVAL)
  else
    set_current (clear_cloexec fd) ;;
    o ← open_file fd;
    match o with
    | None => mret (- EINVAL)
    | Some f =>
        set_current (fun t => t ⟪ filp := array_set (filp t) fd None ⟫) ;;
        x ← get_file f;
        if f_count x =? 0 then panic "Close: file count is 0"
        else
          put_file f (x ⟪ f_count := f_count x - 1 ⟫) ;;
          if truth (f_count x - 1) then mret 0
          else iput (f_inode x) ;; mret 0
    end.

(** [while (arg < NR_OPEN)]: the first free descriptor from [arg] on. *)
Fixpoint first_free (l : list (option Z)) (arg : Z) (n : nat) : Z :=
  match n with
  | O => arg
  | S n =>
      match array_get l arg with
      | Some (Some _) => first_free l (arg + 1) n
      | _ => arg
      end
  end.

Definition dupfd (fd arg : Z) : KM (kernel I) Z :=
  o ← lookup_fd fd;
  match o with
  | None => mret (- EBADF)
  | Some f =>
      if NR_OPEN <=? arg then mret (- EINVAL)
      else
        t ← current_task;
        let arg := first_free (filp t) arg (Z.to_nat (NR_OPEN - arg)) in
        if NR_OPEN <=? arg then mret (- EMFILE)
        else
          set_current (clear_cloexec arg) ;;
          set_current (fun t => t ⟪ filp := array_set (filp t) arg (Some f) ⟫) ;;
          x ← get_file f;
          put_file f (x ⟪ f_count := u16 (f_count x + 1) ⟫) ;;
          mret arg
  end.

Definition sys_dup2 (oldfd newfd : Z) : KM (kernel I) Z :=
  sys_close newfd ;; dupfd oldfd newfd.
Definition sys_dup (fildes : Z) : KM (kernel I) Z := dupfd fildes 0.

Definition sys_fcntl (fd cmd arg : Z) : KM (kernel I) Z :=
  o ← lookup_fd fd;
  match o with
  | None => mret (- EBADF)
  | Some f =>
      if cmd =? F_DUPFD then dupfd fd arg
      else if cmd =? F_GETFD then
        t ← current_task; mret (Z.land (Z.shiftr (close_on_exec t) fd) 1)
      else if cmd =? F_SETFD then
        (if truth (Z.land arg 1)
         then set_current (fun t =>
                t ⟪ close_on_exec := u32 (Z.lor (close_on_exec t) (Z.shiftl 1 fd)) ⟫)
         else set_current (clear_cloexec fd)) ;;
        mret 0
      else if cmd =? F_GETFL then x ← get_file f; mret (f_flags x)
      else if cmd =? F_SETFL then
        let flags := Z.lor O_APPEND O_NONBLOCK in
        x ← get_file f;
        put_file f (x ⟪ f_flags :=
          u16 (Z.lor (Z.land (f_flags x) (Z.lnot flags)) (Z.land arg flags)) ⟫) ;;
        mret 0
      else mret (-1)
  end.

(** [IS_SEEKABLE(MAJOR(dev))] *)
Definition IS_SEEKABLE (x : Z) : bool := (1 <=? x) && (x <=? 3).
Definition MAJOR (dev : Z) : Z := Z.shiftr dev 8.

Definition sys_lseek (fd offset origin : Z) : KM (kernel I) Z :=
  o ← lookup_fd fd;
  match o with
  | None => mret (- EBADF)
  | Some f =>
      x ← get_file f;
      s ← gets (fun s => s);
      match f_inode x with
      | None => mret (- EBADF)
      | Some i =>
          let set_pos pos :=
            if pos <? 0 then mret (- EINVAL)
            else put_file f (x ⟪ f_pos := pos ⟫) ;; mret pos in
          if negb (IS_SEEKABLE (MAJOR (i_dev (inodes s) i))) then mret (- EBADF)
          else if i_pipe (inodes s) i then mret (- ESPIPE)
          else if origin =? 0 then set_pos offset
          else if origin =? 1 then set_pos (s32 (f_pos x + offset))
          else if origin =? 2 then set_pos (s32 (i_size (inodes s) i + offset))
          else mret (- EINVAL)
      end
  end.
End files.

(** ** Reference counts *)

(** The descriptors that refer to file-table entry [f]: in one task, and in
    all of them. *)
Definition refs_in (f : Z) (l : list (option Z)) : nat :=
  length (filter (fun o => o = Some f) l).
Definition task_refs (f : Z) (o : option task_struct) : nat :=
  match o with Some t => refs_in f (filp t) | None => 0 end.
Definition refs (f : Z) (ts : list (option task_struct)) : nat :=
  sum_list_with (task_refs f) ts.

(** Every entry's [f_count] is the number of descriptors that refer to it;
    descriptors refer to entries of the table, every task has [NR_OPEN] of
    them, and there are [NR_TASKS] slots. *)
Record files_wf {I} (s : kernel I) : Prop := {
  fw_tasks : length (task (ks s)) = 64%nat;
  fw_fds : forall i t, slot (ks s) i = Some t -> length (filp t) = 20%nat;
  fw_count : forall f x, array_get (file_table s) f = Some x ->
    f_count x = Z.of_nat (refs f (task (ks s)));
  fw_range : forall i t fd f, slot (ks s) i = Some t ->
    array_get (filp t) fd = Some (Some f) -> is_Some (array_get (file_table s) f)
}.

Section counting.
Context {A : Type} (g : A -> nat).
Lemma sum_list_insert (l : list A) i x y :
  l !! i = Some x ->
  (sum_list_with g (<[i := y]> l) + g x = sum_list_with g l + g y)%nat.
Proof.
  revert i. induction l as [|z l IH]; intros [|i] H; simpl in *; try done.
  - injection H as ->. lia.
  - specialize (IH i H). lia.
Qed.
Lemma sum_list_bound (l : list A) n :
  (forall x, x ∈ l -> (g x <= n)%nat) -> (sum_list_with g l <= length l * n)%nat.
Proof.
  induction l as [|z l IH]; intros Hn; simpl; [done|].
  pose proof (Hn z ltac:(set_solver)). specialize (IH ltac:(set_solver)). lia.
Qed.
End counting.

Definition hit (f : Z) (o : option Z) : nat := if decide (o = Some f) then 1 else 0.

Lemma refs_in_sum f l : refs_in f l = sum_list_with (hit f) l.
Proof.
  unfold refs_in. induction l as [|o l IH]; [done|].
  rewrite filter_cons. simpl. unfold hit at 1. case_decide; simpl; lia.
Qed.
Lemma refs_in_set f l fd o o' :
  array_get l fd = Some o ->
  (refs_in f (array_set l fd o') + hit f o = refs_in f l + hit f o')%nat.
Proof.
  rewrite !refs_in_sum. unfold array_get, array_set. destruct (0 <=? fd); [|done].
  apply sum_list_insert.
Qed.
Lemma refs_set f ts i t t' :
  mjoin (array_get ts i) = Some t ->
  (refs f (array_set ts i (Some t')) + refs_in f (filp t) = refs f ts + refs_in f (filp t'))%nat.
Proof.
  unfold refs, array_get, array_set. destruct (0 <=? i); [|done].
  intros Ht. destruct (ts !! Z.to_nat i) as [[u|]|] eqn:Hi; simplify_eq/=.
  apply (sum_list_insert (task_refs f) ts _ (Some t) (Some t') Hi).
Qed.

(** The tables are small: no count comes near the width of [f_count]. *)
Lemma refs_bound {I} (s : kernel I) f : files_wf s -> (refs f (task (ks s)) <= 1280)%nat.
Proof.
  intros Hwf. unfold refs. change 1280%nat with (64 * 20)%nat.
  rewrite <- (fw_tasks _ Hwf). apply sum_list_bound.
  intros o (i & Hi)%list_elem_of_lookup. destruct o as [t|]; simpl; [|lia].
  rewrite <- (fw_fds _ Hwf (Z.of_nat i) t).
  - unfold refs_in. apply length_filter.
  - unfold slot. by rewrite array_get_nat, Hi.
Qed.

(** Changing one descriptor of one task, and one count. *)
Lemma files_wf_update {I} (s s' : kernel I) i t t' fd o o' :
  files_wf s -> slot (ks s) i = Some t -> array_get (filp t) fd = Some o ->
  filp t' = array_set (filp t) fd o' ->
  task (ks s') = array_set (task (ks s)) i (Some t') ->
  (forall f, is_Some (array_get (file_table s) f) -> is_Some (array_get (file_table s') f)) ->
  (forall f, o' = Some f -> is_Some (array_get (file_table s') f)) ->
  (forall f x', array_get (file_table s') f = Some x' -> exists x,
     array_get (file_table s) f = Some x /\
     f_count x' + Z.of_nat (hit f o) = f_count x + Z.of_nat (hit f o')) ->
  files_wf s'.
Proof.
  intros Hwf Ht Ho Hfilp Hts Hin Ho' Hcount.
  assert (Hslot : forall j u, slot (ks s') j = Some u ->
    (j = i /\ u = t') \/ (j <> i /\ slot (ks s) j = Some u)).
  { intros j u. unfold slot. rewrite Hts. destruct (decide (j = i)) as [->|Hj].
    - rewrite array_get_set_eq; [intros [= <-]; by left|].
      unfold slot in Ht. destruct (array_get (task (ks s)) i) eqn:Hg; [|done].
      by eapply array_get_Some_bound.
    - rewrite array_get_set_ne by done. by right. }
  split.
  - rewrite Hts, length_array_set. apply Hwf.
  - intros j u [[-> ->]|[_ Hu]]%Hslot; [|by eapply fw_fds].
    rewrite Hfilp, length_array_set. by eapply fw_fds.
  - intros f x' Hx'. destruct (Hcount f x' Hx') as (x & Hx & Hc).
    pose proof (fw_count _ Hwf f x Hx). rewrite Hts.
    pose proof (refs_set f _ i t t' Ht). pose proof (refs_in_set f _ fd o o' Ho).
    rewrite Hfilp in *. lia.
  - intros j u fd' f [[-> ->]|[_ Hu]]%Hslot Hf; [|apply Hin; by eapply fw_range].
    rewrite Hfilp in Hf. destruct (decide (fd = fd')) as [<-|Hne].
    + rewrite array_get_set_eq in Hf by (by eapply array_get_Some_bound).
      injection Hf as ->. by apply Ho'.
    + rewrite array_get_set_ne in Hf by done. apply Hin. by eapply fw_range.
Qed.

Section file_operations.
Context {I : Type} `{!Inodes I}.
Implicit Types s : kernel I.

Definition with_current (t : task_struct) (s : kernel I) : kernel I :=
  s ⟪ ks := (ks s) ⟪ task := array_set (task (ks s)) (current (ks s)) (Some t) ⟫ ⟫.
Definition current_is s t : Prop := slot (ks s) (current (ks s)) = Some t.

Lemma current_is_with t u s : current_is s t -> current_is (with_current u s) u.
Proof. intros Ht. unfold current_is, with_current. by apply slot_update with t. Qed.
Lemma with_current_twice t u s : with_current u (with_current t s) = with_current u s.
Proof. unfold with_current. cbn. by rewrite array_set_set. Qed.

Lemma wp_current_task t Q s : current_is s t -> Q t s -> wp current_task Q s.
Proof.
  intros Ht HQ. unfold current_task. apply wp_zoom. unfold get_current, get_task.
  apply wp_bind, wp_gets, wp_bind, wp_gets. eapply wp_deref; [exact Ht|]. by destruct s.
Qed.
Lemma wp_set_current f t Q s :
  current_is s t -> Q tt (with_current (f t) s) -> wp (set_current f) Q s.
Proof.
  intros Ht HQ. unfold set_current. apply wp_zoom. unfold update_current.
  apply wp_bind, wp_gets. unfold wp. by rewrite (update_task_run _ _ t f Ht).
Qed.
Lemma current_task_run s t : current_is s t -> current_task s = Done t s.
Proof.
  intros Ht. assert (H : wp current_task (fun u s' => u = t /\ s' = s) s)
    by (by eapply wp_current_task).
  unfold wp in H. destruct (current_task s) as [u s'| | | |]; [|done..].
  by destruct H as [-> ->].
Qed.
Lemma set_current_run s t f :
  current_is s t -> set_current f s = Done tt (with_current (f t) s).
Proof.
  intros Ht. assert (H : wp (set_current f) (fun _ s' => s' = with_current (f t) s) s)
    by (by eapply wp_set_current).
  unfold wp in H. by destruct (set_current f s) as [[]| | | |]; [rewrite H|..].
Qed.
Lemma with_current_same s t : current_is s t -> with_current t s = s.
Proof.
  intros Ht. unfold with_current. cbn. rewrite array_set_get; [by destruct s as [[]]|].
  unfold current_is, slot in Ht. destruct (array_get _ _) as [[]|]; cbn in *; congruence.
Qed.
Lemma wp_get_file f x Q s :
  array_get (file_table s) f = Some x -> Q x s -> wp (get_file f) Q s.
Proof. intros Hx HQ. unfold get_file. apply wp_bind, wp_gets. by eapply wp_deref. Qed.

Lemma fd_exists s t fd :
  files_wf s -> current_is s t -> 0 <= fd < NR_OPEN -> exists o, array_get (filp t) fd = Some o.
Proof.
  intros Hwf Ht Hfd. apply array_get_in_bounds. rewrite (fw_fds _ Hwf _ _ Ht).
  unfold NR_OPEN in Hfd. lia.
Qed.

(** Updates that leave the descriptors alone keep the counts right. *)
Lemma files_wf_same s t t' fd :
  files_wf s -> current_is s t -> 0 <= fd < NR_OPEN -> filp t' = filp t ->
  files_wf (with_current t' s).
Proof.
  intros Hwf Ht Hfd Hf. destruct (fd_exists s t fd Hwf Ht Hfd) as [o Ho].
  eapply (files_wf_update s _ _ t t' fd o o); [done|exact Ht|done| |done|done| |].
  - by rewrite Hf, array_set_get.
  - intros f ->. exact (fw_range _ Hwf _ _ _ _ Ht Ho).
  - intros f x Hx. by exists x.
Qed.

(** Closing a descriptor that is not open. *)
Definition not_open t (fd : Z) : Prop := forall f, array_get (filp t) fd <> Some (Some f).
Lemma sys_close_not_open s t fd :
  files_wf s -> current_is s t -> 0 <= fd -> not_open t fd ->
  sys_close fd s = Done (- EINVAL) (if NR_OPEN <=? fd then s else with_current (clear_cloexec fd t) s).
Proof.
  intros Hwf Ht Hfd Hno. unfold sys_close. destruct (Z.leb_spec NR_OPEN fd) as [Hbig|Hsmall]; [done|].
  destruct (fd_exists s t fd Hwf Ht ltac:(lia)) as [o Ho].
  unfold mbind, kbind. rewrite (set_current_run s t _ Ht). unfold open_file, mbind, kbind.
  rewrite (current_task_run _ _ (current_is_with t (clear_cloexec fd t) s Ht)).
  unfold read_at. change (filp (clear_cloexec fd t)) with (filp t). rewrite Ho.
  destruct o as [f|]; [by destruct (Hno f)|done].
Qed.

(** The task [t] without the descriptor [fd], and the state in which, besides, its
    entry [f], which holds [x], is counted once less. *)
Definition without (fd : Z) (t : task_struct) : task_struct :=
  (clear_cloexec fd t) ⟪ filp := array_set (filp t) fd None ⟫.
Definition closed s t (fd f : Z) (x : file) : kernel I :=
  (with_current (without fd t) s) ⟪ file_table := array_set (file_table s) f (x ⟪ f_count := f_count x - 1 ⟫) ⟫.

(** Closing one that is open: the entry is counted, so that its count cannot
    be zero, and the counts are right again before [iput]. *)
Lemma sys_close_open s t fd f :
  files_wf s -> current_is s t -> array_get (filp t) fd = Some (Some f) ->
  exists x, array_get (file_table s) f = Some x /\ 0 < f_count x /\ files_wf (closed s t fd f x) /\
    sys_close fd s = (if f_count x =? 1 then iput (f_inode x) ;; mret 0 else mret 0) (closed s t fd f x).
Proof.
  intros Hwf Ht Ho. pose proof (array_get_Some_bound _ _ _ Ho) as Hfd. rewrite (fw_fds _ Hwf _ _ Ht) in Hfd.
  destruct (fw_range _ Hwf _ _ _ _ Ht Ho) as [x Hx]. exists x. split; [done|].
  pose proof (fw_count _ Hwf f x Hx) as Hcx.
  pose proof (refs_set f _ _ t (without fd t) Ht) as Hr. pose proof (refs_in_set f _ fd _ None Ho) as Hr2.
  unfold hit in Hr2. rewrite decide_True, decide_False in Hr2 by done.
  change (filp (without fd t)) with (array_set (filp t) fd None) in Hr.
  assert (Hpos : 0 < f_count x) by lia. split; [done|]. split.
  - eapply (files_wf_update s _ _ t (without fd t) fd (Some f) None); [done|exact Ht|done|done|done| |done|].
    + intros g [y Hy]. apply array_get_in_bounds. cbn. rewrite length_array_set. by eapply array_get_Some_bound.
    + intros g x'. unfold closed, hit. cbn [set_field file_table with_current]. destruct (decide (g = f)) as [->|Hg].
      * rewrite array_get_set_eq by (by eapply array_get_Some_bound).
        intros [= <-]. exists x. split; [done|]. rewrite decide_True, decide_False by done. cbn. lia.
      * rewrite array_get_set_ne by done. exists x'. split; [done|]. rewrite !decide_False by congruence. lia.
  - unfold sys_close. rewrite (proj2 (Z.leb_gt NR_OPEN fd)) by (unfold NR_OPEN; lia).
    unfold mbind at 1, kbind at 1. rewrite (set_current_run s t _ Ht).
    pose proof (current_is_with t (clear_cloexec fd t) s Ht) as Ht1.
    unfold mbind at 1, kbind at 1. unfold open_file at 1, mbind at 1, kbind at 1. rewrite (current_task_run _ _ Ht1).
    unfold read_at. change (filp (clear_cloexec fd t)) with (filp t). rewrite Ho. cbn [deref mret kret].
    unfold mbind at 1, kbind at 1. rewrite (set_current_run _ _ _ Ht1), with_current_twice.
    change (_ ⟪ filp := _ ⟫) with (without fd t). unfold mbind at 1, kbind at 1. unfold get_file, gets, read_at, mbind at 1, kbind at 1.
    change (file_table (with_current (without fd t) s)) with (file_table s). rewrite Hx. cbn [deref mret kret].
    rewrite (proj2 (Z.eqb_neq (f_count x) 0)) by lia.
    unfold mbind at 1, kbind at 1, put_file, modify. fold (closed s t fd f x).
    unfold truth. destruct (Z.eqb_spec (f_count x) 1), (Z.eqb_spec (f_count x - 1) 0); [done|lia..|done].
Qed.

Lemma first_free_spec l n arg :
  length l = 20%nat -> 0 <= arg -> arg + Z.of_nat n = 20 ->
  let r := first_free l arg n in
  arg <= r <= 20 /\ (forall j, arg <= j < r -> exists f, array_get l j = Some (Some f)) /\
  (r < 20 -> array_get l r = Some None).
Proof.
  intros Hlen. revert arg. induction n as [|n IH]; intros arg Ha Hn; simpl.
  { split_and!; [lia|lia|lia|lia]. }
  destruct (array_get_in_bounds l arg) as [o Ho]; [lia|]. rewrite Ho. destruct o as [f|].
  - destruct (IH (arg + 1)) as (Hr & Hj & Hfree); [lia|lia|]. split_and!; [lia|lia| |done].
    intros j Hjr. destruct (decide (j = arg)) as [->|]; [by exists f|apply Hj; lia].
  - split_and!; [lia|lia|lia|done].
Qed.

(** The descriptor [fd] of [t] is open on entry [f]. *)
Definition open_on (t : task_struct) (fd f : Z) : Prop := array_get (filp t) fd = Some (Some f).

Definition dupfd_post s t fd arg (r : Z) s' : Prop :=
  files_wf s' /\
  ((r = - EBADF /\ s' = s /\ forall f, ~ open_on t fd f) \/
   exists f, open_on t fd f /\
     ((r = - EINVAL /\ s' = s /\ NR_OPEN <= arg) \/
      (r = - EMFILE /\ s' = s /\ forall j, arg <= j < NR_OPEN -> exists g, open_on t j g) \/
      (arg <= r < NR_OPEN /\ array_get (filp t) r = Some None /\
       (forall j, arg <= j < r -> exists g, open_on t j g) /\
       exists t', current_is s' t' /\ filp t' = array_set (filp t) r (Some f) /\
         Z.testbit (close_on_exec t') r = false))).

Lemma clear_cloexec_bit fd t :
  0 <= fd < 32 -> Z.testbit (close_on_exec (clear_cloexec fd t)) fd = false.
Proof.
  intros Hfd. cbn. rewrite Z.land_spec. unfold u32. change 4294967296 with (2 ^ 32).
  rewrite Z.mod_pow2_bits_low, Z.lnot_spec, Z.shiftl_spec, Z.sub_diag by lia.
  apply andb_false_r.
Qed.

Lemma dupfd_ok s t fd arg :
  files_wf s -> current_is s t -> 0 <= fd -> 0 <= arg ->
  wp (dupfd fd arg) (dupfd_post s t fd arg) s.
Proof.
  intros Hwf Ht Hfd Harg. unfold dupfd, dupfd_post. apply wp_bind. unfold lookup_fd.
  assert (Hbad : forall f, NR_OPEN <= fd -> ~ open_on t fd f).
  { intros f Hbig Hf%array_get_Some_bound. rewrite (fw_fds _ Hwf _ _ Ht) in Hf.
    unfold NR_OPEN in Hbig. lia. }
  destruct (Z.leb_spec NR_OPEN fd) as [Hbig|Hsmall].
  { apply wp_ret, wp_ret. split; [done|]. left. split_and!; [done|done|by eauto]. }
  destruct (fd_exists s t fd Hwf Ht ltac:(lia)) as [o Ho].
  unfold open_file. apply wp_bind. eapply wp_current_task; [exact Ht|].
  eapply wp_deref; [exact Ho|]. destruct o as [f|].
  2:{ apply wp_ret. split; [done|]. left. split_and!; [done|done|]. unfold open_on. congruence. }
  destruct (Z.leb_spec NR_OPEN arg) as [Habig|Hasmall].
  { apply wp_ret. split; [done|]. right. exists f. split; [done|]. by left. }
  apply wp_bind. eapply wp_current_task; [exact Ht|].
  destruct (first_free_spec (filp t) (Z.to_nat (NR_OPEN - arg)) arg) as (Hr & Hj & Hfree);
    [by eapply fw_fds|done|unfold NR_OPEN in *; lia|].
  set (r := first_free _ _ _) in *.
  destruct (Z.leb_spec NR_OPEN r) as [Hrbig|Hrsmall].
  { apply wp_ret. split; [done|]. right. exists f. split; [done|]. right. left.
    split_and!; [done|done|]. intros j Hjr. apply Hj. unfold NR_OPEN in *. lia. }
  assert (Hr0 : array_get (filp t) r = Some None) by (apply Hfree; unfold NR_OPEN in *; lia).
  apply wp_bind. eapply wp_set_current; [exact Ht|].
  pose proof (current_is_with t (clear_cloexec r t) s Ht) as Ht1.
  apply wp_bind. eapply wp_set_current; [exact Ht1|]. rewrite with_current_twice.
  set (t2 := (clear_cloexec r t) ⟪ filp := _ ⟫).
  pose proof (current_is_with t t2 s Ht) as Ht2.
  destruct (fw_range _ Hwf _ _ _ _ Ht Ho) as [x Hx].
  apply wp_bind. eapply wp_get_file; [exact Hx|]. apply wp_bind, wp_modify, wp_ret.
  pose proof (fw_count _ Hwf f x Hx) as Hcx. pose proof (refs_bound s f Hwf).
  split.
  - eapply (files_wf_update s _ _ t t2 r None (Some f)); [done|exact Ht|done|done|done| | |].
    + intros g [y Hy]. apply array_get_in_bounds. cbn. rewrite length_array_set.
      by eapply array_get_Some_bound.
    + intros g [= <-]. apply array_get_in_bounds. cbn. rewrite length_array_set.
      by eapply array_get_Some_bound.
    + intros g x'. cbn [set_field file_table with_current]. unfold hit.
      destruct (decide (g = f)) as [->|Hg].
      * rewrite array_get_set_eq by (by eapply array_get_Some_bound).
        intros [= <-]. exists x. split; [done|]. rewrite decide_False, decide_True by done.
        cbn. rewrite u16_small; lia.
      * rewrite array_get_set_ne by done. exists x'. split; [done|].
        rewrite !decide_False by congruence. lia.
  - right. exists f. split; [done|]. right. right. split_and!; [lia|done|done|exact Hj|].
    exists t2. split_and!; [exact Ht2|done|].
    apply (clear_cloexec_bit r t). unfold NR_OPEN in *. lia.
Qed.

(** C19: [dupfd] on a consistent file table keeps it consistent: it gives
    out the lowest free descriptor from [arg] on, with its close-on-exec
    flag cleared and the entry counted once more, or changes nothing and
    reports [-EBADF], [-EINVAL] or [-EMFILE]. *)
Theorem dupfd_consistent s t fd arg :
  files_wf s -> current_is s t -> 0 <= fd -> 0 <= arg ->
  wp (dupfd fd arg) (dupfd_post s t fd arg) s.
Proof. apply dupfd_ok. Qed.
End file_operations.

(** The task of [demo_forker], its file table and a trivial inode layer. *)
#[export] Instance unit_inodes : Inodes unit := {
  iput _ := mret tt; igrab _ := mret tt;
  i_dev _ _ := 0x301; i_pipe _ _ := false; i_size _ _ := 100
}.
Definition demo_files : kernel unit :=
  Kernel (Sched (Some ((INIT_TASK 0 0) ⟪ filp := Some 0 :: Some 0 :: replicate 18 None ⟫)
                   :: replicate 63 None) 0 0 0 None false [] [] ∅)
    (MM [] 0 ∅) 1 [] (File 3 0 2 (Some 5) 0 :: replicate 63 (File 0 0 0 None 0)) tt [] ∅.
Definition demo_user_task : task_struct :=
  (INIT_TASK 0 0) ⟪ filp := Some 0 :: Some 0 :: replicate 18 None ⟫.

Lemma demo_files_wf : files_wf demo_files.
Proof.
  assert (Hslot : forall i t, slot (ks demo_files) i = Some t -> t = demo_user_task).
  { intros i t. unfold slot, array_get. destruct (Z.leb_spec 0 i); [|done].
    destruct (Z.to_nat i) as [|n]; [by intros [= <-]|]. cbn [demo_files ks task lookup].
    intros Hn. exfalso. change (mjoin (replicate 63 (@None task_struct) !! n) = Some t) in Hn.
    destruct (decide (n < 63)%nat).
    - by rewrite lookup_replicate_2 in Hn.
    - by rewrite lookup_ge_None_2 in Hn by (rewrite length_replicate; lia). }
  split.
  - done.
  - by intros i t ->%Hslot.
  - intros f x Hx. unfold array_get in Hx. destruct (Z.leb_spec 0 f); [|done].
    destruct (Z.to_nat f) as [|n] eqn:Hn; cbn in Hx.
    + injection Hx as <-. assert (f = 0) as -> by lia. by vm_compute.
    + change (replicate 63 (File 0 0 0 None 0) !! n = Some x) in Hx.
      apply lookup_replicate in Hx as [-> _].
      cbn [f_count]. unfold refs, demo_files. cbn [ks task sum_list_with].
      assert (Hz : refs_in f (filp demo_user_task) = 0%nat).
      { rewrite refs_in_sum. cbn. unfold hit. by rewrite !decide_False by (intros [= ?]; lia). }
      change (0 = Z.of_nat (refs_in f (filp demo_user_task) + 0)). by rewrite Hz.
  - intros i t fd f ->%Hslot. unfold array_get. destruct (Z.leb_spec 0 fd); [|done].
    destruct (Z.to_nat fd) as [|[|n]]; cbn; [by intros [= <-]; eexists..|].
    change (replicate 18 (@None Z) !! n = Some (Some f) -> is_Some (array_get (file_table demo_files) f)).
    by intros [? _]%lookup_replicate.
Qed.

Lemma dupfd_consistent_witness :
  wp (dupfd 0 1) (dupfd_post demo_files demo_user_task 0 1) demo_files.
Proof.
  apply (dupfd_consistent demo_files demo_user_task 0 1);
    [exact demo_files_wf|reflexivity|lia|lia].
Defined.
