(* ===== verification/Exit.v ===== *)
(** * Ending processes and waiting for them ([kernel/exit.c])

    [release], [kill], [exit] and [waitpid].  A [struct task_struct *] taken
    from [task[]] is the slot it came from.  [sys_waitpid] is modelled by its
    segments between calls of [schedule]. *)

From S2P Require Import Prelude Memory Task Sched Kernel Files.

Definition SIGHUP : Z := 1.
Definition WNOHANG : Z := 1.
Definition WUNTRACED : Z := 2.
(** The signal bit of [sig], as [1<<(sig-1)] is evaluated. *)
Definition sig_bit (sig : Z) : Z := s32 (Z.shiftl 1 (sig - 1)).

(** ** [kill] *)

Definition add_signal (bit : Z) (t : task_struct) : task_struct :=
  t ⟪ signal := Z.lor (signal t) bit ⟫.

(** [send_sig(sig,p,priv)] for the task in slot [p], which may be empty. *)
Definition send_sig (sig p : Z) (priv : bool) : KM sched Z :=
  o ← gets (fun s => slot s p);
  match o with
  | None => mret (- EINVAL)
  | Some t =>
      if (sig <? 1) || (32 <? sig) then mret (- EINVAL)
      else
        cur ← get_current;
        if priv || (euid cur =? euid t) || (euid cur =? 0)
        then put_task p (add_signal (sig_bit sig) t) ;; mret 0
        else mret (- EPERM)
  end.

(** The slots in the order of [while (--p > &FIRST_TASK)]. *)
Definition slots_down : list Z := reverse (seqZ 1 63).

Definition kill_session : KM sched unit :=
  cur ← get_current;
  kfor slots_down (fun p =>
    o ← gets (fun s => slot s p);
    match o with
    | Some t => kwhen (session t =? session cur) (put_task p (add_signal (sig_bit SIGHUP) t))
    | None => mret tt
    end).

(** A loop of [sys_kill] that signals the tasks that match, and keeps the
    last error. *)
Fixpoint kill_matching (slots : list Z) (m : task_struct -> bool) (sig : Z) (priv : bool)
    (retval : Z) : KM sched Z :=
  match slots with
  | [] => mret retval
  | p :: slots =>
      o ← gets (fun s => slot s p);
      match o with
      | Some t =>
          if m t then
            err ← send_sig sig p priv;
            kill_matching slots m sig priv (if truth err then err else retval)
          else kill_matching slots m sig priv retval
      | None => kill_matching slots m sig priv retval
      end
  end.

(** The branch for [pid == -1].  The last [else] of the function belongs to
    its inner [if]: when a signal was sent, the loop over the process group
    [-pid] takes over and finishes the array. *)
Fixpoint kill_all (slots : list Z) (pid sig retval : Z) : KM sched Z :=
  match slots with
  | [] => mret retval
  | p :: slots =>
      err ← send_sig sig p false;
      if truth err then kill_all slots pid sig err
      else kill_matching slots (fun t => pgrp t =? - pid) sig false retval
  end.

Definition sys_kill (p sig : Z) : KM sched Z :=
  cur ← get_current;
  if p =? 0 then kill_matching slots_down (fun t => pgrp t =? pid cur) sig true 0
  else if 0 <? p then kill_matching slots_down (fun t => pid t =? p) sig false 0
  else if p =? -1 then kill_all slots_down p sig 0
  else mret 0.

Section exit.
Context {I : Type} `{!Inodes I}.

(** [release(p)] for the task in slot [p], [NULL] if the slot is empty. *)
Definition release (p : Z) : KM (kernel I) unit :=
  s ← gets (fun s => s);
  match slot (ks s) p with
  | Some _ =>
      if (1 <=? p) && (p <? NR_TASKS) then
        modify (fun s => s ⟪ ks := (ks s) ⟪ task := array_set (task (ks s)) p None ⟫ ⟫) ;;
        page ← read_at (task_page s) p;
        on_km (free_page page) ;;
        on_ks schedule
      else panic "trying to release non-existent task"
  | None => mret tt
  end.

(** The first task, from slot 0 on, with process number [p]. *)
Fixpoint find_pid (ts : list (option task_struct)) (i p : Z) : option Z :=
  match ts with
  | [] => None
  | Some t :: ts => if pid t =? p then Some i else find_pid ts (i + 1) p
  | None :: ts => find_pid ts (i + 1) p
  end.
Definition tell_father (p : Z) : KM (kernel I) unit :=
  s ← gets (fun s => s);
  match (if truth p then find_pid (task (ks s)) 0 p else None) with
  | Some i => on_ks (update_task i (add_signal (sig_bit SIGCHLD)))
  | None => release (current (ks s))
  end.

(** One turn of the loop of [do_exit] that hands the children to [init]. *)
Definition orphan (me i : Z) : KM (kernel I) unit :=
  o ← gets (fun s => slot (ks s) i);
  match o with
  | Some t =>
      kwhen (father t =? me)
        (on_ks (put_task i (t ⟪ father := 1 ⟫)) ;;
         kwhen (state t =? TASK_ZOMBIE) (_ ← on_ks (send_sig SIGCHLD 1 true); mret tt))
  | None => mret tt
  end.

Definition close_if_open (fd : Z) : KM (kernel I) unit :=
  o ← open_file fd;
  match o with Some _ => _ ← sys_close fd; mret tt | None => mret tt end.

(** [iput(current->pwd); current->pwd = NULL;] and so on. *)
Definition drop_inode (get : task_struct -> option Z)
    (clear : task_struct -> task_struct) : KM (kernel I) unit :=
  t ← current_task;
  iput (get t) ;;
  set_current clear.

Definition do_exit (code : Z) : KM (kernel I) Z :=
  cur ← current_task;
  cs_desc ← read_at (ldt cur) 1;
  ds_desc ← read_at (ldt cur) 2;
  on_km (free_page_tables (get_base cs_desc) (get_limit cs_desc)) ;;
  on_km (free_page_tables (get_base ds_desc) (get_limit ds_desc)) ;;
  kfor (upto NR_TASKS) (orphan (pid cur)) ;;
  kfor (upto NR_OPEN) close_if_open ;;
  drop_inode pwd (fun t => t ⟪ pwd := None ⟫) ;;
  drop_inode root (fun t => t ⟪ root := None ⟫) ;;
  drop_inode executable (fun t => t ⟪ executable := None ⟫) ;;
  cur ← current_task;
  kwhen (truth (leader cur) && (0 <=? tty cur))
    (modify (fun s => s ⟪ tty_pgrp := array_set (tty_pgrp s) (tty cur) 0 ⟫)) ;;
  modify (fun s => s ⟪ ks := (ks s) ⟪ last_task_used_math :=
    if bool_decide (last_task_used_math (ks s) = Some (current (ks s)))
    then None else last_task_used_math (ks s) ⟫ ⟫) ;;
  kwhen (truth (leader cur)) (on_ks kill_session) ;;
  set_current (fun t => t ⟪ state := TASK_ZOMBIE ⟫ ⟪ exit_code := code ⟫) ;;
  cur ← current_task;
  tell_father (father cur) ;;
  on_ks schedule ;;
  mret (-1).

Definition sys_exit (error_code : Z) : KM (kernel I) Z :=
  do_exit (Z.shiftl (Z.land error_code 0xff) 8).

(** ** [waitpid] *)

(** The child [t] is one that [waitpid(p,...)] waits for. *)
Definition waits_for (p : Z) (cur t : task_struct) : bool :=
  (father t =? pid cur) &&
  (if 0 <? p then pid t =? p
   else if p =? 0 then pgrp t =? pgrp cur
   else if p =? -1 then true
   else pgrp t =? - p).

(** What the scan of the task array finds: a stopped child, a zombie, or
    only whether there is a child to wait for ([flag]). *)
Inductive scan : Type :=
| Stopped (child : Z)
| Zombie (i : Z)
| Nothing (flag : bool).

Fixpoint wait_scan (slots : list Z) (s : sched) (cur : task_struct) (p options : Z)
    (flag : bool) : scan :=
  match slots with
  | [] => Nothing flag
  | i :: slots =>
      match slot s i with
      | Some t =>
          if (i =? current s) || negb (waits_for p cur t)
          then wait_scan slots s cur p options flag
          else if state t =? TASK_STOPPED then
            if truth (Z.land options WUNTRACED) then Stopped (pid t)
            else wait_scan slots s cur p options flag
          else if state t =? TASK_ZOMBIE then Zombie i
          else wait_scan slots s cur p options true
      | None => wait_scan slots s cur p options flag
      end
  end.

(** How a segment of [sys_waitpid] ends: it returns a value; it has
    released a zombie (which called [schedule]) and, when it runs again,
    stores the exit code and returns the process number; or it sleeps. *)
Inductive wait_result : Type :=
| Returns (r : Z)
| Released (child code : Z)
| Sleeps.

Definition waitpid_segment (p stat_addr options : Z) : KM (kernel I) wait_result :=
  cur ← current_task;
  s ← gets (fun s => s);
  match wait_scan slots_down (ks s) cur p options false with
  | Stopped child => put_fs_long 0x7f stat_addr ;; mret (Returns child)
  | Zombie i =>
      z ← on_ks (get_task i);
      set_current (fun t => t ⟪ cutime := s32 (cutime t + utime z) ⟫
                              ⟪ cstime := s32 (cstime t + stime z) ⟫) ;;
      release i ;;
      mret (Released (pid z) (exit_code z))
  | Nothing false => mret (Returns (- ECHILD))
  | Nothing true =>
      if truth (Z.land options WNOHANG) then mret (Returns 0)
      else
        set_current (fun t => t ⟪ state := TASK_INTERRUPTIBLE ⟫) ;;
        on_ks schedule ;;
        mret Sleeps
  end.

Definition sys_waitpid (p stat_addr options : Z) : KM (kernel I) wait_result :=
  verify_area stat_addr 4 ;; waitpid_segment p stat_addr options.

(** After a [Released] segment. *)
Definition waitpid_reap (child code stat_addr : Z) : KM (kernel I) Z :=
  put_fs_long code stat_addr ;; mret child.
(** After a [Sleeps] segment: [None] goes round again. *)
Definition waitpid_woken : KM (kernel I) (option Z) :=
  set_current (fun t => t ⟪ signal := Z.land (signal t) (Z.lnot (sig_bit SIGCHLD)) ⟫) ;;
  t ← current_task;
  mret (if truth (signal t) then Some (- EINTR) else None).
End exit.

Definition sys_exit_code (error_code : Z) : Z := Z.shiftl (Z.land error_code 0xff) 8.

(** ** Signals *)

Lemma slots_down_NoDup : NoDup slots_down.
Proof. unfold slots_down. rewrite reverse_Permutation. apply NoDup_seqZ. Qed.
Lemma elem_of_slots_down i : i ∈ slots_down <-> 1 <= i < 64.
Proof. unfold slots_down. rewrite elem_of_reverse, elem_of_seqZ. lia. Qed.

Lemma decide_cons_ne {A} (i p : Z) (slots : list Z) (x y : A) :
  i <> p -> (if decide (i ∈ p :: slots) then x else y) = if decide (i ∈ slots) then x else y.
Proof.
  intros Hi. destruct (decide (i ∈ slots)) as [Hin|Hin].
  - rewrite decide_True; [done|]. by apply elem_of_cons; right.
  - rewrite decide_False; [done|]. intros [?|?]%elem_of_cons; done.
Qed.

(** Who may signal whom. *)
Definition permitted (priv : bool) (cur t : task_struct) : bool :=
  priv || (euid cur =? euid t) || (euid cur =? 0).

(** The effect that signalling has on one task. *)
Definition signalled (m : task_struct -> bool) (sig : Z) (priv : bool) (cur t : task_struct) : task_struct :=
  if m t && permitted priv cur t then add_signal (sig_bit sig) t else t.

Section kill.
Variables (m : task_struct -> bool) (sig : Z) (priv : bool) (cur : task_struct).
Hypothesis Hsig : 1 <= sig <= 32.

Definition signal_slots (slots : list Z) (s s' : sched) : Prop :=
  (forall i, slot s' i = if decide (i ∈ slots) then signalled m sig priv cur <$> slot s i else slot s i) /\
  s' = s ⟪ task := task s' ⟫.

(** Every task that could not be signalled is reported. *)
Definition kill_result (slots : list Z) (s : sched) (retval r : Z) : Prop :=
  (r = - EPERM /\ exists i t, i ∈ slots /\ slot s i = Some t /\ m t = true /\ permitted priv cur t = false) \/
  (r = retval /\ forall i t, i ∈ slots -> slot s i = Some t -> m t = true -> permitted priv cur t = true).

Lemma send_sig_run p s t :
  slot s p = Some t -> (exists c, slot s (current s) = Some c /\ euid c = euid cur) ->
  send_sig sig p priv s =
    if permitted priv cur t
    then Done 0 (s ⟪ task := array_set (task s) p (Some (add_signal (sig_bit sig) t)) ⟫)
    else Done (- EPERM) s.
Proof.
  intros Ht (c & Hc & Hec). unfold send_sig, gets, mbind at 1, kbind at 1. rewrite Ht.
  rewrite (proj2 (Z.ltb_ge sig 1)), (proj2 (Z.ltb_ge 32 sig)) by lia. cbn [orb].
  unfold mbind, kbind, get_current, get_task, gets, mbind, kbind. rewrite Hc. cbn [deref mret kret].
  rewrite Hec. by unfold permitted; destruct (priv || _ || _).
Qed.

Lemma kill_matching_run slots s retval :
  NoDup slots -> (exists c, slot s (current s) = Some c /\ euid c = euid cur) ->
  wp (kill_matching slots m sig priv retval)
     (fun r s' => signal_slots slots s s' /\ kill_result slots s retval r) s.
Proof.
  revert s retval. induction slots as [|p slots IH]; intros s retval Hnd Hcur; cbn [kill_matching].
  { apply wp_ret. split; [split; [|by destruct s]|right].
    - intros i. rewrite decide_False; [done|apply not_elem_of_nil].
    - split; [done|]. by intros i t ?%not_elem_of_nil. }
  inversion_clear Hnd as [|? ? Hp Hnd']. rename Hnd' into Hnd.
  apply wp_bind, wp_gets.
  (* the slot is skipped, or its permission fails *)
  assert (Hskip : forall retval', (forall t, slot s p = Some t -> signalled m sig priv cur t = t) ->
    (retval' = retval /\ (forall t, slot s p = Some t -> m t = true -> permitted priv cur t = true) \/
     retval' = - EPERM /\ exists t, slot s p = Some t /\ m t = true /\ permitted priv cur t = false) ->
    wp (kill_matching slots m sig priv retval')
      (fun r s' => signal_slots (p :: slots) s s' /\ kill_result (p :: slots) s retval r) s).
  { intros retval' Hsame Hret. eapply wp_mono; [by apply IH|]. intros r s' [[Hs Hs'] Hr].
    split; [split; [|exact Hs']|].
    - intros i. rewrite Hs. destruct (decide (i = p)) as [->|Hi].
      + rewrite (decide_False (P := p ∈ slots)), (decide_True (P := p ∈ p :: slots))
          by (done || apply elem_of_cons; by left).
        destruct (slot s p) as [t|] eqn:Ht; [|done]. cbn. by rewrite Hsame.
      + by rewrite decide_cons_ne by done.
    - destruct Hr as [[-> (i & t & Hi & ?)]|[-> Hall]].
      + left. split; [done|]. exists i, t. by split; [apply elem_of_cons; right|].
      + destruct Hret as [[-> Hp']|[-> (t & ?)]].
        * right. split; [done|]. intros i t [->|Hi]%elem_of_cons; [apply Hp'|by apply Hall].
        * left. split; [done|]. exists p, t. by split; [apply elem_of_cons; left|]. }
  destruct (slot s p) as [t|] eqn:Ht.
  2:{ apply Hskip; [done|left]. by split. }
  destruct (m t) eqn:Hmt.
  2:{ apply Hskip; [|left; split; [done|congruence]].
      intros u [= <-]. unfold signalled. by rewrite Hmt. }
  apply wp_bind. unfold wp at 1. rewrite (send_sig_run p s t Ht Hcur).
  destruct (permitted priv cur t) eqn:Hperm.
  2:{ change (truth (- EPERM)) with true. apply Hskip; [|right; split; [done|by exists t]].
      intros u [= <-]. unfold signalled. by rewrite Hmt, Hperm. }
  change (truth 0) with false. cbn [andb].
  set (t' := add_signal (sig_bit sig) t). set (s1 := s ⟪ task := _ ⟫).
  assert (Hs1 : forall i, slot s1 i = if decide (i = p) then Some t' else slot s i).
  { intros i. case_decide as Hi; [subst; by eapply slot_update|by apply slot_update_ne]. }
  eapply wp_mono.
  { apply IH; [done|]. destruct Hcur as (c & Hc & Hec). rewrite Hs1.
    change (current s1) with (current s). case_decide as Hi.
    - exists t'. split; [done|]. rewrite Hi, Ht in Hc. injection Hc as ->. exact Hec.
    - by exists c. }
  intros r s' [[Hs Hs'] Hr]. split; [split|].
  - intros i. rewrite Hs, Hs1. destruct (decide (i = p)) as [->|Hi].
    + rewrite (decide_False (P := p ∈ slots)), (decide_True (P := p ∈ p :: slots))
        by (done || apply elem_of_cons; by left).
      rewrite Ht. cbn. unfold signalled. by rewrite Hmt, Hperm.
    + by rewrite decide_cons_ne by done.
  - by rewrite Hs'.
  - destruct Hr as [[-> (i & u & Hi & Hu & Hrest)]|[-> Hall]].
    + left. split; [done|]. exists i, u. rewrite Hs1 in Hu. rewrite decide_False in Hu by congruence.
      split; [by apply elem_of_cons; right|done].
    + right. split; [done|]. intros i u [->|Hi]%elem_of_cons Hu; [congruence|].
      apply (Hall i); [done|]. rewrite Hs1, decide_False; [done|congruence].
Qed.
End kill.

Lemma wp_get_current s t Q : slot s (current s) = Some t -> Q t s -> wp get_current Q s.
Proof.
  intros Ht HQ. unfold get_current, get_task. apply wp_bind, wp_gets, wp_bind, wp_gets.
  by eapply wp_deref.
Qed.

(** The tasks that [sys_kill] addresses, for [0 <= p]. *)
Definition kill_target (p : Z) (cur t : task_struct) : bool :=
  if p =? 0 then pgrp t =? pid cur else pid t =? p.

(** *** An invalid signal *)
Lemma send_sig_invalid s sig p priv : ~ 1 <= sig <= 32 -> send_sig sig p priv s = Done (- EINVAL) s.
Proof.
  intros Hsig. unfold send_sig, gets, mbind, kbind. destruct (slot s p); [|done].
  destruct (Z.ltb_spec sig 1), (Z.ltb_spec 32 sig); [done..|lia].
Qed.
(** With an invalid signal a loop reports [-EINVAL] once it addresses a task. *)
Definition kill_invalid (m : task_struct -> bool) (slots : list Z) (s : sched) (retval r : Z) : Prop :=
  (r = - EINVAL /\ exists i t, i ∈ slots /\ slot s i = Some t /\ m t = true) \/
  (r = retval /\ forall i t, i ∈ slots -> slot s i = Some t -> m t = false).
Lemma kill_matching_invalid m sig priv slots s retval : ~ 1 <= sig <= 32 ->
  wp (kill_matching slots m sig priv retval) (fun r s' => s' = s /\ kill_invalid m slots s retval r) s.
Proof.
  intros Hsig. revert retval. induction slots as [|p slots IH]; intros retval; cbn [kill_matching].
  { apply wp_ret. split; [done|]. right. split; [done|]. by intros i t ?%not_elem_of_nil. }
  apply wp_bind, wp_gets. destruct (slot s p) as [t|] eqn:Ht.
  1: destruct (m t) eqn:Hm.
  - apply wp_bind. unfold wp at 1. rewrite send_sig_invalid by done. change (truth (- EINVAL)) with true.
    eapply wp_mono; [apply IH|]. intros r s' [-> Hr]. split; [done|]. left.
    split; [by destruct Hr as [[-> _]|[-> _]]|]. exists p, t. by split; [apply elem_of_cons; left|].
  - eapply wp_mono; [apply IH|]. intros r s' [-> Hr]. split; [done|].
    destruct Hr as [(-> & i & u & Hi & Hu)|[-> Hall]]; [left|right]; (split; [done|]).
    + exists i, u. by split; [apply elem_of_cons; right|].
    + intros i u [->|Hi]%elem_of_cons Hu; [congruence|by eapply Hall].
  - eapply wp_mono; [apply IH|]. intros r s' [-> Hr]. split; [done|].
    destruct Hr as [(-> & i & u & Hi & Hu)|[-> Hall]]; [left|right]; (split; [done|]).
    + exists i, u. by split; [apply elem_of_cons; right|].
    + intros i u [->|Hi]%elem_of_cons Hu; [congruence|by eapply Hall].
Qed.
Lemma kill_all_invalid p sig s : ~ 1 <= sig <= 32 -> forall slots retval,
  kill_all slots p sig retval s = Done (match slots with [] => retval | _ => - EINVAL end) s.
Proof.
  intros Hsig. induction slots as [|i slots IH]; intros retval; [done|]. cbn [kill_all].
  unfold mbind, kbind. rewrite send_sig_invalid by done. change (truth (- EINVAL)) with true.
  cbv iota. rewrite IH. by destruct slots.
Qed.

(** *** Everyone *)

(** Why slot [i] cannot be signalled. *)
Definition refusal (s : sched) (i : Z) : Z :=
  match slot s i with Some _ => - EPERM | None => - EINVAL end.
Definition refused (s : sched) (cur : task_struct) (i : Z) : Prop :=
  forall t, slot s i = Some t -> permitted false cur t = false.
(** What [kill(-1,sig)] does to the slots 1 to [n]. *)
Definition kill_everyone (n : Z) (s : sched) (cur : task_struct) (sig retval r : Z) (s' : sched) : Prop :=
  ((forall j, 1 <= j <= n -> refused s cur j) /\ s' = s /\ r = if n =? 0 then retval else refusal s 1) \/
  (exists i t, 1 <= i <= n /\ slot s i = Some t /\ permitted false cur t = true /\
     (forall j, i < j <= n -> refused s cur j) /\
     (forall j, slot s' j = if decide (j = i) then Some (add_signal (sig_bit sig) t)
        else if decide (1 <= j < i) then signalled (fun u => pgrp u =? 1) sig false cur <$> slot s j
        else slot s j) /\
     s' = s ⟪ task := task s' ⟫ /\
     kill_result (fun u => pgrp u =? 1) false cur (seqZ 1 (i - 1)) s (if i =? n then retval else refusal s (i + 1)) r).

Lemma kill_all_run (s : sched) (cur : task_struct) (sig : Z) :
  slot s (current s) = Some cur -> 1 <= sig <= 32 -> forall (n : nat) (retval : Z),
  wp (kill_all (reverse (seqZ 1 (Z.of_nat n))) (-1) sig retval) (kill_everyone (Z.of_nat n) s cur sig retval) s.
Proof.
  intros Hcur Hsig. induction n as [|n IH]; intros retval.
  { apply wp_ret. left. split_and!; [intros; lia|done|done]. }
  rewrite seqZ_S, reverse_snoc. cbn [kill_all]. replace (Z.of_nat (S n)) with (Z.of_nat n + 1) by lia.
  rewrite (Z.add_comm 1). set (k := Z.of_nat n) in *. assert (Hk : 0 <= k) by lia.
  (* the slot is refused *)
  assert (Hrefused : refused s cur (k + 1) ->
    wp (kill_all (reverse (seqZ 1 k)) (-1) sig (refusal s (k + 1))) (kill_everyone (k + 1) s cur sig retval) s).
  { intros Hno. eapply wp_mono; [apply IH|]. intros r s' [(Hall & -> & Hr)|(i & t & Hi & Ht & Hp & Hall & Hs & Hs' & Hr)].
    - left. split_and!; [|done|].
      + intros j Hj. destruct (decide (j = k + 1)) as [->|]; [done|]. apply Hall. lia.
      + rewrite (proj2 (Z.eqb_neq (k + 1) 0)) by lia. rewrite Hr. destruct (Z.eqb_spec k 0) as [->|]; done.
    - right. exists i, t. split_and!; [lia|lia|done|done| |done|done|].
      + intros j Hj. destruct (decide (j = k + 1)) as [->|]; [done|]. apply Hall. lia.
      + rewrite (proj2 (Z.eqb_neq i (k + 1))) by lia. destruct (Z.eqb_spec i k) as [->|]; exact Hr. }
  apply wp_bind. destruct (slot s (k + 1)) as [t|] eqn:Ht.
  2:{ unfold wp at 1, send_sig, gets, mbind, kbind. rewrite Ht. change (truth (- EINVAL)) with true.
      unfold refusal in Hrefused. rewrite Ht in Hrefused. apply Hrefused. by intros u Hu; congruence. }
  unfold wp at 1. rewrite (send_sig_run sig false cur Hsig (k + 1) s t Ht) by (by exists cur).
  destruct (permitted false cur t) eqn:Hp.
  2:{ change (truth (- EPERM)) with true. unfold refusal in Hrefused. rewrite Ht in Hrefused. apply Hrefused. intros u Hu. congruence. }
  change (truth 0) with false. cbv iota. set (t' := add_signal (sig_bit sig) t). set (s1 := s ⟪ task := _ ⟫).
  assert (Hs1 : forall i, slot s1 i = if decide (i = k + 1) then Some t' else slot s i).
  { intros i. case_decide as Hi; [subst; by eapply slot_update|by apply slot_update_ne]. }
  assert (Hin : forall j, j ∈ reverse (seqZ 1 k) <-> 1 <= j <= k) by (intros j; rewrite elem_of_reverse, elem_of_seqZ; lia).
  eapply wp_mono.
  { apply (kill_matching_run (fun u => pgrp u =? - -1) sig false cur Hsig).
    - rewrite reverse_Permutation. apply NoDup_seqZ.
    - rewrite Hs1. change (current s1) with (current s). case_decide as Hi; [|by exists cur].
      exists t'. split; [done|]. rewrite Hi, Ht in Hcur. by injection Hcur as ->. }
  intros r s' [[Hs Hs'] Hr]. right. exists (k + 1), t. split_and!; [lia|lia|done|done|intros; lia| |by rewrite Hs'|].
  - intros j. rewrite Hs, Hs1. destruct (decide (j = k + 1)) as [->|Hj].
    + rewrite decide_False by (rewrite Hin; lia). done.
    + destruct (decide (1 <= j < k + 1)) as [Hj'|Hj'].
      * rewrite decide_True by (rewrite Hin; lia). done.
      * rewrite decide_False by (rewrite Hin; lia). done.
  - rewrite Z.eqb_refl. replace (k + 1 - 1) with k by lia.
    assert (Hsame : forall i, 1 <= i <= k -> slot s1 i = slot s i) by (intros i Hi; rewrite Hs1; rewrite decide_False by lia; done).
    assert (Hin' : forall j, j ∈ seqZ 1 k <-> 1 <= j <= k) by (intros j; rewrite elem_of_seqZ; lia).
    destruct Hr as [(-> & i & u & Hi & Hu & Hrest)|[-> Hall]]; [left|right]; (split; [done|]).
    + apply Hin in Hi. rewrite Hsame in Hu by done. exists i, u. by rewrite Hin'.
    + intros i u Hi Hu. apply Hin' in Hi. apply (Hall i); [by apply Hin|]. by rewrite Hsame.
Qed.

(** C20: [sys_kill], whatever the process number and the signal.  With
    [0 <= p] it adds a valid signal to exactly the addressed tasks of slots 1
    to 63 that the caller may signal (for [p = 0] all of them), and returns
    [-EPERM] if and only if it may not signal some addressed task, 0
    otherwise; an invalid signal changes nothing, and is reported when there
    is an addressed task.  With [p = -1] only the highest slot
    whose task may be signalled is addressed unconditionally: from there on
    the loop for process groups has taken over (the dangling [else] of
    [exit.c]), which signals the tasks of group 1 below; the
    result is that of the last attempt that failed, the slot above the first
    success included.  With [p < -1] nothing is done and 0 returned. *)
Theorem sys_kill_signals (s : sched) (cur : task_struct) (p sig : Z) :
  slot s (current s) = Some cur ->
  wp (sys_kill p sig) (fun r s' =>
    (0 <= p -> 1 <= sig <= 32 ->
      (forall i, slot s' i =
         if decide (1 <= i < 64) then signalled (kill_target p cur) sig (p =? 0) cur <$> slot s i
         else slot s i) /\
      s' = s ⟪ task := task s' ⟫ /\
      kill_result (kill_target p cur) (p =? 0) cur slots_down s 0 r) /\
    (0 <= p -> ~ 1 <= sig <= 32 -> s' = s /\ kill_invalid (kill_target p cur) slots_down s 0 r) /\
    (p = -1 -> 1 <= sig <= 32 -> kill_everyone 63 s cur sig 0 r s') /\
    (p = -1 -> ~ 1 <= sig <= 32 -> s' = s /\ r = - EINVAL) /\
    (p < -1 -> s' = s /\ r = 0)) s.
Proof.
  intros Hcur. assert (Hvalid : 1 <= sig <= 32 \/ ~ 1 <= sig <= 32) by lia.
  assert (Hstart : forall m priv Q, (forall r s', 1 <= sig <= 32 ->
      (forall i, slot s' i = if decide (1 <= i < 64) then signalled m sig priv cur <$> slot s i else slot s i) ->
      s' = s ⟪ task := task s' ⟫ -> kill_result m priv cur slots_down s 0 r -> Q r s') ->
    (forall r, ~ 1 <= sig <= 32 -> kill_invalid m slots_down s 0 r -> Q r s) ->
    wp (kill_matching slots_down m sig priv 0) Q s).
  { intros m priv Q HQ HQ'. destruct Hvalid as [Hsig|Hsig].
    - eapply wp_mono; [apply (kill_matching_run m sig priv cur Hsig); [apply slots_down_NoDup|by exists cur]|].
      intros r s' [[Hs Hs'] Hr]. apply HQ; [done| |done|done]. intros i. rewrite Hs.
      destruct (decide (i ∈ slots_down)) as [Hi|Hi]; rewrite elem_of_slots_down in Hi.
      + by rewrite decide_True.
      + by rewrite decide_False.
    - eapply wp_mono; [by apply kill_matching_invalid|]. intros r s' [-> Hr]. by apply HQ'. }
  unfold sys_kill. apply wp_bind. eapply wp_get_current; [exact Hcur|].
  destruct (Z.eqb_spec p 0) as [->|Hne]; [|destruct (Z.ltb_spec 0 p); [|destruct (Z.eqb_spec p (-1)) as [->|]]].
  - apply Hstart; intros; (split_and!; [..|done|done|done]); intros; try lia; by split_and!.
  - apply Hstart; intros; unfold kill_target; rewrite (proj2 (Z.eqb_neq p 0)) by lia;
      (split_and!; [..|lia|lia|lia]); intros; try lia; by split_and!.
  - destruct Hvalid as [Hsig|Hsig].
    + eapply wp_mono; [apply (kill_all_run s cur sig Hcur Hsig 63)|]. intros r s' Hr. by split_and!; intros; try lia.
    + unfold wp. rewrite (kill_all_invalid (-1) sig s Hsig). split_and!; intros; try lia. by split.
  - apply wp_ret. split_and!; intros; try lia. by split.
Qed.

(** [kill(-pgrp, sig)] signals nobody and reports success: the branch
    for a negative [pid] other than -1 does not exist, since its [else]
    belongs to the [if] inside the loop of the branch above. *)
Theorem sys_kill_group_ignored (s : sched) (cur : task_struct) (p sig : Z) :
  slot s (current s) = Some cur -> p < -1 -> sys_kill p sig s = Done 0 s.
Proof.
  intros Hcur Hp. unfold sys_kill, get_current, get_task, gets, mbind, kbind.
  rewrite Hcur. cbn [deref mret kret].
  by rewrite (proj2 (Z.eqb_neq p 0)), (proj2 (Z.ltb_ge 0 p)), (proj2 (Z.eqb_neq p (-1))) by lia.
Qed.


(** ** Waiting *)

(** A child whose end, or stop, can be reported. *)
Definition reportable (options : Z) (t : task_struct) : bool :=
  (state t =? TASK_ZOMBIE) ||
  ((state t =? TASK_STOPPED) && truth (Z.land options WUNTRACED)).
Definition child_at (s : sched) (cur : task_struct) (p i : Z) (t : task_struct) : Prop :=
  slot s i = Some t /\ i <> current s /\ waits_for p cur t = true.

(** The reportable child in the highest of the slots 1 to [n]; no such
    child; a child there that may be reported later. *)
Section scan.
Variables (s : sched) (cur : task_struct) (p options : Z).
Definition chosen (n i : Z) (t : task_struct) : Prop :=
  1 <= i <= n /\ child_at s cur p i t /\ reportable options t = true /\
  forall j u, i < j <= n -> child_at s cur p j u -> reportable options u = false.
Definition none_reportable (n : Z) : Prop :=
  forall j u, 1 <= j <= n -> child_at s cur p j u -> reportable options u = false.
Definition some_running (n : Z) : Prop :=
  exists j u, 1 <= j <= n /\ child_at s cur p j u /\ state u <> TASK_STOPPED.

Definition scan_spec (n : Z) (flag : bool) (r : scan) : Prop :=
  (exists i t, chosen n i t /\
     ((r = Zombie i /\ state t = TASK_ZOMBIE) \/ (r = Stopped (pid t) /\ state t = TASK_STOPPED))) \/
  (none_reportable n /\ exists f, r = Nothing f /\ (f = true <-> flag = true \/ some_running n)).

(** A slot that is passed over. *)
Lemma scan_spec_skip n flag flag' r :
  0 <= n -> (forall t, child_at s cur p (n + 1) t -> reportable options t = false) ->
  (flag' = true <-> flag = true \/ exists t, child_at s cur p (n + 1) t /\ state t <> TASK_STOPPED) ->
  scan_spec n flag' r -> scan_spec (n + 1) flag r.
Proof using Type.
  intros Hn Hi Hflag [(j & t & (Hj & Hc & Ht & Hb) & Hr)|[Hnone (f & -> & Hf)]].
  - left. exists j, t. split; [|done]. split_and!; [lia|lia|done|done|].
    intros k u Hk Hu. destruct (decide (k = n + 1)) as [->|]; [by apply Hi|]. apply (Hb k); [lia|done].
  - right. split.
    + intros k u Hk Hu. destruct (decide (k = n + 1)) as [->|]; [by apply Hi|]. apply (Hnone k); [lia|done].
    + exists f. split; [done|]. rewrite Hf, Hflag. split.
      * intros [[?|(t & ?)]|(j & u & Hj & ?)]; [by left|right|right].
        -- exists (n + 1), t. split; [lia|done].
        -- exists j, u. split; [lia|done].
      * intros [?|(j & u & Hj & Hu)]; [by left; left|]. destruct (decide (j = n + 1)) as [->|].
        -- left. right. by exists u.
        -- right. exists j, u. split; [lia|done].
Qed.

Lemma wait_scan_run n : forall flag,
  scan_spec (Z.of_nat n) flag (wait_scan (reverse (seqZ 1 (Z.of_nat n))) s cur p options flag).
Proof using Type.
  induction n as [|n IH]; intros flag.
  { right. split; [intros j u Hj; lia|]. exists flag. split; [done|].
    split; [by left|]. intros [?|(j & u & Hj & _)]; [done|lia]. }
  rewrite seqZ_S, reverse_snoc. cbn [wait_scan]. replace (Z.of_nat (S n)) with (Z.of_nat n + 1) by lia.
  rewrite (Z.add_comm 1). set (m := Z.of_nat n) in *. assert (Hm : 0 <= m) by lia.
  assert (Hno : forall r, (forall t, ~ child_at s cur p (m + 1) t) -> scan_spec m flag r -> scan_spec (m + 1) flag r).
  { intros r Hc. apply scan_spec_skip; [done|by intros t ?%Hc|]. split; [by left|].
    intros [?|(t & ?%Hc & _)]; done. }
  destruct (slot s (m + 1)) as [t|] eqn:Ht; [|apply Hno; [by intros t [? _]; congruence|apply IH]].
  destruct ((m + 1 =? current s) || negb (waits_for p cur t)) eqn:Hskip.
  { apply Hno; [|apply IH]. intros u (Hu & Hne & Hw). assert (u = t) as -> by congruence.
    rewrite Hw, orb_false_r in Hskip. lia. }
  assert (Hc : child_at s cur p (m + 1) t).
  { apply orb_false_iff in Hskip as [Hne Hw]. apply negb_false_iff in Hw. split_and!; [done|lia|done]. }
  assert (Huniq : forall u, child_at s cur p (m + 1) u -> u = t) by (intros u [? _]; congruence).
  assert (Hfound : forall r, reportable options t = true ->
    (r = Zombie (m + 1) /\ state t = TASK_ZOMBIE) \/ (r = Stopped (pid t) /\ state t = TASK_STOPPED) -> scan_spec (m + 1) flag r).
  { intros r Hrep Hr. left. exists (m + 1), t. split; [|done]. split_and!; [lia|lia|done|done|intros; lia]. }
  destruct (Z.eqb_spec (state t) TASK_STOPPED) as [Hst|Hst].
  - destruct (truth (Z.land options WUNTRACED)) eqn:Hopt.
    + apply Hfound; [unfold reportable; by rewrite Hst, Hopt|by right].
    + eapply scan_spec_skip; [done| | |apply IH].
      * intros u ->%Huniq. unfold reportable. by rewrite Hst, Hopt.
      * split; [by left|]. intros [?|(u & ->%Huniq & ?)]; done.
  - destruct (Z.eqb_spec (state t) TASK_ZOMBIE) as [Hz|Hz].
    + apply Hfound; [unfold reportable; by rewrite Hz|by left].
    + eapply scan_spec_skip; [done| | |apply IH].
      * intros u ->%Huniq. unfold reportable.
        by rewrite (proj2 (Z.eqb_neq _ _) Hst), (proj2 (Z.eqb_neq _ _) Hz).
      * split; [right; by exists t|done].
Qed.
Lemma chosen_unique n i t j u : chosen n i t -> chosen n j u -> i = j /\ t = u.
Proof using Type.
  intros (Hi & Hci & Hri & Hbi) (Hj & Hcj & Hrj & Hbj).
  destruct (Z.lt_trichotomy i j) as [Hlt|[<-|Hlt]].
  - specialize (Hbi j u ltac:(lia) Hcj). congruence.
  - split; [done|]. destruct Hci as [H1 _], Hcj as [H2 _]. congruence.
  - specialize (Hbj i t ltac:(lia) Hci). congruence.
Qed.
(** The scan of the task array, by what there is to find. *)
Lemma wait_scan_chosen i t : chosen 63 i t ->
  wait_scan slots_down s cur p options false = if state t =? TASK_ZOMBIE then Zombie i else Stopped (pid t).
Proof using Type.
  intros Hch. destruct (wait_scan_run 63 false) as [(j & u & Hch' & Hr)|[Hnone _]].
  - destruct (chosen_unique _ _ _ _ _ Hch Hch') as [<- <-]. change (wait_scan slots_down s cur p options false) with
      (wait_scan (reverse (seqZ 1 (Z.of_nat 63))) s cur p options false).
    destruct Hr as [[-> ->]|[-> ->]]; done.
  - destruct Hch as (Hi & Hc & Hr & _). rewrite (Hnone i t) in Hr by done. done.
Qed.
Lemma wait_scan_nothing : none_reportable 63 -> exists f,
  wait_scan slots_down s cur p options false = Nothing f /\ (f = true <-> some_running 63).
Proof using Type.
  intros Hnone. destruct (wait_scan_run 63 false) as [(j & u & (Hj & Hc & Hr & _) & _)|[_ (f & Hr & Hf)]].
  - change (Z.of_nat 63) with 63 in Hj. rewrite (Hnone j u) in Hr by done. done.
  - exists f. split; [exact Hr|]. rewrite Hf. change (Z.of_nat 63) with 63. split; [by intros [?|?]|by right].
Qed.
End scan.

Section waitpid.
Context {I : Type} `{!Inodes I}.
Implicit Types s : kernel I.

(** [release] clears the slot, frees the page and calls the scheduler. *)
Definition slot_freed (i : Z) s : kernel I := s ⟪ ks := (ks s) ⟪ task := array_set (task (ks s)) i None ⟫ ⟫.
Lemma task_release_run s i t : slot (ks s) i = Some t -> 1 <= i < 64 ->
  release i s = (page ← read_at (task_page s) i; on_km (free_page page) ;; on_ks schedule) (slot_freed i s).
Proof using Type.
  intros Ht Hi. unfold release, mbind at 1, kbind at 1, gets. rewrite Ht.
  rewrite (proj2 (Z.leb_le 1 i)), (proj2 (Z.ltb_lt i NR_TASKS)) by (unfold NR_TASKS; lia). done.
Qed.
Lemma bind_same {S A B} (m m' : KM S A) (f : A -> KM S B) (s s' : S) : m s = m' s' -> (m ≫= f) s = (m' ≫= f) s'.
Proof using Type. unfold mbind, kbind. by intros ->. Qed.

(** The father's times, with those of the child. *)
Definition with_times (cur t : task_struct) : task_struct :=
  cur ⟪ cutime := s32 (cutime cur + utime t) ⟫ ⟪ cstime := s32 (cstime cur + stime t) ⟫.

End waitpid.

(** A task 7 in slot 1 with children in slots 3, 5 and 63: zombies 9 and 11
    and, stopped, 12. *)
Definition demo_child (pid_ state_ code : Z) : task_struct :=
  (demo_task state_ 0 15 0) ⟪ pid := pid_ ⟫ ⟪ father := 7 ⟫ ⟪ exit_code := code ⟫.
Definition demo_caller : task_struct := (demo_task 0 9 15 0) ⟪ pid := 7 ⟫.
Definition demo_family : sched :=
  demo_sched ⟪ current := 1 ⟫ ⟪ task := array_set
    (demo_tasks_of [INIT_TASK 0 0; demo_caller; demo_task 0 0 15 0; demo_child 9 TASK_ZOMBIE 0x300;
                    demo_task 0 0 15 0; demo_child 11 TASK_ZOMBIE 0x100])
    63 (Some (demo_child 12 TASK_STOPPED 0)) ⟫.
Definition demo_waiter : kernel unit :=
  Kernel demo_family (MM [] 0 ∅) 1 (replicate 64 0) [] tt [] ∅.
#[local] Instance no_inodes : Inodes unit :=
  { iput _ := mret tt; igrab _ := mret tt; i_dev _ _ := 0; i_pipe _ _ := false; i_size _ _ := 0 }.

(** No task of the slots [n] to 63 has the property [f]. *)
Definition none_from (s : sched) (f : task_struct -> bool) (n : Z) : bool :=
  forallb (fun j => match slot s j with Some u => negb (f u) | None => true end) (seqZ n (64 - n)).
Lemma none_from_spec s f n : none_from s f n = true -> forall j u, n <= j <= 63 -> slot s j = Some u -> f u = false.
Proof.
  intros Hq j u Hj Hu. unfold none_from in Hq. rewrite forallb_forall in Hq.
  specialize (Hq j). rewrite Hu in Hq. apply negb_true_iff, Hq. apply list_elem_of_In, elem_of_seqZ. lia.
Qed.


(** [kill(0,15)], [kill(-1,15)] and [kill(12,99)] from task 7: the second
    reaches task 12 in slot 63, and not the zombie 11 in slot 5. *)
Lemma sys_kill_signals_witness :
  wp (sys_kill 0 15) (fun r s' => (forall i, slot s' i =
       if decide (1 <= i < 64)
       then signalled (kill_target 0 demo_caller) 15 true demo_caller <$> slot demo_family i
       else slot demo_family i) /\ s' = demo_family ⟪ task := task s' ⟫ /\
       kill_result (kill_target 0 demo_caller) true demo_caller slots_down demo_family 0 r) demo_family /\
  wp (sys_kill (-1) 15) (fun r s' => r = 0 /\
    slot s' 63 = Some (add_signal 0x4000 (demo_child 12 TASK_STOPPED 0)) /\
    slot s' 5 = Some (demo_child 11 TASK_ZOMBIE 0x100)) demo_family /\
  wp (sys_kill 12 99) (fun r s' => r = - EINVAL /\ s' = demo_family) demo_family.
Proof.
  assert (H : forall p sig, _) by (intros p sig; apply (sys_kill_signals demo_family demo_caller p sig); reflexivity).
  cbv beta in H. split_and!.
  - eapply wp_mono; [apply (H 0 15)|]. intros r s' (H0 & _). apply H0; lia.
  - eapply wp_mono; [apply (H (-1) 15)|]. cbn beta. intros r s' (_ & _ & H1 & _). specialize (H1 eq_refl ltac:(lia)).
    destruct H1 as [(Hno & _)|(i & t & Hi & Ht & _ & Hall & Hs & _ & Hr)].
    { by pose proof (Hno 63 ltac:(done) (demo_child 12 TASK_STOPPED 0) eq_refl). }
    assert (i = 63) as ->.
    { destruct (decide (i = 63)); [done|]. assert (Hi63 : i < 63 <= 63) by lia.
      by pose proof (Hall 63 Hi63 (demo_child 12 TASK_STOPPED 0) eq_refl). }
    injection Ht as <-. split; [clear Hs|split; rewrite Hs; clear; vm_compute; reflexivity].
    destruct Hr as [(_ & j & u & Hj & Hu & Hm & Hp)|[-> _]]; [|reflexivity].
    exfalso. apply elem_of_seqZ in Hj.
    pose proof (none_from_spec demo_family (fun u => negb (permitted false demo_caller u)) 1 ltac:(vm_compute; reflexivity) j u ltac:(lia) Hu) as Hn.
    cbn beta in Hn. by rewrite Hp in Hn.
  - eapply wp_mono; [apply (H 12 99)|]. intros r s' (_ & H2 & _). destruct (H2 ltac:(lia) ltac:(lia)) as [-> [[-> _]|[_ Hno]]]; [done|].
    assert (H63 : 63 ∈ slots_down) by (by apply elem_of_slots_down).
    by pose proof (Hno 63 (demo_child 12 TASK_STOPPED 0) H63 eq_refl).
Defined.
