(* ===== verification/Signal.v ===== *)
(** * Signal handlers ([kernel/signal.c])

    The system calls that install handlers, and [do_signal], which builds the
    frame on the user stack that makes the process run its handler.  The
    arguments of [do_signal] are the saved registers of the process; the
    assignments to [eip] and [esp] are its result.  [do_exit] ends the task
    ([Exited]; its effect is [Exit.do_exit]). *)

From S2P Require Import Prelude Memory Task Sched Kernel Files Exit.

Definition SA_NOMASK : Z := 0x40000000.
Definition SA_ONESHOT : Z := 0x80000000.

Record frame_regs : Type := FrameRegs {
  g_eax : Z; g_ebx : Z; g_ecx : Z; g_edx : Z; g_fs : Z; g_es : Z; g_ds : Z;
  g_eip : Z; g_cs : Z; g_eflags : Z; g_esp : Z; g_ss : Z
}.

Section signals.
Context {I : Type} `{!Inodes I}.

Definition sys_sgetmask : KM (kernel I) Z := t ← current_task; mret (blocked t).
Definition sys_ssetmask (newmask : Z) : KM (kernel I) Z :=
  t ← current_task;
  set_current (fun t => t ⟪ blocked := Z.land newmask (Z.lnot (sig_bit SIGKILL)) ⟫) ;;
  mret (blocked t).

(** [save_old] and [get_new] copy the four longwords of a [sigaction] to
    and from user memory. *)
Definition save_old (a : sigaction) (to : Z) : KM (kernel I) unit :=
  verify_area to 16 ;;
  put_fs_long (sa_handler a) to ;;
  put_fs_long (sa_mask a) (to + 4) ;;
  put_fs_long (sa_flags a) (to + 8) ;;
  put_fs_long (sa_restorer a) (to + 12).
Definition get_new (from : Z) : KM (kernel I) sigaction :=
  h ← get_fs_long from;
  m ← get_fs_long (from + 4);
  f ← get_fs_long (from + 8);
  r ← get_fs_long (from + 12);
  mret (Sigaction h m f r).

Definition set_action (signum : Z) (a : sigaction) : KM (kernel I) unit :=
  set_current (fun t => t ⟪ sigactions := array_set (sigactions t) (signum - 1) a ⟫).
Definition get_action (signum : Z) : KM (kernel I) sigaction :=
  t ← current_task; read_at (sigactions t) (signum - 1).

Definition bad_signum (signum : Z) : bool :=
  (signum <? 1) || (32 <? signum) || (signum =? SIGKILL).

Definition sys_signal (signum handler restorer : Z) : KM (kernel I) Z :=
  if bad_signum signum then mret (-1)
  else
    old ← get_action signum;
    set_action signum (Sigaction handler 0 (Z.lor SA_ONESHOT SA_NOMASK) restorer) ;;
    mret (sa_handler old).

Definition sys_sigaction (signum action oldaction : Z) : KM (kernel I) Z :=
  if bad_signum signum then mret (-1)
  else
    tmp ← get_action signum;
    new ← get_new action;
    set_action signum new ;;
    kwhen (truth oldaction) (save_old tmp oldaction) ;;
    cur ← get_action signum;
    set_action signum (cur ⟪ sa_mask :=
      if truth (Z.land (sa_flags cur) SA_NOMASK) then 0
      else Z.lor (sa_mask cur) (u32 (Z.shiftl 1 (signum - 1))) ⟫) ;;
    mret 0.

(** The longwords that [do_signal] pushes, from the new top of the stack. *)
Definition signal_frame (sa : sigaction) (signr blocked : Z) (r : frame_regs) : list Z :=
  [sa_restorer sa; signr]
  ++ (if truth (Z.land (sa_flags sa) SA_NOMASK) then [] else [blocked])
  ++ [g_eax r; g_ecx r; g_edx r; g_eflags r; g_eip r].

(** [put_fs_long(v, tmp_esp++)] for each [v]. *)
Fixpoint push_longs (l : list Z) (tmp_esp : Z) : KM (kernel I) unit :=
  match l with
  | [] => mret tt
  | v :: l => put_fs_long v tmp_esp ;; push_longs l (tmp_esp + 4)
  end.

(** The result is the new [eip] and [esp], or [None] when the signal is
    ignored. *)
Definition do_signal (signr : Z) (r : frame_regs) : KM (kernel I) (option (Z * Z)) :=
  sa ← get_action signr;
  if sa_handler sa =? 1 then mret None
  else if (sa_handler sa =? 0) && (signr =? SIGCHLD) then mret None
  else if sa_handler sa =? 0 then exit_task (s32 (Z.shiftl 1 (signr - 1)))
  else
    kwhen (truth (Z.land (sa_flags sa) SA_ONESHOT))
      (set_action signr (sa ⟪ sa_handler := 0 ⟫)) ;;
    let longs := if truth (Z.land (sa_flags sa) SA_NOMASK) then 7 else 8 in
    let new_esp := u32 (g_esp r - 4 * longs) in
    verify_area new_esp (longs * 4) ;;
    t ← current_task;
    push_longs (signal_frame sa signr (blocked t) r) new_esp ;;
    set_current (fun t => t ⟪ blocked := s32 (Z.lor (blocked t) (sa_mask sa)) ⟫) ;;
    mret (Some (sa_handler sa, new_esp)).
End signals.

(** ** The signal frame *)

(** The longwords at consecutive addresses. *)
Fixpoint longs_at (m : gmap Z Z) (a : Z) (l : list Z) : Prop :=
  match l with
  | [] => True
  | v :: l => long_at m a = u32 v /\ longs_at m (a + 4) l
  end.

Section frame.
Context {I : Type}.
Implicit Types s : kernel I.

Lemma wp_user_base s b Q : user_base_is s b -> Q b s -> wp user_base Q s.
Proof.
  intros (t & d & Ht & Hd & <-) HQ. unfold user_base. apply wp_bind.
  change (on_ks get_current) with (current_task (I := I)).
  eapply wp_current_task; [exact Ht|]. apply wp_bind. eapply wp_deref; [exact Hd|].
  by apply wp_ret.
Qed.

(** Only user memory changes. *)
Definition with_user (m : gmap Z Z) (s : kernel I) : kernel I := s ⟪ user := m ⟫.

Lemma longs_at_set m a b v l :
  b + 4 * Z.of_nat (length l) < 4294967280 -> 0 <= a -> a + 4 <= b ->
  longs_at m b l -> longs_at (set_long a v m) b l.
Proof.
  revert b. induction l as [|w l IH]; intros b Hb Ha Hab Hl; [done|]. cbn in *.
  destruct Hl as [Hw Hl]. split; [rewrite long_at_set_ne; [done|lia]|].
  apply IH; [lia|lia|lia|done].
Qed.

(** Pushing keeps what lies below, and stores the list. *)
Lemma wp_push_longs l : forall s b a,
  user_base_is s b -> 0 <= b + a -> b + a + 4 * Z.of_nat (length l) < 4294967280 ->
  wp (push_longs l a) (fun _ s' => exists m, s' = with_user m s /\ longs_at m (b + a) l /\
    forall c, 0 <= c -> c + 4 <= b + a -> long_at m c = long_at (user s) c) s.
Proof.
  induction l as [|v l IH]; intros s b a Hb Ha Hlen; cbn [push_longs length] in *.
  { apply wp_ret. exists (user s). split_and!; [by destruct s|done|done]. }
  apply wp_bind. unfold put_fs_long. apply wp_bind. eapply wp_user_base; [exact Hb|].
  apply wp_modify. eapply wp_mono.
  { apply (IH _ b); [exact Hb|lia|lia]. }
  cbn beta. intros _ s' (m & -> & Hl & Hlow). exists m. cbn [user set_field] in Hlow. split_and!.
  - done.
  - cbn [longs_at]. split.
    + rewrite Hlow by lia. apply long_at_set_eq.
    + by replace (b + a + 4) with (b + (a + 4)) by lia.
  - intros c Hc Hca. rewrite Hlow by lia. apply long_at_set_ne. lia.
Qed.

Lemma set_current_inv f s u s' :
  set_current f s = Done u s' -> exists t, current_is s t /\ s' = with_current (f t) s.
Proof.
  intros (k & Hk & ->)%zoom_inv. unfold update_current in Hk. done_step Hk. destruct u.
  apply update_task_inv in Hk as (t & Ht & ->). by exists t.
Qed.
Lemma current_task_inv s t s' : current_task s = Done t s' -> current_is s t /\ s' = s.
Proof.
  apply on_ks_get_current.
Qed.
End frame.


Section actions.
Context {I : Type}.
Implicit Types s : kernel I.

Lemma get_action_inv signr s sa s' :
  get_action signr s = Done sa s' ->
  s' = s /\ exists t, current_is s t /\ array_get (sigactions t) (signr - 1) = Some sa.
Proof.
  intros H. unfold get_action in H. done_step H.
  apply current_task_inv in Hrun as [Ht ->]. apply deref_Done in H as [Hsa ->].
  split; [done|]. by exists a.
Qed.
Lemma current_is_unique s t u : current_is s t -> current_is s u -> t = u.
Proof. unfold current_is. congruence. Qed.

(** Changing the actions keeps the current task's segments. *)
Lemma user_base_with s t u b :
  current_is s t -> ldt u = ldt t -> user_base_is s b -> user_base_is (with_current u s) b.
Proof.
  intros Ht Hl (t' & d & Ht' & Hd & Hb). exists u, d. split_and!; [by eapply current_is_with| |done].
  rewrite Hl. by rewrite (current_is_unique s t t').
Qed.
End actions.

(** The layout of the frame at [a], longword by longword. *)
Definition frame_at (m : gmap Z Z) (a : Z) (sa : sigaction) (signr blocked : Z) (r : frame_regs) : Prop :=
  long_at m a = u32 (sa_restorer sa) /\ long_at m (a + 4) = u32 signr /\
  if truth (Z.land (sa_flags sa) SA_NOMASK) then
    long_at m (a + 8) = u32 (g_eax r) /\ long_at m (a + 12) = u32 (g_ecx r) /\ long_at m (a + 16) = u32 (g_edx r) /\
    long_at m (a + 20) = u32 (g_eflags r) /\ long_at m (a + 24) = u32 (g_eip r)
  else
    long_at m (a + 8) = u32 blocked /\
    long_at m (a + 12) = u32 (g_eax r) /\ long_at m (a + 16) = u32 (g_ecx r) /\ long_at m (a + 20) = u32 (g_edx r) /\
    long_at m (a + 24) = u32 (g_eflags r) /\ long_at m (a + 28) = u32 (g_eip r).
Definition frame_size (sa : sigaction) : Z := if truth (Z.land (sa_flags sa) SA_NOMASK) then 28 else 32.

Lemma longs_at_frame m a sa signr blocked r :
  longs_at m a (signal_frame sa signr blocked r) -> frame_at m a sa signr blocked r.
Proof.
  unfold signal_frame, frame_at. destruct (truth _); cbn [app longs_at]; rewrite <- !Z.add_assoc; cbn [Z.add Pos.add Pos.succ];
    intros (? & ? & ? & ? & ? & H); split_and!; tauto.
Qed.

(** What [do_signal] leaves behind when it lets the handler of [sa] run, with
    the top of the stack at [sp]. *)
Definition frame_post {I} (s s' : kernel I) (t : task_struct) (sa : sigaction)
    (signr sp b : Z) (r : frame_regs) : Prop :=
  frame_at (user s') (b + sp) sa signr (blocked t) r /\
  (forall c, 0 <= c -> c + 4 <= b + sp -> long_at (user s') c = long_at (user s) c) /\
  exists t', current_is s' t' /\ blocked t' = s32 (Z.lor (blocked t) (sa_mask sa)) /\
    array_get (sigactions t') (signr - 1) =
      Some (if truth (Z.land (sa_flags sa) SA_ONESHOT) then sa ⟪ sa_handler := 0 ⟫ else sa).

Section signal.
Context {I : Type}.
Variables (s : kernel I) (t : task_struct) (sa : sigaction) (signr b : Z) (r : frame_regs).
Hypothesis Ht : current_is s t.
Hypothesis Hsa : array_get (sigactions t) (signr - 1) = Some sa.
Hypothesis Hb : user_base_is s b.

Lemma get_action_run : get_action signr s = Done sa s.
Proof using Ht Hsa.
  unfold get_action, mbind, kbind. rewrite (current_task_run s t Ht). unfold read_at. by rewrite Hsa.
Qed.
(** The state after the one-shot reset. *)
Definition reset_action : task_struct :=
  if truth (Z.land (sa_flags sa) SA_ONESHOT)
  then t ⟪ sigactions := array_set (sigactions t) (signr - 1) (sa ⟪ sa_handler := 0 ⟫) ⟫ else t.
Lemma reset_run :
  kwhen (truth (Z.land (sa_flags sa) SA_ONESHOT)) (set_action signr (sa ⟪ sa_handler := 0 ⟫)) s =
    Done tt (with_current reset_action s).
Proof using Ht.
  unfold reset_action. destruct (truth _); cbn [kwhen].
  - exact (set_current_run s t _ Ht).
  - by rewrite (with_current_same s t).
Qed.

(** With a stack that can be written, the handler is made to run. *)
Lemma do_signal_handled m :
  sa_handler sa <> 0 -> sa_handler sa <> 1 -> 0 <= b -> 32 <= g_esp r -> b + g_esp r < 4294967200 ->
  verify_area (g_esp r - frame_size sa) (frame_size sa) s = Done tt (s ⟪ km := m ⟫) ->
  wp (do_signal signr r) (fun o s' => o = Some (sa_handler sa, g_esp r - frame_size sa) /\
    frame_post s s' t sa signr (g_esp r - frame_size sa) b r) s.
Proof using Ht Hsa Hb.
  intros H0 H1 Hb0 Hesp Hrange Hver. unfold do_signal.
  apply wp_bind. unfold wp at 1. rewrite get_action_run.
  rewrite (proj2 (Z.eqb_neq _ _) H1), (proj2 (Z.eqb_neq _ _) H0). cbn [andb].
  apply wp_bind. unfold wp at 1. rewrite reset_run.
  set (t1 := reset_action). set (s1 := with_current t1 s).
  assert (Ht1 : current_is s1 t1) by (by eapply current_is_with).
  assert (Hl1 : ldt t1 = ldt t /\ blocked t1 = blocked t) by (unfold t1, reset_action; by destruct (truth _)).
  assert (Hb1 : user_base_is s1 b) by (by apply (user_base_with s t t1 b Ht (proj1 Hl1))).
  set (longs := if truth (Z.land (sa_flags sa) SA_NOMASK) then 7 else 8).
  assert (Hlongs : 4 * longs = frame_size sa /\ Z.of_nat (length (signal_frame sa signr (blocked t) r)) = longs).
  { unfold longs, frame_size, signal_frame. by destruct (truth _). }
  assert (Hsize : 28 <= frame_size sa <= 32) by (unfold frame_size; destruct (truth _); lia).
  destruct Hlongs as [Hlongs Hlen]. cbv zeta. rewrite Hlongs, (Z.mul_comm longs), Hlongs, u32_small by lia.
  set (sp := g_esp r - frame_size sa) in *.
  apply wp_bind. unfold wp at 1. rewrite (verify_area_same s s1 b sp (frame_size sa) m Hb Hb1 eq_refl Hver).
  set (s2 := s1 ⟪ km := m ⟫). assert (Ht2 : current_is s2 t1) by done.
  apply wp_bind. eapply wp_current_task; [exact Ht2|]. rewrite (proj2 Hl1).
  apply wp_bind. eapply wp_mono; [apply (wp_push_longs _ _ b); [exact Hb1|lia|lia]|].
  cbn beta. intros _ s3 (m' & -> & Hl & Hlow).
  apply wp_bind. eapply wp_set_current; [exact Ht2|]. apply wp_ret. split; [done|]. unfold frame_post. split_and!.
  - by apply longs_at_frame.
  - intros c Hc Hcb. by apply Hlow.
  - eexists. split; [by eapply current_is_with|]. cbn [blocked sigactions set_field]. rewrite (proj2 Hl1). split; [done|].
    unfold t1, reset_action. destruct (truth (Z.land (sa_flags sa) SA_ONESHOT)); [|done].
    cbn [sigactions set_field]. apply array_get_set_eq. by eapply array_get_Some_bound.
Qed.
End signal.

(** C23: [do_signal] by cases on the handler.  A signal that is ignored
    leaves everything as it is, as does [SIGCHLD] by default; another signal
    ends the process by default.  Otherwise, when the stack can be written,
    it completes, and the process continues at the handler with a new top
    of the stack, where from there on lie: the restorer, the signal's
    number, the old mask of blocked signals (unless [SA_NOMASK]), [eax],
    [ecx], [edx], [eflags] and the interrupted [eip].  Nothing below the new
    stack pointer has changed, the handler's mask is blocked, and a one-shot
    handler is reset to the default. *)
Theorem do_signal_frame {I} (s : kernel I) (t : task_struct) (sa : sigaction) (signr b : Z) (r : frame_regs) :
  current_is s t -> array_get (sigactions t) (signr - 1) = Some sa -> user_base_is s b ->
  (sa_handler sa = 1 \/ (sa_handler sa = 0 /\ signr = SIGCHLD) -> do_signal signr r s = Done None s) /\
  (sa_handler sa = 0 -> signr <> SIGCHLD -> do_signal signr r s = Exited (s32 (Z.shiftl 1 (signr - 1))) s) /\
  (forall m, sa_handler sa <> 0 -> sa_handler sa <> 1 -> 0 <= b -> 32 <= g_esp r -> b + g_esp r < 4294967200 ->
     verify_area (g_esp r - frame_size sa) (frame_size sa) s = Done tt (s ⟪ km := m ⟫) ->
     wp (do_signal signr r) (fun o s' => o = Some (sa_handler sa, g_esp r - frame_size sa) /\
       frame_post s s' t sa signr (g_esp r - frame_size sa) b r) s).
Proof.
  intros Ht Hsa Hb. pose proof (get_action_run s t sa signr Ht Hsa) as Hget. split_and!.
  - intros H. unfold do_signal, mbind at 1, kbind at 1. rewrite Hget.
    destruct H as [-> | [-> ->]]; [done|]. by rewrite Z.eqb_refl.
  - intros H0 Hn. unfold do_signal, mbind at 1, kbind at 1. rewrite Hget, H0, (proj2 (Z.eqb_neq _ _) Hn). done.
  - intros m. by apply do_signal_handled.
Qed.

(** A task with a one-shot handler at 0x1000 for signal 2, and its stack at
    0x9000. *)
Definition demo_handler : sigaction := Sigaction 0x1000 0 (Z.lor SA_ONESHOT SA_NOMASK) 0x2000.
Definition demo_signalled : task_struct :=
  (INIT_TASK 0 0) ⟪ sigactions := array_set (replicate 32 (Sigaction 0 0 0 0)) 1 demo_handler ⟫.
Definition demo_signal : kernel unit :=
  Kernel (Sched (Some demo_signalled :: replicate 63 None) 0 0 0 None false [] [] ∅)
    (MM [] 0 ∅) 1 [] [] tt [] ∅.
Definition demo_frame : frame_regs := FrameRegs 1 2 3 4 5 6 7 0x500 9 10 0x9000 12.

Lemma do_signal_frame_witness :
  wp (do_signal 2 demo_frame) (fun o s' => o = Some (0x1000, 0x8fe4) /\
    long_at (user s') 0x8fe4 = 0x2000 /\ long_at (user s') 0x8fe8 = 2 /\
    long_at (user s') 0x8ff8 = 10 /\ long_at (user s') 0x8ffc = 0x500) demo_signal.
Proof.
  assert (Hb : user_base_is demo_signal 0).
  { eexists _, _. split; [reflexivity|]. split; [reflexivity|]. vm_compute. reflexivity. }
  destruct (do_signal_frame demo_signal demo_signalled demo_handler 2 0 demo_frame) as (_ & _ & H); [reflexivity|reflexivity|exact Hb|].
  eapply wp_mono.
  { apply (H (km demo_signal)); [done|done|done|cbn; lia|cbn; lia|vm_compute; reflexivity]. }
  intros o s' [-> ((H1 & H2 & H3) & _)]. change (frame_size demo_handler) with 28 in *.
  change (truth _) with true in H3. destruct H3 as (_ & _ & _ & H6 & H7).
  split_and!; [reflexivity|exact H1|exact H2|exact H6|exact H7].
Defined.
