(* ===== verification/Sys.v ===== *)
(** * Identity and accounting system calls ([kernel/sys.c]) *)

From S2P Require Import Prelude Memory Task Sched Kernel Files.

Section sys.
Context {I : Type}.

(** The calls that are not implemented: [ftime], [break], [ptrace], [stty],
    [gtty], [rename], [prof], [acct], [phys], [lock], [mpx], [ulimit]. *)
Definition sys_enosys : KM (kernel I) Z := mret (- ENOSYS).

Definition k_suser : KM (kernel I) bool := t ← current_task; mret (euid t =? 0).

Definition sys_setregid (rgid egid_ : Z) : KM (kernel I) Z :=
  ok ← (if 0 <? rgid then
          t ← current_task;
          su ← k_suser;
          if (gid t =? rgid) || su
          then set_current (fun t => t ⟪ gid := u16 rgid ⟫) ;; mret true
          else mret false
        else mret true);
  if negb ok then mret (- EPERM)
  else if 0 <? egid_ then
    t ← current_task;
    su ← k_suser;
    if (gid t =? egid_) || (egid t =? egid_) || (sgid t =? egid_) || su
    then set_current (fun t => t ⟪ egid := u16 egid_ ⟫) ;; mret 0
    else mret (- EPERM)
  else mret 0.
Definition sys_setgid (g : Z) : KM (kernel I) Z := sys_setregid g g.

(** The first half of [sys_setreuid]: [false] when it returns [-EPERM]. *)
Definition set_real_uid (old_ruid ruid : Z) : KM (kernel I) bool :=
  if 0 <? ruid then
    t ← current_task;
    su ← k_suser;
    if (euid t =? ruid) || (old_ruid =? ruid) || su
    then set_current (fun t => t ⟪ uid := u16 ruid ⟫) ;; mret true
    else mret false
  else mret true.
Definition sys_setreuid (ruid euid_ : Z) : KM (kernel I) Z :=
  t ← current_task;
  let old_ruid := uid t in
  ok ← set_real_uid old_ruid ruid;
  if negb ok then mret (- EPERM)
  else if 0 <? euid_ then
    t ← current_task;
    su ← k_suser;
    if (old_ruid =? euid_) || (euid t =? euid_) || su
    then set_current (fun t => t ⟪ euid := u16 euid_ ⟫) ;; mret 0
    else set_current (fun t => t ⟪ uid := u16 old_ruid ⟫) ;; mret (- EPERM)
  else mret 0.
Definition sys_setuid (u : Z) : KM (kernel I) Z := sys_setreuid u u.

Definition sys_time (tloc : Z) : KM (kernel I) Z :=
  s ← gets (fun s => s);
  let i := CURRENT_TIME (ks s) in
  kwhen (truth tloc) (verify_area tloc 4 ;; put_fs_long i tloc) ;;
  mret i.

Definition sys_stime (tptr : Z) : KM (kernel I) Z :=
  su ← k_suser;
  if negb su then mret (- EPERM)
  else
    v ← get_fs_long tptr;
    modify (fun s => s ⟪ ks := (ks s) ⟪ startup_time := s32 (v - Z.quot (jiffies (ks s)) HZ) ⟫ ⟫) ;;
    mret 0.

Definition sys_times (tbuf : Z) : KM (kernel I) Z :=
  kwhen (truth tbuf)
    (verify_area tbuf 16 ;;
     t ← current_task;
     put_fs_long (utime t) tbuf ;;
     put_fs_long (stime t) (tbuf + 4) ;;
     put_fs_long (cutime t) (tbuf + 8) ;;
     put_fs_long (cstime t) (tbuf + 12)) ;;
  gets (fun s => jiffies (ks s)).

Definition sys_brk (end_data_seg : Z) : KM (kernel I) Z :=
  t ← current_task;
  kwhen ((end_code t <=? end_data_seg) && (end_data_seg <? u32 (start_stack t - 16384)))
    (set_current (fun t => t ⟪ brk := end_data_seg ⟫)) ;;
  t ← current_task;
  mret (brk t).

(** The loop of [sys_setpgid]: the first task with the process number. *)
Fixpoint find_task (ts : list (option task_struct)) (i p : Z) : option (Z * task_struct) :=
  match ts with
  | [] => None
  | Some t :: ts => if pid t =? p then Some (i, t) else find_task ts (i + 1) p
  | None :: ts => find_task ts (i + 1) p
  end.
Definition sys_setpgid (p pg : Z) : KM (kernel I) Z :=
  cur ← current_task;
  let p := if truth p then p else pid cur in
  let pg := if truth pg then pg else pid cur in
  s ← gets (fun s => s);
  match find_task (task (ks s)) 0 p with
  | None => mret (- ESRCH)
  | Some (i, t) =>
      if truth (leader t) then mret (- EPERM)
      else if negb (session t =? session cur) then mret (- EPERM)
      else on_ks (put_task i (t ⟪ pgrp := pg ⟫)) ;; mret 0
  end.
Definition sys_getpgrp : KM (kernel I) Z := t ← current_task; mret (pgrp t).
Definition sys_setsid : KM (kernel I) Z :=
  t ← current_task;
  su ← k_suser;
  if truth (leader t) && negb su then mret (- EPERM)
  else
    set_current (fun t => t ⟪ leader := 1 ⟫ ⟪ session := pid t ⟫ ⟪ pgrp := pid t ⟫ ⟪ tty := -1 ⟫) ;;
    t ← current_task;
    mret (pgrp t).

(** [thisname]: five fields of nine bytes. *)
Definition name_field (s : string) : list Z :=
  let l := map (fun c => Z.of_N (Ascii.N_of_ascii c)) (String.list_ascii_of_string s) in
  l ++ replicate (9 - length l) 0.
Definition thisname : list Z :=
  name_field "linux .0" ++ name_field "nodename" ++ name_field "release " ++
  name_field "version " ++ name_field "machine ".
Fixpoint put_bytes (l : list Z) (a : Z) : KM (kernel I) unit :=
  match l with
  | [] => mret tt
  | v :: l => put_fs_byte v a ;; put_bytes l (a + 1)
  end.
Definition sys_uname (name : Z) : KM (kernel I) Z :=
  if negb (truth name) then mret (- ERROR)
  else
    verify_area name 45 ;;
    put_bytes thisname name ;;
    mret 0.

Definition sys_umask (mask : Z) : KM (kernel I) Z :=
  t ← current_task;
  set_current (fun t => t ⟪ umask := Z.land mask 511 ⟫) ;;
  mret (umask t).
End sys.

(** ** Changing identity *)

Definition ids_ok (t : task_struct) : Prop :=
  0 <= uid t < 65536 /\ 0 <= euid t < 65536 /\ 0 <= gid t < 65536 /\ 0 <= egid t < 65536.

Section identity.
Context {I : Type}.
Implicit Types s : kernel I.

Lemma k_suser_run s t : current_is s t -> k_suser s = Done (euid t =? 0) s.
Proof.
  intros Ht. unfold k_suser, mbind, kbind. by rewrite (current_task_run s t).
Qed.

(** An unprivileged process may only move between its real and effective
    user id; the super-user may take any. *)
Definition may_set_uid (t : task_struct) (id : Z) : bool :=
  (id <=? 0) || (euid t =? id) || (uid t =? id) || (euid t =? 0).
Definition set_id (id old : Z) : Z := if 0 <? id then u16 id else old.

Lemma set_real_uid_run s t ruid :
  current_is s t ->
  set_real_uid (uid t) ruid s =
    if may_set_uid t ruid then Done true (with_current (t ⟪ uid := set_id ruid (uid t) ⟫) s)
    else Done false s.
Proof.
  intros Ht. unfold set_real_uid, may_set_uid, set_id, mbind, kbind.
  destruct (Z.ltb_spec 0 ruid).
  - rewrite (proj2 (Z.leb_gt ruid 0)), (current_task_run s t Ht), (k_suser_run s t Ht) by done.
    cbn [orb]. destruct ((euid t =? ruid) || (uid t =? ruid) || (euid t =? 0)); [|done].
    by rewrite (set_current_run s t).
  - rewrite (proj2 (Z.leb_le ruid 0)) by done. cbn [orb].
    replace (t ⟪ uid := uid t ⟫) with t by (by destruct t). by rewrite with_current_same.
Qed.

Lemma setreuid_run s t ruid euid_ :
  current_is s t -> ids_ok t ->
  sys_setreuid ruid euid_ s =
    if may_set_uid t ruid && may_set_uid t euid_
    then Done 0 (with_current (t ⟪ uid := set_id ruid (uid t) ⟫
                                 ⟪ euid := set_id euid_ (euid t) ⟫) s)
    else Done (- EPERM) s.
Proof.
  intros Ht (Hu & He & _). unfold sys_setreuid.
  unfold mbind, kbind. rewrite (current_task_run s t Ht), (set_real_uid_run s t ruid Ht).
  destruct (may_set_uid t ruid); [|done]. cbn [negb andb].
  set (t1 := t ⟪ uid := _ ⟫). pose proof (current_is_with t t1 s Ht) as Ht1.
  unfold may_set_uid. destruct (Z.ltb_spec 0 euid_) as [Hpos|Hneg].
  - rewrite (proj2 (Z.leb_gt euid_ 0)), (current_task_run _ t1 Ht1), (k_suser_run _ t1 Ht1) by done.
    change (euid t1) with (euid t). cbn [orb].
    rewrite (orb_comm (euid t =? euid_) (uid t =? euid_)).
    destruct ((uid t =? euid_) || (euid t =? euid_) || (euid t =? 0)).
    + rewrite (set_current_run _ t1), with_current_twice by done.
      unfold t1, set_id. by rewrite (proj2 (Z.ltb_lt 0 euid_) Hpos).
    + rewrite (set_current_run _ t1), with_current_twice by done.
      replace (t1 ⟪ uid := u16 (uid t) ⟫) with t; [by rewrite with_current_same|].
      rewrite u16_small by done. by destruct t.
  - rewrite (proj2 (Z.leb_le euid_ 0)) by done. cbn [orb]. unfold set_id at 1.
    rewrite (proj2 (Z.ltb_ge 0 euid_) Hneg).
    by replace (t1 ⟪ euid := euid t ⟫) with t1 by (by destruct t).
Qed.
End identity.

(** [sys_setreuid] is all or nothing: when both ids are permitted (an id
    of 0 or less asks for no change, and an unprivileged process may only use
    its real and its effective id) it sets them and returns 0; otherwise it
    returns [-EPERM] and nothing changes. *)
Theorem sys_setreuid_atomic {I} (s : kernel I) (t : task_struct) (ruid euid_ : Z) :
  current_is s t -> ids_ok t ->
  sys_setreuid ruid euid_ s =
    if may_set_uid t ruid && may_set_uid t euid_
    then Done 0 (with_current (t ⟪ uid := set_id ruid (uid t) ⟫
                                 ⟪ euid := set_id euid_ (euid t) ⟫) s)
    else Done (- EPERM) s.
Proof. apply setreuid_run. Qed.

(** A task of user 5, group 6, that runs a set-user-id program of user 7. *)
Definition demo_user : task_struct :=
  (INIT_TASK 0 0) ⟪ uid := 5 ⟫ ⟪ euid := 7 ⟫ ⟪ gid := 6 ⟫ ⟪ egid := 6 ⟫ ⟪ sgid := 6 ⟫.
Definition demo_ids : kernel unit :=
  Kernel (Sched (Some demo_user :: replicate 63 None) 0 0 0 None false [] [] ∅)
    (MM [] 0 ∅) 1 [] [] tt [] ∅.

Lemma sys_setreuid_atomic_witness :
  sys_setreuid 7 5 demo_ids = Done 0 (with_current (demo_user ⟪ uid := 7 ⟫ ⟪ euid := 5 ⟫) demo_ids).
Proof.
  refine (sys_setreuid_atomic demo_ids demo_user 7 5 _ _); [reflexivity|].
  repeat split; vm_compute; discriminate || reflexivity.
Defined.

