(* ===== verification/Mktime.v ===== *)
(** * The boot-time clock ([kernel/mktime.c])

    [kernel_mktime] against the calendar it abbreviates. *)

From S2P Require Import Prelude.

Definition MINUTE : Z := 60.
Definition HOUR : Z := 60 * MINUTE.
Definition DAY : Z := 24 * HOUR.
Definition YEAR : Z := 365 * DAY.

(** [static int month[12]]: the seconds before each month of a leap year. *)
Definition month : list Z :=
  map (fun d => DAY * d) [0; 31; 31+29; 31+29+31; 31+29+31+30; 31+29+31+30+31;
    31+29+31+30+31+30; 31+29+31+30+31+30+31; 31+29+31+30+31+30+31+31;
    31+29+31+30+31+30+31+31+30; 31+29+31+30+31+30+31+31+30+31;
    31+29+31+30+31+30+31+31+30+31+30].

Record tm : Type := Tm {
  tm_sec : Z; tm_min : Z; tm_hour : Z; tm_mday : Z; tm_mon : Z; tm_year : Z
}.

(** C's [/] and [%] round towards zero. *)
Definition kernel_mktime (t : tm) : option Z :=
  let year := tm_year t - 70 in
  let res := YEAR * year + DAY * Z.quot (year + 1) 4 in
  m ← array_get month (tm_mon t);
  let res := res + m in
  let res := if (1 <? tm_mon t) && truth (Z.rem (year + 2) 4) then res - DAY else res in
  let res := res + DAY * (tm_mday t - 1) in
  let res := res + HOUR * tm_hour t in
  let res := res + MINUTE * tm_min t in
  Some (s32 (res + tm_sec t)).

(** ** The Gregorian calendar *)

Definition leap (y : Z) : bool :=
  (y mod 4 =? 0) && (negb (y mod 100 =? 0) || (y mod 400 =? 0)).
Definition year_days (y : Z) : Z := if leap y then 366 else 365.
Definition month_days (y m : Z) : Z :=
  match m with
  | 1 => if leap y then 29 else 28
  | 3 | 5 | 8 | 10 => 30
  | _ => 31
  end.
Definition sum_days (l : list Z) : Z := foldr Z.add 0 l.
(** The days from 1 January 1970 to the first of month [m] (from 0) of
    year [y]. *)
Definition days_to (y m : Z) : Z :=
  sum_days (map year_days (seqZ 1970 (y - 1970))) + sum_days (map (month_days y) (seqZ 0 m)).

Definition kernel_days (year m : Z) : Z :=
  365 * (year - 70) + Z.quot (year - 70 + 1) 4 + default 0 (array_get month m) / DAY
  - (if (1 <? m) && truth (Z.rem (year - 70 + 2) 4) then 1 else 0).

Lemma kernel_days_correct year m :
  70 <= year < 138 -> 0 <= m < 12 -> kernel_days year m = days_to (1900 + year) m.
Proof.
  intros Hy Hm.
  assert (Hall : forallb (fun y => forallb (fun m => kernel_days y m =? days_to (1900 + y) m)
    (seqZ 0 12)) (seqZ 70 68) = true) by (vm_compute; reflexivity).
  rewrite forallb_forall in Hall.
  specialize (Hall year ltac:(apply list_elem_of_In, elem_of_seqZ; lia)).
  rewrite forallb_forall in Hall.
  specialize (Hall m ltac:(apply list_elem_of_In, elem_of_seqZ; lia)). lia.
Qed.

Lemma days_to_bound year m :
  70 <= year < 138 -> 0 <= m < 12 -> 0 <= days_to (1900 + year) m <= 24806.
Proof.
  intros Hy Hm. rewrite <- kernel_days_correct by done.
  assert (Hall : forallb (fun y => forallb (fun m => (0 <=? kernel_days y m) && (kernel_days y m <=? 24806))
    (seqZ 0 12)) (seqZ 70 68) = true) by (vm_compute; reflexivity).
  rewrite forallb_forall in Hall.
  specialize (Hall year ltac:(apply list_elem_of_In, elem_of_seqZ; lia)).
  rewrite forallb_forall in Hall.
  specialize (Hall m ltac:(apply list_elem_of_In, elem_of_seqZ; lia)). lia.
Qed.

(** From 1970 to 2037 [kernel_mktime] is the number of seconds that the
    Gregorian calendar counts since 1 January 1970, and it does not overflow:
    the "magic offsets" get every leap year right. *)
Theorem kernel_mktime_calendar (t : tm) :
  70 <= tm_year t < 138 -> 0 <= tm_mon t < 12 -> 1 <= tm_mday t <= 31 ->
  0 <= tm_hour t < 24 -> 0 <= tm_min t < 60 -> 0 <= tm_sec t < 60 ->
  kernel_mktime t =
    Some (86400 * (days_to (1900 + tm_year t) (tm_mon t) + tm_mday t - 1)
          + 3600 * tm_hour t + 60 * tm_min t + tm_sec t).
Proof.
  intros Hy Hm Hd Hh Hmin Hs. unfold kernel_mktime.
  pose proof (kernel_days_correct _ _ Hy Hm) as Hk. pose proof (days_to_bound _ _ Hy Hm) as Hb.
  destruct (array_get_in_bounds month (tm_mon t)) as [d Hd']; [done|].
  unfold kernel_days in Hk. rewrite Hd' in Hk |- *. cbn [mbind option_bind default] in *.
  assert (Hdiv : d = DAY * (d / DAY)).
  { assert (Hall : Forall (fun x => x = DAY * (x / DAY)) month) by (repeat constructor).
    rewrite Forall_forall in Hall. apply Hall. unfold array_get in Hd'.
    destruct (0 <=? tm_mon t); [|done].
    by eapply list_elem_of_In, list_elem_of_lookup_2. }
  f_equal. unfold MINUTE, HOUR, YEAR in *. change DAY with 86400 in *.
  unfold MINUTE in *. change (id d) with d in Hk.
  generalize dependent (d / 86400). intros q Hk ->.
  generalize dependent (Z.quot (tm_year t - 70 + 1) 4). intros n Hk.
  rewrite s32_small; destruct ((1 <? tm_mon t) && _); lia.
Qed.

(** The CMOS has two digits for the year, so that the year 2000 is given as 0:
    the sum of seconds wraps around to 7 February 2036. *)
Lemma kernel_mktime_year_2000 : kernel_mktime (Tm 0 0 0 1 0 0) = Some (86400 * (days_to 2036 1 + 6) + 3600 * 6 + 60 * 28 + 16).
Proof. vm_compute. reflexivity. Qed.
