(* ===== verification/Vsprintf.v ===== *)
(** * Formatted output ([kernel/vsprintf.c])

    Characters are their codes; the format is the C string without its final
    NUL, so that reading [*fmt] at the end of the list is reading the NUL.
    The arguments are 32-bit words; [cstring] gives the C string at an
    address.  The result is the text written to [buf] (its length is the
    return value) and the stores made by [%n]. *)

From S2P Require Import Prelude.

Definition is_digit (c : Z) : bool := (48 <=? c) && (c <=? 57).

(** [skip_atoi]: the value of the leading digits, and what follows them. *)
Fixpoint skip_atoi_from (i : Z) (s : list Z) : Z * list Z :=
  match s with
  | c :: rest => if is_digit c then skip_atoi_from (s32 (i * 10 + c - 48)) rest else (i, s)
  | [] => (i, s)
  end.
Definition skip_atoi : list Z -> Z * list Z := skip_atoi_from 0.

Definition ZEROPAD : Z := 1.
Definition SIGN : Z := 2.
Definition PLUS : Z := 4.
Definition SPACE : Z := 8.
Definition LEFT : Z := 16.
Definition SPECIAL : Z := 32.
Definition SMALL : Z := 64.
Definition flag (type f : Z) : bool := truth (Z.land type f).

(** The character [digits[d]]. *)
Definition digit_char (small : bool) (d : Z) : Z :=
  if d <? 10 then 48 + d else if small then 97 + (d - 10) else 65 + (d - 10).

(** [while (num!=0) tmp[i++]=digits[do_div(num,base)];]: the digits, lowest
    first.  [do_div] divides the unsigned number; 32 turns are enough for
    any base. *)
Fixpoint digits_rev (fuel : nat) (small : bool) (base num : Z) : list Z :=
  match fuel with
  | O => []
  | S fuel =>
      if num =? 0 then []
      else digit_char small (num mod base) :: digits_rev fuel small base (num / base)
  end.

(** [n] copies of a character, none when [n] is negative. *)
Definition pad (n c : Z) : list Z := replicate (Z.to_nat n) c.

Definition number (num base size precision type : Z) : option (list Z) :=
  let small := flag type SMALL in
  let type := if flag type LEFT then Z.land type (Z.lnot ZEROPAD) else type in
  if (base <? 2) || (36 <? base) then None
  else
    let c := if flag type ZEROPAD then 48 else 32 in
    let neg := flag type SIGN && (num <? 0) in
    let num := if neg then s32 (- num) else num in
    let sign := if neg then 45 else if flag type PLUS then 43 else if flag type SPACE then 32 else 0 in
    let size := if truth sign then size - 1 else size in
    let size := if flag type SPECIAL then
                  if base =? 16 then size - 2 else if base =? 8 then size - 1 else size
                else size in
    let tmp := if num =? 0 then [48] else digits_rev 32 small base (u32 num) in
    let i := Z.of_nat (length tmp) in
    let precision := Z.max i precision in
    let size := size - precision in
    (* a loop [while(size-->0)] that runs leaves [size] at -1 *)
    let fill_first := negb (flag type (ZEROPAD + LEFT)) in
    let spaces := if fill_first then pad size 32 else [] in
    let size := if fill_first then Z.min (-1) (size - 1) else size in
    let fill_second := negb (flag type LEFT) in
    let zeros := if fill_second then pad size c else [] in
    let size := if fill_second then Z.min (-1) (size - 1) else size in
    Some (spaces ++ (if truth sign then [sign] else [])
      ++ (if flag type SPECIAL then
            if base =? 8 then [48] else if base =? 16 then [48; digit_char small 33] else []
          else [])
      ++ zeros ++ pad (precision - i) 48 ++ reverse tmp ++ pad size 32).

(** The state of [vsprintf] between conversions: what is left of the format
    and of the arguments, the output, and the stores of [%n]. *)
Record vstate : Type := VState {
  v_fmt : list Z; v_args : list Z; v_out : list Z; v_stores : list (Z * Z)
}.

(** [repeat: ++fmt; switch ( *fmt)]: the flags after a percent sign. *)
Fixpoint parse_flags (fmt : list Z) (flags : Z) : Z * list Z :=
  match fmt with
  | 45 :: fmt => parse_flags fmt (Z.lor flags LEFT)
  | 43 :: fmt => parse_flags fmt (Z.lor flags PLUS)
  | 32 :: fmt => parse_flags fmt (Z.lor flags SPACE)
  | 35 :: fmt => parse_flags fmt (Z.lor flags SPECIAL)
  | 48 :: fmt => parse_flags fmt (Z.lor flags ZEROPAD)
  | _ => (flags, fmt)
  end.

Definition va_arg (args : list Z) : option (Z * list Z) :=
  match args with [] => None | a :: args => Some (a, args) end.

(** The field width: digits or a star, whose character is not skipped. *)
Definition parse_width (flags : Z) (fmt args : list Z) : option (Z * Z * list Z * list Z) :=
  match fmt with
  | c :: _ =>
      if is_digit c then
        let '(w, fmt) := skip_atoi fmt in Some (flags, w, fmt, args)
      else if c =? 42 then
        '(w, args) ← va_arg args;
        let w := s32 w in
        Some (if w <? 0 then (Z.lor flags LEFT, s32 (- w), fmt, args) else (flags, w, fmt, args))
      else Some (flags, -1, fmt, args)
  | [] => Some (flags, -1, fmt, args)
  end.

Definition parse_precision (fmt args : list Z) : option (Z * list Z * list Z) :=
  match fmt with
  | 46 :: fmt =>
      '(p, fmt, args) ←
        match fmt with
        | c :: _ =>
            if is_digit c then let '(p, fmt) := skip_atoi fmt in Some (p, fmt, args)
            else if c =? 42 then '(p, args) ← va_arg args; Some (s32 p, fmt, args)
            else Some (-1, fmt, args)
        | [] => Some (-1, fmt, args)
        end;
      Some (Z.max 0 p, fmt, args)
  | _ => Some (-1, fmt, args)
  end.

Definition skip_qualifier (fmt : list Z) : list Z :=
  match fmt with
  | c :: rest => if (c =? 104) || (c =? 108) || (c =? 76) then rest else fmt
  | [] => fmt
  end.

Section vsprintf.
Variable cstring : Z -> list Z.

(** The conversion [c] with its flags, width and precision: the text it
    writes, the arguments left, and the stores. *)
Definition convert (c flags width precision : Z) (args : list Z) (written : Z)
    : option (list Z * list Z * list (Z * Z)) :=
  let num base flags width :=
    '(a, args) ← va_arg args;
    text ← number (s32 a) base width precision flags;
    Some (text, args, []) in
  if c =? 99 (* c *) then
    '(a, args) ← va_arg args;
    Some ((if flag flags LEFT then [u8 a] ++ pad (width - 1) 32
           else pad (width - 1) 32 ++ [u8 a]), args, [])
  else if c =? 115 (* s *) then
    '(a, args) ← va_arg args;
    let s := cstring a in
    let len := if precision <? 0 then Z.of_nat (length s)
               else Z.min (Z.of_nat (length s)) precision in
    let text := take (Z.to_nat len) s in
    Some ((if flag flags LEFT then text ++ pad (width - len) 32
           else pad (width - len) 32 ++ text), args, [])
  else if c =? 111 (* o *) then num 8 flags width
  else if c =? 112 (* p *) then
    if width =? -1 then num 16 (Z.lor flags ZEROPAD) 8 else num 16 flags width
  else if c =? 120 (* x *) then num 16 (Z.lor flags SMALL) width
  else if c =? 88 (* X *) then num 16 flags width
  else if (c =? 100) || (c =? 105) (* d, i *) then num 10 (Z.lor flags SIGN) width
  else if c =? 117 (* u *) then num 10 flags width
  else if c =? 110 (* n *) then
    '(a, args) ← va_arg args; Some ([], args, [(a, written)])
  else Some ((if c =? 37 then [] else [37]) ++ [c], args, []).

(** One turn of the loop, at a character [c] of the format. *)
Definition vsprintf_step (c : Z) (fmt : list Z) (v : vstate) : option vstate :=
  if negb (c =? 37) then Some (VState fmt (v_args v) (v_out v ++ [c]) (v_stores v))
  else
    let '(flags, fmt) := parse_flags fmt 0 in
    '(flags, width, fmt, args) ← parse_width flags fmt (v_args v);
    '(precision, fmt, args) ← parse_precision fmt args;
    match skip_qualifier fmt with
    | [] => Some (VState [] args (v_out v ++ [37]) (v_stores v))
    | c :: fmt =>
        '(text, args, stores) ←
          convert c flags width precision args (Z.of_nat (length (v_out v)));
        Some (VState fmt args (v_out v ++ text) (v_stores v ++ stores))
    end.

Fixpoint vsprintf_loop (fuel : nat) (v : vstate) : option vstate :=
  match fuel with
  | O => None
  | S fuel =>
      match v_fmt v with
      | [] => Some v
      | c :: fmt => v' ← vsprintf_step c fmt v; vsprintf_loop fuel v'
      end
  end.

(** Every turn consumes a character of the format, so its length is
    enough ([vsprintf_step_shorter]). *)
Definition vsprintf (fmt args : list Z) : option (list Z * list (Z * Z)) :=
  v ← vsprintf_loop (S (length fmt)) (VState fmt args [] []);
  Some (v_out v, v_stores v).
End vsprintf.

(** ** Numbers *)

(** The value of a string of decimal digits, from [i] on. *)
Definition all_digits (l : list Z) : Prop := Forall (fun c => is_digit c = true) l.
Definition decimal (l : list Z) : Z := foldl (fun i c => i * 10 + c - 48) 0 l.

Lemma is_digit_spec c : is_digit c = true <-> 48 <= c <= 57.
Proof. unfold is_digit. lia. Qed.

Lemma digits_rev_digits fuel small num :
  0 <= num -> all_digits (digits_rev fuel small 10 num).
Proof.
  revert num. induction fuel as [|fuel IH]; intros num Hn; [constructor|]. cbn [digits_rev].
  destruct (Z.eqb_spec num 0); [constructor|]. constructor; [|apply IH, Z.div_pos; lia].
  pose proof (Z.mod_pos_bound num 10). unfold digit_char.
  rewrite (proj2 (Z.ltb_lt (num mod 10) 10)) by lia. apply is_digit_spec. lia.
Qed.

Lemma decimal_snoc l c : decimal (l ++ [c]) = decimal l * 10 + c - 48.
Proof. unfold decimal. by rewrite foldl_app. Qed.

Lemma digits_rev_value fuel small num :
  0 <= num < 10 ^ Z.of_nat fuel -> decimal (reverse (digits_rev fuel small 10 num)) = num.
Proof.
  revert num. induction fuel as [|fuel IH]; intros num Hn; cbn [digits_rev].
  { change (10 ^ Z.of_nat 0) with 1 in Hn. cbn. lia. }
  destruct (Z.eqb_spec num 0) as [->|Hne]; [done|].
  rewrite reverse_cons, decimal_snoc, IH.
  - pose proof (Z.mod_pos_bound num 10). pose proof (Z.div_mod num 10).
    unfold digit_char. rewrite (proj2 (Z.ltb_lt (num mod 10) 10)) by lia. lia.
  - split; [apply Z.div_pos; lia|]. apply Z.div_lt_upper_bound; [lia|].
    rewrite Nat2Z.inj_succ, Z.pow_succ_r in Hn by lia. lia.
Qed.

(** [skip_atoi] reads a number that fits an [int] and stops at the first
    other character. *)
Lemma decimal_from l : forall i, foldl (fun i c => i * 10 + c - 48) i l = i * 10 ^ Z.of_nat (length l) + decimal l.
Proof.
  unfold decimal. induction l as [|c l IH]; intros i; cbn [foldl length]; [lia|].
  rewrite IH, (IH (0 * 10 + c - 48)). rewrite Nat2Z.inj_succ, Z.pow_succ_r by lia. lia.
Qed.
Lemma decimal_nonneg l : all_digits l -> 0 <= decimal l.
Proof.
  unfold decimal. assert (Hgen : forall i, 0 <= i -> all_digits l -> 0 <= foldl (fun i c => i * 10 + c - 48) i l).
  { induction l as [|c l IH]; intros i Hi Hl; [done|]. cbn. inversion_clear Hl as [|? ? Hc Hl'].
    apply is_digit_spec in Hc. apply IH; [lia|done]. }
  by apply Hgen.
Qed.
Lemma skip_atoi_digits l rest :
  all_digits l -> decimal l < 2147483648 ->
  match rest with c :: _ => is_digit c = false | [] => True end ->
  skip_atoi (l ++ rest) = (decimal l, rest).
Proof.
  intros Hl Hv Hrest. unfold skip_atoi.
  assert (Hgen : forall i, 0 <= i -> foldl (fun i c => i * 10 + c - 48) i l < 2147483648 ->
    skip_atoi_from i (l ++ rest) = (foldl (fun i c => i * 10 + c - 48) i l, rest)).
  { clear Hv. induction l as [|c l IH]; intros i Hi Hlt; cbn.
    - destruct rest as [|c rest]; [done|]. cbn. by rewrite Hrest.
    - inversion_clear Hl as [|? ? Hc Hl']. rewrite Hc. apply is_digit_spec in Hc.
      cbn in Hlt. pose proof (decimal_from l (i * 10 + c - 48)) as Hd.
      pose proof (decimal_nonneg l Hl').
      assert (1 <= 10 ^ Z.of_nat (length l)) by (pose proof (Z.pow_pos_nonneg 10 (Z.of_nat (length l))); lia).
      rewrite s32_small by nia. apply IH; [done|lia|done]. }
  by apply Hgen.
Qed.

(** [number] in base 10 without flags. *)
Lemma number_plain n size precision :
  number n 10 size precision 0 =
    let tmp := if n =? 0 then [48] else digits_rev 32 false 10 (u32 n) in
    let i := Z.of_nat (length tmp) in
    let k := size - Z.max i precision in
    Some (pad k 32 ++ pad (Z.min (-1) (k - 1)) 32 ++ pad (Z.max i precision - i) 48
          ++ reverse tmp ++ pad (Z.min (-1) (Z.min (-1) (k - 1) - 1)) 32).
Proof. reflexivity. Qed.
Lemma pad_none n c : n <= 0 -> pad n c = [].
Proof. intros. unfold pad. by replace (Z.to_nat n) with 0%nat by lia. Qed.

(** C26: what [number] writes for [%d] or [%u] without flags is a run of
    spaces and then the decimal digits of the number, at least [precision]
    digits and at least [size] characters in all, and reading it back with
    [skip_atoi] gives the number. *)
Theorem number_roundtrip (n size precision : Z) (rest : list Z) :
  0 <= n < 2147483648 ->
  match rest with c :: _ => is_digit c = false | [] => True end ->
  exists spaces digits, number n 10 size precision 0 = Some (spaces ++ digits) /\
    Forall (fun c => c = 32) spaces /\ all_digits digits /\
    precision <= Z.of_nat (length digits) /\
    Z.of_nat (length (spaces ++ digits)) = Z.max size (Z.of_nat (length digits)) /\
    skip_atoi (digits ++ rest) = (n, rest).
Proof.
  intros Hn Hrest. rewrite number_plain. cbv zeta.
  set (tmp := if n =? 0 then [48] else digits_rev 32 false 10 (u32 n)).
  assert (Htmp : all_digits tmp /\ decimal (reverse tmp) = n).
  { unfold tmp. rewrite u32_small by lia. destruct (Z.eqb_spec n 0) as [->|]; [by repeat constructor|].
    split; [apply digits_rev_digits; lia|]. apply digits_rev_value.
    change (10 ^ Z.of_nat 32) with 100000000000000000000000000000000. lia. }
  destruct Htmp as [Hdig Hval].
  set (zs := pad (Z.max (Z.of_nat (length tmp)) precision - Z.of_nat (length tmp)) 48).
  set (k := size - Z.max (Z.of_nat (length tmp)) precision).
  exists (pad k 32), (zs ++ reverse tmp).
  assert (Hzs : all_digits zs /\ decimal zs = 0).
  { unfold zs, pad. split; [by apply Forall_replicate|].
    induction (Z.to_nat _) as [|m IH]; [done|]. cbn [replicate]. unfold decimal in *. exact IH. }
  destruct Hzs as [Hzd Hz0].
  assert (Hall : all_digits (zs ++ reverse tmp)).
  { apply Forall_app_2; [done|]. by apply Forall_reverse. }
  assert (Hdec : decimal (zs ++ reverse tmp) = n).
  { unfold decimal in *. by rewrite foldl_app, Hz0. }
  assert (Hlen : Z.of_nat (length (zs ++ reverse tmp)) = Z.max (Z.of_nat (length tmp)) precision).
  { rewrite length_app, length_reverse. unfold zs, pad. rewrite length_replicate. lia. }
  split_and!.
  - rewrite !(pad_none (Z.min _ _)) by lia. by rewrite app_nil_r.
  - by apply Forall_replicate.
  - done.
  - lia.
  - rewrite length_app. unfold pad. rewrite length_replicate. lia.
  - rewrite <- Hdec. apply skip_atoi_digits; [done|lia|done].
Qed.

Lemma number_roundtrip_witness :
  exists spaces digits, number 305 10 6 4 0 = Some (spaces ++ digits) /\
    Forall (fun c => c = 32) spaces /\ all_digits digits /\
    4 <= Z.of_nat (length digits) /\
    Z.of_nat (length (spaces ++ digits)) = Z.max 6 (Z.of_nat (length digits)) /\
    skip_atoi (digits ++ [32]) = (305, [32]).
Proof. apply (number_roundtrip 305 6 4 [32]); [lia|reflexivity]. Defined.

(** ** The format *)

(** Conversions and literal characters, without the star. *)
Lemma parse_flags_shorter fmt flags : (length (parse_flags fmt flags).2 <= length fmt)%nat.
Proof.
  revert flags. induction fmt as [|c fmt IH]; intros flags; [done|]. cbn [parse_flags length].
  repeat case_match; cbn; try done; (etransitivity; [apply IH|lia]).
Qed.
Lemma skip_atoi_shorter s : (length (skip_atoi s).2 <= length s)%nat.
Proof.
  unfold skip_atoi. generalize 0. induction s as [|c s IH]; intros i; [done|]. cbn.
  destruct (is_digit c); [|done]. etransitivity; [apply IH|lia].
Qed.
Lemma skip_qualifier_shorter fmt : (length (skip_qualifier fmt) <= length fmt)%nat.
Proof. destruct fmt as [|c fmt]; [done|]. cbn. destruct (_ || _); cbn; lia. Qed.
Lemma number_some a base w p f : 2 <= base <= 36 -> is_Some (number a base w p f).
Proof.
  intros Hb. unfold number.
  by rewrite (proj2 (Z.ltb_ge base 2)), (proj2 (Z.ltb_ge 36 base)) by lia.
Qed.
Lemma va_arg_some args n :
  (S n <= length args)%nat -> exists a rest, va_arg args = Some (a, rest) /\ (n <= length rest)%nat.
Proof. destruct args as [|a args]; cbn; intros; [lia|]. exists a, args. split; [done|lia]. Qed.

Lemma parse_width_total flags fmt args n :
  (S n <= length args)%nat ->
  exists f w fmt' args', parse_width flags fmt args = Some (f, w, fmt', args') /\
    (length fmt' <= length fmt)%nat /\ (n <= length args')%nat.
Proof.
  intros Hn. destruct fmt as [|c fmt]; [eexists _, _, _, _; split; [done|cbn; lia]|].
  unfold parse_width. destruct (is_digit c).
  - pose proof (skip_atoi_shorter (c :: fmt)). destruct (skip_atoi (c :: fmt)) as [w fmt'].
    eexists _, _, _, _. split; [done|cbn in *; lia].
  - destruct (c =? 42); [|eexists _, _, _, _; split; [done|cbn; lia]].
    destruct (va_arg_some args n Hn) as (a & rest & -> & Hr). cbn.
    destruct (s32 a <? 0); eexists _, _, _, _; (split; [done|cbn; lia]).
Qed.
Lemma parse_precision_total fmt args n :
  (S n <= length args)%nat ->
  exists p fmt' args', parse_precision fmt args = Some (p, fmt', args') /\
    (length fmt' <= length fmt)%nat /\ (n <= length args')%nat.
Proof.
  intros Hn. unfold parse_precision.
  assert (Hno : exists p fmt' args', Some (-1, fmt, args) = Some (p, fmt', args') /\
    (length fmt' <= length fmt)%nat /\ (n <= length args')%nat)
    by (eexists _, _, _; split; [done|lia]).
  destruct (decide (head fmt = Some 46)) as [H46|H46].
  2:{ repeat case_match; simplify_eq/=; done. }
  destruct fmt as [|c fmt]; [done|]. injection H46 as ->. cbn [length]. clear Hno.
  destruct fmt as [|c fmt]; [eexists _, _, _; split; [done|cbn; lia]|].
  destruct (is_digit c).
  - pose proof (skip_atoi_shorter (c :: fmt)). destruct (skip_atoi (c :: fmt)) as [w fmt'].
    cbn. eexists _, _, _. split; [done|cbn in *; lia].
  - destruct (c =? 42); [|eexists _, _, _; split; [done|cbn; lia]].
    destruct (va_arg_some args n Hn) as (a & rest & -> & Hr). cbn.
    eexists _, _, _. split; [done|cbn; lia].
Qed.

Section total.
Variable cstring : Z -> list Z.

Lemma convert_total c flags w p args k n :
  (S n <= length args)%nat ->
  exists text args' stores, convert cstring c flags w p args k = Some (text, args', stores) /\
    (n <= length args')%nat.
Proof.
  intros Hn. destruct (va_arg_some args n Hn) as (a & rest & Hva & Hr).
  unfold convert. rewrite Hva. cbn [mbind option_bind].
  assert (Hnum : forall base w f, 2 <= base <= 36 ->
    exists text args' stores,
      (text ← number (s32 a) base w p f; Some (text, rest, ([] : list (Z * Z)))) = Some (text, args', stores) /\
      (n <= length args')%nat).
  { intros base w' f Hb. destruct (number_some (s32 a) base w' p f Hb) as [text ->].
    by exists text, rest, []. }
  repeat match goal with |- context [if ?b then _ else _] =>
    lazymatch b with
    | flag _ _ => fail
    | _ <? _ => fail
    | _ => destruct b
    end end; try (apply Hnum; lia); try (eexists _, _, _; split; [reflexivity|lia]).
Qed.

Lemma vsprintf_step_total c fmt v n :
  (3 + n <= length (v_args v))%nat ->
  exists v', vsprintf_step cstring c fmt v = Some v' /\
    (length (v_fmt v') <= length fmt)%nat /\ (n <= length (v_args v'))%nat.
Proof.
  intros Hn. unfold vsprintf_step. destruct (negb _).
  { eexists. split; [done|]. cbn. lia. }
  pose proof (parse_flags_shorter fmt 0) as Hf. destruct (parse_flags fmt 0) as [flags f1].
  destruct (parse_width_total flags f1 (v_args v) (2 + n)) as (fl & w & f2 & a2 & -> & Hf2 & Ha2); [lia|].
  cbn [mbind option_bind].
  destruct (parse_precision_total f2 a2 (1 + n)) as (p & f3 & a3 & -> & Hf3 & Ha3); [lia|].
  cbn [mbind option_bind]. pose proof (skip_qualifier_shorter f3) as Hf4. cbn in Hf.
  destruct (skip_qualifier f3) as [|c' f4]; [eexists; split; [done|cbn; lia]|].
  destruct (convert_total c' fl w p a3 (Z.of_nat (length (v_out v))) n)
    as (text & a4 & stores & -> & Ha4); [lia|].
  eexists. split; [done|]. cbn in *. lia.
Qed.

(** C27: [vsprintf] terminates on every format: each turn of its loop
    consumes at least one character and takes at most three arguments, so
    that with three arguments for each character it always produces its
    text, whatever the format. *)
Theorem vsprintf_terminates (fmt args : list Z) :
  (3 * length fmt <= length args)%nat -> is_Some (vsprintf cstring fmt args).
Proof.
  intros Hargs. unfold vsprintf.
  assert (Hloop : forall fuel v, (length (v_fmt v) < fuel)%nat ->
    (3 * length (v_fmt v) <= length (v_args v))%nat -> is_Some (vsprintf_loop cstring fuel v)).
  { induction fuel as [|fuel IH]; intros v Hfuel Ha; [lia|]. cbn [vsprintf_loop].
    destruct (v_fmt v) as [|c rest]; [done|]. cbn [length] in *.
    destruct (vsprintf_step_total c rest v (3 * length rest)) as (v' & -> & Hv' & Ha'); [lia|].
    cbn [mbind option_bind]. apply IH; lia. }
  destruct (Hloop (S (length fmt)) (VState fmt args [] [])) as [v ->]; [cbn; lia|done|done].
Qed.

(** A star for the field width does not work: its character is not
    skipped, so [%*d] takes the width argument and then writes the three
    characters of the conversion themselves instead of the number. *)
Theorem vsprintf_star_is_literal (w n : Z) (args : list Z) :
  vsprintf cstring [37; 42; 100] (w :: n :: args) = Some ([37; 42; 100], []).
Proof. unfold vsprintf. cbn. by destruct (s32 w <? 0). Qed.
End total.

(** ["%5d|%x"] applied to 42 and 255. *)
Lemma vsprintf_terminates_witness :
  is_Some (vsprintf (fun _ => []) [37; 53; 100; 124; 37; 120] (42 :: 255 :: replicate 16 0)) /\
  vsprintf (fun _ => []) [37; 53; 100; 124; 37; 120] (42 :: 255 :: replicate 16 0) =
    Some ([32; 32; 32; 52; 50; 124; 102; 102], []).
Proof.
  split; [|vm_compute; reflexivity].
  apply (vsprintf_terminates (fun _ => []) [37; 53; 100; 124; 37; 120]). cbn. lia.
Defined.
