(* ===== verification/Ports.v ===== *)
(** * Port I/O

    [include/asm/io.h]: [outb], [inb] and their slow versions.  What a
    device answers is not code of the kernel: it is a function of the
    accesses made so far ([Device]).  A component that talks to a device
    keeps the accesses, the latest first, in its state ([HasPorts]). *)

From S2P Require Import Prelude.

(** One access: [In port v] read [v], [Out v port] wrote [v]. *)
Inductive io_event : Type :=
| In (port v : Z)
| Out (v port : Z).

#[export] Instance io_event_dec : EqDecision io_event.
Proof. solve_decision. Defined.

Class Device := port_value : list io_event -> Z -> Z.

Class HasPorts (S : Type) := {
  ports : S -> list io_event;
  set_ports : list io_event -> S -> S
}.

Definition outb {S} `{!HasPorts S} (value port : Z) (s : S) : S :=
  set_ports (Out (u8 value) (u16 port) :: ports s) s.

Definition inb {S} `{!HasPorts S} {D : Device} (port : Z) (s : S) : Z * S :=
  let v := u8 (port_value (ports s) (u16 port)) in
  (v, set_ports (In (u16 port) v :: ports s) s).

(** The delays after an access do not change what it does. *)
Definition outb_p {S} `{!HasPorts S} : Z -> Z -> S -> S := outb.
Definition inb_p {S} `{!HasPorts S} {D : Device} : Z -> S -> Z * S := inb.

(** A device that always answers zero, for closed examples. *)
Definition silent_device : Device := fun _ _ => 0.
