(* ===== verification/Ctype.v ===== *)
(** * Character classes ([lib/ctype.c], [include/ctype.h])

    The table and the macros.  A character is a [char], which is signed: the
    index of a character above 127 is negative, and reading the table there
    is a fault. *)

From S2P Require Import Prelude.

(** The code of a character constant. *)
Definition ch (c : string) : Z :=
  match c with String a _ => Z.of_nat (Ascii.nat_of_ascii a) | EmptyString => 0 end.

Definition _U : Z := 0x01.
Definition _L : Z := 0x02.
Definition _D : Z := 0x04.
Definition _C : Z := 0x08.
Definition _P : Z := 0x10.
Definition _S : Z := 0x20.
Definition _X : Z := 0x40.
Definition _SP : Z := 0x80.

Definition _ctype : list Z :=
  [0x00] ++
  replicate 9 _C ++ replicate 5 (Z.lor _C _S) ++ replicate 18 _C ++
  [Z.lor _S _SP] ++ replicate 15 _P ++
  replicate 10 _D ++ replicate 7 _P ++
  replicate 6 (Z.lor _U _X) ++ replicate 20 _U ++ replicate 6 _P ++
  replicate 6 (Z.lor _L _X) ++ replicate 20 _L ++ replicate 4 _P ++ [_C] ++
  replicate 128 0.

Section macros.
Context {S : Type}.
(** [(_ctype+1)[c] & mask] *)
Definition has_class (mask c : Z) : KM S bool :=
  v ← read_at _ctype (c + 1); mret (truth (Z.land v mask)).
Definition isalnum : Z -> KM S bool := has_class (Z.lor _U (Z.lor _L _D)).
Definition isalpha : Z -> KM S bool := has_class (Z.lor _U _L).
Definition iscntrl : Z -> KM S bool := has_class _C.
Definition isdigit : Z -> KM S bool := has_class _D.
Definition isgraph : Z -> KM S bool := has_class (Z.lor _P (Z.lor _U (Z.lor _L _D))).
Definition islower : Z -> KM S bool := has_class _L.
Definition isprint : Z -> KM S bool :=
  has_class (Z.lor _P (Z.lor _U (Z.lor _L (Z.lor _D _SP)))).
Definition ispunct : Z -> KM S bool := has_class _P.
Definition isspace : Z -> KM S bool := has_class _S.
Definition isupper : Z -> KM S bool := has_class _U.
Definition isxdigit : Z -> KM S bool := has_class (Z.lor _D _X).
Definition tolower (c : Z) : KM S Z := b ← isupper c; mret (if b : bool then c + 32 else c).
Definition toupper (c : Z) : KM S Z := b ← islower c; mret (if b : bool then c - 32 else c).
End macros.

Lemma ctype_length : length _ctype = 257%nat.
Proof. reflexivity. Qed.

(** Every 7-bit character has an entry. *)
Lemma has_class_run {S} mask c (s : S) :
  0 <= c < 128 -> exists b, has_class mask c s = Done b s.
Proof.
  intros Hc. destruct (array_get_in_bounds _ctype (c + 1)) as [v Hv]; [rewrite ctype_length; lia|].
  exists (truth (Z.land v mask)). unfold has_class, read_at. by rewrite Hv.
Qed.
