(* ===== verification/Console.v ===== *)
(** * The console driver ([kernel/chr_drv/console.c])

    The state of the driver is the record [console]: the geometry of the
    display, the cursor, the scrolling region, the escape-sequence automaton
    and the video memory, a map from addresses to 16-bit words.  Every
    routine of the driver is a function on that record; [con_char] is the
    body of the loop of [con_write] for one character, whose loop is in the
    terminal layer.  The main theorem bounds every access of the driver by
    the display's memory. *)

From S2P Require Import Prelude Ports Ctype.

Module Con.

Record console : Type := Console {
  video_type : Z; video_num_columns : Z; video_size_row : Z; video_num_lines : Z;
  video_page : Z; video_mem_start : Z; video_mem_end : Z; video_port_reg : Z;
  video_port_val : Z; video_erase_char : Z;
  origin : Z; scr_end : Z; pos : Z; x : Z; y : Z; top : Z; bottom : Z;
  state : Z; npar : Z; par : list Z; ques : Z; attr : Z;
  saved_x : Z; saved_y : Z; beepcount : Z;
  vram : gmap Z Z;
  io : list io_event
}.
#[global] Instance console_rebuild : Rebuild console := fun s =>
  Console (video_type s) (video_num_columns s) (video_size_row s) (video_num_lines s)
    (video_page s) (video_mem_start s) (video_mem_end s) (video_port_reg s)
    (video_port_val s) (video_erase_char s)
    (origin s) (scr_end s) (pos s) (x s) (y s) (top s) (bottom s)
    (state s) (npar s) (par s) (ques s) (attr s)
    (saved_x s) (saved_y s) (beepcount s) (vram s) (io s).
#[global] Instance console_ports : HasPorts console := {
  ports := io;
  set_ports l s := s ⟪ io := l ⟫
}.

Definition VIDEO_TYPE_MDA : Z := 0x10.
Definition VIDEO_TYPE_CGA : Z := 0x11.
Definition VIDEO_TYPE_EGAM : Z := 0x20.
Definition VIDEO_TYPE_EGAC : Z := 0x21.
Definition NPAR : Z := 16.

(** A word of video memory, and the string instructions the driver uses: the
    direction [dir] is 1 after [cld] and -1 after [std]. *)
Definition word (m : gmap Z Z) (a : Z) : Z := default 0 (m !! a).
Definition set_word (a v : Z) (m : gmap Z Z) : gmap Z Z := <[a := u16 v]> m.

Fixpoint rep_movsl (n : nat) (dir di si : Z) (m : gmap Z Z) : gmap Z Z :=
  match n with
  | O => m
  | S n => rep_movsl n dir (di + 4 * dir) (si + 4 * dir)
             (set_word (di + 2) (word m (si + 2)) (set_word di (word m si) m))
  end.
Fixpoint rep_stosw (n : nat) (dir di v : Z) (m : gmap Z Z) : gmap Z Z :=
  match n with
  | O => m
  | S n => rep_stosw n dir (di + 2 * dir) v (set_word di v m)
  end.

Definition is_ega (s : console) : bool :=
  (video_type s =? VIDEO_TYPE_EGAC) || (video_type s =? VIDEO_TYPE_EGAM).

Definition gotoxy (new_x new_y : Z) (s : console) : console :=
  if (video_num_columns s <? new_x) || (video_num_lines s <=? new_y) then s
  else
    let s := s ⟪ x := new_x ⟫ ⟪ y := new_y ⟫ in
    s ⟪ pos := u32 (origin s + y s * video_size_row s + 2 * x s) ⟫.

Definition set_origin (s : console) : console :=
  let d := u32 (origin s - video_mem_start s) in
  let reg := video_port_reg s in
  let val := video_port_val s in
  outb_p (Z.land 0xff (Z.shiftr d 1)) val (outb_p 13 reg
    (outb_p (Z.land 0xff (Z.shiftr d 9)) val (outb_p 12 reg s))).

(** [rep movsl] of the [lines - 1] rows below the top line of the region,
    then [rep stosw] of one row of blanks. *)
Definition scroll_up (s : console) : console :=
  let n := Z.to_nat (u32 ((bottom s - top s - 1) * video_num_columns s) / 2) in
  let di := origin s + video_size_row s * top s in
  let si := origin s + video_size_row s * (top s + 1) in
  let m := rep_movsl n 1 di si (vram s) in
  s ⟪ vram := rep_stosw (Z.to_nat (video_num_columns s)) 1 (di + 4 * Z.of_nat n)
                (video_erase_char s) m ⟫.

Definition scrup (s : console) : console :=
  if is_ega s then
    if (top s =? 0) && (bottom s =? video_num_lines s) then
      let s := s ⟪ origin := u32 (origin s + video_size_row s) ⟫
                 ⟪ pos := u32 (pos s + video_size_row s) ⟫
                 ⟪ scr_end := u32 (scr_end s + video_size_row s) ⟫ in
      let s :=
        if video_mem_end s <? scr_end s then
          let n := Z.to_nat (u32 ((video_num_lines s - 1) * video_num_columns s) / 2) in
          let m := rep_movsl n 1 (video_mem_start s) (origin s) (vram s) in
          let m := rep_stosw (Z.to_nat (video_num_columns s)) 1
                     (video_mem_start s + 4 * Z.of_nat n) (video_erase_char s) m in
          let s := s ⟪ vram := m ⟫ in
          let s := s ⟪ scr_end := u32 (scr_end s - (origin s - video_mem_start s)) ⟫ in
          let s := s ⟪ pos := u32 (pos s - (origin s - video_mem_start s)) ⟫ in
          s ⟪ origin := video_mem_start s ⟫
        else
          s ⟪ vram := rep_stosw (Z.to_nat (video_num_columns s)) 1
                        (scr_end s - video_size_row s) (video_erase_char s) (vram s) ⟫ in
      set_origin s
    else scroll_up s
  else scroll_up s.

(** Both branches of [scrdown] are the same code: [std], the rows from the
    last one down, and the top row of the region blanked. *)
Definition scrdown (s : console) : console :=
  let n := Z.to_nat (u32 ((bottom s - top s - 1) * video_num_columns s) / 2) in
  let di := origin s + video_size_row s * bottom s - 4 in
  let si := origin s + video_size_row s * (bottom s - 1) - 4 in
  let m := rep_movsl n (-1) di si (vram s) in
  s ⟪ vram := rep_stosw (Z.to_nat (video_num_columns s)) (-1) (di - 4 * Z.of_nat n + 2)
                (video_erase_char s) m ⟫.

Definition lf (s : console) : console :=
  if u32 (y s + 1) <? bottom s then
    s ⟪ y := u32 (y s + 1) ⟫ ⟪ pos := u32 (pos s + video_size_row s) ⟫
  else scrup s.

Definition ri (s : console) : console :=
  if top s <? y s then
    s ⟪ y := u32 (y s - 1) ⟫ ⟪ pos := u32 (pos s - video_size_row s) ⟫
  else scrdown s.

Definition cr (s : console) : console :=
  s ⟪ pos := u32 (pos s - 2 * x s) ⟫ ⟪ x := 0 ⟫.

Definition del (s : console) : console :=
  if truth (x s) then
    let s := s ⟪ pos := u32 (pos s - 2) ⟫ ⟪ x := u32 (x s - 1) ⟫ in
    s ⟪ vram := set_word (pos s) (video_erase_char s) (vram s) ⟫
  else s.

(** [rep stosw] of blanks, which ends [csi_J] and [csi_K]. *)
Definition erase (count start : Z) (s : console) : console :=
  s ⟪ vram := rep_stosw (Z.to_nat (u32 count)) 1 start (video_erase_char s) (vram s) ⟫.

Definition csi_J (par : Z) (s : console) : console :=
  if par =? 0 then erase (u32 (scr_end s - pos s) / 2) (pos s) s
  else if par =? 1 then erase (u32 (pos s - origin s) / 2) (origin s) s
  else if par =? 2 then erase (video_num_columns s * video_num_lines s) (origin s) s
  else s.

Definition csi_K (par : Z) (s : console) : console :=
  if par =? 0 then
    if video_num_columns s <=? x s then s
    else erase (video_num_columns s - x s) (pos s) s
  else if par =? 1 then
    erase (if x s <? video_num_columns s then x s else video_num_columns s)
      (u32 (pos s - 2 * x s)) s
  else if par =? 2 then erase (video_num_columns s) (u32 (pos s - 2 * x s)) s
  else s.

(** One step of the loop of [csi_m]; other parameters change nothing. *)
Definition set_attr (s : console) (p : Z) : console :=
  if p =? 0 then s ⟪ attr := 0x07 ⟫
  else if p =? 1 then s ⟪ attr := 0x0f ⟫
  else if p =? 4 then s ⟪ attr := 0x0f ⟫
  else if p =? 7 then s ⟪ attr := 0x70 ⟫
  else if p =? 27 then s ⟪ attr := 0x07 ⟫
  else s.
Definition csi_m (s : console) : console :=
  foldl set_attr s (take (Z.to_nat (npar s + 1)) (par s)).

Definition set_cursor (s : console) : console :=
  let d := u32 (pos s - video_mem_start s) in
  let reg := video_port_reg s in
  let val := video_port_val s in
  outb_p (Z.land 0xff (Z.shiftr d 1)) val (outb_p 15 reg
    (outb_p (Z.land 0xff (Z.shiftr d 9)) val (outb_p 14 reg s))).

(** The loops of [insert_char] and [delete_char], for [n] turns: the words
    from [p] on move one place to the right, the first becomes [old]; or one
    place to the left, the last becomes the blank [e]. *)
Fixpoint shift_right (n : nat) (p old : Z) (m : gmap Z Z) : gmap Z Z :=
  match n with
  | O => m
  | S n => shift_right n (p + 2) (word m p) (set_word p old m)
  end.
Fixpoint shift_left (n : nat) (p e : Z) (m : gmap Z Z) : gmap Z Z :=
  match n with
  | O => set_word p e m
  | S n => shift_left n (p + 2) e (set_word p (word m (p + 2)) m)
  end.

Definition insert_char (s : console) : console :=
  s ⟪ vram := shift_right (Z.to_nat (video_num_columns s - x s)) (pos s)
                (video_erase_char s) (vram s) ⟫.

Definition insert_line (s : console) : console :=
  let oldtop := top s in
  let oldbottom := bottom s in
  let s := s ⟪ top := y s ⟫ ⟪ bottom := video_num_lines s ⟫ in
  let s := scrdown s in
  s ⟪ top := oldtop ⟫ ⟪ bottom := oldbottom ⟫.

Definition delete_char (s : console) : console :=
  if video_num_columns s <=? x s then s
  else s ⟪ vram := shift_left (Z.to_nat (video_num_columns s - x s - 1)) (pos s)
                     (video_erase_char s) (vram s) ⟫.

Definition delete_line (s : console) : console :=
  let oldtop := top s in
  let oldbottom := bottom s in
  let s := s ⟪ top := y s ⟫ ⟪ bottom := video_num_lines s ⟫ in
  let s := scrup s in
  s ⟪ top := oldtop ⟫ ⟪ bottom := oldbottom ⟫.

(** [while (nr--) f();], with [nr] brought into [1 .. limit] first. *)
Definition clamp (nr limit : Z) : Z :=
  if limit <? nr then limit else if nr =? 0 then 1 else nr.
Definition csi_at (nr : Z) (s : console) : console :=
  Nat.iter (Z.to_nat (clamp nr (video_num_columns s))) insert_char s.
Definition csi_L (nr : Z) (s : console) : console :=
  Nat.iter (Z.to_nat (clamp nr (video_num_lines s))) insert_line s.
Definition csi_P (nr : Z) (s : console) : console :=
  Nat.iter (Z.to_nat (clamp nr (video_num_columns s))) delete_char s.
Definition csi_M (nr : Z) (s : console) : console :=
  Nat.iter (Z.to_nat (clamp nr (video_num_lines s))) delete_line s.

Definition save_cur (s : console) : console :=
  s ⟪ saved_x := s32 (x s) ⟫ ⟪ saved_y := s32 (y s) ⟫.
Definition restore_cur (s : console) : console := gotoxy (u32 (saved_x s)) (u32 (saved_y s)) s.

Section with_device.
Context {D : Device}.

Definition sysbeep (s : console) : console :=
  let '(v, s) := inb_p 0x61 s in
  let s := outb_p (Z.lor v 3) 0x61 s in
  let s := outb_p 0xB6 0x43 s in
  let s := outb_p 0x37 0x42 s in
  let s := outb 0x06 0x42 s in
  s ⟪ beepcount := 100 / 8 ⟫.

Definition sysbeepstop (s : console) : console :=
  let '(v, s) := inb_p 0x61 s in outb (Z.land v 0xFC) 0x61 s.

(** The line wraps when the cursor is past its end. *)
Definition wrap (s : console) : console :=
  let s := s ⟪ x := u32 (x s - video_num_columns s) ⟫ in
  lf (s ⟪ pos := u32 (pos s - video_size_row s) ⟫).

(** A printable character. *)
Definition con_put (c : Z) (s : console) : console :=
  let s := if video_num_columns s <=? x s then wrap s else s in
  let s := s ⟪ vram := set_word (pos s) (256 * attr s + u8 c) (vram s) ⟫ in
  s ⟪ pos := u32 (pos s + 2) ⟫ ⟪ x := u32 (x s + 1) ⟫.

Definition con_tab (s : console) : console :=
  let c := 8 - Z.land (x s) 7 in
  let s := s ⟪ x := u32 (x s + c) ⟫ ⟪ pos := u32 (pos s + 2 * c) ⟫ in
  if video_num_columns s <? x s then wrap s else s.

(** State 0.  [erase_char] is [ERASE_CHAR(tty)]. *)
Definition con_plain (erase_char c : Z) (s : console) : console :=
  if (31 <? c) && (c <? 127) then con_put c s
  else if c =? 27 then s ⟪ state := 1 ⟫
  else if (c =? 10) || (c =? 11) || (c =? 12) then lf s
  else if c =? 13 then cr s
  else if c =? erase_char then del s
  else if c =? 8 then
    if truth (x s) then s ⟪ x := u32 (x s - 1) ⟫ ⟪ pos := u32 (pos s - 2) ⟫ else s
  else if c =? 9 then con_tab s
  else if c =? 7 then sysbeep s
  else s.
End with_device.


(** State 1, after ESC: the new state, and whether [respond] is called.  The
    last two tests compare the cursor's column, not the character. *)
Definition con_escape (c : Z) (s : console) : console * bool :=
  let s := s ⟪ state := 0 ⟫ in
  if c =? ch "[" then (s ⟪ state := 2 ⟫, false)
  else if c =? ch "E" then (gotoxy 0 (u32 (y s + 1)) s, false)
  else if c =? ch "M" then (ri s, false)
  else if c =? ch "D" then (lf s, false)
  else if c =? ch "Z" then (s, true)
  else if x s =? ch "7" then (save_cur s, false)
  else if x s =? ch "8" then (restore_cur s, false)
  else (s, false).

Definition get_par (i : Z) (s : console) : Z := default 0 (array_get (par s) i).
Definition set_par (i v : Z) (s : console) : console := s ⟪ par := array_set (par s) i (u32 v) ⟫.
(** [if (!par[i]) par[i]++;] and [if (par[i]) par[i]--;] *)
Definition at_least_one (i : Z) (s : console) : console :=
  if truth (get_par i s) then s else set_par i (get_par i s + 1) s.
Definition from_zero (i : Z) (s : console) : console :=
  if truth (get_par i s) then set_par i (get_par i s - 1) s else s.

(** State 4: the final character of a control sequence. *)
Definition con_final (c : Z) (s : console) : console :=
  let s := s ⟪ state := 0 ⟫ in
  if (c =? ch "G") || (c =? ch "`") then
    let s := from_zero 0 s in gotoxy (get_par 0 s) (y s) s
  else if c =? ch "A" then
    let s := at_least_one 0 s in gotoxy (x s) (u32 (y s - get_par 0 s)) s
  else if (c =? ch "B") || (c =? ch "e") then
    let s := at_least_one 0 s in gotoxy (x s) (u32 (y s + get_par 0 s)) s
  else if (c =? ch "C") || (c =? ch "a") then
    let s := at_least_one 0 s in gotoxy (u32 (x s + get_par 0 s)) (y s) s
  else if c =? ch "D" then
    let s := at_least_one 0 s in gotoxy (u32 (x s - get_par 0 s)) (y s) s
  else if c =? ch "E" then
    let s := at_least_one 0 s in gotoxy 0 (u32 (y s + get_par 0 s)) s
  else if c =? ch "F" then
    let s := at_least_one 0 s in gotoxy 0 (u32 (y s - get_par 0 s)) s
  else if c =? ch "d" then
    let s := from_zero 0 s in gotoxy (x s) (get_par 0 s) s
  else if (c =? ch "H") || (c =? ch "f") then
    let s := from_zero 1 (from_zero 0 s) in gotoxy (get_par 1 s) (get_par 0 s) s
  else if c =? ch "J" then csi_J (s32 (get_par 0 s)) s
  else if c =? ch "K" then csi_K (s32 (get_par 0 s)) s
  else if c =? ch "L" then csi_L (get_par 0 s) s
  else if c =? ch "M" then csi_M (get_par 0 s) s
  else if c =? ch "P" then csi_P (get_par 0 s) s
  else if c =? ch "@" then csi_at (get_par 0 s) s
  else if c =? ch "m" then csi_m s
  else if c =? ch "r" then
    let s := from_zero 0 s in
    let s := if truth (get_par 1 s) then s else set_par 1 (video_num_lines s) s in
    if (get_par 0 s <? get_par 1 s) && (get_par 1 s <=? video_num_lines s) then
      s ⟪ top := get_par 0 s ⟫ ⟪ bottom := get_par 1 s ⟫
    else s
  else if c =? ch "s" then save_cur s
  else if c =? ch "u" then restore_cur s
  else s.

(** State 3: the parameters; any other character is the final one. *)
Definition con_params (c : Z) (s : console) : console :=
  if (c =? ch ";") && (npar s <? NPAR - 1) then s ⟪ npar := npar s + 1 ⟫
  else if (ch "0" <=? c) && (c <=? ch "9") then
    set_par (npar s) (10 * get_par (npar s) s + c - ch "0") s
  else con_final c (s ⟪ state := 4 ⟫).

(** State 2, after ESC [: the parameters are cleared. *)
Definition con_csi (c : Z) (s : console) : console :=
  let s := s ⟪ par := replicate 16 0 ⟫ ⟪ npar := 0 ⟫ ⟪ state := 3 ⟫
             ⟪ ques := cbool (c =? ch "?") ⟫ in
  if truth (ques s) then s else con_params c s.

(** The body of the loop of [con_write], for the character [c]. *)
Definition con_char {D : Device} (erase_char c : Z) (s : console) : console * bool :=
  if state s =? 0 then (con_plain erase_char c s, false)
  else if state s =? 1 then con_escape c s
  else if state s =? 2 then (con_csi c s, false)
  else if state s =? 3 then (con_params c s, false)
  else if state s =? 4 then (con_final c s, false)
  else (s, false).

(** What [setup.s] left at address [0x90000]. *)
Record setup_data : Type := SetupData {
  ORIG_X : Z; ORIG_Y : Z; ORIG_VIDEO_PAGE : Z; ORIG_VIDEO_WORD : Z; ORIG_VIDEO_EGA_BX : Z
}.
Definition ORIG_VIDEO_MODE (d : setup_data) : Z := Z.land (ORIG_VIDEO_WORD d) 0xff.
Definition ORIG_VIDEO_COLS (d : setup_data) : Z :=
  Z.shiftr (Z.land (ORIG_VIDEO_WORD d) 0xff00) 8.
Definition ORIG_VIDEO_LINES : Z := 25.

(** The driver's statics before [con_init]. *)
Definition console0 : console :=
  Console 0 0 0 0 0 0 0 0 0 0 0 0 0 0 0 0 0 0 0 (replicate 16 0) 0 0x07 0 0 0 ∅ [].

(** A byte is stored in the low half of a word of video memory. *)
Definition set_low (a c : Z) (m : gmap Z Z) : gmap Z Z :=
  set_word a (Z.lor (Z.land (word m a) 0xff00) (u8 c)) m.
Fixpoint put_desc (desc : list Z) (a : Z) (m : gmap Z Z) : gmap Z Z :=
  match desc with
  | [] => m
  | c :: desc => put_desc desc (a + 2) (set_low a c m)
  end.

(** The display that the mode and the EGA word tell: [video_type],
    [video_mem_start], [video_mem_end], the two port registers and
    [display_desc]. *)
Record card : Type := Card {
  card_type : Z; card_start : Z; card_end : Z; card_reg : Z; card_val : Z; card_desc : list Z
}.
Definition video_card (d : setup_data) : card :=
  let ega := negb (Z.land (ORIG_VIDEO_EGA_BX d) 0xff =? 0x10) in
  if ORIG_VIDEO_MODE d =? 7 then
    if ega then Card VIDEO_TYPE_EGAM 0xb0000 0xb8000 0x3b4 0x3b5 [ch "E"; ch "G"; ch "A"; ch "m"]
    else Card VIDEO_TYPE_MDA 0xb0000 0xb2000 0x3b4 0x3b5 [ch "*"; ch "M"; ch "D"; ch "A"]
  else
    if ega then Card VIDEO_TYPE_EGAC 0xb8000 0xbc000 0x3d4 0x3d5 [ch "E"; ch "G"; ch "A"; ch "c"]
    else Card VIDEO_TYPE_CGA 0xb8000 0xba000 0x3d4 0x3d5 [ch "*"; ch "C"; ch "G"; ch "A"].

Definition con_screen (d : setup_data) (s : console) : console :=
  let cols := ORIG_VIDEO_COLS d in
  let v := video_card d in
  Console (card_type v) cols (cols * 2) ORIG_VIDEO_LINES (u8 (ORIG_VIDEO_PAGE d))
    (card_start v) (card_end v) (card_reg v) (card_val v) 0x0720
    (card_start v) (u32 (card_start v + ORIG_VIDEO_LINES * (cols * 2)))
    (pos s) (x s) (y s) 0 ORIG_VIDEO_LINES
    (state s) (npar s) (par s) (ques s) (attr s) (saved_x s) (saved_y s) (beepcount s)
    (put_desc (card_desc v) (card_start v + cols * 2 - 8) (vram s)) (io s).

Definition con_init {D : Device} (d : setup_data) (s : console) : console :=
  let s := gotoxy (ORIG_X d) (ORIG_Y d) (con_screen d s) in
  let '(v, s) := inb_p 0x21 s in
  let s := outb_p (Z.land v 0xfd) 0x21 s in
  let '(a, s) := inb_p 0x61 s in
  let s := outb_p (Z.lor a 0x80) 0x61 s in
  outb a 0x61 s.

(** ** The display invariant

    The cursor is on the screen (or just past the end of a line), the screen
    lies inside the display's memory, [pos] is the address of the cursor, and
    the scrolling region is a non-empty range of lines. *)
Record con_ok (s : console) : Prop := {
  ok_cols : 8 <= video_num_columns s <= 255;
  ok_row : video_size_row s = 2 * video_num_columns s;
  ok_lines : 0 < video_num_lines s <= 255;
  ok_start : 0 <= video_mem_start s <= origin s;
  ok_scr : scr_end s = origin s + video_num_lines s * video_size_row s;
  ok_end : scr_end s <= video_mem_end s <= 2 ^ 24;
  ok_x : 0 <= x s <= video_num_columns s;
  ok_y : 0 <= y s < video_num_lines s;
  ok_region : 0 <= top s /\ top s < bottom s /\ bottom s <= video_num_lines s;
  ok_pos : pos s = origin s + y s * video_size_row s + 2 * x s;
  ok_npar : 0 <= npar s < NPAR;
  ok_par : length (par s) = 16%nat;
  ok_pars : Forall (fun p => 0 <= p < 2 ^ 32) (par s)
}.

(** Only the words that lie in [lo .. hi) may differ. *)
Definition only (lo hi : Z) (m m' : gmap Z Z) : Prop :=
  forall a, ~ (lo <= a /\ a + 2 <= hi) -> m' !! a = m !! a.

(** What every routine of the driver does to a good state. *)
Record keeps (s s' : console) : Prop := {
  keeps_ok : con_ok s';
  keeps_start : video_mem_start s' = video_mem_start s;
  keeps_end : video_mem_end s' = video_mem_end s;
  keeps_lines : video_num_lines s' = video_num_lines s;
  keeps_vram : only (video_mem_start s) (video_mem_end s) (vram s) (vram s')
}.

(** Nested updates are evaluated from the inside, so that they do not
    multiply. *)
Ltac fields := cbv beta zeta iota delta [
  set_field video_type video_num_columns video_size_row video_num_lines
  video_page video_mem_start video_mem_end video_port_reg video_port_val video_erase_char
  origin scr_end pos x y top bottom state npar par ques attr saved_x saved_y beepcount vram io].

Section display.
Implicit Types s : console.

Lemma only_refl lo hi m : only lo hi m m.
Proof. by intros a _. Qed.
Lemma only_trans lo hi m1 m2 m3 : only lo hi m1 m2 -> only lo hi m2 m3 -> only lo hi m1 m3.
Proof. intros H1 H2 a Ha. by rewrite H2, H1. Qed.
Lemma only_set_word lo hi a v m : lo <= a /\ a + 2 <= hi -> only lo hi m (set_word a v m).
Proof. intros Ha b Hb. unfold set_word. apply lookup_insert_ne. intros <-. tauto. Qed.
Lemma only_movsl lo hi n dir di si m :
  (forall k, 0 <= k < Z.of_nat n -> lo <= di + 4 * dir * k /\ di + 4 * dir * k + 4 <= hi) ->
  only lo hi m (rep_movsl n dir di si m).
Proof.
  revert di si m. induction n as [|n IH]; intros di si m Hk; [apply only_refl|]; simpl.
  pose proof (Hk 0 ltac:(lia)).
  eapply only_trans; [|apply IH; intros k Hk'; specialize (Hk (k + 1) ltac:(lia)); lia].
  eapply only_trans; apply only_set_word; lia.
Qed.
Lemma only_stosw lo hi n dir di v m :
  (forall k, 0 <= k < Z.of_nat n -> lo <= di + 2 * dir * k /\ di + 2 * dir * k + 2 <= hi) ->
  only lo hi m (rep_stosw n dir di v m).
Proof.
  revert di m. induction n as [|n IH]; intros di m Hk; [apply only_refl|]; simpl.
  pose proof (Hk 0 ltac:(lia)).
  eapply only_trans; [|apply IH; intros k Hk'; specialize (Hk (k + 1) ltac:(lia)); lia].
  apply only_set_word; lia.
Qed.
(** Rows moved by [n] double words, then [c] words blanked. *)
Lemma only_scroll lo hi n c dir di si v m :
  (dir = 1 /\ lo <= di /\ di + 4 * Z.max 0 n + 2 * Z.max 0 c <= hi) \/
  (dir = -1 /\ lo <= di - 4 * Z.max 0 n - 2 * Z.max 0 c + 4 /\ di + 4 <= hi) ->
  only lo hi m (rep_stosw (Z.to_nat c) dir
    (if dir =? 1 then di + 4 * Z.of_nat (Z.to_nat n) else di - 4 * Z.of_nat (Z.to_nat n) + 2) v
    (rep_movsl (Z.to_nat n) dir di si m)).
Proof.
  intros H. apply (only_trans _ _ _ (rep_movsl (Z.to_nat n) dir di si m)).
  - apply only_movsl. intros k Hk. destruct H as [(->&?&?)|(->&?&?)]; lia.
  - apply only_stosw. intros k Hk. destruct H as [(->&?&?)|(->&?&?)]; simpl; lia.
Qed.
Lemma only_shift_right lo hi n p old m :
  lo <= p -> p + 2 * Z.of_nat n <= hi -> only lo hi m (shift_right n p old m).
Proof.
  revert p old m. induction n as [|n IH]; intros p old m Hlo Hhi; [apply only_refl|]; simpl.
  eapply only_trans; [|apply IH; lia]. apply only_set_word; lia.
Qed.
Lemma only_shift_left lo hi n p e m :
  lo <= p -> p + 2 * Z.of_nat n + 2 <= hi -> only lo hi m (shift_left n p e m).
Proof.
  revert p m. induction n as [|n IH]; intros p m Hlo Hhi; simpl.
  - apply only_set_word; lia.
  - eapply only_trans; [|apply IH; lia]. apply only_set_word; lia.
Qed.

Lemma keeps_trans s1 s2 s3 : keeps s1 s2 -> keeps s2 s3 -> keeps s1 s3.
Proof.
  intros [? Hs He Hl Hv] [? Hs' He' Hl' Hv']. rewrite Hs, He in Hv'. split; [done|congruence..|].
  by eapply only_trans.
Qed.
Lemma keeps_refl s : con_ok s -> keeps s s.
Proof. intros. split; [done..|]. apply only_refl. Qed.

(** The rows of the screen, as linear facts: the region's rows and the
    cursor's row lie between the first and the last. *)
Lemma rows s :
  con_ok s ->
  16 <= video_size_row s <= 510 /\
  video_size_row s <= video_num_lines s * video_size_row s <= 255 * 510 /\
  0 <= y s * video_size_row s /\
  y s * video_size_row s + video_size_row s <= video_num_lines s * video_size_row s /\
  0 <= top s * video_size_row s /\
  top s * video_size_row s + video_size_row s <= bottom s * video_size_row s /\
  bottom s * video_size_row s <= video_num_lines s * video_size_row s.
Proof. intros []. repeat split; nia. Qed.

End display.

(** The facts of a good state, with its fields as variables. *)
Ltac open_state s Hok :=
  let Hr := fresh "Hr" in pose proof (rows s Hok) as Hr;
  destruct s as [vt cols row lines pg ms me rg rv ec og se ps cx cy tp bt st np pr qu at' sx sy bc vr lg];
  destruct (Hok); simpl in *.

Section routines.
Implicit Types s : console.

Lemma keeps_vram_only s m :
  con_ok s -> only (video_mem_start s) (video_mem_end s) (vram s) m -> keeps s (s ⟪ vram := m ⟫).
Proof. intros [] ?. split; [by split|done..]. Qed.

(** The cursor moves inside the screen. *)
Lemma keeps_cursor s nx ny :
  con_ok s -> 0 <= nx <= video_num_columns s -> 0 <= ny < video_num_lines s ->
  keeps s (s ⟪ x := nx ⟫ ⟪ y := ny ⟫
             ⟪ pos := origin s + ny * video_size_row s + 2 * nx ⟫).
Proof. intros [] ??. split; [by split|done..|apply only_refl]. Qed.

Lemma gotoxy_keeps s nx ny : con_ok s -> 0 <= nx -> 0 <= ny -> keeps s (gotoxy nx ny s).
Proof.
  intros Hok ??. unfold gotoxy.
  destruct (Z.ltb_spec (video_num_columns s) nx); [by apply keeps_refl|].
  destruct (Z.leb_spec (video_num_lines s) ny); [by apply keeps_refl|]. cbn.
  pose proof (rows s Hok). destruct (Hok). rewrite u32_small by nia. by apply keeps_cursor.
Qed.

Lemma scroll_up_keeps s : con_ok s -> keeps s (scroll_up s).
Proof.
  intros Hok. pose proof (rows s Hok) as Hr. destruct (Hok).
  unfold scroll_up. cbv zeta. apply keeps_vram_only; [done|].
  set (n := u32 _ / 2).
  assert (0 <= 4 * n <= bottom s * video_size_row s - top s * video_size_row s - video_size_row s).
  { subst n. rewrite u32_small by nia. rewrite ok_row0. split; [|].
    - apply Z.mul_nonneg_nonneg; [lia|]. apply Z.div_pos; nia.
    - pose proof (Z.mul_div_le ((bottom s - top s - 1) * video_num_columns s) 2). nia. }
  apply (only_scroll _ _ n _ 1). left. lia.
Qed.

Lemma half_bound a : 0 <= a < 2 ^ 32 -> 0 <= 2 * (u32 a / 2) <= a.
Proof.
  intros. rewrite u32_small by lia. pose proof (Z.mul_div_le a 2).
  pose proof (Z.div_pos a 2). lia.
Qed.
Lemma keeps_io s l : con_ok s -> keeps s (s ⟪ io := l ⟫).
Proof. intros []. split; [by split|done..|apply only_refl]. Qed.
Lemma outb_keeps v p s s' : keeps s s' -> keeps s (outb v p s').
Proof. intros Hk. eapply keeps_trans; [exact Hk|]. apply keeps_io, Hk. Qed.
Lemma inb_keeps {D : Device} p s s' v s'' : keeps s s' -> inb p s' = (v, s'') -> keeps s s''.
Proof. intros Hk [= _ <-]. eapply keeps_trans; [exact Hk|]. apply keeps_io, Hk. Qed.
Lemma set_origin_keeps s : con_ok s -> keeps s (set_origin s).
Proof. intros. by do 4 apply outb_keeps; apply keeps_refl. Qed.
Lemma set_cursor_keeps s : con_ok s -> keeps s (set_cursor s).
Proof. intros. by do 4 apply outb_keeps; apply keeps_refl. Qed.

(** The hardware scroll: the screen moves down by one line in the display's
    memory, or back to its start. *)
Lemma keeps_origin s o m :
  con_ok s -> video_mem_start s <= o ->
  o + video_num_lines s * video_size_row s <= video_mem_end s ->
  only (video_mem_start s) (video_mem_end s) (vram s) m ->
  keeps s (s ⟪ origin := o ⟫ ⟪ pos := o + y s * video_size_row s + 2 * x s ⟫
             ⟪ scr_end := o + video_num_lines s * video_size_row s ⟫ ⟪ vram := m ⟫).
Proof.
  intros [] ???. split; [split; simpl; try done; lia|done..].
Qed.

Lemma scrup_keeps s : con_ok s -> keeps s (scrup s).
Proof.
  intros Hok. unfold scrup.
  destruct (is_ega s); [|by apply scroll_up_keeps].
  destruct (_ && _); [|by apply scroll_up_keeps].
  assert (Ho : forall o m s',
    video_mem_start s <= o ->
    o + video_num_lines s * video_size_row s <= video_mem_end s ->
    only (video_mem_start s) (video_mem_end s) (vram s) m ->
    s' = s ⟪ origin := o ⟫ ⟪ pos := o + y s * video_size_row s + 2 * x s ⟫
           ⟪ scr_end := o + video_num_lines s * video_size_row s ⟫ ⟪ vram := m ⟫ ->
    keeps s (set_origin s')).
  { intros o m s' ??? ->. eapply keeps_trans; [by apply (keeps_origin s o m)|].
    apply set_origin_keeps. by apply keeps_origin. }
  pose proof (half_bound ((video_num_lines s - 1) * video_num_columns s)
    ltac:(destruct (Hok); nia)) as Hn.
  open_state s Hok. fields. revert Ho. fields. intros Ho.
  set (n := u32 _ / 2) in *.
  rewrite !(u32_small (_ + _)) by lia.
  destruct (Z.ltb_spec me (se + row)).
  - eapply (Ho ms); [lia..| |f_equal; rewrite u32_small; lia].
    apply (only_scroll _ _ _ _ 1). left. lia.
  - eapply (Ho (og + row)); [lia..| |f_equal; lia].
    apply only_stosw. intros k Hk. rewrite Z2Nat.id in Hk by lia. lia.
Qed.

Lemma scrdown_keeps s : con_ok s -> keeps s (scrdown s).
Proof.
  intros Hok. pose proof (rows s Hok) as Hr. destruct (Hok).
  unfold scrdown. cbv zeta. apply keeps_vram_only; [done|].
  pose proof (half_bound ((bottom s - top s - 1) * video_num_columns s) ltac:(nia)).
  apply (only_scroll _ _ _ _ (-1)). right. lia.
Qed.

(** Cursor movements written as increments of [x], [y] and [pos]. *)
Lemma keeps_cursor_to s s' nx ny :
  con_ok s -> 0 <= nx <= video_num_columns s -> 0 <= ny < video_num_lines s ->
  s' = s ⟪ x := nx ⟫ ⟪ y := ny ⟫ ⟪ pos := origin s + ny * video_size_row s + 2 * nx ⟫ ->
  keeps s s'.
Proof. intros ??? ->. by apply keeps_cursor. Qed.

Lemma lf_keeps s : con_ok s -> keeps s (lf s).
Proof.
  intros Hok. pose proof (rows s Hok). destruct (Hok). unfold lf.
  rewrite (u32_small (y s + 1)) by lia.
  destruct (Z.ltb_spec (y s + 1) (bottom s)); [|by apply scrup_keeps].
  apply (keeps_cursor_to s _ (x s) (y s + 1)); [done|lia..|].
  cbn. rewrite u32_small by lia. destruct s; cbn in *. f_equal; lia.
Qed.
Lemma ri_keeps s : con_ok s -> keeps s (ri s).
Proof.
  intros Hok. pose proof (rows s Hok). destruct (Hok). unfold ri.
  destruct (Z.ltb_spec (top s) (y s)); [|by apply scrdown_keeps].
  apply (keeps_cursor_to s _ (x s) (y s - 1)); [done|lia..|].
  pose proof (Z.mul_le_mono_nonneg_r 1 (y s) (video_size_row s)).
  cbn. rewrite !u32_small by lia. destruct s; cbn in *. f_equal; lia.
Qed.
Lemma cr_keeps s : con_ok s -> keeps s (cr s).
Proof.
  intros Hok. pose proof (rows s Hok). destruct (Hok). unfold cr.
  apply (keeps_cursor_to s _ 0 (y s)); [done|lia..|].
  cbn. rewrite !u32_small by lia. destruct s; cbn in *. f_equal; lia.
Qed.
Lemma back_keeps s :
  con_ok s -> x s <> 0 -> keeps s (s ⟪ x := u32 (x s - 1) ⟫ ⟪ pos := u32 (pos s - 2) ⟫).
Proof.
  intros Hok Hx. pose proof (rows s Hok). destruct (Hok).
  apply (keeps_cursor_to s _ (x s - 1) (y s)); [done|lia..|].
  cbn. rewrite !u32_small by lia. destruct s; cbn in *. f_equal; lia.
Qed.
(** A word under the cursor, inside the line. *)
Lemma put_keeps s v :
  con_ok s -> x s < video_num_columns s -> keeps s (s ⟪ vram := set_word (pos s) v (vram s) ⟫).
Proof.
  intros Hok Hx. pose proof (rows s Hok). destruct (Hok).
  apply keeps_vram_only; [done|]. apply only_set_word. lia.
Qed.
Lemma del_keeps s : con_ok s -> keeps s (del s).
Proof.
  intros Hok. unfold del. destruct (truth (x s)) eqn:Hx; [|by apply keeps_refl].
  apply truth_true in Hx. pose proof (back_keeps s Hok Hx) as Hk.
  eapply keeps_trans; [exact Hk|]. destruct Hk as [Hok' _ _ _ _].
  refine (put_keeps _ (video_erase_char s) Hok' _). destruct (Hok). cbn.
  rewrite u32_small by lia. lia.
Qed.

(** Changes of state that the screen does not depend on. *)
Lemma keeps_state s n : con_ok s -> keeps s (s ⟪ state := n ⟫).
Proof. intros []. split; [by split|done..|apply only_refl]. Qed.
Lemma keeps_attr s n : con_ok s -> keeps s (s ⟪ attr := n ⟫).
Proof. intros []. split; [by split|done..|apply only_refl]. Qed.
Lemma keeps_region s t b :
  con_ok s -> 0 <= t /\ t < b /\ b <= video_num_lines s -> keeps s (s ⟪ top := t ⟫ ⟪ bottom := b ⟫).
Proof. intros [] ?. split; [by split|done..|apply only_refl]. Qed.
Lemma keeps_saved s a b : con_ok s -> keeps s (s ⟪ saved_x := a ⟫ ⟪ saved_y := b ⟫).
Proof. intros []. split; [by split|done..|apply only_refl]. Qed.
Lemma keeps_beep s n : con_ok s -> keeps s (s ⟪ beepcount := n ⟫).
Proof. intros []. split; [by split|done..|apply only_refl]. Qed.
Lemma keeps_params s l n q :
  con_ok s -> length l = 16%nat -> Forall (fun p => 0 <= p < 2 ^ 32) l -> 0 <= n < NPAR ->
  keeps s (s ⟪ par := l ⟫ ⟪ npar := n ⟫ ⟪ ques := q ⟫).
Proof. intros [] ???. split; [by split|done..|apply only_refl]. Qed.

Lemma erase_keeps s n a :
  con_ok s -> 0 <= n -> video_mem_start s <= a -> a + 2 * n <= video_mem_end s ->
  keeps s (erase n a s).
Proof.
  intros Hok Hn Ha Hb. apply keeps_vram_only; [done|].
  apply only_stosw. intros k Hk. pose proof (u32_bound n). destruct (Hok).
  rewrite Z2Nat.id, u32_small in Hk by lia. lia.
Qed.
Lemma csi_J_keeps s n : con_ok s -> keeps s (csi_J n s).
Proof.
  intros Hok. pose proof (rows s Hok). destruct (Hok).
  pose proof (half_bound (scr_end s - pos s)). pose proof (half_bound (pos s - origin s)).
  unfold csi_J. repeat case_match; [apply erase_keeps..|by apply keeps_refl]; try done; lia.
Qed.
Lemma csi_K_keeps s n : con_ok s -> keeps s (csi_K n s).
Proof.
  intros Hok. pose proof (rows s Hok). destruct (Hok).
  unfold csi_K. rewrite !(u32_small (pos s - _)) by lia.
  repeat case_match; try (by apply keeps_refl); apply erase_keeps; try done; lia.
Qed.
Lemma csi_m_keeps s : con_ok s -> keeps s (csi_m s).
Proof.
  unfold csi_m. generalize (take (Z.to_nat (npar s + 1)) (par s)). intros l. revert s.
  induction l as [|p l IH]; intros s Hok; [by apply keeps_refl|]; simpl.
  eapply keeps_trans; [|apply IH]; unfold set_attr;
    repeat case_match; try (by apply keeps_attr); by apply keeps_refl.
Qed.
Lemma insert_char_keeps s : con_ok s -> keeps s (insert_char s).
Proof.
  intros Hok. pose proof (rows s Hok). destruct (Hok).
  apply keeps_vram_only; [done|]. apply only_shift_right; lia.
Qed.
Lemma delete_char_keeps s : con_ok s -> keeps s (delete_char s).
Proof.
  intros Hok. pose proof (rows s Hok). destruct (Hok). unfold delete_char.
  destruct (Z.leb_spec (video_num_columns s) (x s)); [by apply keeps_refl|].
  apply keeps_vram_only; [done|]. apply only_shift_left; lia.
Qed.
(** A scroll of the region from the cursor's line to the last line. *)
Lemma region_keeps (f : console -> console) s :
  con_ok s -> (forall s, con_ok s -> keeps s (f s)) ->
  keeps s ((f (s ⟪ top := y s ⟫ ⟪ bottom := video_num_lines s ⟫))
             ⟪ top := top s ⟫ ⟪ bottom := bottom s ⟫).
Proof.
  intros Hok Hf. destruct (Hok).
  pose proof (keeps_region s (y s) (video_num_lines s) Hok ltac:(lia)) as H1.
  pose proof (Hf _ (keeps_ok _ _ H1)) as H2. pose proof (keeps_trans _ _ _ H1 H2) as H3.
  eapply keeps_trans; [exact H3|]. apply keeps_region; [apply H2|].
  rewrite (keeps_lines _ _ H3). lia.
Qed.
Lemma iter_keeps n (f : console -> console) s :
  con_ok s -> (forall s, con_ok s -> keeps s (f s)) -> keeps s (Nat.iter n f s).
Proof.
  intros Hok Hf. induction n as [|n IH]; [by apply keeps_refl|].
  eapply keeps_trans; [exact IH|]. apply Hf, IH.
Qed.
End routines.

Create HintDb console discriminated.
#[export] Hint Resolve keeps_refl gotoxy_keeps lf_keeps ri_keeps cr_keeps del_keeps csi_J_keeps
  csi_K_keeps csi_m_keeps insert_char_keeps delete_char_keeps scrup_keeps scrdown_keeps
  keeps_state keeps_attr keeps_saved outb_keeps back_keeps keeps_ok region_keeps iter_keeps : console.

Section automaton.
Context {D : Device}.
Implicit Types s : console.

Lemma insert_line_keeps s : con_ok s -> keeps s (insert_line s).
Proof. intros Hok. exact (region_keeps scrdown s Hok scrdown_keeps). Qed.
Lemma delete_line_keeps s : con_ok s -> keeps s (delete_line s).
Proof. intros Hok. exact (region_keeps scrup s Hok scrup_keeps). Qed.
Lemma sysbeep_keeps s : con_ok s -> keeps s (sysbeep s).
Proof.
  intros Hok. unfold sysbeep, inb_p. destruct (inb 0x61 s) as [v s1] eqn:H1.
  eapply keeps_trans; [|apply keeps_beep].
  all: assert (keeps s (outb 0x06 0x42 (outb_p 0x37 0x42 (outb_p 0xB6 0x43
    (outb_p (Z.lor v 3) 0x61 s1))))) as Hk; [|exact Hk || apply Hk].
  all: do 4 apply outb_keeps; eapply inb_keeps; [by apply keeps_refl|exact H1].
Qed.

Lemma x_scrup s : x (scrup s) = x s.
Proof.
  unfold scrup. destruct (is_ega s); [|done]. destruct (_ && _); [|done].
  cbv zeta. by destruct (_ <? _).
Qed.
Lemma x_lf s : x (lf s) = x s.
Proof. unfold lf. destruct (u32 (y s + 1) <? bottom s); [done|apply x_scrup]. Qed.

(** The cursor at a column past the end of the line (as far as a tab can
    take it): it goes to the next line. *)
Lemma wrap_keeps s s0 nx :
  con_ok s -> video_num_columns s <= nx <= video_num_columns s + 8 ->
  s0 = s ⟪ x := nx ⟫ ⟪ pos := pos s + 2 * (nx - x s) ⟫ ->
  keeps s (wrap s0) /\ x (wrap s0) = nx - video_num_columns s.
Proof.
  intros Hok ? ->. unfold wrap. cbv zeta. rewrite x_lf.
  match goal with |- keeps s (lf ?s1) /\ _ => assert (keeps s s1) as Hk end.
  { apply (keeps_cursor_to s _ (nx - video_num_columns s) (y s)); [done|destruct (Hok); lia..|].
    open_state s Hok. fields. rewrite !u32_small by lia. f_equal; lia. }
  split; [eapply keeps_trans; [exact Hk|]; apply lf_keeps, Hk|].
  open_state s Hok. by rewrite u32_small by lia.
Qed.

Lemma con_put_keeps c s : con_ok s -> keeps s (con_put c s).
Proof.
  intros Hok. unfold con_put. cbv zeta. set (s1 := if video_num_columns s <=? x s then wrap s else s).
  assert (Hk : keeps s s1 /\ x s1 < video_num_columns s1).
  { pose proof (wrap_keeps s s (x s) Hok) as Hw. subst s1. destruct (Hok).
    destruct (Z.leb_spec (video_num_columns s) (x s)).
    - destruct Hw as [Hw Hx]; [lia|destruct s; cbn in *; f_equal; lia|].
      split; [done|]. rewrite Hx. destruct Hw as [[]]. lia.
    - split; [by apply keeps_refl|lia]. }
  destruct Hk as [Hk Hx]. set (s2 := s1 ⟪ vram := _ ⟫).
  assert (keeps s s2) as Hk2.
  { eapply keeps_trans; [exact Hk|]. apply put_keeps; [apply Hk|done]. }
  eapply keeps_trans; [exact Hk2|]. destruct Hk2 as [Hok2 _ _ _ _].
  pose proof (rows s2 Hok2). destruct (Hok2).
  apply (keeps_cursor_to s2 _ (x s2 + 1) (y s2)); [done| |lia|].
  { change (x s2) with (x s1) in *. change (video_num_columns s2) with (video_num_columns s1) in *. lia. }
  clearbody s2.
  cbn. rewrite !u32_small by lia. destruct s2; cbn in *. f_equal; lia.
Qed.

Lemma con_tab_keeps s : con_ok s -> keeps s (con_tab s).
Proof.
  intros Hok. pose proof (land_bound (x s) 7 ltac:(lia)).
  unfold con_tab. cbv zeta. set (c := 8 - _). assert (Hc : 1 <= c <= 8) by lia.
  clearbody c.
  assert (s ⟪ x := u32 (x s + c) ⟫ ⟪ pos := u32 (pos s + 2 * c) ⟫ =
          s ⟪ x := x s + c ⟫ ⟪ pos := pos s + 2 * (x s + c - x s) ⟫) as ->.
  { open_state s Hok. rewrite !u32_small by lia. f_equal; lia. }
  destruct (Z.ltb_spec (video_num_columns s) (x s + c)) as [Hlt|Hle]; cycle 1.
  - rewrite (proj2 (Z.ltb_ge _ _)) by exact Hle.
    apply (keeps_cursor_to s _ (x s + c) (y s)); [done|destruct (Hok); lia..|].
    open_state s Hok. f_equal; lia.
  - rewrite (proj2 (Z.ltb_lt _ _)) by exact Hlt.
    apply (wrap_keeps s _ (x s + c)); [done|destruct (Hok); lia|done].
Qed.

Lemma con_plain_keeps e c s : con_ok s -> keeps s (con_plain e c s).
Proof.
  intros Hok. unfold con_plain.
  destruct (_ && _); [by apply con_put_keeps|].
  destruct (c =? 27); [auto with console|].
  destruct (_ || _); [auto with console|].
  destruct (c =? 13); [auto with console|].
  destruct (c =? e); [auto with console|].
  destruct (c =? 8).
  { destruct (truth (x s)) eqn:Hx; [|auto with console].
    apply back_keeps; [done|]. by apply truth_true. }
  destruct (c =? 9); [by apply con_tab_keeps|].
  destruct (c =? 7); [by apply sysbeep_keeps|auto with console].
Qed.

Lemma get_par_bound s i : con_ok s -> 0 <= get_par i s < 2 ^ 32.
Proof.
  intros [? ? ? ? ? ? ? ? ? ? ? ? Hp]. unfold get_par, array_get.
  destruct (0 <=? i); simpl; [|lia].
  destruct (par s !! Z.to_nat i) eqn:Hl; simpl; [|lia].
  by eapply Forall_lookup_1 in Hp.
Qed.
Lemma set_par_keeps s i v : con_ok s -> keeps s (set_par i v s).
Proof.
  intros Hok. unfold set_par.
  assert (s ⟪ par := array_set (par s) i (u32 v) ⟫ =
    s ⟪ par := array_set (par s) i (u32 v) ⟫ ⟪ npar := npar s ⟫ ⟪ ques := ques s ⟫) as ->
    by by destruct s.
  destruct (Hok). apply keeps_params; [done|by rewrite length_array_set| |done].
  unfold array_set. destruct (0 <=? i); [|done].
  apply Forall_insert; [done|]. pose proof (u32_bound v). lia.
Qed.
Lemma at_least_one_keeps s i : con_ok s -> keeps s (at_least_one i s).
Proof. intros. unfold at_least_one. destruct (truth _); [by apply keeps_refl|by apply set_par_keeps]. Qed.
Lemma from_zero_keeps s i : con_ok s -> keeps s (from_zero i s).
Proof. intros. unfold from_zero. destruct (truth _); [by apply set_par_keeps|by apply keeps_refl]. Qed.
Lemma save_cur_keeps s : con_ok s -> keeps s (save_cur s).
Proof. apply keeps_saved. Qed.
Lemma restore_cur_keeps s : con_ok s -> keeps s (restore_cur s).
Proof. intros. apply gotoxy_keeps; [done|apply u32_bound..]. Qed.

Lemma con_escape_keeps c s : con_ok s -> keeps s (con_escape c s).1.
Proof.
  intros Hok. pose proof (keeps_state s 0 Hok) as Hk. unfold con_escape. cbv zeta.
  set (s0 := s ⟪ state := 0 ⟫) in *. clearbody s0. pose proof (keeps_ok _ _ Hk) as Hok0.
  eapply keeps_trans; [exact Hk|]. clear Hk. destruct (Hok0).
  destruct (c =? ch "["); [by apply keeps_state|].
  destruct (c =? ch "E"); [apply gotoxy_keeps; [done|lia|apply u32_bound]|].
  destruct (c =? ch "M"); [by apply ri_keeps|].
  destruct (c =? ch "D"); [by apply lf_keeps|].
  destruct (c =? ch "Z"); [by apply keeps_refl|].
  destruct (_ =? ch "7"); [by apply save_cur_keeps|].
  destruct (_ =? ch "8"); [by apply restore_cur_keeps|by apply keeps_refl].
Qed.

(** A parameter is read after it was adjusted, and the cursor moved. *)
Lemma adjust_keeps (adj : console -> console) (f : console -> console) s :
  con_ok s -> keeps s (adj s) -> (forall s, con_ok s -> keeps s (f s)) -> keeps s (f (adj s)).
Proof. intros Hok Hadj Hf. eapply keeps_trans; [exact Hadj|]. apply Hf, Hadj. Qed.

Lemma goto_keeps (nx ny : console -> Z) :
  (forall s, con_ok s -> 0 <= nx s /\ 0 <= ny s) ->
  forall s, con_ok s -> keeps s (gotoxy (nx s) (ny s) s).
Proof. intros Hn s Hok. destruct (Hn s Hok). by apply gotoxy_keeps. Qed.

Lemma set_margins_keeps s :
  con_ok s ->
  keeps s (if (get_par 0 s <? get_par 1 s) && (get_par 1 s <=? video_num_lines s) then
             s ⟪ top := get_par 0 s ⟫ ⟪ bottom := get_par 1 s ⟫ else s).
Proof.
  intros Hok. pose proof (get_par_bound s 0 Hok).
  destruct (Z.ltb_spec (get_par 0 s) (get_par 1 s)); [|by apply keeps_refl].
  destruct (Z.leb_spec (get_par 1 s) (video_num_lines s)); [|by apply keeps_refl].
  apply keeps_region; [done|lia].
Qed.

Lemma con_final_keeps c s : con_ok s -> keeps s (con_final c s).
Proof.
  intros Hok. pose proof (keeps_state s 0 Hok) as Hk. unfold con_final. cbv zeta.
  set (s0 := s ⟪ state := 0 ⟫) in *. clearbody s0. pose proof (keeps_ok _ _ Hk) as Hok0.
  eapply keeps_trans; [exact Hk|]. clear Hk s Hok. rename s0 into s, Hok0 into Hok.
  pose proof (fun s i H => proj1 (get_par_bound s i H)) as Hp.
  pose proof (fun s H => proj1 (ok_x s H)) as Hx. pose proof (fun s H => proj1 (ok_y s H)) as Hy.
  pose proof (fun z => proj1 (u32_bound z)) as Hu.
  assert (Hgo : forall nx ny, (forall s, con_ok s -> 0 <= nx s /\ 0 <= ny s) ->
    keeps s (gotoxy (nx (at_least_one 0 s)) (ny (at_least_one 0 s)) (at_least_one 0 s)) /\
    keeps s (gotoxy (nx (from_zero 0 s)) (ny (from_zero 0 s)) (from_zero 0 s))).
  { intros nx ny Hn. split.
    - apply (adjust_keeps (at_least_one 0) (fun s => gotoxy (nx s) (ny s) s));
        [done|by apply at_least_one_keeps|by apply goto_keeps].
    - apply (adjust_keeps (from_zero 0) (fun s => gotoxy (nx s) (ny s) s));
        [done|by apply from_zero_keeps|by apply goto_keeps]. }
  destruct (_ || _); [apply (Hgo (get_par 0) y); by auto|].
  destruct (c =? ch "A"); [apply (Hgo x (fun s => u32 (y s - get_par 0 s))); by auto|].
  destruct (_ || _); [apply (Hgo x (fun s => u32 (y s + get_par 0 s))); by auto|].
  destruct (_ || _); [apply (Hgo (fun s => u32 (x s + get_par 0 s)) y); by auto|].
  destruct (c =? ch "D"); [apply (Hgo (fun s => u32 (x s - get_par 0 s)) y); by auto|].
  destruct (c =? ch "E"); [apply (Hgo (fun _ => 0) (fun s => u32 (y s + get_par 0 s))); by auto|].
  destruct (c =? ch "F"); [apply (Hgo (fun _ => 0) (fun s => u32 (y s - get_par 0 s))); by auto|].
  destruct (c =? ch "d"); [apply (Hgo x (get_par 0)); by auto|].
  destruct (_ || _).
  { apply (adjust_keeps (fun s => from_zero 1 (from_zero 0 s)) (fun s => gotoxy (get_par 1 s) (get_par 0 s) s));
      [done| |by apply goto_keeps; auto].
    apply (adjust_keeps (from_zero 0)); auto using from_zero_keeps. }
  destruct (c =? ch "J"); [by apply csi_J_keeps|].
  destruct (c =? ch "K"); [by apply csi_K_keeps|].
  destruct (c =? ch "L"); [apply iter_keeps; [done|apply insert_line_keeps]|].
  destruct (c =? ch "M"); [apply iter_keeps; [done|apply delete_line_keeps]|].
  destruct (c =? ch "P"); [apply iter_keeps; [done|apply delete_char_keeps]|].
  destruct (c =? ch "@"); [apply iter_keeps; [done|apply insert_char_keeps]|].
  destruct (c =? ch "m"); [by apply csi_m_keeps|].
  destruct (c =? ch "r").
  { eapply keeps_trans; [by apply from_zero_keeps|].
    pose proof (keeps_ok _ _ (from_zero_keeps s 0 Hok)) as Hok1.
    assert (keeps (from_zero 0 s) (if truth (get_par 1 (from_zero 0 s)) then from_zero 0 s
      else set_par 1 (video_num_lines (from_zero 0 s)) (from_zero 0 s))) as Hk.
    { destruct (truth _); [by apply keeps_refl|by apply set_par_keeps]. }
    eapply keeps_trans; [exact Hk|]. apply set_margins_keeps, Hk. }
  destruct (c =? ch "s"); [by apply save_cur_keeps|].
  destruct (c =? ch "u"); [by apply restore_cur_keeps|by apply keeps_refl].
Qed.

Lemma con_params_keeps c s : con_ok s -> keeps s (con_params c s).
Proof.
  intros Hok. unfold con_params.
  destruct ((c =? ch ";") && (npar s <? NPAR - 1)) eqn:Hc.
  { apply andb_prop in Hc as [_ Hc%Z.ltb_lt]. destruct (Hok).
    split; [|done..|apply only_refl]. split; simpl; try done. lia. }
  clear Hc. destruct (_ && _); [by apply set_par_keeps|].
  eapply keeps_trans; [by apply keeps_state|]. apply con_final_keeps. by apply keeps_state.
Qed.
Lemma con_csi_keeps c s : con_ok s -> keeps s (con_csi c s).
Proof.
  intros Hok. unfold con_csi. cbv zeta.
  match goal with |- keeps s (if _ then ?s1 else _) => assert (keeps s s1) as Hk end.
  { destruct (Hok). split; [|done..|apply only_refl].
    split; simpl; try done. by repeat constructor. }
  destruct (truth _); [done|]. eapply keeps_trans; [exact Hk|]. apply con_params_keeps, Hk.
Qed.

(** One character of output, in any state of the automaton, leaves the
    console in a good state and changes no word outside the display's
    memory. *)
Lemma con_char_keeps e c s : con_ok s -> keeps s (con_char e c s).1.
Proof.
  intros Hok. unfold con_char.
  destruct (state s =? 0); [by apply con_plain_keeps|].
  destruct (state s =? 1); [by apply con_escape_keeps|].
  destruct (state s =? 2); [by apply con_csi_keeps|].
  destruct (state s =? 3); [by apply con_params_keeps|].
  destruct (state s =? 4); [by apply con_final_keeps|by apply keeps_refl].
Qed.

Lemma put_desc_only lo hi l a m :
  lo <= a -> a + 2 * Z.of_nat (length l) <= hi -> only lo hi m (put_desc l a m).
Proof.
  revert a m. induction l as [|c l IH]; intros a m Hlo Hhi; simpl in *; [apply only_refl|].
  eapply only_trans; [|apply IH; lia]. apply only_set_word. lia.
Qed.
End automaton.

(** What the boot loader reports: at least 8 columns, a screen that fits
    the smallest display memory, and the cursor on the screen. *)
Definition setup_ok (d : setup_data) : Prop :=
  8 <= ORIG_VIDEO_COLS d <= 160 /\ 0 <= ORIG_X d <= ORIG_VIDEO_COLS d /\ 0 <= ORIG_Y d < 25.

(** Everything written while the console starts up and prints the
    characters of [l]. *)
Definition con_print {D : Device} (erase_char : Z) (l : list Z) (s : console) : console :=
  foldl (fun s c => (con_char erase_char c s).1) s l.

Lemma con_print_keeps {D : Device} e l s : con_ok s -> keeps s (con_print e l s).
Proof.
  revert s. induction l as [|c l IH]; intros s Hok; simpl; [by apply keeps_refl|].
  pose proof (con_char_keeps e c s Hok) as Hk. eapply keeps_trans; [exact Hk|]. apply IH, Hk.
Qed.

Lemma video_card_range d :
  0 <= card_start (video_card d) /\ card_end (video_card d) <= 2 ^ 24 /\
  card_start (video_card d) + 8192 <= card_end (video_card d) /\
  length (card_desc (video_card d)) = 4%nat.
Proof. unfold video_card. by destruct (_ =? 7), (negb _). Qed.

Lemma con_screen_ok d :
  setup_ok d ->
  let s := gotoxy (ORIG_X d) (ORIG_Y d) (con_screen d console0) in
  con_ok s /\ video_mem_start s = card_start (video_card d) /\
  video_mem_end s = card_end (video_card d) /\
  only (card_start (video_card d)) (card_end (video_card d)) ∅ (vram s).
Proof.
  intros (Hc & Hx & Hy). unfold gotoxy, con_screen.
  pose proof (video_card_range d) as (?&?&?&Hl). destruct (video_card d) as [vt ms me rg vl l].
  cbn [card_type card_start card_end card_reg card_val card_desc] in *.
  set (cols := ORIG_VIDEO_COLS d) in *. clearbody cols. fields. unfold ORIG_VIDEO_LINES.
  rewrite (proj2 (Z.ltb_ge _ _)), (proj2 (Z.leb_gt _ _)) by lia. simpl orb. cbv iota.
  rewrite !u32_small by nia. split_and!; [|done..|].
  - split; simpl; try done; try nia. by repeat constructor.
  - simpl. apply put_desc_only; rewrite ?Hl; lia.
Qed.

Lemma con_init_ok {D : Device} d :
  setup_ok d ->
  let s := con_init d console0 in
  con_ok s /\ video_mem_start s = card_start (video_card d) /\
  video_mem_end s = card_end (video_card d) /\
  only (card_start (video_card d)) (card_end (video_card d)) ∅ (vram s).
Proof.
  intros Hd s. destruct (con_screen_ok d Hd) as (Hok & <- & <- & Hv).
  assert (keeps (gotoxy (ORIG_X d) (ORIG_Y d) (con_screen d console0)) s) as [? ? ? ? ?].
  { subst s. unfold con_init, inb_p, outb_p. cbv zeta.
    destruct (inb 0x21 _) as [v s1] eqn:H1. destruct (inb 0x61 _) as [w s2] eqn:H2.
    do 2 apply outb_keeps. refine (inb_keeps _ _ _ _ _ _ H2). apply outb_keeps.
    refine (inb_keeps _ _ _ _ _ _ H1). by apply keeps_refl. }
  split; [done|]. split; [done|]. split; [done|]. by eapply only_trans.
Qed.

(** C29: From the boot on, whatever is printed on the console (control
    characters and escape sequences included, with any parameters) the
    driver's state stays good - the cursor on the screen, [pos] its
    address, the scrolling region a range of lines - and no word outside
    the display's memory is ever written. *)
Theorem console_stays_in_video_memory {D : Device} (d : setup_data) (erase_char : Z) (l : list Z) :
  setup_ok d ->
  let s := con_print erase_char l (con_init d console0) in
  con_ok s /\
  (forall a, ~ (card_start (video_card d) <= a /\ a + 2 <= card_end (video_card d)) ->
    vram s !! a = None).
Proof.
  intros Hd s. destruct (con_init_ok d Hd) as (Hok & Hs & He & Hv).
  pose proof (con_print_keeps erase_char l _ Hok) as [Hk _ _ _ Hw].
  split; [exact Hk|]. intros a Ha. rewrite Hs, He in Hw.
  exact (only_trans _ _ _ _ _ Hv Hw a Ha).
Qed.

Definition demo_setup : setup_data := SetupData 0 24 0 0x5003 0x0010.
Definition demo_output : list Z := [27; ch "["; ch "9"; ch "9"; ch "L"; 65; 10; 9; 127].

Lemma console_stays_in_video_memory_witness :
  setup_ok demo_setup /\
  let s := con_print (D := silent_device) 127 demo_output (con_init (D := silent_device) demo_setup console0) in
  con_ok s /\ (forall a, ~ (0xb8000 <= a /\ a + 2 <= 0xba000) -> vram s !! a = None).
Proof.
  assert (setup_ok demo_setup) as Hd by (repeat split; vm_compute; congruence).
  split; [exact Hd|]. exact (console_stays_in_video_memory (D := silent_device) demo_setup 127 demo_output Hd).
Defined.

End Con.
