(* ===== verification/Tty.v ===== *)
(** * Terminals ([kernel/chr_drv/tty_io.c], [tty_ioctl.c], [serial.c],
      [include/linux/tty.h], [include/termios.h])

    A terminal has three queues, ring buffers of 1024 characters: what the
    device has sent ([read_q]), what it is to be sent ([write_q]), and the
    input after line editing ([secondary]).  [tty->write] is a function
    pointer to [con_write] or [rs_write]; since [con_write] can answer an
    escape sequence by putting characters into the read queue, it calls
    [copy_to_cooked], which echoes through [tty->write] again, so that the
    two are mutually recursive and take fuel.

    The process group of a terminal is in the state of process management
    ([Kernel.tty_pgrp]), which reads and clears it too. *)

From S2P Require Import Prelude Ports Ctype Memory Task Sched Kernel Files Console.

Module Tty.

Definition TTY_BUF_SIZE : Z := 1024.

(** [struct tty_queue]: [proc_list] is the name of the wait queue. *)
Record tty_queue : Type := Queue {
  data : Z; head : Z; tail : Z; proc_list : Z; buf : list Z
}.
#[global] Instance queue_rebuild : Rebuild tty_queue := fun q =>
  Queue (data q) (head q) (tail q) (proc_list q) (buf q).

Definition INC (a : Z) : Z := Z.land (a + 1) (TTY_BUF_SIZE - 1).
Definition DEC (a : Z) : Z := Z.land (a - 1) (TTY_BUF_SIZE - 1).
Definition EMPTY (q : tty_queue) : bool := head q =? tail q.
Definition LEFT (q : tty_queue) : Z := Z.land (tail q - head q - 1) (TTY_BUF_SIZE - 1).
Definition LAST (q : tty_queue) : Z :=
  default 0 (array_get (buf q) (Z.land (TTY_BUF_SIZE - 1) (head q - 1))).
Definition FULL (q : tty_queue) : bool := negb (truth (LEFT q)).
Definition CHARS (q : tty_queue) : Z := Z.land (head q - tail q) (TTY_BUF_SIZE - 1).
Definition GETCH (q : tty_queue) : Z * tty_queue :=
  (default 0 (array_get (buf q) (tail q)), q ⟪ tail := INC (tail q) ⟫).
Definition PUTCH (c : Z) (q : tty_queue) : tty_queue :=
  q ⟪ buf := array_set (buf q) (head q) (s8 c) ⟫ ⟪ head := INC (head q) ⟫.

(** [struct termios]; the structure ends with two bytes of padding. *)
Record termios : Type := Termios {
  c_iflag : Z; c_oflag : Z; c_cflag : Z; c_lflag : Z; c_line : Z; c_cc : list Z; c_pad : list Z
}.
#[global] Instance termios_rebuild : Rebuild termios := fun t =>
  Termios (c_iflag t) (c_oflag t) (c_cflag t) (c_lflag t) (c_line t) (c_cc t) (c_pad t).
Definition NCC : Z := 8.
Definition NCCS : Z := 17.

Inductive tty_write_fn : Type := CON_WRITE | RS_WRITE.

Record tty_struct : Type := Tty {
  tios : termios; stopped : Z; write : tty_write_fn;
  read_q : tty_queue; write_q : tty_queue; secondary : tty_queue
}.
#[global] Instance tty_rebuild : Rebuild tty_struct := fun t =>
  Tty (tios t) (stopped t) (write t) (read_q t) (write_q t) (secondary t).

(** Indices of control characters, and the flags the code tests. *)
Definition VINTR : Z := 0.
Definition VQUIT : Z := 1.
Definition VERASE : Z := 2.
Definition VKILL : Z := 3.
Definition VEOF : Z := 4.
Definition VTIME : Z := 5.
Definition VMIN : Z := 6.
Definition VSTART : Z := 8.
Definition VSTOP : Z := 9.
Definition cc (i : Z) (t : tty_struct) : Z := default 0 (array_get (c_cc (tios t)) i).
Definition INTR_CHAR : tty_struct -> Z := cc VINTR.
Definition QUIT_CHAR : tty_struct -> Z := cc VQUIT.
Definition ERASE_CHAR : tty_struct -> Z := cc VERASE.
Definition KILL_CHAR : tty_struct -> Z := cc VKILL.
Definition EOF_CHAR : tty_struct -> Z := cc VEOF.
Definition START_CHAR : tty_struct -> Z := cc VSTART.
Definition STOP_CHAR : tty_struct -> Z := cc VSTOP.

Definition _L_FLAG (t : tty_struct) (f : Z) : bool := truth (Z.land (c_lflag (tios t)) f).
Definition _I_FLAG (t : tty_struct) (f : Z) : bool := truth (Z.land (c_iflag (tios t)) f).
Definition _O_FLAG (t : tty_struct) (f : Z) : bool := truth (Z.land (c_oflag (tios t)) f).
(** [c_lflag], [c_iflag], [c_oflag] and [c_cflag] bits. *)
Definition ISIG : Z := 1.
Definition ICANON : Z := 2.
Definition ECHO : Z := 8.
Definition ECHOE : Z := 16.
Definition ECHOK : Z := 32.
Definition ECHOCTL : Z := 512.
Definition ECHOKE : Z := 2048.
Definition INLCR : Z := 64.
Definition IGNCR : Z := 128.
Definition ICRNL : Z := 256.
Definition IUCLC : Z := 512.
Definition OPOST : Z := 1.
Definition OLCUC : Z := 2.
Definition ONLCR : Z := 4.
Definition OCRNL : Z := 8.
Definition ONLRET : Z := 32.
Definition CBAUD : Z := 15.
Definition B2400 : Z := 11.
Definition CS8 : Z := 48.
Definition L_CANON t := _L_FLAG t ICANON.
Definition L_ISIG t := _L_FLAG t ISIG.
Definition L_ECHO t := _L_FLAG t ECHO.
Definition L_ECHOCTL t := _L_FLAG t ECHOCTL.
Definition I_UCLC t := _I_FLAG t IUCLC.
Definition I_NLCR t := _I_FLAG t INLCR.
Definition I_CRNL t := _I_FLAG t ICRNL.
Definition I_NOCR t := _I_FLAG t IGNCR.
Definition O_POST t := _O_FLAG t OPOST.
Definition O_NLCR t := _O_FLAG t ONLCR.
Definition O_CRNL t := _O_FLAG t OCRNL.
Definition O_NLRET t := _O_FLAG t ONLRET.
Definition O_LCUC t := _O_FLAG t OLCUC.

Definition ALRMMASK : Z := Z.shiftl 1 (SIGALRM - 1).
Definition INTMASK : Z := Z.shiftl 1 1.
Definition QUITMASK : Z := Z.shiftl 1 2.

(** [INIT_C_CC] and [tty_table]; the nine wait queues have the names
    [1000 .. 1008]. *)
Definition INIT_C_CC : list Z := [3; 28; 127; 21; 4; 0; 1; 0; 17; 19; 26; 0; 18; 15; 23; 22; 0].
Definition empty_queue (port p : Z) : tty_queue := Queue port 0 0 p (replicate 1024 0).
Definition console_termios : termios :=
  Termios ICRNL (Z.lor OPOST ONLCR) 0 (Z.lor (Z.lor (Z.lor (Z.lor ISIG ICANON) ECHO) ECHOCTL) ECHOKE)
    0 INIT_C_CC [0; 0].
Definition rs_termios : termios := Termios 0 0 (Z.lor B2400 CS8) 0 0 INIT_C_CC [0; 0].
Definition tty_table0 : list tty_struct :=
  [Tty console_termios 0 CON_WRITE (empty_queue 0 1000) (empty_queue 0 1001) (empty_queue 0 1002);
   Tty rs_termios 0 RS_WRITE (empty_queue 0x3f8 1003) (empty_queue 0x3f8 1004) (empty_queue 0 1005);
   Tty rs_termios 0 RS_WRITE (empty_queue 0x2f8 1006) (empty_queue 0x2f8 1007) (empty_queue 0 1008)].

Record tstate (I : Type) : Type := TState {
  kern : kernel I;
  tty_table : list tty_struct;
  con : Con.console;
  cr_flag : Z              (* the static variable of [tty_write] *)
}.
Arguments TState {I}. Arguments kern {I}. Arguments tty_table {I}. Arguments con {I}.
Arguments cr_flag {I}.
#[global] Instance tstate_rebuild {I} : Rebuild (tstate I) := fun s =>
  TState (kern s) (tty_table s) (con s) (cr_flag s).
#[global] Instance tstate_ports {I} : HasPorts (tstate I) := {
  ports s := Con.io (con s);
  set_ports l s := s ⟪ con := set_ports l (con s) ⟫
}.

(** What the interrupt handlers and the other tasks do while the current
    task waits to be scheduled again. *)
Class Others (S : Type) := others : KM S unit.

Section tty.
Context {I : Type} {D : Device} {O : Others (tstate I)}.

Definition on_kern {A} (m : KM (kernel I) A) : KM (tstate I) A :=
  zoom kern (fun k s => s ⟪ kern := k ⟫) m.
Definition get_tty (i : Z) : KM (tstate I) tty_struct := l ← gets tty_table; read_at l i.
Definition upd_tty (i : Z) (f : tty_struct -> tty_struct) : KM (tstate I) unit :=
  t ← get_tty i; modify (fun s => s ⟪ tty_table := array_set (tty_table s) i (f t) ⟫).
Definition put_write (i c : Z) : KM (tstate I) unit :=
  upd_tty i (fun t => t ⟪ write_q := PUTCH c (write_q t) ⟫).

Definition tty_intr (i mask : Z) : KM (tstate I) unit :=
  g ← on_kern (p ← gets tty_pgrp; read_at p i);
  if g <=? 0 then mret tt
  else on_kern (on_ks (kfor (upto NR_TASKS) (fun j =>
    o ← gets (fun k => slot k j);
    match o with
    | Some t => kwhen (pgrp t =? g) (put_task j (t ⟪ signal := s32 (Z.lor (signal t) mask) ⟫))
    | None => mret tt
    end))).

(** [interruptible_sleep_on], with what the others do while the task
    sleeps. *)
Definition interruptible_sleep_on (fuel : nat) (p : Z) : KM (tstate I) unit :=
  tmp ← on_kern (on_ks (interruptible_sleep_on_begin p));
  others ;;
  kloop fuel (fun _ : unit =>
    b ← on_kern (on_ks (interruptible_sleep_on_resume p tmp));
    if b : bool then mret (inr tt) else others ;; mret (inl tt)) tt.

Definition sleep_if_empty (fuel : nat) (queue : tty_struct -> tty_queue) (i : Z) : KM (tstate I) unit :=
  kloop fuel (fun _ : unit =>
    cur ← on_kern current_task; t ← get_tty i;
    if negb (truth (signal cur)) && EMPTY (queue t)
    then interruptible_sleep_on fuel (proc_list (queue t)) ;; mret (inl tt)
    else mret (inr tt)) tt.

Definition sleep_if_full (fuel : nat) (queue : tty_struct -> tty_queue) (i : Z) : KM (tstate I) unit :=
  t ← get_tty i;
  if negb (FULL (queue t)) then mret tt
  else kloop fuel (fun _ : unit =>
    cur ← on_kern current_task; t ← get_tty i;
    if negb (truth (signal cur)) && (LEFT (queue t) <? 128)
    then interruptible_sleep_on fuel (proc_list (queue t)) ;; mret (inl tt)
    else mret (inr tt)) tt.

Definition wait_for_keypress (fuel : nat) : KM (tstate I) unit := sleep_if_empty fuel secondary 0.
End tty.

(** ** Line editing *)

Section cooked.
Context {I : Type} {D : Device}.
(** [tty->write]. *)
Variable tty_write_call : Z -> KM (tstate I) unit.

(** The last character of the line being edited, if there is one:
    [!(EMPTY(q) || (c=LAST(q))==10 || c==EOF_CHAR(tty))]. *)
Definition last_editable (t : tty_struct) : bool :=
  negb (EMPTY (secondary t) || (LAST (secondary t) =? 10) || (LAST (secondary t) =? EOF_CHAR t)).

(** One character is taken off the line, and off the screen. *)
Definition rub_out (i c : Z) : KM (tstate I) unit :=
  t ← get_tty i;
  kwhen (L_ECHO t)
    (kwhen (c <? 32) (put_write i 127) ;; put_write i 127 ;; tty_write_call i) ;;
  upd_tty i (fun t => t ⟪ secondary := (secondary t) ⟪ head := DEC (head (secondary t)) ⟫ ⟫).

Definition kill_line (fuel : nat) (i : Z) : KM (tstate I) unit :=
  kloop fuel (fun _ : unit =>
    t ← get_tty i;
    if last_editable t then rub_out i (LAST (secondary t)) ;; mret (inl tt)
    else mret (inr tt)) tt.

(** The character that is put into the line ([None]: [continue]). *)
Definition translate (t : tty_struct) (c : Z) : KM (tstate I) (option Z) :=
  if (c =? 13) && negb (I_CRNL t) && I_NOCR t then mret None
  else
    let c := if c =? 13 then (if I_CRNL t then 10 else 13)
             else if (c =? 10) && I_NLCR t then 13 else c in
    if I_UCLC t then c ← tolower c; mret (Some c) else mret (Some c).

Definition echo (i c : Z) : KM (tstate I) unit :=
  t ← get_tty i;
  (if c =? 10 then put_write i 10 ;; put_write i 13
   else if c <? 32 then
     kwhen (L_ECHOCTL t) (put_write i (ch "^") ;; put_write i (c + 64))
   else put_write i c) ;;
  tty_write_call i.

(** The rest of the loop's body, for the character [c] after translation. *)
Definition cook (fuel : nat) (i c : Z) : KM (tstate I) unit :=
  t ← get_tty i;
  if L_CANON t && (c =? KILL_CHAR t) then kill_line fuel i
  else if L_CANON t && (c =? ERASE_CHAR t) then
    kwhen (last_editable t) (rub_out i (LAST (secondary t)))
  else if L_CANON t && (c =? STOP_CHAR t) then upd_tty i (fun t => t ⟪ stopped := 1 ⟫)
  else if L_CANON t && (c =? START_CHAR t) then upd_tty i (fun t => t ⟪ stopped := 0 ⟫)
  else if L_ISIG t && (c =? INTR_CHAR t) then tty_intr i INTMASK
  else if L_ISIG t && (c =? QUIT_CHAR t) then tty_intr i QUITMASK
  else
    kwhen ((c =? 10) || (c =? EOF_CHAR t))
      (upd_tty i (fun t => t ⟪ secondary := (secondary t) ⟪ data := u32 (data (secondary t) + 1) ⟫ ⟫)) ;;
    kwhen (L_ECHO t) (echo i c) ;;
    upd_tty i (fun t => t ⟪ secondary := PUTCH c (secondary t) ⟫).

Definition copy_to_cooked (fuel : nat) (i : Z) : KM (tstate I) unit :=
  kloop fuel (fun _ : unit =>
    t ← get_tty i;
    if EMPTY (read_q t) || FULL (secondary t) then mret (inr tt)
    else
      let '(c, q) := GETCH (read_q t) in
      upd_tty i (fun t => t ⟪ read_q := q ⟫) ;;
      o ← translate t c;
      match o with
      | None => mret (inl tt)
      | Some c => cook fuel i c ;; mret (inl tt)
      end) tt ;;
  t ← get_tty i;
  on_kern (on_ks (wake_up (proc_list (secondary t)))).
End cooked.

(** ** The devices' write routines *)

Definition RESPONSE : list Z := [27; ch "["; ch "?"; ch "1"; ch ";"; ch "2"; ch "c"].

Section devices.
Context {I : Type} {D : Device}.

(** [respond]; [cooked] is [copy_to_cooked] for the same terminal. *)
Definition respond (cooked : Z -> KM (tstate I) unit) (i : Z) : KM (tstate I) unit :=
  kfor RESPONSE (fun c => upd_tty i (fun t => t ⟪ read_q := PUTCH c (read_q t) ⟫)) ;;
  cooked i.

(** The body of the loop of [con_write], then the whole routine. *)
Definition con_write_char (cooked : Z -> KM (tstate I) unit) (i : Z) : KM (tstate I) unit :=
  t ← get_tty i;
  let '(c, q) := GETCH (write_q t) in
  upd_tty i (fun t => t ⟪ write_q := q ⟫) ;;
  r ← gets (fun s => (Con.con_char (ERASE_CHAR t) c (con s)).2);
  modify (fun s => s ⟪ con := (Con.con_char (ERASE_CHAR t) c (con s)).1 ⟫) ;;
  kwhen r (respond cooked i).

Definition con_write (cooked : Z -> KM (tstate I) unit) (i : Z) : KM (tstate I) unit :=
  t ← get_tty i;
  kfor (upto (CHARS (write_q t))) (fun _ => con_write_char cooked i) ;;
  modify (fun s => s ⟪ con := Con.set_cursor (con s) ⟫).

(** Reading and writing ports, as steps. *)
Definition outb_step (value port : Z) : KM (tstate I) unit := modify (outb value port).
Definition inb_step (port : Z) : KM (tstate I) Z := fun s => let '(v, s) := inb port s in Done v s.

Definition rs_write (i : Z) : KM (tstate I) unit :=
  t ← get_tty i;
  kwhen (negb (EMPTY (write_q t)))
    (v ← inb_step (data (write_q t) + 1); outb_step (Z.lor v 0x02) (data (write_q t) + 1)).

(** [tty->write(tty)]: the recursion between [con_write] and
    [copy_to_cooked] is [depth] calls deep. *)
Fixpoint tty_write_call (depth fuel : nat) (i : Z) : KM (tstate I) unit :=
  match depth with
  | O => nofuel
  | S depth =>
      t ← get_tty i;
      match write t with
      | CON_WRITE => con_write (copy_to_cooked (tty_write_call depth fuel) fuel) i
      | RS_WRITE => rs_write i
      end
  end.

Definition do_tty_interrupt (depth fuel : nat) (i : Z) : KM (tstate I) unit :=
  copy_to_cooked (tty_write_call depth fuel) fuel i.

(** [serial.c] *)
Definition rs_port_init (port : Z) : KM (tstate I) unit :=
  outb_step 0x80 (port + 3) ;; outb_step 0x30 port ;; outb_step 0x00 (port + 1) ;;
  outb_step 0x03 (port + 3) ;; outb_step 0x0b (port + 4) ;; outb_step 0x0d (port + 1) ;;
  _ ← inb_step port; mret tt.
Definition rs_init : KM (tstate I) unit :=
  t ← get_tty 1; rs_port_init (data (read_q t)) ;;
  t ← get_tty 2; rs_port_init (data (read_q t)) ;;
  v ← inb_step 0x21; outb_step (Z.land v 0xE7) 0x21.

Definition tty_init (d : Con.setup_data) : KM (tstate I) unit :=
  rs_init ;; modify (fun s => s ⟪ con := Con.con_init d (con s) ⟫).
End devices.

(** ** [tty_read] and [tty_write] *)

Section read_write.
Context {I : Type} {D : Device} {O : Others (tstate I)}.
Variables (depth fuel : nat).

Definition get_signal : KM (tstate I) Z := t ← on_kern current_task; mret (signal t).
Definition set_alarm (v : Z) : KM (tstate I) unit :=
  on_kern (set_current (fun t => t ⟪ alarm := v ⟫)).
(** [!oldalarm || time+jiffies<oldalarm] *)
Definition alarm_first (oldalarm time : Z) : KM (tstate I) bool :=
  j ← gets (fun s => jiffies (ks (kern s)));
  mret (negb (truth oldalarm) || (s32 (time + j) <? oldalarm)).
Definition start_alarm (time : Z) : KM (tstate I) unit :=
  j ← gets (fun s => jiffies (ks (kern s))); set_alarm (s32 (time + j)).

(** The inner [do ... while]: characters go to the user until the request is
    full, the queue empty ([inl]) or an end of file is read ([inr]). *)
Definition read_chars (i bf : Z) : Z * Z -> KM (tstate I) (Z + (Z * Z)) := fun bn =>
  kloop 1024 (fun '(b, nr) =>
    t ← get_tty i;
    let '(c, q) := GETCH (secondary t) in
    let eol := (c =? EOF_CHAR t) || (c =? 10) in
    upd_tty i (fun t => t ⟪ secondary := if eol then q ⟪ data := u32 (data q - 1) ⟫ else q ⟫) ;;
    if (c =? EOF_CHAR t) && L_CANON t then mret (inr (inl b))
    else
      on_kern (put_fs_byte c (bf + b)) ;;
      t ← get_tty i;
      if (0 <? nr - 1) && negb (EMPTY (secondary t)) then mret (inl (b + 1, nr - 1))
      else mret (inr (inr (b + 1, nr - 1)))) bn.

(** Leaving the outer loop, and the value to be returned. *)
Definition read_end (oldalarm b : Z) : KM (tstate I) Z :=
  set_alarm oldalarm ;;
  sg ← get_signal;
  if truth sg && negb (truth b) then mret (- EINTR) else mret b.

(** One turn of the loop of [tty_read]: [inl] goes round again with the new
    [b - buf], [nr] and [flag]; [inr] is the value returned. *)
Definition read_turn (i bf time minimum oldalarm : Z) (st : Z * Z * bool)
    : KM (tstate I) ((Z * Z * bool) + Z) :=
  let '(b, nr, flag) := st in
  let leave := (r ← read_end oldalarm b; mret (inr r)) in
  if nr <=? 0 then leave
  else
    sg ← get_signal;
    if flag && truth (Z.land sg ALRMMASK) then
      on_kern (set_current (fun t => t ⟪ signal := Z.land (signal t) (Z.lnot ALRMMASK) ⟫)) ;; leave
    else if truth sg then leave
    else
      t ← get_tty i;
      if EMPTY (secondary t)
         || (L_CANON t && negb (truth (data (secondary t))) && (20 <? LEFT (secondary t)))
      then sleep_if_empty fuel secondary i ;; mret (inl (b, nr, flag))
      else
        r ← read_chars i bf (b, nr);
        match r with
        | inl b => mret (inr b)
        | inr (b, nr) =>
            t ← get_tty i;
            flag ← (if truth time && negb (L_CANON t) then
                      f ← alarm_first oldalarm time;
                      (if f : bool then start_alarm time else set_alarm oldalarm) ;; mret f
                    else mret flag);
            if (if L_CANON t then truth b else minimum <=? b)
            then r ← read_end oldalarm b; mret (inr r)
            else mret (inl (b, nr, flag))
        end.

Definition tty_read (channel bf nr : Z) : KM (tstate I) Z :=
  if (2 <? channel) || (nr <? 0) then mret (- 1)
  else
    t ← get_tty channel;
    cur ← on_kern current_task;
    let oldalarm := alarm cur in
    let time := 10 * cc VTIME t in
    let minimum := cc VMIN t in
    '(minimum, flag) ← (if truth time && negb (truth minimum) then
        f ← alarm_first oldalarm time; kwhen f (start_alarm time) ;; mret (1, f)
      else mret (minimum, false));
    let minimum := if nr <? minimum then nr else minimum in
    kloop fuel (read_turn channel bf time minimum oldalarm) (0, nr, flag).

(** Output post-processing: [None] when a carriage return was put in first
    and the same character comes again. *)
Definition opost (t : tty_struct) (flag : Z) (c : Z) : KM (tstate I) (option Z) :=
  if O_POST t then
    let c := if (c =? 13) && O_CRNL t then 10 else if (c =? 10) && O_NLRET t then 13 else c in
    if (c =? 10) && negb (truth flag) && O_NLCR t then mret None
    else if O_LCUC t then c ← toupper c; mret (Some c) else mret (Some c)
  else mret (Some c).

(** The inner loop of [tty_write]: the queue is filled. *)
Definition fill_queue (i bf : Z) : Z * Z -> KM (tstate I) (Z * Z) := fun bn =>
  kloop 1024 (fun '(b, nr) =>
    t ← get_tty i;
    if (0 <? nr) && negb (FULL (write_q t)) then
      v ← on_kern (get_fs_byte (bf + b));
      flag ← gets cr_flag;
      o ← opost t flag (s8 v);
      match o with
      | None => modify (fun s => s ⟪ cr_flag := 1 ⟫) ;; put_write i 13 ;; mret (inl (b, nr))
      | Some c => modify (fun s => s ⟪ cr_flag := 0 ⟫) ;; put_write i c ;; mret (inl (b + 1, nr - 1))
      end
    else mret (inr (b, nr))) bn.

Definition tty_write (channel bf nr : Z) : KM (tstate I) Z :=
  if (2 <? channel) || (nr <? 0) then mret (- 1)
  else
    kloop fuel (fun '(b, nr) =>
      if nr <=? 0 then mret (inr b)
      else
        sleep_if_full fuel write_q channel ;;
        sg ← get_signal;
        if truth sg then mret (inr b)
        else
          '(b, nr) ← fill_queue channel bf (b, nr);
          tty_write_call depth fuel channel ;;
          kwhen (0 <? nr) (on_kern (on_ks schedule) ;; others) ;;
          mret (inl (b, nr))) (0, nr).
End read_write.
End Tty.
