(* ===== verification/CharDev.v ===== *)
(** * Terminal control and character devices ([kernel/chr_drv/tty_ioctl.c],
      [fs/char_dev.c])

    The structures [termios] and [termio] are copied to and from user memory
    byte by byte, in the layout of the C structures. *)

From S2P Require Import Prelude Ports Memory Task Sched Kernel Files Console Tty.

Module CharDev.
Import Tty.

Definition ENODEV : Z := 19.
Definition EIO : Z := 5.
Definition READ : Z := 0.
Definition WRITE : Z := 1.

(** ** The layout of the structures *)

Definition le_bytes (n : nat) (v : Z) : list Z :=
  (fix go n v := match n with O => [] | S n => v `mod` 256 :: go n (v / 256) end) n v.
Definition le_value (l : list Z) : Z := foldr (fun b v => b + 256 * v) 0 l.

(** [struct termios]: 36 bytes. *)
Definition termios_bytes (t : termios) : list Z :=
  le_bytes 4 (c_iflag t) ++ le_bytes 4 (c_oflag t) ++ le_bytes 4 (c_cflag t) ++
  le_bytes 4 (c_lflag t) ++ [c_line t] ++ c_cc t ++ c_pad t.
Definition field (l : list Z) (at_ n : nat) : list Z := take n (drop at_ l).
Definition termios_of_bytes (l : list Z) : termios :=
  Termios (le_value (field l 0 4)) (le_value (field l 4 4)) (le_value (field l 8 4))
    (le_value (field l 12 4)) (default 0 (l !! 16%nat)) (field l 17 17) (field l 34 2).

(** [struct termio]: 18 bytes, the last one padding. *)
Definition termio_bytes (t : termios) (pad : Z) : list Z :=
  le_bytes 2 (u16 (c_iflag t)) ++ le_bytes 2 (u16 (c_oflag t)) ++ le_bytes 2 (u16 (c_cflag t)) ++
  le_bytes 2 (u16 (c_lflag t)) ++ [c_line t] ++ take 8 (c_cc t) ++ [pad].

(** An assignment to the low 16 bits of a longword. *)
Definition set_low16 (x v : Z) : Z := x - x `mod` 65536 + v.

Definition quotient : list Z :=
  [0; 2304; 1536; 1047; 857; 768; 576; 384; 192; 96; 64; 48; 24; 12; 6; 3].

Section ioctl.
Context {I : Type} {D : Device}.

Definition change_speed (i : Z) : KM (tstate I) unit :=
  t ← get_tty i;
  let port := u16 (data (read_q t)) in
  if negb (truth port) then mret tt
  else
    quot ← read_at quotient (Z.land (c_cflag (tios t)) CBAUD);
    outb_step 0x80 (port + 3) ;; outb_step (Z.land quot 0xff) port ;;
    outb_step (Z.shiftr quot 8) (port + 1) ;; outb_step 0x03 (port + 3).

Definition flush (q : tty_queue) : tty_queue := q ⟪ head := tail q ⟫.
Definition flush_read (i : Z) : KM (tstate I) unit :=
  upd_tty i (fun t => t ⟪ read_q := flush (read_q t) ⟫).
Definition flush_write (i : Z) : KM (tstate I) unit :=
  upd_tty i (fun t => t ⟪ write_q := flush (write_q t) ⟫).
Definition wait_until_sent (i : Z) : KM (tstate I) unit := mret tt.
Definition send_break (i : Z) : KM (tstate I) unit := mret tt.

(** [for (i=0; i<n; i++) put_fs_byte(bytes[i], i+addr)] and its inverse. *)
Fixpoint put_bytes (l : list Z) (addr : Z) : KM (tstate I) unit :=
  match l with
  | [] => mret tt
  | b :: l => on_kern (put_fs_byte b addr) ;; put_bytes l (addr + 1)
  end.
Fixpoint get_bytes (n : nat) (addr : Z) : KM (tstate I) (list Z) :=
  match n with
  | O => mret []
  | S n => b ← on_kern (get_fs_byte addr); l ← get_bytes n (addr + 1); mret (b :: l)
  end.

Definition get_termios (i addr : Z) : KM (tstate I) Z :=
  on_kern (verify_area addr 36) ;;
  t ← get_tty i; put_bytes (termios_bytes (tios t)) addr ;; mret 0.

Definition set_termios (i addr : Z) : KM (tstate I) Z :=
  l ← get_bytes 36 addr;
  upd_tty i (fun t => t ⟪ tios := termios_of_bytes l ⟫) ;;
  change_speed i ;; mret 0.

(** [pad] is the byte of padding of the uninitialised local variable. *)
Definition get_termio (pad i addr : Z) : KM (tstate I) Z :=
  on_kern (verify_area addr 18) ;;
  t ← get_tty i; put_bytes (termio_bytes (tios t) pad) addr ;; mret 0.

Definition merge_termio (l : list Z) (t : termios) : termios :=
  Termios (set_low16 (c_iflag t) (le_value (field l 0 2)))
    (set_low16 (c_oflag t) (le_value (field l 2 2)))
    (set_low16 (c_cflag t) (le_value (field l 4 2)))
    (set_low16 (c_lflag t) (le_value (field l 6 2)))
    (default 0 (l !! 8%nat)) (field l 9 8 ++ drop 8 (c_cc t)) (c_pad t).
Definition set_termio (i addr : Z) : KM (tstate I) Z :=
  l ← get_bytes 18 addr;
  upd_tty i (fun t => t ⟪ tios := merge_termio l (tios t) ⟫) ;;
  change_speed i ;; mret 0.

Definition TCGETS : Z := 0x5401.
Definition TCSETS : Z := 0x5402.
Definition TCSETSW : Z := 0x5403.
Definition TCSETSF : Z := 0x5404.
Definition TCGETA : Z := 0x5405.
Definition TCSETA : Z := 0x5406.
Definition TCSETAW : Z := 0x5407.
Definition TCSETAF : Z := 0x5408.
Definition TCSBRK : Z := 0x5409.
Definition TCFLSH : Z := 0x540B.
Definition TIOCGPGRP : Z := 0x540F.
Definition TIOCSPGRP : Z := 0x5410.
Definition TIOCOUTQ : Z := 0x5411.
Definition TIOCINQ : Z := 0x541B.

(** All the commands that are not implemented return [-EINVAL], like the
    unknown ones. *)
Definition tty_ioctl (pad dev cmd arg : Z) : KM (tstate I) Z :=
  cur ← on_kern current_task;
  i ← (if MAJOR dev =? 5 then
         if Task.tty cur <? 0 then panic "tty_ioctl: dev<0" else mret (Task.tty cur)
       else mret (Z.land dev 0xff));
  if cmd =? TCGETS then get_termios i arg
  else if cmd =? TCSETSF then flush_read i ;; wait_until_sent i ;; set_termios i arg
  else if cmd =? TCSETSW then wait_until_sent i ;; set_termios i arg
  else if cmd =? TCSETS then set_termios i arg
  else if cmd =? TCGETA then get_termio pad i arg
  else if cmd =? TCSETAF then flush_read i ;; wait_until_sent i ;; set_termio i arg
  else if cmd =? TCSETAW then wait_until_sent i ;; set_termio i arg
  else if cmd =? TCSETA then set_termio i arg
  else if cmd =? TCSBRK then
    kwhen (negb (truth arg)) (wait_until_sent i ;; send_break i) ;; mret 0
  else if cmd =? TCFLSH then
    if arg =? 0 then flush_read i ;; mret 0
    else if arg =? 1 then flush_write i ;; mret 0
    else if arg =? 2 then flush_read i ;; flush_write i ;; mret 0
    else mret (- EINVAL)
  else if cmd =? TIOCGPGRP then
    on_kern (verify_area arg 4) ;;
    g ← on_kern (p ← gets tty_pgrp; read_at p i);
    on_kern (put_fs_long g arg) ;; mret 0
  else if cmd =? TIOCSPGRP then
    v ← on_kern (get_fs_long arg);
    _ ← on_kern (p ← gets tty_pgrp; read_at p i);
    on_kern (modify (fun k => k ⟪ tty_pgrp := array_set (tty_pgrp k) i (s32 v) ⟫)) ;; mret 0
  else if cmd =? TIOCOUTQ then
    on_kern (verify_area arg 4) ;;
    t ← get_tty i; on_kern (put_fs_long (CHARS (write_q t)) arg) ;; mret 0
  else if cmd =? TIOCINQ then
    on_kern (verify_area arg 4) ;;
    t ← get_tty i; on_kern (put_fs_long (CHARS (secondary t)) arg) ;; mret 0
  else mret (- EINVAL).
End ioctl.

(** ** [fs/char_dev.c] *)

(** The entries of [crw_table]; [NULL] is [None]. *)
Inductive crw : Type := rw_memory_fn | rw_ttyx_fn | rw_tty_fn.
Definition crw_table : list (option crw) :=
  [None; Some rw_memory_fn; None; None; Some rw_ttyx_fn; Some rw_tty_fn; None; None].

Section char_dev.
Context {I : Type} {D : Device} {O : Others (tstate I)}.
Variables (depth fuel : nat).

(** A transfer's result is what is returned and the new file position. *)
Definition rw_ttyx (rw minor bf count pos : Z) : KM (tstate I) (Z * Z) :=
  r ← (if rw =? READ then tty_read fuel minor bf count else tty_write depth fuel minor bf count);
  mret (r, pos).

Definition rw_tty (rw minor bf count pos : Z) : KM (tstate I) (Z * Z) :=
  cur ← on_kern current_task;
  if Task.tty cur <? 0 then mret (- EPERM, pos)
  else rw_ttyx rw (u32 (Task.tty cur)) bf count pos.

Definition rw_ram (rw bf count pos : Z) : KM (tstate I) (Z * Z) := mret (- EIO, pos).
Definition rw_mem (rw bf count pos : Z) : KM (tstate I) (Z * Z) := mret (- EIO, pos).
Definition rw_kmem (rw bf count pos : Z) : KM (tstate I) (Z * Z) := mret (- EIO, pos).

(** One turn for each port, from [pos] on, at most up to port 65535. *)
Definition rw_port (rw bf count pos : Z) : KM (tstate I) (Z * Z) :=
  let n := Z.max 0 (Z.min count (65536 - pos)) in
  kfor (upto n) (fun k =>
    if rw =? READ then v ← inb_step (pos + k); on_kern (put_fs_byte v (bf + k))
    else v ← on_kern (get_fs_byte (bf + k)); outb_step v (pos + k)) ;;
  mret (n, pos + n).

Definition rw_memory (rw minor bf count pos : Z) : KM (tstate I) (Z * Z) :=
  if minor =? 0 then rw_ram rw bf count pos
  else if minor =? 1 then rw_mem rw bf count pos
  else if minor =? 2 then rw_kmem rw bf count pos
  else if minor =? 3 then mret ((if rw =? READ then 0 else count), pos)
  else if minor =? 4 then rw_port rw bf count pos
  else mret (- EIO, pos).

Definition rw_char (rw dev bf count pos : Z) : KM (tstate I) (Z * Z) :=
  match mjoin (array_get crw_table (u32 (MAJOR dev))) with
  | None => mret (- ENODEV, pos)
  | Some f =>
      let minor := Z.land dev 0xff in
      match f with
      | rw_memory_fn => rw_memory rw minor bf count pos
      | rw_ttyx_fn => rw_ttyx rw minor bf count pos
      | rw_tty_fn => rw_tty rw minor bf count pos
      end
  end.
End char_dev.
End CharDev.
