(* ===== verification/LineDisc.v ===== *)
(** * The line discipline

    The queues of a terminal as lists of characters, a specification of line
    editing on lists, and the proof that [copy_to_cooked] implements it for
    every device that echoes. *)

From S2P Require Import Prelude Ports Ctype Memory Task Sched Kernel Files Console Tty.

Module LineDisc.
Import Tty.

(** ** Queues as lists *)

Record queue_ok (q : tty_queue) : Prop := {
  q_head : 0 <= head q < 1024;
  q_tail : 0 <= tail q < 1024;
  q_len : length (buf q) = 1024%nat
}.
Definition nth_char (q : tty_queue) (k : Z) : Z :=
  default 0 (array_get (buf q) ((tail q + k) mod 1024)).
(** The characters of the queue, the oldest first. *)
Definition contents (q : tty_queue) : list Z := nth_char q <$> upto (CHARS q).

Section queues.
Implicit Types q : tty_queue.

Lemma mask_mod x : Z.land x (TTY_BUF_SIZE - 1) = x mod 1024.
Proof. apply (Z.land_ones x 10). lia. Qed.
Lemma chars_mod q : CHARS q = (head q - tail q) mod 1024.
Proof. apply mask_mod. Qed.
Lemma chars_bound q : 0 <= CHARS q < 1024.
Proof. rewrite chars_mod. by apply Z.mod_pos_bound. Qed.
Lemma length_contents q : Z.of_nat (length (contents q)) = CHARS q.
Proof. unfold contents. rewrite length_fmap, length_seqZ. pose proof (chars_bound q). lia. Qed.
Lemma left_chars q : LEFT q = 1023 - CHARS q.
Proof.
  unfold LEFT. rewrite mask_mod, chars_mod.
  pose proof (Z.div_mod (head q - tail q) 1024 ltac:(lia)).
  pose proof (Z.mod_pos_bound (head q - tail q) 1024 ltac:(lia)).
  symmetry. apply (Z.mod_unique _ _ (- ((head q - tail q) / 1024) - 1)); lia.
Qed.
Lemma full_chars q : FULL q = (CHARS q =? 1023).
Proof.
  unfold FULL, truth. rewrite left_chars, negb_involutive. pose proof (chars_bound q).
  destruct (Z.eqb_spec (1023 - CHARS q) 0), (Z.eqb_spec (CHARS q) 1023); lia.
Qed.
Lemma empty_chars q : queue_ok q -> EMPTY q = (CHARS q =? 0).
Proof.
  intros [? ? _]. unfold EMPTY. rewrite chars_mod.
  destruct (Z.eqb_spec (head q) (tail q)) as [->|].
  - by rewrite Z.sub_diag.
  - symmetry. apply Z.eqb_neq. intros Hz. apply Z.mod_divide in Hz as [k Hk]; lia.
Qed.
Lemma contents_nil q : queue_ok q -> EMPTY q = true <-> contents q = [].
Proof.
  intros Hq. rewrite (empty_chars q Hq), Z.eqb_eq, <- length_contents.
  destruct (contents q); simpl; split; intros; try done; lia.
Qed.
Lemma seqZ_one n : seqZ (0 + n) 1 = [n].
Proof. unfold seqZ. simpl. by destruct n. Qed.
Lemma mod_step a b : (a mod 1024 + b) mod 1024 = (a + b) mod 1024.
Proof. by rewrite Zplus_mod_idemp_l. Qed.

Lemma contents_get q c l :
  queue_ok q -> contents q = c :: l ->
  exists q', GETCH q = (c, q') /\ queue_ok q' /\ contents q' = l /\ data q' = data q /\
    proc_list q' = proc_list q.
Proof.
  intros Hq Hc. pose proof (length_contents q) as Hlen. rewrite Hc in Hlen. simpl in Hlen.
  pose proof (chars_bound q) as Hb. destruct (Hq) as [Hh Ht Hl].
  assert (Hn : CHARS (q ⟪ tail := INC (tail q) ⟫) = CHARS q - 1).
  { rewrite !chars_mod in *. simpl. unfold INC. rewrite mask_mod.
    rewrite Zminus_mod_idemp_r.
    pose proof (Z.div_mod (head q - tail q) 1024 ltac:(lia)).
    symmetry. apply (Z.mod_unique _ _ ((head q - tail q) / 1024)); lia. }
  assert (Hs : upto (CHARS q) = 0 :: seqZ 1 (CHARS q - 1)).
  { rewrite seqZ_cons by lia. by replace (Z.pred (CHARS q)) with (CHARS q - 1) by lia. }
  unfold contents in Hc. rewrite Hs in Hc. simpl in Hc. injection Hc as Hc1 Hc2.
  exists (q ⟪ tail := INC (tail q) ⟫). split; [|split; [|split; [|done]]].
  - unfold GETCH. f_equal. rewrite <- Hc1. unfold nth_char.
    by rewrite Z.add_0_r, (Z.mod_small (tail q)) by lia.
  - split; simpl; [done| |done]. unfold INC. rewrite mask_mod. by apply Z.mod_pos_bound.
  - unfold contents. rewrite Hn, <- Hc2.
    replace (seqZ 1 (CHARS q - 1)) with (Z.add 1 <$> upto (CHARS q - 1)) by (apply fmap_add_seqZ).
    rewrite <- list_fmap_compose. apply list_fmap_ext. intros k x _. cbn [compose].
    unfold nth_char. simpl. unfold INC. rewrite mask_mod, mod_step. by rewrite Z.add_assoc.
Qed.

Lemma putch_ok q c : queue_ok q -> queue_ok (PUTCH c q).
Proof.
  intros [? ? ?]. split; simpl; [|done|by rewrite length_array_set].
  unfold INC. rewrite mask_mod. by apply Z.mod_pos_bound.
Qed.
Lemma contents_put q c :
  queue_ok q -> CHARS q < 1023 -> contents (PUTCH c q) = contents q ++ [s8 c].
Proof.
  intros Hq Hb. pose proof (chars_bound q) as Hb0. destruct (Hq) as [Hh Ht Hl].
  assert (Hn : CHARS (PUTCH c q) = CHARS q + 1).
  { rewrite !chars_mod in *. simpl. unfold INC. rewrite mask_mod, Zminus_mod_idemp_l.
    pose proof (Z.div_mod (head q - tail q) 1024 ltac:(lia)).
    symmetry. apply (Z.mod_unique _ _ ((head q - tail q) / 1024)); lia. }
  assert (Hhead : (tail q + CHARS q) mod 1024 = head q).
  { rewrite chars_mod, Zplus_mod_idemp_r. replace (tail q + (head q - tail q)) with (head q) by lia.
    by apply Z.mod_small. }
  unfold contents. rewrite Hn. rewrite seqZ_app by lia. rewrite fmap_app. f_equal.
  - apply list_fmap_ext. intros k x Hx. apply lookup_seqZ in Hx as [-> Hx]. unfold nth_char. simpl.
    rewrite array_get_set_ne; [done|]. rewrite <- Hhead. intros Heq.
    assert (((tail q + CHARS q) - (tail q + (0 + Z.of_nat k))) mod 1024 = 0) as Hz.
    { by rewrite Zminus_mod, Heq, Z.sub_diag. }
    apply Z.mod_divide in Hz as [z Hz]; lia.
  - rewrite seqZ_one. simpl. unfold nth_char. simpl. rewrite Hhead, array_get_set_eq by lia. done.
Qed.

Lemma contents_last q l c :
  queue_ok q -> contents q = l ++ [c] ->
  LAST q = c /\ queue_ok (q ⟪ head := DEC (head q) ⟫) /\
  contents (q ⟪ head := DEC (head q) ⟫) = l.
Proof.
  intros Hq Hc. pose proof (chars_bound q) as Hb0. pose proof (length_contents q) as Hlen.
  rewrite Hc, length_app in Hlen. simpl in Hlen. destruct (Hq) as [Hh Ht Hl].
  assert (Hn : CHARS (q ⟪ head := DEC (head q) ⟫) = CHARS q - 1).
  { rewrite !chars_mod in *. simpl. unfold DEC. rewrite mask_mod, Zminus_mod_idemp_l.
    pose proof (Z.div_mod (head q - tail q) 1024 ltac:(lia)).
    symmetry. apply (Z.mod_unique _ _ ((head q - tail q) / 1024)); lia. }
  unfold contents in Hc. replace (CHARS q) with (CHARS q - 1 + 1) in Hc by lia.
  rewrite seqZ_app, fmap_app, seqZ_one in Hc by lia. simpl in Hc.
  apply app_inj_tail in Hc as [Hc1 Hc2].
  split; [|split].
  - unfold LAST. rewrite <- Hc2. unfold nth_char. rewrite Z.land_comm, mask_mod.
    f_equal. f_equal. rewrite chars_mod in *.
    replace (tail q + ((head q - tail q) mod 1024 - 1))
      with ((head q - tail q) mod 1024 + (tail q - 1)) by lia.
    rewrite mod_step. f_equal. lia.
  - split; simpl; [|done..]. unfold DEC. rewrite mask_mod. by apply Z.mod_pos_bound.
  - unfold contents. rewrite Hn, <- Hc1. done.
Qed.
End queues.

(** ** The specification on lists *)

(** Characters that erasing may take off the line. *)
Definition editable (t : tty_struct) (c : Z) : bool := negb ((c =? 10) || (c =? EOF_CHAR t)).

(** The line, its last character first, without its editable end. *)
Fixpoint drop_editable (t : tty_struct) (r : list Z) : list Z :=
  match r with
  | c :: r' => if editable t c then drop_editable t r' else r
  | [] => []
  end.
Definition erase_last (t : tty_struct) (line : list Z) : list Z :=
  match reverse line with
  | c :: r => if editable t c then reverse r else line
  | [] => line
  end.
Definition erase_line (t : tty_struct) (line : list Z) : list Z :=
  reverse (drop_editable t (reverse line)).

(** What a received character becomes: [None] when it is ignored. *)
Definition received (t : tty_struct) (c : Z) : option Z :=
  if (c =? 13) && negb (I_CRNL t) && I_NOCR t then None
  else
    let c := if c =? 13 then (if I_CRNL t then 10 else 13)
             else if (c =? 10) && I_NLCR t then 13 else c in
    Some (if I_UCLC t && (65 <=? c) && (c <=? 90) then c + 32 else c).

(** The line after one received character. *)
Definition edit (t : tty_struct) (line : list Z) (c : Z) : list Z :=
  match received t c with
  | None => line
  | Some c =>
      if L_CANON t && (c =? KILL_CHAR t) then erase_line t line
      else if L_CANON t && (c =? ERASE_CHAR t) then erase_last t line
      else if L_CANON t && ((c =? STOP_CHAR t) || (c =? START_CHAR t)) then line
      else if L_ISIG t && ((c =? INTR_CHAR t) || (c =? QUIT_CHAR t)) then line
      else line ++ [c]
  end.

(** The number of line ends in a line. *)
Definition line_ends (t : tty_struct) (line : list Z) : Z :=
  Z.of_nat (length (filter (fun c => editable t c = false) line)).

(** A terminal's write routine that echoes: from good states of the output
    queue and the console it completes, and changes nothing but those. *)
Class EchoDevice {I : Type} (i : Z) (kind : tty_write_fn) (w : Z -> KM (tstate I) unit)
    (P : tty_queue -> Con.console -> Prop) := {
  echo_put q k c : 0 <= c < 128 -> c <> 27 -> P q k -> P (PUTCH c q) k;
  echo_write s t :
    array_get (tty_table s) i = Some t -> write t = kind -> P (write_q t) (con s) ->
    exists q s', w i s = Done tt s' /\
      array_get (tty_table s') i = Some (t ⟪ write_q := q ⟫) /\ kern s' = kern s /\
      P q (con s')
}.

Section discipline.
Context {I : Type} {D : Device} {i : Z} {kind : tty_write_fn} {w : Z -> KM (tstate I) unit}.
Context {P : tty_queue -> Con.console -> Prop} `{!EchoDevice i kind w P}.
Implicit Types (s : tstate I) (t : tty_struct).

(** The kernel's side: the terminal has a process group, and a wait queue
    holds tasks. *)
Record kern_ok (k : kernel I) : Prop := {
  kern_pgrp : is_Some (array_get (tty_pgrp k) i);
  kern_wait : forall p h, wait (ks k) !! p = Some h -> is_Some (slot (ks k) h)
}.
Record term_ok t s : Prop := {
  term_at : array_get (tty_table s) i = Some t;
  term_kind : write t = kind;
  term_rq : queue_ok (read_q t);
  term_sq : queue_ok (secondary t);
  term_out : P (write_q t) (con s);
  term_kern : kern_ok (kern s)
}.

Lemma wp_get_tty (Q : tty_struct -> tstate I -> Prop) t s : term_ok t s -> Q t s -> wp (get_tty i) Q s.
Proof.
  intros Hok HQ. unfold get_tty. apply wp_bind, wp_gets. unfold read_at.
  eapply wp_deref; [apply (term_at _ _ Hok)|done].
Qed.
Lemma wp_upd_tty f (Q : unit -> tstate I -> Prop) t s :
  term_ok t s ->
  write (f t) = kind -> queue_ok (read_q (f t)) -> queue_ok (secondary (f t)) ->
  P (write_q (f t)) (con s) ->
  (forall s', term_ok (f t) s' -> Q tt s') -> wp (upd_tty i f) Q s.
Proof.
  intros Hok ???? HQ. unfold upd_tty. apply wp_bind. eapply wp_get_tty; [done|].
  apply wp_modify, HQ. destruct Hok as [Hat ? ? ? ? ?]. split; try done. simpl.
  apply array_get_set_eq. by eapply array_get_Some_bound.
Qed.
Lemma wp_put_write c (Q : unit -> tstate I -> Prop) t s :
  term_ok t s -> 0 <= c < 128 -> c <> 27 ->
  (forall q s', term_ok (t ⟪ write_q := q ⟫) s' -> Q tt s') -> wp (put_write i c) Q s.
Proof.
  intros Hok ?? HQ. unfold put_write. eapply wp_upd_tty;
    [exact Hok|apply (term_kind _ _ Hok)|apply (term_rq _ _ Hok)|apply (term_sq _ _ Hok)| |].
  - simpl. exact (echo_put (w := w) _ _ _ ltac:(done) ltac:(done) (term_out _ _ Hok)).
  - intros s' Hok'. exact (HQ _ s' Hok').
Qed.
Lemma wp_echo_write (Q : unit -> tstate I -> Prop) t s :
  term_ok t s -> (forall q s', term_ok (t ⟪ write_q := q ⟫) s' -> Q tt s') -> wp (w i) Q s.
Proof.
  intros [Hat Hk ? ? Hout Hkern] HQ.
  destruct (echo_write s t Hat Hk Hout) as (q & s' & Hw & Hat' & Hkern' & Hout').
  unfold wp. rewrite Hw. apply (HQ q). split; try done. by rewrite Hkern'.
Qed.

(** One character is taken off the line. *)
Lemma wp_rub_out c r (Q : unit -> tstate I -> Prop) t s :
  term_ok t s -> contents (secondary t) = reverse (c :: r) ->
  (forall q sq s', term_ok (t ⟪ write_q := q ⟫ ⟪ secondary := sq ⟫) s' ->
    contents sq = reverse r -> data sq = data (secondary t) -> proc_list sq = proc_list (secondary t) -> Q tt s') ->
  wp (rub_out w i c) Q s.
Proof.
  intros Hok Hc HQ. rewrite reverse_cons in Hc.
  unfold rub_out. apply wp_bind. eapply wp_get_tty; [exact Hok|].
  assert (Hend : forall q s, term_ok (t ⟪ write_q := q ⟫) s ->
    wp (upd_tty i (fun t => t ⟪ secondary := (secondary t) ⟪ head := DEC (head (secondary t)) ⟫ ⟫)) Q s).
  { intros q s1 Hok1. destruct (contents_last _ _ _ (term_sq _ _ Hok1) Hc) as (_ & Hq & Hl).
    eapply wp_upd_tty;
      [exact Hok1|apply (term_kind _ _ Hok1)|apply (term_rq _ _ Hok1)|exact Hq|apply (term_out _ _ Hok1)|].
    intros s' Hok'. by eapply HQ. }
  apply wp_bind, wp_when; [|intros _; destruct t; by apply (Hend (write_q0))].
  intros _. apply wp_bind.
  assert (Hw : forall q s, term_ok (t ⟪ write_q := q ⟫) s ->
    wp (put_write i 127 ;; w i) (fun _ s' =>
      wp (upd_tty i (fun t => t ⟪ secondary := (secondary t) ⟪ head := DEC (head (secondary t)) ⟫ ⟫)) Q s') s).
  { intros q s1 Hok1. apply wp_bind. eapply wp_put_write; [exact Hok1|lia..|].
    intros q2 s2 Hok2. eapply wp_echo_write; [exact Hok2|].
    intros q3 s3 Hok3. by apply (Hend q3). }
  apply wp_when; intros _.
  - eapply wp_put_write; [exact Hok|lia..|]. intros q s1 Hok1. by apply (Hw q).
  - destruct t. by apply (Hw write_q0).
Qed.

Lemma last_editable_spec t r :
  queue_ok (secondary t) -> contents (secondary t) = reverse r ->
  last_editable t = match r with c :: _ => editable t c | [] => false end.
Proof.
  intros Hq Hc. unfold last_editable, editable. destruct r as [|c r].
  - by rewrite (proj2 (contents_nil _ Hq) Hc).
  - rewrite reverse_cons in Hc. destruct (contents_last _ _ _ Hq Hc) as (-> & _ & _).
    destruct (EMPTY (secondary t)) eqn:He; [|done].
    apply (contents_nil _ Hq) in He. rewrite He in Hc. by destruct (reverse r).
Qed.

Lemma drop_editable_ext t t' r : tios t' = tios t -> drop_editable t' r = drop_editable t r.
Proof.
  intros Ht. induction r as [|c r IH]; [done|]. simpl. rewrite IH.
  unfold editable, EOF_CHAR, cc. by rewrite Ht.
Qed.
Lemma wp_kill_line fuel r (Q : unit -> tstate I -> Prop) t s :
  term_ok t s -> contents (secondary t) = reverse r -> (length r < fuel)%nat ->
  (forall q sq s', term_ok (t ⟪ write_q := q ⟫ ⟪ secondary := sq ⟫) s' ->
    contents sq = reverse (drop_editable t r) -> data sq = data (secondary t) ->
    proc_list sq = proc_list (secondary t) -> Q tt s') ->
  wp (kill_line w fuel i) Q s.
Proof.
  revert r t s. induction fuel as [|fuel IH]; intros r t s Hok Hc Hf HQ; [lia|].
  unfold kill_line. simpl. apply wp_bind, wp_bind. eapply wp_get_tty; [exact Hok|].
  rewrite (last_editable_spec t r (term_sq _ _ Hok) Hc).
  destruct r as [|c r]; [|destruct (editable t c) eqn:He].
  - apply wp_ret, wp_ret. apply (HQ (write_q t) (secondary t)); try done. by destruct t.
  - destruct (contents_last (secondary t) (reverse r) c) as (-> & _ & _);
      [apply (term_sq _ _ Hok)|by rewrite <- reverse_cons|].
    apply wp_bind. eapply wp_rub_out; [exact Hok|done|].
    intros q sq s' Hok' Hc' Hd Hp. apply wp_ret. eapply IH; [exact Hok'|exact Hc'|simpl in Hf; lia|].
    intros q2 sq2 s2 Hok2 Hc2 Hd2 Hp2. simpl in Hd2, Hp2. rewrite Hd in Hd2. rewrite Hp in Hp2.
    rewrite (drop_editable_ext t) in Hc2 by done.
    apply (HQ q2 sq2); [exact Hok2| |done..]. simpl. rewrite He. exact Hc2.
  - apply wp_ret, wp_ret. apply (HQ (write_q t) (secondary t)); try done; [by destruct t|].
    simpl. by rewrite He.
Qed.

(** Upper case letters, from the table of [ctype.c]. *)
Lemma wp_tolower c (Q : Z -> tstate I -> Prop) s :
  0 <= c < 128 -> Q (if (65 <=? c) && (c <=? 90) then c + 32 else c) s -> wp (tolower c) Q s.
Proof.
  intros Hc HQ.
  assert (forall c, 0 <= c < 128 -> isupper c s = Done ((65 <=? c) && (c <=? 90)) s) as Hu.
  { clear. intros c Hc.
    assert (Forall (fun c => array_get _ctype (c + 1) <> None /\
      truth (Z.land (default 0 (array_get _ctype (c + 1))) _U) = (65 <=? c) && (c <=? 90)) (upto 128)) as Hall.
    { apply (bool_decide_unpack _). vm_compute. exact Logic.I. }
    rewrite List.Forall_forall in Hall.
    destruct (Hall c) as [Hn He]; [by apply list_elem_of_In, elem_of_upto|].
    unfold isupper, has_class, read_at. destruct (array_get _ctype (c + 1)); [|done].
    exact (f_equal (fun b => Done b s) He). }
  unfold tolower, wp, mbind, kbind. rewrite Hu by done. exact HQ.
Qed.
Lemma wp_translate c (Q : option Z -> tstate I -> Prop) t s :
  0 <= c < 128 -> Q (received t c) s -> wp (translate t c) Q s.
Proof.
  intros Hc HQ. unfold translate, received in *. destruct (_ && I_NOCR t); [done|].
  revert HQ. cbv zeta. set (c' := if c =? 13 then _ else _).
  assert (Hc' : 0 <= c' < 128) by (subst c'; repeat case_match; lia).
  destruct (I_UCLC t); simpl; [|by intros; apply wp_ret].
  intros HQ. apply wp_bind, wp_tolower; [done|]. by apply wp_ret.
Qed.
Lemma received_bound t c c' : 0 <= c < 128 -> received t c = Some c' -> 0 <= c' < 128.
Proof.
  unfold received. intros Hc. destruct (_ && I_NOCR t); [done|]. intros [= <-].
  set (c' := if c =? 13 then _ else _).
  assert (Hc' : 0 <= c' < 128) by (subst c'; repeat case_match; lia).
  clearbody c'. destruct (_ && _) eqn:He; [|done]. apply andb_prop in He as [_ He%Z.leb_le]. lia.
Qed.

Lemma wp_echo c (Q : unit -> tstate I -> Prop) t s :
  term_ok t s -> 0 <= c < 128 ->
  (forall q s', term_ok (t ⟪ write_q := q ⟫) s' -> Q tt s') -> wp (echo w i c) Q s.
Proof.
  intros Hok Hc HQ. unfold echo. apply wp_bind. eapply wp_get_tty; [exact Hok|]. apply wp_bind.
  assert (Hw : forall q s, term_ok (t ⟪ write_q := q ⟫) s -> wp (w i) Q s).
  { intros q s1 Hok1. eapply wp_echo_write; [exact Hok1|]. intros q2 s2 Hok2. by apply (HQ q2). }
  assert (Hself : wp (w i) Q s) by (destruct t; by apply (Hw write_q0)).
  assert (Htwo : forall a b, 0 <= a < 128 -> a <> 27 -> 0 <= b < 128 -> b <> 27 ->
    wp (put_write i a ;; put_write i b) (fun _ s => wp (w i) Q s) s).
  { intros a b Ha Ha' Hb Hb'. apply wp_bind. eapply wp_put_write; [exact Hok|done..|].
    intros q s1 Hok1. eapply wp_put_write; [exact Hok1|done..|].
    intros q2 s2 Hok2. by apply (Hw q2). }
  destruct (Z.eqb_spec c 10); [by apply Htwo|]. destruct (Z.ltb_spec c 32).
  - apply wp_when; [|done]. intros _. apply Htwo; try done; lia.
  - eapply wp_put_write; [exact Hok|lia..|]. intros q s1 Hok1. by apply (Hw q).
Qed.

(** Tasks keep their slots, and nobody joins a wait queue. *)
Definition calmer (k k' : sched) : Prop :=
  (forall j, is_Some (slot k j) -> is_Some (slot k' j)) /\
  (forall p h, wait k' !! p = Some h -> wait k !! p = Some h).
Definition with_sched (k : sched) s : tstate I := s ⟪ kern := (kern s) ⟪ ks := k ⟫ ⟫.

Lemma term_ok_calmer t s k : term_ok t s -> calmer (ks (kern s)) k -> term_ok t (with_sched k s).
Proof.
  intros [? ? ? ? ? [? Hw]] [Hs Hq]. split; try done. split; [done|].
  intros p h Hp. apply Hs, (Hw p), Hq, Hp.
Qed.
Lemma calmer_put k j (t u : task_struct) : slot k j = Some u -> calmer k (k ⟪ task := array_set (task k) j (Some t) ⟫).
Proof.
  intros Hu. split; [|done]. intros i' Hi'. destruct (decide (j = i')) as [<-|].
  - rewrite (slot_update k j u t Hu). done.
  - by rewrite slot_update_ne.
Qed.
Lemma wp_sched (m : KM sched unit) (Q : unit -> tstate I -> Prop) t s :
  term_ok t s -> wp m (fun _ k => calmer (ks (kern s)) k) (ks (kern s)) ->
  (forall s', term_ok t s' -> Q tt s') -> wp (on_kern (on_ks m)) Q s.
Proof.
  intros Hok Hm HQ. apply wp_zoom, wp_zoom. eapply wp_mono; [exact Hm|].
  intros [] k Hk. apply (HQ (with_sched k s)). by apply term_ok_calmer.
Qed.

(** The signal of an interrupt character changes tasks only. *)
Lemma wp_tty_intr mask (Q : unit -> tstate I -> Prop) t s :
  term_ok t s -> (forall s', term_ok t s' -> Q tt s') -> wp (tty_intr i mask) Q s.
Proof.
  intros Hok HQ. destruct (kern_pgrp _ (term_kern _ _ Hok)) as [g Hg].
  unfold tty_intr. apply wp_bind, wp_zoom, wp_bind, wp_gets. unfold read_at.
  eapply wp_deref; [exact Hg|].
  assert (s ⟪ kern := kern s ⟫ = s) as -> by (by destruct s).
  destruct (g <=? 0); [by apply wp_ret, HQ|].
  eapply wp_sched; [exact Hok| |exact HQ].
  apply (wp_for (fun _ _ k => calmer (ks (kern s)) k)); [by split| |done].
  intros _ j _ k [Hs Hw]. apply wp_bind, wp_gets.
  destruct (slot k j) as [u|] eqn:Hj; [|by split].
  apply wp_when; [|by split]. intros _. apply wp_modify.
  destruct (calmer_put k j (u ⟪ signal := s32 (Z.lor (signal u) mask) ⟫) u Hj) as [Hs2 Hw2].
  split; [by auto|]. intros p h Hp. by apply Hw, Hw2.
Qed.

Lemma wp_wake_up p (Q : unit -> tstate I -> Prop) t s :
  term_ok t s -> (forall s', term_ok t s' -> Q tt s') -> wp (on_kern (on_ks (wake_up p))) Q s.
Proof.
  intros Hok HQ. eapply wp_sched; [exact Hok| |exact HQ].
  unfold wake_up. apply wp_bind, wp_gets.
  destruct (wait (ks (kern s)) !! p) as [h|] eqn:Hp; [|by split].
  destruct (kern_wait _ (term_kern _ _ Hok) p h Hp) as [u Hu].
  apply wp_bind. unfold make_runnable, update_task, get_task.
  apply wp_bind, wp_bind, wp_gets. eapply wp_deref; [exact Hu|].
  apply wp_modify, wp_modify.
  destruct (calmer_put (ks (kern s)) h (u ⟪ Task.state := 0 ⟫) u Hu) as [Hs _].
  split; [exact Hs|]. simpl. intros p' h' [_ Hp']%lookup_delete_Some. exact Hp'.
Qed.

(** ** Line ends are never erased *)

Lemma line_ends_reverse t l : line_ends t (reverse l) = line_ends t l.
Proof.
  unfold line_ends. f_equal. apply Permutation_length, filter_Permutation, reverse_Permutation.
Qed.
Lemma line_ends_cons t c l : line_ends t (c :: l) = (if editable t c then 0 else 1) + line_ends t l.
Proof. unfold line_ends. rewrite filter_cons. destruct (editable t c); case_decide; simpl; try done; lia. Qed.
Lemma line_ends_snoc t c l : line_ends t (l ++ [c]) = line_ends t l + (if editable t c then 0 else 1).
Proof. rewrite <- line_ends_reverse, reverse_snoc, line_ends_cons, line_ends_reverse. lia. Qed.
Lemma line_ends_drop t r : line_ends t (drop_editable t r) = line_ends t r.
Proof.
  induction r as [|c r IH]; [done|]. simpl. rewrite line_ends_cons.
  destruct (editable t c) eqn:He; [lia|]. by rewrite line_ends_cons, He.
Qed.
Lemma drop_editable_length t r : (length (drop_editable t r) <= length r)%nat.
Proof. induction r as [|c r IH]; [done|]. simpl. destruct (editable t c); simpl; lia. Qed.

(** The terminal [t] with its line at [line]. *)
Definition line_is t (line : list Z) : Prop :=
  contents (secondary t) = line /\ data (secondary t) = u32 (line_ends t line).
(** Only output, the editing queue and [stopped] have changed. *)
Definition edits t t' : Prop := tios t' = tios t /\ read_q t' = read_q t.

Lemma edits_refl t : edits t t.
Proof. done. Qed.
Lemma line_ends_ext t t' l : tios t' = tios t -> line_ends t' l = line_ends t l.
Proof. intros Ht. unfold line_ends, editable, EOF_CHAR, cc. by rewrite Ht. Qed.

Lemma line_is_intro t t' line :
  tios t' = tios t -> contents (secondary t') = line ->
  data (secondary t') = u32 (line_ends t line) -> line_is t' line.
Proof. intros Ht Hc Hd. split; [done|]. by rewrite (line_ends_ext t). Qed.

Lemma wp_insert c line (Q : unit -> tstate I -> Prop) t s :
  term_ok t s -> line_is t line -> 0 <= c < 128 -> Z.of_nat (length line) < 1023 ->
  (forall t' s', term_ok t' s' -> edits t t' -> line_is t' (line ++ [c]) -> Q tt s') ->
  wp (kwhen ((c =? 10) || (c =? EOF_CHAR t))
      (upd_tty i (fun t => t ⟪ secondary := (secondary t) ⟪ data := u32 (data (secondary t) + 1) ⟫ ⟫)) ;;
    kwhen (L_ECHO t) (echo w i c) ;;
    upd_tty i (fun t => t ⟪ secondary := PUTCH c (secondary t) ⟫)) Q s.
Proof.
  intros Hok [Hl Hd] Hc Hlen HQ.
  set (d := u32 (line_ends t (line ++ [c]))).
  assert (Hput : forall q s, term_ok (t ⟪ write_q := q ⟫ ⟪ secondary := (secondary t) ⟪ data := d ⟫ ⟫) s ->
    wp (upd_tty i (fun t => t ⟪ secondary := PUTCH c (secondary t) ⟫)) Q s).
  { intros q s1 Hok1.
    eapply wp_upd_tty; [exact Hok1|apply (term_kind _ _ Hok1)|apply (term_rq _ _ Hok1)| |apply (term_out _ _ Hok1)|].
    { apply putch_ok, (term_sq _ _ Hok1). }
    intros s2 Hok2. eapply HQ; [exact Hok2|done|]. split.
    - cbn [secondary set_field]. rewrite contents_put; [|apply (term_sq _ _ Hok1)|].
      + change (contents (secondary t) ++ [s8 c] = line ++ [c]).
        rewrite Hl. f_equal. unfold s8. rewrite Z.mod_small by lia. f_equal. lia.
      + pose proof (length_contents (secondary t)) as Hn. rewrite Hl in Hn.
        change (CHARS (secondary t) < 1023). lia.
    - by rewrite (line_ends_ext t). }
  assert (Hecho : forall s, term_ok (t ⟪ secondary := (secondary t) ⟪ data := d ⟫ ⟫) s ->
    wp (kwhen (L_ECHO t) (echo w i c) ;;
      upd_tty i (fun t => t ⟪ secondary := PUTCH c (secondary t) ⟫)) Q s).
  { intros s1 Hok1. apply wp_bind, wp_when; intros _.
    - eapply wp_echo; [exact Hok1|done|]. intros q s2 Hok2. exact (Hput q s2 Hok2).
    - destruct t. by apply (Hput write_q0). }
  assert (Hed : editable t c = negb ((c =? 10) || (c =? EOF_CHAR t))) by done.
  apply wp_bind, wp_when; intros He.
  - eapply wp_upd_tty; [exact Hok|apply (term_kind _ _ Hok)|apply (term_rq _ _ Hok)| |apply (term_out _ _ Hok)|].
    { destruct (term_sq _ _ Hok). by split. }
    intros s1 Hok1. apply Hecho. subst d. rewrite line_ends_snoc, Hed, He. simpl negb. cbv iota.
    unfold u32. rewrite <- Zplus_mod_idemp_l. fold (u32 (line_ends t line)). rewrite <- Hd. exact Hok1.
  - apply Hecho. subst d. rewrite line_ends_snoc, Hed, He, Z.add_0_r, <- Hd. destruct t as [? ? ? ? ? []]. done.
Qed.

(** What a translated character does to the line. *)
Definition edit_char t (line : list Z) (c : Z) : list Z :=
  if L_CANON t && (c =? KILL_CHAR t) then erase_line t line
  else if L_CANON t && (c =? ERASE_CHAR t) then erase_last t line
  else if L_CANON t && ((c =? STOP_CHAR t) || (c =? START_CHAR t)) then line
  else if L_ISIG t && ((c =? INTR_CHAR t) || (c =? QUIT_CHAR t)) then line
  else line ++ [c].

Lemma edit_received t line c :
  edit t line c = match received t c with None => line | Some c => edit_char t line c end.
Proof. done. Qed.

Lemma wp_cook fuel c line (Q : unit -> tstate I -> Prop) t s :
  term_ok t s -> line_is t line -> 0 <= c < 128 ->
  Z.of_nat (length line) < 1023 -> (1023 < fuel)%nat ->
  (forall t' s', term_ok t' s' -> edits t t' -> line_is t' (edit_char t line c) -> Q tt s') ->
  wp (cook w fuel i c) Q s.
Proof.
  intros Hok [Hl Hd] Hc Hlen Hf HQ. unfold cook. apply wp_bind. eapply wp_get_tty; [exact Hok|].
  assert (Hrev : contents (secondary t) = reverse (reverse line)) by by rewrite reverse_involutive.
  unfold edit_char in HQ.
  destruct (L_CANON t && (c =? KILL_CHAR t)).
  { eapply wp_kill_line; [exact Hok|exact Hrev|rewrite length_reverse; lia|].
    intros q sq s' Hok' Hc' Hd' _. eapply HQ; [exact Hok'|done|]. eapply (line_is_intro t); [done|exact Hc'|].
    cbn [secondary set_field]. rewrite Hd', Hd. unfold erase_line.
    by rewrite line_ends_reverse, line_ends_drop, line_ends_reverse. }
  destruct (L_CANON t && (c =? ERASE_CHAR t)).
  { unfold erase_last in HQ. rewrite (last_editable_spec t (reverse line) (term_sq _ _ Hok) Hrev).
    destruct (reverse line) as [|c' r] eqn:Hr; [by eapply (HQ t)|].
    destruct (editable t c') eqn:He; [|by eapply (HQ t)].
    destruct (contents_last (secondary t) (reverse r) c') as (-> & _ & _);
      [apply (term_sq _ _ Hok)|by rewrite <- reverse_cons|].
    eapply wp_rub_out; [exact Hok|exact Hrev|].
    intros q sq s' Hok' Hc' Hd' _. eapply HQ; [exact Hok'|done|]. eapply (line_is_intro t); [done|exact Hc'|].
    cbn [secondary set_field]. rewrite Hd', Hd, line_ends_reverse.
    by rewrite <- (line_ends_reverse _ line), Hr, line_ends_cons, He. }
  assert (Hset : forall f, (forall t, tios (f t) = tios t /\ read_q (f t) = read_q t /\
      secondary (f t) = secondary t /\ write (f t) = write t /\ write_q (f t) = write_q t) ->
    (forall t' s', term_ok t' s' -> edits t t' -> line_is t' line -> Q tt s') ->
    wp (upd_tty i f) Q s).
  { intros f Hf' HQ'. destruct (Hf' t) as (H1 & H2 & H3 & H4 & H5). destruct (Hok).
    eapply wp_upd_tty; [exact Hok|congruence..|].
    intros s' Hok'. eapply HQ'; [exact Hok'|by split|]. split; rewrite H3; [done|].
    by rewrite (line_ends_ext t). }
  pose proof (fun Q => wp_insert c line Q t s Hok (conj Hl Hd) Hc Hlen) as Hins.
  destruct (L_CANON t); simpl in *.
  1: destruct (c =? STOP_CHAR t); simpl in *; [by apply Hset|].
  1: destruct (c =? START_CHAR t); simpl in *; [by apply Hset|].
  all: destruct (L_ISIG t); simpl in *; [|by apply Hins].
  all: destruct (c =? INTR_CHAR t); simpl in *;
    [eapply wp_tty_intr; [exact Hok|]; intros s' Hok'; by eapply (HQ t)|].
  all: destruct (c =? QUIT_CHAR t); simpl in *;
    [eapply wp_tty_intr; [exact Hok|]; intros s' Hok'; by eapply (HQ t)|by apply Hins].
Qed.

Lemma edit_char_ext t t' line c : tios t' = tios t -> edit_char t' line c = edit_char t line c.
Proof.
  intros Ht. unfold edit_char, erase_line, erase_last. rewrite (drop_editable_ext t) by done.
  unfold L_CANON, L_ISIG, _L_FLAG, KILL_CHAR, ERASE_CHAR, STOP_CHAR, START_CHAR, INTR_CHAR, QUIT_CHAR,
    editable, EOF_CHAR, cc. by rewrite Ht.
Qed.
Lemma edit_ext t t' line c : tios t' = tios t -> edit t' line c = edit t line c.
Proof.
  intros Ht. rewrite !edit_received. unfold received, I_CRNL, I_NOCR, I_NLCR, I_UCLC, _I_FLAG.
  rewrite Ht. case_match; [|done]. by apply edit_char_ext.
Qed.
Lemma edit_char_length t line c : (length (edit_char t line c) <= S (length line))%nat.
Proof.
  unfold edit_char, erase_line, erase_last.
  pose proof (drop_editable_length t (reverse line)) as Hd. rewrite length_reverse in Hd.
  destruct (_ && _); [rewrite length_reverse; lia|].
  destruct (_ && (c =? ERASE_CHAR t)).
  { destruct (reverse line) as [|c' r] eqn:Hr; [lia|]. destruct (editable t c'); [|lia].
    apply (f_equal length) in Hr. rewrite length_reverse in *. simpl in Hr. lia. }
  repeat case_match; rewrite ?length_app; simpl; lia.
Qed.

(** One turn of the loop. *)
Lemma wp_cooked_turn fuel c line input (Q : unit + unit -> tstate I -> Prop) t s :
  term_ok t s -> line_is t line -> contents (read_q t) = c :: input -> 0 <= c < 128 ->
  Z.of_nat (length line) < 1023 -> (1023 < fuel)%nat ->
  (forall t' s', term_ok t' s' -> tios t' = tios t -> contents (read_q t') = input ->
    line_is t' (edit t line c) -> Q (inl tt) s') ->
  wp (t ← get_tty i;
    if EMPTY (read_q t) || FULL (secondary t) then mret (inr tt)
    else
      let '(c, q) := GETCH (read_q t) in
      upd_tty i (fun t => t ⟪ read_q := q ⟫) ;;
      o ← translate t c;
      match o with
      | None => mret (inl tt)
      | Some c => cook w fuel i c ;; mret (inl tt)
      end) Q s.
Proof.
  intros Hok Hl Hin Hc Hlen Hf HQ. apply wp_bind. eapply wp_get_tty; [exact Hok|].
  assert (EMPTY (read_q t) = false) as ->.
  { destruct (EMPTY (read_q t)) eqn:He; [|done].
    apply (contents_nil _ (term_rq _ _ Hok)) in He. congruence. }
  assert (FULL (secondary t) = false) as ->.
  { rewrite full_chars, <- length_contents, (proj1 Hl). apply Z.eqb_neq. lia. }
  destruct (contents_get _ _ _ (term_rq _ _ Hok) Hin) as (q & Hg & Hq & Hcq & _).
  simpl orb. cbv iota. rewrite Hg. apply wp_bind.
  eapply wp_upd_tty; [exact Hok|apply (term_kind _ _ Hok)|exact Hq|apply (term_sq _ _ Hok)|
    apply (term_out _ _ Hok)|].
  intros s1 Hok1. apply wp_bind, wp_translate; [done|].
  destruct (received t c) as [c'|] eqn:Hr.
  - apply wp_bind. eapply (wp_cook fuel c' line); [exact Hok1|by destruct Hl; apply (line_is_intro t)|
      by eapply received_bound|done..|].
    intros t2 s2 Hok2 [Ht2 Hr2] Hl2. apply wp_ret. eapply HQ; [exact Hok2|done|by rewrite Hr2|].
    rewrite edit_received, Hr. by rewrite (edit_char_ext t) in Hl2.
  - apply wp_ret. eapply HQ; [exact Hok1|done|done|]. rewrite edit_received, Hr.
    by destruct Hl; apply (line_is_intro t).
Qed.

(** C30: [copy_to_cooked] is the line discipline.  When the terminal has
    received the characters [input] (7-bit ones) and the line being edited
    is [line], it completes with nothing left to read and the line edited
    by each character in turn: ordinary characters are appended, erase and
    kill take off the end of the line but never a finished line, control
    characters are translated, or swallowed; and [data] counts the line
    ends.  This holds for every device that echoes, because the device's
    routine is only known by its interface. *)
Theorem copy_to_cooked_edits fuel t line input s :
  term_ok t s -> line_is t line -> contents (read_q t) = input ->
  Forall (fun c => 0 <= c < 128) input ->
  (length line + length input <= 1023)%nat -> (1023 < fuel)%nat ->
  wp (copy_to_cooked w fuel i) (fun _ s' => exists t',
    array_get (tty_table s') i = Some t' /\ tios t' = tios t /\ contents (read_q t') = [] /\
    contents (secondary t') = foldl (edit t) line input /\
    data (secondary t') = u32 (line_ends t (foldl (edit t) line input))) s.
Proof.
  intros Hok Hl Hin Hascii Hlen Hf. unfold copy_to_cooked. apply wp_bind.
  assert (Hloop : forall n input line t' s, term_ok t' s -> tios t' = tios t -> line_is t' line ->
    contents (read_q t') = input -> Forall (fun c => 0 <= c < 128) input ->
    (length line + length input <= 1023)%nat -> (length input < n)%nat ->
    wp (kloop n (fun _ : unit =>
      t ← get_tty i;
      if EMPTY (read_q t) || FULL (secondary t) then mret (inr tt)
      else
        let '(c, q) := GETCH (read_q t) in
        upd_tty i (fun t => t ⟪ read_q := q ⟫) ;;
        o ← translate t c;
        match o with
        | None => mret (inl tt)
        | Some c => cook w fuel i c ;; mret (inl tt)
        end) tt)
    (fun _ s' => exists t', term_ok t' s' /\ tios t' = tios t /\ contents (read_q t') = [] /\
      line_is t' (foldl (edit t) line input)) s); cycle 1.
  { eapply wp_mono; [apply (Hloop fuel input line t s); try done; lia|].
    intros [] s' (t' & Hok' & Ht & Hr & Hl'). apply wp_bind. eapply wp_get_tty; [exact Hok'|].
    eapply wp_wake_up; [exact Hok'|]. intros s2 Hok2. exists t'.
    split; [apply (term_at _ _ Hok2)|]. destruct Hl' as [Hl1 Hl2].
    by rewrite (line_ends_ext t) in Hl2. }
  clear s line input Hok Hl Hin Hascii Hlen.
  induction n as [|n IH]; intros input line t' s Hok Ht Hl Hin Hascii Hlen Hn; [lia|].
  simpl. apply wp_bind. destruct input as [|c input].
  - apply wp_bind. eapply wp_get_tty; [exact Hok|].
    rewrite (proj2 (contents_nil _ (term_rq _ _ Hok)) Hin). apply wp_ret, wp_ret. by exists t'.
  - apply Forall_cons_iff in Hascii as [Hc Hascii]. simpl in *.
    eapply wp_cooked_turn; [exact Hok|exact Hl|exact Hin|done|lia|done|].
    intros t2 s2 Hok2 Ht2 Hr2 Hl2.
    pose proof (edit_char_length t line) as Hel.
    rewrite (edit_ext t) in Hl2 by done.
    apply (IH input _ t2 s2); [done|congruence|done|done|done| |lia].
    rewrite edit_received. destruct (received t c) as [c'|]; [specialize (Hel c')|]; lia.
Qed.
End discipline.

(** ** The two kinds of device *)

#[global] Instance rs_echo {I} {D : Device} i depth fuel :
  EchoDevice (I := I) i RS_WRITE (tty_write_call (S depth) fuel) (fun _ _ => True).
Proof.
  split; [done|]. intros s t Ht Hk _. exists (write_q t).
  assert (t ⟪ write_q := write_q t ⟫ = t) as -> by (by destruct t).
  unfold tty_write_call, get_tty, read_at, mbind, kbind, gets. rewrite Ht. simpl. rewrite Hk.
  unfold rs_write, get_tty, read_at, mbind, kbind, gets. rewrite Ht. simpl.
  destruct (negb (EMPTY (write_q t))); by eexists.
Qed.

(** Outside of an escape sequence, characters other than ESC leave the
    automaton where it is. *)
Section plain_console.
Import Con.
Implicit Types k : console.

Lemma state_gotoxy a b k : state (gotoxy a b k) = state k.
Proof. unfold gotoxy. by destruct (_ || _). Qed.
Lemma state_scrup k : state (scrup k) = state k.
Proof.
  unfold scrup. destruct (is_ega k); [|done]. destruct (_ && _); [|done].
  cbv zeta. by destruct (_ <? _).
Qed.
Lemma state_lf k : state (lf k) = state k.
Proof. unfold lf. destruct (u32 (y k + 1) <? bottom k); [done|apply state_scrup]. Qed.
Lemma state_wrap k : state (wrap k) = state k.
Proof. unfold wrap. by rewrite state_lf. Qed.
Lemma state_put c k : state (con_put c k) = state k.
Proof.
  unfold con_put. cbv zeta. destruct (video_num_columns k <=? x k); [|done].
  change (state (wrap k) = state k). apply state_wrap.
Qed.
Lemma state_tab k : state (con_tab k) = state k.
Proof. unfold con_tab. cbv zeta. destruct (_ <? _); [by rewrite state_wrap|done]. Qed.
Lemma state_plain {D : Device} e c k : c <> 27 -> state (con_plain e c k) = state k.
Proof.
  intros Hc. unfold con_plain. destruct (_ && _); [apply state_put|].
  destruct (Z.eqb_spec c 27); [done|]. destruct (_ || _); [apply state_lf|].
  destruct (c =? 13); [done|].
  destruct (c =? e); [unfold del; by destruct (truth _)|].
  destruct (c =? 8); [by destruct (truth _)|].
  destruct (c =? 9); [apply state_tab|]. by destruct (c =? 7).
Qed.
End plain_console.

(** The console's output queue holds no ESC, and no escape sequence is open. *)
Definition plain_output (q : tty_queue) (k : Con.console) : Prop :=
  queue_ok q /\ Forall (fun c => c <> 27) (contents q) /\ Con.state k = 0.

Lemma contents_put_full q c : queue_ok q -> CHARS q = 1023 -> contents (PUTCH c q) = [].
Proof.
  intros Hq Hn. apply contents_nil; [by apply putch_ok|]. rewrite empty_chars by by apply putch_ok.
  rewrite chars_mod in *. simpl. unfold INC. rewrite mask_mod, Zminus_mod_idemp_l.
  replace (head q + 1 - tail q) with (head q - tail q + 1) by lia.
  by rewrite <- Zplus_mod_idemp_l, Hn.
Qed.

Section console_device.
Context {I : Type} {D : Device}.
Implicit Types (s : tstate I) (t : tty_struct).

Definition con_at i t k s : tstate I := s ⟪ tty_table := array_set (tty_table s) i t ⟫ ⟪ con := k ⟫.

Lemma get_tty_run i t s : array_get (tty_table s) i = Some t -> get_tty i s = Done t s.
Proof. intros Ht. unfold get_tty, read_at, mbind, kbind, gets. by rewrite Ht. Qed.
Lemma upd_tty_run i t f s :
  array_get (tty_table s) i = Some t ->
  upd_tty i f s = Done tt (s ⟪ tty_table := array_set (tty_table s) i (f t) ⟫).
Proof. intros Ht. unfold upd_tty, mbind, kbind. by rewrite (get_tty_run i t). Qed.

Lemma con_write_char_run cooked i t c l s :
  array_get (tty_table s) i = Some t -> queue_ok (write_q t) -> contents (write_q t) = c :: l ->
  c <> 27 -> Con.state (con s) = 0 ->
  exists q, con_write_char cooked i s =
      Done tt (con_at i (t ⟪ write_q := q ⟫) (Con.con_plain (ERASE_CHAR t) c (con s)) s) /\
    queue_ok q /\ contents q = l.
Proof.
  intros Ht Hq Hc Hne Hst.
  destruct (contents_get _ _ _ Hq Hc) as (q & Hg & Hq' & Hl & _). exists q. split; [|done].
  unfold con_write_char, mbind, kbind. rewrite (get_tty_run i t) by done. rewrite Hg.
  rewrite (upd_tty_run i t) by done. unfold gets, modify, Con.con_char. simpl. by rewrite Hst.
Qed.

Lemma con_write_run cooked i t s :
  array_get (tty_table s) i = Some t -> plain_output (write_q t) (con s) ->
  wp (con_write cooked i) (fun _ s' => exists q,
    array_get (tty_table s') i = Some (t ⟪ write_q := q ⟫) /\ kern s' = kern s /\
    plain_output q (con s')) s.
Proof.
  intros Ht (Hq & Hne & Hst). unfold con_write. apply wp_bind.
  unfold wp, get_tty, read_at, mbind, kbind, gets. rewrite Ht. simpl.
  apply wp_bind.
  apply (wp_for (fun _ todo s' => exists q, array_get (tty_table s') i = Some (t ⟪ write_q := q ⟫) /\
    kern s' = kern s /\ plain_output q (con s') /\ length (contents q) = length todo)).
  - exists (write_q t). split; [by destruct t|]. split; [done|]. split; [done|].
    rewrite length_seqZ. pose proof (length_contents (write_q t)). lia.
  - intros _ k todo s1 (q & Ht1 & Hk1 & (Hq1 & Hne1 & Hst1) & Hlen).
    destruct (contents q) as [|c l] eqn:Hc; [done|].
    apply Forall_cons_iff in Hne1 as [Hc1 Hne1].
    destruct (con_write_char_run cooked i _ c l s1 Ht1 Hq1 Hc Hc1 Hst1) as (q2 & Hrun & Hq2 & Hl2).
    unfold wp. rewrite Hrun. exists q2. split.
    { simpl. apply array_get_set_eq. by eapply array_get_Some_bound. }
    split; [done|]. split; [|rewrite Hl2; by injection Hlen].
    split; [done|]. split; [by rewrite Hl2|]. simpl. by rewrite state_plain.
  - intros s1 (q & Ht1 & Hk1 & (Hq1 & Hne1 & Hst1) & Hlen). apply wp_modify. by exists q.
Qed.

#[global] Instance con_echo i depth fuel :
  EchoDevice (I := I) i CON_WRITE (tty_write_call (S depth) fuel) plain_output.
Proof.
  split.
  - intros q k c Hc Hne (Hq & Hf & Hst). split; [by apply putch_ok|]. split; [|done].
    pose proof (chars_bound q). destruct (decide (CHARS q = 1023)).
    + by rewrite contents_put_full.
    + rewrite contents_put by (done || lia). apply Forall_app. split; [done|].
      repeat constructor. unfold s8. rewrite Z.mod_small by lia. lia.
  - intros s t Ht Hk HP.
    destruct (proj1 (wp_run _ _ _) (con_write_run (copy_to_cooked (tty_write_call depth fuel) fuel) i t s Ht HP))
      as ([] & s' & Hrun & q & Hat & Hkern & Hout).
    exists q, s'. split; [|done]. cbn [tty_write_call]. unfold mbind, kbind.
    unfold get_tty, read_at, mbind, kbind, gets. rewrite Ht. simpl. by rewrite Hk.
Qed.
End console_device.

(** ** A line typed on the console: [ls], rubout, [t], newline *)

Definition demo_input : list Z := [108; 115; 127; 116; 10].
Definition demo_console : tty_struct :=
  Tty console_termios 0 CON_WRITE (foldl (fun q c => PUTCH c q) (empty_queue 0 1000) demo_input)
    (empty_queue 0 1001) (empty_queue 0 1002).
Definition demo_tty_kernel : kernel unit :=
  Kernel (Sched (Some ((INIT_TASK 0 0)) :: replicate 63 None) 0 0 0 None false [] [] ∅)
    (MM [] 0 ∅) 1 [] [] tt [0; 0; 0] ∅.
Definition demo_tty : tstate unit :=
  TState demo_tty_kernel (demo_console :: drop 1 tty_table0)
    (Con.con_init (D := silent_device) Con.demo_setup Con.console0) 0.

Lemma demo_term_ok : term_ok (i := 0) (kind := CON_WRITE) (P := plain_output) demo_console demo_tty.
Proof.
  split; [done|done|by split|by split|by split; [split|split; [vm_compute|]]|].
  split; [by exists 0|]. intros p h Hh.
  change ((∅ : gmap Z Z) !! p = Some h) in Hh. by rewrite lookup_empty in Hh.
Qed.

Lemma copy_to_cooked_edits_witness :
  contents (read_q demo_console) = demo_input /\
  wp (copy_to_cooked (tty_write_call (D := silent_device) 1 1024) 1024 0)
    (fun _ s' => exists t',
      array_get (tty_table s') 0 = Some t' /\ tios t' = console_termios /\ contents (read_q t') = [] /\
      contents (secondary t') = [108; 116; 10] /\ data (secondary t') = 1) demo_tty.
Proof.
  split; [by vm_compute|].
  apply (copy_to_cooked_edits (kind := CON_WRITE) (P := plain_output)
    (EchoDevice0 := con_echo (D := silent_device) 0 0 1024) 1024 demo_console [] demo_input demo_tty).
  - exact demo_term_ok.
  - split; vm_compute; reflexivity.
  - by vm_compute.
  - apply (bool_decide_unpack _). vm_compute. exact Logic.I.
  - cbn. lia.
  - lia.
Defined.
End LineDisc.
