(* ===== verification/TtyRead.v ===== *)
(** * Reading from a terminal

    [tty_read] when input is available: which characters it gives to the
    user, and how it spins on an unfinished line. *)

From S2P Require Import Prelude Ports Ctype Memory Task Sched Kernel Files Signal Console Tty LineDisc.

Module TtyRead.
Import Tty LineDisc.

(** Bytes written to user memory one after the other. *)
Fixpoint write_bytes (a : Z) (l : list Z) (m : gmap Z Z) : gmap Z Z :=
  match l with
  | [] => m
  | c :: l => write_bytes (a + 1) l (set_byte a c m)
  end.

(** What a request for [nr] characters takes from the line [l]: the
    characters, whether an end of file ended it, and what is left. *)
Fixpoint taken (t : tty_struct) (nr : nat) (l : list Z) : list Z * bool * list Z :=
  match nr, l with
  | S nr, c :: l =>
      if (c =? EOF_CHAR t) && L_CANON t then ([], true, l)
      else let '(a, e, r) := taken t nr l in (c :: a, e, r)
  | _, _ => ([], false, l)
  end.

(** A step whose run is known. *)
Lemma wp_eq {S A} (m : KM S A) Q (s : S) a s' : m s = Done a s' -> Q a s' -> wp m Q s.
Proof. unfold wp. by intros ->. Qed.

Section reading.
Context {I : Type} {D : Device} {O : Others (tstate I)}.
Variables (i bf base : Z).
Implicit Types (s : tstate I) (t : tty_struct).

(** [s] after a read: the terminal's queue and user memory have changed. *)
Definition after_read t q m s : tstate I :=
  s ⟪ tty_table := array_set (tty_table s) i (t ⟪ secondary := q ⟫) ⟫ ⟪ kern := (kern s) ⟪ user := m ⟫ ⟫.

Lemma put_fs_byte_run v a (k : kernel I) :
  user_base_is k base -> put_fs_byte v a k = Done tt (k ⟪ user := set_byte (base + a) v (user k) ⟫).
Proof.
  intros Hb. unfold put_fs_byte.
  assert (Hw : wp user_base (fun b k' => b = base /\ k' = k) k) by (by eapply wp_user_base).
  unfold wp in Hw. unfold mbind, kbind. destruct (user_base k) as [b k'| | | |]; try done.
  by destruct Hw as [-> ->].
Qed.

Lemma eol_editable t c : (c =? EOF_CHAR t) || (c =? 10) = negb (editable t c).
Proof. unfold editable. by rewrite negb_involutive, orb_comm. Qed.

Lemma line_is_tail t c l q :
  queue_ok q -> contents q = l -> data q = u32 (line_ends t (c :: l)) ->
  line_is (t ⟪ secondary := if (c =? EOF_CHAR t) || (c =? 10) then q ⟪ data := u32 (data q - 1) ⟫ else q ⟫) l.
Proof.
  intros Hq Hc Hd. apply (line_is_intro t); [done| |]; cbn [secondary set_field].
  - by destruct (_ || _).
  - rewrite eol_editable. rewrite line_ends_cons in Hd.
    destruct (editable t c); simpl; [done|]. rewrite Hd.
    unfold u32. rewrite Zminus_mod_idemp_l. f_equal. lia.
Qed.

Lemma taken_ext t t' nr l : tios t' = tios t -> taken t' nr l = taken t nr l.
Proof.
  intros Ht. revert nr. induction l as [|c l IH]; intros [|nr]; try done. simpl. rewrite IH.
  unfold EOF_CHAR, cc, L_CANON, _L_FLAG. by rewrite Ht.
Qed.
Lemma after_read_twice t q q' m m' s :
  after_read (t ⟪ secondary := q' ⟫) q m (after_read t q' m' s) = after_read t q m s.
Proof. unfold after_read. simpl. by rewrite array_set_set. Qed.

Lemma wp_read_chars l : forall fuel nr b t s,
  array_get (tty_table s) i = Some t -> queue_ok (secondary t) -> line_is t l -> l <> [] ->
  user_base_is (kern s) base -> (length l <= fuel)%nat -> (0 < nr)%nat ->
  wp (kloop fuel (fun '(b, nr) =>
    t ← get_tty i;
    let '(c, q) := GETCH (secondary t) in
    let eol := (c =? EOF_CHAR t) || (c =? 10) in
    upd_tty i (fun t => t ⟪ secondary := if eol then q ⟪ data := u32 (data q - 1) ⟫ else q ⟫) ;;
    if (c =? EOF_CHAR t) && L_CANON t then mret (inr (inl b))
    else
      on_kern (put_fs_byte c (bf + b)) ;;
      t ← get_tty i;
      if (0 <? nr - 1) && negb (EMPTY (secondary t)) then mret (inl (b + 1, nr - 1))
      else mret (inr (inr (b + 1, nr - 1)))) (b, Z.of_nat nr))
  (fun r s' => let '(a, e, rest) := taken t nr l in
    r = (if e : bool then inl (b + Z.of_nat (length a))
         else inr (b + Z.of_nat (length a), Z.of_nat nr - Z.of_nat (length a))) /\
    exists q, s' = after_read t q (write_bytes (base + (bf + b)) a (user (kern s))) s /\
      queue_ok q /\ line_is (t ⟪ secondary := q ⟫) rest) s.
Proof.
  induction l as [|c l IH]; intros fuel nr b t s Ht Hq [Hc Hd] Hne Hb Hf Hnr; [done|].
  destruct fuel as [|fuel]; [simpl in Hf; lia|]. destruct nr as [|nr]; [lia|].
  destruct (contents_get _ _ _ Hq Hc) as (q & Hg & Hq' & Hcq & Hdq & _).
  set (q' := if (c =? EOF_CHAR t) || (c =? 10) then q ⟪ data := u32 (data q - 1) ⟫ else q).
  assert (Hl' : line_is (t ⟪ secondary := q' ⟫) l) by (apply line_is_tail; [done|done|congruence]).
  assert (Hqq : queue_ok q') by (subst q'; destruct (_ || _); [destruct Hq'; by split|done]).
  unfold wp. rewrite kloop_S. unfold mbind, kbind. rewrite (get_tty_run i t) by done. rewrite Hg.
  rewrite (upd_tty_run i t) by done. fold q'.
  set (s1 := s ⟪ tty_table := array_set (tty_table s) i (t ⟪ secondary := q' ⟫) ⟫).
  cbn [taken]. destruct ((c =? EOF_CHAR t) && L_CANON t).
  { cbn. split; [f_equal; lia|]. exists q'. split; [by destruct s as [[]]|done]. }
  unfold on_kern. rewrite (zoom_Done _ _ _ _ _ _ (put_fs_byte_run c (bf + b) (kern s1) Hb)).
  set (m1 := set_byte (base + (bf + b)) c (user (kern s1))).
  assert (Hs2 : s1 ⟪ kern := (kern s1) ⟪ user := m1 ⟫ ⟫ = after_read t q' m1 s) by done.
  rewrite Hs2.
  assert (Ht2 : array_get (tty_table (after_read t q' m1 s)) i = Some (t ⟪ secondary := q' ⟫)).
  { simpl. apply array_get_set_eq. by eapply array_get_Some_bound. }
  rewrite (get_tty_run i _ _ Ht2).
  change (EMPTY (secondary (t ⟪ secondary := q' ⟫))) with (EMPTY q').
  assert (He : EMPTY q' = true <-> l = []) by (rewrite (contents_nil q' Hqq); destruct Hl' as [<- _]; done).
  replace (Z.of_nat (S nr) - 1) with (Z.of_nat nr) by lia.
  assert (Hstop : nr = 0%nat \/ l = [] -> taken t nr l = ([], false, l)).
  { intros [->| ->]; [done|]. by destruct nr. }
  destruct ((0 <? Z.of_nat nr) && negb (EMPTY q')) eqn:Hgo.
  - apply andb_prop in Hgo as [Hn%Z.ltb_lt Hemp%negb_true_iff].
    assert (l <> []) as Hl by (intros Hl; apply He in Hl; congruence).
    eapply wp_mono.
    { apply (IH fuel nr (b + 1) _ _ Ht2 Hqq Hl' Hl Hb); [simpl in Hf; lia|lia]. }
    intros r s' Hr. cbn beta in Hr |- *. rewrite (taken_ext t) in Hr by done.
    destruct (taken t nr l) as [[a e] rest]. destruct Hr as (-> & q2 & -> & Hq2 & Hl2).
    split; [destruct e; simpl length; f_equal; [lia|apply f_equal2; lia]|].
    exists q2. rewrite after_read_twice. split; [|done]. cbn [write_bytes].
    f_equal. by replace (base + (bf + (b + 1))) with (base + (bf + b) + 1) by lia.
  - cbn [mret kret]. rewrite Hstop.
    + simpl length. split; [f_equal; apply f_equal2; lia|]. by exists q'.
    + apply andb_false_iff in Hgo as [Hn%Z.ltb_ge|Hemp%negb_false_iff]; [lia|right; by apply He].
Qed.

Lemma on_current_run (u : task_struct) s :
  current_is (kern s) u -> on_kern current_task s = Done u s.
Proof.
  intros Hu. unfold on_kern. rewrite (zoom_Done _ _ _ _ _ _ (current_task_run _ _ Hu)).
  by destruct s.
Qed.
Lemma get_signal_run u s : current_is (kern s) u -> get_signal s = Done (signal u) s.
Proof. intros Hu. unfold get_signal, mbind, kbind. by rewrite (on_current_run u). Qed.
(** Leaving the loop without a signal, with the alarm as it was. *)
Lemma read_end_run u b s :
  current_is (kern s) u -> signal u = 0 -> read_end (alarm u) b s = Done b s.
Proof.
  intros Hu Hs. unfold read_end, set_alarm, mbind, kbind, on_kern.
  rewrite (zoom_Done _ _ _ _ _ _ (set_current_run _ u _ Hu)).
  assert (u ⟪ alarm := alarm u ⟫ = u) as -> by (by destruct u).
  rewrite (with_current_same _ _ Hu). assert (s ⟪ kern := kern s ⟫ = s) as -> by (by destruct s).
  rewrite (get_signal_run u) by done. by rewrite Hs.
Qed.

(** A reader in canonical mode without a time limit comes to its loop. *)
Lemma tty_read_enter fuel nr t u s :
  0 <= i <= 2 -> 0 < nr -> array_get (tty_table s) i = Some t ->
  current_is (kern s) u -> cc VTIME t = 0 ->
  exists minimum, tty_read fuel i bf nr s =
    kloop fuel (read_turn fuel i bf 0 minimum (alarm u)) (0, nr, false) s.
Proof.
  intros Hi Hnr Ht Hu Htime. exists (if nr <? cc VMIN t then nr else cc VMIN t).
  unfold tty_read. rewrite (proj2 (Z.ltb_ge 2 i)), (proj2 (Z.ltb_ge nr 0)) by lia.
  unfold mbind, kbind. cbn [orb]. cbv iota. rewrite (get_tty_run i t) by done.
  rewrite (on_current_run u) by done. by rewrite Htime.
Qed.

Lemma taken_some t n l a rest : (0 < n)%nat -> l <> [] -> taken t n l = (a, false, rest) -> a <> [].
Proof.
  destruct n as [|n], l as [|c l]; try done; [lia|]. intros _ _. simpl. destruct (_ && _); [done|].
  destruct (taken t n l) as [[a' e] r]. by intros [= <- _ _].
Qed.

(** C31: In canonical mode, with a finished line in the queue and no signal
    pending, [tty_read] gives the user the queue's characters up to the
    number asked for or up to an end of file, takes exactly those (and the
    end of file) off the queue, and returns their number; the kernel's
    other state does not change.  It does not stop at the end of a line:
    all the lines that are available are returned together. *)
Theorem tty_read_takes fuel nr t u l s :
  0 <= i <= 2 -> 0 < nr -> array_get (tty_table s) i = Some t -> queue_ok (secondary t) ->
  line_is t l -> 0 < line_ends t l -> user_base_is (kern s) base -> current_is (kern s) u ->
  signal u = 0 -> cc VTIME t = 0 -> L_CANON t = true -> (0 < fuel)%nat ->
  wp (tty_read fuel i bf nr) (fun r s' => let '(a, e, rest) := taken t (Z.to_nat nr) l in
    r = Z.of_nat (length a) /\
    exists q, s' = after_read t q (write_bytes (base + bf) a (user (kern s))) s /\
      queue_ok q /\ line_is (t ⟪ secondary := q ⟫) rest) s.
Proof.
  intros Hi Hnr Ht Hq Hl Hends Hb Hu Hsig Htime Hcan Hf.
  destruct (tty_read_enter fuel nr t u s Hi Hnr Ht Hu Htime) as [minimum Henter].
  unfold wp. rewrite Henter. destruct fuel as [|fuel]; [lia|].
  change (wp (kloop (S fuel) (read_turn (S fuel) i bf 0 minimum (alarm u)) (0, nr, false))
    (fun r s' => let '(a, e, rest) := taken t (Z.to_nat nr) l in
    r = Z.of_nat (length a) /\
    exists q, s' = after_read t q (write_bytes (base + bf) a (user (kern s))) s /\
      queue_ok q /\ line_is (t ⟪ secondary := q ⟫) rest) s).
  assert (Hne : l <> []) by (by intros ->).
  assert (Hlen : Z.of_nat (length l) < 1024).
  { rewrite <- (proj1 Hl), length_contents. apply chars_bound. }
  assert (Hemp : EMPTY (secondary t) = false).
  { destruct (EMPTY (secondary t)) eqn:He; [|done]. apply (contents_nil _ Hq) in He.
    destruct Hl as [Hl _]. congruence. }
  assert (line_ends t l <= Z.of_nat (length l)).
  { unfold line_ends. pose proof (length_filter (fun c => editable t c = false) l). lia. }
  simpl kloop. apply wp_bind. unfold read_turn at 1. rewrite (proj2 (Z.leb_gt nr 0)) by lia.
  apply wp_bind. eapply wp_eq; [by apply (get_signal_run u)|]. rewrite Hsig. cbn [andb truth Z.eqb negb].
  cbv iota. apply wp_bind. eapply wp_eq; [by apply (get_tty_run i t)|].
  rewrite Hemp, (proj2 Hl), u32_small by lia. rewrite (proj2 (truth_true _)) by lia. rewrite andb_false_r.
  cbn [orb andb]. cbv iota. apply wp_bind. unfold read_chars.
  pose proof (wp_read_chars l 1024 (Z.to_nat nr) 0 t s Ht Hq Hl Hne Hb ltac:(lia) ltac:(lia)) as Hrun.
  rewrite Z2Nat.id in Hrun by lia. rewrite Z.add_0_r in Hrun.
  eapply wp_mono; [exact Hrun|]. intros r s' Hr. cbn beta in Hr |- *.
  destruct (taken t (Z.to_nat nr) l) as [[a e] rest] eqn:Htk.
  destruct Hr as (-> & q & -> & Hq' & Hl'). destruct e; [apply wp_ret, wp_ret; split; [lia|by exists q]|].
  assert (Ha : a <> []) by (eapply taken_some; [|exact Hne|exact Htk]; lia).
  assert (Hat : array_get (tty_table (after_read t q (write_bytes (base + bf) a (user (kern s))) s)) i
    = Some (t ⟪ secondary := q ⟫)).
  { simpl. apply array_get_set_eq. by eapply array_get_Some_bound. }
  apply wp_bind. eapply wp_eq; [exact (get_tty_run i _ _ Hat)|]. apply wp_bind, wp_ret.
  change (L_CANON (t ⟪ secondary := q ⟫)) with (L_CANON t). rewrite Hcan.
  rewrite (proj2 (truth_true _)) by (destruct a; [done|simpl; lia]).
  apply wp_bind. eapply wp_eq; [by apply (read_end_run u)|]. apply wp_ret, wp_ret.
  split; [lia|by exists q].
Qed.

(** C32: A reader in canonical mode that finds an unfinished line (some
    input, but no line end, and more than 20 places left in the queue) does
    not sleep: [sleep_if_empty] returns at once because the queue is not
    empty, and the loop goes round for ever in kernel mode.  However many
    turns it is given, [tty_read] does not return as long as no interrupt
    brings the rest of the line or a signal. *)
Theorem tty_read_spins_on_partial_line fuel nr t u l s :
  0 <= i <= 2 -> 0 < nr -> array_get (tty_table s) i = Some t -> queue_ok (secondary t) ->
  line_is t l -> l <> [] -> line_ends t l = 0 -> 20 < LEFT (secondary t) ->
  current_is (kern s) u -> signal u = 0 -> cc VTIME t = 0 -> L_CANON t = true ->
  tty_read fuel i bf nr s = NoFuel.
Proof.
  intros Hi Hnr Ht Hq Hl Hne Hends Hleft Hu Hsig Htime Hcan.
  destruct (tty_read_enter fuel nr t u s Hi Hnr Ht Hu Htime) as [minimum ->].
  assert (Hemp : EMPTY (secondary t) = false).
  { destruct (EMPTY (secondary t)) eqn:He; [|done]. apply (contents_nil _ Hq) in He.
    destruct Hl as [Hl _]. congruence. }
  assert (Hsleep : forall n, sleep_if_empty (S n) secondary i s = Done tt s).
  { intros n. unfold sleep_if_empty. rewrite kloop_S. unfold mbind, kbind.
    rewrite (on_current_run u) by done. rewrite (get_tty_run i t) by done.
    by rewrite Hsig, Hemp. }
  assert (Hturn : forall n, read_turn (S n) i bf 0 minimum (alarm u) (0, nr, false) s
    = Done (inl (0, nr, false)) s).
  { intros n. unfold read_turn. rewrite (proj2 (Z.leb_gt nr 0)) by lia. unfold mbind, kbind.
    rewrite (get_signal_run u) by done. rewrite Hsig. cbn [andb truth Z.eqb negb]. cbv iota.
    rewrite (get_tty_run i t) by done. rewrite Hemp, Hcan, (proj2 Hl), Hends.
    rewrite (proj2 (Z.ltb_lt 20 (LEFT (secondary t)))) by done.
    change (truth (u32 0)) with false. cbn [andb orb negb]. cbv iota.
    by rewrite Hsleep. }
  destruct fuel as [|fuel]; [done|].
  generalize (S fuel) at 1. intros n. revert n. induction n as [|n IH]; [done|].
  rewrite kloop_S, Hturn. exact IH.
Qed.
End reading.

(** The console with the line [lt], finished or not, in its queue. *)
Definition demo_line (l : list Z) : tstate unit :=
  TState (demo_tty_kernel ⟪ ks := Sched (Some (INIT_TASK 0 0) :: replicate 63 None) 0 0 0 None false [] [] ∅ ⟫)
    (Tty console_termios 0 CON_WRITE (empty_queue 0 1000) (empty_queue 0 1001)
       (foldl (fun q c => PUTCH c q) (empty_queue (line_ends demo_console l) 1002) l) :: drop 1 tty_table0)
    (Con.con_init (D := silent_device) Con.demo_setup Con.console0) 0.
Definition demo_terminal (l : list Z) : tty_struct :=
  Tty console_termios 0 CON_WRITE (empty_queue 0 1000) (empty_queue 0 1001)
    (foldl (fun q c => PUTCH c q) (empty_queue (line_ends demo_console l) 1002) l).
#[local] Instance no_others : Others (tstate unit) := mret tt.

Lemma tty_read_takes_witness :
  wp (tty_read 1 0 0x500 80) (fun r s' => r = 3 /\
    exists q, s' = after_read 0 (demo_terminal [108; 116; 10]) q
        (write_bytes 0x500 [108; 116; 10] ∅) (demo_line [108; 116; 10]) /\
      queue_ok q /\ line_is ((demo_terminal [108; 116; 10]) ⟪ secondary := q ⟫) [])
    (demo_line [108; 116; 10]).
Proof.
  apply (tty_read_takes 0 0x500 0 1 80 (demo_terminal [108; 116; 10]) (INIT_TASK 0 0) [108; 116; 10]);
    try lia; try reflexivity.
  - split; [vm_compute; split; congruence|vm_compute; split; congruence|vm_compute; reflexivity].
  - split; vm_compute; reflexivity.
  - eexists _, _. split; [reflexivity|]. split; [reflexivity|]. vm_compute. reflexivity.
Defined.

Lemma tty_read_spins_on_partial_line_witness :
  tty_read 1000 0 0x500 80 (demo_line [108; 116]) = NoFuel.
Proof.
  apply (tty_read_spins_on_partial_line 0 0x500 1000 80 (demo_terminal [108; 116]) (INIT_TASK 0 0) [108; 116]);
    try lia; try reflexivity; try discriminate.
  - split; [vm_compute; split; congruence|vm_compute; split; congruence|vm_compute; reflexivity].
  - split; vm_compute; reflexivity.
Defined.
End TtyRead.
