(* ===== verification/FsData.v ===== *)
(** * The data of the file system ([include/linux/fs.h], [sys/stat.h],
      [fcntl.h], [const.h])

    Inodes and superblocks in memory, and the layouts of the structures that
    are kept in blocks: inodes, directory entries and the superblock, read
    from and written to lists of bytes. *)

From S2P Require Import Prelude.

Module FsData.

Definition NAME_LEN : Z := 14.
Definition ROOT_INO : Z := 1.
Definition I_MAP_SLOTS : Z := 8.
Definition Z_MAP_SLOTS : Z := 8.
Definition SUPER_MAGIC : Z := 0x137F.
Definition NR_INODE : Z := 32.
Definition NR_SUPER : Z := 8.
Definition INODES_PER_BLOCK : Z := 32.        (* 1024 / 32 *)
Definition DIR_ENTRIES_PER_BLOCK : Z := 64.   (* 1024 / 16 *)

(** ** Modes and flags *)
Definition S_IFMT : Z := 0xF000.
Definition S_ISREG (m : Z) : bool := Z.land m S_IFMT =? 0x8000.
Definition S_ISBLK (m : Z) : bool := Z.land m S_IFMT =? 0x6000.
Definition S_ISDIR (m : Z) : bool := Z.land m S_IFMT =? 0x4000.
Definition S_ISCHR (m : Z) : bool := Z.land m S_IFMT =? 0x2000.
Definition S_ISVTX : Z := 0x200.
Definition I_DIRECTORY : Z := 0x4000.
Definition I_REGULAR : Z := 0x8000.
Definition O_ACCMODE : Z := 3.
Definition O_WRONLY : Z := 1.
Definition O_CREAT : Z := 0x40.
Definition O_EXCL : Z := 0x80.
Definition O_TRUNC : Z := 0x200.

(** ** Structures in memory *)

(** [struct m_inode] *)
Record m_inode : Type := MInode {
  i_mode : Z; i_uid : Z; i_size : Z; i_mtime : Z; i_gid : Z; i_nlinks : Z; i_zone : list Z;
  i_atime : Z; i_ctime : Z; i_dev : Z; i_num : Z; i_count : Z;
  i_lock : Z; i_dirt : Z; i_pipe : Z; i_mount : Z; i_seek : Z; i_update : Z
}.
#[global] Instance m_inode_rebuild : Rebuild m_inode := fun i =>
  MInode (i_mode i) (i_uid i) (i_size i) (i_mtime i) (i_gid i) (i_nlinks i) (i_zone i)
    (i_atime i) (i_ctime i) (i_dev i) (i_num i) (i_count i)
    (i_lock i) (i_dirt i) (i_pipe i) (i_mount i) (i_seek i) (i_update i).
(** [memset(inode,0,sizeof( *inode))] *)
Definition zero_inode : m_inode := MInode 0 0 0 0 0 0 (replicate 9 0) 0 0 0 0 0 0 0 0 0 0 0.

(** [struct super_block]; the maps are lists of eight buffers. *)
Record super_block : Type := SuperBlock {
  s_ninodes : Z; s_nzones : Z; s_imap_blocks : Z; s_zmap_blocks : Z; s_firstdatazone : Z;
  s_log_zone_size : Z; s_max_size : Z; s_magic : Z;
  s_imap : list (option Z); s_zmap : list (option Z);
  s_dev : Z; s_isup : option Z; s_imount : option Z; s_time : Z;
  s_lock : Z; s_rd_only : Z; s_dirt : Z
}.
#[global] Instance super_block_rebuild : Rebuild super_block := fun s =>
  SuperBlock (s_ninodes s) (s_nzones s) (s_imap_blocks s) (s_zmap_blocks s) (s_firstdatazone s)
    (s_log_zone_size s) (s_max_size s) (s_magic s) (s_imap s) (s_zmap s)
    (s_dev s) (s_isup s) (s_imount s) (s_time s) (s_lock s) (s_rd_only s) (s_dirt s).

(** The tables of the file system, and its static variables. *)
Record fsdata : Type := FsTables {
  inode_table : list m_inode;
  last_inode : Z;
  super_blocks : list super_block;
  ROOT_DEV : Z
}.
#[global] Instance fsdata_rebuild : Rebuild fsdata := fun s =>
  FsTables (inode_table s) (last_inode s) (super_blocks s) (ROOT_DEV s).
Definition no_fsdata : fsdata := FsTables [] 0 [] 0.

(** ** Structures in blocks *)

Definition get8 (l : list Z) (o : Z) : Z := default 0 (array_get l o).
Definition get16 (l : list Z) (o : Z) : Z := get8 l o + 256 * get8 l (o + 1).
Definition get32 (l : list Z) (o : Z) : Z := get16 l o + 65536 * get16 l (o + 2).
Definition put8 (o v : Z) (l : list Z) : list Z := array_set l o (u8 v).
Definition put16 (o v : Z) (l : list Z) : list Z := put8 (o + 1) (v / 256) (put8 o v l).
Definition put32 (o v : Z) (l : list Z) : list Z := put16 (o + 2) (v / 65536) (put16 o v l).

(** [struct d_inode] at offset [o] of a block, into and from the first part
    of an inode. *)
Definition get_d_inode (l : list Z) (o : Z) (i : m_inode) : m_inode :=
  i ⟪ i_mode := get16 l o ⟫ ⟪ i_uid := get16 l (o + 2) ⟫ ⟪ i_size := get32 l (o + 4) ⟫
    ⟪ i_mtime := get32 l (o + 8) ⟫ ⟪ i_gid := get8 l (o + 12) ⟫ ⟪ i_nlinks := get8 l (o + 13) ⟫
    ⟪ i_zone := map (fun k => get16 l (o + 14 + 2 * k)) (upto 9) ⟫.
Definition put_d_inode (o : Z) (i : m_inode) (l : list Z) : list Z :=
  let l := put16 o (i_mode i) l in
  let l := put16 (o + 2) (i_uid i) l in
  let l := put32 (o + 4) (i_size i) l in
  let l := put32 (o + 8) (i_mtime i) l in
  let l := put8 (o + 12) (i_gid i) l in
  let l := put8 (o + 13) (i_nlinks i) l in
  fold_left (fun l k => put16 (o + 14 + 2 * k) (default 0 (array_get (i_zone i) k)) l) (upto 9) l.

(** [struct d_super_block] at the start of a block. *)
Definition get_d_super (l : list Z) (s : super_block) : super_block :=
  s ⟪ s_ninodes := get16 l 0 ⟫ ⟪ s_nzones := get16 l 2 ⟫ ⟪ s_imap_blocks := get16 l 4 ⟫
    ⟪ s_zmap_blocks := get16 l 6 ⟫ ⟪ s_firstdatazone := get16 l 8 ⟫ ⟪ s_log_zone_size := get16 l 10 ⟫
    ⟪ s_max_size := get32 l 12 ⟫ ⟪ s_magic := get16 l 16 ⟫.

(** [struct dir_entry] number [k] of a block. *)
Definition de_inode (l : list Z) (k : Z) : Z := get16 l (16 * k).
Definition de_name (l : list Z) (k j : Z) : Z := get8 l (16 * k + 2 + j).
Definition put_de_inode (k v : Z) (l : list Z) : list Z := put16 (16 * k) v l.
Definition put_de_name (k j v : Z) (l : list Z) : list Z := put8 (16 * k + 2 + j) v l.

(** ** Bit maps ([bts], [btr], [bt] and [bsf] on a block) *)

Definition get_bit (nr : Z) (l : list Z) : bool := Z.testbit (get8 l (nr / 8)) (nr mod 8).
(** The new block and the old bit. *)
Definition set_bit (nr : Z) (l : list Z) : list Z * bool :=
  (put8 (nr / 8) (Z.lor (get8 l (nr / 8)) (Z.shiftl 1 (nr mod 8))) l, get_bit nr l).
(** The new block and the complement of the old bit. *)
Definition clear_bit (nr : Z) (l : list Z) : list Z * bool :=
  (put8 (nr / 8) (Z.land (get8 l (nr / 8)) (Z.lnot (Z.shiftl 1 (nr mod 8)))) l, negb (get_bit nr l)).
(** The first zero bit: longword by longword, 8192 when there is none. *)
Fixpoint lowest_bit (n : nat) (k x : Z) : option Z :=
  match n with
  | O => None
  | S n => if Z.testbit x k then Some k else lowest_bit n (k + 1) x
  end.
Fixpoint find_zero_from (n : nat) (ecx : Z) (l : list Z) : Z :=
  match n with
  | O => ecx
  | S n =>
      match lowest_bit 32 0 (4294967295 - get32 l (ecx / 8)) with
      | Some k => ecx + k
      | None => find_zero_from n (ecx + 32) l
      end
  end.
Definition find_first_zero (l : list Z) : Z := find_zero_from 256 0 l.
End FsData.
