(* ===== verification/Block.v ===== *)
(** * Block requests and the ramdisk ([kernel/blk_drv/ll_rw_blk.c],
      [kernel/blk_drv/blk.h], [kernel/blk_drv/ramdisk.c])

    Buffer heads and requests are named by their index in the array they
    live in.  The data of a buffer, the block of 1024 bytes that [b_data]
    points to, is kept in its head.  The drivers of the other devices are a
    parameter ([Drivers]); so is what happens while a task sleeps
    ([Sleeps]).  The state also holds the tables of inodes and superblocks,
    which the cache reaches through [sync_inodes].  Wake-ups and messages are recorded, the latest first. *)

From S2P Require Import Prelude FsData.

Module Block.

Definition READ : Z := 0.
Definition WRITE : Z := 1.
Definition READA : Z := 2.
Definition WRITEA : Z := 3.
Definition BLOCK_SIZE : Z := 1024.
Definition MAJOR (a : Z) : Z := Z.shiftr (u32 a) 8.
Definition MINOR (a : Z) : Z := Z.land a 0xff.

(** [struct buffer_head] *)
Record buffer_head : Type := BufferHead {
  b_data : list Z; b_blocknr : Z; b_dev : Z; b_uptodate : Z; b_dirt : Z; b_count : Z; b_lock : Z;
  b_prev : option Z; b_next : option Z; b_prev_free : option Z; b_next_free : option Z
}.
#[global] Instance buffer_head_rebuild : Rebuild buffer_head := fun b =>
  BufferHead (b_data b) (b_blocknr b) (b_dev b) (b_uptodate b) (b_dirt b) (b_count b) (b_lock b)
    (b_prev b) (b_next b) (b_prev_free b) (b_next_free b).

Definition NR_BLK_DEV : Z := 7.
Definition NR_REQUEST : Z := 32.

(** [struct request]; [buffer] is the buffer head whose [b_data] it points
    into, and [buf_off] how far a driver has advanced it. *)
Record request : Type := Request {
  dev : Z; cmd : Z; errors : Z; sector : Z; nr_sectors : Z; buffer : Z;
  waiting : option Z; bh : option Z; next : option Z; buf_off : Z
}.
#[global] Instance request_rebuild : Rebuild request := fun r =>
  Request (dev r) (cmd r) (errors r) (sector r) (nr_sectors r) (buffer r) (waiting r) (bh r) (next r) (buf_off r).

(** The wait queues of the block layer, and what is recorded. *)
Inductive wait_queue : Type :=
| W_buffer (i : Z)          (* bh->b_wait *)
| W_request                 (* wait_for_request *)
| W_free_buffer             (* buffer_wait *)
| W_waiting (r : Z)         (* request[r].waiting *)
| W_inode (i : Z)           (* inode->i_wait *)
| W_super (i : Z).          (* sb->s_wait *)
Inductive event : Type :=
| Woken (q : wait_queue)
| Printk (fmt : string) (args : list Z).

(** [struct blk_dev_struct]: whether there is a [request_fn], and the first
    request of the queue. *)
Record blk_dev_struct : Type := BlkDev { request_fn : bool; current_request : option Z }.
#[global] Instance blk_dev_rebuild : Rebuild blk_dev_struct := fun d =>
  BlkDev (request_fn d) (current_request d).

(** [null_word] is the word that [NULL->b_prev] designates. *)
Record blk : Type := Blk {
  bufs : list buffer_head;
  hash_table : list (option Z);
  free_list : option Z;
  null_word : option Z;
  requests : list request;
  blk_dev : list blk_dev_struct;
  rd_start : Z; rd_length : Z;
  rd_mem : list Z;                 (* the bytes of the ramdisk *)
  events : list event;
  fsd : FsData.fsdata              (* the tables of the file system *)
}.
#[global] Instance blk_rebuild : Rebuild blk := fun s =>
  Blk (bufs s) (hash_table s) (free_list s) (null_word s) (requests s) (blk_dev s)
    (rd_start s) (rd_length s) (rd_mem s) (events s) (fsd s).

(** What the interrupts and the other tasks do while a task sleeps on a wait
    queue, until it runs again. *)
Class Sleeps := sleep_on : wait_queue -> KM blk unit.
(** The request functions of the other drivers. *)
Class Drivers := other_request_fn : Z -> KM blk unit.

Definition wake_up (q : wait_queue) : KM blk unit :=
  modify (fun s => s ⟪ events := Woken q :: events s ⟫).
(** The line ends of the messages are left out. *)
Definition printk (fmt : string) (args : list Z) : KM blk unit :=
  modify (fun s => s ⟪ events := Printk fmt args :: events s ⟫).

Definition get_buf (i : Z) : KM blk buffer_head := l ← gets bufs; read_at l i.
Definition upd_buf (i : Z) (f : buffer_head -> buffer_head) : KM blk unit :=
  b ← get_buf i; modify (fun s => s ⟪ bufs := array_set (bufs s) i (f b) ⟫).
Definition get_req (i : Z) : KM blk request := l ← gets requests; read_at l i.
Definition upd_req (i : Z) (f : request -> request) : KM blk unit :=
  r ← get_req i; modify (fun s => s ⟪ requests := array_set (requests s) i (f r) ⟫).
Definition get_dev (i : Z) : KM blk blk_dev_struct := l ← gets blk_dev; read_at l i.
Definition upd_dev (i : Z) (f : blk_dev_struct -> blk_dev_struct) : KM blk unit :=
  d ← get_dev i; modify (fun s => s ⟪ blk_dev := array_set (blk_dev s) i (f d) ⟫).

Section requests.
Context {W : Sleeps}.

(** [while (bh->b_lock) sleep_on(&bh->b_wait);] *)
Definition wait_on_buffer (fuel : nat) (b : Z) : KM blk unit :=
  kloop fuel (fun _ : unit =>
    h ← get_buf b;
    if truth (b_lock h) then sleep_on (W_buffer b) ;; mret (inl tt) else mret (inr tt)) tt.

Definition lock_buffer (fuel : nat) (b : Z) : KM blk unit :=
  wait_on_buffer fuel b ;; upd_buf b (fun h => h ⟪ b_lock := 1 ⟫).

Definition unlock_buffer (msg : string) (b : Z) : KM blk unit :=
  h ← get_buf b;
  kwhen (negb (truth (b_lock h))) (printk msg []) ;;
  upd_buf b (fun h => h ⟪ b_lock := 0 ⟫) ;;
  wake_up (W_buffer b).

(** ** The queue of a device *)

Definition IN_ORDER (s1 s2 : request) : bool :=
  (cmd s1 <? cmd s2) ||
  ((cmd s1 =? cmd s2) && ((dev s1 <? dev s2) || ((dev s1 =? dev s2) && (sector s1 <? sector s2)))).

(** The loop of [add_request]: the request after which [req] goes. *)
Definition find_place (req : Z) (tmp : Z) : KM blk Z :=
  kloop 33 (fun tmp =>
    t ← get_req tmp; r ← get_req req;
    match next t with
    | None => mret (inr tmp)
    | Some n =>
        x ← get_req n;
        if (IN_ORDER t r || negb (IN_ORDER t x)) && IN_ORDER r x then mret (inr tmp)
        else mret (inl n)
    end) tmp.

(** [request_call] is [(dev->request_fn)()]. *)
Definition add_request (request_call : Z -> KM blk unit) (major req : Z) : KM blk unit :=
  upd_req req (fun r => r ⟪ next := None ⟫) ;;
  r ← get_req req;
  match bh r with
  | Some b => upd_buf b (fun h => h ⟪ b_dirt := 0 ⟫)
  | None => mret tt
  end ;;
  d ← get_dev major;
  match current_request d with
  | None => upd_dev major (fun d => d ⟪ current_request := Some req ⟫) ;; request_call major
  | Some first =>
      tmp ← find_place req first;
      t ← get_req tmp;
      upd_req req (fun r => r ⟪ next := next t ⟫) ;;
      upd_req tmp (fun t => t ⟪ next := Some req ⟫)
  end.

(** [while (--req >= request) if (req->dev<0) break;]: the last free request
    below [limit]. *)
Fixpoint free_request (l : list request) (limit : nat) : option Z :=
  match limit with
  | O => None
  | S n =>
      match l !! n with
      | Some r => if dev r <? 0 then Some (Z.of_nat n) else free_request l n
      | None => free_request l n
      end
  end.

Definition make_request (fuel : nat) (request_call : Z -> KM blk unit) (major rw b : Z) : KM blk unit :=
  let rw_ahead := (rw =? READA) || (rw =? WRITEA) in
  h ← get_buf b;
  if rw_ahead && truth (b_lock h) then mret tt
  else
    let rw := if rw_ahead then (if rw =? READA then READ else WRITE) else rw in
    if negb (rw =? READ) && negb (rw =? WRITE)
    then panic "Bad block dev command, must be R/W/RA/WA"
    else
      lock_buffer fuel b ;;
      h ← get_buf b;
      if ((rw =? WRITE) && negb (truth (b_dirt h))) || ((rw =? READ) && truth (b_uptodate h))
      then unlock_buffer "ll_rw_block.c: buffer not locked" b
      else
        kloop fuel (fun _ : unit =>
          l ← gets requests;
          match free_request l (Z.to_nat (if rw =? READ then NR_REQUEST else NR_REQUEST * 2 / 3)) with
          | None =>
              if rw_ahead then unlock_buffer "ll_rw_block.c: buffer not locked" b ;; mret (inr tt)
              else sleep_on W_request ;; mret (inl tt)
          | Some req =>
              h ← get_buf b;
              upd_req req (fun _ =>
                Request (b_dev h) rw 0 (u32 (2 * b_blocknr h)) 2 b None (Some b) None 0) ;;
              add_request request_call major req ;; mret (inr tt)
          end) tt.

Definition ll_rw_block (fuel : nat) (request_call : Z -> KM blk unit) (rw b : Z) : KM blk unit :=
  h ← get_buf b;
  let major := MAJOR (b_dev h) in
  if NR_BLK_DEV <=? major then printk "Trying to read nonexistent block-device" []
  else
    d ← get_dev major;
    if negb (request_fn d) then printk "Trying to read nonexistent block-device" []
    else make_request fuel request_call major rw b.

Definition blk_dev_init : KM blk unit :=
  kfor (upto NR_REQUEST) (fun i => upd_req i (fun r => r ⟪ dev := -1 ⟫ ⟪ next := None ⟫)).

(** ** Completion, and the ramdisk driver *)

(** [end_request] of the driver for [major]; [name] is its [DEVICE_NAME]. *)
Definition end_request (major : Z) (name : string) (uptodate : Z) : KM blk unit :=
  d ← get_dev major; cur ← deref (current_request d);
  r ← get_req cur;
  match bh r with
  | Some b => upd_buf b (fun h => h ⟪ b_uptodate := u8 uptodate ⟫) ;; unlock_buffer (name +:+ ": free buffer being unlocked") b
  | None => mret tt
  end ;;
  kwhen (negb (truth uptodate)) 
    (printk (name +:+ " I/O error") [] ;;
     b ← deref (bh r); h ← get_buf b; printk "dev %04x, block %d" [dev r; b_blocknr h]) ;;
  wake_up (W_waiting cur) ;; wake_up W_request ;;
  upd_req cur (fun r => r ⟪ dev := -1 ⟫) ;;
  r ← get_req cur;
  upd_dev major (fun d => d ⟪ current_request := next r ⟫).

(** [INIT_REQUEST]: the current request, or nothing when the queue is
    empty. *)
Definition INIT_REQUEST (major : Z) (name : string) : KM blk (option Z) :=
  d ← get_dev major;
  match current_request d with
  | None => mret None
  | Some cur =>
      r ← get_req cur;
      if negb (MAJOR (dev r) =? major) then panic (name +:+ ": request list destroyed")
      else
        match bh r with
        | Some b =>
            h ← get_buf b;
            if truth (b_lock h) then mret (Some cur) else panic (name +:+ ": block not locked")
        | None => mret (Some cur)
        end
  end.

(** [memcpy] between the ramdisk at [addr] and the data of a buffer; the
    ramdisk's memory is [rd_length] bytes from [rd_start]. *)
Definition rd_offset (s : blk) (addr : Z) : option nat :=
  if rd_start s <=? addr then Some (Z.to_nat (addr - rd_start s)) else None.
Definition rd_read (addr len b : Z) : KM blk unit :=
  o ← gets (fun s => rd_offset s addr); off ← deref o;
  m ← gets rd_mem;
  upd_buf b (fun h => h ⟪ b_data :=
    take (Z.to_nat len) (drop off m) ++ drop (Z.to_nat len) (b_data h) ⟫).
Definition rd_write (addr len b : Z) : KM blk unit :=
  o ← gets (fun s => rd_offset s addr); off ← deref o;
  h ← get_buf b;
  modify (fun s => s ⟪ rd_mem :=
    take off (rd_mem s) ++ take (Z.to_nat len) (b_data h) ++ drop (off + Z.to_nat len) (rd_mem s) ⟫).

Definition do_rd_request : KM blk unit :=
  kloop 33 (fun _ : unit =>
    o ← INIT_REQUEST 1 "ramdisk";
    match o with
    | None => mret (inr tt)
    | Some cur =>
        r ← get_req cur;
        start ← gets rd_start; length ← gets rd_length;
        let addr := u32 (start + Z.shiftl (sector r) 9) in
        let len := Z.shiftl (nr_sectors r) 9 in
        if negb (MINOR (dev r) =? 1) || (u32 (start + length) <? u32 (addr + len))
        then end_request 1 "ramdisk" 0 ;; mret (inl tt)
        else
          (if cmd r =? WRITE then rd_write addr len (buffer r)
           else if cmd r =? READ then rd_read addr len (buffer r)
           else panic "unknown ramdisk-command") ;;
          end_request 1 "ramdisk" 1 ;; mret (inl tt)
    end) tt.

Definition rd_init (mem_start length : Z) : KM blk Z :=
  upd_dev 1 (fun d => d ⟪ request_fn := true ⟫) ;;
  modify (fun s => s ⟪ rd_start := mem_start ⟫ ⟪ rd_length := length ⟫
                     ⟪ rd_mem := replicate (Z.to_nat length) 0 ⟫) ;;
  mret length.

(** [(blk_dev[major].request_fn)()] *)
Definition request_call {V : Drivers} (major : Z) : KM blk unit :=
  if major =? 1 then do_rd_request else other_request_fn major.
End requests.
End Block.
