(* ===== verification/Buffer.v ===== *)
(** * The buffer cache ([fs/buffer.c])

    All buffer heads are on one circular free list, in the order of their
    last use, used ones included; those that hold a block are also on the
    hash chain of their device and block number.  A routine that may sleep
    goes back to its start when it finds that the world has changed, so its
    loops take fuel; what happens during a sleep is the parameter
    [Sleeps]. *)

From S2P Require Import Prelude Block.

Module Buffer.
Import Block.

Definition NR_HASH : Z := 307.
(** [_hashfn(dev,block)] *)
Definition _hashfn (dev block : Z) : Z := (u32 (Z.lxor dev block)) mod NR_HASH.

(** [sync_inodes] of [fs/inode.c], as the buffer cache sees it. *)
Class InodeSync := sync_inodes : KM blk unit.

Definition hash_get (dev block : Z) : KM blk (option Z) :=
  l ← gets hash_table; read_at l (_hashfn dev block).
Definition hash_set (dev block : Z) (v : option Z) : KM blk unit :=
  modify (fun s => s ⟪ hash_table := array_set (hash_table s) (_hashfn dev block) v ⟫).
Definition NR_BUFFERS : KM blk Z := l ← gets bufs; mret (Z.of_nat (length l)).

Definition remove_from_queues (b : Z) : KM blk unit :=
  (* remove from hash-queue *)
  h ← get_buf b;
  match b_next h with
  | Some n => upd_buf n (fun x => x ⟪ b_prev := b_prev h ⟫)
  | None => mret tt
  end ;;
  h ← get_buf b;
  match b_prev h with
  | Some p => upd_buf p (fun x => x ⟪ b_next := b_next h ⟫)
  | None => mret tt
  end ;;
  h ← get_buf b;
  first ← hash_get (b_dev h) (b_blocknr h);
  kwhen (bool_decide (first = Some b)) (hash_set (b_dev h) (b_blocknr h) (b_next h)) ;;
  (* remove from free list *)
  match b_prev_free h, b_next_free h with
  | Some p, Some n =>
      upd_buf p (fun x => x ⟪ b_next_free := b_next_free h ⟫) ;;
      h ← get_buf b;
      n ← deref (b_next_free h);
      upd_buf n (fun x => x ⟪ b_prev_free := b_prev_free h ⟫) ;;
      f ← gets free_list;
      h ← get_buf b;
      kwhen (bool_decide (f = Some b)) (modify (fun s => s ⟪ free_list := b_next_free h ⟫))
  | _, _ => panic "Free block list corrupted"
  end.

(** The last assignment writes through [b_next] even when it is [NULL]. *)
Definition insert_into_queues (b : Z) : KM blk unit :=
  (* put at end of free list *)
  f ← gets free_list; f ← deref f;
  upd_buf b (fun x => x ⟪ b_next_free := Some f ⟫) ;;
  y ← get_buf f;
  upd_buf b (fun x => x ⟪ b_prev_free := b_prev_free y ⟫) ;;
  y ← get_buf f; last ← deref (b_prev_free y);
  upd_buf last (fun x => x ⟪ b_next_free := Some b ⟫) ;;
  upd_buf f (fun x => x ⟪ b_prev_free := Some b ⟫) ;;
  (* put the buffer in new hash-queue if it has a device *)
  upd_buf b (fun x => x ⟪ b_prev := None ⟫ ⟪ b_next := None ⟫) ;;
  h ← get_buf b;
  if negb (truth (b_dev h)) then mret tt
  else
    first ← hash_get (b_dev h) (b_blocknr h);
    upd_buf b (fun x => x ⟪ b_next := first ⟫) ;;
    hash_set (b_dev h) (b_blocknr h) (Some b) ;;
    match first with
    | Some n => upd_buf n (fun x => x ⟪ b_prev := Some b ⟫)
    | None => modify (fun s => s ⟪ null_word := Some b ⟫)
    end.

Definition find_buffer (dev block : Z) : KM blk (option Z) :=
  first ← hash_get dev block;
  n ← NR_BUFFERS;
  kloop (S (Z.to_nat n)) (fun tmp =>
    match tmp with
    | None => mret (inr None)
    | Some t =>
        h ← get_buf t;
        if (b_dev h =? dev) && (b_blocknr h =? u32 block) then mret (inr (Some t))
        else mret (inl (b_next h))
    end) first.

Definition BADNESS (h : buffer_head) : Z := 2 * b_dirt h + b_lock h.

(** The [do ... while] loop of [getblk]: the unused buffer with the least
    badness, the first of them on the free list. *)
Definition find_unused : KM blk (option Z) :=
  f ← gets free_list; f ← deref f;
  n ← NR_BUFFERS;
  kloop (S (Z.to_nat n)) (fun '(tmp, bh) =>
    h ← get_buf tmp;
    let on bh := (if bool_decide (b_next_free h = Some f) then mret (inr bh)
                  else n ← deref (b_next_free h); mret (inl (n, bh))) in
    if truth (b_count h) then on bh
    else
      better ← match bh with
               | None => mret true
               | Some b => x ← get_buf b; mret (BADNESS h <? BADNESS x)
               end;
      if better : bool then
        if BADNESS h =? 0 then mret (inr (Some tmp)) else on (Some tmp)
      else on bh) (f, None).

Section cache.
Context {W : Sleeps} {V : Drivers} {Y : InodeSync}.
Variable fuel : nat.

Definition ll_rw_block (rw b : Z) : KM blk unit := Block.ll_rw_block fuel request_call rw b.
Definition wait_on_buffer (b : Z) : KM blk unit := Block.wait_on_buffer fuel b.

Definition sys_sync : KM blk Z :=
  sync_inodes ;;
  n ← NR_BUFFERS;
  kfor (upto n) (fun i =>
    wait_on_buffer i ;;
    h ← get_buf i; kwhen (truth (b_dirt h)) (ll_rw_block WRITE i)) ;;
  mret 0.

(** One pass of [sync_dev] over the buffers. *)
Definition sync_pass (dev : Z) : KM blk unit :=
  n ← NR_BUFFERS;
  kfor (upto n) (fun i =>
    h ← get_buf i;
    kwhen (b_dev h =? dev)
      (wait_on_buffer i ;;
       h ← get_buf i;
       kwhen ((b_dev h =? dev) && truth (b_dirt h)) (ll_rw_block WRITE i))).
Definition sync_dev (dev : Z) : KM blk Z :=
  sync_pass dev ;; sync_inodes ;; sync_pass dev ;; mret 0.

Definition invalidate_buffers (dev : Z) : KM blk unit :=
  n ← NR_BUFFERS;
  kfor (upto n) (fun i =>
    h ← get_buf i;
    kwhen (b_dev h =? dev)
      (wait_on_buffer i ;;
       h ← get_buf i;
       kwhen (b_dev h =? dev) (upd_buf i (fun x => x ⟪ b_uptodate := 0 ⟫ ⟪ b_dirt := 0 ⟫)))).

Definition get_hash_table (dev block : Z) : KM blk (option Z) :=
  kloop fuel (fun _ : unit =>
    o ← find_buffer dev block;
    match o with
    | None => mret (inr None)
    | Some b =>
        upd_buf b (fun x => x ⟪ b_count := u8 (b_count x + 1) ⟫) ;;
        wait_on_buffer b ;;
        h ← get_buf b;
        if (b_dev h =? dev) && (b_blocknr h =? u32 block) then mret (inr (Some b))
        else upd_buf b (fun x => x ⟪ b_count := u8 (b_count x - 1) ⟫) ;; mret (inl tt)
    end) tt.

(** [while (bh->b_dirt) ...]: [false] when the buffer was taken meanwhile. *)
Definition clean_buffer (b : Z) : KM blk bool :=
  kloop fuel (fun _ : unit =>
    h ← get_buf b;
    if negb (truth (b_dirt h)) then mret (inr true)
    else
      sync_dev (b_dev h) ;; wait_on_buffer b ;;
      h ← get_buf b;
      if truth (b_count h) then mret (inr false) else mret (inl tt)) tt.

(** From [repeat] to the end of [getblk]: [inl] is [goto repeat]. *)
Definition getblk_turn (dev block : Z) : KM blk (unit + Z) :=
  o ← get_hash_table dev block;
  match o with
  | Some b => mret (inr b)
  | None =>
      o ← find_unused;
      match o with
      | None => sleep_on W_free_buffer ;; mret (inl tt)
      | Some b =>
          wait_on_buffer b ;;
          h ← get_buf b;
          if truth (b_count h) then mret (inl tt)
          else
            ok ← clean_buffer b;
            if negb ok then mret (inl tt)
            else
              o ← find_buffer dev block;
              match o with
              | Some _ => mret (inl tt)
              | None =>
                  upd_buf b (fun x => x ⟪ b_count := 1 ⟫ ⟪ b_dirt := 0 ⟫ ⟪ b_uptodate := 0 ⟫) ;;
                  remove_from_queues b ;;
                  upd_buf b (fun x => x ⟪ b_dev := u16 dev ⟫ ⟪ b_blocknr := u32 block ⟫) ;;
                  insert_into_queues b ;;
                  mret (inr b)
              end
      end
  end.
Definition getblk (dev block : Z) : KM blk Z :=
  kloop fuel (fun _ : unit => getblk_turn dev block) tt.

Definition brelse (buf : option Z) : KM blk unit :=
  match buf with
  | None => mret tt
  | Some b =>
      wait_on_buffer b ;;
      h ← get_buf b;
      upd_buf b (fun x => x ⟪ b_count := u8 (b_count x - 1) ⟫) ;;
      if truth (b_count h) then wake_up W_free_buffer
      else panic "Trying to free free buffer"
  end.

(** The end of [bread] and [breada]: the buffer if it could be read. *)
Definition finish_read (b : Z) : KM blk (option Z) :=
  wait_on_buffer b ;;
  h ← get_buf b;
  if truth (b_uptodate h) then mret (Some b) else brelse (Some b) ;; mret None.

Definition bread (dev block : Z) : KM blk (option Z) :=
  b ← getblk dev block;
  h ← get_buf b;
  if truth (b_uptodate h) then mret (Some b)
  else ll_rw_block READ b ;; finish_read b.

(** [bread_page]: the result lists the copies made by [COPYBLK], as the
    address and the block copied there. *)
Definition bread_page (address dev : Z) (blocks : list Z) : KM blk (list (Z * list Z)) :=
  let fix request (l : list Z) : KM blk (list (option Z)) :=
    match l with
    | [] => mret []
    | x :: l =>
        o ← (if truth x then
               b ← getblk dev x;
               h ← get_buf b;
               kwhen (negb (truth (b_uptodate h))) (ll_rw_block READ b) ;; mret (Some b)
             else mret None);
        r ← request l; mret (o :: r)
    end in
  let fix copy (l : list (option Z)) (address : Z) : KM blk (list (Z * list Z)) :=
    match l with
    | [] => mret []
    | None :: l => copy l (address + BLOCK_SIZE)
    | Some b :: l =>
        wait_on_buffer b ;;
        h ← get_buf b;
        brelse (Some b) ;;
        r ← copy l (address + BLOCK_SIZE);
        mret (if truth (b_uptodate h) then (address, b_data h) :: r else r)
    end in
  l ← request blocks; copy l address.

(** [breada]: the blocks that follow [first] up to a negative number are
    read ahead.  The request is made for [bh], not for [tmp]. *)
Fixpoint read_ahead (dev bh : Z) (args : list Z) : KM blk unit :=
  match args with
  | [] => fault
  | first :: args =>
      if first <? 0 then mret tt
      else
        tmp ← getblk dev first;
        h ← get_buf tmp;
        kwhen (negb (truth (b_uptodate h))) (ll_rw_block READA bh) ;;
        upd_buf tmp (fun x => x ⟪ b_count := u8 (b_count x - 1) ⟫) ;;
        read_ahead dev bh args
  end.
Definition breada (dev first : Z) (args : list Z) : KM blk (option Z) :=
  b ← getblk dev first;
  h ← get_buf b;
  kwhen (negb (truth (b_uptodate h))) (ll_rw_block READ b) ;;
  read_ahead dev b args ;;
  finish_read b.
End cache.

(** [buffer_init]: heads go up from [start_buffer] (36 bytes each), blocks go
    down from the end of memory, around the hole for the video memory and
    the BIOS.  [memory] is what the memory holds: the block at an address,
    and the old contents of a head. *)
Fixpoint init_heads (n : nat) (k b start_buffer : Z) (old_head : Z -> buffer_head)
    (old_block : Z -> list Z) : option (list buffer_head) :=
  match n with
  | O => None
  | S n =>
      let b := b - BLOCK_SIZE in
      if b <? start_buffer + 36 * (k + 1) then Some []
      else
        let h := (old_head k) ⟪ b_dev := 0 ⟫ ⟪ b_dirt := 0 ⟫ ⟪ b_count := 0 ⟫ ⟪ b_lock := 0 ⟫
                   ⟪ b_uptodate := 0 ⟫ ⟪ b_next := None ⟫ ⟪ b_prev := None ⟫
                   ⟪ b_data := old_block b ⟫
                   ⟪ b_prev_free := Some (k - 1) ⟫ ⟪ b_next_free := Some (k + 1) ⟫ in
        let b := if b =? 0x100000 then 0xA0000 else b in
        l ← init_heads n (k + 1) b start_buffer old_head old_block; Some (h :: l)
  end.
Definition buffer_init (start_buffer buffer_end : Z) (old_head : Z -> buffer_head)
    (old_block : Z -> list Z) : KM blk unit :=
  let b := if buffer_end =? Z.shiftl 1 20 then 640 * 1024 else buffer_end in
  match init_heads (Z.to_nat (b / BLOCK_SIZE + 2)) 0 b start_buffer old_head old_block with
  | None => nofuel
  | Some l =>
      modify (fun s => s ⟪ bufs := l ⟫) ;;
      let h := Z.of_nat (length l) - 1 in
      modify (fun s => s ⟪ free_list := Some 0 ⟫) ;;
      upd_buf 0 (fun x => x ⟪ b_prev_free := Some h ⟫) ;;
      upd_buf h (fun x => x ⟪ b_next_free := Some 0 ⟫) ;;
      kfor (upto NR_HASH) (fun i =>
        modify (fun s => s ⟪ hash_table := array_set (hash_table s) i None ⟫))
  end.
End Buffer.
