(* ===== verification/Cache.v ===== *)
(** * The buffer cache's invariant

    The links of the buffer heads as functions on their indices, the hash
    chains as doubly linked lists and the free list as a ring; what
    [remove_from_queues] and [insert_into_queues] do to them. *)

From S2P Require Import Prelude Block Buffer.

Module Cache.
Import Block Buffer.

(** ** Linked lists over link functions *)

Definition link : Type := Z -> option Z.
Definition fupd (f : link) (i : Z) (v : option Z) : link := fun k => if decide (k = i) then v else f k.

Lemma fupd_eq f i v : fupd f i v i = v.
Proof. unfold fupd. by rewrite decide_True. Qed.
Lemma fupd_ne f i v k : k <> i -> fupd f i v k = f k.
Proof. intros. unfold fupd. by rewrite decide_False. Qed.

(** The elements [l], from the pointer [p] on, the first of which has
    [prev] before it. *)
Fixpoint linked (nx pv : link) (prev p : option Z) (l : list Z) : Prop :=
  match l with
  | [] => p = None
  | i :: l => p = Some i /\ pv i = prev /\ linked nx pv (Some i) (nx i) l
  end.

(** An update of the link that [o] points to, if it points anywhere. *)
Definition fupd_opt (f : link) (o : option Z) (v : option Z) : link :=
  match o with Some i => fupd f i v | None => f end.

Section lists.
Implicit Types (nx pv : link) (l : list Z).

Lemma linked_ext nx pv nx' pv' prev p l :
  (forall i, i ∈ l -> nx' i = nx i /\ pv' i = pv i) ->
  linked nx pv prev p l -> linked nx' pv' prev p l.
Proof.
  revert prev p. induction l as [|i l IH]; intros prev p Hext; [done|].
  intros (-> & Hp & Hl). destruct (Hext i) as [Hn Hv]; [by left|].
  split; [done|]. split; [congruence|]. rewrite Hn. apply IH; [|done].
  intros j Hj. apply Hext. by right.
Qed.
Lemma fupd_opt_ne f o v k : o <> Some k -> fupd_opt f o v k = f k.
Proof. destruct o as [i|]; [|done]. intros Hne. apply fupd_ne. congruence. Qed.

Lemma linked_start nx pv prev p l : linked nx pv prev p l -> p = list.head l.
Proof. destruct l as [|i l]; [done|]. by intros [-> _]. Qed.
(** The link before an element is the element before it. *)
Lemma linked_before nx pv prev p l1 b l2 :
  linked nx pv prev p (l1 ++ b :: l2) -> pv b = match list.last l1 with Some a => Some a | None => prev end.
Proof.
  revert prev p. induction l1 as [|a l1 IH]; intros prev p; [by intros (_ & ? & _)|].
  intros (_ & _ & Hl). rewrite (IH _ _ Hl). rewrite last_cons. by destruct (list.last l1).
Qed.
Lemma linked_after nx pv prev p l1 b l2 :
  linked nx pv prev p (l1 ++ b :: l2) -> nx b = list.head l2.
Proof.
  revert prev p. induction l1 as [|a l1 IH]; intros prev p.
  - intros (_ & _ & Hl). by apply linked_start in Hl.
  - intros (_ & _ & Hl). by eapply IH.
Qed.

(** Taking an element out of a chain. *)
Lemma linked_remove nx pv prev p l1 b l2 :
  NoDup (l1 ++ b :: l2) -> (forall a, prev = Some a -> a ∉ l1 ++ b :: l2) ->
  linked nx pv prev p (l1 ++ b :: l2) ->
  linked (fupd_opt nx (pv b) (nx b)) (fupd_opt pv (nx b) (pv b)) prev
    (if decide (p = Some b) then nx b else p) (l1 ++ l2).
Proof.
  revert prev p. induction l1 as [|a l1 IH]; intros prev p Hnd Hprev Hl.
  - destruct Hl as (-> & Hpv & Hl). rewrite decide_True by done. simpl in Hnd.
    apply list.NoDup_cons in Hnd as [Hb Hnd].
    destruct l2 as [|r l2]; simpl in *; [done|]. destruct Hl as (Hr & Hrp & Hl). rewrite Hr.
    apply list.NoDup_cons in Hnd as [Hr2 Hnd].
    assert (Hpr : pv b <> Some r).
    { rewrite Hpv. intros ->. apply (Hprev r eq_refl). right. by left. }
    split; [done|]. simpl. rewrite fupd_eq. split; [done|].
    rewrite fupd_opt_ne by done. eapply linked_ext; [|exact Hl]. intros i Hi. split.
    + apply fupd_opt_ne. rewrite Hpv. intros ->. apply (Hprev i eq_refl). right. by right.
    + apply fupd_ne. by intros ->.
  - destruct Hl as (-> & Hpv & Hl). simpl in Hnd. apply list.NoDup_cons in Hnd as [Ha Hnd].
    assert (a <> b) as Hab by (intros ->; apply Ha; apply elem_of_app; right; by left).
    rewrite decide_False by congruence. simpl.
    specialize (IH (Some a) (nx a) Hnd ltac:(by intros ? [= <-]) Hl).
    pose proof (linked_before _ _ _ _ _ _ _ Hl) as Hbef.
    pose proof (linked_after _ _ _ _ _ _ _ Hl) as Haft.
    pose proof (linked_start _ _ _ _ _ Hl) as Hst.
    split; [done|]. split.
    { rewrite fupd_opt_ne; [done|]. rewrite Haft. intros Hh. apply Ha.
      apply elem_of_app. right. right. destruct l2; [done|]. injection Hh as ->. by left. }
    destruct l1 as [|c l1].
    + simpl in Hst, Hbef. rewrite Hst, decide_True in IH by done. rewrite Hbef in *. simpl in *.
      by rewrite fupd_eq.
    + simpl in Hst. rewrite Hst in *.
      assert (c <> b) as Hcb.
      { apply list.NoDup_cons in Hnd as [Hc _]. intros ->. apply Hc. apply elem_of_app. right. by left. }
      rewrite decide_False in IH by congruence.
      rewrite fupd_opt_ne; [by rewrite Hst|]. rewrite Hbef, last_cons.
      destruct (list.last l1) eqn:Hlast; intros [= ->].
      * apply Ha. apply elem_of_app. left. right. by apply last_Some_elem_of.
      * apply Ha. apply elem_of_app. left. by left.
Qed.

(** Putting an element in front of a chain. *)
Lemma linked_push nx pv p l b :
  NoDup (b :: l) -> linked nx pv None p l ->
  linked (fupd nx b p) (fupd_opt (fupd pv b None) p (Some b)) None (Some b) (b :: l).
Proof.
  intros Hnd Hl. pose proof (linked_start _ _ _ _ _ Hl) as ->. split; [done|].
  destruct l as [|i l]; simpl in *; [by rewrite !fupd_eq|].
  destruct Hl as (_ & Hp & Hl). apply list.NoDup_cons in Hnd as [Hb Hnd].
  apply list.NoDup_cons in Hnd as [Hi Hnd].
  assert (b <> i /\ b ∉ l) as [Hbi Hbl] by (split; intros ?; apply Hb; [subst; by left|by right]).
  rewrite !fupd_eq, (fupd_ne _ i _ b), fupd_eq by done. split; [done|].
  split; [done|]. split; [done|]. rewrite fupd_ne by done.
  eapply linked_ext; [|exact Hl]. intros j Hj.
  rewrite !fupd_ne by (intros ->; done). done.
Qed.
End lists.

(** ** Rings *)

Definition joined (nf pf : link) (i j : Z) : Prop := nf i = Some j /\ pf j = Some i.
Fixpoint path (nf pf : link) (x : Z) (l : list Z) : Prop :=
  match l with [] => True | y :: l => joined nf pf x y /\ path nf pf y l end.
(** A circular doubly linked list. *)
Definition ring (nf pf : link) (l : list Z) : Prop :=
  match l with [] => False | f :: r => path nf pf f (r ++ [f]) end.
Definition last_of (x : Z) (l : list Z) : Z := default x (list.last l).

Section rings.
Implicit Types (nf pf : link) (l : list Z).

Lemma path_app nf pf x l1 y l2 :
  path nf pf x (l1 ++ y :: l2) <-> path nf pf x (l1 ++ [y]) /\ path nf pf y l2.
Proof. revert x. induction l1 as [|a l1 IH]; intros x; simpl; [tauto|]. rewrite IH. tauto. Qed.
Lemma last_of_cons x a l : last_of x (a :: l) = last_of a l.
Proof. unfold last_of. rewrite list.last_cons. by destruct (list.last l). Qed.
Lemma last_of_elem x l : last_of x l ∈ x :: l.
Proof.
  unfold last_of. destruct (list.last l) eqn:Hl; simpl; [|by left].
  right. by apply last_Some_elem_of.
Qed.
Lemma path_snoc nf pf x l y :
  path nf pf x (l ++ [y]) <-> path nf pf x l /\ joined nf pf (last_of x l) y.
Proof.
  revert x. induction l as [|a l IH]; intros x; simpl; [unfold last_of; simpl; tauto|].
  rewrite IH, last_of_cons. tauto.
Qed.
Lemma path_ext nf pf nf' pf' x l :
  NoDup (x :: l) ->
  (forall i, i ∈ x :: l -> i <> last_of x l -> nf' i = nf i) ->
  (forall j, j ∈ l -> pf' j = pf j) ->
  path nf pf x l -> path nf' pf' x l.
Proof.
  revert x. induction l as [|a l IH]; intros x Hnd Hn Hp; [done|]. intros [[H1 H2] Hl].
  apply list.NoDup_cons in Hnd as [Hx Hnd]. split.
  - split; [|rewrite Hp by (by left); done]. rewrite Hn; [done|by left|].
    rewrite last_of_cons. intros Heq. apply Hx. rewrite Heq. apply last_of_elem.
  - apply IH; [done| | |done].
    + intros i Hi Hne. apply Hn; [by right|by rewrite last_of_cons].
    + intros j Hj. apply Hp. by right.
Qed.

Lemma ring_rotate nf pf a l1 b l2 :
  ring nf pf (a :: l1 ++ b :: l2) -> ring nf pf (b :: l2 ++ a :: l1).
Proof.
  simpl. rewrite <- app_assoc, <- app_comm_cons, path_app. intros [H1 H2].
  rewrite <- app_assoc, <- app_comm_cons. apply path_app. by split.
Qed.
Lemma ring_last nf pf f l : ring nf pf (f :: l) -> joined nf pf (last_of f l) f.
Proof. simpl. rewrite path_snoc. tauto. Qed.

(** The first element taken out. *)
Lemma ring_remove nf pf b n l :
  NoDup (b :: n :: l) -> ring nf pf (b :: n :: l) ->
  nf b = Some n /\ pf b = Some (last_of n l) /\
  ring (fupd nf (last_of n l) (Some n)) (fupd pf n (Some (last_of n l))) (n :: l).
Proof.
  intros Hnd Hr. pose proof (ring_last _ _ _ _ Hr) as [_ Hp]. rewrite last_of_cons in Hp.
  destruct Hr as [[Hn _] Hr]. split; [done|]. split; [done|].
  apply list.NoDup_cons in Hnd as [Hb Hnd]. simpl. apply path_snoc.
  apply path_snoc in Hr as [Hr _]. split.
  - eapply path_ext; [done| | |exact Hr].
    + intros i Hi Hne. by rewrite fupd_ne.
    + intros j Hj. apply fupd_ne. intros ->. by apply list.NoDup_cons in Hnd as [? _].
  - split; apply fupd_eq.
Qed.
(** An element added at the end. *)
Lemma ring_insert nf pf b f l :
  NoDup (b :: f :: l) -> ring nf pf (f :: l) ->
  ring (fupd (fupd nf b (Some f)) (last_of f l) (Some b))
       (fupd (fupd pf b (Some (last_of f l))) f (Some b)) (f :: l ++ [b]).
Proof.
  intros Hnd Hr. apply list.NoDup_cons in Hnd as [Hb Hnd].
  assert (Hbl : last_of f l <> b) by (intros <-; apply Hb, last_of_elem).
  assert (Hbf : f <> b) by (intros ->; apply Hb; by left).
  simpl in *. apply path_snoc in Hr as [Hr _]. rewrite <- app_assoc. simpl.
  apply path_app. split; [|split; [|done]].
  - apply path_snoc. split.
    + eapply path_ext; [done| | |exact Hr].
      * intros i Hi Hne. rewrite fupd_ne by done. apply fupd_ne. by intros ->.
      * intros j Hj. rewrite !fupd_ne; [done|intros ->; apply Hb; by right|].
        intros ->. by apply list.NoDup_cons in Hnd as [? _].
    + split; [by rewrite fupd_eq|]. rewrite fupd_ne by done. by rewrite fupd_eq.
  - split; [rewrite fupd_ne by done; apply fupd_eq|apply fupd_eq].
Qed.
End rings.

(** ** The links of the buffer heads as functions *)

Record links : Type := Links { lp : link; ln : link; lpf : link; lnf : link }.
Definition relink_head (L : links) (i : Z) (h : buffer_head) : buffer_head :=
  h ⟪ b_prev := lp L i ⟫ ⟪ b_next := ln L i ⟫ ⟪ b_prev_free := lpf L i ⟫ ⟪ b_next_free := lnf L i ⟫.
(** The buffers [c] with the links [L]. *)
Definition relink (L : links) (c : list buffer_head) : list buffer_head :=
  imap (fun k h => relink_head L (Z.of_nat k) h) c.
Definition with_links (L : links) (s : blk) : blk := s ⟪ bufs := relink L (bufs s) ⟫.
Definition links_of (s : blk) : links :=
  let g (f : buffer_head -> option Z) (i : Z) := array_get (bufs s) i ≫= f in
  Links (g b_prev) (g b_next) (g b_prev_free) (g b_next_free).

Section heads.
Implicit Types (s : blk) (L : links).

Lemma array_get_relink L c i :
  array_get (relink L c) i = relink_head L i <$> array_get c i.
Proof.
  unfold array_get, relink. destruct (Z.leb_spec 0 i); [|done].
  rewrite list_lookup_imap. by rewrite Z2Nat.id by lia.
Qed.
Lemma length_relink L c : length (relink L c) = length c.
Proof. apply length_imap. Qed.
Lemma relink_links_of s : with_links (links_of s) s = s.
Proof.
  destruct s as [c ht fl nw rq bd rs rl rm ev fd]. unfold with_links. cbn [set_field bufs]. f_equal.
  apply list_eq. intros k. unfold relink. rewrite list_lookup_imap.
  destruct (c !! k) as [h|] eqn:Hk; [|done]. simpl. f_equal.
  unfold relink_head, links_of. simpl. rewrite !array_get_nat, Hk. simpl. by destruct h.
Qed.
Lemma get_buf_links L s i h :
  array_get (bufs s) i = Some h -> get_buf i (with_links L s) = Done (relink_head L i h) (with_links L s).
Proof.
  intros Hh. unfold get_buf, read_at, mbind, kbind, gets. simpl.
  rewrite array_get_relink, Hh. done.
Qed.
(** An update of the links of one head. *)
Lemma upd_buf_links L L' s i h f :
  array_get (bufs s) i = Some h -> f (relink_head L i h) = relink_head L' i h ->
  (forall k h, k <> i -> relink_head L k h = relink_head L' k h) ->
  upd_buf i f (with_links L s) = Done tt (with_links L' s).
Proof.
  intros Hh Hf Hext. unfold upd_buf, mbind, kbind. rewrite (get_buf_links L s i h Hh).
  unfold modify. f_equal. unfold with_links. cbn [set_field bufs]. f_equal.
  rewrite Hf. apply list_eq. intros k.
  pose proof (array_get_Some_bound _ _ _ Hh) as Hb.
  rewrite <- !array_get_nat. destruct (decide (Z.of_nat k = i)) as [<-|Hne].
  - rewrite array_get_set_eq by (rewrite length_relink; lia).
    rewrite array_get_relink, Hh. done.
  - rewrite array_get_set_ne by done. rewrite !array_get_relink.
    destruct (array_get (bufs s) (Z.of_nat k)); [|done]. simpl. f_equal. by apply Hext.
Qed.

Lemma upd_prev L s i h v :
  array_get (bufs s) i = Some h ->
  upd_buf i (fun x => x ⟪ b_prev := v ⟫) (with_links L s) =
    Done tt (with_links (Links (fupd (lp L) i v) (ln L) (lpf L) (lnf L)) s).
Proof.
  intros Hh. eapply upd_buf_links; [exact Hh| |]; unfold relink_head; simpl.
  - by rewrite fupd_eq.
  - intros k h' Hne. by rewrite fupd_ne.
Qed.
Lemma upd_next L s i h v :
  array_get (bufs s) i = Some h ->
  upd_buf i (fun x => x ⟪ b_next := v ⟫) (with_links L s) =
    Done tt (with_links (Links (lp L) (fupd (ln L) i v) (lpf L) (lnf L)) s).
Proof.
  intros Hh. eapply upd_buf_links; [exact Hh| |]; unfold relink_head; simpl.
  - by rewrite fupd_eq.
  - intros k h' Hne. by rewrite fupd_ne.
Qed.
Lemma upd_prev_free L s i h v :
  array_get (bufs s) i = Some h ->
  upd_buf i (fun x => x ⟪ b_prev_free := v ⟫) (with_links L s) =
    Done tt (with_links (Links (lp L) (ln L) (fupd (lpf L) i v) (lnf L)) s).
Proof.
  intros Hh. eapply upd_buf_links; [exact Hh| |]; unfold relink_head; simpl.
  - by rewrite fupd_eq.
  - intros k h' Hne. by rewrite fupd_ne.
Qed.
Lemma upd_next_free L s i h v :
  array_get (bufs s) i = Some h ->
  upd_buf i (fun x => x ⟪ b_next_free := v ⟫) (with_links L s) =
    Done tt (with_links (Links (lp L) (ln L) (lpf L) (fupd (lnf L) i v)) s).
Proof.
  intros Hh. eapply upd_buf_links; [exact Hh| |]; unfold relink_head; simpl.
  - by rewrite fupd_eq.
  - intros k h' Hne. by rewrite fupd_ne.
Qed.
End heads.

(** A step whose run is known. *)
Lemma run_bind {S A B} (m : KM S A) (f : A -> KM S B) s a s1 :
  m s = Done a s1 -> (m ≫= f) s = f a s1.
Proof. unfold mbind, kbind. by intros ->. Qed.
Lemma run_gets {S A B} (g : S -> A) (f : A -> KM S B) s : (gets g ≫= f) s = f (g s) s.
Proof. done. Qed.
Lemma run_modify {S B} (g : S -> S) (f : unit -> KM S B) s : (modify g ≫= f) s = f tt (g s).
Proof. done. Qed.
Lemma run_deref {S A B} (a : A) (f : A -> KM S B) s : (deref (Some a) ≫= f) s = f a s.
Proof. done. Qed.
Lemma run_ret {S A B} (a : A) (f : A -> KM S B) s : (mret a ≫= f) s = f a s.
Proof. done. Qed.
Lemma run_when {S B} (b : bool) (m : KM S unit) (f : unit -> KM S B) s s1 :
  (b = true -> m s = Done tt s1) -> (b = false -> s1 = s) -> (kwhen b m ≫= f) s = f tt s1.
Proof. destruct b; intros H1 H2; [by apply run_bind, H1|by rewrite H2]. Qed.

Lemma hash_range d k : 0 <= _hashfn d k < 307.
Proof. apply Z.mod_pos_bound. unfold NR_HASH. lia. Qed.

(** The links after [remove_from_queues]. *)
Definition unlinked (L : links) (b p n : Z) : links :=
  Links (fupd_opt (lp L) (ln L b) (lp L b)) (fupd_opt (ln L) (lp L b) (ln L b))
    (fupd (lpf L) n (Some p)) (fupd (lnf L) p (Some n)).

Section queues.
Implicit Types (s : blk) (L : links).

Lemma remove_run L s b h p n first :
  array_get (bufs s) b = Some h ->
  (forall x, ln L b = Some x -> x <> b /\ is_Some (array_get (bufs s) x)) ->
  (forall x, lp L b = Some x -> x <> b /\ is_Some (array_get (bufs s) x)) ->
  lpf L b = Some p -> lnf L b = Some n -> p <> b -> n <> b ->
  is_Some (array_get (bufs s) p) -> is_Some (array_get (bufs s) n) ->
  array_get (hash_table s) (_hashfn (b_dev h) (b_blocknr h)) = Some first ->
  remove_from_queues b (with_links L s) = Done tt (with_links (unlinked L b p n)
    (s ⟪ hash_table := if decide (first = Some b)
           then array_set (hash_table s) (_hashfn (b_dev h) (b_blocknr h)) (ln L b) else hash_table s ⟫
       ⟪ free_list := if decide (free_list s = Some b) then Some n else free_list s ⟫)).
Proof.
  intros Hh Hnx Hpv Hpf Hnf Hpb Hnb [hp Hhp] [hn Hhn] Hfirst. unfold remove_from_queues.
  rewrite (run_bind _ _ _ _ _ (get_buf_links L s b h Hh)).
  set (L1 := Links (fupd_opt (lp L) (ln L b) (lp L b)) (ln L) (lpf L) (lnf L)).
  rewrite (run_bind _ _ _ tt (with_links L1 s)); cycle 1.
  { simpl. destruct (ln L b) as [x|] eqn:Hx; [|by destruct L].
    destruct (Hnx x eq_refl) as [_ [hx Hhx]]. by apply (upd_prev L s x hx). }
  assert (Hb1 : lp L1 b = lp L b).
  { simpl. apply fupd_opt_ne. intros Hx. by destruct (Hnx b Hx). }
  rewrite (run_bind _ _ _ _ _ (get_buf_links L1 s b h Hh)).
  set (L2 := Links (lp L1) (fupd_opt (ln L) (lp L b) (ln L b)) (lpf L) (lnf L)).
  rewrite (run_bind _ _ _ tt (with_links L2 s)); cycle 1.
  { change (b_prev (relink_head L1 b h)) with (lp L1 b). rewrite Hb1. destruct (lp L b) as [x|] eqn:Hx; [|by destruct L].
    destruct (Hpv x eq_refl) as [_ [hx Hhx]]. by apply (upd_next L1 s x hx). }
  assert (Hb2 : ln L2 b = ln L b).
  { simpl. apply fupd_opt_ne. intros Hx. by destruct (Hpv b Hx). }
  rewrite (run_bind _ _ _ _ _ (get_buf_links L2 s b h Hh)).
  rewrite (run_bind _ _ _ first (with_links L2 s)); cycle 1.
  { unfold hash_get. rewrite run_gets. unfold read_at. simpl. by rewrite Hfirst. }
  set (s1 := s ⟪ hash_table := if decide (first = Some b)
    then array_set (hash_table s) (_hashfn (b_dev h) (b_blocknr h)) (ln L b) else hash_table s ⟫).
  rewrite (run_when _ _ _ _ (with_links L2 s1)); cycle 1.
  { intros Hf%bool_decide_eq_true. unfold hash_set, modify. f_equal. subst s1.
    rewrite decide_True by done.
    change (b_next (relink_head L2 b h)) with (ln L2 b). by rewrite Hb2. }
  { intros Hf%bool_decide_eq_false. subst s1. rewrite decide_False by done. by destruct s. }
  change (b_prev_free (relink_head L2 b h)) with (lpf L b).
  change (b_next_free (relink_head L2 b h)) with (lnf L b). rewrite Hpf, Hnf.
  set (L3 := Links (lp L2) (ln L2) (lpf L) (fupd (lnf L) p (Some n))).
  rewrite (run_bind _ _ _ _ _ (upd_next_free L2 s1 p hp (Some n) Hhp)). fold L3.
  rewrite (run_bind _ _ _ _ _ (get_buf_links L3 s1 b h Hh)).
  change (b_prev_free (relink_head L3 b h)) with (lpf L b).
  change (b_next_free (relink_head L3 b h)) with (fupd (lnf L) p (Some n) b).
  rewrite fupd_ne, Hnf, Hpf by done. unfold deref at 1. rewrite (run_bind _ _ _ n (with_links L3 s1)) by done.
  rewrite (run_bind _ _ _ _ _ (upd_prev_free L3 s1 n hn (Some p) Hhn)).
  change (Links (lp L3) (ln L3) (fupd (lpf L3) n (Some p)) (lnf L3)) with (unlinked L b p n).
  rewrite run_gets. rewrite (run_bind _ _ _ _ _ (get_buf_links (unlinked L b p n) s1 b h Hh)).
  change (b_next_free (relink_head (unlinked L b p n) b h)) with (fupd (lnf L) p (Some n) b).
  rewrite fupd_ne, Hnf by done. unfold kwhen. change (free_list (with_links (unlinked L b p n) s1)) with (free_list s).
  destruct (decide (free_list s = Some b)) as [Hf|Hf].
  - by rewrite bool_decide_eq_true_2.
  - rewrite bool_decide_eq_false_2 by done. unfold mret, kret. f_equal.
Qed.

Lemma with_links_ext L L' s :
  (forall k, lp L k = lp L' k /\ ln L k = ln L' k /\ lpf L k = lpf L' k /\ lnf L k = lnf L' k) ->
  with_links L s = with_links L' s.
Proof.
  intros Hext. assert (Hr : relink L (bufs s) = relink L' (bufs s)); [|unfold with_links; by rewrite Hr].
  apply list_eq. intros k. unfold relink. rewrite !list_lookup_imap.
  destruct (bufs s !! k); [|done]. simpl. unfold relink_head.
  by destruct (Hext (Z.of_nat k)) as (-> & -> & -> & ->).
Qed.

(** The links after [insert_into_queues]. *)
Definition inserted (L : links) (b f last : Z) (first : option Z) : links :=
  Links (fupd_opt (fupd (lp L) b None) first (Some b)) (fupd (ln L) b first)
    (fupd (fupd (lpf L) b (Some last)) f (Some b)) (fupd (fupd (lnf L) b (Some f)) last (Some b)).

Lemma insert_run L s b h f last first :
  array_get (bufs s) b = Some h -> b_dev h <> 0 ->
  free_list s = Some f -> f <> b -> is_Some (array_get (bufs s) f) ->
  lpf L f = Some last -> last <> b -> is_Some (array_get (bufs s) last) ->
  array_get (hash_table s) (_hashfn (b_dev h) (b_blocknr h)) = Some first ->
  (forall x, first = Some x -> x <> b /\ is_Some (array_get (bufs s) x)) ->
  insert_into_queues b (with_links L s) = Done tt (with_links (inserted L b f last first)
    (s ⟪ hash_table := array_set (hash_table s) (_hashfn (b_dev h) (b_blocknr h)) (Some b) ⟫
       ⟪ null_word := match first with Some _ => null_word s | None => Some b end ⟫)).
Proof.
  intros Hh Hdev Hf Hfb [hf Hhf] Hlast Hlb [hl Hhl] Hfirst Hx. unfold insert_into_queues.
  rewrite run_gets. change (free_list (with_links L s)) with (free_list s). rewrite Hf.
  rewrite (run_bind _ _ _ f (with_links L s)) by done.
  rewrite (run_bind _ _ _ _ _ (upd_next_free L s b h (Some f) Hh)).
  set (L1 := Links _ _ _ _).
  rewrite (run_bind _ _ _ _ _ (get_buf_links L1 s f hf Hhf)).
  change (b_prev_free (relink_head L1 f hf)) with (lpf L f). rewrite Hlast.
  rewrite (run_bind _ _ _ _ _ (upd_prev_free L1 s b h (Some last) Hh)).
  set (L2 := Links (lp L1) _ _ _).
  rewrite (run_bind _ _ _ _ _ (get_buf_links L2 s f hf Hhf)).
  change (b_prev_free (relink_head L2 f hf)) with (fupd (lpf L) b (Some last) f).
  rewrite fupd_ne, Hlast by done. rewrite (run_bind _ _ _ last (with_links L2 s)) by done.
  rewrite (run_bind _ _ _ _ _ (upd_next_free L2 s last hl (Some b) Hhl)).
  set (L3 := Links (lp L2) _ _ _).
  rewrite (run_bind _ _ _ _ _ (upd_prev_free L3 s f hf (Some b) Hhf)).
  set (L4 := Links (lp L3) _ _ _).
  set (L5 := Links (fupd (lp L4) b None) (fupd (ln L4) b None) (lpf L4) (lnf L4)).
  rewrite (run_bind _ _ _ tt (with_links L5 s)); cycle 1.
  { eapply upd_buf_links; [exact Hh| |]; unfold relink_head; simpl.
    - by rewrite !fupd_eq.
    - intros k h' Hne. by rewrite !(fupd_ne _ b None k Hne). }
  rewrite (run_bind _ _ _ _ _ (get_buf_links L5 s b h Hh)).
  change (b_dev (relink_head L5 b h)) with (b_dev h).
  change (b_blocknr (relink_head L5 b h)) with (b_blocknr h).
  rewrite (proj2 (truth_true _) Hdev). cbn [negb]. cbv iota.
  rewrite (run_bind _ _ _ first (with_links L5 s)); cycle 1.
  { unfold hash_get. rewrite run_gets. unfold read_at. simpl. by rewrite Hfirst. }
  rewrite (run_bind _ _ _ _ _ (upd_next L5 s b h first Hh)).
  set (L6 := Links (lp L5) _ _ _).
  set (s1 := s ⟪ hash_table := array_set (hash_table s) (_hashfn (b_dev h) (b_blocknr h)) (Some b) ⟫).
  rewrite (run_bind _ _ _ tt (with_links L6 s1)) by done.
  destruct first as [x|].
  - destruct (Hx x eq_refl) as [_ [hx Hhx]]. rewrite (upd_prev L6 s1 x hx (Some b) Hhx). f_equal.
    transitivity (with_links (inserted L b f last (Some x)) s1); [|by destruct s].
    apply with_links_ext. intros k. split_and!; simpl; try done.
    unfold fupd. repeat case_decide; done.
  - unfold modify. f_equal.
    transitivity (with_links (inserted L b f last None) (s1 ⟪ null_word := Some b ⟫)); [|done].
    change (with_links L6 (s1 ⟪ null_word := Some b ⟫) =
      with_links (inserted L b f last None) (s1 ⟪ null_word := Some b ⟫)).
    apply with_links_ext. intros k. split_and!; simpl; try done.
    unfold fupd. repeat case_decide; done.
Qed.
End queues.

(** ** The invariant *)

(** The hash queue a buffer belongs to. *)
Definition chain_of (x : buffer_head) : Z := _hashfn (b_dev x) (b_blocknr x).

(** The cache with the buffers [c], the links [L], the hash table [ht] and the
    free list [fl], where the buffer [out], if any, is on no queue. *)
Record cinv (c : list buffer_head) (L : links) (ht : list (option Z)) (fl : option Z)
    (out : option Z) : Prop := {
  ci_hash : length ht = 307%nat;
  ci_ring : exists f r, fl = Some f /\ ring (lnf L) (lpf L) (f :: r) /\ NoDup (f :: r) /\
    forall i, i ∈ f :: r <-> out <> Some i /\ is_Some (array_get c i);
  ci_chain : forall h e, array_get ht h = Some e -> exists l,
    linked (ln L) (lp L) None e l /\ NoDup l /\
    forall i, i ∈ l <-> out <> Some i /\ exists x, array_get c i = Some x /\ b_dev x <> 0 /\ chain_of x = h;
  ci_free : forall i x, out <> Some i -> array_get c i = Some x -> b_dev x = 0 ->
    lp L i = None /\ ln L i = None;
  ci_unique : forall i j x y, out <> Some i -> out <> Some j ->
    array_get c i = Some x -> array_get c j = Some y -> b_dev x <> 0 ->
    b_dev x = b_dev y -> b_blocknr x = b_blocknr y -> i = j
}.

Section invariant.
Implicit Types (c : list buffer_head) (L : links).

Lemma hash_entry (ht : list (option Z)) d k : length ht = 307%nat -> exists e, array_get ht (_hashfn d k) = Some e.
Proof. intros Hl. apply array_get_in_bounds. pose proof (hash_range d k). lia. Qed.

(** The ring without one of its buffers. *)
Lemma ring_without L f r b :
  ring (lnf L) (lpf L) (f :: r) -> NoDup (f :: r) -> b ∈ f :: r -> r <> [] ->
  exists p n f' r', lpf L b = Some p /\ lnf L b = Some n /\ p ∈ f :: r /\ n ∈ f :: r /\ p <> b /\ n <> b /\
    f' = (if decide (f = b) then n else f) /\
    ring (lnf (unlinked L b p n)) (lpf (unlinked L b p n)) (f' :: r') /\
    NoDup (f' :: r') /\ (forall i, i ∈ f' :: r' <-> i <> b /\ i ∈ f :: r).
Proof.
  intros Hr Hnd Hb Hne.
  assert (Hrot : exists n l, ring (lnf L) (lpf L) (b :: n :: l) /\ (b :: n :: l) ≡ₚ f :: r /\
    exists f' r', f' = (if decide (f = b) then n else f) /\ (f' :: r') ≡ₚ n :: l /\
      (forall nf pf, ring nf pf (n :: l) -> ring nf pf (f' :: r'))).
  { destruct (decide (f = b)) as [->|Hfb].
    - destruct r as [|n l]; [done|]. exists n, l. split_and!; [done|done|]. by exists n, l.
    - apply elem_of_cons in Hb as [->|Hb]; [done|]. apply list_elem_of_split in Hb as (l1 & l2 & ->).
      apply ring_rotate in Hr. destruct l2 as [|n l2].
      + exists f, l1. split_and!; [done|solve_Permutation|]. by exists f, l1.
      + exists n, (l2 ++ f :: l1). split_and!; [done|solve_Permutation|].
        exists f, (l1 ++ n :: l2). split_and!; [done|solve_Permutation|].
        intros nf pf. apply ring_rotate. }
  destruct Hrot as (n & l & Hr2 & Hperm & f' & r' & Hf' & Hperm2 & Hback).
  assert (Hnd2 : NoDup (b :: n :: l)) by by rewrite Hperm.
  destruct (ring_remove _ _ _ _ _ Hnd2 Hr2) as (Hnf & Hpf & Hr3).
  apply list.NoDup_cons in Hnd2 as [Hbn Hnd2]. pose proof (last_of_elem n l) as Hlast.
  assert (Hin : forall i, i ∈ n :: l -> i ∈ f :: r /\ i <> b).
  { intros i Hi. split; [|by intros ->]. rewrite <- Hperm. by right. }
  exists (last_of n l), n, f', r'. destruct (Hin _ Hlast), (Hin n) as [??]; [by left|].
  split_and!; try done.
  - by apply Hback.
  - by rewrite Hperm2.
  - intros i. rewrite Hperm2, <- Hperm, (elem_of_cons (n :: l) i b). split.
    + intros Hi. split; [by apply Hin|by right].
    + by intros [? [->|?]].
Qed.

(** The neighbours of a buffer on its hash queue are other buffers of the
    same queue. *)
Lemma chain_neighbours c L ht fl b x :
  cinv c L ht fl None -> array_get c b = Some x -> forall q, ln L b = Some q \/ lp L b = Some q ->
  q <> b /\ exists y, array_get c q = Some y /\ b_dev y <> 0 /\ chain_of y = chain_of x.
Proof.
  intros Hc Hx q Hq. destruct (decide (b_dev x = 0)) as [H0|Hdev].
  { destruct (ci_free _ _ _ _ _ Hc b x) as [H1 H2]; try done. rewrite H1, H2 in Hq. by destruct Hq. }
  destruct (hash_entry ht (b_dev x) (b_blocknr x) (ci_hash _ _ _ _ _ Hc)) as [e He].
  destruct (ci_chain _ _ _ _ _ Hc _ _ He) as (l & Hl & Hnd & Hin).
  assert (Hbl : b ∈ l) by (apply Hin; split; [done|]; by exists x).
  apply list_elem_of_split in Hbl as (l1 & l2 & ->).
  assert (Hq' : q <> b /\ q ∈ l1 ++ b :: l2).
  { apply list.NoDup_app in Hnd as (_ & Hd & Hnd). apply list.NoDup_cons in Hnd as [Hb _].
    destruct Hq as [Hq|Hq].
    - rewrite (linked_after _ _ _ _ _ _ _ Hl) in Hq. destruct l2; [done|]. injection Hq as ->.
      split; [intros ->; apply Hb; by left|]. apply elem_of_app. right. right. by left.
    - rewrite (linked_before _ _ _ _ _ _ _ Hl) in Hq. destruct (list.last l1) eqn:Hlast; [|done].
      injection Hq as ->. apply last_Some_elem_of in Hlast.
      split; [intros ->; apply (Hd _ Hlast); by left|]. apply elem_of_app. by left. }
  destruct Hq' as [Hne Hq2]. split; [done|]. apply Hin in Hq2 as (_ & y & ? & ? & ?). by exists y.
Qed.

Definition unhashed (ht : list (option Z)) (x : buffer_head) (L : links) (b : Z) (first : option Z) :=
  if decide (first = Some b) then array_set ht (chain_of x) (ln L b) else ht.

Lemma chains_remove c L ht fl b x p n first :
  cinv c L ht fl None -> array_get c b = Some x -> array_get ht (chain_of x) = Some first ->
  forall h e, array_get (unhashed ht x L b first) h = Some e -> exists l,
    linked (ln (unlinked L b p n)) (lp (unlinked L b p n)) None e l /\ NoDup l /\
    forall i, i ∈ l <-> Some b <> Some i /\ exists x, array_get c i = Some x /\ b_dev x <> 0 /\ chain_of x = h.
Proof.
  intros Hc Hx Hfirst h e He.
  destruct (ci_chain _ _ _ _ _ Hc _ _ Hfirst) as (l0 & Hl0 & Hnd0 & Hin0).
  assert (Hfb : first = Some b -> b ∈ l0).
  { intros ->. apply linked_start in Hl0. destruct l0; [done|]. injection Hl0 as ->. by left. }
  destruct (decide (h = chain_of x /\ b_dev x <> 0)) as [[-> Hdev]|Hne].
  - assert (Hb : b ∈ l0) by (apply Hin0; split; [done|]; by exists x).
    apply list_elem_of_split in Hb as (l1 & l2 & ->).
    exists (l1 ++ l2). pose proof (linked_remove _ _ None _ _ _ _ Hnd0 ltac:(done) Hl0) as Hl.
    assert (e = if decide (first = Some b) then ln L b else first) as ->.
    { unfold unhashed in He. destruct (decide (first = Some b)); [|congruence].
      rewrite array_get_set_eq in He by (by eapply array_get_Some_bound). congruence. }
    split; [exact Hl|].
    assert (Hp : l1 ++ b :: l2 ≡ₚ b :: l1 ++ l2) by solve_Permutation.
    assert (Hnd1 : NoDup (b :: l1 ++ l2)) by (rewrite <- Hp; done).
    apply list.NoDup_cons in Hnd1 as [Hb Hnd1]. split; [done|]. intros i.
    specialize (Hin0 i). rewrite Hp, elem_of_cons in Hin0. split.
    + intros Hi. split; [intros [= ->]; done|]. by apply Hin0; right.
    + intros [Hbi Hx2]. destruct (proj2 Hin0) as [->|?]; [by split|congruence|done].
  - assert (array_get ht h = Some e) as He'.
    { unfold unhashed in He. destruct (decide (first = Some b)) as [Hf|]; [|done].
      destruct (decide (h = chain_of x)) as [->|]; [|by rewrite array_get_set_ne in He].
      exfalso. apply Hfb, Hin0 in Hf as (_ & y & Hy & ? & ?). apply Hne. split; [done|]. congruence. }
    destruct (ci_chain _ _ _ _ _ Hc _ _ He') as (l & Hl & Hnd & Hin). exists l.
    assert (Hbl : b ∉ l).
    { intros Hb. apply Hin in Hb as (_ & y & Hy & ? & ?). apply Hne.
      assert (y = x) as -> by congruence. by split. }
    split; [|split; [done|]].
    + eapply linked_ext; [|exact Hl]. intros i Hi. apply Hin in Hi as (_ & y & Hy & Hdy & Hh).
      assert (Hnq : forall q, ln L b = Some q \/ lp L b = Some q -> q <> i).
      { intros q Hq ->. destruct (decide (b_dev x = 0)) as [H0|Hdev].
        - destruct (ci_free _ _ _ _ _ Hc b x) as [H1 H2]; try done. rewrite H1, H2 in Hq. by destruct Hq.
        - destruct (chain_neighbours c L ht fl b x Hc Hx i Hq) as (_ & z & Hz & _ & Hcz).
          apply Hne. split; [|done]. congruence. }
      split; simpl; apply fupd_opt_ne; intros Hq; by apply (Hnq i); auto.
    + intros i. rewrite Hin. split.
      * intros [_ Hi]. split; [|done]. intros [= <-]. apply Hbl, Hin. by split.
      * intros [_ Hi]. by split.
Qed.

Lemma cinv_remove c L ht fl b x :
  cinv c L ht fl None -> array_get c b = Some x -> (2 <= length c)%nat ->
  exists p n first,
    lpf L b = Some p /\ lnf L b = Some n /\ p <> b /\ n <> b /\
    is_Some (array_get c p) /\ is_Some (array_get c n) /\
    array_get ht (chain_of x) = Some first /\
    cinv c (unlinked L b p n) (unhashed ht x L b first)
      (if decide (fl = Some b) then Some n else fl) (Some b).
Proof.
  intros Hc Hx Hlen. destruct (ci_ring _ _ _ _ _ Hc) as (f & r & -> & Hr & Hnd & Hin).
  assert (Hb : b ∈ f :: r) by (apply Hin; split; [done|by eexists]).
  assert (Hr0 : r <> []).
  { intros ->. assert (forall i, is_Some (array_get c i) -> i = f) as Hone.
    { intros i Hi. apply list_elem_of_singleton, Hin. by split. }
    assert (is_Some (array_get c 0) /\ is_Some (array_get c 1)) as [H0 H1]
      by (split; apply array_get_in_bounds; lia).
    apply Hone in H0, H1. lia. }
  destruct (ring_without L f r b Hr Hnd Hb Hr0)
    as (p & n & f' & r' & Hp & Hn & Hpin & Hnin & Hpb & Hnb & Hf' & Hring & Hnd' & Hin').
  destruct (hash_entry ht (b_dev x) (b_blocknr x) (ci_hash _ _ _ _ _ Hc)) as [first Hfirst].
  exists p, n, first. apply Hin in Hpin as [_ Hpin], Hnin as [_ Hnin]. split_and!; try done. split.
  - unfold unhashed. destruct (decide (first = Some b)); [rewrite length_array_set|]; apply (ci_hash _ _ _ _ _ Hc).
  - exists f', r'. split_and!; [|done|done|].
    + rewrite Hf'. destruct (decide (f = b)) as [->|]; [by rewrite decide_True|].
      rewrite decide_False by congruence. done.
    + intros i. rewrite Hin', Hin. split; [intros (? & _ & ?); split; congruence|].
      intros [Hne ?]. split; [congruence|]. by split.
  - by apply (chains_remove c L ht (Some f)).
  - intros i y Hi Hy H0. destruct (ci_free _ _ _ _ _ Hc i y) as [H1 H2]; try done.
    assert (Hnq : forall q, ln L b = Some q \/ lp L b = Some q -> q <> i).
    { intros q Hq ->. destruct (chain_neighbours c L ht _ b x Hc Hx i Hq) as (_ & z & Hz & ? & _).
      congruence. }
    simpl. rewrite !fupd_opt_ne; [done|intros Hq; by apply (Hnq i); auto..].
  - intros i j y z _ _. by apply (ci_unique _ _ _ _ _ Hc).
Qed.

Lemma cinv_insert c L ht fl b x :
  cinv c L ht fl (Some b) -> array_get c b = Some x -> b_dev x <> 0 ->
  (forall j y, j <> b -> array_get c j = Some y -> b_dev y = b_dev x -> b_blocknr y <> b_blocknr x) ->
  exists f last first,
    fl = Some f /\ f <> b /\ is_Some (array_get c f) /\ lpf L f = Some last /\ last <> b /\
    is_Some (array_get c last) /\ array_get ht (chain_of x) = Some first /\
    (forall y, first = Some y -> y <> b /\ is_Some (array_get c y)) /\
    cinv c (inserted L b f last first) (array_set ht (chain_of x) (Some b)) fl None.
Proof.
  intros Hc Hx Hdev Hnew. destruct (ci_ring _ _ _ _ _ Hc) as (f & r & -> & Hr & Hnd & Hin).
  destruct (hash_entry ht (b_dev x) (b_blocknr x) (ci_hash _ _ _ _ _ Hc)) as [first Hfirst].
  pose proof (hash_range (b_dev x) (b_blocknr x)) as Hrange. fold (chain_of x) in Hrange.
  fold (chain_of x) in Hfirst.
  destruct (ci_chain _ _ _ _ _ Hc _ _ Hfirst) as (l & Hl & Hndl & Hinl).
  pose proof (linked_start _ _ _ _ _ Hl) as Hhead.
  assert (Hbf : b ∉ f :: r) by (intros Hb; by apply Hin in Hb as [? _]).
  assert (Hbl : b ∉ l) by (intros Hb; by apply Hinl in Hb as [? _]).
  destruct (proj1 (Hin f)) as [Hfb Hf]; [by left|].
  destruct (proj1 (Hin (last_of f r))) as [Hlb Hlast]; [apply last_of_elem|].
  exists f, (last_of f r), first.
  assert (Hfirst2 : forall y, first = Some y -> y <> b /\ y ∈ l).
  { intros y ->. destruct l as [|z l]; [done|]. injection Hhead as ->.
    split; [intros ->; apply Hbl|]; by left. }
  split_and!; try done; try congruence.
  { by destruct (ring_last _ _ _ _ Hr). }
  { intros y Hy. destruct (Hfirst2 y Hy) as [? Hyl]. split; [done|].
    apply Hinl in Hyl as (_ & z & ? & _). by exists z. }
  split.
  - rewrite length_array_set. apply Hc.
  - exists f, (r ++ [b]). split_and!; [done| | |].
    + by apply ring_insert; [apply list.NoDup_cons|].
    + rewrite app_comm_cons. apply list.NoDup_app. split_and!; [done| |apply NoDup_singleton].
      intros i Hi Hib. apply list_elem_of_singleton in Hib as ->. done.
    + intros i. rewrite app_comm_cons, elem_of_app, list_elem_of_singleton, Hin. split.
      * intros [[_ ?]| ->]; [done|]. split; [done|by exists x].
      * intros [_ Hi]. destruct (decide (i = b)) as [->|]; [by right|left]. split; [congruence|done].
  - intros h e He. destruct (decide (h = chain_of x)) as [->|Hh].
    + rewrite array_get_set_eq in He by (rewrite (ci_hash _ _ _ _ _ Hc); lia). injection He as <-.
      exists (b :: l). split; [by apply linked_push; [apply list.NoDup_cons|]|].
      split; [by apply list.NoDup_cons|]. intros i. rewrite elem_of_cons, Hinl. split.
      * intros [->|(_ & y & ?)]; [split; [done|by exists x]|]. split; [done|by exists y].
      * intros (_ & y & ?). destruct (decide (i = b)) as [->|]; [by left|right]. split; [congruence|by exists y].
    + rewrite array_get_set_ne in He by done.
      destruct (ci_chain _ _ _ _ _ Hc _ _ He) as (l' & Hl' & Hnd' & Hin'). exists l'.
      assert (Hb' : b ∉ l') by (intros Hb; by apply Hin' in Hb as [? _]).
      split; [|split; [done|]].
      * eapply linked_ext; [|exact Hl']. intros i Hi.
        assert (i <> b) by (by intros ->). simpl. rewrite fupd_ne by done. split; [done|].
        rewrite fupd_opt_ne; [by apply fupd_ne|]. intros ->.
        destruct (Hfirst2 i eq_refl) as [_ Hil]. apply Hinl in Hil as (_ & y & Hy & _ & Hcy).
        apply Hin' in Hi as (_ & z & Hz & _ & Hcz). congruence.
      * intros i. rewrite Hin'. split; intros (Hib & y & Hy & Hd & Hcy); (split; [|by exists y]); [done|].
        intros [= <-]. congruence.
  - intros i y _ Hy H0. destruct (decide (i = b)) as [->|Hib]; [congruence|].
    destruct (ci_free _ _ _ _ _ Hc i y) as [H1 H2]; [congruence|done|done|].
    simpl. rewrite fupd_ne by done. split; [|done]. rewrite fupd_opt_ne; [by rewrite fupd_ne|].
    intros ->. destruct (Hfirst2 i eq_refl) as [_ Hil]. apply Hinl in Hil as (_ & z & Hz & ? & _). congruence.
  - intros i j y z _ _ Hy Hz Hd Hdd Hbb.
    destruct (decide (i = b)) as [->|Hi], (decide (j = b)) as [->|Hj]; [done| | |].
    + assert (y = x) as -> by congruence. by destruct (Hnew j z).
    + assert (z = x) as -> by congruence. by destruct (Hnew i y).
    + eapply (ci_unique _ _ _ _ _ Hc i j y z); congruence.
Qed.
End invariant.
End Cache.
