(* ===== verification/Getblk.v ===== *)
(** * Finding and taking a buffer ([fs/buffer.c])

    What [find_buffer], [find_unused] and [getblk] do in a cache that
    satisfies its invariant while no buffer is locked: the routine then
    returns without sleeping. *)

From S2P Require Import Prelude FsData Block Buffer Cache.

Module Getblk.
Import Block Buffer Cache.

(** The fields of a head are of their C types. *)
Definition head_ok (x : buffer_head) : Prop :=
  0 <= b_dirt x < 256 /\ 0 <= b_count x < 256 /\ 0 <= b_lock x < 256 /\
  0 <= b_dev x < 65536 /\ 0 <= b_blocknr x < 4294967296.
Record cache_ok (s : blk) : Prop := {
  co_inv : cinv (bufs s) (links_of s) (hash_table s) (free_list s) None;
  co_heads : forall i x, array_get (bufs s) i = Some x -> head_ok x;
  co_many : (2 <= length (bufs s))%nat
}.
(** No buffer is locked. *)
Definition calm (s : blk) : Prop := forall i x, array_get (bufs s) i = Some x -> b_lock x = 0.
Definition holds (dev block : Z) (x : buffer_head) : Prop := b_dev x = dev /\ b_blocknr x = block.
(** A buffer that nobody uses and that need not be written. *)
Definition spare (x : buffer_head) : Prop := b_count x = 0 /\ b_dirt x = 0.
(** A head without its links. *)
Definition payload (x : buffer_head) : buffer_head :=
  x ⟪ b_prev := None ⟫ ⟪ b_next := None ⟫ ⟪ b_prev_free := None ⟫ ⟪ b_next_free := None ⟫.

(** ** The invariant up to the fields that matter to it *)

Section ext.
Implicit Types (c : list buffer_head) (L : links).

Lemma path_ext_all nf pf nf' pf' x l :
  (forall i, i ∈ x :: l -> nf' i = nf i /\ pf' i = pf i) -> path nf pf x l -> path nf' pf' x l.
Proof.
  revert x. induction l as [|a l IH]; intros x Hext; [done|]. intros [[H1 H2] Hl].
  destruct (Hext x) as [Hn _]; [by left|]. destruct (Hext a) as [_ Hp]; [right; by left|].
  split; [split; congruence|]. apply IH; [|done]. intros i Hi. apply Hext. by right.
Qed.
Lemma ring_ext nf pf nf' pf' l :
  (forall i, i ∈ l -> nf' i = nf i /\ pf' i = pf i) -> ring nf pf l -> ring nf' pf' l.
Proof.
  destruct l as [|f r]; [done|]. intros Hext. apply path_ext_all. intros i Hi. apply Hext.
  apply elem_of_cons in Hi as [->|Hi]; [by left|].
  apply elem_of_app in Hi as [?| ->%list_elem_of_singleton]; [by right|by left].
Qed.
Lemma cinv_links_ext c L L' ht fl out :
  (forall i, is_Some (array_get c i) ->
    lp L' i = lp L i /\ ln L' i = ln L i /\ lpf L' i = lpf L i /\ lnf L' i = lnf L i) ->
  cinv c L ht fl out -> cinv c L' ht fl out.
Proof.
  intros Hext [Hh (f & r & Hf & Hr & Hnd & Hin) Hch Hfr Hu]. split; [done| | | |done].
  - exists f, r. split_and!; [done| |done|done]. eapply ring_ext; [|exact Hr].
    intros i Hi. apply Hin in Hi as [_ Hi]. apply Hext in Hi. tauto.
  - intros h e He. destruct (Hch h e He) as (l & Hl & ? & Hinl). exists l. split; [|done].
    eapply linked_ext; [|exact Hl]. intros i Hi. apply Hinl in Hi as (_ & x & Hx & _).
    destruct (Hext i) as (? & ? & _); [by exists x|]. done.
  - intros i x Ho Hx H0. destruct (Hext i) as (-> & -> & _); [by exists x|]. by apply (Hfr i x).
Qed.
(** Only the device and the number of the buffers on the queues matter. *)
Lemma cinv_heads_ext c c' L ht fl out :
  (forall i, is_Some (array_get c' i) <-> is_Some (array_get c i)) ->
  (forall i x x', out <> Some i -> array_get c i = Some x -> array_get c' i = Some x' ->
    b_dev x' = b_dev x /\ b_blocknr x' = b_blocknr x) ->
  cinv c L ht fl out -> cinv c' L ht fl out.
Proof.
  intros Hdom Hsame [Hh (f & r & Hf & Hr & Hnd & Hin) Hch Hfr Hu].
  assert (Hback : forall i x', out <> Some i -> array_get c' i = Some x' ->
    exists x, array_get c i = Some x /\ b_dev x' = b_dev x /\ b_blocknr x' = b_blocknr x).
  { intros i x' Ho Hx'. destruct (proj1 (Hdom i)) as [x Hx]; [by exists x'|].
    exists x. split; [done|]. by apply (Hsame i). }
  split; [done| | | |].
  - exists f, r. split_and!; [done..|]. intros i. rewrite Hin. by rewrite Hdom.
  - intros h e He. destruct (Hch h e He) as (l & Hl & Hnd' & Hinl). exists l.
    split_and!; [done..|]. intros i. rewrite Hinl. split; intros (Ho & x & Hx & Hd & Hc); (split; [done|]).
    + destruct (proj2 (Hdom i)) as [x' Hx']; [by exists x|]. exists x'. split; [done|].
      destruct (Hsame i x x') as [H1 H2]; [done..|]. unfold chain_of in *. rewrite H1, H2. done.
    + destruct (Hback i x Ho Hx) as (y & Hy & H1 & H2). exists y. split; [done|].
      unfold chain_of in *. rewrite <- H1, <- H2. done.
  - intros i x' Ho Hx' H0. destruct (Hback i x' Ho Hx') as (x & Hx & H1 & _).
    apply (Hfr i x); congruence.
  - intros i j x' y' Hoi Hoj Hx' Hy' Hd Hdd Hbb.
    destruct (Hback i x' Hoi Hx') as (x & Hx & ? & ?), (Hback j y' Hoj Hy') as (y & Hy & ? & ?).
    apply (Hu i j x y); congruence.
Qed.
Lemma links_of_with_links L s i :
  is_Some (array_get (bufs s) i) ->
  lp (links_of (with_links L s)) i = lp L i /\ ln (links_of (with_links L s)) i = ln L i /\
  lpf (links_of (with_links L s)) i = lpf L i /\ lnf (links_of (with_links L s)) i = lnf L i.
Proof.
  intros [x Hx]. unfold links_of. cbn [lp ln lpf lnf].
  change (bufs (with_links L s)) with (relink L (bufs s)). rewrite array_get_relink, Hx. done.
Qed.
Lemma get_buf_run s i x : array_get (bufs s) i = Some x -> get_buf i s = Done x s.
Proof. intros Hx. unfold get_buf. rewrite run_gets. unfold read_at. by rewrite Hx. Qed.
Lemma upd_buf_run s i x f :
  array_get (bufs s) i = Some x ->
  upd_buf i f s = Done tt (s ⟪ bufs := array_set (bufs s) i (f x) ⟫).
Proof. intros Hx. unfold upd_buf. by rewrite (run_bind _ _ _ _ _ (get_buf_run s i x Hx)). Qed.
Lemma links_of_get s i x :
  array_get (bufs s) i = Some x ->
  lp (links_of s) i = b_prev x /\ ln (links_of s) i = b_next x /\
  lpf (links_of s) i = b_prev_free x /\ lnf (links_of s) i = b_next_free x.
Proof. intros Hx. unfold links_of. simpl. by rewrite Hx. Qed.
End ext.

(** ** Looking a block up *)

Lemma NoDup_valid_length {A} (c : list A) (l : list Z) :
  NoDup l -> (forall i, i ∈ l -> is_Some (array_get c i)) -> (length l <= length c)%nat.
Proof.
  intros Hnd Hin. replace (length c) with (length (upto (Z.of_nat (length c)))).
  - apply submseteq_length, NoDup_submseteq; [done|]. intros i Hi. apply elem_of_upto.
    destruct (Hin i Hi) as [x Hx]. by apply array_get_Some_bound in Hx.
  - rewrite length_seqZ. lia.
Qed.

Section lookup.
Context (dev block : Z) (Hblock : 0 <= block < 4294967296).

Lemma find_walk s : forall l prev p fuel,
  linked (ln (links_of s)) (lp (links_of s)) prev p l ->
  (forall i, i ∈ l -> is_Some (array_get (bufs s) i)) -> (length l < fuel)%nat ->
  exists o, kloop fuel (fun tmp =>
    match tmp with
    | None => mret (inr None)
    | Some t =>
        h ← get_buf t;
        if (b_dev h =? dev) && (b_blocknr h =? u32 block) then mret (inr (Some t))
        else mret (inl (b_next h))
    end) p s = Done o s /\
  match o with
  | Some t => t ∈ l /\ exists x, array_get (bufs s) t = Some x /\ holds dev block x
  | None => forall i x, i ∈ l -> array_get (bufs s) i = Some x -> ~ holds dev block x
  end.
Proof using Hblock.
  induction l as [|i l IH]; intros prev p fuel Hl Hin Hfuel; (destruct fuel as [|fuel]; [simpl in *; lia|]).
  - simpl in Hl. subst p. exists None. split; [done|]. by intros i x Hi%elem_of_nil.
  - destruct Hl as (-> & _ & Hl). destruct (Hin i) as [x Hx]; [by left|].
    rewrite kloop_S, (run_bind _ _ _ _ _ (get_buf_run s i x Hx)). rewrite (u32_small block) by done.
    destruct ((b_dev x =? dev) && (b_blocknr x =? block)) eqn:Hm.
    + exists (Some i). split; [done|]. split; [by left|]. exists x. split; [done|].
      unfold holds. lia.
    + destruct (links_of_get s i x Hx) as (_ & Hn & _). rewrite Hn in Hl.
      destruct (IH _ _ fuel Hl) as (o & Ho & Hspec).
      { intros j Hj. apply Hin. by right. }
      { simpl in Hfuel. lia. }
      rewrite (u32_small block) in Ho by done.
      exists o. split; [exact Ho|]. destruct o as [t|].
      * destruct Hspec as [? ?]. split; [by right|done].
      * intros j y [->|Hj]%elem_of_cons Hy; [|by apply Hspec with j].
        assert (y = x) as -> by congruence. unfold holds. lia.
Qed.

Lemma find_buffer_run s :
  cache_ok s -> dev <> 0 -> exists o, find_buffer dev block s = Done o s /\
  match o with
  | Some t => exists x, array_get (bufs s) t = Some x /\ holds dev block x
  | None => forall i x, array_get (bufs s) i = Some x -> ~ holds dev block x
  end.
Proof using Hblock.
  intros [Hc Hh _] Hdev. destruct (hash_entry (hash_table s) dev block (ci_hash _ _ _ _ _ Hc)) as [first Hf].
  destruct (ci_chain _ _ _ _ _ Hc _ _ Hf) as (l & Hl & Hnd & Hin).
  unfold find_buffer. rewrite (run_bind _ _ _ first s); cycle 1.
  { unfold hash_get. rewrite run_gets. unfold read_at. by rewrite Hf. }
  unfold NR_BUFFERS. rewrite (run_bind _ _ _ (Z.of_nat (length (bufs s))) s) by done.
  assert (Hval : forall i, i ∈ l -> is_Some (array_get (bufs s) i)).
  { intros i Hi. apply Hin in Hi as (_ & x & ? & _). by exists x. }
  destruct (find_walk s l None first (S (Z.to_nat (Z.of_nat (length (bufs s))))) Hl Hval) as (o & Ho & Hspec).
  { rewrite Nat2Z.id. pose proof (NoDup_valid_length _ _ Hnd Hval). lia. }
  exists o. split; [exact Ho|]. destruct o as [t|]; [by destruct Hspec|].
  intros i x Hx [H1 H2]. apply (Hspec i x); [|done|done]. apply Hin. split; [done|].
  exists x. split; [done|]. split; [congruence|]. unfold chain_of. congruence.
Qed.
End lookup.

(** ** The buffer to be reused *)

(** The first spare buffer of a list. *)
Definition first_spare (c : list buffer_head) (l : list Z) (b : Z) : Prop :=
  exists l1 l2 x, l = l1 ++ b :: l2 /\ array_get c b = Some x /\ spare x /\
    forall i y, i ∈ l1 -> array_get c i = Some y -> ~ spare y.

Section unused.
Context (s : blk) (f : Z).
Context (Hcalm : calm s) (Hheads : forall i x, array_get (bufs s) i = Some x -> head_ok x).

Definition unused_turn : Z * option Z -> KM blk (Z * option Z + option Z) := fun '(tmp, bh) =>
    h ← get_buf tmp;
    let on bh := (if bool_decide (b_next_free h = Some f) then mret (inr bh)
                  else n ← deref (b_next_free h); mret (inl (n, bh))) in
    if truth (b_count h) then on bh
    else
      better ← match bh with
               | None => mret true
               | Some b => x ← get_buf b; mret (BADNESS h <? BADNESS x)
               end;
      if better : bool then
        if BADNESS h =? 0 then mret (inr (Some tmp)) else on (Some tmp)
      else on bh.

(** A candidate so far is not spare. *)
Definition dirty (bh : option Z) : Prop :=
  forall b, bh = Some b -> exists x, array_get (bufs s) b = Some x /\ 0 < BADNESS x.

Lemma first_spare_cons tmp h l b :
  array_get (bufs s) tmp = Some h -> ~ spare h ->
  first_spare (bufs s) l b -> first_spare (bufs s) (tmp :: l) b.
Proof using Type.
  intros Hh Hns (l1 & l2 & x & -> & Hx & Hs & Hno). exists (tmp :: l1), l2, x.
  split_and!; try done. intros i y [->|Hi]%elem_of_cons Hy; [congruence|by apply (Hno i y)].
Qed.

Lemma unused_step tmp h bh :
  array_get (bufs s) tmp = Some h -> dirty bh ->
  (spare h /\ unused_turn (tmp, bh) s = Done (inr (Some tmp)) s) \/
  (~ spare h /\ exists bh', dirty bh' /\ forall n, b_next_free h = Some n ->
     unused_turn (tmp, bh) s = Done (if decide (n = f) then inr bh' else inl (n, bh')) s).
Proof using Hcalm Hheads.
  intros Hh Hd. unfold unused_turn. rewrite (run_bind _ _ _ _ _ (get_buf_run s tmp h Hh)).
  pose proof (Hcalm tmp h Hh) as Hl. destruct (Hheads tmp h Hh) as [Hdirt _].
  assert (Hgo : forall (o : option Z) n, b_next_free h = Some n ->
    (if bool_decide (b_next_free h = Some f) then mret (inr o) else n ← deref (b_next_free h); mret (inl (n, o)))
      s = Done (if decide (n = f) then inr o else inl (n, o)) s).
  { intros o n ->. destruct (decide (n = f)) as [->|].
    - by rewrite bool_decide_eq_true_2.
    - by rewrite bool_decide_eq_false_2 by congruence. }
  destruct (truth (b_count h)) eqn:Hcount.
  { right. apply truth_true in Hcount. split; [by intros [? _]|]. exists bh. split; [done|]. apply Hgo. }
  apply truth_false in Hcount.
  destruct (Z.eqb_spec (b_dirt h) 0) as [H0|H0].
  - left. split; [done|]. assert (Hb0 : BADNESS h = 0) by (unfold BADNESS; lia).
    rewrite (run_bind _ _ _ true s); cycle 1.
    { destruct bh as [b|]; [|done]. destruct (Hd b eq_refl) as (x & Hx & Hpos).
      rewrite (run_bind _ _ _ _ _ (get_buf_run s b x Hx)). unfold mret, kret. f_equal. lia. }
    by rewrite Hb0.
  - right. split; [by intros [_ ?]|]. assert (Hb0 : 0 < BADNESS h) by (unfold BADNESS; lia).
    assert (Htmp : dirty (Some tmp)) by (intros b [= <-]; by exists h).
    destruct bh as [b|].
    + destruct (Hd b eq_refl) as (x & Hx & Hpos).
      exists (if BADNESS h <? BADNESS x then Some tmp else Some b).
      split; [by destruct (_ <? _)|]. intros n Hn.
      rewrite (run_bind _ _ _ (BADNESS h <? BADNESS x) s); cycle 1.
      { by rewrite (run_bind _ _ _ _ _ (get_buf_run s b x Hx)). }
      rewrite (proj2 (Z.eqb_neq (BADNESS h) 0)) by lia. destruct (_ <? _); by apply Hgo.
    + exists (Some tmp). split; [done|]. intros n Hn.
      rewrite (run_bind _ _ _ true s) by done.
      rewrite (proj2 (Z.eqb_neq (BADNESS h) 0)) by lia. by apply Hgo.
Qed.

Lemma unused_walk : forall l tmp bh fuel,
  path (lnf (links_of s)) (lpf (links_of s)) tmp (l ++ [f]) -> f ∉ l ->
  (forall i, i ∈ tmp :: l -> is_Some (array_get (bufs s) i)) -> dirty bh ->
  (exists i x, i ∈ tmp :: l /\ array_get (bufs s) i = Some x /\ spare x) ->
  (length l < fuel)%nat ->
  exists b, kloop fuel unused_turn (tmp, bh) s = Done (Some b) s /\ first_spare (bufs s) (tmp :: l) b.
Proof using Hcalm Hheads.
  induction l as [|n l IH]; intros tmp bh fuel Hp Hf Hval Hd Hex Hfuel;
    (destruct fuel as [|fuel]; [simpl in *; lia|]); rewrite kloop_S;
    (destruct (Hval tmp) as [h Hh]; [by left|]);
    destruct (links_of_get s tmp h Hh) as (_ & _ & _ & Hnf);
    destruct (unused_step tmp h bh Hh Hd) as [[Hsp Hrun]|(Hns & bh' & Hd' & Hrun)].
  1,3: rewrite Hrun; exists tmp; split; [done|]; eexists [], _, h; split_and!; try done;
       by intros i y Hi%elem_of_nil.
  - destruct Hex as (i & x & Hi & Hx & Hsp). exfalso. apply list_elem_of_singleton in Hi as ->. congruence.
  - destruct Hp as [[Hn _] Hp]. rewrite Hnf in Hn. rewrite (Hrun n Hn).
    apply not_elem_of_cons in Hf as [Hfn Hf]. rewrite decide_False by congruence.
    destruct (IH n bh' fuel Hp Hf) as (b & Hb & Hfirst); try done.
    { intros i Hi. apply Hval. by right. }
    { destruct Hex as (i & x & [->|Hi]%elem_of_cons & Hx & Hsp); [congruence|by exists i, x]. }
    { simpl in Hfuel. lia. }
    exists b. split; [done|]. by eapply first_spare_cons.
Qed.
End unused.

(** The free list from its first buffer on. *)
Definition free_ring (s : blk) (l : list Z) : Prop :=
  list.head l = free_list s /\ ring (lnf (links_of s)) (lpf (links_of s)) l.

Lemma find_unused_run s :
  cache_ok s -> calm s -> (exists i x, array_get (bufs s) i = Some x /\ spare x) ->
  exists l b, free_ring s l /\ first_spare (bufs s) l b /\ find_unused s = Done (Some b) s.
Proof.
  intros [Hc Hh _] Hcalm (i & x & Hx & Hs).
  destruct (ci_ring _ _ _ _ _ Hc) as (f & r & Hf & Hr & Hnd & Hin). exists (f :: r).
  assert (Hval : forall i, i ∈ f :: r <-> is_Some (array_get (bufs s) i)).
  { intros j. rewrite Hin. split; [by intros [_ ?]|done]. }
  destruct (unused_walk s f Hcalm Hh r f None (S (Z.to_nat (Z.of_nat (length (bufs s)))))) as (b & Hb & Hfirst).
  - exact Hr.
  - by apply list.NoDup_cons in Hnd as [? _].
  - intros j Hj. by apply Hval.
  - done.
  - exists i, x. split; [apply Hval; by exists x|done].
  - rewrite Nat2Z.id. pose proof (NoDup_valid_length (bufs s) _ Hnd (fun j => proj1 (Hval j))). simpl in *. lia.
  - exists b. split; [by split|]. split; [done|]. unfold find_unused. rewrite run_gets, Hf.
    rewrite (run_bind _ _ _ f s) by done.
    unfold NR_BUFFERS. rewrite (run_bind _ _ _ (Z.of_nat (length (bufs s))) s) by done. exact Hb.
Qed.

(** ** Taking the buffer *)

Lemma upd_buf_payload L s b x f :
  array_get (bufs s) b = Some x -> (forall y, f (relink_head L b y) = relink_head L b (f y)) ->
  upd_buf b f (with_links L s) = Done tt (with_links L (s ⟪ bufs := array_set (bufs s) b (f x) ⟫)).
Proof.
  intros Hx Hf. unfold upd_buf. rewrite (run_bind _ _ _ _ _ (get_buf_links L s b x Hx)).
  unfold modify. f_equal. unfold with_links. cbn [set_field bufs]. f_equal.
  rewrite Hf. apply list_eq. intros k. pose proof (array_get_Some_bound _ _ _ Hx) as Hb.
  rewrite <- !array_get_nat. destruct (decide (Z.of_nat k = b)) as [->|Hne].
  - rewrite array_get_set_eq by (rewrite length_relink; lia).
    rewrite array_get_relink, array_get_set_eq by lia. done.
  - rewrite array_get_set_ne by done. by rewrite !array_get_relink, array_get_set_ne by done.
Qed.
Lemma array_get_set_is_Some {A} (l : list A) b x v i :
  array_get l b = Some x -> is_Some (array_get (array_set l b v) i) <-> is_Some (array_get l i).
Proof.
  intros Hx. pose proof (array_get_Some_bound _ _ _ Hx). destruct (decide (b = i)) as [<-|Hne].
  - rewrite array_get_set_eq by lia. by rewrite Hx, !is_Some_alt.
  - by rewrite array_get_set_ne.
Qed.
Lemma cinv_other_head c L ht fl b x v :
  array_get c b = Some x -> cinv c L ht fl (Some b) -> cinv (array_set c b v) L ht fl (Some b).
Proof.
  intros Hx. apply cinv_heads_ext; [intros i; by eapply array_get_set_is_Some|].
  intros i y y' Hi Hy Hy'. rewrite array_get_set_ne in Hy' by congruence.
  assert (y' = y) as -> by congruence. done.
Qed.
Lemma cinv_same_head c L ht fl b x v out :
  array_get c b = Some x -> b_dev v = b_dev x -> b_blocknr v = b_blocknr x ->
  cinv c L ht fl out -> cinv (array_set c b v) L ht fl out.
Proof.
  intros Hx H1 H2. apply cinv_heads_ext; [intros i; by eapply array_get_set_is_Some|].
  intros i y y' Hi Hy Hy'. destruct (decide (b = i)) as [<-|].
  - rewrite array_get_set_eq in Hy' by by eapply array_get_Some_bound.
    injection Hy' as <-. assert (y = x) as -> by congruence. done.
  - rewrite array_get_set_ne in Hy' by done. assert (y' = y) as -> by congruence. done.
Qed.
(** The invariant of a cache written with its links. *)
Lemma cinv_with_links L s :
  cinv (bufs s) L (hash_table s) (free_list s) None ->
  cinv (bufs (with_links L s)) (links_of (with_links L s)) (hash_table s) (free_list s) None.
Proof.
  intros Hc. assert (Hdom : forall i, is_Some (array_get (bufs (with_links L s)) i) <-> is_Some (array_get (bufs s) i)).
  { intros i. change (bufs (with_links L s)) with (relink L (bufs s)). rewrite array_get_relink.
    apply fmap_is_Some. }
  apply (cinv_links_ext _ L).
  - intros i Hi. apply links_of_with_links. by apply Hdom.
  - eapply cinv_heads_ext; [exact Hdom| |exact Hc]. intros i x x' _ Hx Hx'.
    change (bufs (with_links L s)) with (relink L (bufs s)) in Hx'.
    rewrite array_get_relink, Hx in Hx'. injection Hx' as <-. done.
Qed.

(** Every field of the state but those of the cache's queues. *)
Definition outside (s : blk) : blk :=
  s ⟪ bufs := [] ⟫ ⟪ hash_table := [] ⟫ ⟪ free_list := None ⟫ ⟪ null_word := None ⟫.

(** The buffer given to another block: its old data, counted once. *)
Definition retake (dev block : Z) (x : buffer_head) : buffer_head :=
  BufferHead (b_data x) block dev 0 0 1 (b_lock x) None None None None.

(** The end of [getblk]. *)
Definition requeue (dev block b : Z) : KM blk (unit + Z) :=
  upd_buf b (fun x => x ⟪ b_count := 1 ⟫ ⟪ b_dirt := 0 ⟫ ⟪ b_uptodate := 0 ⟫) ;;
  remove_from_queues b ;;
  upd_buf b (fun x => x ⟪ b_dev := u16 dev ⟫ ⟪ b_blocknr := u32 block ⟫) ;;
  insert_into_queues b ;;
  mret (inr b).

Lemma requeue_run s b x dev block :
  cache_ok s -> array_get (bufs s) b = Some x -> 0 < dev < 65536 -> 0 <= block < 4294967296 ->
  (forall i y, array_get (bufs s) i = Some y -> ~ holds dev block y) ->
  exists s', requeue dev block b s = Done (inr b) s' /\
  cinv (bufs s') (links_of s') (hash_table s') (free_list s') None /\ outside s' = outside s /\
  (forall j, payload <$> array_get (bufs s') j =
    if decide (j = b) then Some (retake dev block x) else payload <$> array_get (bufs s) j).
Proof.
  intros [Hc Hh Hm] Hx Hdev Hblock Hnew. pose proof (array_get_Some_bound _ _ _ Hx) as Hb.
  set (L0 := links_of s) in *.
  assert (Hrq : requeue dev block b s = requeue dev block b (with_links L0 s)).
  { unfold L0. by rewrite relink_links_of. }
  rewrite Hrq. unfold requeue.
  erewrite run_bind; [|by apply (upd_buf_payload L0 s b x)].
  set (x1 := x ⟪ b_count := 1 ⟫ ⟪ b_dirt := 0 ⟫ ⟪ b_uptodate := 0 ⟫).
  set (s1 := s ⟪ bufs := array_set (bufs s) b x1 ⟫).
  assert (Hx1 : array_get (bufs s1) b = Some x1) by by apply array_get_set_eq.
  assert (Hc1 : cinv (bufs s1) L0 (hash_table s1) (free_list s1) None) by by eapply cinv_same_head.
  destruct (cinv_remove _ _ _ _ b x1 Hc1 Hx1) as (p & n & first & Hp & Hn & Hpb & Hnb & Hpv & Hnv & Hfirst & Hc2).
  { change (bufs s1) with (array_set (bufs s) b x1). by rewrite length_array_set. }
  erewrite run_bind; [|apply (remove_run L0 s1 b x1 p n first); try done]; cycle 1.
  { intros q Hq. destruct (chain_neighbours _ _ _ _ b x1 Hc1 Hx1 q) as (? & y & ? & _); [by left|].
    split; [done|by exists y]. }
  { intros q Hq. destruct (chain_neighbours _ _ _ _ b x1 Hc1 Hx1 q) as (? & y & ? & _); [by right|].
    split; [done|by exists y]. }
  set (L1 := unlinked L0 b p n) in *.
  set (s2 := s1 ⟪ hash_table := _ ⟫ ⟪ free_list := _ ⟫).
  erewrite run_bind; [|by apply (upd_buf_payload L1 s2 b x1)].
  rewrite (u16_small dev), (u32_small block) by lia.
  set (x2 := x1 ⟪ b_dev := dev ⟫ ⟪ b_blocknr := block ⟫).
  set (s3 := s2 ⟪ bufs := array_set (bufs s2) b x2 ⟫).
  assert (Hlen2 : length (bufs s2) = length (bufs s)) by apply length_array_set.
  assert (Hx2 : array_get (bufs s3) b = Some x2) by (apply array_get_set_eq; rewrite Hlen2; lia).
  assert (Hc3 : cinv (bufs s3) L1 (hash_table s3) (free_list s3) (Some b)) by by eapply cinv_other_head.
  assert (Hget3 : forall j, j <> b -> array_get (bufs s3) j = array_get (bufs s) j).
  { intros j Hj. change (bufs s3) with (array_set (array_set (bufs s) b x1) b x2).
    by rewrite !array_get_set_ne by congruence. }
  destruct (cinv_insert _ _ _ _ b x2 Hc3 Hx2) as (f & last & first' & Hf & Hfb & Hfv & Hlast & Hlb & Hlv & Hfirst' & Hfo & Hc4).
  { simpl. lia. }
  { intros j y Hj Hy Hd Hbn. rewrite Hget3 in Hy by done. by apply (Hnew j y). }
  erewrite run_bind; [|by apply (insert_run L1 s3 b x2 f last first'); try done; simpl; lia].
  set (s4 := s3 ⟪ hash_table := _ ⟫ ⟪ null_word := _ ⟫).
  eexists. split; [done|]. split; [|split].
  - change (cinv (bufs (with_links (inserted L1 b f last first') s4))
      (links_of (with_links (inserted L1 b f last first') s4)) (hash_table s4) (free_list s4) None).
    by apply cinv_with_links.
  - done.
  - intros j. change (bufs (with_links _ s4)) with (relink (inserted L1 b f last first') (bufs s3)).
    rewrite array_get_relink. destruct (decide (j = b)) as [->|Hj]; [by rewrite Hx2|].
    rewrite Hget3 by done. by destruct (array_get (bufs s) j).
Qed.
(** ** [getblk] *)

(** [getblk] gave out the buffer [b] for a block: it was the block's buffer
    before, or the block had none and [b] is the first spare buffer of the free
    list, from [free_list] on. *)
Definition given (dev block b : Z) (x x' : buffer_head) (s : blk) : Prop :=
  (holds dev block x /\ payload x' = payload x ⟪ b_count := u8 (b_count x + 1) ⟫) \/
  ((forall i y, array_get (bufs s) i = Some y -> ~ holds dev block y) /\
   (exists l, free_ring s l /\ first_spare (bufs s) l b) /\ payload x' = retake dev block x).

Section getblk.
Context {W : Sleeps} {V : Drivers} {Y : InodeSync}.
Context (dev block : Z) (Hdev : 0 < dev < 65536) (Hblock : 0 <= block < 4294967296).

Lemma wait_unlocked fuel b x s :
  array_get (bufs s) b = Some x -> b_lock x = 0 -> Buffer.wait_on_buffer (S fuel) b s = Done tt s.
Proof.
  intros Hx Hl. unfold Buffer.wait_on_buffer, Block.wait_on_buffer. rewrite kloop_S.
  rewrite (run_bind _ _ _ _ _ (get_buf_run s b x Hx)). by rewrite Hl.
Qed.

(** The cache when the count of a buffer changes. *)
Lemma cache_ok_head s b x v :
  cache_ok s -> array_get (bufs s) b = Some x -> head_ok v ->
  b_dev v = b_dev x -> b_blocknr v = b_blocknr x ->
  b_prev v = b_prev x -> b_next v = b_next x ->
  b_prev_free v = b_prev_free x -> b_next_free v = b_next_free x ->
  cache_ok (s ⟪ bufs := array_set (bufs s) b v ⟫).
Proof using Type.
  intros [Hc Hh Hm] Hx Hv H1 H2 H3 H4 H5 H6. pose proof (array_get_Some_bound _ _ _ Hx) as Hb. split.
  - apply (cinv_links_ext _ (links_of s)).
    + intros i _. unfold links_of. simpl. destruct (decide (b = i)) as [<-|Hi].
      * rewrite array_get_set_eq, Hx by done. simpl. by rewrite H3, H4, H5, H6.
      * by rewrite array_get_set_ne.
    + by apply (cinv_same_head _ _ _ _ b x).
  - intros i y. change (bufs _) with (array_set (bufs s) b v). destruct (decide (b = i)) as [<-|Hi].
    + rewrite array_get_set_eq by done. by intros [= <-].
    + rewrite array_get_set_ne by done. apply Hh.
  - change (bufs _) with (array_set (bufs s) b v). by rewrite length_array_set.
Qed.

Lemma get_hash_table_run fuel s :
  cache_ok s -> calm s -> exists o, get_hash_table (S fuel) dev block s = Done o
    (match o with
     | Some b => final (upd_buf b (fun x => x ⟪ b_count := u8 (b_count x + 1) ⟫)) s
     | None => s
     end) /\
  match o with
  | Some b => exists x, array_get (bufs s) b = Some x /\ holds dev block x
  | None => forall i x, array_get (bufs s) i = Some x -> ~ holds dev block x
  end.
Proof using Hdev Hblock.
  intros Hc Hcalm. destruct (find_buffer_run dev block Hblock s Hc) as (o & Ho & Hspec); [lia|].
  exists o. split; [|done]. unfold get_hash_table. rewrite kloop_S, (run_bind _ _ _ _ _ Ho).
  destruct o as [b|]; [|done]. destruct Hspec as (x & Hx & [Hd Hb]).
  rewrite (run_bind _ _ _ _ _ (upd_buf_run s b x _ Hx)).
  unfold final. rewrite (upd_buf_run s b x _ Hx).
  set (x1 := x ⟪ b_count := _ ⟫). set (s1 := s ⟪ bufs := _ ⟫).
  assert (Hx1 : array_get (bufs s1) b = Some x1) by (by apply array_get_set_eq, (array_get_Some_bound _ _ x)).
  rewrite (run_bind _ _ _ _ _ (wait_unlocked fuel b x1 s1 Hx1 (Hcalm b x Hx))).
  rewrite (run_bind _ _ _ _ _ (get_buf_run s1 b x1 Hx1)).
  change (b_dev x1) with (b_dev x). change (b_blocknr x1) with (b_blocknr x).
  rewrite Hd, Hb, (u32_small block), !Z.eqb_refl by done. done.
Qed.

Lemma payload_fields x y :
  payload x = payload y -> b_dev x = b_dev y /\ b_blocknr x = b_blocknr y /\ b_lock x = b_lock y /\
  (head_ok x -> head_ok y).
Proof using Type. destruct x, y. unfold payload, head_ok. simpl. by intros [= -> -> -> -> -> -> ->]. Qed.

(** The last conjunct of [getblk_takes] follows from the invariant. *)
Lemma holds_unique s b x : cache_ok s -> array_get (bufs s) b = Some x -> holds dev block x ->
  forall j y, array_get (bufs s) j = Some y -> holds dev block y -> j = b.
Proof using Hdev.
  intros [Hc _ _] Hx [Hd Hb] j y Hy [Hd' Hb']. apply (ci_unique _ _ _ _ _ Hc j b y x); try done; lia.
Qed.

(** What [getblk_takes] says of the buffers, from what they become. *)
Lemma heads_after s s' b x v :
  cache_ok s -> calm s -> array_get (bufs s) b = Some x ->
  head_ok v -> b_lock v = 0 ->
  (forall j, payload <$> array_get (bufs s') j =
    if decide (j = b) then Some (payload v) else payload <$> array_get (bufs s) j) ->
  (forall j y, array_get (bufs s') j = Some y -> head_ok y /\ b_lock y = 0) /\
  (exists x', array_get (bufs s') b = Some x' /\ payload x' = payload v) /\
  length (bufs s') = length (bufs s).
Proof using Type.
  intros [_ Hh _] Hcalm Hx Hv Hl Hall. split; [|split].
  - intros j y Hy. specialize (Hall j). rewrite Hy in Hall. destruct (decide (j = b)) as [->|Hj].
    + apply (inj Some) in Hall as Hp. symmetry in Hp. apply payload_fields in Hp as (_ & _ & <- & Ho). auto.
    + destruct (array_get (bufs s) j) as [z|] eqn:Hz; [|done]. apply (inj Some) in Hall as Hp. symmetry in Hp.
      apply payload_fields in Hp as (_ & _ & <- & Ho). split; [by apply Ho, (Hh j)|by apply (Hcalm j)].
  - specialize (Hall b). rewrite decide_True in Hall by done.
    destruct (array_get (bufs s') b) as [x'|]; [|done]. apply (inj Some) in Hall as Hp. by exists x'.
  - assert (Hdom : forall j, is_Some (array_get (bufs s') j) <-> is_Some (array_get (bufs s) j)).
    { intros j. rewrite <- (fmap_is_Some payload (array_get (bufs s') j)), Hall.
      destruct (decide (j = b)) as [->|]; [rewrite Hx; by rewrite !is_Some_alt|apply fmap_is_Some]. }
    assert (Hlt : forall (k : nat), (k < length (bufs s'))%nat <-> (k < length (bufs s))%nat).
    { intros k. rewrite <- !lookup_lt_is_Some, <- !array_get_nat. apply Hdom. }
    pose proof (Hlt (length (bufs s))). pose proof (Hlt (length (bufs s'))). lia.
Qed.

(** [getblk] came to an end, as [getblk_takes] says. *)
Definition got (s : blk) (r : outcome blk Z) : Prop :=
  exists b s' x v, r = Done b s' /\
    cinv (bufs s') (links_of s') (hash_table s') (free_list s') None /\ outside s' = outside s /\
    array_get (bufs s) b = Some x /\ head_ok v /\ b_lock v = 0 /\ holds dev block v /\
    (forall x', payload x' = payload v -> given dev block b x x' s) /\
    (forall j, payload <$> array_get (bufs s') j =
      if decide (j = b) then Some (payload v) else payload <$> array_get (bufs s) j).

Lemma getblk_hit fuel s b x :
  cache_ok s -> calm s -> get_hash_table (S fuel) dev block s =
    Done (Some b) (final (upd_buf b (fun x => x ⟪ b_count := u8 (b_count x + 1) ⟫)) s) ->
  array_get (bufs s) b = Some x -> holds dev block x -> got s (getblk (S fuel) dev block s).
Proof using Type.
  intros Hc Hcalm Ho Hx Hh. unfold getblk. rewrite kloop_S. unfold getblk_turn.
  rewrite (run_bind _ _ _ _ _ Ho). unfold final. rewrite (upd_buf_run s b x _ Hx).
  pose proof (array_get_Some_bound _ _ _ Hx) as Hb.
  set (v := x ⟪ b_count := _ ⟫). set (s' := s ⟪ bufs := _ ⟫).
  assert (Hv : head_ok v).
  { destruct Hc as [_ Hheads _]. destruct (Hheads b x Hx) as (? & _ & ?). split; [done|].
    split; [apply u8_bound|done]. }
  assert (Hok : cache_ok s') by by apply (cache_ok_head s b x v).
  pose proof (co_inv _ Hok) as Hinv. pose proof (Hcalm b x Hx) as Hl.
  exists b, s', x, v. do 7 (split; [done|]). split.
  - intros x' Hx'. left. split; [done|]. by rewrite Hx'.
  - intros j. change (bufs s') with (array_set (bufs s) b v). destruct (decide (j = b)) as [->|Hj].
    + by rewrite array_get_set_eq.
    + by rewrite array_get_set_ne.
Qed.

Lemma getblk_miss fuel s :
  cache_ok s -> calm s -> get_hash_table (S fuel) dev block s = Done None s ->
  (forall i x, array_get (bufs s) i = Some x -> ~ holds dev block x) ->
  (exists i x, array_get (bufs s) i = Some x /\ spare x) -> got s (getblk (S fuel) dev block s).
Proof using Hdev Hblock.
  intros Hc Hcalm Ho Hnone Hsp. unfold getblk. rewrite kloop_S. unfold getblk_turn.
  rewrite (run_bind _ _ _ _ _ Ho).
  destruct (find_unused_run s Hc Hcalm Hsp) as (l & b & Hl & Hfirst & Hfind).
  rewrite (run_bind _ _ _ _ _ Hfind). pose proof Hfirst as (_ & _ & x & _ & Hx & [Hcount Hdirt] & _).
  rewrite (run_bind _ _ _ _ _ (wait_unlocked fuel b x s Hx (Hcalm b x Hx))).
  rewrite (run_bind _ _ _ _ _ (get_buf_run s b x Hx)). rewrite Hcount.
  change (truth 0) with false. cbv iota.
  rewrite (run_bind _ _ _ true s); cycle 1.
  { unfold clean_buffer. rewrite kloop_S, (run_bind _ _ _ _ _ (get_buf_run s b x Hx)).
    by rewrite Hdirt. }
  destruct (find_buffer_run dev block Hblock s Hc) as (o & Ho2 & Hspec); [lia|].
  destruct o as [t|].
  { destruct Hspec as (y & Hy & Hh). by destruct (Hnone t y Hy). }
  change (negb true) with false. cbv iota. rewrite (run_bind _ _ _ _ _ Ho2).
  destruct (requeue_run s b x dev block Hc Hx Hdev Hblock Hnone) as (s' & Hrun & Hinv & Hout & Hall).
  fold (requeue dev block b). rewrite Hrun.
  assert (Hv : head_ok (retake dev block x)).
  { destruct Hc as [_ Hheads _]. destruct (Hheads b x Hx) as (_ & _ & ? & _).
    unfold head_ok, retake. simpl. lia. }
  pose proof (Hcalm b x Hx) as Hlock.
  exists b, s', x, (retake dev block x). do 7 (split; [done|]).
  assert (Hp : payload (retake dev block x) = retake dev block x) by (by destruct x).
  rewrite Hp. split; [|exact Hall]. intros x' Hx'. right.
  split; [exact Hnone|]. split; [by exists l|exact Hx'].
Qed.

Lemma getblk_got fuel s :
  cache_ok s -> calm s ->
  (exists i x, array_get (bufs s) i = Some x /\ (holds dev block x \/ spare x)) ->
  got s (getblk (S fuel) dev block s).
Proof using Hdev Hblock.
  intros Hc Hcalm Hex. destruct (get_hash_table_run fuel s Hc Hcalm) as (o & Ho & Hspec). destruct o as [b|].
  - destruct Hspec as (x & Hx & Hh). by apply (getblk_hit fuel s b x).
  - apply getblk_miss; try done. destruct Hex as (i & x & Hx & [Hh|Hsp]); [|by exists i, x].
    by destruct (Hspec i x Hx).
Qed.

Definition gives (s : blk) (b : Z) (s' : blk) : Prop :=
  cache_ok s' /\ calm s' /\ outside s' = outside s /\
  (exists x x', array_get (bufs s) b = Some x /\ array_get (bufs s') b = Some x' /\
     holds dev block x' /\ given dev block b x x' s) /\
  (forall j, j <> b -> payload <$> array_get (bufs s') j = payload <$> array_get (bufs s) j).

Lemma got_gives s r : cache_ok s -> calm s -> got s r -> exists b s', r = Done b s' /\ gives s b s'.
Proof using Hdev Hblock.
  intros Hc Hcalm (b & s' & x & v & Hrun & Hinv & Hout & Hx & Hv & Hl & Hvh & Hgiven & Hall).
  destruct (heads_after s s' b x v Hc Hcalm Hx Hv Hl Hall) as (Hheads & (x' & Hx' & Hp) & Hlen).
  assert (Hok : cache_ok s').
  { split; [done|intros j y Hy; by apply (Hheads j)|]. rewrite Hlen. apply Hc. }
  assert (Hh' : holds dev block x').
  { destruct (payload_fields x' v Hp) as (H1 & H2 & _). unfold holds in *. by rewrite H1, H2. }
  exists b, s'. split; [done|]. split; [done|]. split; [intros j y Hy; by apply (Hheads j)|].
  split; [done|]. split; [exists x, x'; auto|]. intros j Hj. by rewrite Hall, decide_False.
Qed.

(** C33: In a cache that satisfies its invariant, when no buffer is locked
    and the block is cached or some buffer is neither used nor dirty,
    [getblk] returns without sleeping.  What it returns is the one buffer
    of the block: the cached one with its count incremented or, if there
    was none, the first spare buffer of the free list, now counted once, not
    up to date, and renamed.  Every other buffer keeps its contents and the
    invariant of the queues holds again. *)
Theorem getblk_takes fuel s :
  cache_ok s -> calm s ->
  (exists i x, array_get (bufs s) i = Some x /\ (holds dev block x \/ spare x)) ->
  wp (getblk (S fuel) dev block) (fun b s' =>
    cache_ok s' /\ calm s' /\ outside s' = outside s /\
    (exists x x', array_get (bufs s) b = Some x /\ array_get (bufs s') b = Some x' /\
       holds dev block x' /\ given dev block b x x' s) /\
    (forall j, j <> b -> payload <$> array_get (bufs s') j = payload <$> array_get (bufs s) j) /\
    (forall j y, array_get (bufs s') j = Some y -> holds dev block y -> j = b)) s.
Proof using Hdev Hblock.
  intros Hc Hcalm Hex. apply wp_run.
  destruct (got_gives s _ Hc Hcalm (getblk_got fuel s Hc Hcalm Hex)) as (b & s' & Hrun & H1 & H2 & H3 & H4 & H5).
  exists b, s'. do 6 (split; [done|]). destruct H4 as (x & x' & _ & Hx' & Hh & _). by eapply holds_unique.
Qed.
End getblk.

(** ** The cache that [buffer_init] makes *)

Section init.
Context (old_head : Z -> buffer_head) (old_block : Z -> list Z) (start : Z).

Definition fresh (k : Z) (h : buffer_head) : Prop :=
  b_dev h = 0 /\ b_dirt h = 0 /\ b_count h = 0 /\ b_lock h = 0 /\ b_next h = None /\ b_prev h = None /\
  b_blocknr h = b_blocknr (old_head k).

Lemma init_heads_spec : forall n k b l, init_heads n k b start old_head old_block = Some l ->
  forall j h, l !! j = Some h -> fresh (k + Z.of_nat j) h /\
    b_prev_free h = Some (k + Z.of_nat j - 1) /\ b_next_free h = Some (k + Z.of_nat j + 1).
Proof using Type.
  induction n as [|n IH]; intros k b l Hl j h Hj; [done|]. cbn [init_heads] in Hl.
  destruct (_ <? _); [by injection Hl as <-|]. apply bind_Some in Hl as (l' & Hl' & [= <-]).
  destruct j as [|j]; simpl in Hj.
  - injection Hj as <-. unfold fresh. simpl. rewrite Z.add_0_r. done.
  - specialize (IH _ _ _ Hl' _ _ Hj). by replace (k + Z.of_nat (S j)) with (k + 1 + Z.of_nat j) by lia.
Qed.
(** The loop ends: [b] falls by a block or more at each turn. *)
Lemma init_heads_total : forall n k b, 0 <= start -> 0 <= k -> 0 <= b -> b / 1024 < Z.of_nat n ->
  exists l, init_heads n k b start old_head old_block = Some l.
Proof using Type.
  induction n as [|n IH]; intros k b Hs Hk Hb Hn; cbn [init_heads].
  - pose proof (Z.div_pos b 1024). lia.
  - unfold BLOCK_SIZE. destruct (Z.ltb_spec (b - 1024) (start + 36 * (k + 1))); [by exists []|].
    set (b' := if _ =? _ then _ else _).
    assert (Hb' : 0 <= b' <= b - 1024) by (unfold b'; destruct (Z.eqb_spec (b - 1024) 0x100000); lia).
    destruct (IH (k + 1) b') as [l Hl]; [lia..| |by rewrite Hl; eexists].
    pose proof (Z.div_le_mono b' (b - 1024) 1024). pose proof (Z.div_add b (-1) 1024).
    replace (b + -1 * 1024) with (b - 1024) in * by lia. lia.
Qed.
Lemma init_heads_two n k b l : init_heads n k b start old_head old_block = Some l ->
  start + 36 * (k + 2) + 2048 <= Z.min b 0xA0000 -> (2 <= length l)%nat.
Proof using Type.
  intros Hl Hb. destruct n as [|n]; [done|]. cbn [init_heads] in Hl.
  unfold BLOCK_SIZE in *. destruct (Z.ltb_spec (b - 1024) (start + 36 * (k + 1))); [lia|].
  apply bind_Some in Hl as (l' & Hl' & [= <-]). destruct n as [|n]; [done|]. cbn [init_heads] in Hl'.
  unfold BLOCK_SIZE in *. set (b' := if _ =? _ then _ else _) in Hl'.
  assert (Hb' : Z.min (b - 1024) 0xA0000 <= b') by (unfold b'; destruct (_ =? _); lia).
  destruct (Z.ltb_spec (b' - 1024) (start + 36 * (k + 1 + 1))); [lia|].
  apply bind_Some in Hl' as (l'' & _ & [= <-]). simpl. lia.
Qed.

Lemma fresh_path nf pf : forall n k,
  (forall j, k <= j < k + Z.of_nat n -> nf j = Some (j + 1) /\ pf (j + 1) = Some j) ->
  path nf pf k (seqZ (k + 1) (Z.of_nat n)).
Proof using Type.
  induction n as [|n IH]; intros k Hj; [done|].
  rewrite seqZ_cons by lia. simpl. destruct (Hj k) as [H1 H2]; [lia|]. split; [by split|].
  replace (Z.pred (Z.of_nat (S n))) with (Z.of_nat n) by lia.
  replace (Z.succ (k + 1)) with (k + 1 + 1) by lia. apply IH. intros j Hjj. apply Hj. lia.
Qed.

Lemma init_ring (l : list buffer_head) L :
  (2 <= length l)%nat -> let m := Z.of_nat (length l) in
  (forall j, 0 <= j < m - 1 -> lnf L j = Some (j + 1) /\ lpf L (j + 1) = Some j) ->
  lnf L (m - 1) = Some 0 -> lpf L 0 = Some (m - 1) ->
  ring (lnf L) (lpf L) (upto m).
Proof using Type.
  intros Hlen m Hj Hn Hp. replace m with (1 + (m - 1)) by lia.
  assert (Hm : m - 1 = Z.of_nat (length l - 1)) by lia.
  rewrite (seqZ_app 0 1) by lia. change (seqZ 0 1) with [0]. change (0 + 1) with 1. simpl. apply path_snoc. split.
  - rewrite Hm. apply (fresh_path _ _ _ 0). intros j Hjj. apply Hj. lia.
  - assert (Hlast : last_of 0 (seqZ 1 (m - 1)) = m - 1); [|rewrite Hlast; by split].
    unfold last_of. rewrite Hm. destruct (length l) as [|[|k]]; [lia..|].
    replace (S (S k) - 1)%nat with (S k) by lia. rewrite seqZ_S, list.last_snoc. simpl. lia.
Qed.

Lemma clear_hash_run s : exists s', kfor (upto NR_HASH) (fun i =>
    modify (fun s => s ⟪ hash_table := array_set (hash_table s) i None ⟫)) s = Done tt s' /\
  bufs s' = bufs s /\ free_list s' = free_list s /\ length (hash_table s') = length (hash_table s) /\
  forall i, 0 <= i < 307 -> (length (hash_table s) = 307)%nat -> array_get (hash_table s') i = Some None.
Proof using Type.
  assert (Hw : wp (kfor (upto NR_HASH) (fun i =>
    modify (fun s => s ⟪ hash_table := array_set (hash_table s) i None ⟫))) (fun _ s' =>
      bufs s' = bufs s /\ free_list s' = free_list s /\ length (hash_table s') = length (hash_table s) /\
      forall i, i ∈ upto NR_HASH -> (length (hash_table s) = 307)%nat -> array_get (hash_table s') i = Some None) s).
  { apply (wp_for (fun done rest s' =>
      bufs s' = bufs s /\ free_list s' = free_list s /\ length (hash_table s') = length (hash_table s) /\
      forall i, i ∈ done -> 0 <= i < 307 -> (length (hash_table s) = 307)%nat ->
        array_get (hash_table s') i = Some None)).
    - split_and!; try done. by intros i ?%elem_of_nil.
    - intros done x rest s1 (H1 & H2 & H3 & H4). apply wp_modify. simpl. rewrite length_array_set.
      split_and!; try done. intros i Hi Hr Hlen. destruct (decide (x = i)) as [->|Hne].
      + apply array_get_set_eq. lia.
      + rewrite array_get_set_ne by done. apply H4; try done.
        apply elem_of_app in Hi as [?|Hi]; [done|]. by apply list_elem_of_singleton in Hi.
    - intros s1 (H1 & H2 & H3 & H4). split_and!; try done. intros i Hi Hlen.
      apply H4; try done. by apply elem_of_upto in Hi. }
  apply wp_run in Hw as ([] & s' & Hrun & H1 & H2 & H3 & H4). exists s'. split_and!; try done.
  intros i Hi. by apply H4, elem_of_upto.
Qed.

(** The heads as [buffer_init] leaves them. *)
Lemma init_bufs_ok s l c :
  (2 <= length l)%nat -> (forall k, 0 <= b_blocknr (old_head k) < 4294967296) ->
  (forall j h, l !! j = Some h -> fresh (Z.of_nat j) h /\
    b_prev_free h = Some (Z.of_nat j - 1) /\ b_next_free h = Some (Z.of_nat j + 1)) ->
  (forall i, array_get c i = (fun h =>
     h ⟪ b_prev_free := if decide (i = 0) then Some (Z.of_nat (length l) - 1) else b_prev_free h ⟫
       ⟪ b_next_free := if decide (i = Z.of_nat (length l) - 1) then Some 0 else b_next_free h ⟫)
     <$> array_get l i) ->
  bufs s = c -> length c = length l -> free_list s = Some 0 -> (length (hash_table s) = 307)%nat ->
  (forall i, 0 <= i < 307 -> array_get (hash_table s) i = Some None) ->
  cache_ok s /\ forall i x, array_get (bufs s) i = Some x -> b_lock x = 0 /\ b_dev x = 0 /\ spare x.
Proof using Type.
  intros Hlen Hnr Hl Hc Hs Hlc Hfl Hht Hnone. set (m := Z.of_nat (length l)).
  assert (Hget : forall i, 0 <= i < m -> exists h, array_get (bufs s) i = Some h /\ fresh i h /\
    b_prev_free h = Some (if decide (i = 0) then m - 1 else i - 1) /\
    b_next_free h = Some (if decide (i = m - 1) then 0 else i + 1)).
  { intros i Hi. destruct (array_get_in_bounds l i) as [h Hh]; [lia|].
    rewrite Hs, Hc, Hh. eexists. split; [done|].
    destruct (Hl (Z.to_nat i) h) as (Hf & Hp & Hn).
    { unfold array_get in Hh. by destruct (0 <=? i). }
    rewrite Z2Nat.id in Hf, Hp, Hn by lia. split; [exact Hf|]. simpl.
    fold m. by repeat case_decide. }
  assert (Hback : forall i x, array_get (bufs s) i = Some x -> 0 <= i < m /\ fresh i x).
  { intros i x Hx. pose proof (array_get_Some_bound _ _ _ Hx) as Hi. rewrite Hs, Hlc in Hi.
    destruct (Hget i Hi) as (h & Hh & Hf & _). split; [done|]. by assert (x = h) as -> by congruence. }
  assert (Hring : ring (lnf (links_of s)) (lpf (links_of s)) (upto m)).
  { apply (init_ring l); [done|intros j Hj; split| |].
    - destruct (Hget j) as (h & Hh & _ & _ & Hn); [lia|]. simpl. rewrite Hh. simpl. rewrite Hn.
      by rewrite decide_False by (unfold m; lia).
    - destruct (Hget (j + 1)) as (h & Hh & _ & Hp & _); [unfold m in *; lia|]. simpl. rewrite Hh. simpl. rewrite Hp.
      rewrite decide_False by lia. f_equal. lia.
    - destruct (Hget (m - 1)) as (h & Hh & _ & _ & Hn); [lia|]. simpl. fold m. rewrite Hh. simpl. rewrite Hn.
      by rewrite decide_True.
    - destruct (Hget 0) as (h & Hh & _ & Hp & _); [lia|]. simpl. rewrite Hh. simpl. rewrite Hp. done. }
  split; [split; [split|..]|].
  - done.
  - replace m with (1 + (m - 1)) in Hring by lia. rewrite (seqZ_app 0 1) in Hring by lia.
    exists 0, (seqZ 1 (m - 1)). split; [done|]. split; [exact Hring|].
    assert (Hu : 0 :: seqZ 1 (m - 1) = upto m) by (replace m with (1 + (m - 1)) at 2 by lia; by rewrite (seqZ_app 0 1) by lia).
    rewrite Hu. split; [apply NoDup_seqZ|]. intros i. rewrite elem_of_upto. split.
    + intros Hi. destruct (Hget i Hi) as (h & Hh & _). split; [done|by exists h].
    + intros [_ [x Hx]]. by apply (Hback i x).
  - intros h e He. pose proof (array_get_Some_bound _ _ _ He). rewrite Hnone in He by lia. injection He as <-.
    exists []. split; [done|]. split; [constructor|]. intros i. split; [by intros ?%elem_of_nil|].
    intros (_ & x & Hx & Hd & _). by destruct (Hback i x Hx) as (_ & ? & _).
  - intros i x _ Hx _. destruct (Hback i x Hx) as (_ & _ & _ & _ & _ & Hn & Hp & _).
    destruct (links_of_get s i x Hx) as (-> & -> & _). by split.
  - intros i j x y _ _ Hx _ Hd. by destruct (Hback i x Hx) as (_ & ? & _).
  - intros i x Hx. destruct (Hback i x Hx) as (_ & H1 & H2 & H3 & H4 & _ & _ & H5).
    specialize (Hnr i). unfold head_ok. lia.
  - rewrite Hs. lia.
  - intros i x Hx. destruct (Hback i x Hx) as (_ & H1 & H2 & H3 & H4 & _). by split_and!.
Qed.

(** Where the blocks begin to go down from. *)
Definition top (buffer_end : Z) : Z := if buffer_end =? Z.shiftl 1 20 then 640 * 1024 else buffer_end.

Lemma buffer_init_run buffer_end s :
  0 <= start -> start + 72 + 2048 <= Z.min (top buffer_end) 0xA0000 ->
  (forall k, 0 <= b_blocknr (old_head k) < 4294967296) -> (length (hash_table s) = 307)%nat ->
  exists s', buffer_init start buffer_end old_head old_block s = Done tt s' /\ cache_ok s' /\
    forall i x, array_get (bufs s') i = Some x -> b_lock x = 0 /\ b_dev x = 0 /\ spare x.
Proof using Type.
  intros Hst Hroom Hnr Hht. unfold buffer_init. fold (top buffer_end). set (b := top buffer_end) in *.
  destruct (init_heads_total (Z.to_nat (b / BLOCK_SIZE + 2)) 0 b) as [l Hl]; [lia..| |].
  { unfold BLOCK_SIZE. pose proof (Z.div_pos b 1024). lia. }
  rewrite Hl. pose proof (init_heads_two _ _ _ _ Hl ltac:(lia)) as Hlen.
  pose proof (init_heads_spec _ _ _ _ Hl) as Hspec.
  set (m := Z.of_nat (length l)). cbv zeta.
  set (s1 := s ⟪ bufs := l ⟫ ⟪ free_list := Some 0 ⟫).
  rewrite (run_bind _ _ _ tt (s ⟪ bufs := l ⟫)) by done. rewrite (run_bind _ _ _ tt s1) by done.
  destruct (array_get_in_bounds l 0) as [h0 Hh0]; [lia|].
  destruct (array_get_in_bounds (array_set l 0 (h0 ⟪ b_prev_free := Some (m - 1) ⟫)) (m - 1)) as [h1 Hh1].
  { rewrite length_array_set. lia. }
  rewrite (run_bind _ _ _ _ _ (upd_buf_run s1 0 h0 _ Hh0)).
  set (s2 := s1 ⟪ bufs := _ ⟫).
  rewrite (run_bind _ _ _ _ _ (upd_buf_run s2 (m - 1) h1 _ Hh1)).
  set (s3 := s2 ⟪ bufs := _ ⟫).
  destruct (clear_hash_run s3) as (s' & Hrun & Hb' & Hf' & Hlh & Hnone).
  exists s'. split; [exact Hrun|]. apply (init_bufs_ok s' l (bufs s3)); try done.
  - intros i. change (bufs s3) with
      (array_set (array_set l 0 (h0 ⟪ b_prev_free := Some (m - 1) ⟫)) (m - 1) (h1 ⟪ b_next_free := Some 0 ⟫)).
    fold m. assert (m - 1 <> 0) by lia.
    destruct (decide (i = m - 1)) as [->|Hi1].
    + rewrite array_get_set_eq by (rewrite length_array_set; lia).
      rewrite array_get_set_ne in Hh1 by done. rewrite Hh1. simpl. rewrite decide_False by done. by destruct h1.
    + rewrite array_get_set_ne by done. destruct (decide (i = 0)) as [->|Hi0].
      * rewrite array_get_set_eq by lia. rewrite Hh0. simpl. by destruct h0.
      * rewrite array_get_set_ne by done. destruct (array_get l i) as [h|]; [|done]. by destruct h.
  - change (bufs s3) with
      (array_set (array_set l 0 (h0 ⟪ b_prev_free := Some (m - 1) ⟫)) (m - 1) (h1 ⟪ b_next_free := Some 0 ⟫)).
    by rewrite !length_array_set.
  - by rewrite Hlh.
  - intros i Hi. by apply Hnone.
Qed.
End init.

(** C34: [buffer_init] ends and makes a cache that satisfies the invariant:
    the heads are on one ring, every hash queue is empty, and every buffer
    is free, clean and unlocked; whatever the memory held before, when there
    is room for two buffers between the end of the kernel and the video
    memory. *)
Theorem buffer_init_establishes old_head old_block start buffer_end s :
  0 <= start -> start + 72 + 2048 <= Z.min (top buffer_end) 0xA0000 ->
  (forall k, 0 <= b_blocknr (old_head k) < 4294967296) -> (length (hash_table s) = 307)%nat ->
  wp (buffer_init start buffer_end old_head old_block) (fun _ s' =>
    cache_ok s' /\ calm s' /\
    forall i x, array_get (bufs s') i = Some x -> b_dev x = 0 /\ spare x) s.
Proof.
  intros H1 H2 H3 H4.
  destruct (buffer_init_run old_head old_block start buffer_end s H1 H2 H3 H4) as (s' & Hrun & Hok & Hall).
  apply wp_run. exists tt, s'. split; [done|]. split; [done|]. split; intros i x Hx; apply (Hall i x Hx).
Qed.

(** ** A cache of four buffers *)

#[local] Instance no_sleeps : Sleeps := fun _ => panic "asleep".
#[local] Instance no_drivers : Drivers := fun _ => mret tt.
#[local] Instance no_inodes : InodeSync := mret tt.

Definition blank_head : buffer_head := BufferHead [] 0 0 0 0 0 0 None None None None.
Definition empty_blk : blk :=
  Blk [] (replicate 307 None) None None [] [] 0 0 [] [] FsData.no_fsdata.
(** What [buffer_init] makes of the memory between [0x1000] and [0x2100]. *)
Definition small_cache : blk :=
  final (buffer_init 0x1000 0x2100 (fun _ => blank_head) (fun b => [b])) empty_blk.

Lemma small_cache_ok : cache_ok small_cache /\ calm small_cache /\
  exists i x, array_get (bufs small_cache) i = Some x /\ spare x.
Proof.
  destruct (buffer_init_run (fun _ => blank_head) (fun b => [b]) 0x1000 0x2100 empty_blk)
    as (s' & Hrun & Hok & Hall); [lia|vm_compute; done|simpl; lia|done|].
  assert (small_cache = s') as -> by (unfold small_cache, final; by rewrite Hrun).
  split; [done|]. split; [intros i x Hx; by apply (Hall i x)|].
  destruct (array_get_in_bounds (bufs s') 0) as [x Hx]; [pose proof (co_many _ Hok); lia|].
  exists 0, x. split; [done|]. by apply (Hall 0 x).
Qed.

Lemma buffer_init_establishes_witness :
  cache_ok (final (buffer_init 0x1000 0x2100 (fun _ => blank_head) (fun b => [b])) empty_blk).
Proof.
  destruct (proj1 (wp_run _ _ _) (buffer_init_establishes (fun _ => blank_head) (fun b => [b]) 0x1000 0x2100
    empty_blk ltac:(lia) ltac:(vm_compute; done) ltac:(simpl; lia) eq_refl)) as (u & s' & Hrun & Hok & _).
  unfold final. rewrite Hrun. exact Hok.
Defined.

(** Block 7 of device 0x306 is not cached: the first buffer is given out. *)
Lemma getblk_takes_witness :
  result (getblk 1 0x306 7) small_cache = Some 0 /\
  cache_ok (final (getblk 1 0x306 7) small_cache).
Proof.
  split; [vm_compute; reflexivity|]. destruct small_cache_ok as (Hok & Hcalm & i & x & Hx & Hs).
  destruct (proj1 (wp_run _ _ _) (getblk_takes 0x306 7 ltac:(lia) ltac:(lia) 0 small_cache Hok Hcalm
    (ex_intro _ i (ex_intro _ x (conj Hx (or_intror Hs)))))) as (b & s' & Hrun & Hok' & _).
  unfold final. rewrite Hrun. exact Hok'.
Defined.
End Getblk.
