(* ===== verification/Ramdisk.v ===== *)
(** * Reading and writing the ramdisk through the buffer cache
      ([fs/buffer.c], [kernel/blk_drv/ll_rw_blk.c],
      [kernel/blk_drv/ramdisk.c] together)

    The path of a block: [bread] takes a buffer with [getblk], [ll_rw_block]
    queues a request for it, and [do_rd_request], which needs no interrupt,
    serves the request at once. *)

From S2P Require Import Prelude FsData Block Buffer Cache Getblk.

Module Ramdisk.
Import Block Buffer Cache Getblk.

(** Device 0x101, the ramdisk. *)
Definition RAMDISK : Z := 0x101.

(** The ramdisk is idle, some request is free, and its memory is in the
    address space. *)
Record rd_ok (s : blk) : Prop := {
  ro_dev : array_get (blk_dev s) 1 = Some (BlkDev true None);
  ro_free : exists i, free_request (requests s) 21 = Some i;
  ro_mem : 0 <= rd_start s /\ 0 <= rd_length s /\ rd_start s + rd_length s < 4294967296;
  ro_len : Z.of_nat (length (rd_mem s)) = rd_length s
}.
(** The [n]-th block of the ramdisk. *)
Definition rd_block (s : blk) (n : Z) : list Z :=
  take 1024 (drop (Z.to_nat (1024 * n)) (rd_mem s)).

(** ** Single steps *)

Section steps.
Context (c : list buffer_head) (ht : list (option Z)) (fl nw : option Z).
Context (rq : list request) (bd : list blk_dev_struct) (rs rl : Z) (rm : list Z) (ev : list event) (fd : FsData.fsdata).
Abbreviation st c rq bd rm ev := (Blk c ht fl nw rq bd rs rl rm ev fd).

Lemma get_buf_Blk i x : array_get c i = Some x -> get_buf i (st c rq bd rm ev) = Done x (st c rq bd rm ev).
Proof using Type. intros Hx. exact (get_buf_run (st c rq bd rm ev) i x Hx). Qed.
Lemma upd_buf_Blk i x f : array_get c i = Some x ->
  upd_buf i f (st c rq bd rm ev) = Done tt (st (array_set c i (f x)) rq bd rm ev).
Proof using Type. intros Hx. exact (upd_buf_run (st c rq bd rm ev) i x f Hx). Qed.
Lemma get_req_Blk i x : array_get rq i = Some x -> get_req i (st c rq bd rm ev) = Done x (st c rq bd rm ev).
Proof using Type. intros Hx. unfold get_req. rewrite run_gets. unfold read_at. simpl. by rewrite Hx. Qed.
Lemma upd_req_Blk i x f : array_get rq i = Some x ->
  upd_req i f (st c rq bd rm ev) = Done tt (st c (array_set rq i (f x)) bd rm ev).
Proof using Type. intros Hx. unfold upd_req. by rewrite (run_bind _ _ _ _ _ (get_req_Blk i x Hx)). Qed.
Lemma get_dev_Blk i x : array_get bd i = Some x -> get_dev i (st c rq bd rm ev) = Done x (st c rq bd rm ev).
Proof using Type. intros Hx. unfold get_dev. rewrite run_gets. unfold read_at. simpl. by rewrite Hx. Qed.
Lemma upd_dev_Blk i x f : array_get bd i = Some x ->
  upd_dev i f (st c rq bd rm ev) = Done tt (st c rq (array_set bd i (f x)) rm ev).
Proof using Type. intros Hx. unfold upd_dev. by rewrite (run_bind _ _ _ _ _ (get_dev_Blk i x Hx)). Qed.
End steps.

Lemma free_request_mono l n m i : free_request l n = Some i -> (n <= m)%nat ->
  exists j, free_request l m = Some j.
Proof.
  intros Hn. induction 1 as [|m Hle [j IH]]; [by exists i|]. cbn [free_request].
  destruct (l !! m) as [r|]; [|by exists j]. destruct (dev r <? 0); [by eexists|by exists j].
Qed.
Lemma free_request_valid l n i : free_request l n = Some i -> exists r, array_get l i = Some r /\ dev r < 0.
Proof.
  induction n as [|n IH]; [done|]. cbn [free_request]. destruct (l !! n) as [r|] eqn:Hr; [|done].
  destruct (Z.ltb_spec (dev r) 0); [|done]. intros [= <-]. exists r. by rewrite array_get_nat.
Qed.
Lemma free_request_intro l n k r :
  l !! k = Some r -> dev r < 0 -> (k < n)%nat -> exists j, free_request l n = Some j.
Proof.
  intros Hk Hd. induction n as [|n IH]; [lia|]. intros Hkn. cbn [free_request].
  destruct (decide (k = n)) as [->|].
  - rewrite Hk. rewrite (proj2 (Z.ltb_lt _ _)) by done. by eexists.
  - destruct IH as [j Hj]; [lia|]. destruct (l !! n) as [r'|]; [|by exists j].
    destruct (dev r' <? 0); [by eexists|by exists j].
Qed.

(** ** Serving one request *)

Section serve.
Context (ht : list (option Z)) (fl nw : option Z) (rs rl : Z) (fd : FsData.fsdata).
Context (bd : list blk_dev_struct) (Hbd : array_get bd 1 = Some (BlkDev true None)).
Abbreviation st c rq bd rm ev := (Blk c ht fl nw rq bd rs rl rm ev fd).

(** The request made for block [n] of a buffer [b]. *)
Definition req_for (rw b n : Z) : request := Request RAMDISK rw 0 (u32 (2 * n)) 2 b None (Some b) None 0.
Definition served (rw b n : Z) : request := Request (-1) rw 0 (u32 (2 * n)) 2 b None (Some b) None 0.
(** What is recorded of its completion. *)
Definition woken (i b : Z) (ev : list event) : list event :=
  Woken W_request :: Woken (W_waiting i) :: Woken (W_buffer b) :: ev.

Lemma end_request_run c rq rm ev i b rw n dat d u dt ct p nx pf nf :
  array_get c b = Some (BufferHead dat n d u dt ct 1 p nx pf nf) ->
  array_get rq i = Some (req_for rw b n) ->
  end_request 1 "ramdisk" 1 (st c rq (array_set bd 1 (BlkDev true (Some i))) rm ev) =
    Done tt (st (array_set c b (BufferHead dat n d 1 dt ct 0 p nx pf nf))
      (array_set rq i (served rw b n)) bd rm (woken i b ev)).
Proof using Hbd.
  intros Hb Hi. pose proof (array_get_Some_bound _ _ _ Hb). pose proof (array_get_Some_bound _ _ _ Hi).
  pose proof (array_get_Some_bound _ _ _ Hbd) as Hbd1.
  unfold end_request.
  erewrite run_bind; [|by apply get_dev_Blk, array_get_set_eq]. cbn [current_request].
  rewrite run_deref.
  erewrite run_bind; [|by apply get_req_Blk]. cbn [bh req_for].
  erewrite run_bind; cycle 1.
  { erewrite run_bind; [|by apply upd_buf_Blk]. unfold unlock_buffer.
    erewrite run_bind; [|by apply get_buf_Blk, array_get_set_eq]. cbn [b_lock set_field truth negb Z.eqb kwhen].
    rewrite run_ret.
    erewrite run_bind; [|by apply upd_buf_Blk, array_get_set_eq]. rewrite array_set_set. reflexivity. }
  change (negb (truth 1)) with false. unfold kwhen. rewrite run_ret. unfold wake_up. rewrite !run_modify.
  erewrite run_bind; [|by apply upd_req_Blk].
  erewrite run_bind; [|by apply get_req_Blk, array_get_set_eq]. cbn [next set_field req_for].
  cbn [bufs hash_table free_list null_word requests blk_dev rd_start rd_length rd_mem events set_field].
  erewrite upd_dev_Blk; [|by apply array_get_set_eq]. rewrite array_set_set.
  cbn [set_field request_fn current_request]. rewrite (array_set_get _ _ _ Hbd). reflexivity.
Qed.

Context (Hmem : 0 <= rs /\ 0 <= rl /\ rs + rl < 4294967296).

Lemma init_request_run c rq rm ev i b rw n dat d u dt ct p nx pf nf :
  array_get c b = Some (BufferHead dat n d u dt ct 1 p nx pf nf) ->
  array_get rq i = Some (req_for rw b n) ->
  INIT_REQUEST 1 "ramdisk" (st c rq (array_set bd 1 (BlkDev true (Some i))) rm ev) =
    Done (Some i) (st c rq (array_set bd 1 (BlkDev true (Some i))) rm ev).
Proof using Hbd.
  intros Hb Hi. pose proof (array_get_Some_bound _ _ _ Hbd) as Hbd1. unfold INIT_REQUEST.
  erewrite run_bind; [|by apply get_dev_Blk, array_get_set_eq]. cbn [current_request].
  erewrite run_bind; [|by apply get_req_Blk].
  change (MAJOR (dev (req_for rw b n))) with 1. change (bh (req_for rw b n)) with (Some b).
  change (negb (1 =? 1)) with false. cbv iota.
  erewrite run_bind; [|by apply get_buf_Blk]. reflexivity.
Qed.
Lemma init_request_idle c rq rm ev :
  INIT_REQUEST 1 "ramdisk" (st c rq bd rm ev) = Done None (st c rq bd rm ev).
Proof using Hbd.
  unfold INIT_REQUEST. erewrite run_bind; [|by apply get_dev_Blk]. reflexivity.
Qed.

(** What a request does to the buffer's data and to the ramdisk. *)
Definition new_data (rw n : Z) (dat rm : list Z) : list Z :=
  if rw =? WRITE then dat
  else take 1024 (drop (Z.to_nat (1024 * n)) rm) ++ drop 1024 dat.
Definition new_mem (rw n : Z) (dat rm : list Z) : list Z :=
  if rw =? WRITE then
    take (Z.to_nat (1024 * n)) rm ++ take 1024 dat ++ drop (Z.to_nat (1024 * n) + 1024) rm
  else rm.

Lemma do_rd_request_run c rq rm ev i b rw n dat d u dt ct p nx pf nf :
  rw = READ \/ rw = WRITE -> 0 <= n -> 1024 * (n + 1) <= rl ->
  array_get c b = Some (BufferHead dat n d u dt ct 1 p nx pf nf) ->
  array_get rq i = Some (req_for rw b n) ->
  do_rd_request (st c rq (array_set bd 1 (BlkDev true (Some i))) rm ev) =
    Done tt (st (array_set c b (BufferHead (new_data rw n dat rm) n d 1 dt ct 0 p nx pf nf))
      (array_set rq i (served rw b n)) bd (new_mem rw n dat rm) (woken i b ev)).
Proof using Hbd Hmem.
  intros Hrw Hn Hrl Hb Hi. pose proof (array_get_Some_bound _ _ _ Hb) as Hbb.
  unfold do_rd_request. rewrite kloop_S. cbv beta.
  erewrite run_bind; [|by eapply init_request_run]. cbv iota.
  erewrite run_bind; [|by apply get_req_Blk]. rewrite !run_gets.
  assert (Hsec : Z.shiftl (sector (req_for rw b n)) 9 = 1024 * n).
  { cbn [sector req_for]. rewrite u32_small by lia. rewrite Z.shiftl_mul_pow2 by lia. lia. }
  rewrite Hsec. change (Z.shiftl (nr_sectors (req_for rw b n)) 9) with 1024.
  change (MINOR (dev (req_for rw b n))) with 1. change (negb (1 =? 1)) with false.
  cbn [rd_start rd_length]. cbv zeta. rewrite orb_false_l.
  rewrite (u32_small (rs + 1024 * n)), !u32_small by (rewrite ?u32_small by lia; lia).
  destruct (Z.ltb_spec (rs + rl) (rs + 1024 * n + 1024)); [lia|].
  change (cmd (req_for rw b n)) with rw. change (buffer (req_for rw b n)) with b.
  set (bd1 := array_set bd 1 _).
  set (c1 := array_set c b (BufferHead (new_data rw n dat rm) n d u dt ct 1 p nx pf nf)).
  assert (Hoff : rd_offset (st c rq bd1 rm ev) (rs + 1024 * n) = Some (Z.to_nat (1024 * n))).
  { unfold rd_offset. cbn [rd_start]. rewrite (proj2 (Z.leb_le _ _)) by lia. do 2 f_equal. lia. }
  rewrite (run_bind _ _ _ tt (st c1 rq bd1 (new_mem rw n dat rm) ev)); cycle 1.
  { destruct Hrw as [-> | ->]; cbn [Z.eqb Pos.eqb READ WRITE].
    - unfold rd_read. rewrite run_gets, Hoff, run_deref, run_gets.
      by rewrite (upd_buf_Blk _ _ _ _ _ _ _ _ _ _ _ b _ _ Hb).
    - unfold rd_write. rewrite run_gets, Hoff, run_deref.
      erewrite run_bind; [|by apply get_buf_Blk]. unfold modify, c1.
      change (new_data WRITE n dat rm) with dat. by rewrite (array_set_get _ _ _ Hb). }
  erewrite run_bind; [|eapply end_request_run; [by apply array_get_set_eq|exact Hi]].
  unfold mret, kret, c1. rewrite array_set_set, kloop_S.
  erewrite run_bind; [|apply init_request_idle]. reflexivity.
Qed.

Context {W : Sleeps} {V : Drivers}.

Lemma add_request_run c rq rm ev i b rw n r dat u dt ct p nx pf nf :
  rw = READ \/ rw = WRITE -> 0 <= n -> 1024 * (n + 1) <= rl ->
  array_get c b = Some (BufferHead dat n RAMDISK u dt ct 1 p nx pf nf) ->
  array_get rq i = Some r ->
  add_request request_call 1 i (st c (array_set rq i (req_for rw b n)) bd rm ev) =
    Done tt (st (array_set c b (BufferHead (new_data rw n dat rm) n RAMDISK 1 0 ct 0 p nx pf nf))
      (array_set rq i (served rw b n)) bd (new_mem rw n dat rm) (woken i b ev)).
Proof using Hbd Hmem.
  intros Hrw Hn Hrl Hb Hi. pose proof (array_get_Some_bound _ _ _ Hb). pose proof (array_get_Some_bound _ _ _ Hi).
  unfold add_request. erewrite run_bind; [|by apply upd_req_Blk, array_get_set_eq].
  rewrite array_set_set. change ((req_for rw b n) ⟪ next := None ⟫) with (req_for rw b n).
  erewrite run_bind; [|by apply get_req_Blk, array_get_set_eq]. change (bh (req_for rw b n)) with (Some b). cbv iota.
  erewrite run_bind; [|by apply upd_buf_Blk]. cbn [b_dirt set_field b_data b_blocknr b_dev b_uptodate b_count b_lock b_prev b_next b_prev_free b_next_free].
  erewrite run_bind; [|by apply get_dev_Blk]. cbn [current_request].
  erewrite run_bind; [|by apply upd_dev_Blk]. cbn [set_field request_fn current_request].
  unfold request_call. change (1 =? 1) with true. cbv iota.
  erewrite do_rd_request_run; try done; [| |by apply array_get_set_eq].
  - by rewrite !array_set_set.
  - by apply array_get_set_eq.
Qed.

Lemma ll_rw_block_run fuel c rq rm ev i b rw n dat u dt ct p nx pf nf :
  (rw = READ /\ u = 0) \/ (rw = WRITE /\ dt <> 0) -> 0 <= n -> 1024 * (n + 1) <= rl ->
  array_get c b = Some (BufferHead dat n RAMDISK u dt ct 0 p nx pf nf) ->
  free_request rq (if rw =? READ then 32 else 21) = Some i ->
  Buffer.ll_rw_block (S fuel) rw b (st c rq bd rm ev) =
    Done tt (st (array_set c b (BufferHead (new_data rw n dat rm) n RAMDISK 1 0 ct 0 p nx pf nf))
      (array_set rq i (served rw b n)) bd (new_mem rw n dat rm) (woken i b ev)).
Proof using Hbd Hmem.
  intros Hrw Hn Hrl Hb Hi. pose proof (array_get_Some_bound _ _ _ Hb).
  assert (Hrw' : rw = READ \/ rw = WRITE) by (destruct Hrw as [[? _]|[? _]]; [by left|by right]).
  destruct (free_request_valid _ _ _ Hi) as (r & Hr & _).
  unfold Buffer.ll_rw_block, Block.ll_rw_block.
  erewrite run_bind; [|by apply get_buf_Blk]. cbn [b_dev]. change (MAJOR RAMDISK) with 1.
  change (NR_BLK_DEV <=? 1) with false. cbv zeta iota.
  erewrite run_bind; [|by apply get_dev_Blk]. cbn [request_fn negb]. unfold make_request.
  assert (Hahead : (rw =? READA) || (rw =? WRITEA) = false) by by destruct Hrw' as [-> | ->].
  rewrite Hahead. cbv zeta.
  erewrite run_bind; [|by apply get_buf_Blk]. rewrite andb_false_l. cbv iota.
  assert (Hcmd : negb (rw =? READ) && negb (rw =? WRITE) = false) by by destruct Hrw' as [-> | ->].
  rewrite Hcmd.
  erewrite run_bind; cycle 1.
  { unfold lock_buffer.
    rewrite (run_bind _ _ _ tt (st c rq bd rm ev)) by by eapply (wait_unlocked fuel b).
    by apply upd_buf_Blk. }
  cbn [b_dirt set_field b_data b_blocknr b_dev b_uptodate b_count b_lock b_prev b_next b_prev_free b_next_free].
  erewrite run_bind; [|by apply get_buf_Blk, array_get_set_eq]. cbn [b_dirt b_uptodate].
  assert (Hskip : (rw =? WRITE) && negb (truth dt) || (rw =? READ) && truth u = false).
  { destruct Hrw as [[-> ->]|[-> Hdt]]; [done|]. rewrite (proj2 (truth_true _) Hdt). done. }
  rewrite Hskip, kloop_S. cbv beta. rewrite run_gets. cbn [requests].
  assert (Hlim : Z.to_nat (if rw =? READ then NR_REQUEST else NR_REQUEST * 2 / 3) =
    if rw =? READ then 32%nat else 21%nat) by by destruct Hrw' as [-> | ->].
  rewrite Hlim, Hi.
  erewrite run_bind; [|by apply get_buf_Blk, array_get_set_eq]. cbn [b_dev b_blocknr].
  erewrite run_bind; [|by apply upd_req_Blk]. fold (req_for rw b n).
  erewrite run_bind; [|by eapply (add_request_run _ rq rm ev i b rw n r dat u dt ct); [..|apply array_get_set_eq|]].
  by rewrite array_set_set.
Qed.
End serve.
End Ramdisk.
