(* ===== verification/Store.v ===== *)
(** * The buffer cache over the ramdisk is a store of blocks

    [view s n] is block [n] of the ramdisk as the file system sees it: what
    a valid buffer holds, or else what is on the device.  Reading a block
    returns its view and changes no view, whichever buffer is reused;
    [sync] makes the device agree with all views. *)

From S2P Require Import Prelude FsData Block Buffer Cache Getblk Ramdisk.

Module Store.
Import FsData Block Buffer Cache Getblk Ramdisk.

(** A valid buffer of block [n]. *)
Definition valid (n : Z) (x : buffer_head) : bool :=
  (b_dev x =? RAMDISK) && (b_blocknr x =? n) && truth (b_uptodate x).
Fixpoint cached (l : list buffer_head) (n : Z) : option (list Z) :=
  match l with
  | [] => None
  | x :: l => if valid n x then Some (b_data x) else cached l n
  end.
Definition view (s : blk) (n : Z) : list Z := default (rd_block s n) (cached (bufs s) n).

(** Only valid blocks of the ramdisk are dirty, clean valid buffers agree with the
    device, and no buffer is locked. *)
Record store_ok (s : blk) : Prop := {
  so_cache : cache_ok s;
  so_calm : calm s;
  so_rd : rd_ok s;
  so_data : forall i x, array_get (bufs s) i = Some x -> length (b_data x) = 1024%nat;
  so_dirty : forall i x, array_get (bufs s) i = Some x -> b_dirt x <> 0 ->
    b_dev x = RAMDISK /\ b_uptodate x <> 0 /\ 1024 * (b_blocknr x + 1) <= rd_length s;
  so_clean : forall i x, array_get (bufs s) i = Some x -> b_dirt x = 0 -> valid (b_blocknr x) x = true ->
    b_data x = rd_block s (b_blocknr x)
}.

Lemma valid_spec n x : valid n x = true <-> holds RAMDISK n x /\ b_uptodate x <> 0.
Proof. unfold valid, holds. rewrite !andb_true_iff, !Z.eqb_eq, truth_true. done. Qed.

Lemma cached_Some l n d : cached l n = Some d -> exists i x, array_get l i = Some x /\ valid n x = true /\ d = b_data x.
Proof.
  induction l as [|x l IH]; [done|]. cbn [cached]. destruct (valid n x) eqn:Hv.
  - intros [= <-]. by exists 0, x.
  - intros Hd. destruct (IH Hd) as (i & y & Hy & ? & ?). exists (i + 1), y. split; [|done].
    pose proof (array_get_Some_bound _ _ _ Hy). unfold array_get in *.
    destruct (Z.leb_spec 0 i), (Z.leb_spec 0 (i + 1)); try lia.
    by replace (Z.to_nat (i + 1)) with (S (Z.to_nat i)) by lia.
Qed.
Lemma cached_None l n : cached l n = None -> forall i x, array_get l i = Some x -> valid n x = false.
Proof.
  intros Hn i x Hx. unfold array_get in Hx. destruct (0 <=? i); [|done]. revert Hn Hx. generalize (Z.to_nat i).
  induction l as [|y l IH]; intros k Hn Hx; [done|]. cbn [cached] in Hn.
  destruct (valid n y) eqn:Hv; [done|]. destruct k as [|k]; [by injection Hx as ->|]. by apply (IH k).
Qed.

Lemma view_valid s i x n : cache_ok s -> array_get (bufs s) i = Some x -> valid n x = true -> view s n = b_data x.
Proof.
  intros Hc Hx Hv. unfold view. destruct (cached (bufs s) n) as [d|] eqn:Hd.
  - destruct (cached_Some _ _ _ Hd) as (j & y & Hy & Hvy & ->). simpl. f_equal.
    apply valid_spec in Hv as [[Hd1 Hb1] _], Hvy as [[Hd2 Hb2] _].
    assert (j = i) as ->; [|congruence].
    apply (ci_unique _ _ _ _ _ (co_inv _ Hc) j i y x); try done; [|congruence..]. rewrite Hd2. done.
  - rewrite (cached_None _ _ Hd i x Hx) in Hv. done.
Qed.
Lemma view_invalid s n : (forall i x, array_get (bufs s) i = Some x -> valid n x = false) -> view s n = rd_block s n.
Proof.
  intros Hall. unfold view. destruct (cached (bufs s) n) as [d|] eqn:Hd; [|done].
  destruct (cached_Some _ _ _ Hd) as (i & x & Hx & Hv & _). by rewrite (Hall i x Hx) in Hv.
Qed.
(** Every block is either in a valid buffer or only on the device. *)
Lemma view_cases s n :
  (exists i x, array_get (bufs s) i = Some x /\ valid n x = true) \/
  (forall i x, array_get (bufs s) i = Some x -> valid n x = false).
Proof.
  destruct (cached (bufs s) n) as [d|] eqn:Hd; [left|right; by apply cached_None].
  destruct (cached_Some _ _ _ Hd) as (i & x & ? & ? & _). by exists i, x.
Qed.

Lemma length_rd_block s n : rd_ok s -> 0 <= n -> 1024 * (n + 1) <= rd_length s -> length (rd_block s n) = 1024%nat.
Proof.
  intros [_ _ _ Hl] Hn Hr. unfold rd_block. rewrite length_take, length_drop. lia.
Qed.

Lemma payload_valid x y n : payload x = payload y -> valid n x = valid n y /\ b_data x = b_data y.
Proof. destruct x, y. unfold payload, valid. simpl. by intros [= -> -> -> -> _ _ _]. Qed.

(** Buffers that differ in the links only. *)
Definition same_but (b : Z) (s s' : blk) : Prop :=
  forall j, j <> b -> payload <$> array_get (bufs s') j = payload <$> array_get (bufs s) j.
Lemma same_but_get b s s' j y : same_but b s s' -> j <> b -> array_get (bufs s') j = Some y ->
  exists z, array_get (bufs s) j = Some z /\ payload y = payload z.
Proof.
  intros Hs Hj Hy. specialize (Hs j Hj). rewrite Hy in Hs.
  destruct (array_get (bufs s) j) as [z|]; [|done]. apply (inj Some) in Hs. by exists z.
Qed.
Lemma same_but_sym b s s' : same_but b s s' -> same_but b s' s.
Proof. intros Hs j Hj. symmetry. by apply Hs. Qed.

(** One buffer changes, and perhaps the device. *)
Lemma view_one_buffer s s' b x x' n :
  cache_ok s -> cache_ok s' -> array_get (bufs s) b = Some x -> array_get (bufs s') b = Some x' ->
  same_but b s s' ->
  (valid n x' = true /\ b_data x' = view s n) \/
  (valid n x' = false /\ rd_block s' n = rd_block s n /\ (valid n x = true -> b_data x = rd_block s n)) ->
  view s' n = view s n.
Proof.
  intros Hc Hc' Hx Hx' Hsame [[Hv Hd]|(Hv & Hrd & Hd)]; [by rewrite (view_valid s' b x' n)|].
  destruct (view_cases s n) as [(i & y & Hy & Hvy)|Hnone].
  - rewrite (view_valid s i y n Hc Hy Hvy). destruct (decide (i = b)) as [->|Hi].
    + assert (y = x) as -> by congruence. rewrite (Hd Hvy), <- Hrd. apply view_invalid. intros j z Hz.
      destruct (decide (j = b)) as [->|Hj]; [congruence|].
      destruct (same_but_get _ _ _ j z Hsame Hj Hz) as (w & Hw & Hp).
      rewrite (proj1 (payload_valid _ _ n Hp)). destruct (valid n w) eqn:Hvw; [|done].
      apply valid_spec in Hvw as [[? ?] _], Hvy as [[Hdy ?] _]. exfalso. apply Hj.
      apply (ci_unique _ _ _ _ _ (co_inv _ Hc) j b w x); try done; unfold RAMDISK in *; try lia; congruence.
    + destruct (same_but_get _ _ _ i y (same_but_sym _ _ _ Hsame) Hi Hy) as (z & Hz & Hp).
      destruct (payload_valid _ _ n Hp) as [Hvz ->]. apply (view_valid s' i); [done..|]. congruence.
  - rewrite (view_invalid s n Hnone), <- Hrd. apply view_invalid. intros j z Hz.
    destruct (decide (j = b)) as [->|Hj]; [congruence|].
    destruct (same_but_get _ _ _ j z Hsame Hj Hz) as (w & Hw & Hp).
    rewrite (proj1 (payload_valid _ _ n Hp)). by apply (Hnone j).
Qed.

Lemma payload_data y z : payload y = payload z ->
  b_lock y = b_lock z /\ b_data y = b_data z /\ b_dirt y = b_dirt z /\ b_dev y = b_dev z /\
  b_blocknr y = b_blocknr z /\ b_uptodate y = b_uptodate z.
Proof. destruct y, z. unfold payload. simpl. by intros [= -> -> -> -> -> -> ->]. Qed.
Lemma rd_block_ext s s' n : rd_mem s' = rd_mem s -> rd_block s' n = rd_block s n.
Proof. unfold rd_block. by intros ->. Qed.

(** What the store's invariant asks of one buffer, for a device of [rl]
    bytes with the blocks [blocks]. *)
Definition buffer_ok (rl : Z) (blocks : Z -> list Z) (x : buffer_head) : Prop :=
  b_lock x = 0 /\ length (b_data x) = 1024%nat /\
  (b_dirt x <> 0 -> b_dev x = RAMDISK /\ b_uptodate x <> 0 /\ 1024 * (b_blocknr x + 1) <= rl) /\
  (b_dirt x = 0 -> valid (b_blocknr x) x = true -> b_data x = blocks (b_blocknr x)).
Lemma buffer_ok_payload rl blocks y z : payload y = payload z -> buffer_ok rl blocks z -> buffer_ok rl blocks y.
Proof.
  intros Hp. pose proof (proj1 (payload_valid y z (b_blocknr z) Hp)) as Hv.
  destruct (payload_data y z Hp) as (H1 & H2 & H3 & H4 & H5 & H6).
  unfold buffer_ok. by rewrite H1, H2, H3, H4, H5, H6, Hv.
Qed.
Lemma store_ok_buffers s :
  store_ok s <-> cache_ok s /\ rd_ok s /\
    forall i x, array_get (bufs s) i = Some x -> buffer_ok (rd_length s) (rd_block s) x.
Proof.
  split.
  - intros [Hc Hcalm Hrd Hlen Hdirty Hclean]. split; [done|]. split; [done|]. intros i x Hx.
    split; [by apply (Hcalm i)|]. split; [by apply (Hlen i)|]. split; [by apply (Hdirty i)|by apply (Hclean i)].
  - intros (Hc & Hrd & Hall). split; [done| |done|..]; intros i x Hx;
      by destruct (Hall i x Hx) as (H1 & H2 & H3 & H4).
Qed.

(** The store's invariant when one buffer changes. *)
Lemma store_one_buffer s s' b x' :
  store_ok s -> cache_ok s' -> rd_ok s' -> array_get (bufs s') b = Some x' ->
  same_but b s s' -> rd_length s' = rd_length s ->
  (forall i z, i <> b -> array_get (bufs s) i = Some z -> valid (b_blocknr z) z = true ->
    rd_block s' (b_blocknr z) = rd_block s (b_blocknr z)) ->
  buffer_ok (rd_length s) (rd_block s') x' -> store_ok s'.
Proof.
  intros Hs Hc' Hrd' Hx' Hsame Hl Hblk Hok. apply store_ok_buffers in Hs as (_ & _ & Hall).
  apply store_ok_buffers. split; [done|]. split; [done|]. intros i y Hy. rewrite Hl.
  destruct (decide (i = b)) as [->|Hi]; [congruence|].
  destruct (same_but_get _ _ _ i y Hsame Hi Hy) as (z & Hz & Hp). eapply buffer_ok_payload; [exact Hp|].
  destruct (Hall i z Hz) as (H1 & H2 & H3 & H4). do 3 (split; [done|]). intros Hd Hv.
  rewrite (Hblk i z Hi Hz Hv). by apply H4.
Qed.

(** ** One transfer *)

(** The buffer after the transfer of its block. *)
Definition moved (rw : Z) (rm : list Z) (x : buffer_head) : buffer_head :=
  BufferHead (new_data rw (b_blocknr x) (b_data x) rm) (b_blocknr x) (b_dev x) 1 0 (b_count x) 0
    (b_prev x) (b_next x) (b_prev_free x) (b_next_free x).

Lemma free_request_served rq i m rw b n :
  free_request rq m = Some i -> forall k, free_request rq k <> None ->
  exists j, free_request (array_set rq i (served rw b n)) k = Some j.
Proof.
  intros Hi k Hk. destruct (free_request rq k) as [j|] eqn:Hj; [|done].
  destruct (free_request_valid _ _ _ Hi) as (r & Hr & _). pose proof (array_get_Some_bound _ _ _ Hr) as Hb.
  assert (Hjk : 0 <= j < Z.of_nat k).
  { clear -Hj. revert Hj. induction k as [|k IH]; [done|]. cbn [free_request].
    destruct (rq !! k) as [r|]; [destruct (dev r <? 0)|]; try (intros Hj; apply IH in Hj; lia).
    intros [= <-]. lia. }
  destruct (free_request_valid _ _ _ Hj) as (r' & Hr' & Hd'). 
  assert (Hget : exists y, array_get (array_set rq i (served rw b n)) j = Some y /\ dev y < 0).
  { destruct (decide (i = j)) as [->|Hne]; [rewrite array_get_set_eq by lia; by eexists|].
    rewrite array_get_set_ne by done. by exists r'. }
  destruct Hget as (y & Hy & Hyd). apply (free_request_intro _ k (Z.to_nat j) y); [|done|lia].
  unfold array_get in Hy. by destruct (0 <=? j).
Qed.

Lemma length_new_mem rw n dat rm :
  0 <= n -> 1024 * (n + 1) <= Z.of_nat (length rm) -> length dat = 1024%nat ->
  length (new_mem rw n dat rm) = length rm.
Proof.
  intros Hn Hr Hd. unfold new_mem. destruct (rw =? WRITE); [|done].
  rewrite !length_app, !length_take, length_drop. lia.
Qed.

Lemma transfer_run {W : Sleeps} {V : Drivers} fuel s b x rw :
  cache_ok s -> rd_ok s -> array_get (bufs s) b = Some x -> b_dev x = RAMDISK -> b_lock x = 0 ->
  length (b_data x) = 1024%nat ->
  (rw = READ /\ b_uptodate x = 0) \/ (rw = WRITE /\ b_dirt x <> 0) ->
  1024 * (b_blocknr x + 1) <= rd_length s ->
  exists s', Buffer.ll_rw_block (S fuel) rw b s = Done tt s' /\ cache_ok s' /\ rd_ok s' /\
    array_get (bufs s') b = Some (moved rw (rd_mem s) x) /\ same_but b s s' /\
    rd_length s' = rd_length s /\ rd_mem s' = new_mem rw (b_blocknr x) (b_data x) (rd_mem s) /\ fsd s' = fsd s.
Proof.
  intros Hc Hrd Hx Hdev Hlock Hlen Hrw Hrange. pose proof (array_get_Some_bound _ _ _ Hx) as Hb.
  destruct (co_heads _ Hc b x Hx) as (_ & Hcount & _ & _ & Hn).
  assert (Hok : cache_ok (s ⟪ bufs := array_set (bufs s) b (moved rw (rd_mem s) x) ⟫)).
  { apply (cache_ok_head s b x); try done. unfold head_ok, moved. cbn [b_dirt b_count b_lock b_dev b_blocknr]. unfold RAMDISK in Hdev. lia. }
  destruct Hrd as [Hbd [i0 Hi0] Hmem Hrl].
  destruct (free_request_mono _ 21 32 _ Hi0) as [i1 Hi1]; [lia|].
  assert (exists i, free_request (requests s) (if rw =? READ then 32 else 21) = Some i) as [i Hi].
  { destruct (rw =? READ); [exists i1; exact Hi1|exists i0; exact Hi0]. }
  destruct s as [c ht fl nw rq bd rs rl rm ev fd].
  cbn [bufs requests blk_dev rd_start rd_length rd_mem] in *.
  destruct x as [dat n d u dt ct lk p nx pf nf].
  cbn [b_data b_blocknr b_dev b_uptodate b_dirt b_count b_lock] in *.
  subst d lk.
  assert (Hn0 : 0 <= n) by lia.
  eexists. split; [by eapply ll_rw_block_run|]. split; [|split; [|split; [|split; [|split; [|split]]]]].
  - destruct Hok as [H1 H2 H3]. by split.
  - split; [done| |done|]; cbn [requests rd_mem rd_length].
    + eapply free_request_served; [exact Hi|by rewrite Hi0].
    + rewrite length_new_mem; [done|lia..|done].
  - by apply array_get_set_eq.
  - intros j Hj. cbn [bufs]. by rewrite array_get_set_ne.
  - done.
  - done.
  - done.
Qed.
(** ** Reading a block *)

Lemma outside_fields s s' : outside s' = outside s ->
  requests s' = requests s /\ blk_dev s' = blk_dev s /\ rd_start s' = rd_start s /\
  rd_length s' = rd_length s /\ rd_mem s' = rd_mem s.
Proof. destruct s, s'. unfold outside. simpl. by intros [= -> -> -> -> -> -> ->]. Qed.
Lemma rd_ok_ext s s' : outside s' = outside s -> rd_ok s -> rd_ok s'.
Proof.
  intros Hout [H1 H2 H3 H4]. destruct (outside_fields _ _ Hout) as (Hr & Hb & Hs & Hl & Hm).
  by split; rewrite ?Hr, ?Hb, ?Hs, ?Hl, ?Hm.
Qed.

Section bread.
Context {W : Sleeps} {V : Drivers} {Y : InodeSync}.
Context (n : Z) (Hn : 0 <= n < 4294967296).

Definition available (s : blk) : Prop :=
  exists i x, array_get (bufs s) i = Some x /\ (holds RAMDISK n x \/ spare x).

(** [getblk] keeps the store and its views. *)
Lemma getblk_store fuel s :
  store_ok s -> available s -> exists b s1 x, getblk (S fuel) RAMDISK n s = Done b s1 /\
    store_ok s1 /\ array_get (bufs s1) b = Some x /\ holds RAMDISK n x /\
    rd_mem s1 = rd_mem s /\ rd_length s1 = rd_length s /\
    forall m, view s1 m = view s m.
Proof using Hn.
  intros Hs Hav. pose proof Hs as [Hc Hcalm Hrd Hlen Hdirty Hclean].
  assert (Hdev : 0 < RAMDISK < 65536) by (unfold RAMDISK; lia).
  destruct (got_gives _ _ Hdev Hn s _ Hc Hcalm (getblk_got _ _ Hdev Hn fuel s Hc Hcalm Hav))
    as (b & s1 & Hrun & Hc1 & Hcalm1 & Hout & (x & x' & Hx & Hx' & Hh & Hgiven) & Hsame).
  destruct (outside_fields _ _ Hout) as (_ & _ & _ & Hrl & Hrm).
  exists b, s1, x'. split; [done|].
  assert (Hfields : (b_data x' = b_data x) /\
    ((b_dev x' = b_dev x /\ b_blocknr x' = b_blocknr x /\ b_dirt x' = b_dirt x /\ b_uptodate x' = b_uptodate x) \/
     (b_dirt x' = 0 /\ b_uptodate x' = 0 /\ b_dirt x = 0))).
  { destruct Hgiven as [[_ Hp]|(_ & (l & _ & _ & _ & y & _ & Hy & [_ Hsp] & _) & Hp)].
    - destruct x, x'. unfold payload in Hp. simpl in Hp. injection Hp as -> -> -> -> -> _ _. split; [done|by left].
    - assert (y = x) as -> by congruence.
      destruct x, x'. unfold payload, retake in Hp. simpl in Hp, Hsp. injection Hp as -> _ _ -> -> _ _.
      split; [done|by right]. }
  destruct Hfields as [Hdat Hfields].
  assert (Hvalid : forall m, valid m x' = valid m x \/ (valid m x' = false /\ b_dirt x = 0)).
  { intros m. unfold valid. destruct Hfields as [(-> & -> & _ & ->)|(_ & -> & ?)]; [by left|right].
    by rewrite andb_false_r. }
  assert (Hblk : forall m, rd_block s1 m = rd_block s m) by (intros m; by apply rd_block_ext).
  assert (Hstore : store_ok s1).
  { apply (store_one_buffer s s1 b x'); try done; [by apply (rd_ok_ext s)|].
    split; [by apply (Hcalm1 b)|]. rewrite Hdat. split; [by apply (Hlen b)|]. split.
    - intros Hd. destruct Hfields as [(-> & -> & Hd' & ->)|(? & _)]; [|done].
      apply (Hdirty b x Hx). congruence.
    - intros Hd Hv. rewrite Hblk. destruct Hfields as [(_ & Hb & Hd' & _)|(_ & Hu & _)].
      + rewrite Hb. apply (Hclean b x Hx); [congruence|].
        destruct (Hvalid (b_blocknr x)) as [Hv'|[Hv' _]]; rewrite Hb in Hv; congruence.
      + by apply valid_spec in Hv as [_ Hv]. }
  do 5 (split; [done|]).
  intros m. apply (view_one_buffer s s1 b x x'); try done.
  destruct (Hvalid m) as [Hv|[Hv Hd]].
  - destruct (valid m x) eqn:Hvx; [left|right; by rewrite Hv]. split; [done|].
    rewrite Hdat. symmetry. by apply (view_valid s b x m).
  - right. split; [done|]. split; [done|]. intros Hvx. pose proof Hvx as [[_ <-] _]%valid_spec. by apply (Hclean b).
Qed.

(** A buffer of the block that is not valid is filled from the device. *)
Lemma read_in fuel s1 b x :
  store_ok s1 -> array_get (bufs s1) b = Some x -> holds RAMDISK n x -> b_uptodate x = 0 ->
  1024 * (n + 1) <= rd_length s1 ->
  exists s2 x2, Buffer.ll_rw_block (S fuel) READ b s1 = Done tt s2 /\ store_ok s2 /\
    array_get (bufs s2) b = Some x2 /\ valid n x2 = true /\ b_lock x2 = 0 /\ b_data x2 = view s1 n /\
    rd_mem s2 = rd_mem s1 /\ forall m, view s2 m = view s1 m.
Proof using Hn.
  intros Hs1 Hx [Hd Hb] Hu Hr. pose proof Hs1 as [Hc1 Hcalm1 Hrd1 Hlen1 _ _].
  destruct (transfer_run fuel s1 b x READ) as (s2 & Hrun2 & Hc2 & Hrd2 & Hx2 & Hsame & Hl2 & Hm2 & _); try done.
  { by apply (Hcalm1 b). }
  { by apply (Hlen1 b). }
  { by left. }
  { by rewrite Hb. }
  set (x2 := moved READ (rd_mem s1) x) in *.
  assert (Hdat : b_data x2 = rd_block s1 n).
  { unfold x2, moved, new_data. cbn [b_data]. change (READ =? WRITE) with false. cbv iota.
    rewrite Hb, (drop_ge (b_data x)), app_nil_r by by rewrite (Hlen1 b x Hx). done. }
  assert (Hnv : valid n x = false) by (unfold valid; rewrite Hu; apply andb_false_r).
  assert (Hv2 : valid n x2 = true) by (apply valid_spec; split; [by split|done]).
  assert (Hviewn : view s1 n = rd_block s1 n).
  { apply view_invalid. intros j y Hy. destruct (decide (j = b)) as [->|Hj]; [congruence|].
    destruct (valid n y) eqn:Hvy; [|done]. exfalso. apply Hj. apply valid_spec in Hvy as [[? ?] _].
    apply (ci_unique _ _ _ _ _ (co_inv _ Hc1) j b y x); try done; unfold RAMDISK in *; try lia; congruence. }
  assert (Hblk : forall m, rd_block s2 m = rd_block s1 m) by (intros m; by apply rd_block_ext).
  exists s2, x2. split; [done|]. split.
  { apply (store_one_buffer s1 s2 b x2); try done. split; [done|]. split.
    { rewrite Hdat. apply length_rd_block; [done|lia..]. }
    split; [done|]. intros _ _. rewrite Hblk, Hdat. unfold x2, moved. cbn [b_blocknr]. by rewrite Hb. }
  do 3 (split; [done|]). split; [congruence|]. split; [done|].
  intros m. apply (view_one_buffer s1 s2 b x x2); try done.
  destruct (decide (m = n)) as [->|Hmn]; [left; split; [done|congruence]|right].
  assert (forall y, b_blocknr y = n -> valid m y = false) as Hother.
  { intros y Hy. unfold valid. rewrite Hy. rewrite (proj2 (Z.eqb_neq n m)) by done. by rewrite andb_false_r. }
  split; [by apply Hother|]. split; [done|]. by rewrite Hother.
Qed.

(** C35: Reading a block of the ramdisk through the cache.  When no buffer
    is locked, dirty buffers belong to the ramdisk, clean valid ones agree
    with it, a request is free, and a buffer is to be had, [bread] returns,
    without sleeping, a valid buffer of the block that holds exactly what
    the file system saw as the block before: the cached data or else the
    device's.  All this holds again afterwards, and no block has changed for
    the file system, also not the one whose buffer was taken. *)
Theorem bread_reads_view fuel s :
  store_ok s -> available s -> 1024 * (n + 1) <= rd_length s ->
  wp (bread (S fuel) RAMDISK n) (fun o s' =>
    store_ok s' /\ rd_mem s' = rd_mem s /\ (forall m, view s' m = view s m) /\
    exists b x, o = Some b /\ array_get (bufs s') b = Some x /\ valid n x = true /\
      b_data x = view s n) s.
Proof using Hn.
  intros Hs Hav Hr. destruct (getblk_store fuel s Hs Hav) as (b & s1 & x & Hrun & Hs1 & Hx & Hh & Hm & Hl & Hview).
  apply wp_run. unfold bread. rewrite (run_bind _ _ _ _ _ Hrun), (run_bind _ _ _ _ _ (get_buf_run s1 b x Hx)).
  destruct (truth (b_uptodate x)) eqn:Hu.
  - exists (Some b), s1. split; [done|]. do 3 (split; [done|]). exists b, x.
    assert (Hv : valid n x = true) by (apply valid_spec; split; [done|by apply truth_true]).
    do 3 (split; [done|]). rewrite <- Hview. symmetry. apply (view_valid s1 b); [apply Hs1|done..].
  - apply truth_false in Hu.
    destruct (read_in fuel s1 b x Hs1 Hx Hh Hu) as (s2 & x2 & Hrun2 & Hs2 & Hx2 & Hv2 & Hlk & Hdat & Hm2 & Hview2); [lia|].
    rewrite (run_bind _ _ _ _ _ Hrun2).
    unfold finish_read. rewrite (run_bind _ _ _ _ _ (wait_unlocked fuel b x2 s2 Hx2 Hlk)).
    rewrite (run_bind _ _ _ _ _ (get_buf_run s2 b x2 Hx2)).
    pose proof Hv2 as [_ Hu2%truth_true]%valid_spec. rewrite Hu2.
    exists (Some b), s2. split; [done|]. split; [done|]. split; [congruence|]. split.
    + intros m. by rewrite Hview2.
    + exists b, x2. do 3 (split; [done|]). by rewrite Hdat.
Qed.
End bread.
(** ** Writing back *)

Lemma lookup_new_mem n dat rm k :
  0 <= n -> 1024 * (n + 1) <= Z.of_nat (length rm) -> length dat = 1024%nat ->
  new_mem WRITE n dat rm !! k =
    if decide (Z.to_nat (1024 * n) <= k < Z.to_nat (1024 * n) + 1024)%nat
    then dat !! (k - Z.to_nat (1024 * n))%nat else rm !! k.
Proof.
  intros Hn Hr Hd. unfold new_mem. change (WRITE =? WRITE) with true. cbv iota.
  set (o := Z.to_nat (1024 * n)). assert (Ho : (o + 1024 <= length rm)%nat) by lia.
  assert (Hto : length (take o rm) = o) by (rewrite length_take; lia).
  assert (Htd : take 1024 dat = dat) by (apply take_ge; lia). rewrite Htd.
  destruct (decide (k < o)%nat) as [Hk|Hk].
  - rewrite lookup_app_l by lia. rewrite lookup_take_lt by done. by rewrite decide_False by lia.
  - rewrite lookup_app_r by lia. rewrite Hto. destruct (decide (k < o + 1024)%nat) as [Hk2|Hk2].
    + rewrite lookup_app_l by lia. by rewrite decide_True by lia.
    + rewrite lookup_app_r by lia. rewrite lookup_drop, decide_False by lia. f_equal. lia.
Qed.
Lemma rd_block_new_mem s s' n m dat :
  0 <= n -> 0 <= m -> 1024 * (n + 1) <= Z.of_nat (length (rd_mem s)) -> length dat = 1024%nat ->
  rd_mem s' = new_mem WRITE n dat (rd_mem s) ->
  rd_block s' m = if decide (m = n) then dat else rd_block s m.
Proof.
  intros Hn Hm Hr Hd Hmem. unfold rd_block. rewrite Hmem. apply list_eq. intros k.
  assert (Hlk : forall l : list Z, take 1024 (drop (Z.to_nat (1024 * m)) l) !! k =
    if decide (k < 1024)%nat then l !! (Z.to_nat (1024 * m) + k)%nat else None).
  { intros l. case_decide; [rewrite lookup_take_lt by done; apply lookup_drop|].
    apply lookup_take_ge. lia. }
  rewrite Hlk. destruct (decide (k < 1024)%nat) as [Hk|Hk].
  - rewrite lookup_new_mem by done. destruct (decide (m = n)) as [->|Hmn].
    + rewrite decide_True by lia. f_equal. lia.
    + rewrite decide_False by lia. by rewrite Hlk.
  - case_decide; [symmetry; apply lookup_ge_None; lia|]. by rewrite Hlk.
Qed.

Section sync.
Context {W : Sleeps} {V : Drivers} {Y : InodeSync}.

Definition clean (s : blk) (i : Z) : Prop := forall x, array_get (bufs s) i = Some x -> b_dirt x = 0.

Lemma write_out fuel s b x :
  store_ok s -> array_get (bufs s) b = Some x -> b_dirt x <> 0 ->
  exists s', Buffer.ll_rw_block (S fuel) WRITE b s = Done tt s' /\ store_ok s' /\ clean s' b /\
    same_but b s s' /\ is_Some (array_get (bufs s') b) /\ forall m, 0 <= m -> view s' m = view s m.
Proof using Type.
  intros Hs Hx Hdirt. pose proof Hs as [Hc Hcalm Hrd Hlen Hdirty _].
  destruct (Hdirty b x Hx Hdirt) as (Hd & Hu & Hr). pose proof (Hlen b x Hx) as Hl.
  destruct (co_heads _ Hc b x Hx) as (_ & _ & _ & _ & Hnr).
  destruct (transfer_run fuel s b x WRITE) as (s' & Hrun & Hc' & Hrd' & Hx' & Hsame & Hrl & Hmem & _);
    try done; [by apply (Hcalm b)|by right|].
  set (n := b_blocknr x) in *. set (x' := moved WRITE (rd_mem s) x) in *.
  assert (Hvx : valid n x = true) by (apply valid_spec; split; [by split|done]).
  assert (Hvx' : valid n x' = true) by (apply valid_spec; split; [by split|done]).
  assert (Hblk : forall m, 0 <= m -> rd_block s' m = if decide (m = n) then b_data x else rd_block s m).
  { intros m Hm. apply rd_block_new_mem; try done; [lia|]. by rewrite (ro_len _ Hrd). }
  assert (Hn0 : 0 <= n) by lia.
  exists s'. split; [done|]. split.
  { apply (store_one_buffer s s' b x'); try done.
    - intros i z Hi Hz Hvz. destruct (co_heads _ Hc i z Hz) as (_ & _ & _ & _ & Hnz).
      rewrite Hblk, decide_False; [done| |lia]. intros Heq. apply Hi.
      apply valid_spec in Hvz as [[Hdz _] _].
      apply (ci_unique _ _ _ _ _ (co_inv _ Hc) i b z x); try done; unfold RAMDISK in *; try lia; congruence.
    - split; [done|]. split; [exact Hl|]. split; [done|]. intros _ _.
      change (b_blocknr x') with n. rewrite Hblk by done. symmetry. by apply decide_True. }
  split; [intros y Hy; by assert (y = x') as -> by congruence|]. split; [done|]. split; [by exists x'|].
  intros m Hm. apply (view_one_buffer s s' b x x'); try done.
  destruct (decide (m = n)) as [->|Hmn].
  - left. split; [done|]. symmetry. by apply (view_valid s b x n).
  - right. assert (forall y, b_blocknr y = n -> valid m y = false) as Hother.
    { intros y Hy. unfold valid. rewrite Hy. rewrite (proj2 (Z.eqb_neq n m)) by done. by rewrite andb_false_r. }
    split; [by apply Hother|]. split; [rewrite Hblk by done; by rewrite decide_False|]. by rewrite Hother.
Qed.

(** C36: [sync] makes the device what the file system saw.  Once the inodes
    have been put into their buffers, [sys_sync] ends with every buffer
    clean, and then each block of the ramdisk is what the file system saw
    as that block before and sees after. *)
Theorem sys_sync_writes_back fuel s s1 :
  sync_inodes s = Done tt s1 -> store_ok s1 ->
  wp (sys_sync (S fuel)) (fun r s' =>
    r = 0 /\ store_ok s' /\ (forall i, clean s' i) /\
    forall m, 0 <= m -> rd_block s' m = view s1 m /\ view s' m = view s1 m) s.
Proof using Type.
  intros Hsi Hs1. unfold sys_sync. apply wp_run. rewrite (run_bind _ _ _ _ _ Hsi). unfold NR_BUFFERS.
  rewrite run_bind with (a := Z.of_nat (length (bufs s1))) (s1 := s1) by done.
  apply wp_run, wp_bind.
  apply (wp_for (fun past rest s' => store_ok s' /\ (forall i, i ∈ past -> clean s' i) /\
    (forall i, is_Some (array_get (bufs s') i) <-> is_Some (array_get (bufs s1) i)) /\
    (forall i, i ∈ rest -> is_Some (array_get (bufs s1) i)) /\
    forall m, 0 <= m -> view s' m = view s1 m)).
  - split; [done|]. split; [by intros i ?%elem_of_nil|]. split; [done|]. split; [|done].
    intros i Hi%elem_of_upto. by apply array_get_in_bounds.
  - intros past b rest s2 (Hs2 & Hpast & Hdom & Hrest & Hview).
    destruct (proj2 (Hdom b)) as [x Hx]; [apply Hrest; by left|].
    apply wp_run. rewrite (run_bind _ _ _ _ _ (wait_unlocked fuel b x s2 Hx (so_calm _ Hs2 b x Hx))).
    rewrite (run_bind _ _ _ _ _ (get_buf_run s2 b x Hx)). apply wp_run.
    assert (Hrest' : forall i, i ∈ rest -> is_Some (array_get (bufs s1) i)) by (intros i Hi; apply Hrest; by right).
    apply wp_when; intros Hd.
    + apply truth_true in Hd.
      destruct (write_out fuel s2 b x Hs2 Hx Hd) as (s3 & Hrun & Hs3 & Hb & Hsame & Hsome & Hview3).
      apply wp_run. exists tt, s3. split; [done|]. split; [done|]. split; [|split; [|split; [done|]]].
      * intros i [Hi| ->%list_elem_of_singleton]%elem_of_app; [|done]. intros y Hy.
        destruct (decide (i = b)) as [->|Hne]; [by apply Hb|].
        destruct (same_but_get _ _ _ i y Hsame Hne Hy) as (z & Hz & Hp).
        destruct (payload_data y z Hp) as (_ & _ & -> & _). by apply (Hpast i).
      * intros i. rewrite <- Hdom. destruct (decide (i = b)) as [->|Hne]; [by rewrite Hx, !is_Some_alt; destruct Hsome as [? ->]|].
        rewrite <- (fmap_is_Some payload (array_get (bufs s3) i)), (Hsame i Hne). apply fmap_is_Some.
      * intros m Hm. by rewrite Hview3, Hview.
    + apply truth_false in Hd. split; [done|]. split; [|done].
      intros i [Hi| ->%list_elem_of_singleton]%elem_of_app; [by apply Hpast|]. intros y Hy. congruence.
  - intros s' (Hs' & Hpast & Hdom & _ & Hview). apply wp_ret. split; [done|]. split; [done|].
    assert (Hclean : forall i, clean s' i).
    { intros i x Hx. apply (Hpast i); [|done]. apply elem_of_upto.
      destruct (proj1 (Hdom i)) as [y Hy]; [by exists x|]. by apply array_get_Some_bound in Hy. }
    split; [done|]. intros m Hm. split; [|by apply Hview]. rewrite <- Hview by done. symmetry.
    destruct (view_cases s' m) as [(i & x & Hx & Hv)|Hnone]; [|by apply view_invalid].
    rewrite (view_valid s' i x m); [|apply Hs'|done|done].
    pose proof Hv as [[_ <-] _]%valid_spec. by apply (so_clean _ Hs' i x Hx (Hclean i x Hx)).
Qed.
End sync.

(** ** Changing a block in its buffer *)

Lemma store_write s b x n d :
  store_ok s -> array_get (bufs s) b = Some x -> valid n x = true -> 1024 * (n + 1) <= rd_length s ->
  length d = 1024%nat ->
  let s' := s ⟪ bufs := array_set (bufs s) b (x ⟪ b_data := d ⟫ ⟪ b_dirt := 1 ⟫) ⟫ in
  store_ok s' /\ view s' n = d /\ forall m, m <> n -> view s' m = view s m.
Proof.
  intros Hs Hx Hv Hr Hd. set (x' := x ⟪ b_data := d ⟫ ⟪ b_dirt := 1 ⟫). intros s'.
  pose proof (array_get_Some_bound _ _ _ Hx) as Hb. pose proof Hs as [Hc Hcalm Hrd _ _ _].
  pose proof Hv as [[Hdev Hnr] Hu]%valid_spec.
  destruct (co_heads _ Hc b x Hx) as (_ & H2 & H3 & H4 & H5).
  assert (Hc' : cache_ok s').
  { by apply (cache_ok_head s b x). }
  assert (Hx' : array_get (bufs s') b = Some x') by (by apply array_get_set_eq).
  assert (Hsame : same_but b s s').
  { intros j Hj. change (bufs s') with (array_set (bufs s) b x'). by rewrite array_get_set_ne. }
  assert (Hother : forall m y, b_blocknr y = n -> m <> n -> valid m y = false).
  { intros m y Hy Hm. unfold valid. rewrite Hy. rewrite (proj2 (Z.eqb_neq n m)) by done. by rewrite andb_false_r. }
  split; [|split].
  - assert (Hrd' : rd_ok s') by (destruct Hrd; by split).
    apply (store_one_buffer s s' b x'); try done.
    split; [exact (Hcalm b x Hx)|]. split; [done|]. split; [|done]. intros _.
    split; [done|]. split; [done|]. change (b_blocknr x') with (b_blocknr x). by rewrite Hnr.
  - by apply (view_valid s' b x' n).
  - intros m Hm. apply (view_one_buffer s s' b x x'); try done. right.
    split; [by apply Hother|]. split; [done|]. by rewrite Hother.
Qed.

(** ** A ramdisk of four blocks *)

#[local] Instance demo_sleeps : Sleeps := fun _ => panic "asleep".
#[local] Instance demo_drivers : Drivers := fun _ => mret tt.
#[local] Instance demo_inodes : InodeSync := mret tt.

Definition demo_blk : blk :=
  Blk [] (replicate 307 None) None None
    (replicate 32 (Request (-1) 0 0 0 0 0 None None None 0))
    (array_set (replicate 7 (BlkDev false None)) 1 (BlkDev true None))
    0x100000 4096 (flat_map (fun v => replicate 1024 v) [10; 11; 12; 13]) [] no_fsdata.
(** Four buffers that hold nothing yet. *)
Definition demo : blk :=
  final (buffer_init 0x1000 0x2200 (fun _ => blank_head) (fun _ => replicate 1024 0)) demo_blk.

Lemma demo_ok : store_ok demo.
Proof.
  destruct (buffer_init_run (fun _ => blank_head) (fun _ => replicate 1024 0) 0x1000 0x2200 demo_blk)
    as (s' & Hrun & Hok & Hall); [lia|vm_compute; done|simpl; lia|done|].
  assert (demo = s') as Hd by (unfold demo, final; by rewrite Hrun). rewrite <- Hd in Hok, Hall.
  apply store_ok_buffers. split; [exact Hok|]. split.
  - split; [vm_compute; reflexivity|exists 20; vm_compute; reflexivity| |vm_compute; reflexivity].
    assert (rd_start demo = 0x100000 /\ rd_length demo = 4096) as [-> ->] by (split; vm_compute; reflexivity). lia.
  - intros i x Hx. destruct (Hall i x Hx) as (Hl & Hdev & _ & Hdirt).
    assert (Hlen : forallb (fun x => (length (b_data x) =? 1024)%nat) (bufs demo) = true) by (vm_compute; reflexivity).
    split; [done|]. split.
    + unfold array_get in Hx. destruct (0 <=? i); [|done]. apply list_elem_of_lookup_2, list_elem_of_In in Hx.
      by apply Nat.eqb_eq, (proj1 (forallb_forall _ _) Hlen).
    + split; [done|]. intros _ Hv. apply valid_spec in Hv as [[Hd' _] _]. unfold RAMDISK in Hd'. lia.
Qed.
Lemma demo_available n : available n demo.
Proof. exists 0, (default blank_head (array_get (bufs demo) 0)). split; [|right; split]; vm_compute; reflexivity. Qed.
Lemma demo_length : rd_length demo = 4096.
Proof. vm_compute. reflexivity. Qed.

Lemma bread_reads_view_witness :
  result (bread 1 RAMDISK 2) demo = Some (Some 0) /\
  store_ok (final (bread 1 RAMDISK 2) demo) /\ view demo 2 = replicate 1024 12.
Proof.
  split; [vm_compute; reflexivity|]. split; [|vm_compute; reflexivity].
  destruct (proj1 (wp_run _ _ _) (bread_reads_view 2 ltac:(lia) 0 demo demo_ok (demo_available 2)
    ltac:(rewrite demo_length; lia))) as (o & s' & Hrun & Hok & _).
  unfold final. rewrite Hrun. exact Hok.
Defined.

(** Block 1 is read into a buffer and changed there. *)
Lemma demo_changed : exists s b x, store_ok s /\ array_get (bufs s) b = Some x /\ b_dirt x = 1 /\
  view s 1 = replicate 1024 77.
Proof.
  assert (H1 : 0 <= 1 < 4294967296) by lia.
  destruct (getblk_store 1 H1 0 demo demo_ok (demo_available 1)) as (b & s1 & x & _ & Hs1 & Hx & Hh & _ & Hl & _).
  assert (Hl1 : 1024 * (1 + 1) <= rd_length s1) by (rewrite Hl, demo_length; lia).
  assert (exists s2 x2, store_ok s2 /\ array_get (bufs s2) b = Some x2 /\ valid 1 x2 = true /\
    1024 * (1 + 1) <= rd_length s2) as (s2 & x2 & Hs2 & Hx2 & Hv2 & Hl2).
  { destruct (decide (b_uptodate x = 0)) as [Hu|Hu].
    - destruct (read_in 1 H1 0 s1 b x Hs1 Hx Hh Hu Hl1) as (s2 & x2 & _ & Hs2 & Hx2 & Hv2 & _ & _ & Hm & _).
      exists s2, x2. split; [done|]. split; [done|]. split; [done|].
      rewrite <- (ro_len _ (so_rd _ Hs2)), Hm, (ro_len _ (so_rd _ Hs1)). done.
    - exists s1, x. split; [done|]. split; [done|]. split; [by apply valid_spec|done]. }
  destruct (store_write s2 b x2 1 (replicate 1024 77) Hs2 Hx2 Hv2 Hl2 (length_replicate _ _)) as (Hs3 & Hv3 & _).
  eexists _, b, _. split; [exact Hs3|]. split; [|split; [|exact Hv3]].
  - apply array_get_set_eq. by apply array_get_Some_bound in Hx2.
  - done.
Qed.

Lemma sys_sync_writes_back_witness : exists s,
  (exists b x, array_get (bufs s) b = Some x /\ b_dirt x = 1) /\
  wp (sys_sync 1) (fun _ s' => (forall i, clean s' i) /\ rd_block s' 1 = replicate 1024 77) s.
Proof.
  destruct demo_changed as (s & b & x & Hs & Hx & Hd & Hv). exists s. split; [by exists b, x|].
  eapply wp_mono; [exact (sys_sync_writes_back 0 s s eq_refl Hs)|].
  intros r s' (_ & _ & Hc & Hall). split; [exact Hc|]. destruct (Hall 1) as [-> _]; [lia|exact Hv].
Defined.
End Store.
