(* ===== verification/Elevator.v ===== *)
(** * The elevator order of the request queue ([kernel/blk_drv/ll_rw_blk.c])

    [add_request] puts a request into the queue of its device so that the
    queue stays sorted in at most two sweeps: apart from one place, where
    the next sweep begins, each request goes before the next by command,
    device and sector. *)

From S2P Require Import Prelude FsData Block Buffer Cache Getblk Ramdisk.

Module Elevator.
Import Block Cache Getblk Ramdisk.

(** The queue from the pointer [p] on. *)
Fixpoint queue (rq : list request) (p : option Z) (l : list Z) : Prop :=
  match l with
  | [] => p = None
  | i :: l => p = Some i /\ exists r, array_get rq i = Some r /\ queue rq (next r) l
  end.
Definition no_request : request := Request 0 0 0 0 0 0 None None None 0.
Definition req_at (rq : list request) (i : Z) : request := default no_request (array_get rq i).

(** The order of requests, on their numbers. *)
Section order.
Context (K : Z -> request).

Definition before (i j : Z) : bool := IN_ORDER (K i) (K j).
(** Places where a sweep ends in the queue of [t] and [l]. *)
Fixpoint descents (t : Z) (l : list Z) : Z :=
  match l with
  | [] => 0
  | n :: l => cbool (negb (before t n)) + descents n l
  end.
(** Where [add_request] puts [r] into the queue after [t]. *)
Fixpoint insert_after (t : Z) (l : list Z) (r : Z) : list Z :=
  match l with
  | [] => [r]
  | n :: l' =>
      if (before t r || negb (before t n)) && before r n then r :: n :: l'
      else n :: insert_after n l' r
  end.
Definition same_place (i j : Z) : Prop :=
  cmd (K i) = cmd (K j) /\ dev (K i) = dev (K j) /\ sector (K i) = sector (K j).

Lemma before_spec i j : before i j = true <->
  cmd (K i) < cmd (K j) \/ (cmd (K i) = cmd (K j) /\ (dev (K i) < dev (K j) \/
    (dev (K i) = dev (K j) /\ sector (K i) < sector (K j)))).
Proof using Type. unfold before, IN_ORDER. lia. Qed.
Lemma before_trans i j k : before i j = true -> before j k = true -> before i k = true.
Proof using Type. rewrite !before_spec. lia. Qed.
Lemma before_total i j : ~ same_place i j -> before i j = negb (before j i).
Proof using Type.
  unfold same_place. intros Hne. destruct (before j i) eqn:H1, (before i j) eqn:H2; simpl; try done.
  - apply before_spec in H1, H2. lia.
  - exfalso. apply Hne. apply not_true_iff_false in H1, H2. rewrite before_spec in H1, H2. lia.
Qed.
Lemma cbool_bound b : 0 <= cbool b <= 1.
Proof using Type. destruct b; simpl; lia. Qed.
Lemma descents_nonneg t l : 0 <= descents t l.
Proof using Type.
  revert t. induction l as [|n l IH]; intros t; cbn [descents]; [lia|].
  specialize (IH n). pose proof (cbool_bound (negb (before t n))). lia.
Qed.

Lemma insert_ascending r l : forall t,
  (forall i, i ∈ l -> ~ same_place i r) -> before t r = true -> descents t l = 0 ->
  descents t (insert_after t l r) = 0.
Proof using Type.
  induction l as [|n l IH]; intros t Hne Htr Hd; cbn [insert_after descents] in *; [by rewrite Htr|].
  pose proof (descents_nonneg n l). destruct (before t n) eqn:Htn; simpl in Hd; [|lia].
  rewrite Htr. simpl. destruct (before r n) eqn:Hrn; cbn [descents].
  - rewrite Htr, Hrn. simpl. lia.
  - rewrite Htn. simpl. rewrite IH; [done|intros i Hi; apply Hne; by right| |lia].
    by rewrite before_total, Hrn by (apply Hne; by left).
Qed.
Lemma insert_new_sweep r l : forall t,
  before r t = true -> descents t l = 0 -> descents t (insert_after t l r) <= 1.
Proof using Type.
  induction l as [|n l IH]; intros t Hrt Hd; cbn [insert_after descents] in *.
  - pose proof (cbool_bound (negb (before t r))). lia.
  - pose proof (descents_nonneg n l). destruct (before t n) eqn:Htn; simpl in Hd; [|lia].
    destruct (before t r) eqn:Htr; [apply before_spec in Hrt, Htr; lia|]. simpl. rewrite Htn. simpl.
    apply IH; [by eapply before_trans|lia].
Qed.
Lemma insert_descents r l : forall t,
  (forall i, i ∈ t :: l -> ~ same_place i r) -> descents t l <= 1 ->
  descents t (insert_after t l r) <= 1.
Proof using Type.
  induction l as [|n l IH]; intros t Hne Hd;
    [cbn [insert_after descents]; pose proof (cbool_bound (negb (before t r))); lia|].
  assert (Hne' : forall i, i ∈ n :: l -> ~ same_place i r) by (intros i Hi; apply Hne; by right).
  pose proof (descents_nonneg n l). cbn [insert_after descents] in *.
  assert (Htr : before t r = negb (before r t)) by (apply before_total, Hne; by left).
  assert (Hnr : before n r = negb (before r n)) by (apply before_total, Hne'; by left).
  destruct (before t n) eqn:Htn; simpl in Hd.
  - rewrite orb_false_r. destruct (before t r) eqn:Htr', (before r n) eqn:Hrn;
      cbn [andb descents]; rewrite ?Htn, ?Htr', ?Hrn; simpl; try lia; by apply IH; [|lia].
  - rewrite orb_true_r. destruct (before r n) eqn:Hrn; cbn [andb descents].
    + rewrite Hrn. pose proof (cbool_bound (negb (before t r))). simpl in *. lia.
    + rewrite Htn. simpl. rewrite insert_ascending; [lia| |done|lia].
      intros i Hi. apply Hne'. by right.
Qed.
End order.

(** Only the places of the requests matter. *)
Definition same_keys (K K' : Z -> request) : Prop :=
  forall i, cmd (K' i) = cmd (K i) /\ dev (K' i) = dev (K i) /\ sector (K' i) = sector (K i).
Lemma before_ext K K' i j : same_keys K K' -> before K' i j = before K i j.
Proof. intros HK. unfold before, IN_ORDER. by destruct (HK i) as (-> & -> & ->), (HK j) as (-> & -> & ->). Qed.
Lemma descents_ext K K' t l : same_keys K K' -> descents K' t l = descents K t l.
Proof.
  intros HK. revert t. induction l as [|n l IH]; intros t; [done|]. cbn [descents].
  by rewrite (before_ext K K'), IH.
Qed.
Lemma same_place_ext K K' i j : same_keys K K' -> same_place K' i j <-> same_place K i j.
Proof. intros HK. unfold same_place. by destruct (HK i) as (-> & -> & ->), (HK j) as (-> & -> & ->). Qed.

(** Changing the links of requests keeps their places. *)
Lemma same_keys_set rq i r r' :
  array_get rq i = Some r -> cmd r' = cmd r -> dev r' = dev r -> sector r' = sector r ->
  same_keys (req_at rq) (req_at (array_set rq i r')).
Proof.
  intros Hr H1 H2 H3 j. pose proof (array_get_Some_bound _ _ _ Hr). unfold req_at.
  destruct (decide (i = j)) as [<-|Hne]; [rewrite array_get_set_eq, Hr by done; by split_and!|].
  by rewrite array_get_set_ne.
Qed.
Lemma same_keys_trans K1 K2 K3 : same_keys K1 K2 -> same_keys K2 K3 -> same_keys K1 K3.
Proof. intros H1 H2 i. by destruct (H1 i) as (<- & <- & <-), (H2 i) as (<- & <- & <-). Qed.

(** ** The queue as a linked list *)

Lemma queue_ext rq rq' p l : (forall i, i ∈ l -> array_get rq' i = array_get rq i) -> queue rq p l -> queue rq' p l.
Proof.
  revert p. induction l as [|i l IH]; intros p Hext; [done|]. intros (-> & r & Hr & Hl).
  split; [done|]. exists r. split; [rewrite Hext; [done|by left]|]. apply IH; [|done].
  intros j Hj. apply Hext. by right.
Qed.
Lemma queue_valid rq p l i : queue rq p l -> i ∈ l -> is_Some (array_get rq i).
Proof.
  revert p. induction l as [|j l IH]; intros p; [by intros _ ?%elem_of_nil|].
  intros (_ & r & Hr & Hl) [->|Hi]%elem_of_cons; [by exists r|by eapply IH].
Qed.
(** Linking [req] in after the element [x]. *)
Lemma queue_insert rq req r tx x l1 : forall p l2,
  queue rq p (l1 ++ x :: l2) -> NoDup (l1 ++ x :: l2) -> req ∉ l1 ++ x :: l2 ->
  array_get rq x = Some tx -> 0 <= req < Z.of_nat (length rq) ->
  queue (array_set (array_set rq req (r ⟪ next := next tx ⟫)) x (tx ⟪ next := Some req ⟫)) p
    (l1 ++ x :: req :: l2).
Proof.
  induction l1 as [|a l1 IH]; intros p l2 Hq Hnd Hreq Hx Hb.
  - destruct Hq as (-> & tx' & Htx' & Hl2). assert (tx' = tx) as -> by congruence.
    apply list.NoDup_cons in Hnd as [Hxl2 Hnd]. apply not_elem_of_cons in Hreq as [Hrx Hrl2].
    pose proof (array_get_Some_bound _ _ _ Hx) as Hxb.
    split; [done|]. exists (tx ⟪ next := Some req ⟫).
    split; [apply array_get_set_eq; by rewrite length_array_set|]. split; [done|].
    exists (r ⟪ next := next tx ⟫). split; [rewrite array_get_set_ne by congruence; by apply array_get_set_eq|].
    eapply queue_ext; [|exact Hl2]. intros i Hi.
    rewrite !array_get_set_ne; [done|intros ->; done|intros ->; done].
  - destruct Hq as (-> & ra & Hra & Hq). simpl in Hnd, Hreq.
    apply list.NoDup_cons in Hnd as [Ha Hnd]. apply not_elem_of_cons in Hreq as [Hrx Hreq].
    assert (a <> x) by (intros ->; apply Ha, elem_of_app; right; by left).
    split; [done|]. exists ra. split; [by rewrite !array_get_set_ne by congruence|]. by apply IH.
Qed.

Section place.
Context (s : blk) (req : Z) (r : request) (Hr : array_get (requests s) req = Some r).

Lemma get_req_run i x : array_get (requests s) i = Some x -> get_req i s = Done x s.
Proof using Type. intros Hx. unfold get_req. rewrite run_gets. unfold read_at. by rewrite Hx. Qed.

Lemma find_place_walk l : forall t fuel,
  queue (requests s) (Some t) (t :: l) -> (length l < fuel)%nat ->
  exists l1 x l2 tx, t :: l = l1 ++ x :: l2 /\
    t :: insert_after (req_at (requests s)) t l req = l1 ++ x :: req :: l2 /\
    array_get (requests s) x = Some tx /\
    kloop fuel (fun tmp =>
      t ← get_req tmp; r ← get_req req;
      match next t with
      | None => mret (inr tmp)
      | Some n =>
          x ← get_req n;
          if (IN_ORDER t r || negb (IN_ORDER t x)) && IN_ORDER r x then mret (inr tmp)
          else mret (inl n)
      end) t s = Done x s.
Proof using Hr.
  induction l as [|n l IH]; intros t fuel (_ & rt & Hrt & Hq) Hfuel;
    (destruct fuel as [|fuel]; [simpl in Hfuel; lia|]); rewrite kloop_S;
    rewrite (run_bind _ _ _ _ _ (get_req_run t rt Hrt)), (run_bind _ _ _ _ _ (get_req_run req r Hr)).
  - cbn [queue] in Hq. rewrite Hq. by exists [], t, [], rt.
  - pose proof Hq as (Hn & rn & Hrn & _). rewrite Hn. rewrite (run_bind _ _ _ _ _ (get_req_run n rn Hrn)).
    cbn [insert_after]. unfold before.
    assert (Hk : req_at (requests s) t = rt /\ req_at (requests s) req = r /\ req_at (requests s) n = rn)
      by (unfold req_at; by rewrite Hrt, Hr, Hrn).
    destruct Hk as (-> & -> & ->). destruct (_ && _).
    + by exists [], t, (n :: l), rt.
    + destruct (IH n fuel) as (l1 & x & l2 & tx & H1 & H2 & H3 & H4); [by rewrite <- Hn|simpl in Hfuel; lia|].
      exists (t :: l1), x, l2, tx. rewrite H1, H2. done.
Qed.
End place.

Lemma upd_req_run s i x f : array_get (requests s) i = Some x ->
  upd_req i f s = Done tt (s ⟪ requests := array_set (requests s) i (f x) ⟫).
Proof. intros Hx. unfold upd_req. by rewrite (run_bind _ _ _ _ _ (get_req_run s i x Hx)). Qed.

(** The loop of [add_request] and what follows it. *)
Lemma place_run s req r t l :
  array_get (requests s) req = Some r -> queue (requests s) (Some t) (t :: l) -> NoDup (t :: l) ->
  req ∉ t :: l -> (length l < 33)%nat ->
  exists s' k1 k2, (tmp ← find_place req t;
      t ← get_req tmp;
      upd_req req (fun r => r ⟪ next := next t ⟫) ;;
      upd_req tmp (fun t => t ⟪ next := Some req ⟫)) s = Done tt s' /\
    l = k1 ++ k2 /\ insert_after (req_at (requests s)) t l req = k1 ++ req :: k2 /\
    queue (requests s') (Some t) (t :: k1 ++ req :: k2) /\
    same_keys (req_at (requests s)) (req_at (requests s')) /\ blk_dev s' = blk_dev s.
Proof.
  intros Hr Hq Hnd Hreq Hfuel.
  destruct (find_place_walk s req r Hr l t 33 Hq Hfuel) as (l1 & x & l2 & tx & Hsplit & Hins & Hx & Hrun).
  unfold find_place. rewrite (run_bind _ _ _ _ _ Hrun), (run_bind _ _ _ _ _ (get_req_run s x tx Hx)).
  rewrite (run_bind _ _ _ _ _ (upd_req_run s req r _ Hr)).
  assert (Hxreq : req <> x).
  { intros ->. apply Hreq. rewrite Hsplit. apply elem_of_app. right. by left. }
  set (s1 := s ⟪ requests := _ ⟫).
  assert (Hx1 : array_get (requests s1) x = Some tx).
  { change (array_get (array_set (requests s) req (r ⟪ next := next tx ⟫)) x = Some tx). by rewrite array_get_set_ne. }
  rewrite (upd_req_run s1 x tx _ Hx1). set (s2 := s1 ⟪ requests := _ ⟫).
  assert (Hlist : exists k1 k2, l = k1 ++ k2 /\ insert_after (req_at (requests s)) t l req = k1 ++ req :: k2).
  { destruct l1 as [|a l1]; simpl in Hsplit, Hins.
    - exists [], l2. split; simpl; congruence.
    - exists (l1 ++ [x]), l2. rewrite <- !app_assoc. split; simpl; congruence. }
  destruct Hlist as (k1 & k2 & Hl & Hk). exists s2, k1, k2. do 3 (split; [done|]). split; [|split; [|done]].
  - rewrite <- Hk, Hins. apply (queue_insert (requests s) req r tx x l1 (Some t) l2); try (by rewrite <- Hsplit); try done.
    by apply (array_get_Some_bound _ _ r).
  - apply (same_keys_trans _ (req_at (requests s1))); [by apply (same_keys_set _ _ r)|by apply (same_keys_set _ _ tx)].
Qed.

(** C37: The elevator.  A request for a device that is at work goes somewhere
    behind the current one, the order of the others is kept, and a queue
    that took at most two sweeps over the device still does, when no two
    requests are for the same place: the request is put into the sweep it
    fits in.  The current request stays, no request is lost, and the places
    of all requests are as before. *)
Theorem add_request_elevator call major req r t l f s :
  array_get (requests s) req = Some r -> length (requests s) = 32%nat ->
  array_get (blk_dev s) major = Some (BlkDev f (Some t)) ->
  queue (requests s) (Some t) (t :: l) -> NoDup (t :: l) -> req ∉ t :: l ->
  (forall b, bh r = Some b -> is_Some (array_get (bufs s) b)) ->
  (forall i, i ∈ t :: l -> ~ same_place (req_at (requests s)) i req) ->
  descents (req_at (requests s)) t l <= 1 ->
  wp (add_request call major req) (fun _ s' =>
    exists l1 l2, l = l1 ++ l2 /\ queue (requests s') (Some t) (t :: l1 ++ req :: l2) /\
      descents (req_at (requests s')) t (l1 ++ req :: l2) <= 1 /\
      same_keys (req_at (requests s)) (req_at (requests s')) /\ blk_dev s' = blk_dev s) s.
Proof.
  intros Hr Hlen Hdev Hq Hnd Hreq Hbh Hne Hdesc. apply wp_run. unfold add_request.
  pose proof (array_get_Some_bound _ _ _ Hr) as Hb.
  rewrite (run_bind _ _ _ _ _ (upd_req_run s req r _ Hr)).
  set (r1 := r ⟪ next := None ⟫). set (rq1 := array_set (requests s) req r1). set (s1 := s ⟪ requests := rq1 ⟫).
  assert (Hr1 : array_get rq1 req = Some r1) by by apply array_get_set_eq.
  rewrite (run_bind _ _ _ _ _ (get_req_run s1 req r1 Hr1)).
  assert (exists s2, (match bh r1 with Some b => upd_buf b (fun h => h ⟪ b_dirt := 0 ⟫) | None => mret tt end) s1
    = Done tt s2 /\ requests s2 = rq1 /\ blk_dev s2 = blk_dev s) as (s2 & Hs2 & Hrq2 & Hbd2).
  { change (bh r1) with (bh r). destruct (bh r) as [b|]; [|by exists s1].
    destruct (Hbh b eq_refl) as [h Hh]. eexists. split; [exact (upd_buf_run s1 b h _ Hh)|done]. }
  rewrite (run_bind _ _ _ _ _ Hs2).
  rewrite (run_bind _ _ _ (BlkDev f (Some t)) s2); cycle 1.
  { unfold get_dev. rewrite run_gets, Hbd2. unfold read_at. by rewrite Hdev. }
  cbn [current_request]. rewrite <- Hrq2 in Hr1.
  assert (Hq1 : queue (requests s2) (Some t) (t :: l)).
  { eapply queue_ext; [|exact Hq]. intros i Hi. rewrite Hrq2. unfold rq1. rewrite array_get_set_ne; [done|congruence]. }
  assert (Hfuel : (length l < 33)%nat).
  { pose proof (NoDup_valid_length (requests s) (t :: l) Hnd (fun i => queue_valid _ _ _ i Hq)). simpl in *. lia. }
  destruct (place_run s2 req r1 t l Hr1 Hq1 Hnd Hreq Hfuel)
    as (s3 & k1 & k2 & Hrun & Hl & Hins & Hq3 & Hkeys3 & Hbd3).
  assert (Hkeys : same_keys (req_at (requests s)) (req_at (requests s2))).
  { rewrite Hrq2. by apply (same_keys_set _ _ r). }
  exists tt, s3. split; [exact Hrun|]. exists k1, k2. do 2 (split; [done|]). split; [|split; [|congruence]].
  - rewrite (descents_ext _ _ _ _ Hkeys3), <- Hins. apply insert_descents.
    + intros i Hi. rewrite (same_place_ext _ _ _ _ Hkeys). by apply Hne.
    + by rewrite (descents_ext _ _ _ _ Hkeys).
  - by eapply same_keys_trans.
Qed.

(** Two requests of the hard disk wait behind the current one, of which the
    second is for the next sweep; the new one fits between the first two. *)
Definition demo_request (n : Z) (nxt : option Z) : request := Request 0x301 READ 0 n 2 0 None None nxt 0.
Definition demo_queue : blk :=
  Blk [] [] None None
    ([demo_request 10 (Some 1); demo_request 20 (Some 2); demo_request 4 None; demo_request 16 None]
       ++ replicate 28 no_request)
    (replicate 7 (BlkDev true (Some 0))) 0 0 [] [] FsData.no_fsdata.

Lemma add_request_elevator_witness :
  wp (add_request (fun _ => mret tt) 3 3) (fun _ s' =>
    queue (requests s') (Some 0) [0; 3; 1; 2] /\ descents (req_at (requests s')) 0 [3; 1; 2] = 1) demo_queue /\
  exists l1 l2 s', [1; 2] = l1 ++ l2 /\ queue (requests s') (Some 0) (0 :: l1 ++ 3 :: l2) /\
    descents (req_at (requests s')) 0 (l1 ++ 3 :: l2) <= 1.
Proof.
  split.
  { split; [|vm_compute; reflexivity].
    split; [done|]. eexists. split; [vm_compute; reflexivity|]. split; [done|]. eexists.
    split; [vm_compute; reflexivity|]. split; [done|]. eexists. split; [vm_compute; reflexivity|].
    split; [done|]. eexists. split; [vm_compute; reflexivity|]. done. }
  assert (Hq : queue (requests demo_queue) (Some 0) [0; 1; 2]).
  { split; [done|]. eexists. split; [reflexivity|]. split; [done|]. eexists. split; [reflexivity|].
    split; [done|]. eexists. split; reflexivity. }
  destruct (proj1 (wp_run _ _ _) (add_request_elevator (fun _ => mret tt) 3 3 (demo_request 16 None) 0 [1; 2] true
    demo_queue eq_refl eq_refl eq_refl Hq ltac:(apply (bool_decide_unpack _); vm_compute; done)
    ltac:(apply (bool_decide_unpack _); vm_compute; done) ltac:(intros b [=])
    ltac:(intros i Hi; apply elem_of_cons in Hi as [->|Hi]; [|apply elem_of_cons in Hi as [->|Hi];
      [|apply list_elem_of_singleton in Hi as ->]]; intros (_ & _ & [=]))
    ltac:(vm_compute; discriminate))) as (_ & s' & _ & l1 & l2 & H1 & H2 & H3 & _).
  exists l1, l2, s'. split; [exact H1|]. split; [exact H2|exact H3].
Defined.
End Elevator.
