(* ===== verification/Inode.v ===== *)
(** * Superblocks, bit maps and inodes ([fs/inode.c], [fs/bitmap.c],
      [fs/super.c], [check_disk_change] of [fs/buffer.c])

    The routines of the file system that work on the block layer's state
    alone.  Writing an inode back reads its block through the cache, and the
    cache may have to write inodes back to get a clean buffer: the recursion
    of [write_inode], [bread], [getblk], [sync_dev], [sync_inodes] is cut at
    a depth. *)

From S2P Require Import Prelude FsData Block Buffer.

Module Inode.
Import FsData Block Buffer.

(** [floppy_change] of the floppy driver. *)
Class FloppyChange := floppy_change : Z -> KM blk Z.

Definition get_inode (i : Z) : KM blk m_inode := d ← gets fsd; read_at (inode_table d) i.
Definition upd_inode (i : Z) (f : m_inode -> m_inode) : KM blk unit :=
  x ← get_inode i;
  modify (fun s => s ⟪ fsd := (fsd s) ⟪ inode_table := array_set (inode_table (fsd s)) i (f x) ⟫ ⟫).
Definition get_sb (k : Z) : KM blk super_block := d ← gets fsd; read_at (super_blocks d) k.
Definition upd_sb (k : Z) (f : super_block -> super_block) : KM blk unit :=
  x ← get_sb k;
  modify (fun s => s ⟪ fsd := (fsd s) ⟪ super_blocks := array_set (super_blocks (fsd s)) k (f x) ⟫ ⟫).

(** The blocks that [b_data] points to. *)
Definition put_data (b : Z) (f : list Z -> list Z) : KM blk unit :=
  upd_buf b (fun x => x ⟪ b_data := f (b_data x) ⟫).
Definition mark_dirty (b : Z) : KM blk unit := upd_buf b (fun x => x ⟪ b_dirt := 1 ⟫).

Section inodes.
Context {W : Sleeps} {V : Drivers} {FC : FloppyChange}.
Variable fuel : nat.

Definition wait_on_inode (i : Z) : KM blk unit :=
  kloop fuel (fun _ : unit =>
    x ← get_inode i;
    if truth (i_lock x) then sleep_on (W_inode i) ;; mret (inl tt) else mret (inr tt)) tt.
Definition lock_inode (i : Z) : KM blk unit :=
  wait_on_inode i ;; upd_inode i (fun x => x ⟪ i_lock := 1 ⟫).
Definition unlock_inode (i : Z) : KM blk unit :=
  upd_inode i (fun x => x ⟪ i_lock := 0 ⟫) ;; wake_up (W_inode i).

Definition wait_on_super (k : Z) : KM blk unit :=
  kloop fuel (fun _ : unit =>
    x ← get_sb k;
    if truth (s_lock x) then sleep_on (W_super k) ;; mret (inl tt) else mret (inr tt)) tt.
Definition lock_super (k : Z) : KM blk unit :=
  wait_on_super k ;; upd_sb k (fun x => x ⟪ s_lock := 1 ⟫).
Definition free_super (k : Z) : KM blk unit :=
  upd_sb k (fun x => x ⟪ s_lock := 0 ⟫) ;; wake_up (W_super k).

(** One scan takes at most nine turns; another is made when the superblock
    changed while it was waited for. *)
Definition get_super (dev : Z) : KM blk (option Z) :=
  if negb (truth dev) then mret None
  else
    kloop (9 * fuel) (fun k =>
      if NR_SUPER <=? k then mret (inr None)
      else
        x ← get_sb k;
        if s_dev x =? dev then
          wait_on_super k ;;
          x ← get_sb k;
          if s_dev x =? dev then mret (inr (Some k)) else mret (inl 0)
        else mret (inl (k + 1))) 0.

(** The block of the inode [x], and its place there; [INODES_PER_BLOCK] is
    unsigned. *)
Definition inode_block (x : m_inode) (sb : super_block) : Z :=
  s32 (2 + s_imap_blocks sb + s_zmap_blocks sb + u32 (i_num x - 1) / INODES_PER_BLOCK).
Definition inode_place (x : m_inode) : Z := 32 * (u32 (i_num x - 1) mod INODES_PER_BLOCK).

Definition write_inode {Y : InodeSync} (i : Z) : KM blk unit :=
  lock_inode i ;;
  x ← get_inode i;
  if negb (truth (i_dirt x)) || negb (truth (i_dev x)) then unlock_inode i
  else
    o ← get_super (i_dev x);
    match o with
    | None => panic "trying to write inode without device"
    | Some k =>
        x ← get_inode i; sb ← get_sb k;
        o ← bread fuel (i_dev x) (inode_block x sb);
        match o with
        | None => panic "unable to read i-node block"
        | Some b =>
            x ← get_inode i;
            put_data b (put_d_inode (inode_place x) x) ;;
            mark_dirty b ;;
            upd_inode i (fun x => x ⟪ i_dirt := 0 ⟫) ;;
            brelse fuel (Some b) ;;
            unlock_inode i
        end
    end.

Fixpoint sync_inodes_at (depth : nat) : KM blk unit :=
  match depth with
  | O => nofuel
  | S depth =>
      kfor (upto NR_INODE) (fun i =>
        wait_on_inode i ;;
        x ← get_inode i;
        kwhen (truth (i_dirt x) && negb (truth (i_pipe x)))
          (write_inode (Y := sync_inodes_at depth) i))
  end.

Variable depth : nat.
#[local] Instance inode_sync : InodeSync := sync_inodes_at depth.

Definition read_inode (i : Z) : KM blk unit :=
  lock_inode i ;;
  x ← get_inode i;
  o ← get_super (i_dev x);
  match o with
  | None => panic "trying to read inode without dev"
  | Some k =>
      x ← get_inode i; sb ← get_sb k;
      o ← bread fuel (i_dev x) (inode_block x sb);
      match o with
      | None => panic "unable to read i-node block"
      | Some b =>
          h ← get_buf b;
          upd_inode i (fun x => get_d_inode (b_data h) (inode_place x) x) ;;
          brelse fuel (Some b) ;;
          unlock_inode i
      end
  end.

Definition invalidate_inodes (dev : Z) : KM blk unit :=
  kfor (upto NR_INODE) (fun i =>
    wait_on_inode i ;;
    x ← get_inode i;
    kwhen (i_dev x =? dev)
      (kwhen (truth (i_count x)) (printk "inode in use on removed disk" []) ;;
       upd_inode i (fun x => x ⟪ i_dev := 0 ⟫ ⟪ i_dirt := 0 ⟫))).

Definition put_super (dev : Z) : KM blk unit :=
  d ← gets fsd;
  if dev =? ROOT_DEV d then printk "root diskette changed: prepare for armageddon" []
  else
    o ← get_super dev;
    match o with
    | None => mret tt
    | Some k =>
        sb ← get_sb k;
        match s_imount sb with
        | Some _ => printk "Mounted disk changed - tssk, tssk" []
        | None =>
            lock_super k ;;
            upd_sb k (fun x => x ⟪ s_dev := 0 ⟫) ;;
            kfor (upto I_MAP_SLOTS) (fun j => sb ← get_sb k; o ← read_at (s_imap sb) j; brelse fuel o) ;;
            kfor (upto Z_MAP_SLOTS) (fun j => sb ← get_sb k; o ← read_at (s_zmap sb) j; brelse fuel o) ;;
            free_super k
        end
    end.

Definition check_disk_change (dev : Z) : KM blk unit :=
  if negb (MAJOR dev =? 2) then mret tt
  else
    changed ← floppy_change (Z.land dev 3);
    if negb (truth changed) then mret tt
    else
      kfor (upto NR_SUPER) (fun k =>
        sb ← get_sb k; kwhen (s_dev sb =? dev) (put_super (s_dev sb))) ;;
      invalidate_inodes dev ;;
      invalidate_buffers fuel dev.

(** ** Bit maps *)

Definition free_block (dev block : Z) : KM blk unit :=
  o ← get_super dev;
  match o with
  | None => panic "trying to free block on nonexistent device"
  | Some k =>
      sb ← get_sb k;
      if (block <? s_firstdatazone sb) || (s_nzones sb <=? block)
      then panic "trying to free block not in datazone"
      else
        o ← get_hash_table fuel dev block;
        gone ← match o with
               | None => mret true
               | Some b =>
                   h ← get_buf b;
                   if negb (b_count h =? 1)
                   then printk "trying to free block (%04x:%d), count=%d" [dev; block; b_count h] ;; mret false
                   else
                     upd_buf b (fun x => x ⟪ b_dirt := 0 ⟫ ⟪ b_uptodate := 0 ⟫) ;;
                     brelse fuel (Some b) ;; mret true
               end;
        if negb (gone : bool) then mret tt
        else
          sb ← get_sb k;
          let block := block - (s_firstdatazone sb - 1) in
          o ← read_at (s_zmap sb) (block / 8192); z ← deref o;
          h ← get_buf z;
          let '(data, was_clear) := clear_bit (Z.land block 8191) (b_data h) in
          put_data z (fun _ => data) ;;
          if was_clear then
            printk "block (%04x:%d) " [dev; block + s_firstdatazone sb - 1] ;;
            panic "free_block: bit already cleared"
          else mark_dirty z
  end.

(** The loops of [new_block] and [new_inode]: the first map with a zero bit,
    its buffer and the bit. *)
Fixpoint find_map (maps : list (option Z)) (i : Z) : KM blk (option (Z * Z * Z)) :=
  match maps with
  | [] => mret None
  | None :: maps => find_map maps (i + 1)
  | Some b :: maps =>
      h ← get_buf b;
      let j := find_first_zero (b_data h) in
      if j <? 8192 then mret (Some (i, b, j)) else find_map maps (i + 1)
  end.

(** [set_bit(j,bh->b_data)] on a bit found to be zero. *)
Definition take_bit (msg : string) (b j : Z) : KM blk unit :=
  h ← get_buf b;
  let '(data, was_set) := set_bit j (b_data h) in
  put_data b (fun _ => data) ;;
  if was_set then panic msg else mark_dirty b.

Definition new_block (dev : Z) : KM blk Z :=
  o ← get_super dev;
  match o with
  | None => panic "trying to get new block from nonexistant device"
  | Some k =>
      sb ← get_sb k;
      o ← find_map (s_zmap sb) 0;
      match o with
      | None => mret 0
      | Some (i, b, j) =>
          take_bit "new_block: bit already set" b j ;;
          let j := j + (i * 8192 + s_firstdatazone sb - 1) in
          if s_nzones sb <=? j then mret 0
          else
            b ← getblk fuel dev j;
            h ← get_buf b;
            if negb (b_count h =? 1) then panic "new block: count is != 1"
            else
              put_data b (fun _ => replicate (Z.to_nat BLOCK_SIZE) 0) ;;
              upd_buf b (fun x => x ⟪ b_uptodate := 1 ⟫ ⟪ b_dirt := 1 ⟫) ;;
              brelse fuel (Some b) ;;
              mret j
      end
  end.

Definition free_inode (inode : option Z) : KM blk unit :=
  match inode with
  | None => mret tt
  | Some i =>
      x ← get_inode i;
      if negb (truth (i_dev x)) then upd_inode i (fun _ => zero_inode)
      else if 1 <? i_count x then
        printk "trying to free inode with count=%d" [i_count x] ;; panic "free_inode"
      else if truth (i_nlinks x) then panic "trying to free inode with links"
      else
        o ← get_super (i_dev x);
        match o with
        | None => panic "trying to free inode on nonexistent device"
        | Some k =>
            sb ← get_sb k; x ← get_inode i;
            if (i_num x <? 1) || (s_ninodes sb <? i_num x)
            then panic "trying to free inode 0 or nonexistant inode"
            else
              o ← read_at (s_imap sb) (Z.shiftr (i_num x) 13);
              match o with
              | None => panic "nonexistent imap in superblock"
              | Some b =>
                  h ← get_buf b;
                  let '(data, was_clear) := clear_bit (Z.land (i_num x) 8191) (b_data h) in
                  put_data b (fun _ => data) ;;
                  kwhen was_clear (printk "free_inode: bit already cleared." []) ;;
                  mark_dirty b ;;
                  upd_inode i (fun _ => zero_inode)
              end
        end
  end.

(** ** The table of inodes *)

(** [for (i = NR_INODE; i ; i--)] of [get_empty_inode]. *)
Fixpoint scan_inodes (n : nat) (inode : option Z) : KM blk (option Z) :=
  match n with
  | O => mret inode
  | S n =>
      modify (fun s => s ⟪ fsd := (fsd s) ⟪ last_inode :=
        if NR_INODE <=? last_inode (fsd s) + 1 then 0 else last_inode (fsd s) + 1 ⟫ ⟫) ;;
      d ← gets fsd;
      x ← get_inode (last_inode d);
      if truth (i_count x) then scan_inodes n inode
      else if negb (truth (i_dirt x)) && negb (truth (i_lock x)) then mret (Some (last_inode d))
      else scan_inodes n (Some (last_inode d))
  end.

Definition get_empty_inode : KM blk Z :=
  kloop fuel (fun _ : unit =>
    o ← scan_inodes (Z.to_nat NR_INODE) None;
    match o with
    | None =>
        kfor (upto NR_INODE) (fun i => x ← get_inode i; printk "%04x: %6d" [i_dev x; i_num x]) ;;
        panic "No free inodes in mem"
    | Some i =>
        wait_on_inode i ;;
        kloop fuel (fun _ : unit =>
          x ← get_inode i;
          if negb (truth (i_dirt x)) then mret (inr tt)
          else write_inode i ;; wait_on_inode i ;; mret (inl tt)) tt ;;
        x ← get_inode i;
        if truth (i_count x) then mret (inl tt)
        else
          upd_inode i (fun _ => zero_inode ⟪ i_count := 1 ⟫) ;;
          mret (inr i)
    end) tt.
End inodes.
End Inode.
