(* ===== verification/InodeOps.v ===== *)
(** * Operations on inodes ([fs/inode.c], [fs/truncate.c], [new_inode] of
      [fs/bitmap.c])

    The routines that also use the clock, the current task or pages: they
    work on the kernel's state with the block layer as its inode layer.
    [NULL] inodes are [None]. *)

From S2P Require Import Prelude Memory Task Sched Kernel Files FsData Block Buffer Inode.

Module InodeOps.
Import FsData Block Buffer Inode.

Abbreviation F := (KM (kernel blk)).
(** A routine of the block layer. *)
Definition on_blk {A} (m : KM blk A) : F A := on_inodes m.

Section ops.
Context {W : Sleeps} {V : Drivers} {FC : FloppyChange}.
Variables fuel depth : nat.
#[local] Instance sync_here : InodeSync := sync_inodes_at fuel depth.

Definition now : F Z := gets (fun s => CURRENT_TIME (ks s)).
Definition inode_at (i : Z) : F m_inode := on_blk (get_inode i).
Definition set_inode (i : Z) (f : m_inode -> m_inode) : F unit := on_blk (upd_inode i f).
Definition buffer_at (b : Z) : F buffer_head := on_blk (get_buf b).
Definition read_block (dev block : Z) : F (option Z) := on_blk (bread fuel dev block).
Definition release (b : option Z) : F unit := on_blk (brelse fuel b).
Definition zone_of (x : m_inode) (k : Z) : Z := default 0 (array_get (i_zone x) k).
Definition set_zone (k v : Z) (x : m_inode) : m_inode :=
  x ⟪ i_zone := array_set (i_zone x) k (u16 v) ⟫.

(** ** [truncate.c] *)

(** The 512 block numbers of an indirect block. *)
Definition entry (l : list Z) (k : Z) : Z := get16 l (2 * k).

Definition free_entries (free : Z -> F unit) (b : Z) : F unit :=
  kfor (upto 512) (fun k =>
    h ← buffer_at b;
    kwhen (truth (entry (b_data h) k)) (free (entry (b_data h) k))).
Definition free_ind (dev block : Z) : F unit :=
  if negb (truth block) then mret tt
  else
    o ← read_block dev block;
    match o with
    | None => mret tt
    | Some b => free_entries (fun p => on_blk (free_block fuel dev p)) b ;; release (Some b)
    end ;;
    on_blk (free_block fuel dev block).
Definition free_dind (dev block : Z) : F unit :=
  if negb (truth block) then mret tt
  else
    o ← read_block dev block;
    match o with
    | None => mret tt
    | Some b => free_entries (free_ind dev) b ;; release (Some b)
    end ;;
    on_blk (free_block fuel dev block).

Definition truncate (i : Z) : F unit :=
  x ← inode_at i;
  if negb (S_ISREG (i_mode x) || S_ISDIR (i_mode x)) then mret tt
  else
    kfor (upto 7) (fun k =>
      x ← inode_at i;
      kwhen (truth (zone_of x k))
        (on_blk (free_block fuel (i_dev x) (zone_of x k)) ;; set_inode i (set_zone k 0))) ;;
    x ← inode_at i; free_ind (i_dev x) (zone_of x 7) ;;
    x ← inode_at i; free_dind (i_dev x) (zone_of x 8) ;;
    t ← now;
    set_inode i (fun x => (set_zone 7 0 (set_zone 8 0 x))
      ⟪ i_size := 0 ⟫ ⟪ i_dirt := 1 ⟫ ⟪ i_mtime := u32 t ⟫ ⟪ i_ctime := u32 t ⟫).

(** ** [inode.c] *)

Definition iput (inode : option Z) : F unit :=
  match inode with
  | None => mret tt
  | Some i =>
      on_blk (wait_on_inode fuel i) ;;
      x ← inode_at i;
      if negb (truth (i_count x)) then panic "iput: trying to free free inode"
      else if truth (i_pipe x) then
        on_blk (wake_up (W_inode i)) ;;
        set_inode i (fun x => x ⟪ i_count := i_count x - 1 ⟫) ;;
        if truth (i_count x - 1) then mret tt
        else
          on_km (free_page (i_size x)) ;;
          set_inode i (fun x => x ⟪ i_count := 0 ⟫ ⟪ i_dirt := 0 ⟫ ⟪ i_pipe := 0 ⟫)
      else if negb (truth (i_dev x)) then set_inode i (fun x => x ⟪ i_count := i_count x - 1 ⟫)
      else
        kwhen (S_ISBLK (i_mode x))
          (_ ← on_blk (sync_dev fuel (zone_of x 0)); on_blk (wait_on_inode fuel i)) ;;
        kloop fuel (fun _ : unit =>
          x ← inode_at i;
          if 1 <? i_count x then set_inode i (fun x => x ⟪ i_count := i_count x - 1 ⟫) ;; mret (inr tt)
          else if negb (truth (i_nlinks x)) then
            truncate i ;; on_blk (free_inode fuel (Some i)) ;; mret (inr tt)
          else if truth (i_dirt x) then
            on_blk (write_inode fuel i) ;; on_blk (wait_on_inode fuel i) ;; mret (inl tt)
          else set_inode i (fun x => x ⟪ i_count := u16 (i_count x - 1) ⟫) ;; mret (inr tt)) tt
  end.

Definition new_empty_inode : F Z := on_blk (get_empty_inode fuel depth).

Definition get_pipe_inode : F (option Z) :=
  i ← new_empty_inode;
  page ← on_km get_free_page;
  set_inode i (fun x => x ⟪ i_size := page ⟫) ;;
  if negb (truth page) then set_inode i (fun x => x ⟪ i_count := 0 ⟫) ;; mret None
  else
    set_inode i (fun x => (set_zone 0 0 (set_zone 1 0 x)) ⟪ i_count := 2 ⟫ ⟪ i_pipe := 1 ⟫) ;;
    mret (Some i).

(** [if (create && !inode->i_zone[k]) if (inode->i_zone[k]=new_block(...))]:
    the zone afterwards. *)
Definition zone_entry (i k : Z) (create : bool) : F Z :=
  x ← inode_at i;
  kwhen (create && negb (truth (zone_of x k)))
    (n ← on_blk (new_block fuel depth (i_dev x));
     set_inode i (set_zone k n) ;;
     kwhen (truth (u16 n))
       (t ← now; set_inode i (fun x => x ⟪ i_ctime := u32 t ⟫ ⟪ i_dirt := 1 ⟫))) ;;
  x ← inode_at i; mret (zone_of x k).

(** Entry [k] of the indirect block [block], made if it is to be created. *)
Definition ind_entry (i block k : Z) (create : bool) : F Z :=
  x ← inode_at i;
  o ← read_block (i_dev x) block;
  match o with
  | None => mret 0
  | Some b =>
      h ← buffer_at b;
      let e := entry (b_data h) k in
      e ← (if create && negb (truth e) then
             x ← inode_at i;
             n ← on_blk (new_block fuel depth (i_dev x));
             kwhen (truth n) (on_blk (put_data b (put16 (2 * k) n)) ;; on_blk (mark_dirty b)) ;;
             mret n
           else mret e);
      release (Some b) ;;
      mret e
  end.

Definition _bmap (i block : Z) (create : bool) : F Z :=
  if block <? 0 then panic "_bmap: block<0"
  else if 7 + 512 + 512 * 512 <=? block then panic "_bmap: block>big"
  else if block <? 7 then zone_entry i block create
  else
    let block := block - 7 in
    if block <? 512 then
      z ← zone_entry i 7 create;
      if negb (truth z) then mret 0 else ind_entry i z block create
    else
      let block := block - 512 in
      z ← zone_entry i 8 create;
      if negb (truth z) then mret 0
      else
        e ← ind_entry i z (Z.shiftr block 9) create;
        if negb (truth e) then mret 0 else ind_entry i e (Z.land block 511) create.
Definition bmap (i block : Z) : F Z := _bmap i block false.
Definition create_block (i block : Z) : F Z := _bmap i block true.

(** The superblock mounted on an inode. *)
Fixpoint mounted_on (i k : Z) (l : list super_block) : option (Z * super_block) :=
  match l with
  | [] => None
  | sb :: l => if bool_decide (s_imount sb = Some i) then Some (k, sb) else mounted_on i (k + 1) l
  end.

(** The loop goes over the table at most once for each change of device and
    for each sleep. *)
Definition iget (dev nr : Z) : F (option Z) :=
  if negb (truth dev) then panic "iget with dev==0"
  else
    empty ← new_empty_inode;
    kloop (33 * fuel) (fun '(i, dev, nr) =>
      if NR_INODE <=? i then
        set_inode empty (fun x => x ⟪ i_dev := u16 dev ⟫ ⟪ i_num := u16 nr ⟫) ;;
        on_blk (read_inode fuel depth empty) ;;
        mret (inr (Some empty))
      else
        x ← inode_at i;
        if negb (i_dev x =? dev) || negb (i_num x =? nr) then mret (inl (i + 1, dev, nr))
        else
          on_blk (wait_on_inode fuel i) ;;
          x ← inode_at i;
          if negb (i_dev x =? dev) || negb (i_num x =? nr) then mret (inl (0, dev, nr))
          else
            set_inode i (fun x => x ⟪ i_count := u16 (i_count x + 1) ⟫) ;;
            if truth (i_mount x) then
              d ← on_blk (gets fsd);
              match mounted_on i 0 (super_blocks d) with
              | None =>
                  on_blk (printk "Mounted inode hasn't got sb" []) ;;
                  iput (Some empty) ;; mret (inr (Some i))
              | Some (k, _) =>
                  iput (Some i) ;;
                  sb ← on_blk (get_sb k);
                  mret (inl (0, s_dev sb, ROOT_INO))
              end
            else iput (Some empty) ;; mret (inr (Some i))) (0, dev, nr).

(** ** [new_inode] of [bitmap.c] *)

Definition new_inode (dev : Z) : F (option Z) :=
  i ← new_empty_inode;
  o ← on_blk (get_super fuel dev);
  match o with
  | None => panic "new_inode with unknown device"
  | Some k =>
      sb ← on_blk (get_sb k);
      o ← on_blk (find_map (s_imap sb) 0);
      match o with
      | None => iput (Some i) ;; mret None
      | Some (m, b, j) =>
          if s_ninodes sb <? j + m * 8192 then iput (Some i) ;; mret None
          else
            on_blk (take_bit "new_inode: bit already set" b j) ;;
            cur ← current_task;
            t ← now;
            set_inode i (fun x =>
              x ⟪ i_count := 1 ⟫ ⟪ i_nlinks := 1 ⟫ ⟪ i_dev := u16 dev ⟫ ⟪ i_uid := euid cur ⟫
                ⟪ i_gid := u8 (egid cur) ⟫ ⟪ i_dirt := 1 ⟫ ⟪ i_num := u16 (j + m * 8192) ⟫
                ⟪ i_mtime := u32 t ⟫ ⟪ i_atime := u32 t ⟫ ⟪ i_ctime := u32 t ⟫) ;;
            mret (Some i)
      end
  end.

(** The inode layer of process and file management. *)
#[export] Instance fs_inodes : Inodes blk := {
  Kernel.iput := iput;
  igrab i := upd_inode i (fun x => x ⟪ i_count := u16 (i_count x + 1) ⟫);
  Kernel.i_dev s i := match array_get (inode_table (fsd s)) i with Some x => i_dev x | None => 0 end;
  Kernel.i_pipe s i := match array_get (inode_table (fsd s)) i with Some x => truth (i_pipe x) | None => false end;
  Kernel.i_size s i := match array_get (inode_table (fsd s)) i with Some x => i_size x | None => 0 end
}.
End ops.
End InodeOps.
