(* ===== verification/Namei.v ===== *)
(** * Path names ([fs/namei.c])

    A directory entry is a buffer and the number of the entry in its block.
    Path names are read from user memory; the loops over them and over the
    components of a path take fuel.  [find_entry] returns the directory it
    ended in, which differs from the one it was given when [..] crosses a
    mount point. *)

From S2P Require Import Prelude Memory Task Sched Kernel Files FsData Block Buffer Inode InodeOps.

Module Namei.
Import FsData Block Buffer Inode InodeOps.

Definition EEXIST : Z := 17.
Definition EXDEV : Z := 18.
Definition ENOTDIR : Z := 20.
Definition EISDIR : Z := 21.
Definition ENOSPC : Z := 28.
Definition ENOTEMPTY : Z := 39.

(** [ACC_MODE]: the last character of the string is [-1]. *)
Definition ACC_MODE (x : Z) : Z := default 0 (array_get [4; 2; 6; -1] (Z.land x O_ACCMODE)).
Definition MAY_EXEC : Z := 1.
Definition MAY_WRITE : Z := 2.
Definition MAY_READ : Z := 4.

(** The decision of [permission] for a task with the ids [eu] and [eg]. *)
Definition may (eu eg : Z) (x : m_inode) (mask : Z) : bool :=
  if truth (i_dev x) && negb (truth (i_nlinks x)) then false
  else
    let mode := if eu =? i_uid x then Z.shiftr (i_mode x) 6
                else if eg =? i_gid x then Z.shiftr (i_mode x) 3 else i_mode x in
    (Z.land (Z.land mode mask) 7 =? mask) || (eu =? 0).

Section namei.
Context {W : Sleeps} {V : Drivers} {FC : FloppyChange}.
Variables fuel depth : nat.

Abbreviation iput := (InodeOps.iput fuel depth).
Abbreviation iget := (InodeOps.iget fuel depth).
Abbreviation bread_block := (InodeOps.read_block fuel depth).
Abbreviation brelse_block := (InodeOps.release fuel).

Definition k_suser : F bool := on_ks suser.

Definition permission (i mask : Z) : F bool :=
  x ← inode_at i; cur ← current_task; mret (may (euid cur) (egid cur) x mask).

(** [repe; cmpsb] over [n] characters. *)
Fixpoint same_name (n : nat) (name : Z) (l : list Z) (k j : Z) : F bool :=
  match n with
  | O => mret true
  | S n =>
      c ← get_fs_byte (name + j);
      if c =? de_name l k j then same_name n name l k (j + 1) else mret false
  end.
Definition match_entry (len name : Z) (l : list Z) (k : Z) : F bool :=
  if (de_inode l k =? 0) || (NAME_LEN <? len) then mret false
  else if (len <? NAME_LEN) && truth (de_name l k len) then mret false
  else same_name (Z.to_nat len) name l k 0.

(** The loop of [find_entry]: [i] entries have been looked at, [k] of the
    block in [bh].  After a hole [bh] is [NULL], and the test for the end of
    the block reads [bh->b_data] at address 0, where the page directory
    holds a small number: a new block is read again. *)
Definition find_step (dir name namelen entries : Z) : Z * option Z * Z ->
    F (Z * option Z * Z + option (Z * Z)) := fun '(i, bh, k) =>
  if entries <=? i then brelse_block bh ;; mret (inr None)
  else
    let look (i b k : Z) : F (Z * option Z * Z + option (Z * Z)) :=
      h ← buffer_at b;
      m ← match_entry namelen name (b_data h) k;
      if m : bool then mret (inr (Some (b, k))) else mret (inl (i + 1, Some b, k + 1)) in
    let next_block : F (Z * option Z * Z + option (Z * Z)) :=
      block ← bmap fuel depth dir (i / DIR_ENTRIES_PER_BLOCK);
      o ← (if truth block then x ← inode_at dir; bread_block (i_dev x) block else mret None);
      match o with
      | None => mret (inl (i + DIR_ENTRIES_PER_BLOCK, None, k))
      | Some b => look i b 0
      end in
    match bh with
    | Some b => if k <? DIR_ENTRIES_PER_BLOCK then look i b k else brelse_block (Some b) ;; next_block
    | None => next_block
    end.

(** The special cases of [..]: the directory and the length to go on with. *)
Definition dot_dot (dir name namelen : Z) : F (Z * Z) :=
  if negb (namelen =? 2) then mret (dir, namelen)
  else
    c ← get_fs_byte name;
    d ← get_fs_byte (name + 1);
    if negb ((c =? 46) && (d =? 46)) then mret (dir, namelen)
    else
      cur ← current_task;
      if bool_decide (root cur = Some dir) then mret (dir, 1)
      else
        x ← inode_at dir;
        if negb (i_num x =? ROOT_INO) then mret (dir, namelen)
        else
          o ← on_blk (get_super fuel (i_dev x)); k ← deref o;
          sb ← on_blk (get_sb k);
          match s_imount sb with
          | None => mret (dir, namelen)
          | Some m =>
              iput (Some dir) ;;
              set_inode m (fun x => x ⟪ i_count := u16 (i_count x + 1) ⟫) ;;
              mret (m, namelen)
          end.

Definition find_entry (dir name namelen : Z) : F (Z * option (Z * Z)) :=
  let namelen := Z.min namelen NAME_LEN in
  x ← inode_at dir;
  let entries := i_size x / 16 in
  if negb (truth namelen) then mret (dir, None)
  else
    r ← dot_dot dir name namelen;
    let '(dir, namelen) := r in
    x ← inode_at dir;
    if negb (truth (zone_of x 0)) then mret (dir, None)
    else
      o ← bread_block (i_dev x) (zone_of x 0);
      match o with
      | None => mret (dir, None)
      | Some b =>
          e ← kloop (S (Z.to_nat entries)) (find_step dir name namelen entries) (0, Some b, 0);
          mret (dir, e)
      end.

(** [for (i=0; i < NAME_LEN ; i++) de->name[i]=...] *)
Definition write_name (b k name namelen : Z) : F unit :=
  kfor (upto NAME_LEN) (fun j =>
    c ← (if j <? namelen then get_fs_byte (name + j) else mret 0);
    on_blk (put_data b (put_de_name k j c))).

Definition add_step (dir name namelen : Z) : Z * option Z * Z ->
    F (Z * option Z * Z + option (Z * Z)) := fun '(i, bh, k) =>
  let use (b k : Z) : F (Z * option Z * Z + option (Z * Z)) :=
    x ← inode_at dir;
    kwhen (i_size x <=? 16 * i)
      (on_blk (put_data b (put_de_inode k 0)) ;;
       t ← now;
       set_inode dir (fun x => x ⟪ i_size := u32 (16 * (i + 1)) ⟫ ⟪ i_dirt := 1 ⟫ ⟪ i_ctime := u32 t ⟫)) ;;
    h ← buffer_at b;
    if de_inode (b_data h) k =? 0 then
      t ← now;
      set_inode dir (fun x => x ⟪ i_mtime := u32 t ⟫) ;;
      write_name b k name namelen ;;
      on_blk (mark_dirty b) ;;
      mret (inr (Some (b, k)))
    else mret (inl (i + 1, Some b, k + 1)) in
  let next_block : F (Z * option Z * Z + option (Z * Z)) :=
    block ← create_block fuel depth dir (i / DIR_ENTRIES_PER_BLOCK);
    if negb (truth block) then mret (inr None)
    else
      x ← inode_at dir;
      o ← bread_block (i_dev x) block;
      match o with
      | None => mret (inl (i + DIR_ENTRIES_PER_BLOCK, None, k))
      | Some b => use b 0
      end in
  match bh with
  | Some b => if k <? DIR_ENTRIES_PER_BLOCK then use b k else brelse_block (Some b) ;; next_block
  | None => next_block
  end.

Definition add_entry (dir name namelen : Z) : F (option (Z * Z)) :=
  let namelen := Z.min namelen NAME_LEN in
  if negb (truth namelen) then mret None
  else
    x ← inode_at dir;
    if negb (truth (zone_of x 0)) then mret None
    else
      o ← bread_block (i_dev x) (zone_of x 0);
      match o with
      | None => mret None
      | Some b => kloop (fuel + Z.to_nat (i_size x / 16)) (add_step dir name namelen) (0, Some b, 0)
      end.

(** ** Walking a path *)

(** [for(namelen=0;(c=get_fs_byte(pathname++))&&(c!='/');namelen++)]: the
    length, the character that ended it, and the position after it. *)
Definition component (pathname : Z) : F (Z * Z * Z) :=
  kloop fuel (fun '(p, n) =>
    c ← get_fs_byte p;
    if truth c && negb (c =? 47) then mret (inl (p + 1, n + 1)) else mret (inr (n, c, p + 1)))
    (pathname, 0).

(** [!p || !p->i_count] *)
Definition unusable (o : option Z) : F bool :=
  match o with None => mret true | Some i => x ← inode_at i; mret (negb (truth (i_count x))) end.

Definition get_dir_step : Z * Z -> F (Z * Z + option Z) := fun '(inode, pathname) =>
  x ← inode_at inode;
  ok ← (if S_ISDIR (i_mode x) then permission inode MAY_EXEC else mret false);
  if negb ok then iput (Some inode) ;; mret (inr None)
  else
    r ← component pathname;
    let '(namelen, c, next) := r in
    if negb (truth c) then mret (inr (Some inode))
    else
      r ← find_entry inode pathname namelen;
      let '(inode, e) := r in
      match e with
      | None => iput (Some inode) ;; mret (inr None)
      | Some (b, k) =>
          h ← buffer_at b; x ← inode_at inode;
          brelse_block (Some b) ;;
          iput (Some inode) ;;
          o ← iget (i_dev x) (de_inode (b_data h) k);
          match o with None => mret (inr None) | Some inode => mret (inl (inode, next)) end
      end.

Definition get_dir (pathname : Z) : F (option Z) :=
  cur ← current_task;
  r ← unusable (root cur);
  if r : bool then panic "No root inode"
  else
    p ← unusable (pwd cur);
    if p : bool then panic "No cwd inode"
    else
      c ← get_fs_byte pathname;
      if negb (truth c) then mret None
      else
        let '(start, pathname) := if c =? 47 then (root cur, pathname + 1) else (pwd cur, pathname) in
        inode ← deref start;
        set_inode inode (fun x => x ⟪ i_count := u16 (i_count x + 1) ⟫) ;;
        kloop fuel get_dir_step (inode, pathname).

(** The directory, the length of the last component and where it starts. *)
Definition dir_namei (pathname : Z) : F (option (Z * Z * Z)) :=
  o ← get_dir pathname;
  match o with
  | None => mret None
  | Some dir =>
      r ← kloop fuel (fun '(p, basename) =>
            c ← get_fs_byte p;
            if negb (truth c) then mret (inr (p + 1, basename))
            else mret (inl (p + 1, if c =? 47 then p + 1 else basename))) (pathname, pathname);
      let '(p, basename) := r in
      mret (Some (dir, p - basename - 1, basename))
  end.

Definition namei (pathname : Z) : F (option Z) :=
  o ← dir_namei pathname;
  match o with
  | None => mret None
  | Some (dir, namelen, basename) =>
      if negb (truth namelen) then mret (Some dir)
      else
        r ← find_entry dir basename namelen;
        let '(dir, e) := r in
        match e with
        | None => iput (Some dir) ;; mret None
        | Some (b, k) =>
            h ← buffer_at b; x ← inode_at dir;
            brelse_block (Some b) ;;
            iput (Some dir) ;;
            o ← iget (i_dev x) (de_inode (b_data h) k);
            match o with
            | None => mret None
            | Some i =>
                t ← now;
                set_inode i (fun x => x ⟪ i_atime := u32 t ⟫ ⟪ i_dirt := 1 ⟫) ;;
                mret (Some i)
            end
        end
  end.
End namei.
End Namei.
