(* ===== verification/Names.v ===== *)
(** * System calls on names ([open_namei] and the system calls of
      [fs/namei.c]) *)

From S2P Require Import Prelude Memory Task Sched Kernel Files FsData Block Buffer Inode InodeOps Namei.

Module Names.
Import FsData Block Buffer Inode InodeOps Namei.

Section names.
Context {W : Sleeps} {V : Drivers} {FC : FloppyChange}.
Variables fuel depth : nat.

Abbreviation iput := (InodeOps.iput fuel depth).
Abbreviation iget := (InodeOps.iget fuel depth).
Abbreviation dir_namei := (Namei.dir_namei fuel depth).
Abbreviation find_entry := (Namei.find_entry fuel depth).
Abbreviation add_entry := (Namei.add_entry fuel depth).
Abbreviation new_inode := (InodeOps.new_inode fuel depth).
Abbreviation brelse_block := (InodeOps.release fuel).

(** [de->inode = v; bh->b_dirt = 1;] *)
Definition set_entry (b k v : Z) : F unit :=
  on_blk (put_data b (put_de_inode k v)) ;; on_blk (mark_dirty b).
(** [iput(dir); return -error;] *)
Definition fail {A} (dir error : Z) : F (Z + A) := iput (Some dir) ;; mret (inl (- error)).
Definition fail_with (dir error : Z) : F Z := iput (Some dir) ;; mret (- error).

(** The error, or the inode. *)
Definition open_namei (pathname flag mode : Z) : F (Z + Z) :=
  let flag := if truth (Z.land flag O_TRUNC) && negb (truth (Z.land flag O_ACCMODE))
              then Z.lor flag O_WRONLY else flag in
  cur ← current_task;
  let mode := Z.lor (Z.land mode (Z.land 0x1FF (Z.lnot (umask cur)))) I_REGULAR in
  o ← dir_namei pathname;
  match o with
  | None => mret (inl (- ENOENT))
  | Some (dir, namelen, basename) =>
      if negb (truth namelen) then
        if negb (truth (Z.land flag (Z.lor O_ACCMODE (Z.lor O_CREAT O_TRUNC)))) then mret (inr dir)
        else fail dir EISDIR
      else
        r ← find_entry dir basename namelen;
        let '(dir, e) := r in
        match e with
        | None =>
            if negb (truth (Z.land flag O_CREAT)) then fail dir ENOENT
            else
              ok ← permission dir MAY_WRITE;
              if negb ok then fail dir EACCES
              else
                x ← inode_at dir;
                o ← new_inode (i_dev x);
                match o with
                | None => fail dir ENOSPC
                | Some inode =>
                    cur ← current_task;
                    set_inode inode (fun x => x ⟪ i_uid := euid cur ⟫ ⟪ i_mode := u16 mode ⟫ ⟪ i_dirt := 1 ⟫) ;;
                    e ← add_entry dir basename namelen;
                    match e with
                    | None =>
                        set_inode inode (fun x => x ⟪ i_nlinks := u8 (i_nlinks x - 1) ⟫) ;;
                        iput (Some inode) ;; fail dir ENOSPC
                    | Some (b, k) =>
                        x ← inode_at inode;
                        set_entry b k (i_num x) ;;
                        brelse_block (Some b) ;;
                        iput (Some dir) ;;
                        mret (inr inode)
                    end
                end
        | Some (b, k) =>
            h ← buffer_at b; x ← inode_at dir;
            brelse_block (Some b) ;;
            iput (Some dir) ;;
            if truth (Z.land flag O_EXCL) then mret (inl (- EEXIST))
            else
              o ← iget (i_dev x) (de_inode (b_data h) k);
              match o with
              | None => mret (inl (- EACCES))
              | Some inode =>
                  x ← inode_at inode;
                  bad ← (if S_ISDIR (i_mode x) && truth (Z.land flag O_ACCMODE) then mret true
                         else ok ← permission inode (ACC_MODE flag); mret (negb ok));
                  if bad : bool then fail inode EPERM
                  else
                    t ← now;
                    set_inode inode (fun x => x ⟪ i_atime := u32 t ⟫) ;;
                    (if truth (Z.land flag O_TRUNC) then truncate fuel depth inode else mret tt) ;;
                    mret (inr inode)
              end
        end
  end.

(** The part that [sys_mknod] and [sys_mkdir] share: the directory, the name
    and that it may be made. *)
Definition may_make (pathname : Z) : F (Z + Z * Z * Z) :=
  o ← dir_namei pathname;
  match o with
  | None => mret (inl (- ENOENT))
  | Some (dir, namelen, basename) =>
      if negb (truth namelen) then fail dir ENOENT
      else
        ok ← permission dir MAY_WRITE;
        if negb ok then fail dir EPERM
        else
          r ← find_entry dir basename namelen;
          let '(dir, e) := r in
          match e with
          | Some (b, _) => brelse_block (Some b) ;; fail dir EEXIST
          | None => mret (inr (dir, namelen, basename))
          end
  end.

Definition sys_mknod (filename mode dev : Z) : F Z :=
  su ← k_suser;
  if negb su then mret (- EPERM)
  else
    r ← may_make filename;
    match r with
    | inl e => mret e
    | inr (dir, namelen, basename) =>
        x ← inode_at dir;
        o ← new_inode (i_dev x);
        match o with
        | None => fail_with dir ENOSPC
        | Some inode =>
            set_inode inode (fun x => x ⟪ i_mode := u16 mode ⟫) ;;
            kwhen (S_ISBLK mode || S_ISCHR mode) (set_inode inode (set_zone 0 dev)) ;;
            t ← now;
            set_inode inode (fun x => x ⟪ i_mtime := u32 t ⟫ ⟪ i_atime := u32 t ⟫ ⟪ i_dirt := 1 ⟫) ;;
            e ← add_entry dir basename namelen;
            match e with
            | None =>
                iput (Some dir) ;;
                set_inode inode (fun x => x ⟪ i_nlinks := 0 ⟫) ;;
                iput (Some inode) ;; mret (- ENOSPC)
            | Some (b, k) =>
                x ← inode_at inode;
                set_entry b k (i_num x) ;;
                iput (Some dir) ;; iput (Some inode) ;; brelse_block (Some b) ;; mret 0
            end
        end
    end.

(** [strcpy(de->name,name)] for the entry [k] of a block. *)
Fixpoint write_chars (k j : Z) (name : list Z) (l : list Z) : list Z :=
  match name with
  | [] => put_de_name k j 0 l
  | c :: name => write_chars k (j + 1) name (put_de_name k j c l)
  end.

Definition sys_mkdir (pathname mode : Z) : F Z :=
  su ← k_suser;
  if negb su then mret (- EPERM)
  else
    r ← may_make pathname;
    match r with
    | inl e => mret e
    | inr (dir, namelen, basename) =>
        x ← inode_at dir;
        o ← new_inode (i_dev x);
        match o with
        | None => fail_with dir ENOSPC
        | Some inode =>
            t ← now;
            set_inode inode (fun x => x ⟪ i_size := 32 ⟫ ⟪ i_dirt := 1 ⟫ ⟪ i_mtime := u32 t ⟫ ⟪ i_atime := u32 t ⟫) ;;
            x ← inode_at inode;
            n ← on_blk (new_block fuel depth (i_dev x));
            set_inode inode (set_zone 0 n) ;;
            if negb (truth (u16 n)) then
              iput (Some dir) ;;
              set_inode inode (fun x => x ⟪ i_nlinks := u8 (i_nlinks x - 1) ⟫) ;;
              iput (Some inode) ;; mret (- ENOSPC)
            else
              set_inode inode (fun x => x ⟪ i_dirt := 1 ⟫) ;;
              x ← inode_at inode;
              o ← read_block fuel depth (i_dev x) (zone_of x 0);
              match o with
              | None =>
                  iput (Some dir) ;;
                  x ← inode_at inode;
                  on_blk (free_block fuel (i_dev x) (zone_of x 0)) ;;
                  set_inode inode (fun x => x ⟪ i_nlinks := u8 (i_nlinks x - 1) ⟫) ;;
                  iput (Some inode) ;; mret (- ERROR)
              | Some dir_block =>
                  x ← inode_at inode; d ← inode_at dir;
                  on_blk (put_data dir_block (fun l =>
                    let l := write_chars 0 0 [46] (put_de_inode 0 (i_num x) l) in
                    write_chars 1 0 [46; 46] (put_de_inode 1 (i_num d) l))) ;;
                  set_inode inode (fun x => x ⟪ i_nlinks := 2 ⟫) ;;
                  on_blk (mark_dirty dir_block) ;;
                  brelse_block (Some dir_block) ;;
                  cur ← current_task;
                  set_inode inode (fun x => x
                    ⟪ i_mode := u16 (Z.lor I_DIRECTORY (Z.land mode (Z.land 0x1FF (Z.lnot (umask cur))))) ⟫
                    ⟪ i_dirt := 1 ⟫) ;;
                  e ← add_entry dir basename namelen;
                  match e with
                  | None =>
                      iput (Some dir) ;;
                      x ← inode_at inode;
                      on_blk (free_block fuel (i_dev x) (zone_of x 0)) ;;
                      set_inode inode (fun x => x ⟪ i_nlinks := 0 ⟫) ;;
                      iput (Some inode) ;; mret (- ENOSPC)
                  | Some (b, k) =>
                      x ← inode_at inode;
                      set_entry b k (i_num x) ;;
                      set_inode dir (fun x => x ⟪ i_nlinks := u8 (i_nlinks x + 1) ⟫ ⟪ i_dirt := 1 ⟫) ;;
                      iput (Some dir) ;; iput (Some inode) ;; brelse_block (Some b) ;; mret 0
                  end
              end
        end
    end.

(** [strcmp(".",de->name)] and [strcmp("..",de->name)]: whether they are 0. *)
Definition is_dot (l : list Z) (k : Z) : bool := (de_name l k 0 =? 46) && (de_name l k 1 =? 0).
Definition is_dot_dot (l : list Z) (k : Z) : bool :=
  (de_name l k 0 =? 46) && (de_name l k 1 =? 46) && (de_name l k 2 =? 0).

(** The loop of [empty_dir].  At a hole the buffer has been released, and it
    is released again at the next turn. *)
Definition empty_step (inode len : Z) : Z * Z * Z -> F (Z * Z * Z + Z) := fun '(nr, b, k) =>
  if len <=? nr then brelse_block (Some b) ;; mret (inr 1)
  else
    let look (b k : Z) : F (Z * Z * Z + Z) :=
      h ← buffer_at b;
      if truth (de_inode (b_data h) k) then brelse_block (Some b) ;; mret (inr 0)
      else mret (inl (nr + 1, b, k + 1)) in
    if k <? DIR_ENTRIES_PER_BLOCK then look b k
    else
      brelse_block (Some b) ;;
      block ← bmap fuel depth inode (nr / DIR_ENTRIES_PER_BLOCK);
      if negb (truth block) then mret (inl (nr + DIR_ENTRIES_PER_BLOCK, b, k))
      else
        x ← inode_at inode;
        o ← read_block fuel depth (i_dev x) block;
        match o with None => mret (inr 0) | Some b => look b 0 end.

Definition empty_dir (inode : Z) : F Z :=
  x ← inode_at inode;
  let len := i_size x / 16 in
  let bad := on_blk (printk "warning - bad directory on dev %04x" [i_dev x]) ;; mret 0 in
  if (len <? 2) || negb (truth (zone_of x 0)) then bad
  else
    o ← read_block fuel depth (i_dev x) (zone_of x 0);
    match o with
    | None => bad
    | Some b =>
        h ← buffer_at b; x ← inode_at inode;
        let l := b_data h in
        if negb (de_inode l 0 =? i_num x) || negb (truth (de_inode l 1)) ||
           negb (is_dot l 0) || negb (is_dot_dot l 1) then bad
        else kloop (S (Z.to_nat len)) (empty_step inode len) (2, b, 2)
    end.

(** The entry that [sys_rmdir] and [sys_unlink] are to remove, and its
    inode. *)
Definition to_remove (name no_inode : Z) : F (Z + Z * Z * Z * Z) :=
  o ← dir_namei name;
  match o with
  | None => mret (inl (- ENOENT))
  | Some (dir, namelen, basename) =>
      if negb (truth namelen) then fail dir ENOENT
      else
        ok ← permission dir MAY_WRITE;
        if negb ok then fail dir EPERM
        else
          r ← find_entry dir basename namelen;
          let '(dir, e) := r in
          match e with
          | None => fail dir ENOENT
          | Some (b, k) =>
              h ← buffer_at b; x ← inode_at dir;
              o ← iget (i_dev x) (de_inode (b_data h) k);
              match o with
              | None => iput (Some dir) ;; brelse_block (Some b) ;; mret (inl (- no_inode))
              | Some inode => mret (inr (dir, inode, b, k))
              end
          end
  end.

Definition sys_rmdir (name : Z) : F Z :=
  su ← k_suser;
  if negb su then mret (- EPERM)
  else
    r ← to_remove name EPERM;
    match r with
    | inl e => mret e
    | inr (dir, inode, b, k) =>
        cur ← current_task; d ← inode_at dir; x ← inode_at inode;
        let back_out (first second : Z) (error : Z) : F Z :=
          iput (Some first) ;; iput (Some second) ;; brelse_block (Some b) ;; mret (- error) in
        if truth (Z.land (i_mode d) S_ISVTX) && truth (euid cur) && negb (i_uid x =? euid cur)
        then back_out dir inode EPERM
        else if negb (i_dev x =? i_dev d) || (1 <? i_count x) then back_out dir inode EPERM
        else if inode =? dir then back_out inode dir EPERM
        else if negb (S_ISDIR (i_mode x)) then back_out inode dir ENOTDIR
        else
          empty ← empty_dir inode;
          if negb (truth empty) then back_out inode dir ENOTEMPTY
          else
            x ← inode_at inode;
            kwhen (negb (i_nlinks x =? 2))
              (on_blk (printk "empty directory has nlink!=2 (%d)" [i_nlinks x])) ;;
            set_entry b k 0 ;;
            brelse_block (Some b) ;;
            set_inode inode (fun x => x ⟪ i_nlinks := 0 ⟫ ⟪ i_dirt := 1 ⟫) ;;
            t ← now;
            set_inode dir (fun x => x ⟪ i_nlinks := u8 (i_nlinks x - 1) ⟫ ⟪ i_ctime := u32 t ⟫
              ⟪ i_mtime := u32 t ⟫ ⟪ i_dirt := 1 ⟫) ;;
            iput (Some dir) ;; iput (Some inode) ;; mret 0
    end.

Definition sys_unlink (name : Z) : F Z :=
  r ← to_remove name ENOENT;
  match r with
  | inl e => mret e
  | inr (dir, inode, b, k) =>
      cur ← current_task; d ← inode_at dir; x ← inode_at inode;
      if truth (Z.land (i_mode d) S_ISVTX) && truth (euid cur) &&
         negb (euid cur =? i_uid x) && negb (euid cur =? i_uid d) then
        iput (Some dir) ;; iput (Some inode) ;; brelse_block (Some b) ;; mret (- EPERM)
      else if S_ISDIR (i_mode x) then
        iput (Some inode) ;; iput (Some dir) ;; brelse_block (Some b) ;; mret (- EPERM)
      else
        kwhen (negb (truth (i_nlinks x)))
          (on_blk (printk "Deleting nonexistent file (%04x:%d), %d" [i_dev x; i_num x; i_nlinks x]) ;;
           set_inode inode (fun x => x ⟪ i_nlinks := 1 ⟫)) ;;
        set_entry b k 0 ;;
        brelse_block (Some b) ;;
        t ← now;
        set_inode inode (fun x => x ⟪ i_nlinks := u8 (i_nlinks x - 1) ⟫ ⟪ i_dirt := 1 ⟫ ⟪ i_ctime := u32 t ⟫) ;;
        iput (Some inode) ;; iput (Some dir) ;; mret 0
  end.

Definition sys_link (oldname newname : Z) : F Z :=
  o ← namei fuel depth oldname;
  match o with
  | None => mret (- ENOENT)
  | Some oldinode =>
      x ← inode_at oldinode;
      if S_ISDIR (i_mode x) then fail_with oldinode EPERM
      else
        o ← dir_namei newname;
        match o with
        | None => fail_with oldinode EACCES
        | Some (dir, namelen, basename) =>
            if negb (truth namelen) then iput (Some oldinode) ;; fail_with dir EPERM
            else
              d ← inode_at dir; x ← inode_at oldinode;
              if negb (i_dev d =? i_dev x) then iput (Some dir) ;; fail_with oldinode EXDEV
              else
                ok ← permission dir MAY_WRITE;
                if negb ok then iput (Some dir) ;; fail_with oldinode EACCES
                else
                  r ← find_entry dir basename namelen;
                  let '(dir, e) := r in
                  match e with
                  | Some (b, _) =>
                      brelse_block (Some b) ;; iput (Some dir) ;; fail_with oldinode EEXIST
                  | None =>
                      e ← add_entry dir basename namelen;
                      match e with
                      | None => iput (Some dir) ;; fail_with oldinode ENOSPC
                      | Some (b, k) =>
                          x ← inode_at oldinode;
                          set_entry b k (i_num x) ;;
                          brelse_block (Some b) ;;
                          iput (Some dir) ;;
                          t ← now;
                          set_inode oldinode (fun x =>
                            x ⟪ i_nlinks := u8 (i_nlinks x + 1) ⟫ ⟪ i_ctime := u32 t ⟫ ⟪ i_dirt := 1 ⟫) ;;
                          iput (Some oldinode) ;; mret 0
                      end
                  end
        end
  end.
End names.
End Names.
