(* ===== verification/Super.v ===== *)
(** * Mounting ([read_super], [sys_umount], [sys_mount] and [mount_root] of
      [fs/super.c])

    A map array of a superblock has eight slots; a superblock block that
    asks for more makes [read_super] write past the array, which is a fault
    of the model. *)

From S2P Require Import Prelude Ports Memory Task Sched Kernel Files Console Tty FsData Block Buffer Inode InodeOps Namei.

Module Super.
Import FsData Block Buffer Inode InodeOps Namei Tty.

Definition ENOTBLK : Z := 15.
Definition EBUSY : Z := 16.

(** The first free superblock, from number [k] on. *)
Fixpoint free_super_block (l : list super_block) (k : Z) : option Z :=
  match l with
  | [] => None
  | sb :: l => if negb (truth (s_dev sb)) then Some k else free_super_block l (k + 1)
  end.

Section blocks.
Context {W : Sleeps} {V : Drivers} {FC : FloppyChange}.
Variables fuel depth : nat.
#[local] Instance sync_inodes_here : InodeSync := sync_inodes_at fuel depth.

(** One of the two loops that read the maps: [set] stores the buffer in slot
    [i].  The result is the number of the block after the last one read. *)
Fixpoint read_maps (set : Z -> option Z -> KM blk unit) (dev : Z) (n : nat) (i block : Z) : KM blk Z :=
  match n with
  | O => mret block
  | S n =>
      o ← bread fuel dev block;
      set i o ;;
      match o with
      | Some _ => read_maps set dev n (i + 1) (block + 1)
      | None => mret block
      end
  end.
Definition set_imap (k i : Z) (o : option Z) : KM blk unit :=
  sb ← get_sb k; _ ← read_at (s_imap sb) i;
  upd_sb k (fun x => x ⟪ s_imap := array_set (s_imap x) i o ⟫).
Definition set_zmap (k i : Z) (o : option Z) : KM blk unit :=
  sb ← get_sb k; _ ← read_at (s_zmap sb) i;
  upd_sb k (fun x => x ⟪ s_zmap := array_set (s_zmap x) i o ⟫).
(** [bh->b_data[0] |= 1] *)
Definition mark_first (o : option Z) : KM blk unit :=
  b ← deref o; put_data b (fun l => put8 0 (Z.lor (get8 l 0) 1) l).

Definition read_super (dev : Z) : KM blk (option Z) :=
  if negb (truth dev) then mret None
  else
    check_disk_change fuel dev ;;
    o ← get_super fuel dev;
    match o with
    | Some k => mret (Some k)
    | None =>
        d ← gets fsd;
        match free_super_block (super_blocks d) 0 with
        | None => mret None
        | Some k =>
            let back_out : KM blk (option Z) :=
              upd_sb k (fun x => x ⟪ s_dev := 0 ⟫) ;; free_super k ;; mret None in
            upd_sb k (fun x => x ⟪ s_dev := u16 dev ⟫ ⟪ s_isup := None ⟫ ⟪ s_imount := None ⟫
                                 ⟪ s_time := 0 ⟫ ⟪ s_rd_only := 0 ⟫ ⟪ s_dirt := 0 ⟫) ;;
            lock_super fuel k ;;
            o ← bread fuel dev 1;
            match o with
            | None => back_out
            | Some b =>
                h ← get_buf b;
                upd_sb k (get_d_super (b_data h)) ;;
                brelse fuel (Some b) ;;
                sb ← get_sb k;
                if negb (s_magic sb =? SUPER_MAGIC) then back_out
                else
                  upd_sb k (fun x => x ⟪ s_imap := replicate 8 None ⟫ ⟪ s_zmap := replicate 8 None ⟫) ;;
                  block ← read_maps (set_imap k) dev (Z.to_nat (s_imap_blocks sb)) 0 2;
                  block ← read_maps (set_zmap k) dev (Z.to_nat (s_zmap_blocks sb)) 0 block;
                  if negb (block =? 2 + s_imap_blocks sb + s_zmap_blocks sb) then
                    kfor (upto I_MAP_SLOTS) (fun j => sb ← get_sb k; o ← read_at (s_imap sb) j; brelse fuel o) ;;
                    kfor (upto Z_MAP_SLOTS) (fun j => sb ← get_sb k; o ← read_at (s_zmap sb) j; brelse fuel o) ;;
                    back_out
                  else
                    sb ← get_sb k;
                    o ← read_at (s_imap sb) 0; mark_first o ;;
                    o ← read_at (s_zmap sb) 0; mark_first o ;;
                    free_super k ;;
                    mret (Some k)
            end
        end
    end.

Abbreviation iput := (InodeOps.iput fuel depth).
Abbreviation namei := (Namei.namei fuel depth).

(** [inode->i_dev==dev && inode->i_count] for some inode. *)
Definition in_use (dev : Z) (l : list m_inode) : bool :=
  existsb (fun x => (i_dev x =? dev) && truth (i_count x)) l.

Definition sys_umount (dev_name : Z) : F Z :=
  o ← namei dev_name;
  match o with
  | None => mret (- ENOENT)
  | Some inode =>
      x ← inode_at inode;
      let dev := zone_of x 0 in
      iput (Some inode) ;;
      if negb (S_ISBLK (i_mode x)) then mret (- ENOTBLK)
      else
        d ← on_blk (gets fsd);
        if dev =? ROOT_DEV d then mret (- EBUSY)
        else
          o ← on_blk (get_super fuel dev);
          match o with
          | None => mret (- ENOENT)
          | Some k =>
              sb ← on_blk (get_sb k);
              match s_imount sb with
              | None => mret (- ENOENT)
              | Some m =>
                  x ← inode_at m;
                  kwhen (negb (truth (i_mount x))) (on_blk (printk "Mounted inode has i_mount=0" [])) ;;
                  d ← on_blk (gets fsd);
                  if in_use dev (inode_table d) then mret (- EBUSY)
                  else
                    set_inode m (fun x => x ⟪ i_mount := 0 ⟫) ;;
                    iput (Some m) ;;
                    on_blk (upd_sb k (fun x => x ⟪ s_imount := None ⟫)) ;;
                    sb ← on_blk (get_sb k);
                    iput (s_isup sb) ;;
                    on_blk (upd_sb k (fun x => x ⟪ s_isup := None ⟫)) ;;
                    on_blk (put_super fuel dev) ;;
                    _ ← on_blk (sync_dev fuel dev);
                    mret 0
              end
          end
  end.

(** [rw_flag] is not used. *)
Definition sys_mount (dev_name dir_name rw_flag : Z) : F Z :=
  o ← namei dev_name;
  match o with
  | None => mret (- ENOENT)
  | Some dev_i =>
      x ← inode_at dev_i;
      let dev := zone_of x 0 in
      iput (Some dev_i) ;;
      if negb (S_ISBLK (i_mode x)) then mret (- EPERM)
      else
        o ← namei dir_name;
        match o with
        | None => mret (- ENOENT)
        | Some dir_i =>
            let back_out (error : Z) : F Z := iput (Some dir_i) ;; mret (- error) in
            x ← inode_at dir_i;
            if negb (i_count x =? 1) || (i_num x =? ROOT_INO) then back_out EBUSY
            else if negb (S_ISDIR (i_mode x)) then back_out EPERM
            else
              o ← on_blk (read_super dev);
              match o with
              | None => back_out EBUSY
              | Some k =>
                  sb ← on_blk (get_sb k);
                  match s_imount sb with
                  | Some _ => back_out EBUSY
                  | None =>
                      x ← inode_at dir_i;
                      if truth (i_mount x) then back_out EPERM
                      else
                        on_blk (upd_sb k (fun x => x ⟪ s_imount := Some dir_i ⟫)) ;;
                        set_inode dir_i (fun x => x ⟪ i_mount := 1 ⟫ ⟪ i_dirt := 1 ⟫) ;;
                        mret 0
                  end
              end
        end
  end.

(** [while (-- i >= 0) if (!set_bit(i&8191,maps[i>>13]->b_data)) free++;] *)
Fixpoint count_free_bits (maps : list (option Z)) (n : nat) (free : Z) : KM blk Z :=
  match n with
  | O => mret free
  | S n =>
      let i := Z.of_nat n in
      o ← read_at maps (Z.shiftr i 13); b ← deref o;
      h ← get_buf b;
      count_free_bits maps n (if get_bit (Z.land i 8191) (b_data h) then free else free + 1)
  end.

Context {D : Device} {O : Others (tstate blk)}.

(** The size of [struct d_inode] is 32 in the model. *)
Definition mount_root : KM (tstate blk) unit :=
  on_kern (modify (fun s => s ⟪ file_table := map (fun f => f ⟪ f_count := 0 ⟫) (file_table s) ⟫)) ;;
  d ← on_kern (on_blk (gets fsd));
  let ROOT_DEV := ROOT_DEV d in
  kwhen (MAJOR ROOT_DEV =? 2)
    (on_kern (on_blk (printk "Insert root floppy and press ENTER" [])) ;; wait_for_keypress fuel) ;;
  on_kern (
    kfor (upto NR_SUPER) (fun k => on_blk (upd_sb k (fun x => x ⟪ s_dev := 0 ⟫ ⟪ s_lock := 0 ⟫))) ;;
    o ← on_blk (read_super ROOT_DEV);
    match o with
    | None => panic "Unable to mount root"
    | Some k =>
        o ← InodeOps.iget fuel depth ROOT_DEV ROOT_INO;
        match o with
        | None => panic "Unable to read root i-node"
        | Some mi =>
            set_inode mi (fun x => x ⟪ i_count := u16 (i_count x + 3) ⟫) ;;
            on_blk (upd_sb k (fun x => x ⟪ s_isup := Some mi ⟫ ⟪ s_imount := Some mi ⟫)) ;;
            set_current (fun t => t ⟪ pwd := Some mi ⟫ ⟪ root := Some mi ⟫) ;;
            sb ← on_blk (get_sb k);
            free ← on_blk (count_free_bits (s_zmap sb) (Z.to_nat (s_nzones sb)) 0);
            on_blk (printk "%d/%d free blocks" [free; s_nzones sb]) ;;
            free ← on_blk (count_free_bits (s_imap sb) (Z.to_nat (s_ninodes sb + 1)) 0);
            on_blk (printk "%d/%d free inodes" [free; s_ninodes sb])
        end
    end).
End blocks.
End Super.
