(* ===== verification/Open.v ===== *)
(** * Opening files and changing their attributes ([fs/open.c] but
      [sys_close], which is in Files) *)

From S2P Require Import Prelude Memory Task Sched Kernel Files FsData Block Buffer Inode InodeOps Namei Names.

Module Open.
Import FsData Block Buffer Inode InodeOps Namei Names.

Section open.
Context {W : Sleeps} {V : Drivers} {FC : FloppyChange}.
Variables fuel depth : nat.
#[local] Instance inodes_here : Inodes blk := fs_inodes fuel depth.

Abbreviation iput := (InodeOps.iput fuel depth).
Abbreviation namei := (Namei.namei fuel depth).

Definition sys_ustat (dev ubuf : Z) : F Z := mret (- ENOSYS).

(** [if (!(inode=namei(filename))) return -error;] *)
Definition with_inode (filename error : Z) (f : Z -> F Z) : F Z :=
  o ← namei filename;
  match o with None => mret (- error) | Some inode => f inode end.

Definition sys_utime (filename times : Z) : F Z :=
  with_inode filename ENOENT (fun inode =>
    r ← (if truth times then
           actime ← get_fs_long times; modtime ← get_fs_long (times + 4); mret (actime, modtime)
         else t ← now; mret (t, t));
    let '(actime, modtime) := r in
    set_inode inode (fun x => x ⟪ i_atime := u32 actime ⟫ ⟪ i_mtime := u32 modtime ⟫ ⟪ i_dirt := 1 ⟫) ;;
    iput (Some inode) ;; mret 0).

(** The decision of [sys_access] for the real ids [u] and [g]: the mode has
    been read before [iput], the owner after it. *)
Definition may_access (u g imode : Z) (x : m_inode) (mode : Z) : bool :=
  let res := if u =? i_uid x then Z.shiftr imode 6
             else if g =? i_gid x then Z.shiftr imode 6 else imode in
  (Z.land (Z.land res 7) mode =? mode) ||
  ((u =? 0) && (negb (truth (Z.land mode 1)) || truth (Z.land imode 0x49))).

Definition sys_access (filename mode : Z) : F Z :=
  let mode := Z.land mode 7 in
  with_inode filename EACCES (fun inode =>
    x ← inode_at inode;
    let imode := Z.land (i_mode x) 0x1FF in
    iput (Some inode) ;;
    x ← inode_at inode;
    cur ← current_task;
    mret (if may_access (uid cur) (gid cur) imode x mode then 0 else - EACCES)).

Definition sys_chdir (filename : Z) : F Z :=
  with_inode filename ENOENT (fun inode =>
    x ← inode_at inode;
    if negb (S_ISDIR (i_mode x)) then fail_with fuel depth inode ENOTDIR
    else
      cur ← current_task;
      iput (pwd cur) ;;
      set_current (fun t => t ⟪ pwd := Some inode ⟫) ;; mret 0).

Definition sys_chroot (filename : Z) : F Z :=
  with_inode filename ENOENT (fun inode =>
    x ← inode_at inode;
    if negb (S_ISDIR (i_mode x)) then fail_with fuel depth inode ENOTDIR
    else
      cur ← current_task;
      iput (root cur) ;;
      set_current (fun t => t ⟪ root := Some inode ⟫) ;; mret 0).

Definition sys_chmod (filename mode : Z) : F Z :=
  with_inode filename ENOENT (fun inode =>
    x ← inode_at inode; cur ← current_task; su ← k_suser;
    if negb (euid cur =? i_uid x) && negb su then fail_with fuel depth inode EACCES
    else
      set_inode inode (fun x => x
        ⟪ i_mode := Z.lor (Z.land mode 0xFFF) (Z.land (i_mode x) (Z.lnot 0xFFF)) ⟫ ⟪ i_dirt := 1 ⟫) ;;
      iput (Some inode) ;; mret 0).

Definition sys_chown (filename uid gid : Z) : F Z :=
  with_inode filename ENOENT (fun inode =>
    su ← k_suser;
    if negb su then fail_with fuel depth inode EACCES
    else
      set_inode inode (fun x => x ⟪ i_uid := u16 uid ⟫ ⟪ i_gid := u8 gid ⟫ ⟪ i_dirt := 1 ⟫) ;;
      iput (Some inode) ;; mret 0).

(** The first file-table entry, from [k] on, that is not in use. *)
Fixpoint free_file (l : list file) (k : Z) : option Z :=
  match l with
  | [] => None
  | f :: l => if negb (truth (f_count f)) then Some k else free_file l (k + 1)
  end.
Definition set_fd (fd : Z) (f : option Z) : F unit :=
  set_current (fun t => t ⟪ filp := array_set (filp t) fd f ⟫).
Definition upd_file (f : Z) (g : file -> file) : F unit := x ← get_file f; put_file f (g x).

Definition sys_open (filename flag mode : Z) : F Z :=
  cur ← current_task;
  let mode := Z.land mode (Z.land 0x1FF (Z.lnot (umask cur))) in
  let fd := first_free (filp cur) 0 (Z.to_nat NR_OPEN) in
  if NR_OPEN <=? fd then mret (- EINVAL)
  else
    set_current (clear_cloexec fd) ;;
    ft ← gets file_table;
    match free_file ft 0 with
    | None => mret (- EINVAL)
    | Some f =>
        let undo (error : Z) : F Z :=
          set_fd fd None ;; upd_file f (fun x => x ⟪ f_count := 0 ⟫) ;; mret error in
        set_fd fd (Some f) ;;
        upd_file f (fun x => x ⟪ f_count := f_count x + 1 ⟫) ;;
        r ← open_namei fuel depth filename flag mode;
        match r with
        | inl e => undo e
        | inr inode =>
            x ← inode_at inode; cur ← current_task;
            let dev := zone_of x 0 in
            denied ← (if negb (S_ISCHR (i_mode x)) then mret false
                      else if MAJOR dev =? 4 then
                        kwhen (truth (leader cur) && (tty cur <? 0))
                          (set_current (fun t => t ⟪ tty := MINOR dev ⟫) ;;
                           p ← gets tty_pgrp; _ ← read_at p (MINOR dev);
                           modify (fun s => s ⟪ tty_pgrp := array_set (tty_pgrp s) (MINOR dev) (pgrp cur) ⟫)) ;;
                        mret false
                      else mret ((MAJOR dev =? 5) && (tty cur <? 0)));
            if denied : bool then iput (Some inode) ;; undo (- EPERM)
            else
              x ← inode_at inode;
              kwhen (S_ISBLK (i_mode x)) (on_blk (check_disk_change fuel (zone_of x 0))) ;;
              x ← inode_at inode;
              upd_file f (fun _ => File (i_mode x) (u16 flag) 1 (Some inode) 0) ;;
              mret fd
        end
    end.

Definition sys_creat (pathname mode : Z) : F Z := sys_open pathname (Z.lor O_CREAT O_TRUNC) mode.
End open.
End Open.
