(* ===== verification/FileIO.v ===== *)
(** * Reading and writing files and block devices ([fs/file_dev.c],
      [fs/block_dev.c])

    A file is named by its index in the file table.  The data are moved
    between a buffer and user memory byte by byte. *)

From S2P Require Import Prelude Memory Task Sched Kernel Files FsData Block Buffer Inode InodeOps.

Module FileIO.
Import FsData Block Buffer Inode InodeOps.

Definition EIO : Z := 5.

Section io.
Context {W : Sleeps} {V : Drivers} {FC : FloppyChange}.
Variables fuel depth : nat.
#[local] Instance sync_now : InodeSync := sync_inodes_at fuel depth.

Definition upd_pos (f : Z) (g : Z -> Z) : F unit :=
  x ← get_file f; put_file f (x ⟪ f_pos := g (f_pos x) ⟫).

(** [while (chars-->0) put_fs_byte( *(p++),buf++);] with [p = nr + bh->b_data] *)
Definition copy_out (b nr chars bf : Z) : F unit :=
  kfor (upto chars) (fun k =>
    h ← buffer_at b; c ← read_at (b_data h) (nr + k); put_fs_byte c (bf + k)).
Definition copy_zeros (chars bf : Z) : F unit :=
  kfor (upto chars) (fun k => put_fs_byte 0 (bf + k)).
(** [while (chars-->0) *(p++) = get_fs_byte(buf++);] *)
Definition copy_in (b nr chars bf : Z) : F unit :=
  kfor (upto chars) (fun k =>
    c ← get_fs_byte (bf + k);
    h ← buffer_at b; _ ← read_at (b_data h) (nr + k);
    on_blk (put_data b (fun l => array_set l (nr + k) c))).

(** ** [file_dev.c] *)

(** One turn of the loop of [file_read], with [todo] bytes to go to [bf];
    [inr] is the number of bytes left at the end. *)
Definition file_read_turn (inode f : Z) : Z * Z -> F (Z * Z + Z) := fun '(todo, bf) =>
  if todo =? 0 then mret (inr todo)
  else
    x ← get_file f;
    nr ← bmap fuel depth inode (Z.quot (f_pos x) BLOCK_SIZE);
    i ← inode_at inode;
    r ← (if truth nr then
           o ← read_block fuel depth (i_dev i) nr;
           mret (match o with None => None | Some b => Some (Some b) end)
         else mret (Some None));
    match r with
    | None => mret (inr todo)
    | Some bh =>
        x ← get_file f;
        let nr := Z.rem (f_pos x) BLOCK_SIZE in
        let chars := Z.min (BLOCK_SIZE - nr) todo in
        upd_pos f (fun p => s32 (p + chars)) ;;
        match bh with
        | Some b => copy_out b nr chars bf ;; release fuel (Some b)
        | None => copy_zeros chars bf
        end ;;
        mret (inl (todo - chars, bf + chars))
    end.

Definition file_read (inode f bf count : Z) : F Z :=
  if count <=? 0 then mret 0
  else
    todo ← kloop (S (Z.to_nat count)) (file_read_turn inode f) (count, bf);
    t ← now;
    set_inode inode (fun x => x ⟪ i_atime := u32 t ⟫) ;;
    mret (if truth (count - todo) then count - todo else - ERROR).

(** One turn of the loop of [file_write]: [i] bytes written from [bf], the
    position [pos]. *)
Definition file_write_turn (inode count : Z) : Z * Z * Z -> F (Z * Z * Z + Z * Z) := fun '(i, pos, bf) =>
  if count <=? i then mret (inr (i, pos))
  else
    block ← create_block fuel depth inode (Z.quot pos BLOCK_SIZE);
    if negb (truth block) then mret (inr (i, pos))
    else
      x ← inode_at inode;
      o ← read_block fuel depth (i_dev x) block;
      match o with
      | None => mret (inr (i, pos))
      | Some b =>
          let nr := Z.rem pos BLOCK_SIZE in
          on_blk (mark_dirty b) ;;
          let c := Z.min (BLOCK_SIZE - nr) (count - i) in
          let pos := s32 (pos + c) in
          x ← inode_at inode;
          kwhen (i_size x <? u32 pos)
            (set_inode inode (fun x => x ⟪ i_size := u32 pos ⟫ ⟪ i_dirt := 1 ⟫)) ;;
          copy_in b nr c bf ;;
          release fuel (Some b) ;;
          mret (inl (i + c, pos, bf + c))
      end.

Definition file_write (inode f bf count : Z) : F Z :=
  x ← get_file f; i ← inode_at inode;
  let append := truth (Z.land (f_flags x) O_APPEND) in
  let pos := if append then s32 (i_size i) else f_pos x in
  r ← kloop (S (Z.to_nat count)) (file_write_turn inode count) (0, pos, bf);
  let '(i, pos) := r in
  t ← now;
  set_inode inode (fun x => x ⟪ i_mtime := u32 t ⟫) ;;
  x ← get_file f;
  kwhen (negb (truth (Z.land (f_flags x) O_APPEND)))
    (upd_pos f (fun _ => pos) ;; set_inode inode (fun x => x ⟪ i_ctime := u32 t ⟫)) ;;
  mret (if truth i then i else -1).

(** ** [block_dev.c] *)

(** One turn of [block_write]; [pos] is the [f_pos] of the file [f]. *)
Definition block_write_turn (dev f : Z) : Z * Z * Z * Z * Z -> F (Z * Z * Z * Z * Z + Z) :=
  fun '(block, offset, count, written, bf) =>
  if count <=? 0 then mret (inr written)
  else
    let chars := Z.min (BLOCK_SIZE - offset) count in
    bh ← (if chars =? BLOCK_SIZE then b ← on_blk (getblk fuel dev block); mret (Some b)
          else on_blk (breada fuel dev block [block + 1; block + 2; -1]));
    match bh with
    | None => mret (inr (if truth written then written else - EIO))
    | Some b =>
        upd_pos f (fun p => s32 (p + chars)) ;;
        copy_in b offset chars bf ;;
        on_blk (mark_dirty b) ;;
        release fuel (Some b) ;;
        mret (inl (block + 1, 0, count - chars, written + chars, bf + chars))
    end.
Definition block_write (dev f bf count : Z) : F Z :=
  x ← get_file f;
  kloop (S (Z.to_nat count)) (block_write_turn dev f)
    (Z.shiftr (f_pos x) 10, Z.land (f_pos x) 1023, count, 0, bf).

(** In [block_read] the position is unsigned. *)
Definition block_read_turn (dev f : Z) : Z * Z * Z * Z * Z -> F (Z * Z * Z * Z * Z + Z) :=
  fun '(block, offset, count, read, bf) =>
  if count <=? 0 then mret (inr read)
  else
    let chars := Z.min (BLOCK_SIZE - offset) count in
    bh ← on_blk (breada fuel dev block [block + 1; block + 2; -1]);
    match bh with
    | None => mret (inr (if truth read then read else - EIO))
    | Some b =>
        upd_pos f (fun p => s32 (p + chars)) ;;
        copy_out b offset chars bf ;;
        release fuel (Some b) ;;
        mret (inl (block + 1, 0, count - chars, read + chars, bf + chars))
    end.
Definition block_read (dev f bf count : Z) : F Z :=
  x ← get_file f;
  kloop (S (Z.to_nat count)) (block_read_turn dev f)
    (Z.shiftr (u32 (f_pos x)) 10, Z.land (f_pos x) 1023, count, 0, bf).
End io.
End FileIO.
