(* ===== verification/Pipe.v ===== *)
(** * Pipes ([fs/pipe.c])

    A pipe is an inode whose [i_size] is the address of a page; [i_zone[0]]
    is the head, where the next byte is written, and [i_zone[1]] the tail,
    where the next byte is read.  The head is never moved onto the tail, so
    at most 4095 bytes are in the pipe. *)

From S2P Require Import Prelude Memory Task Sched Kernel Files FsData Block Buffer Inode InodeOps Open.

Module Pipe.
Import FsData Block Buffer Inode InodeOps Open.

Definition PAGE_SIZE : Z := 4096.
Definition SIGPIPE : Z := 13.
Definition PIPE_HEAD (x : m_inode) : Z := zone_of x 0.
Definition PIPE_TAIL (x : m_inode) : Z := zone_of x 1.
Definition PIPE_SIZE (x : m_inode) : Z := Z.land (PIPE_HEAD x - PIPE_TAIL x) (PAGE_SIZE - 1).

(** A byte of physical memory. *)
Definition phys_byte (m : gmap Z Z) (a : Z) : Z := word_at m (a - a mod 4) / 256 ^ (a mod 4) mod 256.
Definition set_phys_byte (a v : Z) (m : gmap Z Z) : gmap Z Z :=
  let w := word_at m (a - a mod 4) in
  <[a - a mod 4 := w + (u8 v - phys_byte m a) * 256 ^ (a mod 4)]> m.
Definition load_byte (a : Z) : KM mm Z := gets (fun s => phys_byte (phys s) a).
Definition store_byte (a v : Z) : KM mm unit :=
  modify (fun s => s ⟪ phys := set_phys_byte a v (phys s) ⟫).

(** What happens while a task sleeps on a pipe: the tasks at its ends run. *)
Class PipeSleep := pipe_sleep : Z -> F unit.

Section pipe.
Context {W : Sleeps} {V : Drivers} {FC : FloppyChange} {P : PipeSleep}.
Variables fuel depth : nat.

Definition wake_pipe (i : Z) : F unit := on_blk (wake_up (W_inode i)).

(** One turn of the outer loop of [read_pipe]. *)
Definition read_pipe_turn (i : Z) : Z * Z * Z -> F (Z * Z * Z + Z * bool) := fun '(count, read, bf) =>
  if count <=? 0 then mret (inr (read, true))
  else
    o ← kloop fuel (fun _ : unit =>
          x ← inode_at i;
          if truth (PIPE_SIZE x) then mret (inr (Some (PIPE_SIZE x)))
          else
            wake_pipe i ;;
            x ← inode_at i;
            if negb (i_count x =? 2) then mret (inr None) else pipe_sleep i ;; mret (inl tt)) tt;
    match o with
    | None => mret (inr (read, false))
    | Some size =>
        x ← inode_at i;
        let chars := Z.min (Z.min (PAGE_SIZE - PIPE_TAIL x) count) size in
        let tail := PIPE_TAIL x in
        set_inode i (fun x => set_zone 1 (Z.land (u16 (PIPE_TAIL x + chars)) (PAGE_SIZE - 1)) x) ;;
        kfor (upto chars) (fun k =>
          x ← inode_at i; c ← on_km (load_byte (i_size x + tail + k)); put_fs_byte c (bf + k)) ;;
        mret (inl (count - chars, read + chars, bf + chars))
    end.
(** The flag tells whether the loop ended by itself. *)
Definition read_pipe (i bf count : Z) : F Z :=
  r ← kloop (S (Z.to_nat count)) (read_pipe_turn i) (count, 0, bf);
  let '(read, ended) := r in
  kwhen ended (wake_pipe i) ;; mret read.

Definition write_pipe_turn (i : Z) : Z * Z * Z -> F (Z * Z * Z + Z * bool) := fun '(count, written, bf) =>
  if count <=? 0 then mret (inr (written, true))
  else
    o ← kloop fuel (fun _ : unit =>
          x ← inode_at i;
          let size := PAGE_SIZE - 1 - PIPE_SIZE x in
          if truth size then mret (inr (Some size))
          else
            wake_pipe i ;;
            x ← inode_at i;
            if negb (i_count x =? 2) then
              set_current (fun t => t ⟪ signal := s32 (Z.lor (signal t) (Z.shiftl 1 (SIGPIPE - 1))) ⟫) ;;
              mret (inr None)
            else pipe_sleep i ;; mret (inl tt)) tt;
    match o with
    | None => mret (inr ((if truth written then written else -1), false))
    | Some size =>
        x ← inode_at i;
        let chars := Z.min (Z.min (PAGE_SIZE - PIPE_HEAD x) count) size in
        let head := PIPE_HEAD x in
        set_inode i (fun x => set_zone 0 (Z.land (u16 (PIPE_HEAD x + chars)) (PAGE_SIZE - 1)) x) ;;
        kfor (upto chars) (fun k =>
          c ← get_fs_byte (bf + k); x ← inode_at i; on_km (store_byte (i_size x + head + k) c)) ;;
        mret (inl (count - chars, written + chars, bf + chars))
    end.
Definition write_pipe (i bf count : Z) : F Z :=
  r ← kloop (S (Z.to_nat count)) (write_pipe_turn i) (count, 0, bf);
  let '(written, ended) := r in
  kwhen ended (wake_pipe i) ;; mret written.

(** The entries among [l], numbered from [k], that [free] accepts, at most
    [n] of them. *)
Fixpoint first_entries {A} (free : A -> bool) (n : nat) (l : list A) (k : Z) : list Z :=
  match n, l with
  | S n', x :: l => if free x then k :: first_entries free n' l (k + 1) else first_entries free n l (k + 1)
  | _, _ => []
  end.

Definition sys_pipe (fildes : Z) : F Z :=
  ft ← gets file_table;
  let f := first_entries (fun x => negb (truth (f_count x))) 2 (take (Z.to_nat NR_FILE) ft) 0 in
  kfor f (fun f => upd_file f (fun x => x ⟪ f_count := f_count x + 1 ⟫)) ;;
  match f with
  | [f0; f1] =>
      let free_files : F unit :=
        upd_file f1 (fun x => x ⟪ f_count := 0 ⟫) ;; upd_file f0 (fun x => x ⟪ f_count := 0 ⟫) in
      cur ← current_task;
      let fd := first_entries (fun o => bool_decide (o = None)) 2 (take (Z.to_nat NR_OPEN) (filp cur)) 0 in
      match fd with
      | [fd0; fd1] =>
          set_fd fd0 (Some f0) ;; set_fd fd1 (Some f1) ;;
          o ← get_pipe_inode fuel depth;
          match o with
          | None =>
              set_fd fd1 None ;; set_fd fd0 None ;; free_files ;; mret (-1)
          | Some inode =>
              upd_file f1 (fun x => x ⟪ f_inode := Some inode ⟫) ;;
              upd_file f0 (fun x => x ⟪ f_inode := Some inode ⟫) ;;
              upd_file f1 (fun x => x ⟪ f_pos := 0 ⟫) ;;
              upd_file f0 (fun x => x ⟪ f_pos := 0 ⟫) ;;
              upd_file f0 (fun x => x ⟪ f_mode := 1 ⟫) ;;
              upd_file f1 (fun x => x ⟪ f_mode := 2 ⟫) ;;
              put_fs_long fd0 fildes ;; put_fs_long fd1 (4 + fildes) ;;
              mret 0
          end
      | _ => free_files ;; mret (-1)       (* a single free descriptor is given back *)
      end
  | [f0] => upd_file f0 (fun x => x ⟪ f_count := 0 ⟫) ;; mret (-1)
  | _ => mret (-1)
  end.
End pipe.
End Pipe.
