(* ===== verification/PipeQueue.v ===== *)
(** * Pipes are queues of bytes

    The specification of [fs/pipe.c]: the bytes between the tail and the
    head, around the end of the page, are a queue of at most 4095 bytes;
    [write_pipe] appends to it and [read_pipe] takes from its front. *)

From S2P Require Import Prelude Memory Task Sched Kernel Files Signal FsData Block Buffer Inode InodeOps Open Pipe.

Module PipeQueue.
Import FsData Block Buffer Inode InodeOps Open Pipe.

(** ** Bytes of physical memory *)

Lemma word_byte_set w p v q :
  0 <= p -> 0 <= q -> 0 <= v < 256 ->
  (w + (v - w / 256 ^ p mod 256) * 256 ^ p) / 256 ^ q mod 256 =
    if p =? q then v else w / 256 ^ q mod 256.
Proof.
  intros Hp Hq Hv.
  assert (Hpow : forall n, 0 <= n -> 0 < 256 ^ n) by (intros; by apply Z.pow_pos_nonneg).
  destruct (Z.eqb_spec p q) as [<-|Hne].
  - pose proof (Hpow p Hp). rewrite Z.div_add by lia.
    pose proof (Z.div_mod (w / 256 ^ p) 256 ltac:(lia)).
    symmetry. apply (Z.mod_unique _ _ (w / 256 ^ p / 256)); lia.
  - destruct (decide (p < q)).
    + replace q with (p + (1 + (q - p - 1))) by lia.
      pose proof (Hpow p Hp). pose proof (Hpow (q - p - 1) ltac:(lia)).
      rewrite !Z.pow_add_r, !Z.pow_1_r by lia. rewrite <- !Z.div_div by lia.
      rewrite Z.div_add by lia. f_equal. f_equal.
      pose proof (Z.div_mod (w / 256 ^ p) 256 ltac:(lia)).
      symmetry. apply (Z.div_unique _ _ _ v); lia.
    + replace p with (q + (1 + (p - q - 1))) at 2 by lia.
      pose proof (Hpow q Hq). rewrite !(Z.pow_add_r 256 q), !Z.pow_add_r, Z.pow_1_r by lia.
      rewrite (Z.mul_comm (256 ^ q)), Z.mul_assoc, Z.div_add by lia.
      rewrite (Z.mul_comm 256), Z.mul_assoc. apply Z.mod_add. lia.
Qed.

Lemma phys_byte_set a v m b :
  phys_byte (set_phys_byte a v m) b = if a =? b then u8 v else phys_byte m b.
Proof.
  unfold phys_byte at 1, set_phys_byte. unfold word_at at 1.
  pose proof (Z.mod_pos_bound a 4 ltac:(lia)). pose proof (Z.mod_pos_bound b 4 ltac:(lia)).
  pose proof (u8_bound v).
  destruct (decide (a - a mod 4 = b - b mod 4)) as [Heq|Hne].
  - rewrite Heq, lookup_insert_eq. unfold phys_byte. rewrite Heq. change (default 0 (Some ?w)) with w.
    rewrite word_byte_set by lia.
    destruct (Z.eqb_spec (a mod 4) (b mod 4)), (Z.eqb_spec a b); try done; [lia|congruence].
  - rewrite lookup_insert_ne by done. destruct (Z.eqb_spec a b); [congruence|done].
Qed.

(** A run of stores. *)
Definition stores (a : Z) (g : Z -> Z) (l : list Z) (m : gmap Z Z) : gmap Z Z :=
  fold_left (fun m k => set_phys_byte (a + k) (g k) m) l m.
Definition user_stores (a : Z) (g : Z -> Z) (l : list Z) (u : gmap Z Z) : gmap Z Z :=
  fold_left (fun u k => set_byte (a + k) (g k) u) l u.

Lemma upto_S (n : nat) : upto (Z.of_nat (S n)) = upto (Z.of_nat n) ++ [Z.of_nat n].
Proof.
  replace (Z.of_nat (S n)) with (Z.of_nat n + 1) by lia. rewrite seqZ_app by lia.
  by replace (0 + Z.of_nat n) with (Z.of_nat n) by lia.
Qed.

Lemma phys_byte_stores a g m (n : nat) b :
  phys_byte (stores a g (upto (Z.of_nat n)) m) b =
    if (a <=? b) && (b <? a + Z.of_nat n) then u8 (g (b - a)) else phys_byte m b.
Proof.
  unfold stores. induction n as [|n IH].
  - change (upto (Z.of_nat 0)) with (@nil Z). cbn [fold_left].
    destruct (Z.leb_spec a b), (Z.ltb_spec b (a + Z.of_nat 0)); try done; lia.
  - rewrite upto_S, fold_left_app. cbn [fold_left]. rewrite phys_byte_set, IH.
    destruct (Z.eqb_spec (a + Z.of_nat n) b) as [<-|].
    + replace (a + Z.of_nat n - a) with (Z.of_nat n) by lia.
      destruct (Z.leb_spec a (a + Z.of_nat n)), (Z.ltb_spec (a + Z.of_nat n) (a + Z.of_nat (S n)));
        (done || lia).
    + destruct (Z.leb_spec a b), (Z.ltb_spec b (a + Z.of_nat n)),
        (Z.ltb_spec b (a + Z.of_nat (S n))); (done || lia).
Qed.

Lemma byte_at_stores a g u (n : nat) b :
  0 <= a -> a + Z.of_nat n < 4294967296 -> 0 <= b < 4294967296 ->
  byte_at (user_stores a g (upto (Z.of_nat n)) u) b =
    if (a <=? b) && (b <? a + Z.of_nat n) then u8 (g (b - a)) else byte_at u b.
Proof.
  intros Ha Hn Hb. unfold user_stores. induction n as [|n IH].
  - change (upto (Z.of_nat 0)) with (@nil Z). cbn [fold_left].
    destruct (Z.leb_spec a b), (Z.ltb_spec b (a + Z.of_nat 0)); try done; lia.
  - rewrite upto_S, fold_left_app. cbn [fold_left].
    destruct (decide (a + Z.of_nat n = b)) as [<-|Hne].
    + rewrite byte_at_set_eq. replace (a + Z.of_nat n - a) with (Z.of_nat n) by lia.
      destruct (Z.leb_spec a (a + Z.of_nat n)), (Z.ltb_spec (a + Z.of_nat n) (a + Z.of_nat (S n)));
        (done || lia).
    + rewrite byte_at_set_ne by (apply u32_distinct; lia). rewrite IH by lia.
      destruct (Z.leb_spec a b), (Z.ltb_spec b (a + Z.of_nat n)),
        (Z.ltb_spec b (a + Z.of_nat (S n))); (done || lia).
Qed.

(** ** The queue in a pipe *)

(** The bytes that a reader will get. *)
Definition pipe_bytes (m : gmap Z Z) (x : m_inode) : list Z :=
  map (fun k => phys_byte m (i_size x + (PIPE_TAIL x + k) mod 4096)) (upto (PIPE_SIZE x)).
(** [n] bytes of user memory. *)
Definition user_bytes (u : gmap Z Z) (a n : Z) : list Z := map (fun k => u8 (byte_at u (a + k))) (upto n).

Record pipe_ok (x : m_inode) : Prop := {
  po_zones : length (i_zone x) = 9%nat;
  po_head : 0 <= PIPE_HEAD x < 4096;
  po_tail : 0 <= PIPE_TAIL x < 4096
}.
(** Inode [i] is a pipe with [n] references and the bytes [q]. *)
Definition pipe_at (s : kernel blk) (i n : Z) (q : list Z) : Prop :=
  exists x, array_get (inode_table (fsd (inodes s))) i = Some x /\ pipe_ok x /\ i_count x = n /\
    pipe_bytes (phys (km s)) x = q.

Lemma pipe_size_mod x : PIPE_SIZE x = (PIPE_HEAD x - PIPE_TAIL x) mod 4096.
Proof. unfold PIPE_SIZE. change (PAGE_SIZE - 1) with (Z.ones 12). by rewrite land_ones_mod. Qed.
Lemma pipe_size_bound x : 0 <= PIPE_SIZE x < 4096.
Proof. rewrite pipe_size_mod. by apply Z.mod_pos_bound. Qed.
Lemma length_pipe_bytes m x : Z.of_nat (length (pipe_bytes m x)) = PIPE_SIZE x.
Proof. unfold pipe_bytes. rewrite length_map, length_seqZ. pose proof (pipe_size_bound x). lia. Qed.

Lemma zone_of_set_eq k v x :
  0 <= k < Z.of_nat (length (i_zone x)) -> zone_of (set_zone k v x) k = u16 v.
Proof. intros. unfold zone_of, set_zone. cbn [i_zone set_field]. by rewrite array_get_set_eq. Qed.
Lemma zone_of_set_ne k j v x : k <> j -> zone_of (set_zone k v x) j = zone_of x j.
Proof. intros. unfold zone_of, set_zone. cbn [i_zone set_field]. by rewrite array_get_set_ne. Qed.
Lemma length_set_zone k v x : length (i_zone (set_zone k v x)) = length (i_zone x).
Proof. apply length_array_set. Qed.

(** The inode after its head, or its tail, has gone [c] bytes on. *)
Definition head_on (c : Z) (x : m_inode) : m_inode :=
  set_zone 0 (Z.land (u16 (PIPE_HEAD x + c)) (PAGE_SIZE - 1)) x.
Definition tail_on (c : Z) (x : m_inode) : m_inode :=
  set_zone 1 (Z.land (u16 (PIPE_TAIL x + c)) (PAGE_SIZE - 1)) x.

Lemma wrapped p c :
  0 <= p < 4096 -> 0 <= c <= 4096 - p -> u16 (Z.land (u16 (p + c)) (PAGE_SIZE - 1)) = (p + c) mod 4096.
Proof.
  intros. rewrite (u16_small (p + c)) by lia. change (PAGE_SIZE - 1) with (Z.ones 12).
  rewrite land_ones_mod by lia. pose proof (Z.mod_pos_bound (p + c) (2 ^ 12) ltac:(lia)).
  by rewrite u16_small by lia.
Qed.

Section turns.
Variable x : m_inode.
Hypothesis Hx : pipe_ok x.
Variable c : Z.
Hypothesis Hc : 0 <= c.

Lemma head_on_head : c <= 4096 - PIPE_HEAD x -> PIPE_HEAD (head_on c x) = (PIPE_HEAD x + c) mod 4096.
Proof.
  intros. destruct Hx. unfold PIPE_HEAD at 1, head_on. rewrite zone_of_set_eq by (rewrite po_zones0; lia).
  by rewrite wrapped.
Qed.
Lemma head_on_tail : PIPE_TAIL (head_on c x) = PIPE_TAIL x.
Proof. unfold PIPE_TAIL, head_on. by rewrite zone_of_set_ne. Qed.
Lemma tail_on_tail : c <= 4096 - PIPE_TAIL x -> PIPE_TAIL (tail_on c x) = (PIPE_TAIL x + c) mod 4096.
Proof.
  intros. destruct Hx. unfold PIPE_TAIL at 1, tail_on. rewrite zone_of_set_eq by (rewrite po_zones0; lia).
  by rewrite wrapped.
Qed.
Lemma tail_on_head : PIPE_HEAD (tail_on c x) = PIPE_HEAD x.
Proof. unfold PIPE_HEAD, tail_on. by rewrite zone_of_set_ne. Qed.

Lemma head_on_ok : c <= 4096 - PIPE_HEAD x -> pipe_ok (head_on c x).
Proof.
  intros H. split; [unfold head_on; rewrite length_set_zone; apply Hx|rewrite head_on_head by done|rewrite head_on_tail; apply Hx].
  by apply Z.mod_pos_bound.
Qed.
Lemma tail_on_ok : c <= 4096 - PIPE_TAIL x -> pipe_ok (tail_on c x).
Proof.
  intros H. split; [unfold tail_on; rewrite length_set_zone; apply Hx|rewrite tail_on_head; apply Hx|rewrite tail_on_tail by done].
  by apply Z.mod_pos_bound.
Qed.

Lemma head_on_size :
  c <= 4096 - PIPE_HEAD x -> c <= 4095 - PIPE_SIZE x -> PIPE_SIZE (head_on c x) = PIPE_SIZE x + c.
Proof.
  intros H1 H2. rewrite pipe_size_mod, head_on_head, head_on_tail by done.
  rewrite pipe_size_mod in *. rewrite Zminus_mod_idemp_l.
  pose proof (Z.div_mod (PIPE_HEAD x - PIPE_TAIL x) 4096 ltac:(lia)).
  pose proof (Z.mod_pos_bound (PIPE_HEAD x - PIPE_TAIL x) 4096 ltac:(lia)).
  symmetry. apply (Z.mod_unique _ _ ((PIPE_HEAD x - PIPE_TAIL x) / 4096)); lia.
Qed.
Lemma tail_on_size :
  c <= 4096 - PIPE_TAIL x -> c <= PIPE_SIZE x -> PIPE_SIZE (tail_on c x) = PIPE_SIZE x - c.
Proof.
  intros H1 H2. rewrite pipe_size_mod, tail_on_tail, tail_on_head by done.
  rewrite pipe_size_mod in *. rewrite Zminus_mod_idemp_r.
  pose proof (Z.div_mod (PIPE_HEAD x - PIPE_TAIL x) 4096 ltac:(lia)).
  pose proof (Z.mod_pos_bound (PIPE_HEAD x - PIPE_TAIL x) 4096 ltac:(lia)).
  symmetry. apply (Z.mod_unique _ _ ((PIPE_HEAD x - PIPE_TAIL x) / 4096)); lia.
Qed.

(** Where the bytes are: the [k]th unread byte, and the first free one. *)
Lemma place_of_free k :
  0 <= k -> PIPE_SIZE x + k < 4096 -> PIPE_HEAD x + k < 4096 ->
  (PIPE_TAIL x + (PIPE_SIZE x + k)) mod 4096 = PIPE_HEAD x + k.
Proof.
  intros. rewrite pipe_size_mod in *. destruct Hx.
  pose proof (Z.div_mod (PIPE_HEAD x - PIPE_TAIL x) 4096 ltac:(lia)).
  symmetry. apply (Z.mod_unique _ _ (- ((PIPE_HEAD x - PIPE_TAIL x) / 4096))); lia.
Qed.
Lemma place_not_free k j :
  0 <= k < PIPE_SIZE x -> 0 <= j -> PIPE_SIZE x + j < 4096 ->
  (PIPE_TAIL x + k) mod 4096 <> PIPE_HEAD x + j.
Proof.
  intros Hk Hj Hs Heq. rewrite pipe_size_mod in *. destruct Hx.
  pose proof (Z.div_mod (PIPE_HEAD x - PIPE_TAIL x) 4096 ltac:(lia)).
  pose proof (Z.div_mod (PIPE_TAIL x + k) 4096 ltac:(lia)).
  set (q := (PIPE_TAIL x + k) / 4096) in *. set (p := (PIPE_HEAD x - PIPE_TAIL x) / 4096) in *.
  assert (p + q = 0 \/ p + q <= -1 \/ 1 <= p + q) as [?|[?|?]] by lia; lia.
Qed.

(** Storing [c] bytes at the head and moving it appends them. *)
Lemma pipe_bytes_put m g :
  c <= 4096 - PIPE_HEAD x -> c <= 4095 - PIPE_SIZE x ->
  pipe_bytes (stores (i_size x + PIPE_HEAD x) g (upto c) m) (head_on c x) =
    pipe_bytes m x ++ map (fun k => u8 (g k)) (upto c).
Proof.
  intros H1 H2. unfold pipe_bytes. rewrite head_on_size, head_on_tail by done.
  pose proof (pipe_size_bound x) as Hb.
  rewrite seqZ_app, map_app by lia. rewrite <- (Z2Nat.id c) by lia. f_equal.
  - apply map_ext_in. intros k Hk%list_elem_of_In%elem_of_seqZ.
    change (i_size (head_on _ x)) with (i_size x). rewrite phys_byte_stores.
    destruct (Z.leb_spec (i_size x + PIPE_HEAD x) (i_size x + (PIPE_TAIL x + k) mod 4096)),
      (Z.ltb_spec (i_size x + (PIPE_TAIL x + k) mod 4096) (i_size x + PIPE_HEAD x + Z.of_nat (Z.to_nat c)));
      cbn [andb]; try done.
    exfalso. eapply (place_not_free k ((PIPE_TAIL x + k) mod 4096 - PIPE_HEAD x)); lia.
  - rewrite Z.add_0_l. rewrite <- (Z.add_0_r (PIPE_SIZE x)) at 1. rewrite <- fmap_add_seqZ.
    change (fmap ?f ?l) with (map f l). rewrite map_map. apply map_ext_in.
    intros k Hk%list_elem_of_In%elem_of_seqZ. cbn beta.
    change (i_size (head_on _ x)) with (i_size x).
    rewrite place_of_free by lia. rewrite phys_byte_stores.
    destruct (Z.leb_spec (i_size x + PIPE_HEAD x) (i_size x + (PIPE_HEAD x + k))),
      (Z.ltb_spec (i_size x + (PIPE_HEAD x + k)) (i_size x + PIPE_HEAD x + Z.of_nat (Z.to_nat c)));
      cbn [andb]; try lia.
    replace (i_size x + (PIPE_HEAD x + k) - (i_size x + PIPE_HEAD x)) with k by lia. done.
Qed.

(** Moving the tail drops the bytes that lie there. *)
Lemma pipe_bytes_take m :
  c <= 4096 - PIPE_TAIL x -> c <= PIPE_SIZE x ->
  take (Z.to_nat c) (pipe_bytes m x) = map (fun k => phys_byte m (i_size x + PIPE_TAIL x + k)) (upto c) /\
  drop (Z.to_nat c) (pipe_bytes m x) = pipe_bytes m (tail_on c x).
Proof.
  intros H1 H2. unfold pipe_bytes. pose proof (pipe_size_bound x) as Hb. pose proof (po_tail _ Hx).
  replace (PIPE_SIZE x) with (c + (PIPE_SIZE x - c)) by lia. rewrite seqZ_app, map_app by lia.
  rewrite take_app_length', drop_app_length' by (by rewrite length_map, length_seqZ). split.
  - apply map_ext_in. intros k Hk%list_elem_of_In%elem_of_seqZ.
    rewrite Z.mod_small by lia. f_equal. lia.
  - rewrite tail_on_size, tail_on_tail by done. rewrite Z.add_0_l.
    rewrite <- (Z.add_0_r c) at 1. rewrite <- fmap_add_seqZ.
    change (fmap ?f ?l) with (map f l). rewrite map_map. apply map_ext_in.
    intros k Hk%list_elem_of_In%elem_of_seqZ. cbn beta.
    change (i_size (tail_on _ x)) with (i_size x).
    rewrite Zplus_mod_idemp_l. do 2 f_equal. by rewrite Z.add_assoc.
Qed.
End turns.

(** ** The routines *)

(** [s'] is [s] but for inode [i], the contents of memory and the records of
    the block layer. *)
Record near (i : Z) (s s' : kernel blk) : Prop := {
  nr_ks : ks s' = ks s;
  nr_files : file_table s' = file_table s;
  nr_inodes : forall j, j <> i ->
    array_get (inode_table (fsd (inodes s'))) j = array_get (inode_table (fsd (inodes s))) j
}.
Lemma near_refl i s : near i s s.
Proof. by split. Qed.
Lemma near_trans i s1 s2 s3 : near i s1 s2 -> near i s2 s3 -> near i s1 s3.
Proof.
  intros [H1 H2 H3] [H4 H5 H6]. split; [congruence|congruence|].
  intros j Hj. by rewrite H6, H3.
Qed.
Lemma near_base i s s' b : near i s s' -> user_base_is s b -> user_base_is s' b.
Proof. intros [H _ _]. unfold user_base_is. by rewrite H. Qed.

(** What is known of a state: the inode, physical and user memory. *)
Definition at_pipe (i : Z) (s : kernel blk) (x : m_inode) (m u : gmap Z Z) : Prop :=
  array_get (inode_table (fsd (inodes s))) i = Some x /\ phys (km s) = m /\ user s = u.

Section steps.
Variables (i b : Z).
Implicit Types (s : kernel blk) (x : m_inode) (m u : gmap Z Z).

Lemma wp_inode_at s x (Q : m_inode -> kernel blk -> Prop) :
  array_get (inode_table (fsd (inodes s))) i = Some x -> Q x s -> wp (inode_at i) Q s.
Proof.
  intros Hx HQ. unfold inode_at, on_blk, on_inodes. apply wp_zoom. unfold get_inode.
  apply wp_bind, wp_gets. eapply wp_deref; [exact Hx|]. by destruct s.
Qed.
Lemma wp_set_inode s x m u f (Q : unit -> kernel blk -> Prop) :
  at_pipe i s x m u -> (forall s', near i s s' -> at_pipe i s' (f x) m u -> Q tt s') ->
  wp (set_inode i f) Q s.
Proof.
  intros (Hx & Hm & Hu) HQ. unfold set_inode, on_blk, on_inodes. apply wp_zoom.
  unfold upd_inode. apply wp_bind. unfold get_inode. apply wp_bind, wp_gets.
  eapply wp_deref; [exact Hx|]. apply wp_modify. apply HQ.
  - split; [done|done|]. intros j Hj. by apply array_get_set_ne.
  - split_and!; [|done|done]. apply array_get_set_eq. by eapply array_get_Some_bound.
Qed.
Lemma wp_wake_pipe s x m u (Q : unit -> kernel blk -> Prop) :
  at_pipe i s x m u -> (forall s', near i s s' -> at_pipe i s' x m u -> Q tt s') ->
  wp (wake_pipe i) Q s.
Proof.
  intros Hat HQ. unfold wake_pipe, on_blk, on_inodes. apply wp_zoom, wp_modify. by apply HQ.
Qed.
Lemma wp_get_fs_byte s a (Q : Z -> kernel blk -> Prop) :
  user_base_is s b -> Q (byte_at (user s) (b + a)) s -> wp (get_fs_byte a) Q s.
Proof.
  intros Hb HQ. apply wp_bind. eapply wp_user_base; [exact Hb|]. by apply wp_gets.
Qed.
Lemma wp_put_fs_byte s x m u v a (Q : unit -> kernel blk -> Prop) :
  user_base_is s b -> at_pipe i s x m u ->
  (forall s', near i s s' -> at_pipe i s' x m (set_byte (b + a) v u) -> Q tt s') ->
  wp (put_fs_byte v a) Q s.
Proof.
  intros Hb (Hx & Hm & <-) HQ. apply wp_bind. eapply wp_user_base; [exact Hb|].
  apply wp_modify. by apply HQ.
Qed.
Lemma wp_load_byte s a (Q : Z -> kernel blk -> Prop) :
  Q (phys_byte (phys (km s)) a) s -> wp (on_km (load_byte a)) Q s.
Proof. intros HQ. apply wp_zoom, wp_gets. by destruct s. Qed.
Lemma wp_store_byte s x m u v a (Q : unit -> kernel blk -> Prop) :
  at_pipe i s x m u ->
  (forall s', near i s s' -> at_pipe i s' x (set_phys_byte a v m) u -> Q tt s') ->
  wp (on_km (store_byte a v)) Q s.
Proof. intros (Hx & <- & Hu) HQ. apply wp_zoom, wp_modify. by apply HQ. Qed.

Lemma map_upto_app {A} (f : Z -> A) c d :
  0 <= c -> 0 <= d -> map f (upto (c + d)) = map f (upto c) ++ map (fun k => f (c + k)) (upto d).
Proof.
  intros. rewrite seqZ_app, map_app by lia. f_equal. rewrite Z.add_0_l.
  rewrite <- (Z.add_0_r c) at 1. rewrite <- fmap_add_seqZ. change (fmap ?f ?l) with (map f l).
  by rewrite map_map.
Qed.
Lemma user_bytes_app u a c d :
  0 <= c -> 0 <= d -> user_bytes u a (c + d) = user_bytes u a c ++ user_bytes u (a + c) d.
Proof.
  intros. unfold user_bytes. rewrite map_upto_app by done. f_equal. apply map_ext.
  intros k. by rewrite Z.add_assoc.
Qed.

(** *** Writing *)

Lemma wp_put_loop s x m u head bf c (Q : unit -> kernel blk -> Prop) :
  user_base_is s b -> at_pipe i s x m u ->
  (forall s', near i s s' ->
    at_pipe i s' x (stores (i_size x + head) (fun k => byte_at u (b + bf + k)) (upto c) m) u -> Q tt s') ->
  wp (kfor (upto c) (fun k =>
        c ← get_fs_byte (bf + k); x ← inode_at i; on_km (store_byte (i_size x + head + k) c))) Q s.
Proof.
  intros Hb Hat HQ.
  apply (wp_for (fun l _ s' => near i s s' /\
    at_pipe i s' x (stores (i_size x + head) (fun k => byte_at u (b + bf + k)) l m) u)).
  - split; [apply near_refl|done].
  - intros l k rest s1 [Hn H1]. apply wp_bind. apply wp_get_fs_byte; [exact (near_base _ _ _ _ Hn Hb)|].
    apply wp_bind. eapply wp_inode_at; [apply H1|]. eapply wp_store_byte; [exact H1|].
    intros s2 Hn2 H2. split; [by eapply near_trans|]. unfold stores. rewrite fold_left_app.
    cbn [fold_left]. destruct H1 as (_ & _ & Hu). rewrite Hu, Z.add_assoc in H2. exact H2.
  - intros s1 [Hn H1]. by apply HQ.
Qed.

Variables (fuel : nat).
Context {W : Sleeps} {V : Drivers} {FC : FloppyChange} {P : PipeSleep}.
Hypothesis Hfuel : (0 < fuel)%nat.

(** A turn that finds room. *)
Lemma wp_write_turn s x m u count written bf (Q : _ -> kernel blk -> Prop) :
  user_base_is s b -> at_pipe i s x m u -> 0 < count -> PIPE_SIZE x < 4095 ->
  (let c := Z.min (Z.min (4096 - PIPE_HEAD x) count) (4095 - PIPE_SIZE x) in
   forall s', near i s s' ->
     at_pipe i s' (head_on c x)
       (stores (i_size x + PIPE_HEAD x) (fun k => byte_at u (b + bf + k)) (upto c) m) u ->
     Q (inl (count - c, written + c, bf + c)) s') ->
  wp (write_pipe_turn fuel i (count, written, bf)) Q s.
Proof.
  intros Hb Hat Hc Hs HQ. unfold write_pipe_turn. destruct (Z.leb_spec count 0); [lia|].
  apply wp_bind. destruct fuel as [|n]; [lia|]. cbn [kloop]. apply wp_bind, wp_bind.
  eapply wp_inode_at; [apply Hat|]. cbv zeta. change (PAGE_SIZE - 1) with 4095.
  rewrite (proj2 (truth_true _)) by lia. apply wp_ret, wp_ret.
  apply wp_bind. eapply wp_inode_at; [apply Hat|]. cbv zeta. change PAGE_SIZE with 4096.
  apply wp_bind. eapply wp_set_inode; [exact Hat|]. intros s1 Hn1 H1.
  apply wp_bind. change (i_size x) with (i_size (head_on (Z.min (Z.min (4096 - PIPE_HEAD x) count) (4095 - PIPE_SIZE x)) x)) in HQ at 1.
  eapply wp_put_loop; [exact (near_base _ _ _ _ Hn1 Hb)|exact H1|]. intros s2 Hn2 H2.
  apply wp_ret. apply HQ; [by eapply near_trans|exact H2].
Qed.

(** A full pipe that nobody reads. *)
Lemma wp_write_broken s x m u t count written bf (Q : _ -> kernel blk -> Prop) :
  current_is s t -> at_pipe i s x m u -> 0 < count -> PIPE_SIZE x = 4095 -> i_count x <> 2 ->
  (forall s', at_pipe i s' x m u ->
     current_is s' (t ⟪ signal := s32 (Z.lor (signal t) (Z.shiftl 1 (SIGPIPE - 1))) ⟫) ->
     Q (inr ((if truth written then written else -1), false)) s') ->
  wp (write_pipe_turn fuel i (count, written, bf)) Q s.
Proof.
  intros Ht Hat Hc Hs Hn HQ. unfold write_pipe_turn. destruct (Z.leb_spec count 0); [lia|].
  apply wp_bind. destruct fuel as [|n]; [lia|]. cbn [kloop]. apply wp_bind, wp_bind.
  eapply wp_inode_at; [apply Hat|]. cbv zeta. rewrite Hs. cbn [truth].
  apply wp_bind. eapply wp_wake_pipe; [exact Hat|]. intros s1 Hn1 H1.
  apply wp_bind. eapply wp_inode_at; [apply H1|].
  rewrite (proj2 (Z.eqb_neq _ _) Hn). cbn [negb]. apply wp_bind.
  assert (Ht1 : current_is s1 t) by (unfold current_is; by rewrite (nr_ks _ _ _ Hn1)).
  eapply wp_set_current; [exact Ht1|]. apply wp_ret, wp_ret, wp_ret. apply HQ; [exact H1|].
  by eapply current_is_with.
Qed.

(** What a write leaves: the pipe with [c] more bytes. *)
Definition grown x m u c a s' : Prop :=
  exists x' m', at_pipe i s' x' m' u /\ pipe_ok x' /\ i_count x' = i_count x /\
    pipe_bytes m' x' = pipe_bytes m x ++ user_bytes u a c.

Lemma wp_write_loop t (n : nat) : forall count written bf s x m u,
  user_base_is s b -> current_is s t -> at_pipe i s x m u -> pipe_ok x ->
  0 <= count < Z.of_nat n -> 0 <= written ->
  count <= 4095 - PIPE_SIZE x \/ i_count x <> 2 ->
  wp (kloop n (write_pipe_turn fuel i) (count, written, bf)) (fun r s' =>
    let c := Z.min count (4095 - PIPE_SIZE x) in
    grown x m u c (b + bf) s' /\
    if c =? count then r = (written + count, true) /\ current_is s' t
    else r = ((if truth (written + c) then written + c else -1), false) /\
      current_is s' (t ⟪ signal := s32 (Z.lor (signal t) (Z.shiftl 1 (SIGPIPE - 1))) ⟫)) s.
Proof.
  induction n as [|n IH]; intros count written bf s x m u Hb Ht Hat Hx Hc Hw Hd; [lia|].
  pose proof (pipe_size_bound x) as Hsz. pose proof (po_head _ Hx) as Hh.
  cbn [kloop]. apply wp_bind. destruct (decide (count = 0)) as [->|Hpos].
  { apply wp_ret, wp_ret. cbv zeta. rewrite Z.min_l by lia. rewrite Z.eqb_refl.
    split; [|split; [by rewrite Z.add_0_r|done]].
    exists x, m. split_and!; [done..|]. by rewrite app_nil_r. }
  destruct (decide (PIPE_SIZE x = 4095)) as [Hfull|Hroom].
  { eapply wp_write_broken; [exact Ht|exact Hat|lia|done|lia|]. intros s1 H1 Ht1.
    apply wp_ret. cbv zeta. rewrite Z.min_r by lia. rewrite (proj2 (Z.eqb_neq _ _)) by lia.
    replace (4095 - PIPE_SIZE x) with 0 by lia. rewrite Z.add_0_r. split; [|done].
    exists x, m. split_and!; [done..|]. by rewrite app_nil_r. }
  eapply wp_write_turn; [exact Hb|exact Hat|lia|lia|]. cbv zeta.
  set (c1 := Z.min _ (4095 - PIPE_SIZE x)). intros s1 Hn1 H1.
  assert (Hc1 : 0 < c1 <= count /\ c1 <= 4096 - PIPE_HEAD x /\ c1 <= 4095 - PIPE_SIZE x) by lia.
  assert (Hs1 : PIPE_SIZE (head_on c1 x) = PIPE_SIZE x + c1) by (apply head_on_size; [done|lia..]).
  assert (Ht1 : current_is s1 t) by (unfold current_is; by rewrite (nr_ks _ _ _ Hn1)).
  eapply wp_mono.
  { eapply IH; [exact (near_base _ _ _ _ Hn1 Hb)|exact Ht1|exact H1|apply head_on_ok; [done|lia..]|lia|lia|].
    rewrite Hs1. change (i_count (head_on c1 x)) with (i_count x). lia. }
  intros r s2. cbv zeta. rewrite Hs1.
  replace (Z.min (count - c1) (4095 - (PIPE_SIZE x + c1))) with (Z.min count (4095 - PIPE_SIZE x) - c1) by lia.
  set (c := Z.min count (4095 - PIPE_SIZE x)) in *. intros [(x' & m' & H2 & Hx' & Hcnt & Hq) Hr]. split.
  - exists x', m'. split_and!; [done|done|done|]. rewrite Hq.
    rewrite pipe_bytes_put by (done || lia). rewrite <- app_assoc. f_equal.
    replace c with (c1 + (c - c1)) at 2 by lia. rewrite user_bytes_app by lia. by rewrite Z.add_assoc.
  - replace (written + c1 + (count - c1)) with (written + count) in Hr by lia.
    replace (written + c1 + (c - c1)) with (written + c) in Hr by lia.
    destruct (Z.eqb_spec (c - c1) (count - c1)), (Z.eqb_spec c count); (done || lia).
Qed.

Lemma wp_write_pipe t count bf s x m u :
  user_base_is s b -> current_is s t -> at_pipe i s x m u -> pipe_ok x -> 0 <= count ->
  count <= 4095 - PIPE_SIZE x \/ i_count x <> 2 ->
  wp (write_pipe fuel i bf count) (fun r s' =>
    let c := Z.min count (4095 - PIPE_SIZE x) in
    grown x m u c (b + bf) s' /\
    if c =? count then r = count /\ current_is s' t
    else r = (if truth c then c else -1) /\
      current_is s' (t ⟪ signal := s32 (Z.lor (signal t) (Z.shiftl 1 (SIGPIPE - 1))) ⟫)) s.
Proof.
  intros Hb Ht Hat Hx Hc Hd. unfold write_pipe. apply wp_bind. eapply wp_mono.
  { eapply wp_write_loop; [done..|lia|lia|done]. }
  intros r s1. cbv zeta. intros [(x' & m' & H1 & Hrest) Hr].
  destruct (Z.eqb_spec (Z.min count (4095 - PIPE_SIZE x)) count) as [Hm|Hm]; destruct Hr as [-> Ht1]; cbn [kwhen].
  - apply wp_bind. eapply wp_wake_pipe; [exact H1|]. intros s2 Hn2 H2. apply wp_ret.
    split; [by exists x', m'|]. split; [done|]. unfold current_is. by rewrite (nr_ks _ _ _ Hn2).
  - apply wp_bind, wp_ret, wp_ret. split; [by exists x', m'|]. done.
Qed.

(** *** Reading *)

Lemma wp_take_loop s x m u tail bf c (Q : unit -> kernel blk -> Prop) :
  user_base_is s b -> at_pipe i s x m u ->
  (forall s', near i s s' ->
    at_pipe i s' x m (user_stores (b + bf) (fun k => phys_byte m (i_size x + tail + k)) (upto c) u) -> Q tt s') ->
  wp (kfor (upto c) (fun k =>
        x ← inode_at i; c ← on_km (load_byte (i_size x + tail + k)); put_fs_byte c (bf + k))) Q s.
Proof.
  intros Hb Hat HQ.
  apply (wp_for (fun l _ s' => near i s s' /\
    at_pipe i s' x m (user_stores (b + bf) (fun k => phys_byte m (i_size x + tail + k)) l u))).
  - split; [apply near_refl|done].
  - intros l k rest s1 [Hn H1]. apply wp_bind. eapply wp_inode_at; [apply H1|].
    apply wp_bind. apply wp_load_byte. destruct H1 as (Hx & Hm & Hu). rewrite Hm.
    eapply wp_put_fs_byte; [exact (near_base _ _ _ _ Hn Hb)|by split_and!|].
    intros s2 Hn2 H2. split; [by eapply near_trans|]. unfold user_stores. rewrite fold_left_app.
    cbn [fold_left]. rewrite Z.add_assoc in H2. exact H2.
  - intros s1 [Hn H1]. by apply HQ.
Qed.

Lemma wp_read_turn s x m u count read bf (Q : _ -> kernel blk -> Prop) :
  user_base_is s b -> at_pipe i s x m u -> 0 < count -> 0 < PIPE_SIZE x ->
  (let c := Z.min (Z.min (4096 - PIPE_TAIL x) count) (PIPE_SIZE x) in
   forall s', near i s s' ->
     at_pipe i s' (tail_on c x) m
       (user_stores (b + bf) (fun k => phys_byte m (i_size x + PIPE_TAIL x + k)) (upto c) u) ->
     Q (inl (count - c, read + c, bf + c)) s') ->
  wp (read_pipe_turn fuel i (count, read, bf)) Q s.
Proof.
  intros Hb Hat Hc Hs HQ. unfold read_pipe_turn. destruct (Z.leb_spec count 0); [lia|].
  apply wp_bind. destruct fuel as [|n]; [lia|]. cbn [kloop]. apply wp_bind, wp_bind.
  eapply wp_inode_at; [apply Hat|]. rewrite (proj2 (truth_true _)) by lia. apply wp_ret, wp_ret.
  apply wp_bind. eapply wp_inode_at; [apply Hat|]. cbv zeta. change PAGE_SIZE with 4096.
  apply wp_bind. eapply wp_set_inode; [exact Hat|]. intros s1 Hn1 H1.
  apply wp_bind. eapply wp_take_loop; [exact (near_base _ _ _ _ Hn1 Hb)|exact H1|]. intros s2 Hn2 H2.
  apply wp_ret. apply HQ; [by eapply near_trans|exact H2].
Qed.

(** An empty pipe that nobody writes. *)
Lemma wp_read_end s x m u count read bf (Q : _ -> kernel blk -> Prop) :
  at_pipe i s x m u -> 0 < count -> PIPE_SIZE x = 0 -> i_count x <> 2 ->
  (forall s', near i s s' -> at_pipe i s' x m u -> Q (inr (read, false)) s') ->
  wp (read_pipe_turn fuel i (count, read, bf)) Q s.
Proof.
  intros Hat Hc Hs Hn HQ. unfold read_pipe_turn. destruct (Z.leb_spec count 0); [lia|].
  apply wp_bind. destruct fuel as [|n]; [lia|]. cbn [kloop]. apply wp_bind, wp_bind.
  eapply wp_inode_at; [apply Hat|]. rewrite Hs. cbn [truth].
  apply wp_bind. eapply wp_wake_pipe; [exact Hat|]. intros s1 Hn1 H1.
  apply wp_bind. eapply wp_inode_at; [apply H1|].
  rewrite (proj2 (Z.eqb_neq _ _) Hn). cbn [negb]. apply wp_ret, wp_ret, wp_ret. by apply HQ.
Qed.

(** What a read leaves: the pipe without its first [c] bytes, which are in
    user memory from [a] on. *)
Definition taken x m u c a s' : Prop :=
  exists x' u', at_pipe i s' x' m u' /\ pipe_ok x' /\ i_count x' = i_count x /\
    pipe_bytes m x' = drop (Z.to_nat c) (pipe_bytes m x) /\
    user_bytes u' a c = take (Z.to_nat c) (pipe_bytes m x) /\
    forall e, 0 <= e < 4294967296 -> e < a \/ a + c <= e -> byte_at u' e = byte_at u e.

Lemma taken_none s x m u a : at_pipe i s x m u -> pipe_ok x -> taken x m u 0 a s.
Proof. intros H Hx. by exists x, u. Qed.

Lemma user_bytes_ext u u' a c :
  (forall k, 0 <= k < c -> byte_at u' (a + k) = byte_at u (a + k)) -> user_bytes u' a c = user_bytes u a c.
Proof.
  intros H. apply map_ext_in. intros k Hk%list_elem_of_In%elem_of_seqZ. by rewrite H by lia.
Qed.
Lemma user_bytes_stores g u a c :
  0 <= a -> 0 <= c -> a + c < 4294967296 ->
  user_bytes (user_stores a g (upto c) u) a c = map (fun k => u8 (g k)) (upto c).
Proof.
  intros Ha Hc Hac. apply map_ext_in. intros k Hk%list_elem_of_In%elem_of_seqZ.
  rewrite <- (Z2Nat.id c) by lia. rewrite byte_at_stores by lia.
  destruct (Z.leb_spec a (a + k)), (Z.ltb_spec (a + k) (a + Z.of_nat (Z.to_nat c))); try lia.
  cbn [andb]. replace (a + k - a) with k by lia. by apply u8_small, u8_bound.
Qed.

(** One turn's bytes and the rest's. *)
Lemma taken_more s x m u c1 c a :
  pipe_ok x -> 0 <= c1 -> c1 <= 4096 - PIPE_TAIL x -> c1 <= PIPE_SIZE x -> 0 <= c ->
  0 <= a -> a + c1 + c < 4294967296 ->
  taken (tail_on c1 x) m
    (user_stores a (fun k => phys_byte m (i_size x + PIPE_TAIL x + k)) (upto c1) u) c (a + c1) s ->
  taken x m u (c1 + c) a s.
Proof.
  intros Hx Hc1 Ht Hs Hc Ha Hac (x' & u' & H1 & Hx' & Hn & Hd & Hu & Hrest).
  destruct (pipe_bytes_take x Hx c1 Hc1 m Ht Hs) as [Htake Hdrop].
  exists x', u'. split_and!; [done|done|done| | |].
  - by rewrite Hd, <- Hdrop, drop_drop, <- Z2Nat.inj_add by lia.
  - rewrite user_bytes_app by lia. rewrite Hu, <- Hdrop.
    rewrite Z2Nat.inj_add by lia. rewrite <- take_take_drop. f_equal. rewrite Htake.
    rewrite (user_bytes_ext (user_stores a (fun k => phys_byte m (i_size x + PIPE_TAIL x + k)) (upto c1) u)).
    + rewrite user_bytes_stores by lia. apply map_ext. intros k. apply u8_small.
      unfold phys_byte. by apply Z.mod_pos_bound.
    + intros k Hk. apply Hrest; lia.
  - intros e He Hout. rewrite Hrest by lia. rewrite <- (Z2Nat.id c1) by lia.
    rewrite byte_at_stores by lia.
    destruct (Z.leb_spec a e), (Z.ltb_spec e (a + Z.of_nat (Z.to_nat c1))); try done; lia.
Qed.

Lemma wp_read_loop (n : nat) : forall count read bf s x m u,
  user_base_is s b -> at_pipe i s x m u -> pipe_ok x -> 0 <= count < Z.of_nat n ->
  0 <= b + bf -> b + bf + count < 4294967296 ->
  count <= PIPE_SIZE x \/ i_count x <> 2 ->
  wp (kloop n (read_pipe_turn fuel i) (count, read, bf)) (fun r s' =>
    let c := Z.min count (PIPE_SIZE x) in
    taken x m u c (b + bf) s' /\ r = (read + c, c =? count)) s.
Proof.
  induction n as [|n IH]; intros count read bf s x m u Hb Hat Hx Hc Hlo Hhi Hd; [lia|].
  pose proof (pipe_size_bound x) as Hsz. pose proof (po_tail _ Hx) as Hh.
  cbn [kloop]. apply wp_bind. destruct (decide (count = 0)) as [->|Hpos].
  { apply wp_ret, wp_ret. cbv zeta. rewrite Z.min_l by lia. rewrite Z.add_0_r.
    split; [by apply taken_none|done]. }
  destruct (decide (PIPE_SIZE x = 0)) as [Hempty|Hsome].
  { eapply wp_read_end; [exact Hat|lia|done|lia|]. intros s1 Hn1 H1. apply wp_ret. cbv zeta.
    rewrite Hempty, Z.min_r by lia. rewrite (proj2 (Z.eqb_neq _ _)) by lia. rewrite Z.add_0_r.
    split; [by apply taken_none|done]. }
  eapply wp_read_turn; [exact Hb|exact Hat|lia|lia|]. cbv zeta.
  set (c1 := Z.min _ (PIPE_SIZE x)). intros s1 Hn1 H1.
  assert (Hc1 : 0 < c1 <= count /\ c1 <= 4096 - PIPE_TAIL x /\ c1 <= PIPE_SIZE x) by lia.
  assert (Hs1 : PIPE_SIZE (tail_on c1 x) = PIPE_SIZE x - c1) by (apply tail_on_size; [done|lia..]).
  eapply wp_mono.
  { eapply IH; [exact (near_base _ _ _ _ Hn1 Hb)|exact H1|apply tail_on_ok; [done|lia..]|lia|lia|lia|].
    rewrite Hs1. change (i_count (tail_on c1 x)) with (i_count x). lia. }
  intros r s2. cbv zeta. rewrite Hs1.
  replace (Z.min (count - c1) (PIPE_SIZE x - c1)) with (Z.min count (PIPE_SIZE x) - c1) by lia.
  set (c := Z.min count (PIPE_SIZE x)) in *. rewrite Z.add_assoc. intros [Htk ->]. split.
  - replace c with (c1 + (c - c1)) by lia. apply taken_more; [done|lia..|exact Htk].
  - f_equal; [lia|]. destruct (Z.eqb_spec (c - c1) (count - c1)), (Z.eqb_spec c count); (done || lia).
Qed.

Lemma wp_read_pipe count bf s x m u :
  user_base_is s b -> at_pipe i s x m u -> pipe_ok x -> 0 <= count ->
  0 <= b + bf -> b + bf + count < 4294967296 ->
  count <= PIPE_SIZE x \/ i_count x <> 2 ->
  wp (read_pipe fuel i bf count) (fun r s' =>
    r = Z.min count (PIPE_SIZE x) /\ taken x m u r (b + bf) s') s.
Proof.
  intros Hb Hat Hx Hc Hlo Hhi Hd. unfold read_pipe. apply wp_bind. eapply wp_mono.
  { eapply wp_read_loop; [done..|lia|lia|lia|done]. }
  intros r s1. cbv zeta. rewrite Z.add_0_l. intros [Htk ->]. apply wp_bind.
  destruct Htk as (x' & u' & H1 & Hrest). apply wp_when.
  - intros _. eapply wp_wake_pipe; [exact H1|]. intros s2 _ H2. apply wp_ret. split; [done|]. by exists x', u'.
  - intros _. apply wp_ret. split; [done|]. by exists x', u'.
Qed.
End steps.

(** The signal that a writer without a reader gets. *)
Definition with_sigpipe (t : task_struct) : task_struct :=
  t ⟪ signal := s32 (Z.lor (signal t) (Z.shiftl 1 (SIGPIPE - 1))) ⟫.

(** C38: a pipe is a queue of at most 4095 bytes, across the end of its
    page.  A write that finds room, or whose pipe has lost its reader,
    appends the first bytes of the user's buffer to the queue, as many as
    there is room for; it returns their number, and when some are left over
    it raises SIGPIPE and returns -1 if none went in.  A read that finds
    enough bytes, or whose pipe has lost its writer, takes the first bytes
    off the queue, stores exactly them at the user's buffer and returns
    their number. *)
Theorem pipe_is_a_queue `{W : Sleeps} `{V : Drivers} `{FC : FloppyChange} `{P : PipeSleep}
    fuel s t i n q b bf count :
  (0 < fuel)%nat -> current_is s t -> user_base_is s b -> pipe_at s i n q ->
  0 <= count -> 0 <= b + bf -> b + bf + count < 4294967296 ->
  let len := Z.of_nat (length q) in
  (count <= 4095 - len \/ n <> 2 ->
   wp (write_pipe fuel i bf count) (fun r s' =>
     let c := Z.min count (4095 - len) in
     pipe_at s' i n (q ++ user_bytes (user s) (b + bf) c) /\ user s' = user s /\
     if c =? count then r = count /\ current_is s' t
     else r = (if truth c then c else -1) /\ current_is s' (with_sigpipe t)) s) /\
  (count <= len \/ n <> 2 ->
   wp (read_pipe fuel i bf count) (fun r s' =>
     r = Z.min count len /\ pipe_at s' i n (drop (Z.to_nat r) q) /\
     user_bytes (user s') (b + bf) r = take (Z.to_nat r) q /\
     forall a, 0 <= a < 4294967296 -> a < b + bf \/ b + bf + r <= a ->
       byte_at (user s') a = byte_at (user s) a) s).
Proof.
  intros Hf Ht Hb (x & Hi & Hx & <- & <-) Hc Hlo Hhi. cbv zeta. rewrite length_pipe_bytes.
  assert (Hat : at_pipe i s x (phys (km s)) (user s)) by done. split; intros Hd.
  - eapply wp_mono; [by eapply wp_write_pipe|]. cbv zeta.
    intros r s' [(x' & m' & (Hx1 & <- & Hu) & Hok & Hn & Hq) Hr]. split_and!; [|done|done].
    by exists x'.
  - eapply wp_mono; [by eapply wp_read_pipe|]. cbv zeta.
    intros r s' [-> (x' & u' & (Hx1 & Hm & <-) & Hok & Hn & Hq & Hu & Hrest)]. split_and!; [done| |done|done].
    exists x'. by rewrite Hm.
Qed.

(** A pipe at the end of its page, and a task with five bytes to write. *)
Definition demo_pipe_inode : m_inode :=
  MInode 0 0 0x200000 0 0 0 [4094; 4094; 0; 0; 0; 0; 0; 0; 0] 0 0 0 0 2 0 0 1 0 0 0.
Definition demo_pipe : kernel blk :=
  Kernel (Sched (Some (INIT_TASK 0 0) :: replicate 63 None) 0 0 0 None false [] [] ∅)
    (MM [] 0 ∅) 1 [] []
    (Blk [] [] None None [] [] 0 0 [] [] (FsTables [demo_pipe_inode] 0 [] 0))
    [] (list_to_map [(100, 104); (101, 101); (102, 108); (103, 108); (104, 111)]).
#[local] Instance demo_sleep : Sleeps := fun _ => mret tt.
#[local] Instance demo_drivers : Drivers := fun _ => mret tt.
#[local] Instance demo_change : FloppyChange := fun _ => mret 0.
#[local] Instance demo_pipe_sleep : PipeSleep := fun _ => mret tt.

Lemma pipe_is_a_queue_witness :
  wp (write_pipe 1 0 100 5) (fun r s' => r = 5 /\ pipe_at s' 0 2 [104; 101; 108; 108; 111]) demo_pipe /\
  wp (write_pipe 1 0 100 5 ≫= fun _ => read_pipe 1 0 200 3) (fun r s' =>
    r = 3 /\ pipe_at s' 0 2 [108; 111]) demo_pipe.
Proof.
  assert (Hbase : forall s : kernel blk, current_is s (INIT_TASK 0 0) -> user_base_is s 0).
  { intros s Ht. exists (INIT_TASK 0 0). by eexists. }
  assert (Hw : wp (write_pipe 1 0 100 5) (fun r s' =>
    r = 5 /\ current_is s' (INIT_TASK 0 0) /\ pipe_at s' 0 2 [104; 101; 108; 108; 111]) demo_pipe).
  { destruct (pipe_is_a_queue 1 demo_pipe (INIT_TASK 0 0) 0 2 [] 0 100 5) as [Hw _]; [lia|done|by apply Hbase| |lia..|].
    { exists demo_pipe_inode. split_and!; [done|by split|done|done]. }
    assert (He : user_bytes (user demo_pipe) (0 + 100) (Z.min 5 (4095 - Z.of_nat (length (@nil Z)))) =
      [104; 101; 108; 108; 111]) by (vm_compute; reflexivity).
    cbv zeta in Hw. rewrite He in Hw. apply (wp_mono _ _ _ _ (Hw ltac:(left; simpl; lia))).
    intros r s' (Hq & _ & [-> Ht]). split_and!; [done|exact Ht|exact Hq]. }
  split; [apply (wp_mono _ _ _ _ Hw); tauto|].
  apply wp_bind. apply (wp_mono _ _ _ _ Hw). intros r s (_ & Ht & Hq).
  destruct (pipe_is_a_queue 1 s (INIT_TASK 0 0) 0 2 [104; 101; 108; 108; 111] 0 200 3) as [_ Hr];
    [lia|exact Ht|by apply Hbase|exact Hq|lia..|].
  apply (wp_mono _ _ _ _ (Hr ltac:(left; simpl; lia))). intros r' s' (-> & Hq' & _).
  split; [done|exact Hq'].
Defined.
End PipeQueue.
