(* ===== verification/ReadWrite.v ===== *)
(** * Status, control and the dispatch of read and write ([fs/stat.c],
      [fs/ioctl.c], [sys_read] and [sys_write] of [fs/read_write.c])

    These system calls choose a routine by the type of the file, which may
    be a terminal: their state is the terminals' state over the file
    system. *)

From S2P Require Import Prelude Ports Memory Task Sched Kernel Files Console Tty CharDev.
From S2P Require Import FsData Block Buffer Inode InodeOps Namei Names Open FileIO Pipe.

Module ReadWrite.
Import Tty CharDev FsData Block Buffer Inode InodeOps Open FileIO Pipe.

Definition ENOTTY : Z := 25.

(** [struct stat]: 32 bytes, of which four are padding after [st_nlink],
    [st_gid] and [st_rdev] ([pad], what the stack held). *)
Definition stat_bytes (pad : list Z) (x : m_inode) : list Z :=
  let hole k := default 0 (array_get pad k) in
  le_bytes 2 (i_dev x) ++ le_bytes 2 (i_num x) ++ le_bytes 2 (i_mode x) ++
  [i_nlinks x; hole 0] ++ le_bytes 2 (i_uid x) ++ [i_gid x; hole 1] ++
  le_bytes 2 (zone_of x 0) ++ [hole 2; hole 3] ++
  le_bytes 4 (i_size x) ++ le_bytes 4 (i_atime x) ++ le_bytes 4 (i_mtime x) ++ le_bytes 4 (i_ctime x).

(** The entries of [ioctl_table]: whether it is [tty_ioctl]. *)
Definition ioctl_table : list bool := [false; false; false; false; true; true; false; false].
Definition NRDEVS : Z := 8.

Section rw.
Context {W : Sleeps} {V : Drivers} {FC : FloppyChange} {P : PipeSleep}.
Context {D : Device} {O : Others (tstate blk)}.
Variables fuel depth : nat.

Abbreviation K := (KM (tstate blk)).

(** ** [stat.c] *)

Definition cp_stat (pad : list Z) (inode statbuf : Z) : F unit :=
  verify_area statbuf 32 ;;
  x ← inode_at inode;
  let l := stat_bytes pad x in
  kfor (upto 32) (fun k => c ← read_at l k; put_fs_byte c (statbuf + k)).

Definition sys_stat (pad : list Z) (filename statbuf : Z) : F Z :=
  with_inode fuel depth filename ENOENT (fun inode =>
    cp_stat pad inode statbuf ;; InodeOps.iput fuel depth (Some inode) ;; mret 0).

(** [fd >= NR_OPEN || !(f=current->filp[fd]) || !(inode=f->f_inode)] *)
Definition sys_fstat (pad : list Z) (fd statbuf : Z) : F Z :=
  o ← lookup_fd fd;
  match o with
  | None => mret (- EBADF)
  | Some f =>
      x ← get_file f;
      match f_inode x with
      | None => mret (- EBADF)
      | Some inode => cp_stat pad inode statbuf ;; mret 0
      end
  end.

(** ** [ioctl.c] *)

Definition sys_ioctl (tty_pad fd cmd arg : Z) : K Z :=
  o ← on_kern (lookup_fd fd);
  match o with
  | None => mret (- EBADF)
  | Some f =>
      x ← on_kern (get_file f); inode ← deref (f_inode x);
      i ← on_kern (inode_at inode);
      if negb (S_ISCHR (i_mode i)) && negb (S_ISBLK (i_mode i)) then mret (- EINVAL)
      else
        let dev := zone_of i 0 in
        if NRDEVS <=? MAJOR dev then mret (- ENODEV)
        else if negb (default false (array_get ioctl_table (MAJOR dev))) then mret (- ENOTTY)
        else tty_ioctl tty_pad dev cmd arg
  end.

(** ** [read_write.c] *)

(** [rw_char(rw,inode->i_zone[0],buf,count,&file->f_pos)]: the position is
    written back when a port device has moved it. *)
Definition rw_char_at (f rw dev bf count : Z) : K Z :=
  x ← on_kern (get_file f);
  r ← rw_char depth fuel rw dev bf count (f_pos x);
  let '(n, pos) := r in
  kwhen (negb (pos =? f_pos x)) (on_kern (upd_pos f (fun _ => pos))) ;;
  mret n.

Definition sys_read (fd bf count : Z) : K Z :=
  o ← (if (NR_OPEN <=? fd) || (count <? 0) then mret None else on_kern (open_file fd));
  match o with
  | None => mret (- EINVAL)
  | Some f =>
      if negb (truth count) then mret 0
      else
        on_kern (verify_area bf count) ;;
        x ← on_kern (get_file f); inode ← deref (f_inode x);
        i ← on_kern (inode_at inode);
        if truth (i_pipe i) then
          if truth (Z.land (f_mode x) 1) then on_kern (read_pipe fuel inode bf count) else mret (- EIO)
        else if S_ISCHR (i_mode i) then rw_char_at f Block.READ (zone_of i 0) bf count
        else if S_ISBLK (i_mode i) then on_kern (block_read fuel depth (zone_of i 0) f bf count)
        else if S_ISDIR (i_mode i) || S_ISREG (i_mode i) then
          let count := if i_size i <? u32 (count + f_pos x) then s32 (i_size i - f_pos x) else count in
          if count <=? 0 then mret 0
          else on_kern (file_read fuel depth inode f bf count)
        else on_kern (on_blk (printk "(Read)inode->i_mode=%06o" [i_mode i])) ;; mret (- EINVAL)
  end.

Definition sys_write (fd bf count : Z) : K Z :=
  o ← (if (NR_OPEN <=? fd) || (count <? 0) then mret None else on_kern (open_file fd));
  match o with
  | None => mret (- EINVAL)
  | Some f =>
      if negb (truth count) then mret 0
      else
        x ← on_kern (get_file f); inode ← deref (f_inode x);
        i ← on_kern (inode_at inode);
        if truth (i_pipe i) then
          if truth (Z.land (f_mode x) 2) then on_kern (write_pipe fuel inode bf count) else mret (- EIO)
        else if S_ISCHR (i_mode i) then rw_char_at f Block.WRITE (zone_of i 0) bf count
        else if S_ISBLK (i_mode i) then on_kern (block_write fuel depth (zone_of i 0) f bf count)
        else if S_ISREG (i_mode i) then on_kern (file_write fuel depth inode f bf count)
        else on_kern (on_blk (printk "(Write)inode->i_mode=%06o" [i_mode i])) ;; mret (- EINVAL)
  end.
End rw.
End ReadWrite.
