(* ===== verification/Bits.v ===== *)
(** * Bit maps in blocks

    [find_first_zero] finds the first zero bit of a block, and [set_bit] and
    [clear_bit] change one bit only. *)

From S2P Require Import Prelude FsData.

Module Bits.
Import FsData.

(** A list of bytes. *)
Definition bytes (l : list Z) : Prop := forall o c, array_get l o = Some c -> 0 <= c < 256.

Lemma get8_bound l o : bytes l -> 0 <= get8 l o < 256.
Proof.
  intros Hl. unfold get8. destruct (array_get l o) as [c|] eqn:Hc; simpl; [by apply (Hl o)|lia].
Qed.

Lemma testbit_concat a b n k :
  0 <= n -> 0 <= a < 2 ^ n -> 0 <= k -> Z.testbit (a + 2 ^ n * b) k = if k <? n then Z.testbit a k else Z.testbit b (k - n).
Proof.
  intros Hn Ha Hk. destruct (Z.ltb_spec k n).
  - rewrite <- (Z.mod_pow2_bits_low (a + 2 ^ n * b) n k) by lia. f_equal.
    symmetry. apply (Z.mod_unique _ _ b); lia.
  - replace k with (k - n + n) at 1 by lia. rewrite <- Z.div_pow2_bits by lia. f_equal.
    symmetry. apply (Z.div_unique _ _ _ a); lia.
Qed.

(** Bit [k] of the longword at the byte [o] is bit [8 o + k] of the block. *)
Lemma get16_bits l o k : bytes l -> 0 <= k < 16 -> Z.testbit (get16 l o) k = Z.testbit (get8 l (o + k / 8)) (k mod 8).
Proof.
  intros Hl Hk. pose proof (get8_bound l o Hl). unfold get16. change 256 with (2 ^ 8).
  rewrite testbit_concat by lia. destruct (Z.ltb_spec k 8).
  - rewrite Z.div_small, Z.mod_small by lia. by rewrite Z.add_0_r.
  - replace (k / 8) with 1 by (apply (Z.div_unique _ _ _ (k - 8)); lia).
    f_equal. apply (Z.mod_unique _ _ 1); lia.
Qed.
Lemma get16_bound l o : bytes l -> 0 <= get16 l o < 65536.
Proof. intros Hl. unfold get16. pose proof (get8_bound l o Hl). pose proof (get8_bound l (o + 1) Hl). lia. Qed.
Lemma get32_bits l o k : bytes l -> 0 <= k < 32 -> Z.testbit (get32 l o) k = get_bit (8 * o + k) l.
Proof.
  intros Hl Hk. pose proof (get16_bound l o Hl). unfold get32, get_bit. change 65536 with (2 ^ 16).
  replace ((8 * o + k) / 8) with (o + k / 8) by (rewrite (Z.add_comm (8 * o)), (Z.mul_comm 8), Z.div_add; lia).
  replace ((8 * o + k) mod 8) with (k mod 8) by (rewrite (Z.add_comm (8 * o)), (Z.mul_comm 8), Z_mod_plus_full; done).
  rewrite testbit_concat by lia. destruct (Z.ltb_spec k 16).
  - by rewrite get16_bits by (done || lia).
  - rewrite get16_bits by (done || lia).
    replace ((k - 16) mod 8) with (k mod 8) by (apply (Z.mod_unique _ _ (k / 8 - 2)); pose proof (Z.div_mod k 8 ltac:(lia)); pose proof (Z.mod_pos_bound k 8 ltac:(lia)); lia).
    replace ((k - 16) / 8) with (k / 8 - 2) by (apply (Z.div_unique _ _ _ (k mod 8)); pose proof (Z.div_mod k 8 ltac:(lia)); pose proof (Z.mod_pos_bound k 8 ltac:(lia)); lia).
    do 2 f_equal. lia.
Qed.
Lemma get32_bound l o : bytes l -> 0 <= get32 l o < 4294967296.
Proof. intros Hl. unfold get32. pose proof (get16_bound l o Hl). pose proof (get16_bound l (o + 2) Hl). lia. Qed.

Lemma complement_bits w k : 0 <= k < 32 -> Z.testbit (4294967295 - w) k = negb (Z.testbit w k).
Proof.
  intros Hk. rewrite <- (Z.mod_pow2_bits_low _ 32) by lia.
  replace ((4294967295 - w) mod 2 ^ 32) with (Z.lnot w mod 2 ^ 32).
  - rewrite Z.mod_pow2_bits_low by lia. by rewrite Z.lnot_spec by lia.
  - rewrite <- (Z_mod_plus_full (Z.lnot w) 1 (2 ^ 32)). f_equal. unfold Z.lnot. lia.
Qed.

(** ** [find_first_zero] *)

Lemma lowest_bit_spec n : forall k x, 0 <= k ->
  match lowest_bit n k x with
  | Some j => k <= j < k + Z.of_nat n /\ Z.testbit x j = true /\ forall i, k <= i < j -> Z.testbit x i = false
  | None => forall i, k <= i < k + Z.of_nat n -> Z.testbit x i = false
  end.
Proof.
  induction n as [|n IH]; intros k x Hk; cbn [lowest_bit]; [intros; lia|].
  destruct (Z.testbit x k) eqn:Hb.
  - split_and!; [lia|lia|done|]. intros; lia.
  - specialize (IH (k + 1) x ltac:(lia)). destruct (lowest_bit n (k + 1) x) as [j|].
    + destruct IH as (? & ? & Hlow). split_and!; [lia|lia|done|]. intros i Hi.
      destruct (decide (i = k)) as [->|]; [done|]. apply Hlow. lia.
    + intros i Hi. destruct (decide (i = k)) as [->|]; [done|]. apply IH. lia.
Qed.

Lemma find_zero_spec n : forall m l, bytes l -> 0 <= m ->
  let j := find_zero_from n (32 * m) l in
  32 * m <= j <= 32 * (m + Z.of_nat n) /\
  (forall i, 32 * m <= i < j -> get_bit i l = true) /\
  (j < 32 * (m + Z.of_nat n) -> get_bit j l = false).
Proof.
  induction n as [|n IH]; intros m l Hl Hm; cbn [find_zero_from].
  { split_and!; [lia|lia| |]; intros; lia. }
  replace (32 * m / 8) with (4 * m) by (apply (Z.div_unique _ _ _ 0); lia).
  assert (Hbits : forall k, 0 <= k < 32 ->
    Z.testbit (4294967295 - get32 l (4 * m)) k = negb (get_bit (32 * m + k) l)).
  { intros k Hk. rewrite complement_bits, get32_bits by (done || lia). do 2 f_equal. lia. }
  pose proof (lowest_bit_spec 32 0 (4294967295 - get32 l (4 * m)) ltac:(lia)) as Hlow.
  destruct (lowest_bit 32 0 _) as [k|].
  - destruct Hlow as (Hk & Hz & Hones). cbv zeta. split_and!; [lia|lia| |].
    + intros i Hi. specialize (Hones (i - 32 * m) ltac:(lia)). rewrite Hbits in Hones by lia.
      replace (32 * m + (i - 32 * m)) with i in Hones by lia. by destruct (get_bit i l).
    + intros _. rewrite Hbits in Hz by lia. by destruct (get_bit (32 * m + k) l).
  - replace (32 * m + 32) with (32 * (m + 1)) by lia.
    destruct (IH (m + 1) l Hl ltac:(lia)) as (Hj & Hones & Hz). cbv zeta in *. split_and!; [lia|lia| |].
    + intros i Hi. destruct (decide (i < 32 * (m + 1))); [|apply Hones; lia].
      specialize (Hlow (i - 32 * m) ltac:(lia)). rewrite Hbits in Hlow by lia.
      replace (32 * m + (i - 32 * m)) with i in Hlow by lia. by destruct (get_bit i l).
    + intros Hlt. apply Hz. lia.
Qed.
Lemma find_first_zero_spec l : bytes l ->
  let j := find_first_zero l in
  0 <= j <= 8192 /\ (forall i, 0 <= i < j -> get_bit i l = true) /\ (j < 8192 -> get_bit j l = false).
Proof. intros Hl. apply (find_zero_spec 256 0 l Hl). lia. Qed.

(** ** Changing a bit *)

Lemma get8_put8 l o v p : 0 <= o < Z.of_nat (length l) ->
  get8 (put8 o v l) p = if p =? o then u8 v else get8 l p.
Proof.
  intros Ho. unfold get8, put8. destruct (Z.eqb_spec p o) as [->|Hne].
  - by rewrite array_get_set_eq.
  - by rewrite array_get_set_ne.
Qed.
Lemma bytes_put8 l o v : bytes l -> bytes (put8 o v l).
Proof.
  intros Hl p c Hc. unfold put8 in Hc. destruct (decide (o = p)) as [->|Hne].
  - rewrite array_get_set_eq in Hc; [injection Hc as <-; apply u8_bound|].
    apply array_get_Some_bound in Hc. by rewrite length_array_set in Hc.
  - rewrite array_get_set_ne in Hc by done. by apply (Hl p).
Qed.
Lemma bytes_zeros n : bytes (replicate n 0).
Proof.
  intros o c Hc. unfold array_get in Hc. destruct (0 <=? o); [|done].
  apply lookup_replicate in Hc as [-> _]. lia.
Qed.

Lemma same_byte p q : p / 8 = q / 8 -> p mod 8 = q mod 8 -> p = q.
Proof.
  intros. pose proof (Z.div_mod p 8 ltac:(lia)). pose proof (Z.div_mod q 8 ltac:(lia)). lia.
Qed.

(** A bit of a byte after an operation on it. *)
Lemma get_bit_put8 nr l v m :
  bytes l -> 0 <= nr < 8 * Z.of_nat (length l) -> 0 <= v < 256 ->
  (forall k, 0 <= k < 8 -> k <> nr mod 8 -> Z.testbit v k = Z.testbit (get8 l (nr / 8)) k) ->
  get_bit m (put8 (nr / 8) v l) = if m =? nr then Z.testbit v (nr mod 8) else get_bit m l.
Proof.
  intros Hl Hnr Hv Hother. unfold get_bit. pose proof (Z.mod_pos_bound m 8 ltac:(lia)).
  pose proof (Z.div_mod nr 8 ltac:(lia)). pose proof (Z.mod_pos_bound nr 8 ltac:(lia)).
  rewrite get8_put8 by lia. rewrite u8_small by lia.
  destruct (Z.eqb_spec (m / 8) (nr / 8)) as [Hd|Hd], (Z.eqb_spec m nr) as [->|Hm]; try done.
  rewrite Hother, Hd; [done|lia|]. intros He. by apply Hm, same_byte.
Qed.

Lemma shift_bit n k : 0 <= n -> 0 <= k -> Z.testbit (Z.shiftl 1 n) k = (k =? n).
Proof.
  intros. rewrite Z.shiftl_1_l. destruct (Z.eqb_spec k n) as [->|Hne].
  - by apply Z.pow2_bits_true.
  - apply Z.pow2_bits_false. lia.
Qed.
Lemma byte_of_bits v : 0 <= v -> (forall k, 8 <= k -> Z.testbit v k = false) -> v < 256.
Proof.
  intros H0 H. destruct (decide (v < 256)) as [|Hge]; [done|]. exfalso.
  assert (Hlog : 8 <= Z.log2 v) by (apply Z.log2_le_pow2; simpl; lia).
  pose proof (Z.bit_log2 v ltac:(lia)) as Hb. rewrite H in Hb by done. done.
Qed.
Lemma byte_high_bits v k : 0 <= v < 256 -> 8 <= k -> Z.testbit v k = false.
Proof.
  intros Hv Hk. rewrite <- (Z.mod_small v (2 ^ 8)) by (simpl; lia). apply Z.mod_pow2_bits_high. lia.
Qed.

Lemma set_bit_get nr l m :
  bytes l -> 0 <= nr < 8 * Z.of_nat (length l) ->
  get_bit m (fst (set_bit nr l)) = if m =? nr then true else get_bit m l.
Proof.
  intros Hl Hnr. pose proof (Z.mod_pos_bound nr 8 ltac:(lia)) as Hk. pose proof (get8_bound l (nr / 8) Hl) as Hb.
  unfold set_bit. cbn [fst]. rewrite get_bit_put8; [|done|done| |].
  - destruct (m =? nr); [|done]. rewrite Z.lor_spec, shift_bit, Z.eqb_refl by lia. apply orb_true_r.
  - split; [apply Z.lor_nonneg; split; [lia|apply Z.shiftl_nonneg; lia]|].
    apply byte_of_bits; [apply Z.lor_nonneg; split; [lia|apply Z.shiftl_nonneg; lia]|].
    intros k H8. rewrite Z.lor_spec, shift_bit, byte_high_bits by lia.
    by rewrite (proj2 (Z.eqb_neq _ _)) by lia.
  - intros k Hk8 Hne. rewrite Z.lor_spec, shift_bit by lia. rewrite (proj2 (Z.eqb_neq _ _)) by done. apply orb_false_r.
Qed.
Lemma clear_bit_get nr l m :
  bytes l -> 0 <= nr < 8 * Z.of_nat (length l) ->
  get_bit m (fst (clear_bit nr l)) = if m =? nr then false else get_bit m l.
Proof.
  intros Hl Hnr. pose proof (Z.mod_pos_bound nr 8 ltac:(lia)) as Hk. pose proof (get8_bound l (nr / 8) Hl) as Hb.
  unfold clear_bit. cbn [fst].
  assert (Hn : 0 <= Z.land (get8 l (nr / 8)) (Z.lnot (Z.shiftl 1 (nr mod 8)))) by (apply Z.land_nonneg; left; lia).
  rewrite get_bit_put8; [|done|done| |].
  - destruct (m =? nr); [|done]. rewrite Z.land_spec, Z.lnot_spec, shift_bit, Z.eqb_refl by lia. apply andb_false_r.
  - split; [done|]. apply byte_of_bits; [done|]. intros k H8.
    by rewrite Z.land_spec, byte_high_bits by lia.
  - intros k Hk8 Hne. rewrite Z.land_spec, Z.lnot_spec, shift_bit by lia.
    rewrite (proj2 (Z.eqb_neq _ _)) by done. apply andb_true_r.
Qed.
Lemma length_set_bit nr l : length (fst (set_bit nr l)) = length l.
Proof. apply length_array_set. Qed.
End Bits.
