(* ===== verification/StoreOps.v ===== *)
(** * Steps on the store of blocks

    Reading, changing and releasing a buffer, as steps on the views of
    Store: what the routines of the file system do between their calls of
    [getblk], [bread] and [brelse]. *)

From S2P Require Import Prelude FsData Block Buffer Cache Getblk Ramdisk Store Inode.

Module StoreOps.
Import FsData Block Buffer Cache Getblk Ramdisk Store Inode.

Lemma array_get_map {A B} (f : A -> B) l i x : array_get l i = Some x -> array_get (map f l) i = Some (f x).
Proof.
  unfold array_get. destruct (0 <=? i); [|done]. intros Hx. change (map f l) with (f <$> l).
  by rewrite list_lookup_fmap, Hx.
Qed.
Lemma array_get_forallb {A} (p : A -> bool) l i x : forallb p l = true -> array_get l i = Some x -> p x = true.
Proof.
  intros Hall. unfold array_get. destruct (0 <=? i); [|done].
  intros Hx%list_elem_of_lookup_2%list_elem_of_In. by apply (proj1 (forallb_forall _ _) Hall).
Qed.

(** The store is in order, some buffer can be taken, and no count is at its
    bound. *)
Record ready (s : blk) : Prop := {
  re_store : store_ok s;
  re_spare : exists i x, array_get (bufs s) i = Some x /\ spare x;
  re_count : forall i x, array_get (bufs s) i = Some x -> b_count x < 255
}.

(** A head with other contents, at the same place in the cache. *)
Definition same_key (x y : buffer_head) : Prop :=
  b_dev y = b_dev x /\ b_blocknr y = b_blocknr x /\ b_lock y = b_lock x /\
  b_prev y = b_prev x /\ b_next y = b_next x /\
  b_prev_free y = b_prev_free x /\ b_next_free y = b_next_free x.
Definition set_buf (b : Z) (y : buffer_head) (s : blk) : blk := s ⟪ bufs := array_set (bufs s) b y ⟫.

Section one.
Context (s : blk) (b : Z) (x y : buffer_head).
Hypothesis Hx : array_get (bufs s) b = Some x.

Lemma set_buf_get : array_get (bufs (set_buf b y s)) b = Some y.
Proof. unfold set_buf. cbn [bufs set_field]. by eapply array_get_set_eq, array_get_Some_bound. Qed.
Lemma set_buf_other j : j <> b -> array_get (bufs (set_buf b y s)) j = array_get (bufs s) j.
Proof. intros. unfold set_buf. cbn [bufs set_field]. by apply array_get_set_ne. Qed.
Lemma set_buf_same_but : same_but b s (set_buf b y s).
Proof. intros j Hj. by rewrite set_buf_other. Qed.

Hypothesis Hs : store_ok s.
Hypothesis Hk : same_key x y.
Hypothesis Hy : head_ok y.

Lemma set_buf_cache : cache_ok (set_buf b y s).
Proof.
  destruct Hk as (? & ? & ? & ? & ? & ? & ?). by apply (cache_ok_head s b x y (so_cache _ Hs)).
Qed.
Lemma set_buf_rd : rd_ok (set_buf b y s).
Proof. by apply (rd_ok_ext s), Hs. Qed.

(** A valid block is written in its buffer. *)
Lemma set_buf_dirty :
  b_dev x = RAMDISK -> length (b_data y) = 1024%nat -> b_uptodate y <> 0 ->
  1024 * (b_blocknr x + 1) <= rd_length s -> (b_dirt y = 0 -> b_data y = rd_block s (b_blocknr x)) ->
  store_ok (set_buf b y s) /\ view (set_buf b y s) (b_blocknr x) = b_data y /\
  forall m, m <> b_blocknr x -> view (set_buf b y s) m = view s m.
Proof.
  intros Hdev Hlen Hu Hr Hcl. pose proof Hk as (Hkd & Hkn & Hkl & _).
  assert (Hvy : valid (b_blocknr x) y = true).
  { apply valid_spec. split; [split; congruence|done]. }
  assert (Hother : forall m z, b_blocknr z = b_blocknr x -> m <> b_blocknr x -> valid m z = false).
  { intros m z Hz Hm. unfold valid. rewrite Hz, (proj2 (Z.eqb_neq (b_blocknr x) m)) by done. by rewrite andb_false_r. }
  split; [|split].
  - apply (store_one_buffer s _ b y Hs set_buf_cache set_buf_rd set_buf_get set_buf_same_but); [done|done|].
    split; [rewrite Hkl; by apply (so_calm _ Hs b)|]. split; [done|]. split.
    + intros _. rewrite Hkd, Hkn. by split_and!.
    + intros H0 _. rewrite Hkn. by apply Hcl.
  - by apply (view_valid _ b y _ set_buf_cache set_buf_get).
  - intros m Hm.
    apply (view_one_buffer s _ b x y m (so_cache _ Hs) set_buf_cache Hx set_buf_get set_buf_same_but).
    right. split; [by apply Hother|]. split; [done|]. by rewrite Hother.
Qed.

(** Only the count changes. *)
Lemma set_buf_count :
  b_data y = b_data x -> b_uptodate y = b_uptodate x -> b_dirt y = b_dirt x ->
  store_ok (set_buf b y s) /\ forall m, view (set_buf b y s) m = view s m.
Proof.
  intros Hd Hu Hdt. pose proof Hk as (Hkd & Hkn & Hkl & _).
  assert (Hv : forall m, valid m y = valid m x) by (intros m; unfold valid; by rewrite Hkd, Hkn, Hu).
  split.
  - apply (store_one_buffer s _ b y Hs set_buf_cache set_buf_rd set_buf_get set_buf_same_but); [done|done|].
    split; [rewrite Hkl; by apply (so_calm _ Hs b)|]. rewrite Hd, Hdt, Hu, Hkd, Hkn.
    split; [by apply (so_data _ Hs b)|]. split; [by apply (so_dirty _ Hs b)|].
    intros H0. rewrite Hv. by apply (so_clean _ Hs b x Hx H0).
  - intros m. apply (view_one_buffer s _ b x y m (so_cache _ Hs) set_buf_cache Hx set_buf_get set_buf_same_but).
    rewrite Hv, Hd. destruct (valid m x) eqn:Hvx.
    + left. split; [done|]. symmetry. by apply (view_valid s b x m (so_cache _ Hs)).
    + right. split; [done|]. by split.
Qed.
End one.

(** Records of the block layer and tables of the file system do not matter
    to the store. *)
Definition same_store (s s' : blk) : Prop :=
  bufs s' = bufs s /\ hash_table s' = hash_table s /\ free_list s' = free_list s /\
  requests s' = requests s /\ blk_dev s' = blk_dev s /\ rd_start s' = rd_start s /\
  rd_length s' = rd_length s /\ rd_mem s' = rd_mem s.
Lemma same_store_fsd s f : same_store s (s ⟪ fsd := f ⟫).
Proof. done. Qed.
Lemma same_store_view s s' m : same_store s s' -> view s' m = view s m.
Proof. intros (Hb & _ & _ & _ & _ & _ & _ & Hm). unfold view, rd_block. by rewrite Hb, Hm. Qed.
Lemma same_store_ok s s' : same_store s s' -> store_ok s -> store_ok s'.
Proof.
  intros (Hb & Hh & Hf & Hq & Hd & Hst & Hl & Hm) [[H1 H2 H3] H4 [H5 H6 H7 H8] H9 H10 H11].
  split; [split|unfold calm|split|..]; unfold links_of, rd_block; rewrite ?Hb, ?Hh, ?Hf, ?Hq, ?Hd, ?Hst, ?Hl, ?Hm; done.
Qed.
Lemma same_store_ready s s' : same_store s s' -> ready s -> ready s'.
Proof.
  intros Hss [H1 H2 H3]. split; [by apply (same_store_ok s)|..]; destruct Hss as [-> _]; done.
Qed.

(** ** Taking a buffer *)

Definition counted (k : Z) (x : buffer_head) : buffer_head := x ⟪ b_count := k ⟫.
Lemma same_key_counted k x : same_key x (counted k x).
Proof. done. Qed.

Lemma spare_payload y z : payload y = payload z -> b_count y = b_count z /\ b_dirt y = b_dirt z.
Proof. destruct y, z. unfold payload. simpl. by intros [= -> -> -> -> -> -> ->]. Qed.

(** What is known of the state in which a routine holds the buffer [b] of
    block [n]: one reference more than when it is released. *)
Record held (s s1 : blk) (b : Z) (x : buffer_head) : Prop := {
  hd_get : array_get (bufs s1) b = Some x;
  hd_count : 0 < b_count x <= 255;
  hd_same : same_but b s s1;
  hd_views : forall m, view s1 m = view s m;
  hd_length : rd_length s1 = rd_length s;
  hd_fsd : fsd s1 = fsd s;
  hd_store : store_ok s1;
  hd_ready : ready (set_buf b (counted (b_count x - 1) x) s1)
}.

(** The state without the reference is ready, when the other buffers are
    unchanged and the count is again what it was, or the buffer spare. *)
Lemma released_ready s s1 b x0 x :
  ready s -> store_ok s1 -> array_get (bufs s) b = Some x0 -> array_get (bufs s1) b = Some x ->
  same_but b s s1 -> b_count x = b_count x0 + 1 -> (b_dirt x0 = 0 -> b_dirt x = 0) ->
  ready (set_buf b (counted (b_count x - 1) x) s1).
Proof.
  intros [Hs (i & z & Hz & Hsp) Hlt] Hs1 Hx0 Hx Hsame Hct Hdt.
  pose proof (co_heads _ (so_cache _ Hs1) b x Hx) as (H1 & H2 & H3 & H4 & H5).
  pose proof (co_heads _ (so_cache _ Hs) b x0 Hx0) as (_ & H2' & _). pose proof (Hlt b x0 Hx0).
  assert (Hho : head_ok (counted (b_count x - 1) x)).
  { unfold head_ok, counted. simpl. lia. }
  split.
  - by apply (set_buf_count s1 b x).
  - exists i. destruct (decide (i = b)) as [->|Hi].
    + assert (z = x0) as -> by congruence. eexists. split; [by eapply set_buf_get|].
      destruct Hsp as [H0 Hd0]. unfold spare, counted. simpl. split; [lia|by apply Hdt].
    + destruct (same_but_get _ _ _ i z (same_but_sym _ _ _ Hsame) Hi Hz) as (w & Hw & Hp).
      exists w. rewrite set_buf_other by done. split; [done|].
      destruct (spare_payload _ _ Hp) as [Hc Hd]. unfold spare in *. by rewrite <- Hc, <- Hd.
  - intros j y Hy. destruct (decide (j = b)) as [->|Hj].
    + erewrite set_buf_get in Hy by done. injection Hy as <-. unfold counted. simpl. lia.
    + rewrite set_buf_other in Hy by done.
      destruct (same_but_get _ _ _ j y Hsame Hj Hy) as (w & Hw & Hp).
      destruct (spare_payload _ _ Hp) as [-> _]. by apply (Hlt j).
Qed.

Section take.
Context {W : Sleeps} {V : Drivers} {Y : InodeSync}.
Context (n : Z) (Hn : 0 <= n < 4294967296).

(** [getblk] on a ready store. *)
Lemma getblk_run fuel s :
  ready s -> exists b s1 x0 x, getblk (S fuel) RAMDISK n s = Done b s1 /\
    array_get (bufs s) b = Some x0 /\ held s s1 b x /\ holds RAMDISK n x /\
    b_count x = b_count x0 + 1 /\ (holds RAMDISK n x0 \/ spare x0).
Proof using Hn.
  intros Hr. pose proof Hr as [Hs (i & z & Hz & Hsp) Hlt]. pose proof Hs as [Hc Hcalm _ _ _ _].
  assert (Hdev : 0 < RAMDISK < 65536) by (unfold RAMDISK; lia).
  assert (Hav : available n s) by (exists i, z; split; [done|by right]).
  destruct (getblk_store n Hn fuel s Hs Hav) as (b & s1 & x & Hrun & Hs1 & Hx & Hh & _ & Hl & Hview).
  destruct (got_gives _ _ Hdev Hn s _ Hc Hcalm (getblk_got _ _ Hdev Hn fuel s Hc Hcalm Hav))
    as (b' & s1' & Hrun' & _ & _ & Hout & (x0 & x' & Hx0 & Hx' & _ & Hg) & Hsame).
  rewrite Hrun in Hrun'. injection Hrun' as <- <-. assert (x' = x) as -> by congruence.
  pose proof (co_heads _ Hc b x0 Hx0) as (_ & Hct0 & _). pose proof (Hlt b x0 Hx0) as Hlt0.
  assert (Hcd : b_count x = b_count x0 + 1 /\ (b_dirt x0 = 0 -> b_dirt x = 0) /\ (holds RAMDISK n x0 \/ spare x0)).
  { destruct Hg as [[Hh0 Hp]|(_ & (l & _ & _ & _ & y & _ & Hy & Hspy & _) & Hp)].
    - destruct x, x0. unfold payload in Hp. simpl in *. injection Hp as -> -> -> -> -> -> ->.
      rewrite u8_small by lia. split_and!; [done|done|by left].
    - assert (y = x0) as -> by congruence. destruct Hspy as [H0 Hd0].
      destruct x, x0. unfold payload, retake in Hp. simpl in *. injection Hp as -> -> -> -> -> -> ->.
      split_and!; [lia|done|by right]. }
  destruct Hcd as (Hct & Hd & Hwho).
  assert (Hf : fsd s1 = fsd s).
  { change (fsd (outside s1) = fsd (outside s)). by rewrite Hout. }
  exists b, s1, x0, x. do 2 (split; [done|]). split.
  { split; try done; [lia|]. by apply (released_ready s s1 b x0 x). }
  by split_and!.
Qed.

(** [bread] on a ready store: a buffer of the block that shows its view. *)
Lemma bread_run fuel s :
  ready s -> 1024 * (n + 1) <= rd_length s -> exists b s1 x,
    bread (S fuel) RAMDISK n s = Done (Some b) s1 /\ held s s1 b x /\ valid n x = true /\
    b_data x = view s n.
Proof using Hn.
  intros Hr Hlen. destruct (getblk_run fuel s Hr) as (b & s1 & x0 & x & Hrun & Hx0 & Hheld & Hh & Hct & _).
  pose proof Hheld as [Hx Hbound Hsame Hviews Hl Hf Hs1 Hrd].
  unfold bread. rewrite (run_bind _ _ _ _ _ Hrun), (run_bind _ _ _ _ _ (get_buf_run s1 b x Hx)).
  destruct (truth (b_uptodate x)) eqn:Hu.
  - exists b, s1, x. assert (Hv : valid n x = true) by (apply valid_spec; split; [done|by apply truth_true]).
    split; [done|]. split; [done|]. split; [done|]. rewrite <- Hviews. symmetry.
    by apply (view_valid s1 b x n (so_cache _ Hs1)).
  - apply truth_false in Hu. pose proof Hh as [Hdev Hnr].
    destruct (read_in n Hn fuel s1 b x Hs1 Hx Hh Hu) as (s2 & x2 & Hrun2 & Hs2 & Hx2 & Hv2 & Hlk & Hdat & _ & Hview2); [lia|].
    destruct (transfer_run fuel s1 b x READ) as (s2' & Hrun2' & _ & _ & Hx2' & Hsame2 & Hl2 & _ & Hf2);
      try apply Hs1; try done; [by apply (so_calm _ Hs1 b)|by apply (so_data _ Hs1 b)|by left|by rewrite Hnr, Hl|].
    rewrite Hrun2 in Hrun2'. injection Hrun2' as <-. assert (x2 = moved READ (rd_mem s1) x) as -> by congruence.
    rewrite (run_bind _ _ _ _ _ Hrun2).
    unfold finish_read. rewrite (run_bind _ _ _ _ _ (wait_unlocked fuel b _ s2 Hx2 Hlk)).
    rewrite (run_bind _ _ _ _ _ (get_buf_run s2 b _ Hx2)).
    exists b, s2, (moved READ (rd_mem s1) x). split; [done|].
    assert (Hsame02 : same_but b s s2) by (intros j Hj; by rewrite Hsame2, Hsame).
    split; [|split; [done|by rewrite Hdat]].
    split; try done; [intros m; by rewrite Hview2|congruence|congruence|].
    apply (released_ready s s2 b x0 _ Hr Hs2 Hx0 Hx2 Hsame02); done.
Qed.

(** Giving the buffer back. *)
Lemma brelse_run fuel s b x :
  array_get (bufs s) b = Some x -> b_lock x = 0 -> 0 < b_count x <= 255 ->
  exists s', brelse (S fuel) (Some b) s = Done tt s' /\
    same_store (set_buf b (counted (b_count x - 1) x) s) s' /\ fsd s' = fsd s.
Proof using Type.
  intros Hx Hl Hc. unfold brelse. rewrite (run_bind _ _ _ _ _ (wait_unlocked fuel b x s Hx Hl)).
  rewrite (run_bind _ _ _ _ _ (get_buf_run s b x Hx)), (run_bind _ _ _ _ _ (upd_buf_run s b x _ Hx)).
  rewrite (proj2 (truth_true _)) by lia. eexists. split; [done|].
  unfold counted. rewrite u8_small by lia. by split.
Qed.
Lemma held_brelse fuel s s1 b x :
  held s s1 b x -> exists s', brelse (S fuel) (Some b) s1 = Done tt s' /\ ready s' /\
    (forall m, view s' m = view s m) /\ rd_length s' = rd_length s /\ fsd s' = fsd s.
Proof using Type.
  intros [Hx Hb _ Hviews Hl Hf Hs Hr]. pose proof (so_calm _ Hs b x Hx) as Hlk.
  destruct (brelse_run fuel s1 b x Hx Hlk Hb) as (s' & Hrun & Hss & Hf').
  exists s'. split; [done|]. split; [by eapply same_store_ready|]. split_and!; [| |congruence].
  - intros m. rewrite (same_store_view _ _ _ Hss), <- Hviews.
    pose proof (co_heads _ (so_cache _ Hs) b x Hx) as (? & ? & ? & ? & ?).
    apply (set_buf_count s1 b x); [done|done|done| |done..]. unfold head_ok, counted. simpl. lia.
  - destruct Hss as (_ & _ & _ & _ & _ & _ & -> & _). exact Hl.
Qed.
End take.
End StoreOps.
