(* ===== verification/Alloc.v ===== *)
(** * Allocating a block ([new_block] of [fs/bitmap.c])

    The zone map of the ramdisk's file system, as a function from numbers
    to bits, and what [new_block] does to it and to the blocks. *)

From S2P Require Import Prelude FsData Block Buffer Cache Getblk Ramdisk Store Inode StoreOps Bits.

Module Alloc.
Import FsData Block Buffer Cache Getblk Ramdisk Store Inode StoreOps Bits.

(** Bit [n] of the map whose blocks are in the buffers [maps]; [None] where
    there is no block. *)
Definition map_bit (s : blk) (maps : list (option Z)) (n : Z) : option bool :=
  if n <? 0 then None
  else
    o ← array_get maps (n / 8192); b ← o; x ← array_get (bufs s) b;
    Some (get_bit (n mod 8192) (b_data x)).
(** The first zero bit. *)
Definition first_free (s : blk) (maps : list (option Z)) (n : Z) : Prop :=
  map_bit s maps n = Some false /\ forall m, m < n -> map_bit s maps m <> Some false.

(** The map's buffers are in use and valid, and differ. *)
Record map_ok (s : blk) (maps : list (option Z)) : Prop := {
  mo_buf : forall i b, array_get maps i = Some (Some b) -> exists x,
    array_get (bufs s) b = Some x /\ valid (b_blocknr x) x = true /\ b_count x <> 0 /\
    1024 * (b_blocknr x + 1) <= rd_length s /\ bytes (b_data x);
  mo_distinct : forall i j b, array_get maps i = Some (Some b) -> array_get maps j = Some (Some b) -> i = j
}.

Lemma map_bit_get s maps i b x k :
  array_get maps i = Some (Some b) -> array_get (bufs s) b = Some x -> 0 <= k < 8192 ->
  map_bit s maps (8192 * i + k) = Some (get_bit k (b_data x)).
Proof.
  intros Hi Hx Hk. pose proof (array_get_Some_bound _ _ _ Hi) as Hb. unfold map_bit.
  destruct (Z.ltb_spec (8192 * i + k) 0); [lia|].
  replace ((8192 * i + k) / 8192) with i by (apply (Z.div_unique _ _ _ k); lia).
  replace ((8192 * i + k) mod 8192) with k by (apply (Z.mod_unique _ _ i); lia).
  rewrite Hi. simpl. by rewrite Hx.
Qed.
Lemma map_bit_inv s maps n v : map_bit s maps n = Some v ->
  0 <= n /\ exists b x, array_get maps (n / 8192) = Some (Some b) /\ array_get (bufs s) b = Some x /\
    v = get_bit (n mod 8192) (b_data x).
Proof.
  unfold map_bit. destruct (Z.ltb_spec n 0); [done|]. intros Hv. split; [done|].
  destruct (array_get maps (n / 8192)) as [[b|]|]; simpl in Hv; try done.
  destruct (array_get (bufs s) b) as [x|] eqn:Hx; simpl in Hv; [|done]. injection Hv as <-. by exists b, x.
Qed.

(** ** The search *)

Section search.
Context {W : Sleeps}.

(** [sb] is the superblock of [dev], number [k] of the table. *)
Record super_of (s : blk) (dev k : Z) (sb : super_block) : Prop := {
  su_get : array_get (super_blocks (fsd s)) k = Some sb;
  su_dev : s_dev sb = dev;
  su_lock : s_lock sb = 0;
  su_range : k < NR_SUPER;
  su_first : forall j x, j < k -> array_get (super_blocks (fsd s)) j = Some x -> s_dev x <> dev
}.

Lemma get_sb_run s k sb : array_get (super_blocks (fsd s)) k = Some sb -> get_sb k s = Done sb s.
Proof. intros H. unfold get_sb. rewrite run_gets. unfold read_at. by rewrite H. Qed.

Lemma get_super_run fuel s dev k sb :
  dev <> 0 -> super_of s dev k sb -> get_super (S fuel) dev s = Done (Some k) s.
Proof.
  intros Hdev [Hk Hd Hl Hr Hfirst]. unfold get_super. rewrite (proj2 (truth_true _)) by done. cbn [negb].
  pose proof (array_get_Some_bound _ _ _ Hk) as Hb. unfold NR_SUPER in Hr.
  assert (Hwalk : forall (n : nat) j, 0 <= j <= k -> k - j < Z.of_nat n ->
    kloop n (fun k0 => if NR_SUPER <=? k0 then mret (inr None)
      else x ← get_sb k0; if s_dev x =? dev
           then wait_on_super (S fuel) k0 ;; x ← get_sb k0; if s_dev x =? dev then mret (inr (Some k0)) else mret (inl 0)
           else mret (inl (k0 + 1))) j s = Done (Some k) s); [|apply Hwalk; lia].
  induction n as [|n IH]; intros j Hj Hn; [lia|]. rewrite kloop_S.
  destruct (Z.leb_spec NR_SUPER j); [unfold NR_SUPER in *; lia|].
  destruct (decide (j = k)) as [->|Hne].
  - rewrite (run_bind _ _ _ _ _ (get_sb_run s k sb Hk)), Hd, Z.eqb_refl.
    rewrite (run_bind _ _ _ tt s).
    2: { unfold wait_on_super. rewrite kloop_S, (run_bind _ _ _ _ _ (get_sb_run s k sb Hk)), Hl. done. }
    by rewrite (run_bind _ _ _ _ _ (get_sb_run s k sb Hk)), Hd, Z.eqb_refl.
  - destruct (array_get_in_bounds (super_blocks (fsd s)) j) as [y Hy]; [lia|].
    rewrite (run_bind _ _ _ _ _ (get_sb_run s j y Hy)).
    rewrite (proj2 (Z.eqb_neq _ _)) by (apply (Hfirst j y); [lia|done]). cbn. apply IH; lia.
Qed.

(** The loop over the maps finds the first map with a zero bit. *)
Definition full (s : blk) (maps : list (option Z)) (q : Z) : Prop :=
  forall b x, array_get maps q = Some (Some b) -> array_get (bufs s) b = Some x ->
    8192 <= find_first_zero (b_data x).
Lemma find_map_run s maps : forall i,
  (forall q b, array_get maps q = Some (Some b) -> is_Some (array_get (bufs s) b)) ->
  exists o, find_map maps i s = Done o s /\
    match o with
    | None => forall q, full s maps q
    | Some (m, b, j) => exists q x, m = i + q /\ array_get maps q = Some (Some b) /\
        array_get (bufs s) b = Some x /\ j = find_first_zero (b_data x) /\ j < 8192 /\
        forall p, p < q -> full s maps p
    end.
Proof.
  induction maps as [|o maps IH]; intros i Hdom.
  { exists None. split; [done|]. intros q b x Hq. unfold array_get in Hq. by destruct (0 <=? q). }
  assert (Hcons : forall q, 0 < q -> array_get (o :: maps) q = array_get maps (q - 1)).
  { intros q Hq. unfold array_get. destruct (Z.leb_spec 0 q), (Z.leb_spec 0 (q - 1)); try lia.
    replace (Z.to_nat q) with (S (Z.to_nat (q - 1))) by lia. done. }
  assert (Hneg : forall q, q < 0 -> full s (o :: maps) q).
  { intros q Hq b x Hb. apply array_get_Some_bound in Hb. lia. }
  assert (Hskip : full s (o :: maps) 0 -> find_map (o :: maps) i s = find_map maps (i + 1) s ->
    exists r, find_map (o :: maps) i s = Done r s /\
    match r with
    | None => forall q, full s (o :: maps) q
    | Some (m, b, j) => exists q x, m = i + q /\ array_get (o :: maps) q = Some (Some b) /\
        array_get (bufs s) b = Some x /\ j = find_first_zero (b_data x) /\ j < 8192 /\
        forall p, p < q -> full s (o :: maps) p
    end).
  { intros H0 Hrun. destruct (IH (i + 1)) as (r & Hr & Hspec).
    { intros q b Hq. apply (Hdom (q + 1)). pose proof (array_get_Some_bound _ _ _ Hq).
      rewrite Hcons by lia. by replace (q + 1 - 1) with q by lia. }
    assert (Hup : forall q, 0 < q -> full s maps (q - 1) -> full s (o :: maps) q).
    { intros q Hq Hf b x Hb. rewrite Hcons in Hb by done. by apply Hf. }
    exists r. rewrite Hrun. split; [done|]. destruct r as [[[m b] j]|].
    - destruct Hspec as (q & x & Hm & Hq & Hx & Hj & Hlt & Hfull). exists (q + 1), x.
      pose proof (array_get_Some_bound _ _ _ Hq). split; [lia|]. split.
      { rewrite Hcons by lia. by replace (q + 1 - 1) with q by lia. }
      do 3 (split; [done|]). intros p Hp. destruct (decide (p < 0)); [by apply Hneg|].
      destruct (decide (p = 0)) as [->|]; [done|]. apply Hup; [lia|]. apply Hfull. lia.
    - intros q. destruct (decide (q < 0)); [by apply Hneg|].
      destruct (decide (q = 0)) as [->|]; [done|]. apply Hup; [lia|]. apply Hspec. }
  destruct o as [b|]; [|by apply Hskip; [intros ? ? [=]|]].
  destruct (Hdom 0 b eq_refl) as [x Hx]. cbn [find_map] in *.
  rewrite (run_bind _ _ _ _ _ (get_buf_run s b x Hx)) in Hskip |- *.
  destruct (Z.ltb_spec (find_first_zero (b_data x)) 8192) as [Hlt|Hge].
  - exists (Some (i, b, find_first_zero (b_data x))). split; [done|].
    exists 0, x. split_and!; [lia|done|done|done|done|]. intros p Hp. by apply Hneg.
  - apply Hskip; [|done]. intros b' x' [= <-] Hx'. assert (x' = x) as -> by congruence. done.
Qed.
End search.

Lemma full_bits s maps q k b x :
  map_ok s maps -> full s maps q -> array_get maps q = Some (Some b) -> array_get (bufs s) b = Some x ->
  0 <= k < 8192 -> get_bit k (b_data x) = true.
Proof.
  intros Hm Hf Hq Hx Hk. destruct (mo_buf _ _ Hm q b Hq) as (y & Hy & _ & _ & _ & Hb).
  assert (y = x) as -> by congruence. destruct (find_first_zero_spec _ Hb) as (_ & Hones & _).
  apply Hones. specialize (Hf b x Hq Hx). lia.
Qed.
(** What the search returns, in terms of the map. *)
Lemma search_none s maps : map_ok s maps -> (forall q, full s maps q) -> forall n, map_bit s maps n <> Some false.
Proof.
  intros Hm Hf n (Hn & b & x & Hq & Hx & Hv)%map_bit_inv.
  rewrite (full_bits s maps (n / 8192) (n mod 8192) b x) in Hv; try done. by apply Z.mod_pos_bound.
Qed.
Lemma search_first s maps q b x j :
  map_ok s maps -> array_get maps q = Some (Some b) -> array_get (bufs s) b = Some x ->
  j = find_first_zero (b_data x) -> j < 8192 -> (forall p, p < q -> full s maps p) ->
  0 <= j /\ first_free s maps (8192 * q + j).
Proof.
  intros Hm Hq Hx Hj Hlt Hf. destruct (mo_buf _ _ Hm q b Hq) as (y & Hy & _ & _ & _ & Hb).
  assert (y = x) as -> by congruence.
  destruct (find_first_zero_spec _ Hb) as (Hr & Hones & Hz). rewrite <- Hj in *. split; [lia|]. split.
  - rewrite (map_bit_get s maps q b x) by (done || lia). by rewrite Hz.
  - intros m Hlm (Hm0 & b' & x' & Hq' & Hx' & Hv)%map_bit_inv.
    pose proof (Z.div_mod m 8192 ltac:(lia)) as Hdm. pose proof (Z.mod_pos_bound m 8192 ltac:(lia)).
    destruct (decide (m / 8192 < q)).
    + rewrite (full_bits s maps (m / 8192) (m mod 8192) b' x') in Hv; try done. by apply Hf.
    + assert (m / 8192 = q) as Heq by lia. rewrite Heq in Hq'. assert (b' = b) as -> by congruence.
      assert (x' = x) as -> by congruence. rewrite Hones in Hv by lia. done.
Qed.

(** Only the contents of the map's buffers matter. *)
Lemma map_bit_ext s s' maps n :
  (forall i b, array_get maps i = Some (Some b) ->
    b_data <$> array_get (bufs s') b = b_data <$> array_get (bufs s) b) ->
  map_bit s' maps n = map_bit s maps n.
Proof.
  intros Hext. unfold map_bit. destruct (n <? 0); [done|].
  destruct (array_get maps (n / 8192)) as [[b|]|] eqn:Hq; [|done..]. simpl.
  specialize (Hext _ _ Hq).
  destruct (array_get (bufs s') b), (array_get (bufs s) b); simpl in *; try done. by injection Hext as ->.
Qed.
(** A bit is set in its buffer. *)
Lemma map_bit_set s maps q b x j y :
  map_ok s maps -> array_get maps q = Some (Some b) -> array_get (bufs s) b = Some x ->
  length (b_data x) = 1024%nat -> 0 <= j < 8192 -> b_data y = fst (set_bit j (b_data x)) ->
  forall m, map_bit (set_buf b y s) maps m = if m =? 8192 * q + j then Some true else map_bit s maps m.
Proof.
  intros Hm Hq Hx Hlen Hj Hy m. destruct (mo_buf _ _ Hm q b Hq) as (z & Hz & _ & _ & _ & Hb).
  assert (z = x) as -> by congruence.
  unfold map_bit. pose proof (array_get_Some_bound _ _ _ Hq) as Hq0.
  destruct (Z.ltb_spec m 0).
  { rewrite (proj2 (Z.eqb_neq _ _)) by lia. done. }
  pose proof (Z.div_mod m 8192 ltac:(lia)) as Hdm. pose proof (Z.mod_pos_bound m 8192 ltac:(lia)) as Hmb.
  destruct (decide (m / 8192 = q)) as [Heq|Hne].
  - rewrite Heq, Hq. cbn [mbind option_bind]. rewrite (set_buf_get s b x y Hx), Hx. cbn [mbind option_bind]. rewrite Hy.
    rewrite set_bit_get by (done || lia).
    destruct (Z.eqb_spec (m mod 8192) j), (Z.eqb_spec m (8192 * q + j)); (done || lia).
  - rewrite (proj2 (Z.eqb_neq m _)); cycle 1.
    { intros ->. apply Hne. symmetry. apply (Z.div_unique _ _ _ j); lia. }
    destruct (array_get maps (m / 8192)) as [[b'|]|] eqn:Hq'; [|done..]. cbn [mbind option_bind].
    rewrite set_buf_other; [done|]. intros ->. apply Hne. by apply (mo_distinct _ _ Hm (m / 8192) q b).
Qed.

Section alloc.
Context {W : Sleeps} {V : Drivers} {FC : FloppyChange}.

(** The buffer [x] of a map after bit [j] of it has been set. *)
Definition with_bit (j : Z) (x : buffer_head) : buffer_head :=
  x ⟪ b_data := fst (set_bit j (b_data x)) ⟫ ⟪ b_dirt := 1 ⟫.
Lemma upd_buf_twice s b x f g :
  array_get (bufs s) b = Some x -> (upd_buf b f ;; upd_buf b g) s = Done tt (set_buf b (g (f x)) s).
Proof.
  intros Hx. rewrite (run_bind _ _ _ _ _ (upd_buf_run s b x f Hx)).
  rewrite (upd_buf_run _ b (f x)); cycle 1.
  { cbn [bufs set_field]. by eapply array_get_set_eq, array_get_Some_bound. }
  unfold set_buf. cbn [bufs set_field]. by rewrite array_set_set.
Qed.
Lemma take_bit_run msg s b x j :
  array_get (bufs s) b = Some x -> get_bit j (b_data x) = false ->
  take_bit msg b j s = Done tt (set_buf b (with_bit j x) s).
Proof.
  intros Hx Hj. unfold take_bit. rewrite (run_bind _ _ _ _ _ (get_buf_run s b x Hx)).
  unfold set_bit. rewrite Hj. exact (upd_buf_twice s b x _ _ Hx).
Qed.

(** A buffer of a map that is changed stays pinned: the store is ready
    again. *)
Lemma set_bit_ready s maps q b x j :
  ready s -> map_ok s maps -> array_get maps q = Some (Some b) -> array_get (bufs s) b = Some x ->
  ready (set_buf b (with_bit j x) s) /\
  forall m, m <> b_blocknr x -> view (set_buf b (with_bit j x) s) m = view s m.
Proof.
  intros [Hs (i & z & Hz & Hsp) Hlt] Hm Hq Hx.
  destruct (mo_buf _ _ Hm q b Hq) as (z' & Hz' & Hv & Hct & Hr & Hb). assert (z' = x) as -> by congruence.
  pose proof (co_heads _ (so_cache _ Hs) b x Hx) as (H1 & H2 & H3 & H4 & H5).
  pose proof Hv as [[Hdev _] Hu]%valid_spec.
  assert (Hho : head_ok (with_bit j x)) by (unfold head_ok, with_bit; simpl; lia).
  destruct (set_buf_dirty s b x (with_bit j x) Hx Hs) as (Hs' & _ & Hviews); try done.
  { unfold with_bit. cbn [b_data set_field]. rewrite length_set_bit. by apply (so_data _ Hs b). }
  split; [|done]. split; [done| |].
  - exists i, z. split; [|done]. rewrite set_buf_other; [done|]. intros ->.
    assert (z = x) as -> by congruence. by destruct Hsp.
  - intros k y. destruct (decide (k = b)) as [->|Hk].
    + rewrite (set_buf_get s b x _ Hx). intros [= <-]. by apply (Hlt b x).
    + rewrite set_buf_other by done. by apply Hlt.
Qed.

Definition zeros : list Z := replicate (Z.to_nat BLOCK_SIZE) 0.
Definition zeroed (x : buffer_head) : buffer_head :=
  x ⟪ b_data := zeros ⟫ ⟪ b_uptodate := 1 ⟫ ⟪ b_dirt := 1 ⟫.
(** The end of [new_block]: the block is cleared in its buffer. *)
Lemma zero_fill fuel s b x n :
  store_ok s -> array_get (bufs s) b = Some x -> holds RAMDISK n x -> b_count x = 1 ->
  1024 * (n + 1) <= rd_length s -> exists s',
    (put_data b (fun _ => zeros) ;; upd_buf b (fun x => x ⟪ b_uptodate := 1 ⟫ ⟪ b_dirt := 1 ⟫) ;;
     brelse (S fuel) (Some b) ;; mret n) s = Done n s' /\
    store_ok s' /\ view s' n = zeros /\ (forall m, m <> n -> view s' m = view s m) /\
    forall j, j <> b -> array_get (bufs s') j = array_get (bufs s) j.
Proof.
  intros Hs Hx [Hdev Hnr] Hc Hr.
  pose proof (co_heads _ (so_cache _ Hs) b x Hx) as (H1 & H2 & H3 & H4 & H5).
  assert (Hho : head_ok (zeroed x)) by (unfold head_ok, zeroed; simpl; lia).
  destruct (set_buf_dirty s b x (zeroed x) Hx Hs) as (Hs1 & Hv & Hviews); try done.
  { by rewrite Hnr. }
  assert (Hx1 : array_get (bufs (set_buf b (zeroed x) s)) b = Some (zeroed x)) by (by eapply set_buf_get).
  destruct (brelse_run fuel (set_buf b (zeroed x) s) b (zeroed x) Hx1) as (s' & Hrun & Hss & _).
  { exact (so_calm _ Hs b x Hx). }
  { change (b_count (zeroed x)) with (b_count x). lia. }
  assert (Hkey : same_key (zeroed x) (counted (b_count (zeroed x) - 1) (zeroed x))) by done.
  destruct (set_buf_count _ b _ _ Hx1 Hs1 Hkey) as [Hs2 Hviews2]; try done.
  { unfold head_ok, counted, zeroed. simpl. lia. }
  exists s'. split.
  { rewrite (run_bind _ _ _ tt (s ⟪ bufs := array_set (bufs s) b (x ⟪ b_data := zeros ⟫) ⟫)) by (by apply upd_buf_run).
    rewrite (run_bind _ _ _ tt (set_buf b (zeroed x) s)).
    { by rewrite (run_bind _ _ _ _ _ Hrun). }
    pose proof (upd_buf_twice s b x (fun x => x ⟪ b_data := zeros ⟫) (fun x => x ⟪ b_uptodate := 1 ⟫ ⟪ b_dirt := 1 ⟫) Hx) as Ht.
    by rewrite (run_bind _ _ _ _ _ (upd_buf_run s b x _ Hx)) in Ht. }
  split; [by eapply same_store_ok|]. rewrite Hnr in Hv, Hviews. split_and!.
  - by rewrite (same_store_view _ _ _ Hss), Hviews2.
  - intros m Hm. rewrite (same_store_view _ _ _ Hss), Hviews2. by apply Hviews.
  - intros j Hj. destruct Hss as [-> _]. by rewrite !set_buf_other.
Qed.

(** What [new_block] leaves: [n] is the bit it took. *)
Definition allocated (s : blk) (sb : super_block) (n r : Z) (s' : blk) : Prop :=
  let block := n + s_firstdatazone sb - 1 in
  store_ok s' /\
  (forall m, map_bit s' (s_zmap sb) m = if m =? n then Some true else map_bit s (s_zmap sb) m) /\
  r = (if s_nzones sb <=? block then 0 else block) /\
  (block < s_nzones sb -> view s' block = zeros) /\
  forall m, m <> block ->
    (forall b x, array_get (s_zmap sb) (n / 8192) = Some (Some b) -> array_get (bufs s) b = Some x ->
      m <> b_blocknr x) -> view s' m = view s m.

Section device.
Variables (fuel depth : nat) (s : blk) (k : Z) (sb : super_block).
Hypothesis Hready : ready s.
Hypothesis Hsuper : super_of s RAMDISK k sb.
Hypothesis Hmap : map_ok s (s_zmap sb).
Hypothesis Hfirst : 1 <= s_firstdatazone sb.
Hypothesis Hsize : 1024 * s_nzones sb <= rd_length s.
(** Nobody holds a buffer of a free block. *)
Hypothesis Hfree : forall n b x, map_bit s (s_zmap sb) n = Some false -> array_get (bufs s) b = Some x ->
  holds RAMDISK (n + s_firstdatazone sb - 1) x -> b_count x = 0.

Lemma take_block q b x j :
  array_get (s_zmap sb) q = Some (Some b) -> array_get (bufs s) b = Some x ->
  0 <= j < 8192 -> map_bit s (s_zmap sb) (8192 * q + j) = Some false ->
  let block := j + (q * 8192 + s_firstdatazone sb - 1) in
  exists s', (if s_nzones sb <=? block then mret 0
    else
      b ← getblk (Y := sync_inodes_at (S fuel) depth) (S fuel) RAMDISK block;
      h ← get_buf b;
      if negb (b_count h =? 1) then panic "new block: count is != 1"
      else
        put_data b (fun _ => zeros) ;; upd_buf b (fun x => x ⟪ b_uptodate := 1 ⟫ ⟪ b_dirt := 1 ⟫) ;;
        brelse (S fuel) (Some b) ;; mret block) (set_buf b (with_bit j x) s) =
      Done (if s_nzones sb <=? block then 0 else block) s' /\
    allocated s sb (8192 * q + j) (if s_nzones sb <=? block then 0 else block) s'.
Proof using Hready Hmap Hfirst Hsize Hfree.
  intros Hq Hx Hj Hbit. cbv zeta. set (block := j + (q * 8192 + s_firstdatazone sb - 1)).
  assert (Hblock : 8192 * q + j + s_firstdatazone sb - 1 = block) by lia.
  pose proof (array_get_Some_bound _ _ _ Hq) as Hq0.
  set (s1 := set_buf b (with_bit j x) s).
  destruct (set_bit_ready s (s_zmap sb) q b x j Hready Hmap Hq Hx) as [Hr1 Hviews1].
  destruct (mo_buf _ _ Hmap q b Hq) as (z & Hz & _ & Hct & _ & _). assert (z = x) as -> by congruence.
  assert (Hbits1 : forall m, map_bit s1 (s_zmap sb) m =
    if m =? 8192 * q + j then Some true else map_bit s (s_zmap sb) m).
  { apply (map_bit_set s (s_zmap sb) q b x j); try done. by apply (so_data _ (re_store _ Hready) b). }
  assert (Hquot : (8192 * q + j) / 8192 = q) by (symmetry; apply (Z.div_unique _ _ _ j); lia).
  assert (Hview1 : forall m, (forall b x, array_get (s_zmap sb) ((8192 * q + j) / 8192) = Some (Some b) ->
    array_get (bufs s) b = Some x -> m <> b_blocknr x) -> view s1 m = view s m).
  { intros m Hm. apply Hviews1. rewrite Hquot in Hm. by apply (Hm b x). }
  unfold allocated. cbv zeta. rewrite Hblock.
  destruct (Z.leb_spec (s_nzones sb) block) as [Hover|Hin].
  { exists s1. split; [done|]. split_and!; [apply Hr1|done|done|lia|]. intros m _. apply Hview1. }
  assert (Hrl : rd_length s1 = rd_length s) by done.
  pose proof (ro_mem _ (so_rd _ (re_store _ Hready))) as Hmem.
  assert (Hn : 0 <= block < 4294967296) by lia.
  destruct (getblk_run (Y := sync_inodes_at (S fuel) depth) block Hn fuel s1 Hr1)
    as (b2 & s2 & x0 & y & Hrun & Hx0 & Hheld & Hh & Hcty & Hwho).
  assert (b2 <> b /\ b_count x0 = 0) as [Hne Hc0].
  { destruct (decide (b2 = b)) as [->|Hne].
    - exfalso. unfold s1 in Hx0. rewrite (set_buf_get s b x _ Hx) in Hx0. injection Hx0 as <-.
      destruct Hwho as [Hh0|[Hc0 _]]; [|done]. apply Hct. apply (Hfree _ b x Hbit Hx). by rewrite Hblock.
    - split; [done|]. unfold s1 in Hx0. rewrite set_buf_other in Hx0 by done.
      destruct Hwho as [Hh0|[Hc0 _]]; [|done]. apply (Hfree _ b2 x0 Hbit Hx0). by rewrite Hblock. }
  rewrite (run_bind _ _ _ _ _ Hrun), (run_bind _ _ _ _ _ (get_buf_run s2 b2 y (hd_get _ _ _ _ Hheld))).
  assert (Hcy : b_count y = 1) by lia. rewrite Hcy. change (negb (1 =? 1)) with false. cbv iota.
  destruct (zero_fill fuel s2 b2 y block (hd_store _ _ _ _ Hheld) (hd_get _ _ _ _ Hheld) Hh Hcy)
    as (s4 & Hrun4 & Hs4 & Hv4 & Hviews4 & Hsame4).
  { rewrite (hd_length _ _ _ _ Hheld), Hrl. lia. }
  exists s4. split; [exact Hrun4|]. split_and!; [done| |done|done|].
  - intros m. rewrite <- Hbits1. apply map_bit_ext. intros i b' Hi.
    assert (Hb' : b' <> b2).
    { intros ->. destruct (mo_buf _ _ Hmap i b2 Hi) as (w & Hw & _ & Hcw & _).
      unfold s1 in Hx0. rewrite set_buf_other in Hx0 by done. congruence. }
    rewrite Hsame4 by done. pose proof (hd_same _ _ _ _ Hheld b' Hb') as Hp.
    destruct (array_get (bufs s2) b') as [w|], (array_get (bufs s1) b') as [v|]; simpl in *; try done.
    f_equal. by injection Hp.
  - intros m Hm Hmb. rewrite Hviews4 by done. rewrite (hd_views _ _ _ _ Hheld). by apply Hview1.
Qed.

(** C39: [new_block] allocates the first free block.  On the ramdisk's file
    system, when the store of blocks is in order and nobody holds a buffer
    of a free block, it completes: if the zone map has no zero bit it
    returns 0 and changes nothing; otherwise it sets the first zero bit and
    no other, and if that bit stands for a block of the device it returns
    the block, which the file system then sees cleared; no other block but
    the map's changes.  If the bit lies beyond the device it returns 0, and
    the bit stays set. *)
Theorem new_block_allocates :
  wp (new_block (S fuel) depth RAMDISK) (fun r s' =>
    (r = 0 /\ s' = s /\ forall n, map_bit s (s_zmap sb) n <> Some false) \/
    exists n, first_free s (s_zmap sb) n /\ allocated s sb n r s') s.
Proof.
  assert (Hdev : RAMDISK <> 0) by done. apply wp_run. unfold new_block.
  rewrite (run_bind _ _ _ _ _ (get_super_run fuel s RAMDISK k sb Hdev Hsuper)).
  rewrite (run_bind _ _ _ _ _ (get_sb_run s k sb (su_get _ _ _ _ Hsuper))).
  destruct (find_map_run s (s_zmap sb) 0) as (o & Ho & Hspec).
  { intros q b Hq. destruct (mo_buf _ _ Hmap q b Hq) as (x & Hx & _). by exists x. }
  rewrite (run_bind _ _ _ _ _ Ho). destruct o as [[[m b] j]|].
  - destruct Hspec as (q & x & -> & Hq & Hx & Hj & Hlt & Hfull).
    destruct (search_first s _ q b x j Hmap Hq Hx Hj Hlt Hfull) as [Hj0 Hff].
    pose proof Hff as [Hbit _]. rewrite (map_bit_get s _ q b x) in Hbit by (done || lia).
    injection Hbit as Hbit. rewrite (run_bind _ _ _ _ _ (take_bit_run _ s b x j Hx Hbit)).
    destruct (take_block q b x j Hq Hx) as (s' & Hrun & Hal); [lia|apply Hff|].
    rewrite Z.add_0_l. eexists _, s'. split; [exact Hrun|]. right. by exists (8192 * q + j).
  - exists 0, s. split; [done|]. left. split_and!; [done|done|]. by apply search_none.
Qed.
End device.
End alloc.

(** ** A file system of four blocks on the ramdisk of Store *)

#[local] Instance demo_sleeps : Sleeps := fun _ => panic "asleep".
#[local] Instance demo_drivers : Drivers := fun _ => mret tt.
#[local] Instance demo_change : FloppyChange := fun _ => mret 0.

(** Block 3, whose bytes are 13, is the zone map: bits 0, 2 and 3 are set. *)
Definition demo_read : blk := final (bread (Y := mret tt) 1 RAMDISK 3) demo.
Definition demo_super : super_block :=
  SuperBlock 32 4 1 1 1 0 0 SUPER_MAGIC [] [Some 0] RAMDISK None None 0 0 0 0.
Definition demo_map : blk := demo_read ⟪ fsd := FsTables [] 0 [demo_super] RAMDISK ⟫.

Lemma demo_ready : ready demo.
Proof.
  split; [exact demo_ok|destruct (demo_available 0) as (i & x & Hx & [[Hd _]|Hs]); [|by exists i, x]|].
  - exfalso. assert (Hall : forallb (fun x => b_dev x =? 0) (bufs demo) = true) by (vm_compute; reflexivity).
    apply (array_get_forallb _ _ _ _ Hall), Z.eqb_eq in Hx. unfold RAMDISK in Hd. lia.
  - intros i x Hx. assert (Hall : forallb (fun x => b_count x =? 0) (bufs demo) = true) by (vm_compute; reflexivity).
    apply (array_get_forallb _ _ _ _ Hall), Z.eqb_eq in Hx. lia.
Qed.

(** The buffers of the demonstration, as far as they matter here. *)
Definition summary (x : buffer_head) : Z * Z * Z * Z := (b_dev x, b_blocknr x, b_count x, b_dirt x).
Lemma demo_summaries : map summary (bufs demo_map) = [(RAMDISK, 3, 1, 0); (0, 0, 0, 0); (0, 0, 0, 0); (0, 0, 0, 0)].
Proof. vm_compute. reflexivity. Qed.
Lemma demo_read_eq : demo_read = final (bread (Y := mret tt) 1 RAMDISK 3) demo.
Proof. reflexivity. Qed.
#[local] Opaque demo_read.
Lemma demo_summary i x : array_get (bufs demo_map) i = Some x ->
  (i = 0 /\ summary x = (RAMDISK, 3, 1, 0)) \/ (0 < i < 4 /\ summary x = (0, 0, 0, 0)).
Proof.
  intros Hs%(array_get_map summary).
  rewrite demo_summaries in Hs. unfold array_get in Hs. destruct (Z.leb_spec 0 i); [|done].
  destruct (Z.to_nat i) as [|[|[|[|n]]]] eqn:Hi; cbn [lookup list_lookup] in Hs; try done; apply (inj Some) in Hs;
    [left|right..]; (split; [lia|by rewrite <- Hs]).
Qed.

Lemma demo_first : exists x, array_get (bufs demo_map) 0 = Some x /\ store_ok demo_map /\
  valid 3 x = true /\ b_data x = replicate 1024 13.
Proof.
  destruct (bread_run (Y := mret tt) 3 ltac:(lia) 0 demo demo_ready ltac:(rewrite demo_length; lia))
    as (b & s1 & x & Hrun & Hheld & Hv & Hd).
  assert (Hs1 : demo_read = s1) by (rewrite demo_read_eq; unfold final; by rewrite Hrun).
  assert (Hss : same_store s1 demo_map) by (rewrite <- Hs1; apply same_store_fsd).
  pose proof (hd_get _ _ _ _ Hheld) as Hx. destruct Hss as (Hb & Hss).
  assert (Hx' : array_get (bufs demo_map) b = Some x) by (by rewrite Hb).
  assert (b = 0) as ->.
  { destruct (demo_summary b x Hx') as [[-> _]|[_ Hsum]]; [done|].
    apply valid_spec in Hv as [[Hdev _] _]. unfold summary, RAMDISK in *. injection Hsum. lia. }
  exists x. split_and!; [done| |done|].
  - eapply same_store_ok; [by split|]. apply (hd_store _ _ _ _ Hheld).
  - rewrite Hd. vm_compute. reflexivity.
Qed.

Lemma demo_map_bit : map_bit demo_map [Some 0] 3 = Some true /\ map_bit demo_map [Some 0] 1 = Some false /\
  map_bit demo_map [Some 0] 0 = Some true.
Proof.
  destruct demo_first as (x & Hx & _ & _ & Hd).
  assert (Hb : forall k, 0 <= k < 8192 -> map_bit demo_map [Some 0] k = Some (get_bit k (replicate 1024 13))).
  { intros k Hk. rewrite <- Hd. apply (map_bit_get demo_map [Some 0] 0 0 x k); done. }
  split_and!; rewrite Hb by lia; vm_compute; reflexivity.
Qed.

(** What the theorem needs to know of the demonstration. *)
Record demo_facts (s : blk) : Prop := {
  df_ready : ready s;
  df_super : super_of s RAMDISK 0 demo_super;
  df_map : map_ok s [Some 0];
  df_length : rd_length s = 4096;
  df_holder : forall b y, array_get (bufs s) b = Some y -> b_count y <> 0 -> b_blocknr y = 3;
  df_bit0 : map_bit s [Some 0] 0 = Some true;
  df_bit1 : map_bit s [Some 0] 1 = Some false;
  df_bit3 : map_bit s [Some 0] 3 = Some true
}.
Lemma demo_map_facts : demo_facts demo_map.
Proof.
  destruct demo_first as (x & Hx & Hok & Hv & Hd). destruct demo_map_bit as (H3 & H1 & H0).
  assert (Hl : rd_length demo_map = 4096) by (vm_compute; reflexivity).
  pose proof demo_summary as Hsum. pose proof (f_equal length demo_summaries) as Hlen.
  rewrite length_map in Hlen. cbn [length] in Hlen.
  assert (Hsu : super_of demo_map RAMDISK 0 demo_super).
  { split; [reflexivity..|]. intros j y Hj Hy. apply array_get_Some_bound in Hy. lia. }
  revert Hsum Hx Hok H3 H1 H0 Hl Hlen Hsu. generalize demo_map as s. intros s Hsum Hx Hok H3 H1 H0 Hl Hlen Hsu.
  split; [|done| |done| |done..].
  - split; [done| |].
    + destruct (array_get_in_bounds (bufs s) 1) as [y Hy]; [lia|].
      exists 1, y. split; [done|]. destruct (Hsum 1 y Hy) as [[? _]|[_ Hs]]; [lia|]. by injection Hs.
    + intros i y Hy. destruct (Hsum i y Hy) as [[_ Hs]|[_ Hs]]; injection Hs; lia.
  - assert (Hone : forall i b, array_get [Some 0] i = Some (Some b) -> i = 0 /\ b = 0).
    { intros i b. unfold array_get. destruct (Z.leb_spec 0 i); [|done]. simpl.
      destruct (Z.to_nat i) as [|[|n]] eqn:Hi; simpl; [intros [= <-]; lia|done|done]. }
    split; [|by intros i j b [-> _]%Hone [-> _]%Hone].
    intros i b [-> ->]%Hone. exists x. pose proof Hv as [[_ Hn] _]%valid_spec.
    split; [done|]. rewrite Hn. split; [done|]. split; [|split; [lia|]].
    + destruct (Hsum 0 x Hx) as [[_ Hs]|[? _]]; [|lia]. by injection Hs as _ _ ->.
    + rewrite Hd. intros o c Hc. unfold array_get in Hc. destruct (0 <=? o); [|done].
      apply lookup_replicate in Hc as [-> _]. lia.
  - intros b y Hy Hc. destruct (Hsum b y Hy) as [[_ Hs]|[_ Hs]]; injection Hs; [done|intros; lia].
Qed.

Lemma new_block_allocates_witness :
  wp (new_block 1 0 RAMDISK) (fun r s' =>
    r = 1 /\ map_bit s' [Some 0] 1 = Some true /\ view s' 1 = replicate 1024 0) demo_map.
Proof.
  generalize demo_map_facts. generalize demo_map as s. intros s [Hr Hsu Hm Hl Hh H0 H1 H3].
  eapply wp_mono; [apply (new_block_allocates 0 0 s 0 demo_super Hr Hsu Hm)|].
  - reflexivity.
  - rewrite Hl. simpl. lia.
  - intros n b y Hbit Hy [_ Hn]. destruct (decide (b_count y = 0)) as [|Hc]; [done|].
    rewrite (Hh b y Hy Hc) in Hn. assert (n = 3) as -> by (simpl in Hn; lia). exfalso.
    change (s_zmap demo_super) with [Some 0] in Hbit. rewrite H3 in Hbit. discriminate Hbit.
  - cbv beta. change (s_zmap demo_super) with [Some 0].
    intros r s' [(_ & _ & Hno)|(n & [Hbit Hfst] & Hal)]; [by destruct (Hno 1)|].
    assert (n = 1) as ->.
    { pose proof (map_bit_inv _ _ _ _ Hbit) as [Hn _].
      destruct (decide (1 < n)) as [Hlt|]; [by destruct (Hfst 1 Hlt)|].
      destruct (decide (n = 0)) as [->|]; [congruence|lia]. }
    destruct Hal as (_ & Hb & -> & Hz & _). split; [reflexivity|]. change (s_zmap demo_super) with [Some 0] in Hb.
    split; [by rewrite Hb|]. by apply Hz.
Defined.
End Alloc.
