(* ===== verification/FileRead.v ===== *)
(** * Reading a file ([_bmap] of [fs/inode.c], [file_read] of
      [fs/file_dev.c])

    The contents of a file as a function of the views of the store of
    blocks: direct, indirect and doubly indirect blocks, with zeros at the
    holes.  [bmap] computes the block of the contents, and [file_read]
    copies the contents. *)

From S2P Require Import Prelude Memory Task Sched Kernel Files Signal TtyRead FsData Block Buffer Cache Getblk Ramdisk Store Inode StoreOps InodeOps FileIO PipeQueue Alloc.

Module FileRead.
Import FsData Block Buffer Cache Getblk Ramdisk Store Inode StoreOps InodeOps FileIO PipeQueue.

(** ** The contents of a file *)

Section contents.
Variable B : blk.
Variable x : m_inode.

(** Entry [k] of the block [z] of block numbers. *)
Definition through (z k : Z) : Z := if z =? 0 then 0 else entry (view B z) k.
(** The number of block [n] of the file, 0 for a hole. *)
Definition file_block (n : Z) : Z :=
  if n <? 7 then zone_of x n
  else if n - 7 <? 512 then through (zone_of x 7) (n - 7)
  else through (through (zone_of x 8) (Z.shiftr (n - 519) 9)) (Z.land (n - 519) 511).
Definition file_byte (p : Z) : Z :=
  let n := file_block (p / 1024) in
  if n =? 0 then 0 else default 0 (array_get (view B n) (p mod 1024)).

(** The blocks that lead to block [n] of the file are on the device. *)
Definition on_device (z : Z) : Prop := 0 <= z /\ (z <> 0 -> 1024 * (z + 1) <= rd_length B).
Definition path_ok (n : Z) : Prop :=
  on_device (file_block n) /\
  (7 <= n < 519 -> on_device (zone_of x 7)) /\
  (519 <= n -> on_device (zone_of x 8) /\ on_device (through (zone_of x 8) (Z.shiftr (n - 519) 9))).
End contents.

Definition MAX_BLOCK : Z := 7 + 512 + 512 * 512.

(** The store has not changed for the file system. *)
Record quiet (B B' : blk) : Prop := {
  qu_ready : ready B';
  qu_view : forall m, view B' m = view B m;
  qu_length : rd_length B' = rd_length B;
  qu_fsd : fsd B' = fsd B
}.
Lemma quiet_refl B : ready B -> quiet B B.
Proof. by split. Qed.
Lemma quiet_trans B1 B2 B3 : quiet B1 B2 -> quiet B2 B3 -> quiet B1 B3.
Proof.
  intros [_ H2 H3 H4] [H5 H6 H7 H8]. split; [done| |congruence|congruence]. intros m. by rewrite H6.
Qed.
Lemma through_quiet B B' z k : quiet B B' -> through B' z k = through B z k.
Proof. intros Hq. unfold through. by rewrite (qu_view _ _ Hq). Qed.

(** ** [bmap] *)

Definition with_blk (B : blk) (s : kernel blk) : kernel blk := s ⟪ inodes := B ⟫.
Lemma with_blk_twice B B' s : with_blk B (with_blk B' s) = with_blk B s.
Proof. done. Qed.
Lemma with_blk_id s : with_blk (inodes s) s = s.
Proof. by destruct s. Qed.
Lemma on_blk_run {A} (m : KM blk A) s a B :
  m (inodes s) = Done a B -> on_blk m s = Done a (with_blk B s).
Proof. apply zoom_Done. Qed.

Section bmap.
Context {W : Sleeps} {V : Drivers} {FC : FloppyChange}.
Variables (fuel depth : nat) (i : Z) (x : m_inode).
Hypothesis Hdev : i_dev x = RAMDISK.

Definition inode_is (s : kernel blk) : Prop := array_get (inode_table (fsd (inodes s))) i = Some x.
Lemma inode_is_quiet s B : quiet (inodes s) B -> inode_is s -> inode_is (with_blk B s).
Proof. intros Hq. unfold inode_is, with_blk. cbn [inodes set_field]. by rewrite (qu_fsd _ _ Hq). Qed.

Lemma inode_at_run s : inode_is s -> inode_at i s = Done x s.
Proof.
  intros H. unfold inode_at. rewrite (on_blk_run _ s x (inodes s)); [by rewrite with_blk_id|].
  unfold get_inode. rewrite run_gets. unfold read_at. unfold inode_is in H. by rewrite H.
Qed.
Lemma buffer_at_run s b y : array_get (bufs (inodes s)) b = Some y -> buffer_at b s = Done y s.
Proof.
  intros H. unfold buffer_at. rewrite (on_blk_run _ s y (inodes s)); [by rewrite with_blk_id|].
  by apply get_buf_run.
Qed.

(** Reading a block and releasing it. *)
Lemma read_block_run s n :
  ready (inodes s) -> 0 <= n -> 1024 * (n + 1) <= rd_length (inodes s) -> exists b B1 y,
    read_block (S fuel) depth RAMDISK n s = Done (Some b) (with_blk B1 s) /\
    held (inodes s) B1 b y /\ b_data y = view (inodes s) n /\ length (b_data y) = 1024%nat.
Proof using Type.
  intros Hr Hn Hl. pose proof (ro_mem _ (so_rd _ (re_store _ Hr))) as Hm.
  destruct (bread_run (Y := sync_inodes_at (S fuel) depth) n ltac:(lia) fuel (inodes s) Hr Hl)
    as (b & B1 & y & Hrun & Hheld & _ & Hd).
  exists b, B1, y. split; [by apply on_blk_run|]. split; [done|]. split; [done|].
  exact (so_data _ (hd_store _ _ _ _ Hheld) b y (hd_get _ _ _ _ Hheld)).
Qed.
Lemma release_run s B B1 b y :
  held B B1 b y -> inodes s = B1 -> exists B2, release (S fuel) (Some b) s = Done tt (with_blk B2 s) /\ quiet B B2.
Proof using Type.
  intros Hheld <-. destruct (held_brelse fuel B (inodes s) b y Hheld) as (B2 & Hrun & H1 & H2 & H3 & H4).
  exists B2. split; [by apply on_blk_run|by split].
Qed.

Lemma zone_entry_run s k : inode_is s -> zone_entry (S fuel) depth i k false s = Done (zone_of x k) s.
Proof using Type.
  intros H. unfold zone_entry. rewrite (run_bind _ _ _ _ _ (inode_at_run s H)).
  cbn [andb kwhen]. rewrite run_ret. by rewrite (run_bind _ _ _ _ _ (inode_at_run s H)).
Qed.
Lemma ind_entry_run s z k :
  ready (inodes s) -> inode_is s -> z <> 0 -> on_device (inodes s) z -> exists B,
    ind_entry (S fuel) depth i z k false s = Done (through (inodes s) z k) (with_blk B s) /\ quiet (inodes s) B.
Proof using Hdev.
  intros Hr Hi Hz [Hz0 Hzl]. unfold ind_entry. rewrite (run_bind _ _ _ _ _ (inode_at_run s Hi)), Hdev.
  destruct (read_block_run s z Hr Hz0 (Hzl Hz)) as (b & B1 & y & Hrun & Hheld & Hd & _).
  rewrite (run_bind _ _ _ _ _ Hrun). cbv iota.
  rewrite (run_bind _ _ _ _ _ (buffer_at_run (with_blk B1 s) b y (hd_get _ _ _ _ Hheld))).
  cbn [andb]. cbv zeta. rewrite run_ret.
  destruct (release_run (with_blk B1 s) (inodes s) B1 b y Hheld eq_refl) as (B2 & Hrel & Hq).
  rewrite (run_bind _ _ _ _ _ Hrel). exists B2. split; [|done].
  rewrite with_blk_twice. unfold through. rewrite (proj2 (Z.eqb_neq z 0)) by done. by rewrite Hd.
Qed.

(** [bmap] returns the block and changes no view. *)
Lemma bmap_run s n :
  ready (inodes s) -> inode_is s -> 0 <= n < MAX_BLOCK -> path_ok (inodes s) x n -> exists B,
    bmap (S fuel) depth i n s = Done (file_block (inodes s) x n) (with_blk B s) /\ quiet (inodes s) B.
Proof using Hdev.
  intros Hr Hi Hn (Hb & H7 & H8). pose proof (quiet_refl _ Hr) as Hrefl.
  unfold bmap, _bmap, file_block. unfold MAX_BLOCK in Hn. change (7 + 512 + 512 * 512) with 262663 in *.
  destruct (Z.ltb_spec n 0); [lia|]. destruct (Z.leb_spec 262663 n); [lia|].
  destruct (Z.ltb_spec n 7).
  { exists (inodes s). rewrite with_blk_id. split; [by apply zone_entry_run|done]. }
  cbv zeta. destruct (Z.ltb_spec (n - 7) 512).
  - rewrite (run_bind _ _ _ _ _ (zone_entry_run s 7 Hi)).
    destruct (Z.eqb_spec (zone_of x 7) 0) as [Hz|Hz].
    + rewrite Hz. exists (inodes s). by rewrite with_blk_id.
    + rewrite (proj2 (truth_true _) Hz). cbn [negb].
      by apply ind_entry_run; [| |done|apply H7; lia].
  - rewrite (run_bind _ _ _ _ _ (zone_entry_run s 8 Hi)). destruct (H8 ltac:(lia)) as [Hd8 He].
    replace (n - 7 - 512) with (n - 519) by lia.
    destruct (Z.eqb_spec (zone_of x 8) 0) as [Hz|Hz].
    { rewrite Hz. exists (inodes s). by rewrite with_blk_id. }
    rewrite (proj2 (truth_true _) Hz). cbn [negb].
    destruct (ind_entry_run s (zone_of x 8) (Z.shiftr (n - 519) 9) Hr Hi Hz Hd8) as (B1 & Hrun & Hq).
    rewrite (run_bind _ _ _ _ _ Hrun). set (e := through (inodes s) (zone_of x 8) _) in *.
    destruct (Z.eqb_spec e 0) as [Hez|Hez].
    { rewrite Hez. exists B1. by split. }
    rewrite (proj2 (truth_true _) Hez). cbn [negb].
    destruct (ind_entry_run (with_blk B1 s) e (Z.land (n - 519) 511) (qu_ready _ _ Hq) (inode_is_quiet s B1 Hq Hi) Hez)
      as (B2 & Hrun2 & Hq2).
    { destruct He as [He0 He]. split; [done|]. cbn [with_blk inodes set_field]. by rewrite (qu_length _ _ Hq). }
    exists B2. split; [|by eapply quiet_trans]. rewrite Hrun2, with_blk_twice. f_equal.
    by apply through_quiet.
Qed.
End bmap.

(** ** Copying to the user *)

Lemma wp_of_run {S A} (m : KM S A) s a s' (Q : A -> S -> Prop) : m s = Done a s' -> Q a s' -> wp m Q s.
Proof. unfold wp. by intros ->. Qed.

Lemma user_stores_cons a g k l u : user_stores a g (k :: l) u = user_stores a g l (set_byte (a + k) (g k) u).
Proof. done. Qed.
Lemma user_stores_ext a g h l u : (forall k, k ∈ l -> g k = h k) -> user_stores a g l u = user_stores a h l u.
Proof.
  revert u. induction l as [|k l IH]; intros u Hgh; [done|]. rewrite !user_stores_cons, (Hgh k) by (by left).
  apply IH. intros j Hj. apply Hgh. by right.
Qed.
(** Two runs of stores, one after the other. *)
Lemma user_stores_app a g c d u : 0 <= c -> 0 <= d ->
  user_stores a g (upto (c + d)) u =
    user_stores (a + c) (fun k => g (c + k)) (upto d) (user_stores a g (upto c) u).
Proof.
  intros Hc Hd. unfold user_stores. rewrite seqZ_app, fold_left_app by lia.
  generalize (fold_left (fun u k => set_byte (a + k) (g k) u) (upto c) u). intros v.
  rewrite Z.add_0_l. rewrite <- (Z.add_0_r c) at 1. rewrite <- fmap_add_seqZ.
  generalize (upto d). intros l. revert v. induction l as [|k l IH]; intros v; [done|].
  cbn [fmap list_fmap fold_left]. rewrite IH. by rewrite Z.add_assoc.
Qed.

Section copy.
Context {W : Sleeps} {V : Drivers} {FC : FloppyChange}.
Variables (b0 bf : Z).

Lemma with_user_base u (s : kernel blk) : user_base_is s b0 -> user_base_is (with_user u s) b0.
Proof. done. Qed.

(** A loop that stores a byte for each number. *)
Lemma copy_loop (body : Z -> F unit) (g : Z -> Z) (l : list Z) : forall s : kernel blk,
  user_base_is s b0 ->
  (forall k u, k ∈ l -> body k (with_user u s) = put_fs_byte (g k) (bf + k) (with_user u s)) ->
  kfor l body s = Done tt (with_user (user_stores (b0 + bf) g l (user s)) s).
Proof using Type.
  induction l as [|k l IH]; intros s Hb Hbody; [by destruct s|]. cbn [kfor].
  assert (Hs : s = with_user (user s) s) by (by destruct s).
  rewrite (run_bind _ _ s tt (with_user (set_byte (b0 + bf + k) (g k) (user s)) s)).
  - rewrite (IH _ (with_user_base _ s Hb)); [done|].
    intros j u Hj. change (with_user u (with_user _ s)) with (with_user u s). apply Hbody. by right.
  - rewrite Hs at 1. rewrite Hbody by (by left). rewrite <- Hs.
    rewrite (TtyRead.put_fs_byte_run b0) by done. by rewrite Z.add_assoc.
Qed.

Lemma copy_out_run s b y nr c :
  user_base_is s b0 -> array_get (bufs (inodes s)) b = Some y -> 0 <= nr -> nr + c <= Z.of_nat (length (b_data y)) ->
  copy_out b nr c bf s =
    Done tt (with_user (user_stores (b0 + bf) (fun k => default 0 (array_get (b_data y) (nr + k))) (upto c) (user s)) s).
Proof using Type.
  intros Hb Hy Hnr Hlen. apply copy_loop; [done|]. intros k u Hk%elem_of_upto.
  rewrite (run_bind _ _ _ _ _ (buffer_at_run (with_user u s) b y Hy)).
  destruct (array_get_in_bounds (b_data y) (nr + k)) as [v Hv]; [lia|].
  unfold read_at. by rewrite Hv, run_deref.
Qed.
Lemma copy_zeros_run s c :
  user_base_is s b0 ->
  copy_zeros c bf s = Done tt (with_user (user_stores (b0 + bf) (fun _ => 0) (upto c) (user s)) s).
Proof using Type. intros Hb. by apply copy_loop. Qed.
End copy.

(** ** [file_read] *)

Lemma file_block_quiet B B' x n : quiet B B' -> file_block B' x n = file_block B x n.
Proof. intros Hq. unfold file_block. by rewrite !(through_quiet _ _ _ _ Hq). Qed.
Lemma path_ok_quiet B B' x n : quiet B B' -> path_ok B x n -> path_ok B' x n.
Proof.
  intros Hq. unfold path_ok, on_device. by rewrite (file_block_quiet _ _ _ _ Hq), !(through_quiet _ _ _ _ Hq), (qu_length _ _ Hq).
Qed.
Lemma file_byte_block B x p k :
  0 <= p -> 0 <= k -> p mod 1024 + k < 1024 ->
  file_byte B x (p + k) =
    let n := file_block B x (p / 1024) in if n =? 0 then 0 else default 0 (array_get (view B n) (p mod 1024 + k)).
Proof.
  intros Hp Hk Hlt. unfold file_byte.
  pose proof (Z.div_mod p 1024 ltac:(lia)). pose proof (Z.mod_pos_bound p 1024 ltac:(lia)).
  replace ((p + k) / 1024) with (p / 1024) by (apply (Z.div_unique _ _ _ (p mod 1024 + k)); lia).
  replace ((p + k) mod 1024) with (p mod 1024 + k) by (apply (Z.mod_unique _ _ (p / 1024)); lia). done.
Qed.

Section read.
Context {W : Sleeps} {V : Drivers} {FC : FloppyChange}.
Variables (fuel depth : nat) (i f b0 bf count : Z) (x : m_inode) (xf : file) (s : kernel blk).
Hypothesis Hdev : i_dev x = RAMDISK.
Hypothesis Hready : ready (inodes s).
Hypothesis Hinode : inode_is i x s.
Hypothesis Hfile : array_get (file_table s) f = Some xf.
Hypothesis Hbase : user_base_is s b0.
Hypothesis Hpos : 0 <= f_pos xf.
Hypothesis Hmax : f_pos xf + count <= 1024 * MAX_BLOCK.
Hypothesis Hpath : forall p, f_pos xf <= p < f_pos xf + count -> path_ok (inodes s) x (p / 1024).

(** The byte that goes to offset [k] of the user's buffer. *)
Definition wanted (k : Z) : Z := file_byte (inodes s) x (f_pos xf + k).
(** [d] bytes have been read. *)
Record reading (d : Z) (s' : kernel blk) : Prop := {
  rg_quiet : quiet (inodes s) (inodes s');
  rg_ks : ks s' = ks s;
  rg_km : km s' = km s;
  rg_files : file_table s' = array_set (file_table s) f (xf ⟪ f_pos := f_pos xf + d ⟫);
  rg_user : user s' = user_stores (b0 + bf) wanted (upto d) (user s)
}.

Lemma reading_start : reading 0 s.
Proof using All.
  split; [by apply quiet_refl|done|done| |done]. rewrite Z.add_0_r. symmetry.
  apply array_set_get. rewrite Hfile. by destruct xf.
Qed.
Lemma reading_file d s' : reading d s' -> array_get (file_table s') f = Some (xf ⟪ f_pos := f_pos xf + d ⟫).
Proof using All. intros [_ _ _ -> _]. by eapply array_get_set_eq, array_get_Some_bound. Qed.
Lemma reading_base d s' : reading d s' -> user_base_is s' b0.
Proof using All. intros [_ H _ _ _]. unfold user_base_is in *. by rewrite H. Qed.
Lemma reading_inode d s' : reading d s' -> inode_is i x s'.
Proof using All. intros [Hq _ _ _ _]. unfold inode_is in *. by rewrite (qu_fsd _ _ Hq). Qed.

Lemma upd_pos_run g y s1 : array_get (file_table s1) f = Some y ->
  upd_pos f g s1 = Done tt (s1 ⟪ file_table := array_set (file_table s1) f (y ⟪ f_pos := g (f_pos y) ⟫) ⟫).
Proof using All.
  intros Hy. assert (Hg : get_file f s1 = Done y s1).
  { unfold get_file. rewrite run_gets. unfold read_at. by rewrite Hy. }
  unfold upd_pos. by rewrite (run_bind _ _ _ _ _ Hg).
Qed.

(** The state after [c] more bytes, wherever they came from. *)
Lemma reading_more d c h s1 s2 :
  reading d s1 -> 0 <= d -> 0 <= c -> (forall k, 0 <= k < c -> h k = wanted (d + k)) ->
  quiet (inodes s) (inodes s2) -> ks s2 = ks s1 -> km s2 = km s1 ->
  file_table s2 = array_set (file_table s1) f (xf ⟪ f_pos := f_pos xf + d + c ⟫) ->
  user s2 = user_stores (b0 + (bf + d)) h (upto c) (user s1) -> reading (d + c) s2.
Proof using All.
  intros [_ Hks Hkm Hft Hus] Hd Hc Hh Hq Hks2 Hkm2 Hft2 Hus2. split; [done|congruence|congruence| |].
  - rewrite Hft2, Hft, array_set_set. by rewrite Z.add_assoc.
  - rewrite Hus2, Hus, user_stores_app, Z.add_assoc by done. apply user_stores_ext.
    intros k Hk%elem_of_upto. by apply Hh.
Qed.

(** A block goes to the user and its buffer back to the cache. *)
Lemma copy_release s3 B b y nr c a :
  held B (inodes s3) b y -> user_base_is s3 b0 -> 0 <= nr -> nr + c <= Z.of_nat (length (b_data y)) -> exists s4,
    (copy_out b nr c a ;; release (S fuel) (Some b)) s3 = Done tt s4 /\ quiet B (inodes s4) /\
    ks s4 = ks s3 /\ km s4 = km s3 /\ file_table s4 = file_table s3 /\
    user s4 = user_stores (b0 + a) (fun k => default 0 (array_get (b_data y) (nr + k))) (upto c) (user s3).
Proof using All.
  intros Hheld Hb Hnr Hlen.
  rewrite (run_bind _ _ _ _ _ (copy_out_run b0 a s3 b y nr c Hb (hd_get _ _ _ _ Hheld) Hnr Hlen)).
  set (s' := with_user _ s3).
  destruct (release_run fuel s' B (inodes s3) b y Hheld eq_refl) as (B3 & Hrel & Hq). by exists (with_blk B3 s').
Qed.

Lemma read_turn_run d s1 :
  reading d s1 -> 0 <= d < count -> exists c s2,
    file_read_turn (S fuel) depth i f (count - d, bf + d) s1 = Done (inl (count - (d + c), bf + (d + c))) s2 /\
    reading (d + c) s2 /\ 0 < c <= count - d.
Proof using All.
  intros Hr Hd. pose proof (rg_quiet _ _ Hr) as Hq. pose proof (reading_file _ _ Hr) as Hf1.
  set (p := f_pos xf + d) in *. assert (Hp : f_pos xf <= p < f_pos xf + count) by lia.
  unfold MAX_BLOCK in Hmax. change (7 + 512 + 512 * 512) with 262663 in Hmax.
  pose proof (Z.div_mod p 1024 ltac:(lia)) as Hdm. pose proof (Z.mod_pos_bound p 1024 ltac:(lia)) as Hmb.
  assert (Hget : forall s' : kernel blk, file_table s' = file_table s1 -> get_file f s' = Done (xf ⟪ f_pos := p ⟫) s').
  { intros s' Hs'. unfold get_file. rewrite run_gets. unfold read_at. by rewrite Hs', Hf1. }
  unfold file_read_turn. rewrite (proj2 (Z.eqb_neq _ _)) by lia.
  rewrite (run_bind _ _ _ _ _ (Hget s1 eq_refl)). change (f_pos (xf ⟪ f_pos := p ⟫)) with p.
  change BLOCK_SIZE with 1024. rewrite Z.quot_div_nonneg by lia.
  destruct (bmap_run fuel depth i x Hdev s1 (p / 1024) (qu_ready _ _ Hq) (reading_inode _ _ Hr))
    as (B1 & Hmap & Hq1).
  { unfold MAX_BLOCK. pose proof (Z.div_pos p 1024). lia. }
  { apply (path_ok_quiet _ _ _ _ Hq). by apply Hpath. }
  rewrite (file_block_quiet _ _ _ _ Hq) in Hmap. set (n := file_block (inodes s) x (p / 1024)) in *.
  rewrite (run_bind _ _ _ _ _ Hmap). set (s2 := with_blk B1 s1).
  assert (Hi2 : inode_is i x s2) by (apply inode_is_quiet; [done|by eapply reading_inode]).
  rewrite (run_bind _ _ _ _ _ (inode_at_run i x s2 Hi2)), Hdev.
  set (c := Z.min (1024 - p mod 1024) (count - d)).
  assert (Hc : 0 < c <= count - d /\ p mod 1024 + c <= 1024) by lia. exists c.
  assert (Hw : forall k, 0 <= k < c -> wanted (d + k) =
    if n =? 0 then 0 else default 0 (array_get (view (inodes s) n) (p mod 1024 + k))).
  { intros k Hk. unfold wanted. rewrite Z.add_assoc. apply file_byte_block; lia. }
  assert (Hs32 : s32 (p + c) = f_pos xf + d + c) by (rewrite s32_small; lia).
  assert (Hq2 : quiet (inodes s) B1) by (by eapply quiet_trans).
  destruct (Z.eqb_spec n 0) as [Hn|Hn].
  - rewrite Hn. change (truth 0) with false. cbv iota. rewrite run_ret. cbv iota.
    rewrite (run_bind _ _ _ _ _ (Hget s2 eq_refl)). cbv zeta. change (f_pos (xf ⟪ f_pos := p ⟫)) with p.
    rewrite Z.rem_mod_nonneg by lia. fold c.
    rewrite (run_bind _ _ _ _ _ (upd_pos_run _ _ s2 Hf1)). change (f_pos (xf ⟪ f_pos := p ⟫)) with p. rewrite Hs32.
    erewrite run_bind; [|eapply (copy_zeros_run b0), (reading_base _ _ Hr)].
    eexists. split.
    { replace (count - (d + c)) with (count - d - c) by lia. replace (bf + (d + c)) with (bf + d + c) by lia. reflexivity. }
    split; [|lia].
    eapply (reading_more d c (fun _ => 0) s1); [exact Hr|lia|lia| |exact Hq2|reflexivity..].
    intros k Hk. by rewrite Hw.
  - rewrite (proj2 (truth_true _) Hn). cbv iota.
    destruct (Hpath p Hp) as ([Hn0 Hnl] & _). fold n in Hn0, Hnl.
    destruct (read_block_run fuel depth s2 n (qu_ready _ _ Hq1) Hn0) as (b & B2 & y & Hread & Hheld & Hdat & Hlen).
    { change (inodes s2) with B1. rewrite (qu_length _ _ Hq2). by apply Hnl. }
    change (inodes s2) with B1 in Hheld, Hdat. rewrite (qu_view _ _ Hq2) in Hdat.
    rewrite (run_bind _ _ _ (Some (Some b)) (with_blk B2 s1)); cycle 1.
    { by rewrite (run_bind _ _ _ _ _ Hread). }
    cbv iota. rewrite (run_bind _ _ _ _ _ (Hget (with_blk B2 s1) eq_refl)). cbv zeta.
    change (f_pos (xf ⟪ f_pos := p ⟫)) with p. rewrite Z.rem_mod_nonneg by lia. fold c.
    rewrite (run_bind _ _ _ _ _ (upd_pos_run _ _ (with_blk B2 s1) Hf1)).
    change (f_pos (xf ⟪ f_pos := p ⟫)) with p. rewrite Hs32.
    set (s3 := (with_blk B2 s1) ⟪ file_table := _ ⟫).
    destruct (copy_release s3 B1 b y (p mod 1024) c (bf + d) Hheld (reading_base _ _ Hr)) as (s4 & Hrun & Hq4 & Hks & Hkm & Hft & Hus);
      [lia|rewrite Hlen; lia|].
    rewrite (run_bind _ _ _ _ _ Hrun). eexists. split.
    { replace (count - (d + c)) with (count - d - c) by lia. replace (bf + (d + c)) with (bf + d + c) by lia. reflexivity. }
    split; [|lia].
    eapply (reading_more d c _ s1); [done|lia|lia| | |exact Hks|exact Hkm|exact Hft|exact Hus].
    + intros k Hk. by rewrite Hw, Hdat by done.
    + by eapply quiet_trans.
Qed.

Lemma read_loop_run (n : nat) : forall d s1, reading d s1 -> 0 <= d <= count -> count - d < Z.of_nat n ->
  exists s2, kloop n (file_read_turn (S fuel) depth i f) (count - d, bf + d) s1 = Done 0 s2 /\ reading count s2.
Proof using All.
  induction n as [|n IH]; intros d s1 Hr Hd Hn; [lia|]. rewrite kloop_S.
  destruct (decide (d = count)) as [->|Hne].
  - rewrite Z.sub_diag. by exists s1.
  - destruct (read_turn_run d s1 Hr) as (c & s2 & Hrun & Hr2 & Hc); [lia|]. rewrite Hrun.
    apply IH; [done|lia|lia].
Qed.

(** C40: [file_read] copies the contents of the file.  On the ramdisk's file
    system, for a file whose blocks up to the end of the read (direct,
    indirect or doubly indirect, or holes) lie on the device, a read of
    [count] bytes completes and returns [count]: the user's buffer then
    holds the bytes of the file from its position on, zeros for the holes,
    user memory elsewhere is unchanged, the position has moved by [count],
    the access time is set, and no block has changed for the file system. *)
Theorem file_read_reads :
  0 < count -> 0 <= b0 + bf -> b0 + bf + count < 4294967296 ->
  wp (file_read (S fuel) depth i f bf count) (fun r s' =>
    r = count /\
    (forall k, 0 <= k < count -> byte_at (user s') (b0 + bf + k) = u8 (file_byte (inodes s) x (f_pos xf + k))) /\
    (forall a, 0 <= a < 4294967296 -> a < b0 + bf \/ b0 + bf + count <= a ->
      byte_at (user s') a = byte_at (user s) a) /\
    array_get (file_table s') f = Some (xf ⟪ f_pos := f_pos xf + count ⟫) /\
    array_get (inode_table (fsd (inodes s'))) i = Some (x ⟪ i_atime := u32 (CURRENT_TIME (ks s)) ⟫) /\
    ready (inodes s') /\ (forall m, view (inodes s') m = view (inodes s) m) /\ ks s' = ks s /\ km s' = km s) s.
Proof using All.
  intros Hc Hlo Hhi. apply wp_run. unfold file_read. destruct (Z.leb_spec count 0); [lia|].
  destruct (read_loop_run (S (Z.to_nat count)) 0 s reading_start) as (s1 & Hrun & Hr); [lia|lia|].
  rewrite Z.sub_0_r, Z.add_0_r in Hrun. rewrite (run_bind _ _ _ _ _ Hrun).
  pose proof Hr as [Hq Hks Hkm Hft Hus]. unfold now. rewrite run_gets, Hks.
  pose proof (reading_inode _ _ Hr) as Hi1. unfold inode_is in Hi1.
  unfold set_inode. set (x' := x ⟪ i_atime := _ ⟫).
  assert (Hset : upd_inode i (fun x => x ⟪ i_atime := u32 (CURRENT_TIME (ks s)) ⟫) (inodes s1) =
    Done tt ((inodes s1) ⟪ fsd := (fsd (inodes s1)) ⟪ inode_table := array_set (inode_table (fsd (inodes s1))) i x' ⟫ ⟫)).
  { unfold upd_inode, get_inode. rewrite (run_bind _ _ (inodes s1) x (inodes s1)); [done|].
    rewrite run_gets. unfold read_at. by rewrite Hi1. }
  rewrite (run_bind _ _ _ _ _ (on_blk_run _ s1 _ _ Hset)).
  set (B := (inodes s1) ⟪ fsd := _ ⟫). exists count, (with_blk B s1).
  split; [rewrite Z.sub_0_r, (proj2 (truth_true count)) by lia; done|]. split; [done|].
  pose proof (same_store_fsd (inodes s1) ((fsd (inodes s1)) ⟪ inode_table := array_set (inode_table (fsd (inodes s1))) i x' ⟫)) as Hss.
  fold B in Hss. change (user (with_blk B s1)) with (user s1). rewrite Hus. rewrite <- (Z2Nat.id count) by lia.
  split_and!.
  - intros k Hk. rewrite byte_at_stores by lia.
    destruct (Z.leb_spec (b0 + bf) (b0 + bf + k)), (Z.ltb_spec (b0 + bf + k) (b0 + bf + Z.of_nat (Z.to_nat count))); try lia.
    cbn [andb]. unfold wanted. by replace (b0 + bf + k - (b0 + bf)) with k by lia.
  - intros a Ha Hout. rewrite byte_at_stores by lia.
    destruct (Z.leb_spec (b0 + bf) a), (Z.ltb_spec a (b0 + bf + Z.of_nat (Z.to_nat count))); (done || lia).
  - rewrite Z2Nat.id by lia. exact (reading_file _ _ Hr).
  - unfold with_blk, B. cbn [inodes fsd inode_table set_field]. by eapply array_get_set_eq, array_get_Some_bound.
  - eapply same_store_ready; [exact Hss|apply Hq].
  - intros m. change (inodes (with_blk B s1)) with B. rewrite (same_store_view _ _ _ Hss). apply Hq.
  - exact Hks.
  - exact Hkm.
Qed.
End read.

(** ** A file of three blocks, the second a hole *)

#[local] Instance demo_sleeps : Sleeps := fun _ => panic "asleep".
#[local] Instance demo_drivers : Drivers := fun _ => mret tt.
#[local] Instance demo_change : FloppyChange := fun _ => mret 0.

Definition demo_inode : m_inode :=
  MInode 0x81A4 0 3072 0 0 1 [2; 0; 3; 0; 0; 0; 0; 0; 0] 0 0 RAMDISK 7 1 0 0 0 0 0 0.
Definition demo_file : file := File 0x81A4 0 1 (Some 0) 1020.
Definition demo_reader (B : blk) : kernel blk :=
  Kernel (Sched (Some (INIT_TASK 0 0) :: replicate 63 None) 0 0 0 None false [] [] ∅)
    (MM [] 0 ∅) 1 [] [demo_file] (B ⟪ fsd := FsTables [demo_inode] 0 [] RAMDISK ⟫) [] ∅.

Lemma file_read_reads_witness :
  wp (file_read 1 0 0 0 0x500 8) (fun r s' =>
    r = 8 /\ byte_at (user s') 0x503 = 12 /\ byte_at (user s') 0x504 = 0) (demo_reader demo).
Proof.
  assert (Hv : view demo 2 = replicate 1024 12) by (vm_compute; reflexivity).
  generalize Alloc.demo_ready demo_length Hv. generalize demo as B. intros B Hr Hl Hv2.
  set (B' := B ⟪ fsd := FsTables [demo_inode] 0 [] RAMDISK ⟫).
  pose proof (same_store_fsd B (FsTables [demo_inode] 0 [] RAMDISK)) as Hss. fold B' in Hss.
  assert (Hblock : forall p, 1020 <= p < 1028 -> file_block B' demo_inode (p / 1024) = if p <? 1024 then 2 else 0).
  { intros p Hp. destruct (Z.ltb_spec p 1024).
    - by replace (p / 1024) with 0 by (apply (Z.div_unique _ _ _ p); lia).
    - by replace (p / 1024) with 1 by (apply (Z.div_unique _ _ _ (p - 1024)); lia). }
  assert (Hbase : user_base_is (demo_reader B) 0).
  { exists (INIT_TASK 0 0); eexists; split_and!; reflexivity. }
  assert (Hpath : forall p, 1020 <= p < 1028 -> path_ok B' demo_inode (p / 1024)).
  { intros p Hp. assert (p / 1024 < 7) by (apply Z.div_lt_upper_bound; lia).
    split; [|split; intros; lia]. rewrite Hblock by lia. unfold on_device.
    change (rd_length B') with (rd_length B). rewrite Hl. destruct (p <? 1024); lia. }
  eapply wp_mono.
  { exact (file_read_reads 0 0 0 0 0 0x500 8 demo_inode demo_file (demo_reader B) eq_refl (same_store_ready _ _ Hss Hr)
      eq_refl eq_refl Hbase ltac:(simpl; lia) ltac:(vm_compute; discriminate) Hpath ltac:(lia) ltac:(lia) ltac:(lia)). }
  cbv beta. intros r s' (-> & Hb & _). split; [reflexivity|].
  change (inodes (demo_reader B)) with B' in Hb. change (f_pos demo_file) with 1020 in Hb.
  assert (Hbyte : forall k, 0 <= k < 8 -> file_byte B' demo_inode (1020 + k) = if k <? 4 then 12 else 0).
  { intros k Hk. unfold file_byte. rewrite Hblock by lia.
    destruct (Z.ltb_spec (1020 + k) 1024), (Z.ltb_spec k 4); try lia; [|reflexivity].
    rewrite (same_store_view _ _ 2 Hss), Hv2. rewrite Z.mod_small by lia.
    unfold array_get. destruct (Z.leb_spec 0 (1020 + k)); [|lia].
    by rewrite lookup_replicate_2 by lia. }
  split; [specialize (Hb 3 ltac:(lia))|specialize (Hb 4 ltac:(lia))]; rewrite Hbyte in Hb by lia; exact Hb.
Defined.
End FileRead.
