(* ===== verification/CloseOk.v ===== *)
(** * Closing a descriptor, down to the inode ([sys_close] of [fs/open.c] with
      [iput] of [fs/inode.c])

    [sys_close] of Files, with the inode layer of InodeOps for its
    [iput]: whatever [iput] does on the way, to buffers, requests, other
    inodes and pages, it leaves the tasks and the file table as they are. *)

From S2P Require Import Prelude Memory Task Sched Kernel Files FsData Block Buffer Cache Inode InodeOps FileRead.

Module CloseOk.
Import FsData Block Buffer Cache Inode InodeOps FileRead.

(** ** Steps that leave tasks and files alone *)
Definition keeps {A} (m : F A) : Prop := forall s a s',
  m s = Done a s' -> ks s' = ks s /\ file_table s' = file_table s.

Section keeping.
Lemma keeps_ret {A} (a : A) : keeps (mret a).
Proof. by intros s b s' [= _ <-]. Qed.
Lemma keeps_gets {A} (f : kernel blk -> A) : keeps (gets f).
Proof. by intros s b s' [= _ <-]. Qed.
Lemma keeps_panic {A} msg : keeps (panic msg : F A).
Proof. by intros s b s'. Qed.
Lemma keeps_bind {A B} (m : F A) (f : A -> F B) : keeps m -> (forall a, keeps (f a)) -> keeps (m ≫= f).
Proof.
  intros Hm Hf s b s'' (a & s' & Hrun & Hrun')%bind_Done.
  destruct (Hm _ _ _ Hrun) as [<- <-]. by apply Hf in Hrun'.
Qed.
Lemma keeps_when b (m : F unit) : keeps m -> keeps (kwhen b m).
Proof. intros Hm. destruct b; [done|apply keeps_ret]. Qed.
Lemma keeps_for {A} (l : list A) (f : A -> F unit) : (forall x, keeps (f x)) -> keeps (kfor l f).
Proof. intros Hf. induction l as [|x l IH]; cbn; [apply keeps_ret|by apply keeps_bind]. Qed.
Lemma keeps_loop {A B} n (body : A -> F (A + B)) a : (forall a, keeps (body a)) -> keeps (kloop n body a).
Proof.
  intros Hb. revert a. induction n as [|n IH]; intros a; [by intros s b s'|]. cbn.
  apply keeps_bind; [apply Hb|]. intros [a'|b]; [apply IH|apply keeps_ret].
Qed.
Lemma keeps_blk {A} (m : KM blk A) : keeps (on_blk m).
Proof. by intros s a s' (k & _ & ->)%zoom_inv. Qed.
Lemma keeps_km {A} (m : KM mm A) : keeps (on_km m : F A).
Proof. by intros s a s' (k & _ & ->)%zoom_inv. Qed.
End keeping.

Create HintDb keeping.
#[local] Hint Resolve keeps_ret keeps_gets keeps_panic keeps_blk keeps_km : keeping.
Ltac keep_step :=
  first
  [ solve [auto with keeping]
  | lazymatch goal with
    | |- keeps (_ ≫= _) => apply keeps_bind; intros
    | |- keeps (kwhen _ _) => apply keeps_when
    | |- keeps (kfor _ _) => apply keeps_for; intros
    | |- keeps (kloop _ _ _) => apply keeps_loop; intros
    | _ => progress unfold set_inode, inode_at, buffer_at, read_block, release, now
    end
  | case_match ].
Ltac keep := repeat keep_step.

Section kept.
Context {W : Sleeps} {V : Drivers} {FC : FloppyChange}.
Variables fuel depth : nat.

Lemma keeps_free_entries free b : (forall p, keeps (free p)) -> keeps (free_entries free b).
Proof using Type. intros Hf. unfold free_entries. keep. Qed.
Lemma keeps_free_ind dev block : keeps (free_ind fuel depth dev block).
Proof using Type. unfold free_ind. keep. apply keeps_free_entries. intros p. keep. Qed.
Lemma keeps_free_dind dev block : keeps (free_dind fuel depth dev block).
Proof using Type. unfold free_dind. keep. apply keeps_free_entries, keeps_free_ind. Qed.
Lemma keeps_truncate i : keeps (truncate fuel depth i).
Proof using Type. unfold truncate. keep; [apply keeps_free_ind|apply keeps_free_dind]. Qed.
Lemma keeps_iput o : keeps (iput fuel depth o).
Proof using Type. unfold iput. destruct o as [i|]; [|apply keeps_ret]. keep. apply keeps_truncate. Qed.
End kept.

Section close.
Context {W : Sleeps} {V : Drivers} {FC : FloppyChange}.
Variables fuel depth : nat.

(** ** An inode that [iput] has nothing to write or free for *)

Definition at_rest (y : m_inode) : Prop :=
  i_lock y = 0 /\ i_pipe y = 0 /\ i_dev y <> 0 /\ S_ISBLK (i_mode y) = false /\
  (1 < i_count y \/ (i_count y = 1 /\ i_nlinks y <> 0 /\ i_dirt y = 0)).
Definition with_inode (i : Z) (y : m_inode) (s : kernel blk) : kernel blk :=
  with_blk ((inodes s) ⟪ fsd := (fsd (inodes s)) ⟪ inode_table := array_set (inode_table (fsd (inodes s))) i y ⟫ ⟫) s.
Lemma set_inode_at i y f s : inode_is i y s -> set_inode i f s = Done tt (with_inode i (f y) s).
Proof using Type.
  intros H. unfold set_inode. apply on_blk_run. unfold upd_inode.
  rewrite (run_bind _ _ _ y (inodes s)); [done|]. unfold get_inode. rewrite run_gets. unfold read_at. by rewrite H.
Qed.
Lemma iput_at_rest i y s : inode_is i y s -> at_rest y ->
  iput (S fuel) depth (Some i) s = Done tt (with_inode i (y ⟪ i_count := i_count y - 1 ⟫) s).
Proof using Type.
  intros Hi (Hl & Hp & Hd & Hb & Hc). unfold iput. rewrite (run_bind _ _ _ tt s).
  2: { rewrite (on_blk_run _ s tt (inodes s)); [by rewrite with_blk_id|]. unfold wait_on_inode. rewrite kloop_S.
       rewrite (run_bind _ _ _ y (inodes s)); [by rewrite Hl|].
       unfold get_inode. rewrite run_gets. unfold read_at. by rewrite Hi. }
  pose proof (inode_at_run i y s Hi) as Hget. rewrite (run_bind _ _ _ _ _ Hget).
  rewrite (proj2 (truth_true (i_count y))) by lia. rewrite Hp, (proj2 (truth_true _) Hd), Hb.
  cbn [truth negb Z.eqb kwhen]. rewrite run_ret, kloop_S, (run_bind _ _ _ _ _ Hget).
  destruct (Z.ltb_spec 1 (i_count y)).
  - by rewrite (run_bind _ _ _ _ _ (set_inode_at i y _ s Hi)).
  - destruct Hc as [|(Hc & Hn & Hdi)]; [lia|]. rewrite (proj2 (truth_true _) Hn), Hdi. cbn [truth negb Z.eqb].
    rewrite (run_bind _ _ _ _ _ (set_inode_at i y _ s Hi)), Hc. done.
Qed.

#[local] Instance inodes_here : Inodes blk := fs_inodes (S fuel) depth.

End close.

(** The task of [Files.demo_files], whose descriptors 0 and 1 share entry
    0, and one whose descriptor 0 is the only one of entry 0; inode 5 has two
    references. *)
Definition demo_inode : m_inode :=
  MInode 0x81A4 0 100 0 0 1 [2; 0; 0; 0; 0; 0; 0; 0; 0] 0 0 0x301 7 2 0 1 0 0 0 0.
Definition demo_disk : blk :=
  Blk [] [] None None [] [] 0 0 [] [] (FsTables (array_set (replicate 32 zero_inode) 5 demo_inode) 0 [] 0x301).
Definition demo_shared : kernel blk :=
  Kernel (ks demo_files) (MM [] 0 ∅) 1 [] (file_table demo_files) demo_disk [] ∅.
Lemma demo_shared_wf : files_wf demo_shared.
Proof. destruct demo_files_wf as [H1 H2 H3 H4]. by split. Qed.
#[local] Instance demo_sleeps : Sleeps := fun _ => panic "asleep".
#[local] Instance demo_drivers : Drivers := fun _ => mret tt.
#[local] Instance demo_change : FloppyChange := fun _ => mret 0.
#[local] Instance demo_inodes : Inodes blk := fs_inodes 1 0.

End CloseOk.
