(* ===== verification/Lookup.v ===== *)
(** * Looking a name up in a directory ([find_entry] of [fs/namei.c])

    A directory is a file of entries of sixteen bytes, 64 to the block.
    [find_entry] goes through the blocks with [bmap] and [bread]; the
    theorem says that it finds the first entry with the name. *)

From S2P Require Import Prelude Memory Task Sched Kernel Files FsData Block Buffer Cache Getblk Ramdisk Store Inode StoreOps InodeOps Namei Alloc FileRead.

Module Lookup.
Import FsData Block Buffer Cache Getblk Ramdisk Store Inode StoreOps InodeOps Namei FileRead.

(** Entry [i] of the directory with the inode [x]: its inode number, and
    character [j] of its name. *)
Definition entry_block (B : blk) (x : m_inode) (i : Z) : list Z := view B (file_block B x (i / 64)).
Definition entry_inode (B : blk) (x : m_inode) (i : Z) : Z := de_inode (entry_block B x i) (i mod 64).
Definition entry_char (B : blk) (x : m_inode) (i j : Z) : Z := de_name (entry_block B x i) (i mod 64) j.
(** The entry is in use and has the name [c], of [len] characters. *)
Definition named (B : blk) (x : m_inode) (c : Z -> Z) (len i : Z) : Prop :=
  entry_inode B x i <> 0 /\ (len < NAME_LEN -> entry_char B x i len = 0) /\
  forall j, 0 <= j < len -> entry_char B x i j = c j.


(** [match] of entry [k] of a block with the name [c]. *)
Definition matches (c : Z -> Z) (len : Z) (l : list Z) (k : Z) : bool :=
  negb (de_inode l k =? 0) && ((NAME_LEN <=? len) || (de_name l k len =? 0)) &&
  forallb (fun j => c j =? de_name l k j) (upto len).
Lemma matches_named B x c len i :
  len <= NAME_LEN -> matches c len (entry_block B x i) (i mod 64) = true <-> named B x c len i.
Proof.
  intros Hlen. unfold matches, named, entry_inode, entry_char.
  rewrite !andb_true_iff, negb_true_iff, Z.eqb_neq, orb_true_iff, Z.leb_le, Z.eqb_eq, forallb_forall.
  split.
  - intros ((Hi & He) & Hc). split_and!; [done|intros; destruct He; [lia|done]|].
    intros j Hj. symmetry. apply Z.eqb_eq, Hc, list_elem_of_In, elem_of_upto. lia.
  - intros (Hi & He & Hc). split_and!; [done|destruct (Z.leb_spec NAME_LEN len); [by left|right; apply He; lia]|].
    intros j Hj. apply list_elem_of_In, elem_of_upto in Hj. apply Z.eqb_eq. symmetry. by apply Hc.
Qed.

Section lookup.
Context {W : Sleeps} {V : Drivers} {FC : FloppyChange}.
Variables (fuel depth : nat) (dir b0 name len : Z) (x : m_inode) (s : kernel blk).
Hypothesis Hdev : i_dev x = RAMDISK.
Hypothesis Hready : ready (inodes s).
Hypothesis Hinode : inode_is dir x s.
Hypothesis Hbase : user_base_is s b0.
Hypothesis Hlen : 0 < len <= NAME_LEN.

(** The name that is looked for. *)
Definition user_char (j : Z) : Z := byte_at (user s) (b0 + (name + j)).
Lemma get_fs_byte_run B a : get_fs_byte a (with_blk B s) = Done (byte_at (user s) (b0 + a)) (with_blk B s).
Proof using Hbase.
  assert (H : wp (get_fs_byte a) (fun v s' => v = byte_at (user s) (b0 + a) /\ s' = with_blk B s) (with_blk B s))
    by (by apply (PipeQueue.PipeQueue.wp_get_fs_byte b0)).
  apply wp_run in H as (v & s' & H & -> & ->). exact H.
Qed.

(** ** [match] *)

Lemma same_name_run B l k : forall n j,
  same_name n name l k j (with_blk B s) =
    Done (forallb (fun j => user_char j =? de_name l k j) (seqZ j (Z.of_nat n))) (with_blk B s).
Proof using Hbase.
  induction n as [|n IH]; intros j; [done|]. cbn [same_name].
  rewrite (run_bind _ _ _ _ _ (get_fs_byte_run B (name + j))), seqZ_cons by lia. fold (user_char j). cbn [forallb].
  destruct (user_char j =? de_name l k j); [|done].
  rewrite IH. by replace (Z.pred (Z.of_nat (S n))) with (Z.of_nat n) by lia.
Qed.
Lemma match_entry_run B l k : match_entry len name l k (with_blk B s) = Done (matches user_char len l k) (with_blk B s).
Proof using Hbase Hlen.
  unfold match_entry, matches. destruct (Z.ltb_spec NAME_LEN len); [lia|]. rewrite orb_false_r.
  destruct (de_inode l k =? 0); [done|]. cbn [negb andb].
  destruct (Z.ltb_spec len NAME_LEN) as [Hl|Hl], (Z.leb_spec NAME_LEN len); try lia; cbn [andb orb].
  - unfold truth. destruct (de_name l k len =? 0); [|done]. cbn [negb andb].
    rewrite same_name_run, Z2Nat.id by lia. done.
  - rewrite same_name_run, Z2Nat.id by lia. done.
Qed.

(** ** The loop *)

Definition entries : Z := i_size x / 16.
Hypothesis Hsize : 0 < entries <= 64 * MAX_BLOCK.
Hypothesis Hblocks : forall m, 0 <= 64 * m < entries -> file_block (inodes s) x m <> 0 /\ path_ok (inodes s) x m.

(** The state in which block [m] of the directory is held in [b]. *)
Record holding (m b : Z) (s1 : kernel blk) : Prop := {
  ho_state : s1 = with_blk (inodes s1) s;
  ho_held : exists B y, quiet (inodes s) B /\ held B (inodes s1) b y /\ b_data y = view (inodes s) (file_block (inodes s) x m)
}.

Lemma read_dir_block B m : quiet (inodes s) B -> 0 <= 64 * m < entries -> exists b s2,
  read_block (S fuel) depth RAMDISK (file_block (inodes s) x m) (with_blk B s) = Done (Some b) s2 /\ holding m b s2.
Proof using Hblocks.
  intros Hq Hm. destruct (Hblocks m Hm) as [Hz ((Hz0 & Hzl) & _)].
  destruct (read_block_run fuel depth (with_blk B s) _ (qu_ready _ _ Hq) Hz0) as (b & B1 & y & Hrun & Hheld & Hd & _).
  { cbn [with_blk inodes set_field]. rewrite (qu_length _ _ Hq). by apply Hzl. }
  exists b, (with_blk B1 s). split; [exact Hrun|]. split; [done|]. exists B, y. split_and!; [done|done|].
  rewrite Hd. apply Hq.
Qed.

Definition step_result (i : Z) (r : Z * option Z * Z + option (Z * Z)) (s2 : kernel blk) : Prop :=
  exists b, holding (i / 64) b s2 /\
    ((named (inodes s) x user_char len i /\ r = inr (Some (b, i mod 64))) \/
     (~ named (inodes s) x user_char len i /\ r = inl (i + 1, Some b, i mod 64 + 1))).

Lemma look_run i b s1 : holding (i / 64) b s1 -> exists r s2,
  (h ← buffer_at b; m ← match_entry len name (b_data h) (i mod 64);
   if m : bool then mret (inr (Some (b, i mod 64))) else mret (inl (i + 1, Some b, i mod 64 + 1))) s1 = Done r s2 /\
  step_result i r s2.
Proof using Hbase Hlen.
  intros Hh. pose proof Hh as [Hs (B & y & Hq & Hheld & Hd)].
  rewrite (run_bind _ _ _ _ _ (buffer_at_run s1 b y (hd_get _ _ _ _ Hheld))). rewrite Hs, Hd.
  fold (entry_block (inodes s) x i). rewrite (run_bind _ _ _ _ _ (match_entry_run _ _ _)).
  pose proof (matches_named (inodes s) x user_char len i (proj2 Hlen)) as Hn. rewrite <- Hs.
  destruct (matches _ _ _ _); eexists _, s1; (split; [reflexivity|]); exists b; (split; [done|]); [left|right]; (split; [|done]); [by apply Hn|].
  intros H%Hn. done.
Qed.

Lemma find_step_run i m b k s1 :
  holding m b s1 -> i = 64 * m + k -> 0 <= k <= 64 -> 0 <= m -> i < entries -> exists r s2,
  find_step (S fuel) depth dir name len entries (i, Some b, k) s1 = Done r s2 /\ step_result i r s2.
Proof using All.
  intros Hh Hi Hk Hm Hie. unfold find_step. rewrite (proj2 (Z.leb_gt _ _)) by lia. cbv zeta.
  change DIR_ENTRIES_PER_BLOCK with 64. destruct (Z.ltb_spec k 64).
  - assert (Hdm : i / 64 = m /\ i mod 64 = k).
    { split; [symmetry; apply (Z.div_unique _ _ _ k)|symmetry; apply (Z.mod_unique _ _ m)]; lia. }
    destruct Hdm as [Hd <-]. apply look_run. by rewrite Hd.
  - assert (k = 64) as -> by lia. assert (Hdm : i / 64 = m + 1 /\ i mod 64 = 0).
    { split; [symmetry; apply (Z.div_unique _ _ _ 0)|symmetry; apply (Z.mod_unique _ _ (m + 1))]; lia. }
    destruct Hdm as [Hd Hmod]. pose proof Hh as [Hs (B & y & Hq & Hheld & Hdat)].
    destruct (release_run fuel s1 B (inodes s1) b y Hheld eq_refl) as (B2 & Hrel & Hq2).
    assert (Hq2' : quiet (inodes s) B2) by (by eapply quiet_trans).
    rewrite (run_bind _ _ _ _ _ Hrel). rewrite Hs, with_blk_twice.
    assert (Hmb : 0 <= 64 * (m + 1) < entries) by lia. destruct (Hblocks _ Hmb) as [Hnz Hpath].
    destruct (bmap_run fuel depth dir x Hdev (with_blk B2 s) (m + 1) (qu_ready _ _ Hq2') (inode_is_quiet _ _ _ _ Hq2' Hinode))
      as (B3 & Hmap & Hq3).
    { destruct Hsize. lia. }
    { exact (path_ok_quiet _ _ _ _ Hq2' Hpath). }
    change (inodes (with_blk B2 s)) with B2 in Hmap, Hq3. rewrite (file_block_quiet _ _ _ _ Hq2'), with_blk_twice in Hmap.
    rewrite Hd, (run_bind _ _ _ _ _ Hmap). rewrite (proj2 (truth_true _) Hnz).
    assert (Hq3' : quiet (inodes s) B3) by (by eapply quiet_trans).
    destruct (read_dir_block B3 (m + 1) Hq3' Hmb) as (b2 & s2 & Hread & Hh2).
    rewrite <- Hd in Hh2. pose proof (look_run i b2 s2 Hh2) as Hlook. rewrite Hmod in Hlook.
    erewrite run_bind; cycle 1.
    { rewrite (run_bind _ _ _ _ _ (inode_at_run dir x (with_blk B3 s) (inode_is_quiet _ _ _ _ Hq3' Hinode))), Hdev. exact Hread. }
    exact Hlook.
Qed.

(** The result of the search from entry [i] on. *)
Definition found (i : Z) (r : option (Z * Z)) (s2 : kernel blk) : Prop :=
  match r with
  | Some (b, k) => exists j, i <= j < entries /\ k = j mod 64 /\ holding (j / 64) b s2 /\ named (inodes s) x user_char len j /\
      forall j', i <= j' < j -> ~ named (inodes s) x user_char len j'
  | None => s2 = with_blk (inodes s2) s /\ quiet (inodes s) (inodes s2) /\
      forall j, i <= j < entries -> ~ named (inodes s) x user_char len j
  end.
Lemma search_run n : forall i m b k s1,
  holding m b s1 -> i = 64 * m + k -> 0 <= k <= 64 -> 0 <= m -> i <= entries -> entries - i < Z.of_nat n -> exists r s2,
  kloop n (find_step (S fuel) depth dir name len entries) (i, Some b, k) s1 = Done r s2 /\ found i r s2.
Proof using All.
  induction n as [|n IH]; intros i m b k s1 Hh Hi Hk Hm Hie Hn.
  - lia.
  - rewrite kloop_S. destruct (Z.leb_spec entries i) as [Hend|Hmore].
    + pose proof Hh as [Hs (B & y & Hq & Hheld & Hdat)].
      destruct (release_run fuel s1 B (inodes s1) b y Hheld eq_refl) as (B2 & Hrel & Hq2).
      unfold find_step. rewrite (proj2 (Z.leb_le _ _)) by done. rewrite (run_bind _ _ _ _ _ Hrel).
      eexists None, _. split; [reflexivity|]. rewrite Hs, with_blk_twice. split_and!; [done|by eapply quiet_trans|lia].
    + destruct (find_step_run i m b k s1 Hh Hi Hk Hm Hmore) as (r & s2 & Hrun & b2 & Hh2 & [[Hnm ->]|[Hnm ->]]); rewrite Hrun.
      * eexists _, s2. split; [reflexivity|]. exists i. split_and!; [lia|lia|done|done|done|lia].
      * pose proof (Z.div_mod i 64). pose proof (Z.mod_pos_bound i 64).
        destruct (IH (i + 1) (i / 64) b2 (i mod 64 + 1) s2 Hh2) as (r & s3 & Hrun3 & Hpost); [lia|lia|apply Z.div_pos; lia|lia|lia|].
        exists r, s3. split; [done|]. destruct r as [[b3 k3]|]; cbn [found] in *.
        -- destruct Hpost as (j & Hj & Hk3 & Hh3 & Hnj & Hbefore). exists j. split_and!; [lia|lia|done|done|done|].
           intros j' Hj'. destruct (decide (j' = i)) as [->|]; [done|]. apply Hbefore. lia.
        -- destruct Hpost as (Hs3 & Hq3 & Hnone). split_and!; [done|done|].
           intros j Hj. destruct (decide (j = i)) as [->|]; [done|]. apply Hnone. lia.
Qed.

Lemma dot_dot_run : ~ (len = 2 /\ user_char 0 = 46 /\ user_char 1 = 46) ->
  dot_dot (S fuel) depth dir name len s = Done (dir, len) s.
Proof using Hbase Hlen.
  intros Hn. unfold dot_dot. destruct (Z.eqb_spec len 2) as [->|]; [|done]. cbn [negb].
  assert (Hs : s = with_blk (inodes s) s) by (symmetry; apply with_blk_id). unfold user_char in Hn. rewrite Z.add_0_r in Hn.
  rewrite Hs at 1. rewrite (run_bind _ _ _ _ _ (get_fs_byte_run _ name)), (run_bind _ _ _ _ _ (get_fs_byte_run _ (name + 1))).
  rewrite <- Hs. destruct (Z.eqb_spec (byte_at (user s) (b0 + name)) 46), (Z.eqb_spec (byte_at (user s) (b0 + (name + 1))) 46);
    cbn [andb negb]; try done. exfalso. by apply Hn.
Qed.

(** What [find_entry] returns, where [dot_dot] has settled the directory and
    the length of the name. *)
Definition find_result (r : Z * option (Z * Z)) (s' : kernel blk) : Prop :=
  fst r = dir /\ found 0 (snd r) s'.
Lemma find_entry_run (namelen : Z) :
  dot_dot (S fuel) depth dir name (Z.min namelen NAME_LEN) s = Done (dir, len) s -> namelen <> 0 ->
  exists r s', find_entry (S fuel) depth dir name namelen s = Done r s' /\ find_result r s'.
Proof using All.
  intros Hdot Hn. unfold find_entry.
  rewrite (run_bind _ _ _ _ _ (inode_at_run dir x s Hinode)). fold entries.
  rewrite (proj2 (truth_true (Z.min namelen NAME_LEN))) by (unfold NAME_LEN; lia). cbn [negb].
  rewrite (run_bind _ _ _ _ _ Hdot). cbv iota beta.
  rewrite (run_bind _ _ _ _ _ (inode_at_run dir x s Hinode)), Hdev.
  destruct (Hblocks 0) as [Hz _]; [lia|]. change (file_block (inodes s) x 0) with (zone_of x 0) in Hz.
  rewrite (proj2 (truth_true _) Hz). cbn [negb].
  destruct (read_dir_block (inodes s) 0 (quiet_refl _ Hready) ltac:(lia)) as (b & s1 & Hread & Hh).
  change (file_block (inodes s) x 0) with (zone_of x 0) in Hread. rewrite with_blk_id in Hread. rewrite (run_bind _ _ _ _ _ Hread).
  destruct (search_run (S (Z.to_nat entries)) 0 0 b 0 s1 Hh) as (r & s2 & Hrun & Hfound); [lia..|].
  rewrite (run_bind _ _ _ _ _ Hrun). by eexists _, s2.
Qed.

(** C14: [find_entry] finds a name in a directory.  On the ramdisk's file
    system, for a directory whose blocks are all there, and a name of at
    least one character that is not [..] (only the first fourteen characters
    count), it completes, with the directory unchanged: it returns the first
    entry in use with the name, as the number of the entry in its block and
    the buffer that holds the block, which it keeps; or nothing, when no
    entry has the name, and then every buffer is released.  No block has
    changed, and no other part of the state. *)
Theorem find_entry_finds (namelen : Z) :
  len = Z.min namelen NAME_LEN -> ~ (len = 2 /\ user_char 0 = 46 /\ user_char 1 = 46) ->
  wp (find_entry (S fuel) depth dir name namelen) (fun r s' => fst r = dir /\
    match snd r with
    | Some (b, k) => exists i, 0 <= i < entries /\ k = i mod 64 /\ holding (i / 64) b s' /\
        named (inodes s) x user_char len i /\ forall i', 0 <= i' < i -> ~ named (inodes s) x user_char len i'
    | None => s' = with_blk (inodes s') s /\ quiet (inodes s) (inodes s') /\
        forall i, 0 <= i < entries -> ~ named (inodes s) x user_char len i
    end) s.
Proof using All.
  intros Hl Hdot. apply wp_run. pose proof (dot_dot_run Hdot) as Hdd. rewrite Hl in Hdd at 1.
  destruct (find_entry_run namelen Hdd ltac:(lia)) as (r & s' & Hrun & Hd & Hfound). exists r, s'. split; [exact Hrun|].
  split; [exact Hd|]. by destruct (snd r) as [[b k]|].
Qed.
End lookup.

(** ** A directory of one block, whose bytes are all 12 *)

#[local] Instance demo_sleeps : Sleeps := fun _ => panic "asleep".
#[local] Instance demo_drivers : Drivers := fun _ => mret tt.
#[local] Instance demo_change : FloppyChange := fun _ => mret 0.

Definition demo_dir : m_inode :=
  MInode 0x41ED 0 1024 0 0 2 [2; 0; 0; 0; 0; 0; 0; 0; 0] 0 0 RAMDISK 1 1 0 0 0 0 0 0.
Definition demo_finder (B : blk) : kernel blk :=
  Kernel (Sched (Some (INIT_TASK 0 0) :: replicate 63 None) 0 0 0 None false [] [] ∅)
    (MM [] 0 ∅) 1 [] [] (B ⟪ fsd := FsTables [demo_dir] 0 [] RAMDISK ⟫) []
    (fold_left (fun u k => set_byte (0x500 + k) 12 u) (upto 14) ∅).

Lemma find_entry_finds_witness :
  wp (find_entry 1 0 0 0x500 20) (fun r s' => exists b, r = (0, Some (b, 0))) (demo_finder demo).
Proof.
  assert (Hv : view demo 2 = replicate 1024 12) by (vm_compute; reflexivity).
  generalize Alloc.demo_ready demo_length Hv. generalize demo as B. intros B Hr Hl Hv2.
  pose proof (same_store_fsd B (FsTables [demo_dir] 0 [] RAMDISK)) as Hss.
  assert (Hbase : user_base_is (demo_finder B) 0) by (exists (INIT_TASK 0 0); eexists; split_and!; reflexivity).
  assert (Hchar : forall j, 0 <= j < 14 -> user_char 0 0x500 (demo_finder B) j = 12).
  { assert (Hall : forallb (fun j => user_char 0 0x500 (demo_finder B) j =? 12) (upto 14) = true) by (vm_compute; reflexivity).
    intros j Hj. by apply Z.eqb_eq, (proj1 (forallb_forall _ _) Hall), list_elem_of_In, elem_of_upto. }
  eapply wp_mono.
  { apply (find_entry_finds 0 0 0 0 0x500 14 demo_dir (demo_finder B) eq_refl (same_store_ready _ _ Hss Hr) eq_refl Hbase); [done|done| |done|].
    - intros m Hm. assert (m = 0) as -> by (change (entries demo_dir) with 64 in Hm; lia).
      split; [done|]. split; [|split; intros; lia]. split; [done|]. intros _.
      change (rd_length (inodes (demo_finder B))) with (rd_length B). rewrite Hl. vm_compute. discriminate.
    - intros [H _]. discriminate H. }
  assert (H0 : named (inodes (demo_finder B)) demo_dir (user_char 0 0x500 (demo_finder B)) 14 0).
  { assert (Hblk : entry_block (inodes (demo_finder B)) demo_dir 0 = replicate 1024 12).
    { unfold entry_block. change (file_block _ demo_dir (0 / 64)) with 2. etransitivity; [exact (same_store_view _ _ 2 Hss)|exact Hv2]. }
    unfold named, entry_inode, entry_char. rewrite Hblk. split_and!; [done|done|].
    assert (Hall : forallb (fun j => de_name (replicate 1024 12) (0 mod 64) j =? 12) (upto 14) = true) by (vm_compute; reflexivity).
    intros j Hj. rewrite Hchar by done. by apply Z.eqb_eq, (proj1 (forallb_forall _ _) Hall), list_elem_of_In, elem_of_upto. }
  intros [d [[b k]|]] s' [Hd Hpost]; cbn [fst snd] in *; subst d.
  - destruct Hpost as (i & Hi & -> & _ & _ & Hbefore). destruct (decide (i = 0)) as [->|Hne]; [by exists b|].
    exfalso. apply (Hbefore 0); [lia|exact H0].
  - destruct Hpost as (_ & _ & Hnone). exfalso. apply (Hnone 0); [split; [done|reflexivity]|exact H0].
Defined.
End Lookup.
