(* ===== verification/Iget.v ===== *)
(** * The inode table as a cache ([iget] of [fs/inode.c])

    What a slot of the table means for the inodes on the disk, and what
    [iget] does to the table: it returns the one slot in use for an inode
    with one more reference, or fills a free slot from the disk. *)

From S2P Require Import Prelude Memory Task Sched Kernel Files FsData Block Buffer Cache Getblk Ramdisk Store Inode StoreOps InodeOps Alloc FileRead.

Module Iget.
Import FsData Block Buffer Cache Getblk Ramdisk Store Inode StoreOps InodeOps Alloc FileRead.

(** ** The table *)

Abbreviation table := (list m_inode).
Definition is_inode (dev nr : Z) (x : m_inode) : Prop := i_dev x = dev /\ i_num x = nr.
#[global] Instance is_inode_dec dev nr x : Decision (is_inode dev nr x).
Proof. unfold is_inode. apply _. Defined.
(** A slot that nobody refers to. *)
Definition unused (x : m_inode) : Prop := i_count x = 0.
(** The fields of an inode that are kept on the disk. *)
Definition on_disk (x : m_inode) : Z * Z * Z * Z * Z * Z * list Z :=
  (i_mode x, i_uid x, i_size x, i_mtime x, i_gid x, i_nlinks x, i_zone x).
(** The inode that the file system's blocks hold. *)
Definition disk_inode (B : blk) (sb : super_block) (x : m_inode) : m_inode :=
  get_d_inode (view B (inode_block x sb)) (inode_place x) x.

(** Slots are not locked; those that are not in use are clean, and agree with
    the disk when they name an inode; no two slots name the same one. *)
Record table_ok (B : blk) (sb : super_block) (T : table) : Prop := {
  tb_length : length T = 32%nat;
  tb_unlocked : forall i x, array_get T i = Some x -> i_lock x = 0;
  tb_clean : forall i x, array_get T i = Some x -> unused x -> i_dirt x = 0;
  tb_disk : forall i x, array_get T i = Some x -> unused x -> i_dev x = RAMDISK ->
    on_disk x = on_disk (disk_inode B sb x);
  tb_unique : forall i j x y, array_get T i = Some x -> array_get T j = Some y ->
    i_dev x <> 0 -> is_inode (i_dev x) (i_num x) y -> i = j
}.

(** The store has not changed, and the table is [T]. *)
Record at_table (B : blk) (T : table) (B' : blk) : Prop := {
  at_ready : ready B';
  at_view : forall m, view B' m = view B m;
  at_length : rd_length B' = rd_length B;
  at_supers : super_blocks (fsd B') = super_blocks (fsd B);
  at_inodes : inode_table (fsd B') = T;
  at_last : 0 <= last_inode (fsd B') < 32
}.
Lemma at_table_store B T T' B' B'' :
  at_table B T B' -> same_store B' B'' -> super_blocks (fsd B'') = super_blocks (fsd B') ->
  inode_table (fsd B'') = T' -> 0 <= last_inode (fsd B'') < 32 -> at_table B T' B''.
Proof.
  intros [H1 H2 H3 H4 H5 _] Hss Hsb HT Hl. split; [by apply (same_store_ready B')| | |congruence|done|done].
  - intros m. by rewrite (same_store_view _ _ _ Hss).
  - destruct Hss as (_ & _ & _ & _ & _ & _ & -> & _). done.
Qed.
Lemma at_table_quiet B T B' B'' : at_table B T B' -> quiet B' B'' -> at_table B T B''.
Proof. intros [] []. split; [done| |congruence|congruence|congruence|congruence]. intros m. congruence. Qed.

(** ** Steps on the table *)

Section steps.
Context {W : Sleeps} {V : Drivers} {FC : FloppyChange}.
Variables (fuel depth : nat) (B : blk).

Lemma get_inode_run T i x B' : at_table B T B' -> array_get T i = Some x -> get_inode i B' = Done x B'.
Proof using Type.
  intros Hat Hx. unfold get_inode. rewrite run_gets, (at_inodes _ _ _ Hat). unfold read_at. by rewrite Hx.
Qed.
Lemma upd_inode_run T i x f B' :
  at_table B T B' -> array_get T i = Some x ->
  exists B'', upd_inode i f B' = Done tt B'' /\ at_table B (array_set T i (f x)) B''.
Proof using Type.
  intros Hat Hx. unfold upd_inode. rewrite (run_bind _ _ _ _ _ (get_inode_run T i x B' Hat Hx)).
  eexists. split; [reflexivity|].
  apply (at_table_store B T _ B'); try done; [|apply Hat]. cbn. by rewrite (at_inodes _ _ _ Hat).
Qed.
Lemma wait_on_inode_run T i x B' :
  at_table B T B' -> array_get T i = Some x -> i_lock x = 0 -> wait_on_inode (S fuel) i B' = Done tt B'.
Proof using Type.
  intros Hat Hx Hl. unfold wait_on_inode. rewrite kloop_S, (run_bind _ _ _ _ _ (get_inode_run T i x B' Hat Hx)), Hl. done.
Qed.

(** [scan_inodes] finds an unused slot among the next [n]. *)
Lemma scan_inodes_run T n : forall B',
  at_table B T B' -> length T = 32%nat ->
  (forall i x, array_get T i = Some x -> i_lock x = 0) ->
  (forall i x, array_get T i = Some x -> unused x -> i_dirt x = 0) ->
  (exists k x, 1 <= k <= Z.of_nat n /\ array_get T ((last_inode (fsd B') + k) mod 32) = Some x /\ unused x) ->
  exists e x B'', scan_inodes n None B' = Done (Some e) B'' /\ at_table B T B'' /\
    array_get T e = Some x /\ unused x.
Proof using Type.
  induction n as [|n IH]; intros B' Hat Hlen Hlock Hclean (k & z & Hk & Hz & Hfree); [lia|]. pose proof (at_last _ _ _ Hat) as Hlast.
  cbn [scan_inodes]. set (l := if NR_INODE <=? last_inode (fsd B') + 1 then 0 else last_inode (fsd B') + 1).
  assert (Hl : l = (last_inode (fsd B') + 1) mod 32 /\ 0 <= l < 32).
  { unfold l, NR_INODE. destruct (Z.leb_spec 32 (last_inode (fsd B') + 1)).
    - replace (last_inode (fsd B') + 1) with 32 by lia. split; [done|lia].
    - rewrite Z.mod_small by lia. lia. }
  set (B1 := B' ⟪ fsd := (fsd B') ⟪ last_inode := l ⟫ ⟫).
  assert (Hat1 : at_table B T B1).
  { apply (at_table_store B T _ B'); try done; [apply Hat|exact (proj2 Hl)]. }
  destruct (array_get_in_bounds T l) as [x Hx]; [lia|].
  rewrite (run_bind _ _ _ tt B1) by done. rewrite run_gets.
  change (last_inode (fsd B1)) with l. rewrite (run_bind _ _ _ _ _ (get_inode_run T l x B1 Hat1 Hx)).
  destruct (decide (unused x)) as [Hu|Hu].
  - pose proof (Hclean l x Hx Hu) as Hd. pose proof (Hlock l x Hx) as Hlk. unfold unused in Hu. rewrite Hu, Hd, Hlk.
    cbn. by exists l, x, B1.
  - rewrite (proj2 (truth_true _)) by done. apply IH; [done|done|done|done|].
    change (last_inode (fsd B1)) with l. destruct (decide (k = 1)) as [->|Hk1].
    + exfalso. destruct Hl as [Hl _]. rewrite <- Hl in Hz. rewrite Hx in Hz. by injection Hz as ->.
    + exists (k - 1), z. split_and!; [lia|lia| |done]. destruct Hl as [-> _].
      rewrite Z.add_mod_idemp_l by lia. by replace (last_inode (fsd B') + 1 + (k - 1)) with (last_inode (fsd B') + k) by lia.
Qed.

Lemma get_empty_inode_run T B' :
  at_table B T B' -> length T = 32%nat ->
  (forall i x, array_get T i = Some x -> i_lock x = 0) ->
  (forall i x, array_get T i = Some x -> unused x -> i_dirt x = 0) -> (exists i x, array_get T i = Some x /\ unused x) ->
  exists e x B'', get_empty_inode (S fuel) depth B' = Done e B'' /\
    at_table B (array_set T e (zero_inode ⟪ i_count := 1 ⟫)) B'' /\ array_get T e = Some x /\ unused x.
Proof using Type.
  intros Hat Hlen Hlock Hclean (i & z & Hz & Hfree). pose proof (at_last _ _ _ Hat) as Hlast.
  pose proof (array_get_Some_bound _ _ _ Hz) as Hib. rewrite Hlen in Hib.
  destruct (scan_inodes_run T 32 B' Hat Hlen Hlock Hclean) as (e & x & B1 & Hscan & Hat1 & Hx & Hu).
  { set (la := last_inode (fsd B')) in *.
    exists (if i <=? la then i - la + 32 else i - la), z.
    destruct (Z.leb_spec i la).
    - replace (la + (i - la + 32)) with (i + 1 * 32) by lia. rewrite Z.mod_add, Z.mod_small by lia. split_and!; (done || lia).
    - replace (la + (i - la)) with i by lia. rewrite Z.mod_small by lia. split_and!; (done || lia). }
  pose proof (Hlock e x Hx) as Hlk. pose proof (Hclean e x Hx Hu) as Hd.
  destruct (upd_inode_run T e x (fun _ => zero_inode ⟪ i_count := 1 ⟫) B1 Hat1 Hx) as (B2 & Hupd & Hat2).
  exists e, x, B2. split_and!; [|done|done|done].
  unfold get_empty_inode. rewrite kloop_S. change (Z.to_nat NR_INODE) with 32%nat.
  rewrite (run_bind _ _ _ _ _ Hscan). cbv iota.
  rewrite (run_bind _ _ _ _ _ (wait_on_inode_run T e x B1 Hat1 Hx Hlk)).
  rewrite (run_bind _ _ _ tt B1).
  2: { rewrite kloop_S, (run_bind _ _ _ _ _ (get_inode_run T e x B1 Hat1 Hx)), Hd. done. }
  rewrite (run_bind _ _ _ _ _ (get_inode_run T e x B1 Hat1 Hx)). unfold unused in Hu. rewrite Hu.
  cbn [truth negb Z.eqb]. rewrite (run_bind _ _ _ _ _ Hupd). done.
Qed.

(** Tables of the file system do not matter to a buffer that is held. *)
Lemma held_fsd s s1 b y f : held s s1 b y -> held (s ⟪ fsd := f ⟫) (s1 ⟪ fsd := f ⟫) b y.
Proof using Type.
  intros [H1 H2 H3 H4 H5 _ H7 H8]. split; try done.
  - by apply (same_store_ok s1).
  - by apply (same_store_ready (set_buf b (counted (b_count y - 1) y) s1)).
Qed.

Context (k : Z) (sb : super_block).
Hypothesis Hsuper : super_of B RAMDISK k sb.

Lemma super_at T B' : at_table B T B' -> super_of B' RAMDISK k sb.
Proof using Hsuper.
  intros Hat. destruct Hsuper as [H1 H2 H3 H4 H5].
  split; [by rewrite (at_supers _ _ _ Hat)|done|done|done|by rewrite (at_supers _ _ _ Hat)].
Qed.

Lemma read_inode_run T e x B' :
  at_table B T B' -> array_get T e = Some x -> i_lock x = 0 -> i_dev x = RAMDISK ->
  0 <= inode_block x sb -> 1024 * (inode_block x sb + 1) <= rd_length B ->
  exists B'', read_inode (S fuel) depth e B' = Done tt B'' /\
    at_table B (array_set T e (disk_inode B sb x)) B''.
Proof using Hsuper.
  intros Hat Hx Hlk Hdev Hn0 Hn. unfold read_inode.
  set (x1 := x ⟪ i_lock := 1 ⟫).
  destruct (upd_inode_run T e x (fun x => x ⟪ i_lock := 1 ⟫) B' Hat Hx) as (B1 & Hlock & Hat1). fold x1 in Hat1.
  assert (Hx1 : array_get (array_set T e x1) e = Some x1) by (by eapply array_get_set_eq, array_get_Some_bound).
  rewrite (run_bind _ _ _ tt B1).
  2: { unfold lock_inode. by rewrite (run_bind _ _ _ _ _ (wait_on_inode_run T e x B' Hat Hx Hlk)). }
  rewrite (run_bind _ _ _ _ _ (get_inode_run _ e x1 B1 Hat1 Hx1)). change (i_dev x1) with (i_dev x). rewrite Hdev.
  rewrite (run_bind _ _ _ _ _ (get_super_run fuel B1 RAMDISK k sb ltac:(done) (super_at _ _ Hat1))). cbv iota.
  rewrite (run_bind _ _ _ _ _ (get_inode_run _ e x1 B1 Hat1 Hx1)).
  rewrite (run_bind _ _ _ _ _ (get_sb_run B1 k sb (su_get _ _ _ _ (super_at _ _ Hat1)))).
  change (i_dev x1) with (i_dev x). rewrite Hdev. change (inode_block x1 sb) with (inode_block x sb).
  set (n := inode_block x sb) in *.
  pose proof (ro_mem _ (so_rd _ (re_store _ (at_ready _ _ _ Hat1)))) as Hm.
  assert (Hl1 : 1024 * (n + 1) <= rd_length B1) by (by rewrite (at_length _ _ _ Hat1)).
  destruct (bread_run (Y := sync_inodes_at (S fuel) depth) n ltac:(lia) fuel B1 (at_ready _ _ _ Hat1) Hl1)
    as (b & B2 & y & Hread & Hheld & _ & Hdata).
  rewrite (run_bind _ _ _ _ _ Hread). cbv iota.
  rewrite (run_bind _ _ _ _ _ (get_buf_run B2 b y (hd_get _ _ _ _ Hheld))).
  rewrite Hdata, (at_view _ _ _ Hat1).
  set (x2 := get_d_inode (view B n) (inode_place x1) x1).
  assert (HT2 : inode_table (fsd B2) = array_set T e x1) by (rewrite (hd_fsd _ _ _ _ Hheld); apply Hat1).
  set (f3 := (fsd B2) ⟪ inode_table := array_set (array_set T e x1) e x2 ⟫).
  rewrite (run_bind _ _ _ tt (B2 ⟪ fsd := f3 ⟫)).
  2: { unfold upd_inode. rewrite (run_bind _ _ _ x1 B2).
       - unfold f3. by rewrite <- HT2.
       - unfold get_inode. rewrite run_gets. unfold read_at. by rewrite HT2, Hx1. }
  destruct (held_brelse fuel _ _ b y (held_fsd _ _ _ _ f3 Hheld)) as (B4 & Hrel & Hr4 & Hv4 & Hl4 & Hf4).
  rewrite (run_bind _ _ _ _ _ Hrel).
  assert (Hat4 : at_table B (array_set T e x2) B4).
  { split; [done| | | | |].
    - intros m. rewrite Hv4. apply (at_view _ _ _ Hat1).
    - rewrite Hl4. apply (at_length _ _ _ Hat1).
    - rewrite Hf4. cbn. rewrite (hd_fsd _ _ _ _ Hheld). apply Hat1.
    - rewrite Hf4. cbn. apply array_set_set.
    - rewrite Hf4. cbn. rewrite (hd_fsd _ _ _ _ Hheld). apply Hat1. }
  assert (Hx2 : array_get (array_set T e x2) e = Some x2) by (by eapply array_get_set_eq, array_get_Some_bound).
  destruct (upd_inode_run _ e x2 (fun x => x ⟪ i_lock := 0 ⟫) B4 Hat4 Hx2) as (B5 & Hunlock & Hat5).
  unfold unlock_inode. rewrite (run_bind _ _ _ _ _ Hunlock). eexists. split; [reflexivity|].
  eapply (at_table_store B _ _ B5); [exact Hat5|done|done| |apply Hat5].
  change (inode_table (fsd B5) = array_set T e (disk_inode B sb x)).
  rewrite (at_inodes _ _ _ Hat5), array_set_set. f_equal.
  unfold x2, disk_inode. fold n. unfold x1. destruct x. cbn in Hlk. by subst.
Qed.

(** ** [iget] *)

Lemma kloop_walk {S A B0} (body : A -> KM S (A + B0)) (at_step : Z -> A) (t : S) (i j : Z) : forall n,
  i <= j -> (forall m, i <= m < j -> body (at_step m) t = Done (inl (at_step (m + 1))) t) ->
  kloop (Z.to_nat (j - i) + n) body (at_step i) t = kloop n body (at_step j) t.
Proof using Type.
  intros n Hij. remember (Z.to_nat (j - i)) as d eqn:Hd. revert i Hij Hd.
  induction d as [|d IH]; intros i Hij Hd Hstep; [by replace i with j by lia|].
  cbn [Nat.add]. rewrite kloop_S, (Hstep i) by lia. apply IH; [lia|lia|]. intros m Hm. apply Hstep. lia.
Qed.

Context (s : kernel blk).

Lemma inode_at_table T i x B' : at_table B T B' -> array_get T i = Some x -> inode_at i (with_blk B' s) = Done x (with_blk B' s).
Proof using Type. intros Hat Hx. apply (on_blk_run _ (with_blk B' s) x B'). by apply (get_inode_run T). Qed.
Lemma set_inode_run T i x f B' :
  at_table B T B' -> array_get T i = Some x ->
  exists B'', set_inode i f (with_blk B' s) = Done tt (with_blk B'' s) /\ at_table B (array_set T i (f x)) B''.
Proof using Type.
  intros Hat Hx. destruct (upd_inode_run T i x f B' Hat Hx) as (B'' & Hrun & Hat'). exists B''. split; [|done].
  by apply (on_blk_run _ (with_blk B' s) tt B'').
Qed.

(** Giving up a slot that was only taken. *)
Lemma iput_empty T e B' :
  at_table B T B' -> array_get T e = Some (zero_inode ⟪ i_count := 1 ⟫) ->
  exists B'', iput (S fuel) depth (Some e) (with_blk B' s) = Done tt (with_blk B'' s) /\
    at_table B (array_set T e zero_inode) B''.
Proof using Type.
  intros Hat He. unfold iput.
  rewrite (run_bind _ _ _ tt (with_blk B' s)).
  2: { apply (on_blk_run _ (with_blk B' s) tt B'). by apply (wait_on_inode_run T e _ B' Hat He). }
  rewrite (run_bind _ _ _ _ _ (inode_at_table T e _ B' Hat He)).
  set (z := zero_inode ⟪ i_count := 1 ⟫).
  change (truth (i_count z)) with true. change (truth (i_pipe z)) with false. change (truth (i_dev z)) with false.
  cbn [negb]. cbv iota.
  destruct (set_inode_run T e _ (fun x => x ⟪ i_count := i_count x - 1 ⟫) B' Hat He) as (B'' & Hrun & Hat').
  exists B''. split; [exact Hrun|exact Hat'].
Qed.

Variable nr : Z.
Hypothesis Hnr : 0 <= nr < 65536.

(** A slot filled with the inode. *)
Definition fresh : m_inode := zero_inode ⟪ i_count := 1 ⟫ ⟪ i_dev := RAMDISK ⟫ ⟪ i_num := nr ⟫.
Hypothesis Hblock : 0 <= inode_block fresh sb /\ 1024 * (inode_block fresh sb + 1) <= rd_length B.

(** What [iget] makes of the table, where [e] is the slot that it took. *)
Definition iget_table (T T' : table) (e r : Z) : Prop :=
  let T1 := array_set T e (zero_inode ⟪ i_count := 1 ⟫) in
  (exists x, array_get T1 r = Some x /\ is_inode RAMDISK nr x /\
     T' = array_set (array_set T1 r (x ⟪ i_count := u16 (i_count x + 1) ⟫)) e zero_inode) \/
  (r = e /\ (forall j x, array_get T1 j = Some x -> ~ is_inode RAMDISK nr x) /\
     T' = array_set T e (disk_inode B sb fresh)).

Lemma first_match T :
  (exists j x, array_get T j = Some x /\ is_inode RAMDISK nr x /\ 0 <= j /\
     forall m y, m < j -> array_get T m = Some y -> ~ is_inode RAMDISK nr y) \/
  (forall j x, array_get T j = Some x -> ~ is_inode RAMDISK nr x).
Proof using Type.
  assert (H : forall n : nat, (exists j x, array_get T j = Some x /\ is_inode RAMDISK nr x /\ 0 <= j /\
      forall m y, m < j -> array_get T m = Some y -> ~ is_inode RAMDISK nr y) \/
    (forall j x, j < Z.of_nat n -> array_get T j = Some x -> ~ is_inode RAMDISK nr x)).
  { induction n as [|n IH]; [right; intros j x Hj Hx%array_get_Some_bound; lia|].
    destruct IH as [?|IH]; [by left|].
    destruct (array_get T (Z.of_nat n)) as [x|] eqn:Hx.
    - destruct (decide (is_inode RAMDISK nr x)).
      + left. exists (Z.of_nat n), x. split_and!; [done|done|lia|]. intros m y Hm. by apply IH.
      + right. intros j y Hj Hy. destruct (decide (j = Z.of_nat n)) as [->|]; [congruence|]. apply (IH j); [lia|done].
    - right. intros j y Hj Hy. destruct (decide (j = Z.of_nat n)) as [->|]; [congruence|]. apply (IH j); [lia|done]. }
  destruct (H (length T)) as [?|Hn]; [by left|right]. intros j x Hx. apply (Hn j); [|done].
  apply array_get_Some_bound in Hx. lia.
Qed.
Lemma iget_run T B' :
  at_table B T B' -> table_ok B sb T ->
  (exists i x, array_get T i = Some x /\ unused x) ->
  (forall i x, array_get T i = Some x -> is_inode RAMDISK nr x -> i_mount x = 0) ->
  exists r e z T' B'', iget (S fuel) depth RAMDISK nr (with_blk B' s) = Done (Some r) (with_blk B'' s) /\
    array_get T e = Some z /\ unused z /\ iget_table T T' e r /\ at_table B T' B''.
Proof using Hsuper Hnr Hblock.
  intros Hat [Hlen Hlock Hclean _ _] Hfree Hmount. unfold iget. cbn [truth negb Z.eqb RAMDISK].
  destruct (get_empty_inode_run T B' Hat Hlen Hlock Hclean Hfree) as (e & z & B1 & Hempty & Hat1 & Hz & Hu).
  set (T1 := array_set T e (zero_inode ⟪ i_count := 1 ⟫)) in *.
  assert (Hlen1 : length T1 = 32%nat) by (unfold T1; by rewrite length_array_set).
  assert (He1 : array_get T1 e = Some (zero_inode ⟪ i_count := 1 ⟫)) by (by eapply array_get_set_eq, array_get_Some_bound).
  assert (Hlock1 : forall i x, array_get T1 i = Some x -> i_lock x = 0).
  { intros i x. destruct (decide (e = i)) as [<-|]; [rewrite He1; by intros [= <-]|].
    unfold T1. rewrite array_get_set_ne by done. apply Hlock. }
  rewrite (run_bind _ _ _ e (with_blk B1 s)).
  2: { unfold new_empty_inode. by apply (on_blk_run _ (with_blk B' s) e B1). }
  assert (Hno : forall x, ~ is_inode RAMDISK nr x -> negb (i_dev x =? RAMDISK) || negb (i_num x =? nr) = true).
  { intros x Hx. unfold is_inode in Hx. destruct (Z.eqb_spec (i_dev x) RAMDISK), (Z.eqb_spec (i_num x) nr); try done. tauto. }
  destruct (first_match T1) as [(j & x & Hj & Hx & _ & Hbefore)|Hnone].
  - pose proof (array_get_Some_bound _ _ _ Hj) as Hjb. rewrite Hlen1 in Hjb.
    assert (Hje : j <> e) by (intros ->; rewrite He1 in Hj; injection Hj as <-; by destruct Hx).
    assert (Hjm : i_mount x = 0).
    { apply (Hmount j); [|done]. unfold T1 in Hj. by rewrite array_get_set_ne in Hj by done. }
    destruct (set_inode_run T1 j x (fun x => x ⟪ i_count := u16 (i_count x + 1) ⟫) B1 Hat1 Hj) as (B2 & Hset & Hat2).
    destruct (iput_empty _ e B2 Hat2) as (B3 & Hput & Hat3); [by rewrite array_get_set_ne|].
    exists j, e, z, (array_set (array_set T1 j (x ⟪ i_count := u16 (i_count x + 1) ⟫)) e zero_inode), B3.
    split_and!; [|done|done|left; by exists x|exact Hat3].
    replace (33 * S fuel)%nat with (Z.to_nat (j - 0) + S (32 - Z.to_nat j + 33 * fuel))%nat by lia.
    rewrite (kloop_walk _ (fun m => (m, RAMDISK, nr)) _ 0 j); [|lia|].
    + rewrite kloop_S. destruct (Z.leb_spec NR_INODE j); [unfold NR_INODE in *; lia|].
      rewrite (run_bind _ _ _ _ _ (inode_at_table T1 j x B1 Hat1 Hj)).
      assert (Hyes : negb (i_dev x =? RAMDISK) || negb (i_num x =? nr) = false)
        by (destruct Hx as [-> ->]; by rewrite !Z.eqb_refl).
      rewrite Hyes. rewrite (run_bind _ _ _ tt (with_blk B1 s)).
      2: { apply (on_blk_run _ (with_blk B1 s) tt B1). by apply (wait_on_inode_run T1 j x B1 Hat1 Hj), (Hlock1 j). }
      rewrite (run_bind _ _ _ _ _ (inode_at_table T1 j x B1 Hat1 Hj)), Hyes.
      rewrite (run_bind _ _ _ _ _ Hset), Hjm. cbn [truth Z.eqb negb]. by rewrite (run_bind _ _ _ _ _ Hput).
    + intros m Hm. destruct (array_get_in_bounds T1 m) as [y Hy]; [lia|].
      destruct (Z.leb_spec NR_INODE m); [unfold NR_INODE in *; lia|].
      rewrite (run_bind _ _ _ _ _ (inode_at_table T1 m y B1 Hat1 Hy)). rewrite Hno; [done|].
      apply (Hbefore m y); [lia|done].
  - destruct (set_inode_run T1 e _ (fun x => x ⟪ i_dev := u16 RAMDISK ⟫ ⟪ i_num := u16 nr ⟫) B1 Hat1 He1) as (B2 & Hset & Hat2).
    rewrite (u16_small nr), (u16_small RAMDISK) in Hat2 by (done || unfold RAMDISK; lia).
    change (set_field _ _ (set_field _ _ (zero_inode ⟪ i_count := 1 ⟫))) with fresh in Hat2.
    unfold T1 in Hat2. rewrite array_set_set in Hat2.
    assert (Hf : array_get (array_set T e fresh) e = Some fresh) by (by eapply array_get_set_eq, array_get_Some_bound).
    destruct (read_inode_run _ e fresh B2 Hat2 Hf eq_refl eq_refl) as (B3 & Hread & Hat3); [apply Hblock..|].
    rewrite array_set_set in Hat3.
    exists e, e, z, (array_set T e (disk_inode B sb fresh)), B3.
    split_and!; [|done|done|by right|exact Hat3].
    replace (33 * S fuel)%nat with (Z.to_nat (32 - 0) + S (33 * fuel))%nat by lia.
    rewrite (kloop_walk _ (fun m => (m, RAMDISK, nr)) _ 0 32); [|lia|].
    + rewrite kloop_S. change (NR_INODE <=? 32) with true. cbv iota.
      rewrite (run_bind _ _ _ _ _ Hset).
      by rewrite (run_bind _ _ _ _ _ (on_blk_run _ (with_blk B2 s) tt B3 Hread)).
    + intros m Hm. destruct (array_get_in_bounds T1 m) as [y Hy]; [lia|].
      destruct (Z.leb_spec NR_INODE m); [unfold NR_INODE in *; lia|].
      rewrite (run_bind _ _ _ _ _ (inode_at_table T1 m y B1 Hat1 Hy)). rewrite Hno; [done|].
      by apply (Hnone m y).
Qed.

(** The disk's fields of an inode depend on its number only. *)
Lemma disk_inode_num x y : i_num x = i_num y -> on_disk (disk_inode B sb x) = on_disk (disk_inode B sb y).
Proof using Type. intros H. unfold disk_inode, inode_block, inode_place. by rewrite H. Qed.

(** What holds of the slots of the new table. *)
Lemma iget_slots T T' e r z j x :
  array_get T e = Some z -> iget_table T T' e r -> array_get T' j = Some x ->
  (j = r /\ is_inode RAMDISK nr x) \/ (j = e /\ x = zero_inode) \/
  (j <> r /\ j <> e /\ array_get T j = Some x).
Proof using Type.
  intros Hz Ht Hx. pose proof (array_get_Some_bound _ _ _ Hz) as Hb.
  set (T1 := array_set T e (zero_inode ⟪ i_count := 1 ⟫)) in *.
  assert (Hb1 : 0 <= e < Z.of_nat (length T1)) by (unfold T1; by rewrite length_array_set).
  destruct Ht as [(y & Hy & Hin & ->)|(-> & _ & ->)].
  - fold T1 in Hy, Hx. destruct (decide (e = j)) as [<-|Hej].
    { rewrite array_get_set_eq in Hx by (by rewrite length_array_set). injection Hx as <-. by right; left. }
    rewrite array_get_set_ne in Hx by done. destruct (decide (r = j)) as [<-|Hrj].
    + rewrite array_get_set_eq in Hx by (by eapply array_get_Some_bound). injection Hx as <-. by left.
    + rewrite array_get_set_ne in Hx by done. unfold T1 in Hx. rewrite array_get_set_ne in Hx by done. by right; right.
  - destruct (decide (e = j)) as [<-|Hej].
    + rewrite array_get_set_eq in Hx by done. injection Hx as <-. by left.
    + rewrite array_get_set_ne in Hx by done. by right; right.
Qed.

Lemma iget_result T T' e r z :
  array_get T e = Some z -> unused z -> table_ok B sb T ->
  (forall i x, array_get T i = Some x -> 0 <= i_count x < 65535) -> iget_table T T' e r ->
  exists y, array_get T' r = Some y /\ is_inode RAMDISK nr y /\ i_lock y = 0 /\ ~ unused y /\
    ((exists x, array_get T r = Some x /\ is_inode RAMDISK nr x /\ ~ unused x /\
        y = x ⟪ i_count := i_count x + 1 ⟫) \/
     ((exists x, array_get T r = Some x /\ unused x) /\
        (forall j x, array_get T j = Some x -> is_inode RAMDISK nr x -> unused x) /\
        i_count y = 1 /\ i_dirt y = 0 /\ on_disk y = on_disk (disk_inode B sb y))).
Proof using Type.
  intros Hz Hu [Hlen Hlock Hclean Hdisk Huniq] Hcount Ht.
  pose proof (array_get_Some_bound _ _ _ Hz) as Hb.
  destruct Ht as [(x & Hx & Hin & ->)|(-> & Hnone & ->)].
  - assert (Hre : r <> e).
    { intros ->. rewrite array_get_set_eq in Hx by done. injection Hx as <-. by destruct Hin. }
    pose proof (array_get_Some_bound _ _ _ Hx) as Hrb.
    rewrite array_get_set_ne in Hx by done. pose proof (Hcount r x Hx) as Hc.
    rewrite (u16_small (i_count x + 1)) by lia. exists (x ⟪ i_count := i_count x + 1 ⟫).
    rewrite array_get_set_ne, array_get_set_eq by done. split; [done|]. split; [done|]. split; [by apply (Hlock r x)|]. split; [unfold unused; cbn; lia|].
    destruct (decide (i_count x = 0)) as [H0|Hn0]; [right|left; by exists x].
    split; [by exists x|]. split_and!.
    + intros j w Hw Hwin. assert (r = j) as <-; [|by assert (w = x) as -> by congruence].
      destruct Hin as [Hd Hn], Hwin as [Hd' Hn']. apply (Huniq r j x w Hx Hw); [by rewrite Hd|split; congruence].
    + cbn. lia.
    + exact (Hclean r x Hx H0).
    + change (on_disk (x ⟪ i_count := i_count x + 1 ⟫)) with (on_disk x). rewrite (Hdisk r x Hx H0 (proj1 Hin)).
      by apply disk_inode_num.
  - exists (disk_inode B sb fresh). rewrite array_get_set_eq by done. split_and!; [done|done|done|done|].
    right. split; [by exists z|]. split_and!; [|done|done|by apply disk_inode_num].
    intros j x Hx Hin. destruct (decide (e = j)) as [<-|Hej]; [by assert (x = z) as -> by congruence|].
    exfalso. apply (Hnone j x); [by rewrite array_get_set_ne|done].
Qed.

Lemma iget_table_ok T T' e r z :
  array_get T e = Some z -> unused z -> table_ok B sb T ->
  (forall i x, array_get T i = Some x -> 0 <= i_count x < 65535) -> iget_table T T' e r -> table_ok B sb T'.
Proof using Hnr.
  intros Hz Hu Hok Hcount Ht. pose proof (iget_result T T' e r z Hz Hu Hok Hcount Ht) as (y & Hy & Hyin & Hylock & Hyused & Hcase).
  pose proof (fun j x => iget_slots T T' e r z j x Hz Ht) as Hslots.
  destruct Hok as [Hlen Hlock Hclean Hdisk Huniq].
  assert (Hother : forall j x, j <> r -> array_get T' j = Some x -> x = zero_inode \/ j <> e /\ array_get T j = Some x).
  { intros j x Hj Hx. destruct (Hslots j x Hx) as [[? _]|[[_ ->]|(_ & ? & ?)]]; [done|by left|by right]. }
  assert (Hfar : forall j x, j <> r -> array_get T' j = Some x -> ~ is_inode RAMDISK nr x).
  { intros j x Hj Hx Hin. destruct (Hother j x Hj Hx) as [->|[Hje Hx0]]; [by destruct Hin|].
    destruct Ht as [(w & Hw & Hwin & _)|(-> & Hnone & _)].
    - assert (Hre : r <> e).
      { intros ->. rewrite array_get_set_eq in Hw by (by eapply array_get_Some_bound). injection Hw as <-. by destruct Hwin. }
      rewrite array_get_set_ne in Hw by done. apply Hj. symmetry. destruct Hwin as [Hd Hn], Hin as [Hd' Hn'].
      apply (Huniq r j w x Hw Hx0); [by rewrite Hd|split; congruence].
    - apply (Hnone j x); [by rewrite array_get_set_ne|done]. }
  split.
  - destruct Ht as [(? & _ & _ & ->)|(_ & _ & ->)]; by rewrite !length_array_set.
  - intros i x Hx. destruct (decide (i = r)) as [->|Hi]; [congruence|].
    destruct (Hother i x Hi Hx) as [->|[_ H]]; [done|by apply (Hlock i)].
  - intros i x Hx Hux. destruct (decide (i = r)) as [->|Hi]; [by assert (x = y) as -> by congruence|].
    destruct (Hother i x Hi Hx) as [->|[_ H]]; [done|by apply (Hclean i)].
  - intros i x Hx Hux Hd. destruct (decide (i = r)) as [->|Hi]; [by assert (x = y) as -> by congruence|].
    destruct (Hother i x Hi Hx) as [->|[_ H]]; [done|by apply (Hdisk i)].
  - intros i j x w Hx Hw Hd Hin. destruct (decide (i = r)) as [->|Hi].
    + assert (x = y) as -> by congruence. destruct (decide (j = r)) as [->|Hj]; [done|].
      exfalso. apply (Hfar j w Hj Hw). destruct Hyin as [<- <-]. done.
    + destruct (decide (j = r)) as [->|Hj].
      * assert (w = y) as -> by congruence. exfalso. apply (Hfar i x Hi Hx).
        destruct Hin as [H1 H2], Hyin as [H3 H4]. split; congruence.
      * destruct (Hother i x Hi Hx) as [->|[_ Hx0]]; [done|]. destruct (Hother j w Hj Hw) as [->|[_ Hw0]].
        -- destruct Hin as [H1 _]. by rewrite <- H1 in Hd.
        -- by apply (Huniq i j x w).
Qed.
End steps.

(** C2: the table of inodes is a cache of the disk's inodes.  When no inode
    is locked, the slots not in use are clean and agree with the disk, no two
    slots name one inode, a slot is free, and nothing is mounted on the
    inode, [iget] completes with a slot that names the inode: the slot that
    is in use for it, with one more reference and otherwise as it was; or,
    when none is in use, a free slot, clean, with one reference and what the file
    system's blocks say of the inode.  The table is again in order, no other slot in
    use has changed, and neither has any block. *)
Theorem iget_gets {W : Sleeps} {V : Drivers} {FC : FloppyChange} fuel depth k sb (s : kernel blk) nr :
  let B := inodes s in let T := inode_table (fsd B) in
  ready B -> super_of B RAMDISK k sb -> table_ok B sb T -> 0 <= last_inode (fsd B) < 32 ->
  (exists i x, array_get T i = Some x /\ unused x) ->
  (forall i x, array_get T i = Some x -> 0 <= i_count x < 65535) ->
  (forall i x, array_get T i = Some x -> is_inode RAMDISK nr x -> i_mount x = 0) ->
  0 <= nr < 65536 -> 0 <= inode_block (fresh nr) sb ->
  1024 * (inode_block (fresh nr) sb + 1) <= rd_length B ->
  wp (iget (S fuel) depth RAMDISK nr) (fun r s' => exists i y T', r = Some i /\
    s' = with_blk (inodes s') s /\ at_table B T' (inodes s') /\ table_ok B sb T' /\
    array_get T' i = Some y /\ is_inode RAMDISK nr y /\
    ((exists x, array_get T i = Some x /\ is_inode RAMDISK nr x /\ ~ unused x /\
        y = x ⟪ i_count := i_count x + 1 ⟫) \/
     ((exists x, array_get T i = Some x /\ unused x) /\
        (forall j x, array_get T j = Some x -> is_inode RAMDISK nr x -> unused x) /\
        i_count y = 1 /\ i_dirt y = 0 /\ on_disk y = on_disk (disk_inode B sb y))) /\
    forall j x, j <> i -> array_get T j = Some x -> ~ unused x -> array_get T' j = Some x) s.
Proof.
  intros B T Hr Hsu Hok Hlast Hfree Hcount Hmount Hnr Hb0 Hb.
  assert (Hat : at_table B T B) by (by split).
  destruct (iget_run fuel depth B k sb Hsu s nr Hnr (conj Hb0 Hb) T B Hat Hok Hfree Hmount)
    as (r & e & z & T' & B' & Hrun & Hz & Hu & Ht & Hat').
  change (with_blk B s) with (with_blk (inodes s) s) in Hrun. rewrite with_blk_id in Hrun. apply wp_run. exists (Some r), (with_blk B' s). split; [exact Hrun|].
  destruct (iget_result B sb nr T T' e r z Hz Hu Hok Hcount Ht) as (y & Hy & Hyin & _ & _ & Hcase).
  exists r, y, T'. do 3 (split; [done|]). split; [by apply (iget_table_ok B sb nr Hnr T T' e r z)|].
  do 3 (split; [done|]).
  intros j x Hj Hx Hux. destruct (decide (j = e)) as [->|Hje].
  { exfalso. apply Hux. by assert (x = z) as -> by congruence. }
  destruct Ht as [(w & Hw & _ & ->)|(-> & _ & ->)]; by rewrite !array_get_set_ne.
Qed.

(** ** A table with one inode in use, on a disk whose block 3, of inodes, has
    bytes 13 *)

#[local] Instance demo_sleeps : Sleeps := fun _ => panic "asleep".
#[local] Instance demo_drivers : Drivers := fun _ => mret tt.
#[local] Instance demo_change : FloppyChange := fun _ => mret 0.

Definition demo_super : super_block :=
  SuperBlock 32 4 0 1 1 0 0 SUPER_MAGIC [] [] RAMDISK None None 0 0 0 0.
Definition demo_used : m_inode :=
  MInode 0x81A4 0 3072 0 0 1 [2; 0; 3; 0; 0; 0; 0; 0; 0] 0 0 RAMDISK 7 1 0 1 0 0 0 0.
Definition demo_table : table := demo_used :: replicate 31 zero_inode.
Definition demo_tables : fsdata := FsTables demo_table 0 [demo_super] RAMDISK.
Definition demo_igetter (B : blk) : kernel blk :=
  Kernel (Sched (Some (INIT_TASK 0 0) :: replicate 63 None) 0 0 0 None false [] [] ∅)
    (MM [] 0 ∅) 1 [] [] (B ⟪ fsd := demo_tables ⟫) [] ∅.

Lemma demo_table_slots i x :
  array_get demo_table i = Some x -> (i = 0 /\ x = demo_used) \/ (0 < i /\ x = zero_inode).
Proof.
  intros Hx. pose proof (array_get_Some_bound _ _ _ Hx) as Hb. destruct (decide (i = 0)) as [->|Hi].
  - left. by injection Hx as <-.
  - right. split; [lia|]. unfold array_get in Hx. destruct (Z.leb_spec 0 i); [|lia].
    replace (Z.to_nat i) with (S (Z.to_nat (i - 1))) in Hx by lia. cbn in Hx.
    change (replicate 31 zero_inode !! Z.to_nat (i - 1) = Some x) in Hx.
    by apply lookup_replicate in Hx as [-> _].
Qed.
Lemma demo_table_ok B : table_ok B demo_super demo_table.
Proof.
  split; [done| | | |].
  - intros i x [[_ ->]|[_ ->]]%demo_table_slots; done.
  - intros i x [[_ ->]|[_ ->]]%demo_table_slots; done.
  - intros i x [[_ ->]|[_ ->]]%demo_table_slots; done.
  - intros i j x y [[-> ->]|[Hi ->]]%demo_table_slots [[-> ->]|[Hj ->]]%demo_table_slots; try done. by intros _ [? _].
Qed.

Lemma iget_gets_witness :
  wp (iget 1 0 RAMDISK 1) (fun r s' => exists i y, r = Some i /\
    array_get (inode_table (fsd (inodes s'))) i = Some y /\ i_mode y = 3341 /\ i_count y = 1 /\
    array_get (inode_table (fsd (inodes s'))) 0 = Some demo_used) (demo_igetter demo).
Proof.
  assert (Hv : view demo 3 = replicate 1024 13) by (vm_compute; reflexivity).
  generalize Alloc.demo_ready demo_length Hv. generalize demo as B. intros B Hr Hl Hv3.
  pose proof (same_store_fsd B demo_tables) as Hss.
  eapply wp_mono.
  { apply (iget_gets 0 0 0 demo_super (demo_igetter B) 1).
    - exact (same_store_ready _ _ Hss Hr).
    - split; try done. intros j x Hj Hx. apply array_get_Some_bound in Hx. lia.
    - exact (demo_table_ok _).
    - done.
    - by exists 1, zero_inode.
    - intros i x [[_ ->]|[_ ->]]%demo_table_slots; done.
    - intros i x [[_ ->]|[_ ->]]%demo_table_slots; done.
    - done.
    - done.
    - change (rd_length (inodes (demo_igetter B))) with (rd_length B). rewrite Hl. done. }
  cbv beta. intros r s' (i & y & T' & -> & _ & Hat & _ & Hy & [Hyd Hyn] & Hcase & Hothers).
  rewrite (at_inodes _ _ _ Hat).
  destruct Hcase as [(x & Hx & [_ Hin] & _)|((x0 & Hx0 & Hu0) & _ & Hc & _ & Hdisk)].
  - apply demo_table_slots in Hx as [[_ ->]|[_ ->]]; done.
  - exists i, y. split; [done|]. split; [done|]. split; [|split; [done|]].
    + apply (f_equal (fun d => fst (fst (fst (fst (fst (fst d))))))) in Hdisk. cbn [on_disk fst] in Hdisk.
      rewrite Hdisk. unfold disk_inode, inode_block, inode_place. rewrite Hyn.
      change (s32 _) with 3. rewrite (same_store_view _ _ 3 Hss : view (inodes (demo_igetter B)) 3 = view B 3), Hv3.
      reflexivity.
    + apply (Hothers 0 demo_used); [|done|done]. intros <-.
      change (array_get demo_table 0 = Some x0) in Hx0. injection Hx0 as <-. done.
Defined.
End Iget.
