(* ===== verification/Resolve.v ===== *)
(** * Resolving a path name ([get_dir], [dir_namei], [namei] of
      [fs/namei.c])

    A path is a list of characters, and its meaning a walk over the inodes
    that the table and the disk hold together.  [namei] does that walk with
    references to slots of the table, buffers and reads: it refines it, and
    leaves no other reference behind. *)

From S2P Require Import Prelude Memory Task Sched Kernel Files FsData Block Buffer Cache Getblk Ramdisk Store Inode StoreOps InodeOps Namei Alloc FileRead Lookup Iget.

Module Resolve.
Import FsData Block Buffer Cache Getblk Ramdisk Store Inode StoreOps InodeOps Namei Alloc FileRead Lookup Iget.

(** ** Names *)

(** The first component of a path, and what follows its slash. *)
Fixpoint cut (l : list Z) : list Z * option (list Z) :=
  match l with
  | [] => ([], None)
  | c :: l => if c =? 47 then ([], Some l) else let '(n, r) := cut l in (c :: n, r)
  end.
(** The components of a path: one more than it has slashes. *)
Fixpoint split_path (l : list Z) : list (list Z) :=
  match l with
  | [] => [[]]
  | c :: l =>
      if c =? 47 then [] :: split_path l
      else match split_path l with n :: ns => (c :: n) :: ns | [] => [[c]] end
  end.
Definition last_name (l : list Z) : list Z := last (split_path l) [].

Lemma split_path_cut l :
  split_path l = match cut l with (n, Some r) => n :: split_path r | (n, None) => [n] end.
Proof.
  induction l as [|c l IH]; [done|]. cbn [split_path cut]. destruct (c =? 47); [done|].
  rewrite IH. by destruct (cut l) as [n [r|]].
Qed.
Lemma split_path_cons l : exists n ns, split_path l = n :: ns.
Proof. rewrite split_path_cut. destruct (cut l) as [n [r|]]; eauto. Qed.
Lemma cut_app l n r : cut l = (n, Some r) -> l = n ++ 47 :: r.
Proof.
  revert n. induction l as [|c l IH]; intros n; [done|]. cbn [cut]. destruct (Z.eqb_spec c 47) as [->|].
  - by intros [= <- <-].
  - destruct (cut l) as [m o]. intros [= <- ->]. cbn. f_equal. by apply IH.
Qed.
Lemma cut_whole l n : cut l = (n, None) -> n = l.
Proof.
  revert n. induction l as [|c l IH]; intros n; [by intros [= <-]|]. cbn [cut]. destruct (c =? 47); [done|].
  destruct (cut l) as [m o]. intros [= <- ->]. f_equal. by apply IH.
Qed.
Lemma last_name_slash l : last_name (47 :: l) = last_name l.
Proof. unfold last_name. cbn. destruct (split_path_cons l) as (n & ns & ->). done. Qed.
Lemma split_path_in l : 47 ∈ l -> exists n n' ns, split_path l = n :: n' :: ns.
Proof.
  induction l as [|c l IH]; [by intros ?%elem_of_nil|]. intros Hin. cbn [split_path].
  destruct (split_path_cons l) as (m & ms & Hl). destruct (Z.eqb_spec c 47) as [->|Hc]; [rewrite Hl; eauto|].
  apply elem_of_cons in Hin as [<-|Hin]; [done|]. destruct (IH Hin) as (n & n' & ns & ->). eauto.
Qed.
Lemma split_path_notin l : 47 ∉ l -> split_path l = [l].
Proof.
  induction l as [|c l IH]; [done|]. intros Hin. apply not_elem_of_cons in Hin as [Hc Hin]. cbn [split_path].
  destruct (Z.eqb_spec c 47); [congruence|]. by rewrite (IH Hin).
Qed.
Lemma last_name_notin l : 47 ∉ l -> last_name l = l.
Proof. intros H. unfold last_name. by rewrite split_path_notin. Qed.
Lemma last_name_in c l : 47 ∈ l -> last_name (c :: l) = last_name l.
Proof.
  intros (n & n' & ns & Hs)%split_path_in. unfold last_name. cbn [split_path]. rewrite Hs. by destruct (c =? 47).
Qed.
(** The last component ends the path. *)
Lemma last_name_suffix l : exists pre, l = pre ++ last_name l.
Proof.
  induction l as [|c l [pre IH]]; [by exists []|]. destruct (decide (47 ∈ l)) as [Hin|Hin].
  - exists (c :: pre). rewrite last_name_in by done. cbn. by f_equal.
  - destruct (decide (c = 47)) as [->|Hc].
    + exists [47]. by rewrite last_name_slash, last_name_notin.
    + exists []. rewrite last_name_notin; [done|]. apply not_elem_of_cons. split; congruence.
Qed.

(** ** The walk *)

#[global] Instance unused_dec x : Decision (unused x).
Proof. unfold unused. apply _. Defined.

Section walk.
Variables (B : blk) (sb : super_block) (T : table) (eu eg : Z).

(** The inode with a number: in the table when it is in use, else on the disk. *)
Definition node (nr : Z) : m_inode :=
  match list_find (fun x => is_inode RAMDISK nr x /\ ~ unused x) T with
  | Some (_, x) => x
  | None => disk_inode B sb (fresh nr)
  end.
Definition name_char (n : list Z) (j : Z) : Z := default 0 (array_get n j).
Definition name_length (n : list Z) : Z := Z.min (Z.of_nat (length n)) NAME_LEN.
(** The inode number of the first entry of a directory with a name. *)
Definition lookup (x : m_inode) (n : list Z) : option Z :=
  if bool_decide (n = []) then None
  else entry_inode B x <$>
    find (fun i => matches (name_char n) (name_length n) (entry_block B x i) (i mod 64)) (upto (entries x)).
(** [..] of the root is [.]. *)
Definition above (nr : Z) (n : list Z) : list Z :=
  if bool_decide (n = [46; 46] /\ nr = ROOT_INO) then [46] else n.
Definition step (nr : Z) (n : list Z) : option Z := lookup (node nr) (above nr n).
Definition enterable (nr : Z) : bool := S_ISDIR (i_mode (node nr)) && may eu eg (node nr) MAY_EXEC.
(** Through all components but the last. *)
Fixpoint walk (names : list (list Z)) (nr : Z) : option Z :=
  if negb (enterable nr) then None
  else match names with
       | n :: ((_ :: _) as ns) => step nr n ≫= walk ns
       | _ => Some nr
       end.
(** The inode that a path names, for a task in the directory [pwd]. *)
Definition start (pwd : Z) (path : list Z) : Z * list Z :=
  match path with
  | c :: l => if c =? 47 then (ROOT_INO, l) else (pwd, path)
  | [] => (pwd, path)
  end.
Definition resolve (pwd : Z) (path : list Z) : option Z :=
  if bool_decide (path = []) then None
  else
    let '(nr, l) := start pwd path in
    walk (split_path l) nr ≫= fun d =>
      if bool_decide (last_name l = []) then Some d else step d (last_name l).

(** What is asked of the inodes on the way: they are on the device, are not
    deleted and are not block devices; directories have all their blocks. *)
Definition located (nr : Z) : Prop :=
  0 <= nr < 65536 /\ 0 <= inode_block (fresh nr) sb /\ 1024 * (inode_block (fresh nr) sb + 1) <= rd_length B.
Definition dir_ok (x : m_inode) : Prop :=
  0 < entries x <= 64 * MAX_BLOCK /\
  forall m, 0 <= 64 * m < entries x -> file_block B x m <> 0 /\ path_ok B x m.
Definition settled (nr : Z) : Prop := i_nlinks (node nr) <> 0 /\ S_ISBLK (i_mode (node nr)) = false.
Fixpoint way (names : list (list Z)) (nr : Z) : Prop :=
  settled nr /\ (enterable nr = true -> dir_ok (node nr) /\
    match names with
    | n :: ((_ :: _) as ns) => forall nr', step nr n = Some nr' -> located nr' /\ way ns nr'
    | _ => True
    end).
Definition way_to (pwd : Z) (path : list Z) : Prop :=
  let '(nr, l) := start pwd path in
  way (split_path l) nr /\
  forall d nr', walk (split_path l) nr = Some d -> step d (last_name l) = Some nr' -> located nr'.
End walk.

(** ** The table while a reference is held *)

Definition plain (T : table) : Prop :=
  forall i x, array_get T i = Some x -> i_dev x = RAMDISK -> i_pipe x = 0 /\ i_mount x = 0.
(** The table of before the walk, up to slots that are not in use. *)
Record alike (B : blk) (sb : super_block) (T0 T : table) : Prop := {
  al_ok : table_ok B sb T;
  al_plain : plain T;
  al_used : forall j x, ~ unused x -> array_get T j = Some x <-> array_get T0 j = Some x
}.
(** One reference less. *)
Definition dec (x : m_inode) : m_inode := x ⟪ i_count := i_count x - 1 ⟫.
(** Beyond the references of before, the table has one on the slot [e], of
    the inode [nr]. *)
Record borrowed (B : blk) (sb : super_block) (T0 T : table) (e nr : Z) (x : m_inode) : Prop := {
  bo_at : array_get T e = Some x;
  bo_inode : is_inode RAMDISK nr x;
  bo_disk : on_disk x = on_disk (node B sb T0 nr);
  bo_count : 0 < i_count x <= 65535;
  bo_alike : alike B sb T0 (array_set T e (dec x))
}.

Section table.
Variables (B : blk) (sb : super_block) (T0 : table).

Lemma node_used T j nr x :
  table_ok B sb T -> array_get T j = Some x -> is_inode RAMDISK nr x -> ~ unused x -> node B sb T nr = x.
Proof using Type.
  intros Hok Hx Hin Hu. unfold node.
  assert (Hl : T !! Z.to_nat j = Some x) by (unfold array_get in Hx; by destruct (0 <=? j)).
  destruct (list_find _ T) as [[k y]|] eqn:Hf.
  - apply list_find_Some in Hf as (Hk & [Hyin _] & _).
    assert (Hy : array_get T (Z.of_nat k) = Some y) by (unfold array_get; rewrite (proj2 (Z.leb_le _ _)) by lia; by rewrite Nat2Z.id).
    destruct Hin as [Hd Hn], Hyin as [Hd' Hn'].
    assert (j = Z.of_nat k) as ->; [|congruence].
    apply (tb_unique _ _ _ Hok j (Z.of_nat k) x y Hx Hy); [by rewrite Hd|split; congruence].
  - apply list_find_None in Hf. exfalso.
    by apply (proj1 (Forall_lookup _ _) Hf _ x Hl).
Qed.
Lemma node_unused T nr :
  (forall j x, array_get T j = Some x -> is_inode RAMDISK nr x -> unused x) -> node B sb T nr = disk_inode B sb (fresh nr).
Proof using Type.
  intros Hnone. unfold node. destruct (list_find _ T) as [[k y]|] eqn:Hf; [|done].
  apply list_find_Some in Hf as (Hk & [Hyin Hu] & _). exfalso. apply Hu, (Hnone (Z.of_nat k)); [|done].
  unfold array_get. rewrite (proj2 (Z.leb_le _ _)) by lia. by rewrite Nat2Z.id.
Qed.

Lemma alike_refl : table_ok B sb T0 -> plain T0 -> alike B sb T0 T0.
Proof using Type. by split. Qed.
Lemma alike_unused T i x : table_ok B sb T0 -> alike B sb T0 T -> array_get T0 i = Some x -> unused x ->
  exists y, array_get T i = Some y /\ unused y.
Proof using Type.
  intros Hok Ha Hx Hu. pose proof (array_get_Some_bound _ _ _ Hx) as Hb. rewrite (tb_length _ _ _ Hok) in Hb.
  destruct (array_get_in_bounds T i) as [y Hy]; [rewrite (tb_length _ _ _ (al_ok _ _ _ _ Ha)); lia|].
  exists y. split; [done|]. destruct (decide (unused y)) as [|Hn]; [done|].
  apply (al_used _ _ _ _ Ha) in Hy; [|done]. congruence.
Qed.

(** A reference less, in a table that is in order. *)
Lemma table_ok_set T e x y :
  table_ok B sb T -> array_get T e = Some x -> is_inode (i_dev x) (i_num x) y -> i_lock y = 0 ->
  (unused y -> i_dirt y = 0 /\ (i_dev y = RAMDISK -> on_disk y = on_disk (disk_inode B sb y))) ->
  table_ok B sb (array_set T e y).
Proof using Type.
  intros [Hlen Hlock Hclean Hdisk Huniq] Hx [Hyd Hyn] Hl Hu.
  assert (Hget : forall j w, array_get (array_set T e y) j = Some w -> (j = e /\ w = y) \/ (j <> e /\ array_get T j = Some w)).
  { intros j w. destruct (decide (e = j)) as [<-|Hne].
    - rewrite array_get_set_eq by (by eapply array_get_Some_bound). intros [= <-]. by left.
    - rewrite array_get_set_ne by done. by right. }
  split.
  - by rewrite length_array_set.
  - intros j w [[_ ->]|[_ Hw]]%Hget; [done|by apply (Hlock j)].
  - intros j w [[_ ->]|[_ Hw]]%Hget Huw; [by apply Hu|by apply (Hclean j)].
  - intros j w [[_ ->]|[_ Hw]]%Hget Huw Hd; [by apply Hu|by apply (Hdisk j)].
  - intros i j w v [[-> ->]|[Hi Hw]]%Hget [[-> ->]|[Hj Hv]]%Hget Hd [Hin1 Hin2]; [done| | |].
    + by apply (Huniq e j x v); [| |congruence|split; congruence].
    + by apply (Huniq i e w x); [| | |split; congruence].
    + by apply (Huniq i j w v).
Qed.

(** ** Taking and giving references *)

Hypothesis Hok0 : table_ok B sb T0.
Hypothesis Hcount0 : forall i x, array_get T0 i = Some x -> 0 <= i_count x < 65535.

Lemma alike_count T i x : alike B sb T0 T -> array_get T i = Some x -> 0 <= i_count x < 65535.
Proof using Hcount0.
  intros Ha Hx. destruct (decide (unused x)) as [Hu|Hu]; [unfold unused in Hu; lia|].
  apply (Hcount0 i). by apply (al_used _ _ _ _ Ha).
Qed.
Lemma inc_dec x c : i_count x = c - 1 -> dec (x ⟪ i_count := c ⟫) = x.
Proof using Type. intros Hc. destruct x. cbn in *. unfold dec. cbn. by rewrite <- Hc. Qed.

(** A slot with one more reference, or one that was not in use, with one. *)
Lemma borrowed_slot T T' e nr y :
  alike B sb T0 T -> table_ok B sb T' -> plain T' ->
  (forall j x, j <> e -> ~ unused x -> array_get T' j = Some x <-> array_get T j = Some x) ->
  array_get T' e = Some y -> is_inode RAMDISK nr y -> i_lock y = 0 ->
  (exists x, array_get T e = Some x /\ is_inode RAMDISK nr x /\ ~ unused x /\ y = x ⟪ i_count := i_count x + 1 ⟫) \/
  ((exists x, array_get T e = Some x /\ unused x) /\
     (forall j x, array_get T j = Some x -> is_inode RAMDISK nr x -> unused x) /\
     i_count y = 1 /\ i_dirt y = 0 /\ on_disk y = on_disk (disk_inode B sb y)) ->
  borrowed B sb T0 T' e nr y.
Proof using Hok0 Hcount0.
  intros Ha Hok' Hp' Hothers Hy Hin Hl Hcase. pose proof (array_get_Some_bound _ _ _ Hy) as Hb.
  assert (Hplain : plain (array_set T' e (dec y))).
  { intros j x. destruct (decide (e = j)) as [<-|Hne]; [|rewrite array_get_set_ne by done; apply Hp'].
    rewrite array_get_set_eq by done. intros [= <-] Hdev. by apply (Hp' e y). }
  assert (Halike : forall x0, array_get T e = Some x0 -> (unused x0 /\ unused (dec y) \/ dec y = x0) ->
    table_ok B sb (array_set T' e (dec y)) -> alike B sb T0 (array_set T' e (dec y))).
  { intros x0 Hx0 He Hokd. split; [done|done|]. intros j x Hu. rewrite <- (al_used _ _ _ _ Ha j x Hu).
    destruct (decide (e = j)) as [<-|Hne]; [|rewrite array_get_set_ne by done; apply Hothers; congruence].
    rewrite array_get_set_eq, Hx0 by done. destruct He as [[Hu0 Hud]| ->]; [|done].
    split; intros [= <-]; done. }
  destruct Hcase as [(x & Hx & Hxin & Hu & ->)|((z & Hz & Hzu) & Hnone & Hc & Hd & Hdisk)].
  - pose proof (alike_count T e x Ha Hx). pose proof (proj1 (al_used _ _ _ _ Ha e x Hu) Hx) as Hx0.
    split; [done|done|by rewrite (node_used T0 e nr x)|unfold unused in Hu; cbn; lia|].
    assert (Hdec : dec (x ⟪ i_count := i_count x + 1 ⟫) = x) by (apply inc_dec; lia).
    apply (Halike x Hx); [by right|]. rewrite Hdec.
    by apply (table_ok_set T' e (x ⟪ i_count := i_count x + 1 ⟫) x).
  - assert (Hud : unused (dec y)) by (unfold unused, dec; cbn; lia).
    split; [done|done| |lia|].
    + rewrite node_unused; [rewrite Hdisk; apply disk_inode_num; by destruct Hin|].
      intros j x Hx Hxin. destruct (decide (unused x)) as [|Hu]; [done|]. apply (Hnone j x); [|done].
      by apply (al_used _ _ _ _ Ha).
    + apply (Halike z Hz); [by left|]. by apply (table_ok_set T' e y (dec y)).
Qed.
End table.

Section run.
Context {W : Sleeps} {V : Drivers} {FC : FloppyChange}.
Variables (fuel depth : nat) (k : Z) (sb : super_block) (s : kernel blk) (b0 : Z) (cur : task_struct).
Abbreviation B := (inodes s).
Abbreviation T0 := (inode_table (fsd B)).
Hypothesis Hsuper : super_of B RAMDISK k sb.
Hypothesis Hok0 : table_ok B sb T0.
Hypothesis Hplain0 : plain T0.
Hypothesis Hcount0 : forall i x, array_get T0 i = Some x -> 0 <= i_count x < 65535.
Hypothesis Hfree : exists i x, array_get T0 i = Some x /\ unused x.

(** In a state that differs from the first one only in the inode table and the
    buffers. *)
Abbreviation node := (node B sb T0).
Abbreviation borrowed := (borrowed B sb T0).
Abbreviation alike := (alike B sb T0).

Lemma iget_plain T T' e r z nr :
  plain T -> array_get T e = Some z -> iget_table B sb nr T T' e r -> plain T'.
Proof using Type.
  intros Hp Hz Ht j x Hx Hdev. pose proof (array_get_Some_bound _ _ _ Hz) as Hb.
  destruct Ht as [(w & Hw & Hin & ->)|(-> & _ & ->)].
  - assert (Hre : r <> e).
    { intros ->. rewrite array_get_set_eq in Hw by done. injection Hw as <-. by destruct Hin. }
    rewrite array_get_set_ne in Hw by done. destruct (decide (e = j)) as [<-|Hej].
    { rewrite array_get_set_eq in Hx by (by rewrite !length_array_set). by injection Hx as <-. }
    rewrite array_get_set_ne in Hx by done. destruct (decide (r = j)) as [<-|Hrj].
    + rewrite array_get_set_eq in Hx by (rewrite length_array_set; by eapply array_get_Some_bound).
      injection Hx as <-. by apply (Hp r w).
    + rewrite !array_get_set_ne in Hx by done. by apply (Hp j x).
  - destruct (decide (e = j)) as [<-|Hej].
    + rewrite array_get_set_eq in Hx by done. by injection Hx as <-.
    + rewrite array_get_set_ne in Hx by done. by apply (Hp j x).
Qed.

Lemma iget_others T T' e r z nr j x :
  array_get T e = Some z -> unused z -> iget_table B sb nr T T' e r -> j <> r -> ~ unused x ->
  array_get T' j = Some x <-> array_get T j = Some x.
Proof using Type.
  intros Hz Hzu Ht Hj Hu. pose proof (array_get_Some_bound _ _ _ Hz) as Hb.
  destruct (decide (j = e)) as [->|Hje].
  - rewrite Hz. split; [|by intros [= ->]]. intros H. exfalso.
    destruct Ht as [(w & Hw & Hin & ->)|(-> & _ & _)]; [|done].
    rewrite array_get_set_eq in H by (by rewrite !length_array_set). by injection H as <-.
  - destruct Ht as [(w & Hw & Hin & ->)|(-> & _ & ->)]; by rewrite !array_get_set_ne.
Qed.

(** [iget] takes a reference, [iput] gives one back. *)
Lemma iget_borrows T B' nr :
  alike T -> at_table B T B' -> located B sb nr ->
  exists e x T' B'', iget (S fuel) depth RAMDISK nr (with_blk B' s) = Done (Some e) (with_blk B'' s) /\
    at_table B T' B'' /\ borrowed T' e nr x.
Proof using Hsuper Hok0 Hplain0 Hcount0 Hfree.
  intros Ha Hat (Hnr & Hb0 & Hb). destruct Hfree as (i0 & x0 & Hx0 & Hu0).
  destruct (alike_unused _ _ _ _ _ _ Hok0 Ha Hx0 Hu0) as (y0 & Hy0 & Huy0).
  pose proof (al_ok _ _ _ _ Ha) as Hok. pose proof (al_plain _ _ _ _ Ha) as Hplain.
  destruct (iget_run fuel depth B k sb Hsuper s nr Hnr (conj Hb0 Hb) T B' Hat Hok)
    as (r & e & z & T' & B'' & Hrun & Hz & Hu & Ht & Hat'); [by exists i0, y0| |].
  { intros i x Hx [Hd _]. by apply (Hplain i x). }
  assert (Hcount : forall i x, array_get T i = Some x -> 0 <= i_count x < 65535).
  { intros i x. by apply (alike_count B sb T0 Hcount0). }
  destruct (iget_result B sb nr T T' e r z Hz Hu Hok Hcount Ht) as (y & Hy & Hyin & Hyl & Hyu & Hcase).
  exists r, y, T', B''. split; [exact Hrun|]. split; [done|].
  apply (borrowed_slot B sb T0 Hok0 Hcount0 T T' r nr y); try done.
  - by apply (iget_table_ok B sb nr Hnr T T' e r z).
  - by apply (iget_plain T T' e r z nr).
  - intros j x Hj Hux. by apply (iget_others T T' e r z nr j x).
Qed.

Lemma on_disk_nlinks x y : on_disk x = on_disk y -> i_nlinks x = i_nlinks y.
Proof using Type. by intros [=]. Qed.
Lemma on_disk_mode x y : on_disk x = on_disk y -> i_mode x = i_mode y.
Proof using Type. by intros [=]. Qed.

Lemma borrowed_clean T e nr x : borrowed T e nr x -> i_pipe x = 0 /\ i_lock x = 0 /\ (i_count x = 1 -> i_dirt x = 0).
Proof using Type.
  intros [Hx [Hd _] _ Hc [Hok Hp _]]. pose proof (array_get_Some_bound _ _ _ Hx) as Hb.
  assert (He : array_get (array_set T e (dec x)) e = Some (dec x)) by (by apply array_get_set_eq).
  split; [by apply (Hp e (dec x) He Hd)|]. split; [by apply (tb_unlocked _ _ _ Hok e (dec x))|].
  intros H1. apply (tb_clean _ _ _ Hok e (dec x) He). unfold unused, dec. cbn. lia.
Qed.
Lemma iput_returns T e nr x B' :
  borrowed T e nr x -> at_table B T B' -> settled B sb T0 nr -> exists B'',
    iput (S fuel) depth (Some e) (with_blk B' s) = Done tt (with_blk B'' s) /\
    at_table B (array_set T e (dec x)) B''.
Proof using Type.
  intros Hbo Hat [Hnl Hblk]. destruct (borrowed_clean _ _ _ _ Hbo) as (Hp & Hl & Hclean).
  destruct Hbo as [Hx [Hd Hn] Hdisk Hc Ha].
  rewrite <- (on_disk_nlinks _ _ Hdisk) in Hnl. rewrite <- (on_disk_mode _ _ Hdisk) in Hblk.
  unfold iput. rewrite (run_bind _ _ _ tt (with_blk B' s)).
  2: { apply (on_blk_run _ (with_blk B' s) tt B'). by apply (wait_on_inode_run fuel B T e x B' Hat Hx). }
  pose proof (inode_at_table B s T e x B' Hat Hx) as Hget. rewrite (run_bind _ _ _ _ _ Hget).
  rewrite (proj2 (truth_true (i_count x))) by lia. rewrite Hp, Hd, Hblk. cbn [truth negb Z.eqb RAMDISK kwhen].
  rewrite run_ret, kloop_S, (run_bind _ _ _ _ _ Hget).
  destruct (Z.ltb_spec 1 (i_count x)).
  - destruct (set_inode_run B s T e x (fun x => x ⟪ i_count := i_count x - 1 ⟫) B' Hat Hx) as (B'' & Hrun & Hat').
    rewrite (run_bind _ _ _ _ _ Hrun). by exists B''.
  - rewrite (proj2 (truth_true _) Hnl), Hclean by lia. cbn [truth negb Z.eqb].
    destruct (set_inode_run B s T e x (fun x => x ⟪ i_count := u16 (i_count x - 1) ⟫) B' Hat Hx) as (B'' & Hrun & Hat').
    rewrite (run_bind _ _ _ _ _ Hrun). exists B''. split; [done|]. rewrite u16_small in Hat' by lia. exact Hat'.
Qed.

(** ** Directories and names *)

(** A directory is read through the views of the blocks and the zones. *)
Lemma file_block_at T B' x y m :
  at_table B T B' -> on_disk x = on_disk y -> file_block B' x m = file_block B y m.
Proof using Type.
  intros Hat Hdisk. assert (Hz : i_zone x = i_zone y) by (by injection Hdisk).
  unfold file_block, through, zone_of. by rewrite Hz, !(at_view _ _ _ Hat).
Qed.
Lemma path_ok_at T B' x y m :
  at_table B T B' -> on_disk x = on_disk y -> path_ok B y m -> path_ok B' x m.
Proof using Type.
  intros Hat Hdisk. assert (Hz : i_zone x = i_zone y) by (by injection Hdisk).
  unfold path_ok. rewrite (file_block_at _ _ _ _ _ Hat Hdisk).
  unfold on_device, through, zone_of. by rewrite Hz, !(at_view _ _ _ Hat), (at_length _ _ _ Hat).
Qed.
Lemma entry_block_at T B' x y i :
  at_table B T B' -> on_disk x = on_disk y -> entry_block B' x i = entry_block B y i.
Proof using Type.
  intros Hat Hdisk. unfold entry_block. by rewrite (file_block_at _ _ _ _ _ Hat Hdisk), (at_view _ _ _ Hat).
Qed.
Lemma entries_at x y : on_disk x = on_disk y -> entries x = entries y.
Proof using Type. intros Hdisk. assert (Hz : i_size x = i_size y) by (by injection Hdisk). unfold entries. by rewrite Hz. Qed.

Lemma matches_ext c c' len l i :
  (forall j, 0 <= j < len -> c j = c' j) -> matches c len l i = matches c' len l i.
Proof using Type.
  intros Hc. unfold matches. f_equal. apply eq_true_iff_eq. rewrite !forallb_forall.
  split; intros H j Hj; pose proof Hj as Hj'; apply list_elem_of_In, elem_of_upto in Hj'; specialize (H j Hj);
    [by rewrite <- Hc|by rewrite Hc].
Qed.

(** [find] and the first number of a range. *)
Lemma find_first (f : Z -> bool) n : forall a i,
  a <= i < a + Z.of_nat n -> f i = true -> (forall j, a <= j < i -> f j = false) -> find f (seqZ a (Z.of_nat n)) = Some i.
Proof using Type.
  induction n as [|n IH]; intros a i Hi Hf Hbefore; [lia|].
  rewrite seqZ_cons by lia. cbn [find]. destruct (decide (i = a)) as [->|Hne]; [by rewrite Hf|].
  rewrite Hbefore by lia. replace (Z.pred (Z.of_nat (S n))) with (Z.of_nat n) by lia.
  apply IH; [lia|done|]. intros j Hj. apply Hbefore. lia.
Qed.
Lemma find_absent (f : Z -> bool) l : (forall j, j ∈ l -> f j = false) -> find f l = None.
Proof using Type.
  induction l as [|a l IH]; intros Hf; [done|]. cbn. rewrite Hf by (by left). apply IH. intros j Hj. apply Hf. by right.
Qed.
Lemma lookup_first x n i :
  n <> [] -> 0 <= i < entries x -> named B x (name_char n) (name_length n) i ->
  (forall j, 0 <= j < i -> ~ named B x (name_char n) (name_length n) j) -> lookup B x n = Some (entry_inode B x i).
Proof using Type.
  intros Hn Hi Hnamed Hbefore. unfold lookup. rewrite bool_decide_eq_false_2 by done.
  assert (Hlen : name_length n <= NAME_LEN) by (unfold name_length; lia).
  replace (upto (entries x)) with (seqZ 0 (Z.of_nat (Z.to_nat (entries x)))) by (f_equal; lia).
  rewrite (find_first _ _ 0 i); [done|lia|by apply matches_named|].
  intros j Hj. apply not_true_iff_false. rewrite matches_named by done. by apply Hbefore.
Qed.
Lemma lookup_absent x n :
  (forall j, 0 <= j < entries x -> ~ named B x (name_char n) (name_length n) j) -> lookup B x n = None.
Proof using Type.
  intros Hnone. unfold lookup. destruct (bool_decide (n = [])); [done|].
  assert (Hlen : name_length n <= NAME_LEN) by (unfold name_length; lia).
  rewrite find_absent; [done|]. intros j Hj%elem_of_upto. apply not_true_iff_false. rewrite matches_named by done.
  by apply Hnone.
Qed.

(** The characters of a string in the memory of the user, up to its end. *)
Definition user_at (p : Z) : Z := byte_at (user s) (b0 + p).
Fixpoint str_at (p : Z) (l : list Z) : Prop :=
  match l with
  | [] => user_at p = 0
  | c :: l => c <> 0 /\ user_at p = c /\ str_at (p + 1) l
  end.
Lemma str_at_app p pre l : str_at p (pre ++ l) -> str_at (p + Z.of_nat (length pre)) l.
Proof using Type.
  revert p. induction pre as [|c pre IH]; intros p; [by rewrite Z.add_0_r|]. cbn [app str_at length].
  intros (_ & _ & H%IH). by replace (p + Z.of_nat (S (length pre))) with (p + 1 + Z.of_nat (length pre)) by lia.
Qed.
Lemma str_at_char p l m : forall j, str_at p (l ++ m) -> 0 <= j < Z.of_nat (length l) -> user_at (p + j) = name_char l j.
Proof using Type.
  revert p. induction l as [|c l IH]; intros p j; cbn [app str_at length]; [lia|]. intros (_ & Hc & Hs) Hj.
  destruct (decide (j = 0)) as [->|Hj0]; [by rewrite Z.add_0_r|].
  replace (p + j) with (p + 1 + (j - 1)) by lia. rewrite (IH _ _ Hs) by lia.
  unfold name_char, array_get. rewrite !(proj2 (Z.leb_le _ _)) by lia.
  by replace (Z.to_nat j) with (S (Z.to_nat (j - 1))) by lia.
Qed.
Hypothesis Hbase : user_base_is s b0.
Lemma user_byte_run B' a : get_fs_byte a (with_blk B' s) = Done (user_at a) (with_blk B' s).
Proof using Hbase. exact (get_fs_byte_run b0 s Hbase B' a). Qed.

Ltac done_ret := match goal with |- context [@mret ?M ?I ?A ?x ?st] => change (@mret M I A x st) with (Done x st); cbv iota end.
(** [component] finds the first component. *)
Lemma component_run B' l : forall p n0 f, str_at p l -> (length l < f)%nat ->
  kloop f (fun '(p, n) =>
    c ← get_fs_byte p;
    if truth c && negb (c =? 47) then mret (inl (p + 1, n + 1)) else mret (inr (n, c, p + 1))) (p, n0) (with_blk B' s) =
  let '(n, r) := cut l in
  Done (n0 + Z.of_nat (length n), match r with Some _ => 47 | None => 0 end, p + Z.of_nat (length n) + 1) (with_blk B' s).
Proof using Hbase.
  induction l as [|c l IH]; intros p n0 f Hs Hf; (destruct f as [|f]; [cbn in Hf; lia|]);
    rewrite kloop_S, (run_bind _ _ _ _ _ (user_byte_run B' p)); cbn [str_at cut] in *.
  - rewrite Hs. cbn. by rewrite !Z.add_0_r.
  - destruct Hs as (Hnz & -> & Hs). rewrite (proj2 (truth_true c) Hnz). destruct (Z.eqb_spec c 47) as [->|Hc].
    + cbn. by rewrite !Z.add_0_r.
    + cbn [negb andb]. done_ret.
      rewrite (IH (p + 1) (n0 + 1) f Hs) by (cbn in Hf; lia). destruct (cut l) as [n r]. cbn [length].
      f_equal. f_equal; [f_equal; lia|lia].
Qed.

(** The loop of [dir_namei]. *)
Lemma basename_run B' l : forall p b f, str_at p l -> (length l < f)%nat ->
  kloop f (fun '(p, basename) =>
    c ← get_fs_byte p;
    if negb (truth c) then mret (inr (p + 1, basename))
    else mret (inl (p + 1, if c =? 47 then p + 1 else basename))) (p, b) (with_blk B' s) =
  Done (p + Z.of_nat (length l) + 1,
    if decide (47 ∈ l) then p + Z.of_nat (length l) - Z.of_nat (length (last_name l)) else b) (with_blk B' s).
Proof using Hbase.
  induction l as [|c l IH]; intros p b f Hs Hf; (destruct f as [|f]; [cbn in Hf; lia|]);
    rewrite kloop_S, (run_bind _ _ _ _ _ (user_byte_run B' p)); cbn [str_at] in *.
  - rewrite Hs. cbn. by rewrite !Z.add_0_r.
  - destruct Hs as (Hnz & -> & Hs). rewrite (proj2 (truth_true c) Hnz). cbn [negb].
    done_ret.
    rewrite IH by (done || cbn in Hf; lia). cbn [length]. f_equal. f_equal; [lia|].
    destruct (decide (47 ∈ l)) as [Hin|Hin].
    + rewrite decide_True by (by right). rewrite last_name_in by done. lia.
    + destruct (Z.eqb_spec c 47) as [->|Hc].
      * rewrite decide_True by (by left). rewrite last_name_slash, last_name_notin by done. lia.
      * rewrite decide_False; [done|]. apply not_elem_of_cons. split; congruence.
Qed.

(** ** Looking a component up *)

Hypothesis Hcur : get_current (ks s) = Done cur (ks s).
Variables (r0 : Z) (xr : m_inode).
Hypothesis Hroot : root cur = Some r0 /\ array_get T0 r0 = Some xr /\ ~ unused xr /\ is_inode RAMDISK ROOT_INO xr.

Abbreviation node_step := (step B sb T0).
Lemma current_run B' : current_task (with_blk B' s) = Done cur (with_blk B' s).
Proof using Hcur.
  unfold current_task, on_ks. rewrite (zoom_Done _ _ _ _ cur (ks s)); [done|exact Hcur].
Qed.
(** The held slot is the slot of the root when it holds the root. *)
Lemma root_slot T e nr x : borrowed T e nr x -> e = r0 <-> nr = ROOT_INO.
Proof using Hroot.
  intros [Hx [Hd Hn] Hdisk Hc Ha]. destruct Hroot as (_ & Hr & Hru & [Hrd Hrn]).
  pose proof (array_get_Some_bound _ _ _ Hx) as Hb.
  assert (He : array_get (array_set T e (dec x)) e = Some (dec x)) by (by apply array_get_set_eq).
  apply (al_used _ _ _ _ Ha) in Hr; [|done]. split.
  - intros ->. rewrite He in Hr. injection Hr as <-. by rewrite <- Hrn, <- Hn.
  - intros ->. apply (tb_unique _ _ _ (al_ok _ _ _ _ Ha) e r0 (dec x) xr He Hr); unfold dec; cbn; [by rewrite Hd|].
    split; cbn; congruence.
Qed.

Lemma dot_dot_settles T e nr x B' p n m :
  borrowed T e nr x -> at_table B T B' -> str_at p (n ++ m) ->
  dot_dot (S fuel) depth e p (Z.min (Z.of_nat (length n)) NAME_LEN) (with_blk B' s) =
    Done (e, name_length (above nr n)) (with_blk B' s).
Proof using Hbase Hcur Hroot.
  intros Hbo Hat Hs. unfold dot_dot, above, name_length.
  destruct (Z.eqb_spec (Z.min (Z.of_nat (length n)) NAME_LEN) 2) as [H2|H2]; cbn [negb].
  2: { rewrite bool_decide_eq_false_2; [done|]. by intros [-> _]. }
  destruct n as [|c [|d [|? ?]]]; try (unfold NAME_LEN in H2; cbn [length] in H2; lia).
  cbn [app str_at] in Hs. destruct Hs as (_ & Hc & _ & Hd & _).
  rewrite (run_bind _ _ _ _ _ (user_byte_run B' p)), (run_bind _ _ _ _ _ (user_byte_run B' (p + 1))), Hc, Hd.
  destruct (Z.eqb_spec c 46) as [->|Hne], (Z.eqb_spec d 46) as [->|Hne']; cbn [andb negb];
    try (rewrite bool_decide_eq_false_2; [done|intros [[=] _]; congruence]).
  rewrite (run_bind _ _ _ _ _ (current_run B')). destruct Hroot as (-> & _).
  pose proof (root_slot _ _ _ _ Hbo) as Hiff. destruct (decide (nr = ROOT_INO)) as [Hr|Hr].
  - rewrite !bool_decide_eq_true_2; [done|done|]. f_equal. symmetry. by apply Hiff.
  - rewrite bool_decide_eq_false_2 by (intros [= <-]; by apply Hr, Hiff).
    rewrite (run_bind _ _ _ _ _ (inode_at_table B s T e x B' Hat (bo_at _ _ _ _ _ _ _ Hbo))).
    destruct (bo_inode _ _ _ _ _ _ _ Hbo) as [_ ->]. rewrite (proj2 (Z.eqb_neq _ _) Hr). cbn [negb].
    rewrite bool_decide_eq_false_2; [done|]. by intros [_ ?].
Qed.
Lemma above_char nr n j : 0 <= j < name_length (above nr n) -> name_char (above nr n) j = name_char n j.
Proof using Type.
  unfold above. destruct (bool_decide _) eqn:Hd; [|done]. apply bool_decide_eq_true in Hd as [-> _].
  unfold name_length. cbn. intros Hj. by assert (j = 0) as -> by lia.
Qed.
Lemma above_nil nr n : above nr n = [] -> n = [].
Proof using Type. unfold above. by destruct (bool_decide _). Qed.

Lemma above_length nr n : (length (above nr n) <= length n)%nat.
Proof using Type. unfold above. destruct (bool_decide _) eqn:Hd; [|done]. apply bool_decide_eq_true in Hd as [-> _]. cbn. lia. Qed.
(** The names that [match] compares are the names of the walk. *)
Lemma named_at T B' x y p n m nr i :
  at_table B T B' -> on_disk x = on_disk y -> str_at p (n ++ m) ->
  named B' x (user_char b0 p (with_blk B' s)) (name_length (above nr n)) i <->
  named B y (name_char (above nr n)) (name_length (above nr n)) i.
Proof using Type.
  intros Hat Hdisk Hs. unfold named, entry_inode, entry_char. rewrite (entry_block_at _ _ _ _ _ Hat Hdisk).
  assert (Hc : forall j, 0 <= j < name_length (above nr n) ->
    user_char b0 p (with_blk B' s) j = name_char (above nr n) j).
  { intros j Hj. rewrite above_char by done. apply (str_at_char p n m j Hs).
    pose proof (above_length nr n). unfold name_length in Hj. lia. }
  do 2 apply and_iff_compat_l. split; intros H j Hj; rewrite H by done; [|symmetry]; by apply Hc.
Qed.

(** [find_entry] with the walk's step: the buffer that it keeps holds the
    entry. *)
Definition entry_held (B' B1 : blk) (b k nr' : Z) : Prop :=
  exists Bq y, quiet B' Bq /\ held Bq B1 b y /\ de_inode (b_data y) k = nr'.
Lemma find_run T e nr x B' p n m :
  borrowed T e nr x -> at_table B T B' -> str_at p (n ++ m) -> dir_ok B (node nr) ->
  exists r B1, find_entry (S fuel) depth e p (Z.of_nat (length n)) (with_blk B' s) = Done (e, r) (with_blk B1 s) /\
    match r with
    | Some (b, k) => exists nr', node_step nr n = Some nr' /\ entry_held B' B1 b k nr'
    | None => node_step nr n = None /\ quiet B' B1
    end.
Proof using FC Hbase Hcur Hroot.
  intros Hbo Hat Hs [Hsize Hblocks]. pose proof (bo_at _ _ _ _ _ _ _ Hbo) as Hx.
  pose proof (bo_disk _ _ _ _ _ _ _ Hbo) as Hdisk. set (y := node nr) in *.
  destruct (decide (n = [])) as [->|Hn].
  { exists None, B'. split; [|split; [|by apply quiet_refl, (at_ready _ _ _ Hat)]].
    - unfold find_entry. by rewrite (run_bind _ _ _ _ _ (inode_at_table B s T e x B' Hat Hx)).
    - unfold step, lookup, above. rewrite (bool_decide_eq_false_2 ([] = [46; 46] /\ nr = ROOT_INO)) by (by intros [? _]). done. }
  assert (Hlen : 0 < name_length (above nr n) <= NAME_LEN).
  { unfold name_length. destruct (above nr n) eqn:Ha; [by apply above_nil in Ha|]. cbn [length]. unfold NAME_LEN. lia. }
  set (n' := above nr n) in *.
  destruct (find_entry_run fuel depth e b0 p (name_length n') x (with_blk B' s)) with (namelen := Z.of_nat (length n))
    as (r & s1 & Hrun & Hfst & Hfound); try done.
  - by destruct (bo_inode _ _ _ _ _ _ _ Hbo).
  - exact (at_ready _ _ _ Hat).
  - unfold inode_is. cbn. by rewrite (at_inodes _ _ _ Hat).
  - by rewrite (entries_at x y Hdisk).
  - intros m' Hm'. rewrite (entries_at x y Hdisk) in Hm'. destruct (Hblocks m' Hm') as [Hz Hp].
    change (inodes (with_blk B' s)) with B'.
    split; [by rewrite (file_block_at _ _ _ _ _ Hat Hdisk)|by apply (path_ok_at _ _ _ _ _ Hat Hdisk)].
  - by apply (dot_dot_settles T e nr x B' p n m).
  - destruct n; [done|]. cbn [length]. lia.
  - destruct r as [e' o]. cbn [fst snd] in *. subst e'.
    pose proof (fun i => named_at T B' x y p n m nr i Hat Hdisk Hs) as Hnamed. fold n' in Hnamed.
    unfold step. fold y n'. destruct o as [[b kk]|]; cbn [found] in Hfound.
    + destruct Hfound as (i & Hi & -> & [Hs1 (Bq & h & Hq & Hheld & Hdata)] & Hni & Hbefore).
      exists (Some (b, i mod 64)), (inodes s1). split; [by rewrite Hrun, Hs1|]. exists (entry_inode B y i). split.
      * rewrite (entries_at x y Hdisk) in Hi. apply lookup_first; [by intros ?%above_nil|done|by apply Hnamed|].
        intros j Hj Hnj. by apply (Hbefore j), Hnamed.
      * exists Bq, h. split_and!; [done|done|]. rewrite Hdata. unfold entry_inode.
        by rewrite <- (entry_block_at _ _ _ _ i Hat Hdisk).
    + destruct Hfound as (Hs1 & Hq & Hnone). exists None, (inodes s1). split; [by rewrite Hrun, Hs1|]. split; [|done].
      apply lookup_absent. intros j Hj Hnj. rewrite (entries_at x y Hdisk) in Hnone. by apply (Hnone j Hj), Hnamed.
Qed.

(** From the entry to its inode: the buffer and the directory are given back. *)
Lemma descend {A} (K : option Z -> F A) T e nr x B' B1 b kk nr' :
  borrowed T e nr x -> at_table B T B' -> settled B sb T0 nr -> entry_held B' B1 b kk nr' -> located B sb nr' ->
  exists e' x' T' B'', at_table B T' B'' /\ borrowed T' e' nr' x' /\
    (h ← buffer_at b; x ← inode_at e;
     InodeOps.release (S fuel) (Some b) ;; iput (S fuel) depth (Some e) ;;
     o ← iget (S fuel) depth (i_dev x) (de_inode (b_data h) kk); K o) (with_blk B1 s) =
    K (Some e') (with_blk B'' s).
Proof using Hsuper Hok0 Hplain0 Hcount0 Hfree.
  intros Hbo Hat Hset (Bq & y & Hq & Hheld & Hde) Hloc. pose proof (bo_at _ _ _ _ _ _ _ Hbo) as Hx.
  destruct (release_run fuel (with_blk B1 s) Bq B1 b y Hheld eq_refl) as (B2 & Hrel & Hq2).
  assert (Hat2 : at_table B T B2) by (eapply at_table_quiet; [exact Hat|by eapply quiet_trans]).
  destruct (iput_returns _ _ _ _ B2 Hbo Hat2 Hset) as (B3 & Hput & Hat3).
  destruct (iget_borrows _ B3 nr' (bo_alike _ _ _ _ _ _ _ Hbo) Hat3 Hloc) as (e' & x' & T' & B4 & Hget & Hat4 & Hbo4).
  exists e', x', T', B4. split; [done|]. split; [done|].
  rewrite (run_bind _ _ _ _ _ (buffer_at_run (with_blk B1 s) b y (hd_get _ _ _ _ Hheld))).
  assert (Hin : inode_at e (with_blk B1 s) = Done x (with_blk B1 s)).
  { apply (inode_at_run e x (with_blk B1 s)). unfold inode_is. cbn.
    by rewrite (hd_fsd _ _ _ _ Hheld), (qu_fsd _ _ Hq), (at_inodes _ _ _ Hat). }
  rewrite (run_bind _ _ _ _ _ Hin), (run_bind _ _ _ _ _ Hrel), with_blk_twice, (run_bind _ _ _ _ _ Hput).
  destruct (bo_inode _ _ _ _ _ _ _ Hbo) as [-> _]. by rewrite Hde, (run_bind _ _ _ _ _ Hget).
Qed.

(** ** [get_dir] *)

Abbreviation eu := (euid cur).
Abbreviation eg := (egid cur).
Abbreviation node_way := (way B sb T0 eu eg).
Abbreviation node_walk := (walk B sb T0 eu eg).

(** The result of a walk: a reference to the inode, or nothing held. *)
Definition lands (o d : option Z) (s' : kernel blk) : Prop :=
  exists B' T, s' = with_blk B' s /\ at_table B T B' /\
    match o, d with
    | Some e, Some nr => exists x, borrowed T e nr x
    | None, None => alike T
    | _, _ => False
    end.

Lemma may_at x y m : on_disk x = on_disk y -> i_dev x = i_dev y -> may eu eg x m = may eu eg y m.
Proof using Type.
  intros H Hd. assert (i_mode x = i_mode y /\ i_uid x = i_uid y /\ i_gid x = i_gid y /\ i_nlinks x = i_nlinks y) as (H1 & H2 & H3 & H4)
    by (by injection H).
  unfold may. by rewrite H1, H2, H3, H4, Hd.
Qed.
Lemma node_dev T e nr x : borrowed T e nr x -> i_dev (node nr) = RAMDISK.
Proof using Type.
  intros _. unfold node. destruct (list_find _ _) as [[i y]|] eqn:Hf; [|done].
  by apply list_find_Some in Hf as (_ & [[Hd _] _] & _).
Qed.
Lemma enter_run T e nr x B' : borrowed T e nr x -> at_table B T B' ->
  (if S_ISDIR (i_mode x) then permission e MAY_EXEC else mret false) (with_blk B' s) =
    Done (enterable B sb T0 eu eg nr) (with_blk B' s).
Proof using Hcur.
  intros Hbo Hat. pose proof (bo_disk _ _ _ _ _ _ _ Hbo) as Hdisk. unfold enterable.
  rewrite (on_disk_mode _ _ Hdisk). destruct (S_ISDIR _); [|done]. unfold permission. cbn [andb].
  rewrite (run_bind _ _ _ _ _ (inode_at_table B s T e x B' Hat (bo_at _ _ _ _ _ _ _ Hbo))).
  rewrite (run_bind _ _ _ _ _ (current_run B')).
  rewrite (may_at x (node nr)); [done|done|]. rewrite (node_dev _ _ _ _ Hbo). by destruct (bo_inode _ _ _ _ _ _ _ Hbo).
Qed.

(** One turn of the loop. *)
Lemma get_dir_step_run T e nr x B' p l :
  borrowed T e nr x -> at_table B T B' -> str_at p l -> (length l < S fuel)%nat -> node_way (split_path l) nr ->
  exists r s', get_dir_step (S fuel) depth (e, p) (with_blk B' s) = Done r s' /\
    match r with
    | inr o => lands o (node_walk (split_path l) nr) s'
    | inl (e', p') => exists n l' nr' T' x' B'', cut l = (n, Some l') /\ s' = with_blk B'' s /\
        at_table B T' B'' /\ borrowed T' e' nr' x' /\ str_at p' l' /\ node_way (split_path l') nr' /\
        node_walk (split_path l) nr = node_walk (split_path l') nr'
    end.
Proof using All.
  intros Hbo Hat Hs Hf Hway. unfold get_dir_step.
  rewrite (run_bind _ _ _ _ _ (inode_at_table B s T e x B' Hat (bo_at _ _ _ _ _ _ _ Hbo))).
  rewrite (run_bind _ _ _ _ _ (enter_run _ _ _ _ _ Hbo Hat)).
  assert (Hset : settled B sb T0 nr) by (by destruct (split_path l), Hway).
  destruct (enterable B sb T0 eu eg nr) eqn:Hent; cbn [negb].
  2: { destruct (iput_returns _ _ _ _ B' Hbo Hat Hset) as (B2 & Hput & Hat2). rewrite (run_bind _ _ _ _ _ Hput).
       eexists _, _. split; [reflexivity|]. cbv beta iota.
       replace (node_walk (split_path l) nr) with (@None Z); [|by destruct (split_path l); cbn [walk]; rewrite Hent].
       exists B2, (array_set T e (dec x)). split; [done|]. split; [done|]. apply (bo_alike _ _ _ _ _ _ _ Hbo). }
  pose proof (component_run B' l p 0 (S fuel) Hs Hf) as Hcomp. fold (component (S fuel) p) in Hcomp.
  rewrite (split_path_cut l) in *. destruct (cut l) as [n r] eqn:Hcut. rewrite (run_bind _ _ _ _ _ Hcomp). cbv iota beta.
  rewrite Z.add_0_l. destruct r as [l'|].
  2: { cbn [truth negb Z.eqb]. eexists _, _. split; [reflexivity|]. cbn [walk]. rewrite Hent.
       exists B', T. split; [done|]. split; [done|]. by exists x. }
  destruct (split_path_cons l') as (n1 & ns & Hl'). rewrite Hl' in Hway |- *. cbn [way walk] in *. rewrite Hent. cbn [negb].
  destruct Hway as (_ & Hdir & Hnext); [done|]. cbn [truth negb Z.eqb].
  pose proof (cut_app _ _ _ Hcut) as Hl.
  destruct (find_run T e nr x B' p n (47 :: l') Hbo Hat) as (o & B1 & Hfind & Ho); [by rewrite <- Hl|done|].
  rewrite (run_bind _ _ _ _ _ Hfind). cbv iota beta. destruct o as [[b kk]|].
  - destruct Ho as (nr' & Hstep & Hheld). destruct (Hnext nr' Hstep) as [Hloc Hway'].
    destruct (descend (A := Z * Z + option Z) (fun o => match o with None => mret (inr None) | Some inode => mret (inl (inode, p + Z.of_nat (length n) + 1)) end)
      T e nr x B' B1 b kk nr' Hbo Hat Hset Hheld Hloc) as (e' & x' & T' & B2 & Hat2 & Hbo2 & Hrun).
    eexists _, _. split; [exact Hrun|]. exists n, l', nr', T', x', B2. rewrite Hl', Hstep. split_and!; try done.
    rewrite Hl in Hs. apply str_at_app in Hs as (_ & _ & Hs).
    exact Hs.
  - destruct Ho as [Hstep Hq]. assert (Hat1 : at_table B T B1) by (by eapply at_table_quiet).
    destruct (iput_returns _ _ _ _ B1 Hbo Hat1 Hset) as (B2 & Hput & Hat2). rewrite (run_bind _ _ _ _ _ Hput).
    eexists _, _. split; [reflexivity|]. rewrite Hstep. exists B2, (array_set T e (dec x)). split; [done|]. split; [done|].
    apply (bo_alike _ _ _ _ _ _ _ Hbo).
Qed.

Lemma get_dir_loop f : forall T e nr x B' p l,
  borrowed T e nr x -> at_table B T B' -> str_at p l -> (length l < f)%nat -> (length l < S fuel)%nat ->
  node_way (split_path l) nr ->
  exists o s', kloop f (get_dir_step (S fuel) depth) (e, p) (with_blk B' s) = Done o s' /\
    lands o (node_walk (split_path l) nr) s'.
Proof using All.
  induction f as [|f IH]; intros T e nr x B' p l Hbo Hat Hs Hf Hfuel Hway; [lia|].
  destruct (get_dir_step_run T e nr x B' p l Hbo Hat Hs Hfuel Hway) as (r & s' & Hrun & Hr).
  rewrite kloop_S, Hrun. destruct r as [[e' p']|o]; [|by exists o, s'].
  destruct Hr as (n & l' & nr' & T' & x' & B'' & Hcut & -> & Hat' & Hbo' & Hs' & Hway' & ->).
  apply cut_app in Hcut as ->. rewrite length_app in Hf, Hfuel. cbn [length] in Hf, Hfuel.
  apply (IH T' e' nr' x' B'' p' l'); [done|done|done|lia|lia|done].
Qed.

(** One more reference to an inode in use, where the walk begins. *)
Lemma grab e nr x : array_get T0 e = Some x -> ~ unused x -> is_inode RAMDISK nr x -> ready B ->
  0 <= last_inode (fsd B) < 32 -> exists T B',
  set_inode e (fun x => x ⟪ i_count := u16 (i_count x + 1) ⟫) s = Done tt (with_blk B' s) /\
  at_table B T B' /\ borrowed T e nr (x ⟪ i_count := i_count x + 1 ⟫).
Proof using Hok0 Hplain0 Hcount0.
  intros Hx Hu Hin Hr Hlast. assert (Hat : at_table B T0 B) by (by split).
  destruct (set_inode_run B s T0 e x (fun x => x ⟪ i_count := u16 (i_count x + 1) ⟫) B Hat Hx) as (B' & Hrun & Hat').
  rewrite with_blk_id in Hrun. pose proof (Hcount0 e x Hx). rewrite u16_small in Hat' by lia.
  eexists _, B'. split; [exact Hrun|]. split; [exact Hat'|]. pose proof (array_get_Some_bound _ _ _ Hx) as Hb.
  set (y := x ⟪ i_count := i_count x + 1 ⟫).
  assert (Hy : array_get (array_set T0 e y) e = Some y) by (by apply array_get_set_eq).
  apply (borrowed_slot B sb T0 Hok0 Hcount0 T0 _ e nr y); try done.
  - by apply (table_ok_set B sb T0 e x y); [| | |exact (tb_unlocked _ _ _ Hok0 e x Hx)|unfold unused, y in *; cbn; lia].
  - intros j w. destruct (decide (e = j)) as [<-|Hne]; [|rewrite array_get_set_ne by done; apply Hplain0].
    rewrite Hy. intros [= <-] Hd. by apply (Hplain0 e x).
  - intros j w Hj _. by rewrite array_get_set_ne.
  - exact (tb_unlocked _ _ _ Hok0 e x Hx).
  - left. by exists x.
Qed.

Hypothesis Hready : ready B.
Hypothesis Hlast : 0 <= last_inode (fsd B) < 32.
Variables (p0 : Z) (xp : m_inode).
Hypothesis Hpwd : pwd cur = Some p0 /\ array_get T0 p0 = Some xp /\ ~ unused xp /\ i_dev xp = RAMDISK.

Lemma usable_run i x : array_get T0 i = Some x -> ~ unused x -> unusable (Some i) s = Done false s.
Proof using Type.
  intros Hx Hu. cbn [unusable]. rewrite (run_bind _ _ _ _ _ (inode_at_run i x s Hx)).
  by rewrite (proj2 (truth_true (i_count x))).
Qed.
Lemma get_dir_run p path : str_at p path -> (length path < S fuel)%nat -> path <> [] ->
  (let '(nr, l) := start (i_num xp) path in node_way (split_path l) nr) ->
  exists o s', get_dir (S fuel) depth p s = Done o s' /\
    lands o (let '(nr, l) := start (i_num xp) path in node_walk (split_path l) nr) s'.
Proof using All.
  intros Hs Hf Hne Hway. destruct Hroot as (Hr1 & Hr2 & Hr3 & Hr4), Hpwd as (Hp1 & Hp2 & Hp3 & Hp4).
  unfold get_dir. pose proof (current_run B) as Hc. rewrite with_blk_id in Hc.
  rewrite (run_bind _ _ _ _ _ Hc), Hr1, (run_bind _ _ _ _ _ (usable_run r0 xr Hr2 Hr3)).
  rewrite Hp1, (run_bind _ _ _ _ _ (usable_run p0 xp Hp2 Hp3)).
  pose proof (user_byte_run B p) as Hbyte. rewrite with_blk_id in Hbyte. rewrite (run_bind _ _ _ _ _ Hbyte).
  destruct path as [|c l]; [done|]. cbn [str_at] in Hs. destruct Hs as (Hc0 & Hcc & Hs). rewrite Hcc, (proj2 (truth_true c) Hc0).
  cbn [negb start] in *. destruct (Z.eqb_spec c 47) as [->|Hslash].
  - destruct (grab r0 ROOT_INO xr Hr2 Hr3 Hr4 Hready Hlast) as (T & B' & Hgrab & Hat & Hbo).
    rewrite run_deref, (run_bind _ _ _ _ _ Hgrab).
    apply (get_dir_loop (S fuel) T r0 ROOT_INO _ B' (p + 1) l Hbo Hat Hs); cbn [length] in Hf; [lia|lia|done].
  - destruct (grab p0 (i_num xp) xp Hp2 Hp3 (conj Hp4 eq_refl) Hready Hlast) as (T & B' & Hgrab & Hat & Hbo).
    rewrite run_deref, (run_bind _ _ _ _ _ Hgrab).
    apply (get_dir_loop (S fuel) T p0 (i_num xp) _ B' p (c :: l) Hbo Hat); [by cbn|lia|lia|done].
Qed.

(** ** [dir_namei] and [namei] *)

Lemma start_last path nr l : start (i_num xp) path = (nr, l) -> last_name path = last_name l.
Proof using Type.
  destruct path as [|c path]; cbn [start]; [by intros [= _ <-]|]. destruct (Z.eqb_spec c 47) as [->|]; intros [= _ <-]; [|done].
  apply last_name_slash.
Qed.
Lemma dir_namei_run p path nr l : str_at p path -> (length path < S fuel)%nat -> path <> [] ->
  start (i_num xp) path = (nr, l) -> node_way (split_path l) nr ->
  exists o s', dir_namei (S fuel) depth p s = Done o s' /\
    lands (fst <$> (fst <$> o)) (node_walk (split_path l) nr) s' /\
    forall e n b, o = Some (e, n, b) -> n = Z.of_nat (length (last_name l)) /\ str_at b (last_name l).
Proof using All.
  intros Hs Hf Hne Hst Hway. destruct (get_dir_run p path Hs Hf Hne) as (o & s' & Hrun & Hland); [by rewrite Hst|].
  rewrite Hst in Hland. unfold dir_namei. rewrite (run_bind _ _ _ _ _ Hrun). destruct o as [e|].
  2: { exists None, s'. by split_and!. }
  pose proof Hland as (B' & T & -> & _). rewrite (run_bind _ _ _ _ _ (basename_run B' path p p (S fuel) Hs Hf)).
  eexists (Some _), _. split; [reflexivity|]. split; [done|]. cbn [fst fmap option_fmap option_map].
  intros e' n b [= <- <- <-]. rewrite <- (start_last _ _ _ Hst). destruct (last_name_suffix path) as [pre Hpre].
  assert (Hb : (if decide (47 ∈ path) then p + Z.of_nat (length path) - Z.of_nat (length (last_name path)) else p) =
    p + Z.of_nat (length path) - Z.of_nat (length (last_name path))).
  { destruct (decide (47 ∈ path)) as [|Hin]; [done|]. rewrite last_name_notin by done. lia. }
  rewrite Hb. split; [lia|]. rewrite Hpre in Hs. apply str_at_app in Hs.
  rewrite Hpre at 1. rewrite length_app, Nat2Z.inj_add.
  by replace (p + (Z.of_nat (length pre) + Z.of_nat (length (last_name path))) - Z.of_nat (length (last_name path)))
    with (p + Z.of_nat (length pre)) by lia.
Qed.

(** What [namei] does to the inode that it has looked up. *)
Definition touched (x : m_inode) : m_inode := x ⟪ i_atime := u32 (CURRENT_TIME (ks s)) ⟫ ⟪ i_dirt := 1 ⟫.
Definition resolved (path : list Z) (r : option Z) (s' : kernel blk) : Prop :=
  exists B' T, s' = with_blk B' s /\ at_table B T B' /\
    match r, resolve B sb T0 eu eg (i_num xp) path with
    | Some e, Some nr => exists x T1, borrowed T1 e nr x /\
        T = array_set T1 e (if bool_decide (last_name path = []) then x else touched x)
    | None, None => alike T
    | _, _ => False
    end.
Lemma walk_way names : forall nr d, node_way names nr -> node_walk names nr = Some d ->
  settled B sb T0 d /\ dir_ok B (node d).
Proof using Type.
  induction names as [|n ns IH]; intros nr d; cbn [way walk]; destruct (enterable B sb T0 eu eg nr); cbn [negb]; try done.
  - intros (Hset & Hdir) [= <-]. split; [done|by apply Hdir].
  - destruct ns as [|n' ns]; [intros (Hset & Hdir) [= <-]; split; [done|by apply Hdir]|].
    intros (_ & Hdir) Hw. destruct (node_step nr n) as [nr'|] eqn:Hstep; [|done].
    destruct Hdir as [_ Hnext]; [done|]. apply (IH nr'); [by apply Hnext|done].
Qed.
Lemma get_dir_empty p : str_at p [] -> get_dir (S fuel) depth p s = Done None s.
Proof using All.
  intros Hs. destruct Hroot as (Hr1 & Hr2 & Hr3 & Hr4), Hpwd as (Hp1 & Hp2 & Hp3 & Hp4).
  unfold get_dir. pose proof (current_run B) as Hc. rewrite with_blk_id in Hc.
  rewrite (run_bind _ _ _ _ _ Hc), Hr1, (run_bind _ _ _ _ _ (usable_run r0 xr Hr2 Hr3)).
  rewrite Hp1, (run_bind _ _ _ _ _ (usable_run p0 xp Hp2 Hp3)).
  pose proof (user_byte_run B p) as Hbyte. rewrite with_blk_id in Hbyte. rewrite (run_bind _ _ _ _ _ Hbyte).
  cbn [str_at] in Hs. by rewrite Hs.
Qed.
(** The last component, in a directory that is held. *)
Lemma namei_last T e d x B' b name : borrowed T e d x -> at_table B T B' -> str_at b name -> name <> [] ->
  settled B sb T0 d -> dir_ok B (node d) -> (forall nr', node_step d name = Some nr' -> located B sb nr') ->
  exists r s', (r ← find_entry (S fuel) depth e b (Z.of_nat (length name));
    let '(dir, e) := r in
    match e with
    | None => iput (S fuel) depth (Some dir) ;; mret None
    | Some (b, k) =>
        h ← buffer_at b; x ← inode_at dir;
        InodeOps.release (S fuel) (Some b) ;;
        iput (S fuel) depth (Some dir) ;;
        o ← iget (S fuel) depth (i_dev x) (de_inode (b_data h) k);
        match o with
        | None => mret None
        | Some i =>
            t ← now;
            set_inode i (fun x => x ⟪ i_atime := u32 t ⟫ ⟪ i_dirt := 1 ⟫) ;;
            mret (Some i)
        end
    end) (with_blk B' s) = Done r s' /\
  exists B2 T2, s' = with_blk B2 s /\ at_table B T2 B2 /\
    match r, node_step d name with
    | Some e', Some nr' => exists x' T1, borrowed T1 e' nr' x' /\ T2 = array_set T1 e' (touched x')
    | None, None => alike T2
    | _, _ => False
    end.
Proof using FC Hbase Hcur Hroot Hsuper Hok0 Hplain0 Hcount0 Hfree.
  intros Hbo Hat Hs Hne Hset Hdir Hloc. rewrite <- (app_nil_r name) in Hs.
  destruct (find_run T e d x B' b name [] Hbo Hat Hs Hdir) as (o & B1 & Hfind & Ho).
  rewrite (run_bind _ _ _ _ _ Hfind). cbv iota beta. destruct o as [[b' kk]|].
  - destruct Ho as (nr' & Hstep & Hheld). rewrite Hstep.
    destruct (descend (fun o => match o with
        | None => mret None
        | Some i => t ← now; set_inode i (fun x => x ⟪ i_atime := u32 t ⟫ ⟪ i_dirt := 1 ⟫) ;; mret (Some i)
        end) T e d x B' B1 b' kk nr' Hbo Hat Hset Hheld (Hloc nr' Hstep)) as (e' & x' & T' & B2 & Hat2 & Hbo2 & Hrun).
    rewrite Hrun. cbv iota. unfold now. rewrite run_gets.
    destruct (set_inode_run B s T' e' x' (fun x => x ⟪ i_atime := u32 (CURRENT_TIME (ks s)) ⟫ ⟪ i_dirt := 1 ⟫) B2 Hat2
      (bo_at _ _ _ _ _ _ _ Hbo2)) as (B3 & Hset3 & Hat3).
    rewrite (run_bind _ _ _ _ _ Hset3). eexists _, _. split; [reflexivity|]. exists B3, (array_set T' e' (touched x')).
    split; [done|]. split; [exact Hat3|]. by exists x', T'.
  - destruct Ho as [Hstep Hq]. rewrite Hstep. assert (Hat1 : at_table B T B1) by (by eapply at_table_quiet).
    destruct (iput_returns _ _ _ _ B1 Hbo Hat1 Hset) as (B2 & Hput & Hat2). rewrite (run_bind _ _ _ _ _ Hput).
    eexists _, _. split; [reflexivity|]. exists B2, (array_set T e (dec x)). split; [done|]. split; [done|].
    apply (bo_alike _ _ _ _ _ _ _ Hbo).
Qed.
Lemma namei_run p path : str_at p path -> (length path < S fuel)%nat -> way_to B sb T0 eu eg (i_num xp) path ->
  exists r s', namei (S fuel) depth p s = Done r s' /\ resolved path r s'.
Proof using All.
  intros Hs Hf Hway. unfold namei, resolved, resolve. destruct (decide (path = [])) as [->|Hne].
  { exists None, s. unfold dir_namei. rewrite (run_bind _ _ _ None s).
    - split; [done|]. exists B, T0. rewrite with_blk_id. split_and!; [done|by split|by apply alike_refl].
    - by rewrite (run_bind _ _ _ _ _ (get_dir_empty p Hs)). }
  unfold way_to in Hway. rewrite bool_decide_eq_false_2 by done. destruct (start (i_num xp) path) as [nr l] eqn:Hst.
  destruct Hway as [Hway Hlast']. rewrite (start_last _ _ _ Hst).
  destruct (dir_namei_run p path nr l Hs Hf Hne Hst Hway) as (o & s1 & Hrun & Hland & Hname). rewrite (run_bind _ _ _ _ _ Hrun).
  destruct o as [[[e n] b]|].
  2: { destruct Hland as (B1 & T1 & Hs1 & Hat1 & Hland). cbn [fmap option_fmap option_map] in Hland.
       eexists None, _. split; [reflexivity|]. exists B1, T1. split_and!; [done|done|].
       destruct (node_walk (split_path l) nr) as [d|]; [done|exact Hland]. }
  destruct Hland as (B1 & T1 & -> & Hat1 & Hland). cbn [fmap option_fmap option_map fst] in Hland.
  destruct (Hname e n b eq_refl) as [-> Hsb].
  destruct (node_walk (split_path l) nr) as [d|] eqn:Hwalk; [|done]. destruct Hland as [x Hbo]. cbn [mbind option_bind].
  destruct (walk_way _ _ _ Hway Hwalk) as [Hset Hdir].
  destruct (decide (last_name l = [])) as [Hnil|Hcons].
  - rewrite Hnil, bool_decide_eq_true_2 by done. eexists (Some e), _. split; [reflexivity|].
    exists B1, T1. split_and!; [done|done|]. exists x, T1. split; [done|].
    by rewrite array_set_get by apply (bo_at _ _ _ _ _ _ _ Hbo).
  - rewrite bool_decide_eq_false_2 by done. rewrite (proj2 (truth_true _)) by (destruct (last_name l); [done|cbn [length]; lia]).
    cbn [negb]. apply (namei_last T1 e d x B1 b (last_name l) Hbo Hat1 Hsb Hcons Hset Hdir). intros nr'. by apply Hlast'.
Qed.

(** C7: [namei] resolves path names.  In a process whose root is the root of
    the ramdisk's file system and whose directory is on it, with nothing
    mounted on the file system, a free slot in a table of inodes that is in
    order, and a path in its memory, it completes.  It returns the inode that
    the walk over the path's components ends in, from the root or from the
    directory: every inode on the way is a directory in which the process may
    search and that holds the next name, with [..] of the root the root; a
    path that ends in a slash names the directory.  The inode's slot has one
    more reference and, but for that directory, a new time of access.  When
    the walk fails, or the path is empty, the result is [NULL].  Of the table
    no other slot in use has changed, so that every reference taken on the way
    is given back; no block has changed, and no other part of the state.  The
    inodes on the way are within the disk, have links, and are not block
    devices, and their directories have no holes. *)
Theorem namei_resolves p path :
  str_at p path -> (length path < S fuel)%nat -> way_to B sb T0 eu eg (i_num xp) path ->
  wp (namei (S fuel) depth p) (resolved path) s.
Proof using All. intros Hs Hf Hway. by apply wp_run, namei_run. Qed.
End run.

(** ** The path [/d/f] on a disk with a directory *)

#[local] Instance demo_sleeps : Sleeps := fun _ => panic "asleep".
#[local] Instance demo_drivers : Drivers := fun _ => mret tt.
#[local] Instance demo_change : FloppyChange := fun _ => mret 0.

Definition padded (n : nat) (l : list Z) : list Z := l ++ replicate (n - length l) 0.
(** Block 1 is the directory [/d], block 2 the root, block 3 holds the inodes 1, 2 and 3. *)
Definition tree_bytes : list Z :=
  padded 1024 [] ++ padded 1024 [3; 0; 102] ++ padded 1024 [2; 0; 100] ++
  padded 1024 (padded 32 [] ++
    padded 32 [0xED; 0x41; 0; 0; 16; 0; 0; 0; 0; 0; 0; 0; 0; 2; 1; 0] ++
    padded 32 [0xA4; 0x81; 0; 0; 5; 0; 0; 0; 0; 0; 0; 0; 0; 1; 0; 0]).
Definition tree_root : m_inode :=
  MInode 0x41ED 0 16 0 0 3 [2; 0; 0; 0; 0; 0; 0; 0; 0] 0 0 RAMDISK 1 2 0 0 0 0 0 0.
Definition tree_table : table := tree_root :: replicate 31 zero_inode.
Definition tree_super : super_block :=
  SuperBlock 32 4 0 1 1 0 0 SUPER_MAGIC [] [] RAMDISK None (Some 0) 0 0 0 0.
Definition tree_of (D : blk) : blk := D ⟪ rd_mem := tree_bytes ⟫ ⟪ fsd := FsTables tree_table 0 [tree_super] RAMDISK ⟫.
Definition tree : blk := tree_of demo.
Definition tree_task : task_struct := (INIT_TASK 0 0) ⟪ root := Some 0 ⟫ ⟪ pwd := Some 0 ⟫.
Definition tree_path : list Z := [47; 100; 47; 102].
Definition tree_walker (B : blk) : kernel blk :=
  Kernel (Sched (Some tree_task :: replicate 63 None) 0 0 0 None false [] [] ∅)
    (MM [] 0 ∅) 1 [] [] B []
    (fold_left (fun u k => set_byte (0x500 + k) (name_char tree_path k) u) (upto 4) ∅).

Lemma tree_heads : forallb (fun x => (b_dev x =? 0) && (b_dirt x =? 0)) (bufs tree) = true.
Proof. vm_compute. reflexivity. Qed.
Lemma tree_memory : Z.of_nat (length (rd_mem tree)) = rd_length tree.
Proof. vm_compute. reflexivity. Qed.
(** Buffers that hold nothing agree with any memory. *)
Lemma ready_memory D m f :
  forallb (fun x => (b_dev x =? 0) && (b_dirt x =? 0)) (bufs D) = true -> Z.of_nat (length m) = rd_length D ->
  ready D -> ready (D ⟪ rd_mem := m ⟫ ⟪ fsd := f ⟫).
Proof.
  intros Hheads Hm [[[C1 C2 C3] H2 [R1 R2 R3 _] H4 H5 H6] Hspare Hcount].
  assert (Hall : forall i x, array_get (bufs D) i = Some x -> b_dev x = 0 /\ b_dirt x = 0).
  { intros i x Hx. pose proof (proj1 (forallb_forall _ _) Hheads x) as H. rewrite andb_true_iff, !Z.eqb_eq in H. apply H.
    unfold array_get in Hx. destruct (0 <=? i); [|done]. by apply list_elem_of_lookup_2, list_elem_of_In in Hx. }
  split; [|done|done]. split; [by split|exact H2|by split|exact H4| |].
  - intros i x Hx Hd. by destruct (Hall i x Hx).
  - intros i x Hx _ Hv. destruct (Hall i x Hx) as [H0 _]. apply valid_spec in Hv as [[Hd _] _]. unfold RAMDISK in Hd. lia.
Qed.
Lemma tree_ready : ready tree.
Proof. exact (ready_memory demo tree_bytes _ tree_heads tree_memory Alloc.demo_ready). Qed.
Lemma tree_slots i x :
  array_get tree_table i = Some x -> (i = 0 /\ x = tree_root) \/ (0 < i /\ x = zero_inode).
Proof.
  intros Hx. pose proof (array_get_Some_bound _ _ _ Hx) as Hb. destruct (decide (i = 0)) as [->|Hi].
  - left. by injection Hx as <-.
  - right. split; [lia|]. unfold array_get in Hx. destruct (Z.leb_spec 0 i); [|lia].
    replace (Z.to_nat i) with (S (Z.to_nat (i - 1))) in Hx by lia. cbn in Hx.
    change (replicate 31 zero_inode !! Z.to_nat (i - 1) = Some x) in Hx.
    by apply lookup_replicate in Hx as [-> _].
Qed.
Lemma tree_table_ok B : table_ok B tree_super tree_table.
Proof.
  split; [done| | | |].
  - intros i x [[_ ->]|[_ ->]]%tree_slots; done.
  - intros i x [[_ ->]|[_ ->]]%tree_slots; done.
  - intros i x [[_ ->]|[_ ->]]%tree_slots; done.
  - intros i j x y [[-> ->]|[Hi ->]]%tree_slots [[-> ->]|[Hj ->]]%tree_slots; try done. by intros _ [? _].
Qed.

(** What the walk finds. *)
Record tree_facts (B : blk) : Prop := {
  tf_ready : ready B;
  tf_fsd : fsd B = FsTables tree_table 0 [tree_super] RAMDISK;
  tf_length : rd_length B = 4096;
  tf_nodes : forall nr, let x := node B tree_super tree_table nr in
    (nr = 1 \/ nr = 2 -> i_mode x = 0x41ED /\ i_size x = 16 /\ 0 < zone_of x 0 <= 3 /\ i_nlinks x <> 0) /\
    (nr = 3 -> i_mode x = 0x81A4);
  tf_first : step B tree_super tree_table 1 [100] = Some 2;
  tf_second : step B tree_super tree_table 2 [102] = Some 3;
  tf_enter : enterable B tree_super tree_table 0 0 1 = true /\ enterable B tree_super tree_table 0 0 2 = true
}.
Lemma tree_nodes :
  map (fun nr => let x := node tree tree_super tree_table nr in (i_mode x, i_size x, zone_of x 0, i_nlinks x)) [1; 2; 3] =
  [(0x41ED, 16, 2, 3); (0x41ED, 16, 1, 2); (0x81A4, 5, 0, 1)].
Proof. vm_compute. reflexivity. Qed.
Lemma tree_holds : tree_facts tree.
Proof.
  split; [exact tree_ready|reflexivity|vm_compute; reflexivity| |vm_compute; reflexivity|vm_compute; reflexivity|split; vm_compute; reflexivity].
  intros nr x. subst x. pose proof tree_nodes as Hnodes. revert Hnodes. generalize (node tree tree_super tree_table). intros f Hnodes.
  cbn [map] in Hnodes. injection Hnodes as H1 H2 H3 H4 H5 H6 H7 H8 H9 H10 H11 H12.
  split; [intros [->| ->]; split_and!; lia|by intros ->].
Qed.

(** The way to [/d/f] is sound. *)
Section tree_way.
Context (B : blk) (HB : tree_facts B).
Abbreviation B_node := (node B tree_super tree_table).
Lemma tree_located nr : nr = 2 \/ nr = 3 -> located B tree_super nr.
Proof using HB.
  intros Hnr. unfold located. rewrite (tf_length _ HB).
  assert (inode_block (fresh nr) tree_super = 3) as -> by (destruct Hnr as [-> | ->]; reflexivity). lia.
Qed.
Lemma tree_dir nr : nr = 1 \/ nr = 2 -> settled B tree_super tree_table nr /\ dir_ok B (B_node nr).
Proof using HB.
  intros Hnr. destruct (proj1 (tf_nodes _ HB nr) Hnr) as (Hm & Hs & Hz & Hn).
  split; [split; [done|by rewrite Hm]|]. unfold dir_ok, entries. rewrite Hs. split; [done|].
  intros m Hm'. change (16 / 16) with 1 in Hm'. assert (m = 0) as -> by lia. unfold path_ok.
  change (file_block B (B_node nr) 0) with (zone_of (B_node nr) 0).
  split; [lia|]. split; [|split; intros; lia]. split; [lia|]. intros _. rewrite (tf_length _ HB). lia.
Qed.
Lemma tree_way : way_to B tree_super tree_table 0 0 1 tree_path.
Proof using HB.
  unfold way_to. change (start 1 tree_path) with (1, [100; 47; 102]). cbv iota beta.
  change (split_path [100; 47; 102]) with [[100]; [102]]. change (last_name [100; 47; 102]) with [102].
  destruct (tree_dir 1) as [Hs1 Hd1]; [by left|]. destruct (tree_dir 2) as [Hs2 Hd2]; [by right|].
  destruct (tf_enter _ HB) as [He1 He2]. split.
  - cbn [way]. split; [done|]. intros _. split; [done|]. intros nr'. rewrite (tf_first _ HB). intros [= <-]. split; [by apply tree_located; left|done].
  - intros d nr'. cbn [walk]. rewrite He1, (tf_first _ HB). cbn [negb mbind option_bind]. rewrite He2. cbn [negb].
    intros [= <-]. rewrite (tf_second _ HB). intros [= <-]. by apply tree_located; right.
Qed.
Lemma tree_resolve : resolve B tree_super tree_table 0 0 1 tree_path = Some 3.
Proof using HB.
  unfold resolve. change (bool_decide (tree_path = [])) with false. change (start 1 tree_path) with (1, [100; 47; 102]). cbv iota beta.
  change (split_path [100; 47; 102]) with [[100]; [102]]. change (last_name [100; 47; 102]) with [102].
  destruct (tf_enter _ HB) as [He1 He2]. cbn [walk]. rewrite He1, (tf_first _ HB).
  cbn [negb mbind option_bind]. rewrite He2. cbn. exact (tf_second _ HB).
Qed.
End tree_way.

Lemma namei_resolves_witness :
  wp (namei 5 0 0x500) (fun r s' => exists e x, r = Some e /\
    array_get (inode_table (fsd (inodes s'))) e = Some x /\ i_num x = 3 /\ i_mode x = 0x81A4) (tree_walker tree).
Proof.
  generalize tree_holds. generalize tree as B. intros B HB. pose proof (tf_fsd _ HB) as Hfsd.
  assert (HT : inode_table (fsd (inodes (tree_walker B))) = tree_table) by (cbn; by rewrite Hfsd).
  eapply wp_mono.
  { apply (namei_resolves 4 0 0 tree_super (tree_walker B) 0 tree_task) with (r0 := 0) (xr := tree_root) (p0 := 0) (xp := tree_root)
      (path := tree_path); rewrite ?HT; try done.
    - split; cbn; rewrite ?Hfsd; try done. intros j x Hj Hx. apply array_get_Some_bound in Hx. lia.
    - exact (tree_table_ok _).
    - intros i x [[_ ->]|[_ ->]]%tree_slots; done.
    - intros i x [[_ ->]|[_ ->]]%tree_slots; done.
    - by exists 1, zero_inode.
    - exists tree_task; eexists; split_and!; reflexivity.
    - exact (tf_ready _ HB).
    - cbn. by rewrite Hfsd.
    - cbn. lia.
    - exact (tree_way B HB). }
  intros r s' (B' & T & -> & Hat & Hr). rewrite HT in Hr. change (i_num tree_root) with 1 in Hr.
  change (inodes (tree_walker B)) with B in Hr, Hat. change (euid tree_task) with 0 in Hr. change (egid tree_task) with 0 in Hr.
  rewrite (tree_resolve B HB) in Hr. destruct r as [e|]; [|done]. destruct Hr as (x & T1 & Hbo & ->).
  exists e, (touched (tree_walker B) x). split; [done|]. cbn [with_blk inodes set_field]. rewrite (at_inodes _ _ _ Hat).
  pose proof (bo_at _ _ _ _ _ _ _ Hbo) as Hx. rewrite array_get_set_eq by (by eapply array_get_Some_bound).
  split; [done|]. split; [apply (bo_inode _ _ _ _ _ _ _ Hbo)|]. change (i_mode (touched _ x)) with (i_mode x).
  rewrite (on_disk_mode _ _ (bo_disk _ _ _ _ _ _ _ Hbo)). by apply (tf_nodes _ HB).
Defined.
End Resolve.
