(* ===== verification/Malloc.v ===== *)
(** * The kernel heap ([lib/malloc.c])

    [malloc] keeps, for each power of two from 16 to 4096, a chain of bucket
    descriptors; a descriptor owns one page, cut into objects of the size,
    and a list of its free objects, linked through their first longwords.
    Descriptors themselves come from pages of their own, 256 to the page.
    They are read and written in physical memory, at the offsets that the
    compiler gives the fields.  Interrupts are off where a chain is
    changed. *)

From S2P Require Import Prelude Memory.

Module Malloc.

Definition PAGE_SIZE : Z := 4096.

(** The fields of the [struct bucket_desc] at an address: [page] at 0,
    [next] at 4, [freeptr] at 8, [refcnt] and [bucket_size] the halves of the
    longword at 12. *)
Definition at_page (d : Z) : Z := d.
Definition at_next (d : Z) : Z := d + 4.
Definition at_freeptr (d : Z) : Z := d + 8.
Definition at_refcnt (d : Z) : Z := d + 12.
Definition SIZEOF_BUCKET_DESC : Z := 16.
Definition refcnt (w : Z) : Z := u16 w.
Definition set_refcnt (w v : Z) : Z := w - refcnt w + u16 v.
Definition set_bucket_size (w v : Z) : Z := refcnt w + 65536 * u16 v.

Record heap : Type := Heap {
  hmm : mm;
  bucket_dir : list (Z * Z);       (* size and chain *)
  free_bucket_desc : Z
}.
#[export] Instance heap_rebuild : Rebuild heap :=
  fun s => Heap (hmm s) (bucket_dir s) (free_bucket_desc s).

Definition initial_bucket_dir : list (Z * Z) :=
  [(16, 0); (32, 0); (64, 0); (128, 0); (256, 0); (512, 0); (1024, 0); (2048, 0); (4096, 0); (0, 0)].

Definition on_mm {A} (m : KM mm A) : KM heap A := zoom hmm (fun k s => s ⟪ hmm := k ⟫) m.
Definition get (a : Z) : KM heap Z := on_mm (load a).
Definition put (a v : Z) : KM heap unit := on_mm (store a v).
(** [bdir->chain], for the entry [i] of the directory. *)
Definition get_chain (i : Z) : KM heap Z := d ← gets bucket_dir; e ← read_at d i; mret (snd e).
Definition put_chain (i v : Z) : KM heap unit :=
  d ← gets bucket_dir; e ← read_at d i; modify (fun s => s ⟪ bucket_dir := array_set d i (fst e, v) ⟫).

Definition init_bucket_desc : KM heap unit :=
  first ← on_mm get_free_page;
  if negb (truth first) then panic "Out of memory in init_bucket_desc()"
  else
    kfor (upto (PAGE_SIZE / SIZEOF_BUCKET_DESC - 1)) (fun k =>
      put (at_next (first + SIZEOF_BUCKET_DESC * k)) (first + SIZEOF_BUCKET_DESC * (k + 1))) ;;
    f ← gets free_bucket_desc;
    put (at_next (first + SIZEOF_BUCKET_DESC * (PAGE_SIZE / SIZEOF_BUCKET_DESC - 1))) f ;;
    modify (fun s => s ⟪ free_bucket_desc := first ⟫).

(** The first entry of the directory that is large enough, or the marker at
    its end. *)
Fixpoint find_dir (l : list (Z * Z)) (len i : Z) : option (Z * Z) :=
  match l with
  | [] => None
  | (size, _) :: l => if (size =? 0) || (len <=? size) then Some (i, size) else find_dir l len (i + 1)
  end.

Section heap.
(** The turns of a walk along a chain of descriptors. *)
Variable fuel : nat.

Definition find_space : Z -> KM heap Z := kloop fuel (fun bdesc =>
  if negb (truth bdesc) then mret (inr 0)
  else
    f ← get (at_freeptr bdesc);
    if truth f then mret (inr bdesc)
    else n ← get (at_next bdesc); mret (inl n)).

(** The chain of free objects of a new page. *)
Definition link_objects (cp size : Z) : KM heap unit :=
  kfor (upto (PAGE_SIZE / size - 1)) (fun k => put (cp + size * k) (cp + size * (k + 1))) ;;
  put (cp + size * (PAGE_SIZE / size - 1)) 0.

Definition new_bucket (i size : Z) : KM heap Z :=
  f ← gets free_bucket_desc;
  kwhen (negb (truth f)) init_bucket_desc ;;
  bdesc ← gets free_bucket_desc;
  n ← get (at_next bdesc);
  modify (fun s => s ⟪ free_bucket_desc := n ⟫) ;;
  w ← get (at_refcnt bdesc); put (at_refcnt bdesc) (set_refcnt w 0) ;;
  w ← get (at_refcnt bdesc); put (at_refcnt bdesc) (set_bucket_size w size) ;;
  cp ← on_mm get_free_page;
  put (at_freeptr bdesc) cp ;;
  put (at_page bdesc) cp ;;
  if negb (truth cp) then panic "Out of memory in kernel malloc()"
  else
    link_objects cp size ;;
    c ← get_chain i; put (at_next bdesc) c ;;
    put_chain i bdesc ;;
    mret bdesc.

Definition malloc (len : Z) : KM heap Z :=
  d ← gets bucket_dir;
  e ← deref (find_dir d len 0);
  let '(i, size) := e in
  if negb (truth size) then panic "malloc: bad arg"
  else
    c ← get_chain i;
    bdesc ← find_space c;
    bdesc ← (if truth bdesc then mret bdesc else new_bucket i size);
    retval ← get (at_freeptr bdesc);
    n ← get retval; put (at_freeptr bdesc) n ;;
    w ← get (at_refcnt bdesc); put (at_refcnt bdesc) (set_refcnt w (refcnt w + 1)) ;;
    mret retval.

(** The descriptor of a page in a chain, with the one before it ([prev]). *)
Definition find_page (page : Z) : Z -> KM heap (option (Z * Z)) := fun c =>
  kloop fuel (fun '(prev, bdesc) =>
    if negb (truth bdesc) then mret (inr None)
    else
      p ← get (at_page bdesc);
      if p =? page then mret (inr (Some (prev, bdesc)))
      else n ← get (at_next bdesc); mret (inl (bdesc, n))) (0, c).
(** The same over the directory: its entry, [prev] and the descriptor. *)
Fixpoint find_bucket (page size : Z) (l : list (Z * Z)) (i : Z) : KM heap (Z * Z * Z) :=
  match l with
  | [] => fault
  | (bsize, c) :: l =>
      if negb (truth bsize) then panic "Bad address passed to kernel free_s()"
      else if bsize <? size then find_bucket page size l (i + 1)
      else
        o ← find_page page c;
        match o with
        | Some (prev, bdesc) => mret (i, prev, bdesc)
        | None => find_bucket page size l (i + 1)
        end
  end.
(** [for (prev = bdir->chain; prev; prev = prev->next)] *)
Definition find_prev (bdesc : Z) : Z -> KM heap Z := kloop fuel (fun prev =>
  if negb (truth prev) then mret (inr 0)
  else n ← get (at_next prev); if n =? bdesc then mret (inr prev) else mret (inl n)).

Definition unlink (i prev bdesc : Z) : KM heap unit :=
  c ← get_chain i;
  stale ← (if truth prev then n ← get (at_next prev); mret (negb (n =? bdesc)) else mret (negb (c =? bdesc)));
  prev ← (if stale : bool then find_prev bdesc c else mret prev);
  n ← get (at_next bdesc);
  if truth prev then put (at_next prev) n
  else if negb (c =? bdesc) then panic "malloc bucket chains corrupted"
  else put_chain i n.

Definition free_s (obj size : Z) : KM heap unit :=
  d ← gets bucket_dir;
  e ← find_bucket (frame obj) size d 0;
  let '(i, prev, bdesc) := e in
  f ← get (at_freeptr bdesc); put obj f ;;
  put (at_freeptr bdesc) obj ;;
  w ← get (at_refcnt bdesc);
  put (at_refcnt bdesc) (set_refcnt w (refcnt w - 1)) ;;
  if truth (refcnt (set_refcnt w (refcnt w - 1))) then mret tt
  else
    unlink i prev bdesc ;;
    p ← get (at_page bdesc); on_mm (free_page p) ;;
    f ← gets free_bucket_desc; put (at_next bdesc) f ;;
    modify (fun s => s ⟪ free_bucket_desc := bdesc ⟫).
End heap.
End Malloc.
