(* ===== verification/MallocOk.v ===== *)
(** * The kernel heap is an allocator ([lib/malloc.c])

    The heap represented as a list of buckets, each a descriptor with its
    page, its size and its free objects, and a list of spare descriptors.
    [malloc] gives out an object that was free, changes no other allocated
    object, and keeps the representation. *)

From S2P Require Import Prelude Memory Malloc Cache.

Module MallocOk.
Import Malloc Cache.

(** ** The representation *)

Definition word (h : heap) (a : Z) : Z := word_at (phys (hmm h)) a.

(** The links at [link] lead through the list, and end with zero. *)
Fixpoint chained (h : heap) (link : Z -> Z) (l : list Z) : Prop :=
  match l with
  | [] => True
  | a :: l => word h (link a) = hd 0 l /\ chained h link l
  end.

Record bucket : Type := Bucket { bk_desc : Z; bk_size : Z; bk_no : Z; bk_free : list Z }.
Definition SIZES : list Z := [16; 32; 64; 128; 256; 512; 1024; 2048; 4096].
Definition slots (b : bucket) : list Z :=
  map (fun k => page_of (bk_no b) + bk_size b * k) (upto (4096 / bk_size b)).
Definition in_page (q a : Z) : Prop := page_of q <= a < page_of q + 4096.
Definition used (h : heap) (q : Z) : Prop := exists c, array_get (mem_map (hmm h)) q = Some c /\ c <> 0.

Record bucket_ok (h : heap) (b : bucket) : Prop := {
  bo_size : bk_size b ∈ SIZES;
  bo_page : word h (at_page (bk_desc b)) = page_of (bk_no b);
  bo_freeptr : word h (at_freeptr (bk_desc b)) = hd 0 (bk_free b);
  bo_count : refcnt (word h (at_refcnt (bk_desc b))) = 4096 / bk_size b - Z.of_nat (length (bk_free b));
  bo_chain : chained h (fun a => a) (bk_free b);
  bo_nodup : NoDup (bk_free b);
  bo_slots : forall x, x ∈ bk_free b -> x ∈ slots b
}.

(** The descriptors of a size, in the order of their chain. *)
Definition of_size (s : Z) (L : list bucket) : list bucket := filter (fun b => bk_size b = s) L.
Definition descs (s : Z) (L : list bucket) : list Z := map bk_desc (of_size s L).
Definition dir_of (L : list bucket) : list (Z * Z) := map (fun s => (s, hd 0 (descs s L))) SIZES ++ [(0, 0)].

Record heap_ok (h : heap) (L : list bucket) (F : list Z) : Prop := {
  ho_mm : mm_wf (hmm h);
  ho_dir : bucket_dir h = dir_of L;
  ho_chains : forall s, chained h at_next (descs s L);
  ho_spare : free_bucket_desc h = hd 0 F;
  ho_spares : chained h at_next F;
  ho_buckets : forall b, b ∈ L -> bucket_ok h b;
  ho_descs : NoDup (map bk_desc L ++ F);
  ho_place : forall d, d ∈ map bk_desc L ++ F ->
    (16 | d) /\ exists q, in_page q d /\ used h q /\ q ∉ map bk_no L;
  ho_pages : NoDup (map bk_no L);
  ho_used : forall b, b ∈ L -> used h (bk_no b);
  ho_high : forall q, array_get (mem_map (hmm h)) q = Some 0 \/ q ∈ map bk_no L -> page_of q < HIGH_MEMORY (hmm h)
}.

(** The objects given out, with their sizes. *)
Definition given (L : list bucket) (x size : Z) : Prop :=
  exists b, b ∈ L /\ bk_size b = size /\ x ∈ slots b /\ x ∉ bk_free b.

(** ** Words and pages *)

Definition hput (a v : Z) (h : heap) : heap := h ⟪ hmm := (hmm h) ⟪ phys := <[a := u32 v]> (phys (hmm h)) ⟫ ⟫.
Lemma get_run a h : get a h = Done (word h a) h.
Proof. by destruct h. Qed.
Lemma put_run a v h : put a v h = Done tt (hput a v h).
Proof. done. Qed.
Lemma word_hput a v h b : word (hput a v h) b = if b =? a then u32 v else word h b.
Proof.
  unfold word, hput, word_at. cbn [hmm phys set_field]. destruct (Z.eqb_spec b a) as [->|Hne].
  - by rewrite lookup_insert_eq.
  - by rewrite lookup_insert_ne by done.
Qed.
Lemma word_hput_ne a v h b : b <> a -> word (hput a v h) b = word h b.
Proof. intros. by rewrite word_hput, (proj2 (Z.eqb_neq b a)). Qed.
Lemma hput_mem_map a v h : mem_map (hmm (hput a v h)) = mem_map (hmm h).
Proof. done. Qed.

Lemma in_page_eq q q' a : in_page q a -> in_page q' a -> q = q'.
Proof. unfold in_page, page_of. lia. Qed.
Lemma used_bound h q : mm_wf (hmm h) -> used h q -> 0 <= q < 3840.
Proof. intros Hwf (c & Hc & _). by eapply wf_index. Qed.
(** The sizes divide a page. *)
Lemma size_facts s : s ∈ SIZES -> s * (4096 / s) = 4096 /\ 16 <= s <= 4096 /\ (4 | s) /\ 1 <= 4096 / s <= 256.
Proof.
  intros Hs. rewrite <- Z.mod_divide by lia.
  assert (Hall : Forall (fun s => s * (4096 / s) = 4096 /\ 16 <= s <= 4096 /\ s mod 4 = 0 /\ 1 <= 4096 / s <= 256) SIZES).
  { apply (bool_decide_unpack _). vm_compute. exact I. }
  rewrite Forall_forall in Hall. apply Hall. by apply list_elem_of_In.
Qed.
Lemma elem_of_slots b x : x ∈ slots b <-> exists k, x = page_of (bk_no b) + bk_size b * k /\ 0 <= k < 4096 / bk_size b.
Proof.
  unfold slots. rewrite list_elem_of_In, in_map_iff. split; intros (k & H1 & H2); exists k.
  - split; [done|]. by apply list_elem_of_In, elem_of_upto in H2.
  - split; [done|]. by apply list_elem_of_In, elem_of_upto.
Qed.
(** An object lies in its page, from its first word to its last byte. *)
Lemma slots_in b x : bk_size b ∈ SIZES -> x ∈ slots b ->
  page_of (bk_no b) <= x /\ x + bk_size b <= page_of (bk_no b) + 4096 /\ (4 | x).
Proof.
  intros (Hd & Hs & [c Hc] & Hn)%size_facts (k & -> & Hk)%elem_of_slots.
  split; [nia|]. split; [nia|]. exists (262144 + 1024 * bk_no b + c * k). unfold page_of, LOW_MEM. nia.
Qed.
Lemma slots_in_page b x : bk_size b ∈ SIZES -> x ∈ slots b -> in_page (bk_no b) x.
Proof. intros Hs Hx. pose proof (size_facts _ Hs). destruct (slots_in b x Hs Hx). unfold in_page. lia. Qed.
Lemma slots_length b : length (slots b) = Z.to_nat (4096 / bk_size b).
Proof. unfold slots. by rewrite length_map, length_seqZ. Qed.
Lemma slots_nodup b : bk_size b ∈ SIZES -> NoDup (slots b).
Proof.
  intros Hs%size_facts. unfold slots. change (map ?f ?l) with (f <$> l). apply NoDup_fmap_2_strong; [|apply NoDup_seqZ].
  intros k k' _ _ H. nia.
Qed.
(** Different objects do not overlap. *)
Lemma slots_disjoint b x y : bk_size b ∈ SIZES -> x ∈ slots b -> y ∈ slots b -> x <> y ->
  x + bk_size b <= y \/ y + bk_size b <= x.
Proof.
  intros Hs%size_facts (k & -> & Hk)%elem_of_slots (j & -> & Hj)%elem_of_slots Hne.
  destruct (Z.lt_trichotomy k j) as [H|[->|H]]; [left; nia|done|right; nia].
Qed.

(** ** Chains *)

Lemma chained_ext h h' link l :
  (forall a, a ∈ l -> word h' (link a) = word h (link a)) -> chained h link l -> chained h' link l.
Proof.
  induction l as [|a l IH]; [done|]. intros Hw [Ha Hl]. split; [rewrite Hw by (by left); done|].
  apply IH; [|done]. intros b Hb. apply Hw. by right.
Qed.
Lemma of_size_app s L1 b L2 : of_size s (L1 ++ b :: L2) =
  of_size s L1 ++ (if decide (bk_size b = s) then [b] else []) ++ of_size s L2.
Proof. unfold of_size. rewrite list.filter_app, filter_cons. by destruct (decide (bk_size b = s)). Qed.
Lemma descs_app s L1 b L2 : descs s (L1 ++ b :: L2) =
  descs s L1 ++ (if decide (bk_size b = s) then [bk_desc b] else []) ++ descs s L2.
Proof. unfold descs. rewrite of_size_app, !map_app. by destruct (decide (bk_size b = s)). Qed.
Lemma descs_cons s b L : descs s (b :: L) = (if decide (bk_size b = s) then [bk_desc b] else []) ++ descs s L.
Proof. apply (descs_app s []). Qed.
Lemma elem_of_descs s L d : d ∈ descs s L -> d ∈ map bk_desc L.
Proof.
  unfold descs, of_size. rewrite !list_elem_of_In, !in_map_iff. intros (b & Hb & Hin).
  exists b. split; [done|]. apply list_elem_of_In in Hin. apply list_elem_of_filter in Hin as [_ Hin]. by apply list_elem_of_In.
Qed.
Lemma elem_of_map_desc L b : b ∈ L -> bk_desc b ∈ map bk_desc L.
Proof. rewrite !list_elem_of_In. apply in_map. Qed.
Lemma elem_of_map_no L b : b ∈ L -> bk_no b ∈ map bk_no L.
Proof. rewrite !list_elem_of_In. apply in_map. Qed.

(** ** Where descriptors lie *)

(** One of the four words of the descriptor [d]. *)
Definition desc_word (d a : Z) : Prop := d <= a <= d + 12.
Section place.
Context {h : heap} {L : list bucket} {F : list Z}.
Hypothesis Hok : heap_ok h L F.

Lemma desc_positive d : d ∈ map bk_desc L ++ F -> 0 < d < 4294967296.
Proof.
  intros Hd. destruct (ho_place _ _ _ Hok d Hd) as (_ & q & Hq & Hu & _).
  pose proof (used_bound _ _ (ho_mm _ _ _ Hok) Hu). unfold in_page, page_of, LOW_MEM in Hq. lia.
Qed.
Lemma desc_apart d d' a : d ∈ map bk_desc L ++ F -> d' ∈ map bk_desc L ++ F -> desc_word d a -> desc_word d' a -> d = d'.
Proof.
  intros Hd Hd'. destruct (ho_place _ _ _ Hok d Hd) as ([x ->] & _), (ho_place _ _ _ Hok d' Hd') as ([y ->] & _).
  unfold desc_word. lia.
Qed.
(** No word of a descriptor is in a page of objects. *)
Lemma desc_outside d a b : d ∈ map bk_desc L ++ F -> desc_word d a -> b ∈ L -> ~ in_page (bk_no b) a.
Proof.
  intros Hd Ha Hb Hin. destruct (ho_place _ _ _ Hok d Hd) as ([x ->] & q & Hq & _ & Hout).
  apply Hout. assert (q = bk_no b) as ->; [|by apply elem_of_map_no].
  apply (in_page_eq _ _ a); [|done]. unfold in_page, page_of, desc_word, LOW_MEM in *.
  lia.
Qed.
(** Different buckets have different descriptors and pages. *)
Lemma bucket_inj b b' : b ∈ L -> b' ∈ L -> bk_desc b = bk_desc b' \/ bk_no b = bk_no b' -> b = b'.
Proof.
  intros Hb Hb'. pose proof (ho_descs _ _ _ Hok) as Hn%list.NoDup_app. destruct Hn as (Hn & _ & _).
  pose proof (ho_pages _ _ _ Hok) as Hp.
  apply list_elem_of_lookup in Hb as [i Hi], Hb' as [j Hj].
  change (map bk_desc L) with (bk_desc <$> L) in Hn. change (map bk_no L) with (bk_no <$> L) in Hp.
  intros [H|H].
  - assert (i = j) as ->; [|congruence]. apply (NoDup_lookup _ i j (bk_desc b) Hn); rewrite list_lookup_fmap; [by rewrite Hi|by rewrite Hj, H].
  - assert (i = j) as ->; [|congruence]. apply (NoDup_lookup _ i j (bk_no b) Hp); rewrite list_lookup_fmap; [by rewrite Hi|by rewrite Hj, H].
Qed.
End place.

(** A bucket is as before when its words are. *)
Lemma bucket_ok_ext h h' b :
  (forall a, desc_word (bk_desc b) a -> a <> at_next (bk_desc b) -> word h' a = word h a) ->
  (forall a, in_page (bk_no b) a -> word h' a = word h a) -> bucket_ok h b -> bucket_ok h' b.
Proof.
  intros Hd Hp [H1 H2 H3 H4 H5 H6 H7].
  assert (Hw : forall k, 0 <= k <= 12 -> k <> 4 -> word h' (bk_desc b + k) = word h (bk_desc b + k)).
  { intros k Hk Hk4. apply Hd; unfold desc_word, at_next; lia. }
  split; try done.
  - rewrite <- H2. unfold at_page. rewrite <- (Z.add_0_r (bk_desc b)). apply Hw; lia.
  - rewrite <- H3. apply Hw; lia.
  - rewrite <- H4. f_equal. apply Hw; lia.
  - eapply chained_ext; [|exact H5]. intros a Ha. apply Hp, slots_in_page; [done|by apply H7].
Qed.

(** ** One bucket changes *)

Lemma map_middle {A B} (f : A -> B) L1 b b' L2 : f b' = f b -> map f (L1 ++ b' :: L2) = map f (L1 ++ b :: L2).
Proof. intros H. rewrite !map_app. cbn [map]. by rewrite H. Qed.
Lemma nodup_middle {A B} (f : A -> B) L1 b L2 x : NoDup (map f (L1 ++ b :: L2)) -> x ∈ L1 ++ L2 -> f x <> f b.
Proof.
  rewrite map_app. cbn [map]. intros Hn Hx Heq.
  assert (H : f b ∉ map f L1 ++ map f L2).
  { rewrite <- Permutation_middle in Hn. by apply list.NoDup_cons in Hn as [? _]. }
  apply H. rewrite <- Heq, <- map_app. apply list_elem_of_In, in_map. by apply list_elem_of_In.
Qed.
Lemma elem_of_middle {A} (L1 L2 : list A) b x : x ∈ L1 ++ b :: L2 <-> x = b \/ x ∈ L1 ++ L2.
Proof. rewrite !elem_of_app, elem_of_cons. tauto. Qed.

Section update.
Context {h h' : heap} {L1 L2 : list bucket} {b b' : bucket} {F : list Z}.
Hypothesis Hok : heap_ok h (L1 ++ b :: L2) F.
Hypothesis Hmap : mem_map (hmm h') = mem_map (hmm h).
Hypothesis Hhigh : HIGH_MEMORY (hmm h') = HIGH_MEMORY (hmm h).
Hypothesis Hdir : bucket_dir h' = bucket_dir h.
Hypothesis Hspare : free_bucket_desc h' = free_bucket_desc h.
Hypothesis Hdesc : bk_desc b' = bk_desc b.
Hypothesis Hsize : bk_size b' = bk_size b.
Hypothesis Hno : bk_no b' = bk_no b.
Hypothesis Hwords : forall a,
  ~ desc_word (bk_desc b) a \/ a = at_next (bk_desc b) -> ~ in_page (bk_no b) a -> word h' a = word h a.
Hypothesis Hb' : bucket_ok h' b'.

Lemma in_middle : b ∈ L1 ++ b :: L2.
Proof. apply elem_of_middle. by left. Qed.
(** The links of the descriptors. *)
Lemma update_next d : d ∈ map bk_desc (L1 ++ b :: L2) ++ F -> word h' (at_next d) = word h (at_next d).
Proof using All.
  intros Hd. assert (Hw : desc_word d (at_next d)) by (unfold desc_word, at_next; lia).
  apply Hwords; [|by apply (desc_outside Hok d _ b Hd Hw), in_middle].
  destruct (decide (d = bk_desc b)) as [->|Hne]; [by right|]. left. intros Hw'. apply Hne.
  apply (desc_apart Hok d (bk_desc b) (at_next d)); try done.
  apply elem_of_app. left. apply elem_of_map_desc, in_middle.
Qed.
Lemma update_other c : c ∈ L1 ++ L2 -> bucket_ok h' c.
Proof using All.
  intros Hc. assert (HcL : c ∈ L1 ++ b :: L2) by (apply elem_of_middle; by right).
  pose proof (ho_descs _ _ _ Hok) as Hn%list.NoDup_app. destruct Hn as (Hn & _ & _).
  pose proof (nodup_middle bk_desc L1 b L2 c Hn Hc) as Hd. pose proof (nodup_middle bk_no L1 b L2 c (ho_pages _ _ _ Hok) Hc) as Hp.
  assert (Hdc : bk_desc c ∈ map bk_desc (L1 ++ b :: L2) ++ F) by (apply elem_of_app; left; by apply elem_of_map_desc).
  assert (Hdb : bk_desc b ∈ map bk_desc (L1 ++ b :: L2) ++ F) by (apply elem_of_app; left; apply elem_of_map_desc, in_middle).
  apply (bucket_ok_ext h); [| |by apply (ho_buckets _ _ _ Hok)].
  - intros a Ha _. apply Hwords; [left|by apply (desc_outside Hok (bk_desc c)); [| |apply in_middle]].
    intros Hab. apply Hd. by apply (desc_apart Hok _ _ a).
  - intros a Ha. apply Hwords; [left|intros Hin; apply Hp; by apply (in_page_eq _ _ a)].
    intros Hab. by apply (desc_outside Hok (bk_desc b) a c).
Qed.
Lemma heap_ok_update : heap_ok h' (L1 ++ b' :: L2) F.
Proof using All.
  assert (Hdescs : forall s, descs s (L1 ++ b' :: L2) = descs s (L1 ++ b :: L2)).
  { intros s. by rewrite !descs_app, Hsize, Hdesc. }
  assert (Hused : forall q, used h q -> used h' q) by (intros q Hq; unfold used; by rewrite Hmap).
  pose proof Hok as [H1 H2 H3 H4 H5 H6 H7 H8 H9 H10 H11].
  split; rewrite ?(map_middle bk_desc L1 b b'), ?(map_middle bk_no L1 b b') by done.
  - destruct (hmm h') as [mp hi ph]. simpl in Hmap, Hhigh. subst. by apply wf_phys.
  - rewrite Hdir, H2. unfold dir_of. f_equal. apply map_ext. intros s. by rewrite Hdescs.
  - intros s. rewrite Hdescs. eapply chained_ext; [|apply H3].
    intros d Hd. apply update_next, elem_of_app. left. by eapply elem_of_descs.
  - by rewrite Hspare.
  - eapply chained_ext; [|exact H5]. intros d Hd. apply update_next, elem_of_app. by right.
  - intros c [->|Hc]%elem_of_middle; [done|by apply update_other].
  - done.
  - intros d Hd. destruct (H8 d Hd) as (H16 & q & Hq & Hu & Hout). split; [done|]. exists q. auto.
  - done.
  - intros c [->|Hc]%elem_of_middle; apply Hused; [rewrite Hno; apply H10, in_middle|].
    apply H10, elem_of_middle. by right.
  - by rewrite Hmap, Hhigh.
Qed.
End update.

(** ** Taking an object of a bucket *)

Lemma refcnt_set w v : refcnt (u32 (set_refcnt w v)) = u16 v.
Proof.
  unfold refcnt, set_refcnt, u16, u32, refcnt, u16.
  pose proof (Z.div_mod w 65536 ltac:(lia)) as Hw. set (q := w / 65536) in *.
  replace (w - w mod 65536 + v mod 65536) with (v mod 65536 + q * 65536) by lia.
  pose proof (Z.div_mod (v mod 65536 + q * 65536) 4294967296 ltac:(lia)) as Hd.
  set (e := (v mod 65536 + q * 65536) / 4294967296) in *.
  replace ((v mod 65536 + q * 65536) mod 4294967296) with (v mod 65536 + (q - e * 65536) * 65536) by lia.
  rewrite Z.mod_add by lia. apply Z.mod_mod. lia.
Qed.

Definition with_free (b : bucket) (l : list Z) : bucket := Bucket (bk_desc b) (bk_size b) (bk_no b) l.
Definition has_free (b : bucket) : bool := match bk_free b with [] => false | _ => true end.

Lemma free_bound h b x : mm_wf (hmm h) -> bucket_ok h b -> used h (bk_no b) -> x ∈ bk_free b -> 0 < x < 4294967296.
Proof.
  intros Hwf Hb Hu Hx. pose proof (used_bound _ _ Hwf Hu).
  pose proof (slots_in_page b x (bo_size _ _ Hb) (bo_slots _ _ Hb x Hx)) as Hp. unfold in_page, page_of, LOW_MEM in Hp. lia.
Qed.
Lemma free_length h b : bucket_ok h b -> Z.of_nat (length (bk_free b)) <= 4096 / bk_size b.
Proof.
  intros Hb. pose proof (size_facts _ (bo_size _ _ Hb)).
  enough (length (bk_free b) <= Z.to_nat (4096 / bk_size b))%nat by lia. rewrite <- slots_length.
  apply NoDup_incl_length; [apply NoDup_ListNoDup, (bo_nodup _ _ Hb)|].
  intros x Hx. apply list_elem_of_In, (bo_slots _ _ Hb). by apply list_elem_of_In.
Qed.

(** The end of [malloc]. *)
Definition take_object (bdesc : Z) : KM heap Z :=
  retval ← get (at_freeptr bdesc);
  n ← get retval; put (at_freeptr bdesc) n ;;
  w ← get (at_refcnt bdesc); put (at_refcnt bdesc) (set_refcnt w (refcnt w + 1)) ;;
  mret retval.
Lemma refcnt_u32 z : refcnt (u32 z) = refcnt z.
Proof.
  unfold refcnt, u16, u32. pose proof (Z.div_mod z 4294967296 ltac:(lia)) as Hz.
  rewrite Hz at 2. replace (4294967296 * (z / 4294967296)) with ((65536 * (z / 4294967296)) * 65536) by lia.
  by rewrite Z.add_comm, Z.mod_add.
Qed.
Definition taken (d : Z) (h : heap) : heap :=
  let h1 := hput (at_freeptr d) (word h (word h (at_freeptr d))) h in
  hput (at_refcnt d) (set_refcnt (word h1 (at_refcnt d)) (refcnt (word h1 (at_refcnt d)) + 1)) h1.
Lemma take_object_run d h : take_object d h = Done (word h (at_freeptr d)) (taken d h).
Proof.
  unfold take_object. rewrite (run_bind _ _ _ _ _ (get_run _ _)), (run_bind _ _ _ _ _ (get_run _ _)).
  rewrite (run_bind _ _ _ _ _ (put_run _ _ _)), (run_bind _ _ _ _ _ (get_run _ _)). done.
Qed.
Lemma word_taken d h a : a <> at_freeptr d -> a <> at_refcnt d -> word (taken d h) a = word h a.
Proof. intros H1 H2. unfold taken. by rewrite !word_hput_ne. Qed.

Lemma take_ok h L1 b L2 F x rest :
  heap_ok h (L1 ++ b :: L2) F -> bk_free b = x :: rest ->
  take_object (bk_desc b) h = Done x (taken (bk_desc b) h) /\
  heap_ok (taken (bk_desc b) h) (L1 ++ with_free b rest :: L2) F.
Proof.
  intros Hok Hfree. assert (HbL : b ∈ L1 ++ b :: L2) by (apply elem_of_middle; by left).
  pose proof (ho_buckets _ _ _ Hok b HbL) as Hb. pose proof (ho_used _ _ _ Hok b HbL) as Hu.
  pose proof (free_length _ _ Hb) as Hlen. pose proof (size_facts _ (bo_size _ _ Hb)) as Hsz.
  assert (Hin : forall y, y ∈ rest -> y ∈ bk_free b) by (intros y Hy; rewrite Hfree; by right).
  assert (Hout : forall a, in_page (bk_no b) a -> word (taken (bk_desc b) h) a = word h a).
  { assert (Hd : bk_desc b ∈ map bk_desc (L1 ++ b :: L2) ++ F) by (apply elem_of_app; left; by apply elem_of_map_desc).
    intros a Ha. apply word_taken; intros ->; eapply (desc_outside Hok (bk_desc b)); try exact Ha; try done;
      unfold desc_word, at_freeptr, at_refcnt; lia. }
  pose proof Hb as [H1 H2 H3 H4 H5 H6 H7]. rewrite Hfree in H3, H4, H5, H6. cbn [hd] in H3. destruct H5 as [H5 H5'].
  split; [by rewrite take_object_run, H3|].
  assert (Hrc : word (hput (at_freeptr (bk_desc b)) (word h x) h) (at_refcnt (bk_desc b)) = word h (at_refcnt (bk_desc b))).
  { apply word_hput_ne. unfold at_refcnt, at_freeptr. lia. }
  apply (heap_ok_update Hok); try done.
  - intros a Ha _. apply word_taken; intros ->; unfold desc_word, at_freeptr, at_refcnt, at_next in Ha; lia.
  - split; cbn [with_free bk_desc bk_size bk_no bk_free]; try done.
    + rewrite word_taken; [done|..]; unfold at_page, at_freeptr, at_refcnt; lia.
    + unfold taken. rewrite H3, word_hput_ne by (unfold at_freeptr, at_refcnt; lia).
      rewrite word_hput, Z.eqb_refl, H5. apply u32_small. destruct rest as [|y rest]; [by simpl|].
      pose proof (free_bound _ _ y (ho_mm _ _ _ Hok) Hb Hu (Hin y ltac:(by left))). simpl. lia.
    + unfold taken. rewrite H3, word_hput, Z.eqb_refl, Hrc, refcnt_set, H4.
      rewrite Hfree in Hlen. cbn [length] in *. rewrite u16_small; lia.
    + eapply chained_ext; [|exact H5']. intros y Hy. apply Hout, slots_in_page; [done|]. by apply H7, Hin.
    + by apply list.NoDup_cons in H6 as [_ ?].
    + intros y Hy. by apply H7, Hin.
Qed.

(** ** Looking for a bucket with a free object *)

Section find.
Context {h : heap} {L : list bucket} {F : list Z}.
Hypothesis Hok : heap_ok h L F.

Lemma has_free_word b : b ∈ L -> truth (word h (at_freeptr (bk_desc b))) = has_free b.
Proof using All.
  intros Hb. pose proof (ho_buckets _ _ _ Hok b Hb) as Hbo. rewrite (bo_freeptr _ _ Hbo). unfold has_free.
  destruct (bk_free b) as [|x l] eqn:Hf; [done|]. apply truth_true. simpl.
  pose proof (free_bound _ _ x (ho_mm _ _ _ Hok) Hbo (ho_used _ _ _ Hok b Hb)) as Hx. rewrite Hf in Hx.
  specialize (Hx ltac:(by left)). lia.
Qed.
Lemma find_space_run fuel : forall bs, (forall b, b ∈ bs -> b ∈ L) -> chained h at_next (map bk_desc bs) ->
  (length bs < fuel)%nat ->
  find_space fuel (hd 0 (map bk_desc bs)) h = Done (match find has_free bs with Some b => bk_desc b | None => 0 end) h.
Proof using All.
  unfold find_space. induction fuel as [|fuel IH]; intros bs HL Hch Hlen; [lia|]. rewrite kloop_S.
  destruct bs as [|b bs]; [done|]. cbn [map hd find]. destruct Hch as [Hnext Hch].
  assert (HbL : b ∈ L) by (apply HL; by left).
  assert (Hd : bk_desc b ∈ map bk_desc L ++ F) by (apply elem_of_app; left; by apply elem_of_map_desc).
  rewrite (proj2 (truth_true (bk_desc b))) by (pose proof (desc_positive Hok _ Hd); lia). cbn [negb].
  rewrite (run_bind _ _ _ _ _ (get_run _ _)), (has_free_word b HbL). destruct (has_free b); [done|].
  rewrite (run_bind _ _ _ _ _ (get_run _ _)), Hnext. apply IH; [|done|simpl in Hlen; lia].
  intros c Hc. apply HL. by right.
Qed.
End find.

(** ** Runs of stores, and chains in a page *)

Definition with_phys (ph : gmap Z Z) (h : heap) : heap := h ⟪ hmm := (hmm h) ⟪ phys := ph ⟫ ⟫.
Lemma kfor_put (f g : Z -> Z) l : (forall j k, f j = f k -> j = k) -> forall h, exists ph,
  kfor l (fun k => put (f k) (g k)) h = Done tt (with_phys ph h) /\
  (forall a, (forall k, k ∈ l -> a <> f k) -> word (with_phys ph h) a = word h a) /\
  (NoDup l -> forall k, k ∈ l -> word (with_phys ph h) (f k) = u32 (g k)).
Proof.
  intros Hf. induction l as [|j l IH]; intros h; cbn [kfor].
  - exists (phys (hmm h)). destruct h as [[mp hi ph] d s]. split; [done|]. split; [done|].
    intros _ k Hk. by apply elem_of_nil in Hk.
  - rewrite (run_bind _ _ _ _ _ (put_run _ _ _)). destruct (IH (hput (f j) (g j) h)) as (ph & Hrun & Hout & Hin).
    exists ph. split; [done|]. change (with_phys ph (hput (f j) (g j) h)) with (with_phys ph h) in *. split.
    + intros a Ha. rewrite Hout by (intros k Hk; apply Ha; by right). apply word_hput_ne, Ha. by left.
    + intros [Hj Hl]%list.NoDup_cons k [->|Hk]%elem_of_cons; [|by apply Hin].
      rewrite Hout; [by rewrite word_hput, Z.eqb_refl|]. intros k Hk Heq. apply Hf in Heq. by subst.
Qed.

Lemma progression h o base size (m : nat) : forall j,
  (forall k, j <= k < j + Z.of_nat m ->
    word h (base + size * k + o) = if k + 1 =? j + Z.of_nat m then 0 else base + size * (k + 1)) ->
  chained h (fun a => a + o) (map (fun k => base + size * k) (seqZ j (Z.of_nat m))).
Proof.
  induction m as [|m IH]; intros j Hw; [done|].
  rewrite seqZ_cons by lia. replace (Z.pred (Z.of_nat (S m))) with (Z.of_nat m) by lia. cbn [map]. split.
  - rewrite Hw by lia. destruct (Z.eqb_spec (j + 1) (j + Z.of_nat (S m))).
    + by replace m with O by lia.
    + rewrite seqZ_cons by lia. cbn [map hd]. lia.
  - apply IH. intros k Hk. rewrite Hw by lia. by replace (Z.succ j + Z.of_nat m) with (j + Z.of_nat (S m)) by lia.
Qed.
Lemma chained_link h link link' l : (forall a, link a = link' a) -> chained h link l -> chained h link' l.
Proof. intros Hl. induction l as [|a l IH]; [done|]. intros [H1 H2]. split; [by rewrite <- Hl|auto]. Qed.

(** Stores that link [n] objects from [base] on. *)
Lemma link_run (link : Z -> Z) o base size n h : (forall a, link a = a + o) ->
  0 < size -> 0 <= base -> 0 < n -> base + size * n < 4294967296 -> exists ph,
  kfor (upto (n - 1)) (fun k => put (link (base + size * k)) (base + size * (k + 1))) h = Done tt (with_phys ph h) /\
  let h' := hput (link (base + size * (n - 1))) 0 (with_phys ph h) in
  (forall a, (forall k, 0 <= k < n -> a <> link (base + size * k)) -> word h' a = word h a) /\
  chained h' link (map (fun k => base + size * k) (upto n)).
Proof.
  intros Ho Hs Hb Hn Hm.
  assert (Hinj : forall j k, link (base + size * j) = link (base + size * k) -> j = k).
  { intros j k Hjk. rewrite !Ho in Hjk. apply (Z.mul_reg_l _ _ size); lia. }
  destruct (kfor_put (fun k => link (base + size * k)) (fun k => base + size * (k + 1)) (upto (n - 1)) Hinj h)
    as (ph & Hrun & Hout & Hin).
  exists ph. split; [done|]. cbv zeta. set (h1 := with_phys ph h) in *. split.
  - intros a Ha. rewrite word_hput_ne by (apply Ha; lia). apply Hout. intros k Hk%elem_of_upto. apply Ha. lia.
  - apply (chained_link _ (fun a => a + o)); [done|].
    rewrite <- (Z2Nat.id n) at 2 by lia. apply progression. intros k Hk. rewrite Z2Nat.id in * by lia. rewrite <- Ho.
    destruct (Z.eqb_spec (k + 1) (0 + n)) as [Heq|Hne].
    + replace k with (n - 1) by lia. by rewrite word_hput, Z.eqb_refl.
    + rewrite word_hput_ne by (rewrite !Ho; nia). rewrite Hin; [apply u32_small; nia|apply NoDup_seqZ|apply elem_of_upto; lia].
Qed.

(** A step that panics ends the computation. *)
Lemma bind_panic {S A B} (m : KM S A) (f : A -> KM S B) s msg s' : m s = Panic msg s' -> (m ≫= f) s = Panic msg s'.
Proof. unfold mbind, kbind. by intros ->. Qed.

(** ** A page for the heap *)

Definition with_page (q : Z) (h : heap) : heap := h ⟪ hmm := allocated q (hmm h) ⟫.
Lemma page_run h : mm_wf (hmm h) -> (exists j, array_get (mem_map (hmm h)) j = Some 0) -> exists q,
  on_mm get_free_page h = Done (page_of q) (with_page q h) /\ 0 <= q < 3840 /\ array_get (mem_map (hmm h)) q = Some 0.
Proof.
  intros Hwf [j Hj]. destruct (get_free_page_run _ Hwf) as [[_ Hno]|(q & Hrun & Hq & H0 & _)]; [by destruct (Hno j)|].
  exists q. split; [|done]. unfold on_mm, zoom. by rewrite Hrun.
Qed.
Lemma no_page_run h : mm_wf (hmm h) -> (forall j, array_get (mem_map (hmm h)) j <> Some 0) -> on_mm get_free_page h = Done 0 h.
Proof.
  intros Hwf Hno. destruct (get_free_page_run _ Hwf) as [[Hrun _]|(q & _ & _ & H0 & _)]; [|by destruct (Hno q)].
  unfold on_mm, zoom. rewrite Hrun. by destruct h.
Qed.
Lemma word_with_page q h a : ~ in_page q a -> word (with_page q h) a = word h a.
Proof. intros Ha. unfold word, with_page, allocated. cbn [hmm phys set_field]. by apply clear_words_out. Qed.

(** Neither a descriptor nor an object is in a free page. *)
Lemma unused h q : array_get (mem_map (hmm h)) q = Some 0 -> ~ used h q.
Proof. intros H0 (c & Hc & Hne). congruence. Qed.
Lemma unused_desc h L F q e a : heap_ok h L F -> array_get (mem_map (hmm h)) q = Some 0 ->
  e ∈ map bk_desc L ++ F -> desc_word e a -> ~ in_page q a.
Proof.
  intros Hok H0 He Ha Hin. destruct (ho_place _ _ _ Hok e He) as ([x ->] & p & Hp & Hu & _).
  apply (unused h q H0). replace q with p; [done|].
  apply (in_page_eq _ _ a); [|done]. unfold in_page, page_of, desc_word, LOW_MEM in *. lia.
Qed.
Lemma unused_no h L F q : heap_ok h L F -> array_get (mem_map (hmm h)) q = Some 0 -> q ∉ map bk_no L.
Proof.
  intros Hok H0 Hin. apply list_elem_of_In, in_map_iff in Hin as (b & Hb & HbL).
  apply (unused h q H0). rewrite <- Hb. apply (ho_used _ _ _ Hok). by apply list_elem_of_In.
Qed.

(** [h'] has the page [q] more than [h], and other words only there and in
    the descriptor [d]. *)
Record grown (h h' : heap) (q : Z) (d : option Z) : Prop := {
  gr_free : array_get (mem_map (hmm h)) q = Some 0;
  gr_map : mem_map (hmm h') = array_set (mem_map (hmm h)) q 1;
  gr_high : HIGH_MEMORY (hmm h') = HIGH_MEMORY (hmm h);
  gr_words : forall a, ~ in_page q a -> (forall d', d = Some d' -> ~ desc_word d' a) -> word h' a = word h a
}.
Section grown.
Context {h h' : heap} {q : Z} {d : option Z} {L : list bucket} {F : list Z}.
Hypothesis Hg : grown h h' q d.
Hypothesis Hok : heap_ok h L F.
Hypothesis HdF : forall d', d = Some d' -> d' ∈ F.

Lemma grown_unused : ~ used h q.
Proof using Hg. apply unused, Hg. Qed.
Lemma grown_used p : used h p -> used h' p.
Proof using Hg.
  intros (c & Hc & Hne). assert (p <> q) by (intros ->; apply grown_unused; by exists c).
  exists c. by rewrite (gr_map _ _ _ _ Hg), array_get_set_ne by done.
Qed.
Lemma grown_new : used h' q.
Proof using Hg.
  exists 1. split; [|done]. rewrite (gr_map _ _ _ _ Hg). eapply array_get_set_eq, array_get_Some_bound, Hg.
Qed.
Lemma grown_wf : mm_wf (hmm h').
Proof using Hg Hok.
  pose proof (allocated_wf q _ (ho_mm _ _ _ Hok)) as Hw.
  destruct (hmm h') as [mp hi ph] eqn:Hh. pose proof (gr_map _ _ _ _ Hg) as Hm. pose proof (gr_high _ _ _ _ Hg) as Hi.
  rewrite Hh in Hm, Hi. simpl in Hm, Hi. subst. exact (wf_phys (allocated q (hmm h)) ph Hw).
Qed.
Lemma grown_word e a : e ∈ map bk_desc L ++ F -> d <> Some e -> desc_word e a -> word h' a = word h a.
Proof using All.
  intros He Hne Ha. apply (gr_words _ _ _ _ Hg); [by apply (unused_desc h L F q e a Hok (gr_free _ _ _ _ Hg))|].
  intros d' Hd' Hw. apply Hne. rewrite Hd'. f_equal.
  apply (desc_apart Hok d' e a); try done. apply elem_of_app. right. by apply HdF.
Qed.
Lemma grown_bucket b : b ∈ L -> bucket_ok h' b.
Proof using All.
  intros Hb. pose proof (ho_descs _ _ _ Hok) as Hn%list.NoDup_app. destruct Hn as (_ & Hn & _).
  apply (bucket_ok_ext h); [| |by apply (ho_buckets _ _ _ Hok)].
  - intros a Ha _. apply (grown_word (bk_desc b)); try done.
    + apply elem_of_app. left. by apply elem_of_map_desc.
    + intros Hd. apply (Hn (bk_desc b)); [by apply elem_of_map_desc|by apply HdF].
  - intros a Ha. apply (gr_words _ _ _ _ Hg).
    + intros Hq. apply grown_unused. rewrite <- (in_page_eq _ _ a Ha Hq). by apply (ho_used _ _ _ Hok).
    + intros d' Hd' Hw. apply (desc_outside Hok d' a b); try done. apply elem_of_app. right. by apply HdF.
Qed.
Lemma grown_chain l : (forall e, e ∈ l -> e ∈ map bk_desc L ++ F /\ d <> Some e) ->
  chained h at_next l -> chained h' at_next l.
Proof using All.
  intros Hl. apply chained_ext. intros e He. destruct (Hl e He). apply (grown_word e); try done.
  unfold desc_word, at_next. lia.
Qed.
Lemma grown_place e : e ∈ map bk_desc L ++ F ->
  (16 | e) /\ exists p, in_page p e /\ used h' p /\ (p ∉ map bk_no L) /\ p <> q.
Proof using Hg Hok.
  intros He. destruct (ho_place _ _ _ Hok e He) as (H16 & p & Hp & Hu & Hout). split; [done|].
  exists p. split_and!; [done|by apply grown_used|done|]. intros ->. by apply grown_unused.
Qed.
Lemma grown_high p : array_get (mem_map (hmm h')) p = Some 0 \/ p ∈ map bk_no L \/ p = q -> page_of p < HIGH_MEMORY (hmm h').
Proof using Hg Hok.
  rewrite (gr_high _ _ _ _ Hg). intros Hp. apply (ho_high _ _ _ Hok). destruct Hp as [Hp|[Hp|Hp]]; [left|by right|left; rewrite Hp; apply Hg].
  rewrite (gr_map _ _ _ _ Hg) in Hp. destruct (decide (p = q)) as [->|Hne]; [apply Hg|].
  by rewrite array_get_set_ne in Hp by done.
Qed.
End grown.

(** ** A page of descriptors *)

Definition page_descs (q : Z) : list Z := map (fun k => page_of q + 16 * k) (upto 256).
Lemma elem_of_page_descs q d : d ∈ page_descs q -> (16 | d) /\ in_page q d /\ desc_word d d.
Proof.
  unfold page_descs. rewrite list_elem_of_In, in_map_iff. intros (k & <- & Hk). apply list_elem_of_In, elem_of_upto in Hk.
  unfold in_page, desc_word, page_of, LOW_MEM. split; [exists (65536 + 256 * q + k); lia|lia].
Qed.
Lemma page_descs_hd q : hd 0 (page_descs q) = page_of q.
Proof. unfold page_descs. rewrite seqZ_cons by lia. cbn [map hd]. lia. Qed.
Lemma page_descs_nodup q : NoDup (page_descs q).
Proof. unfold page_descs. change (map ?f ?l) with (f <$> l). apply NoDup_fmap_2_strong; [|apply NoDup_seqZ]. intros; lia. Qed.

Lemma heap_ok_refill h h' q L :
  heap_ok h L [] -> grown h h' q None -> bucket_dir h' = bucket_dir h -> free_bucket_desc h' = page_of q ->
  chained h' at_next (page_descs q) -> heap_ok h' L (page_descs q).
Proof.
  intros Hok Hg Hdir Hfr Hch. pose proof (gr_free _ _ _ _ Hg) as H0.
  assert (HF : forall d' : Z, None = Some d' -> d' ∈ ([] : list Z)) by done.
  pose proof Hok as [H1 H2 H3 H4 H5 H6 H7 H8 H9 H10 H11]. rewrite app_nil_r in H7.
  assert (Hd : forall d, d ∈ map bk_desc L -> d ∈ map bk_desc L ++ []) by (intros d Hd; apply elem_of_app; by left).
  split; [exact (grown_wf Hg Hok)|by rewrite Hdir| |by rewrite page_descs_hd|done| | | |exact H9| |].
  - intros s. apply (grown_chain Hg Hok HF); [|done]. intros e He. split; [|done]. by eapply Hd, elem_of_descs.
  - intros b Hb. by apply (grown_bucket Hg Hok HF).
  - apply list.NoDup_app. split; [done|]. split; [|apply page_descs_nodup].
    intros d HdL (_ & Hdq & Hdw)%elem_of_page_descs. by apply (unused_desc h L [] q d d Hok H0); [apply Hd|..].
  - intros d [HdL|HdF]%elem_of_app.
    + destruct (grown_place Hg Hok d (Hd d HdL)) as (H16 & p & Hp & Hu & Hno & _). split; [done|]. by exists p.
    + destruct (elem_of_page_descs q d HdF) as (H16 & Hin & _). split; [done|]. exists q.
      split_and!; [done|by eapply grown_new|by eapply unused_no].
  - intros b Hb. by eapply grown_used, H10.
  - intros p Hp. apply (grown_high Hg Hok). tauto.
Qed.
Lemma init_run h L :
  heap_ok h L [] -> (exists j, array_get (mem_map (hmm h)) j = Some 0) -> exists q h',
    init_bucket_desc h = Done tt h' /\ grown h h' q None /\ heap_ok h' L (page_descs q).
Proof.
  intros Hok Hz. destruct (page_run h (ho_mm _ _ _ Hok) Hz) as (q & Hrun & Hq & H0).
  assert (Hpos : 0 < page_of q /\ page_of q + 4096 < 4294967296) by (unfold page_of, LOW_MEM; lia).
  destruct (link_run at_next 4 (page_of q) 16 256 (with_page q h)) as (ph & Hlink & Hout & Hch); [done|lia|lia|lia|lia|].
  set (h2 := hput _ 0 _) in *.
  assert (Hg : grown h (h2 ⟪ free_bucket_desc := page_of q ⟫) q None).
  { split; [exact H0|reflexivity|reflexivity|]. intros a Ha _. change (word (h2 ⟪ free_bucket_desc := page_of q ⟫) a) with (word h2 a).
    rewrite Hout; [by apply word_with_page|]. unfold in_page, at_next in *. lia. }
  exists q, (h2 ⟪ free_bucket_desc := page_of q ⟫).
  split; [|split; [exact Hg|]].
  - unfold init_bucket_desc. rewrite (run_bind _ _ _ _ _ Hrun), (proj2 (truth_true (page_of q))) by lia. cbn [negb].
    change (PAGE_SIZE / SIZEOF_BUCKET_DESC - 1) with (256 - 1). rewrite (run_bind _ _ _ _ _ Hlink), run_gets.
    change (free_bucket_desc (with_phys ph (with_page q h))) with (free_bucket_desc h). by rewrite (ho_spare _ _ _ Hok).
  - exact (heap_ok_refill h _ q L Hok Hg eq_refl eq_refl Hch).
Qed.

(** ** The directory *)

Lemma sizes_index i s : array_get SIZES i = Some s -> i ∈ seqZ 0 9 /\ s = 2 ^ (4 + i).
Proof.
  intros H. pose proof (array_get_Some_bound _ _ _ H) as Hi. change (Z.of_nat (length SIZES)) with 9 in Hi.
  split; [apply elem_of_upto; lia|]. unfold array_get in H. destruct (Z.leb_spec 0 i); [|lia].
  assert (Hn : (Z.to_nat i < 9)%nat) by lia. rewrite <- (Z2Nat.id i) by lia. revert H Hn. generalize (Z.to_nat i). intros n H Hn.
  do 9 (destruct n as [|n]; [injection H as <-; reflexivity|]). lia.
Qed.
Lemma elem_of_sizes i s : array_get SIZES i = Some s -> s ∈ SIZES.
Proof. unfold array_get. destruct (0 <=? i); [|done]. apply list_elem_of_lookup_2. Qed.
Lemma dir_get L i s : array_get SIZES i = Some s -> array_get (dir_of L) i = Some (s, hd 0 (descs s L)).
Proof.
  intros H. pose proof (array_get_Some_bound _ _ _ H) as Hi. unfold array_get in *. destruct (0 <=? i); [|done].
  unfold dir_of. rewrite lookup_app_l by (rewrite length_map; lia).
  change (map ?f SIZES) with (f <$> SIZES). by rewrite list_lookup_fmap, H.
Qed.
Lemma dir_set L b i : array_get SIZES i = Some (bk_size b) ->
  array_set (dir_of L) i (bk_size b, bk_desc b) = dir_of (b :: L).
Proof.
  intros [Hi Hs]%sizes_index. apply elem_of_upto in Hi. unfold dir_of, SIZES. cbn [map]. rewrite !descs_cons, Hs.
  assert (H : i = 0 \/ i = 1 \/ i = 2 \/ i = 3 \/ i = 4 \/ i = 5 \/ i = 6 \/ i = 7 \/ i = 8) by lia.
  by repeat destruct H as [->|H]; [..|subst].
Qed.
(** The size for an object of [len] bytes. *)
Definition size_for (len s : Z) : Prop := s ∈ SIZES /\ len <= s /\ forall s', s' ∈ SIZES -> len <= s' -> s <= s'.
Lemma find_dir_run L len : len <= 4096 -> exists i s,
  find_dir (dir_of L) len 0 = Some (i, s) /\ array_get SIZES i = Some s /\ size_for len s.
Proof.
  intros Hlen. unfold dir_of, SIZES. cbn [map app find_dir Z.eqb orb].
  repeat match goal with |- context [len <=? ?s] => destruct (Z.leb_spec len s) end; try lia;
    cbn [Z.add]; do 2 eexists; split_and!; try reflexivity; try done.
  all: unfold size_for, SIZES; split_and!; [repeat constructor|done|].
  all: intros s' Hs'; repeat (apply elem_of_cons in Hs' as [->|Hs']; [lia|]); by apply elem_of_nil in Hs'.
Qed.

(** ** A new bucket *)

Lemma heap_ok_add h h' L b F :
  heap_ok h L (bk_desc b :: F) -> grown h h' (bk_no b) (Some (bk_desc b)) ->
  bucket_dir h' = dir_of (b :: L) -> free_bucket_desc h' = hd 0 F ->
  word h' (at_next (bk_desc b)) = hd 0 (descs (bk_size b) L) -> bucket_ok h' b -> heap_ok h' (b :: L) F.
Proof.
  intros Hok Hg Hdir Hfr Hnext Hb. pose proof (gr_free _ _ _ _ Hg) as H0.
  assert (HF : forall d', Some (bk_desc b) = Some d' -> d' ∈ bk_desc b :: F) by (intros d' [= <-]; by left).
  pose proof Hok as [H1 H2 H3 H4 H5 H6 H7 H8 H9 H10 H11].
  assert (Hn : NoDup (bk_desc b :: map bk_desc L ++ F)) by (by rewrite Permutation_middle).
  pose proof Hn as [Hout Hn']%list.NoDup_cons.
  assert (Hin : forall e, e ∈ map bk_desc L ++ F -> e ∈ map bk_desc L ++ bk_desc b :: F /\ Some (bk_desc b) <> Some e).
  { intros e He. split; [apply elem_of_middle; by right|]. intros [= Heq]. apply Hout. by rewrite Heq. }
  split; [exact (grown_wf Hg Hok)|done| |done| | |exact Hn| | | |].
  - intros s. rewrite descs_cons. destruct (decide (bk_size b = s)) as [<-|_].
    + split; [done|]. apply (grown_chain Hg Hok HF); [|apply H3].
      intros e He. apply Hin, elem_of_app. left. by eapply elem_of_descs.
    + apply (grown_chain Hg Hok HF); [|apply H3]. intros e He. apply Hin, elem_of_app. left. by eapply elem_of_descs.
  - apply (grown_chain Hg Hok HF); [|by destruct H5]. intros e He. apply Hin, elem_of_app. by right.
  - intros c [->|Hc]%elem_of_cons; [done|by apply (grown_bucket Hg Hok HF)].
  - intros e He. change (map bk_no (b :: L)) with (bk_no b :: map bk_no L).
    assert (He' : e ∈ map bk_desc L ++ bk_desc b :: F).
    { apply elem_of_middle. change (e ∈ bk_desc b :: (map bk_desc L ++ F)) in He. by apply elem_of_cons in He. }
    destruct (grown_place Hg Hok e He') as (H16 & p & Hp & Hu & Hno & Hpq). split; [done|]. exists p.
    split_and!; [done|done|]. rewrite elem_of_cons. tauto.
  - change (map bk_no (b :: L)) with (bk_no b :: map bk_no L). apply list.NoDup_cons. split; [by eapply unused_no|done].
  - intros c [->|Hc]%elem_of_cons; [by eapply grown_new|]. by eapply grown_used, H10.
  - intros p Hp. apply (grown_high Hg Hok). change (map bk_no (b :: L)) with (bk_no b :: map bk_no L) in Hp.
    rewrite elem_of_cons in Hp. tauto.
Qed.

(** What [new_bucket] does once there is a spare descriptor [d]. *)
Section fresh.
Context (h : heap) (L : list bucket) (d : Z) (F : list Z) (i size : Z).
Hypothesis Hok : heap_ok h L (d :: F).
Hypothesis Hz : exists j, array_get (mem_map (hmm h)) j = Some 0.
Hypothesis Hi : array_get SIZES i = Some size.

Definition unspared : heap := h ⟪ free_bucket_desc := hd 0 F ⟫.
Definition cleared : heap :=
  let h1 := hput (at_refcnt d) (set_refcnt (word h (at_refcnt d)) 0) unspared in
  hput (at_refcnt d) (set_bucket_size (word h1 (at_refcnt d)) size) h1.
Definition paged (q : Z) : heap := hput (at_page d) (page_of q) (hput (at_freeptr d) (page_of q) (with_page q cleared)).
Definition linked_in (h3 : heap) : heap :=
  (hput (at_next d) (hd 0 (descs size L)) h3) ⟪ bucket_dir := array_set (dir_of L) i (size, d) ⟫.

Lemma fresh_spare : free_bucket_desc h = d /\ word h (at_next d) = hd 0 F.
Proof using Hok. pose proof (ho_spare _ _ _ Hok). by destruct (ho_spares _ _ _ Hok). Qed.
Lemma word_cleared a : a <> at_refcnt d -> word cleared a = word h a.
Proof. intros Ha. unfold cleared. by rewrite !word_hput_ne. Qed.
Lemma refcnt_cleared : refcnt (word cleared (at_refcnt d)) = 0.
Proof.
  unfold cleared. rewrite word_hput, Z.eqb_refl. unfold set_bucket_size, refcnt, u16, u32.
  rewrite word_hput, Z.eqb_refl. fold (u32 (set_refcnt (word h (at_refcnt d)) 0)).
  pose proof (refcnt_set (word h (at_refcnt d)) 0) as Hr. unfold refcnt, u16 in Hr. rewrite Hr.
  change (0 mod 65536) with 0. rewrite Z.add_0_l. change 4294967296 with (65536 * 65536).
  rewrite Z.mul_mod_distr_l by lia. rewrite Z.mul_comm. by rewrite Z.mod_mul.
Qed.
Lemma get_chain_run (hh : heap) D : bucket_dir hh = D -> forall e, array_get D i = Some e -> get_chain i hh = Done (snd e) hh.
Proof.
  intros <- e He. unfold get_chain. rewrite run_gets. unfold read_at. by rewrite He.
Qed.
Lemma put_chain_run (hh : heap) D v : bucket_dir hh = D -> forall e, array_get D i = Some e ->
  put_chain i v hh = Done tt (hh ⟪ bucket_dir := array_set D i (fst e, v) ⟫).
Proof.
  intros <- e He. unfold put_chain. rewrite run_gets. unfold read_at. by rewrite He.
Qed.

(** The objects of the new page. *)
Lemma link_objects_run q : 0 <= q < 3840 -> exists ph,
  let h3 := hput (page_of q + size * (4096 / size - 1)) 0 (with_phys ph (paged q)) in
  link_objects (page_of q) size (paged q) = Done tt h3 /\
  (forall a, ~ in_page q a -> word h3 a = word (paged q) a) /\
  chained h3 (fun a => a) (slots (Bucket d size q [])).
Proof using Hi.
  intros Hq. pose proof (size_facts _ (elem_of_sizes _ _ Hi)) as Hs.
  destruct (link_run (fun a => a) 0 (page_of q) size (4096 / size) (paged q)) as (ph & Hrun & Hout & Hch);
    [lia|lia|unfold page_of, LOW_MEM; lia|lia|unfold page_of, LOW_MEM; lia|].
  exists ph. cbv zeta. split; [|split; [|exact Hch]].
  - unfold link_objects. change PAGE_SIZE with 4096. by rewrite (run_bind _ _ _ _ _ Hrun).
  - intros a Ha. apply Hout. intros k Hk ->. apply Ha. unfold in_page. nia.
Qed.

Lemma new_bucket_run : exists q h3,
  new_bucket i size h = Done d (linked_in h3) /\ array_get (mem_map (hmm h)) q = Some 0 /\ 0 <= q < 3840 /\
  mem_map (hmm h3) = array_set (mem_map (hmm h)) q 1 /\ HIGH_MEMORY (hmm h3) = HIGH_MEMORY (hmm h) /\
  free_bucket_desc h3 = hd 0 F /\
  (forall a, ~ in_page q a -> word h3 a = word (paged q) a) /\
  chained h3 (fun a => a) (slots (Bucket d size q [])).
Proof using Hok Hz Hi.
  destruct fresh_spare as [Hd Hn].
  assert (Hdp : 0 < d < 4294967296) by (apply (desc_positive Hok), elem_of_app; right; by left).
  destruct (page_run cleared) as (q & Hpage & Hq & H0).
  { exact (wf_phys (hmm h) _ (ho_mm _ _ _ Hok)). }
  { exact Hz. }
  destruct (link_objects_run q Hq) as (ph & Hlink & Hout & Hch). cbv zeta in *.
  set (h3 := hput (page_of q + size * (4096 / size - 1)) 0 (with_phys ph (paged q))) in *.
  exists q, h3. refine (conj _ (conj H0 (conj Hq (conj eq_refl (conj eq_refl (conj eq_refl (conj Hout Hch))))))).
  unfold new_bucket. rewrite run_gets, Hd, (proj2 (truth_true d)) by lia. cbn [negb kwhen].
  rewrite run_ret, run_gets, Hd, (run_bind _ _ _ _ _ (get_run _ _)), Hn, run_modify.
  rewrite (run_bind _ _ _ _ _ (get_run _ _)), (run_bind _ _ _ _ _ (put_run _ _ _)).
  rewrite (run_bind _ _ _ _ _ (get_run _ _)), (run_bind _ _ _ _ _ (put_run _ _ _)).
  change (hput _ _ (hput _ _ _)) with cleared. rewrite (run_bind _ _ _ _ _ Hpage).
  rewrite (run_bind _ _ _ _ _ (put_run _ _ _)), (run_bind _ _ _ _ _ (put_run _ _ _)).
  change (hput _ _ (hput _ _ _)) with (paged q).
  rewrite (proj2 (truth_true (page_of q))) by (unfold page_of, LOW_MEM; lia). cbn [negb].
  rewrite (run_bind _ _ _ _ _ Hlink). pose proof (dir_get L i size Hi) as Hdir.
  rewrite (run_bind _ _ _ _ _ (get_chain_run h3 (dir_of L) (ho_dir _ _ _ Hok) _ Hdir)).
  rewrite (run_bind _ _ _ _ _ (put_run _ _ _)).
  rewrite (run_bind _ _ _ _ _ (put_chain_run (hput (at_next d) (snd (size, hd 0 (descs size L))) h3) (dir_of L) d (ho_dir _ _ _ Hok) _ Hdir)).
  reflexivity.
Qed.

Lemma fresh_bucket q h' : 0 <= q < 3840 -> (forall a, desc_word d a -> ~ in_page q a) ->
  (forall a, desc_word d a -> a <> at_next d -> word h' a = word (paged q) a) ->
  chained h' (fun a => a) (slots (Bucket d size q [])) -> bucket_ok h' (Bucket d size q (slots (Bucket d size q []))).
Proof using Hi.
  intros Hq Hdq Hw Hch. pose proof (elem_of_sizes _ _ Hi) as Hs. pose proof (size_facts _ Hs) as Hsz.
  assert (Hp : u32 (page_of q) = page_of q) by (apply u32_small; unfold page_of, LOW_MEM; lia).
  split; cbn [bk_desc bk_size bk_no bk_free]; [done| | | |done|by apply (slots_nodup (Bucket d size q []))|by intros x Hx].
  - rewrite Hw by (unfold desc_word, at_page, at_next; lia). unfold paged. by rewrite word_hput, Z.eqb_refl.
  - rewrite Hw by (unfold desc_word, at_freeptr, at_next; lia). unfold paged.
    rewrite word_hput_ne by (unfold at_page, at_freeptr; lia). rewrite word_hput, Z.eqb_refl, Hp.
    unfold slots. cbn [bk_no bk_size]. rewrite seqZ_cons by lia. cbn [map hd]. lia.
  - rewrite Hw by (unfold desc_word, at_refcnt, at_next; lia). unfold paged.
    rewrite !word_hput_ne by (unfold at_page, at_freeptr, at_refcnt; lia).
    rewrite word_with_page by (apply Hdq; unfold desc_word, at_refcnt; lia). rewrite refcnt_cleared.
    rewrite (slots_length (Bucket d size q [])). cbn [bk_size]. lia.
Qed.
Lemma new_bucket_ok : exists q h',
  new_bucket i size h = Done d h' /\ grown h h' q (Some d) /\
  heap_ok h' (Bucket d size q (slots (Bucket d size q [])) :: L) F.
Proof using Hok Hz Hi.
  destruct new_bucket_run as (q & h3 & Hrun & H0 & Hq & Hmap & Hhigh & Hfr & Hout & Hch).
  set (b := Bucket d size q (slots (Bucket d size q []))).
  assert (HdF : d ∈ map bk_desc L ++ d :: F) by (apply elem_of_app; right; by left).
  assert (Hdq : forall a, desc_word d a -> ~ in_page q a) by (intros a; by apply (unused_desc h L (d :: F) q d)).
  exists q, (linked_in h3).
  assert (Hw : forall a, ~ in_page q a -> a <> at_next d -> word (linked_in h3) a = word (paged q) a).
  { intros a Ha Hne. rewrite <- Hout by done. by apply (word_hput_ne (at_next d) _ h3 a). }
  assert (Hg : grown h (linked_in h3) q (Some d)).
  { split; [done|done|done|]. intros a Ha Hd. specialize (Hd d eq_refl).
    rewrite Hw; [|done|intros ->; apply Hd; unfold desc_word, at_next; lia].
    unfold paged. rewrite !word_hput_ne by (intros ->; apply Hd; unfold desc_word, at_page, at_freeptr; lia).
    rewrite word_with_page by done. apply word_cleared. intros ->. apply Hd. unfold desc_word, at_refcnt. lia. }
  split; [done|]. split; [done|].
  assert (Hs : forall l, word (linked_in h3) l = word (hput (at_next d) (hd 0 (descs size L)) h3) l) by done.
  apply (heap_ok_add h _ L b F); try done.
  - unfold linked_in. cbn [bucket_dir set_field]. by apply (dir_set L b).
  - rewrite Hs, word_hput, Z.eqb_refl. apply u32_small. cbn [b bk_size].
    destruct (descs size L) as [|e l] eqn:He; [done|]. cbn [hd].
    assert (He' : 0 < e < 4294967296); [|lia].
    apply (desc_positive Hok), elem_of_app. left. apply (elem_of_descs size). rewrite He. by left.
  - apply fresh_bucket; [done|done|intros a Ha Hne; apply Hw; [by apply Hdq|done]|].
    eapply chained_ext; [|exact Hch]. intros a Ha. pose proof (slots_in_page (Bucket d size q []) a (elem_of_sizes _ _ Hi) Ha) as Hin.
    rewrite Hs. apply word_hput_ne. intros ->. apply (Hdq (at_next d)); [unfold desc_word, at_next; lia|exact Hin].
Qed.
(** Without a page for the objects. *)
Lemma new_bucket_full : (forall j, array_get (mem_map (hmm h)) j <> Some 0) -> exists h',
  new_bucket i size h = Panic "Out of memory in kernel malloc()" h'.
Proof using Hok.
  intros Hno. destruct fresh_spare as [Hd Hn].
  assert (Hdp : 0 < d < 4294967296) by (apply (desc_positive Hok), elem_of_app; right; by left).
  pose proof (no_page_run cleared (wf_phys (hmm h) _ (ho_mm _ _ _ Hok)) Hno) as Hpage.
  eexists. unfold new_bucket. rewrite run_gets, Hd, (proj2 (truth_true d)) by lia. cbn [negb kwhen].
  rewrite run_ret, run_gets, Hd, (run_bind _ _ _ _ _ (get_run _ _)), Hn, run_modify.
  rewrite (run_bind _ _ _ _ _ (get_run _ _)), (run_bind _ _ _ _ _ (put_run _ _ _)).
  rewrite (run_bind _ _ _ _ _ (get_run _ _)), (run_bind _ _ _ _ _ (put_run _ _ _)).
  change (hput _ _ (hput _ _ _)) with cleared. rewrite (run_bind _ _ _ _ _ Hpage).
  rewrite (run_bind _ _ _ _ _ (put_run _ _ _)), (run_bind _ _ _ _ _ (put_run _ _ _)).
  reflexivity.
Qed.
End fresh.

(** ** [malloc] *)

Lemma given_take L1 b L2 x rest y s :
  bk_free b = x :: rest -> NoDup (bk_free b) -> x ∈ slots b ->
  given (L1 ++ with_free b rest :: L2) y s <-> given (L1 ++ b :: L2) y s \/ (y = x /\ s = bk_size b).
Proof.
  intros Hf Hn Hxs. rewrite Hf in Hn. apply list.NoDup_cons in Hn as [Hx _]. unfold given. split.
  - intros (c & [->|Hc]%elem_of_middle & <- & Hy & Hout).
    + cbn [with_free bk_size bk_free] in *. destruct (decide (y = x)) as [->|Hne]; [by right|]. left. exists b.
      split_and!; [apply elem_of_middle; by left|done|done|]. rewrite Hf, elem_of_cons. tauto.
    + left. exists c. split_and!; [apply elem_of_middle; by right|done..].
  - intros [(c & [->|Hc]%elem_of_middle & <- & Hy & Hout)|[-> ->]].
    + exists (with_free b rest). split_and!; [apply elem_of_middle; by left|done|done|].
      cbn [with_free bk_free]. rewrite Hf, elem_of_cons in Hout. tauto.
    + exists c. split_and!; [apply elem_of_middle; by right|done..].
    + exists (with_free b rest). split_and!; [apply elem_of_middle; by left|done..].
Qed.
Lemma given_new b L y s : bk_free b = slots b -> given (b :: L) y s <-> given L y s.
Proof.
  intros Hf. unfold given. split.
  - intros (c & [->|Hc]%elem_of_cons & Hs & Hy & Hout); [by rewrite Hf in Hout|]. by exists c.
  - intros (c & Hc & H). exists c. split; [by right|done].
Qed.
Lemma given_disjoint h L F x s y s' : heap_ok h L F -> given L x s -> given L y s' -> x <> y -> x + s <= y \/ y + s' <= x.
Proof.
  intros Hok (b & Hb & <- & Hx & _) (c & Hc & <- & Hy & _) Hne.
  pose proof (bo_size _ _ (ho_buckets _ _ _ Hok b Hb)) as Hsb. pose proof (bo_size _ _ (ho_buckets _ _ _ Hok c Hc)) as Hsc.
  destruct (Z.lt_trichotomy (bk_no b) (bk_no c)) as [Hlt|[Heq|Hlt]].
  - destruct (slots_in b x Hsb Hx) as (_ & ? & _), (slots_in c y Hsc Hy) as (? & _). unfold page_of in *. left. lia.
  - assert (b = c) as -> by (apply (bucket_inj Hok); auto). by apply slots_disjoint.
  - destruct (slots_in b x Hsb Hx) as (? & _), (slots_in c y Hsc Hy) as (_ & ? & _). unfold page_of in *. right. lia.
Qed.
(** The bytes of an object are in the page of its bucket. *)
Lemma given_in_page h L F x s a : heap_ok h L F -> given L x s -> x <= a < x + s -> exists b, b ∈ L /\ in_page (bk_no b) a.
Proof.
  intros Hok (b & Hb & <- & Hx & _) Ha. exists b. split; [done|].
  destruct (slots_in b x (bo_size _ _ (ho_buckets _ _ _ Hok b Hb)) Hx) as (? & ? & _). unfold in_page. lia.
Qed.

(** What [malloc] promises: [x] is an object of the least size for [len], it
    is given out besides what was given out before, it overlaps none of it,
    and the contents of all that are unchanged. *)
Definition allocates (len : Z) (h : heap) (L : list bucket) (x : Z) (h' : heap) (L' : list bucket) : Prop :=
  exists size, size_for len size /\
    (forall y s, given L' y s <-> given L y s \/ (y = x /\ s = size)) /\
    (forall y s, given L y s -> x + size <= y \/ y + s <= x) /\
    (forall y s a, given L y s -> y <= a < y + s -> word h' a = word h a).

Lemma take_allocates h L1 b L2 F x rest len :
  heap_ok h (L1 ++ b :: L2) F -> bk_free b = x :: rest -> size_for len (bk_size b) ->
  allocates len h (L1 ++ b :: L2) x (taken (bk_desc b) h) (L1 ++ with_free b rest :: L2).
Proof.
  intros Hok Hf Hlen. assert (HbL : b ∈ L1 ++ b :: L2) by (apply elem_of_middle; by left).
  pose proof (ho_buckets _ _ _ Hok b HbL) as Hb. destruct (take_ok h L1 b L2 F x rest Hok Hf) as [_ Hok'].
  assert (Hx : x ∈ slots b) by (apply (bo_slots _ _ Hb); rewrite Hf; by left).
  pose proof (given_take L1 b L2 x rest) as Hg. specialize (Hg) with (1 := Hf) (2 := bo_nodup _ _ Hb) (3 := Hx).
  exists (bk_size b). split_and!; [done|intros y s; by apply Hg| |].
  - intros y s Hy. apply (given_disjoint _ _ _ _ _ _ _ Hok'); [apply Hg; by right|apply Hg; by left|].
    intros ->. destruct Hy as (c & Hc & _ & Hyc & Hout).
    assert (c = b) as ->; [|rewrite Hf in Hout; apply Hout; by left].
    apply (bucket_inj Hok); [done|done|right]. apply (in_page_eq _ _ y).
    + apply slots_in_page; [apply (bo_size _ _ (ho_buckets _ _ _ Hok c Hc))|done].
    + apply slots_in_page; [apply Hb|done].
  - intros y s a Hy Ha. destruct (given_in_page _ _ _ _ _ _ Hok Hy Ha) as (c & Hc & Hin).
    assert (Hd : bk_desc b ∈ map bk_desc (L1 ++ b :: L2) ++ F) by (apply elem_of_app; left; by apply elem_of_map_desc).
    apply word_taken; intros ->; eapply (desc_outside Hok (bk_desc b)); try exact Hin; try done;
      unfold desc_word, at_freeptr, at_refcnt; lia.
Qed.
Lemma grown_keeps h h' q d L F y s a :
  grown h h' q d -> heap_ok h L F -> (forall d', d = Some d' -> d' ∈ F) -> given L y s -> y <= a < y + s -> word h' a = word h a.
Proof.
  intros Hg Hok HdF Hy Ha. destruct (given_in_page _ _ _ _ _ _ Hok Hy Ha) as (c & Hc & Hin).
  apply (gr_words _ _ _ _ Hg).
  - intros Hq. apply (unused h q (gr_free _ _ _ _ Hg)). rewrite <- (in_page_eq _ _ a Hin Hq). by apply (ho_used _ _ _ Hok).
  - intros d' Hd' Hw. apply (desc_outside Hok d' a c); try done. apply elem_of_app. right. by apply HdF.
Qed.

(** [new_bucket] with no spare descriptor. *)
Lemma new_bucket_refilled h h1 i size : free_bucket_desc h = 0 -> init_bucket_desc h = Done tt h1 -> free_bucket_desc h1 <> 0 ->
  new_bucket i size h = new_bucket i size h1.
Proof.
  intros H0 Hrun H1. unfold new_bucket. rewrite !run_gets, H0, (proj2 (truth_true (free_bucket_desc h1))) by done.
  change (negb (truth 0)) with true. cbn [negb kwhen]. by rewrite (run_bind _ _ _ _ _ Hrun).
Qed.
Definition two_free (h : heap) : Prop := exists j k, j <> k /\
  array_get (mem_map (hmm h)) j = Some 0 /\ array_get (mem_map (hmm h)) k = Some 0.
(** The free pages that a new bucket takes: one for its objects and, when no
    descriptor is spare, one for descriptors before that. *)
Definition page_free (h : heap) : Prop := exists j, array_get (mem_map (hmm h)) j = Some 0.
Definition enough_pages (h : heap) (F : list Z) : Prop := match F with [] => two_free h | _ => page_free h end.
Lemma page_free_dec h : page_free h \/ forall j, array_get (mem_map (hmm h)) j <> Some 0.
Proof.
  destruct (decide (0 ∈ mem_map (hmm h))) as [Hin|Hin].
  - left. apply list_elem_of_lookup in Hin as [n Hn]. exists (Z.of_nat n). by rewrite array_get_nat.
  - right. intros j Hj. apply Hin. unfold array_get in Hj. destruct (0 <=? j); [|done]. by apply list_elem_of_lookup_2 in Hj.
Qed.
Definition out_of_memory (F : list Z) (h : heap) : string :=
  match F with
  | [] => if decide (0 ∈ mem_map (hmm h)) then "Out of memory in kernel malloc()" else "Out of memory in init_bucket_desc()"
  | _ => "Out of memory in kernel malloc()"
  end.

(** [init_bucket_desc] takes one page and leaves descriptors. *)
Lemma refill_run h L i size : heap_ok h L [] -> page_free h -> exists q h1 d F,
  grown h h1 q None /\ heap_ok h1 L (d :: F) /\ new_bucket i size h = new_bucket i size h1.
Proof.
  intros Hok Hz. destruct (init_run h L Hok Hz) as (q & h1 & Hrun & Hg & Hok1).
  unfold page_descs in Hok1. rewrite seqZ_cons in Hok1 by lia. cbn [map] in Hok1.
  do 4 eexists. split; [exact Hg|]. split; [exact Hok1|].
  apply (new_bucket_refilled h h1); [exact (ho_spare _ _ _ Hok)|done|].
  rewrite (ho_spare _ _ _ Hok1). cbn [hd]. pose proof (desc_positive Hok1 (page_of q + 16 * 0)) as Hp.
  specialize (Hp ltac:(apply elem_of_app; right; by left)). lia.
Qed.
Lemma new_bucket_any h L F i size : heap_ok h L F -> enough_pages h F -> array_get SIZES i = Some size -> exists b h' F',
  new_bucket i size h = Done (bk_desc b) h' /\ heap_ok h' (b :: L) F' /\ bk_size b = size /\ bk_free b = slots b /\
  (forall y s a, given L y s -> y <= a < y + s -> word h' a = word h a).
Proof.
  intros Hok Hz Hi. destruct F as [|d F].
  - destruct Hz as (j & k & Hne & Hj & Hk).
    destruct (refill_run h L i size Hok (ex_intro _ j Hj)) as (q & h1 & d & F & Hg & Hok1 & ->).
    assert (Hz : page_free h1).
    { unfold page_free. rewrite (gr_map _ _ _ _ Hg). destruct (decide (j = q)) as [->|Hjq].
      - exists k. by rewrite array_get_set_ne.
      - exists j. by rewrite array_get_set_ne. }
    destruct (new_bucket_ok h1 L d F i size Hok1 Hz Hi) as (q' & h2 & Hrun2 & Hg2 & Hok2).
    exists (Bucket d size q' (slots (Bucket d size q' []))), h2, F. split_and!; [done|done|done|done|].
    intros y s a Hy Ha. rewrite (grown_keeps _ _ _ _ _ _ _ _ _ Hg2 Hok1) with (2 := Hy); [|by intros d' [= <-]; left|done].
    by apply (grown_keeps _ _ _ _ _ _ _ _ _ Hg Hok) with (2 := Hy).
  - destruct (new_bucket_ok h L d F i size Hok Hz Hi) as (q' & h2 & Hrun2 & Hg2 & Hok2).
    exists (Bucket d size q' (slots (Bucket d size q' []))), h2, F. split_and!; [done|done|done|done|].
    intros y s a Hy Ha. apply (grown_keeps _ _ _ _ _ _ _ _ _ Hg2 Hok) with (2 := Hy); [by intros d' [= <-]; left|done].
Qed.
(** Memory that is exhausted. *)
Lemma new_bucket_none h L F i size : heap_ok h L F -> ~ enough_pages h F -> exists h',
  new_bucket i size h = Panic (out_of_memory F h) h'.
Proof.
  intros Hok Hz. destruct F as [|d F]; cbn [enough_pages out_of_memory] in *.
  - destruct (decide (0 ∈ mem_map (hmm h))) as [Hin|Hin].
    + apply list_elem_of_lookup in Hin as [n Hn].
      assert (Hj : array_get (mem_map (hmm h)) (Z.of_nat n) = Some 0) by (by rewrite array_get_nat).
      destruct (refill_run h L i size Hok (ex_intro _ _ Hj)) as (q & h1 & d & F & Hg & Hok1 & ->).
      apply (new_bucket_full h1 L d F i size Hok1). intros k Hk. rewrite (gr_map _ _ _ _ Hg) in Hk.
      pose proof (gr_free _ _ _ _ Hg) as Hq. destruct (decide (k = q)) as [->|Hkq].
      * rewrite array_get_set_eq in Hk by (by eapply array_get_Some_bound). done.
      * rewrite array_get_set_ne in Hk by done. apply Hz. by exists k, q.
    + assert (Hno : forall j, array_get (mem_map (hmm h)) j <> Some 0).
      { intros j Hj. apply Hin. unfold array_get in Hj. destruct (0 <=? j); [|done]. by apply list_elem_of_lookup_2 in Hj. }
      exists h. unfold new_bucket. rewrite run_gets, (ho_spare _ _ _ Hok). cbn [hd]. change (negb (truth 0)) with true. cbn [kwhen].
      apply bind_panic. unfold init_bucket_desc. by rewrite (run_bind _ _ _ _ _ (no_page_run h (ho_mm _ _ _ Hok) Hno)).
  - apply (new_bucket_full h L d F i size Hok). intros j Hj. apply Hz. by exists j.
Qed.

(** A bucket for objects of [len] bytes with an object to give. *)
Definition has_room (len : Z) (L : list bucket) : Prop :=
  exists b, b ∈ L /\ size_for len (bk_size b) /\ bk_free b <> [].

Lemma size_for_unique len s s' : size_for len s -> size_for len s' -> s = s'.
Proof. intros (H1 & H2 & H3) (H4 & H5 & H6). specialize (H3 s' H4 H5). specialize (H6 s H1 H2). lia. Qed.

Section malloc.
Context (fuel : nat) (h : heap) (L : list bucket) (F : list Z) (len : Z).
Hypothesis Hok : heap_ok h L F.
Hypothesis Hfuel : (length L < fuel)%nat.

(** The search for a bucket, and what follows it. *)
Lemma malloc_search : len <= 4096 -> exists i size, array_get SIZES i = Some size /\ size_for len size /\
  malloc fuel len h =
    (bdesc ← (match find has_free (of_size size L) with Some b => mret (bk_desc b) | None => new_bucket i size end);
     retval ← get (at_freeptr bdesc);
     n ← get retval; put (at_freeptr bdesc) n ;;
     w ← get (at_refcnt bdesc); put (at_refcnt bdesc) (set_refcnt w (refcnt w + 1)) ;;
     mret retval) h.
Proof using Hok Hfuel.
  intros Hlen. unfold malloc. rewrite run_gets, (ho_dir _ _ _ Hok).
  destruct (find_dir_run L len Hlen) as (i & size & Hfind & Hi & Hsz). exists i, size. split; [done|]. split; [done|].
  rewrite Hfind, run_deref. pose proof (size_facts _ (elem_of_sizes _ _ Hi)) as Hs.
  rewrite (proj2 (truth_true size)) by lia. cbn [negb].
  rewrite (run_bind _ _ _ _ _ (get_chain_run i h (dir_of L) (ho_dir _ _ _ Hok) _ (dir_get L i size Hi))). cbn [snd].
  assert (Hin : forall b, b ∈ of_size size L -> b ∈ L) by (unfold of_size; by intros b [_ ?]%list_elem_of_filter).
  assert (Hlf : (length (of_size size L) < fuel)%nat).
  { unfold of_size. pose proof (length_filter (fun b => bk_size b = size) L). lia. }
  rewrite (run_bind _ _ _ _ _ (find_space_run Hok fuel (of_size size L) Hin (ho_chains _ _ _ Hok size) Hlf)).
  destruct (find has_free (of_size size L)) as [b|] eqn:Hb; [|done].
  apply find_some in Hb as [Hb _]. apply list_elem_of_In, Hin in Hb.
  assert (Hd : 0 < bk_desc b < 4294967296) by (apply (desc_positive Hok), elem_of_app; left; by apply elem_of_map_desc).
  by rewrite (proj2 (truth_true (bk_desc b))) by lia.
Qed.
Lemma find_room size : size_for len size -> has_room len L <-> find has_free (of_size size L) <> None.
Proof using Type.
  intros Hsz. split.
  - intros (b & HbL & Hb & Hf). assert (Hbs : bk_size b = size) by (by apply (size_for_unique len)).
    intros Hnone. pose proof (find_none _ _ Hnone b) as H. rewrite <- list_elem_of_In in H. unfold of_size in H.
    rewrite list_elem_of_filter in H. specialize (H (conj Hbs HbL)). unfold has_free in H. by destruct (bk_free b).
  - destruct (find has_free (of_size size L)) as [b|] eqn:Hb; [|done]. intros _. apply find_some in Hb as [Hb Hf].
    apply list_elem_of_In in Hb. unfold of_size in Hb. apply list_elem_of_filter in Hb as [<- HbL].
    exists b. split_and!; [done|done|]. unfold has_free in Hf. by destruct (bk_free b).
Qed.

Lemma malloc_run : len <= 4096 -> has_room len L \/ enough_pages h F ->
  wp (malloc fuel len) (fun x h' => exists L' F', heap_ok h' L' F' /\ allocates len h L x h' L') h.
Proof using Hok Hfuel.
  intros Hlen Hz. apply wp_run. destruct (malloc_search Hlen) as (i & size & Hi & Hsz & Hrun0). rewrite Hrun0. clear Hrun0.
  destruct (find has_free (of_size size L)) as [b|] eqn:Hb.
  - apply find_some in Hb as [Hb Hf]. apply list_elem_of_In in Hb. unfold of_size in Hb.
    apply list_elem_of_filter in Hb as [<- HbL]. rewrite run_ret.
    apply list_elem_of_split in HbL as (L1 & L2 & HL). unfold has_free in Hf. destruct (bk_free b) as [|x rest] eqn:Hfb; [done|].
    rewrite HL in Hok |- *. destruct (take_ok h L1 b L2 F x rest Hok Hfb) as [Hrun Hok'].
    exists x, (taken (bk_desc b) h). split; [exact Hrun|]. exists (L1 ++ with_free b rest :: L2), F.
    split; [done|]. by apply (take_allocates _ _ _ _ F).
  - assert (He : enough_pages h F) by (destruct Hz as [Hr|]; [by apply (find_room size) in Hr|done]).
    destruct (new_bucket_any h L F i size Hok He Hi) as (b & h1 & F' & Hrun & Hok1 & Hbs & Hbf & Hkeep).
    rewrite (run_bind _ _ _ _ _ Hrun). pose proof (slots_length b) as Hl. rewrite <- Hbf, Hbs in Hl.
    pose proof (size_facts _ (elem_of_sizes _ _ Hi)) as Hs.
    destruct (bk_free b) as [|x rest] eqn:Hfb; [simpl in Hl; lia|].
    destruct (take_ok h1 [] b L F' x rest Hok1 Hfb) as [Hrun2 Hok2].
    exists x, (taken (bk_desc b) h1). split; [exact Hrun2|]. exists ([] ++ with_free b rest :: L), F'. split; [done|].
    destruct (take_allocates h1 [] b L F' x rest len Hok1 Hfb) as (size' & H1 & H2 & H3 & H4); [by rewrite Hbs|].
    assert (Hg : forall y s, given (b :: L) y s <-> given L y s) by (intros y s; apply given_new; congruence).
    exists size'. split_and!; [done| | |].
    + intros y s. rewrite H2. cbn [app]. by rewrite Hg.
    + intros y s Hy. apply H3. by apply Hg.
    + intros y s a Hy Ha. rewrite (H4 y s); [by apply (Hkeep y s)|by apply Hg|done].
Qed.
Lemma malloc_exhausted : len <= 4096 -> ~ has_room len L -> ~ enough_pages h F ->
  exists h', malloc fuel len h = Panic (out_of_memory F h) h'.
Proof using Hok Hfuel.
  intros Hlen Hr Hz. destruct (malloc_search Hlen) as (i & size & Hi & Hsz & ->).
  destruct (find has_free (of_size size L)) as [b|] eqn:Hb; [exfalso; apply Hr, (find_room size Hsz); congruence|].
  destruct (new_bucket_none h L F i size Hok Hz) as [h' Hrun]. exists h'. by apply bind_panic.
Qed.
Lemma malloc_too_large : 4096 < len -> malloc fuel len h = Panic "malloc: bad arg" h.
Proof using Hok.
  clear Hfuel. intros Hlen. unfold malloc. rewrite run_gets, (ho_dir _ _ _ Hok).
  assert (exists i, find_dir (dir_of L) len 0 = Some (i, 0)) as [i Hi].
  { unfold dir_of, SIZES. cbn [map app find_dir Z.eqb orb].
    repeat match goal with |- context [len <=? ?s] => destruct (Z.leb_spec len s) end; try lia. by eexists. }
  by rewrite Hi, run_deref.
Qed.
End malloc.

(** C9: [malloc] is an allocator.  On a heap that satisfies the
    representation there are three cases.  For at most a page, when a bucket
    of the least size that is large enough has a free object, or enough pages
    are free for a new bucket (one, and one more when no descriptor is
    spare), it completes and returns an object of that size: the objects
    given out are those from before and this one, which overlaps none of
    them; their contents have not changed; and the heap satisfies the
    representation again, so that this holds of any sequence of calls.
    Without such a bucket and such pages the kernel panics, with one message
    or the other; and so it does for more than a page. *)
Theorem malloc_allocates (fuel : nat) (h : heap) (L : list bucket) (F : list Z) (len : Z) :
  heap_ok h L F -> (length L < fuel)%nat ->
  (len <= 4096 -> has_room len L \/ enough_pages h F ->
     wp (malloc fuel len) (fun x h' => exists L' F', heap_ok h' L' F' /\ allocates len h L x h' L') h) /\
  (len <= 4096 -> ~ has_room len L -> ~ enough_pages h F ->
     exists h', malloc fuel len h = Panic (out_of_memory F h) h') /\
  (4096 < len -> malloc fuel len h = Panic "malloc: bad arg" h).
Proof.
  intros Hok Hfuel. split_and!; [by apply malloc_run|by apply malloc_exhausted|by apply (malloc_too_large fuel h L F)].
Qed.

Definition demo_heap : heap :=
  Heap (MM (replicate 3840 0) 0x1000000 ∅) initial_bucket_dir 0.

(** The first object of 100 bytes takes a place of 128. *)
Lemma demo_heap_ok : heap_ok demo_heap [] [].
Proof.
  split; [apply mm_wf_checked; vm_compute; reflexivity|reflexivity|done|reflexivity|done| |constructor| |constructor| |];
    try (intros x Hx; by apply elem_of_nil in Hx).
  intros q [Hq|Hq]; [|by apply elem_of_nil in Hq]. apply array_get_Some_bound in Hq.
  change (Z.of_nat (length (mem_map (hmm demo_heap)))) with 3840 in Hq. change (HIGH_MEMORY (hmm demo_heap)) with 0x1000000.
  unfold page_of, LOW_MEM. lia.
Qed.
(** The same heap with no page free. *)
Definition full_heap : heap := Heap (MM (replicate 3840 1) 0x1000000 ∅) initial_bucket_dir 0.
Lemma full_map j : array_get (mem_map (hmm full_heap)) j <> Some 0.
Proof.
  intros Hj. unfold array_get in Hj. destruct (0 <=? j); [|done].
  change (replicate 3840 1 !! Z.to_nat j = Some 0) in Hj. by apply lookup_replicate in Hj as [? _].
Qed.
Lemma full_heap_ok : heap_ok full_heap [] [].
Proof.
  split; [apply mm_wf_checked; vm_compute; reflexivity|reflexivity|done|reflexivity|done| |constructor| |constructor| |];
    try (intros x Hx; by apply elem_of_nil in Hx).
  intros q [Hq|Hq]; [|by apply elem_of_nil in Hq]. by apply full_map in Hq.
Qed.
Lemma malloc_allocates_witness :
  wp (malloc 1 100) (fun x h' => exists L' F', heap_ok h' L' F' /\ given L' x 128) demo_heap /\
  malloc 1 5000 demo_heap = Panic "malloc: bad arg" demo_heap /\
  exists h', malloc 1 100 full_heap = Panic "Out of memory in init_bucket_desc()" h'.
Proof.
  destruct (malloc_allocates 1 demo_heap [] [] 100 demo_heap_ok) as (H1 & _ & _); [simpl; lia|].
  destruct (malloc_allocates 1 demo_heap [] [] 5000 demo_heap_ok) as (_ & _ & H2); [simpl; lia|].
  destruct (malloc_allocates 1 full_heap [] [] 100 full_heap_ok) as (_ & H3 & _); [simpl; lia|].
  split; [|split; [by apply H2|]].
  - eapply wp_mono.
    { apply H1; [lia|right]. exists 0, 1. split_and!; [lia|vm_compute; reflexivity|vm_compute; reflexivity]. }
    clear H1 H2 H3. intros x h' (L' & F' & Hok & size & (Hin & Hle & Hmin) & Hg & _). exists L', F'. split; [exact Hok|].
    apply Hg. right. split; [reflexivity|].
    assert (size <= 128) by (apply Hmin; [repeat constructor|lia]).
    unfold SIZES in Hin. repeat (apply elem_of_cons in Hin as [->|Hin]; [lia|]). by apply elem_of_nil in Hin.
  - clear H1 H2. assert (Hm : out_of_memory [] full_heap = "Out of memory in init_bucket_desc()").
    { cbn [out_of_memory]. rewrite decide_False; [done|]. intros [n Hn]%list_elem_of_lookup.
      apply (full_map (Z.of_nat n)). by rewrite array_get_nat. }
    rewrite <- Hm. apply H3; [lia|by intros (b & Hb%elem_of_nil & _)|]. intros (j & k & _ & Hj & _). by apply full_map in Hj.
Defined.
End MallocOk.
