(* ===== verification/FreeOk.v ===== *)
(** * Giving objects back to the kernel heap ([free_s] of
      [lib/malloc.c])

    [free_s] finds the bucket of the object by its page, puts the object on
    the list of free ones, and gives the page of a bucket without objects
    back to memory management.  It undoes [malloc] on the representation of
    MallocOk. *)

From S2P Require Import Prelude Memory Malloc Cache MallocOk.

Module FreeOk.
Import Malloc Cache MallocOk.

(** ** Finding the bucket *)

Fixpoint search (page prev : Z) (bs : list bucket) : option (Z * Z) :=
  match bs with
  | [] => None
  | b :: bs => if page_of (bk_no b) =? page then Some (prev, bk_desc b) else search page (bk_desc b) bs
  end.
(** The descriptor before the end of [bs], or [prev]. *)
Fixpoint last_desc (prev : Z) (bs : list bucket) : Z :=
  match bs with [] => prev | b :: bs => last_desc (bk_desc b) bs end.
Lemma search_absent b bs : (forall c, c ∈ bs -> bk_no c <> bk_no b) -> forall prev, search (page_of (bk_no b)) prev bs = None.
Proof.
  induction bs as [|c bs IH]; intros Hne prev; [done|]. cbn [search].
  destruct (Z.eqb_spec (page_of (bk_no c)) (page_of (bk_no b))) as [Heq|_].
  - exfalso. apply (Hne c); [by left|]. unfold page_of in Heq. lia.
  - apply IH. intros c' Hc. apply Hne. by right.
Qed.
Lemma search_some b bs1 bs2 : (forall c, c ∈ bs1 -> bk_no c <> bk_no b) -> forall prev,
  search (page_of (bk_no b)) prev (bs1 ++ b :: bs2) = Some (last_desc prev bs1, bk_desc b).
Proof.
  induction bs1 as [|c bs IH]; intros Hne prev; cbn [app search].
  - by rewrite Z.eqb_refl.
  - destruct (Z.eqb_spec (page_of (bk_no c)) (page_of (bk_no b))) as [Heq|_].
    + exfalso. apply (Hne c); [by left|]. unfold page_of in Heq. lia.
    + apply IH. intros c' Hc. apply Hne. by right.
Qed.

Section find.
Context {h : heap} {L : list bucket} {F : list Z}.
Hypothesis Hok : heap_ok h L F.

Lemma find_page_run page fuel : forall bs prev, (forall b, b ∈ bs -> b ∈ L) -> chained h at_next (map bk_desc bs) ->
  (length bs < fuel)%nat ->
  kloop fuel (fun '(prev, bdesc) =>
    if negb (truth bdesc) then mret (inr None)
    else
      p ← get (at_page bdesc);
      if p =? page then mret (inr (Some (prev, bdesc)))
      else n ← get (at_next bdesc); mret (inl (bdesc, n))) (prev, hd 0 (map bk_desc bs)) h = Done (search page prev bs) h.
Proof using All.
  induction fuel as [|fuel IH]; intros bs prev HL Hch Hlen; [lia|]. rewrite kloop_S.
  destruct bs as [|b bs]; [done|]. cbn [map hd search]. destruct Hch as [Hnext Hch].
  assert (HbL : b ∈ L) by (apply HL; by left).
  assert (Hd : bk_desc b ∈ map bk_desc L ++ F) by (apply elem_of_app; left; by apply elem_of_map_desc).
  rewrite (proj2 (truth_true (bk_desc b))) by (pose proof (desc_positive Hok _ Hd); lia). cbn [negb].
  rewrite (run_bind _ _ _ _ _ (get_run _ _)), (bo_page _ _ (ho_buckets _ _ _ Hok b HbL)).
  destruct (page_of (bk_no b) =? page); [done|].
  rewrite (run_bind _ _ _ _ _ (get_run _ _)), Hnext. apply IH; [|done|simpl in Hlen; lia].
  intros c Hc. apply HL. by right.
Qed.

Lemma of_size_in s b : b ∈ of_size s L -> bk_size b = s /\ b ∈ L.
Proof. unfold of_size. intros Hb. by apply list_elem_of_filter in Hb. Qed.
Lemma of_size_length s : (length (of_size s L) <= length L)%nat.
Proof. unfold of_size. apply length_filter. Qed.
Lemma find_page_size fuel page s : (length L < fuel)%nat ->
  find_page fuel page (hd 0 (descs s L)) h = Done (search page 0 (of_size s L)) h.
Proof using All.
  intros Hlen. apply find_page_run; [by intros b [_ ?]%of_size_in|apply (ho_chains _ _ _ Hok)|]. pose proof (of_size_length s). lia.
Qed.

(** The walk over the entries [l] of the directory. *)
Lemma find_bucket_run fuel size b prev : b ∈ L -> (length L < fuel)%nat -> size <= bk_size b ->
  search (page_of (bk_no b)) 0 (of_size (bk_size b) L) = Some (prev, bk_desc b) -> forall l i0,
  (forall k s, l !! k = Some s -> array_get SIZES (i0 + Z.of_nat k) = Some s) -> bk_size b ∈ l -> exists i,
    find_bucket fuel (page_of (bk_no b)) size (map (fun s => (s, hd 0 (descs s L))) l ++ [(0, 0)]) i0 h = Done (i, prev, bk_desc b) h /\
    array_get SIZES i = Some (bk_size b).
Proof using All.
  intros Hb Hfuel Hsize Hs. induction l as [|s l IH]; intros i0 Hl Hin; [by apply elem_of_nil in Hin|].
  cbn [map app find_bucket]. pose proof (Hl O s eq_refl) as Hi. rewrite Z.add_0_r in Hi.
  pose proof (size_facts _ (elem_of_sizes _ _ Hi)) as Hsz.
  rewrite (proj2 (truth_true s)) by lia. cbn [negb].
  assert (Hl' : forall k s', l !! k = Some s' -> array_get SIZES (i0 + 1 + Z.of_nat k) = Some s').
  { intros k s' Hk. rewrite <- (Hl (S k) s' Hk). f_equal. lia. }
  destruct (decide (s = bk_size b)) as [->|Hne].
  - destruct (Z.ltb_spec (bk_size b) size); [lia|].
    rewrite (run_bind _ _ _ _ _ (find_page_size fuel _ _ Hfuel)), Hs. by exists i0.
  - assert (Hin' : bk_size b ∈ l) by (apply elem_of_cons in Hin as [Heq|]; [destruct (Hne (eq_sym Heq))|done]).
    destruct (IH (i0 + 1) Hl' Hin') as (i & Hrun & Hi').
    exists i. split; [|done]. destruct (s <? size); [done|].
    rewrite (run_bind _ _ _ _ _ (find_page_size fuel _ _ Hfuel)), search_absent; [done|].
    intros c [Hcs Hc]%of_size_in Heq. apply Hne. rewrite <- Hcs. f_equal. apply (bucket_inj Hok); auto.
Qed.
End find.

(** ** The object goes back to its bucket *)

Definition put_back (x d : Z) (h : heap) : heap :=
  let h2 := hput (at_freeptr d) x (hput x (word h (at_freeptr d)) h) in
  let w := word h2 (at_refcnt d) in
  hput (at_refcnt d) (set_refcnt w (refcnt w - 1)) h2.
Lemma word_put_back x d h a : a <> x -> a <> at_freeptr d -> a <> at_refcnt d -> word (put_back x d h) a = word h a.
Proof. intros. unfold put_back. by rewrite !word_hput_ne. Qed.

Section put_back.
Context (h : heap) (L1 L2 : list bucket) (b : bucket) (F : list Z) (x : Z).
Hypothesis Hok : heap_ok h (L1 ++ b :: L2) F.
Hypothesis Hx : x ∈ slots b.
Hypothesis Hout : x ∉ bk_free b.
Abbreviation d := (bk_desc b).

Lemma put_back_in : b ∈ L1 ++ b :: L2.
Proof. apply elem_of_middle. by left. Qed.
Lemma put_back_desc : d ∈ map bk_desc (L1 ++ b :: L2) ++ F.
Proof. apply elem_of_app. left. apply elem_of_map_desc, put_back_in. Qed.
Lemma put_back_bucket : bucket_ok h b.
Proof using Hok. apply (ho_buckets _ _ _ Hok), put_back_in. Qed.
Lemma put_back_page : in_page (bk_no b) x.
Proof using Hok Hx. apply slots_in_page; [apply put_back_bucket|done]. Qed.
Lemma put_back_apart a : desc_word d a -> a <> x.
Proof using Hok Hx. intros Ha ->. by apply (desc_outside Hok d x b put_back_desc Ha put_back_in), put_back_page. Qed.
(** At least one object was given out. *)
Lemma put_back_length : Z.of_nat (length (bk_free b)) + 1 <= 4096 / bk_size b.
Proof using Hok Hx Hout.
  pose proof put_back_bucket as Hb. pose proof (size_facts _ (bo_size _ _ Hb)).
  enough (length (x :: bk_free b) <= Z.to_nat (4096 / bk_size b))%nat by (simpl in *; lia). rewrite <- slots_length.
  apply NoDup_incl_length; [apply NoDup_ListNoDup, list.NoDup_cons; split; [done|apply Hb]|].
  intros y Hy. apply list_elem_of_In. apply list_elem_of_In, elem_of_cons in Hy as [->|Hy]; [done|]. by apply (bo_slots _ _ Hb).
Qed.
Lemma put_back_count : refcnt (word (put_back x d h) (at_refcnt d)) = 4096 / bk_size b - Z.of_nat (length (x :: bk_free b)).
Proof using Hok Hx Hout.
  pose proof put_back_length as Hl. pose proof put_back_bucket as Hb. pose proof (size_facts _ (bo_size _ _ Hb)).
  unfold put_back. rewrite word_hput, Z.eqb_refl, refcnt_set.
  rewrite !word_hput_ne by (first [apply put_back_apart; unfold desc_word, at_refcnt; lia|unfold at_refcnt, at_freeptr; lia]).
  rewrite (bo_count _ _ Hb). cbn [length]. rewrite u16_small; lia.
Qed.
Lemma put_back_ok : heap_ok (put_back x d h) (L1 ++ with_free b (x :: bk_free b) :: L2) F.
Proof using Hok Hx Hout.
  pose proof put_back_bucket as Hb. pose proof put_back_page as Hp. pose proof Hb as [H1 H2 H3 H4 H5 H6 H7].
  assert (Hd : forall k, 0 <= k <= 12 -> d + k <> x) by (intros k Hk; apply put_back_apart; unfold desc_word; lia).
  assert (Hu : used h (bk_no b)) by apply (ho_used _ _ _ Hok), put_back_in.
  assert (Hpage : forall a, in_page (bk_no b) a -> a <> at_freeptr d /\ a <> at_refcnt d).
  { intros a Ha. split; intros ->; (apply (desc_outside Hok d) with (4 := Ha); [apply put_back_desc| |apply put_back_in]);
      unfold desc_word, at_freeptr, at_refcnt; lia. }
  pose proof (used_bound _ _ (ho_mm _ _ _ Hok) Hu) as Hq.
  assert (Hxs : u32 x = x) by (apply u32_small; unfold in_page, page_of, LOW_MEM in Hp; lia).
  apply (heap_ok_update Hok); try done.
  - intros a Ha Hna. apply word_put_back; [intros ->; done|intros ->..]; unfold desc_word, at_freeptr, at_refcnt, at_next in Ha; lia.
  - split; cbn [with_free bk_desc bk_size bk_no bk_free]; [done| | |exact put_back_count| | |].
    + rewrite word_put_back; [done|..]; unfold at_page, at_freeptr, at_refcnt; [rewrite <- (Z.add_0_r d); apply Hd; lia|lia|lia].
    + unfold put_back. rewrite word_hput_ne by (unfold at_freeptr, at_refcnt; lia). by rewrite word_hput, Z.eqb_refl.
    + destruct (Hpage x Hp) as [Hxf Hxr]. split.
      * unfold put_back. rewrite !word_hput_ne by done. rewrite word_hput, Z.eqb_refl, H3. apply u32_small.
        destruct (bk_free b) as [|y l] eqn:Hf; [done|]. cbn [hd].
        assert (Hy : y ∈ bk_free b) by (rewrite Hf; by left).
        pose proof (free_bound _ _ y (ho_mm _ _ _ Hok) Hb Hu Hy). lia.
      * eapply chained_ext; [|exact H5]. intros a Ha.
        pose proof (slots_in_page b a H1 (H7 a Ha)) as Hap. destruct (Hpage a Hap). apply word_put_back; [|done|done].
        by intros ->.
    + by apply list.NoDup_cons.
    + intros y [->|Hy]%elem_of_cons; [done|by apply H7].
Qed.
End put_back.

(** ** A bucket without objects goes *)

Lemma chained_remove h h' link l1 d l2 : NoDup (l1 ++ d :: l2) ->
  (forall a, a ∈ l1 ++ l2 -> List.last l1 d <> a -> word h' (link a) = word h (link a)) ->
  (l1 <> [] -> word h' (link (List.last l1 d)) = hd 0 l2) ->
  chained h link (l1 ++ d :: l2) -> chained h' link (l1 ++ l2).
Proof.
  induction l1 as [|a l1 IH]; intros Hn Hw Hlast Hch.
  - cbn [app] in *. destruct Hch as [_ Hch]. eapply chained_ext; [|exact Hch].
    intros c Hc. apply Hw; [done|]. cbn [List.last]. intros <-. by apply list.NoDup_cons in Hn as [? _].
  - cbn [app] in *. destruct Hch as [Ha Hch]. apply list.NoDup_cons in Hn as [Hna Hn].
    destruct l1 as [|c l1].
    + cbn [app List.last] in *. split; [by apply Hlast|]. destruct Hch as [_ Hch]. eapply chained_ext; [|exact Hch].
      intros c Hc. apply Hw; [by right|]. intros <-. apply Hna. by right.
    + split; [rewrite Hw; [done|by left|]|].
      * intros Heq. apply Hna. rewrite <- Heq. apply elem_of_app. left. apply list_elem_of_In.
        change (List.last (a :: c :: l1) d) with (List.last (c :: l1) d). clear. revert c.
        induction l1 as [|e l1 IH]; intros c; [by left|]. right. apply IH.
      * apply IH; [done| |intros _; by apply Hlast|done]. intros e He Hne. apply Hw; [by right|done].
Qed.

Lemma last_desc_last prev bs d : bs <> [] -> last_desc prev bs = List.last (map bk_desc bs) d.
Proof.
  revert prev. induction bs as [|b bs IH]; intros prev Hne; [done|]. cbn [last_desc map].
  destruct bs as [|c bs]; [done|]. by rewrite IH.
Qed.
Lemma last_elem (l : list Z) d : l <> [] -> List.last l d ∈ l.
Proof.
  intros Hne. destruct (exists_last Hne) as (l' & a & ->). rewrite last_last. apply elem_of_app. right. by left.
Qed.
Lemma dir_replace L L' i s : array_get SIZES i = Some s -> (forall s', s' <> s -> descs s' L' = descs s' L) ->
  array_set (dir_of L) i (s, hd 0 (descs s L')) = dir_of L'.
Proof.
  intros [Hi ->]%sizes_index Hd. apply elem_of_upto in Hi. unfold dir_of, SIZES. cbn [map].
  assert (H : i = 0 \/ i = 1 \/ i = 2 \/ i = 3 \/ i = 4 \/ i = 5 \/ i = 6 \/ i = 7 \/ i = 8) by lia.
  repeat destruct H as [->|H]; [..|subst];
    try rewrite (Hd 16) by done; try rewrite (Hd 32) by done; try rewrite (Hd 64) by done;
    try rewrite (Hd 128) by done; try rewrite (Hd 256) by done; try rewrite (Hd 512) by done;
    try rewrite (Hd 1024) by done; try rewrite (Hd 2048) by done; try rewrite (Hd 4096) by done; reflexivity.
Qed.

Section remove.
Context (h : heap) (L1 L2 : list bucket) (b : bucket) (F : list Z) (i : Z).
Hypothesis Hok : heap_ok h (L1 ++ b :: L2) F.
Hypothesis Hi : array_get SIZES i = Some (bk_size b).
Abbreviation d := (bk_desc b).
Abbreviation s := (bk_size b).
Abbreviation L := (L1 ++ b :: L2).

Lemma descs_here : descs s L = descs s L1 ++ d :: descs s L2.
Proof. rewrite descs_app. by rewrite decide_True. Qed.
Lemma descs_rest s' : descs s' (L1 ++ L2) = descs s' L1 ++ descs s' L2.
Proof. unfold descs, of_size. by rewrite list.filter_app, map_app. Qed.
Lemma descs_other s' : s' <> s -> descs s' (L1 ++ L2) = descs s' L.
Proof. intros Hne. rewrite descs_rest, descs_app. by rewrite decide_False. Qed.
Lemma descs_nodup : NoDup (map bk_desc L ++ F).
Proof using Hok. apply Hok. Qed.
Lemma desc_in : d ∈ map bk_desc L ++ F.
Proof. apply elem_of_app. left. apply elem_of_map_desc, elem_of_middle. by left. Qed.
Lemma descs_in s' e : e ∈ descs s' L -> e ∈ map bk_desc L ++ F.
Proof. intros He. apply elem_of_app. left. by eapply elem_of_descs. Qed.
(** A descriptor is in one chain. *)
Lemma descs_size s1 s2 e : e ∈ descs s1 L -> e ∈ descs s2 L -> s1 = s2.
Proof using Hok.
  unfold descs. rewrite !list_elem_of_In, !in_map_iff. intros (x & Hx & Hxs) (y & Hy & Hys).
  apply list_elem_of_In, of_size_in in Hxs as [<- HxL], Hys as [<- HyL].
  f_equal. apply (bucket_inj Hok); [done|done|left; congruence].
Qed.
Lemma chain_nodup : NoDup (descs s L1 ++ d :: descs s L2).
Proof using Hok.
  rewrite <- descs_here. unfold descs, of_size. pose proof descs_nodup as [Hn _]%list.NoDup_app.
  clear -Hn. revert Hn. generalize L. intros l. induction l as [|c l IH]; intros Hn; [done|].
  rewrite map_cons in Hn. apply list.NoDup_cons in Hn as [Hc Hn]. rewrite filter_cons. destruct (decide (bk_size c = s)).
  - rewrite map_cons. apply list.NoDup_cons. split; [|by apply IH]. intros Hin. apply Hc. by apply (elem_of_descs s).
  - by apply IH.
Qed.

Definition unlinked : heap :=
  match descs s L1 with
  | [] => h ⟪ bucket_dir := array_set (dir_of L) i (s, hd 0 (descs s L2)) ⟫
  | l1 => hput (at_next (List.last l1 d)) (hd 0 (descs s L2)) h
  end.
Lemma unlink_run fuel : unlink fuel i (last_desc 0 (of_size s L1)) d h = Done tt unlinked.
Proof using Hok Hi.
  unfold unlink. pose proof (dir_get L i s Hi) as Hdir. rewrite descs_here in Hdir.
  rewrite (run_bind _ _ _ _ _ (get_chain_run i h (dir_of L) (ho_dir _ _ _ Hok) _ Hdir)). cbn [snd].
  pose proof (ho_chains _ _ _ Hok s) as Hch. rewrite descs_here in Hch.
  assert (Hnext : forall l, chained h at_next (l ++ d :: descs s L2) -> word h (at_next d) = hd 0 (descs s L2)).
  { induction l as [|a l IH]; intros Hl; [by destruct Hl|]. destruct Hl as [_ Hl]. by apply IH. }
  specialize (Hnext _ Hch). unfold unlinked.
  destruct (descs s L1) as [|a l1] eqn:Hl1.
  - assert (of_size s L1 = []) as -> by (unfold descs in Hl1; by destruct (of_size s L1)).
    cbn [last_desc app hd]. change (truth 0) with false. rewrite Z.eqb_refl. cbn [negb]. rewrite run_ret, run_ret.
    rewrite (run_bind _ _ _ _ _ (get_run _ _)), Hnext. change (truth 0) with false. cbv iota.
    rewrite (put_chain_run i h (dir_of L) _ (ho_dir _ _ _ Hok) _ Hdir). done.
  - assert (Hne : of_size s L1 <> []) by (intros Heq; unfold descs in Hl1; by rewrite Heq in Hl1).
    rewrite (last_desc_last 0 _ d Hne). change (map bk_desc (of_size s L1)) with (descs s L1). rewrite Hl1.
    set (p := List.last (a :: l1) d).
    assert (Hp : p ∈ map bk_desc L ++ F).
    { apply (descs_in s). rewrite descs_here, Hl1. apply elem_of_app. left. by apply last_elem. }
    assert (Hpn : forall l x, chained h at_next ((x :: l) ++ d :: descs s L2) -> word h (at_next (List.last (x :: l) d)) = d).
    { induction l as [|y l IH]; intros x [Hx Hl]; [done|]. by apply IH. }
    rewrite (proj2 (truth_true p)) by (pose proof (desc_positive Hok _ Hp); lia).
    rewrite (run_bind _ _ h false h) by (rewrite (run_bind _ _ _ _ _ (get_run _ _)); unfold p; by rewrite (Hpn _ _ Hch), Z.eqb_refl).
    rewrite run_ret, (run_bind _ _ _ _ _ (get_run _ _)), Hnext. by rewrite (proj2 (truth_true p)) by (pose proof (desc_positive Hok _ Hp); lia).
Qed.

(** Only the link of the descriptor before [d] changes. *)
Lemma unlinked_word a : (forall e, e ∈ descs s L1 -> a <> at_next e) -> word unlinked a = word h a.
Proof using Type.
  unfold unlinked. destruct (descs s L1) as [|c l1]; intros Ha; [done|].
  apply word_hput_ne. intros ->. by apply (Ha (List.last (c :: l1) d)); [by apply last_elem|].
Qed.
Lemma unlinked_same : mem_map (hmm unlinked) = mem_map (hmm h) /\ HIGH_MEMORY (hmm unlinked) = HIGH_MEMORY (hmm h) /\
  free_bucket_desc unlinked = free_bucket_desc h /\ mm_wf (hmm unlinked).
Proof using Hok.
  unfold unlinked. destruct (descs s L1); (split_and!; [done..|]); [apply Hok|]. exact (wf_phys (hmm h) _ (ho_mm _ _ _ Hok)).
Qed.
Lemma unlinked_dir : bucket_dir unlinked = dir_of (L1 ++ L2).
Proof using Hok Hi.
  unfold unlinked. pose proof (descs_rest s) as Hr. destruct (descs s L1) as [|a l1] eqn:Hl1.
  - cbn [bucket_dir set_field]. cbn [app] in Hr. rewrite <- Hr. apply dir_replace; [done|apply descs_other].
  - change (bucket_dir (hput _ _ h)) with (bucket_dir h). rewrite (ho_dir _ _ _ Hok). unfold dir_of. f_equal.
    apply map_ext. intros s'. f_equal. destruct (decide (s' = s)) as [->|Hne]; [|by rewrite descs_other].
    by rewrite Hr, descs_here, Hl1.
Qed.
Lemma unlinked_chains s' : chained unlinked at_next (descs s' (L1 ++ L2)).
Proof using Hok.
  destruct (decide (s' = s)) as [->|Hne].
  - rewrite descs_rest. pose proof (ho_chains _ _ _ Hok s) as Hch. rewrite descs_here in Hch.
    apply (chained_remove h _ at_next _ d _ chain_nodup); [| |exact Hch].
    + intros a Ha Hlast. unfold unlinked. destruct (descs s L1) as [|c l1]; [done|].
      apply word_hput_ne. unfold at_next. intros Heq. apply Hlast. lia.
    + intros Hne. unfold unlinked. destruct (descs s L1) as [|c l1] eqn:Hl1; [done|].
      rewrite word_hput, Z.eqb_refl. apply u32_small. destruct (descs s L2) as [|e l2] eqn:Hl2; [done|]. cbn [hd].
      assert (He : 0 < e < 4294967296); [|lia]. apply (desc_positive Hok), (descs_in s).
      rewrite descs_here, Hl2. apply elem_of_app. right. right. by left.
  - rewrite descs_other by done. eapply chained_ext; [|apply (ho_chains _ _ _ Hok s')].
    intros a Ha. apply unlinked_word. intros e He Heq. assert (a = e) as -> by (unfold at_next in Heq; lia).
    apply Hne. apply (descs_size s' s e); [done|]. rewrite descs_here. apply elem_of_app. by left.
Qed.
Lemma unlinked_spares : chained unlinked at_next F.
Proof using Hok.
  eapply chained_ext; [|apply (ho_spares _ _ _ Hok)]. intros a Ha. apply unlinked_word. intros e He Heq.
  assert (a = e) as -> by (unfold at_next in Heq; lia). pose proof descs_nodup as Hn%list.NoDup_app.
  destruct Hn as (_ & Hn & _). apply (Hn e); [|done]. apply (elem_of_descs s). rewrite descs_here. apply elem_of_app. by left.
Qed.

(** The rest of [free_s]: the page goes back, and the descriptor to the
    spare ones. *)
Definition removed (c : Z) : heap :=
  (hput (at_next d) (hd 0 F) (unlinked ⟪ hmm := released (bk_no b) c (hmm unlinked) ⟫)) ⟪ free_bucket_desc := d ⟫.
Lemma removed_word c a : a <> at_next d -> word (removed c) a = word unlinked a.
Proof using Type.
  intros Ha. exact (word_hput_ne (at_next d) (hd 0 F) (unlinked ⟪ hmm := released (bk_no b) c (hmm unlinked) ⟫) a Ha).
Qed.
Lemma removed_chain c l : (forall e, e ∈ l -> e <> d) -> chained unlinked at_next l -> chained (removed c) at_next l.
Proof using Type.
  intros Hl. apply chained_ext. intros e He. apply removed_word. intros Heq. apply (Hl e He). unfold at_next in Heq. lia.
Qed.
Lemma rest_apart e : e ∈ map bk_desc (L1 ++ L2) ++ F -> e <> d /\ e ∈ map bk_desc L ++ F.
Proof using Hok.
  intros He. pose proof descs_nodup as Hn. rewrite map_app in Hn. cbn [map] in Hn.
  rewrite <- Permutation_middle in Hn. cbn [app] in Hn. rewrite <- map_app in Hn. apply list.NoDup_cons in Hn as [Hd _].
  split; [by intros ->|]. apply elem_of_app in He as [He|He]; apply elem_of_app; [left|by right].
  rewrite map_app in He |- *. cbn [map]. apply elem_of_middle. by right.
Qed.
Lemma removed_used c q : q <> bk_no b -> used h q -> used (removed c) q.
Proof using Hok.
  intros Hne (k & Hk & Hk0). exists k. split; [|done]. unfold removed, released. cbn [hmm mem_map set_field hput].
  rewrite array_get_set_ne by done. by rewrite (proj1 unlinked_same).
Qed.
Lemma other_no x : x ∈ L1 ++ L2 -> x ∈ L /\ bk_no x <> bk_no b.
Proof using Hok.
  intros Hx. split; [apply elem_of_middle; by right|]. by apply (nodup_middle bk_no L1 b L2), Hx; apply Hok.
Qed.
Lemma removed_bucket c x : x ∈ L1 ++ L2 -> bucket_ok (removed c) x.
Proof using Hok.
  intros Hx. pose proof (other_no x Hx) as [HxL Hno].
  assert (Hxd : bk_desc x ∈ map bk_desc (L1 ++ L2) ++ F) by (apply elem_of_app; left; by apply elem_of_map_desc).
  pose proof (rest_apart _ Hxd) as [Hne HxL'].
  assert (Hlink : forall e a, e ∈ map bk_desc L ++ F -> a = at_next e -> desc_word e a) by (intros e a _ ->; unfold desc_word, at_next; lia).
  apply (bucket_ok_ext h); [| |by apply (ho_buckets _ _ _ Hok)].
  - intros a Ha Han. rewrite removed_word; [apply unlinked_word|].
    + intros e He ->. apply Han. f_equal. apply (desc_apart Hok e (bk_desc x) (at_next e)); try done; [|apply Hlink; [|done]];
        apply (descs_in s); rewrite descs_here; apply elem_of_app; by left.
    + intros ->. apply Hne. apply (desc_apart Hok (bk_desc x) d (at_next d)); try done; [apply desc_in|]. unfold desc_word, at_next. lia.
  - intros a Ha. rewrite removed_word; [apply unlinked_word|].
    + intros e He ->. apply (desc_outside Hok e (at_next e) x) with (4 := Ha); [|unfold desc_word, at_next; lia|done].
      apply (descs_in s). rewrite descs_here. apply elem_of_app. by left.
    + intros ->. apply (desc_outside Hok d (at_next d) x) with (4 := Ha); [apply desc_in|unfold desc_word, at_next; lia|done].
Qed.
Lemma remove_ok c : array_get (mem_map (hmm h)) (bk_no b) = Some c -> c <> 0 -> heap_ok (removed c) (L1 ++ L2) (d :: F).
Proof using Hok Hi.
  intros Hc Hc0. pose proof Hok as [H1 H2 H3 H4 H5 H6 H7 H8 H9 H10 H11]. destruct unlinked_same as (Hm & Hh & Hf & Hwf).
  pose proof (wf_bytes _ H1 _ _ Hc) as Hcb.
  assert (Hmap : mem_map (hmm (removed c)) = array_set (mem_map (hmm h)) (bk_no b) (c - 1)) by (rewrite <- Hm; done).
  assert (HbL : b ∈ L) by (apply elem_of_middle; by left).
  split.
  - assert (Hwr : mm_wf (MM (array_set (mem_map (hmm unlinked)) (bk_no b) (c - 1)) (HIGH_MEMORY (hmm unlinked)) (phys (hmm (removed c))))).
    { apply wf_set; [done|lia]. }
    exact Hwr.
  - exact unlinked_dir.
  - intros s'. apply removed_chain; [|apply unlinked_chains]. intros e He. apply rest_apart, elem_of_app. left. by eapply elem_of_descs.
  - reflexivity.
  - split.
    + change (word (hput (at_next d) (hd 0 F) (unlinked ⟪ hmm := released (bk_no b) c (hmm unlinked) ⟫)) (at_next d) = hd 0 F).
      rewrite word_hput, Z.eqb_refl. apply u32_small. destruct F as [|e F'] eqn:HF; [done|]. cbn [hd].
      assert (0 < e < 4294967296); [|lia]. apply (desc_positive Hok), elem_of_app. right. by left.
    + apply removed_chain; [|apply unlinked_spares]. intros e He. apply rest_apart, elem_of_app. by right.
  - intros x Hx. by apply removed_bucket.
  - rewrite map_app in H7 |- *. cbn [map] in H7. rewrite <- app_assoc in H7. cbn [app] in H7.
    rewrite <- Permutation_middle in H7 |- *. by rewrite <- app_assoc.
  - intros e He. assert (He' : e ∈ map bk_desc L ++ F).
    { apply elem_of_middle in He as [->|He]; [apply desc_in|by apply rest_apart]. }
    destruct (H8 e He') as (H16 & q & Hq & Hu & Hno). split; [done|]. exists q.
    assert (Hqb : q <> bk_no b) by (intros ->; apply Hno; by apply elem_of_map_no).
    split_and!; [done|by apply removed_used|]. intros Hin. apply Hno. rewrite map_app in Hin |- *. cbn [map].
    apply elem_of_middle. by right.
  - rewrite map_app in H9 |- *. cbn [map] in H9. rewrite <- Permutation_middle in H9. by apply list.NoDup_cons in H9 as [_ ?].
  - intros x Hx. destruct (other_no x Hx). by apply removed_used, H10.
  - intros q Hq. change (HIGH_MEMORY (hmm (removed c))) with (HIGH_MEMORY (hmm unlinked)). rewrite Hh. apply H11.
    destruct (decide (q = bk_no b)) as [->|Hne]; [right; by apply elem_of_map_no|].
    rewrite Hmap, array_get_set_ne in Hq by done. destruct Hq as [Hq|Hq]; [by left|right].
    rewrite map_app in Hq |- *. cbn [map]. apply elem_of_middle. by right.
Qed.
End remove.

(** ** [free_s] *)

Section free.
Context (h : heap) (L1 L2 : list bucket) (b : bucket) (F : list Z) (x : Z).
Hypothesis Hok : heap_ok h (L1 ++ b :: L2) F.
Hypothesis Hx : x ∈ slots b.
Hypothesis Hout : x ∉ bk_free b.
Abbreviation d := (bk_desc b).
Abbreviation L := (L1 ++ b :: L2).
Abbreviation b' := (with_free b (x :: bk_free b)).
Abbreviation h1 := (put_back x d h).

Lemma given_back y s : given (L1 ++ b' :: L2) y s <-> given L y s /\ y <> x.
Proof using All.
  unfold given. split.
  - intros (c & [->|Hc]%elem_of_middle & Hs & Hy & Hn).
    + cbn [with_free bk_size bk_free] in *. rewrite elem_of_cons in Hn. split; [|tauto]. exists b.
      split_and!; [apply elem_of_middle; by left|done|done|tauto].
    + split; [exists c; split_and!; [apply elem_of_middle; by right|done..]|]. intros ->.
      destruct (other_no h L1 L2 b F Hok c Hc) as [HcL Hno]. apply Hno.
      apply (in_page_eq _ _ x); [|by apply (put_back_page h L1 L2 b F)].
      apply slots_in_page; [apply (bo_size _ _ (ho_buckets _ _ _ Hok c HcL))|done].
  - intros [(c & [->|Hc]%elem_of_middle & Hs & Hy & Hn) Hne].
    + exists b'. split_and!; [apply elem_of_middle; by left|done|done|]. cbn [with_free bk_free]. rewrite elem_of_cons. tauto.
    + exists c. split_and!; [apply elem_of_middle; by right|done..].
Qed.
(** When the count is zero all objects are free. *)
Lemma given_empty y s : 4096 / bk_size b = Z.of_nat (length (x :: bk_free b)) ->
  given (L1 ++ L2) y s <-> given (L1 ++ b' :: L2) y s.
Proof using All.
  intros Hlen. pose proof (put_back_bucket h L1 L2 b F Hok) as Hb. unfold given. split.
  - intros (c & Hc & H). exists c. split; [|done]. apply elem_of_middle. by right.
  - intros (c & [->|Hc]%elem_of_middle & Hs & Hy & Hn); [|by exists c]. destruct Hn.
    assert (Hincl : incl (slots b) (x :: bk_free b)); [|by apply list_elem_of_In, Hincl, list_elem_of_In].
    apply NoDup_length_incl.
    + apply NoDup_ListNoDup, list.NoDup_cons. split; [done|apply Hb].
    + rewrite slots_length, Hlen. lia.
    + intros z Hz. apply list_elem_of_In in Hz. apply list_elem_of_In.
      apply elem_of_cons in Hz as [->|Hz]; [done|]. by apply (bo_slots _ _ Hb).
Qed.
(** Other objects keep their contents. *)
Lemma put_back_keeps y s a : given L y s -> y <> x -> y <= a < y + s -> word h1 a = word h a.
Proof using All.
  intros Hy Hne Ha. destruct (given_in_page _ _ _ _ _ _ Hok Hy Ha) as (c & Hc & Hin).
  assert (Hxg : given L x (bk_size b)) by (exists b; split_and!; [apply elem_of_middle; by left|done..]).
  pose proof (size_facts _ (bo_size _ _ (put_back_bucket h L1 L2 b F Hok))).
  pose proof (put_back_desc L1 L2 b F) as Hd.
  apply word_put_back.
  - destruct (given_disjoint _ _ _ _ _ _ _ Hok Hy Hxg Hne); lia.
  - intros ->. apply (desc_outside Hok d _ c Hd) with (3 := Hin); [unfold desc_word, at_freeptr; lia|done].
  - intros ->. apply (desc_outside Hok d _ c Hd) with (3 := Hin); [unfold desc_word, at_refcnt; lia|done].
Qed.

(** The page and the descriptor of an empty bucket. *)
Definition release_bucket (fuel : nat) (i prev : Z) : KM heap unit :=
  unlink fuel i prev d ;;
  p ← get (at_page d); on_mm (free_page p) ;;
  f ← gets free_bucket_desc; put (at_next d) f ;;
  modify (fun s => s ⟪ free_bucket_desc := d ⟫).
Lemma release_bucket_run fuel i : array_get SIZES i = Some (bk_size b) -> exists c,
  release_bucket fuel i (last_desc 0 (of_size (bk_size b) L1)) h1 = Done tt (removed h1 L1 L2 b' F i c) /\
  heap_ok (removed h1 L1 L2 b' F i c) (L1 ++ L2) (d :: F) /\ array_get (mem_map (hmm h)) (bk_no b) = Some c /\
  (forall y s a, given L y s -> y <= a < y + s -> word (removed h1 L1 L2 b' F i c) a = word h1 a).
Proof using All.
  intros Hi. pose proof (put_back_ok h L1 L2 b F x Hok Hx Hout) as Hok1.
  assert (Hb1 : b' ∈ L1 ++ b' :: L2) by (apply elem_of_middle; by left).
  destruct (ho_used _ _ _ Hok1 b' Hb1) as (c & Hc & Hc0). exists c.
  pose proof (unlinked_same h1 L1 L2 b' F i Hok1) as (Hm & Hh & Hf & Hwf).
  assert (Hplace : forall e, e ∈ descs (bk_size b) L1 -> e ∈ map bk_desc (L1 ++ b' :: L2) ++ F).
  { intros e He. apply (descs_in L1 L2 b' F (bk_size b')). rewrite (descs_here L1 L2 b'). apply elem_of_app. by left. }
  pose proof (desc_in L1 L2 b' F) as Hd.
  split; [|split; [exact (remove_ok h1 L1 L2 b' F i Hok1 Hi c Hc Hc0)|split; [exact Hc|]]].
  - unfold release_bucket. rewrite (run_bind _ _ _ _ _ (unlink_run h1 L1 L2 b' F i Hok1 Hi fuel)).
    rewrite (run_bind _ _ _ _ _ (get_run _ _)).
    rewrite (unlinked_word h1 L1 L2 b' i); cycle 1.
    { intros e He Heq. destruct (ho_place _ _ _ Hok1 e (Hplace e He)) as ([k ->] & _), (ho_place _ _ _ Hok1 _ Hd) as ([j Hj] & _).
      unfold at_page, at_next in Heq. cbn [with_free bk_desc] in Hj. lia. }
    assert (Hpg : word h1 (at_page d) = page_of (bk_no b)) by exact (bo_page _ _ (ho_buckets _ _ _ Hok1 b' Hb1)).
    rewrite Hpg.
    assert (Hrange : LOW_MEM <= page_of (bk_no b) < HIGH_MEMORY (hmm (unlinked h1 L1 L2 b' i))).
    { split; [|rewrite Hh; apply (ho_high _ _ _ Hok1); right; by apply (elem_of_map_no _ b')].
      pose proof (used_bound _ _ (ho_mm _ _ _ Hok1) (ho_used _ _ _ Hok1 b' Hb1)) as Hq. cbn [with_free bk_no] in Hq. unfold page_of. lia. }
    assert (Hcount : page_count (hmm (unlinked h1 L1 L2 b' i)) (page_of (bk_no b)) = Some c).
    { unfold page_count. by rewrite MAP_NR_page_of, Hm. }
    pose proof (free_page_in_range _ _ c Hwf Hrange Hcount) as Hfree. rewrite MAP_NR_page_of, (proj2 (truth_true c)) in Hfree by done.
    set (h2 := unlinked h1 L1 L2 b' i) in *.
    assert (Hrun : on_mm (free_page (page_of (bk_no b))) h2 = Done tt (h2 ⟪ hmm := released (bk_no b) c (hmm h2) ⟫)).
    { unfold on_mm, zoom. by rewrite Hfree. }
    assert (Hsp : free_bucket_desc (h2 ⟪ hmm := released (bk_no b) c (hmm h2) ⟫) = hd 0 F).
    { rewrite <- (ho_spare _ _ _ Hok1). exact Hf. }
    rewrite (run_bind _ _ _ _ _ Hrun), run_gets, Hsp. by rewrite (run_bind _ _ _ _ _ (put_run _ _ _)).
  - intros y s a Hy Ha. destruct (given_in_page _ _ _ _ _ _ Hok Hy Ha) as (e & He & Hin).
    assert (Hin1 : exists e1, e1 ∈ L1 ++ b' :: L2 /\ in_page (bk_no e1) a).
    { apply elem_of_middle in He as [->|He]; [by exists b'|]. exists e. split; [|done]. apply elem_of_middle. by right. }
    destruct Hin1 as (e1 & He1 & Hin1).
    rewrite removed_word; [apply unlinked_word|].
    + intros c' Hc' ->. apply (desc_outside Hok1 c' _ e1 (Hplace c' Hc')) with (3 := Hin1); [unfold desc_word, at_next; lia|done].
    + intros ->. apply (desc_outside Hok1 d _ e1 Hd) with (3 := Hin1); [unfold desc_word, at_next; cbn; lia|done].
Qed.
End free.

(** Every bucket has an object given out. *)
Definition all_busy (L : list bucket) : Prop := forall b, b ∈ L -> Z.of_nat (length (bk_free b)) < 4096 / bk_size b.
(** The pages of the buckets that are gone have been released. *)
Definition pages_back (L L' : list bucket) (m m' : list Z) : Prop := forall q, array_get m' q =
  if decide (q ∈ map bk_no L /\ q ∉ map bk_no L') then (fun c => c - 1) <$> array_get m q else array_get m q.
Lemma pages_back_one L1 b L2 c m : NoDup (map bk_no (L1 ++ b :: L2)) -> array_get m (bk_no b) = Some c ->
  pages_back (L1 ++ b :: L2) (L1 ++ L2) m (array_set m (bk_no b) (c - 1)).
Proof.
  intros Hnd Hc q. rewrite !map_app in *. cbn [map] in *. destruct (decide (q = bk_no b)) as [->|Hne].
  - rewrite array_get_set_eq by (by apply array_get_Some_bound in Hc). rewrite decide_True, Hc; [done|].
    split; [apply elem_of_app; right; by left|]. intros Hin.
    apply NoDup_ListNoDup, NoDup_remove_2 in Hnd. by apply Hnd, list_elem_of_In.
  - rewrite array_get_set_ne by done. rewrite decide_False; [done|]. intros [Hin Hout]. apply Hout.
    apply elem_of_app in Hin as [Hin|[->|Hin]%elem_of_cons]; [apply elem_of_app; by left|done|apply elem_of_app; by right].
Qed.

(** The search for an object's bucket. *)
Lemma object_frame h L F b x : heap_ok h L F -> b ∈ L -> x ∈ slots b -> frame x = page_of (bk_no b).
Proof.
  intros Hok Hb Hx. pose proof (slots_in_page b x (bo_size _ _ (ho_buckets _ _ _ Hok b Hb)) Hx) as Hin.
  pose proof (used_bound _ _ (ho_mm _ _ _ Hok) (ho_used _ _ _ Hok b Hb)) as Hq.
  replace x with (page_of (bk_no b) + (x - page_of (bk_no b))) by lia. unfold in_page in Hin.
  apply frame_of_page; [exists (256 + bk_no b); unfold page_of, LOW_MEM; lia|unfold page_of, LOW_MEM in *; lia|lia].
Qed.
Lemma find_object h L1 b L2 F fuel size :
  heap_ok h (L1 ++ b :: L2) F -> (length (L1 ++ b :: L2) < fuel)%nat -> size <= bk_size b -> exists i,
  find_bucket fuel (page_of (bk_no b)) size (dir_of (L1 ++ b :: L2)) 0 h =
    Done (i, last_desc 0 (of_size (bk_size b) L1), bk_desc b) h /\ array_get SIZES i = Some (bk_size b).
Proof.
  intros Hok Hfuel Hsize. assert (Hb : b ∈ L1 ++ b :: L2) by (apply elem_of_middle; by left).
  pose proof (bo_size _ _ (ho_buckets _ _ _ Hok b Hb)) as Hs.
  assert (Hsearch : search (page_of (bk_no b)) 0 (of_size (bk_size b) (L1 ++ b :: L2)) =
    Some (last_desc 0 (of_size (bk_size b) L1), bk_desc b)).
  { rewrite of_size_app, decide_True by done. apply search_some. intros c Hc. unfold of_size in Hc.
    apply list_elem_of_filter in Hc as [_ Hc]. apply (other_no h L1 L2 b F Hok), elem_of_app. by left. }
  destruct (find_bucket_run Hok fuel size b _ Hb Hfuel Hsize Hsearch SIZES 0) as (i & Hfind & Hi); [|done|by exists i].
  intros k s Hk. unfold array_get. rewrite (proj2 (Z.leb_le 0 (0 + Z.of_nat k))) by lia. by rewrite Z.add_0_l, Nat2Z.id.
Qed.

(** C24: [free_s] takes an object back.  On a heap that satisfies the
    representation, for an object that was given out, with its size or a
    smaller one or 0, it completes: exactly that object is no longer given
    out, the contents of the others have not changed, and the heap satisfies
    the representation again.  A bucket whose last object it was is gone, and
    its page is released; the other pages stay. *)
Theorem free_s_takes_back (fuel : nat) (h : heap) (L : list bucket) (F : list Z) (x s size : Z) :
  heap_ok h L F -> given L x s -> size <= s -> (length L < fuel)%nat ->
  wp (free_s fuel x size) (fun _ h' => exists L' F', heap_ok h' L' F' /\
    (forall y s', given L' y s' <-> given L y s' /\ y <> x) /\
    (forall y s' a, given L y s' -> y <> x -> y <= a < y + s' -> word h' a = word h a) /\
    (all_busy L -> all_busy L') /\ pages_back L L' (mem_map (hmm h)) (mem_map (hmm h'))) h.
Proof.
  intros Hok (b & Hb & <- & Hx & Hout) Hsize Hfuel. apply wp_run.
  pose proof (object_frame h L F b x Hok Hb Hx) as Hframe.
  apply list_elem_of_split in Hb as (L1 & L2 & ->).
  destruct (find_object h L1 b L2 F fuel size Hok Hfuel Hsize) as (i & Hfind & Hi).
  pose proof (given_back h L1 L2 b F x Hok Hx Hout) as Hgiven.
  pose proof (put_back_ok h L1 L2 b F x Hok Hx Hout) as Hok1.
  pose proof (put_back_keeps h L1 L2 b F x Hok Hx Hout) as Hkeep.
  pose proof (put_back_count h L1 L2 b F x Hok Hx Hout) as Hcount.
  unfold free_s. rewrite run_gets, (ho_dir _ _ _ Hok), Hframe. rewrite (run_bind _ _ _ _ _ Hfind).
  rewrite (run_bind _ _ _ _ _ (get_run _ _)), (run_bind _ _ _ _ _ (put_run _ _ _)), (run_bind _ _ _ _ _ (put_run _ _ _)).
  rewrite (run_bind _ _ _ _ _ (get_run _ _)), (run_bind _ _ _ _ _ (put_run _ _ _)).
  rewrite <- (refcnt_u32 (set_refcnt _ _)).
  match goal with |- context [refcnt (u32 ?v)] => assert (Hw : u32 v = word (put_back x (bk_desc b) h) (at_refcnt (bk_desc b))) end.
  { unfold put_back. by rewrite (word_hput (at_refcnt (bk_desc b)) _ _ (at_refcnt (bk_desc b))), Z.eqb_refl. }
  rewrite Hw, Hcount. clear Hw. change (hput _ _ (hput _ _ (hput _ _ h))) with (put_back x (bk_desc b) h).
  destruct (truth _) eqn:Hz.
  - exists tt, (put_back x (bk_desc b) h). split; [done|].
    exists (L1 ++ with_free b (x :: bk_free b) :: L2), F. split_and!; [done|done|done| |].
    + intros Hbusy c [->|Hc]%elem_of_middle; [|apply Hbusy, elem_of_middle; by right].
      cbn [with_free bk_free bk_size]. apply truth_true in Hz.
      assert (0 <= refcnt (word (put_back x (bk_desc b) h) (at_refcnt (bk_desc b)))) by (unfold refcnt, u16; apply Z.mod_pos_bound; lia).
      lia.
    + intros q. rewrite decide_False; [done|]. rewrite !map_app. cbn [map with_free bk_no]. tauto.
  - apply truth_false in Hz.
    destruct (release_bucket_run h L1 L2 b F x Hok Hx Hout fuel i Hi) as (c & Hrun & Hok2 & Hc & Hkeep2).
    set (h2 := removed _ _ _ _ _ _ c) in *. exists tt, h2. split; [exact Hrun|]. exists (L1 ++ L2), (bk_desc b :: F).
    split_and!; [done| | | |].
    + intros y s. rewrite <- Hgiven. apply (given_empty h L1 L2 b F x Hok Hx Hout). lia.
    + intros y s a Hy Hne Ha. rewrite (Hkeep2 y s a Hy Ha). by apply (Hkeep y s).
    + intros Hbusy e He. apply Hbusy, elem_of_middle. by right.
    + assert (Hm : mem_map (hmm h2) = array_set (mem_map (hmm h)) (bk_no b) (c - 1)).
      { unfold h2, removed. cbn [hput set_field hmm mem_map released]. by rewrite (proj1 (unlinked_same _ _ _ _ F i Hok1)). }
      rewrite Hm. apply (pages_back_one L1 b L2 c _ (ho_pages _ _ _ Hok) Hc).
Qed.

(** An object of the first bucket of a fresh heap. *)
Lemma free_s_takes_back_witness : exists h L F x, heap_ok h L F /\ given L x 128 /\
  wp (free_s 2 x 128) (fun _ h' => exists L' F', heap_ok h' L' F' /\ ~ given L' x 128) h.
Proof.
  assert (Hz : two_free demo_heap) by (exists 0, 1; split_and!; [lia|vm_compute; reflexivity|vm_compute; reflexivity]).
  destruct (new_bucket_any demo_heap [] [] 3 128 demo_heap_ok Hz eq_refl) as (b & h1 & F & _ & Hok & Hs & Hf & _).
  pose proof (slots_length b) as Hl. rewrite <- Hf, Hs in Hl. destruct (bk_free b) as [|x rest] eqn:Hfb; [discriminate Hl|].
  destruct (take_ok h1 [] b [] F x rest Hok Hfb) as [_ Hok'].
  assert (Hin : b ∈ [b]) by (by left). pose proof (ho_buckets _ _ _ Hok b Hin) as Hb.
  assert (Hx : x ∈ slots b) by (rewrite <- Hf; by left).
  assert (Hg : given ([] ++ with_free b rest :: []) x 128).
  { apply (given_take [] b [] x rest x 128 Hfb (bo_nodup _ _ Hb) Hx). right. by rewrite Hs. }
  exists (taken (bk_desc b) h1), ([] ++ with_free b rest :: []), F, x. split; [exact Hok'|]. split; [exact Hg|].
  eapply wp_mono; [apply (free_s_takes_back 2 _ _ F x 128 128 Hok' Hg); [lia|simpl; lia]|].
  intros u h' (L' & F' & Hok2 & Hgiven & _). exists L', F'. split; [exact Hok2|].
  intros [_ Hne]%Hgiven. by apply Hne.
Defined.

(** Four objects and their release. *)
Definition demo_run : KM heap (list Z) :=
  a ← malloc 3 100; b ← malloc 3 60; c ← malloc 3 128; free_s 3 a 0 ;; d ← malloc 3 128;
  free_s 3 c 128 ;; free_s 3 d 0 ;; free_s 3 b 64 ;; m ← gets (fun s => length (filter (fun x => x = 0) (mem_map (hmm s))));
  mret [a; b; c; d; Z.of_nat m].
Example demo_run_ok :
  match demo_run demo_heap with
  | Done l _ => l = [0xffe000; 0xffd000; 0xffe080; 0xffe000; 3839]
  | _ => False
  end.
Proof. vm_compute. reflexivity. Qed.
End FreeOk.
