(* ===== verification/Demand.v ===== *)
(** * Demand loading ([share_page] and [do_no_page] of [mm/memory.c])

    A page that is not present is taken from another task that runs the same
    program, read from the program's file, or made empty.  User memory shows
    afterwards what the page tables map: [expose] is the processor's part,
    that the access which faulted is made again through the new entry. *)

From S2P Require Import Prelude Memory Task Sched Kernel Files Exit FsData Block Buffer Inode InodeOps Pipe.

Module Demand.
Import FsData Block Buffer Inode InodeOps Pipe.

(** What a user program reads at a linear address. *)
Definition visible (m : gmap Z Z) (a : Z) : option Z := phys_byte m <$> translate m a.
Definition show_byte (m : gmap Z Z) (a : Z) (u : gmap Z Z) : gmap Z Z :=
  partial_alter (fun _ => visible m a) (u32 a) u.
Definition show_page (m : gmap Z Z) (address : Z) (u : gmap Z Z) : gmap Z Z :=
  fold_left (fun u k => show_byte m (address + k) u) (upto 4096) u.
Definition expose (address : Z) : F unit :=
  modify (fun s => s ⟪ user := show_page (phys (km s)) address (user s) ⟫).

Section demand.
Context {W : Sleeps} {V : Drivers} {FC : FloppyChange}.
Variables fuel depth : nat.

(** The tasks from the last one down, until a page could be shared. *)
Fixpoint share_from (slots : list Z) (address : Z) : F Z :=
  match slots with
  | [] => mret 0
  | p :: slots =>
      o ← gets (fun s => slot (ks s) p);
      cur ← current_task;
      me ← gets (fun s => current (ks s));
      match o with
      | None => share_from slots address
      | Some t =>
          if me =? p then share_from slots address
          else if negb (bool_decide (executable t = executable cur)) then share_from slots address
          else
            r ← on_km (try_to_share address (start_code t) (start_code cur));
            if truth r then mret 1 else share_from slots address
      end
  end.
Definition share_page (address : Z) : F Z :=
  cur ← current_task;
  match executable cur with
  | None => mret 0
  | Some e => x ← inode_at e; if i_count x <? 2 then mret 0 else share_from slots_down address
  end.

(** [COPYBLK]: 256 longwords. *)
Definition copy_block (address : Z) (data : list Z) : KM mm unit :=
  kfor (upto 256) (fun k => store (address + 4 * k) (get32 data (4 * k))).
(** [while (i-- > 0) { tmp--; *(char * )tmp = 0; }] *)
Definition clear_tail (tmp i : Z) : KM mm unit :=
  kfor (upto i) (fun k => store_byte (tmp - 1 - k) 0).
(** The four blocks from [block] on. *)
Fixpoint map_blocks (e block : Z) (n : nat) : F (list Z) :=
  match n with
  | O => mret []
  | S n => z ← bmap fuel depth e block; l ← map_blocks e (block + 1) n; mret (z :: l)
  end.
Definition load_page (e page tmp end_data : Z) : F unit :=
  nr ← map_blocks e (1 + tmp / BLOCK_SIZE) 4;
  x ← inode_at e;
  l ← on_blk (bread_page (Y := sync_inodes_at fuel depth) fuel page (i_dev x) nr);
  kfor l (fun '(a, data) => on_km (copy_block a data)) ;;
  on_km (clear_tail (page + 4096) (s32 (tmp + 4096 - end_data))).

Definition do_no_page (error_code address : Z) : F unit :=
  let address := Z.land address 0xfffff000 in
  cur ← current_task;
  let tmp := u32 (address - start_code cur) in
  match executable cur with
  | Some e =>
      if end_data cur <=? tmp then on_km (get_empty_page address)
      else
        shared ← share_page tmp;
        if truth shared then mret tt
        else
          page ← on_km get_free_page;
          kwhen (negb (truth page)) (on_km oom) ;;
          load_page e page tmp (end_data cur) ;;
          r ← on_km (put_page page address);
          if truth r then mret tt else on_km (free_page page) ;; on_km oom
  | None => on_km (get_empty_page address)
  end ;;
  expose address.
End demand.
End Demand.
