(* ===== verification/Exec.v ===== *)
(** * Program execution ([fs/exec.c])

    [do_execve] replaces the program of the current task.  Of the new
    program only the header is read; its pages come in by page faults
    (Demand).  Its arguments are copied to pages of the kernel before the
    old program's memory goes, and these pages become the top of its data
    segment. *)

From S2P Require Import Prelude Memory Task Sched Kernel Files FsData Block Buffer Inode InodeOps Namei Names Pipe Demand.

Module Exec.
Import FsData Block Buffer Inode InodeOps Namei Names Pipe Demand.

Definition ENOEXEC : Z := 8.
Definition MAX_ARG_PAGES : Z := 32.
Definition S_ISUID : Z := 0x800.
Definition S_ISGID : Z := 0x400.

(** [struct exec] ([include/a.out.h]), as it lies at the start of the
    file. *)
Record exec : Type := ExecHeader {
  a_magic : Z; a_text : Z; a_data : Z; a_bss : Z; a_syms : Z; a_entry : Z; a_trsize : Z; a_drsize : Z
}.
Definition get_exec (l : list Z) : exec :=
  ExecHeader (get32 l 0) (get32 l 4) (get32 l 8) (get32 l 12) (get32 l 16) (get32 l 20) (get32 l 24) (get32 l 28).
Definition ZMAGIC : Z := 0x10B.
Definition SEGMENT_SIZE : Z := 1024.
Definition N_TXTOFF (ex : exec) : Z := if a_magic ex =? ZMAGIC then SEGMENT_SIZE - 32 + 32 else 32.

(** The tests on the header; the sums are of unsigned longs. *)
Definition bad_header (ex : exec) (size : Z) : bool :=
  negb (a_magic ex =? ZMAGIC) || truth (a_trsize ex) || truth (a_drsize ex) ||
  (0x3000000 <? u32 (a_text ex + a_data ex + a_bss ex)) ||
  (size <? u32 (a_text ex + a_data ex + a_syms ex + N_TXTOFF ex)).

(** ** Interpreters *)

(** [strncpy(buf,b_data+2,1022); buf[1022] = 0;] *)
Fixpoint strncpy (n : nat) (l : list Z) : list Z :=
  match n, l with
  | O, _ => []
  | S n, c :: l => if c =? 0 then replicate (S n) 0 else c :: strncpy n l
  | S n, [] => replicate (S n) 0
  end.
Definition first_line (data : list Z) : list Z := strncpy 1022 (drop 2 data) ++ [0].
(** The index from [k] on of the first character that [p] accepts, or of the
    end of the string. *)
Fixpoint span (p : Z -> bool) (l : list Z) (k : Z) : Z :=
  match l with
  | [] => k
  | c :: l => if (c =? 0) || p c then k else span p l (k + 1)
  end.
Definition from (l : list Z) (k : Z) : list Z := drop (Z.to_nat k) l.
Definition char_at (l : list Z) (k : Z) : Z := default 0 (array_get l k).
Definition blank (c : Z) : bool := (c =? 32) || (c =? 9).
(** [i_name]: what follows the last slash between [cp] and [e]. *)
Fixpoint last_name (n : nat) (l : list Z) (cp i_name : Z) : Z :=
  match n with
  | O => i_name
  | S n => last_name n l (cp + 1) (if char_at l cp =? 47 then cp + 1 else i_name)
  end.

(** The line after [#!]: the buffer, and in it the path of the interpreter,
    its name, and its argument if there is one. *)
Definition interpreter (data : list Z) : option (list Z * Z * Z * option Z) :=
  let buf := first_line data in
  let nl := span (fun c => c =? 10) buf 0 in
  if negb (char_at buf nl =? 10) then None
  else
    let buf := array_set buf nl 0 in
    let cp := span (fun c => negb (blank c)) buf 0 in
    if char_at buf cp =? 0 then None
    else
      let e := span blank (from buf cp) cp in
      let i_name := last_name (Z.to_nat (e - cp)) buf cp cp in
      if truth (char_at buf e) then Some (array_set buf e 0, cp, i_name, Some (e + 1))
      else Some (buf, cp, i_name, None).

(** ** Arguments *)

(** Where the array of pointers and the strings are, the cases of
    [from_kmem]: 0, 1 and 2.  In the last one the pointers are indices of
    the buffer. *)
Inductive strings : Type :=
| InUser (argv : Z)
| PointersInKernel (l : list Z)
| InKernel (l : list Z) (buf : list Z).
Definition pointer (a : strings) (k : Z) : F (option Z) :=
  match a with
  | InUser argv => v ← get_fs_long (u32 (argv + 4 * k)); mret (if truth v then Some v else None)
  | PointersInKernel l => v ← read_at l k; mret (if truth v then Some v else None)
  | InKernel l _ => v ← read_at l k; mret (Some v)
  end.
Definition string_byte (a : strings) (tmp : Z) : F Z :=
  match a with InKernel _ buf => read_at buf tmp | _ => get_fs_byte tmp end.

(** [page], [p], [offset] and [pag] of [copy_strings]. *)
Record dest : Type := Dest { d_page : list Z; d_p : Z; d_offset : Z; d_pag : Z }.

(** With [fs] set to the kernel's data segment, pointers are indices of
    [buf]. *)
Definition kernel_view (b : Z) (buf : list Z) : gmap Z Z :=
  list_to_map (imap (fun k v => (u32 (b + Z.of_nat k), v)) buf).
Definition in_kernel_ds {A} (buf : list Z) (m : F A) : F A :=
  b ← user_base;
  u ← gets user;
  modify (fun s => s ⟪ user := kernel_view b buf ⟫) ;;
  r ← m;
  modify (fun s => s ⟪ user := u ⟫) ;;
  mret r.

Section exec.
Context {W : Sleeps} {V : Drivers} {FC : FloppyChange}.
Variables fuel depth : nat.
#[local] Instance inodes_here : Inodes blk := fs_inodes fuel depth.

Abbreviation iput := (InodeOps.iput fuel depth).
Abbreviation namei := (Namei.namei fuel depth).

(** [while (get_fs_byte(p++))] *)
Definition skip_string (p : Z) : F Z :=
  kloop fuel (fun p => c ← get_fs_byte p; mret (if truth c then inl (u32 (p + 1)) else inr (u32 (p + 1)))) p.
(** The pointers to [n] strings from [p] on, stored from [v] on: the
    addresses that follow both. *)
Fixpoint put_pointers (n : nat) (p v : Z) : F (Z * Z) :=
  match n with
  | O => mret (p, v)
  | S n => put_fs_long p v ;; p ← skip_string p; put_pointers n p (u32 (v + 4))
  end.
Definition create_tables (p argc envc : Z) : F Z :=
  let envp := u32 (Z.land 0xfffffffc p - 4 * (envc + 1)) in
  let argv := u32 (envp - 4 * (argc + 1)) in
  put_fs_long envp (u32 (argv - 4)) ;;
  put_fs_long argv (u32 (argv - 8)) ;;
  put_fs_long argc (u32 (argv - 12)) ;;
  r ← put_pointers (Z.to_nat argc) p argv;
  let '(p, argv') := r in
  put_fs_long 0 argv' ;;
  r ← put_pointers (Z.to_nat envc) p envp;
  put_fs_long 0 (snd r) ;;
  mret (u32 (argv - 12)).

Definition count (argv : Z) : F Z :=
  if negb (truth argv) then mret 0
  else kloop fuel (fun '(tmp, i) =>
    v ← get_fs_long tmp; mret (if truth v then inl (u32 (tmp + 4), i + 1) else inr i)) (argv, 0).

(** The length of a string with its end, and the address after it. *)
Definition string_length (a : strings) (tmp : Z) : F (Z * Z) :=
  kloop fuel (fun '(len, tmp) =>
    c ← string_byte a tmp;
    mret (if truth c then inl (len + 1, tmp + 1) else inr (len + 1, tmp + 1))) (0, tmp).
(** The page for the byte at [d_p], when the one in use is full. *)
Definition next_page (d : dest) : F (option dest) :=
  let offset := d_offset d - 1 in
  if offset <? 0 then
    let offset := d_p d mod PAGE_SIZE in
    pag ← read_at (d_page d) (d_p d / PAGE_SIZE);
    if truth pag then mret (Some (Dest (d_page d) (d_p d) offset pag))
    else
      pag ← on_km get_free_page;
      mret (if truth pag then Some (Dest (array_set (d_page d) (d_p d / PAGE_SIZE) pag) (d_p d) offset pag) else None)
  else mret (Some (Dest (d_page d) (d_p d) offset (d_pag d))).
(** The bytes of one string, from its end: [inl] has the pages when memory is
    exhausted. *)
Fixpoint copy_string (a : strings) (len : nat) (tmp : Z) (d : dest) : F (list Z + dest) :=
  match len with
  | O => mret (inr d)
  | S len =>
      o ← next_page (Dest (d_page d) (u32 (d_p d - 1)) (d_offset d) (d_pag d));
      match o with
      | None => mret (inl (d_page d))
      | Some d =>
          c ← string_byte a (tmp - 1);
          on_km (store_byte (d_pag d + d_offset d) c) ;;
          copy_string a len (tmp - 1) d
      end
  end.
(** The test [p-len < 0] is made on unsigned numbers. *)
Fixpoint copy_from (a : strings) (argc : nat) (d : dest) : F (list Z * Z) :=
  match argc with
  | O => mret (d_page d, d_p d)
  | S argc =>
      o ← pointer a (Z.of_nat argc);
      match o with
      | None => panic "argc is wrong"
      | Some tmp =>
          r ← string_length a tmp;
          let '(len, tmp) := r in
          if u32 (d_p d - len) <? 0 then mret (d_page d, 0)
          else
            r ← copy_string a (Z.to_nat len) tmp d;
            match r with inl page => mret (page, 0) | inr d => copy_from a argc d end
      end
  end.
Definition copy_strings (argc : Z) (a : strings) (page : list Z) (p : Z) : F (list Z * Z) :=
  if negb (truth p) then mret (page, 0) else copy_from a (Z.to_nat argc) (Dest page p 0 0).

(** ** The new address space *)

Definition change_ldt (text_size : Z) (page : list Z) : F Z :=
  let code_limit := Z.land (u32 (text_size + PAGE_SIZE - 1)) 0xFFFFF000 in
  let data_limit := 0x4000000 in
  t ← current_task;
  code ← read_at (ldt t) 1;
  data ← read_at (ldt t) 2;
  let code_base := get_base code in
  set_current (fun t => t ⟪ ldt := array_set (array_set (ldt t) 1 (set_limit (set_base code code_base) code_limit))
                                     2 (set_limit (set_base data code_base) data_limit) ⟫) ;;
  kfor (reverse (upto MAX_ARG_PAGES)) (fun i =>
    pg ← read_at page i;
    let address := u32 (code_base + data_limit - PAGE_SIZE * (MAX_ARG_PAGES - i)) in
    kwhen (truth pg) (_ ← on_km (put_page pg address); expose address)) ;;
  mret data_limit.

(** User memory that [free_page_tables] unmaps. *)
Definition unmap (d : desc_struct) : F unit :=
  on_km (free_page_tables (get_base d) (get_limit d)) ;;
  modify (fun s => s ⟪ user := filter (fun e =>
    ~ (get_base d <= fst e < get_base d + 4194304 * Z.shiftr (u32 (get_limit d + 0x3fffff)) 22)) (user s) ⟫).

Definition exec_error1 (page : list Z) (retval : Z) : F (Z * option (Z * Z)) :=
  kfor page (fun p => on_km (free_page p)) ;; mret (retval, None).
Definition exec_error2 (inode : Z) (page : list Z) (retval : Z) : F (Z * option (Z * Z)) :=
  iput (Some inode) ;; exec_error1 page retval.

(** From the label [restart_interp] to the reading of the header: the new
    ids and the buffer. *)
Definition open_header (inode : Z) : F (Z + Z * Z * Z) :=
  x ← inode_at inode;
  if negb (S_ISREG (i_mode x)) then mret (inl (- EACCES))
  else
    cur ← current_task;
    let e_uid := if truth (Z.land (i_mode x) S_ISUID) then i_uid x else euid cur in
    let e_gid := if truth (Z.land (i_mode x) S_ISGID) then i_gid x else egid cur in
    let i := if euid cur =? i_uid x then Z.shiftr (i_mode x) 6
             else if egid cur =? i_gid x then Z.shiftr (i_mode x) 3 else i_mode x in
    if negb (truth (Z.land i 1)) && negb (truth (Z.land (i_mode x) 0x49) && (euid cur =? 0)) then mret (inl (- ENOEXEC))
    else
      o ← read_block fuel depth (i_dev x) (zone_of x 0);
      mret (match o with None => inl (- EACCES) | Some bh => inr (e_uid, e_gid, bh) end).

(** What the point of no return does to the task before its memory is
    replaced. *)
Definition leave_program (inode : Z) : F unit :=
  cur ← current_task;
  iput (executable cur) ;;
  set_current (fun t => t ⟪ executable := Some inode ⟫
    ⟪ sigactions := map (fun sa => sa ⟪ sa_handler := 0 ⟫) (sigactions t) ⟫) ;;
  kfor (upto NR_OPEN) (fun i =>
    t ← current_task;
    kwhen (truth (Z.land (Z.shiftr (close_on_exec t) i) 1)) (_ ← sys_close i; mret tt)) ;;
  set_current (fun t => t ⟪ close_on_exec := 0 ⟫) ;;
  t ← current_task; code ← read_at (ldt t) 1; unmap code ;;
  t ← current_task; data ← read_at (ldt t) 2; unmap data ;;
  modify (fun s => s ⟪ ks := (ks s) ⟪ last_task_used_math :=
    if bool_decide (last_task_used_math (ks s) = Some (current (ks s)))
    then None else last_task_used_math (ks s) ⟫ ⟫) ;;
  set_current (fun t => t ⟪ used_math := 0 ⟫).

(** [while (i&0xfff) put_fs_byte(0,(char * )(i++));] *)
Definition clear_to_page (i : Z) : F unit :=
  kloop 4096 (fun i =>
    if truth (Z.land i 0xfff) then put_fs_byte 0 i ;; mret (inl (i + 1)) else mret (inr tt)) i.

(** From the point of no return on. *)
Definition enter_program (inode : Z) (ex : exec) (e_uid e_gid argc envc : Z) (page : list Z) (p : Z) : F (Z * option (Z * Z)) :=
  leave_program inode ;;
  l ← change_ldt (a_text ex) page;
  p ← create_tables (u32 (p + l - MAX_ARG_PAGES * PAGE_SIZE)) argc envc;
  set_current (fun t => t
    ⟪ end_code := a_text ex ⟫ ⟪ end_data := u32 (a_data ex + a_text ex) ⟫
    ⟪ brk := u32 (a_bss ex + u32 (a_data ex + a_text ex)) ⟫
    ⟪ start_stack := Z.land p 0xfffff000 ⟫ ⟪ euid := e_uid ⟫ ⟪ egid := e_gid ⟫) ;;
  clear_to_page (s32 (a_text ex + a_data ex)) ;;
  mret (0, Some (a_entry ex, p)).

(** After the header has been read and is no script: [sh_bang] tells that the
    arguments have been copied.  The second test on the header comes with a
    message, and is never true after the first. *)
Definition load_program (inode bh e_uid e_gid : Z) (sh_bang : bool) (argc argv envc envp : Z) (page : list Z) (p : Z)
    : F (Z * option (Z * Z)) :=
  h ← buffer_at bh;
  let ex := get_exec (b_data h) in
  InodeOps.release fuel (Some bh) ;;
  x ← inode_at inode;
  if bad_header ex (i_size x) then exec_error2 inode page (- ENOEXEC)
  else if negb (N_TXTOFF ex =? BLOCK_SIZE) then exec_error2 inode page (- ENOEXEC)
  else
    r ← (if sh_bang then mret (page, p)
         else
           r ← copy_strings envc (InUser envp) page p;
           copy_strings argc (InUser argv) (fst r) (snd r));
    let '(page, p) := r in
    if negb sh_bang && negb (truth p) then exec_error2 inode page (- ENOMEM)
    else enter_program inode ex e_uid e_gid argc envc page p.

(** The script's interpreter is given its own name, its argument, the
    script and the script's arguments. *)
Definition run_script (data : list Z) (filename argc argv envc envp : Z) (page : list Z) (p : Z) : F (Z * option (Z * Z)) :=
  match interpreter data with
  | None => exec_error1 page (- ENOEXEC)
  | Some (buf, interp, i_name, i_arg) =>
      r ← copy_strings envc (InUser envp) page p;
      r ← copy_strings (argc - 1) (InUser (u32 (argv + 4))) (fst r) (snd r);
      r ← copy_strings 1 (PointersInKernel [filename]) (fst r) (snd r);
      r ← match i_arg with
          | None => mret (argc, r)
          | Some a => r ← copy_strings 1 (InKernel [a] buf) (fst r) (snd r); mret (argc + 1, r)
          end;
      let '(argc, r) := r in
      r ← copy_strings 1 (InKernel [i_name] buf) (fst r) (snd r);
      let '(page, p) := r in
      if negb (truth p) then exec_error1 page (- ENOMEM)
      else
        o ← in_kernel_ds buf (namei interp);
        match o with
        | None => exec_error1 page (- ENOENT)
        | Some inode =>
            r ← open_header inode;
            match r with
            | inl retval => exec_error2 inode page retval
            | inr (e_uid, e_gid, bh) =>
                load_program inode bh e_uid e_gid true (argc + 1) argv envc envp page p
            end
        end
  end.

(** The result, and the new [eip] and [esp] when the program was
    replaced; [cs] is the code segment of the caller. *)
Definition do_execve (cs filename argv envp : Z) : F (Z * option (Z * Z)) :=
  let p := PAGE_SIZE * MAX_ARG_PAGES - 4 in
  if negb (Z.land 0xffff cs =? 0xf) then panic "execve called from supervisor mode"
  else
    let page := replicate (Z.to_nat MAX_ARG_PAGES) 0 in
    o ← namei filename;
    match o with
    | None => mret (- ENOENT, None)
    | Some inode =>
        argc ← count argv;
        envc ← count envp;
        r ← open_header inode;
        match r with
        | inl retval => exec_error2 inode page retval
        | inr (e_uid, e_gid, bh) =>
            h ← buffer_at bh;
            if (char_at (b_data h) 0 =? 35) && (char_at (b_data h) 1 =? 33) then
              InodeOps.release fuel (Some bh) ;;
              iput (Some inode) ;;
              run_script (b_data h) filename argc argv envc envp page p
            else load_program inode bh e_uid e_gid false argc argv envc envp page p
        end
    end.
End exec.
End Exec.
