(* ===== verification/Args.v ===== *)
(** * The arguments of a new program ([copy_strings] of [fs/exec.c])

    [execve] copies the caller's argument strings, from the last byte to the
    first, to at most 32 pages of the kernel that become the top of the new
    program's memory.  The pages are seen here as one area of 128 kB. *)

From S2P Require Import Prelude Memory Task Sched Kernel Files Signal FsData Block Buffer Cache Inode InodeOps Pipe PipeQueue FileRead Exec.

Module Args.
Import FsData Block Cache InodeOps Pipe PipeQueue Exec.

Definition AREA : Z := 131072.
(** Byte [i] of the area; where no page is allocated yet it is zero. *)
Definition area (m : mm) (page : list Z) (i : Z) : Z :=
  match array_get page (i / 4096) with
  | Some pg => if pg =? 0 then 0 else phys_byte (phys m) (pg + i mod 4096)
  | None => 0
  end.
(** The pages of the area are pages in use, each there once. *)
Record area_ok (m : mm) (page : list Z) : Prop := {
  ao_mm : mm_wf m;
  ao_length : length page = 32%nat;
  ao_page : forall k pg, array_get page k = Some pg -> pg <> 0 ->
    exists q c, pg = page_of q /\ array_get (mem_map m) q = Some c /\ c <> 0;
  ao_distinct : forall j k pg, array_get page j = Some pg -> array_get page k = Some pg -> pg <> 0 -> j = k
}.
Definition exhausted (m : mm) : Prop := forall j, array_get (mem_map m) j <> Some 0.

(** ** Pages and bytes *)

Lemma page_of_eq q r a b : 0 <= a < 4096 -> 0 <= b < 4096 -> page_of q + a = page_of r + b -> q = r /\ a = b.
Proof. unfold page_of. lia. Qed.
Lemma index_bound i : 0 <= i < AREA -> 0 <= i / 4096 < 32.
Proof. unfold AREA. intros Hi. split; [apply Z.div_pos; lia|apply Z.div_lt_upper_bound; lia]. Qed.

Lemma phys_byte_cleared q m a : phys_byte (clear_words (page_of q) m) a =
  if (page_of q <=? a) && (a <? page_of q + 4096) then 0 else phys_byte m a.
Proof.
  pose proof (Z.mod_pos_bound a 4 ltac:(lia)). unfold phys_byte.
  pose proof (Z.div_mod a 4 ltac:(lia)).
  destruct (Z.leb_spec (page_of q) a), (Z.ltb_spec a (page_of q + 4096)); cbn [andb].
  2-4: rewrite clear_words_out; [done|unfold page_of, LOW_MEM in *; lia].
  replace (a - a mod 4) with (page_of q + 4 * (a / 4 - (262144 + 1024 * q))).
  - rewrite clear_words_in; [by rewrite Z.div_0_l by (apply Z.pow_nonzero; lia)|].
    unfold page_of, LOW_MEM in *. lia.
  - unfold page_of, LOW_MEM in *. lia.
Qed.

(** Taking a new page for part [k] of the area leaves its bytes alone. *)
Lemma area_alloc m page k q :
  area_ok m page -> array_get page k = Some 0 -> array_get (mem_map m) q = Some 0 ->
  area_ok (allocated q m) (array_set page k (page_of q)) /\
  forall i, area (allocated q m) (array_set page k (page_of q)) i = area m page i.
Proof.
  intros [Hm Hl Hp Hd] Hk Hq. pose proof (array_get_Some_bound _ _ _ Hk) as Hkb.
  pose proof (wf_index _ _ _ Hm Hq) as Hqb.
  assert (Hother : forall j pg, array_get page j = Some pg -> pg <> 0 -> exists r c, pg = page_of r /\ r <> q /\ array_get (mem_map m) r = Some c /\ c <> 0).
  { intros j pg Hj Hpg. destruct (Hp j pg Hj Hpg) as (r & c & -> & Hr & Hc). exists r, c. split_and!; [done| |done|done]. congruence. }
  split; [split|].
  - by apply allocated_wf.
  - by rewrite length_array_set.
  - intros j pg Hj Hpg. destruct (decide (j = k)) as [->|Hne].
    + rewrite array_get_set_eq in Hj by done. injection Hj as <-. exists q, 1. split_and!; [done| |done].
      apply array_get_set_eq. by apply array_get_Some_bound in Hq.
    + rewrite array_get_set_ne in Hj by done. destruct (Hother j pg Hj Hpg) as (r & c & -> & Hrq & Hr & Hc).
      exists r, c. split_and!; [done| |done]. cbn [allocated mem_map]. by rewrite array_get_set_ne.
  - intros i j pg Hi Hj Hpg. destruct (decide (i = k)) as [->|Hik], (decide (j = k)) as [->|Hjk]; [done|..].
    + rewrite array_get_set_eq in Hi by done. rewrite array_get_set_ne in Hj by done. injection Hi as <-.
      destruct (Hother j _ Hj Hpg) as (r & c & Hr & Hrq & _). exfalso. apply Hrq. unfold page_of in Hr. lia.
    + rewrite array_get_set_ne in Hi by done. rewrite array_get_set_eq in Hj by done. injection Hj as <-.
      destruct (Hother i _ Hi Hpg) as (r & c & Hr & Hrq & _). exfalso. apply Hrq. unfold page_of in Hr. lia.
    + rewrite array_get_set_ne in Hi, Hj by done. by apply (Hd i j pg).
  - intros i. unfold area. pose proof (Z.mod_pos_bound i 4096 ltac:(lia)).
    destruct (decide (i / 4096 = k)) as [->|Hne].
    + rewrite array_get_set_eq, Hk by done. change (0 =? 0) with true. cbv iota.
      destruct (Z.eqb_spec (page_of q) 0); [done|]. cbn [allocated phys]. rewrite phys_byte_cleared.
      destruct (Z.leb_spec (page_of q) (page_of q + i mod 4096)), (Z.ltb_spec (page_of q + i mod 4096) (page_of q + 4096)); (done || lia).
    + rewrite array_get_set_ne by done. destruct (array_get page (i / 4096)) as [pg|] eqn:Hpg; [|done].
      destruct (Z.eqb_spec pg 0); [done|]. destruct (Hother _ _ Hpg ltac:(done)) as (r & c & -> & Hrq & _).
      cbn [allocated phys]. rewrite phys_byte_cleared.
      destruct (Z.leb_spec (page_of q) (page_of r + i mod 4096)), (Z.ltb_spec (page_of r + i mod 4096) (page_of q + 4096)); try done.
      exfalso. apply Hrq. unfold page_of in *. lia.
Qed.

(** A byte is stored in the area. *)
Definition stored (a v : Z) (m : mm) : mm := m ⟪ phys := set_phys_byte a v (phys m) ⟫.
Lemma area_store m page p pg v :
  area_ok m page -> 0 <= p < AREA -> array_get page (p / 4096) = Some pg -> pg <> 0 ->
  area_ok (stored (pg + p mod 4096) v m) page /\
  forall i, area (stored (pg + p mod 4096) v m) page i = if i =? p then u8 v else area m page i.
Proof.
  intros [Hm Hl Hp Hd] Hpb Hpg Hne. split.
  - split; [|done|done|done]. destruct m. by apply wf_phys.
  - intros i. unfold area. pose proof (Z.mod_pos_bound i 4096 ltac:(lia)). pose proof (Z.mod_pos_bound p 4096 ltac:(lia)).
    pose proof (Z.div_mod i 4096 ltac:(lia)). pose proof (Z.div_mod p 4096 ltac:(lia)).
    destruct (Z.eqb_spec i p) as [->|Hip].
    + rewrite Hpg. destruct (Z.eqb_spec pg 0); [done|]. cbn [stored phys set_field]. by rewrite phys_byte_set, Z.eqb_refl.
    + destruct (array_get page (i / 4096)) as [pg'|] eqn:Hpg'; [|done]. destruct (Z.eqb_spec pg' 0); [done|].
      cbn [stored phys set_field]. rewrite phys_byte_set. destruct (Z.eqb_spec (pg + p mod 4096) (pg' + i mod 4096)) as [Heq|]; [|done].
      destruct (Hp _ _ Hpg Hne) as (q & _ & -> & _), (Hp _ _ Hpg' ltac:(done)) as (r & _ & -> & _).
      apply page_of_eq in Heq as [-> Heq]; [|lia|lia]. exfalso. apply Hip.
      pose proof (Hd _ _ _ Hpg Hpg' ltac:(done)). lia.
Qed.

(** ** One string *)

Definition with_km (m : mm) (s : kernel blk) : kernel blk := s ⟪ km := m ⟫.
Lemma with_km_id s : with_km (km s) s = s.
Proof. by destruct s. Qed.
Lemma on_km_run {A} (f : KM mm A) (s : kernel blk) m a m' :
  f m = Done a m' -> on_km f (with_km m s) = Done a (with_km m' s).
Proof. intros H. unfold on_km, zoom, with_km. cbn [km set_field]. by rewrite H. Qed.

(** The page in use is the one of [p], unless a new one is due. *)
Definition cached (d : dest) : Prop := 0 <= d_offset d /\
  (0 < d_offset d -> d_offset d = d_p d mod 4096 /\ d_pag d <> 0 /\ array_get (d_page d) (d_p d / 4096) = Some (d_pag d)).

Lemma next_page_run d m s : area_ok m (d_page d) -> cached d -> 0 < d_p d <= AREA -> exists o m',
  next_page (Dest (d_page d) (d_p d - 1) (d_offset d) (d_pag d)) (with_km m s) = Done o (with_km m' s) /\
  match o with
  | None => m' = m /\ exhausted m
  | Some d' => d_p d' = d_p d - 1 /\ d_offset d' = (d_p d - 1) mod 4096 /\ d_pag d' <> 0 /\
      array_get (d_page d') ((d_p d - 1) / 4096) = Some (d_pag d') /\
      area_ok m' (d_page d') /\ forall i, area m' (d_page d') i = area m (d_page d) i
  end.
Proof.
  intros Hok [Hoff Hc] Hp. set (p := d_p d - 1) in *. unfold next_page. cbn [d_offset d_p d_page d_pag].
  pose proof (Z.div_mod (d_p d) 4096 ltac:(lia)). pose proof (Z.mod_pos_bound (d_p d) 4096 ltac:(lia)).
  destruct (Z.ltb_spec (d_offset d - 1) 0) as [Hz|Hz].
  - pose proof (index_bound p ltac:(lia)) as Hi. change PAGE_SIZE with 4096.
    destruct (array_get_in_bounds (d_page d) (p / 4096)) as [pg Hpg]; [rewrite (ao_length _ _ Hok); lia|].
    unfold read_at. rewrite Hpg, run_deref. destruct (truth pg) eqn:Ht.
    + apply truth_true in Ht. eexists _, m. split; [reflexivity|]. cbn [d_p d_offset d_pag d_page]. done.
    + apply truth_false in Ht as ->. destruct (get_free_page_run m (ao_mm _ _ Hok)) as [[Hrun Hex]|(q & Hrun & Hq & Hfree & _)].
      * rewrite (run_bind _ _ _ _ _ (on_km_run _ s m _ _ Hrun)). exists None, m. done.
      * rewrite (run_bind _ _ _ _ _ (on_km_run _ s m _ _ Hrun)).
        assert (Hnz : page_of q <> 0) by (unfold page_of, LOW_MEM; lia). rewrite (proj2 (truth_true _) Hnz).
        destruct (area_alloc m (d_page d) (p / 4096) q Hok Hpg Hfree) as [Hok' Harea].
        eexists _, (allocated q m). split; [reflexivity|]. cbn [d_p d_offset d_pag d_page]. split_and!; try done.
        apply array_get_set_eq. by apply array_get_Some_bound in Hpg.
  - destruct (Hc ltac:(lia)) as (Ho & Hpag & Hget). eexists _, m. split; [reflexivity|]. cbn [d_p d_offset d_pag d_page].
    assert (Hpm : p / 4096 = d_p d / 4096 /\ p mod 4096 = d_offset d - 1).
    { split; [symmetry; apply (Z.div_unique _ _ _ (d_offset d - 1))|symmetry; apply (Z.mod_unique _ _ (d_p d / 4096))]; lia. }
    destruct Hpm as [-> ->]. done.
Qed.

Section strings.
Variables (b0 : Z) (s : kernel blk).
Hypothesis Hbase : user_base_is s b0.

Lemma with_km_get_fs_byte a m : get_fs_byte a (with_km m s) = Done (byte_at (user s) (b0 + a)) (with_km m s).
Proof using Hbase.
  assert (H : wp (get_fs_byte a) (fun v s' => v = byte_at (user s) (b0 + a) /\ s' = with_km m s) (with_km m s))
    by (by apply (wp_get_fs_byte b0)).
  apply wp_run in H as (v & s' & H & -> & ->). exact H.
Qed.

(** The bytes of the user's memory up to [tmp] go to the area up to
    [d_p d]. *)
Lemma copy_string_run argv len : forall tmp d m,
  area_ok m (d_page d) -> cached d -> Z.of_nat len <= d_p d <= AREA -> exists r m',
    copy_string (InUser argv) len tmp d (with_km m s) = Done r (with_km m' s) /\
    match r with
    | inl page => area_ok m' page /\ exhausted m'
    | inr d' => area_ok m' (d_page d') /\ cached d' /\ d_p d' = d_p d - Z.of_nat len /\
        forall i, 0 <= i < AREA -> area m' (d_page d') i =
          if (d_p d - Z.of_nat len <=? i) && (i <? d_p d) then u8 (byte_at (user s) (b0 + (tmp - (d_p d - i))))
          else area m (d_page d) i
    end.
Proof using Hbase.
  induction len as [|len IH]; intros tmp d m Hok Hc Hp.
  { exists (inr d), m. split; [done|]. split_and!; [done|done|lia|]. intros i Hi.
    destruct (Z.leb_spec (d_p d - Z.of_nat 0) i), (Z.ltb_spec i (d_p d)); (done || lia). }
  cbn [copy_string]. rewrite u32_small by (unfold AREA in *; lia).
  destruct (next_page_run d m s Hok Hc ltac:(lia)) as (o & m1 & Hrun & Ho). rewrite (run_bind _ _ _ _ _ Hrun).
  destruct o as [d1|]; [|destruct Ho as [-> Hex]; by exists (inl (d_page d)), m].
  destruct Ho as (Hp1 & Ho1 & Hpag & Hget & Hok1 & Harea).
  rewrite (run_bind _ _ _ _ _ (with_km_get_fs_byte (tmp - 1) m1)).
  set (v := byte_at (user s) (b0 + (tmp - 1))). set (m2 := stored (d_pag d1 + d_offset d1) v m1).
  assert (Hst : on_km (store_byte (d_pag d1 + d_offset d1) v) (with_km m1 s) = Done tt (with_km m2 s)) by (by apply on_km_run).
  rewrite (run_bind _ _ _ _ _ Hst).
  rewrite <- Hp1 in Hget. destruct (area_store m1 (d_page d1) (d_p d1) (d_pag d1) v Hok1 ltac:(unfold AREA in *; lia) Hget Hpag) as [Hok2 Harea2].
  rewrite Hp1, <- Ho1 in Hok2, Harea2. fold m2 in Hok2, Harea2.
  destruct (IH (tmp - 1) d1 m2 Hok2) as (r & m' & Hrun' & Hr).
  { split; [rewrite Ho1; apply Z.mod_pos_bound; lia|]. intros _. by rewrite Ho1, Hp1 in *. }
  { lia. }
  exists r, m'. split; [exact Hrun'|]. destruct r as [page|d']; [done|].
  destruct Hr as (H1 & H2 & H3 & H4). split_and!; [done|done|lia|]. intros i Hi. rewrite H4 by done. rewrite Harea2, Harea.
  destruct (Z.leb_spec (d_p d1 - Z.of_nat len) i), (Z.ltb_spec i (d_p d1)), (Z.eqb_spec i (d_p d - 1)),
    (Z.leb_spec (d_p d - Z.of_nat (S len)) i), (Z.ltb_spec i (d_p d)); cbn [andb]; try lia; try done.
  - do 3 f_equal. lia.
  - subst i. unfold v. do 3 f_equal. lia.
Qed.

(** ** All strings *)

(** A string of [n] characters at [tmp]. *)
Definition is_string (tmp n : Z) : Prop :=
  0 <= n /\ byte_at (user s) (b0 + (tmp + n)) = 0 /\ forall j, 0 <= j < n -> byte_at (user s) (b0 + (tmp + j)) <> 0.
Lemma string_length_run argv m fuel : forall tmp n len, is_string tmp n -> n < Z.of_nat fuel ->
  kloop fuel (fun '(len, tmp) => c ← string_byte (InUser argv) tmp;
    mret (if truth c then inl (len + 1, tmp + 1) else inr (len + 1, tmp + 1))) (len, tmp) (with_km m s) =
  Done (len + n + 1, tmp + n + 1) (with_km m s).
Proof using Hbase.
  induction fuel as [|fuel IH]; intros tmp n len (Hn & H0 & Hnz) Hf; [lia|]. rewrite kloop_S. cbn [string_byte].
  rewrite (run_bind _ _ _ _ _ (with_km_get_fs_byte tmp m)). destruct (decide (n = 0)) as [->|Hne].
  - rewrite !Z.add_0_r in *. by rewrite H0.
  - pose proof (Hnz 0 ltac:(lia)) as Hc. rewrite Z.add_0_r in Hc. rewrite (proj2 (truth_true _) Hc).
    transitivity (Done (len + 1 + (n - 1) + 1, tmp + 1 + (n - 1) + 1) (with_km m s)); [|do 2 f_equal; lia].
    apply (IH (tmp + 1) (n - 1) (len + 1)); [|lia]. split_and!; [lia|by replace (tmp + 1 + (n - 1)) with (tmp + n) by lia|].
    intros j Hj. replace (tmp + 1 + j) with (tmp + (j + 1)) by lia. apply Hnz. lia.
Qed.

Variables (argv : Z) (L : nat -> Z).
(** The pointer to string [k], and the length of the first [n] strings with
    their ends. *)
Definition arg_ptr (k : nat) : Z := long_at (user s) (b0 + u32 (argv + 4 * Z.of_nat k)).
Fixpoint total (n : nat) : Z := match n with O => 0 | S n => total n + L n + 1 end.

Lemma pointer_run k m : arg_ptr k <> 0 -> pointer (InUser argv) (Z.of_nat k) (with_km m s) = Done (Some (arg_ptr k)) (with_km m s).
Proof using Hbase.
  intros Hk. cbn [pointer].
  assert (H : get_fs_long (u32 (argv + 4 * Z.of_nat k)) (with_km m s) = Done (arg_ptr k) (with_km m s)).
  { assert (Hw : wp (get_fs_long (u32 (argv + 4 * Z.of_nat k))) (fun v s' => v = arg_ptr k /\ s' = with_km m s) (with_km m s)).
    { apply wp_bind. eapply wp_user_base; [exact Hbase|]. by apply wp_gets. }
    apply wp_run in Hw as (v & s' & H & -> & ->). exact H. }
  rewrite (run_bind _ _ _ _ _ H). by rewrite (proj2 (truth_true _) Hk).
Qed.

Variable fuel : nat.
(** What the caller has put there: [n] pointers to strings. *)
Definition args_ok (n : nat) : Prop :=
  forall k, (k < n)%nat -> arg_ptr k <> 0 /\ is_string (arg_ptr k) (L k) /\ L k < Z.of_nat fuel.
(** The strings lie in the area from [p] on, and what is above them has not
    changed. *)
Definition copied (n : nat) (m : mm) (page : list Z) (p : Z) (m' : mm) (page' : list Z) : Prop :=
  (forall k j, (k < n)%nat -> 0 <= j <= L k ->
     area m' page' (p - total n + total k + j) = u8 (byte_at (user s) (b0 + (arg_ptr k + j)))) /\
  (forall i, p <= i < AREA -> area m' page' i = area m page i).

Lemma total_mono k n : (k <= n)%nat -> (forall j, (j < n)%nat -> 0 <= L j) -> 0 <= total k <= total n.
Proof using Type.
  induction 1 as [|n Hle IH]; intros HL.
  - split; [|lia]. clear -HL. induction k as [|k IH]; cbn [total]; [lia|].
    pose proof (HL k ltac:(lia)). assert (0 <= total k) by (apply IH; intros; apply HL; lia). lia.
  - cbn [total]. pose proof (HL n ltac:(lia)). assert (0 <= total k <= total n) by (apply IH; intros; apply HL; lia). lia.
Qed.

Lemma copy_from_run n : forall d m,
  args_ok n -> area_ok m (d_page d) -> cached d -> total n <= d_p d <= AREA -> exists page' p' m',
    copy_from fuel (InUser argv) n d (with_km m s) = Done (page', p') (with_km m' s) /\ area_ok m' page' /\
    ((p' = d_p d - total n /\ copied n m (d_page d) (d_p d) m' page') \/ (p' = 0 /\ exhausted m')).
Proof using Hbase.
  induction n as [|n IH]; intros d m Hargs Hok Hc Hp.
  { exists (d_page d), (d_p d), m. split; [done|]. split; [done|]. left. cbn [total]. split; [lia|]. split; [intros; lia|done]. }
  destruct (Hargs n ltac:(lia)) as (Hptr & Hstr & HLf).
  assert (HL : forall j, (j < S n)%nat -> 0 <= L j) by (intros j Hj; by destruct (Hargs j Hj) as (_ & [? _] & _)).
  pose proof (HL n ltac:(lia)) as HLn. pose proof (total_mono 0 n ltac:(lia) ltac:(intros; apply HL; lia)) as Ht. cbn [total] in Hp, Ht.
  cbn [copy_from]. rewrite (run_bind _ _ _ _ _ (pointer_run n m Hptr)). cbv iota.
  unfold string_length. rewrite (run_bind _ _ _ _ _ (string_length_run argv m fuel (arg_ptr n) (L n) 0 Hstr HLf)). cbv iota beta.
  rewrite (u32_small (d_p d - _)), (proj2 (Z.ltb_ge _ _)) by (unfold AREA in *; lia).
  destruct (copy_string_run argv (Z.to_nat (0 + L n + 1)) (arg_ptr n + L n + 1) d m Hok Hc ltac:(lia)) as (r & m1 & Hrun & Hr).
  rewrite (run_bind _ _ _ _ _ Hrun). destruct r as [page|d1].
  { destruct Hr as [Hok1 Hex]. exists page, 0, m1. split; [done|]. split; [done|]. by right. }
  rewrite Z2Nat.id in Hr by lia. destruct Hr as (Hok1 & Hc1 & Hp1 & Harea1).
  destruct (IH d1 m1 ltac:(intros k Hk; apply Hargs; lia) Hok1 Hc1 ltac:(lia)) as (page' & p' & m' & Hrun' & Hok' & Hres).
  exists page', p', m'. split; [exact Hrun'|]. split; [done|]. destruct Hres as [[-> [Hcop Habove]]|Hres]; [left|by right].
  cbn [total]. split; [lia|]. split.
  - intros k j Hk Hj. cbn [total]. destruct (decide (k = n)) as [->|Hne].
    + rewrite Habove by (unfold AREA in *; lia). rewrite Harea1 by (unfold AREA in *; lia).
      destruct (Z.leb_spec (d_p d - (0 + L n + 1)) (d_p d - (total n + L n + 1) + total n + j)),
        (Z.ltb_spec (d_p d - (total n + L n + 1) + total n + j) (d_p d)); cbn [andb]; try lia.
      do 3 f_equal. lia.
    + rewrite <- (Hcop k j ltac:(lia) Hj). f_equal. lia.
  - intros i Hi. rewrite Habove by lia. rewrite Harea1 by lia.
    destruct (Z.leb_spec (d_p d - (0 + L n + 1)) i), (Z.ltb_spec i (d_p d)); (done || lia).
Qed.
End strings.

(** C11: [copy_strings] copies the arguments of a new program.  For [n]
    pointers of the caller to strings that fit below [p], it completes and
    changes nothing but physical memory: the strings lie in the argument
    pages one after the other, in the order of the array, their ends
    included, up to [p], which was moved down by their total length, and the
    area from [p] on is as before, in whatever pages it lies and wherever
    page boundaries fall; or the result is 0, and then no page is free.
    Either way every page of the area is in use and in one place only, so
    that it can be mapped or freed. *)
Theorem copy_strings_copies (fuel : nat) (b0 : Z) (s : kernel blk) (argv : Z) (L : nat -> Z) (n : nat) (page : list Z) (p : Z) :
  user_base_is s b0 -> args_ok b0 s argv L fuel n -> area_ok (km s) page -> total L n < p <= AREA ->
  wp (copy_strings fuel (Z.of_nat n) (InUser argv) page p) (fun r s' =>
    s' = with_km (km s') s /\ area_ok (km s') (fst r) /\
    ((snd r = p - total L n /\ copied b0 s argv L n (km s) page p (km s') (fst r)) \/ (snd r = 0 /\ exhausted (km s')))) s.
Proof.
  intros Hbase Hargs Hok Hp. apply wp_run. unfold copy_strings.
  assert (HL : forall j, (j < n)%nat -> 0 <= L j) by (intros j Hj; by destruct (Hargs j Hj) as (_ & [? _] & _)).
  pose proof (total_mono L 0 n ltac:(lia) HL) as Ht. cbn [total] in Ht.
  rewrite (proj2 (truth_true p)) by lia. cbn [negb]. rewrite Nat2Z.id.
  destruct (copy_from_run b0 s Hbase argv L fuel n (Dest page p 0 0) (km s) Hargs Hok) as (page' & p' & m' & Hrun & Hok' & Hres);
    [by split|cbn [d_p]; lia|].
  rewrite with_km_id in Hrun. by exists (page', p'), (with_km m' s).
Qed.

(** One argument, the string [hi] at 0x200, and an area without pages. *)
Definition demo_args : kernel blk :=
  Kernel (Sched (Some (INIT_TASK 0 0) :: replicate 63 None) 0 0 0 None false [] [] ∅)
    demo_mm 1 [] [] (Blk [] [] None None [] [] 0 0 [] [] (FsTables [] 0 [] 0)) []
    (set_long 0x100 0x200 (set_byte 0x200 104 (set_byte 0x201 105 ∅))).
Lemma copy_strings_copies_witness :
  wp (copy_strings 3 1 (InUser 0x100) (replicate 32 0) 131068) (fun r s' =>
    (snd r = 131065 /\ area (km s') (fst r) 131066 = 105) \/ (snd r = 0 /\ exhausted (km s'))) demo_args.
Proof.
  assert (Hbase : user_base_is demo_args 0) by (exists (INIT_TASK 0 0); eexists; split_and!; reflexivity).
  assert (Hargs : args_ok 0 demo_args 0x100 (fun _ => 2) 3 1).
  { intros k Hk. assert (k = 0%nat) as -> by lia. split; [vm_compute; discriminate|]. split; [|done].
    split; [done|]. split; [vm_compute; reflexivity|]. intros j Hj.
    assert (j = 0 \/ j = 1) as [-> | ->] by lia; vm_compute; discriminate. }
  assert (Hzero : forall k pg, array_get (replicate 32 0) k = Some pg -> pg = 0).
  { intros k pg. unfold array_get. destruct (0 <=? k); [|done]. by intros [H _]%lookup_replicate. }
  assert (Hok : area_ok (km demo_args) (replicate 32 0)).
  { split; [exact demo_mm_wf|done| |]; intros; exfalso; eauto. }
  eapply wp_mono; [exact (copy_strings_copies 3 0 demo_args 0x100 (fun _ => 2) 1 (replicate 32 0) 131068 Hbase Hargs Hok ltac:(vm_compute; done))|].
  intros [page' p'] s' (_ & _ & [[Hp [Hc _]]|Hex]); cbn [fst snd] in *; [left|by right].
  split; [by rewrite Hp|]. etransitivity; [exact (Hc 0%nat 1 ltac:(lia) ltac:(lia))|vm_compute; reflexivity].
Defined.
End Args.
