(* ===== verification/Tables.v ===== *)
(** * The stack of a new program ([create_tables] of [fs/exec.c])

    Below the argument strings, [create_tables] builds what a program finds
    on its stack: [argc], [argv], [envp] and the two arrays of pointers to
    the strings, each ended by a null pointer. *)

From S2P Require Import Prelude Memory Task Sched Kernel Files Signal FsData Block Buffer Cache Inode InodeOps Pipe PipeQueue FileRead Exec Args.

Module Tables.
Import FsData Block Cache InodeOps PipeQueue Exec Args.

(** The longwords from the stack pointer on, for strings that lie one after
    the other from [p] on. *)
Definition stack_image (L : nat -> Z) (p sp : Z) (argc envc : nat) : list Z :=
  [Z.of_nat argc; sp + 12; sp + 12 + 4 * (Z.of_nat argc + 1)] ++
  map (fun k => p + total L k) (seq 0 argc) ++ [0] ++
  map (fun k => p + total L k) (seq argc envc) ++ [0].

Lemma longs_at_lookup m l : forall a, (forall i v, l !! i = Some v -> long_at m (a + 4 * Z.of_nat i) = u32 v) -> longs_at m a l.
Proof.
  induction l as [|v l IH]; intros a H; [done|]. split.
  - rewrite <- (H 0%nat v eq_refl). f_equal. lia.
  - apply IH. intros i w Hi. rewrite <- (H (S i) w Hi). f_equal. lia.
Qed.

Section tables.
Variables (fuel : nat) (b0 : Z) (s : kernel blk) (L : nat -> Z) (p : Z) (argc envc : nat).
Hypothesis Hbase : user_base_is s b0.
Hypothesis Hp : 0 <= p.
(** The stack pointer. *)
Definition sp : Z := Z.land 0xfffffffc p - 4 * (Z.of_nat envc + 1) - 4 * (Z.of_nat argc + 1) - 12.
Hypothesis Hsp : 0 <= sp /\ 0 <= b0.
Hypothesis Hend : b0 + p + total L (argc + envc) < 4294967280.
Hypothesis Hstrings : forall k, (k < argc + envc)%nat -> is_string b0 s (p + total L k) (L k) /\ L k < Z.of_nat fuel.

Definition image : list Z := stack_image L p sp argc envc.
Lemma image_length : length image = (argc + envc + 5)%nat.
Proof. unfold image, stack_image. rewrite !length_app, !length_map, !length_seq. simpl. lia. Qed.
Lemma image_arg k : (k < argc)%nat -> image !! (3 + k)%nat = Some (p + total L k).
Proof.
  intros Hk. unfold image, stack_image. rewrite lookup_app_r by (simpl; lia). cbn [length]. replace (3 + k - 3)%nat with k by lia.
  rewrite lookup_app_l by (rewrite length_map, length_seq; lia). change (map ?f ?l) with (f <$> l). rewrite list_lookup_fmap.
  rewrite lookup_seq_lt by done. done.
Qed.
Lemma image_null : image !! (3 + argc)%nat = Some 0.
Proof.
  unfold image, stack_image. rewrite lookup_app_r by (simpl; lia). rewrite lookup_app_r by (rewrite length_map, length_seq; simpl; lia).
  rewrite length_map, length_seq. cbn [length]. by replace (3 + argc - 3 - argc)%nat with 0%nat by lia.
Qed.
Lemma image_env k : (k < envc)%nat -> image !! (4 + argc + k)%nat = Some (p + total L (argc + k)).
Proof.
  intros Hk. unfold image, stack_image. rewrite lookup_app_r by (simpl; lia). rewrite lookup_app_r by (rewrite length_map, length_seq; simpl; lia).
  rewrite length_map, length_seq. cbn [length]. rewrite lookup_app_r by (simpl; lia). cbn [length].
  replace (4 + argc + k - 3 - argc - 1)%nat with k by lia. rewrite lookup_app_l by (rewrite length_map, length_seq; lia).
  change (map ?f ?l) with (f <$> l). rewrite list_lookup_fmap. by rewrite lookup_seq_lt.
Qed.
Lemma image_end : image !! (4 + argc + envc)%nat = Some 0.
Proof.
  unfold image, stack_image. rewrite lookup_app_r by (simpl; lia). rewrite lookup_app_r by (rewrite length_map, length_seq; simpl; lia).
  rewrite length_map, length_seq. cbn [length]. rewrite lookup_app_r by (simpl; lia). cbn [length].
  replace (4 + argc + envc - 3 - argc - 1)%nat with envc by lia. rewrite lookup_app_r by (rewrite length_map, length_seq; lia).
  rewrite length_map, length_seq. by rewrite Nat.sub_diag.
Qed.

Lemma p_aligned : Z.land 0xfffffffc p <= p /\ sp + 4 * (Z.of_nat (argc + envc + 5)) = Z.land 0xfffffffc p.
Proof using Hp. 
  split; [by apply land_bound|unfold sp; lia].
Qed.

(** ** Filling the stack *)

(** The longwords in [D] are in place, and nothing else has changed. *)
Record filled (D : nat -> Prop) (m : gmap Z Z) : Prop := {
  fi_long : forall i v, D i -> image !! i = Some v -> long_at m (b0 + (sp + 4 * Z.of_nat i)) = u32 v;
  fi_byte : forall a, 0 <= a < 4294967296 -> a < b0 + sp \/ b0 + Z.land 0xfffffffc p <= a -> byte_at m a = byte_at (user s) a
}.
Lemma filled_none : filled (fun _ => False) (user s).
Proof using Type. by split. Qed.
Lemma total_below k : (k <= argc + envc)%nat -> 0 <= total L k <= total L (argc + envc).
Proof using Hstrings. intros Hk. apply total_mono; [done|]. intros j Hj. by destruct (Hstrings j Hj) as [[? _] _]. Qed.
Lemma range : 0 <= sp /\ 0 <= b0 /\ Z.land 0xfffffffc p <= p /\ b0 + p < 4294967280.
Proof using Hp Hsp Hend Hstrings.
  pose proof (total_below (argc + envc) ltac:(lia)). destruct p_aligned. lia.
Qed.

Lemma filled_put D m i v : filled D m -> image !! i = Some v ->
  put_fs_long v (sp + 4 * Z.of_nat i) (with_user m s) = Done tt (with_user (set_long (b0 + (sp + 4 * Z.of_nat i)) v m) s) /\
  filled (fun j => j = i \/ D j) (set_long (b0 + (sp + 4 * Z.of_nat i)) v m).
Proof using Hbase Hp Hsp Hend Hstrings.
  intros [Hl Hb] Hi. pose proof (lookup_lt_Some _ _ _ Hi) as Hlt. rewrite image_length in Hlt.
  pose proof range as Hr. destruct p_aligned as [_ Hal]. split.
  - assert (Hw : wp (put_fs_long v (sp + 4 * Z.of_nat i)) (fun _ s' => s' = with_user (set_long (b0 + (sp + 4 * Z.of_nat i)) v m) s) (with_user m s)).
    { apply wp_bind. eapply wp_user_base; [exact Hbase|]. by apply wp_modify. }
    apply wp_run in Hw as ([] & s' & H & ->). exact H.
  - split.
    + intros j w Hj Hw. pose proof (lookup_lt_Some _ _ _ Hw) as Hjlt. rewrite image_length in Hjlt.
      destruct (decide (j = i)) as [->|Hne].
      * rewrite Hi in Hw. injection Hw as <-. apply long_at_set_eq.
      * destruct Hj as [?|Hj]; [done|]. rewrite long_at_set_ne by lia. by apply Hl.
    + intros a Ha Hout. unfold set_long.
      rewrite !byte_at_set_ne by (apply u32_distinct; lia). by apply Hb.
Qed.

(** The strings can be read all the time. *)
Lemma filled_string D m k : filled D m -> (k < argc + envc)%nat -> is_string b0 (with_user m s) (p + total L k) (L k).
Proof using Hp Hsp Hend Hstrings.
  intros Hf Hk. destruct (Hstrings k Hk) as [(HL & H0 & Hnz) _]. pose proof range as Hr.
  pose proof (total_below (S k) ltac:(lia)) as Ht. pose proof (total_below k ltac:(lia)) as Ht0. cbn [total] in Ht.
  assert (Hsame : forall j, 0 <= j <= L k -> byte_at m (b0 + (p + total L k + j)) = byte_at (user s) (b0 + (p + total L k + j))).
  { intros j Hj. apply (fi_byte _ _ Hf); lia. }
  split; [done|]. change (user (with_user m s)) with m. split; [by rewrite Hsame by lia|].
  intros j Hj. rewrite Hsame by lia. by apply Hnz.
Qed.
Lemma skip_string_run m n fu : forall q, is_string b0 (with_user m s) q n -> n < Z.of_nat fu -> 0 <= q -> q + n + 1 < 4294967296 ->
  skip_string fu q (with_user m s) = Done (q + n + 1) (with_user m s).
Proof using Hbase.
  revert n. unfold skip_string. induction fu as [|fu IH]; intros n q (Hn & H0 & Hnz) Hf Hq Hqn; [lia|]. rewrite kloop_S.
  change (user (with_user m s)) with m in *.
  assert (Hget : get_fs_byte q (with_user m s) = Done (byte_at m (b0 + q)) (with_user m s)).
  { pose proof (with_km_get_fs_byte b0 (with_user m s) Hbase q (km s)) as H. exact H. }
  rewrite (run_bind _ _ _ _ _ Hget). destruct (decide (n = 0)) as [->|Hne].
  - rewrite !Z.add_0_r in *. rewrite H0. change (truth 0) with false. cbv iota. by rewrite u32_small by lia.
  - pose proof (Hnz 0 ltac:(lia)) as Hc. rewrite Z.add_0_r in Hc. rewrite (proj2 (truth_true _) Hc).
    transitivity (Done (q + 1 + (n - 1) + 1) (with_user m s)); [|f_equal; lia]. rewrite (u32_small (q + 1)) by lia.
    apply (IH (n - 1) (q + 1)); [|lia|lia|lia]. split_and!; [lia|change (user (with_user m s)) with m; by replace (q + 1 + (n - 1)) with (q + n) by lia|].
    intros j Hj. change (user (with_user m s)) with m. replace (q + 1 + j) with (q + (j + 1)) by lia. apply Hnz. lia.
Qed.

(** The pointers to strings [o], ..., stored from longword [i] on. *)
Lemma put_pointers_run n : forall o i D m, filled D m -> (o + n <= argc + envc)%nat ->
  (forall k, (k < n)%nat -> image !! (i + k)%nat = Some (p + total L (o + k))) -> exists m',
  put_pointers fuel n (p + total L o) (sp + 4 * Z.of_nat i) (with_user m s) =
    Done (p + total L (o + n), sp + 4 * Z.of_nat (i + n)) (with_user m' s) /\
  filled (fun j => (i <= j < i + n)%nat \/ D j) m'.
Proof using Hbase Hp Hsp Hend Hstrings.
  induction n as [|n IH]; intros o i D m Hf Hon Himg.
  { exists m. rewrite !Nat.add_0_r. split; [done|]. destruct Hf as [Hl Hb]. split; [|done]. intros j v [?|Hj]; [lia|by apply Hl]. }
  pose proof range as Hr. destruct p_aligned as [_ Hal].
  pose proof (Himg 0%nat ltac:(lia)) as H0. rewrite !Nat.add_0_r in H0.
  pose proof (lookup_lt_Some _ _ _ H0) as Hlt. rewrite image_length in Hlt.
  destruct (filled_put D m i _ Hf H0) as [Hput Hf1]. cbn [put_pointers]. rewrite (run_bind _ _ _ _ _ Hput).
  destruct (Hstrings o ltac:(lia)) as [[HL _] HLf]. pose proof (total_below (S o) ltac:(lia)) as Ht. cbn [total] in Ht.
  pose proof (total_below o ltac:(lia)).
  rewrite (run_bind _ _ _ _ _ (skip_string_run _ (L o) fuel _ (filled_string _ _ o Hf1 ltac:(lia)) HLf ltac:(lia) ltac:(lia))).
  rewrite (u32_small (sp + 4 * Z.of_nat i + 4)) by lia.
  destruct (IH (S o) (S i) _ _ Hf1 ltac:(lia)) as (m' & Hrun & Hf').
  { intros k Hk. replace (S i + k)%nat with (i + S k)%nat by lia. replace (S o + k)%nat with (o + S k)%nat by lia. apply Himg. lia. }
  exists m'. split.
  - replace (o + S n)%nat with (S o + n)%nat by lia. replace (i + S n)%nat with (S i + n)%nat by lia.
    rewrite <- Hrun. cbn [total]. f_equal; [lia|lia].
  - destruct Hf' as [Hl Hb]. split; [|done]. intros j v Hj. apply Hl. destruct Hj as [Hj|Hj]; [|tauto].
    destruct (decide (j = i)) as [->|]; [tauto|left; lia].
Qed.

(** C6: [create_tables] builds the stack of a new program.  For [argc] and
    then [envc] strings that lie one after the other from [p] on, it
    completes and returns an aligned stack pointer, from which on the
    memory holds [argc], the addresses of the two arrays, the pointers to
    the argument strings, a null pointer, the pointers to the environment's
    strings, and a null pointer; the strings, and everything else above the
    arrays and below the stack pointer, are as before, and so is the rest
    of the state. *)
Theorem create_tables_builds :
  wp (create_tables fuel p (Z.of_nat argc) (Z.of_nat envc)) (fun r s' =>
    r = sp /\ r mod 4 = 0 /\ s' = with_user (user s') s /\
    longs_at (user s') (b0 + r) (stack_image L p r argc envc) /\
    (forall a, 0 <= a < 4294967296 -> a < b0 + r \/ b0 + r + 4 * Z.of_nat (argc + envc + 5) <= a ->
       byte_at (user s') a = byte_at (user s) a)) s.
Proof using Hbase Hp Hsp Hend Hstrings.
  apply wp_run. pose proof range as Hr. destruct p_aligned as [_ Hal].
  unfold create_tables. cbv zeta. set (argv := sp + 12). set (envp := argv + 4 * (Z.of_nat argc + 1)).
  assert (He : u32 (Z.land 0xfffffffc p - 4 * (Z.of_nat envc + 1)) = envp) by (rewrite u32_small; unfold envp, argv, sp in *; lia).
  assert (Ha : u32 (envp - 4 * (Z.of_nat argc + 1)) = argv) by (rewrite u32_small; unfold envp, argv in *; lia).
  rewrite He, Ha. rewrite !u32_small by (unfold argv; lia).
  replace (argv - 4) with (sp + 4 * Z.of_nat 2) by (unfold argv; lia). replace (argv - 8) with (sp + 4 * Z.of_nat 1) by (unfold argv; lia).
  replace (argv - 12) with (sp + 4 * Z.of_nat 0) by (unfold argv; lia).
  assert (Hs : s = with_user (user s) s) by (by destruct s).
  destruct (filled_put _ _ 2 envp filled_none eq_refl) as [Hp2 Hf2]. rewrite <- Hs in Hp2. rewrite (run_bind _ _ _ _ _ Hp2).
  destruct (filled_put _ _ 1 argv Hf2 eq_refl) as [Hp1 Hf1]. rewrite (run_bind _ _ _ _ _ Hp1).
  destruct (filled_put _ _ 0 (Z.of_nat argc) Hf1 eq_refl) as [Hp0 Hf0]. rewrite (run_bind _ _ _ _ _ Hp0).
  rewrite !Nat2Z.id.
  destruct (put_pointers_run argc 0 3 _ _ Hf0 ltac:(lia)) as (m3 & Hrun3 & Hf3); [intros k Hk; by apply image_arg|].
  cbn [total] in Hrun3. rewrite Z.add_0_r in Hrun3. change (sp + 4 * Z.of_nat 3) with argv in Hrun3.
  rewrite (run_bind _ _ _ _ _ Hrun3). cbv iota beta.
  destruct (filled_put _ _ _ 0 Hf3 image_null) as [Hp3 Hf4]. rewrite (run_bind _ _ _ _ _ Hp3).
  replace envp with (sp + 4 * Z.of_nat (4 + argc)) by (unfold envp, argv; lia).
  destruct (put_pointers_run envc argc (4 + argc) _ _ Hf4 ltac:(lia)) as (m5 & Hrun5 & Hf5); [intros k Hk; by apply image_env|].
  rewrite (run_bind _ _ _ _ _ Hrun5). cbn [snd].
  destruct (filled_put _ _ _ 0 Hf5 image_end) as [Hp6 Hf6]. rewrite (run_bind _ _ _ _ _ Hp6).
  eexists _, _. split; [reflexivity|]. change (Z.of_nat 0) with 0. rewrite Z.mul_0_r, Z.add_0_r. split_and!; [done| |done| |].
  - unfold sp. replace (_ - 12) with (Z.land 0xfffffffc p + - (Z.of_nat envc + Z.of_nat argc + 5) * 4) by lia.
    rewrite Z.mod_add by lia. change 4 with (2 ^ 2). rewrite <- Z.land_ones, <- Z.land_assoc, (Z.land_comm p), Z.land_assoc by lia. done.
  - apply longs_at_lookup. intros i v Hi. rewrite <- Z.add_assoc. apply (fi_long _ _ Hf6); [|exact Hi].
    pose proof (lookup_lt_Some _ _ _ Hi) as Hlt. fold image in Hlt. rewrite image_length in Hlt. lia.
  - intros a Hab Hout. apply (fi_byte _ _ Hf6); [done|]. rewrite <- Hal. lia.
Qed.
End tables.

(** Two arguments, [a] and [b], and one string of the environment, [c]. *)
Definition demo_tables : kernel blk :=
  Kernel (Sched (Some (INIT_TASK 0 0) :: replicate 63 None) 0 0 0 None false [] [] ∅)
    (MM [] 0 ∅) 1 [] [] (Blk [] [] None None [] [] 0 0 [] [] (FsTables [] 0 [] 0)) []
    (set_byte 0x202 97 (set_byte 0x204 98 (set_byte 0x206 99 ∅))).
Lemma create_tables_builds_witness :
  wp (create_tables 2 0x202 2 1) (fun r s' => r = 0x1E0 /\
    longs_at (user s') r [2; 0x1EC; 0x1F8; 0x202; 0x204; 0; 0x206; 0]) demo_tables.
Proof.
  assert (Hbase : user_base_is demo_tables 0) by (exists (INIT_TASK 0 0); eexists; split_and!; reflexivity).
  eapply wp_mono.
  { refine (create_tables_builds 2 0 demo_tables (fun _ => 1) 0x202 2 1 Hbase ltac:(lia) _ _ _); [vm_compute; split; discriminate|vm_compute; reflexivity|].
    intros k Hk. split; [|lia]. split; [lia|].
    destruct k as [|[|[|k]]]; [..|lia]; (split; [vm_compute; reflexivity|]); intros j Hj; assert (j = 0) as -> by lia; vm_compute; discriminate. }
  intros r s' (-> & _ & _ & Hl & _). split; [reflexivity|exact Hl].
Defined.
End Tables.
