(* ===== verification/RdLoad.v ===== *)
(** * Loading the ramdisk ([rd_load] of [kernel/blk_drv/ramdisk.c])

    At boot the image of the root file system is copied, block by block,
    from block 256 of the floppy to the memory of the ramdisk, which then
    becomes the root device. *)

From S2P Require Import Prelude FsData Block Buffer Inode.

Module RdLoad.
Import FsData Block Buffer Inode.

Section load.
Context {W : Sleeps} {V : Drivers} {Y : InodeSync}.
Variable fuel : nat.

(** [memcpy] of a block to the memory of the ramdisk, [cp] bytes from its
    start. *)
Definition copy_to_ramdisk (cp b : Z) : KM blk unit :=
  h ← get_buf b;
  m ← gets rd_mem;
  if Z.of_nat (length m) <? cp + 1024 then fault
  else modify (fun s => s ⟪ rd_mem := take (Z.to_nat cp) m ++ take 1024 (b_data h) ++ drop (Z.to_nat cp + 1024) m ⟫).

(** One turn of the loop, with [nblocks], [block], [cp] from the start of
    the ramdisk, and [i]: the result is false when the load is aborted. *)
Definition load_turn : Z * Z * Z * Z -> KM blk (Z * Z * Z * Z + bool) := fun '(nblocks, block, cp, i) =>
  if negb (truth nblocks) then mret (inr true)
  else
    d ← gets fsd;
    o ← (if 2 <? nblocks then breada fuel (ROOT_DEV d) block [block + 1; block + 2; -1]
         else bread fuel (ROOT_DEV d) block);
    match o with
    | None => printk "I/O error on block %d, aborting load" [block] ;; mret (inr false)
    | Some b =>
        copy_to_ramdisk cp b ;;
        brelse fuel (Some b) ;;
        printk "%4dk" [i] ;;
        mret (inl (nblocks - 1, block + 1, cp + BLOCK_SIZE, i + 1))
    end.

(** The fields read are those of [get_d_super]; the processor takes the count
    of a shift modulo 32. *)
Definition rd_load : KM blk unit :=
  let block := 256 in
  rd_length ← gets rd_length; rd_start ← gets rd_start;
  if negb (truth rd_length) then mret tt
  else
    printk "Ram disk: %d bytes, starting at 0x%x" [rd_length; rd_start] ;;
    d ← gets fsd;
    if negb (MAJOR (ROOT_DEV d) =? 2) then mret tt
    else
      o ← breada fuel (ROOT_DEV d) (block + 1) [block; block + 2; -1];
      match o with
      | None => printk "Disk error while looking for ramdisk!" []
      | Some b =>
          h ← get_buf b;
          let magic := get16 (b_data h) 16 in
          let nzones := get16 (b_data h) 2 in
          let log_zone_size := get16 (b_data h) 10 in
          brelse fuel (Some b) ;;
          if negb (magic =? SUPER_MAGIC) then mret tt
          else
            let nblocks := s32 (Z.shiftl nzones (Z.land log_zone_size 31)) in
            if Z.shiftr rd_length 10 <? nblocks then
              printk "Ram disk image too big!  (%d blocks, %d avail)" [nblocks; Z.shiftr rd_length 10]
            else
              printk "Loading %d bytes into ram disk... 0000k" [Z.shiftl nblocks 10] ;;
              ok ← kloop (S (Z.to_nat nblocks)) load_turn (nblocks, block, 0, 1);
              kwhen ok
                (printk "done" [] ;;
                 modify (fun s => s ⟪ fsd := (fsd s) ⟪ ROOT_DEV := 0x0101 ⟫ ⟫))
      end.
End load.
End RdLoad.
