(* ===== verification/Hd.v ===== *)
(** * The hard disk driver ([kernel/blk_drv/hd.c], [linux/hdreg.h])

    A request is started by [do_hd_request], and each sector is moved by the
    interrupt that the controller raises for it: [do_hd] holds the handler
    of the next one.  What the controller answers is a parameter
    ([Ports.Device]); the words of a sector are read and written through
    its data port one by one.  Messages are recorded with the block
    layer's. *)

From S2P Require Import Prelude Ports FsData Block Buffer Inode RdLoad.

Module Hd.
Import FsData Block Buffer Inode RdLoad.

Definition MAJOR_NR : Z := 3.
Definition MAX_ERRORS : Z := 7.
Definition HD_DATA : Z := 0x1f0.
Definition HD_ERROR : Z := 0x1f1.
Definition HD_STATUS : Z := 0x1f7.
Definition HD_CMD : Z := 0x3f6.
Definition ERR_STAT : Z := 0x01.
Definition DRQ_STAT : Z := 0x08.
Definition SEEK_STAT : Z := 0x10.
Definition WRERR_STAT : Z := 0x20.
Definition READY_STAT : Z := 0x40.
Definition BUSY_STAT : Z := 0x80.
Definition WIN_RESTORE : Z := 0x10.
Definition WIN_READ : Z := 0x20.
Definition WIN_WRITE : Z := 0x30.
Definition WIN_SPECIFY : Z := 0x91.

Record hd_i_struct : Type := HdInfo { hd_head : Z; hd_sect : Z; hd_cyl : Z; hd_wpcom : Z; hd_lzone : Z; hd_ctl : Z }.
Record hd_struct : Type := HdPart { start_sect : Z; nr_sects : Z }.

(** What [do_hd] can point to. *)
Inductive hd_handler : Type := Read_intr | Write_intr | Recal_intr.

(** [null_errors] is the longword that [NULL->errors] designates. *)
Record hd_state : Type := HdState {
  hblk : blk;
  hports : list io_event;
  recalibrate : Z; reset : Z;
  hd_info : list hd_i_struct; NR_HD : Z;
  hd : list hd_struct;
  do_hd : option hd_handler;
  callable : Z;
  null_errors : Z
}.
#[export] Instance hd_rebuild : Rebuild hd_state := fun s =>
  HdState (hblk s) (hports s) (recalibrate s) (reset s) (hd_info s) (NR_HD s) (hd s) (do_hd s) (callable s) (null_errors s).
#[export] Instance hd_ports : HasPorts hd_state := { ports := hports; set_ports l s := s ⟪ hports := l ⟫ }.

Definition on_b {A} (m : KM blk A) : KM hd_state A := zoom hblk (fun b s => s ⟪ hblk := b ⟫) m.
Definition out (value port : Z) : KM hd_state unit := modify (outb value port).
Definition set_do_hd (h : hd_handler) : KM hd_state unit := modify (fun s => s ⟪ do_hd := Some h ⟫).

(** [CURRENT] *)
Definition hd_current : KM hd_state (option Z) := d ← on_b (get_dev MAJOR_NR); mret (current_request d).
Definition the_current : KM hd_state Z := o ← hd_current; deref o.
Definition end_request : Z -> KM hd_state unit := fun uptodate => on_b (Block.end_request MAJOR_NR "harddisk" uptodate).

Section hd.
Context {D : Device}.
Definition inp (port : Z) : KM hd_state Z := fun s => let '(v, s) := inb port s in Done v s.

(** [rep;insw] and [rep;outsw] of 256 words, between the data port and
    [CURRENT->buffer]. *)
Definition inw (port : Z) : KM hd_state Z := fun s =>
  let v := u16 (port_value (hports s) port) in Done v (s ⟪ hports := In port v :: hports s ⟫).
Definition outw (v port : Z) : KM hd_state unit := modify (fun s => s ⟪ hports := Out (u16 v) port :: hports s ⟫).
(** A word of the data of a buffer, its low byte first. *)
Definition put_word (off v : Z) (l : list Z) : list Z :=
  array_set (array_set l off (v mod 256)) (off + 1) (v / 256).
Definition port_read (port : Z) : KM hd_state unit :=
  cur ← the_current; r ← on_b (get_req cur);
  kfor (upto 256) (fun k =>
    v ← inw port;
    h ← on_b (get_buf (buffer r));
    if Z.of_nat (length (b_data h)) <? buf_off r + 2 * k + 2 then fault
    else on_b (upd_buf (buffer r) (fun h => h ⟪ b_data := put_word (buf_off r + 2 * k) v (b_data h) ⟫))).
Definition port_write (port : Z) : KM hd_state unit :=
  cur ← the_current; r ← on_b (get_req cur);
  kfor (upto 256) (fun k =>
    h ← on_b (get_buf (buffer r));
    lo ← read_at (b_data h) (buf_off r + 2 * k); hi ← read_at (b_data h) (buf_off r + 2 * k + 1);
    outw (lo + 256 * hi) port).

(** [while (--retries && (inb_p(HD_STATUS)&0xc0)!=0x40);] for
    [retries = S n]: the value left in [retries]. *)
Fixpoint wait_ready (n : nat) : KM hd_state Z :=
  match n with
  | O => mret 0
  | S n' =>
      v ← inp HD_STATUS;
      if Z.land v 0xc0 =? 0x40 then mret (Z.of_nat n) else wait_ready n'
  end.
Definition controller_ready : KM hd_state Z := wait_ready 9999.

Definition win_result : KM hd_state Z :=
  i ← inp HD_STATUS;
  if Z.land i (Z.lor BUSY_STAT (Z.lor READY_STAT (Z.lor WRERR_STAT (Z.lor SEEK_STAT ERR_STAT)))) =? Z.lor READY_STAT SEEK_STAT
  then mret 0
  else kwhen (truth (Z.land i 1)) (_ ← inp HD_ERROR; mret tt) ;; mret 1.

Definition hd_out (drive nsect sect head cyl cmd : Z) (intr_addr : hd_handler) : KM hd_state unit :=
  if (1 <? drive) || (15 <? head) then panic "Trying to write bad sector"
  else
    r ← controller_ready;
    if negb (truth r) then panic "HD controller not ready"
    else
      set_do_hd intr_addr ;;
      l ← gets hd_info; x ← read_at l drive;
      out (hd_ctl x) HD_CMD ;;
      out (Z.shiftr (hd_wpcom x) 2) (HD_DATA + 1) ;;
      out nsect (HD_DATA + 2) ;;
      out sect (HD_DATA + 3) ;;
      out cyl (HD_DATA + 4) ;;
      out (Z.shiftr cyl 8) (HD_DATA + 5) ;;
      out (Z.lor (Z.lor 0xA0 (Z.shiftl drive 4)) head) (HD_DATA + 6) ;;
      out cmd (HD_DATA + 7).

(** [for (i = 0; i < 10000; i++)] of [drive_busy]. *)
Fixpoint wait_drive (n : nat) : KM hd_state unit :=
  match n with
  | O => mret tt
  | S n =>
      v ← inp HD_STATUS;
      if READY_STAT =? Z.land v (Z.lor BUSY_STAT READY_STAT) then mret tt else wait_drive n
  end.
(** The test is [(i == READY_STAT) | SEEK_STAT]. *)
Definition drive_busy : KM hd_state Z :=
  wait_drive 10000 ;;
  i ← inp HD_STATUS;
  let i := Z.land i (Z.lor BUSY_STAT (Z.lor READY_STAT SEEK_STAT)) in
  if truth (Z.lor (cbool (i =? READY_STAT)) SEEK_STAT) then mret 0
  else on_b (printk "HD controller times out" []) ;; mret 1.

Definition reset_controller : KM hd_state unit :=
  out 4 HD_CMD ;;
  l ← gets hd_info; x ← read_at l 0;
  out (Z.land (hd_ctl x) 0x0f) HD_CMD ;;
  b ← drive_busy;
  kwhen (truth b) (on_b (printk "HD-controller still busy" [])) ;;
  i ← inp HD_ERROR;
  kwhen (negb (i =? 1)) (on_b (printk "HD-controller reset failed: %02x" [i])).

Definition reset_hd (nr : Z) : KM hd_state unit :=
  reset_controller ;;
  l ← gets hd_info; x ← read_at l nr;
  hd_out nr (hd_sect x) (hd_sect x) (u32 (hd_head x - 1)) (hd_cyl x) WIN_SPECIFY Recal_intr.

Definition unexpected_hd_interrupt : KM hd_state unit := on_b (printk "Unexpected HD interrupt" []).

(** After [end_request], [CURRENT] is the next request, or [NULL]. *)
Definition bad_rw_intr : KM hd_state unit :=
  cur ← the_current;
  on_b (upd_req cur (fun r => r ⟪ errors := errors r + 1 ⟫)) ;;
  r ← on_b (get_req cur);
  kwhen (MAX_ERRORS <=? errors r) (end_request 0) ;;
  o ← hd_current;
  e ← match o with
      | Some cur => r ← on_b (get_req cur); mret (errors r)
      | None => gets null_errors
      end;
  kwhen (MAX_ERRORS / 2 <? e) (modify (fun s => s ⟪ reset := 1 ⟫)).

(** [for(i=0 ; i<3000 && !(r=inb_p(HD_STATUS)&DRQ_STAT) ; i++)] *)
Fixpoint wait_drq (n : nat) : KM hd_state Z :=
  match n with
  | O => mret 0
  | S n => v ← inp HD_STATUS; if truth (Z.land v DRQ_STAT) then mret (Z.land v DRQ_STAT) else wait_drq n
  end.

(** [divl]: the quotient and the remainder; dividing by zero traps. *)
Definition divl (a b : Z) : KM hd_state (Z * Z) := if b =? 0 then fault else mret (a / b, a mod b).

(** One turn of [do_hd_request], whose label [repeat] is in
    [INIT_REQUEST]. *)
Definition do_hd_request_turn (_ : unit) : KM hd_state (unit + unit) :=
  o ← on_b (INIT_REQUEST MAJOR_NR "harddisk");
  match o with
  | None => mret (inr tt)
  | Some cur =>
      r ← on_b (get_req cur);
      let dev := MINOR (Block.dev r) in
      let block := sector r in
      n ← gets NR_HD;
      l ← gets hd;
      out_of_range ← (if u32 (5 * n) <=? dev then mret true
                      else p ← read_at l dev; mret (u32 (nr_sects p) <? u32 (block + 2)));
      if out_of_range : bool then end_request 0 ;; mret (inl tt)
      else
        p ← read_at l dev;
        let block := u32 (block + start_sect p) in
        let dev := dev / 5 in
        infos ← gets hd_info; x ← read_at infos dev;
        q ← divl block (hd_sect x);
        let '(block, sec) := q in
        q ← divl block (hd_head x);
        let '(cyl, head) := q in
        let sec := sec + 1 in
        let nsect := nr_sectors r in
        rst ← gets reset; rec ← gets recalibrate;
        if truth rst then
          modify (fun s => s ⟪ reset := 0 ⟫ ⟪ recalibrate := 1 ⟫) ;;
          reset_hd (MINOR (Block.dev r) / 5) ;; mret (inr tt)
        else if truth rec then
          modify (fun s => s ⟪ recalibrate := 0 ⟫) ;;
          hd_out dev (hd_sect x) 0 0 0 WIN_RESTORE Recal_intr ;; mret (inr tt)
        else if cmd r =? WRITE then
          hd_out dev nsect sec head cyl WIN_WRITE Write_intr ;;
          drq ← wait_drq 3000;
          if negb (truth drq) then bad_rw_intr ;; mret (inl tt)
          else port_write HD_DATA ;; mret (inr tt)
        else if cmd r =? READ then
          hd_out dev nsect sec head cyl WIN_READ Read_intr ;; mret (inr tt)
        else panic "unknown hd-command"
  end.

(** The turns: a request leaves the queue after at most eight, and at most
    32 are queued. *)
Definition do_hd_request : KM hd_state unit := kloop 300 do_hd_request_turn tt.

(** [CURRENT->buffer += 512] and so on are on the request that is
    current. *)
Definition upd_current (f : request -> request) : KM hd_state unit :=
  cur ← the_current; on_b (upd_req cur f).
Definition read_intr : KM hd_state unit :=
  w ← win_result;
  if truth w then bad_rw_intr ;; do_hd_request
  else
    port_read HD_DATA ;;
    upd_current (fun r => r ⟪ errors := 0 ⟫ ⟪ buf_off := buf_off r + 512 ⟫ ⟪ sector := u32 (sector r + 1) ⟫
                            ⟪ nr_sectors := u32 (nr_sectors r - 1) ⟫) ;;
    cur ← the_current; r ← on_b (get_req cur);
    if truth (nr_sectors r) then set_do_hd Read_intr
    else end_request 1 ;; do_hd_request.

Definition write_intr : KM hd_state unit :=
  w ← win_result;
  if truth w then bad_rw_intr ;; do_hd_request
  else
    upd_current (fun r => r ⟪ nr_sectors := u32 (nr_sectors r - 1) ⟫) ;;
    cur ← the_current; r ← on_b (get_req cur);
    if truth (nr_sectors r) then
      upd_current (fun r => r ⟪ sector := u32 (sector r + 1) ⟫ ⟪ buf_off := buf_off r + 512 ⟫) ;;
      set_do_hd Write_intr ;;
      port_write HD_DATA
    else end_request 1 ;; do_hd_request.

Definition recal_intr : KM hd_state unit :=
  w ← win_result; kwhen (truth w) bad_rw_intr ;; do_hd_request.

(** [hd_interrupt] of [kernel/system_call.s] takes the handler. *)
Definition hd_interrupt : KM hd_state unit :=
  h ← gets do_hd;
  modify (fun s => s ⟪ do_hd := None ⟫) ;;
  match h with
  | None => unexpected_hd_interrupt
  | Some Read_intr => read_intr
  | Some Write_intr => write_intr
  | Some Recal_intr => recal_intr
  end.

Definition hd_init : KM hd_state unit :=
  on_b (upd_dev MAJOR_NR (fun d => d ⟪ request_fn := true ⟫)) ;;
  v ← inp 0x21; out (Z.land v 0xfb) 0x21 ;;
  v ← inp 0xA1; out (Z.land v 0xbf) 0xA1.

(** ** [sys_setup] *)

Context {W : Sleeps} {V : Drivers} {Y : InodeSync}.
Variable fuel : nat.

Definition CMOS_READ (addr : Z) : KM hd_state Z := out (Z.lor 0x80 addr) 0x70 ;; inp 0x71.
(** An entry of the BIOS's table of drives. *)
Definition bios_info (BIOS : list Z) (o : Z) : hd_i_struct :=
  HdInfo (get8 BIOS (o + 2)) (get8 BIOS (o + 14)) (get16 BIOS o) (get16 BIOS (o + 5)) (get16 BIOS (o + 12)) (get8 BIOS (o + 8)).
Definition set_part (i : Z) (p : hd_struct) : KM hd_state unit := modify (fun s => s ⟪ hd := array_set (hd s) i p ⟫).

(** The partition table of a drive, at 0x1BE in its first block. *)
Definition read_partitions (drive : Z) : KM hd_state unit :=
  o ← on_b (bread fuel (0x300 + drive * 5) 0);
  match o with
  | None => on_b (printk "Unable to read partition table of drive %d" [drive]) ;; panic ""
  | Some b =>
      h ← on_b (get_buf b);
      if negb (get8 (b_data h) 510 =? 0x55) || negb (get8 (b_data h) 511 =? 0xAA) then
        on_b (printk "Bad partition table on drive %d" [drive]) ;; panic ""
      else
        kfor (seqZ 1 4) (fun i =>
          let p := 0x1BE + 16 * (i - 1) in
          set_part (i + 5 * drive) (HdPart (s32 (get32 (b_data h) (p + 8))) (s32 (get32 (b_data h) (p + 12))))) ;;
        on_b (brelse fuel (Some b))
  end.

(** The call of [mount_root] at the end is left to the caller: it works on
    the terminals' state (Super). *)
Definition sys_setup (BIOS : list Z) : KM hd_state Z :=
  c ← gets callable;
  if negb (truth c) then mret (-1)
  else
    modify (fun s => s ⟪ callable := 0 ⟫) ;;
    modify (fun s => s ⟪ hd_info := [bios_info BIOS 0; bios_info BIOS 16] ⟫) ;;
    modify (fun s => s ⟪ NR_HD := if truth (hd_cyl (bios_info BIOS 16)) then 2 else 1 ⟫) ;;
    n ← gets NR_HD;
    kfor (upto n) (fun i =>
      l ← gets hd_info; x ← read_at l i;
      set_part (i * 5) (HdPart 0 (s32 (hd_head x * hd_sect x * hd_cyl x)))) ;;
    cmos_disks ← CMOS_READ 0x12;
    let n := if truth (Z.land cmos_disks 0xf0) then (if truth (Z.land cmos_disks 0x0f) then 2 else 1) else 0 in
    modify (fun s => s ⟪ NR_HD := n ⟫) ;;
    kfor (seqZ n (2 - n)) (fun i => set_part (i * 5) (HdPart 0 0)) ;;
    kfor (upto n) read_partitions ;;
    kwhen (truth n) (on_b (printk "Partition table%s ok." [cbool (1 <? n)])) ;;
    on_b (rd_load fuel) ;;
    mret 0.
End hd.
End Hd.
