(* ===== verification/HdRead.v ===== *)
(** * Reading a block of the hard disk ([kernel/blk_drv/hd.c])

    The controller and the disk behind it are described by the history of
    port accesses, and by how often it has interrupted.  A read command, given
    when the controller was last seen ready, latches the registers that were written
    last: place and number of sectors.  With each interrupt one more sector
    is there, word by word, in the data register; at any other time
    nothing is assumed about what the ports answer.  Against such a drive
    the driver's request function and two interrupts read a block. *)

From S2P Require Import Prelude Ports FsData Block Buffer Cache Ramdisk Hd.

Module HdRead.
Import FsData Block Buffer Cache Ramdisk Hd.

(** ** The disk *)

(** The value written last to a port. *)
Fixpoint last_out (port : Z) (h : list io_event) : Z :=
  match h with
  | [] => 0
  | Out v p :: h => if p =? port then v else last_out port h
  | In _ _ :: h => last_out port h
  end.
(** The drive and the sector, counted from the start of the drive, that the
    registers name, for drives of [fst (geom d)] heads and [snd (geom d)]
    sectors to the track. *)
Definition place (geom : Z -> Z * Z) (h : list io_event) : Z * Z :=
  let drive := Z.land (Z.shiftr (last_out 0x1f6 h) 4) 1 in
  let head := Z.land (last_out 0x1f6 h) 15 in
  let cyl := last_out 0x1f4 h + 256 * last_out 0x1f5 h in
  (drive, (cyl * fst (geom drive) + head) * snd (geom drive) + last_out 0x1f3 h - 1).
(** The value read last from a port. *)
Fixpoint last_in (port : Z) (h : list io_event) : Z :=
  match h with
  | [] => 0
  | In p v :: h => if p =? port then v else last_in port h
  | Out _ _ :: h => last_in port h
  end.
(** Not busy, and ready for a command. *)
Definition shows_ready (v : Z) : Prop := Z.land v 0xc0 = 0x40.
#[export] Instance shows_ready_dec v : Decision (shows_ready v).
Proof. unfold shows_ready. apply _. Defined.
(** The sector count register, in which 0 stands for 256. *)
Definition sector_count (v : Z) : Z := if v =? 0 then 256 else v.

(** The read command that is going on: its drive, first sector, number of
    sectors and the words delivered.  It was given to a controller that had
    shown to be ready; writing a register of the controller ends what is
    known about it. *)
Fixpoint reading (geom : Z -> Z * Z) (h : list io_event) : option (Z * Z * Z * Z) :=
  match h with
  | [] => None
  | Out v p :: h =>
      if p =? HD_STATUS then
        if (v =? WIN_READ) && bool_decide (shows_ready (last_in HD_STATUS h))
        then Some (place geom h, sector_count (last_out 0x1f2 h), 0) else None
      else if (0x1f0 <=? p) && (p <? 0x1f7) then None
      else reading geom h
  | In p _ :: h => if p =? HD_DATA then (fun '(pl, n, k) => (pl, n, k + 1)) <$> reading geom h else reading geom h
  end.

(** What a drive answers after the [i]-th interrupt of a command for [n]
    sectors ([disk d k] is the [k]-th word of drive [d]).  Before anything
    of sector [i] is read, it is not busy and ready, its heads are settled, it has
    data and reports neither a write fault nor an error; the bits for corrected data and index may have
    any value.  The data register delivers the 256 words of the sector.
    Nothing is said for any other time: the drive may be busy and
    its registers may hold anything. *)
Record answers (D : Device) (geom : Z -> Z * Z) (disk : Z -> Z -> Z) (i : Z) : Prop := {
  an_status : forall h d lba n, reading geom h = Some (d, lba, n, 256 * (i - 1)) -> 1 <= i <= n ->
    Z.land (u8 (D h HD_STATUS)) 0xF9 = 0x58;
  an_data : forall h d lba n k, reading geom h = Some (d, lba, n, k) -> 1 <= i <= n -> 256 * (i - 1) <= k < 256 * i ->
    u16 (D h HD_DATA) = disk d (256 * lba + k)
}.
(** [D i] are the answers from the [i]-th interrupt on, [D 0] those before the first. *)
Definition disk_drive (D : nat -> Device) (geom : Z -> Z * Z) (disk : Z -> Z -> Z) : Prop :=
  forall i, answers (D i) geom disk (Z.of_nat i).
(** The accesses so far and [n] more reads of the status register. *)
Fixpoint polled (D : Device) (n : nat) (h : list io_event) : list io_event :=
  match n with
  | O => h
  | S n => polled D n (In HD_STATUS (u8 (D h HD_STATUS)) :: h)
  end.
(** The drive becomes ready while the driver waits for it. *)
Definition becomes_ready (D : Device) (h : list io_event) : Prop :=
  exists n, (n < 9999)%nat /\ shows_ready (u8 (D (polled D n h) HD_STATUS)).
(** The byte [i] of the two sectors from [lba] on. *)
Definition disk_byte (disk : Z -> Z -> Z) (d lba i : Z) : Z :=
  let w := disk d (256 * lba + i / 2) in if Z.even i then w mod 256 else w / 256.

(** ** The driver's steps *)

Lemma kloop_done {S A B} n (body : A -> KM S (A + B)) a s r s' :
  (0 < n)%nat -> body a s = Done (inr r) s' -> kloop n body a s = Done r s'.
Proof. destruct n as [|n]; [lia|]. intros _ Hb. by rewrite kloop_S, Hb. Qed.

Section drive.
Context {D : Device} {geom : Z -> Z * Z} {disk : Z -> Z -> Z} {num : Z} (Hdisk : answers D geom disk num).
Context (ht : list (option Z)) (fl nw : option Z) (rs rl : Z) (rm : list Z) (fd : FsData.fsdata).
Context (info : list hd_i_struct) (nr : Z) (parts : list hd_struct) (cal ne : Z).
Abbreviation st c rq bd ev P h :=
  (HdState (Blk c ht fl nw rq bd rs rl rm ev fd) P 0 0 info nr parts h cal ne).

Lemma on_b_run {A} (m : KM blk A) B B' P h a :
  m B = Done a B' -> on_b m (HdState B P 0 0 info nr parts h cal ne) = Done a (HdState B' P 0 0 info nr parts h cal ne).
Proof using Type. unfold on_b, zoom. simpl. by intros ->. Qed.

Definition status (P : list io_event) : Z := u8 (D P HD_STATUS).
Lemma status_run c rq bd ev P h :
  inp HD_STATUS (st c rq bd ev P h) = Done (status P) (st c rq bd ev (In HD_STATUS (status P) :: P) h).
Proof using Type. done. Qed.
(** A ready controller was seen last. *)
Definition accepting (P : list io_event) : Prop := shows_ready (last_in HD_STATUS P).
Lemma wait_ready_run c rq bd ev h : forall m n P, (m < n)%nat -> shows_ready (status (polled D m P)) ->
  exists r P', wait_ready n (st c rq bd ev P h) = Done r (st c rq bd ev P' h) /\ truth r = true /\ accepting P'.
Proof using Type.
  induction m as [|m IH]; intros n P Hn Hready; destruct n as [|n]; try lia; cbn [wait_ready];
    rewrite (run_bind _ _ _ _ _ (status_run c rq bd ev P h)); destruct (Z.eqb_spec (Z.land (status P) 0xc0) 0x40) as [Hs|Hs].
  - eexists _, _. split; [reflexivity|]. split; [by apply truth_true|]. exact Hs.
  - by destruct Hs.
  - eexists _, _. split; [reflexivity|]. split; [by apply truth_true|]. exact Hs.
  - apply (IH n (In HD_STATUS (status P) :: P)); [lia|exact Hready].
Qed.
Lemma win_result_run c rq bd ev P h d lba n : reading geom P = Some (d, lba, n, 256 * (num - 1)) -> 1 <= num <= n ->
  win_result (st c rq bd ev P h) = Done 0 (st c rq bd ev (In HD_STATUS (status P) :: P) h).
Proof using Hdisk.
  intros HP Hn. unfold win_result. rewrite (run_bind _ _ _ _ _ (status_run c rq bd ev P h)).
  change (Z.lor BUSY_STAT _) with (Z.land 0xF9 0xF1). rewrite Z.land_assoc. unfold status at 1.
  by rewrite (an_status _ _ _ _ Hdisk _ _ _ _ HP Hn).
Qed.

(** The ports after a command. *)
Definition commanded (x : hd_i_struct) (drive nsect sect head cyl cmd : Z) (P : list io_event) : list io_event :=
  Out (u8 cmd) 0x1f7 :: Out (u8 (Z.lor (Z.lor 0xA0 (Z.shiftl drive 4)) head)) 0x1f6 :: Out (u8 (Z.shiftr cyl 8)) 0x1f5 ::
  Out (u8 cyl) 0x1f4 :: Out (u8 sect) 0x1f3 :: Out (u8 nsect) 0x1f2 :: Out (u8 (Z.shiftr (hd_wpcom x) 2)) 0x1f1 ::
  Out (u8 (hd_ctl x)) 0x3f6 :: P.
Lemma hd_out_run c rq bd ev P h drive nsect sect head cyl cmd handler x :
  drive <= 1 -> head <= 15 -> array_get info drive = Some x -> becomes_ready D P -> exists P',
    hd_out drive nsect sect head cyl cmd handler (st c rq bd ev P h) =
      Done tt (st c rq bd ev (commanded x drive nsect sect head cyl cmd P') (Some handler)) /\ accepting P'.
Proof using Type.
  intros Hd Hh Hx (n & Hn & Hready). unfold hd_out. rewrite (proj2 (Z.ltb_ge 1 drive)), (proj2 (Z.ltb_ge 15 head)) by done. cbn [orb].
  destruct (wait_ready_run c rq bd ev h n 9999 P Hn Hready) as (r & P' & Hr & Ht & Hacc). exists P'. split; [|done].
  unfold controller_ready. rewrite (run_bind _ _ _ _ _ Hr), Ht. cbn [negb].
  unfold set_do_hd. rewrite run_modify, run_gets. cbn [hd_info set_field]. unfold read_at. rewrite Hx, run_deref.
  unfold out. rewrite !run_modify. reflexivity.
Qed.

Lemma reading_command x drive nsect sec head cyl P :
  0 <= drive <= 1 -> 0 <= head <= 15 -> 0 <= cyl < 65536 -> 0 <= sec < 256 -> 0 < nsect < 256 -> accepting P ->
  reading geom (commanded x drive nsect sec head cyl WIN_READ P) =
    Some (drive, (cyl * fst (geom drive) + head) * snd (geom drive) + sec - 1, nsect, 0).
Proof using Type.
  intros Hd Hh Hc Hs Hns Hacc. unfold commanded. cbn [reading]. change (u8 WIN_READ =? WIN_READ) with true.
  change (0x1f7 =? HD_STATUS) with true. cbn [last_in]. rewrite bool_decide_true by exact Hacc. cbn [andb]. cbv iota.
  unfold place. cbn [last_out].
  change (0x1f6 =? 0x1f2) with false. change (0x1f5 =? 0x1f2) with false. change (0x1f4 =? 0x1f2) with false.
  change (0x1f3 =? 0x1f2) with false. change (0x1f2 =? 0x1f2) with true.
  change (0x1f6 =? 0x1f6) with true. change (0x1f6 =? 0x1f4) with false. change (0x1f5 =? 0x1f4) with false.
  change (0x1f4 =? 0x1f4) with true. change (0x1f6 =? 0x1f5) with false. change (0x1f5 =? 0x1f5) with true.
  change (0x1f6 =? 0x1f3) with false. change (0x1f5 =? 0x1f3) with false. change (0x1f4 =? 0x1f3) with false.
  change (0x1f3 =? 0x1f3) with true. cbv iota.
  assert (Hdh : Z.land (Z.shiftr (u8 (Z.lor (Z.lor 0xA0 (Z.shiftl drive 4)) head)) 4) 1 = drive /\
                Z.land (u8 (Z.lor (Z.lor 0xA0 (Z.shiftl drive 4)) head)) 15 = head).
  { assert (exists n, (n < 16)%nat /\ head = Z.of_nat n) as (n & Hn & ->) by (exists (Z.to_nat head); lia).
    assert (drive = 0 \/ drive = 1) as [-> | ->] by lia; do 16 (destruct n as [|n]; [by split|]); lia. }
  destruct Hdh as [-> ->]. rewrite (u8_small sec), (u8_small nsect) by lia.
  unfold sector_count. rewrite (proj2 (Z.eqb_neq nsect 0)) by lia.
  replace (u8 cyl + 256 * u8 (Z.shiftr cyl 8)) with cyl.
  - done.
  - rewrite Z.shiftr_div_pow2 by lia. change (2 ^ 8) with 256.
    rewrite (u8_small (cyl / 256)) by (split; [apply Z.div_pos; lia|apply Z.div_lt_upper_bound; lia]).
    unfold u8. pose proof (Z.div_mod cyl 256). lia.
Qed.

(** ** A sector *)

Lemma reading_word P d lba n k v : reading geom P = Some (d, lba, n, k) -> reading geom (In HD_DATA v :: P) = Some (d, lba, n, k + 1).
Proof using Type. intros HP. cbn [reading]. by rewrite Z.eqb_refl, HP. Qed.
Lemma reading_status P v : reading geom (In HD_STATUS v :: P) = reading geom P.
Proof using Type. done. Qed.

(** [n] words from number [j] of a sector on. *)
Lemma words_run d lba ns base b off c rq bd ev h body :
  1 <= num <= ns -> base = 256 * (num - 1) -> off = 2 * base ->
  (forall k c P x, array_get c b = Some x -> length (b_data x) = 1024%nat -> off + 2 * k + 2 <= 1024 ->
     body k (st c rq bd ev P h) = Done tt
       (st (array_set c b (x ⟪ b_data := put_word (off + 2 * k) (u16 (D P HD_DATA)) (b_data x) ⟫)) rq bd ev
          (In HD_DATA (u16 (D P HD_DATA)) :: P) h)) ->
  forall n j P x, 0 <= j -> j + Z.of_nat n <= 256 -> off + 2 * (j + Z.of_nat n) <= 1024 ->
  array_get c b = Some x -> length (b_data x) = 1024%nat -> reading geom P = Some (d, lba, ns, base + j) ->
  exists P' data, kfor (seqZ j (Z.of_nat n)) body (st c rq bd ev P h) = Done tt (st (array_set c b (x ⟪ b_data := data ⟫)) rq bd ev P' h) /\
    length data = 1024%nat /\ reading geom P' = Some (d, lba, ns, base + j + Z.of_nat n) /\
    forall i, array_get data i = if (off + 2 * j <=? i) && (i <? off + 2 * (j + Z.of_nat n))
                                 then Some (disk_byte disk d lba i) else array_get (b_data x) i.
Proof using Hdisk.
  intros Hnum Hbase Hoff Hbody n. revert c. induction n as [|n IH]; intros c j P x Hj Hjn Hlen Hx Hl HP.
  - exists P, (b_data x). change (seqZ j (Z.of_nat 0)) with (@nil Z). cbn [kfor]. split_and!; [|done| |].
    + rewrite array_set_get; [done|]. destruct x. exact Hx.
    + rewrite HP. do 2 f_equal. lia.
    + intros i. destruct (Z.leb_spec (off + 2 * j) i), (Z.ltb_spec i (off + 2 * (j + Z.of_nat 0))); try done; lia.
  - pose proof (array_get_Some_bound _ _ _ Hx) as Hbb. rewrite seqZ_cons by lia. cbn [kfor].
    rewrite (run_bind _ _ _ _ _ (Hbody j c P x Hx Hl ltac:(lia))). replace (Z.pred (Z.of_nat (S n))) with (Z.of_nat n) by lia.
    set (w := u16 (D P HD_DATA)). set (x1 := x ⟪ b_data := put_word (off + 2 * j) w (b_data x) ⟫).
    destruct (IH (array_set c b x1) (Z.succ j) (In HD_DATA w :: P) x1) as (P' & data & Hrun & Hl' & HP' & Hdata);
      [lia|lia|lia|by apply array_get_set_eq| | |].
    { unfold x1, put_word. cbn [b_data set_field]. by rewrite !length_array_set. }
    { rewrite (reading_word _ _ _ _ _ _ HP). do 2 f_equal. lia. }
    exists P', data. split_and!; [by rewrite Hrun, array_set_set| done |rewrite HP'; do 2 f_equal; lia|].
    intros i. rewrite Hdata. unfold x1, put_word. cbn [b_data set_field].
    assert (Hw : w = disk d (256 * lba + (base + j))) by (apply (an_data _ _ _ _ Hdisk _ _ _ ns); [done|done|lia]).
    destruct (Z.leb_spec (off + 2 * j) i), (Z.leb_spec (off + 2 * Z.succ j) i); try lia;
      destruct (Z.ltb_spec i (off + 2 * (j + Z.of_nat (S n)))), (Z.ltb_spec i (off + 2 * (Z.succ j + Z.of_nat n))); try lia; cbn [andb];
      try (rewrite !array_get_set_ne by lia; done); try done.
    assert (i = off + 2 * j \/ i = off + 2 * j + 1) as [-> | ->] by lia; unfold disk_byte.
    + rewrite array_get_set_ne, array_get_set_eq by (rewrite ?Hl; lia). replace (off + 2 * j) with (2 * (base + j)) by lia.
      rewrite Z.even_mul. cbn [Z.even orb]. rewrite (Z.mul_comm 2), Z.div_mul by lia. by rewrite Hw.
    + rewrite array_get_set_eq by (rewrite length_array_set, Hl; lia). replace (off + 2 * j + 1) with (1 + (base + j) * 2) by lia.
      rewrite Z.even_add, Z.even_mul. rewrite Z.div_add by lia. change (1 / 2) with 0. cbn [Z.even]. rewrite orb_true_r. cbn [Bool.eqb].
      by rewrite Hw.
Qed.

Section request.
Context (d lba ns : Z) (cur b : Z) (r : request) (rq : list request) (bd : list blk_dev_struct).
Context (Hbd : array_get bd MAJOR_NR = Some (BlkDev true (Some cur))) (Hr : array_get rq cur = Some r) (Hb : buffer r = b).

Lemma hd_current_run c ev P h : hd_current (st c rq bd ev P h) = Done (Some cur) (st c rq bd ev P h).
Proof using Hbd.
  unfold hd_current. rewrite (run_bind _ _ _ _ _ (on_b_run _ _ _ _ _ _ (get_dev_Blk c ht fl nw rq bd rs rl rm ev fd _ _ Hbd))). done.
Qed.
Lemma the_current_run c ev P h : the_current (st c rq bd ev P h) = Done cur (st c rq bd ev P h).
Proof using Hbd. unfold the_current. by rewrite (run_bind _ _ _ _ _ (hd_current_run c ev P h)). Qed.
Lemma request_run c ev P h : on_b (get_req cur) (st c rq bd ev P h) = Done r (st c rq bd ev P h).
Proof using Hr. apply on_b_run. by apply get_req_Blk. Qed.

Lemma port_read_run base c ev P h x :
  1 <= num <= ns -> base = 256 * (num - 1) -> buf_off r = 2 * base -> 2 * base + 512 <= 1024 ->
  array_get c b = Some x -> length (b_data x) = 1024%nat -> reading geom P = Some (d, lba, ns, base) ->
  exists P' data, port_read HD_DATA (st c rq bd ev P h) = Done tt (st (array_set c b (x ⟪ b_data := data ⟫)) rq bd ev P' h) /\
    length data = 1024%nat /\ reading geom P' = Some (d, lba, ns, base + 256) /\
    forall i, array_get data i = if (2 * base <=? i) && (i <? 2 * base + 512) then Some (disk_byte disk d lba i) else array_get (b_data x) i.
Proof using Hdisk Hbd Hr Hb.
  intros Hnum Hbase Hoff Hfit Hx Hl HP. unfold port_read.
  rewrite (run_bind _ _ _ _ _ (the_current_run c ev P h)), (run_bind _ _ _ _ _ (request_run c ev P h)), Hb, Hoff.
  change (upto 256) with (seqZ 0 (Z.of_nat 256)).
  match goal with |- context [kfor _ ?body] => destruct (words_run d lba ns base b (2 * base) c rq bd ev h body Hnum Hbase eq_refl) with (n := 256%nat) (j := 0) (P := P) (x := x)
    as (P' & data & Hrun & Hld & HP' & Hdata); [|lia|lia|lia|done|done|by rewrite Z.add_0_r|] end.
  - clear c P x Hx Hl HP. intros k c P x Hx Hl Hk. unfold inw.
    erewrite run_bind by reflexivity. cbn [hports set_field].
    erewrite run_bind; [|apply on_b_run; by apply get_buf_Blk].
    rewrite Hl, (proj2 (Z.ltb_ge _ _)) by lia. apply on_b_run. by rewrite (upd_buf_Blk _ _ _ _ _ _ _ _ _ _ _ _ x) by done.
  - exists P', data. split_and!; [done|done|by rewrite HP', Z.add_0_r|].
    intros i. by rewrite Hdata, Z.mul_0_r, Z.add_0_r.
Qed.

Lemma upd_current_run f c ev P h : upd_current f (st c rq bd ev P h) = Done tt (st c (array_set rq cur (f r)) bd ev P h).
Proof using Hbd Hr.
  unfold upd_current. rewrite (run_bind _ _ _ _ _ (the_current_run c ev P h)). apply on_b_run. by apply upd_req_Blk.
Qed.

Lemma hd_end_request_run c ev P h x : bh r = Some b -> array_get c b = Some x -> b_lock x = 1 ->
  Hd.end_request 1 (st c rq bd ev P h) = Done tt
    (st (array_set c b (x ⟪ b_uptodate := 1 ⟫ ⟪ b_lock := 0 ⟫)) (array_set rq cur (r ⟪ dev := -1 ⟫))
      (array_set bd MAJOR_NR (BlkDev true (next r))) (woken cur b ev) P h).
Proof using Hbd Hr.
  intros Hbh Hx Hl. pose proof (array_get_Some_bound _ _ _ Hx). pose proof (array_get_Some_bound _ _ _ Hr).
  apply on_b_run. unfold Block.end_request.
  erewrite run_bind; [|by apply get_dev_Blk]. cbn [current_request]. rewrite run_deref.
  erewrite run_bind; [|by apply get_req_Blk]. rewrite Hbh.
  erewrite run_bind; cycle 1.
  { erewrite run_bind; [|by apply upd_buf_Blk]. unfold unlock_buffer.
    erewrite run_bind; [|by apply get_buf_Blk, array_get_set_eq]. cbn [b_lock set_field]. rewrite Hl.
    change (negb (truth 1)) with false. unfold kwhen. rewrite run_ret.
    erewrite run_bind; [|by apply upd_buf_Blk, array_get_set_eq]. rewrite array_set_set. reflexivity. }
  change (negb (truth 1)) with false. unfold kwhen. rewrite run_ret. unfold wake_up. rewrite !run_modify.
  erewrite run_bind; [|by apply upd_req_Blk].
  erewrite run_bind; [|by apply get_req_Blk, array_get_set_eq].
  erewrite upd_dev_Blk by done. reflexivity.
Qed.

(** The queue is empty after it. *)
Lemma do_hd_request_idle c rq' bd' ev P h : array_get bd' MAJOR_NR = Some (BlkDev true None) ->
  do_hd_request (st c rq' bd' ev P h) = Done tt (st c rq' bd' ev P h).
Proof using Type.
  intros Hb0. unfold do_hd_request. apply kloop_done; [lia|]. unfold do_hd_request_turn.
  rewrite (run_bind _ _ (st c rq' bd' ev P h) None (st c rq' bd' ev P h)); [done|].
  apply on_b_run. unfold INIT_REQUEST. erewrite run_bind; [|by apply get_dev_Blk]. done.
Qed.

(** The interrupt after a sector: more are to come, or it was the last. *)
Definition sector_read (x : buffer_head) (lo : Z) (data : list Z) : Prop :=
  length data = 1024%nat /\
  forall i, array_get data i = if (lo <=? i) && (i <? lo + 512) then Some (disk_byte disk d lba i) else array_get (b_data x) i.
Definition advanced : request :=
  r ⟪ errors := 0 ⟫ ⟪ buf_off := buf_off r + 512 ⟫ ⟪ sector := u32 (sector r + 1) ⟫ ⟪ nr_sectors := u32 (nr_sectors r - 1) ⟫.

Lemma interrupt_run base c ev P x :
  1 <= num <= ns -> base = 256 * (num - 1) -> buf_off r = 2 * base -> 2 * base + 512 <= 1024 ->
  array_get c b = Some x -> length (b_data x) = 1024%nat -> reading geom P = Some (d, lba, ns, base) ->
  exists P' data, sector_read x (2 * base) data /\ reading geom P' = Some (d, lba, ns, base + 256) /\
    hd_interrupt (st c rq bd ev P (Some Read_intr)) =
      (if truth (nr_sectors advanced) then set_do_hd Read_intr else Hd.end_request 1 ;; do_hd_request)
        (st (array_set c b (x ⟪ b_data := data ⟫)) (array_set rq cur advanced) bd ev P' None).
Proof using Hdisk Hbd Hr Hb.
  intros Hnum Hbase Hoff Hfit Hx Hl HP. unfold hd_interrupt. rewrite run_gets, run_modify. cbn [do_hd set_field].
  unfold read_intr. rewrite (run_bind _ _ _ _ _ (win_result_run c rq bd ev P None d lba ns ltac:(by subst base) Hnum)). change (truth 0) with false. cbv iota.
  destruct (port_read_run base c ev (In HD_STATUS (status P) :: P) None x Hnum Hbase Hoff Hfit Hx Hl ltac:(by rewrite reading_status))
    as (P' & data & Hrun & Hld & HP' & Hdata).
  rewrite (run_bind _ _ _ _ _ Hrun).
  rewrite (run_bind _ _ _ _ _ (upd_current_run _ _ _ _ _)). fold advanced.
  unfold the_current, hd_current.
  exists P', data. split; [by split|]. split; [done|].
  erewrite run_bind; cycle 1.
  { unfold hd_current. erewrite run_bind; cycle 1.
    { erewrite run_bind; [|apply on_b_run; by apply get_dev_Blk]. reflexivity. }
    cbn [current_request]. reflexivity. }
  erewrite run_bind; [|apply on_b_run; apply get_req_Blk; apply array_get_set_eq; by apply array_get_Some_bound in Hr].
  reflexivity.
Qed.
End request.
End drive.

(** ** A whole request *)

(** The state in which a block is to be read: [r] is the only request of the
    driver, for two sectors of partition [p] on a drive of geometry [i],
    into the locked buffer [b]; no reset is pending, and the place is in the
    partition and within the reach of the controller's registers. *)
Record read_request (s : hd_state) (cur : Z) (r : request) (b : Z) (x : buffer_head) (p : hd_struct) (i : hd_i_struct) : Prop := {
  rr_queue : array_get (blk_dev (hblk s)) MAJOR_NR = Some (BlkDev true (Some cur));
  rr_request : array_get (requests (hblk s)) cur = Some r;
  rr_block : MAJOR (dev r) = 3 /\ cmd r = READ /\ nr_sectors r = 2 /\ next r = None;
  rr_buffer : buffer r = b /\ bh r = Some b /\ buf_off r = 0;
  rr_buf : array_get (bufs (hblk s)) b = Some x;
  rr_locked : b_lock x = 1 /\ length (b_data x) = 1024%nat;
  rr_no_reset : reset s = 0 /\ recalibrate s = 0;
  rr_minor : MINOR (dev r) < 5 * NR_HD s <= 10;
  rr_part : array_get (hd s) (MINOR (dev r)) = Some p;
  rr_range : 0 <= sector r /\ 0 <= start_sect p /\ sector r + 2 <= nr_sects p /\ start_sect p + nr_sects p < 4294967296;
  rr_info : array_get (hd_info s) (MINOR (dev r) / 5) = Some i;
  rr_geometry : 0 < hd_sect i < 256 /\ 0 < hd_head i <= 16 /\ start_sect p + sector r < 65536 * hd_head i * hd_sect i
}.

Lemma MINOR_bound a : 0 <= MINOR a < 256.
Proof. unfold MINOR. change 0xff with (Z.ones 8). rewrite Z.land_ones by lia. apply Z.mod_pos_bound. lia. Qed.

(** The command that [do_hd_request] gives names the place of the block. *)
Lemma do_hd_request_run {D : Device} geom s cur r b x p i :
  read_request s cur r b x p i -> geom (MINOR (dev r) / 5) = (hd_head i, hd_sect i) -> becomes_ready D (hports s) -> exists P',
  do_hd_request s = Done tt (s ⟪ hports := P' ⟫ ⟪ do_hd := Some Read_intr ⟫) /\
  reading geom P' = Some (MINOR (dev r) / 5, start_sect p + sector r, 2, 0).
Proof.
  intros [Hq Hr (Hma & Hcmd & Hn & Hnx) (Hb & Hbh & Hoff) Hx (Hlk & Hlen) (Hrs & Hrc) Hmi Hp Hrange Hi (Hsc & Hhd & Hcyl)] Hgeom Hready.
  pose proof (MINOR_bound (dev r)) as Hmb. set (d := MINOR (dev r) / 5) in *.
  assert (Hd : 0 <= d <= 1) by (unfold d; split; [apply Z.div_pos; lia|apply Z.lt_succ_r, Z.div_lt_upper_bound; lia]).
  set (lba := start_sect p + sector r) in *. set (cyl := lba / hd_sect i / hd_head i). set (head := (lba / hd_sect i) mod hd_head i).
  set (sec := lba mod hd_sect i + 1).
  pose proof (Z.mod_pos_bound lba (hd_sect i)). pose proof (Z.mod_pos_bound (lba / hd_sect i) (hd_head i)).
  pose proof (Z.div_mod lba (hd_sect i)). pose proof (Z.div_mod (lba / hd_sect i) (hd_head i)).
  assert (Hc : 0 <= cyl < 65536).
  { unfold cyl. split; [apply Z.div_pos; [apply Z.div_pos|]; lia|].
    apply Z.div_lt_upper_bound; [lia|]. apply Z.div_lt_upper_bound; [lia|]. lia. }
  destruct s as [[c ht fl nw rq bd rs rl rm ev fd] P rec rst info nr parts h cal ne].
  cbn [hblk blk_dev requests bufs reset recalibrate NR_HD hd hd_info] in *. subst rec rst.
  destruct (hd_out_run (D := D) ht fl nw rs rl rm fd info nr parts cal ne c rq bd ev P h d 2 sec head cyl WIN_READ Read_intr i)
    as (P' & Hout & Hacc); [lia|unfold head; lia|done|exact Hready|].
  exists (commanded i d 2 sec head cyl WIN_READ P'). split.
  - unfold do_hd_request. apply kloop_done; [lia|]. unfold do_hd_request_turn.
    erewrite run_bind; cycle 1.
    { apply on_b_run. unfold INIT_REQUEST. erewrite run_bind; [|by apply get_dev_Blk]. cbn [current_request].
      erewrite run_bind; [|by apply get_req_Blk]. rewrite Hma. change (negb (3 =? MAJOR_NR)) with false. cbv iota. rewrite Hbh.
      erewrite run_bind; [|by apply get_buf_Blk]. rewrite Hlk. reflexivity. }
    cbv iota beta. erewrite run_bind; [|apply on_b_run; by apply get_req_Blk].
    rewrite !run_gets. cbn [NR_HD hd].
    rewrite (u32_small (5 * nr)), (proj2 (Z.leb_gt _ _)) by lia. unfold read_at. rewrite Hp.
    erewrite run_bind by reflexivity. cbn beta.
    rewrite (u32_small (nr_sects p)), (u32_small (sector r + 2)), (proj2 (Z.ltb_ge _ _)) by lia.
    rewrite run_deref, run_gets. cbn [hd_info]. fold d. rewrite Hi, run_deref. rewrite (Z.add_comm (sector r)). fold lba. rewrite (u32_small lba) by lia.
    unfold divl. rewrite (proj2 (Z.eqb_neq (hd_sect i) 0)), (proj2 (Z.eqb_neq (hd_head i) 0)) by lia.
    rewrite !run_ret, !run_gets. cbn [reset recalibrate]. change (truth 0) with false. cbv iota.
    rewrite Hcmd. change (READ =? WRITE) with false. change (READ =? READ) with true. cbv iota. rewrite Hn.
    erewrite run_bind; [|exact Hout]. reflexivity.
  - cbn [hports]. rewrite (reading_command (geom := geom)) by (done || lia). rewrite Hgeom. cbn [fst snd]. do 4 f_equal. unfold cyl, head, sec. lia.
Qed.

(** C17: the hard disk driver reads a block.  Against a drive that answers as
    its documentation says, and that becomes ready before the driver gives
    up (9999 reads of the status register), [do_hd_request] and the two interrupts
    that follow complete the request: the buffer holds the 1024 bytes of the two
    sectors from the request's place in the partition on, is up to date and
    unlocked, and no other buffer has changed; the request is free and the
    queue empty; and the drive has been asked for exactly two sectors and has delivered
    all of both. *)
Theorem hd_reads_block {D : nat -> Device} geom disk s cur r b x p i :
  disk_drive D geom disk -> becomes_ready (D 0%nat) (hports s) ->
  read_request s cur r b x p i -> geom (MINOR (dev r) / 5) = (hd_head i, hd_sect i) ->
  wp (do_hd_request (D := D 0%nat) ;; hd_interrupt (D := D 1%nat) ;; hd_interrupt (D := D 2%nat)) (fun _ s' =>
    (exists data, array_get (bufs (hblk s')) b = Some (x ⟪ b_data := data ⟫ ⟪ b_uptodate := 1 ⟫ ⟪ b_lock := 0 ⟫) /\
       length data = 1024%nat /\
       forall k, 0 <= k < 1024 -> array_get data k = Some (disk_byte disk (MINOR (dev r) / 5) (start_sect p + sector r) k)) /\
    (forall j, j <> b -> array_get (bufs (hblk s')) j = array_get (bufs (hblk s)) j) /\
    (exists r', array_get (requests (hblk s')) cur = Some r' /\ dev r' = -1) /\
    array_get (blk_dev (hblk s')) MAJOR_NR = Some (BlkDev true None) /\ do_hd s' = None /\
    reading geom (hports s') = Some (MINOR (dev r) / 5, start_sect p + sector r, 2, 512)) s.
Proof.
  intros Hdisk Hready Hok Hgeom. apply wp_run.
  destruct (do_hd_request_run geom s cur r b x p i Hok Hgeom Hready) as (P0 & Hrun0 & HP0). rewrite (run_bind _ _ _ _ _ Hrun0).
  clear Hrun0. destruct Hok as [Hq Hr (_ & _ & Hn & Hnx) (Hb & Hbh & Hoff) Hx (Hlk & Hlen) (Hrs & Hrc) _ _ _ _ _].
  set (d := MINOR (dev r) / 5) in *. set (lba := start_sect p + sector r) in *. clearbody d lba.
  destruct s as [[c ht fl nw rq bd rs rl rm ev fd] P rec rst info nr parts h cal ne].
  cbn [hblk blk_dev requests bufs reset recalibrate] in *. subst rec rst.
  pose proof (array_get_Some_bound _ _ _ Hr) as Hrb. pose proof (array_get_Some_bound _ _ _ Hx) as Hxb.
  destruct (interrupt_run (Hdisk 1%nat) ht fl nw rs rl rm fd info nr parts cal ne d lba 2 cur b r rq bd Hq Hr Hb 0 c ev P0 x)
    as (P1 & d1 & [Hl1 Hd1] & HP1 & Hrun1); [lia|lia|lia|lia|done|done|done|].
  assert (Hn1 : nr_sectors (advanced r) = 1) by (unfold advanced; cbn [nr_sectors set_field]; by rewrite Hn).
  rewrite Hn1 in Hrun1. change (truth 1) with true in Hrun1.
  erewrite run_bind; [|exact Hrun1]. clear Hrun1.
  set (c1 := array_set c b (x ⟪ b_data := d1 ⟫)). set (rq1 := array_set rq cur (advanced r)).
  assert (Hr1 : array_get rq1 cur = Some (advanced r)) by (by apply array_get_set_eq).
  assert (Hx1 : array_get c1 b = Some (x ⟪ b_data := d1 ⟫)) by (by apply array_get_set_eq).
  destruct (interrupt_run (Hdisk 2%nat) ht fl nw rs rl rm fd info nr parts cal ne d lba 2 cur b (advanced r) rq1 bd Hq Hr1 Hb 256 c1 ev P1 (x ⟪ b_data := d1 ⟫))
    as (P2 & d2 & [Hl2 Hd2] & HP2 & Hrun2); [lia|lia|unfold advanced; cbn [buf_off set_field]; lia|lia|done|done|done|].
  assert (Hn2 : nr_sectors (advanced (advanced r)) = 0) by (unfold advanced at 1; cbn [nr_sectors set_field]; by rewrite Hn1).
  rewrite Hn2 in Hrun2. change (truth 0) with false in Hrun2.
  set (r2 := advanced (advanced r)) in *. set (x2 := x ⟪ b_data := d2 ⟫). change (x ⟪ b_data := d1 ⟫ ⟪ b_data := d2 ⟫) with x2 in Hrun2.
  assert (Hr2 : array_get (array_set rq1 cur r2) cur = Some r2) by (apply array_get_set_eq; unfold rq1; by rewrite length_array_set).
  assert (Hx2 : array_get (array_set c1 b x2) b = Some x2) by (apply array_get_set_eq; unfold c1; by rewrite length_array_set).
  pose proof (hd_end_request_run ht fl nw rs rl rm fd info nr parts cal ne cur b r2 (array_set rq1 cur r2) bd Hq Hr2
    (array_set c1 b x2) ev P2 None x2 Hbh Hx2 Hlk) as Hend.
  assert (Hq2 : array_get (array_set bd MAJOR_NR (BlkDev true (next r2))) MAJOR_NR = Some (BlkDev true None)).
  { rewrite array_get_set_eq by (by apply array_get_Some_bound in Hq). unfold r2, advanced. cbn [next set_field]. by rewrite Hnx. }
  eexists tt, _. split.
  { etransitivity; [exact Hrun2|]. etransitivity; [exact (run_bind _ _ _ _ _ Hend)|]. apply do_hd_request_idle. exact Hq2. }
  cbn [hblk bufs requests blk_dev do_hd]. cbn [hports]. split_and!; [|intros j Hj| |done|done|exact HP2].
  - exists d2. split_and!; [apply array_get_set_eq; unfold c1; by rewrite !length_array_set|done|].
    intros k Hk. rewrite Hd2. cbn [b_data set_field]. rewrite Hd1.
    destruct (Z.leb_spec (2 * 256) k), (Z.ltb_spec k (2 * 256 + 512)), (Z.leb_spec (2 * 0) k), (Z.ltb_spec k (2 * 0 + 512)); cbn [andb]; (done || lia).
  - unfold c1. by rewrite !array_get_set_ne by done.
  - exists (r2 ⟪ dev := -1 ⟫). split; [|done]. apply array_get_set_eq. unfold rq1. by rewrite !length_array_set.
Qed.

(** A drive whose words are their numbers.  It is busy for the first three
    reads of its status, and whenever it has not just raised an interrupt; its
    data register is then floating. *)
Definition demo_geom (d : Z) : Z * Z := (4, 17).
Definition demo_drive (i : nat) : Device := fun h port =>
  let here n k := (1 <=? Z.of_nat i) && (Z.of_nat i <=? n) && (256 * (Z.of_nat i - 1) <=? k) && (k <? 256 * Z.of_nat i) in
  if port =? HD_STATUS then
    match i, reading demo_geom h with
    | O, _ => if (length h <? 3)%nat then 0x80 else 0x50
    | _, Some (_, _, n, k) => if here n k then 0x58 else 0x80
    | _, None => 0x80
    end
  else
    match reading demo_geom h with
    | Some (d, lba, n, k) => if here n k then 256 * lba + k else 0xFFFF
    | None => 0xFFFF
    end.
Lemma demo_disk_drive : disk_drive demo_drive demo_geom (fun _ k => u16 k).
Proof.
  intros i. split.
  - intros h d lba n Hr Hi. unfold demo_drive. rewrite Hr. change (HD_STATUS =? HD_STATUS) with true.
    destruct i as [|i]; [lia|]. cbv iota zeta.
    rewrite !(proj2 (Z.leb_le _ _)), (proj2 (Z.ltb_lt _ _)) by lia. done.
  - intros h d lba n k Hr Hi Hk. unfold demo_drive. rewrite Hr. change (HD_DATA =? HD_STATUS) with false. cbv iota zeta.
    rewrite !(proj2 (Z.leb_le _ _)), (proj2 (Z.ltb_lt _ _)) by lia. done.
Qed.
Definition demo_head : buffer_head := BufferHead (replicate 1024 0) 5 0x301 0 0 1 1 None None None None.
Definition demo_hd : hd_state :=
  HdState (Blk [demo_head] [] None None [Request 0x301 READ 0 10 2 0 None (Some 0) None 0] (replicate 3 (BlkDev true None) ++ [BlkDev true (Some 0)]) 0 0 [] [] (FsTables [] 0 [] 0))
    [] 0 0 [HdInfo 4 17 615 300 615 8] 1 [HdPart 0 41820; HdPart 100 1000] None 0 0.
Lemma hd_reads_block_witness :
  wp (do_hd_request (D := demo_drive 0) ;; hd_interrupt (D := demo_drive 1) ;; hd_interrupt (D := demo_drive 2)) (fun _ s' =>
    exists y, array_get (bufs (hblk s')) 0 = Some y /\ b_uptodate y = 1 /\ array_get (b_data y) 3 = Some 110 /\
      reading demo_geom (hports s') = Some (0, 110, 2, 512)) demo_hd.
Proof.
  assert (Hok : read_request demo_hd 0 (Request 0x301 READ 0 10 2 0 None (Some 0) None 0) 0 demo_head (HdPart 100 1000) (HdInfo 4 17 615 300 615 8)).
  { split; try (split_and!; vm_compute; congruence); vm_compute; reflexivity. }
  assert (Hready : becomes_ready (demo_drive 0) (hports demo_hd)).
  { exists 3%nat. split; [by apply Nat.ltb_lt|]. vm_compute. reflexivity. }
  eapply wp_mono; [exact (hd_reads_block demo_geom _ demo_hd _ _ _ _ _ _ demo_disk_drive Hready Hok eq_refl)|].
  intros u s' [(data & Hx & _ & Hd) (_ & _ & _ & _ & Hall)]. eexists. split; [exact Hx|]. split; [reflexivity|].
  cbn [b_data set_field]. split; [|exact Hall]. rewrite Hd by lia. vm_compute. reflexivity.
Defined.
End HdRead.
