(* ===== verification/Floppy.v ===== *)
(** * The floppy driver ([kernel/blk_drv/floppy.c], [linux/fdreg.h])

    A request is started by [do_fd_request]: it waits for the motor with a
    timer, selects the drive, seeks, and sets up the transfer; each step ends
    in an interrupt whose handler is in [do_floppy], and any step that fails
    starts again from [do_fd_request] with [reset] or [recalibrate] set.
    What the controller answers is a parameter ([Ports.Device]), and so is
    what happens while a task sleeps ([FdSleep]).  The motors and the timers
    are the clock's (Timer). *)

From S2P Require Import Prelude Task Sched Timer Ports FsData Block.

Module Floppy.
Import FsData Block.

Definition MAJOR_NR : Z := 2.
Definition MAX_ERRORS : Z := 8.
Definition MAX_REPLIES : Z := 7.
Definition FD_STATUS : Z := 0x3f4.
Definition FD_DATA : Z := 0x3f5.
Definition FD_DOR : Z := 0x3f2.
Definition FD_DIR : Z := 0x3f7.
Definition FD_DCR : Z := 0x3f7.
Definition STATUS_BUSY : Z := 0x10.
Definition STATUS_DIR : Z := 0x40.
Definition STATUS_READY : Z := 0x80.
Definition FD_RECALIBRATE : Z := 0x07.
Definition FD_SEEK : Z := 0x0F.
Definition FD_READ : Z := 0xE6.
Definition FD_WRITE : Z := 0xC5.
Definition FD_SENSEI : Z := 0x08.
Definition FD_SPECIFY : Z := 0x03.
Definition DMA_READ : Z := 0x46.
Definition DMA_WRITE : Z := 0x4A.

Record floppy_struct : Type := FloppyType {
  fl_size : Z; fl_sect : Z; fl_head : Z; fl_track : Z; fl_stretch : Z; fl_gap : Z; fl_rate : Z; fl_spec1 : Z
}.
Definition floppy_type : list floppy_struct := [
  FloppyType 0 0 0 0 0 0x00 0x00 0x00;
  FloppyType 720 9 2 40 0 0x2A 0x02 0xDF;
  FloppyType 2400 15 2 80 0 0x1B 0x00 0xDF;
  FloppyType 720 9 2 40 1 0x2A 0x02 0xDF;
  FloppyType 1440 9 2 80 0 0x2A 0x02 0xDF;
  FloppyType 720 9 2 40 1 0x23 0x01 0xDF;
  FloppyType 1440 9 2 80 0 0x23 0x01 0xDF;
  FloppyType 2880 18 2 80 0 0x1B 0x00 0xCF ].

(** What [do_floppy] can point to, and the functions given to
    [add_timer]. *)
Inductive fd_handler : Type := Rw_interrupt | Seek_interrupt | Recal_interrupt | Reset_interrupt.
Inductive fd_timer : Type := Transfer | Floppy_on_interrupt.
Definition fn_number (f : fd_timer) : Z := match f with Transfer => 1 | Floppy_on_interrupt => 2 end.

(** [floppy] is an index into [floppy_type]; [buffer_address] is where the
    data of the buffers lie, and [null_errors] the longword that
    [NULL->errors] designates. *)
Record fd_state : Type := FdState {
  fclock : clock;
  fblk : blk;
  fports : list io_event;
  recalibrate : Z; reset : Z; seek : Z;
  reply_buffer : list Z;
  cur_spec1 : Z; cur_rate : Z;
  floppy : Z;
  current_drive : Z; fsector : Z; head : Z; track : Z; seek_track : Z; current_track : Z; command : Z;
  tmp_floppy_area : list Z;
  do_floppy : option fd_handler;
  wait_on_floppy_select : Z;
  buffer_address : list Z;
  null_errors : Z
}.
#[export] Instance fd_rebuild : Rebuild fd_state := fun s =>
  FdState (fclock s) (fblk s) (fports s) (recalibrate s) (reset s) (seek s) (reply_buffer s) (cur_spec1 s) (cur_rate s)
    (floppy s) (current_drive s) (fsector s) (head s) (track s) (seek_track s) (current_track s) (command s)
    (tmp_floppy_area s) (do_floppy s) (wait_on_floppy_select s) (buffer_address s) (null_errors s).
#[export] Instance fd_ports : HasPorts fd_state := { ports := fports; set_ports l s := s ⟪ fports := l ⟫ }.

Abbreviation FD := (KM fd_state).
Definition on_b {A} (m : KM blk A) : FD A := zoom fblk (fun b s => s ⟪ fblk := b ⟫) m.
Definition on_clock {A} (m : KM clock A) : FD A := zoom fclock (fun c s => s ⟪ fclock := c ⟫) m.
Definition out (value port : Z) : FD unit := modify (outb value port).
Definition state : FD fd_state := gets (fun s => s).

Class FdSleep := fd_sleep_on : Z -> FD unit.

Definition fd_current : FD (option Z) := d ← on_b (get_dev MAJOR_NR); mret (current_request d).
Definition the_current : FD Z := o ← fd_current; deref o.
Definition current_request : FD request := cur ← the_current; on_b (get_req cur).
(** [DEVICE_OFF] turns the motor off later. *)
Definition end_request (uptodate : Z) : FD unit :=
  r ← current_request;
  on_clock (floppy_off (Z.land (dev r) 3)) ;;
  on_b (Block.end_request MAJOR_NR "floppy" uptodate).

Definition floppy_deselect (nr : Z) : FD unit :=
  dor ← on_clock (gets current_DOR);
  kwhen (negb (nr =? Z.land dor 3)) (on_b (printk "floppy_deselect: drive not selected" [])) ;;
  on_clock (modify (fun c => c ⟪ selected := 0 ⟫)) ;;
  s ← state;
  on_clock (on_sched (Sched.wake_up (wait_on_floppy_select s))).

Section floppy.
Context {D : Device} {Z0 : FdSleep}.
Definition inp (port : Z) : FD Z := fun s => let '(v, s) := inb port s in Done v s.

(** ** Selecting a drive *)

Section waiting.
Variable fuel : nat.

(** [floppy_on] of [kernel/sched.c]. *)
Definition floppy_on (nr : Z) : FD unit :=
  kloop fuel (fun _ : unit =>
    n ← on_clock (ticks_to_floppy_on nr);
    if truth n then
      w ← on_clock (gets wait_motor); q ← read_at w nr; fd_sleep_on q ;; mret (inl tt)
    else mret (inr tt)) tt.

Definition selected_other (nr : Z) : FD (bool * bool) :=
  c ← on_clock (gets (fun c => c));
  mret (negb (Z.land (current_DOR c) 3 =? nr), truth (selected c)).
Definition floppy_change (nr : Z) : FD Z :=
  kloop fuel (fun _ : unit =>
    floppy_on nr ;;
    kloop fuel (fun _ : unit =>
      r ← selected_other nr;
      if fst r && snd r then s ← state; fd_sleep_on (wait_on_floppy_select s) ;; mret (inl tt)
      else mret (inr tt)) tt ;;
    r ← selected_other nr;
    if (fst r : bool) then mret (inl tt) else mret (inr tt)) tt ;;
  v ← inp FD_DIR;
  on_clock (floppy_off nr) ;;
  mret (if truth (Z.land v 0x80) then 1 else 0).
End waiting.

(** ** The controller *)

(** [copy_buffer] in both directions. *)
Definition buffer_to_area : FD unit :=
  r ← current_request; h ← on_b (get_buf (buffer r));
  modify (fun s => s ⟪ tmp_floppy_area := take 1024 (b_data h) ⟫).
Definition area_to_buffer : FD unit :=
  r ← current_request; s ← state;
  on_b (upd_buf (buffer r) (fun h => h ⟪ b_data := take 1024 (tmp_floppy_area s) ⟫)).
(** [tmp_floppy_area] lies in the first megabyte, at an address of the
    kernel's image. *)
Variable tmp_area_address : Z.

Definition current_address : FD Z := r ← current_request; s ← state; read_at (buffer_address s) (buffer r).
Definition setup_DMA : FD unit :=
  addr ← current_address;
  s ← state;
  kwhen ((0x100000 <=? addr) && (command s =? FD_WRITE)) buffer_to_area ;;
  let addr := if 0x100000 <=? addr then tmp_area_address else addr in
  out (Z.lor 4 2) 10 ;;
  let mode := if command s =? FD_READ then DMA_READ else DMA_WRITE in
  out mode 12 ;; out mode 11 ;;
  out addr 4 ;;
  out (Z.shiftr addr 8) 4 ;;
  out (Z.shiftr addr 16) 0x81 ;;
  out 0xff 5 ;; out 3 5 ;; out (Z.lor 0 2) 10.

Fixpoint send_byte (byte : Z) (n : nat) : FD bool :=
  match n with
  | O => mret false
  | S n =>
      v ← inp FD_STATUS;
      if Z.land v (Z.lor STATUS_READY STATUS_DIR) =? STATUS_READY then out byte FD_DATA ;; mret true
      else send_byte byte n
  end.
Definition output_byte (byte : Z) : FD unit :=
  s ← state;
  if truth (reset s) then mret tt
  else
    ok ← send_byte byte (Z.to_nat 10000);
    if (ok : bool) then mret tt
    else modify (fun s => s ⟪ reset := 1 ⟫) ;; on_b (printk "Unable to send byte to FDC" []).

(** The replies, from number [i] on: [None] when they do not come, or are
    too many. *)
Fixpoint get_replies (i : Z) (n : nat) : FD (option Z) :=
  match n with
  | O => mret None
  | S n =>
      v ← inp FD_STATUS;
      let status := Z.land v (Z.lor STATUS_DIR (Z.lor STATUS_READY STATUS_BUSY)) in
      if status =? STATUS_READY then mret (Some i)
      else if status =? Z.lor STATUS_DIR (Z.lor STATUS_READY STATUS_BUSY) then
        if MAX_REPLIES <=? i then mret None
        else
          b ← inp FD_DATA;
          modify (fun s => s ⟪ reply_buffer := array_set (reply_buffer s) i b ⟫) ;;
          get_replies (i + 1) n
      else get_replies i n
  end.
Definition result : FD Z :=
  s ← state;
  if truth (reset s) then mret (-1)
  else
    o ← get_replies 0 (Z.to_nat 10000);
    match o with
    | Some i => mret i
    | None => modify (fun s => s ⟪ reset := 1 ⟫) ;; on_b (printk "Getstatus times out" []) ;; mret (-1)
    end.
Definition ST (k : Z) : FD Z := s ← state; read_at (reply_buffer s) k.

(** After [end_request], [CURRENT] is the next request, or [NULL]. *)
Definition bad_flp_intr : FD unit :=
  cur ← the_current;
  on_b (upd_req cur (fun r => r ⟪ errors := errors r + 1 ⟫)) ;;
  r ← current_request;
  kwhen (MAX_ERRORS <? errors r)
    (s ← state; floppy_deselect (current_drive s) ;; end_request 0) ;;
  o ← fd_current;
  e ← match o with Some cur => r ← on_b (get_req cur); mret (errors r) | None => gets null_errors end;
  if MAX_ERRORS / 2 <? e then modify (fun s => s ⟪ reset := 1 ⟫) else modify (fun s => s ⟪ recalibrate := 1 ⟫).

Definition current_floppy : FD floppy_struct := s ← state; read_at floppy_type (floppy s).
Definition set_handler (h : fd_handler) : FD unit := modify (fun s => s ⟪ do_floppy := Some h ⟫).

(** ** Transfers *)

Section again.
(** [do_fd_request] *)
Variable again : FD unit.
Definition again_if_reset : FD unit := s ← state; kwhen (truth (reset s)) again.
(** [head<<2 | current_drive] *)
Definition drive_head : FD Z := s ← state; mret (Z.lor (Z.shiftl (head s) 2) (current_drive s)).

Definition setup_rw_floppy : FD unit :=
  setup_DMA ;;
  set_handler Rw_interrupt ;;
  s ← state; f ← current_floppy; dh ← drive_head;
  output_byte (command s) ;;
  output_byte dh ;;
  output_byte (track s) ;;
  output_byte (head s) ;;
  output_byte (fsector s) ;;
  output_byte 2 ;;
  output_byte (fl_sect f) ;;
  output_byte (fl_gap f) ;;
  output_byte 0xFF ;;
  again_if_reset.

Definition transfer : FD unit :=
  f ← current_floppy;
  s ← state;
  kwhen (negb (cur_spec1 s =? fl_spec1 f))
    (modify (fun s => s ⟪ cur_spec1 := fl_spec1 f ⟫) ;;
     output_byte FD_SPECIFY ;; output_byte (fl_spec1 f) ;; output_byte 6) ;;
  s ← state;
  kwhen (negb (cur_rate s =? fl_rate f))
    (modify (fun s => s ⟪ cur_rate := fl_rate f ⟫) ;; out (fl_rate f) FD_DCR) ;;
  s ← state;
  if truth (reset s) then again
  else if negb (truth (seek s)) then setup_rw_floppy
  else
    set_handler Seek_interrupt ;;
    dh ← drive_head;
    (if truth (seek_track s) then output_byte FD_SEEK ;; output_byte dh ;; output_byte (seek_track s)
     else output_byte FD_RECALIBRATE ;; output_byte dh) ;;
    again_if_reset.

(** [add_timer]: a function without delay is called at once. *)
Definition fd_add_timer (jiffies : Z) (f : fd_timer) (now : FD unit) : FD unit :=
  if jiffies <=? 0 then now else on_clock (add_timer (fun _ => fault) jiffies (Some (fn_number f))).

Definition floppy_on_interrupt : FD unit :=
  on_clock (modify (fun c => c ⟪ selected := 1 ⟫)) ;;
  s ← state;
  dor ← on_clock (gets current_DOR);
  if negb (current_drive s =? Z.land dor 3) then
    let dor := Z.lor (Z.land dor 0xFC) (current_drive s) in
    on_clock (modify (fun c => c ⟪ current_DOR := dor ⟫)) ;;
    out dor FD_DOR ;;
    fd_add_timer 2 Transfer transfer
  else transfer.

Definition recalibrate_floppy : FD unit :=
  modify (fun s => s ⟪ recalibrate := 0 ⟫ ⟪ current_track := 0 ⟫) ;;
  set_handler Recal_interrupt ;;
  dh ← drive_head;
  output_byte FD_RECALIBRATE ;; output_byte dh ;;
  again_if_reset.
End again.

Definition reset_floppy : FD unit :=
  modify (fun s => s ⟪ reset := 0 ⟫ ⟪ cur_spec1 := -1 ⟫ ⟪ cur_rate := -1 ⟫ ⟪ recalibrate := 1 ⟫) ;;
  on_b (printk "Reset-floppy called" []) ;;
  set_handler Reset_interrupt ;;
  dor ← on_clock (gets current_DOR);
  out (Z.land dor (Z.lnot 0x04)) FD_DOR ;;
  out dor FD_DOR.

(** The head, track and sector of a block. *)
Definition place_on_disk (f : floppy_struct) (block : Z) : option (Z * Z * Z) :=
  if (fl_sect f =? 0) || (fl_head f =? 0) then None
  else
    let sector := u8 (block mod fl_sect f) in
    let block := block / fl_sect f in
    Some (u8 (sector + 1), u8 (block mod fl_head f), u8 (block / fl_head f)).

(** One turn of [do_fd_request] from the label [repeat] on. *)
Definition next_request (again : FD unit) (_ : unit) : FD (unit + unit) :=
  o ← on_b (INIT_REQUEST MAJOR_NR "floppy");
  match o with
  | None => mret (inr tt)
  | Some cur =>
      r ← on_b (get_req cur);
      let drive := Z.land (dev r) 3 in
      modify (fun s => s ⟪ floppy := Z.shiftr (MINOR (dev r)) 2 ⟫) ;;
      s ← state;
      kwhen (negb (current_drive s =? drive)) (modify (fun s => s ⟪ seek := 1 ⟫)) ;;
      modify (fun s => s ⟪ current_drive := drive ⟫) ;;
      f ← current_floppy;
      if fl_size f <? u32 (sector r + 2) then end_request 0 ;; mret (inl tt)
      else
        p ← deref (place_on_disk f (sector r));
        let '(sec, hd, tr) := p in
        modify (fun s => s ⟪ fsector := sec ⟫ ⟪ head := hd ⟫ ⟪ track := tr ⟫ ⟪ seek_track := u8 (Z.shiftl tr (fl_stretch f)) ⟫) ;;
        s ← state;
        kwhen (negb (seek_track s =? current_track s)) (modify (fun s => s ⟪ seek := 1 ⟫)) ;;
        (if cmd r =? READ then modify (fun s => s ⟪ command := FD_READ ⟫)
         else if cmd r =? WRITE then modify (fun s => s ⟪ command := FD_WRITE ⟫)
         else panic "do_fd_request: unknown command") ;;
        n ← on_clock (ticks_to_floppy_on drive);
        fd_add_timer n Floppy_on_interrupt (floppy_on_interrupt again) ;;
        mret (inr tt)
  end.

(** [do_fd_request] calls itself, through the steps it starts, only when
    [reset] is set, and then it returns: [n = 2] calls are enough. *)
Fixpoint do_fd_requests (n : nat) : FD unit :=
  match n with
  | O => nofuel
  | S n =>
      let again := do_fd_requests n in
      modify (fun s => s ⟪ seek := 0 ⟫) ;;
      s ← state;
      if truth (reset s) then reset_floppy
      else if truth (recalibrate s) then recalibrate_floppy again
      else kloop 33 (next_request again) tt
  end.
Definition do_fd_request : FD unit := do_fd_requests 2.

(** ** Interrupts *)

Definition rw_interrupt : FD unit :=
  n ← result;
  st0 ← ST 0; st1 ← ST 1; st2 ← ST 2;
  s ← state;
  if negb (n =? 7) || truth (Z.land st0 0xf8) || truth (Z.land st1 0xbf) || truth (Z.land st2 0x73) then
    (if truth (Z.land st1 0x02) then
       on_b (printk "Drive %d is write protected" [current_drive s]) ;;
       floppy_deselect (current_drive s) ;; end_request 0
     else bad_flp_intr) ;;
    do_fd_request
  else
    addr ← current_address;
    kwhen ((command s =? FD_READ) && (0x100000 <=? addr)) area_to_buffer ;;
    floppy_deselect (current_drive s) ;;
    end_request 1 ;;
    do_fd_request.

Definition seek_interrupt : FD unit :=
  output_byte FD_SENSEI ;;
  n ← result;
  st0 ← ST 0; st1 ← ST 1;
  s ← state;
  if negb (n =? 2) || negb (Z.land st0 0xF8 =? 0x20) || negb (st1 =? seek_track s) then bad_flp_intr ;; do_fd_request
  else modify (fun s => s ⟪ current_track := st1 ⟫) ;; setup_rw_floppy do_fd_request.

Definition recal_interrupt : FD unit :=
  output_byte FD_SENSEI ;;
  n ← result; st0 ← ST 0;
  (if negb (n =? 2) || (Z.land st0 0xE0 =? 0x60) then modify (fun s => s ⟪ reset := 1 ⟫)
   else modify (fun s => s ⟪ recalibrate := 0 ⟫)) ;;
  do_fd_request.

Definition unexpected_floppy_interrupt : FD unit :=
  output_byte FD_SENSEI ;;
  n ← result; st0 ← ST 0;
  if negb (n =? 2) || (Z.land st0 0xE0 =? 0x60) then modify (fun s => s ⟪ reset := 1 ⟫)
  else modify (fun s => s ⟪ recalibrate := 1 ⟫).

Definition reset_interrupt : FD unit :=
  output_byte FD_SENSEI ;;
  _ ← result;
  output_byte FD_SPECIFY ;;
  s ← state;
  output_byte (cur_spec1 s) ;;
  output_byte 6 ;;
  do_fd_request.

(** [floppy_interrupt] of [kernel/system_call.s] takes the handler. *)
Definition floppy_interrupt : FD unit :=
  s ← state;
  modify (fun s => s ⟪ do_floppy := None ⟫) ;;
  match do_floppy s with
  | None => unexpected_floppy_interrupt
  | Some Rw_interrupt => rw_interrupt
  | Some Seek_interrupt => seek_interrupt
  | Some Recal_interrupt => recal_interrupt
  | Some Reset_interrupt => reset_interrupt
  end.
(** The clock calls the functions whose time has come. *)
Definition run_timer (f : fd_timer) : FD unit :=
  match f with Transfer => transfer do_fd_request | Floppy_on_interrupt => floppy_on_interrupt do_fd_request end.

Definition floppy_init : FD unit :=
  on_b (upd_dev MAJOR_NR (fun d => d ⟪ request_fn := true ⟫)) ;;
  v ← inp 0x21; out (Z.land v (Z.lnot 0x40)) 0x21.
End floppy.
End Floppy.
