(* ===== verification/Str.v ===== *)
(** * The string functions ([include/string.h])

    The functions are inline assembly.  The model runs their string
    instructions on a flat memory of bytes with the processor's direction
    flag: [lodsb], [stosb], [scasb], [movsb] and [cmpsb] move their
    registers up, or down when the flag is set.  Registers are variables of
    the model; a repeated instruction whose count is zero leaves the flags
    alone.  Strings end with a zero byte, so the loops over them take
    fuel. *)

From S2P Require Import Prelude Kernel.

Module Str.

(** Memory, the direction flag, and the static pointer of [strtok]. *)
Record cpu : Type := Cpu { mem : gmap Z Z; df : bool; strtok_next : Z }.
#[export] Instance cpu_rebuild : Rebuild cpu := fun s => Cpu (mem s) (df s) (strtok_next s).

Abbreviation M := (KM cpu).
Definition cld : M unit := modify (fun s => s ⟪ df := false ⟫).
Definition std : M unit := modify (fun s => s ⟪ df := true ⟫).
(** The register after a step over one byte. *)
Definition step (r : Z) : M Z := d ← gets df; mret (u32 (if d : bool then r - 1 else r + 1)).
Definition peek (a : Z) : M Z := gets (fun s => byte_at (mem s) a).
Definition poke (a v : Z) : M unit := modify (fun s => s ⟪ mem := set_byte a v (mem s) ⟫).

Definition lodsb (esi : Z) : M (Z * Z) := al ← peek esi; esi ← step esi; mret (al, esi).
Definition stosb (al edi : Z) : M Z := poke edi al ;; step edi.
Definition movsb (esi edi : Z) : M (Z * Z) :=
  v ← peek esi; poke edi v ;; esi ← step esi; edi ← step edi; mret (esi, edi).

(** The flags of a comparison: equal, and less as signed bytes. *)
Definition compare (a b : Z) : bool * bool := (a =? b, s8 a <? s8 b).
Definition scasb (al edi : Z) : M (Z * (bool * bool)) :=
  v ← peek edi; edi ← step edi; mret (edi, compare al v).
Definition cmpsb (esi edi : Z) : M (Z * Z * (bool * bool)) :=
  a ← peek esi; b ← peek edi; esi ← step esi; edi ← step edi; mret (esi, edi, compare a b).

(** [rep movsb] and [rep stosb]. *)
Fixpoint rep_movsb (ecx : nat) (esi edi : Z) : M unit :=
  match ecx with
  | O => mret tt
  | S ecx => r ← movsb esi edi; rep_movsb ecx (fst r) (snd r)
  end.
Fixpoint rep_stosb (ecx : nat) (al edi : Z) : M unit :=
  match ecx with
  | O => mret tt
  | S ecx => edi ← stosb al edi; rep_stosb ecx al edi
  end.

Section strings.
Variable fuel : nat.

(** [repne scasb]: [edi], [ecx] and the flags at its end. *)
Definition repne_scasb (al edi ecx : Z) (fl : bool * bool) : M (Z * Z * (bool * bool)) :=
  kloop fuel (fun '(edi, ecx, fl) =>
    if ecx =? 0 then mret (inr (edi, ecx, fl))
    else
      r ← scasb al edi;
      let '(edi, fl) := r in
      mret (if fst fl : bool then inr (edi, ecx - 1, fl) else inl (edi, ecx - 1, fl))) (edi, ecx, fl).
(** [repe cmpsb] *)
Definition repe_cmpsb (esi edi ecx : Z) (fl : bool * bool) : M (Z * Z * (bool * bool)) :=
  kloop fuel (fun '(esi, edi, ecx, fl) =>
    if ecx =? 0 then mret (inr (esi, edi, fl))
    else
      r ← cmpsb esi edi;
      let '(esi, edi, fl) := r in
      mret (if negb (fst fl) then inr (esi, edi, fl) else inl (esi, edi, ecx - 1, fl))) (esi, edi, ecx, fl).
(** [notl %ecx; decl %ecx] after the scan for the end of a string. *)
Definition scanned (ecx : Z) : Z := u32 (Z.lnot ecx - 1).
Definition length_of (s : Z) : M Z :=
  r ← repne_scasb 0 s 0xffffffff (false, false); mret (scanned (snd (fst r))).

Definition strcpy (dest src : Z) : M Z :=
  cld ;;
  kloop fuel (fun '(esi, edi) =>
    r ← lodsb esi; let '(al, esi) := r in
    edi ← stosb al edi;
    mret (if truth al then inl (esi, edi) else inr tt)) (src, dest) ;;
  mret dest.

(** The count is signed. *)
Definition strncpy (dest src count : Z) : M Z :=
  cld ;;
  r ← kloop fuel (fun '(esi, edi, ecx) =>
    let ecx := ecx - 1 in
    if ecx <? 0 then mret (inr (0, 0))
    else
      r ← lodsb esi; let '(al, esi) := r in
      edi ← stosb al edi;
      mret (if truth al then inl (esi, edi, ecx) else inr (edi, ecx))) (src, dest, count);
  rep_stosb (Z.to_nat (snd r)) 0 (fst r) ;;
  mret dest.

Definition strcat (dest src : Z) : M Z :=
  cld ;;
  r ← repne_scasb 0 dest 0xffffffff (false, false);
  kloop fuel (fun '(esi, edi) =>
    r ← lodsb esi; let '(al, esi) := r in
    edi ← stosb al edi;
    mret (if truth al then inl (esi, edi) else inr tt)) (src, u32 (fst (fst r) - 1)) ;;
  mret dest.

Definition strncat (dest src count : Z) : M Z :=
  cld ;;
  r ← repne_scasb 0 dest 0xffffffff (false, false);
  edi ← kloop fuel (fun '(esi, edi, ecx) =>
    let ecx := ecx - 1 in
    if ecx <? 0 then mret (inr edi)
    else
      r ← lodsb esi; let '(al, esi) := r in
      edi ← stosb al edi;
      mret (if truth al then inl (esi, edi, ecx) else inr edi)) (src, u32 (fst (fst r) - 1), count);
  _ ← stosb 0 edi;
  mret dest.

(** [movl $1,%eax; jl; negl %eax] *)
Definition sign (fl : bool * bool) : Z := if (snd fl : bool) then 1 else -1.

Definition strcmp (cs ct : Z) : M Z :=
  cld ;;
  kloop fuel (fun '(esi, edi) =>
    r ← lodsb esi; let '(al, esi) := r in
    r ← scasb al edi; let '(edi, fl) := r in
    mret (if negb (fst fl) then inr (sign fl) else if truth al then inl (esi, edi) else inr 0)) (ct, cs).
Definition strncmp (cs ct count : Z) : M Z :=
  cld ;;
  kloop fuel (fun '(esi, edi, ecx) =>
    let ecx := ecx - 1 in
    if ecx <? 0 then mret (inr 0)
    else
      r ← lodsb esi; let '(al, esi) := r in
      r ← scasb al edi; let '(edi, fl) := r in
      mret (if negb (fst fl) then inr (sign fl) else if truth al then inl (esi, edi, ecx) else inr 0)) (ct, cs, count).

Definition strchr (s c : Z) : M Z :=
  cld ;;
  esi ← kloop fuel (fun esi =>
    r ← lodsb esi; let '(al, esi) := r in
    mret (if al =? u8 c then inr esi else if truth al then inl esi else inr 1)) s;
  mret (u32 (esi - 1)).
Definition strrchr (s c : Z) : M Z :=
  cld ;;
  kloop fuel (fun '(esi, res) =>
    r ← lodsb esi; let '(al, esi) := r in
    let res := if al =? u8 c then u32 (esi - 1) else res in
    mret (if truth al then inl (esi, res) else inr res)) (s, 0).

(** Whether the byte [al], which is not zero, is among the first [edx]
    bytes of [ct]: the flags were left by the test of [al]. *)
Definition among (al ct edx : Z) : M bool :=
  r ← repne_scasb al ct edx (false, false); mret (fst (snd r)).

(** The end of the span of [cs] whose bytes satisfy, or do not satisfy,
    [among]; [zero] tells that the end of the string was reached. *)
Definition span (inside : bool) (cs ct : Z) : M (Z * bool) :=
  cld ;;
  edx ← length_of ct;
  kloop fuel (fun esi =>
    r ← lodsb esi; let '(al, esi) := r in
    if negb (truth al) then mret (inr (u32 (esi - 1), true))
    else
      b ← among al ct edx;
      mret (if Bool.eqb b inside then inl esi else inr (u32 (esi - 1), false))) cs.
Definition strspn (cs ct : Z) : M Z := r ← span true cs ct; mret (s32 (fst r - cs)).
Definition strcspn (cs ct : Z) : M Z := r ← span false cs ct; mret (s32 (fst r - cs)).
Definition strpbrk (cs ct : Z) : M Z := r ← span false cs ct; mret (if (snd r : bool) then 0 else fst r).

(** The search ends where the comparison has met the end of [cs]. *)
Definition strstr (cs ct : Z) : M Z :=
  cld ;;
  edx ← length_of ct;
  kloop fuel (fun esi =>
    r ← repe_cmpsb esi ct edx (edx =? 0, false);
    let '(eax, _, fl) := r in
    if (fst fl : bool) then mret (inr esi)
    else
      c ← peek (eax - 1);
      mret (if truth c then inl (u32 (esi + 1)) else inr 0)) cs.

Definition strlen (s : Z) : M Z := cld ;; n ← length_of s; mret (s32 n).

(** [strtok] from its label 2 on: the token, and what follows it; [0] when
    there is no token. *)
Definition skip_delimiters (esi ct edx : Z) : M Z :=
  kloop fuel (fun esi =>
    r ← lodsb esi; let '(al, esi) := r in
    if negb (truth al) then mret (inr 0)
    else
      b ← among al ct edx;
      mret (if (b : bool) then inl esi else inr (u32 (esi - 1)))) esi.
Definition end_token (esi ct edx : Z) : M Z :=
  kloop fuel (fun esi =>
    r ← lodsb esi; let '(al, esi) := r in
    if negb (truth al) then mret (inr 0)
    else
      b ← among al ct edx;
      if (b : bool) then poke (esi - 1) 0 ;; mret (inr esi) else mret (inl esi)) esi.
Definition strtok (s ct : Z) : M Z :=
  saved ← gets strtok_next;
  let esi := if truth s then s else saved in
  if negb (truth esi) then modify (fun m => m ⟪ strtok_next := 0 ⟫) ;; mret 0
  else
    cld ;;
    edx ← length_of ct;
    ebx ← (if edx =? 0 then mret 0 else skip_delimiters esi ct edx);
    next ← (if truth ebx then end_token ebx ct edx else mret 0);
    modify (fun m => m ⟪ strtok_next := next ⟫) ;;
    mret ebx.

(** ** Blocks of memory *)

Definition memcpy (dest src n : Z) : M Z :=
  cld ;; rep_movsb (Z.to_nat (u32 n)) src dest ;; mret dest.
(** The direction flag stays set after a copy that goes down. *)
Definition memmove (dest src n : Z) : M Z :=
  (if dest <? src then cld ;; rep_movsb (Z.to_nat (u32 n)) src dest
   else std ;; rep_movsb (Z.to_nat (u32 n)) (u32 (src + n - 1)) (u32 (dest + n - 1))) ;;
  mret dest.
(** For a count of zero the result depends on the flags [fl] before the
    call. *)
Definition memcmp (fl : bool * bool) (cs ct count : Z) : M Z :=
  cld ;;
  r ← repe_cmpsb ct cs (u32 count) fl;
  let '(_, _, fl) := r in
  mret (if (fst fl : bool) then 0 else sign fl).
Definition memchr (cs c count : Z) : M Z :=
  if count =? 0 then mret 0
  else
    cld ;;
    r ← repne_scasb (u8 c) cs (u32 count) (false, false);
    mret (u32 ((if fst (snd r) : bool then fst (fst r) else 1) - 1)).
Definition memset (s c count : Z) : M Z :=
  cld ;; rep_stosb (Z.to_nat (u32 count)) (u8 c) s ;; mret s.
End strings.

(** ** [memmove] *)

Lemma byte_at_u32 m a : byte_at m (u32 a) = byte_at m a.
Proof. unfold byte_at, u32. by rewrite Z.mod_mod by lia. Qed.
Lemma set_byte_u32 m a v : set_byte (u32 a) v m = set_byte a v m.
Proof. unfold set_byte, u32. by rewrite Z.mod_mod by lia. Qed.
Lemma u32_up a : u32 (u32 a + 1) = u32 (a + 1).
Proof. unfold u32. by rewrite Zplus_mod_idemp_l. Qed.
Lemma u32_down a : u32 (u32 a - 1) = u32 (a - 1).
Proof. unfold u32. by rewrite Zminus_mod_idemp_l. Qed.

(** One step of [rep movsb]. *)
Lemma rep_movsb_S n src dest s :
  rep_movsb (S n) (u32 src) (u32 dest) s =
    let d := if df s then -1 else 1 in
    rep_movsb n (u32 (src + d)) (u32 (dest + d)) (s ⟪ mem := set_byte dest (byte_at (mem s) src) (mem s) ⟫).
Proof.
  cbn [rep_movsb]. unfold movsb, peek, poke, step, mbind, kbind, gets, modify, mret, kret. cbn [df mem set_field fst snd].
  rewrite byte_at_u32, set_byte_u32. destruct (df s); cbv zeta.
  - change (src + -1) with (src - 1). change (dest + -1) with (dest - 1). by rewrite !u32_down.
  - by rewrite !u32_up.
Qed.

(** Memory after [n] bytes have been moved. *)
Definition moved (n : nat) (dest src : Z) (m m' : gmap Z Z) : Prop :=
  forall a, 0 <= a < 4294967296 ->
    byte_at m' a = if (dest <=? a) && (a <? dest + Z.of_nat n) then u8 (byte_at m (a - dest + src)) else byte_at m a.

Lemma byte_at_set m a b v :
  0 <= a < 4294967296 -> 0 <= b < 4294967296 -> byte_at (set_byte a v m) b = if b =? a then u8 v else byte_at m b.
Proof.
  intros Ha Hb. destruct (Z.eqb_spec b a) as [->|Hne]; [apply byte_at_set_eq|].
  apply byte_at_set_ne, u32_distinct; lia.
Qed.

(** What is copied last, a byte at [dest] from [src]; the other bytes of the
    source are not at [dest]. *)
Ltac moving IH a Ha :=
  rewrite (IH a Ha); cbn [mem set_field];
  repeat match goal with |- context [?x <=? ?y] => destruct (Z.leb_spec x y) end;
  repeat match goal with |- context [?x <? ?y] => destruct (Z.ltb_spec x y) end;
  cbn [andb]; try lia;
  rewrite byte_at_set by lia;
  match goal with |- context [?x =? ?y] => destruct (Z.eqb_spec x y) end;
  try lia; try done; f_equal; f_equal; lia.

Lemma movsb_up n : forall src dest s,
  df s = false -> 0 <= dest < src -> src + Z.of_nat n <= 4294967296 -> exists m',
    rep_movsb n (u32 src) (u32 dest) s = Done tt (s ⟪ mem := m' ⟫) /\ moved n dest src (mem s) m'.
Proof.
  induction n as [|n IH]; intros src dest s Hdf Hd Hs.
  - exists (mem s). split; [by destruct s|]. intros a Ha. change (Z.of_nat 0) with 0.
    destruct (Z.leb_spec dest a), (Z.ltb_spec a (dest + 0)); (done || lia).
  - rewrite rep_movsb_S, Hdf. cbv zeta.
    destruct (IH (src + 1) (dest + 1) (s ⟪ mem := set_byte dest (byte_at (mem s) src) (mem s) ⟫)) as (m' & Hrun & Hm);
      [done|lia|lia|].
    exists m'. split; [done|]. intros a Ha. moving Hm a Ha.
Qed.
Lemma movsb_down n : forall src dest s,
  df s = true -> 0 <= src <= dest -> dest + Z.of_nat n <= 4294967296 -> exists m',
    rep_movsb n (u32 (src + Z.of_nat n - 1)) (u32 (dest + Z.of_nat n - 1)) s = Done tt (s ⟪ mem := m' ⟫) /\
    moved n dest src (mem s) m'.
Proof.
  induction n as [|n IH]; intros src dest s Hdf Hd Hs.
  - exists (mem s). split; [by destruct s|]. intros a Ha. change (Z.of_nat 0) with 0.
    destruct (Z.leb_spec dest a), (Z.ltb_spec a (dest + 0)); (done || lia).
  - rewrite rep_movsb_S, Hdf. cbv zeta.
    replace (src + Z.of_nat (S n) - 1 + -1) with (src + Z.of_nat n - 1) by lia.
    replace (dest + Z.of_nat (S n) - 1 + -1) with (dest + Z.of_nat n - 1) by lia.
    set (s1 := s ⟪ mem := _ ⟫).
    destruct (IH src dest s1) as (m' & Hrun & Hm); [done|lia|lia|].
    exists m'. split; [done|]. intros a Ha. unfold s1 in Hm. moving Hm a Ha.
Qed.

(** C28: [memmove] moves a block correctly however source and destination
    overlap: afterwards the destination holds what the source held, and the
    rest of memory is as before.  A copy that goes down leaves the
    direction flag set. *)
Theorem memmove_moves (dest src n : Z) (s : cpu) :
  0 <= n < 4294967296 -> 0 <= dest < 4294967296 -> 0 <= src < 4294967296 ->
  dest + n <= 4294967296 -> src + n <= 4294967296 ->
  wp (memmove dest src n) (fun r s' =>
    r = dest /\
    (forall k, 0 <= k < n -> byte_at (mem s') (dest + k) = u8 (byte_at (mem s) (src + k))) /\
    (forall a, 0 <= a < 4294967296 -> a < dest \/ dest + n <= a -> byte_at (mem s') a = byte_at (mem s) a) /\
    df s' = negb (dest <? src)) s.
Proof.
  intros Hn Hd Hs Hdn Hsn. apply wp_run.
  enough (exists m', memmove dest src n s = Done dest (s ⟪ df := negb (dest <? src) ⟫ ⟪ mem := m' ⟫) /\
    moved (Z.to_nat n) dest src (mem s) m') as (m' & Hrun & Hm).
  { exists dest, (s ⟪ df := negb (dest <? src) ⟫ ⟪ mem := m' ⟫). split; [done|]. split; [done|].
    cbn [mem df set_field]. unfold moved in Hm. rewrite Z2Nat.id in Hm by lia. split_and!; [| |done].
    - intros k Hk. rewrite Hm by lia.
      destruct (Z.leb_spec dest (dest + k)), (Z.ltb_spec (dest + k) (dest + n)); try lia. cbn [andb].
      do 2 f_equal. lia.
    - intros a Ha Hout. rewrite Hm by lia.
      destruct (Z.leb_spec dest a), (Z.ltb_spec a (dest + n)); (done || lia). }
  unfold memmove. rewrite (u32_small n) by lia. destruct (Z.ltb_spec dest src); cbn [negb].
  - destruct (movsb_up (Z.to_nat n) src dest (s ⟪ df := false ⟫)) as (m' & Hrun & Hm); [done|lia|lia|].
    rewrite (u32_small src), (u32_small dest) in Hrun by lia. exists m'. split; [|done].
    unfold cld, mbind, kbind, modify, mret, kret. by rewrite Hrun.
  - destruct (movsb_down (Z.to_nat n) src dest (s ⟪ df := true ⟫)) as (m' & Hrun & Hm); [done|lia|lia|].
    rewrite Z2Nat.id in Hrun by lia. exists m'. split; [|done].
    unfold std, mbind, kbind, modify, mret, kret. by rewrite Hrun.
Qed.

(** Three bytes moved up by one. *)
Lemma memmove_moves_witness :
  wp (memmove 101 100 3) (fun r s' => r = 101 /\ byte_at (mem s') 103 = 9 /\ df s' = true)
    (Cpu {[ 100 := 7; 101 := 8; 102 := 9 ]} false 0).
Proof.
  eapply wp_mono; [apply memmove_moves; lia|]. intros r s' (-> & Hb & _ & Hd).
  split; [reflexivity|]. split; [exact (Hb 2 ltac:(lia))|exact Hd].
Defined.
End Str.
