(* ===== verification/Traps.v ===== *)
(** * Traps ([kernel/traps.c], the gate macros of [include/asm/system.h])

    The interrupt descriptor table with the macros that write its gates,
    [trap_init], and the C handlers that [asm.s] calls, which print the
    registers and end the task, with those of [math/math_emulate.c]. *)

From S2P Require Import Prelude Task Sched Kernel Exit Ports.

Module Traps.

(** The entry points that gates lead to.  Where they lie in memory is the
    linker's choice. *)
Inductive entry : Type :=
| divide_error | debug | nmi | int3 | overflow | bounds | invalid_op | device_not_available
| double_fault | coprocessor_segment_overrun | invalid_TSS | segment_not_present | stack_segment
| general_protection | page_fault | reserved | coprocessor_error | irq13 | parallel_interrupt
| timer_interrupt | keyboard_interrupt | rs1_interrupt | rs2_interrupt | hd_interrupt
| floppy_interrupt | system_call.
#[export] Instance entry_dec : EqDecision entry.
Proof. solve_decision. Defined.
Class Linked := address : entry -> Z.

(** [_set_gate]: [eax] is the selector 8 over the low half of the address,
    [edx] the high half of the address over the flags. *)
Definition set_gate (type dpl addr : Z) : desc_struct :=
  Desc (Z.lor 0x00080000 (Z.land addr 0xffff))
       (Z.lor (Z.land addr 0xffff0000) (u16 (0x8000 + Z.shiftl dpl 13 + Z.shiftl type 8))).

(** The components that keep the table in their state. *)
Class HasIdt (S : Type) := {
  idt : S -> list desc_struct;
  set_idt : list desc_struct -> S -> S
}.

Section gates.
Context {S : Type} `{!HasPorts S} `{!HasIdt S} {L : Linked} {D : Device}.

Definition write_gate (n : Z) (g : desc_struct) : KM S unit :=
  modify (fun s => set_idt (array_set (idt s) n g) s).
Definition set_intr_gate (n : Z) (e : entry) : KM S unit := write_gate n (set_gate 14 0 (address e)).
Definition set_trap_gate (n : Z) (e : entry) : KM S unit := write_gate n (set_gate 15 0 (address e)).
Definition set_system_gate (n : Z) (e : entry) : KM S unit := write_gate n (set_gate 15 3 (address e)).

Definition in_port (port : Z) : KM S Z := fun s => let '(v, s) := inb port s in Done v s.
Definition out_port (value port : Z) : KM S unit := modify (outb value port).

Definition trap_init : KM S unit :=
  set_trap_gate 0 divide_error ;;
  set_trap_gate 1 debug ;;
  set_trap_gate 2 nmi ;;
  set_system_gate 3 int3 ;;
  set_system_gate 4 overflow ;;
  set_system_gate 5 bounds ;;
  set_trap_gate 6 invalid_op ;;
  set_trap_gate 7 device_not_available ;;
  set_trap_gate 8 double_fault ;;
  set_trap_gate 9 coprocessor_segment_overrun ;;
  set_trap_gate 10 invalid_TSS ;;
  set_trap_gate 11 segment_not_present ;;
  set_trap_gate 12 stack_segment ;;
  set_trap_gate 13 general_protection ;;
  set_trap_gate 14 page_fault ;;
  set_trap_gate 15 reserved ;;
  set_trap_gate 16 coprocessor_error ;;
  kfor (seqZ 17 31) (fun i => set_trap_gate i reserved) ;;
  set_trap_gate 45 irq13 ;;
  v ← in_port 0x21; out_port (Z.land v 0xfb) 0x21 ;;
  v ← in_port 0xA1; out_port (Z.land v 0xdf) 0xA1 ;;
  set_trap_gate 39 parallel_interrupt.
End gates.

(** ** The handlers *)

(** What the handlers work on: the kernel and the messages printed, the
    latest first (the line ends are left out). *)
Record trapped (I : Type) : Type := Trapped {
  tkern : kernel I;
  printed : list (string * list Z)
}.
Arguments Trapped {I}. Arguments tkern {I}. Arguments printed {I}.
#[export] Instance trapped_rebuild {I} : Rebuild (trapped I) := fun s => Trapped (tkern s) (printed s).

Section handlers.
Context {I : Type} {IO : Inodes I}.

Definition on_tkern {A} (m : KM (kernel I) A) : KM (trapped I) A :=
  zoom tkern (fun k s => s ⟪ tkern := k ⟫) m.
Definition printk (fmt : string) (args : list Z) : KM (trapped I) unit :=
  modify (fun s => s ⟪ printed := (fmt, args) :: printed s ⟫).

(** The descriptor that a selector names, in the task's local table or in
    the global one. *)
Definition selected_desc (sel : Z) : KM (kernel I) desc_struct :=
  t ← on_ks get_current;
  g ← gets (fun s => gdt (ks s));
  read_at (if Z.testbit sel 2 then ldt t else g) (Z.shiftr sel 3).

(** [get_seg_long] and [get_seg_byte]; the bytes at an address are those of
    user memory, or of the kernel's own code, [kernel_byte]. *)
Definition get_seg_long (seg addr : Z) : KM (kernel I) Z :=
  d ← selected_desc seg; gets (fun s => long_at (user s) (get_base d + addr)).
Definition get_seg_byte (kernel_byte : Z -> Z) (seg addr : Z) : KM (kernel I) Z :=
  d ← selected_desc seg;
  if Z.testbit seg 2 then gets (fun s => byte_at (user s) (get_base d + addr))
  else mret (kernel_byte (u32 (get_base d + addr))).

Variable kernel_byte : Z -> Z.

(** [die]; [esp] holds the longwords that the processor pushed and [fs] the
    segment register. *)
Definition die (fs : Z) (str : string) (esp : list Z) (nr : Z) : KM (trapped I) unit :=
  printk (str +:+ ": %04x") [Z.land nr 0xffff] ;;
  e0 ← read_at esp 0; e1 ← read_at esp 1; e2 ← read_at esp 2; e3 ← read_at esp 3; e4 ← read_at esp 4;
  printk "EIP:%04x:%p EFLAGS:%p ESP:%04x:%p" [e1; e0; e2; e4; e3] ;;
  printk "fs: %04x" [fs] ;;
  cur ← on_tkern (on_ks get_current);
  code ← read_at (ldt cur) 1;
  data ← on_tkern (selected_desc 0x17);
  printk "base: %p, limit: %p" [get_base code; get_limit data] ;;
  kwhen (e4 =? 0x17)
    (printk "Stack: " [] ;;
     kfor (upto 4) (fun i => v ← on_tkern (get_seg_long 0x17 (e3 + 4 * i)); printk "%p " [v])) ;;
  i ← on_tkern (gets (fun s => str_task (TSS (current (ks s)))));
  printk "Pid: %d, process nr: %d" [pid cur; Z.land 0xffff i] ;;
  kfor (upto 10) (fun i =>
    v ← on_tkern (get_seg_byte kernel_byte e1 (e0 + i)); printk "%02x " [Z.land 0xff v]) ;;
  _ ← on_tkern (do_exit 11); mret tt.

Section entries.
Variables (fs : Z) (esp : list Z) (error_code : Z).
Definition do_double_fault := die fs "double fault" esp error_code.
Definition do_general_protection := die fs "general protection" esp error_code.
Definition do_divide_error := die fs "divide error" esp error_code.
Definition do_nmi := die fs "nmi" esp error_code.
Definition do_debug := die fs "debug" esp error_code.
Definition do_overflow := die fs "overflow" esp error_code.
Definition do_bounds := die fs "bounds" esp error_code.
Definition do_invalid_op := die fs "invalid operand" esp error_code.
Definition do_device_not_available := die fs "device not available" esp error_code.
Definition do_coprocessor_segment_overrun := die fs "coprocessor segment overrun" esp error_code.
Definition do_invalid_TSS := die fs "invalid TSS" esp error_code.
Definition do_segment_not_present := die fs "segment not present" esp error_code.
Definition do_stack_segment := die fs "stack segment" esp error_code.
(** The coprocessor's error belongs to the task that used it last. *)
Definition do_coprocessor_error : KM (trapped I) unit :=
  s ← on_tkern (gets ks);
  if bool_decide (last_task_used_math s = Some (current s))
  then die fs "coprocessor error" esp error_code
  else mret tt.
Definition do_reserved := die fs "reserved (15,17-47) error" esp error_code.
End entries.

(** [do_int3] prints the registers that [asm.s] has pushed, [esp_ptr] being
    the address of the longwords [esp] and [tr] the task register. *)
Definition do_int3 (esp_ptr : Z) (esp : list Z)
    (fs es ds ebp esi edi edx ecx ebx eax : Z) : KM (trapped I) unit :=
  tr ← on_tkern (gets (fun s => TSS (current (ks s))));
  printk "eax ebx ecx edx %8x %8x %8x %8x" [eax; ebx; ecx; edx] ;;
  printk "esi edi ebp esp %8x %8x %8x %8x" [esi; edi; ebp; esp_ptr] ;;
  printk "ds es fs tr %4x %4x %4x %4x" [ds; es; fs; tr] ;;
  e0 ← read_at esp 0; e1 ← read_at esp 1; e2 ← read_at esp 2;
  printk "EIP: %8x   CS: %4x  EFLAGS: %8x" [e0; e1; e2].

(** ** [kernel/math/math_emulate.c] *)

Definition SIGFPE : Z := 8.
Definition raise_fpe (t : task_struct) : task_struct :=
  t ⟪ signal := s32 (Z.lor (signal t) (Z.shiftl 1 (SIGFPE - 1))) ⟫.
(** Of the registers that [asm.s] passes, only [eip] and [cs] are used. *)
Definition math_emulate (eip cs : Z) : KM (trapped I) unit :=
  if negb (cs =? 0x000F) then
    printk "math_emulate: %04x:%08x" [cs; eip] ;;
    panic "Math emulation needed in kernel"
  else
    first ← on_tkern (get_fs_byte eip);
    second ← on_tkern (get_fs_byte (u32 (eip + 1)));
    printk "%04x:%08x %02x %02x" [cs; eip; first; second] ;;
    on_tkern (on_ks (update_current raise_fpe)).
(** [fnclex] clears the coprocessor's exceptions, which are not modelled. *)
Definition math_error : KM (trapped I) unit :=
  o ← on_tkern (gets (fun s => last_task_used_math (ks s)));
  match o with
  | Some i => on_tkern (on_ks (update_task i raise_fpe))
  | None => mret tt
  end.
End handlers.
End Traps.
