(* ===== verification/Boot.v ===== *)
(** * Initialisation ([init/main.c])

    [main] up to the switch to user mode: how memory is divided, the clock
    that is read from the CMOS, and the initialisation of every component
    in the order of the code, with the gates that the routines write into
    the interrupt descriptor table. *)

From S2P Require Import Prelude Memory Task Sched Timer Kernel Mktime Ports Traps Console Tty FsData Block Buffer Cache Getblk Hd Floppy.
Import Traps Block Buffer.

Module Boot.
#[local] Existing Instance Hd.hd_rebuild.
#[local] Existing Instance Floppy.fd_rebuild.

(** What [setup.s] left at [0x90000] for [main] and [con_init]. *)
Record setup_info : Type := SetupInfo {
  EXT_MEM_K : Z;
  DRIVE_INFO : list Z;
  ORIG_ROOT_DEV : Z;
  video : Con.setup_data
}.

(** The components' states.  The drivers' own copies of the request queues
    and of the accesses to ports are those of [bblk] and of the console. *)
Record boot (I : Type) : Type := Boot {
  btty : Tty.tstate I;
  bblk : blk;
  bhd : Hd.hd_state;
  bfd : Floppy.fd_state;
  bidt : list desc_struct;
  drive_info : list Z;
  memory_end : Z; buffer_memory_end : Z; main_memory_start : Z;
  interrupts : bool                     (* the processor's flag IF *)
}.
Arguments Boot {I}. Arguments btty {I}. Arguments bblk {I}. Arguments bhd {I}. Arguments bfd {I}.
Arguments bidt {I}. Arguments drive_info {I}. Arguments memory_end {I}.
Arguments buffer_memory_end {I}. Arguments main_memory_start {I}. Arguments interrupts {I}.
#[export] Instance boot_rebuild {I} : Rebuild (boot I) := fun s =>
  Boot (btty s) (bblk s) (bhd s) (bfd s) (bidt s) (drive_info s)
    (memory_end s) (buffer_memory_end s) (main_memory_start s) (interrupts s).
#[export] Instance boot_ports {I} : HasPorts (boot I) := {
  ports s := ports (btty s);
  set_ports l s := s ⟪ btty := set_ports l (btty s) ⟫
}.
#[export] Instance boot_idt {I} : HasIdt (boot I) := {
  idt := bidt;
  set_idt l s := s ⟪ bidt := l ⟫
}.

Section boot.
Context {I : Type} {L : Linked} {D : Device}.

Definition on_tty {A} (m : KM (Tty.tstate I) A) : KM (boot I) A := zoom btty (fun t s => s ⟪ btty := t ⟫) m.
Definition on_kernel {A} (m : KM (kernel I) A) : KM (boot I) A := on_tty (Tty.on_kern m).
Definition on_blk {A} (m : KM blk A) : KM (boot I) A := zoom bblk (fun b s => s ⟪ bblk := b ⟫) m.
Definition on_hd {A} (m : KM Hd.hd_state A) : KM (boot I) A :=
  zoom (fun s => (bhd s) ⟪ Hd.hblk := bblk s ⟫ ⟪ Hd.hports := ports s ⟫)
       (fun h s => set_ports (Hd.hports h) (s ⟪ bhd := h ⟫ ⟪ bblk := Hd.hblk h ⟫)) m.
Definition on_fd {A} (m : KM Floppy.fd_state A) : KM (boot I) A :=
  zoom (fun s => (bfd s) ⟪ Floppy.fblk := bblk s ⟫ ⟪ Floppy.fports := ports s ⟫)
       (fun f s => set_ports (Floppy.fports f) (s ⟪ bfd := f ⟫ ⟪ bblk := Floppy.fblk f ⟫)) m.

(** ** [time_init] *)

Definition CMOS_READ (addr : Z) : KM (boot I) Z := out_port (Z.lor 0x80 addr) 0x70 ;; in_port 0x71.
Definition BCD_TO_BIN (val : Z) : Z := Z.land val 15 + Z.shiftr val 4 * 10.

(** One turn of the [do] loop: it goes round again when the second has
    changed meanwhile. *)
Definition read_clock : KM (boot I) (unit + tm) :=
  sec ← CMOS_READ 0;
  min ← CMOS_READ 2;
  hour ← CMOS_READ 4;
  mday ← CMOS_READ 7;
  mon ← CMOS_READ 8;
  year ← CMOS_READ 9;
  again ← CMOS_READ 0;
  if negb (sec =? again) then mret (inl tt) else mret (inr (Tm sec min hour mday mon year)).

Definition time_init (fuel : nat) : KM (boot I) unit :=
  t ← kloop fuel (fun _ => read_clock) tt;
  let t := Tm (BCD_TO_BIN (tm_sec t)) (BCD_TO_BIN (tm_min t)) (BCD_TO_BIN (tm_hour t))
              (BCD_TO_BIN (tm_mday t)) (BCD_TO_BIN (tm_mon t)) (BCD_TO_BIN (tm_year t)) in
  let t := Tm (tm_sec t) (tm_min t) (tm_hour t) (tm_mday t) (tm_mon t - 1) (tm_year t) in
  v ← deref (kernel_mktime t);
  on_kernel (on_ks (modify (fun s => s ⟪ startup_time := v ⟫))).

(** ** The division of memory *)

(** [memory_end], and the end of the buffers that goes with it. *)
Definition memory_size (ext_mem_k : Z) : Z :=
  let e := Z.land (Z.shiftl 1 20 + Z.shiftl ext_mem_k 10) 0xfffff000 in
  if 16 * 1024 * 1024 <? e then 16 * 1024 * 1024 else e.
Definition buffer_limit (memory_end : Z) : Z :=
  if 12 * 1024 * 1024 <? memory_end then 4 * 1024 * 1024
  else if 6 * 1024 * 1024 <? memory_end then 2 * 1024 * 1024
  else 1 * 1024 * 1024.

(** [RAMDISK] is the build option, in kilobytes. *)
Definition memory_setup (RAMDISK : option Z) (h : setup_info) : KM (boot I) unit :=
  let e := memory_size (EXT_MEM_K h) in
  modify (fun s => s ⟪ memory_end := e ⟫ ⟪ buffer_memory_end := buffer_limit e ⟫
                     ⟪ main_memory_start := buffer_limit e ⟫) ;;
  match RAMDISK with
  | None => mret tt
  | Some k =>
      start ← gets main_memory_start;
      n ← on_blk (rd_init start (k * 1024));
      modify (fun s => s ⟪ main_memory_start := start + n ⟫)
  end ;;
  start ← gets main_memory_start; e ← gets memory_end;
  on_kernel (on_km (mem_init start e)).

(** ** The routines that [main] calls, with their gates *)

Definition LATCH : Z := 1193180 / HZ.

(** [sched_init] of [sched.c]; [ltr] and [lldt] load the registers for task
    0, and the processor's flag NT is not modelled. *)
Definition sched_init (init_tss init_ldt : Z) : KM (boot I) unit :=
  on_kernel (on_ks (Sched.sched_init init_tss init_ldt)) ;;
  out_port 0x36 0x43 ;;
  out_port (Z.land LATCH 0xff) 0x40 ;;
  out_port (Z.shiftr LATCH 8) 0x40 ;;
  set_intr_gate 0x20 timer_interrupt ;;
  v ← in_port 0x21; out_port (Z.land v (Z.lnot 0x01)) 0x21 ;;
  set_system_gate 0x80 system_call.

(** The gates are written by the routines themselves, which [Tty], [Hd] and
    [Floppy] model up to the gate.  [chr_dev_init] does nothing. *)
Definition tty_init (d : Con.setup_data) : KM (boot I) unit :=
  set_intr_gate 0x24 rs1_interrupt ;;
  set_intr_gate 0x23 rs2_interrupt ;;
  on_tty (Tty.tty_init d) ;;
  set_trap_gate 0x21 keyboard_interrupt.
Definition hd_init : KM (boot I) unit :=
  set_intr_gate 0x2E hd_interrupt ;; on_hd Hd.hd_init.
Definition floppy_init : KM (boot I) unit :=
  set_trap_gate 0x26 floppy_interrupt ;; on_fd Floppy.floppy_init.

(** ** [main] *)

(** What the linker and the memory before the start decide: the addresses of
    the initial task's TSS and LDT, the end of the kernel, and what
    [buffer_init] finds. *)
Record image : Type := Image {
  init_tss : Z; init_ldt : Z; kernel_end : Z;
  old_head : Z -> buffer_head; old_block : Z -> list Z
}.

Definition main (fuel : nat) (RAMDISK : option Z) (g : image) (h : setup_info) : KM (boot I) unit :=
  on_blk (modify (fun b => b ⟪ fsd := (fsd b) ⟪ FsData.ROOT_DEV := ORIG_ROOT_DEV h ⟫ ⟫)) ;;
  modify (fun s => s ⟪ drive_info := DRIVE_INFO h ⟫) ;;
  memory_setup RAMDISK h ;;
  trap_init ;;
  on_blk blk_dev_init ;;
  tty_init (video h) ;;
  time_init fuel ;;
  sched_init (init_tss g) (init_ldt g) ;;
  e ← gets buffer_memory_end;
  on_blk (buffer_init (kernel_end g) e (old_head g) (old_block g)) ;;
  hd_init ;;
  floppy_init ;;
  modify (fun s => s ⟪ interrupts := true ⟫).
End boot.
End Boot.
