(* ===== verification/BootOk.v ===== *)
(** * What [main] sets up

    The gates of the interrupt descriptor table as the processor reads them,
    the clock against the CMOS it reads, and the state in which [main]
    leaves the components. *)

From S2P Require Import Prelude Memory Task Sched Timer Kernel Mktime Ports Traps Console Tty FsData Block Buffer Cache Getblk Hd Floppy Boot.
Import Traps Block Buffer Cache Getblk Boot.

Module BootOk.
#[local] Existing Instance Hd.hd_rebuild.
#[local] Existing Instance Floppy.fd_rebuild.

(** ** Gates as the processor reads them *)

Record gate : Type := Gate { selector : Z; offset : Z; present : bool; dpl : Z; gate_type : Z }.
Definition gate_of (d : desc_struct) : gate :=
  Gate (Z.shiftr (desc_a d) 16)
       (Z.lor (Z.land (desc_a d) 0xffff) (Z.land (desc_b d) 0xffff0000))
       (Z.testbit (desc_b d) 15)
       (Z.land (Z.shiftr (desc_b d) 13) 3)
       (Z.land (Z.shiftr (desc_b d) 8) 0x1f).

Lemma low_half a f : 0 <= f < 2 ^ 16 -> Z.land (Z.lor (Z.land a 0xffff0000) f) 0xffff = f.
Proof.
  intros Hf. rewrite <- (Z.mod_small f (2 ^ 16)) at 2 by done. rewrite <- Z.land_ones by lia.
  change (Z.ones 16) with 0xffff. apply Z.bits_inj'. intros n Hn. masks.
  assert (n < 16 \/ 16 <= n) as [?|?] by lia; bit_cases.
Qed.
Lemma field_low a f k w :
  0 <= f < 2 ^ 16 -> 0 <= k -> 0 <= w -> k + w <= 16 ->
  Z.land (Z.shiftr (Z.lor (Z.land a 0xffff0000) f) k) (Z.ones w) = Z.land (Z.shiftr f k) (Z.ones w).
Proof.
  intros Hf Hk Hw Hkw. apply Z.bits_inj'. intros n Hn.
  change (Z.ones w) with (Z.ones w). rewrite <- (Z.shiftl_0_r (Z.ones w)). masks.
  assert (n < w \/ w <= n) as [?|?] by lia; bit_cases.
Qed.

(** A gate that [set_gate] writes is present, names the kernel's code segment
    and the handler, and has its type and privilege level. *)
Lemma gate_of_set_gate type level addr :
  type = 14 \/ type = 15 -> level = 0 \/ level = 3 -> 0 <= addr < 2 ^ 32 ->
  gate_of (set_gate type level addr) = Gate 8 addr true level type.
Proof.
  intros Ht Hl Ha. unfold gate_of, set_gate. cbn [desc_a desc_b].
  set (f := u16 (0x8000 + Z.shiftl level 13 + Z.shiftl type 8)).
  assert (Hf : 0 <= f < 2 ^ 16) by apply u16_bound.
  assert (Hlow : forall n, n < 16 -> 0 <= n ->
    Z.testbit (Z.lor (Z.land addr 0xffff0000) f) n = Z.testbit f n).
  { intros n H1 H2. masks. bit_cases. }
  f_equal.
  - apply bits32_eq; [|lia|].
    + pose proof (land_bound addr 0xffff ltac:(lia)).
      rewrite Z.shiftr_div_pow2 by lia. pose proof (lor_bound 0x80000 (Z.land addr 0xffff) 32).
      split; [apply Z.div_pos|apply Z.div_lt_upper_bound]; lia.
    + intros n Hn. rewrite Z.shiftr_spec, Z.lor_spec by lia. masks.
      rewrite Z.land_spec, testbit_mask by lia.
      replace (n + 16 <? 0 + 16) with false by (symmetry; apply Z.ltb_ge; lia).
      rewrite !andb_false_r, orb_false_r.
      change 0x80000 with (Z.shiftl 8 16). rewrite Z.shiftl_spec by lia. f_equal. lia.
  - apply bits32_eq; [|done|].
    + pose proof (land_bound (Z.lor 0x80000 (Z.land addr 0xffff)) 0xffff ltac:(lia)).
      pose proof (land_bound (Z.lor (Z.land addr 0xffff0000) f) 0xffff0000 ltac:(lia)).
      apply lor_bound; lia.
    + intros n Hn. change 0x80000 with (Z.shiftl 8 16). masks.
      assert (n < 16 \/ 16 <= n) as [?|?] by lia.
      * bit_cases.
      * assert (Hfn : Z.testbit f n = false)
          by (rewrite <- (Z.mod_small f (2 ^ 16)) by done; apply Z.mod_pow2_bits_high; lia).
        rewrite !Z.lor_spec, !Z.land_spec, !Z.lor_spec, Hfn. bit_cases.
  - rewrite Hlow by lia. destruct Ht as [-> | ->], Hl as [-> | ->]; reflexivity.
  - change 3 with (Z.ones 2) at 1. rewrite field_low by (done || lia).
    destruct Ht as [-> | ->], Hl as [-> | ->]; reflexivity.
  - change 0x1f with (Z.ones 5) at 1. rewrite field_low by (done || lia).
    destruct Ht as [-> | ->], Hl as [-> | ->]; reflexivity.
Qed.

(** ** The clock *)

(** Two decimal digits in a byte. *)
Definition bcd (n : Z) : Z := 16 * (n / 10) + n mod 10.
Lemma bcd_range n : 0 <= n < 100 -> 0 <= bcd n < 256.
Proof.
  intros. unfold bcd. pose proof (Z.div_mod n 10). pose proof (Z.mod_pos_bound n 10).
  assert (n / 10 < 10) by (apply Z.div_lt_upper_bound; lia). pose proof (Z.div_pos n 10). lia.
Qed.
Lemma BCD_TO_BIN_bcd n : 0 <= n < 100 -> BCD_TO_BIN (bcd n) = n.
Proof.
  intros Hn. unfold BCD_TO_BIN, bcd. change 15 with (Z.ones 4).
  rewrite Z.land_ones, Z.shiftr_div_pow2 by lia. change (2 ^ 4) with 16.
  pose proof (Z.mod_pos_bound n 10 ltac:(lia)).
  replace (16 * (n / 10) + n mod 10) with (n mod 10 + n / 10 * 16) by lia.
  rewrite Z.div_add, Z.mod_add, (Z.mod_small (n mod 10) 16), (Z.div_small (n mod 10) 16) by lia.
  pose proof (Z.div_mod n 10 ltac:(lia)). lia.
Qed.

(** The registers of the CMOS for a date; its month counts from 1. *)
Definition register (t : tm) (r : Z) : Z :=
  match r with
  | 0 => tm_sec t | 2 => tm_min t | 4 => tm_hour t
  | 7 => tm_mday t | 8 => tm_mon t + 1 | 9 => tm_year t | _ => 0
  end.
(** A date of the 20th century after 1969. *)
Definition date_ok (t : tm) : Prop :=
  70 <= tm_year t < 100 /\ 0 <= tm_mon t < 12 /\ 1 <= tm_mday t <= 31 /\
  0 <= tm_hour t < 24 /\ 0 <= tm_min t < 60 /\ 0 <= tm_sec t < 60.
(** The seconds of the calendar since 1970. *)
Definition seconds (t : tm) : Z :=
  86400 * (days_to (1900 + tm_year t) (tm_mon t) + tm_mday t - 1)
  + 3600 * tm_hour t + 60 * tm_min t + tm_sec t.

(** A clock that shows [clk n] after [n] accesses to ports.  When the second
    is the same at the two ends of a reading, of twelve accesses, the time
    has not changed in between. *)
Record clock_ok (D : Device) (clk : nat -> tm) : Prop := {
  ck_shows : forall log r, r ∈ [0; 2; 4; 7; 8; 9] ->
    port_value (Out (Z.lor 0x80 r) 0x70 :: log) 0x71 = bcd (register (clk (length log)) r);
  ck_date : forall n, date_ok (clk n);
  ck_steady : forall n k : nat, tm_sec (clk (n + 12)%nat) = tm_sec (clk n) -> (k <= 12)%nat -> clk (n + k)%nat = clk n
}.

Definition started {I} (v : Z) (s : boot I) : boot I :=
  s ⟪ btty := (btty s) ⟪ Tty.kern := (Tty.kern (btty s)) ⟪ ks := (ks (Tty.kern (btty s))) ⟪ startup_time := v ⟫ ⟫ ⟫ ⟫.

Section clock.
Context {I : Type} {D : Device} (clk : nat -> tm) (Hclk : clock_ok D clk).
Implicit Types s : boot I.

Lemma ports_set_ports l s : ports (set_ports l s) = l.
Proof. done. Qed.
Lemma set_ports_set_ports l l' s : set_ports l (set_ports l' s) = set_ports l s.
Proof. done. Qed.
Lemma register_range t r : date_ok t -> r ∈ [0; 2; 4; 7; 8; 9] -> 0 <= register t r < 100.
Proof.
  intros (?&?&?&?&?&?) Hr. rewrite !elem_of_cons, elem_of_nil in Hr.
  destruct Hr as [->|[->|[->|[->|[->|[->|[]]]]]]]; cbn; lia.
Qed.
Lemma CMOS_READ_run s r :
  r ∈ [0; 2; 4; 7; 8; 9] ->
  exists l, CMOS_READ r s = Done (bcd (register (clk (length (ports s))) r)) (set_ports l s) /\
    length l = (2 + length (ports s))%nat.
Proof using Hclk.
  intros Hr. pose proof (ck_shows _ _ Hclk (ports s) r Hr) as Hv.
  pose proof (bcd_range _ (register_range _ r (ck_date _ _ Hclk (length (ports s))) Hr)) as Hb.
  assert (Hu : u8 (Z.lor 0x80 r) = Z.lor 0x80 r).
  { rewrite !elem_of_cons, elem_of_nil in Hr.
    by destruct Hr as [->|[->|[->|[->|[->|[->|[]]]]]]]. }
  exists (In 0x71 (bcd (register (clk (length (ports s))) r)) :: Out (Z.lor 0x80 r) 0x70 :: ports s).
  split; [|done]. unfold CMOS_READ, out_port, in_port, outb, inb, mbind, kbind, modify.
  rewrite Hu. change (u16 0x70) with 0x70. change (u16 0x71) with 0x71.
  rewrite set_ports_set_ports, ports_set_ports. by rewrite Hv, u8_small.
Qed.

(** What the CMOS shows of a date. *)
Definition shown (t : tm) : tm :=
  Tm (bcd (tm_sec t)) (bcd (tm_min t)) (bcd (tm_hour t)) (bcd (tm_mday t)) (bcd (tm_mon t + 1)) (bcd (tm_year t)).
(** The reading that begins after [n] accesses sees no change of the second. *)
Definition quiet (n : nat) : Prop := tm_sec (clk (n + 12)%nat) = tm_sec (clk n).

Lemma bcd_inj a b : 0 <= a < 100 -> 0 <= b < 100 -> bcd a = bcd b -> a = b.
Proof. intros Ha Hb H. apply (f_equal BCD_TO_BIN) in H. by rewrite !BCD_TO_BIN_bcd in H. Qed.

(** Reading one register in front of the rest of a computation. *)
Lemma wp_CMOS_READ {A} (f : Z -> KM (boot I) A) Q s r n :
  r ∈ [0; 2; 4; 7; 8; 9] -> length (ports s) = n ->
  (forall l, length l = (n + 2)%nat -> wp (f (bcd (register (clk n) r))) Q (set_ports l s)) ->
  wp (CMOS_READ r ≫= f) Q s.
Proof using Hclk.
  intros Hr <- H. destruct (CMOS_READ_run s r Hr) as (l & Hrun & Hl).
  apply wp_bind, wp_run. eexists _, _. split; [exact Hrun|]. apply H. lia.
Qed.

Lemma wp_read_clock (Q : unit + tm -> boot I -> Prop) s n :
  length (ports s) = n ->
  (forall l, length l = (n + 14)%nat -> quiet n -> Q (inr (shown (clk n))) (set_ports l s)) ->
  (forall l, length l = (n + 14)%nat -> ~ quiet n -> Q (inl tt) (set_ports l s)) ->
  wp read_clock Q s.
Proof using Hclk.
  intros Hn Hq Hnq. unfold read_clock.
  do 7 (eapply wp_CMOS_READ; [by repeat constructor|rewrite ?ports_set_ports; eassumption|];
    let l := fresh "l" in let Hl := fresh "Hl" in intros l Hl; rewrite ?set_ports_set_ports).
  assert (Hdate : forall m, 0 <= tm_sec (clk m) < 100)
    by (intros m; pose proof (ck_date _ _ Hclk m) as (_&_&_&_&_&?); lia).
  rewrite <- !Nat.add_assoc in *. cbn [Nat.add register] in *.
  destruct (Z.eqb_spec (bcd (tm_sec (clk n))) (bcd (tm_sec (clk (n + 12)%nat)))) as [He|He];
    cbn [negb]; apply wp_ret.
  - apply bcd_inj in He; [|apply Hdate..]. 
    assert (quiet n) as Hqn by (unfold quiet; congruence).
    pose proof (ck_steady _ _ Hclk n) as Hst.
    rewrite (Hst 2%nat), (Hst 4%nat), (Hst 6%nat), (Hst 8%nat), (Hst 10%nat) by (done || lia).
    by apply Hq.
  - apply Hnq; [done|]. unfold quiet. congruence.
Qed.

(** The loop ends with the first quiet reading. *)
Definition first_quiet (n q : nat) : Prop := quiet (n + 14 * q) /\ forall r, (r < q)%nat -> ~ quiet (n + 14 * r).
Lemma read_until_quiet (Q : tm -> boot I -> Prop) p fuel s n :
  length (ports s) = n -> quiet (n + 14 * p) -> (p < fuel)%nat ->
  (forall q l, (q <= p)%nat -> first_quiet n q -> length l = (n + 14 * S q)%nat ->
    Q (shown (clk (n + 14 * q)%nat)) (set_ports l s)) ->
  wp (kloop fuel (fun _ => read_clock) tt) Q s.
Proof using Hclk.
  revert fuel s n. induction p as [|p IH]; intros fuel s n Hn Hp Hf HQ;
    (destruct fuel as [|fuel]; [lia|]); cbn [kloop]; apply wp_bind; eapply wp_read_clock;
    try exact Hn; intros l Hl Hq.
  1, 3: apply wp_ret; specialize (HQ 0%nat l); rewrite Nat.mul_0_r, Nat.add_0_r in HQ;
    (apply HQ; [lia| |lia]); (split; [by rewrite Nat.mul_0_r, Nat.add_0_r|intros; lia]).
  - destruct Hq. by rewrite Nat.mul_0_r, Nat.add_0_r in Hp.
  - apply (IH _ _ (n + 14)%nat); [done| |lia|].
    + by replace (n + 14 + 14 * p)%nat with (n + 14 * S p)%nat by lia.
    + intros q l' Hqp [Hqq Hfirst] Hl'. rewrite set_ports_set_ports.
      specialize (HQ (S q) l'). replace (n + 14 * S q)%nat with (n + 14 + 14 * q)%nat in HQ by lia.
      apply HQ; [lia| |lia]. split; [by replace (n + 14 * S q)%nat with (n + 14 + 14 * q)%nat by lia|].
      intros [|r] Hr; [by rewrite Nat.mul_0_r, Nat.add_0_r|].
      replace (n + 14 * S r)%nat with (n + 14 + 14 * r)%nat by lia. apply Hfirst. lia.
Qed.

Lemma time_init_run p fuel s :
  quiet (length (ports s) + 14 * p) -> (p < fuel)%nat ->
  wp (time_init fuel) (fun _ s' => exists q l, (q <= p)%nat /\ first_quiet (length (ports s)) q /\
    length l = (length (ports s) + 14 * S q)%nat /\
    s' = started (seconds (clk (length (ports s) + 14 * q)%nat)) (set_ports l s)) s.
Proof using Hclk.
  intros Hp Hf. unfold time_init. apply wp_bind.
  eapply (read_until_quiet _ p fuel s _ eq_refl Hp Hf). intros q l Hq Hfirst Hl.
  set (t := clk (length (ports s) + 14 * q)%nat) in *.
  pose proof (ck_date _ _ Hclk (length (ports s) + 14 * q)%nat) as Hd. fold t in Hd.
  destruct Hd as (?&?&?&?&?&?). unfold shown.
  cbn [tm_sec tm_min tm_hour tm_mday tm_mon tm_year]. rewrite !BCD_TO_BIN_bcd by lia.
  rewrite Z.add_simpl_r. apply wp_bind. eapply wp_deref.
  - apply (kernel_mktime_calendar (Tm (tm_sec t) (tm_min t) (tm_hour t) (tm_mday t) (tm_mon t) (tm_year t)));
      cbn; lia.
  - by exists q, l.
Qed.

(** C25: [time_init] sets [startup_time] to the seconds that the Gregorian
    calendar counts from 1970 to one moment of a CMOS clock, of the 20th
    century, that goes on while it is read: the moment of the first reading
    during which the second does not change.  The loop ends there, no reading
    mixes two moments, and nothing else changes. *)
Theorem time_init_reads_calendar p fuel s :
  quiet (length (ports s) + 14 * p) -> (p < fuel)%nat ->
  wp (time_init fuel) (fun _ s' => exists q l, (q <= p)%nat /\ first_quiet (length (ports s)) q /\
    length l = (length (ports s) + 14 * S q)%nat /\
    s' = started (seconds (clk (length (ports s) + 14 * q)%nat)) (set_ports l s)) s.
Proof using Hclk. apply time_init_run. Qed.
End clock.

(** ** The interrupt descriptor table *)

(** A gate written: its vector, type, privilege level and handler. *)
Definition written : Type := Z * (Z * Z * entry).

Section table.
Context {L : Linked}.
Definition the_gate (g : Z * Z * entry) : desc_struct := let '(t, l, e) := g in set_gate t l (address e).
Definition apply_writes (ws : list written) (tbl : list desc_struct) : list desc_struct :=
  foldl (fun l w => array_set l w.1 (the_gate w.2)) tbl ws.
Fixpoint last_write (ws : list written) (n : Z) : option (Z * Z * entry) :=
  match ws with
  | [] => None
  | w :: ws => match last_write ws n with Some g => Some g | None => if n =? w.1 then Some w.2 else None end
  end.

Lemma apply_writes_get ws tbl n :
  0 <= n < Z.of_nat (length tbl) ->
  array_get (apply_writes ws tbl) n =
    match last_write ws n with Some g => Some (the_gate g) | None => array_get tbl n end.
Proof.
  unfold apply_writes. revert tbl. induction ws as [|w ws IH]; intros tbl Hn; [done|]. cbn [foldl last_write].
  rewrite IH by (by rewrite length_array_set). destruct (last_write ws n); [done|].
  destruct (Z.eqb_spec n w.1) as [->|]; [by apply array_get_set_eq|by apply array_get_set_ne].
Qed.
Lemma apply_writes_app ws ws' tbl : apply_writes (ws ++ ws') tbl = apply_writes ws' (apply_writes ws tbl).
Proof. apply foldl_app. Qed.
End table.

(** The routines that only write gates and ports, and what they leave of the
    state alone. *)
Section gates.
Context {I : Type} {L : Linked} {D : Device}.
Implicit Types s : boot I.

Definition kept s : mm * blk * Z * Z * Z * Z * list Tty.tty_struct :=
  (km (Tty.kern (btty s)), bblk s, memory_end s, buffer_memory_end s, main_memory_start s,
   startup_time (ks (Tty.kern (btty s))), Tty.tty_table (btty s)).
Definition gates {A} (m : KM (boot I) A) (ws : list written) : Prop :=
  forall s, Tty.tty_table (btty s) = Tty.tty_table0 ->
    wp m (fun _ s' => kept s' = kept s /\ bidt s' = apply_writes ws (bidt s)) s.

Lemma kept_ttys s s' : kept s' = kept s -> Tty.tty_table (btty s') = Tty.tty_table (btty s).
Proof. by intros [=]. Qed.
Lemma gates_bind {A B} (m : KM (boot I) A) (f : A -> KM (boot I) B) ws ws' :
  gates m ws -> (forall a, gates (f a) ws') -> gates (m ≫= f) (ws ++ ws').
Proof.
  intros Hm Hf s Hs. apply wp_bind. eapply wp_mono; [by apply Hm|]. intros a s1 [Hk Hi]. cbv beta.
  eapply wp_mono; [apply Hf; by rewrite (kept_ttys _ _ Hk)|]. intros b s2 [Hk' Hi'].
  rewrite apply_writes_app, <- Hi. split; congruence.
Qed.
Lemma gates_none {A B} (m : KM (boot I) A) (f : A -> KM (boot I) B) ws :
  gates m [] -> (forall a, gates (f a) ws) -> gates (m ≫= f) ws.
Proof. intros. by apply (gates_bind m f [] ws). Qed.
Lemma gates_one {A B} (m : KM (boot I) A) (f : A -> KM (boot I) B) w ws :
  gates m [w] -> (forall a, gates (f a) ws) -> gates (m ≫= f) (w :: ws).
Proof. intros. by apply (gates_bind m f [w] ws). Qed.
Lemma gates_intr n e : gates (set_intr_gate n e) [(n, (14, 0, e))].
Proof. done. Qed.
Lemma gates_trap n e : gates (set_trap_gate n e) [(n, (15, 0, e))].
Proof. done. Qed.
Lemma gates_system n e : gates (set_system_gate n e) [(n, (15, 3, e))].
Proof. done. Qed.
Lemma gates_in p : gates (in_port p) [].
Proof. done. Qed.
Lemma gates_out v p : gates (out_port v p) [].
Proof. done. Qed.
Lemma gates_reserved l :
  gates (kfor l (fun i => set_trap_gate i reserved)) (map (fun i => (i, (15, 0, reserved))) l).
Proof. induction l as [|i l IH]; [done|]. cbn [kfor map]. apply gates_one; [apply gates_trap|by intros []]. Qed.
End gates.

(** [gates_steps]: the writes of a sequence of routines, one after the
    other. *)
Ltac gates_step :=
  lazymatch goal with
  | |- gates (set_intr_gate _ _) _ => apply gates_intr
  | |- gates (set_trap_gate _ _) _ => apply gates_trap
  | |- gates (set_system_gate _ _) _ => apply gates_system
  | |- gates (in_port _) _ => apply gates_in
  | |- gates (out_port _ _) _ => apply gates_out
  | |- gates (kfor _ _) _ => apply gates_reserved
  end.
Ltac gates_steps :=
  repeat first
    [ gates_step
    | eapply gates_one; [gates_step | intros ?]
    | eapply gates_none; [gates_step | intros ?]
    | eapply gates_bind; [gates_step | intros ?] ].

Section routines.
Context {I : Type} {L : Linked} {D : Device}.
Implicit Types s : boot I.

Definition trap_writes : list written :=
  [(0, (15, 0, divide_error)); (1, (15, 0, debug)); (2, (15, 0, nmi)); (3, (15, 3, int3));
   (4, (15, 3, overflow)); (5, (15, 3, bounds)); (6, (15, 0, invalid_op));
   (7, (15, 0, device_not_available)); (8, (15, 0, double_fault));
   (9, (15, 0, coprocessor_segment_overrun)); (10, (15, 0, invalid_TSS));
   (11, (15, 0, segment_not_present)); (12, (15, 0, stack_segment));
   (13, (15, 0, general_protection)); (14, (15, 0, page_fault)); (15, (15, 0, reserved));
   (16, (15, 0, coprocessor_error))]
  ++ map (fun i => (i, (15, 0, reserved))) (seqZ 17 31)
  ++ [(45, (15, 0, irq13)); (39, (15, 0, parallel_interrupt))].
Lemma trap_init_gates : gates (I:=I) trap_init trap_writes.
Proof. unfold trap_init, trap_writes. cbn [app]. gates_steps. Qed.

(** A part of the state that no gate and nothing in [kept] belongs to. *)
Lemma on_tty_gates {A} (m : KM (Tty.tstate I) A) :
  (forall t, Tty.tty_table t = Tty.tty_table0 ->
    wp m (fun _ t' => Tty.tty_table t' = Tty.tty_table t /\ km (Tty.kern t') = km (Tty.kern t) /\
      startup_time (ks (Tty.kern t')) = startup_time (ks (Tty.kern t))) t) ->
  gates (on_tty m) [].
Proof.
  intros Hm s Hs. apply wp_zoom. eapply wp_mono; [by apply Hm|]. cbv beta. intros _ t (H1 & H2 & H3).
  unfold kept. cbn [btty bblk memory_end buffer_memory_end main_memory_start bidt set_field].
  split; [|done]. by rewrite H1, H2, H3.
Qed.
Lemma rs_port_init_keeps port (t : Tty.tstate I) :
  wp (Tty.rs_port_init port) (fun _ t' => Tty.tty_table t' = Tty.tty_table t /\ Tty.kern t' = Tty.kern t) t.
Proof. done. Qed.
Lemma tty_init_gates d :
  gates (I:=I) (tty_init d) [(0x24, (14, 0, rs1_interrupt)); (0x23, (14, 0, rs2_interrupt));
                             (0x21, (15, 0, keyboard_interrupt))].
Proof.
  unfold tty_init. do 2 (apply gates_one; [gates_step|intros _]).
  apply gates_none; [|intros _; apply gates_trap]. apply on_tty_gates. intros t Ht.
  destruct t as [k ttys c cr]. cbn [Tty.tty_table] in Ht. subst ttys.
  unfold wp. cbn [Tty.tty_table Tty.kern]. split_and!; reflexivity.
Qed.
Lemma sched_init_keeps a b (k : sched) :
  wp (Sched.sched_init a b) (fun _ k' => startup_time k' = startup_time k) k.
Proof.
  unfold Sched.sched_init. do 2 apply wp_bind, wp_modify.
  by apply wp_for with (I := fun _ _ k' => startup_time k' = startup_time k).
Qed.
Lemma sched_init_gates a b :
  gates (I:=I) (sched_init a b) [(0x20, (14, 0, timer_interrupt)); (0x80, (15, 3, system_call))].
Proof.
  unfold sched_init. apply gates_none; [|intros _; gates_steps].
  unfold on_kernel. apply on_tty_gates. intros t Ht. do 2 apply wp_zoom.
  by eapply wp_mono; [apply sched_init_keeps|].
Qed.
End routines.

(** ** The parts of [main] that change the blocks' state *)

Lemma kfor_keeps {S A T} (P : S -> T) (f : A -> KM S unit) l s s' :
  (forall x s s', f x s = Done tt s' -> P s' = P s) -> kfor l f s = Done tt s' -> P s' = P s.
Proof.
  intros Hf. revert s. induction l as [|x l IH]; intros s H; [by apply ret_Done in H as [_ ->]|].
  cbn [kfor] in H. apply bind_Done in H as ([] & s1 & H1 & H). rewrite (IH _ H). by apply (Hf x).
Qed.

(** [buffer_init] leaves the requests and the devices alone. *)
Definition drivers (b : blk) := (requests b, blk_dev b, rd_start b, rd_length b).
Lemma upd_buf_drivers i f b r b' : upd_buf i f b = Done r b' -> drivers b' = drivers b.
Proof. unfold upd_buf, get_buf. intros H. done_step H. apply modify_Done in H as ->. done_step Hrun. by apply deref_Done in Hrun as [_ ->]. Qed.
Lemma buffer_init_drivers start buffer_end h o b b' :
  buffer_init start buffer_end h o b = Done tt b' -> drivers b' = drivers b.
Proof.
  unfold buffer_init. intros H. case_match; [|done]. do 4 done_step H.
  apply (kfor_keeps drivers) in H; [|by intros x s s' ->%modify_Done].
  by rewrite H, (upd_buf_drivers _ _ _ _ _ Hrun0), (upd_buf_drivers _ _ _ _ _ Hrun).
Qed.

Definition idle (r : request) : Prop := dev r = -1 /\ next r = None.
Lemma blk_dev_init_idle b :
  (length (requests b) = 32)%nat ->
  wp blk_dev_init (fun _ b' => exists l, b' = b ⟪ requests := l ⟫ /\ length l = 32%nat /\
    forall i r, array_get l i = Some r -> idle r) b.
Proof.
  intros Hlen. unfold blk_dev_init.
  apply wp_for with (I := fun d r b' => upto NR_REQUEST = d ++ r /\
    exists l, b' = b ⟪ requests := l ⟫ /\ length l = 32%nat /\
      forall i x, i < Z.of_nat (length d) -> array_get l i = Some x -> idle x).
  - split; [done|]. exists (requests b). split_and!; [by destruct b|done|].
    intros i x Hi Hx%array_get_Some_bound. cbn in Hi. lia.
  - intros d x r b' (Hs & l & -> & Hl & Hi).
    assert (Hx : x = Z.of_nat (length d) /\ Z.of_nat (length d) < NR_REQUEST).
    { assert (upto NR_REQUEST !! length d = Some x) as Hlk by (rewrite Hs; by apply list_lookup_middle).
      apply lookup_seqZ in Hlk. lia. }
    destruct Hx as [-> Hx]. change NR_REQUEST with 32 in *.
    destruct (array_get_in_bounds l (Z.of_nat (length d))) as [r0 Hr0]; [lia|].
    unfold upd_req, get_req. apply wp_bind, wp_bind, wp_gets. eapply wp_deref; [exact Hr0|].
    apply wp_modify. split; [by rewrite <- app_assoc|].
    eexists. split_and!; [reflexivity|by rewrite length_array_set|].
    intros i y Hi' Hy. rewrite length_app in Hi'. cbn in Hi'. change (requests (b ⟪ requests := l ⟫)) with l in Hy.
    destruct (decide (i = Z.of_nat (length d))) as [->|].
    + rewrite array_get_set_eq in Hy by lia. by injection Hy as <-.
    + rewrite array_get_set_ne in Hy by done. apply (Hi i); [lia|done].
  - intros b' (_ & l & -> & Hl & Hi). exists l. split_and!; [done..|]. intros i r Hr.
    apply (Hi i r); [|done]. apply array_get_Some_bound in Hr. rewrite length_seqZ. 
    change NR_REQUEST with 32. lia.
Qed.

(** A driver's request function is installed. *)
Definition enable (n : Z) (b : blk) : blk :=
  match array_get (blk_dev b) n with
  | Some d => b ⟪ blk_dev := array_set (blk_dev b) n (d ⟪ request_fn := true ⟫) ⟫
  | None => b
  end.
Lemma upd_dev_enable n b :
  is_Some (array_get (blk_dev b) n) ->
  upd_dev n (fun d => d ⟪ request_fn := true ⟫) b = Done tt (enable n b).
Proof.
  intros [d Hd]. unfold upd_dev, get_dev, enable, read_at, deref, mbind, kbind, gets, modify. by rewrite Hd.
Qed.

Section drivers.
Context {I : Type} {L : Linked} {D : Device}.
Implicit Types s : boot I.

Lemma hd_init_enables s :
  is_Some (array_get (blk_dev (bblk s)) 3) ->
  wp hd_init (fun _ s' => kept s' = kept (s ⟪ bblk := enable 3 (bblk s) ⟫) /\
    bidt s' = apply_writes [(0x2E, (14, 0, Traps.hd_interrupt))] (bidt s)) s.
Proof.
  intros H. unfold hd_init. apply wp_bind, wp_modify. apply wp_zoom. unfold Hd.hd_init.
  apply wp_bind. unfold Hd.on_b. apply wp_zoom. apply wp_run. eexists tt, _.
  split; [by apply upd_dev_enable|]. split; reflexivity.
Qed.
Lemma floppy_init_enables s :
  is_Some (array_get (blk_dev (bblk s)) 2) ->
  wp floppy_init (fun _ s' => kept s' = kept (s ⟪ bblk := enable 2 (bblk s) ⟫) /\
    bidt s' = apply_writes [(0x26, (15, 0, Traps.floppy_interrupt))] (bidt s)) s.
Proof.
  intros H. unfold floppy_init. apply wp_bind, wp_modify. apply wp_zoom. unfold Floppy.floppy_init.
  apply wp_bind. unfold Floppy.on_b. apply wp_zoom. apply wp_run. eexists tt, _.
  split; [by apply upd_dev_enable|]. split; reflexivity.
Qed.
End drivers.

(** ** The division of memory *)

(** The memory of the machine in bytes, in whole pages and at most 16 MB. *)
Definition installed (ext_mem_k : Z) : Z := Z.min 0x1000000 ((0x100000 + 1024 * ext_mem_k) / 4096 * 4096).
Lemma memory_size_installed k : 0 <= k < 65536 -> memory_size k = installed k.
Proof.
  intros Hk. unfold memory_size, installed. rewrite (Z.shiftl_mul_pow2 k) by lia.
  change (Z.shiftl 1 20 + k * 2 ^ 10) with (0x100000 + k * 1024). rewrite Z.land_comm.
  change (Z.land 0xfffff000 (0x100000 + k * 1024)) with (frame (0x100000 + k * 1024)).
  rewrite frame_eq, Z.mod_small, (Z.mul_comm k) by
    (split; [apply Z.div_pos|apply Z.div_lt_upper_bound]; lia).
  case_match eqn:Hlt; [apply Z.ltb_lt in Hlt|apply Z.ltb_ge in Hlt]; lia.
Qed.
Lemma installed_bounds k : 0 <= k < 65536 -> 0x100000 <= installed k <= 0x1000000.
Proof.
  intros Hk. unfold installed. pose proof (Z.div_le_lower_bound (0x100000 + 1024 * k) 4096 256). lia.
Qed.
Lemma buffer_limit_bounds e :
  0x100000 <= e -> 0x100000 <= buffer_limit e <= e /\ (4096 | buffer_limit e).
Proof.
  intros He. unfold buffer_limit. repeat case_match; rewrite ?Z.ltb_lt, ?Z.ltb_ge in *;
    (split; [lia|]); [by exists 1024|by exists 512|by exists 256].
Qed.

Definition ramdisk_size (RAMDISK : option Z) : Z := match RAMDISK with Some k => k * 1024 | None => 0 end.

(** What [memory_setup] leaves: the buffers end where the ramdisk begins and
    the ramdisk where main memory begins, whose pages, and no others, are
    free. *)
Record split {I} (RAMDISK : option Z) (k : Z) (s : boot I) : Prop := {
  sp_end : memory_end s = installed k;
  sp_buffers : buffer_memory_end s = buffer_limit (installed k);
  sp_start : main_memory_start s = buffer_memory_end s + ramdisk_size RAMDISK;
  sp_low : 0x100000 <= buffer_memory_end s;
  sp_order : buffer_memory_end s <= main_memory_start s <= memory_end s;
  sp_wf : mm_wf (km (Tty.kern (btty s)));
  sp_map : forall i, 0 <= i < PAGING_PAGES ->
    array_get (mem_map (km (Tty.kern (btty s)))) i =
      Some (if decide (main_memory_start s <= page_of i /\ page_of i + 4096 <= memory_end s) then 0 else USED)
}.
Definition ramdisk_at (RAMDISK : option Z) (start : Z) (b : blk) : Prop :=
  match RAMDISK with Some k => rd_start b = start /\ rd_length b = k * 1024 | None => True end.
(** The tables have the sizes that the declarations give them. *)
Record sized (b : blk) : Prop := {
  sz_hash : length (hash_table b) = 307%nat;
  sz_requests : length (requests b) = 32%nat;
  sz_devices : length (blk_dev b) = 7%nat
}.

Section memory.
Context {I : Type}.
Implicit Types s : boot I.

Lemma rd_init_start start n b :
  sized b ->
  wp (rd_init start n) (fun v b' => v = n /\ sized b' /\ rd_start b' = start /\ rd_length b' = n) b.
Proof.
  intros [H1 H2 H3]. unfold rd_init. apply wp_bind, wp_run. eexists tt, _. split.
  { apply upd_dev_enable, array_get_in_bounds. lia. }
  apply wp_bind, wp_modify, wp_ret. destruct (array_get_in_bounds (blk_dev b) 1) as [d Hd]; [lia|].
  unfold enable. rewrite Hd. split_and!; [done| |done|done].
  split; [done..|]. by rewrite <- H3, <- (length_array_set (blk_dev b) 1 (d ⟪ request_fn := true ⟫)).
Qed.

Lemma memory_setup_splits RAMDISK h s :
  0 <= EXT_MEM_K h < 65536 -> sized (bblk s) ->
  (4096 | ramdisk_size RAMDISK) -> 0 <= ramdisk_size RAMDISK ->
  buffer_limit (installed (EXT_MEM_K h)) + ramdisk_size RAMDISK <= installed (EXT_MEM_K h) ->
  wp (memory_setup RAMDISK h) (fun _ s' => split RAMDISK (EXT_MEM_K h) s' /\
    sized (bblk s') /\ ramdisk_at RAMDISK (buffer_memory_end s') (bblk s') /\
    Tty.tty_table (btty s') = Tty.tty_table (btty s) /\ bidt s' = bidt s) s.
Proof.
  intros Hk Hsz Hdiv H0 Hfit. unfold memory_setup. rewrite memory_size_installed by done.
  destruct (buffer_limit_bounds (installed (EXT_MEM_K h))) as [Hb1 Hb2]; [by apply installed_bounds|].
  pose proof (installed_bounds _ Hk) as Hinst.
  set (e := installed (EXT_MEM_K h)) in *. set (b := buffer_limit e) in *.
  apply wp_bind, wp_modify. set (s1 := set_field _ _ (set_field _ _ (set_field _ _ s))).
  assert (Hend : forall s2, memory_end s2 = e -> buffer_memory_end s2 = b ->
    main_memory_start s2 = b + ramdisk_size RAMDISK -> btty s2 = btty s -> bidt s2 = bidt s ->
    sized (bblk s2) -> ramdisk_at RAMDISK b (bblk s2) ->
    wp (start ← gets main_memory_start; e ← gets memory_end; on_kernel (on_km (mem_init start e)))
      (fun _ s' => split RAMDISK (EXT_MEM_K h) s' /\ sized (bblk s') /\
        ramdisk_at RAMDISK (buffer_memory_end s') (bblk s') /\
        Tty.tty_table (btty s') = Tty.tty_table (btty s) /\ bidt s' = bidt s) s2).
  { intros s2 He Hb Hs Ht Hi Hz Hr. do 2 apply wp_bind, wp_gets. rewrite He, Hs.
    do 3 apply wp_zoom. eapply wp_mono.
    - apply mem_init_frees; [by apply Z.divide_add_r|unfold LOW_MEM; lia|lia].
    - cbv beta. intros _ m (Hwf & _ & _ & Hmap). split; [|split_and!; try done].
      + split; cbn; try congruence; try lia; try done. by rewrite Hs, He.
      + cbn. by rewrite Hb.
      + cbn. by rewrite Ht. }
  destruct RAMDISK as [r|]; cbn [ramdisk_size ramdisk_at] in *.
  - do 2 apply wp_bind. apply wp_gets. apply wp_bind, wp_zoom. eapply wp_mono; [by apply rd_init_start|].
    cbv beta. intros v b' (-> & Hz & Hr). apply wp_modify. by apply Hend.
  - apply wp_bind, wp_ret, Hend; try done. cbn. lia.
Qed.
End memory.

(** ** [main] *)

(** The handler, privilege level and type of the gates that the kernel
    relies on: exceptions, the interrupts from 0x20 on, and the system call;
    only [int3], [overflow], [bounds] and the system call are open to user
    programs, and the lines of the clock, the serial lines and the hard disk
    keep interrupts off. *)
Definition handler (n : Z) : entry :=
  match n with
  | 0 => divide_error | 1 => debug | 2 => nmi | 3 => int3 | 4 => overflow | 5 => bounds
  | 6 => invalid_op | 7 => device_not_available | 8 => double_fault
  | 9 => coprocessor_segment_overrun | 10 => invalid_TSS | 11 => segment_not_present
  | 12 => stack_segment | 13 => general_protection | 14 => page_fault | 16 => coprocessor_error
  | 0x20 => timer_interrupt | 0x21 => keyboard_interrupt | 0x23 => rs2_interrupt | 0x24 => rs1_interrupt
  | 0x26 => Traps.floppy_interrupt | 0x27 => parallel_interrupt | 0x2D => irq13 | 0x2E => Traps.hd_interrupt
  | 0x80 => system_call
  | _ => reserved
  end.
Definition from_user (n : Z) : bool := bool_decide (n ∈ [3; 4; 5; 0x80]).
Definition interrupt_gate (n : Z) : bool := bool_decide (n ∈ [0x20; 0x23; 0x24; 0x2E]).
Definition in_use (n : Z) : bool := (n <? 48) || (n =? 0x80).
Definition gate_for (n : Z) : Z * Z * entry :=
  (if interrupt_gate n then 14 else 15, if from_user n then 3 else 0, handler n).

Definition all_writes : list written :=
  trap_writes
  ++ [(0x24, (14, 0, rs1_interrupt)); (0x23, (14, 0, rs2_interrupt)); (0x21, (15, 0, keyboard_interrupt))]
  ++ [(0x20, (14, 0, timer_interrupt)); (0x80, (15, 3, system_call))]
  ++ [(0x2E, (14, 0, Traps.hd_interrupt))] ++ [(0x26, (15, 0, Traps.floppy_interrupt))].
Lemma all_writes_gates n :
  0 <= n < 256 -> last_write all_writes n = if in_use n then Some (gate_for n) else None.
Proof.
  intros Hn.
  assert (Hall : forallb (fun n => bool_decide (last_write all_writes n =
    if in_use n then Some (gate_for n) else None)) (seqZ 0 256) = true) by (vm_compute; reflexivity).
  rewrite forallb_forall in Hall.
  specialize (Hall n ltac:(apply list_elem_of_In, elem_of_seqZ; lia)). by apply bool_decide_eq_true in Hall.
Qed.

(** What [main] starts from: the memory of the machine, room for the buffers
    and the ramdisk, and statics of the declared sizes. *)
Record bootable {I} (RAMDISK : option Z) (g : image) (h : setup_info) (s : boot I) : Prop := {
  bo_memory : 0 <= EXT_MEM_K h < 65536;
  bo_aligned : (4096 | ramdisk_size RAMDISK);
  bo_ramdisk : 0 <= ramdisk_size RAMDISK <= installed (EXT_MEM_K h) - buffer_limit (installed (EXT_MEM_K h));
  bo_kernel : 0 <= kernel_end g /\ kernel_end g + 72 + 2048 <= 0xA0000;
  bo_garbage : forall k, 0 <= b_blocknr (old_head g k) < 4294967296;
  bo_sized : sized (bblk s);
  bo_idt : length (bidt s) = 256%nat;
  bo_ttys : Tty.tty_table (btty s) = Tty.tty_table0
}.

(** What it establishes for the block layer. *)
Record blocks_ready (b : blk) : Prop := {
  br_cache : cache_ok b;
  br_calm : calm b;
  br_spare : forall i x, array_get (bufs b) i = Some x -> b_dev x = 0 /\ spare x;
  br_idle : forall i r, array_get (requests b) i = Some r -> idle r;
  br_drivers : forall n, n = 2 \/ n = 3 -> exists d, array_get (blk_dev b) n = Some d /\ request_fn d = true
}.

Section main.
Context {I : Type} {L : Linked} {D : Device} (clk : nat -> tm) (Hclk : clock_ok D clk).
Context (RAMDISK : option Z) (g : image) (h : setup_info) (s0 : boot I).
Implicit Types s : boot I.

(** How far [main] has come: the gates written so far. *)
Record stage (ws : list written) (s : boot I) : Prop := {
  st_split : split RAMDISK (EXT_MEM_K h) s;
  st_sized : sized (bblk s);
  st_ram : ramdisk_at RAMDISK (buffer_memory_end s) (bblk s);
  st_ttys : Tty.tty_table (btty s) = Tty.tty_table0;
  st_idt : bidt s = apply_writes ws (bidt s0)
}.
Lemma stage_kept ws ws' s s' :
  stage ws s -> kept s' = kept s -> bidt s' = apply_writes ws' (bidt s) -> stage (ws ++ ws') s'.
Proof using Type.
  intros [[] Hz Hr Ht Hi] [= E1 E2 E3 E4 E5 _ E6] Hi'. split.
  - split; rewrite ?E1, ?E3, ?E4, ?E5; assumption.
  - by rewrite E2.
  - by rewrite E2, E4.
  - by rewrite E6.
  - by rewrite apply_writes_app, <- Hi.
Qed.
Lemma wp_gates {A} (m : KM (boot I) A) ws ws' s :
  gates m ws' -> stage ws s ->
  wp m (fun _ s' => stage (ws ++ ws') s' /\ bblk s' = bblk s /\
    startup_time (ks (Tty.kern (btty s'))) = startup_time (ks (Tty.kern (btty s)))) s.
Proof using Type.
  intros Hm Hs. eapply wp_mono; [apply Hm, (st_ttys _ _ Hs)|]. cbv beta. intros _ s' [Hk Hi].
  split; [by eapply stage_kept|]. by injection Hk.
Qed.
Lemma stage_blk ws s b :
  stage ws s -> sized b -> ramdisk_at RAMDISK (buffer_memory_end s) b -> stage ws (s ⟪ bblk := b ⟫).
Proof using Type. by intros [[] ? ? ? ?] Hb Hr. Qed.

Lemma sized_drivers b b' :
  sized b -> drivers b' = drivers b -> length (hash_table b') = 307%nat -> sized b'.
Proof using Type. intros [? H1 H2] [= E1 E2 _ _] ?. split; [done|by rewrite E1|by rewrite E2]. Qed.

Lemma buffer_init_ready ws s start e hd0 bl0 :
  0 <= start -> start + 72 + 2048 <= 0xA0000 -> 0x100000 <= e ->
  (forall k, 0 <= b_blocknr (hd0 k) < 4294967296) -> sized (bblk s) ->
  stage ws s ->
  wp (on_blk (buffer_init start e hd0 bl0)) (fun _ s' => stage ws s' /\
    cache_ok (bblk s') /\ calm (bblk s') /\
    (forall i x, array_get (bufs (bblk s')) i = Some x -> b_dev x = 0 /\ spare x) /\
    requests (bblk s') = requests (bblk s) /\
    startup_time (ks (Tty.kern (btty s'))) = startup_time (ks (Tty.kern (btty s)))) s.
Proof using Type.
  intros H1 H2 H3 H4 Hz Hs.
  assert (Htop : 0xA0000 <= top e) by (unfold top; case_match; lia).
  destruct (buffer_init_run hd0 bl0 start e (bblk s)) as (b & Hrun & Hok & Hall);
    [done|lia|done|apply Hz|].
  pose proof (buffer_init_drivers _ _ _ _ _ _ Hrun) as Hdr.
  apply wp_zoom, wp_run. exists tt, b. split; [done|].
  assert (Hht : length (hash_table b) = 307%nat) by (by eapply ci_hash, co_inv).
  injection Hdr as E1 E2 E3 E4. split_and!; try done.
  - apply stage_blk; [done|apply (sized_drivers (bblk s)); [done|unfold drivers; congruence|done]|].
    pose proof (st_ram _ _ Hs) as Hr. unfold ramdisk_at in *. destruct RAMDISK; [by rewrite E3, E4|done].
  - intros i x Hx. by apply (Hall i x Hx).
  - intros i x Hx. by apply (Hall i x Hx).
Qed.

Lemma enable_ready n b :
  is_Some (array_get (blk_dev b) n) ->
  exists d, array_get (blk_dev (enable n b)) n = Some d /\ request_fn d = true.
Proof using Type.
  intros [d Hd]. unfold enable. rewrite Hd. exists (d ⟪ request_fn := true ⟫). split; [|done].
  apply array_get_set_eq. by apply array_get_Some_bound in Hd.
Qed.
(** Enabling another driver changes nothing else. *)
Lemma enable_frame n b :
  sized b -> sized (enable n b) /\ (cache_ok b -> cache_ok (enable n b)) /\
  bufs (enable n b) = bufs b /\ requests (enable n b) = requests b /\
  rd_start (enable n b) = rd_start b /\ rd_length (enable n b) = rd_length b /\
  forall m, m <> n -> array_get (blk_dev (enable n b)) m = array_get (blk_dev b) m.
Proof using Type.
  intros Hz. unfold enable. destruct (array_get (blk_dev b) n) as [d|]; [|by split_and!].
  destruct Hz as [H1 H2 H3]. split_and!; try done.
  - split; [done..|]. by rewrite <- H3, <- (length_array_set (blk_dev b) n (d ⟪ request_fn := true ⟫)).
  - intros [[] ? ?]. by split.
  - intros m Hm. by apply array_get_set_ne.
Qed.

Lemma drivers_ready ws s (rest : KM (boot I) unit) Q :
  stage ws s -> cache_ok (bblk s) -> calm (bblk s) ->
  (forall i x, array_get (bufs (bblk s)) i = Some x -> b_dev x = 0 /\ spare x) ->
  (forall i r, array_get (requests (bblk s)) i = Some r -> idle r) ->
  (forall s',
    stage (ws ++ [(0x2E, (14, 0, Traps.hd_interrupt))] ++ [(0x26, (15, 0, Traps.floppy_interrupt))]) s' ->
    blocks_ready (bblk s') ->
    startup_time (ks (Tty.kern (btty s'))) = startup_time (ks (Tty.kern (btty s))) -> wp rest Q s') ->
  wp (hd_init ;; floppy_init ;; rest) Q s.
Proof using Type.
  intros Hs Hc Hcalm Hsp Hid Hrest. pose proof (st_sized _ _ Hs) as Hz.
  assert (H3 : is_Some (array_get (blk_dev (bblk s)) 3)) by (apply array_get_in_bounds; rewrite (sz_devices _ Hz); lia).
  assert (H2 : is_Some (array_get (blk_dev (bblk s)) 2)) by (apply array_get_in_bounds; rewrite (sz_devices _ Hz); lia).
  destruct (enable_frame 3 _ Hz) as (Hz3 & Hc3 & Hb3 & Hr3 & Hs3 & Hl3 & Hd3).
  apply wp_bind. eapply wp_mono; [by apply hd_init_enables|]. cbv beta. intros _ s1 [Hk1 Hi1].
  assert (Hst1 : stage (ws ++ [(0x2E, (14, 0, Traps.hd_interrupt))]) s1).
  { apply (stage_kept _ _ (s ⟪ bblk := enable 3 (bblk s) ⟫)); [|done|done].
    apply stage_blk; [done|done|]. pose proof (st_ram _ _ Hs) as Hr. unfold ramdisk_at in *.
    by rewrite Hs3, Hl3. }
  assert (Hb1 : bblk s1 = enable 3 (bblk s)) by (by injection Hk1).
  assert (H2' : is_Some (array_get (blk_dev (bblk s1)) 2)) by (by rewrite Hb1, Hd3).
  destruct (enable_frame 2 _ Hz3) as (Hz2 & Hc2 & Hb2 & Hr2 & Hs2 & Hl2 & Hd2).
  apply wp_bind. eapply wp_mono; [by apply floppy_init_enables|]. cbv beta. intros _ s2 [Hk2 Hi2].
  assert (Hb2' : bblk s2 = enable 2 (enable 3 (bblk s))) by (injection Hk2; intros; congruence).
  apply Hrest.
  - rewrite app_assoc. apply (stage_kept _ _ (s1 ⟪ bblk := enable 2 (bblk s1) ⟫)); [|done|done].
    apply stage_blk; [done|by rewrite Hb1|]. pose proof (st_ram _ _ Hst1) as Hr. rewrite Hb1 in *.
    unfold ramdisk_at in *. by rewrite Hs2, Hl2.
  - rewrite Hb2'. split.
    + by apply Hc2, Hc3.
    + unfold calm. by rewrite Hb2, Hb3.
    + by rewrite Hb2, Hb3.
    + by rewrite Hr2, Hr3.
    + intros n [-> | ->]; [apply enable_ready; by rewrite Hd3|].
      rewrite Hd2 by done. by apply enable_ready.
  - injection Hk2. injection Hk1. intros. congruence.
Qed.

(** From the division of memory to the terminals. *)
Lemma main_first_half (rest : KM (boot I) unit) Q :
  bootable RAMDISK g h s0 ->
  (forall s, stage (trap_writes ++ [(0x24, (14, 0, rs1_interrupt)); (0x23, (14, 0, rs2_interrupt));
                                    (0x21, (15, 0, keyboard_interrupt))]) s ->
    (forall i r, array_get (requests (bblk s)) i = Some r -> idle r) -> wp rest Q s) ->
  wp (on_blk (modify (fun b => b ⟪ fsd := (fsd b) ⟪ FsData.ROOT_DEV := ORIG_ROOT_DEV h ⟫ ⟫)) ;;
      modify (fun s => s ⟪ drive_info := DRIVE_INFO h ⟫) ;;
      memory_setup RAMDISK h ;; trap_init ;; on_blk blk_dev_init ;; tty_init (video h) ;; rest) Q s0.
Proof using Type.
  intros [Hm Ha Hr Hk Hg [Hz1 Hz2 Hz3] Hi Ht] Hrest.
  apply wp_bind, wp_zoom, wp_modify. apply wp_bind, wp_modify.
  apply wp_bind. eapply wp_mono; [apply memory_setup_splits; [done|done|done|lia|lia]|].
  cbv beta. intros _ s1 (Hsplit & Hsz & Hram & Htt & Hidt).
  assert (Hst : stage [] s1) by (split; [done|done|done|by rewrite Htt|done]).
  apply wp_bind. eapply wp_mono; [by apply wp_gates; [apply trap_init_gates|]|].
  cbv beta. intros _ s2 (Hst2 & Hb2 & _). change ([] ++ trap_writes) with trap_writes in Hst2.
  apply wp_bind, wp_zoom. eapply wp_mono; [apply blk_dev_init_idle, (st_sized _ _ Hst2)|].
  cbv beta. intros _ b (l & -> & Hl & Hidle).
  apply wp_bind. eapply wp_mono; [apply wp_gates; [apply tty_init_gates|]|].
  - apply stage_blk; [done| |apply (st_ram _ _ Hst2)]. destruct (st_sized _ _ Hst2). by split.
  - cbv beta. intros _ s3 (Hst3 & Hb3 & _). apply Hrest; [done|]. by rewrite Hb3.
Qed.

Lemma started_stage ws v l s : stage ws s -> stage ws (started v (set_ports l s)).
Proof using Type. by intros [[] ? ? ? ?]. Qed.

(** C5: [main] brings the machine up.  Memory is cut at 4 kB boundaries into
    the kernel and the buffers, the ramdisk if there is one, and main memory,
    of which exactly the whole pages are free; the buffer cache satisfies its
    invariant with every buffer spare, all requests are idle and the floppy
    and hard disks have drivers; the time is one that the clock showed; every
    exception, every interrupt of the two controllers and the system call
    leads to its handler in the kernel, present and with the privilege meant
    for it, the other gates are as they were; and interrupts are on. *)
Theorem main_sets_up fuel :
  (forall n, exists p, (p < fuel)%nat /\ quiet clk (n + 14 * p)) ->
  (forall e, 0 <= address e < 2 ^ 32) -> bootable RAMDISK g h s0 ->
  wp (main fuel RAMDISK g h) (fun _ s' =>
    split RAMDISK (EXT_MEM_K h) s' /\ ramdisk_at RAMDISK (buffer_memory_end s') (bblk s') /\
    blocks_ready (bblk s') /\
    (exists n, startup_time (ks (Tty.kern (btty s'))) = seconds (clk n)) /\
    (forall n, 0 <= n < 256 ->
      gate_of <$> array_get (bidt s') n =
        if in_use n
        then Some (Gate 8 (address (handler n)) true (if from_user n then 3 else 0)
                        (if interrupt_gate n then 14 else 15))
        else gate_of <$> array_get (bidt s0) n) /\
    interrupts s' = true) s0.
Proof using Hclk.
  intros Hquiet Haddr Hboot. unfold main. apply main_first_half; [done|]. intros s1 Hst1 Hidle.
  destruct Hboot as [_ _ _ [Hk1 Hk2] Hg _ Hidt _].
  destruct (Hquiet (length (ports s1))) as (p & Hpf & Hp).
  apply wp_bind. eapply wp_mono; [by apply (time_init_run clk Hclk p)|]. cbv beta.
  intros _ s2 (q & l & _ & _ & _ & ->).
  apply wp_bind. eapply wp_mono; [apply wp_gates; [apply sched_init_gates|by apply started_stage]|]. cbv beta.
  intros _ s3 (Hst3 & Hb3 & Ht3). apply wp_bind, wp_gets.
  pose proof (st_split _ _ Hst3) as Hsp3.
  apply wp_bind. eapply wp_mono; [apply buffer_init_ready; try done; [apply Hsp3|apply Hst3]|]. cbv beta.
  intros _ s4 (Hst4 & Hok & Hcalm & Hspare & Hreq & Ht4).
  apply (drivers_ready _ _ _ _ Hst4 Hok Hcalm Hspare).
  { intros i r. rewrite Hreq, Hb3. apply Hidle. }
  intros s5 Hst5 Hready Ht5. apply wp_modify.
  split_and!; [by destruct (st_split _ _ Hst5)|apply (st_ram _ _ Hst5)|done| |  |done].
  - exists (length (ports s1) + 14 * q)%nat. etransitivity; [exact Ht5|]. by rewrite Ht4, Ht3.
  - intros n Hn. cbn [bidt set_field].
    rewrite (st_idt _ _ Hst5), apply_writes_get by (rewrite Hidt; lia).
    match goal with |- context [last_write ?w n] =>
      assert (last_write w n = last_write all_writes n) as -> by (unfold all_writes; by rewrite <- !app_assoc)
    end.
    rewrite (all_writes_gates n Hn). destruct (in_use n); [|done]. cbn. f_equal.
    apply gate_of_set_gate; [..|done]; case_match; auto.
Qed.
End main.

(** ** A machine with 4 MB of extended memory, on 31 December 1991 *)

(** The clock goes from 23:59:58 to 23:59:59 with the twentieth access. *)
Definition demo_time (n : nat) : tm := Tm (if (n <? 20)%nat then 58 else 59) 59 23 31 11 91.
Definition demo_cmos : Device := fun log port =>
  match log with
  | Out r _ :: log => bcd (register (demo_time (length log)) (r - 0x80))
  | _ => 0
  end.
Lemma demo_cmos_clock : clock_ok demo_cmos demo_time.
Proof.
  split.
  - intros log r Hr. rewrite !elem_of_cons, elem_of_nil in Hr.
    by destruct Hr as [->|[->|[->|[->|[->|[->|[]]]]]]].
  - intros n. unfold date_ok, demo_time. cbn. case_match; lia.
  - intros n k. unfold demo_time. cbn [tm_sec]. 
    destruct (Nat.ltb_spec (n + 12) 20), (Nat.ltb_spec n 20), (Nat.ltb_spec (n + k) 20); intros; done || lia.
Qed.

Definition demo_linked : Linked := fun e => 0x6000.
Definition demo_blk : blk :=
  Blk [] (replicate 307 None) None None (replicate 32 (Request 0 0 0 0 0 0 None None None 0))
    (replicate 7 (BlkDev false None)) 0 0 [] [] FsData.no_fsdata.
Definition demo_boot : boot unit :=
  Boot (Tty.TState (Kernel (Sched (Some (INIT_TASK 0 0) :: replicate 63 None) 0 0 0 None false [] [] ∅)
      (MM [] 0 ∅) 1 [] [] tt [0; 0; 0] ∅) Tty.tty_table0 Con.console0 0)
    demo_blk (Hd.HdState demo_blk [] 0 0 [] 0 [] None 0 0)
    (Floppy.FdState (Clock (Sched [] 0 0 0 None false [] [] ∅) [] [] [] 0 0 [] None 0 []) demo_blk [] 0 0 0 [] 0 0 0 0 0 0 0 0 0 0 [] None 0 [] 0)
    (replicate 256 (Desc 0 0)) [] 0 0 0 false.
Definition demo_setup_info : setup_info := SetupInfo 4096 [] 0x301 Con.demo_setup.
Definition demo_image : image := Image 0 0 0x20000 (fun _ => blank_head) (fun b => [b]).

(** Ten accesses before, the first reading is not quiet and the second one
    is. *)
Definition demo_before : boot unit := set_ports (replicate 10 (In 0 0)) demo_boot.
Lemma time_init_reads_calendar_witness :
  length (ports demo_before) = 10%nat /\ exists l, length l = 38%nat /\
    time_init (D := demo_cmos) 2 demo_before = Done tt (started 694223999 (set_ports l demo_before)).
Proof.
  assert (Hn : length (ports demo_before) = 10%nat) by reflexivity.
  split; [exact Hn|]. revert Hn. generalize demo_before. intros s Hn.
  pose proof (time_init_reads_calendar (D := demo_cmos) demo_time demo_cmos_clock 1 2 s) as H.
  rewrite Hn in H. apply wp_run in H as ([] & s' & Hrun & q & l & Hq & [Hfirst _] & Hl & ->); [|done|lia].
  destruct q as [|[|q]]; [done| |lia]. exists l. split; [exact Hl|]. rewrite Hrun.
  assert (seconds (demo_time (10 + 14 * 1)) = 694223999) as -> by (vm_compute; reflexivity). reflexivity.
Defined.

Lemma main_sets_up_witness :
  wp (main (L := demo_linked) (D := demo_cmos) 2 (Some 512) demo_image demo_setup_info) (fun _ s' =>
    memory_end s' = 0x500000 /\ buffer_memory_end s' = 0x100000 /\ main_memory_start s' = 0x180000 /\
    blocks_ready (bblk s') /\
    gate_of <$> array_get (bidt s') 0x80 = Some (Gate 8 0x6000 true 3 15)) demo_boot.
Proof.
  eapply wp_mono; [apply (main_sets_up (L := demo_linked) (D := demo_cmos) demo_time demo_cmos_clock
    (Some 512) demo_image demo_setup_info demo_boot 2)|].
  - intros n. destruct (decide (n + 12 < 20 \/ 20 <= n)%nat); [exists 0%nat|exists 1%nat];
      (split; [lia|]); unfold quiet, demo_time; cbn [tm_sec];
      repeat match goal with |- context [(?a <? 20)%nat] => destruct (Nat.ltb_spec a 20) end; done || lia.
  - done.
  - split; try done; try (vm_compute; split; congruence). by exists 128.
  - cbv beta. intros _ s' (Hsp & _ & Hb & _ & Hg & _).
    pose proof (sp_end _ _ _ Hsp) as He. pose proof (sp_buffers _ _ _ Hsp) as Hbuf.
    pose proof (sp_start _ _ _ Hsp) as Hs. rewrite Hbuf in Hs.
    split_and!; [exact He|exact Hbuf|exact Hs|done|exact (Hg 0x80 ltac:(lia))].
Defined.
End BootOk.
