(* ===== verification/Lib.v ===== *)
(** * The user's side of the system calls ([include/unistd.h], [lib/], [init])

    The numbers of the system calls against the kernel's table
    ([include/linux/sys.h]), the stubs of the library that process 1 is
    linked with, and [init] of [init/main.c], which runs in user mode: the
    kernel is behind the parameter [int80]. *)

From S2P Require Import Prelude Vsprintf.

Module Lib.

(** The system calls, by name. *)
Inductive sysno : Type :=
| nr_setup | nr_exit | nr_fork | nr_read | nr_write | nr_open | nr_close | nr_waitpid
| nr_creat | nr_link | nr_unlink | nr_execve | nr_chdir | nr_time | nr_mknod | nr_chmod
| nr_chown | nr_break | nr_stat | nr_lseek | nr_getpid | nr_mount | nr_umount | nr_setuid
| nr_getuid | nr_stime | nr_ptrace | nr_alarm | nr_fstat | nr_pause | nr_utime | nr_stty
| nr_gtty | nr_access | nr_nice | nr_ftime | nr_sync | nr_kill | nr_rename | nr_mkdir
| nr_rmdir | nr_dup | nr_pipe | nr_times | nr_prof | nr_brk | nr_setgid | nr_getgid | nr_signal
| nr_geteuid | nr_getegid | nr_acct | nr_phys | nr_lock | nr_ioctl | nr_fcntl | nr_mpx
| nr_setpgid | nr_ulimit | nr_uname | nr_umask | nr_chroot | nr_ustat | nr_dup2 | nr_getppid
| nr_getpgrp | nr_setsid | nr_sigaction | nr_sgetmask | nr_ssetmask | nr_setreuid | nr_setregid.
#[export] Instance sysno_dec : EqDecision sysno.
Proof. solve_decision. Defined.

(** [__NR_name] *)
Definition NR (c : sysno) : Z :=
  match c with
  | nr_setup => 0 | nr_exit => 1 | nr_fork => 2 | nr_read => 3 | nr_write => 4 | nr_open => 5
  | nr_close => 6 | nr_waitpid => 7 | nr_creat => 8 | nr_link => 9 | nr_unlink => 10
  | nr_execve => 11 | nr_chdir => 12 | nr_time => 13 | nr_mknod => 14 | nr_chmod => 15
  | nr_chown => 16 | nr_break => 17 | nr_stat => 18 | nr_lseek => 19 | nr_getpid => 20
  | nr_mount => 21 | nr_umount => 22 | nr_setuid => 23 | nr_getuid => 24 | nr_stime => 25
  | nr_ptrace => 26 | nr_alarm => 27 | nr_fstat => 28 | nr_pause => 29 | nr_utime => 30
  | nr_stty => 31 | nr_gtty => 32 | nr_access => 33 | nr_nice => 34 | nr_ftime => 35
  | nr_sync => 36 | nr_kill => 37 | nr_rename => 38 | nr_mkdir => 39 | nr_rmdir => 40
  | nr_dup => 41 | nr_pipe => 42 | nr_times => 43 | nr_prof => 44 | nr_brk => 45
  | nr_setgid => 46 | nr_getgid => 47 | nr_signal => 48 | nr_geteuid => 49 | nr_getegid => 50
  | nr_acct => 51 | nr_phys => 52 | nr_lock => 53 | nr_ioctl => 54 | nr_fcntl => 55
  | nr_mpx => 56 | nr_setpgid => 57 | nr_ulimit => 58 | nr_uname => 59 | nr_umask => 60
  | nr_chroot => 61 | nr_ustat => 62 | nr_dup2 => 63 | nr_getppid => 64 | nr_getpgrp => 65
  | nr_setsid => 66 | nr_sigaction => 67 | nr_sgetmask => 68 | nr_ssetmask => 69
  | nr_setreuid => 70 | nr_setregid => 71
  end.
(** What [system_call] of the kernel jumps to for each number. *)
Definition sys_call_table : list sysno :=
  [nr_setup; nr_exit; nr_fork; nr_read; nr_write; nr_open; nr_close; nr_waitpid; nr_creat;
   nr_link; nr_unlink; nr_execve; nr_chdir; nr_time; nr_mknod; nr_chmod; nr_chown; nr_break;
   nr_stat; nr_lseek; nr_getpid; nr_mount; nr_umount; nr_setuid; nr_getuid; nr_stime;
   nr_ptrace; nr_alarm; nr_fstat; nr_pause; nr_utime; nr_stty; nr_gtty; nr_access; nr_nice;
   nr_ftime; nr_sync; nr_kill; nr_rename; nr_mkdir; nr_rmdir; nr_dup; nr_pipe; nr_times;
   nr_prof; nr_brk; nr_setgid; nr_getgid; nr_signal; nr_geteuid; nr_getegid; nr_acct; nr_phys;
   nr_lock; nr_ioctl; nr_fcntl; nr_mpx; nr_setpgid; nr_ulimit; nr_uname; nr_umask; nr_chroot;
   nr_ustat; nr_dup2; nr_getppid; nr_getpgrp; nr_setsid; nr_sigaction; nr_sgetmask;
   nr_ssetmask; nr_setreuid; nr_setregid].

(** The library and the kernel agree on the numbers. *)
Lemma sys_call_table_NR c : array_get sys_call_table (NR c) = Some c.
Proof. by destruct c. Qed.
Lemma NR_in_table n : 0 <= n < Z.of_nat (length sys_call_table) <-> exists c, NR c = n.
Proof.
  split.
  - intros Hn. destruct (array_get_in_bounds _ _ Hn) as [c Hc]. exists c.
    assert (Hall : forallb (fun n => bool_decide (NR <$> array_get sys_call_table n = Some n)) (seqZ 0 72) = true)
      by (vm_compute; reflexivity).
    rewrite forallb_forall in Hall. specialize (Hall n ltac:(apply list_elem_of_In, elem_of_seqZ; cbn in Hn; lia)).
    apply bool_decide_eq_true in Hall. rewrite Hc in Hall. by injection Hall.
  - intros [c <-]. by eapply array_get_Some_bound, sys_call_table_NR.
Qed.

(** ** The stubs *)

(** What a program passes: a number, the address of a string or of a block
    of memory with these bytes, a null-terminated array of strings, or the
    address of a variable. *)
Inductive sysarg : Type :=
| Num (v : Z)
| Str (s : string)
| Bytes (l : list Z)
| Strs (l : list string)
| Ref (name : string).

(** The program's variable [errno], [i] of [init], and the rest of the
    world. *)
Record prog (W : Type) : Type := Prog { errno : Z; var_i : Z; world : W }.
Arguments Prog {W}. Arguments errno {W}. Arguments var_i {W}. Arguments world {W}.
#[export] Instance prog_rebuild {W} : Rebuild (prog W) := fun s => Prog (errno s) (var_i s) (world s).

(** [int $0x80]: the number in [eax] and the arguments in [ebx], [ecx] and
    [edx]; what the kernel leaves in [eax].  A call may store to [i], end the
    process, or return twice. *)
Class Kernel_entry (W : Type) := int80 : Z -> list sysarg -> KM (prog W) Z.

Section stubs.
Context {W : Type} {K : Kernel_entry W}.

(** [_syscall0] .. [_syscall3] *)
Definition syscall (c : sysno) (args : list sysarg) : KM (prog W) Z :=
  res ← int80 (NR c) args;
  if 0 <=? res then mret res
  else modify (fun s => s ⟪ errno := - res ⟫) ;; mret (-1).

Definition close (fd : Z) : KM (prog W) Z := syscall nr_close [Num fd].
Definition dup (fd : Z) : KM (prog W) Z := syscall nr_dup [Num fd].
Definition execve (file : string) (argv envp : list string) : KM (prog W) Z :=
  syscall nr_execve [Str file; Strs argv; Strs envp].
Definition setsid : KM (prog W) Z := syscall nr_setsid [].
Definition write (fd : Z) (buf : list Z) (count : Z) : KM (prog W) Z :=
  syscall nr_write [Num fd; Bytes buf; Num count].
Definition waitpid (pid : Z) (wait_stat : string) (options : Z) : KM (prog W) Z :=
  syscall nr_waitpid [Num pid; Ref wait_stat; Num options].
Definition wait (wait_stat : string) : KM (prog W) Z := waitpid (-1) wait_stat 0.
Definition open (filename : string) (flag mode : Z) : KM (prog W) Z :=
  res ← int80 (NR nr_open) [Str filename; Num flag; Num mode];
  if 0 <=? res then mret res
  else modify (fun s => s ⟪ errno := - res ⟫) ;; mret (-1).
(** [_exit] does not look at what the call returns, as it does not return. *)
Definition _exit (exit_code : Z) : KM (prog W) unit := _ ← int80 (NR nr_exit) [Num exit_code]; mret tt.
Definition fork : KM (prog W) Z := syscall nr_fork [].
Definition setup (BIOS : list Z) : KM (prog W) Z := syscall nr_setup [Bytes BIOS].
Definition sync : KM (prog W) Z := syscall nr_sync [].

(** ** [init] *)

Definition O_RDONLY : Z := 0.
Definition O_RDWR : Z := 2.

(** [printf] of [init/main.c]; [string_at] gives the strings that [%s]
    arguments point to, and the result is the length. *)
Context (string_at : Z -> list Z) (chars : string -> list Z).
Definition printf (fmt : string) (args : list Z) : KM (prog W) Z :=
  r ← deref (vsprintf string_at (chars fmt) args);
  let i := Z.of_nat (length r.1) in
  _ ← write 1 r.1 i; mret i.

Definition argv_rc : list string := ["/bin/sh"%string].
Definition envp_rc : list string := ["HOME=/"%string].
Definition argv : list string := ["-/bin/sh"%string].
Definition envp : list string := ["HOME=/usr/root"%string].

(** [while (pid != wait(&i));] *)
Definition wait_for (fuel : nat) (pid : Z) : KM (prog W) unit :=
  kloop fuel (fun _ => w ← wait "i"; mret (if negb (pid =? w) then inl tt else inr tt)) tt.

(** The child that runs [/etc/rc]. *)
Definition run_rc : KM (prog W) unit :=
  _ ← close 0;
  r ← open "/etc/rc" O_RDONLY 0;
  kwhen (truth r) (_exit 1) ;;
  _ ← execve "/bin/sh" argv_rc envp_rc;
  _exit 2.
(** The child that becomes a login shell. *)
Definition run_shell : KM (prog W) unit :=
  _ ← close 0; _ ← close 1; _ ← close 2;
  _ ← setsid;
  _ ← open "/dev/tty0" O_RDWR 0;
  _ ← dup 0; _ ← dup 0;
  r ← execve "/bin/sh" argv envp;
  _exit r.
(** A turn of the endless loop. *)
Definition init_turn (fuel : nat) : KM (prog W) unit :=
  pid ← fork;
  if pid <? 0 then _ ← printf "Fork failed in init\r\n" []; mret tt
  else
    kwhen (negb (truth pid)) run_shell ;;
    wait_for fuel pid ;;
    i ← gets var_i;
    _ ← printf "\n\rchild %d died with code %04x\n\r" [pid; i];
    _ ← sync; mret tt.

Definition init (fuel : nat) (drive_info : list Z) (NR_BUFFERS memory_end main_memory_start : Z) : KM (prog W) unit :=
  _ ← setup drive_info;
  _ ← open "/dev/tty0" O_RDWR 0;
  _ ← dup 0; _ ← dup 0;
  _ ← printf "%d buffers = %d bytes buffer space\n\r" [NR_BUFFERS; NR_BUFFERS * 1024];
  _ ← printf "Free mem: %d bytes\n\r" [memory_end - main_memory_start];
  pid ← fork;
  kwhen (negb (truth pid)) run_rc ;;
  kwhen (0 <? pid) (wait_for fuel pid) ;;
  kloop fuel (fun _ => init_turn fuel ;; mret (inl tt : unit + unit)) tt.
End stubs.

(** ** [init] does not return

    When [exit] ends the process, as it does, no way through [init]
    returns. *)
Section never.
Context {W : Type} {K : Kernel_entry W}.
Context (string_at : Z -> list Z) (chars : string -> list Z).
Implicit Types s : prog W.

Lemma kloop_forever {T A B} fuel (body : A -> KM T (A + B)) a t b t' :
  (forall a t b t', body a t <> Done (inr b) t') -> kloop fuel body a t <> Done b t'.
Proof.
  intros Hb. revert a t. induction fuel as [|fuel IH]; intros a t; [done|].
  rewrite kloop_S. destruct (body a t) as [[a'|b'] t1| | | |] eqn:E; try done. by intros _; apply (Hb a t b' t1).
Qed.
Lemma init_never_returns fuel d n e m s r s' :
  init string_at chars fuel d n e m s <> Done r s'.
Proof.
  unfold init. intros H. repeat done_step H. revert H. apply kloop_forever.
  clear. intros a s b s1 H. done_step H. by apply ret_Done in H as [? _].
Qed.
End never.
End Lib.
