(* ===== verification/Build.v ===== *)
(** * The image builder ([tools/build.c])

    The host program that puts the boot sector, the setup code and the system
    together: what it reads, what it writes to its output, and how it fails.
    The contents of files are lists of bytes; a file that is open is what is
    left to read of it. *)

From S2P Require Import Prelude FsData.

Module Build.

Record host : Type := Host {
  files : gmap string (list Z);
  devices : gmap string Z;               (* [st_rdev] of what [stat] finds *)
  room : Z;                              (* the bytes the output still takes *)
  out : list Z;
  err : list (string * list Z)           (* the messages, the latest first *)
}.
#[export] Instance host_rebuild : Rebuild host := fun w => Host (files w) (devices w) (room w) (out w) (err w).

Definition MINIX_HEADER : Z := 32.
Definition GCC_HEADER : Z := 1024.
Definition SYS_SIZE : Z := 0x2000.
Definition DEFAULT_MAJOR_ROOT : Z := 3.
Definition DEFAULT_MINOR_ROOT : Z := 6.
Definition SETUP_SECTS : Z := 4.
(** [sizeof buf] *)
Definition BUF : Z := 1024.

(** ** The host's calls *)

Definition fprintf (fmt : string) (args : list Z) : KM host unit :=
  modify (fun w => w ⟪ err := (fmt, args) :: err w ⟫).
Definition exit {A} (code : Z) : KM host A := fun w => Exited code w.
Definition open_file (name : string) : KM host (option (list Z)) := gets (fun w => files w !! name).
(** [read] gives the bytes it read and what is left. *)
Definition read (fd : list Z) (n : Z) : list Z * list Z := (take (Z.to_nat n) fd, drop (Z.to_nat n) fd).
Definition write (buf : list Z) (n : Z) : KM host Z :=
  r ← gets room;
  let k := Z.min n (Z.max 0 r) in
  modify (fun w => w ⟪ out := out w ++ take (Z.to_nat k) buf ⟫ ⟪ room := room w - k ⟫) ;;
  mret k.
(** The buffer after reading into it. *)
Definition into (buf bytes : list Z) : list Z := bytes ++ drop (length bytes) buf.

(** ** The program *)

Definition die {A} (str : string) : KM host A := fprintf str [] ;; exit 1.
Definition usage {A} : KM host A := die "Usage: build bootsect setup system [rootdev] [> image]".

Definition root_device (arg : option string) : KM host (Z * Z) :=
  match arg with
  | Some name =>
      if bool_decide (name <> "FLOPPY") then
        o ← gets (fun w => devices w !! name);
        match o with
        | None => fprintf name [] ;; die "Couldn't stat root device."
        | Some st_rdev => mret (s8 (Z.shiftr st_rdev 8), s8 (Z.land st_rdev 0xff))
        end
      else mret (0, 0)
  | None => mret (DEFAULT_MAJOR_ROOT, DEFAULT_MINOR_ROOT)
  end.

(** The longword [k] of the buffer. *)
Definition long (buf : list Z) (k : Z) : Z := FsData.get32 buf (4 * k).
Definition is_not (v w : Z) : bool := negb (v =? w).

(** The file is opened, and the header of [as86]'s output is read and
    checked; [what] is the name in the messages. *)
Definition open_minix (what : string) (name : string) (buf : list Z) : KM host (list Z * list Z) :=
  o ← open_file name;
  match o with
  | None => die ("Unable to open '" +:+ what +:+ "'")
  | Some fd =>
      let '(bytes, fd) := read fd MINIX_HEADER in
      let buf := into buf bytes in
      if is_not (Z.of_nat (length bytes)) MINIX_HEADER then die ("Unable to read header of '" +:+ what +:+ "'")
      else if is_not (long buf 0) 0x04100301 then die ("Non-Minix header of '" +:+ what +:+ "'")
      else if is_not (long buf 1) MINIX_HEADER then die ("Non-Minix header of '" +:+ what +:+ "'")
      else if is_not (long buf 3) 0 then die ("Illegal data segment in '" +:+ what +:+ "'")
      else if is_not (long buf 4) 0 then die ("Illegal bss in '" +:+ what +:+ "'")
      else if is_not (long buf 5) 0 then die ("Non-Minix header of '" +:+ what +:+ "'")
      else if is_not (long buf 7) 0 then die ("Illegal symbol table in '" +:+ what +:+ "'")
      else mret (fd, buf)
  end.

Definition write_all (buf : list Z) (n : Z) : KM host unit :=
  k ← write buf n; kwhen (is_not k n) (die "Write call failed").

(** A turn of [for (i=0 ; (c=read(id,buf,sizeof buf))>0 ; i+=c )]. *)
Definition copy_turn (a : list Z * list Z * Z) : KM host (list Z * list Z * Z + Z * list Z) :=
  let '(fd, buf, i) := a in
  let '(bytes, fd) := read fd BUF in
  let c := Z.of_nat (length bytes) in
  let buf := into buf bytes in
  if 0 <? c then write_all buf c ;; mret (inl (fd, buf, s32 (i + c)))
  else mret (inr (i, buf)).
(** The number of bytes copied, and the buffer; every turn but the last takes
    a byte. *)
Definition copy_file (fd buf : list Z) : KM host (Z * list Z) :=
  kloop (S (length fd)) copy_turn (fd, buf, 0).

(** [while (i<SETUP_SECTS*512)] with a cleared buffer. *)
Definition pad_turn (i : Z) : KM host (Z + unit) :=
  if i <? SETUP_SECTS * 512 then
    let c := SETUP_SECTS * 512 - i in
    let c := if BUF <? c then BUF else c in
    write_all (replicate (Z.to_nat BUF) 0) c ;; mret (inl (i + c))
  else mret (inr tt).
Definition pad_setup (i : Z) : KM host unit := kloop 4 pad_turn i.

Definition build_boot (root : Z * Z) (name : string) (buf : list Z) : KM host (list Z) :=
  '(fd, buf) ← open_minix "boot" name buf;
  let '(bytes, fd) := read fd BUF in
  let buf := into buf bytes in
  let i := Z.of_nat (length bytes) in
  fprintf "Boot sector %d bytes." [i] ;;
  if is_not i 512 then die "Boot block must be exactly 512 bytes"
  else if is_not (FsData.get16 buf 510) 0xAA55 then die "Boot block hasn't got boot flag (0xAA55)"
  else
    let buf := array_set (array_set buf 508 (u8 root.2)) 509 (u8 root.1) in
    write_all buf 512 ;; mret buf.

Definition build_setup (name : string) (buf : list Z) : KM host unit :=
  '(fd, buf) ← open_minix "setup" name buf;
  '(i, buf) ← copy_file fd buf;
  if SETUP_SECTS * 512 <? i then die "Setup exceeds SETUP_SECTS sectors - rewrite build/boot/setup"
  else fprintf "Setup is %d bytes." [i] ;; pad_setup i.

Definition build_system (name : string) (buf : list Z) : KM host unit :=
  o ← open_file name;
  match o with
  | None => die "Unable to open 'system'"
  | Some fd =>
      let '(bytes, fd) := read fd GCC_HEADER in
      let buf := into buf bytes in
      if is_not (Z.of_nat (length bytes)) GCC_HEADER then die "Unable to read header of 'system'"
      else if is_not (long buf 5) 0 then die "Non-GCC header of 'system'"
      else
        '(i, _) ← copy_file fd buf;
        fprintf "System is %d bytes." [i] ;;
        kwhen (SYS_SIZE * 16 <? i) (die "System is too big")
  end.

(** [argv] without the program's name. *)
Definition main (argv : list string) : KM host Z :=
  match argv with
  | boot :: setup :: system :: rest =>
      if (2 <=? Z.of_nat (length rest)) then usage
      else
        '(major_root, minor_root) ← root_device (head rest);
        fprintf "Root device is (%d, %d)" [major_root; minor_root] ;;
        if is_not major_root 2 && is_not major_root 3 && is_not major_root 0 then
          fprintf "Illegal root device (major = %d)" [major_root] ;; die "Bad root device --- major #"
        else
          buf ← build_boot (major_root, minor_root) boot (replicate (Z.to_nat BUF) 0);
          build_setup setup buf ;;
          build_system system (replicate (Z.to_nat BUF) 0) ;;
          mret 0
  | _ => usage
  end.
End Build.
