(* ===== verification/BuildOk.v ===== *)
(** * The image that the builder makes

    A description of the image from the three files, and that [main] of
    [tools/build.c] writes it, or fails with an exit code when the
    description gives none. *)

From S2P Require Import Prelude FsData Build.
Import Build.

Module BuildOk.

(** ** The image, as a function of the files *)

Definition blen (l : list Z) : Z := Z.of_nat (length l).
(** What follows the header of a file in [as86]'s format without data. *)
Definition minix_code (f : list Z) : option (list Z) :=
  if bool_decide (MINIX_HEADER <= blen f) &&
     bool_decide (long f 0 = 0x04100301 /\ long f 1 = MINIX_HEADER /\ long f 3 = 0 /\ long f 4 = 0 /\
                  long f 5 = 0 /\ long f 7 = 0)
  then Some (drop 32 f) else None.
Definition code_of (w : host) (name : string) : option (list Z) := files w !! name ≫= minix_code.
(** The boot sector with the root device in its bytes 508 and 509. *)
Definition boot_part (root : Z * Z) (code : list Z) : option (list Z) :=
  if bool_decide (length code = 512%nat /\ FsData.get16 code 510 = 0xAA55)
  then Some (take 508 code ++ [u8 root.2; u8 root.1] ++ drop 510 code) else None.
(** The setup code, filled up to four sectors. *)
Definition setup_part (code : list Z) : option (list Z) :=
  if bool_decide (blen code <= 2048) then Some (code ++ replicate (2048 - length code) 0) else None.
(** The system without its header, of at most 128 kB. *)
Definition system_part (f : list Z) : option (list Z) :=
  if bool_decide (GCC_HEADER <= blen f /\ long f 5 = 0 /\ blen f <= GCC_HEADER + 0x20000)
  then Some (drop 1024 f) else None.
(** The default is the second partition of the first hard disk; a major
    number must be that of a driver, or 0. *)
Definition root_of (devs : gmap string Z) (arg : option string) : option (Z * Z) :=
  r ← match arg with
      | None => Some (3, 6)
      | Some name =>
          if bool_decide (name = "FLOPPY") then Some (0, 0)
          else rdev ← devs !! name; Some (s8 (Z.shiftr rdev 8), s8 (Z.land rdev 0xff))
      end;
  if bool_decide (r.1 = 0 \/ r.1 = 2 \/ r.1 = 3) then Some r else None.
Definition image_of (w : host) (argv : list string) : option (list Z) :=
  match argv with
  | boot :: setup :: system :: rest =>
      if bool_decide (length rest <= 1)%nat then
        root ← root_of (devices w) (head rest);
        b ← (code_of w boot ≫= boot_part root);
        s ← (code_of w setup ≫= setup_part);
        y ← (files w !! system ≫= system_part);
        Some (b ++ s ++ y)
      else None
  | _ => None
  end.

(** ** Runs that write bytes or die *)

Definition same (w w' : host) : Prop := files w' = files w /\ devices w' = devices w.

(** [m] writes [img], with a result in [P], unless the output has no room
    for it; and it exits with code 1 when there is nothing to write. *)
Definition runs {A} (m : KM host A) (P : A -> Prop) (o : option (list Z)) (w : host) : Prop :=
  match m w with
  | Done a w' => exists img, o = Some img /\ P a /\ same w w' /\ out w' = out w ++ img /\
      room w' = room w - blen img /\ blen img <= Z.max 0 (room w)
  | Exited c w' => c = 1 /\ match o with Some img => room w < blen img | None => True end
  | _ => False
  end.

Section rules.
Context {A B : Type}.
Implicit Types (m : KM host A) (f : A -> KM host B) (w : host).

Lemma runs_ret (a : A) (P : A -> Prop) w : P a -> runs (mret a) P (Some []) w.
Proof. intros. exists []. split_and!; [done|done|done|by rewrite app_nil_r|unfold blen; simpl length; lia|unfold blen; simpl length; lia]. Qed.
Lemma runs_die str (P : A -> Prop) w : runs (die str) P None w.
Proof. done. Qed.
Lemma runs_bind m f P Q img o w :
  runs m P (Some img) w ->
  (forall a w', P a -> same w w' -> runs (f a) Q o w') ->
  runs (m ≫= f) Q (o' ← o; Some (img ++ o')) w.
Proof.
  unfold runs, mbind, kbind. intros Hm Hf. destruct (m w) as [a w1|m1 w1|c w1|w1|]; try done.
  - destruct Hm as (i & [= <-] & Ha & [Hs1 Hs2] & Hout & Hroom & Hfit).
    specialize (Hf a w1 Ha (conj Hs1 Hs2)). destruct (f a w1) as [b w2|m2 w2|c w2|w2|]; try done.
    + destruct Hf as (i' & -> & Hb & [? ?] & Hout' & Hroom' & Hfit'). exists (img ++ i').
      unfold blen in *. rewrite length_app, Nat2Z.inj_add.
      split_and!; [done|done|split; congruence|by rewrite Hout', Hout, app_assoc|lia|lia].
    + destruct Hf as [-> Ho]. split; [done|]. destruct o as [i'|]; cbn; [|done].
      unfold blen in *. rewrite length_app, Nat2Z.inj_add. lia.
  - destruct Hm as [-> Hr]. split; [done|]. destruct o as [i'|]; cbn; [|done].
    unfold blen in *. rewrite length_app, Nat2Z.inj_add. lia.
Qed.
Lemma runs_bind_none m f P Q w : runs m P None w -> runs (m ≫= f) Q None w.
Proof.
  unfold runs, mbind, kbind. destruct (m w); [|done..]. by intros (? & [=] & _).
Qed.
Lemma runs_weaken m P P' o w : (forall a, P a -> P' a) -> runs m P o w -> runs m P' o w.
Proof.
  unfold runs. intros HP. destruct (m w); [|done..]. intros (img & ? & ? & ?). exists img. auto.
Qed.
End rules.

Lemma runs_fprintf fmt args w : runs (fprintf fmt args) (fun _ => True) (Some []) w.
Proof.
  unfold runs, fprintf, modify. exists [].
  split_and!; [done|done|done|by rewrite app_nil_r|cbn [room set_field]|]; unfold blen; cbn [length]; lia.
Qed.
(** A step that writes nothing. *)
Lemma runs_silent {A B} (m : KM host A) (f : A -> KM host B) P Q o w :
  runs m P (Some []) w -> (forall a w', P a -> same w w' -> runs (f a) Q o w') -> runs (m ≫= f) Q o w.
Proof.
  intros Hm Hf. pose proof (runs_bind m f P Q [] o w Hm Hf) as H. by destruct o.
Qed.
(** A step that writes, before what writes nothing or more. *)
Lemma runs_last {A B} (m : KM host A) (f : A -> KM host B) P Q img w :
  runs m P (Some img) w -> (forall a w', P a -> same w w' -> runs (f a) Q (Some []) w') ->
  runs (m ≫= f) Q (Some img) w.
Proof.
  intros Hm Hf. pose proof (runs_bind m f P Q img (Some []) w Hm Hf) as H. cbn in H. by rewrite app_nil_r in H.
Qed.
Lemma runs_app {A B} (m : KM host A) (f : A -> KM host B) P Q img img' w :
  runs m P (Some img) w -> (forall a w', P a -> same w w' -> runs (f a) Q (Some img') w') ->
  runs (m ≫= f) Q (Some (img ++ img')) w.
Proof. intros Hm Hf. exact (runs_bind m f P Q img (Some img') w Hm Hf). Qed.
Lemma runs_write_all buf n w :
  0 <= n <= blen buf -> runs (write_all buf n) (fun _ => True) (Some (take (Z.to_nat n) buf)) w.
Proof.
  intros Hn. unfold runs, write_all, write, mbind, kbind, gets, modify, mret, kret, is_not.
  assert (Hlen : blen (take (Z.to_nat n) buf) = n) by (unfold blen in *; rewrite length_take; lia).
  destruct (Z.eqb_spec (Z.min n (Z.max 0 (room w))) n) as [He|He]; cbn [negb kwhen].
  - exists (take (Z.to_nat n) buf). rewrite He, Hlen. split_and!; try done; lia.
  - split; [done|]. lia.
Qed.

(** ** The routines *)

Definition code_opt (o : option (list Z)) : option (list Z) := match o with Some _ => Some [] | None => None end.

Lemma get8_into bytes buf k : 0 <= k < blen bytes -> FsData.get8 (into buf bytes) k = FsData.get8 bytes k.
Proof.
  unfold blen, FsData.get8, array_get, into. intros Hk. destruct (Z.leb_spec 0 k); [|lia].
  by rewrite lookup_app_l by lia.
Qed.
Lemma get8_take n f k : 0 <= k < Z.of_nat n -> FsData.get8 (take n f) k = FsData.get8 f k.
Proof.
  unfold FsData.get8, array_get. intros Hk. destruct (Z.leb_spec 0 k); [|lia]. by rewrite lookup_take_lt by lia.
Qed.
(** A longword of the header, read from the buffer. *)
Lemma long_header n f buf k :
  0 <= k -> 4 * k + 4 <= Z.of_nat n -> Z.of_nat n <= blen f -> long (into buf (take n f)) k = long f k.
Proof.
  intros Hk Hn Hf. unfold long, FsData.get32, FsData.get16.
  rewrite !get8_into, !get8_take by (unfold blen in *; rewrite ?length_take; lia). done.
Qed.
Lemma length_into buf bytes : (length bytes <= length buf)%nat -> length (into buf bytes) = length buf.
Proof. intros. unfold into. rewrite length_app, length_drop. lia. Qed.

Lemma is_not_true v x : is_not v x = true <-> v <> x.
Proof. unfold is_not. by destruct (Z.eqb_spec v x). Qed.

Lemma runs_open_minix what name buf w :
  length buf = 1024%nat ->
  runs (open_minix what name buf)
    (fun '(fd, b) => code_of w name = Some fd /\ length b = 1024%nat)
    (code_opt (code_of w name)) w.
Proof.
  intros Hbuf. unfold open_minix. 
  apply (runs_silent (open_file name) _ (fun o => o = files w !! name)).
  { exists []. split_and!; try done; [by rewrite app_nil_r|unfold blen; cbn; lia..]. }
  intros o w' -> _. unfold code_of. destruct (files w !! name) as [f|]; [|apply runs_die].
  cbn [mbind option_bind]. unfold read. change (Z.to_nat MINIX_HEADER) with 32%nat. cbv zeta.
  unfold minix_code. destruct (decide (32 <= blen f)) as [Hlen|Hlen].
  2: { rewrite bool_decide_eq_false_2 by (unfold blen in *; unfold MINIX_HEADER; lia).
       replace (is_not _ MINIX_HEADER) with true; [apply runs_die|].
       symmetry. apply is_not_true. rewrite length_take. unfold blen, MINIX_HEADER in *. lia. }
  rewrite bool_decide_eq_true_2 by done. cbn [andb].
  replace (is_not _ MINIX_HEADER) with false.
  2: { symmetry. apply not_true_iff_false. rewrite is_not_true, length_take. unfold blen, MINIX_HEADER in *. lia. }
  rewrite !long_header by (unfold blen in *; lia).
  case_bool_decide as Hok; cbn [code_opt].
  - destruct Hok as (H0 & H1 & H3 & H4 & H5 & H7).
    rewrite H0, H1, H3, H4, H5, H7. change (is_not 0 0) with false. cbn.
    apply runs_ret. split; [done|]. rewrite length_into; [done|]. rewrite length_take. lia.
  - repeat match goal with |- context [is_not ?a ?b] =>
      let H := fresh in destruct (is_not a b) eqn:H; [apply runs_die|apply not_true_iff_false in H; rewrite is_not_true in H]
    end.
    exfalso. apply Hok. repeat match goal with H : ~ (_ <> _) |- _ => apply Z.eq_dne in H end. done.
Qed.

Definition copied (n : Z) (r : Z * list Z) : Prop := r.1 = n.

(** The loop of [copy_file], with [i] bytes copied before. *)
Lemma runs_copy fuel fd buf i w :
  (length fd < fuel)%nat -> length buf = 1024%nat -> 0 <= i -> i + blen fd < 2147483648 ->
  runs (kloop fuel copy_turn (fd, buf, i)) (copied (i + blen fd)) (Some fd) w.
Proof.
  revert fd buf i w. induction fuel as [|fuel IH]; intros fd buf i w Hf Hb Hi Hsize; [lia|].
  cbn [kloop]. set (bytes := take 1024 fd).
  assert (Hturn : copy_turn (fd, buf, i) =
    if 0 <? Z.of_nat (length bytes)
    then write_all (into buf bytes) (Z.of_nat (length bytes)) ;;
         mret (inl (drop 1024 fd, into buf bytes, s32 (i + Z.of_nat (length bytes))))
    else mret (inr (i, into buf bytes))) by done.
  rewrite Hturn. clear Hturn. destruct (Z.ltb_spec 0 (Z.of_nat (length bytes))) as [Hc|Hc].
  - assert (Hbytes : (0 < length bytes <= 1024)%nat /\ (length bytes + length (drop 1024 fd) = length fd)%nat).
    { unfold bytes in *. rewrite length_take, length_drop in *. lia. }
    assert (Hinto : length (into buf bytes) = 1024%nat) by (rewrite length_into; [done|lia]).
    replace (Some fd) with (Some (bytes ++ drop 1024 fd)) by (unfold bytes; by rewrite take_drop).
    apply (runs_app _ _ (fun r => exists w', same w w' /\ r = inl (drop 1024 fd, into buf bytes, i + Z.of_nat (length bytes)))).
    + apply (runs_last _ _ (fun _ => True)).
      * assert (Hw : take (Z.to_nat (Z.of_nat (length bytes))) (into buf bytes) = bytes)
          by (rewrite Nat2Z.id; unfold into; by rewrite take_app_length).
        pose proof (runs_write_all (into buf bytes) (Z.of_nat (length bytes)) w) as Hrun.
        rewrite Hw in Hrun. apply Hrun. unfold blen. lia.
      * intros _ w' _ Hs. apply runs_ret. exists w'. split; [done|].
        unfold blen in *. by rewrite s32_small by lia.
    + intros r w' (_ & _ & ->) Hs. 
      replace (i + blen fd) with (i + Z.of_nat (length bytes) + blen (drop 1024 fd)) by (unfold blen; lia).
      apply IH; unfold blen in *; lia.
  - assert (Hnil : fd = []).
    { destruct fd; [done|]. unfold bytes in Hc. cbn in Hc. lia. }
    subst fd. apply (runs_silent _ _ (fun r => r = inr (i, into buf bytes))); [by apply runs_ret|].
    intros r w' -> _. apply runs_ret. unfold copied, blen. cbn. lia.
Qed.
Lemma runs_copy_file fd buf w :
  length buf = 1024%nat -> blen fd < 2147483648 -> runs (copy_file fd buf) (copied (blen fd)) (Some fd) w.
Proof. intros Hb Hs. unfold copy_file. apply (runs_copy _ _ _ 0); (done || lia). Qed.

Lemma runs_pad fuel i w :
  0 <= i <= 2048 -> 2048 - i < 1024 * (Z.of_nat fuel - 1) + 1 ->
  runs (kloop fuel pad_turn i) (fun _ => True) (Some (replicate (Z.to_nat (2048 - i)) 0)) w.
Proof.
  revert i w. induction fuel as [|fuel IH]; intros i w Hi Hf; [lia|].
  cbn [kloop].
  assert (Hturn : pad_turn i = if i <? 2048 then
      let c := 2048 - i in let c := if 1024 <? c then 1024 else c in
      write_all (replicate (Z.to_nat 1024) 0) c ;; mret (inl (i + c))
    else mret (inr tt)) by done.
  rewrite Hturn. clear Hturn.
  destruct (Z.ltb_spec i 2048) as [Hlt|Hge].
  - cbv zeta. set (c := if 1024 <? 2048 - i then 1024 else 2048 - i).
    assert (Hc : 0 < c <= 1024 /\ c <= 2048 - i /\ (c = 1024 \/ c = 2048 - i))
      by (unfold c; destruct (Z.ltb_spec 1024 (2048 - i)); lia).
    replace (Z.to_nat (2048 - i)) with (Z.to_nat c + Z.to_nat (2048 - (i + c)))%nat by lia.
    rewrite replicate_add. apply (runs_app _ _ (fun r => r = inl (i + c))).
    + apply (runs_last _ _ (fun _ => True)); [|intros _ w' _ _; by apply runs_ret].
      replace (replicate (Z.to_nat c) 0) with (take (Z.to_nat c) (replicate (Z.to_nat 1024) 0)).
      * apply runs_write_all. unfold blen. rewrite length_replicate. lia.
      * rewrite take_replicate. f_equal. lia.
    + intros r w' -> _. apply IH; lia.
  - replace (Z.to_nat (2048 - i)) with 0%nat by lia.
    apply (runs_silent _ _ (fun r => r = inr tt)); [by apply runs_ret|].
    intros r w' -> _. by apply runs_ret.
Qed.

(** ** The three parts and [main] *)

Lemma minix_code_short f code : minix_code f = Some code -> blen code <= blen f.
Proof. unfold minix_code. case_match; [|done]. intros [= <-]. unfold blen. rewrite length_drop. lia. Qed.

Lemma patched_sector code b x y :
  length code = 512%nat ->
  take 512 (array_set (array_set (into b code) 508 x) 509 y) = take 508 code ++ [x; y] ++ drop 510 code.
Proof.
  intros Hlen. unfold array_set, into. change (0 <=? 508) with true. change (0 <=? 509) with true.
  change (Z.to_nat 508) with 508%nat. change (Z.to_nat 509) with 509%nat.
  rewrite !insert_app_l by (rewrite ?length_insert; lia).
  rewrite take_app_length' by (by rewrite !length_insert).
  rewrite (insert_take_drop _ 509), (insert_take_drop _ 508) by (rewrite ?length_insert; lia).
  rewrite take_app, drop_app, length_take, take_take, Hlen. cbn [Nat.min Nat.sub take].
  rewrite (drop_ge (take 508 code)) by (rewrite length_take; lia).
  rewrite app_nil_l, <- app_assoc. cbn [app]. 
  change (drop 2 (x :: drop 509 code)) with (drop 1 (drop 509 code)). by rewrite drop_drop.
Qed.
Lemma runs_build_boot root name buf w :
  length buf = 1024%nat ->
  runs (build_boot root name buf) (fun b => length b = 1024%nat)
    (code_of w name ≫= boot_part root) w.
Proof.
  intros Hbuf. unfold build_boot. pose proof (runs_open_minix "boot" name buf w Hbuf) as Hopen.
  destruct (code_of w name) as [code|]; cbn [code_opt] in Hopen; [|by eapply runs_bind_none].
  eapply runs_silent; [exact Hopen|]. clear Hopen. intros [fd b] w' [[= <-] Hb] _.
  unfold read. change (Z.to_nat BUF) with 1024%nat. cbv beta iota zeta.
  eapply runs_silent; [apply runs_fprintf|]. intros _ w1 _ _.
  cbn [mbind option_bind]. unfold boot_part.
  destruct (decide (length code = 512%nat)) as [Hlen|Hlen].
  2: { rewrite bool_decide_eq_false_2 by tauto.
       replace (is_not (Z.of_nat (length (take 1024 code))) 512) with true; [apply runs_die|].
       symmetry. apply is_not_true. rewrite length_take. lia. }
  rewrite take_ge by lia.
  replace (is_not (Z.of_nat (length code)) 512) with false by (by rewrite Hlen).
  assert (Hflag : FsData.get16 (into b code) 510 = FsData.get16 code 510).
  { unfold FsData.get16. by rewrite !get8_into by (unfold blen; lia). }
  rewrite Hflag. case_bool_decide as Hf.
  - destruct Hf as [_ ->]. change (is_not 0xAA55 0xAA55) with false. cbv beta iota zeta.
    set (b' := array_set _ _ _).
    assert (Hb' : length b' = 1024%nat).
    { unfold b'. rewrite !length_array_set, length_into; [done|lia]. }
    apply (runs_last _ _ (fun _ => True)); [|intros _ w2 _ _; by apply runs_ret].
    pose proof (runs_write_all b' 512 w1) as Hw. change (Z.to_nat 512) with 512%nat in Hw.
    replace (take 508 code ++ [u8 root.2; u8 root.1] ++ drop 510 code) with (take 512 b').
    { apply Hw. unfold blen. lia. }
    by apply patched_sector.
  - replace (is_not (FsData.get16 code 510) 0xAA55) with true; [apply runs_die|].
    symmetry. apply is_not_true. tauto.
Qed.

(** The files of a host of 32 bits. *)
Definition small_files (w : host) : Prop := forall name f, files w !! name = Some f -> blen f < 2147483648.

(** What was written before the program dies counts for nothing. *)
Lemma runs_doomed {A B} (m : KM host A) (f : A -> KM host B) P Q img w :
  runs m P (Some img) w -> (forall a w', P a -> same w w' -> runs (f a) Q None w') -> runs (m ≫= f) Q None w.
Proof. intros Hm Hf. exact (runs_bind m f P Q img None w Hm Hf). Qed.

Lemma runs_build_setup name buf w :
  length buf = 1024%nat -> small_files w ->
  runs (build_setup name buf) (fun _ => True) (code_of w name ≫= setup_part) w.
Proof.
  intros Hbuf Hsmall. unfold build_setup. pose proof (runs_open_minix "setup" name buf w Hbuf) as Hopen.
  assert (Hsize : forall code, code_of w name = Some code -> blen code < 2147483648).
  { unfold code_of. intros code H. destruct (files w !! name) as [f|] eqn:Hf; [|done].
    apply minix_code_short in H. apply Hsmall in Hf. lia. }
  destruct (code_of w name) as [code|]; cbn [code_opt] in Hopen; [|by eapply runs_bind_none].
  specialize (Hsize _ eq_refl).
  eapply runs_silent; [exact Hopen|]. clear Hopen. intros [fd b] w' [[= <-] Hb] _.
  cbn [mbind option_bind]. unfold setup_part. change (SETUP_SECTS * 512) with 2048.
  case_bool_decide as Hlen.
  - apply (runs_app _ _ (copied (blen code))); [by apply runs_copy_file|].
    intros [i b'] w1 Hi _. unfold copied in Hi. cbn [fst] in Hi. subst i.
    destruct (Z.ltb_spec 2048 (blen code)) as [?|_]; [lia|].
    eapply runs_silent; [apply runs_fprintf|]. intros _ w2 _ _.
    replace (2048 - length code)%nat with (Z.to_nat (2048 - blen code)) by (unfold blen; lia).
    apply runs_pad; unfold blen in *; lia.
  - apply (runs_doomed _ _ (copied (blen code)) _ code); [by apply runs_copy_file|].
    intros [i b'] w1 Hi _. unfold copied in Hi. cbn [fst] in Hi. subst i.
    destruct (Z.ltb_spec 2048 (blen code)) as [_|?]; [apply runs_die|lia].
Qed.

Lemma runs_build_system name buf w :
  length buf = 1024%nat -> small_files w ->
  runs (build_system name buf) (fun _ => True) (files w !! name ≫= system_part) w.
Proof.
  intros Hbuf Hsmall. unfold build_system.
  apply (runs_silent (open_file name) _ (fun o => o = files w !! name)).
  { exists []. split_and!; try done; [by rewrite app_nil_r|unfold blen; cbn; lia..]. }
  intros o w' -> _. destruct (files w !! name) as [f|] eqn:Hf; [|apply runs_die].
  apply Hsmall in Hf. cbn [mbind option_bind].
  unfold read. change (Z.to_nat GCC_HEADER) with 1024%nat. cbv beta iota zeta.
  unfold system_part. change (SYS_SIZE * 16) with 0x20000.
  destruct (decide (1024 <= blen f)) as [Hlen|Hlen].
  2: { rewrite bool_decide_eq_false_2 by (unfold GCC_HEADER; lia).
       replace (is_not _ GCC_HEADER) with true; [apply runs_die|].
       symmetry. apply is_not_true. rewrite length_take. unfold blen, GCC_HEADER in *. lia. }
  replace (is_not _ GCC_HEADER) with false.
  2: { symmetry. apply not_true_iff_false. rewrite is_not_true, length_take. unfold blen, GCC_HEADER in *. lia. }
  rewrite long_header by lia.
  assert (Hinto : length (into buf (take 1024 f)) = 1024%nat) by (rewrite length_into; [done|rewrite length_take; lia]).
  assert (Hrest : blen (drop 1024 f) = blen f - 1024) by (unfold blen in *; rewrite length_drop; lia).
  case_bool_decide as Hok.
  - destruct Hok as (_ & -> & Hmax). change (is_not 0 0) with false. cbv beta iota.
    apply (runs_last _ _ (copied (blen (drop 1024 f)))); [apply runs_copy_file; [done|lia]|].
    intros [i b] w1 Hi _. unfold copied in Hi. cbn [fst] in Hi. subst i.
    eapply runs_silent; [apply runs_fprintf|]. intros _ w2 _ _.
    destruct (Z.ltb_spec 0x20000 (blen (drop 1024 f))); [unfold GCC_HEADER in *; lia|by apply runs_ret].
  - destruct (is_not (long f 5) 0) eqn:H5; [apply runs_die|]. apply not_true_iff_false in H5.
    rewrite is_not_true in H5. apply Z.eq_dne in H5.
    apply (runs_doomed _ _ (copied (blen (drop 1024 f))) _ (drop 1024 f)); [apply runs_copy_file; [done|lia]|].
    intros [i b] w1 Hi _. unfold copied in Hi. cbn [fst] in Hi. subst i.
    eapply runs_silent; [apply runs_fprintf|]. intros _ w2 _ _.
    destruct (Z.ltb_spec 0x20000 (blen (drop 1024 f))); [apply runs_die|].
    exfalso. apply Hok. unfold GCC_HEADER. split_and!; [lia|done|lia].
Qed.

Lemma runs_root_device arg w :
  runs (root_device arg) (fun r => match arg with
      | None => Some (3, 6)
      | Some name => if bool_decide (name = "FLOPPY") then Some (0, 0)
          else rdev ← devices w !! name; Some (s8 (Z.shiftr rdev 8), s8 (Z.land rdev 0xff))
      end = Some r)
    (match arg with
     | Some name => if bool_decide (name = "FLOPPY") then Some [] else code_opt ((fun _ => []) <$> devices w !! name)
     | None => Some [] end) w.
Proof.
  destruct arg as [name|]; [|by apply runs_ret]. cbn [root_device].
  destruct (decide (name = "FLOPPY")) as [->|Hne]; [by apply runs_ret|].
  rewrite bool_decide_eq_true_2, bool_decide_eq_false_2 by done.
  apply (runs_silent (gets (fun w => devices w !! name)) _ (fun o => o = devices w !! name)).
  { exists []. split_and!; try done; [by rewrite app_nil_r|unfold blen; cbn; lia..]. }
  intros o w' -> _. destruct (devices w !! name) as [rdev|]; [by apply runs_ret|].
  eapply runs_silent; [apply runs_fprintf|]. intros. apply runs_die.
Qed.

Lemma code_of_same w w' name : same w w' -> code_of w' name = code_of w name.
Proof. unfold code_of. by intros [-> _]. Qed.
Lemma small_same w w' : same w w' -> small_files w -> small_files w'.
Proof. unfold small_files. by intros [-> _]. Qed.
Lemma same_trans w1 w2 w3 : same w1 w2 -> same w2 w3 -> same w1 w3.
Proof. intros [??] [??]. split; congruence. Qed.

Lemma runs_main argv w : small_files w -> runs (main argv) (eq 0) (image_of w argv) w.
Proof.
  intros Hsmall. destruct argv as [|boot [|setup [|system rest]]]; [apply runs_die..|].
  cbn [main image_of]. case_bool_decide as Hn.
  2: { destruct (Z.leb_spec 2 (Z.of_nat (length rest))); [apply runs_die|lia]. }
  destruct (Z.leb_spec 2 (Z.of_nat (length rest))); [lia|].
  pose proof (runs_root_device (head rest) w) as Hroot. unfold root_of.
  set (o := match head rest with Some _ => _ | None => _ end) in Hroot |- *.
  destruct o as [r|] eqn:Ho; cbn [mbind option_bind].
  2: { unfold o in Ho. destruct (head rest) as [name|]; [|done].
       destruct (bool_decide (name = "FLOPPY")); [done|]. destruct (devices w !! name); [done|].
       by eapply runs_bind_none. }
  eapply runs_silent.
  { unfold o in Ho. destruct (head rest) as [name|]; [|exact Hroot].
    destruct (bool_decide (name = "FLOPPY")); [exact Hroot|].
    destruct (devices w !! name); [exact Hroot|done]. }
  intros [ma mi] w1 Hr Hs1. cbv beta in Hr. injection Hr as ->.
  eapply runs_silent; [apply runs_fprintf|]. intros _ w2 _ Hs2.
  pose proof (same_trans _ _ _ Hs1 Hs2) as Hsame2. cbn [fst].
  destruct (is_not ma 2 && is_not ma 3 && is_not ma 0) eqn:Hma.
  { rewrite !andb_true_iff, !is_not_true in Hma. rewrite bool_decide_eq_false_2 by tauto.
    eapply runs_silent; [apply runs_fprintf|]. intros. apply runs_die. }
  rewrite bool_decide_eq_true_2.
  2: { unfold is_not in Hma. destruct (Z.eqb_spec ma 2), (Z.eqb_spec ma 3), (Z.eqb_spec ma 0); auto; done. }
  cbn [mbind option_bind]. rewrite <- (code_of_same _ _ boot Hsame2), <- (code_of_same _ _ setup Hsame2).
  destruct (code_of w2 boot ≫= boot_part (ma, mi)) as [b|] eqn:Hb.
  2: { eapply runs_bind_none. rewrite <- Hb. by apply runs_build_boot. }
  pose proof (runs_build_boot (ma, mi) boot (replicate (Z.to_nat BUF) 0) w2) as Hrun. rewrite Hb in Hrun.
  cbn [option_bind].
  replace (s ← _; _) with (y ← (s ← code_of w2 setup ≫= setup_part; y ← files w !! system ≫= system_part; Some (s ++ y)); Some (b ++ y)).
  2: { destruct (code_of w2 setup ≫= setup_part); [|done]. by destruct (files w !! system ≫= system_part). }
  apply (runs_bind _ _ _ _ _ _ _ (Hrun ltac:(by rewrite length_replicate))). clear Hrun.
  intros buf w3 Hbuf Hs3. pose proof (same_trans _ _ _ Hsame2 Hs3) as Hsame3.
  rewrite <- (code_of_same _ _ setup Hs3).
  pose proof (runs_build_setup setup buf w3 Hbuf (small_same _ _ Hsame3 Hsmall)) as Hrun.
  destruct (code_of w3 setup ≫= setup_part) as [s|]; [|by eapply runs_bind_none].
  apply (runs_bind _ _ _ _ _ _ _ Hrun). clear Hrun. intros _ w4 _ Hs4.
  pose proof (same_trans _ _ _ Hsame3 Hs4) as Hsame4.
  pose proof (runs_build_system system (replicate (Z.to_nat BUF) 0) w4) as Hrun.
  rewrite (proj1 Hsame4) in Hrun. specialize (Hrun ltac:(by rewrite length_replicate) (small_same _ _ Hsame4 Hsmall)).
  destruct (files w !! system ≫= system_part) as [y|]; [|by eapply runs_bind_none].
  apply (runs_last _ _ _ _ _ _ Hrun). intros. by apply runs_ret.
Qed.

(** C21: the builder fails with exit code 1 unless it is given three files
    that exist and pass its checks - the headers, the size and the signature
    of the boot sector, the sizes of setup and system - and a root device
    that exists and has a major number of 0, 2 or 3.  Otherwise it ends, and
    when its output takes all of it, it returns 0 and has written the boot
    sector with the root device in its word 508, setup filled up to four
    sectors, and the system without its header; when not, it fails too. *)
Theorem build_makes_image argv w :
  small_files w ->
  match image_of w argv with
  | None => exists w', main argv w = Exited 1 w'
  | Some img =>
      (blen img <= room w -> exists w', main argv w = Done 0 w' /\ out w' = out w ++ img /\ same w w') /\
      (Z.max 0 (room w) < blen img -> exists w', main argv w = Exited 1 w')
  end.
Proof.
  intros Hs. pose proof (runs_main argv w Hs) as H. unfold runs in H.
  destruct (main argv w) as [a w'|m w'|c w'|w'|]; try done.
  - destruct H as (img & -> & <- & Hw & Ho & _ & Hfit). split; [|lia]. intros _. by exists w'.
  - destruct H as [-> H]. destruct (image_of w argv); [|by exists w']. split; [lia|]. intros _. by exists w'.
Qed.

(** A boot sector, five bytes of setup and three of system. *)
Definition demo_header : list Z := [1; 3; 16; 4; 32; 0; 0; 0] ++ replicate 24 0.
Definition demo_host : host :=
  Host (<["boot" := demo_header ++ replicate 510 0x90 ++ [0x55; 0xAA]]>
       (<["setup" := demo_header ++ [1; 2; 3; 4; 5]]> {["system" := replicate 1024 0 ++ [7; 8; 9]]}))
    {["/dev/hd2" := 0x302]} 10000 [] [].
Lemma build_makes_image_witness :
  small_files demo_host /\
  exists w', main ["boot"; "setup"; "system"; "/dev/hd2"]%string demo_host = Done 0 w' /\
    length (out w') = 2563%nat /\ FsData.get16 (out w') 508 = 0x302 /\ drop 2560 (out w') = [7; 8; 9].
Proof.
  assert (Hs : small_files demo_host).
  { intros name f. unfold demo_host. cbn [files].
    intros [[_ <-]|[_ [[_ <-]|[_ [_ <-]%lookup_singleton_Some]]%lookup_insert_Some]]%lookup_insert_Some; vm_compute; done. }
  split; [exact Hs|].
  pose proof (build_makes_image ["boot"; "setup"; "system"; "/dev/hd2"]%string demo_host Hs) as H.
  assert (Himg : match image_of demo_host ["boot"; "setup"; "system"; "/dev/hd2"]%string with
    | Some l => length l = 2563%nat /\ FsData.get16 l 508 = 0x302 /\ drop 2560 l = [7; 8; 9] | None => False end)
    by (vm_compute; split_and!; reflexivity).
  destruct (image_of demo_host ["boot"; "setup"; "system"; "/dev/hd2"]%string) as [img|]; [|done].
  destruct Himg as (Hlen & Hroot & Hsys).
  destruct H as [(w' & Hrun & Hout & _) _]; [unfold blen; rewrite Hlen; done|].
  exists w'. rewrite Hout. by split_and!.
Defined.
End BuildOk.
